(* ===== verification/_CoqProject ===== *)
-Q . S2P
Prelude.v
Bloques.v
Wire.v
Buffer.v
Tipos.v
Mensajes.v
Texto.v
Conexiones.v
Stick.v
Io.v
Swap.v
Memoria.v
MemoryIO.v
MemSwap.v
Procesos.v
Compactacion.v
MemScheduler.v
MemInv.v
MemSegmentos.v
MemSuspension.v
Indice.v
MemRefina.v
MemCpu.v
CpuMmu.v
CpuInstr.v
CpuCiclo.v
CpuCicloCorrecto.v
SchedTipos.v
SchedColas.v
SchedMutex.v
SchedMemoria.v
SchedIO.v
SchedCpu.v
SchedPlan.v
Configs.v
Legado.v
Sockets.v
Arranque.v
SchedInv.v
SchedInvOps.v
SchedInvFin.v
SchedSeguroOps.v
SchedSeguroMem.v
SchedSeguroIO.v
SchedSeguro.v
SchedSistema.v
SchedCorrecto.v
SchedVivacidad.v
SchedHerencia.v
SchedConserva.v
SchedExacta.v
SchedProtocolo.v
SchedDesalojo.v
SchedSyscalls.v
SchedDispositivo.v
Tardanza.v
Dialogo.v
Sistema.v
Salida.v
Juntos.v
Silencio.v
Corridas.v
Consola.v
