(* ===== verification/Prelude.v ===== *)
(** * PlugAndPlay: verification library (root file)

    A simulated operating system of six programs in C that talk over TCP. The
    library follows their code under [src/PlugAndPlay.main], function by function,
    and proves what makes each part correct, alone and in company of the others.

    ** The program and its files

    - [utils]: packets and messages. [Wire] ([serializacion.c], the transfer loops
      of [sockets.c]), [Tipos] ([utils.h]), [Mensajes] ([mensajes.c]), [Texto] (the
      C strings), [Buffer] (byte arrays by offset); [Legado] (the older packets of
      [sockets.c]).
    - Connections: [Sockets] (the descriptors of a process; servers, retries and
      accept loops of [sockets.c], [cpu_memory.c], [cpu_scheduler.c],
      [scheduler_conexiones.c], [memory_servidor.c], [utils_memory_stick.c]) and
      [Arranque] (the start of the modules that listen; [main.c] of the stick).
    - [memory_stick]: a buffer served over sockets. [Stick].
    - [swap]: a file of blocks. [Swap].
    - [kernel_memory]: segments over the RAM that the sticks form together.
      [Bloques] ([memory_bloques.c]), [Conexiones] ([memory_conexiones.c]),
      [Memoria] (the state of the process and its sockets), [MemoryIO]
      ([memory_io.c]), [MemSwap] ([memory_swap.c]), [Procesos]
      ([memory_procesos.c]), [Compactacion] ([memory_compactacion.c]),
      [MemScheduler] ([memory_scheduler.c]), [MemCpu] ([memory_cpu.c],
      [memory_servidor.c], [main.c]); proofs in [MemInv], [MemSegmentos],
      [MemSuspension], and the store it refines in [MemRefina], over maps by key
      ([Indice]).
    - [cpu]: [CpuMmu] ([cpu_types.h], [cpu_mmu.c], the sticks of [cpu_memory.c]),
      [CpuInstr] (the instructions of [cpu_ciclo.c]), [CpuCiclo] (its cycle, the
      listeners of [cpu_memory.c] and [cpu_scheduler.c]); proofs in
      [CpuCicloCorrecto].
    - [kernel_scheduler]: [SchedTipos] (the state), [SchedColas] (ready queues,
      CPU table, preemption: [utils_kernel_scheduler.c]), [SchedMutex]
      ([globalesKernelScheduler.c]), [SchedMemoria] ([memory_protocol.c],
      [crearProceso.c], BSOD), [SchedIO] ([colaIO.c],
      [planificadorMedianoPlazo.c]), [SchedCpu] (system calls, receptor of a CPU,
      handshakes), [SchedPlan] ([planificadorLargoPlazo.c],
      [planificadorCortoPlazo.c], the threads [main.c] starts); proofs in the
      other [Sched] files.
    - [io]: the device at the other end of an interface of the Scheduler. [Io]
      ([main.c], [io_conexiones.c]); [SchedDispositivo] runs both ends.
    - The Scheduler and Kernel Memory at the two ends of their socket: [Dialogo]
      (what a handler says and reads, as one step of both programs), [Sistema] (each
      exchange; [Salida], the reading of STDOUT), [Juntos] (the turns of the threads,
      and the theorems), [Silencio] (the turns that say nothing), [Corridas] (one
      turn after another, from the start of both), [Consola] (the I/O program as well).
    - The configuration of the five programs that read one: [Configs]
      ([scheduler_config.c], [memory_config.c], [memory_stick_config.c],
      [cpu_config.c], [io_configs.c]).

    The Scheduler creates processes in Kernel Memory and gives their pids to the
    CPUs; a CPU asks Kernel Memory for the context and the instructions, reads and
    writes the sticks directly, and gives the process back with a reason. Kernel
    Memory reads and writes the sticks and Swap, and pushes notifications to the
    Scheduler in the socket of its answers.

    ** How the code is modelled

    An operation is a function of the same name. Integers are [Z] with the
    wrap-around of their C type written out ([u8], [u32], [u64], [i32], [+u], [-u],
    [*u]). State is a record per process and the handlers are programs of a state
    monad over it: [ST] here (for Kernel Memory and the CPU; [None] is [abort()], a
    call that never returns or, in the CPU, a second [free]), [K] in [SchedTipos] (for the Scheduler, whose runs
    end in [Sigue], [Terminado] by [exit], [Abortado], [Bloqueado], [Trabado] or
    [Indefinido]). A pointer is an index, or the pid for a PCB, whose heap makes a
    use after [free] visible.

    A socket is the bytes that arrived on it, in the state, and the bytes sent,
    which the state accumulates. The devices behind the outbound sockets of Kernel
    Memory and of the CPU answer with the very servers of [Stick] and [Swap], so the
    theorems on reading, writing and suspension hold of both ends together.

    A handler is one step; the threads of a process interleave between handlers.
    Where a thread of the Scheduler waits in the middle of its work for another
    one to move (the worker of an interface, an expired suspension timer), it is
    two steps. A step that waits is [Bloqueado] and leaves the state as it was: it
    can be tried again. A mutex that a handler takes and gives back is not in the
    state; [mutex_lista_mutexes] is, because the code takes it twice: a step that
    finds it taken is stuck for ever, [Trabado], in the state it had reached. The
    reachable states of the theorems ([alcanzable]) are those of steps that end.

    ** What the theorems show

    - Messages: a sequence of messages of any kinds is read back as it was sent, and
      leaves nothing in the stream.
    - Devices: the server of a stick refines an array of bytes, that of Swap an
      array of blocks, that of an interface a console of lines, under any sequence
      of requests.
    - Connections: a module whose server appears connects to it, one descriptor per
      failed attempt; which errors of [accept] end a listener; what a stick
      announces when its server failed.
    - Kernel Memory, as a whole: under any session of requests it refines a store of
      segments ([almacen]) in which addresses, holes, sticks and compactions do not
      appear, and what was written is what is read. In detail: the free table
      refines the set of free addresses, through
      allocation (best and worst fit), release and merging; the sticks together are
      one flat array; compaction, suspension and de-suspension keep the contents of
      every segment; each handler answers as it should on every branch and keeps
      RAM shared out between the free table and the segments ([mem_inv]).
    - CPU: the translation reaches exactly the bytes of the segment, and the cycle
      carries out the run of the program until a result or an interrupt, and gives
      the process back once, with its context saved; a STDIN or a STDOUT with one
      parameter frees its array twice.
    - Scheduler, in every state its threads reach by turns that end, in any order, as
      long as the priorities asked for name a queue and pids do not run out
      ([alcanzable]): each
      process is in one place, the one its state names; no step has undefined
      behaviour; no wake-up is lost; who waits for a mutex waits for a live owner;
      who is suspended and ready is in swap; and the dynamic priority of a process is
      exactly the least of its own and of those of the processes that wait for its
      mutexes ([SchedConserva], [SchedExacta]), so there is no inversion. Of each
      operation: dispatch, preemption, order of the queues and of the mutexes, the
      notifications of Memory, suspension timers; and of a STDIN from end to end, the
      process suspended meanwhile or not.
    - The Scheduler and Kernel Memory together: a turn of a thread of the Scheduler
      that talks with Memory comes to its end, with Memory serving it, under the
      conditions of [habla] (nobody waits for a mutex of a process that may end, there
      is room in Swap, sizes fit), and both go on agreeing on the segments of every process and on who is in Swap
      ([acoplados]), and every turn that says nothing leaves that agreement alone
      ([acuerdo_en_silencio]), so that from the start of both they agree for any
      number of turns ([Corridas]); a MEM_ALLOC leaves the segment in both, or the
      process over in both. With the I/O program too: STDOUT prints the bytes Memory holds, STDIN
      leaves in Memory the line that was typed.
    - Configuration: the queues the loader describes are those start-up creates.
    - Errors: rollback of de-suspension, BSOD, a context saved with an old segment
      table ([contexto_viejo_pisa_a_otro]), and the two defects of the Scheduler
      proved as theorems, the deadlock at the end of the owner of an awaited mutex
      ([fin_de_duenio_no_vuelve]) and the PCB freed and still listed
      ([prioridad_fuera_de_rango_usa_pcb_liberado]); and an answer of Memory that comes
      after its time-out, which every later request then reads one late ([Tardanza]).

    ** Fuel, bounds and parameters

    Every loop the code does not bound by a counter takes fuel, and its theorem
    says it is enough: the bytes left in the stream for the servers and for the wait
    for an answer of Memory (each message takes at least one byte), the bytes asked
    for in the loops of [MemoryIO] and [CpuMmu] (each turn takes at least one), the
    blocks of a segment for its transfers, the length of the list for the loops by
    index, the number of processes for inheritance (each owner visited becomes more
    urgent: [propagar_herencia_termina]), the value of the semaphore for the wait
    for a CPU. The cycle of a CPU takes the number of
    turns, and the theorems on it give the turns the run needs.

    Of the C library, [atoi] is that of glibc (the standard leaves a number that is
    not an [int] undefined), and [qsort] a merge sort, as glibc's with its memory:
    of segments with the same base, which are of size 0 but one, it keeps the order.

    The functions that are not in the repository are arguments: [crear_conexion]
    with what it connects to, [string_split], [list_sort] and the getters of the
    commons library. Where a theorem needs a law of one (that sorting permutes), the law is
    a hypothesis, and its witness uses a concrete function.

    ** Not modelled

    Interleaving inside a handler; the time-outs of a receive and the length of a
    sleep (a timer expires whenever it likes); signals; logs, and the release of memory at exit; the failures of [malloc] of a size the
    program chooses, and of the disk.

    ** Plan

    Next: the determinism of an exchange, so that [Corridas] speaks of every outcome
    of a turn that talks with Memory and not of the one it is shown to reach; the
    interleaving inside the handlers of the Scheduler. *)

From Stdlib Require Export ZArith Lia Strings.Byte.
From stdpp Require Export base numbers list list_numbers gmap sorting.

#[export] Set Default Goal Selector "!".
Declare Scope u32_scope.
Delimit Scope u32_scope with u32.
#[global] Open Scope Z_scope.

(** ** Machine integers *)

(** A [uint32_t] (or a [uint8_t]) is a [Z] kept in range by the operations. *)
Definition u8 (z : Z) : Z := z mod 256.
Definition u32 (z : Z) : Z := z mod 4294967296.
Definition u64 (z : Z) : Z := z mod 18446744073709551616.

(** Conversion of a 32-bit pattern to a C [int] (two's complement). *)
Definition i32 (z : Z) : Z :=
  if u32 z <? 2147483648 then u32 z else u32 z - 4294967296.

(** Modular arithmetic, as C's unsigned operators. *)
Definition add32 (a b : Z) : Z := u32 (a + b).
Definition sub32 (a b : Z) : Z := u32 (a - b).
Definition mul32 (a b : Z) : Z := u32 (a * b).

(** [(uint32_t)-1], the code's "no value" sentinel. *)
Definition NEG1 : Z := 4294967295.

Definition es_u8 (z : Z) : Prop := 0 <= z < 256.
Definition es_u32 (z : Z) : Prop := 0 <= z < 4294967296.
Definition es_int (z : Z) : Prop := -2147483648 <= z < 2147483648.

Notation "a +u b" := (add32 a b) (at level 50, left associativity) : u32_scope.
Notation "a -u b" := (sub32 a b) (at level 50, left associativity) : u32_scope.
Notation "a *u b" := (mul32 a b) (at level 40, left associativity) : u32_scope.
#[global] Open Scope u32_scope.

(** ** State monad with abort

    [None] is a process that called [abort()], or a read of a value that was
    never received. *)
Definition ST (S A : Type) : Type := S -> option (A * S).
#[export] Instance ST_ret {S} : MRet (ST S) := fun A a s => Some (a, s).
#[export] Instance ST_bind {S} : MBind (ST S) :=
  fun A B f m s => match m s with Some (a, s') => f a s' | None => None end.
Definition st_get {S} : ST S S := fun s => Some (s, s).
Definition st_put {S} (s : S) : ST S unit := fun _ => Some (tt, s).
Definition st_mod {S} (f : S -> S) : ST S unit := fun s => Some (tt, f s).
Definition st_gets {S A} (f : S -> A) : ST S A := fun s => Some (f s, s).
Definition st_abort {S A} : ST S A := fun _ => None.

Definition st_lift {S A} (o : option A) : ST S A := fun s => (fun a => (a, s)) <$> o.

(** ** Lists: searching by index, as the [for] loops of the code do *)
Fixpoint indice_de {A} (f : A -> bool) (l : list A) : option nat :=
  match l with
  | [] => None
  | x :: l => if f x then Some O else S <$> indice_de f l
  end.

Fixpoint suma_Z (l : list Z) : Z :=
  match l with [] => 0 | x :: l => x + suma_Z l end.

(** Addresses [base .. base + tam). *)
Definition en_rango (base tam x : Z) : Prop := base <= x < base + tam.

(** Two address ranges that share no address. *)
Definition disjuntos (b1 t1 b2 t2 : Z) : Prop := b1 + t1 <= b2 \/ b2 + t2 <= b1.

(** ** Automation *)
Create HintDb u32.
#[export] Hint Unfold u8 u32 u64 add32 sub32 mul32 es_u8 es_u32 es_int NEG1
  en_rango disjuntos : u32.

(** Arithmetic with wrap-around: unfold the operators and hand [mod] to lia. *)
Ltac u32_lia :=
  autounfold with u32 in *; Z.to_euclidean_division_equations; lia.

(** Run one step of a state-monad program. *)
Ltac st_unfold :=
  unfold mbind, mret, ST_bind, ST_ret, st_get, st_put, st_mod, st_gets, st_abort in *.

(** Turn boolean comparisons in the context into propositions. *)
Ltac b2p :=
  repeat match goal with
  | H : (_ && _)%bool = true |- _ => apply andb_true_iff in H; destruct H
  | H : (_ || _)%bool = false |- _ => apply orb_false_iff in H; destruct H
  | H : (_ <? _) = true |- _ => apply Z.ltb_lt in H
  | H : (_ <? _) = false |- _ => apply Z.ltb_ge in H
  | H : (_ <=? _) = true |- _ => apply Z.leb_le in H
  | H : (_ <=? _) = false |- _ => apply Z.leb_gt in H
  | H : (_ =? _) = true |- _ => apply Z.eqb_eq in H
  | H : (_ =? _) = false |- _ => apply Z.eqb_neq in H
  end.

(** ** Generic lemmas *)

(** The first step of a run. *)
Lemma st_bind_ok {S A B} (x : ST S A) (k : A -> ST S B) (s : S) a s' :
  x s = Some (a, s') -> (x ≫= k) s = k a s'.
Proof. intros H. unfold mbind, ST_bind. by rewrite H. Qed.

Lemma u32_small z : es_u32 z -> u32 z = z.
Proof. unfold es_u32, u32; intros; apply Z.mod_small; lia. Qed.

Lemma u32_range z : es_u32 (u32 z).
Proof. unfold es_u32, u32; apply Z.mod_pos_bound; lia. Qed.

Lemma i32_u32 z : i32 (u32 z) = i32 z.
Proof. unfold i32, u32. by rewrite Z.mod_mod by lia. Qed.

Lemma i32_small z : es_int z -> i32 z = z.
Proof.
  unfold es_int, i32, u32; intros H.
  destruct (Z.ltb_spec (z mod 4294967296) 2147483648);
    Z.to_euclidean_division_equations; lia.
Qed.

Lemma add32_small a b : 0 <= a -> 0 <= b -> a + b < 4294967296 -> (a +u b) = a + b.
Proof. intros; unfold add32; apply u32_small; unfold es_u32; lia. Qed.

Lemma sub32_small a b : 0 <= b <= a -> a < 4294967296 -> (a -u b) = a - b.
Proof. intros; unfold sub32; apply u32_small; unfold es_u32; lia. Qed.

Create Rewrite HintDb largo.
#[export] Hint Rewrite @length_app @length_take @length_drop @length_replicate
  @length_cons : largo.

Lemma indice_de_Some {A} (f : A -> bool) l i :
  indice_de f l = Some i <->
  exists x, l !! i = Some x /\ f x = true /\ (forall j y, (j < i)%nat -> l !! j = Some y -> f y = false).
Proof.
  revert i; induction l as [|a l IH]; intros i; cbn.
  { split; [done|]. by intros (x & Hx & _). }
  destruct (f a) eqn:Ha.
  - split.
    + intros [= <-]. exists a. repeat split; [done|]. intros; lia.
    + intros (x & Hx & Hf & Hmin). destruct i; [done|].
      specialize (Hmin O a ltac:(lia) eq_refl). congruence.
  - rewrite fmap_Some. split.
    + intros (k & Hk & ->). apply IH in Hk as (x & Hx & Hf & Hmin).
      exists x. repeat split; [done..|]. intros [|j] y Hj Hy; cbn in Hy.
      * congruence.
      * eapply Hmin; [|done]. lia.
    + intros (x & Hx & Hf & Hmin). destruct i as [|i]; cbn in Hx; [congruence|].
      exists i; split; [|done]. apply IH. exists x. repeat split; [done..|].
      intros j y Hj Hy. apply (Hmin (S j) y); [lia|done].
Qed.

Lemma indice_de_None {A} (f : A -> bool) l :
  indice_de f l = None <-> (forall x, x ∈ l -> f x = false).
Proof.
  induction l as [|a l IH]; cbn.
  { split; [|done]. intros _ x Hx; inversion Hx. }
  destruct (f a) eqn:Ha.
  - split; [done|]. intros H. specialize (H a ltac:(left)). congruence.
  - rewrite fmap_None, IH. split; intros H x.
    + intros Hx; apply elem_of_cons in Hx as [->|Hx]; auto.
    + intros Hx; apply H; by right.
Qed.

Lemma suma_Z_app l1 l2 : suma_Z (l1 ++ l2) = suma_Z l1 + suma_Z l2.
Proof. induction l1; cbn [suma_Z app]; lia. Qed.

Lemma suma_Z_nonneg l : Forall (fun x => 0 <= x) l -> 0 <= suma_Z l.
Proof. induction 1; cbn [suma_Z]; lia. Qed.

(** A (symmetric) relation between every two elements of a list. *)
Fixpoint por_pares {A} (R : A -> A -> Prop) (l : list A) : Prop :=
  match l with
  | [] => True
  | x :: l => Forall (R x) l /\ por_pares R l
  end.

#[export] Instance por_pares_perm {A} (R : A -> A -> Prop) `{!Symmetric R} :
  Proper ((≡ₚ) ==> iff) (por_pares R).
Proof.
  intros l1 l2 Hp. induction Hp as [|x l1 l2 Hp IH|x y l|l1 l2 l3 _ IH1 _ IH2];
    cbn; [done| | |by etrans].
  - by rewrite IH, Hp.
  - rewrite !Forall_cons. assert (R x y <-> R y x) by (split; apply symmetry).
    tauto.
Qed.

Lemma por_pares_app {A} (R : A -> A -> Prop) l1 l2 :
  por_pares R (l1 ++ l2) <->
  por_pares R l1 /\ por_pares R l2 /\ Forall (fun x => Forall (R x) l2) l1.
Proof.
  induction l1 as [|x l1 IH]; cbn; [rewrite Forall_nil; tauto|].
  rewrite IH, Forall_app, Forall_cons. naive_solver.
Qed.

Lemma por_pares_impl {A} (R R' : A -> A -> Prop) l :
  (forall x y, x ∈ l -> y ∈ l -> R x y -> R' x y) -> por_pares R l -> por_pares R' l.
Proof.
  induction l as [|x l IH]; cbn; [done|]. intros H [H1 H2]. split.
  - rewrite Forall_forall in *. intros y Hy. apply H; [left|by right|auto].
  - apply IH; [|done]. intros a b Ha Hb. apply H; by right.
Qed.

Lemma delete_middle_perm {A} (l : list A) i x :
  l !! i = Some x -> l ≡ₚ x :: delete i l.
Proof. intros H. by apply delete_Permutation. Qed.
