(* ===== verification/Bloques.v ===== *)
(** * Bloques: the free-block table of Kernel Memory

    Models [kernel_memory/src/memory_bloques.c]: the list [bloques_libres] of
    free holes of the global physical space, first the operations in the order
    and with the loops of the C file, then the invariant of the table, and the
    refinement of every operation to the set of free addresses. *)

From stdpp Require Import strings.
From S2P Require Import Prelude.

(** ** Data *)

Record t_bloque_libre := Bloque { b_base : Z; b_tam : Z }.

#[export] Instance t_bloque_libre_eq_dec : EqDecision t_bloque_libre.
Proof. solve_decision. Defined.

(** ** Operations *)

(** [strncmp(allocation_strategy, "WORST", 5) == 0], with the NULL test. *)
Definition es_worst_fit (allocation_strategy : option string) : bool :=
  match allocation_strategy with
  | Some s => String.prefix "WORST" s
  | None => false
  end.

(** The scan of [bloques_asignar]: [mejor] is the pair ([mejor_idx],
    [mejor_tam]), [None] standing for [mejor_idx == -1]. *)
Fixpoint buscar_mejor (worst_fit : bool) (tamanio : Z) (l : list t_bloque_libre)
    (i : nat) (mejor : option (nat * Z)) : option (nat * Z) :=
  match l with
  | [] => mejor
  | b :: l =>
      let mejor' :=
        if b_tam b <? tamanio then mejor
        else match mejor with
             | None => Some (i, b_tam b)
             | Some (_, mejor_tam) =>
                 if negb worst_fit && (b_tam b <? mejor_tam) then Some (i, b_tam b)
                 else if worst_fit && (b_tam b >? mejor_tam) then Some (i, b_tam b)
                 else mejor
             end in
      buscar_mejor worst_fit tamanio l (S i) mejor'
  end.

(** Returns the base of the allocated range, or [(uint32_t)-1]. *)
Definition bloques_asignar (worst_fit : bool) (l : list t_bloque_libre)
    (tamanio : Z) : Z * list t_bloque_libre :=
  match buscar_mejor worst_fit tamanio l 0 None with
  | None => (NEG1, l)
  | Some (mejor_idx, _) =>
      match l !! mejor_idx with
      | None => (NEG1, l)
      | Some elegido =>
          if b_tam elegido =? tamanio then (b_base elegido, delete mejor_idx l)
          else (b_base elegido,
                <[mejor_idx := Bloque (b_base elegido +u tamanio) (b_tam elegido -u tamanio)]> l)
      end
  end.

(** The inner [for (j ...)] of the merge pass. *)
Fixpoint buscar_j (a : t_bloque_libre) (i j : nat) (l : list t_bloque_libre) : option nat :=
  match l with
  | [] => None
  | b :: l =>
      if (i =? j)%nat then buscar_j a i (S j) l
      else if (b_base a +u b_tam a) =? b_base b then Some j
      else buscar_j a i (S j) l
  end.

(** The outer [for (i ...)] of the merge pass. *)
Fixpoint buscar_i (todos : list t_bloque_libre) (i : nat) (l : list t_bloque_libre)
    : option (nat * nat) :=
  match l with
  | [] => None
  | a :: l =>
      match buscar_j a i 0 todos with
      | Some j => Some (i, j)
      | None => buscar_i todos (S i) l
      end
  end.

(** One iteration of [while (mergeado)]: [None] when nothing was merged. *)
Definition paso_fusion (l : list t_bloque_libre) : option (list t_bloque_libre) :=
  match buscar_i l 0 l with
  | None => None
  | Some (i, j) =>
      match l !! i, l !! j with
      | Some a, Some b =>
          Some (delete j (<[i := Bloque (b_base a) (b_tam a +u b_tam b)]> l))
      | _, _ => None
      end
  end.

(** The [while (mergeado)] loop; every iteration removes a block, so the length
    of the list is enough fuel ([fusionar_termina]). *)
Fixpoint fusionar (fuel : nat) (l : list t_bloque_libre) : list t_bloque_libre :=
  match fuel with
  | O => l
  | S fuel =>
      match paso_fusion l with
      | None => l
      | Some l' => fusionar fuel l'
      end
  end.

Definition bloques_liberar (l : list t_bloque_libre) (base tamanio : Z) : list t_bloque_libre :=
  let l := l ++ [Bloque base tamanio] in fusionar (length l) l.

Definition bloques_agregar (l : list t_bloque_libre) (base tamanio : Z) : list t_bloque_libre :=
  bloques_liberar l base tamanio.

Definition bloques_calcular_espacio_libre (l : list t_bloque_libre) : Z :=
  fold_left (fun total b => total +u b_tam b) l 0.

Definition bloques_reset_a_unico (base tamanio : Z) : list t_bloque_libre :=
  if tamanio >? 0 then [Bloque base tamanio] else [].

(** ** Abstract specification: the set of free addresses *)

Definition libre (l : list t_bloque_libre) (x : Z) : Prop :=
  exists b, b ∈ l /\ en_rango (b_base b) (b_tam b) x.

Definition total (l : list t_bloque_libre) : Z := suma_Z (b_tam <$> l).
Arguments total : simpl never.
Arguments libre : simpl never.

(** ** Invariants *)

(** Two blocks that share no address (an empty block shares none). *)
Definition ajenos (a b : t_bloque_libre) : Prop :=
  b_tam a = 0 \/ b_tam b = 0 \/ disjuntos (b_base a) (b_tam a) (b_base b) (b_tam b).

(** Two blocks that the merge pass has nothing to do with. *)
Definition separados (a b : t_bloque_libre) : Prop :=
  b_base a + b_tam a <> b_base b /\ b_base b + b_tam b <> b_base a.

(** A block inside a physical space of [lim] bytes; [lim] stays below the
    [(uint32_t)-1] that the code uses as a sentinel. *)
Definition bloque_en (lim : Z) (b : t_bloque_libre) : Prop :=
  0 <= b_base b /\ 0 <= b_tam b /\ b_base b + b_tam b <= lim /\ lim < NEG1.

(** The table: blocks in range and pairwise disjoint. *)
Definition bloques_ok (lim : Z) (l : list t_bloque_libre) : Prop :=
  Forall (bloque_en lim) l /\ por_pares ajenos l.

(** The table after a merge: no two blocks are contiguous. *)
Definition fusionados (l : list t_bloque_libre) : Prop := por_pares separados l.

Create HintDb bloques.
#[export] Hint Unfold ajenos separados bloque_en : bloques.
Ltac bloques_lia :=
  autounfold with bloques in *; autounfold with u32 in *; cbn [b_base b_tam] in *;
  Z.to_euclidean_division_equations; lia.

#[export] Instance ajenos_sym : Symmetric ajenos.
Proof. intros a b. bloques_lia. Qed.
#[export] Instance separados_sym : Symmetric separados.
Proof. intros a b. unfold separados. tauto. Qed.

(** The invariants and the abstraction see the table up to permutation. *)
#[export] Instance bloques_ok_perm lim : Proper ((≡ₚ) ==> iff) (bloques_ok lim).
Proof. intros l1 l2 H. unfold bloques_ok. by rewrite H. Qed.
#[export] Instance libre_perm : Proper ((≡ₚ) ==> (=) ==> iff) libre.
Proof. intros l1 l2 H x ? <-. unfold libre. by setoid_rewrite H. Qed.
#[export] Instance suma_Z_perm : Proper ((≡ₚ) ==> (=)) suma_Z.
Proof. induction 1; cbn [suma_Z]; lia. Qed.
#[export] Instance total_perm : Proper ((≡ₚ) ==> (=)) total.
Proof. intros l1 l2 H. unfold total. by rewrite H. Qed.

(** ** Helper lemmas *)

Lemma total_cons b l : total (b :: l) = b_tam b + total l.
Proof. done. Qed.

Lemma libre_cons b l x : libre (b :: l) x <-> en_rango (b_base b) (b_tam b) x \/ libre l x.
Proof. unfold libre. setoid_rewrite elem_of_cons. split; [|intros [?|(?&?&?)]; eauto].
  intros (b' & [->|?] & ?); eauto. Qed.

Lemma bloques_ok_cons lim b l :
  bloques_ok lim (b :: l) <-> bloque_en lim b /\ Forall (ajenos b) l /\ bloques_ok lim l.
Proof. unfold bloques_ok. cbn. rewrite Forall_cons. tauto. Qed.

Create Rewrite HintDb bloques.
#[export] Hint Rewrite total_cons libre_cons bloques_ok_cons : bloques.

(** *** The scan chooses the best (or worst) fit *)

(** [m] is the scan's result over the blocks seen so far ([pre]). *)
Definition mejor_de (worst_fit : bool) (tamanio : Z) (pre : list t_bloque_libre)
    (m : option (nat * Z)) : Prop :=
  match m with
  | None => forall b, b ∈ pre -> b_tam b < tamanio
  | Some (i, t) =>
      (exists e, pre !! i = Some e /\ b_tam e = t) /\ tamanio <= t /\
      forall b, b ∈ pre -> tamanio <= b_tam b ->
        if worst_fit then b_tam b <= t else t <= b_tam b
  end.

Lemma buscar_mejor_spec worst_fit tamanio l : forall pre m,
  mejor_de worst_fit tamanio pre m ->
  mejor_de worst_fit tamanio (pre ++ l)
    (buscar_mejor worst_fit tamanio l (length pre) m).
Proof.
  induction l as [|b l IH]; intros pre m Hm; cbn [buscar_mejor].
  { by rewrite app_nil_r. }
  change (b :: l) with ([b] ++ l). rewrite app_assoc.
  replace (S (length pre)) with (length (pre ++ [b])) by (rewrite length_app; cbn; lia).
  apply IH. clear IH.
  assert (Hlast : (pre ++ [b]) !! length pre = Some b) by (by rewrite lookup_app_r, Nat.sub_diag).
  assert (Hold : forall i e, pre !! i = Some e -> (pre ++ [b]) !! i = Some e)
    by (intros; by apply lookup_app_l_Some).
  destruct (b_tam b <? tamanio) eqn:Hfit; b2p.
  - destruct m as [[i t]|]; cbn in *.
    + destruct Hm as ((e & He & <-) & Ht & Hall). repeat split; eauto.
      intros c [Hc| ->%list_elem_of_singleton]%elem_of_app; [by apply Hall|lia].
    + intros c [Hc| ->%list_elem_of_singleton]%elem_of_app; auto.
  - destruct m as [[i t]|]; cbn in Hm.
    + destruct Hm as ((e & He & <-) & Ht & Hall).
      destruct worst_fit; cbn.
      * destruct (Z.gtb_spec (b_tam b) (b_tam e)); cbn; repeat split; eauto; try lia;
          intros c [Hc| ->%list_elem_of_singleton]%elem_of_app Hct; try lia;
          specialize (Hall c Hc Hct); cbn in Hall; lia.
      * destruct (Z.ltb_spec (b_tam b) (b_tam e)); cbn; repeat split; eauto; try lia;
          intros c [Hc| ->%list_elem_of_singleton]%elem_of_app Hct; try lia;
          specialize (Hall c Hc Hct); cbn in Hall; lia.
    + cbn. repeat split; eauto.
      intros c [Hc| ->%list_elem_of_singleton]%elem_of_app Hct; [specialize (Hm c Hc); lia|].
      destruct worst_fit; lia.
Qed.

(** What [bloques_asignar] does, on both branches. *)
Lemma bloques_asignar_cases worst_fit l tamanio :
  (bloques_asignar worst_fit l tamanio = (NEG1, l) /\ forall b, b ∈ l -> b_tam b < tamanio) \/
  exists i e, l !! i = Some e /\ tamanio <= b_tam e /\
    (forall b, b ∈ l -> tamanio <= b_tam b ->
       if worst_fit then b_tam b <= b_tam e else b_tam e <= b_tam b) /\
    bloques_asignar worst_fit l tamanio =
      (b_base e,
       if b_tam e =? tamanio then delete i l
       else <[i := Bloque (b_base e +u tamanio) (b_tam e -u tamanio)]> l).
Proof.
  pose proof (buscar_mejor_spec worst_fit tamanio l [] None) as H.
  unfold bloques_asignar. cbn [length app] in H.
  destruct (buscar_mejor _ _ _ _ _) as [[i t]|]; cbn in H.
  - right. destruct H as ((e & He & <-) & Ht & Hall); [set_solver|].
    exists i, e. rewrite He. repeat split; try done. by destruct (_ =? _).
  - left. split; [done|]. apply H. set_solver.
Qed.

Lemma libre_perm_iff l1 l2 x : l1 ≡ₚ l2 -> libre l1 x <-> libre l2 x.
Proof. intros H. by rewrite H. Qed.

Lemma bloques_ok_disjoint lim b l x :
  bloques_ok lim (b :: l) -> en_rango (b_base b) (b_tam b) x -> ~ libre l x.
Proof.
  rewrite bloques_ok_cons. intros (_ & Haj & _) Hx (c & Hc & Hcx).
  rewrite Forall_forall in Haj. specialize (Haj c Hc). bloques_lia.
Qed.

Lemma insert_perm {A} (l : list A) i x y :
  l !! i = Some x -> <[i := y]> l ≡ₚ y :: delete i l.
Proof.
  intros H. rewrite (delete_Permutation (<[i:=y]> l) i y).
  - f_equiv. clear H. revert i. induction l as [|a l IH]; intros [|i]; cbn; [done..|].
    by f_equiv.
  - apply list_lookup_insert_eq. by apply lookup_lt_Some in H.
Qed.

(** The table after an allocation, up to permutation: the chosen block [e] is
    replaced by its tail (or removed when it fits exactly). *)
Lemma asignar_resto_ok lim l r e tamanio :
  l ≡ₚ e :: r -> bloques_ok lim l -> 0 <= tamanio <= b_tam e ->
  let l' := if b_tam e =? tamanio then r
            else Bloque (b_base e +u tamanio) (b_tam e -u tamanio) :: r in
  bloques_ok lim l' /\ total l' = total l - tamanio /\
  forall x, libre l' x <-> libre l x /\ ~ en_rango (b_base e) tamanio x.
Proof.
  intros Hp Hok Ht. rewrite Hp in Hok.
  assert (Hx : forall x, en_rango (b_base e) (b_tam e) x -> ~ libre r x)
    by (intros x; by apply (bloques_ok_disjoint lim)).
  cbn zeta. setoid_rewrite (libre_perm_iff _ _ _ Hp). rewrite (total_perm _ _ Hp).
  rewrite bloques_ok_cons in Hok. destruct Hok as (He & Haj & Hok).
  destruct (b_tam e =? tamanio) eqn:Heq; b2p.
  - split; [done|]. rewrite total_cons. split; [lia|]. intros x. rewrite libre_cons, <-Heq.
    specialize (Hx x). tauto.
  - rewrite add32_small, sub32_small by bloques_lia.
    rewrite bloques_ok_cons, !total_cons; cbn [b_tam].
    split; [split; [bloques_lia|split; [|done]]|split; [lia|]].
    + rewrite Forall_forall in *. intros c Hc. specialize (Haj c Hc). bloques_lia.
    + intros x. rewrite !libre_cons; cbn [b_tam b_base]. specialize (Hx x). split.
      * intros [H|H]; [split; [left|]; bloques_lia|]. split; [by right|].
        intros Hr. apply Hx; [bloques_lia|done].
      * intros [[H|H] Hn]; [left; bloques_lia|by right].
Qed.

(** *** The merge pass *)

Lemma buscar_j_Some a i j0 l j :
  buscar_j a i j0 l = Some j ->
  exists b, l !! (j - j0)%nat = Some b /\ (j0 <= j)%nat /\ i <> j /\ (b_base a +u b_tam a) = b_base b.
Proof.
  revert j0. induction l as [|b l IH]; intros j0; cbn; [done|].
  assert (Hrec : buscar_j a i (S j0) l = Some j ->
    exists b0, (b :: l) !! (j - j0)%nat = Some b0 /\ (j0 <= j)%nat /\ i <> j /\
               (b_base a +u b_tam a) = b_base b0).
  { intros (c & Hc & ? & ? & ?)%IH. exists c. split; [|split; [lia|done]].
    by replace (j - j0)%nat with (S (j - S j0)) by lia. }
  destruct (Nat.eqb_spec i j0); [done|]. destruct (_ =? _) eqn:He; [|done].
  intros [= ->]. b2p. exists b. rewrite Nat.sub_diag. repeat split; auto.
Qed.

Lemma buscar_j_None a i j0 l :
  buscar_j a i j0 l = None ->
  forall k b, l !! k = Some b -> (j0 + k)%nat <> i -> (b_base a +u b_tam a) <> b_base b.
Proof.
  revert j0. induction l as [|b l IH]; intros j0; cbn; [done|].
  intros H [|k] c Hk Hne; cbn in Hk.
  - injection Hk as <-. destruct (Nat.eqb_spec i j0); [lia|].
    destruct (_ =? _) eqn:He; [done|]. by b2p.
  - apply (IH (S j0)) with (k := k); [|done|lia].
    destruct (i =? j0)%nat; [done|]. by destruct (_ =? _).
Qed.

Lemma buscar_i_spec todos i0 l :
  match buscar_i todos i0 l with
  | Some (i, j) => exists a, l !! (i - i0)%nat = Some a /\ (i0 <= i)%nat /\ buscar_j a i 0 todos = Some j
  | None => forall k a, l !! k = Some a -> buscar_j a (i0 + k) 0 todos = None
  end.
Proof.
  revert i0. induction l as [|a l IH]; intros i0; cbn; [done|].
  destruct (buscar_j a i0 0 todos) as [j|] eqn:Hj.
  - exists a. rewrite Nat.sub_diag. auto.
  - specialize (IH (S i0)). destruct (buscar_i todos (S i0) l) as [[i j]|].
    + destruct IH as (c & Hc & ? & ?). exists c. split; [|split; [lia|done]].
      by replace (i - i0)%nat with (S (i - S i0)) by lia.
    + intros [|k] c Hk; cbn in Hk; [injection Hk as <-; by rewrite Nat.add_0_r|].
      replace (i0 + S k)%nat with (S i0 + k)%nat by lia. by apply IH.
Qed.

(** A merge step takes two contiguous blocks out and puts their union in. *)
Lemma paso_fusion_Some l l' :
  paso_fusion l = Some l' ->
  exists a b r, l ≡ₚ a :: b :: r /\ (b_base a +u b_tam a) = b_base b /\
    l' ≡ₚ Bloque (b_base a) (b_tam a +u b_tam b) :: r.
Proof.
  unfold paso_fusion. pose proof (buscar_i_spec l 0 l) as Hs.
  destruct (buscar_i l 0 l) as [[i j]|]; [|done].
  destruct Hs as (a & Ha & _ & (b & Hb & _ & Hij & Heq)%buscar_j_Some).
  rewrite Nat.sub_0_r in Ha, Hb. rewrite Ha, Hb. intros [= <-].
  set (m := Bloque _ (_ +u _)).
  assert (Hbj : delete i l !! (if (i <? j)%nat then pred j else j) = Some b).
  { destruct (Nat.ltb_spec i j).
    - rewrite list_lookup_delete_ge by lia. by replace (S (pred j)) with j by lia.
    - by rewrite list_lookup_delete_lt by lia. }
  exists a, b, (delete (if (i <? j)%nat then pred j else j) (delete i l)).
  assert (Hl : l ≡ₚ a :: b :: delete (if (i <? j)%nat then pred j else j) (delete i l)).
  { rewrite <-(delete_Permutation _ _ _ Hbj). by apply delete_Permutation. }
  split; [done|]. split; [done|].
  assert (Hins : <[i:=m]> l ≡ₚ m :: b :: delete (if (i <? j)%nat then pred j else j) (delete i l)).
  { rewrite (insert_perm _ _ _ _ Ha). by rewrite <-(delete_Permutation _ _ _ Hbj). }
  assert (Hbm : <[i:=m]> l !! j = Some b) by (by rewrite list_lookup_insert_ne).
  apply (Permutation_cons_inv (a := b)).
  rewrite <-(delete_Permutation _ _ _ Hbm), Hins. by constructor.
Qed.

Lemma paso_fusion_length l l' : paso_fusion l = Some l' -> length l = S (length l').
Proof.
  intros (a & b & r & Hl & _ & Hl')%paso_fusion_Some.
  by rewrite (Permutation_length Hl), (Permutation_length Hl').
Qed.

Lemma buscar_i_range todos i0 l i j :
  buscar_i todos i0 l = Some (i, j) -> is_Some (todos !! j).
Proof.
  pose proof (buscar_i_spec todos i0 l) as H. intros E; rewrite E in H.
  destruct H as (a & _ & _ & (b & Hb & _)%buscar_j_Some). by rewrite Nat.sub_0_r in Hb.
Qed.

(** [mergeado == false]: no block ends where another one starts. *)
Lemma paso_fusion_None l :
  paso_fusion l = None ->
  forall i j a b, i <> j -> l !! i = Some a -> l !! j = Some b -> (b_base a +u b_tam a) <> b_base b.
Proof.
  unfold paso_fusion. pose proof (buscar_i_spec l 0 l) as Hs.
  destruct (buscar_i l 0 l) as [[i j]|] eqn:Hi.
  - apply buscar_i_range in Hi as [b Hb]. destruct Hs as (a & Ha & _).
    rewrite Nat.sub_0_r in Ha. by rewrite Ha, Hb.
  - intros _ i j a b Hij Ha Hb. specialize (Hs i a Ha).
    apply (buscar_j_None _ _ _ _ Hs) with (k := j); [done|lia].
Qed.

Lemma fusionar_termina l : forall fuel, (length l <= fuel)%nat -> paso_fusion (fusionar fuel l) = None.
Proof.
  intros fuel. revert l. induction fuel as [|fuel IH]; intros l Hl; cbn.
  { by destruct l; [|cbn in Hl; lia]. }
  destruct (paso_fusion l) as [l'|] eqn:Hp; [|done].
  apply IH. apply paso_fusion_length in Hp. lia.
Qed.

(** One merge keeps the invariant, the free addresses and the total. *)
Lemma paso_fusion_ok lim l l' :
  bloques_ok lim l -> paso_fusion l = Some l' ->
  bloques_ok lim l' /\ total l' = total l /\ forall x, libre l' x <-> libre l x.
Proof.
  intros Hok (a & b & r & Hl & Hab & Hl')%paso_fusion_Some.
  rewrite (total_perm _ _ Hl), (total_perm _ _ Hl').
  setoid_rewrite (libre_perm_iff _ _ _ Hl). setoid_rewrite (libre_perm_iff _ _ _ Hl').
  rewrite Hl in Hok. rewrite Hl'. clear l l' Hl Hl'.
  rewrite !bloques_ok_cons, Forall_cons in Hok.
  destruct Hok as (Ha & (Hajb & Har) & Hb & Hbr & Hr).
  assert (Hend : b_base a + b_tam a = b_base b) by (clear Hajb Har Hbr; bloques_lia).
  assert (Hsum : (b_tam a +u b_tam b) = b_tam a + b_tam b)
    by (apply add32_small; clear Hajb Har Hbr; bloques_lia).
  rewrite Hsum, bloques_ok_cons, !total_cons; cbn [b_tam].
  split; [split; [|split; [|done]]|split; [lia|]].
  - clear Hajb Har Hbr; bloques_lia.
  - rewrite Forall_forall in *. intros c Hc. specialize (Har c Hc). specialize (Hbr c Hc).
    destruct Hr as [Hr _]. rewrite Forall_forall in Hr. specialize (Hr c Hc). bloques_lia.
  - intros x. rewrite !libre_cons; cbn [b_tam b_base].
    enough (en_rango (b_base a) (b_tam a + b_tam b) x <->
            en_rango (b_base a) (b_tam a) x \/ en_rango (b_base b) (b_tam b) x) by tauto.
    clear Hajb Har Hbr. bloques_lia.
Qed.

Lemma fusionar_ok lim fuel : forall l, bloques_ok lim l ->
  bloques_ok lim (fusionar fuel l) /\ total (fusionar fuel l) = total l /\
  forall x, libre (fusionar fuel l) x <-> libre l x.
Proof.
  induction fuel as [|fuel IH]; intros l Hok; cbn; [by auto|].
  destruct (paso_fusion l) as [l'|] eqn:Hp; [|by auto].
  destruct (paso_fusion_ok _ _ _ Hok Hp) as (Hok' & Ht & Hlib).
  destruct (IH l' Hok') as (Hok'' & Ht' & Hlib').
  split; [done|]. split; [by etrans|]. intros x. by rewrite Hlib', Hlib.
Qed.

Lemma por_pares_lookup {A} (R : A -> A -> Prop) l :
  (forall i j a b, (i < j)%nat -> l !! i = Some a -> l !! j = Some b -> R a b) -> por_pares R l.
Proof.
  induction l as [|x l IH]; cbn; [done|]. intros H. split.
  - rewrite Forall_lookup. intros j b Hb. apply (H O (S j)); [lia|done..].
  - apply IH. intros i j a b Hij Ha Hb. apply (H (S i) (S j)); [lia|done..].
Qed.

Lemma paso_fusion_None_fusionados lim l :
  bloques_ok lim l -> paso_fusion l = None -> fusionados l.
Proof.
  intros [Hr _] Hp. apply por_pares_lookup. intros i j a b Hij Ha Hb.
  assert (H1 := paso_fusion_None _ Hp i j a b ltac:(lia) Ha Hb).
  assert (H2 := paso_fusion_None _ Hp j i b a ltac:(lia) Hb Ha).
  rewrite Forall_lookup in Hr. apply Hr in Ha, Hb.
  rewrite add32_small in H1, H2 by bloques_lia. done.
Qed.

(** A range that can be given back to the table: inside the space and used. *)
Definition ocupado (lim : Z) (l : list t_bloque_libre) (base tamanio : Z) : Prop :=
  bloque_en lim (Bloque base tamanio) /\ forall x, en_rango base tamanio x -> ~ libre l x.

Lemma ajeno_iff a b :
  0 <= b_tam a -> 0 <= b_tam b ->
  ajenos a b <-> forall x, en_rango (b_base a) (b_tam a) x -> ~ en_rango (b_base b) (b_tam b) x.
Proof.
  intros Ha Hb. split; [intros H x; bloques_lia|]. intros H.
  pose proof (H (b_base a)). pose proof (H (b_base b)). bloques_lia.
Qed.

Lemma ocupado_ok lim l base tamanio :
  bloques_ok lim l -> ocupado lim l base tamanio ->
  bloques_ok lim (l ++ [Bloque base tamanio]).
Proof.
  intros Hok [Hb Hx]. rewrite <-Permutation_cons_append, bloques_ok_cons.
  split; [done|]. split; [|done]. rewrite Forall_forall. intros c Hc.
  destruct Hok as [Hr _]. rewrite Forall_forall in Hr. specialize (Hr c Hc).
  apply ajeno_iff; [bloques_lia..|]. cbn [b_base b_tam]. intros x Hx1 Hx2.
  apply (Hx x Hx1). by exists c.
Qed.

(** Everything [bloques_liberar] does (the properties below are read off it). *)
Lemma bloques_liberar_ok lim l base tamanio :
  bloques_ok lim l -> ocupado lim l base tamanio ->
  let l' := bloques_liberar l base tamanio in
  bloques_ok lim l' /\ fusionados l' /\ total l' = total l + tamanio /\
  forall x, libre l' x <-> libre l x \/ en_rango base tamanio x.
Proof.
  intros Hok Hoc. pose proof (ocupado_ok _ _ _ _ Hok Hoc) as Hok1. unfold bloques_liberar.
  destruct (fusionar_ok lim (length (l ++ [Bloque base tamanio])) _ Hok1) as (Hok2 & Ht & Hlib).
  split; [done|]. split; [|split].
  - eapply paso_fusion_None_fusionados; [done|]. by apply fusionar_termina.
  - rewrite Ht. rewrite <-Permutation_cons_append, total_cons. cbn [b_tam]. lia.
  - intros x. rewrite Hlib. rewrite <-Permutation_cons_append, libre_cons. cbn. tauto.
Qed.

(** The allocator's outcome, with the invariant and the abstraction. *)
Lemma bloques_asignar_ok worst_fit lim l tamanio base l' :
  bloques_ok lim l -> 0 <= tamanio -> bloques_asignar worst_fit l tamanio = (base, l') ->
  base <> NEG1 ->
  bloques_ok lim l' /\ total l' = total l - tamanio /\
  bloque_en lim (Bloque base tamanio) /\ (forall x, en_rango base tamanio x -> libre l x) /\
  (forall x, libre l' x <-> libre l x /\ ~ en_rango base tamanio x).
Proof.
  intros Hok Ht Ha Hne.
  destruct (bloques_asignar_cases worst_fit l tamanio) as [[H _]|(i & e & He & Hte & _ & H)].
  { rewrite Ha in H. congruence. }
  rewrite H in Ha. injection Ha as <- <-.
  pose proof (delete_Permutation _ _ _ He) as Hp.
  destruct (asignar_resto_ok lim l _ e tamanio Hp Hok ltac:(lia)) as (Hok' & Htot & Hlib).
  set (l' := if b_tam e =? tamanio then delete i l
             else <[i:=Bloque (b_base e +u tamanio) (b_tam e -u tamanio)]> l) in *.
  assert (Hl' : l' ≡ₚ if b_tam e =? tamanio then delete i l
    else Bloque (b_base e +u tamanio) (b_tam e -u tamanio) :: delete i l).
  { unfold l'. destruct (_ =? _); [done|]. by eapply insert_perm. }
  rewrite Hl'. split; [done|]. split; [done|].
  assert (He' : e ∈ l) by (by eapply list_elem_of_lookup_2). destruct Hok as [Hr _]. rewrite Forall_forall in Hr.
  specialize (Hr e He'). split; [bloques_lia|].
  split; [|intros x; by rewrite ?(libre_perm_iff _ _ _ Hl')].
  intros x Hx. exists e. split; [done|]. bloques_lia.
Qed.

Lemma bloques_agregar_ok lim l base tamanio :
  bloques_ok lim l -> ocupado lim l base tamanio ->
  let l' := bloques_agregar l base tamanio in
  bloques_ok lim l' /\ fusionados l' /\ total l' = total l + tamanio /\
  forall x, libre l' x <-> libre l x \/ en_rango base tamanio x.
Proof. apply bloques_liberar_ok. Qed.

Lemma total_le lim l : bloques_ok lim l -> 0 <= total l.
Proof.
  intros [Hr _]. unfold total. induction Hr as [|b l Hb Hr IH]; cbn; [lia|].
  unfold bloque_en in Hb. lia.
Qed.

(** The running sum of [bloques_calcular_espacio_libre] is the total, mod 2^32. *)
Lemma espacio_libre_acc l acc :
  fold_left (fun total b => total +u b_tam b) l (u32 acc) = u32 (acc + total l).
Proof.
  revert acc. induction l as [|b l IH]; intros acc; cbn [fold_left].
  { by rewrite Z.add_0_r. }
  replace (u32 acc +u b_tam b) with (u32 (acc + b_tam b)).
  - rewrite IH, total_cons. f_equal. lia.
  - unfold add32, u32. by rewrite Zplus_mod_idemp_l.
Qed.

Lemma espacio_libre_total l : bloques_calcular_espacio_libre l = u32 (total l).
Proof. apply (espacio_libre_acc l 0). Qed.

(** The free addresses, listed: as many as the total, each once. *)
Definition direcciones (l : list t_bloque_libre) : list Z :=
  l ≫= fun b => seqZ (b_base b) (b_tam b).

Lemma elem_of_direcciones l x : x ∈ direcciones l <-> libre l x.
Proof.
  unfold direcciones, libre. rewrite list_elem_of_bind. setoid_rewrite elem_of_seqZ.
  unfold en_rango. naive_solver.
Qed.

Lemma direcciones_NoDup lim l : bloques_ok lim l -> NoDup (direcciones l).
Proof.
  induction l as [|b l IH]; intros Hok; cbn; [constructor|].
  apply NoDup_app. split; [apply NoDup_seqZ|]. split.
  - intros x Hx%elem_of_seqZ Hl. apply (bloques_ok_disjoint lim b l x Hok); [done|].
    by apply elem_of_direcciones.
  - apply IH. by apply bloques_ok_cons in Hok as (_ & _ & ?).
Qed.

Lemma direcciones_length lim l : bloques_ok lim l -> Z.of_nat (length (direcciones l)) = total l.
Proof.
  intros [Hr _]. induction Hr as [|b l Hb Hr IH]; [done|].
  rewrite total_cons. unfold direcciones in *. cbn.
  rewrite length_app, length_seqZ, Nat2Z.inj_add, IH. unfold bloque_en in Hb. lia.
Qed.

(** Pairwise disjoint blocks below [lim] do not add up to more than [lim]. *)
Lemma total_bound lim l : bloques_ok lim l -> 0 <= lim -> total l <= lim.
Proof.
  intros Hok Hlim. rewrite <-(direcciones_length lim l Hok).
  assert (Hs : direcciones l ⊆+ seqZ 0 lim).
  { apply NoDup_submseteq; [by eapply direcciones_NoDup|].
    intros x (b & Hb & Hx)%elem_of_direcciones. apply elem_of_seqZ.
    destruct Hok as [Hr _]. rewrite Forall_forall in Hr. specialize (Hr b Hb). bloques_lia. }
  apply submseteq_length in Hs. rewrite length_seqZ in Hs. lia.
Qed.

(** When every address below [lim] is free, the merged table is one block. *)
Lemma fusionados_completo lim l :
  bloques_ok lim l -> fusionados l -> Forall (fun b => 0 < b_tam b) l -> 0 < lim ->
  (forall x, en_rango 0 lim x -> libre l x) -> l = [Bloque 0 lim].
Proof.
  intros Hok Hf Hpos Hlim Hall.
  destruct (Hall 0 ltac:(unfold en_rango; lia)) as (b & Hb & Hb0).
  assert (Hp : exists r, l ≡ₚ b :: r).
  { apply list_elem_of_lookup in Hb as [i Hb]. eexists. by apply delete_Permutation. }
  destruct Hp as [r Hp].
  rewrite Hp in Hok. unfold fusionados in Hf. rewrite Hp in Hf, Hpos.
  destruct Hf as [Hsep _]. apply bloques_ok_cons in Hok as (Hbr & Haj & [Hr _]).
  apply Forall_cons in Hpos as [Hb1 Hpos].
  rewrite Forall_forall in Hsep, Haj, Hr, Hpos.
  assert (Hbase : b_base b = 0) by bloques_lia.
  assert (Hfull : b_tam b = lim).
  { destruct (Z.eq_dec (b_tam b) lim) as [|Hne]; [done|exfalso].
    destruct (Hall (b_tam b)) as (c & Hc & Hcx); [clear Hsep Haj Hr Hpos; bloques_lia|].
    rewrite Hp in Hc. apply elem_of_cons in Hc as [->|Hc].
    - clear Hsep Haj Hr Hpos; bloques_lia.
    - specialize (Hsep c Hc). specialize (Haj c Hc). specialize (Hr c Hc). specialize (Hpos c Hc).
      bloques_lia. }
  destruct r as [|c r].
  - apply Permutation_singleton_r in Hp as ->. destruct b; cbn in *; congruence.
  - exfalso. specialize (Haj c ltac:(left)). specialize (Hr c ltac:(left)).
    specialize (Hpos c ltac:(left)). clear Hsep. bloques_lia.
Qed.

(** ** Properties *)

(** Functional correctness of [bloques_asignar]: the sentinel
    [(uint32_t)-1] comes back exactly when no hole is large enough, and then the
    table is untouched; otherwise the range is cut from the start of a hole that
    is the smallest (Best Fit) or the largest (Worst Fit) of those that are
    large enough, the invariant is kept, and precisely the addresses of the
    range stop being free. *)
Theorem bloques_asignar_correcto worst_fit lim l tamanio base l' :
  bloques_ok lim l -> 0 <= tamanio ->
  bloques_asignar worst_fit l tamanio = (base, l') ->
  (base = NEG1 <-> forall b, b ∈ l -> b_tam b < tamanio) /\
  (base = NEG1 -> l' = l) /\
  (base <> NEG1 ->
     (exists e, e ∈ l /\ base = b_base e /\ tamanio <= b_tam e /\
        forall b, b ∈ l -> tamanio <= b_tam b ->
          if worst_fit then b_tam b <= b_tam e else b_tam e <= b_tam b) /\
     bloques_ok lim l' /\ total l' = total l - tamanio /\
     forall x, libre l' x <-> libre l x /\ ~ en_rango base tamanio x).
Proof.
  intros Hok Ht Ha.
  destruct (bloques_asignar_cases worst_fit l tamanio)
    as [[H Hno]|(i & e & He%list_elem_of_lookup_2 & Hte & Hopt & H)];
    rewrite Ha in H; injection H as -> ->.
  - split; [done|]. by split.
  - assert (Hne : b_base e <> NEG1).
    { destruct Hok as [Hr _]. rewrite Forall_forall in Hr. specialize (Hr e He). bloques_lia. }
    split; [split; [done|]|split; [done|]].
    { intros Hno. specialize (Hno e He). lia. }
    intros _. split; [by exists e|].
    destruct (bloques_asignar_ok _ lim _ _ _ _ Hok Ht Ha Hne) as (? & ? & _ & _ & ?). done.
Qed.

(** C35: [bloques_liberar] refines set union: giving back a used range makes
    exactly its addresses free, keeps the blocks disjoint and in range, adds its
    size to the total, and leaves no two contiguous blocks (the merge loop runs
    to its end, whatever the order of the table). *)
Theorem bloques_liberar_refina lim l base tamanio :
  bloques_ok lim l -> ocupado lim l base tamanio ->
  bloques_ok lim (bloques_liberar l base tamanio) /\
  fusionados (bloques_liberar l base tamanio) /\
  total (bloques_liberar l base tamanio) = total l + tamanio /\
  (forall x, libre (bloques_liberar l base tamanio) x <-> libre l x \/ en_rango base tamanio x).
Proof. apply bloques_liberar_ok. Qed.

(** Freeing what was just allocated restores the table up to its layout: the
    free addresses and the free total reported by
    [bloques_calcular_espacio_libre] are those from before the allocation. *)
Theorem asignar_liberar_ida_vuelta worst_fit lim l tamanio base l' :
  bloques_ok lim l -> 0 <= tamanio ->
  bloques_asignar worst_fit l tamanio = (base, l') -> base <> NEG1 ->
  bloques_ok lim (bloques_liberar l' base tamanio) /\
  (forall x, libre (bloques_liberar l' base tamanio) x <-> libre l x) /\
  bloques_calcular_espacio_libre (bloques_liberar l' base tamanio) =
  bloques_calcular_espacio_libre l.
Proof.
  intros Hok Ht Ha Hne.
  destruct (bloques_asignar_ok _ lim _ _ _ _ Hok Ht Ha Hne) as (Hok' & Htot & Hen & Hsub & Hlib).
  assert (Hoc : ocupado lim l' base tamanio) by (split; [done|]; intros x Hx Hx'; apply Hlib in Hx'; tauto).
  destruct (bloques_liberar_ok _ _ _ _ Hok' Hoc) as (Hok2 & _ & Htot2 & Hlib2).
  split; [done|]. split.
  - intros x. rewrite Hlib2, Hlib. assert (en_rango base tamanio x \/ ~ en_rango base tamanio x)
      by (unfold en_rango; lia). specialize (Hsub x). tauto.
  - rewrite !espacio_libre_total, Htot2, Htot. f_equal. lia.
Qed.

(** No fragmentation survives when all the memory is given back: if the
    range returned is the last used one of a space of [lim] bytes (and the table
    has no empty holes), the table becomes the single block [0, lim), and its
    reported free space is [lim]. *)
Theorem bloques_liberar_todo lim l base tamanio :
  bloques_ok lim l -> ocupado lim l base tamanio -> 0 < lim ->
  Forall (fun b => 0 < b_tam b) (bloques_liberar l base tamanio) ->
  (forall x, en_rango 0 lim x -> libre l x \/ en_rango base tamanio x) ->
  bloques_liberar l base tamanio = [Bloque 0 lim] /\
  bloques_calcular_espacio_libre (bloques_liberar l base tamanio) = lim.
Proof.
  intros Hok Hoc Hlim Hpos Hall.
  destruct (bloques_liberar_ok _ _ _ _ Hok Hoc) as (Hok2 & Hf & _ & Hlib2).
  assert (Heq : bloques_liberar l base tamanio = [Bloque 0 lim]).
  { apply fusionados_completo; try done. intros x Hx. by apply Hlib2, Hall. }
  split; [done|]. rewrite Heq. destruct Hoc as [Hb _]. cbn. clear -Hlim Hb.
  unfold bloque_en in Hb. unfold add32. rewrite Z.add_0_l. apply u32_small. u32_lia.
Qed.

(** ** Witnesses *)

(** Three holes of 8, 4 and 6 bytes in a space of 32. *)
Definition huecos : list t_bloque_libre := [Bloque 0 8; Bloque 10 4; Bloque 20 6].

Lemma bloques_ok_nil lim : bloques_ok lim [] <-> True.
Proof. split; [done|]. intros _. by split; [constructor|]. Qed.

(** The invariant of a concrete table. *)
Ltac bloques_ok_concreto :=
  rewrite ?bloques_ok_cons, ?Forall_cons, ?Forall_nil, ?bloques_ok_nil;
  repeat first [done | bloques_lia | split].

Lemma huecos_ok : bloques_ok 32 huecos.
Proof. unfold huecos. bloques_ok_concreto. Qed.

Lemma libre_nil x : libre [] x <-> False.
Proof. unfold libre. split; [|done]. intros (b & Hb & _). by apply elem_of_nil in Hb. Qed.

(** Best fit takes the hole of 4 for a request of 4, worst fit the hole of 8. *)
Lemma bloques_asignar_correcto_witness :
  bloques_asignar false huecos 4 = (10, [Bloque 0 8; Bloque 20 6]) /\
  bloques_asignar true huecos 4 = (0, [Bloque 4 4; Bloque 10 4; Bloque 20 6]) /\
  (forall x, libre [Bloque 0 8; Bloque 20 6] x <-> libre huecos x /\ ~ en_rango 10 4 x).
Proof.
  split; [reflexivity|]. split; [reflexivity|].
  destruct (bloques_asignar_correcto false 32 huecos 4 10 _ huecos_ok ltac:(lia) eq_refl)
    as (_ & _ & H).
  apply H. vm_compute. discriminate.
Defined.

(** Giving back [8, 10) joins the first two holes. *)
Lemma bloques_liberar_refina_witness :
  bloques_liberar huecos 8 2 = [Bloque 0 14; Bloque 20 6] /\
  total (bloques_liberar huecos 8 2) = total huecos + 2.
Proof.
  split; [reflexivity|].
  apply (bloques_liberar_refina 32); [apply huecos_ok|]. split; [bloques_lia|].
  intros x Hx. unfold huecos. rewrite !libre_cons, libre_nil. bloques_lia.
Defined.

Lemma asignar_liberar_ida_vuelta_witness :
  bloques_liberar [Bloque 0 8; Bloque 20 6] 10 4 = [Bloque 0 8; Bloque 20 6; Bloque 10 4] /\
  (forall x, libre (bloques_liberar [Bloque 0 8; Bloque 20 6] 10 4) x <-> libre huecos x).
Proof.
  split; [reflexivity|].
  apply (asignar_liberar_ida_vuelta false 32 huecos 4 10);
    [apply huecos_ok|lia|reflexivity|vm_compute; discriminate].
Defined.

Lemma bloques_liberar_todo_witness :
  bloques_liberar [Bloque 20 12; Bloque 0 14] 14 6 = [Bloque 0 32].
Proof.
  apply (bloques_liberar_todo 32).
  - bloques_ok_concreto.
  - split; [bloques_lia|]. intros x Hx. rewrite !libre_cons, libre_nil. bloques_lia.
  - lia.
  - vm_compute. repeat constructor.
  - intros x Hx. rewrite !libre_cons, libre_nil. bloques_lia.
Defined.
