(* ===== verification/Wire.v ===== *)
(** * Wire: the serialization layer

    Models [utils/src/utils/serializacion.c] and the socket loops of
    [utils/src/utils/sockets.c]: packets ([t_paquete]), their byte image
    [ op_code ][ size ][ stream ], the [recv]-side primitives that every
    [recibir_X] uses, and [send_all]/[recv_all] over a socket that may transfer
    fewer bytes than asked. The byte order is the little-endian one of the
    machines the system runs on; [sizeof(int)] and [sizeof(op_code)] are 4,
    [sizeof(size_t)] is 8. *)

From S2P Require Import Prelude.

#[export] Instance byte_eq_dec' : EqDecision byte := Byte.byte_eq_dec.

(** ** Bytes of an integer *)

Definition byte_de (z : Z) : byte := default x00 (Byte.of_N (Z.to_N (u8 z))).
Definition z_de (b : byte) : Z := Z.of_N (Byte.to_N b).

Fixpoint le_enc (n : nat) (z : Z) : list byte :=
  match n with
  | O => []
  | S n => byte_de z :: le_enc n (z / 256)
  end.

Fixpoint le_dec (l : list byte) : Z :=
  match l with
  | [] => 0
  | b :: l => z_de b + 256 * le_dec l
  end.

(** ** Operation codes ([utils.h], [op_code], in declaration order) *)
Inductive op_code :=
| HANDSHAKE_SCHEDULER_A_MEMORY | HANDSHAKE_CPU | HANDSHAKE_IO
| HANDSHAKE_MEMORY_STICK | HANDSHAKE_SWAP
| CREAR_PROCESO | FINALIZAR_PROCESO | SUSPENDER_PROCESO | DES_SUSPENDER_PROCESO
| SOLICITAR_SEGMENTO | ELIMINAR_SEGMENTO | INICIAR_COMPACTACION | FINALIZAR_COMPACTACION
| OBTENER_CONTEXTO | ACTUALIZAR_CONTEXTO | OBTENER_INSTRUCCION | INTERRUPCION
| EJECUTAR_PROCESO | CONFIG_MMU_CPU
| OBTENER_ESPACIO_LIBRE | LECTURA_MEMORIA | ESCRITURA_MEMORIA
| LECTURA_BLOQUE_SWAP | ESCRITURA_BLOQUE_SWAP | RESPUESTA_SWAP
| IO_STDIN | IO_STDOUT | IO_SLEEP | IO_FINALIZADA
| MEMORIA_CORRUPTA_BSOD | NUEVA_MEMORIA_DISPONIBLE | MEMORIA_LIBERADA
| SEGMENTATION_FAULT | DEVOLVER_PROCESO.

#[export] Instance op_code_eq_dec : EqDecision op_code.
Proof. solve_decision. Defined.

Definition op_codes : list op_code :=
  [HANDSHAKE_SCHEDULER_A_MEMORY; HANDSHAKE_CPU; HANDSHAKE_IO;
   HANDSHAKE_MEMORY_STICK; HANDSHAKE_SWAP;
   CREAR_PROCESO; FINALIZAR_PROCESO; SUSPENDER_PROCESO; DES_SUSPENDER_PROCESO;
   SOLICITAR_SEGMENTO; ELIMINAR_SEGMENTO; INICIAR_COMPACTACION; FINALIZAR_COMPACTACION;
   OBTENER_CONTEXTO; ACTUALIZAR_CONTEXTO; OBTENER_INSTRUCCION; INTERRUPCION;
   EJECUTAR_PROCESO; CONFIG_MMU_CPU;
   OBTENER_ESPACIO_LIBRE; LECTURA_MEMORIA; ESCRITURA_MEMORIA;
   LECTURA_BLOQUE_SWAP; ESCRITURA_BLOQUE_SWAP; RESPUESTA_SWAP;
   IO_STDIN; IO_STDOUT; IO_SLEEP; IO_FINALIZADA;
   MEMORIA_CORRUPTA_BSOD; NUEVA_MEMORIA_DISPONIBLE; MEMORIA_LIBERADA;
   SEGMENTATION_FAULT; DEVOLVER_PROCESO].

(** The value C gives an enumerator: its position. *)
Definition op_num (op : op_code) : Z :=
  Z.of_nat (default O (indice_de (fun o => bool_decide (o = op)) op_codes)).

(** The enumerator of a number read from the wire, if any. *)
Definition op_de_num (z : Z) : option op_code :=
  if z <? 0 then None else op_codes !! Z.to_nat z.

(** ** Packets *)

Record t_buffer := Buffer { size : Z; stream : list byte }.
Record t_paquete := Paquete { codigo_operacion : op_code; buffer : t_buffer }.

Definition crear_buffer : t_buffer := Buffer 0 [].
Definition crear_paquete (codigo : op_code) : t_paquete := Paquete codigo crear_buffer.

(** [realloc] to [size + tamanio], then [memcpy] of [valor] (whose length is
    [tamanio]) at offset [size]. *)
Definition agregar_a_paquete (p : t_paquete) (valor : list byte) : t_paquete :=
  Paquete (codigo_operacion p)
    (Buffer (u64 (size (buffer p) + Z.of_nat (length valor)))
            (take (Z.to_nat (size (buffer p))) (stream (buffer p)) ++ valor)).

(** [while (cadena[longitud++] != '\0')]: the length counting the terminator;
    [None] when the scan runs off the array. *)
Fixpoint longitud_cadena (cadena : list byte) : option nat :=
  match cadena with
  | [] => None
  | c :: cadena => if decide (c = x00) then Some 1%nat else S <$> longitud_cadena cadena
  end.

Definition agregar_cadena (p : t_paquete) (cadena : list byte) : t_paquete :=
  let longitud := default O (longitud_cadena cadena) in
  agregar_a_paquete (agregar_a_paquete p (le_enc 4 (Z.of_nat longitud)))
    (take longitud cadena).

(** The fields of a packet appended one after the other. *)
Definition agregar_campos (p : t_paquete) (campos : list (list byte)) : t_paquete :=
  fold_left agregar_a_paquete campos p.

Definition serializar_paquete (p : t_paquete) : list byte :=
  le_enc 4 (op_num (codigo_operacion p)) ++ le_enc 8 (size (buffer p)) ++
  (if size (buffer p) >? 0 then take (Z.to_nat (size (buffer p))) (stream (buffer p)) else []).

(** The bytes handed to [send_all]; [bytes] is an [int], widened to [size_t] in
    the call. *)
Definition enviar_paquete (p : t_paquete) : list byte :=
  let bytes := i32 (4 + 8 + size (buffer p)) in
  take (Z.to_nat (u64 bytes)) (serializar_paquete p).

(** ** Reception

    The reader's state is the list of bytes available on its socket. A [recv]
    with [MSG_WAITALL] either fills the field or finds the peer closed: the
    functions that ignore the return value then go on with fields that were
    never written, which the model does not follow ([None]). *)
Definition lector := ST (list byte).

Definition recv (n : nat) : lector (list byte) :=
  fun s => if (n <=? length s)%nat then Some (take n s, drop n s) else None.

Definition recv_u32 : lector Z := bs ← recv 4; mret (le_dec bs).
Definition recv_int : lector Z := bs ← recv 4; mret (i32 (le_dec bs)).
Definition recv_size_t : lector Z := bs ← recv 8; mret (le_dec bs).

(** Total: [-1] on a short read, which drains what was left. *)
Definition recibir_codigo_operacion (s : list byte) : Z * list byte :=
  match recv 4 s with
  | Some (bs, s) => (le_dec bs, s)
  | None => (NEG1, [])
  end.

(** [abort()]s unless the whole payload can be peeked. *)
Definition validar_buffer : lector unit :=
  tamanio_esperado ← recv_size_t;
  s ← st_get;
  if tamanio_esperado <=? Z.of_nat (length s) then mret tt else st_abort.

(** [recv] of a field of [int] length: [malloc((size_t)len)] of a negative
    length fails. *)
Definition recv_datos (len : Z) : lector (list byte) :=
  if len <? 0 then st_abort else recv (Z.to_nat len).

Definition recibir_cadena : lector (list byte) :=
  longitud ← recv_int; recv_datos longitud.

Definition enviar_ok (codigo : op_code) : list byte :=
  enviar_paquete (agregar_a_paquete (crear_paquete codigo) (le_enc 4 (-1))).

Definition recibir_ok : lector unit :=
  _ ← validar_buffer; _ ← recv_int; mret tt.

(** ** Socket loops

    [rcs] are the successive return values of [send] (or [recv]); a positive
    value never exceeds the number of bytes asked for. The result pairs the C
    return value with the bytes that went through. *)
Fixpoint send_all (rcs : list Z) (buffer : list byte) : Z * list byte :=
  match buffer with
  | [] => (0, [])
  | _ =>
      match rcs with
      | [] => (-1, [])
      | rc :: rcs =>
          if rc <=? 0 then (-1, [])
          else let n := Z.to_nat (rc `min` Z.of_nat (length buffer)) in
               let '(r, enviados) := send_all rcs (drop n buffer) in
               (r, take n buffer ++ enviados)
      end
  end.

(** The receiver's side: [entrante] is what the peer sends. *)
Fixpoint recv_all (rcs : list Z) (len : nat) (entrante : list byte) : Z * list byte :=
  match len with
  | O => (0, [])
  | _ =>
      match rcs with
      | [] => (-1, [])
      | rc :: rcs =>
          if rc <=? 0 then (-1, [])
          else let n := Z.to_nat (rc `min` Z.of_nat len) in
               let '(r, recibidos) := recv_all rcs (len - n) (drop n entrante) in
               (r, take n entrante ++ recibidos)
      end
  end.

(** ** Integers and bytes: lemmas *)

Lemma z_de_range b : 0 <= z_de b < 256.
Proof. unfold z_de. pose proof (Byte.to_N_bounded b). lia. Qed.

Lemma byte_de_z_de b : byte_de (z_de b) = b.
Proof.
  unfold byte_de. unfold u8. rewrite Z.mod_small by apply z_de_range.
  unfold z_de. by rewrite N2Z.id, Byte.of_to_N.
Qed.

Lemma z_de_byte_de z : z_de (byte_de z) = u8 z.
Proof.
  unfold byte_de. assert (H : 0 <= u8 z < 256) by (unfold u8; apply Z.mod_pos_bound; lia).
  destruct (Byte.of_N (Z.to_N (u8 z))) as [b|] eqn:E; cbn.
  - apply Byte.to_of_N in E. unfold z_de. rewrite E. lia.
  - apply Byte.of_N_None_iff in E. lia.
Qed.

Lemma length_le_enc n z : length (le_enc n z) = n.
Proof. revert z; induction n; intros; cbn; auto. Qed.
#[export] Hint Rewrite length_le_enc : largo.

Lemma le_dec_enc n z : le_dec (le_enc n z) = z mod 256 ^ Z.of_nat n.
Proof.
  revert z. induction n as [|n IH]; intros z; [by rewrite Z.mod_1_r|].
  cbn [le_enc le_dec]. rewrite IH, z_de_byte_de, Nat2Z.inj_succ, Z.pow_succ_r by lia.
  unfold u8. rewrite (Z.rem_mul_r z 256 (256 ^ Z.of_nat n)) by lia. lia.
Qed.

Lemma le_enc_dec l : le_enc (length l) (le_dec l) = l.
Proof.
  induction l as [|b l IH]; [done|]. cbn [length le_enc le_dec].
  pose proof (z_de_range b) as Hb. f_equal.
  - rewrite <-(byte_de_z_de b) at 2. unfold byte_de. do 3 f_equal. unfold u8.
    rewrite Z.mul_comm, Z_mod_plus_full. done.
  - replace ((z_de b + 256 * le_dec l) / 256) with (le_dec l); [done|].
    rewrite Z.mul_comm, Z.div_add by lia. rewrite Z.div_small by lia. lia.
Qed.

Lemma le_dec_enc4 z : le_dec (le_enc 4 z) = u32 z.
Proof. by rewrite le_dec_enc. Qed.

Lemma le_dec_range l : 0 <= le_dec l < 256 ^ Z.of_nat (length l).
Proof.
  assert (H : le_dec l = le_dec l mod 256 ^ Z.of_nat (length l))
    by (rewrite <-(le_enc_dec l) at 1; apply le_dec_enc).
  rewrite H. apply Z.mod_pos_bound.
  apply Z.pow_pos_nonneg; lia.
Qed.

Lemma op_num_range op : 0 <= op_num op < 34.
Proof. destruct op; vm_compute; split; congruence. Qed.

Lemma op_de_num_op_num op : op_de_num (op_num op) = Some op.
Proof. by destruct op. Qed.

Lemma op_num_inj op1 op2 : op_num op1 = op_num op2 -> op1 = op2.
Proof. intros H. apply (inj Some). by rewrite <-!op_de_num_op_num, H. Qed.

(** ** What a packet carries *)

(** The bytes of a message on the wire. *)
Definition trama (op : op_code) (pl : list byte) : list byte :=
  le_enc 4 (op_num op) ++ le_enc 8 (Z.of_nat (length pl)) ++ pl.

(** Payloads above this size make [enviar_paquete]'s [int bytes] overflow. *)
Definition MAX_PAYLOAD : Z := 2147483648 - 12.

(** [p] is the packet [op] with payload [pl] (as long as [pl] is of a size that
    fits in memory). *)
Definition construye (p : t_paquete) (op : op_code) (pl : list byte) : Prop :=
  Z.of_nat (length pl) < MAX_PAYLOAD ->
  p = Paquete op (Buffer (Z.of_nat (length pl)) pl).

Create HintDb wire.

Lemma construye_crear op : construye (crear_paquete op) op [].
Proof. by intros _. Qed.

Lemma construye_agregar p op pl v :
  construye p op pl -> construye (agregar_a_paquete p v) op (pl ++ v).
Proof.
  intros Hp Hl. rewrite length_app in Hl. rewrite Hp by lia.
  unfold agregar_a_paquete; cbn. rewrite Nat2Z.id, take_ge by lia.
  rewrite length_app, Nat2Z.inj_add. do 2 f_equal.
  unfold MAX_PAYLOAD in Hl. unfold u64. apply Z.mod_small. lia.
Qed.

(** The image of a string on the wire. *)
Definition cadena_wire (c : list byte) : list byte :=
  le_enc 4 (Z.of_nat (default O (longitud_cadena c))) ++
  take (default O (longitud_cadena c)) c.

Lemma construye_cadena p op pl c :
  construye p op pl -> construye (agregar_cadena p c) op (pl ++ cadena_wire c).
Proof.
  intros Hp. unfold agregar_cadena, cadena_wire. rewrite app_assoc.
  by do 2 apply construye_agregar.
Qed.

Lemma construye_fold {A} (f : t_paquete -> A -> t_paquete) (g : A -> list byte) op l :
  (forall p pl a, construye p op pl -> construye (f p a) op (pl ++ g a)) ->
  forall p pl, construye p op pl -> construye (fold_left f l p) op (pl ++ (l ≫= g)).
Proof.
  intros Hf. induction l as [|a l IH]; intros p pl Hp; cbn; [by rewrite app_nil_r|].
  rewrite app_assoc. apply IH. by apply Hf.
Qed.

#[export] Hint Resolve construye_crear construye_agregar construye_cadena : wire.

Lemma enviar_construido p op pl :
  construye p op pl -> Z.of_nat (length pl) < MAX_PAYLOAD -> enviar_paquete p = trama op pl.
Proof.
  intros Hp Hl. rewrite Hp by done. unfold enviar_paquete, serializar_paquete, trama; cbn [buffer size stream codigo_operacion].
  unfold MAX_PAYLOAD in Hl. rewrite i32_small by (unfold es_int; lia).
  replace (if _ >? 0 then _ else _) with pl.
  - apply take_ge. autorewrite with largo. unfold u64. rewrite Z.mod_small by lia. lia.
  - destruct (Z.gtb_spec (Z.of_nat (length pl)) 0); [by rewrite Nat2Z.id, take_ge|].
    by destruct pl.
Qed.

(** ** What a reader consumes *)

(** [m] reads exactly the bytes [pl] and returns [a], whatever follows. *)
Definition lee {A} (m : lector A) (pl : list byte) (a : A) : Prop :=
  forall resto, m (pl ++ resto) = Some (a, resto).

(** [m], run on a payload preceded by its [size] field, returns [a]. *)
Definition recibe {A} (m : lector A) (pl : list byte) (a : A) : Prop :=
  forall resto, m (le_enc 8 (Z.of_nat (length pl)) ++ pl ++ resto) = Some (a, resto).

Lemma lee_recv pl : lee (recv (length pl)) pl pl.
Proof.
  intros resto. unfold recv. rewrite length_app.
  destruct (Nat.leb_spec (length pl) (length pl + length resto)); [|lia].
  by rewrite take_app_length, drop_app_length.
Qed.

Lemma lee_ret {A} (a : A) : lee (mret a) [] a.
Proof. by intros resto. Qed.

Lemma lee_bind {A B} (m : lector A) (k : A -> lector B) p1 p2 a b :
  lee m p1 a -> lee (k a) p2 b -> lee (m ≫= k) (p1 ++ p2) b.
Proof. intros Hm Hk resto. unfold mbind, ST_bind. by rewrite <-app_assoc, Hm, Hk. Qed.

Lemma lee_bind_last {A B} (m : lector A) (k : A -> lector B) p a b :
  lee m p a -> lee (k a) [] b -> lee (m ≫= k) p b.
Proof. intros Hm Hk. rewrite <-(app_nil_r p). by eapply lee_bind. Qed.

Lemma lee_recv_enc n z : lee (recv n) (le_enc n z) (le_enc n z).
Proof. pose proof (lee_recv (le_enc n z)) as H. by rewrite length_le_enc in H. Qed.

Lemma lee_u32 z : lee recv_u32 (le_enc 4 z) (u32 z).
Proof. eapply lee_bind_last; [apply lee_recv_enc|]. rewrite le_dec_enc4. apply lee_ret. Qed.

Lemma lee_int z : lee recv_int (le_enc 4 z) (i32 z).
Proof.
  eapply lee_bind_last; [apply lee_recv_enc|]. rewrite le_dec_enc4, i32_u32. apply lee_ret.
Qed.

Lemma lee_datos pl : Z.of_nat (length pl) < 2147483648 -> lee (recv_datos (Z.of_nat (length pl))) pl pl.
Proof.
  intros Hl. unfold recv_datos. destruct (Z.ltb_spec (Z.of_nat (length pl)) 0); [lia|].
  rewrite Nat2Z.id. apply lee_recv.
Qed.

Lemma validar_buffer_ok pl resto :
  Z.of_nat (length pl) < MAX_PAYLOAD ->
  validar_buffer (le_enc 8 (Z.of_nat (length pl)) ++ pl ++ resto) = Some (tt, pl ++ resto).
Proof.
  intros Hl. unfold validar_buffer, recv_size_t. unfold MAX_PAYLOAD in Hl. st_unfold.
  rewrite (lee_recv_enc 8 (Z.of_nat (length pl)) (pl ++ resto)), le_dec_enc, Z.mod_small by lia.
  rewrite length_app. destruct (Z.leb_spec (Z.of_nat (length pl)) (Z.of_nat (length pl + length resto))); [done|lia].
Qed.

Lemma recibe_lee {A} (m : lector A) pl a :
  lee m pl a -> Z.of_nat (length pl) < MAX_PAYLOAD ->
  recibe (_ ← validar_buffer; m) pl a.
Proof.
  intros Hm Hl resto. unfold mbind, ST_bind at 1. by rewrite validar_buffer_ok, Hm.
Qed.

(** A handler that goes on after reading its fields. *)
Lemma recibe_sigue {A B} (m : lector A) (k : A -> lector B) pl a resto :
  recibe (_ ← validar_buffer; m) pl a ->
  (_ ← validar_buffer; x ← m; k x) (le_enc 8 (Z.of_nat (length pl)) ++ pl ++ resto) = k a resto.
Proof.
  intros H. specialize (H resto). unfold mbind, ST_bind in *.
  destruct (validar_buffer _) as [[[] s]|]; [|done]. by rewrite H.
Qed.

Lemma codigo_trama op pl resto :
  recibir_codigo_operacion (trama op pl ++ resto) =
  (op_num op, le_enc 8 (Z.of_nat (length pl)) ++ pl ++ resto).
Proof.
  unfold recibir_codigo_operacion, trama. rewrite <-app_assoc.
  rewrite (lee_recv_enc 4 (op_num op)), le_dec_enc4, u32_small; [by rewrite <-app_assoc|].
  pose proof (op_num_range op). unfold es_u32. lia.
Qed.

#[export] Hint Resolve lee_ret lee_datos : wire.

(** A C string: its characters, then one terminator. *)
Definition es_cadena (c : list byte) : Prop :=
  exists s, c = s ++ [x00] /\ x00 ∉ s.

Lemma longitud_es_cadena c : es_cadena c -> longitud_cadena c = Some (length c).
Proof.
  intros (s & -> & Hs). induction s as [|a s IH]; cbn; [done|].
  apply not_elem_of_cons in Hs as [Ha Hs]. rewrite decide_False by congruence.
  by rewrite IH.
Qed.

Lemma lee_cadena c :
  es_cadena c -> Z.of_nat (length c) < 2147483648 -> lee recibir_cadena (cadena_wire c) c.
Proof.
  intros Hc Hl. unfold recibir_cadena, cadena_wire.
  rewrite (longitud_es_cadena c Hc). cbn [from_option id]. rewrite take_ge by done.
  eapply lee_bind; [apply lee_int|]. rewrite i32_small by (unfold es_int; lia).
  by apply lee_datos.
Qed.
#[export] Hint Resolve lee_cadena : wire.

Lemma length_cadena_wire c : es_cadena c -> length (cadena_wire c) = (4 + length c)%nat.
Proof.
  intros Hc. unfold cadena_wire. rewrite (longitud_es_cadena c Hc). cbn [from_option id].
  by rewrite take_ge, length_app, length_le_enc.
Qed.

Lemma codigo_trama_nil op pl :
  recibir_codigo_operacion (trama op pl) = (op_num op, le_enc 8 (Z.of_nat (length pl)) ++ pl).
Proof. pose proof (codigo_trama op pl []) as H. by rewrite !app_nil_r in H. Qed.

Lemma validar_buffer_nil pl :
  Z.of_nat (length pl) < MAX_PAYLOAD ->
  validar_buffer (le_enc 8 (Z.of_nat (length pl)) ++ pl) = Some (tt, pl).
Proof. intros H. pose proof (validar_buffer_ok pl [] H) as E. by rewrite !app_nil_r in E. Qed.

Lemma op_num_no_neg op : (i32 (op_num op) =? -1) = false.
Proof. by destruct op. Qed.

Lemma length_trama op pl : length (trama op pl) = (12 + length pl)%nat.
Proof. unfold trama. by autorewrite with largo. Qed.

Lemma enviar_ok_trama op : enviar_ok op = trama op (le_enc 4 (-1)).
Proof.
  apply enviar_construido; [|done]. apply (construye_agregar _ _ []), construye_crear.
Qed.

(** ** Socket loops: lemmas *)

Lemma send_all_prefijo rcs buf :
  exists resto, buf = (send_all rcs buf).2 ++ resto /\ ((send_all rcs buf).1 = 0 <-> resto = []).
Proof.
  revert buf. induction rcs as [|rc rcs IH]; intros [|b buf]; cbn [send_all].
  1,3: by exists [].
  - by exists (b :: buf).
  - destruct (Z.leb_spec rc 0); [by exists (b :: buf)|].
    set (n := Z.to_nat _). destruct (IH (drop n (b :: buf))) as (resto & Hr & H0).
    destruct (send_all rcs (drop n (b :: buf))) as [r env]; cbn in *.
    exists resto. split; [|done]. by rewrite <-app_assoc, <-Hr, take_drop.
Qed.

Lemma recv_all_prefijo rcs len entrante :
  (len <= length entrante)%nat ->
  exists n, (n <= len)%nat /\ (recv_all rcs len entrante).2 = take n entrante /\
            ((recv_all rcs len entrante).1 = 0 <-> n = len).
Proof.
  revert len entrante. induction rcs as [|rc rcs IH]; intros [|len] entrante Hl; cbn [recv_all];
    try (exists O; split; [lia|]; split; [done|]; cbn [fst snd]; lia).
  destruct (Z.leb_spec rc 0).
  { exists O; split; [lia|]; split; [done|]; cbn [fst snd]; lia. }
  set (n := Z.to_nat (rc `min` Z.of_nat (S len))).
  destruct (IH (S len - n)%nat (drop n entrante)) as (k & Hk & Htk & H0).
  { rewrite length_drop. lia. }
  destruct (recv_all rcs (S len - n) (drop n entrante)) as [r rec]; cbn [fst snd] in *.
  exists (n + k)%nat. split; [lia|]. split; [|rewrite H0; lia].
  rewrite Htk. by rewrite take_take_drop.
Qed.

Lemma send_all_positivos rcs buf :
  Forall (fun rc => 0 < rc) rcs -> (length buf <= length rcs)%nat -> (send_all rcs buf).1 = 0.
Proof.
  revert buf. induction rcs as [|rc rcs IH]; intros [|b buf] Hrc Hl; cbn [send_all length] in *; try done; [lia|].
  apply Forall_cons in Hrc as [Hrc Hrcs]. destruct (Z.leb_spec rc 0); [lia|].
  set (n := Z.to_nat _). specialize (IH (drop n (b :: buf)) Hrcs).
  destruct (send_all rcs (drop n (b :: buf))). apply IH. rewrite length_drop. cbn [length]. lia.
Qed.

(** ** Properties *)

(** [send_all] and [recv_all] make a reliable transport out of partial
    transfers: what went out is always a prefix of the buffer, the result is 0
    exactly when it is the whole of it, positive return values always suffice
    (one byte per call at worst), and a receiver that reads the same length with
    any other chunking, and returns 0, has the sender's bytes. *)
Theorem send_recv_all_fiable rcs rcs' buf :
  (send_all rcs buf).2 `prefix_of` buf /\
  ((send_all rcs buf).1 = 0 <-> (send_all rcs buf).2 = buf) /\
  (Forall (fun rc => 0 < rc) rcs -> (length buf <= length rcs)%nat -> (send_all rcs buf).1 = 0) /\
  ((send_all rcs buf).1 = 0 ->
   (recv_all rcs' (length buf) (send_all rcs buf).2).1 = 0 ->
   (recv_all rcs' (length buf) (send_all rcs buf).2).2 = buf).
Proof.
  destruct (send_all_prefijo rcs buf) as (resto & Hr & H0).
  split; [by exists resto|]. split; [|split].
  - rewrite H0. split; [intros ->; by rewrite app_nil_r in Hr|].
    intros E. rewrite E in Hr. by apply app_inv_head with (l := buf); rewrite app_nil_r.
  - apply send_all_positivos.
  - intros H. apply H0 in H as ->. rewrite app_nil_r in Hr. rewrite <-Hr.
    destruct (recv_all_prefijo rcs' (length buf) buf) as (n & _ & -> & Hn); [done|].
    intros ->%Hn. by rewrite take_ge.
Qed.

(** A packet built with any number of [agregar_a_paquete] calls goes over the
    wire as its op_code, its size and its fields in order: the receiver reads the
    op_code back, [validar_buffer] accepts, and what is left is the fields
    followed by the rest of the stream. *)
Theorem paquete_ida_vuelta op campos resto :
  Z.of_nat (length (concat campos)) < MAX_PAYLOAD ->
  exists s, recibir_codigo_operacion
              (enviar_paquete (agregar_campos (crear_paquete op) campos) ++ resto) = (op_num op, s) /\
            validar_buffer s = Some (tt, concat campos ++ resto).
Proof.
  intros Hl.
  assert (Hc : construye (agregar_campos (crear_paquete op) campos) op (concat campos)).
  { unfold agregar_campos.
    pose proof (construye_fold agregar_a_paquete (fun v => v) op campos) as H.
    specialize (H ltac:(auto with wire) _ _ (construye_crear op)). cbn in H.
    by replace (concat campos) with (campos ≫= fun v => v) by (clear; induction campos; cbn; congruence). }
  rewrite (enviar_construido _ _ _ Hc Hl), codigo_trama.
  eexists; split; [done|]. by apply validar_buffer_ok.
Qed.

(** A truncated message never gets past [validar_buffer]: with any byte of
    the payload missing the process [abort()]s, and a stream cut inside the
    op_code is reported as [(op_code)-1]. *)
Theorem validar_buffer_rechaza_truncado pl n :
  Z.of_nat (length pl) < MAX_PAYLOAD -> (n < length pl)%nat ->
  validar_buffer (le_enc 8 (Z.of_nat (length pl)) ++ take n pl) = None /\
  forall op k, (k < 4)%nat -> recibir_codigo_operacion (take k (trama op pl)) = (NEG1, []).
Proof.
  intros Hl Hn. unfold MAX_PAYLOAD in Hl. split.
  - unfold validar_buffer, recv_size_t. st_unfold.
    rewrite (lee_recv_enc 8 _ (take n pl)), le_dec_enc, Z.mod_small by lia.
    destruct (Z.leb_spec (Z.of_nat (length pl)) (Z.of_nat (length (take n pl)))) as [H|]; [|done].
    rewrite length_take in H. lia.
  - intros op k Hk. unfold recibir_codigo_operacion, recv. rewrite length_take.
    destruct (Nat.leb_spec 4 (k `min` length (trama op pl))); [lia|done].
Qed.

(** ** Witnesses *)

Lemma paquete_ida_vuelta_witness :
  exists s, recibir_codigo_operacion
    (enviar_paquete (agregar_campos (crear_paquete LECTURA_MEMORIA) [le_enc 4 7; le_enc 4 1024; le_enc 4 16]) ++ [xff])
    = (20, s) /\ validar_buffer s = Some (tt, le_enc 4 7 ++ le_enc 4 1024 ++ le_enc 4 16 ++ [xff]).
Proof.
  apply (paquete_ida_vuelta LECTURA_MEMORIA [le_enc 4 7; le_enc 4 1024; le_enc 4 16] [xff]).
  vm_compute. reflexivity.
Defined.

Lemma validar_buffer_rechaza_truncado_witness :
  validar_buffer (le_enc 8 4 ++ [x01; x02; x03]) = None.
Proof.
  apply (validar_buffer_rechaza_truncado [x01; x02; x03; x04] 3); [reflexivity|cbn; lia].
Defined.

Lemma send_recv_all_fiable_witness :
  send_all [2; 5] [x01; x02; x03] = (0, [x01; x02; x03]) /\
  recv_all [1; 1; 1] 3 [x01; x02; x03] = (0, [x01; x02; x03]) /\
  (send_all [2; 5] [x01; x02; x03]).2 `prefix_of` [x01; x02; x03].
Proof.
  split; [reflexivity|]. split; [reflexivity|].
  apply (send_recv_all_fiable [2; 5] [1; 1; 1] [x01; x02; x03]).
Defined.
