(* ===== verification/Buffer.v ===== *)
(** * Buffer: byte arrays accessed by offset

    The physical memory of a stick and the swap file: [memcpy] from and to an
    offset, with the laws of reading what was written. *)

From S2P Require Import Prelude Wire.

(** The bytes [dir .. dir + tam) of a buffer, and their replacement; [None] for
    an access outside the buffer, which no defined execution makes. *)
Definition leer_buffer (buf : list byte) (dir tam : Z) : option (list byte) :=
  if dir + tam <=? Z.of_nat (length buf)
  then Some (take (Z.to_nat tam) (drop (Z.to_nat dir) buf)) else None.

Definition escribir_buffer (buf : list byte) (dir : Z) (datos : list byte) : option (list byte) :=
  if dir + Z.of_nat (length datos) <=? Z.of_nat (length buf)
  then Some (take (Z.to_nat dir) buf ++ datos ++ drop (Z.to_nat dir + length datos) buf)
  else None.

(** ** Lemmas *)

Lemma length_escribir_buffer buf dir datos buf' :
  0 <= dir -> escribir_buffer buf dir datos = Some buf' -> length buf' = length buf.
Proof.
  unfold escribir_buffer. destruct (Z.leb_spec (dir + Z.of_nat (length datos)) (Z.of_nat (length buf)));
    [|done]. intros ? [= <-]. autorewrite with largo. lia.
Qed.

Lemma length_leer_buffer buf dir tam d :
  0 <= dir -> 0 <= tam -> leer_buffer buf dir tam = Some d -> Z.of_nat (length d) = tam.
Proof.
  unfold leer_buffer. destruct (Z.leb_spec (dir + tam) (Z.of_nat (length buf))); [|done].
  intros ? ? [= <-]. autorewrite with largo. lia.
Qed.

(** Reading what was written, and what was not. *)
Lemma leer_escribir buf dir datos buf' :
  0 <= dir -> escribir_buffer buf dir datos = Some buf' ->
  leer_buffer buf' dir (Z.of_nat (length datos)) = Some datos.
Proof.
  intros Hd H. pose proof (length_escribir_buffer _ _ _ _ Hd H) as Hl. revert H.
  unfold escribir_buffer, leer_buffer. rewrite Hl. destruct (_ <=? _) eqn:E; [|done]. b2p.
  intros [= <-]. rewrite Nat2Z.id, drop_app_ge by (rewrite length_take; lia).
  rewrite length_take, Nat.min_l, Nat.sub_diag, drop_0 by lia. by rewrite take_app_length.
Qed.

Lemma leer_escribir_disjunto buf dir datos buf' d t :
  0 <= dir -> 0 <= d -> 0 <= t -> disjuntos dir (Z.of_nat (length datos)) d t ->
  escribir_buffer buf dir datos = Some buf' -> leer_buffer buf' d t = leer_buffer buf d t.
Proof.
  intros Hdir Hd Ht Hdis H. pose proof (length_escribir_buffer _ _ _ _ Hdir H) as Hl. revert H.
  unfold escribir_buffer, leer_buffer, disjuntos in *. rewrite Hl.
  destruct (Z.leb_spec (dir + Z.of_nat (length datos)) (Z.of_nat (length buf))); [|done].
  intros [= <-]. destruct (Z.leb_spec (d + t) (Z.of_nat (length buf))); [|done]. f_equal.
  apply list_eq. intros i. destruct (decide (i < Z.to_nat t)%nat); [|by rewrite !lookup_take_ge by lia].
  rewrite !lookup_take_lt, !lookup_drop by lia. destruct Hdis.
  - rewrite lookup_app_r, lookup_app_r, lookup_drop; rewrite ?length_take; [f_equal; lia|lia..].
  - rewrite lookup_app_l by (rewrite length_take; lia). by rewrite lookup_take_lt by lia.
Qed.

Lemma leer_buffer_todo buf n :
  n = Z.of_nat (length buf) -> leer_buffer buf 0 n = Some buf.
Proof.
  intros ->. unfold leer_buffer. rewrite Z.leb_refl. cbn.
  by rewrite Nat2Z.id, firstn_all.
Qed.

(** ** Readers that consume their input *)

(** [m] leaves a shorter (or, with [Z.le], not longer) stream. *)
Definition consume {A} (m : lector A) : Prop :=
  forall s a s', m s = Some (a, s') -> (length s' <= length s)%nat.

Lemma consume_ret {A} (a : A) : consume (mret a).
Proof. intros s b s' [= <- <-]. lia. Qed.
Lemma consume_abort {A} : consume (st_abort (S:=list byte) (A:=A)).
Proof. by intros s b s'. Qed.
Lemma consume_lift {A} (o : option A) : consume (st_lift o).
Proof. intros s b s'. destruct o; [|done]. intros [= <- <-]. lia. Qed.
Lemma consume_bind {A B} (m : lector A) (k : A -> lector B) :
  consume m -> (forall a, consume (k a)) -> consume (m ≫= k).
Proof.
  intros Hm Hk s b s'. unfold mbind, ST_bind. destruct (m s) as [[a s1]|] eqn:E; [|done].
  intros H. apply Hm in E. apply Hk in H. lia.
Qed.
Lemma consume_recv n : consume (recv n).
Proof.
  intros s b s'. unfold recv. destruct (n <=? length s)%nat; [|done].
  intros [= <- <-]. rewrite length_drop. lia.
Qed.
Lemma consume_get : consume st_get.
Proof. intros s b s' [= <- <-]. lia. Qed.

Create HintDb consume.
#[export] Hint Resolve consume_ret consume_abort consume_lift consume_bind consume_recv
  consume_get : consume.

Lemma consume_validar : consume validar_buffer.
Proof.
  unfold validar_buffer, recv_size_t.
  repeat (apply consume_bind; [auto with consume|intros]). destruct (_ <=? _); auto with consume.
Qed.
