(* ===== verification/Tipos.v ===== *)
(** * Tipos: the data shared by the modules

    Models the types of [utils/src/utils/utils.h]: registers, segments, execution
    contexts and the reasons for giving a process back, with the byte image the
    code sends of [t_registros] and [t_segmento] (both structs have no padding:
    32 and 16 bytes). *)

From S2P Require Import Prelude Wire.

(** ** Registers *)
Record t_registros := Registros {
  pc : Z;
  ax : Z; bx : Z; cx : Z; dx : Z;
  eax : Z; ebx : Z; ecx : Z; edx : Z;
  si : Z; di : Z }.

#[export] Instance t_registros_eq_dec : EqDecision t_registros.
Proof. solve_decision. Defined.

(** [(t_registros){ 0 }] *)
Definition registros_cero : t_registros := Registros 0 0 0 0 0 0 0 0 0 0 0.

Definition registros_ok (r : t_registros) : Prop :=
  es_u32 (pc r) /\ es_u8 (ax r) /\ es_u8 (bx r) /\ es_u8 (cx r) /\ es_u8 (dx r) /\
  es_u32 (eax r) /\ es_u32 (ebx r) /\ es_u32 (ecx r) /\ es_u32 (edx r) /\
  es_u32 (si r) /\ es_u32 (di r).

(** ** Segments *)
Record t_segmento := Segmento {
  s_id : Z; s_base : Z; s_limite : Z; swap_bloque_inicio : Z }.

#[export] Instance t_segmento_eq_dec : EqDecision t_segmento.
Proof. solve_decision. Defined.

Definition segmento_ok (s : t_segmento) : Prop :=
  es_u32 (s_id s) /\ es_u32 (s_base s) /\ es_u32 (s_limite s) /\ es_u32 (swap_bloque_inicio s).

(** ** Execution context *)
Record t_contexto := Contexto {
  c_pid : Z; c_registros : t_registros; tabla_segmentos : list t_segmento }.

(** ** Why the CPU gives a process back *)
Inductive t_motivo_devolucion :=
| MOTIVO_QUANTUM | MOTIVO_SYSCALL | MOTIVO_EXIT | MOTIVO_ERROR | MOTIVO_SEGFAULT
| MOTIVO_DESALOJO | MOTIVO_DESALOJO_COLA.

#[export] Instance t_motivo_eq_dec : EqDecision t_motivo_devolucion.
Proof. solve_decision. Defined.

Definition motivo_num (m : t_motivo_devolucion) : Z :=
  match m with
  | MOTIVO_QUANTUM => 0 | MOTIVO_SYSCALL => 1 | MOTIVO_EXIT => 2 | MOTIVO_ERROR => 3
  | MOTIVO_SEGFAULT => 4 | MOTIVO_DESALOJO => 5 | MOTIVO_DESALOJO_COLA => 6
  end.

(** ** Byte images *)

Definition registros_bytes (r : t_registros) : list byte :=
  le_enc 4 (pc r) ++ le_enc 1 (ax r) ++ le_enc 1 (bx r) ++ le_enc 1 (cx r) ++ le_enc 1 (dx r) ++
  le_enc 4 (eax r) ++ le_enc 4 (ebx r) ++ le_enc 4 (ecx r) ++ le_enc 4 (edx r) ++
  le_enc 4 (si r) ++ le_enc 4 (di r).

Definition segmento_bytes (s : t_segmento) : list byte :=
  le_enc 4 (s_id s) ++ le_enc 4 (s_base s) ++ le_enc 4 (s_limite s) ++
  le_enc 4 (swap_bloque_inicio s).

Definition recv_u8 : lector Z := bs ← recv 1; mret (le_dec bs).

Definition recibir_registros : lector t_registros :=
  pc ← recv_u32; ax ← recv_u8; bx ← recv_u8; cx ← recv_u8; dx ← recv_u8;
  eax ← recv_u32; ebx ← recv_u32; ecx ← recv_u32; edx ← recv_u32;
  si ← recv_u32; di ← recv_u32;
  mret (Registros pc ax bx cx dx eax ebx ecx edx si di).

Definition recibir_segmento : lector t_segmento :=
  id ← recv_u32; base ← recv_u32; limite ← recv_u32; inicio ← recv_u32;
  mret (Segmento id base limite inicio).

(** ** Lemmas *)

Lemma u8_small z : es_u8 z -> u8 z = z.
Proof. unfold es_u8, u8; intros; apply Z.mod_small; lia. Qed.

Lemma lee_u32_ok z : es_u32 z -> lee recv_u32 (le_enc 4 z) z.
Proof. intros H. rewrite <-(u32_small z H) at 2. apply lee_u32. Qed.

Lemma lee_int_ok z : es_int z -> lee recv_int (le_enc 4 z) z.
Proof. intros H. rewrite <-(i32_small z H) at 2. apply lee_int. Qed.

Lemma lee_u8_ok z : es_u8 z -> lee recv_u8 (le_enc 1 z) z.
Proof.
  intros H. eapply lee_bind_last; [apply lee_recv_enc|].
  rewrite le_dec_enc. change (z mod 256 ^ Z.of_nat 1) with (u8 z).
  rewrite u8_small by done. apply lee_ret.
Qed.
#[export] Hint Resolve lee_u32_ok lee_int_ok lee_u8_ok : wire.

(** Reads a sequence of fields: the payload is the concatenation of their
    images, associated to the right. *)
Ltac leer_campos :=
  repeat first
    [ apply lee_ret
    | eapply lee_bind; [solve [eauto with wire]|cbn beta]
    | eapply lee_bind_last; [solve [eauto with wire]|cbn beta] ].

Lemma lee_registros r : registros_ok r -> lee recibir_registros (registros_bytes r) r.
Proof.
  intros (?&?&?&?&?&?&?&?&?&?&?). destruct r.
  cbn [pc ax bx cx dx eax ebx ecx edx si di] in *.
  unfold recibir_registros, registros_bytes; cbn [pc ax bx cx dx eax ebx ecx edx si di].
  leer_campos.
Qed.

Lemma lee_segmento s : segmento_ok s -> lee recibir_segmento (segmento_bytes s) s.
Proof.
  intros (?&?&?&?). destruct s.
  cbn [s_id s_base s_limite swap_bloque_inicio] in *.
  unfold recibir_segmento, segmento_bytes; cbn [s_id s_base s_limite swap_bloque_inicio].
  leer_campos.
Qed.
#[export] Hint Resolve lee_registros lee_segmento : wire.

Lemma length_registros_bytes r : length (registros_bytes r) = 32%nat.
Proof. done. Qed.
Lemma length_segmento_bytes s : length (segmento_bytes s) = 16%nat.
Proof. done. Qed.
#[export] Hint Rewrite length_registros_bytes length_segmento_bytes : largo.
