(* ===== verification/Mensajes.v ===== *)
(** * Mensajes: the message layer

    Models [utils/src/utils/mensajes.c]: every [enviar_X]/[recibir_X] pair, and
    the two context messages that [kernel_memory/src/memory_procesos.c] builds
    by hand. An [enviar_X] is the list of bytes it hands to the socket, a
    [recibir_X] a reader of the stream that starts after the op_code. The pairs
    are collected in the table [protocolos], whose laws the modules use. *)

From S2P Require Import Prelude Wire Tipos.

(** ** Senders *)

Definition enviar_obtener_instruccion (pid pc : Z) : list byte :=
  let p := crear_paquete OBTENER_INSTRUCCION in
  let p := agregar_a_paquete p (le_enc 4 pid) in
  let p := agregar_a_paquete p (le_enc 4 pc) in
  enviar_paquete p.

Definition recibir_instruccion : lector (list byte) :=
  _ ← validar_buffer; recibir_cadena.

Definition enviar_solicitar_contexto (pid : Z) : list byte :=
  let p := crear_paquete OBTENER_CONTEXTO in
  let p := agregar_a_paquete p (le_enc 4 pid) in
  enviar_paquete p.

Definition agregar_registros (p : t_paquete) (regs : t_registros) : t_paquete :=
  agregar_a_paquete p (registros_bytes regs).

Definition agregar_segmento (p : t_paquete) (seg : t_segmento) : t_paquete :=
  agregar_a_paquete p (segmento_bytes seg).

(** [for (i = 0; i < n; i++) list_add(l, recibir())]. *)
Fixpoint recibir_n {A} (m : lector A) (n : nat) : lector (list A) :=
  match n with
  | O => mret []
  | S n => x ← m; xs ← recibir_n m n; mret (x :: xs)
  end.

(** The context as it comes from Memory: [pid] is filled in by the caller. *)
Definition recibir_contexto : lector (t_registros * list t_segmento) :=
  _ ← validar_buffer;
  regs ← recibir_registros;
  cantidad ← recv_int;
  segs ← recibir_n recibir_segmento (Z.to_nat cantidad);
  mret (regs, segs).

Definition enviar_actualizar_contexto (contexto : t_contexto) : list byte :=
  let p := crear_paquete ACTUALIZAR_CONTEXTO in
  let p := agregar_a_paquete p (le_enc 4 (c_pid contexto)) in
  let p := agregar_registros p (c_registros contexto) in
  let cantidad := Z.of_nat (length (tabla_segmentos contexto)) in
  let p := agregar_a_paquete p (le_enc 4 cantidad) in
  let p := fold_left agregar_segmento (tabla_segmentos contexto) p in
  enviar_paquete p.

(** [memory_procesos.c]: the answer to OBTENER_CONTEXTO. *)
Definition enviar_contexto_proceso (registros : t_registros) (segmentos : list t_segmento)
    : list byte :=
  let cantidad := Z.of_nat (length segmentos) in
  let p := crear_paquete OBTENER_CONTEXTO in
  let p := agregar_a_paquete p (registros_bytes registros) in
  let p := agregar_a_paquete p (le_enc 4 cantidad) in
  let p := fold_left agregar_segmento segmentos p in
  enviar_paquete p.

(** [memory_procesos.c]: Memory's side of ACTUALIZAR_CONTEXTO. *)
Definition recibir_contexto_actualizar : lector t_contexto :=
  _ ← validar_buffer;
  pid ← recv_u32;
  regs ← recibir_registros;
  cantidad ← recv_int;
  segs ← recibir_n recibir_segmento (Z.to_nat cantidad);
  mret (Contexto pid regs segs).

Definition enviar_crear_proceso (pid : Z) (path : list byte) : list byte :=
  let p := crear_paquete CREAR_PROCESO in
  let p := agregar_a_paquete p (le_enc 4 pid) in
  let p := agregar_cadena p path in
  enviar_paquete p.

Definition recibir_crear_proceso : lector (Z * list byte) :=
  _ ← validar_buffer; pid ← recv_int; path ← recibir_cadena; mret (pid, path).

Definition enviar_pid (pid : Z) : list byte :=
  enviar_paquete (agregar_a_paquete (crear_paquete EJECUTAR_PROCESO) (le_enc 4 pid)).

Definition enviar_interrupcion (pid motivo : Z) : list byte :=
  let p := crear_paquete INTERRUPCION in
  let p := agregar_a_paquete p (le_enc 4 pid) in
  let p := agregar_a_paquete p (le_enc 4 motivo) in
  enviar_paquete p.

Definition recibir_interrupcion : lector (Z * Z) :=
  _ ← validar_buffer; pid ← recv_int; motivo ← recv_int; mret (pid, motivo).

Definition recibir_pid : lector Z := _ ← validar_buffer; recv_int.

(** [params] is the array, [cant_params] the count passed with it. *)
Definition enviar_devolver_proceso (pid motivo : Z)
    (nombre_syscall : option (list byte)) (params : list (list byte)) (cant_params : Z)
    : list byte :=
  let p := crear_paquete DEVOLVER_PROCESO in
  let p := agregar_a_paquete p (le_enc 4 pid) in
  let p := agregar_a_paquete p (le_enc 4 motivo) in
  let p :=
    match nombre_syscall with
    | None => p
    | Some nombre =>
        let p := agregar_cadena p nombre in
        let cant_params := if cant_params <? 0 then 0 else cant_params in
        let p := agregar_a_paquete p (le_enc 4 cant_params) in
        fold_left agregar_cadena (take (Z.to_nat cant_params) params) p
    end in
  enviar_paquete p.

(** The result: pid, motivo, and for a syscall its name and parameters. *)
Definition recibir_devolver_proceso
    : lector (Z * Z * option (list byte) * list (list byte)) :=
  _ ← validar_buffer;
  pid ← recv_int;
  motivo_i ← recv_int;
  if negb (motivo_i =? motivo_num MOTIVO_SYSCALL) then mret (pid, motivo_i, None, [])
  else
    nombre ← recibir_cadena;
    cant ← recv_int;
    let cant := if cant <? 0 then 0 else cant in
    params ← recibir_n recibir_cadena (Z.to_nat cant);
    mret (pid, motivo_i, Some nombre, params).

Definition enviar_lectura_memoria (pid dir_logica tamanio : Z) : list byte :=
  let p := crear_paquete LECTURA_MEMORIA in
  let p := agregar_a_paquete p (le_enc 4 pid) in
  let p := agregar_a_paquete p (le_enc 4 dir_logica) in
  let p := agregar_a_paquete p (le_enc 4 tamanio) in
  enviar_paquete p.

Definition recibir_datos_memoria (tamanio : Z) : lector (list byte) :=
  _ ← validar_buffer; recv (Z.to_nat tamanio).

(** [datos] has [tamanio] bytes. *)
Definition enviar_escritura_memoria (pid dir_logica : Z) (datos : list byte) : list byte :=
  let p := crear_paquete ESCRITURA_MEMORIA in
  let p := agregar_a_paquete p (le_enc 4 pid) in
  let p := agregar_a_paquete p (le_enc 4 dir_logica) in
  let p := agregar_a_paquete p (le_enc 4 (Z.of_nat (length datos))) in
  let p := agregar_a_paquete p datos in
  enviar_paquete p.

Definition enviar_obtener_espacio_libre : list byte :=
  enviar_paquete (crear_paquete OBTENER_ESPACIO_LIBRE).

Definition recibir_espacio_libre : lector Z := _ ← validar_buffer; recv_u32.

Definition enviar_handshake_scheduler_a_memory : list byte :=
  enviar_ok HANDSHAKE_SCHEDULER_A_MEMORY.

Definition enviar_handshake_cpu (cpu_id : Z) : list byte :=
  enviar_paquete (agregar_a_paquete (crear_paquete HANDSHAKE_CPU) (le_enc 4 cpu_id)).

Definition recibir_handshake_cpu : lector Z := _ ← validar_buffer; recv_int.

Definition enviar_handshake_io (nombre : list byte) : list byte :=
  enviar_paquete (agregar_cadena (crear_paquete HANDSHAKE_IO) nombre).

Definition recibir_handshake_io : lector (list byte) :=
  _ ← validar_buffer; recibir_cadena.

Definition enviar_handshake_swap (block_size total_size : Z) : list byte :=
  let p := crear_paquete HANDSHAKE_SWAP in
  let p := agregar_a_paquete p (le_enc 4 block_size) in
  let p := agregar_a_paquete p (le_enc 4 total_size) in
  enviar_paquete p.

Definition recibir_handshake_swap : lector (Z * Z) :=
  _ ← validar_buffer; block_size ← recv_u32; total_size ← recv_u32;
  mret (block_size, total_size).

Definition enviar_handshake_memory_stick (memory_size : Z) (ip puerto : list byte) : list byte :=
  let p := crear_paquete HANDSHAKE_MEMORY_STICK in
  let p := agregar_a_paquete p (le_enc 4 memory_size) in
  let p := agregar_cadena p ip in
  let p := agregar_cadena p puerto in
  enviar_paquete p.

Definition recibir_handshake_memory_stick : lector (Z * list byte * list byte) :=
  _ ← validar_buffer;
  memory_size ← recv_u32; ip ← recibir_cadena; puerto ← recibir_cadena;
  mret (memory_size, ip, puerto).

Definition enviar_lectura_fisica (pid dir_fisica tamanio : Z) : list byte :=
  let p := crear_paquete LECTURA_MEMORIA in
  let p := agregar_a_paquete p (le_enc 4 pid) in
  let p := agregar_a_paquete p (le_enc 4 dir_fisica) in
  let p := agregar_a_paquete p (le_enc 4 tamanio) in
  enviar_paquete p.

Definition enviar_escritura_fisica (pid dir_fisica : Z) (datos : list byte) : list byte :=
  let p := crear_paquete ESCRITURA_MEMORIA in
  let p := agregar_a_paquete p (le_enc 4 pid) in
  let p := agregar_a_paquete p (le_enc 4 dir_fisica) in
  let p := agregar_a_paquete p (le_enc 4 (Z.of_nat (length datos))) in
  let p := agregar_a_paquete p datos in
  enviar_paquete p.

Definition enviar_nueva_memoria_disponible (tamanio base_fisica : Z) (ip puerto : list byte)
    : list byte :=
  let p := crear_paquete NUEVA_MEMORIA_DISPONIBLE in
  let p := agregar_a_paquete p (le_enc 4 tamanio) in
  let p := agregar_a_paquete p (le_enc 4 base_fisica) in
  let p := agregar_cadena p ip in
  let p := agregar_cadena p puerto in
  enviar_paquete p.

Definition recibir_nueva_memoria_disponible : lector (Z * Z * list byte * list byte) :=
  _ ← validar_buffer;
  tamanio ← recv_u32; base ← recv_u32; ip ← recibir_cadena; puerto ← recibir_cadena;
  mret (tamanio, base, ip, puerto).

Definition enviar_config_mmu_cpu (segment_max_size : Z) : list byte :=
  enviar_paquete (agregar_a_paquete (crear_paquete CONFIG_MMU_CPU) (le_enc 4 segment_max_size)).

Definition recibir_config_mmu_cpu : lector Z := _ ← validar_buffer; recv_u32.

Definition enviar_memoria_corrupta : list byte := enviar_ok MEMORIA_CORRUPTA_BSOD.
Definition enviar_memoria_liberada : list byte := enviar_ok MEMORIA_LIBERADA.

(** [data] has [size] bytes. *)
Definition enviar_escritura_bloque_swap (bloque : Z) (data : list byte) : list byte :=
  let p := crear_paquete ESCRITURA_BLOQUE_SWAP in
  let p := agregar_a_paquete p (le_enc 4 bloque) in
  let p := agregar_a_paquete p data in
  enviar_paquete p.

Definition recibir_escritura_bloque_swap (size : Z) : lector (Z * list byte) :=
  _ ← validar_buffer; bloque ← recv_u32; data ← recv (Z.to_nat size); mret (bloque, data).

Definition enviar_resultado_swap (status : Z) : list byte :=
  enviar_paquete (agregar_a_paquete (crear_paquete RESPUESTA_SWAP) (le_enc 4 status)).

(** Drains the op_code itself, without looking at it. *)
Definition recibir_resultado_swap : lector Z :=
  _ ← (fun s => Some (recibir_codigo_operacion s));
  _ ← validar_buffer; recv_int.

Definition enviar_lectura_bloque_swap (bloque : Z) : list byte :=
  enviar_paquete (agregar_a_paquete (crear_paquete LECTURA_BLOQUE_SWAP) (le_enc 4 bloque)).

Definition recibir_lectura_bloque_swap : lector Z := _ ← validar_buffer; recv_u32.

(** [data] is [None] for a NULL pointer. *)
Definition enviar_bloque_swap (status : Z) (data : option (list byte)) (size : Z) : list byte :=
  let p := agregar_a_paquete (crear_paquete RESPUESTA_SWAP) (le_enc 4 status) in
  let p := match data with
           | Some d => if (status =? 0) && (size >? 0)
                       then agregar_a_paquete p (take (Z.to_nat size) d) else p
           | None => p
           end in
  enviar_paquete p.

(** The status, and the data ([None] for the NULL of a failed read). *)
Definition recibir_bloque_swap (size : Z) : lector (Z * option (list byte)) :=
  _ ← (fun s => Some (recibir_codigo_operacion s));
  _ ← validar_buffer;
  status ← recv_int;
  if negb (status =? 0) then mret (status, None)
  else data ← recv (Z.to_nat size); mret (status, Some data).

Definition enviar_io_sleep (pid tiempo_ms : Z) : list byte :=
  let p := crear_paquete IO_SLEEP in
  let p := agregar_a_paquete p (le_enc 4 pid) in
  let p := agregar_a_paquete p (le_enc 4 tiempo_ms) in
  enviar_paquete p.

Definition enviar_io_stdin (pid size : Z) : list byte :=
  let p := crear_paquete IO_STDIN in
  let p := agregar_a_paquete p (le_enc 4 pid) in
  let p := agregar_a_paquete p (le_enc 4 size) in
  enviar_paquete p.

Definition enviar_io_stdout (pid : Z) (datos : list byte) : list byte :=
  let p := crear_paquete IO_STDOUT in
  let p := agregar_a_paquete p (le_enc 4 pid) in
  let p := agregar_a_paquete p datos in
  enviar_paquete p.

Definition enviar_fin_io (pid : Z) : list byte :=
  enviar_paquete (agregar_a_paquete (crear_paquete IO_FINALIZADA) (le_enc 4 pid)).

Definition recibir_fin_io : lector Z := _ ← validar_buffer; recv_int.

Definition enviar_datos_stdin (pid : Z) (datos : list byte) : list byte :=
  let p := crear_paquete IO_FINALIZADA in
  let p := agregar_a_paquete p (le_enc 4 pid) in
  let p := agregar_a_paquete p datos in
  enviar_paquete p.

Definition recibir_datos_stdin (size : Z) : lector (Z * list byte) :=
  _ ← validar_buffer; pid ← recv_int; datos ← recv_datos size; mret (pid, datos).

Definition enviar_suspender_proceso (pid : Z) : list byte :=
  enviar_paquete (agregar_a_paquete (crear_paquete SUSPENDER_PROCESO) (le_enc 4 pid)).

Definition recibir_suspender_proceso : lector Z := _ ← validar_buffer; recv_int.

Definition enviar_des_suspender_proceso (pid : Z) : list byte :=
  enviar_paquete (agregar_a_paquete (crear_paquete DES_SUSPENDER_PROCESO) (le_enc 4 pid)).

Definition recibir_des_suspender_proceso : lector Z := _ ← validar_buffer; recv_int.

Definition enviar_solicitar_segmento (pid id_segmento tamanio : Z) : list byte :=
  let p := crear_paquete SOLICITAR_SEGMENTO in
  let p := agregar_a_paquete p (le_enc 4 pid) in
  let p := agregar_a_paquete p (le_enc 4 id_segmento) in
  let p := agregar_a_paquete p (le_enc 4 tamanio) in
  enviar_paquete p.

Definition recibir_respuesta_segmento : lector (Z * Z * Z) :=
  _ ← validar_buffer; id ← recv_u32; base ← recv_u32; limite ← recv_u32;
  mret (id, base, limite).

Definition enviar_eliminar_segmento (pid id_segmento : Z) : list byte :=
  let p := crear_paquete ELIMINAR_SEGMENTO in
  let p := agregar_a_paquete p (le_enc 4 pid) in
  let p := agregar_a_paquete p (le_enc 4 id_segmento) in
  enviar_paquete p.

Definition enviar_finalizar_proceso_memory (pid : Z) : list byte :=
  enviar_paquete (agregar_a_paquete (crear_paquete FINALIZAR_PROCESO) (le_enc 4 pid)).

(** Replies that Memory and the sticks build by hand, one field after another
    ([memory_scheduler.c], [memory_cpu.c], [utils_memory_stick.c]). *)
Definition enviar_respuesta_segmento (id base limite : Z) : list byte :=
  let p := crear_paquete SOLICITAR_SEGMENTO in
  let p := agregar_a_paquete p (le_enc 4 id) in
  let p := agregar_a_paquete p (le_enc 4 base) in
  let p := agregar_a_paquete p (le_enc 4 limite) in
  enviar_paquete p.

Definition enviar_respuesta_espacio (espacio : Z) : list byte :=
  enviar_paquete (agregar_a_paquete (crear_paquete OBTENER_ESPACIO_LIBRE) (le_enc 4 espacio)).

Definition enviar_respuesta_instruccion (linea : list byte) : list byte :=
  enviar_paquete (agregar_cadena (crear_paquete OBTENER_INSTRUCCION) linea).

Definition enviar_respuesta_lectura (datos : list byte) : list byte :=
  enviar_paquete (agregar_a_paquete (crear_paquete LECTURA_MEMORIA) datos).

(** The fields that the handlers of Memory and of the sticks read inline, after
    [validar_buffer]. *)
Definition campos_pid : lector Z := recv_int.
Definition campos_pid_u32 : lector (Z * Z) := pid ← recv_int; a ← recv_u32; mret (pid, a).
Definition campos_pid_u32_u32 : lector (Z * Z * Z) :=
  pid ← recv_int; a ← recv_u32; b ← recv_u32; mret (pid, a, b).
Definition campos_escritura : lector (Z * Z * Z * list byte) :=
  pid ← recv_int; dir ← recv_u32; tam ← recv_u32; datos ← recv (Z.to_nat tam);
  mret (pid, dir, tam, datos).

(** ** Protocols: a sender, its receiver, and what the receiver must obtain *)
Record protocolo := Protocolo {
  dato : Type;
  recibido : Type;
  p_op : op_code;
  p_enviar : dato -> list byte;
  p_recibir : lector recibido;
  p_valido : dato -> Prop;
  p_imagen : dato -> recibido }.

(** The law: a valid datum travels as one framed message, from which the
    receiver obtains its image and nothing more is consumed. *)
Class ProtocoloOk (p : protocolo) : Prop :=
  protocolo_ok : forall d, p_valido p d ->
    exists pl, p_enviar p d = trama (p_op p) pl /\ recibe (p_recibir p) pl (p_imagen p d).

(** Strings, lists and data blocks of a size the packet's [int] can hold. *)
Definition cadena_ok (c : list byte) : Prop :=
  es_cadena c /\ Z.of_nat (length c) <= 536870912.
Definition datos_ok (d : list byte) : Prop := Z.of_nat (length d) <= 1073741824.
Definition segmentos_ok (l : list t_segmento) : Prop :=
  Forall segmento_ok l /\ Z.of_nat (length l) <= 16777216.
Definition params_ok (l : list (list byte)) : Prop :=
  Forall cadena_ok l /\ Z.of_nat (length (l ≫= cadena_wire)) <= 1073741824.

Lemma lee_n {A} (m : lector A) (g : A -> list byte) l :
  Forall (fun a => lee m (g a) a) l -> lee (recibir_n m (length l)) (l ≫= g) l.
Proof.
  induction 1 as [|a l Ha Hl IH]; cbn; [apply lee_ret|].
  eapply lee_bind; [done|]. eapply lee_bind_last; [done|]. apply lee_ret.
Qed.

Lemma lee_segmentos l :
  segmentos_ok l -> lee (recibir_n recibir_segmento (Z.to_nat (Z.of_nat (length l)))) (l ≫= segmento_bytes) l.
Proof.
  intros [Hl _]. rewrite Nat2Z.id. apply lee_n.
  eapply Forall_impl; [done|]. intros s Hs. by apply lee_segmento.
Qed.

Lemma lee_cadena_ok c : cadena_ok c -> lee recibir_cadena (cadena_wire c) c.
Proof. intros [Hc Hl]. apply lee_cadena; [done|lia]. Qed.

Lemma lee_params l :
  params_ok l -> lee (recibir_n recibir_cadena (Z.to_nat (Z.of_nat (length l)))) (l ≫= cadena_wire) l.
Proof.
  intros [Hl _]. rewrite Nat2Z.id. apply lee_n.
  eapply Forall_impl; [done|]. intros s Hs. by apply lee_cadena_ok.
Qed.

Lemma lee_bloque d n : n = Z.of_nat (length d) -> lee (recv (Z.to_nat n)) d d.
Proof. intros ->. rewrite Nat2Z.id. apply lee_recv. Qed.

Lemma lee_datos_ok d n : n = Z.of_nat (length d) -> datos_ok d -> lee (recv_datos n) d d.
Proof. intros -> Hd. apply lee_datos. unfold datos_ok in Hd. lia. Qed.

Lemma lee_int_long {A} (l : list A) :
  Z.of_nat (length l) <= 1073741824 ->
  lee recv_int (le_enc 4 (Z.of_nat (length l))) (Z.of_nat (length l)).
Proof. intros H. apply lee_int_ok. unfold es_int. lia. Qed.

Lemma length_segmentos_wire l : length (l ≫= segmento_bytes) = (16 * length l)%nat.
Proof.
  induction l as [|a l IH]; [done|].
  rewrite bind_cons, length_app, length_segmento_bytes, IH. cbn [length]. lia.
Qed.

Lemma construye_registros p op pl r :
  construye p op pl -> construye (agregar_registros p r) op (pl ++ registros_bytes r).
Proof. apply construye_agregar. Qed.

Lemma construye_segmentos p op pl l :
  construye p op pl -> construye (fold_left agregar_segmento l p) op (pl ++ (l ≫= segmento_bytes)).
Proof. apply construye_fold. intros. by apply construye_agregar. Qed.

Lemma construye_cadenas p op pl l :
  construye p op pl -> construye (fold_left agregar_cadena l p) op (pl ++ (l ≫= cadena_wire)).
Proof. apply construye_fold. intros. by apply construye_cadena. Qed.

Lemma lee_cuenta_segmentos l :
  segmentos_ok l -> lee recv_int (le_enc 4 (Z.of_nat (length l))) (Z.of_nat (length l)).
Proof. intros [_ H]. apply lee_int_long. lia. Qed.

Lemma length_params_wire l : (length l <= length (l ≫= cadena_wire))%nat.
Proof.
  induction l as [|c l IH]; [done|].
  rewrite bind_cons, length_app. unfold cadena_wire at 1. rewrite length_app, length_le_enc.
  cbn [length]. lia.
Qed.

Lemma lee_cuenta_params l :
  params_ok l -> lee recv_int (le_enc 4 (Z.of_nat (length l))) (Z.of_nat (length l)).
Proof. intros [_ H]. apply lee_int_long. pose proof (length_params_wire l). lia. Qed.

Lemma lee_cuenta_datos d :
  datos_ok d -> lee recv_u32 (le_enc 4 (Z.of_nat (length d))) (Z.of_nat (length d)).
Proof. unfold datos_ok. intros H. apply lee_u32_ok. unfold es_u32. lia. Qed.

#[export] Hint Resolve construye_registros construye_segmentos construye_cadenas
  lee_segmentos lee_cadena_ok lee_params lee_bloque lee_datos_ok lee_int_long
  lee_cuenta_segmentos lee_cuenta_params lee_cuenta_datos : wire.

(** The proof of a protocol's law: the packet is built field by field
    ([construye]), its size is small, and the reader consumes the same fields
    ([lee]). *)
Ltac longitud_wire :=
  repeat match goal with
  | H : cadena_ok _ |- _ => destruct H as [?Hc ?Hl]
  | H : segmentos_ok _ |- _ => destruct H as [_ ?Hl]
  | H : params_ok _ |- _ => destruct H as [_ ?Hl]
  end;
  unfold MAX_PAYLOAD, datos_ok in *;
  rewrite ?length_cadena_wire, ?length_segmentos_wire by done;
  autorewrite with largo;
  rewrite ?length_segmentos_wire, ?length_cadena_wire by done; cbn [length]; lia.

Ltac resolver_protocolo :=
  cbn [p_enviar p_op p_recibir p_imagen p_valido dato recibido];
  eexists; split;
  [ eapply enviar_construido; [solve [eauto 12 with wire]|]; longitud_wire
  | rewrite ?app_nil_l, <-?app_assoc; eapply recibe_lee; [|longitud_wire]; leer_campos; eauto with wire ].

Definition p_obtener_instruccion : protocolo :=
  Protocolo (Z * Z) (Z * Z) OBTENER_INSTRUCCION (fun '(pid, pc) => enviar_obtener_instruccion pid pc)
    (_ ← validar_buffer; campos_pid_u32)
    (fun '(pid, pc) => es_int pid /\ es_u32 pc) id.

Definition p_instruccion : protocolo :=
  Protocolo (list byte) (list byte) OBTENER_INSTRUCCION (fun linea => enviar_respuesta_instruccion linea)
    recibir_instruccion
    (fun linea => cadena_ok linea) id.

Definition p_solicitar_contexto : protocolo :=
  Protocolo (Z) (Z) OBTENER_CONTEXTO (fun pid => enviar_solicitar_contexto pid)
    (_ ← validar_buffer; campos_pid)
    (fun pid => es_int pid) id.

Definition p_contexto : protocolo :=
  Protocolo (t_registros * list t_segmento) (t_registros * list t_segmento) OBTENER_CONTEXTO (fun '(r, segs) => enviar_contexto_proceso r segs)
    recibir_contexto
    (fun '(r, segs) => registros_ok r /\ segmentos_ok segs) id.

Definition p_actualizar_contexto : protocolo :=
  Protocolo (t_contexto) (t_contexto) ACTUALIZAR_CONTEXTO (fun c => enviar_actualizar_contexto c)
    recibir_contexto_actualizar
    (fun c => es_u32 (c_pid c) /\ registros_ok (c_registros c) /\ segmentos_ok (tabla_segmentos c)) id.

Definition p_crear_proceso : protocolo :=
  Protocolo (Z * list byte) (Z * list byte) CREAR_PROCESO (fun '(pid, path) => enviar_crear_proceso pid path)
    recibir_crear_proceso
    (fun '(pid, path) => es_int pid /\ cadena_ok path) id.

Definition p_pid : protocolo :=
  Protocolo (Z) (Z) EJECUTAR_PROCESO (fun pid => enviar_pid pid)
    recibir_pid
    (fun pid => es_int pid) id.

Definition p_interrupcion : protocolo :=
  Protocolo (Z * Z) (Z * Z) INTERRUPCION (fun '(pid, motivo) => enviar_interrupcion pid motivo)
    recibir_interrupcion
    (fun '(pid, motivo) => es_int pid /\ es_int motivo) id.

Definition p_lectura_memoria : protocolo :=
  Protocolo (Z * Z * Z) (Z * Z * Z) LECTURA_MEMORIA (fun '(pid, dir, tam) => enviar_lectura_memoria pid dir tam)
    (_ ← validar_buffer; campos_pid_u32_u32)
    (fun '(pid, dir, tam) => es_int pid /\ es_u32 dir /\ es_u32 tam) id.

Definition p_escritura_memoria : protocolo :=
  Protocolo (Z * Z * list byte) (Z * Z * Z * list byte) ESCRITURA_MEMORIA (fun '(pid, dir, datos) => enviar_escritura_memoria pid dir datos)
    (_ ← validar_buffer; campos_escritura)
    (fun '(pid, dir, datos) => es_int pid /\ es_u32 dir /\ datos_ok datos) (fun '(pid, dir, datos) => (pid, dir, Z.of_nat (length datos), datos)).

Definition p_espacio_libre : protocolo :=
  Protocolo (Z) (Z) OBTENER_ESPACIO_LIBRE (fun e => enviar_respuesta_espacio e)
    recibir_espacio_libre
    (fun e => es_u32 e) id.

Definition p_handshake_cpu : protocolo :=
  Protocolo (Z) (Z) HANDSHAKE_CPU (fun cpu_id => enviar_handshake_cpu cpu_id)
    recibir_handshake_cpu
    (fun cpu_id => es_int cpu_id) id.

Definition p_handshake_io : protocolo :=
  Protocolo (list byte) (list byte) HANDSHAKE_IO (fun nombre => enviar_handshake_io nombre)
    recibir_handshake_io
    (fun nombre => cadena_ok nombre) id.

Definition p_handshake_swap : protocolo :=
  Protocolo (Z * Z) (Z * Z) HANDSHAKE_SWAP (fun '(bs, total) => enviar_handshake_swap bs total)
    recibir_handshake_swap
    (fun '(bs, total) => es_u32 bs /\ es_u32 total) id.

Definition p_handshake_memory_stick : protocolo :=
  Protocolo (Z * list byte * list byte) (Z * list byte * list byte) HANDSHAKE_MEMORY_STICK (fun '(tam, ip, puerto) => enviar_handshake_memory_stick tam ip puerto)
    recibir_handshake_memory_stick
    (fun '(tam, ip, puerto) => es_u32 tam /\ cadena_ok ip /\ cadena_ok puerto) id.

Definition p_lectura_fisica : protocolo :=
  Protocolo (Z * Z * Z) (Z * Z * Z) LECTURA_MEMORIA (fun '(pid, dir, tam) => enviar_lectura_fisica pid dir tam)
    (_ ← validar_buffer; campos_pid_u32_u32)
    (fun '(pid, dir, tam) => es_int pid /\ es_u32 dir /\ es_u32 tam) id.

Definition p_escritura_fisica : protocolo :=
  Protocolo (Z * Z * list byte) (Z * Z * Z * list byte) ESCRITURA_MEMORIA (fun '(pid, dir, datos) => enviar_escritura_fisica pid dir datos)
    (_ ← validar_buffer; campos_escritura)
    (fun '(pid, dir, datos) => es_int pid /\ es_u32 dir /\ datos_ok datos) (fun '(pid, dir, datos) => (pid, dir, Z.of_nat (length datos), datos)).

Definition p_nueva_memoria : protocolo :=
  Protocolo (Z * Z * list byte * list byte) (Z * Z * list byte * list byte) NUEVA_MEMORIA_DISPONIBLE (fun '(tam, base, ip, puerto) => enviar_nueva_memoria_disponible tam base ip puerto)
    recibir_nueva_memoria_disponible
    (fun '(tam, base, ip, puerto) => es_u32 tam /\ es_u32 base /\ cadena_ok ip /\ cadena_ok puerto) id.

Definition p_config_mmu : protocolo :=
  Protocolo (Z) (Z) CONFIG_MMU_CPU (fun s => enviar_config_mmu_cpu s)
    recibir_config_mmu_cpu
    (fun s => es_u32 s) id.

Definition p_lectura_bloque_swap : protocolo :=
  Protocolo (Z) (Z) LECTURA_BLOQUE_SWAP (fun b => enviar_lectura_bloque_swap b)
    recibir_lectura_bloque_swap
    (fun b => es_u32 b) id.

Definition p_io_sleep : protocolo :=
  Protocolo (Z * Z) (Z * Z) IO_SLEEP (fun '(pid, ms) => enviar_io_sleep pid ms)
    (_ ← validar_buffer; pid ← recv_int; ms ← recv_int; mret (pid, ms))
    (fun '(pid, ms) => es_int pid /\ es_int ms) id.

Definition p_io_stdin : protocolo :=
  Protocolo (Z * Z) (Z * Z) IO_STDIN (fun '(pid, n) => enviar_io_stdin pid n)
    (_ ← validar_buffer; pid ← recv_int; n ← recv_int; mret (pid, n))
    (fun '(pid, n) => es_int pid /\ es_int n) id.

Definition p_fin_io : protocolo :=
  Protocolo (Z) (Z) IO_FINALIZADA (fun pid => enviar_fin_io pid)
    recibir_fin_io
    (fun pid => es_int pid) id.

Definition p_suspender : protocolo :=
  Protocolo (Z) (Z) SUSPENDER_PROCESO (fun pid => enviar_suspender_proceso pid)
    recibir_suspender_proceso
    (fun pid => es_int pid) id.

Definition p_des_suspender : protocolo :=
  Protocolo (Z) (Z) DES_SUSPENDER_PROCESO (fun pid => enviar_des_suspender_proceso pid)
    recibir_des_suspender_proceso
    (fun pid => es_int pid) id.

Definition p_solicitar_segmento : protocolo :=
  Protocolo (Z * Z * Z) (Z * Z * Z) SOLICITAR_SEGMENTO (fun '(pid, i, t) => enviar_solicitar_segmento pid i t)
    (_ ← validar_buffer; campos_pid_u32_u32)
    (fun '(pid, i, t) => es_int pid /\ es_u32 i /\ es_u32 t) id.

Definition p_respuesta_segmento : protocolo :=
  Protocolo (Z * Z * Z) (Z * Z * Z) SOLICITAR_SEGMENTO (fun '(i, b, l) => enviar_respuesta_segmento i b l)
    recibir_respuesta_segmento
    (fun '(i, b, l) => es_u32 i /\ es_u32 b /\ es_u32 l) id.

Definition p_eliminar_segmento : protocolo :=
  Protocolo (Z * Z) (Z * Z) ELIMINAR_SEGMENTO (fun '(pid, i) => enviar_eliminar_segmento pid i)
    (_ ← validar_buffer; campos_pid_u32)
    (fun '(pid, i) => es_int pid /\ es_u32 i) id.

Definition p_finalizar_proceso : protocolo :=
  Protocolo (Z) (Z) FINALIZAR_PROCESO (fun pid => enviar_finalizar_proceso_memory pid)
    (_ ← validar_buffer; campos_pid)
    (fun pid => es_int pid) id.

(** Messages whose reader needs to know a size beforehand, or that end the
    conversation with a fixed sentinel. *)
Definition p_ok (op : op_code) : protocolo :=
  Protocolo unit unit op (fun _ => enviar_ok op) recibir_ok (fun _ => True) id.

Definition p_datos_memoria (n : Z) : protocolo :=
  Protocolo (list byte) (list byte) LECTURA_MEMORIA enviar_respuesta_lectura
    (recibir_datos_memoria n) (fun d => n = Z.of_nat (length d) /\ datos_ok d) id.

Definition p_escritura_bloque_swap (n : Z) : protocolo :=
  Protocolo (Z * list byte) (Z * list byte) ESCRITURA_BLOQUE_SWAP
    (fun '(b, d) => enviar_escritura_bloque_swap b d) (recibir_escritura_bloque_swap n)
    (fun '(b, d) => es_u32 b /\ n = Z.of_nat (length d) /\ datos_ok d) id.

Definition p_datos_stdin (n : Z) : protocolo :=
  Protocolo (Z * list byte) (Z * list byte) IO_FINALIZADA
    (fun '(pid, d) => enviar_datos_stdin pid d) (recibir_datos_stdin n)
    (fun '(pid, d) => es_int pid /\ n = Z.of_nat (length d) /\ datos_ok d) id.

Definition p_io_stdout (n : Z) : protocolo :=
  Protocolo (Z * list byte) (Z * list byte) IO_STDOUT
    (fun '(pid, d) => enviar_io_stdout pid d)
    (_ ← validar_buffer; pid ← recv_int; d ← recv (Z.to_nat n); mret (pid, d))
    (fun '(pid, d) => es_int pid /\ n = Z.of_nat (length d) /\ datos_ok d) id.

(** The answers of Swap. Their readers take the op_code themselves: these are the
    rest of them ([lectores_swap]). *)
Definition p_resultado_swap : protocolo :=
  Protocolo Z Z RESPUESTA_SWAP enviar_resultado_swap (_ ← validar_buffer; recv_int) es_int id.

Definition p_bloque_swap (n : Z) : protocolo :=
  Protocolo (Z * list byte) (Z * option (list byte)) RESPUESTA_SWAP
    (fun '(status, d) => enviar_bloque_swap status (Some d) n)
    (_ ← validar_buffer; status ← recv_int;
     if negb (status =? 0) then mret (status, None) else data ← recv (Z.to_nat n); mret (status, Some data))
    (fun '(status, d) => es_int status /\ n = Z.of_nat (length d) /\ 0 < n <= 1073741824)
    (fun '(status, d) => if status =? 0 then (status, Some d) else (status, None)).

Lemma lectores_swap n :
  recibir_resultado_swap = (_ ← (fun s => Some (recibir_codigo_operacion s)); p_recibir p_resultado_swap) /\
  recibir_bloque_swap n = (_ ← (fun s => Some (recibir_codigo_operacion s)); p_recibir (p_bloque_swap n)).
Proof. done. Qed.

(** [DEVOLVER_PROCESO]: name and parameters travel exactly when the motive is a
    syscall; a negative count is sent as 0. *)
Definition devolucion : Type :=
  Z * t_motivo_devolucion * option (list byte) * list (list byte).

Definition devolucion_valida (d : devolucion) : Prop :=
  let '(pid, motivo, nombre, params) := d in
  es_int pid /\ params_ok params /\
  match nombre with
  | None => motivo <> MOTIVO_SYSCALL /\ params = []
  | Some n => motivo = MOTIVO_SYSCALL /\ cadena_ok n
  end.

Definition p_devolver_proceso : protocolo :=
  Protocolo devolucion (Z * Z * option (list byte) * list (list byte)) DEVOLVER_PROCESO
    (fun '(pid, motivo, nombre, params) =>
       enviar_devolver_proceso pid (motivo_num motivo) nombre params (Z.of_nat (length params)))
    recibir_devolver_proceso devolucion_valida
    (fun '(pid, motivo, nombre, params) => (pid, motivo_num motivo, nombre, params)).

(** ** The laws *)

#[export] Instance p_obtener_instruccion_ok : ProtocoloOk p_obtener_instruccion.
Proof. intros [pid pc] (H0 & H1). cbn in *. unfold enviar_obtener_instruccion, campos_pid_u32. resolver_protocolo. Qed.
#[export] Instance p_instruccion_ok : ProtocoloOk p_instruccion.
Proof. intros linea H. cbn in *. unfold enviar_respuesta_instruccion, recibir_instruccion. resolver_protocolo. Qed.
#[export] Instance p_solicitar_contexto_ok : ProtocoloOk p_solicitar_contexto.
Proof. intros pid H. cbn in *. unfold enviar_solicitar_contexto, campos_pid. resolver_protocolo. Qed.
#[export] Instance p_contexto_ok : ProtocoloOk p_contexto.
Proof. intros [r segs] (H0 & H1). cbn in *. unfold enviar_contexto_proceso, recibir_contexto. resolver_protocolo. Qed.
#[export] Instance p_actualizar_contexto_ok : ProtocoloOk p_actualizar_contexto.
Proof. intros [pid r segs] (H0 & H1 & H2). cbn in *. unfold enviar_actualizar_contexto, recibir_contexto_actualizar. cbn [c_pid c_registros tabla_segmentos]. resolver_protocolo. Qed.
#[export] Instance p_crear_proceso_ok : ProtocoloOk p_crear_proceso.
Proof. intros [pid path] (H0 & H1). cbn in *. unfold enviar_crear_proceso, recibir_crear_proceso. resolver_protocolo. Qed.
#[export] Instance p_pid_ok : ProtocoloOk p_pid.
Proof. intros pid H. cbn in *. unfold enviar_pid, recibir_pid. resolver_protocolo. Qed.
#[export] Instance p_interrupcion_ok : ProtocoloOk p_interrupcion.
Proof. intros [pid motivo] (H0 & H1). cbn in *. unfold enviar_interrupcion, recibir_interrupcion. resolver_protocolo. Qed.
#[export] Instance p_lectura_memoria_ok : ProtocoloOk p_lectura_memoria.
Proof. intros [[pid dir] tam] (H0 & H1 & H2). cbn in *. unfold enviar_lectura_memoria, campos_pid_u32_u32. resolver_protocolo. Qed.
#[export] Instance p_escritura_memoria_ok : ProtocoloOk p_escritura_memoria.
Proof. intros [[pid dir] datos] (H0 & H1 & H2). cbn in *. unfold enviar_escritura_memoria, campos_escritura. resolver_protocolo. Qed.
#[export] Instance p_espacio_libre_ok : ProtocoloOk p_espacio_libre.
Proof. intros e H. cbn in *. unfold enviar_respuesta_espacio, recibir_espacio_libre. resolver_protocolo. Qed.
#[export] Instance p_handshake_cpu_ok : ProtocoloOk p_handshake_cpu.
Proof. intros cpu_id H. cbn in *. unfold enviar_handshake_cpu, recibir_handshake_cpu. resolver_protocolo. Qed.
#[export] Instance p_handshake_io_ok : ProtocoloOk p_handshake_io.
Proof. intros nombre H. cbn in *. unfold enviar_handshake_io, recibir_handshake_io. resolver_protocolo. Qed.
#[export] Instance p_handshake_swap_ok : ProtocoloOk p_handshake_swap.
Proof. intros [bs total] (H0 & H1). cbn in *. unfold enviar_handshake_swap, recibir_handshake_swap. resolver_protocolo. Qed.
#[export] Instance p_handshake_memory_stick_ok : ProtocoloOk p_handshake_memory_stick.
Proof. intros [[tam ip] puerto] (H0 & H1 & H2). cbn in *. unfold enviar_handshake_memory_stick, recibir_handshake_memory_stick. resolver_protocolo. Qed.
#[export] Instance p_lectura_fisica_ok : ProtocoloOk p_lectura_fisica.
Proof. intros [[pid dir] tam] (H0 & H1 & H2). cbn in *. unfold enviar_lectura_fisica, campos_pid_u32_u32. resolver_protocolo. Qed.
#[export] Instance p_escritura_fisica_ok : ProtocoloOk p_escritura_fisica.
Proof. intros [[pid dir] datos] (H0 & H1 & H2). cbn in *. unfold enviar_escritura_fisica, campos_escritura. resolver_protocolo. Qed.
#[export] Instance p_nueva_memoria_ok : ProtocoloOk p_nueva_memoria.
Proof. intros [[[tam base] ip] puerto] (H0 & H1 & H2 & H3). cbn in *. unfold enviar_nueva_memoria_disponible, recibir_nueva_memoria_disponible. resolver_protocolo. Qed.
#[export] Instance p_config_mmu_ok : ProtocoloOk p_config_mmu.
Proof. intros s H. cbn in *. unfold enviar_config_mmu_cpu, recibir_config_mmu_cpu. resolver_protocolo. Qed.
#[export] Instance p_lectura_bloque_swap_ok : ProtocoloOk p_lectura_bloque_swap.
Proof. intros b H. cbn in *. unfold enviar_lectura_bloque_swap, recibir_lectura_bloque_swap. resolver_protocolo. Qed.
#[export] Instance p_io_sleep_ok : ProtocoloOk p_io_sleep.
Proof. intros [pid ms] (H0 & H1). cbn in *. unfold enviar_io_sleep. resolver_protocolo. Qed.
#[export] Instance p_io_stdin_ok : ProtocoloOk p_io_stdin.
Proof. intros [pid n] (H0 & H1). cbn in *. unfold enviar_io_stdin. resolver_protocolo. Qed.
#[export] Instance p_fin_io_ok : ProtocoloOk p_fin_io.
Proof. intros pid H. cbn in *. unfold enviar_fin_io, recibir_fin_io. resolver_protocolo. Qed.
#[export] Instance p_suspender_ok : ProtocoloOk p_suspender.
Proof. intros pid H. cbn in *. unfold enviar_suspender_proceso, recibir_suspender_proceso. resolver_protocolo. Qed.
#[export] Instance p_des_suspender_ok : ProtocoloOk p_des_suspender.
Proof. intros pid H. cbn in *. unfold enviar_des_suspender_proceso, recibir_des_suspender_proceso. resolver_protocolo. Qed.
#[export] Instance p_solicitar_segmento_ok : ProtocoloOk p_solicitar_segmento.
Proof. intros [[pid i] t] (H0 & H1 & H2). cbn in *. unfold enviar_solicitar_segmento, campos_pid_u32_u32. resolver_protocolo. Qed.
#[export] Instance p_respuesta_segmento_ok : ProtocoloOk p_respuesta_segmento.
Proof. intros [[i b] l] (H0 & H1 & H2). cbn in *. unfold enviar_respuesta_segmento, recibir_respuesta_segmento. resolver_protocolo. Qed.
#[export] Instance p_eliminar_segmento_ok : ProtocoloOk p_eliminar_segmento.
Proof. intros [pid i] (H0 & H1). cbn in *. unfold enviar_eliminar_segmento, campos_pid_u32. resolver_protocolo. Qed.
#[export] Instance p_finalizar_proceso_ok : ProtocoloOk p_finalizar_proceso.
Proof. intros pid H. cbn in *. unfold enviar_finalizar_proceso_memory, campos_pid. resolver_protocolo. Qed.

#[export] Instance p_ok_ok op : ProtocoloOk (p_ok op).
Proof. intros [] _. cbn. unfold enviar_ok, recibir_ok. resolver_protocolo. Qed.

#[export] Instance p_datos_memoria_ok n : ProtocoloOk (p_datos_memoria n).
Proof. intros d [Hn Hd]. cbn in *. unfold enviar_respuesta_lectura, recibir_datos_memoria. resolver_protocolo. Qed.

#[export] Instance p_escritura_bloque_swap_ok n : ProtocoloOk (p_escritura_bloque_swap n).
Proof.
  intros [b d] (Hb & Hn & Hd). cbn in *.
  unfold enviar_escritura_bloque_swap, recibir_escritura_bloque_swap. resolver_protocolo.
Qed.

#[export] Instance p_datos_stdin_ok n : ProtocoloOk (p_datos_stdin n).
Proof.
  intros [pid d] (Hp & Hn & Hd). cbn in *.
  unfold enviar_datos_stdin, recibir_datos_stdin. resolver_protocolo.
Qed.

#[export] Instance p_io_stdout_ok n : ProtocoloOk (p_io_stdout n).
Proof. intros [pid d] (Hp & Hn & Hd). cbn in *. unfold enviar_io_stdout. resolver_protocolo. Qed.

#[export] Instance p_resultado_swap_ok : ProtocoloOk p_resultado_swap.
Proof. intros st H. cbn in *. unfold enviar_resultado_swap. resolver_protocolo. Qed.

#[export] Instance p_bloque_swap_ok n : ProtocoloOk (p_bloque_swap n).
Proof.
  intros [st d] (Hs & -> & Hd). cbn [p_enviar p_op p_recibir p_imagen p_bloque_swap]. unfold enviar_bloque_swap.
  destruct (Z.gtb_spec (Z.of_nat (length d)) 0); [|lia]. rewrite andb_true_r, Nat2Z.id, firstn_all.
  exists (le_enc 4 st ++ (if st =? 0 then d else [])). split.
  - apply enviar_construido.
    + assert (Hc : construye (agregar_a_paquete (crear_paquete RESPUESTA_SWAP) (le_enc 4 st)) RESPUESTA_SWAP (le_enc 4 st))
        by apply (construye_agregar _ _ []), construye_crear.
      destruct (st =? 0); rewrite ?app_nil_r; eauto with wire.
    + rewrite length_app, length_le_enc. unfold MAX_PAYLOAD. destruct (st =? 0); cbn [length]; lia.
  - eapply recibe_lee.
    + eapply lee_bind; [eauto with wire|]. cbn beta. destruct (st =? 0); cbn [negb]; [|apply lee_ret].
      eapply lee_bind_last; [apply lee_recv|apply lee_ret].
    + rewrite length_app, length_le_enc. unfold MAX_PAYLOAD. destruct (st =? 0); cbn [length]; lia.
Qed.

#[export] Instance p_devolver_proceso_ok : ProtocoloOk p_devolver_proceso.
Proof.
  intros [[[pid motivo] nombre] params] (Hp & Hps & Hn).
  cbn [p_enviar p_op p_recibir p_imagen p_valido dato recibido p_devolver_proceso].
  unfold enviar_devolver_proceso, recibir_devolver_proceso.
  assert (Hm : es_int (motivo_num motivo)) by (destruct motivo; unfold es_int; vm_compute; split; congruence).
  destruct nombre as [n|]; destruct Hn as [Hmo Hn].
  - subst motivo. destruct (Z.ltb_spec (Z.of_nat (length params)) 0); [lia|].
    rewrite Nat2Z.id, firstn_all.
    assert (H' : Z.of_nat (length (params ≫= cadena_wire)) <= 1073741824) by apply Hps.
    eexists; split.
    + eapply enviar_construido; [solve [eauto 12 with wire]|]. longitud_wire.
    + rewrite ?app_nil_l, <-?app_assoc. eapply recibe_lee; [|longitud_wire].
      leer_campos. cbn [negb]. change (negb (_ =? _)) with false. cbn iota.
      leer_campos. destruct (Z.ltb_spec (Z.of_nat (length params)) 0); [lia|]. leer_campos.
  - subst params. eexists; split.
    + eapply enviar_construido; [solve [eauto 12 with wire]|]. longitud_wire.
    + rewrite ?app_nil_l, <-?app_assoc. eapply recibe_lee; [|longitud_wire].
      leer_campos. destruct (Z.eqb_spec (motivo_num motivo) (motivo_num MOTIVO_SYSCALL)) as [E|E].
      * by destruct motivo.
      * leer_campos.
Qed.

(** ** The table of protocols *)

Definition protocolos : list protocolo :=
  [p_obtener_instruccion; p_instruccion; p_solicitar_contexto; p_contexto;
   p_actualizar_contexto; p_crear_proceso; p_pid; p_interrupcion; p_devolver_proceso;
   p_lectura_memoria; p_escritura_memoria; p_espacio_libre; p_handshake_cpu;
   p_handshake_io; p_handshake_swap; p_handshake_memory_stick; p_lectura_fisica;
   p_escritura_fisica; p_nueva_memoria; p_config_mmu; p_lectura_bloque_swap;
   p_io_sleep; p_io_stdin; p_fin_io; p_suspender; p_des_suspender;
   p_solicitar_segmento; p_respuesta_segmento; p_eliminar_segmento;
   p_finalizar_proceso; p_resultado_swap] ++ (p_ok <$> op_codes).

(** The readers that are told the size of a data block. *)
Definition protocolos_de_tamanio (n : Z) : list protocolo :=
  [p_datos_memoria n; p_escritura_bloque_swap n; p_datos_stdin n; p_io_stdout n; p_bloque_swap n].

Lemma protocolos_ok n : Forall ProtocoloOk (protocolos ++ protocolos_de_tamanio n).
Proof.
  apply Forall_app; split; [apply Forall_app; split|].
  - repeat first [apply Forall_nil; exact I | apply Forall_cons; split; [exact _|]].
  - apply Forall_fmap. apply Forall_true. intros op. exact (p_ok_ok op).
  - repeat first [apply Forall_nil; exact I | apply Forall_cons; split; [exact _|]].
Qed.

(** A message together with the datum it carries. *)
Definition mensaje : Type := { p : protocolo & dato p }.
Definition mensaje_bytes (m : mensaje) : list byte := p_enviar (projT1 m) (projT2 m).
Definition mensaje_valido (m : mensaje) : Prop := p_valido (projT1 m) (projT2 m).

(** [lee_sesion ms s s']: a peer that reads an op_code, then the receiver of
    that op_code, again and again, obtains from [s] the messages [ms] and leaves
    [s']. *)
Inductive lee_sesion : list mensaje -> list byte -> list byte -> Prop :=
| sesion_fin s : lee_sesion [] s s
| sesion_mensaje (m : mensaje) ms s s1 s2 s3 :
    recibir_codigo_operacion s = (op_num (p_op (projT1 m)), s1) ->
    p_recibir (projT1 m) s1 = Some (p_imagen (projT1 m) (projT2 m), s2) ->
    lee_sesion ms s2 s3 ->
    lee_sesion (m :: ms) s s3.

Lemma recibe_trama {A} (m : lector A) op pl a resto :
  recibe m pl a ->
  exists s, recibir_codigo_operacion (trama op pl ++ resto) = (op_num op, s) /\ m s = Some (a, resto).
Proof. intros H. eexists. split; [apply codigo_trama|apply H]. Qed.

(** C20: any sequence of messages of the kinds of the table ([protocolos],
    [protocolos_de_tamanio]), of valid data, sent one after the other on a stream, is
    read back message by message, when the reader knows the kind of each, and its
    size where the receiver is told one: each op_code first, then exactly the data
    its sender was given (of a block of Swap whose status is not 0, the status alone:
    no block travels), with nothing lost or left over. *)
Theorem sesion_ida_vuelta (ms : list mensaje) resto :
  Forall (fun m => (exists n, projT1 m ∈ protocolos ++ protocolos_de_tamanio n) /\ mensaje_valido m) ms ->
  lee_sesion ms ((ms ≫= mensaje_bytes) ++ resto) resto.
Proof.
  induction 1 as [|m ms [[n Hm] Hv] _ IH]; [constructor|].
  pose proof (proj1 (Forall_forall _ _) (protocolos_ok n) _ Hm) as Hok.
  destruct (Hok (projT2 m) Hv) as (pl & Hpl & Hr).
  rewrite bind_cons, <-app_assoc. unfold mensaje_bytes at 1. rewrite Hpl.
  destruct (recibe_trama _ (p_op (projT1 m)) _ _ ((ms ≫= mensaje_bytes) ++ resto) Hr) as (s & Hs & Hr').
  by econstructor.
Qed.

(** A write to a logical address, a syscall that gives the process back with one
    parameter, and two blocks of Swap of different sizes. *)
Definition sesion_ejemplo : list mensaje :=
  [existT p_escritura_memoria (7, 64, [x41; x42; x43]);
   existT p_devolver_proceso (7, MOTIVO_SYSCALL, Some [x53; x00], [[x41; x31; x00]]);
   existT (p_bloque_swap 2) (0, [x01; x02]); existT (p_bloque_swap 1) (-1, [x03])].

Lemma sesion_ida_vuelta_witness :
  lee_sesion sesion_ejemplo ((sesion_ejemplo ≫= mensaje_bytes) ++ [x01]) [x01].
Proof.
  apply sesion_ida_vuelta. apply Forall_cons; split; [|apply Forall_cons; split; [|apply Forall_cons; split; [|apply Forall_cons; split; [|apply Forall_nil; exact I]]]].
  - split.
    + exists 0. do 10 right. left.
    + unfold mensaje_valido; cbn [projT1 projT2 p_valido p_escritura_memoria].
      unfold es_int, es_u32, datos_ok; cbn [length]; lia.
  - split.
    + exists 0. do 8 right. left.
    + unfold mensaje_valido; cbn [projT1 projT2 p_valido p_devolver_proceso devolucion_valida].
      split_and!; [unfold es_int; lia..| | |].
      * split; [|vm_compute; congruence].
        apply Forall_cons; split; [|apply Forall_nil; exact I].
        split; [exists [x41; x31]; split; [done|]; set_solver|vm_compute; congruence].
      * done.
      * split; [exists [x53]; split; [done|]; set_solver|vm_compute; congruence].
  - split; [exists 2; apply elem_of_app; right; do 4 right; left|]. unfold mensaje_valido; cbn; unfold es_int; lia.
  - split; [exists 1; apply elem_of_app; right; do 4 right; left|]. unfold mensaje_valido; cbn; unfold es_int; lia.
Defined.

Lemma respuestas_swap_lee status resto :
  es_int status ->
  recibir_resultado_swap (enviar_resultado_swap status ++ resto) = Some (status, resto).
Proof.
  intros Hs. destruct (protocolo_ok (p := p_resultado_swap) status Hs) as (pl & Hpl & Hr).
  change (enviar_resultado_swap status = trama RESPUESTA_SWAP pl) in Hpl. rewrite Hpl.
  destruct (recibe_trama _ RESPUESTA_SWAP _ _ resto Hr) as (s & Es & E).
  rewrite (proj1 (lectores_swap 0)). unfold mbind at 1, ST_bind at 1. by rewrite Es.
Qed.

Lemma bloque_swap_lee status d resto :
  es_int status -> 0 < Z.of_nat (length d) <= 1073741824 ->
  recibir_bloque_swap (Z.of_nat (length d))
    (enviar_bloque_swap status (Some d) (Z.of_nat (length d)) ++ resto) =
  Some (if status =? 0 then (status, Some d) else (status, None), resto).
Proof.
  intros Hs Hd. destruct (protocolo_ok (p := p_bloque_swap (Z.of_nat (length d))) (status, d)) as (pl & Hpl & Hr); [done|].
  change (enviar_bloque_swap status (Some d) (Z.of_nat (length d)) = trama RESPUESTA_SWAP pl) in Hpl. rewrite Hpl.
  destruct (recibe_trama _ RESPUESTA_SWAP _ _ resto Hr) as (s & Es & E).
  rewrite (proj2 (lectores_swap _)). unfold mbind at 1, ST_bind at 1. by rewrite Es.
Qed.

(** The answers of Swap are read back by Memory whatever op_code they carry:
    a status alone, or the status followed by a block exactly when it is 0. *)
Theorem respuestas_swap_ida_vuelta status d resto :
  es_int status -> 0 < Z.of_nat (length d) <= 1073741824 ->
  recibir_resultado_swap (enviar_resultado_swap status ++ resto) = Some (status, resto) /\
  recibir_bloque_swap (Z.of_nat (length d))
    (enviar_bloque_swap status (Some d) (Z.of_nat (length d)) ++ resto) =
  Some (if status =? 0 then (status, Some d) else (status, None), resto).
Proof. intros Hs Hd. split; [by apply respuestas_swap_lee|by apply bloque_swap_lee]. Qed.

Lemma respuestas_swap_ida_vuelta_witness :
  recibir_resultado_swap (enviar_resultado_swap (-1) ++ [x09]) = Some (-1, [x09]) /\
  recibir_bloque_swap 2 (enviar_bloque_swap 0 (Some [x41; x42]) 2 ++ [x09]) =
  Some ((0, Some [x41; x42]), [x09]).
Proof.
  split.
  - apply (respuestas_swap_ida_vuelta (-1) [x41; x42] [x09]); [unfold es_int|cbn]; lia.
  - apply (respuestas_swap_ida_vuelta 0 [x41; x42] [x09]); [unfold es_int|cbn]; lia.
Defined.
