(* ===== verification/Texto.v ===== *)
(** * Texto: the C strings of the modules

    Comparison, the readers of numbers, [snprintf] of a number: what the modules
    use of the C library on strings. A string is its bytes, without the NUL
    ([cstr] cuts a buffer at it). *)

From Stdlib Require Import Strings.String.
From S2P Require Import Prelude Wire.

(** The C string in a buffer: what precedes the first NUL. *)
Fixpoint cstr (l : list byte) : list byte :=
  match l with
  | [] => []
  | c :: l => if decide (c = x00) then [] else c :: cstr l
  end.

Definition txt (s : string) : list byte := list_byte_of_string s.
Definition strcmp0 (a : list byte) (s : string) : bool := bool_decide (a = txt s).
(** As it travels, with its NUL. *)
Definition con_nul (s : list byte) : list byte := s ++ [x00].

Definition isspace (c : byte) : bool := (z_de c =? 32) || ((9 <=? z_de c) && (z_de c <=? 13)).
Definition isdigit (c : byte) : bool := (48 <=? z_de c) && (z_de c <=? 57).

(** The [while] that cuts the blanks at the end of the copy: its first byte stays. *)
Fixpoint recortar_fin (s : list byte) : list byte :=
  match s with
  | [] => []
  | c :: s =>
      match recortar_fin s with
      | [] => if isspace c then [] else [c]
      | s => c :: s
      end
  end.
Definition recortar (s : list byte) : list byte :=
  match s with [] => [] | c :: s => c :: recortar_fin s end.

(** The number a string begins with: blanks, a sign, digits. *)
Fixpoint digitos (s : list byte) (acc : Z) : Z :=
  match s with
  | c :: s => if isdigit c then digitos s (acc * 10 + (z_de c - 48)) else acc
  | [] => acc
  end.
Fixpoint numero (s : list byte) : Z :=
  match s with
  | c :: s =>
      if isspace c then numero s
      else if z_de c =? 45 then - digitos s 0
      else if z_de c =? 43 then digitos s 0
      else digitos (c :: s) 0
  | [] => 0
  end.
(** [strtol] in base 10, whose [long] of 64 bits saturates, and [atoi], which makes an
    [int] of it. In a number that is not an [int] the C standard leaves [atoi]
    undefined: this is that of glibc. *)
Definition strtol (s : list byte) : Z := Z.max (- 2 ^ 63) (Z.min (2 ^ 63 - 1) (numero s)).
Definition atoi (s : list byte) : Z := i32 (strtol s).

Lemma atoi_numero s : es_int (numero s) -> atoi s = numero s.
Proof.
  intros H. unfold atoi, strtol. unfold es_int in H.
  rewrite Z.min_r, Z.max_r by lia. by apply i32_small.
Qed.

(** [snprintf("%u", valor)], with fuel for its digits. *)
Fixpoint decimal (n : nat) (v : Z) (acc : list byte) : list byte :=
  match n with
  | O => acc
  | S n =>
      let acc := byte_de (48 + v mod 10) :: acc in
      if v <? 10 then acc else decimal n (v / 10) acc
  end.

(** [strcasecmp(a, b) == 0] and [strncasecmp(a, b, n) == 0], in the C locale. *)
Definition tolower (c : byte) : byte :=
  if (65 <=? z_de c) && (z_de c <=? 90) then byte_de (z_de c + 32) else c.
Definition strcasecmp0 (a b : list byte) : bool := bool_decide (tolower <$> a = tolower <$> b).
Definition strncasecmp0 (n : nat) (a b : list byte) : bool := strcasecmp0 (take n a) (take n b).

(** [fgets(linea, n + 1, f)]: the next line, with its newline, of at most [n]
    bytes; [None] at the end of the file. *)
Fixpoint tomar_linea (n : nat) (f : list byte) : list byte * list byte :=
  match n, f with
  | S n, c :: f =>
      if decide (c = x0a) then ([c], f)
      else let '(linea, f) := tomar_linea n f in (c :: linea, f)
  | _, _ => ([], f)
  end.
Definition fgets (n : nat) (f : list byte) : option (list byte * list byte) :=
  match f with [] => None | _ => Some (tomar_linea n f) end.

(** ** Lemmas *)

Lemma tomar_linea_resto n f linea resto :
  tomar_linea n f = (linea, resto) -> f = linea ++ resto /\ (f <> [] -> (0 < n)%nat -> linea <> []).
Proof.
  revert f linea resto. induction n as [|n IH]; intros [|c f] linea resto; cbn.
  1-3: intros [= <- <-]; split; [done|]; intros; try done; lia.
  destruct (decide (c = x0a)).
  - intros [= <- <-]. by split.
  - destruct (tomar_linea n f) as [l r] eqn:E. intros [= <- <-].
    destruct (IH _ _ _ E) as [-> _]. by split.
Qed.

Lemma tomar_linea_corta n l f' :
  x0a ∉ l -> (length l < n)%nat -> tomar_linea n (l ++ x0a :: f') = (l ++ [x0a], f').
Proof.
  revert n. induction l as [|c l IH]; intros n Hl Hn; (destruct n as [|n]; [cbn in Hn; lia|]); cbn.
  - done.
  - apply not_elem_of_cons in Hl as [Hc Hl]. rewrite decide_False by congruence.
    cbn in Hn. by rewrite IH by (done || lia).
Qed.

Lemma tomar_linea_ultima n l : x0a ∉ l -> (length l <= n)%nat -> tomar_linea n l = (l, []).
Proof.
  revert n. induction l as [|c l IH]; intros n Hl Hn; [by destruct n|].
  destruct n as [|n]; [cbn in Hn; lia|]. cbn. apply not_elem_of_cons in Hl as [Hc Hl].
  rewrite decide_False by congruence. cbn in Hn. by rewrite IH by (done || lia).
Qed.

Lemma cstr_sin_nul l : x00 ∉ l -> cstr l = l.
Proof.
  induction l as [|c l IH]; [done|]. intros H. apply not_elem_of_cons in H as [Hc Hl]. cbn.
  rewrite decide_False by congruence. by rewrite IH.
Qed.
