(* ===== verification/Conexiones.v ===== *)
(** * Conexiones: the connection tables of Kernel Memory

    Models [kernel_memory/src/memory_conexiones.c]. Every function of the file
    runs under [active.lock], so each is one step on the record [conexiones].
    The arrays [cpus] and [sticks] (of capacity 1000, with their counters) are
    lists; the strings [ip] and [puerto] are kept as bytes. *)

From S2P Require Import Prelude.

Definition MAX_CPUS : Z := 1000.
Definition MAX_MEMORY_STICKS : Z := 1000.

Record t_cpu_entry := Cpu { cpu_socket : Z; cpu_id : Z }.

Record t_memory_stick_entry := StickE {
  st_socket : Z;
  st_tamanio : Z;
  st_ip : list byte;
  st_puerto : list byte;
  st_outbound_socket : Z;
  st_base_fisica : Z }.

Record conexiones := Conexiones {
  scheduler_socket : Z;
  cpus : list t_cpu_entry;
  sticks : list t_memory_stick_entry;
  swap_socket : Z }.

(** [conexiones_init] only initialises the mutex: the table is static. *)
Definition conexiones_init : conexiones := Conexiones (-1) [] [] (-1).

Definition conexiones_set_scheduler_socket (s : Z) (a : conexiones) : conexiones :=
  Conexiones s (cpus a) (sticks a) (swap_socket a).
Definition conexiones_get_scheduler_socket (a : conexiones) : Z := scheduler_socket a.

Definition conexiones_set_swap_socket (s : Z) (a : conexiones) : conexiones :=
  Conexiones (scheduler_socket a) (cpus a) (sticks a) s.
Definition conexiones_get_swap_socket (a : conexiones) : Z := swap_socket a.

Definition con_cpus (l : list t_cpu_entry) (a : conexiones) : conexiones :=
  Conexiones (scheduler_socket a) l (sticks a) (swap_socket a).
Definition con_sticks (l : list t_memory_stick_entry) (a : conexiones) : conexiones :=
  Conexiones (scheduler_socket a) (cpus a) l (swap_socket a).

(** ** CPUs *)

Definition cpu_count (a : conexiones) : Z := Z.of_nat (length (cpus a)).

Definition conexiones_agregar_cpu (socket id : Z) (a : conexiones) : Z * conexiones :=
  if cpu_count a >=? MAX_CPUS then (-1, a)
  else (cpu_count a, con_cpus (cpus a ++ [Cpu socket id]) a).

Definition conexiones_invalidar_cpu_por_id (id : Z) (a : conexiones) : conexiones :=
  match indice_de (fun c => cpu_id c =? id) (cpus a) with
  | Some i => con_cpus (alter (fun c => Cpu (-1) (cpu_id c)) i (cpus a)) a
  | None => a
  end.

Definition conexiones_cantidad_cpus (a : conexiones) : Z := cpu_count a.

(** [(idx >= 0 && idx < n) ? l[idx] : ...] *)
Definition en_tabla {A} (l : list A) (idx : Z) : option A :=
  if (idx >=? 0) && (idx <? Z.of_nat (length l)) then l !! Z.to_nat idx else None.

Definition conexiones_cpu_socket_en (idx : Z) (a : conexiones) : Z :=
  match en_tabla (cpus a) idx with Some c => cpu_socket c | None => -1 end.
Definition conexiones_cpu_id_en (idx : Z) (a : conexiones) : Z :=
  match en_tabla (cpus a) idx with Some c => cpu_id c | None => -1 end.

(** ** Memory sticks *)

Definition stick_count (a : conexiones) : Z := Z.of_nat (length (sticks a)).

(** [for (i ...) total += sticks[i].tamanio;] in [uint32_t]. *)
Definition suma_tamanios (l : list t_memory_stick_entry) : Z :=
  fold_left (fun acc s => (acc +u st_tamanio s)%u32) l 0.

(** The index (or -1), the value of [*out_base_fisica], and the table. *)
Definition conexiones_agregar_stick (socket tamanio : Z) (ip puerto : list byte) (a : conexiones)
    : Z * option Z * conexiones :=
  if stick_count a >=? MAX_MEMORY_STICKS then (-1, None, a)
  else
    let base_fisica := suma_tamanios (sticks a) in
    let idx := stick_count a in
    (idx, Some base_fisica,
     con_sticks (sticks a ++ [StickE socket tamanio ip puerto (-1) base_fisica]) a).

Definition conexiones_cantidad_sticks (a : conexiones) : Z := stick_count a.

Definition conexiones_stick_outbound_socket (idx : Z) (a : conexiones) : Z :=
  match en_tabla (sticks a) idx with Some s => st_outbound_socket s | None => -1 end.

Definition conexiones_stick_set_outbound_socket (idx sock : Z) (a : conexiones) : conexiones :=
  if (idx >=? 0) && (idx <? stick_count a) then
    con_sticks (alter (fun s => StickE (st_socket s) (st_tamanio s) (st_ip s) (st_puerto s)
                                  sock (st_base_fisica s)) (Z.to_nat idx) (sticks a)) a
  else a.

(** The values of [*out_ip] and [*out_puerto] ([None] for NULL), and the table. *)
Definition conexiones_stick_invalidate_por_indice (idx : Z) (a : conexiones)
    : option (list byte * list byte) * conexiones :=
  match en_tabla (sticks a) idx with
  | Some s =>
      (Some (st_ip s, st_puerto s),
       con_sticks (alter (fun s => StickE (-1) (st_tamanio s) (st_ip s) (st_puerto s)
                                     (st_outbound_socket s) (st_base_fisica s))
                         (Z.to_nat idx) (sticks a)) a)
  | None => (None, a)
  end.

Definition conexiones_stick_base_fisica (idx : Z) (a : conexiones) : Z :=
  match en_tabla (sticks a) idx with Some s => st_base_fisica s | None => 0 end.
Definition conexiones_stick_tamanio (idx : Z) (a : conexiones) : Z :=
  match en_tabla (sticks a) idx with Some s => st_tamanio s | None => 0 end.
Definition conexiones_stick_ip (idx : Z) (a : conexiones) : option (list byte) :=
  st_ip <$> en_tabla (sticks a) idx.
Definition conexiones_stick_puerto (idx : Z) (a : conexiones) : option (list byte) :=
  st_puerto <$> en_tabla (sticks a) idx.

Definition conexiones_tamanio_total_ram (a : conexiones) : Z := suma_tamanios (sticks a).

(** The body of the search loop's test. *)
Definition contiene_dir (dir_fisica : Z) (s : t_memory_stick_entry) : bool :=
  (st_outbound_socket s >=? 0) && (dir_fisica >=? st_base_fisica s) &&
  (dir_fisica <? (st_base_fisica s +u st_tamanio s)%u32).

Definition conexiones_buscar_stick_por_dir (dir_fisica : Z) (a : conexiones) : Z :=
  match indice_de (contiene_dir dir_fisica) (sticks a) with
  | Some i => Z.of_nat i
  | None => -1
  end.

(** ** The table's invariant *)

(** Sum of the sizes, without wrap-around. *)
Definition tamanios (l : list t_memory_stick_entry) : Z := suma_Z (st_tamanio <$> l).

(** Each stick starts where the previous ones end. *)
Definition bases_ok (l : list t_memory_stick_entry) : Prop :=
  forall i s, l !! i = Some s -> st_base_fisica s = tamanios (take i l).

Record conexiones_ok (a : conexiones) : Prop := {
  cok_sticks : stick_count a <= MAX_MEMORY_STICKS;
  cok_cpus : cpu_count a <= MAX_CPUS;
  cok_tamanios : Forall (fun s => es_u32 (st_tamanio s)) (sticks a);
  cok_total : tamanios (sticks a) < 4294967296;
  cok_bases : bases_ok (sticks a) }.

Lemma tamanios_app l1 l2 : tamanios (l1 ++ l2) = tamanios l1 + tamanios l2.
Proof. unfold tamanios. by rewrite fmap_app, suma_Z_app. Qed.

Lemma tamanios_nonneg l : Forall (fun s => es_u32 (st_tamanio s)) l -> 0 <= tamanios l.
Proof.
  intros H. apply suma_Z_nonneg, Forall_fmap. eapply Forall_impl; [done|].
  intros s Hs. cbn. unfold es_u32 in Hs. lia.
Qed.

Lemma suma_tamanios_spec l :
  Forall (fun s => es_u32 (st_tamanio s)) l -> tamanios l < 4294967296 ->
  suma_tamanios l = tamanios l.
Proof.
  induction l as [|s l IH] using rev_ind; [done|].
  rewrite Forall_app, Forall_singleton, tamanios_app. intros [Hl Hs].
  pose proof (tamanios_nonneg l Hl). unfold es_u32 in Hs.
  assert (tamanios [s] = st_tamanio s) as E by (unfold tamanios; cbn; lia).
  rewrite E. intros Ht. unfold suma_tamanios in *. rewrite fold_left_app. cbn.
  rewrite IH by (done || lia). apply add32_small; lia.
Qed.

(** What [take] and [drop] of the table contribute. *)
Lemma tamanios_corte l i s :
  Forall (fun s => es_u32 (st_tamanio s)) l -> l !! i = Some s ->
  0 <= tamanios (take i l) /\ tamanios (take i l) + st_tamanio s <= tamanios l.
Proof.
  intros Hl Hi. rewrite <-(take_drop_middle l i s Hi) at 3.
  rewrite <-(take_drop_middle l i s Hi), Forall_app, Forall_cons in Hl.
  destruct Hl as (H1 & H2 & H3).
  rewrite tamanios_app. change (s :: drop (S i) l) with ([s] ++ drop (S i) l).
  rewrite tamanios_app. pose proof (tamanios_nonneg _ H1). pose proof (tamanios_nonneg _ H3).
  assert (tamanios [s] = st_tamanio s) by (unfold tamanios; cbn; lia). lia.
Qed.

Lemma base_rango a i s :
  conexiones_ok a -> sticks a !! i = Some s ->
  0 <= st_base_fisica s /\ st_base_fisica s + st_tamanio s <= tamanios (sticks a) /\
  es_u32 (st_tamanio s) /\ st_base_fisica s = tamanios (take i (sticks a)).
Proof.
  intros [? ? Ht Htot Hb] Hi. pose proof (Hb i s Hi) as E.
  destruct (tamanios_corte _ _ _ Ht Hi). rewrite E.
  split; [lia|]. split; [lia|]. split; [|done].
  exact (Forall_lookup_1 _ _ _ _ Ht Hi).
Qed.

(** Ranges of two different sticks do not overlap. *)
Lemma bases_crecientes a i j s t :
  conexiones_ok a -> sticks a !! i = Some s -> sticks a !! j = Some t -> (i < j)%nat ->
  st_base_fisica s + st_tamanio s <= st_base_fisica t.
Proof.
  intros Ha Hi Hj Hij. destruct (base_rango _ _ _ Ha Hi) as (_ & _ & _ & E).
  destruct (base_rango _ _ _ Ha Hj) as (_ & _ & _ & E'). rewrite E, E'.
  pose proof (tamanios_corte (take j (sticks a)) i s) as H. rewrite take_take in H.
  replace (i `min` j)%nat with i in H by lia. apply H.
  - apply Forall_take, Ha.
  - by rewrite lookup_take_lt.
Qed.

Lemma contiene_dir_spec a i s d :
  conexiones_ok a -> sticks a !! i = Some s ->
  contiene_dir d s = true <->
  0 <= st_outbound_socket s /\ en_rango (st_base_fisica s) (st_tamanio s) d.
Proof.
  intros Ha Hi. destruct (base_rango _ _ _ Ha Hi) as (? & ? & Ht & _). pose proof (cok_total a Ha).
  unfold contiene_dir, en_rango, es_u32 in *. rewrite add32_small by lia.
  rewrite !andb_true_iff, Z.ltb_lt, !Z.geb_le. lia.
Qed.

(** The list is covered by its pieces: every address below the total lies in
    one. *)
Lemma tamanios_cubre l d :
  Forall (fun s => es_u32 (st_tamanio s)) l -> 0 <= d < tamanios l ->
  exists i s, l !! i = Some s /\ tamanios (take i l) <= d < tamanios (take i l) + st_tamanio s.
Proof.
  revert d. induction l as [|s l IH] using rev_ind; intros d; [cbn; lia|].
  rewrite Forall_app, Forall_singleton, tamanios_app. intros [Hl Hs] Hd.
  assert (tamanios [s] = st_tamanio s) as E by (unfold tamanios; cbn; lia). rewrite E in Hd.
  destruct (Z.lt_ge_cases d (tamanios l)) as [H|H].
  - destruct (IH d Hl ltac:(lia)) as (i & t & Hi & Ht). exists i, t.
    pose proof (lookup_lt_Some _ _ _ Hi).
    rewrite lookup_app_l, take_app_le by lia. done.
  - exists (length l), s. rewrite lookup_app_r, Nat.sub_diag, take_app_length by lia. split; [done|lia].
Qed.

(** ** The operations keep the invariant *)

Lemma bases_ok_snoc l s :
  bases_ok l -> st_base_fisica s = tamanios l -> bases_ok (l ++ [s]).
Proof.
  intros Hl Hs i t Ht. destruct (decide (i < length l)%nat) as [H|H].
  - rewrite lookup_app_l in Ht by lia. rewrite take_app_le by lia. by apply Hl.
  - rewrite lookup_app_r in Ht by lia. destruct (i - length l)%nat eqn:E; [|done].
    injection Ht as <-. rewrite take_app_ge, E by lia. cbn. by rewrite app_nil_r.
Qed.

Lemma conexiones_init_ok : conexiones_ok conexiones_init.
Proof. split; [vm_compute; congruence..|constructor|vm_compute; congruence|by intros i s]. Qed.

Lemma agregar_stick_ok socket tam ip puerto a :
  conexiones_ok a -> es_u32 tam -> tamanios (sticks a) + tam < 4294967296 ->
  conexiones_ok (conexiones_agregar_stick socket tam ip puerto a).2.
Proof.
  intros Ha Htam Htot. unfold conexiones_agregar_stick.
  destruct (Z.geb_spec (stick_count a) MAX_MEMORY_STICKS) as [H|H]; [done|].
  destruct Ha as [? ? Ht Htot' Hb]. split; cbn [con_sticks sticks cpus fst snd].
  - unfold stick_count in *. cbn. rewrite length_app. cbn. lia.
  - done.
  - by apply Forall_app, conj, Forall_singleton.
  - rewrite tamanios_app. unfold tamanios at 2. cbn. lia.
  - apply bases_ok_snoc; [done|]. cbn. by apply suma_tamanios_spec.
Qed.

(** Changing only the sockets of a stick. *)
Lemma alter_stick_ok f i a :
  (forall s, st_tamanio (f s) = st_tamanio s /\ st_base_fisica (f s) = st_base_fisica s) ->
  conexiones_ok a -> conexiones_ok (con_sticks (alter f i (sticks a)) a).
Proof.
  intros Hf [H1 H2 Ht Htot Hb].
  assert (Htm : forall k, st_tamanio <$> take k (alter f i (sticks a)) = st_tamanio <$> take k (sticks a)).
  { intros k. apply list_eq. intros j. rewrite !list_lookup_fmap.
    destruct (decide (j < k)%nat); [|by rewrite !lookup_take_ge by lia].
    rewrite !lookup_take_lt by lia. destruct (decide (i = j)) as [->|].
    - rewrite list_lookup_alter_eq. destruct (sticks a !! j) as [s|]; [|done]. cbn. f_equal. apply Hf.
    - by rewrite list_lookup_alter_ne. }
  assert (Htm' : st_tamanio <$> alter f i (sticks a) = st_tamanio <$> sticks a).
  { specialize (Htm (length (sticks a))). by rewrite !take_ge in Htm by (rewrite ?length_alter; lia). }
  split; cbn [con_sticks sticks cpus].
  - unfold stick_count in *. cbn. by rewrite length_alter.
  - done.
  - apply Forall_lookup. intros j s Hj. destruct (decide (i = j)) as [->|].
    + rewrite list_lookup_alter_eq in Hj. destruct (sticks a !! j) as [t|] eqn:E; [|done].
      injection Hj as <-. destruct (Hf t) as [-> _].
      exact (Forall_lookup_1 _ _ _ _ Ht E).
    + rewrite list_lookup_alter_ne in Hj by done.
      exact (Forall_lookup_1 _ _ _ _ Ht Hj).
  - unfold tamanios in *. by rewrite Htm'.
  - intros j s Hj. unfold tamanios. rewrite Htm. destruct (decide (i = j)) as [->|].
    + rewrite list_lookup_alter_eq in Hj. destruct (sticks a !! j) as [t|] eqn:E; [|done].
      injection Hj as <-. destruct (Hf t) as [_ ->]. by apply Hb.
    + rewrite list_lookup_alter_ne in Hj by done. by apply Hb.
Qed.

Lemma set_outbound_ok idx sock a :
  conexiones_ok a -> conexiones_ok (conexiones_stick_set_outbound_socket idx sock a).
Proof.
  intros Ha. unfold conexiones_stick_set_outbound_socket. destruct (_ && _); [|done].
  by apply alter_stick_ok.
Qed.

Lemma invalidate_stick_ok idx a :
  conexiones_ok a -> conexiones_ok (conexiones_stick_invalidate_por_indice idx a).2.
Proof.
  intros Ha. unfold conexiones_stick_invalidate_por_indice. destruct (en_tabla _ _); [|done].
  by apply alter_stick_ok.
Qed.

Lemma agregar_cpu_ok s id a : conexiones_ok a -> conexiones_ok (conexiones_agregar_cpu s id a).2.
Proof.
  intros [? ? ? ? ?]. unfold conexiones_agregar_cpu.
  destruct (Z.geb_spec (cpu_count a) MAX_CPUS); [done|].
  split; cbn [con_cpus sticks cpus fst snd]; try done.
  unfold cpu_count in *. cbn. rewrite length_app. cbn. lia.
Qed.

Lemma invalidar_cpu_ok id a : conexiones_ok a -> conexiones_ok (conexiones_invalidar_cpu_por_id id a).
Proof.
  intros [? ? ? ? ?]. unfold conexiones_invalidar_cpu_por_id.
  destruct (indice_de _ _); [|done]. split; cbn [con_cpus sticks cpus]; try done.
  unfold cpu_count in *. cbn. by rewrite length_alter.
Qed.

#[export] Hint Resolve conexiones_init_ok agregar_stick_ok set_outbound_ok invalidate_stick_ok
  agregar_cpu_ok invalidar_cpu_ok : conexiones.

Lemma buscar_stick_por_dir_i d a i s :
  conexiones_ok a -> es_u32 d -> sticks a !! i = Some s -> 0 <= st_outbound_socket s ->
  en_rango (st_base_fisica s) (st_tamanio s) d ->
  conexiones_buscar_stick_por_dir d a = Z.of_nat i.
Proof.
  intros Ha Hd Hi Ho Hr. unfold conexiones_buscar_stick_por_dir.
  destruct (indice_de _ (sticks a)) as [k|] eqn:E.
  - f_equal. apply indice_de_Some in E as (t & Ht & Hf & _).
    apply (contiene_dir_spec a k) in Hf as [Ho' Hr']; [|done..]. unfold en_rango in *.
    destruct (Nat.lt_trichotomy k i) as [H|[H|H]]; [|done|].
    + pose proof (bases_crecientes a k i t s Ha Ht Hi H). lia.
    + pose proof (bases_crecientes a i k s t Ha Hi Ht H). lia.
  - rewrite indice_de_None in E. specialize (E s (list_elem_of_lookup_2 _ _ _ Hi)).
    assert (contiene_dir d s = true) by (apply (contiene_dir_spec a i); done). congruence.
Qed.

(** ** Properties *)

(** Registering a stick gives it the index after the last one and the
    physical base where the registered sticks end, so the physical address
    space grows by exactly its size; the table stays well formed. *)
Theorem agregar_stick_extiende socket tam ip puerto a :
  conexiones_ok a -> es_u32 tam -> tamanios (sticks a) + tam < 4294967296 ->
  stick_count a < MAX_MEMORY_STICKS ->
  let '(idx, base, a') := conexiones_agregar_stick socket tam ip puerto a in
  conexiones_ok a' /\ idx = stick_count a /\
  base = Some (conexiones_tamanio_total_ram a) /\
  conexiones_tamanio_total_ram a' = conexiones_tamanio_total_ram a + tam /\
  conexiones_stick_base_fisica idx a' = conexiones_tamanio_total_ram a /\
  conexiones_stick_outbound_socket idx a' = -1.
Proof.
  intros Ha Htam Htot Hn. pose proof (agregar_stick_ok socket tam ip puerto a Ha Htam Htot) as Hok.
  unfold conexiones_agregar_stick in *. destruct (Z.geb_spec (stick_count a) MAX_MEMORY_STICKS); [lia|].
  cbn [fst snd] in Hok. split; [done|]. split; [done|]. split; [done|].
  unfold conexiones_tamanio_total_ram, conexiones_stick_base_fisica, conexiones_stick_outbound_socket.
  rewrite (suma_tamanios_spec _ (cok_tamanios _ Hok) (cok_total _ Hok)).
  rewrite !(suma_tamanios_spec _ (cok_tamanios _ Ha) (cok_total _ Ha)). cbn [sticks con_sticks].
  rewrite tamanios_app. unfold tamanios at 2; cbn [st_tamanio fmap list_fmap suma_Z].
  assert (E : en_tabla (sticks a ++ [StickE socket tam ip puerto (-1) (tamanios (sticks a))]) (stick_count a)
      = Some (StickE socket tam ip puerto (-1) (tamanios (sticks a)))).
  { unfold en_tabla, stick_count. rewrite length_app. cbn [length].
    destruct (Z.geb_spec (Z.of_nat (length (sticks a))) 0); [|lia].
    destruct (Z.ltb_spec (Z.of_nat (length (sticks a))) (Z.of_nat (length (sticks a) + 1))); [|lia].
    cbn. rewrite Nat2Z.id, lookup_app_r, Nat.sub_diag by lia. done. }
  rewrite E. cbn. split; [lia|]. done.
Qed.

(** Looking up a physical address finds the one connected stick whose range
    holds it, and answers -1 exactly when no connected stick holds it; with
    every stick connected, every address below the total RAM is found. *)
Theorem buscar_stick_correcto d a :
  conexiones_ok a -> es_u32 d ->
  (forall i, conexiones_buscar_stick_por_dir d a = Z.of_nat i <->
     exists s, sticks a !! i = Some s /\ 0 <= st_outbound_socket s /\
               en_rango (st_base_fisica s) (st_tamanio s) d) /\
  (Forall (fun s => 0 <= st_outbound_socket s) (sticks a) ->
   (conexiones_buscar_stick_por_dir d a = -1 <-> conexiones_tamanio_total_ram a <= d)).
Proof.
  intros Ha Hd. unfold conexiones_buscar_stick_por_dir, conexiones_tamanio_total_ram. split.
  - intros i. split; [|intros (s & Hs & Ho & Hr); by eapply buscar_stick_por_dir_i].
    destruct (indice_de _ (sticks a)) as [k|] eqn:E; [|lia].
    apply indice_de_Some in E as (s & Hs & Hf & _).
    apply (contiene_dir_spec a k) in Hf as [Ho Hr]; [|done..].
    intros Hk. apply Nat2Z.inj in Hk as ->. eauto.
  - intros Hcon. rewrite (suma_tamanios_spec _ (cok_tamanios _ Ha) (cok_total _ Ha)).
    destruct (indice_de _ (sticks a)) as [k|] eqn:E.
    + apply indice_de_Some in E as (s & Hs & Hf & _).
      apply (contiene_dir_spec a k) in Hf as [Ho Hr]; [|done..].
      destruct (base_rango a k s Ha Hs) as (? & ? & _). unfold en_rango in Hr. lia.
    + split; [|done]. intros _. destruct (Z.lt_ge_cases d (tamanios (sticks a))) as [H|H]; [|done].
      unfold es_u32 in Hd. destruct (tamanios_cubre _ d (cok_tamanios a Ha) ltac:(lia)) as (i & s & Hi & Hr).
      rewrite indice_de_None in E. specialize (E s (list_elem_of_lookup_2 _ _ _ Hi)).
      assert (contiene_dir d s = true); [|congruence].
      apply (contiene_dir_spec a i); [done..|]. split; [exact (Forall_lookup_1 _ _ _ _ Hcon Hi)|].
      unfold en_rango. by rewrite (cok_bases a Ha i s Hi).
Qed.

(** Two connected sticks, of 16 and 8 bytes. *)
Definition con_ejemplo : conexiones :=
  let a := (conexiones_agregar_stick 4 16 [] [] conexiones_init).2 in
  let a := conexiones_stick_set_outbound_socket 0 5 a in
  let a := (conexiones_agregar_stick 6 8 [] [] a).2 in
  conexiones_stick_set_outbound_socket 1 7 a.

Lemma con_ejemplo_ok : conexiones_ok con_ejemplo.
Proof.
  apply set_outbound_ok, agregar_stick_ok;
    [apply set_outbound_ok, agregar_stick_ok|..]; auto with conexiones;
    vm_compute; (split || idtac); congruence.
Qed.

Lemma agregar_stick_extiende_witness :
  let '(idx, base, a') := conexiones_agregar_stick 9 4 [] [] con_ejemplo in
  idx = 2 /\ base = Some 24 /\ conexiones_tamanio_total_ram a' = 28.
Proof.
  pose proof (agregar_stick_extiende 9 4 [] [] con_ejemplo con_ejemplo_ok) as H.
  assert (H' := H ltac:(unfold es_u32; lia) ltac:(vm_compute; congruence) ltac:(vm_compute; congruence)).
  cbn [conexiones_agregar_stick] in H'. destruct (conexiones_agregar_stick 9 4 [] [] con_ejemplo) as [[i b] a'].
  destruct H' as (_ & H1 & H2 & H3 & _). exact (conj H1 (conj H2 H3)).
Defined.

Lemma buscar_stick_correcto_witness :
  conexiones_buscar_stick_por_dir 20 con_ejemplo = Z.of_nat 1 /\
  conexiones_buscar_stick_por_dir 24 con_ejemplo = -1.
Proof.
  split.
  - apply (buscar_stick_correcto 20 con_ejemplo con_ejemplo_ok); [unfold es_u32; lia|].
    eexists. split; [reflexivity|]. vm_compute. repeat split; congruence.
  - apply (buscar_stick_correcto 24 con_ejemplo con_ejemplo_ok); [unfold es_u32; lia| |vm_compute; congruence].
    apply Forall_cons; split; [vm_compute; congruence|].
    apply Forall_cons; split; [vm_compute; congruence|apply Forall_nil; exact I].
Defined.
