(* ===== verification/Stick.v ===== *)
(** * Stick: the Memory Stick process

    Models [memory_stick/src/utils_memory_stick.c]: the physical buffer, the two
    request handlers and the loop of a connection's thread. A handler runs under
    [memoria_lock], so requests of different connections are served one at a
    time; a connection is the stream of bytes that arrives on its socket. *)

From S2P Require Import Prelude Wire Buffer Tipos Mensajes.

(** [memoria_buffer] and [memoria_size]. *)
Record stick := Stick { memoria_buffer : list byte; memoria_size : Z }.

(** [memoria_size = size], the buffer being [calloc(size, 1)] ([main.c]). *)
Definition inicializar_memoria_stick (size : Z) : stick :=
  Stick (replicate (Z.to_nat size) x00) size.

(** [agregar_a_paquete(p, memoria_buffer + dir, (int)tam)] copies [tam] bytes;
    an [int] that comes out negative is a failed [realloc]/[memcpy]. *)
Definition manejar_lectura (st : stick) : lector (list byte) :=
  _ ← validar_buffer;
  '(pid, dir, tam) ← campos_pid_u32_u32;
  let p := crear_paquete LECTURA_MEMORIA in
  if ((dir +u tam)%u32 <=? memoria_size st) then
    if i32 tam <? 0 then st_abort else
    datos ← st_lift (leer_buffer (memoria_buffer st) dir tam);
    mret (enviar_paquete (agregar_a_paquete p datos))
  else mret (enviar_paquete p).

Definition manejar_escritura (st : stick) : lector (list byte * stick) :=
  _ ← validar_buffer;
  '(pid, dir, tam, datos) ← campos_escritura;
  st' ← (if ((dir +u tam)%u32 <=? memoria_size st) then
           buf ← st_lift (escribir_buffer (memoria_buffer st) dir datos);
           mret (Stick buf (memoria_size st))
         else mret st);
  mret (enviar_ok ESCRITURA_MEMORIA, st').

(** One turn of the connection's loop: the answer and the new buffer, or
    [None] where the loop breaks. *)
Definition atender_peticion (st : stick) : lector (option (list byte * stick)) :=
  cod ← (fun s => Some (recibir_codigo_operacion s));
  if cod =? op_num LECTURA_MEMORIA then
    r ← manejar_lectura st; mret (Some (r, st))
  else if cod =? op_num ESCRITURA_MEMORIA then
    r ← manejar_escritura st; mret (Some r)
  else mret None.

(** [while (1)]: each turn consumes an op_code, so as much fuel as bytes is
    enough ([atender_conexion_termina]). The result: what was sent, the final
    buffer and what was left unread. *)
Fixpoint atender_conexion (n : nat) (st : stick) : lector (list byte * stick) :=
  match n with
  | O => st_abort
  | S n =>
      r ← atender_peticion st;
      match r with
      | None => mret ([], st)
      | Some (resp, st) =>
          '(resps, st) ← atender_conexion n st; mret (resp ++ resps, st)
      end
  end.

(** The handshake of the connection's thread, then its loop. *)
Definition memory_stick_cpu_handler (st : stick) : lector (list byte * stick) :=
  cod_op ← (fun s => Some (recibir_codigo_operacion s));
  if negb (cod_op =? op_num HANDSHAKE_CPU) then mret ([], st)
  else
    cpu_id ← recibir_handshake_cpu;
    s ← st_get;
    atender_conexion (S (length s)) st.

(** ** What a stick promises *)

Definition stick_ok (st : stick) : Prop :=
  memoria_size st = Z.of_nat (length (memoria_buffer st)) /\ memoria_size st < 1073741824.

(** The requests of a client, their bytes, and what each must do to a plain
    array: a read outside the array answers an empty message, a write outside it
    is dropped (and acknowledged all the same). *)
Inductive peticion :=
| Leer (pid dir tam : Z)
| Escribir (pid dir : Z) (datos : list byte).

Definition peticion_bytes (q : peticion) : list byte :=
  match q with
  | Leer pid dir tam => enviar_lectura_fisica pid dir tam
  | Escribir pid dir datos => enviar_escritura_fisica pid dir datos
  end.

(** No wrap-around: see [lectura_fuera_de_rango_aceptada] for what happens
    otherwise. *)
Definition peticion_valida (q : peticion) : Prop :=
  match q with
  | Leer pid dir tam => es_int pid /\ 0 <= dir /\ 0 <= tam /\ dir + tam < 4294967296
  | Escribir pid dir datos =>
      es_int pid /\ 0 <= dir /\ datos_ok datos /\ dir + Z.of_nat (length datos) < 4294967296
  end.

Definition aplicar (q : peticion) (buf : list byte) : list byte * list byte :=
  match q with
  | Leer _ dir tam => (trama LECTURA_MEMORIA (default [] (leer_buffer buf dir tam)), buf)
  | Escribir _ dir datos =>
      (trama ESCRITURA_MEMORIA (le_enc 4 (-1)), default buf (escribir_buffer buf dir datos))
  end.

Fixpoint aplicar_todas (qs : list peticion) (buf : list byte) : list byte * list byte :=
  match qs with
  | [] => ([], buf)
  | q :: qs =>
      let '(r, buf) := aplicar q buf in
      let '(rs, buf) := aplicar_todas qs buf in (r ++ rs, buf)
  end.

(** ** Lemmas *)

Lemma inicializar_ok size : 0 <= size < 1073741824 -> stick_ok (inicializar_memoria_stick size).
Proof. intros H. split; cbn; [|lia]. rewrite length_replicate. lia. Qed.


(** What a handler does once the fields of a valid request are read. *)
Lemma manejar_lectura_trama st pid dir tam resto :
  stick_ok st -> peticion_valida (Leer pid dir tam) ->
  exists pl, enviar_lectura_fisica pid dir tam = trama LECTURA_MEMORIA pl /\
  manejar_lectura st (le_enc 8 (Z.of_nat (length pl)) ++ pl ++ resto) =
  Some (trama LECTURA_MEMORIA (default [] (leer_buffer (memoria_buffer st) dir tam)), resto).
Proof.
  intros [Hs Hmax] (Hp & Hd & Ht & Hdt).
  destruct (protocolo_ok (p:=p_lectura_fisica) (pid, dir, tam)) as (pl & Hpl & Hr).
  { repeat split; unfold es_int in *; lia. }
  exists pl. split; [done|]. unfold manejar_lectura. cbn [p_recibir p_lectura_fisica p_imagen id] in Hr.
  rewrite (recibe_sigue _ _ _ _ _ Hr). rewrite add32_small by lia.
  unfold leer_buffer. rewrite Hs. destruct (Z.leb_spec (dir + tam) (Z.of_nat (length (memoria_buffer st)))) as [H|H].
  - rewrite i32_small by (unfold es_int; lia). destruct (Z.ltb_spec tam 0); [lia|].
    unfold st_lift, mbind, ST_bind. cbn [fmap option_fmap option_map from_option id]. unfold mret, ST_ret. do 2 f_equal.
    apply enviar_construido; [apply (construye_agregar _ _ []), construye_crear|].
    unfold MAX_PAYLOAD. autorewrite with largo. cbn [app]. lia.
  - unfold mret, ST_ret. cbn [from_option]. do 2 f_equal.
Qed.

Lemma manejar_escritura_trama st pid dir datos resto :
  stick_ok st -> peticion_valida (Escribir pid dir datos) ->
  exists pl, enviar_escritura_fisica pid dir datos = trama ESCRITURA_MEMORIA pl /\
  manejar_escritura st (le_enc 8 (Z.of_nat (length pl)) ++ pl ++ resto) =
  Some ((trama ESCRITURA_MEMORIA (le_enc 4 (-1)),
         Stick (default (memoria_buffer st) (escribir_buffer (memoria_buffer st) dir datos))
               (memoria_size st)), resto).
Proof.
  intros [Hs Hmax] (Hp & Hd & Ht & Hdt).
  destruct (protocolo_ok (p:=p_escritura_fisica) (pid, dir, datos)) as (pl & Hpl & Hr).
  { split; [done|]. split; [unfold es_u32; lia|done]. }
  exists pl. split; [done|]. unfold manejar_escritura. cbn [p_recibir p_escritura_fisica p_imagen] in Hr.
  rewrite (recibe_sigue _ _ _ _ _ Hr). rewrite add32_small by lia. rewrite <-enviar_ok_trama.
  unfold escribir_buffer. rewrite Hs.
  destruct (Z.leb_spec (dir + Z.of_nat (length datos)) (Z.of_nat (length (memoria_buffer st)))); [done|].
  st_unfold. cbn [from_option]. by destruct st; cbn in *; subst.
Qed.

Lemma aplicar_ok q st :
  stick_ok st -> peticion_valida q -> stick_ok (Stick (aplicar q (memoria_buffer st)).2 (memoria_size st)).
Proof.
  intros [Hs Hm] Hq. destruct q as [pid dir tam|pid dir datos]; cbn; [by split|].
  destruct (escribir_buffer _ _ _) as [b|] eqn:E; [|by split].
  destruct Hq as (_ & Hd & _). split; cbn; [|done]. by rewrite (length_escribir_buffer _ _ _ _ Hd E).
Qed.

(** The promise of one turn: the bytes of a request produce the answer and the
    buffer of [aplicar]. *)
Lemma atender_peticion_ok st q resto :
  stick_ok st -> peticion_valida q ->
  atender_peticion st (peticion_bytes q ++ resto) =
  Some (Some ((aplicar q (memoria_buffer st)).1,
              Stick (aplicar q (memoria_buffer st)).2 (memoria_size st)), resto).
Proof.
  intros Hst Hq. unfold atender_peticion. unfold mbind at 1, ST_bind at 1. destruct q as [pid dir tam|pid dir datos].
  - destruct (manejar_lectura_trama st pid dir tam resto Hst Hq) as (pl & Hpl & Hm).
    cbn [peticion_bytes]. rewrite Hpl, codigo_trama, Z.eqb_refl. unfold mbind, ST_bind.
    rewrite Hm. cbn. by destruct st.
  - destruct (manejar_escritura_trama st pid dir datos resto Hst Hq) as (pl & Hpl & Hm).
    cbn [peticion_bytes]. rewrite Hpl, codigo_trama. rewrite Z.eqb_refl.
    change (op_num ESCRITURA_MEMORIA =? op_num LECTURA_MEMORIA) with false. cbn iota.
    unfold mbind, ST_bind. by rewrite Hm.
Qed.

Lemma atender_fin st s : length s = O -> atender_peticion st s = Some (None, []).
Proof. by destruct s. Qed.

Lemma longitud_peticion q : peticion_valida q -> (0 < length (peticion_bytes q))%nat.
Proof.
  intros Hq. destruct q as [pid dir tam|pid dir datos].
  - destruct (protocolo_ok (p:=p_lectura_fisica) (pid, dir, tam)) as (pl & Hpl & _).
    { destruct Hq as (?&?&?&?). repeat split; unfold es_int in *; lia. }
    cbn [peticion_bytes]. change (p_enviar _ _) with (enviar_lectura_fisica pid dir tam) in Hpl.
    rewrite Hpl, length_trama. lia.
  - destruct (protocolo_ok (p:=p_escritura_fisica) (pid, dir, datos)) as (pl & Hpl & _).
    { destruct Hq as (?&?&?&?). split; [done|]. split; [unfold es_u32; lia|done]. }
    cbn [peticion_bytes]. change (p_enviar _ _) with (enviar_escritura_fisica pid dir datos) in Hpl.
    rewrite Hpl, length_trama. lia.
Qed.

Lemma longitud_peticiones qs :
  Forall peticion_valida qs -> (length qs <= length (qs ≫= peticion_bytes))%nat.
Proof.
  induction 1 as [|q qs Hq _ IH]; [cbn; lia|].
  rewrite bind_cons, length_app. pose proof (longitud_peticion q Hq). cbn [length]. lia.
Qed.

Lemma atender_conexion_ok n st qs :
  stick_ok st -> Forall peticion_valida qs -> (length qs < n)%nat ->
  atender_conexion n st (qs ≫= peticion_bytes) =
  Some (((aplicar_todas qs (memoria_buffer st)).1,
         Stick (aplicar_todas qs (memoria_buffer st)).2 (memoria_size st)), []).
Proof.
  intros Hst Hqs. revert n st Hst. induction Hqs as [|q qs Hq Hqs IH]; intros n st Hst Hn.
  - destruct n; [cbn in Hn; lia|]. cbn. by destruct st.
  - destruct n as [|n]; [cbn in Hn; lia|]. cbn [length] in Hn. cbn [atender_conexion].
    rewrite bind_cons. unfold mbind at 1, ST_bind at 1. rewrite (atender_peticion_ok _ _ _ Hst Hq).
    unfold mbind at 1, ST_bind at 1.
    rewrite IH; [|by apply aplicar_ok|lia]. cbn [aplicar_todas memoria_buffer memoria_size].
    destruct (aplicar q (memoria_buffer st)) as [r b] eqn:E1; cbn.
    by destruct (aplicar_todas qs b).
Qed.

(** The range check [dir + tam <= memoria_size] is done in [uint32_t]: a
    read whose end wraps around passes it, and then copies from outside the
    buffer (no defined result), where the same read without wrap-around is
    answered empty. *)
Lemma lectura_fuera_de_rango_aceptada st pid dir tam resto :
  stick_ok st -> es_int pid -> es_u32 dir -> es_u32 tam ->
  4294967296 <= dir + tam -> dir + tam - 4294967296 <= memoria_size st ->
  atender_peticion st (enviar_lectura_fisica pid dir tam ++ resto) = None.
Proof.
  intros [Hs Hm] Hp Hd Ht Hw Hin.
  destruct (protocolo_ok (p:=p_lectura_fisica) (pid, dir, tam)) as (pl & Hpl & Hr); [by split|].
  change (p_enviar _ _) with (enviar_lectura_fisica pid dir tam) in Hpl.
  unfold atender_peticion. unfold mbind at 1, ST_bind at 1. rewrite Hpl, codigo_trama, Z.eqb_refl.
  unfold mbind, ST_bind. unfold manejar_lectura. cbn [p_recibir p_lectura_fisica p_imagen id] in Hr.
  change (p_op p_lectura_fisica) with LECTURA_MEMORIA.
  rewrite (recibe_sigue _ _ _ _ _ Hr).
  assert (E : (dir +u tam)%u32 = dir + tam - 4294967296).
  { unfold es_u32 in *. unfold add32, u32. symmetry. apply (Z.mod_unique _ _ 1); lia. }
  rewrite E. destruct (Z.leb_spec (dir + tam - 4294967296) (memoria_size st)); [|lia].
  destruct (i32 tam <? 0); [done|]. unfold leer_buffer, es_u32 in *.
  destruct (Z.leb_spec (dir + tam) (Z.of_nat (length (memoria_buffer st)))); [lia|done].
Qed.

(** ** Every turn of the loop consumes input *)

Lemma consume_lectura st : consume (manejar_lectura st).
Proof.
  unfold manejar_lectura, campos_pid_u32_u32, recv_int, recv_u32.
  apply consume_bind; [apply consume_validar|intros _].
  apply consume_bind; [auto 20 with consume|intros [[pid dir] tam]].
  destruct (_ <=? _); [|auto with consume]. destruct (i32 tam <? 0); auto with consume.
Qed.

Lemma consume_escritura st : consume (manejar_escritura st).
Proof.
  unfold manejar_escritura, campos_escritura, recv_int, recv_u32.
  apply consume_bind; [apply consume_validar|intros _].
  apply consume_bind; [auto 20 with consume|intros [[[pid dir] tam] datos]].
  apply consume_bind; [|auto with consume]. destruct (_ <=? _); auto with consume.
Qed.

Lemma atender_peticion_consume st s r s' :
  atender_peticion st s = Some (Some r, s') -> (length s' < length s)%nat.
Proof.
  unfold atender_peticion. unfold mbind at 1, ST_bind at 1. unfold recibir_codigo_operacion, recv.
  destruct (Nat.leb_spec 4 (length s)) as [H|H]; [|done].
  assert (Hd : (length (drop 4 s) < length s)%nat) by (rewrite length_drop; lia).
  destruct (_ =? _); [|destruct (_ =? _); [|done]].
  - unfold mbind, ST_bind. destruct (manejar_lectura st (drop 4 s)) as [[a s1]|] eqn:E; [|done].
    apply consume_lectura in E. intros [= _ <-]. lia.
  - unfold mbind, ST_bind. destruct (manejar_escritura st (drop 4 s)) as [[a s1]|] eqn:E; [|done].
    apply consume_escritura in E. intros [= _ <-]. lia.
Qed.

(** ** Properties *)

(** A request that wraps, after any number that do not. *)
Lemma atender_conexion_desborda n st qs pid dir tam resto :
  stick_ok st -> Forall peticion_valida qs -> es_int pid -> es_u32 dir -> es_u32 tam ->
  4294967296 <= dir + tam -> dir + tam - 4294967296 <= memoria_size st -> (length qs < n)%nat ->
  atender_conexion n st ((qs ≫= peticion_bytes) ++ enviar_lectura_fisica pid dir tam ++ resto) = None.
Proof.
  intros Hst Hqs Hp Hd Ht Hw Hin. revert n st Hst Hin. induction Hqs as [|q qs Hq Hqs IH]; intros n st Hst Hin Hn.
  - destruct n; [cbn in Hn; lia|]. cbn [atender_conexion mbind list_bind app]. unfold mbind at 1, ST_bind at 1.
    by rewrite (lectura_fuera_de_rango_aceptada st pid dir tam resto).
  - destruct n as [|n]; [cbn in Hn; lia|]. cbn [length] in Hn. cbn [atender_conexion].
    rewrite bind_cons, <-app_assoc. unfold mbind at 1, ST_bind at 1. rewrite (atender_peticion_ok _ _ _ Hst Hq).
    unfold mbind at 1, ST_bind at 1. rewrite IH; [done|by apply aplicar_ok|done|lia].
Qed.

(** C33: a stick serves a connection like a plain array of bytes. After the
    handshake, whatever sequence of requests arrives whose ends (address plus size)
    are below 2^32, the answers sent and the final buffer are those of reading and
    writing the array in order: a read out of range is answered empty, a write out
    of range is dropped and acknowledged all the same. After any such sequence, a
    read whose end wraps around in 32 bits to an address of the stick passes the
    check of the range and reads outside the buffer: no defined behaviour. *)
Theorem stick_refina_arreglo st cpu qs :
  stick_ok st -> es_int cpu -> Forall peticion_valida qs ->
  memory_stick_cpu_handler st (enviar_handshake_cpu cpu ++ (qs ≫= peticion_bytes)) =
  Some (((aplicar_todas qs (memoria_buffer st)).1,
         Stick (aplicar_todas qs (memoria_buffer st)).2 (memoria_size st)), []) /\
  forall pid dir tam resto, es_int pid -> es_u32 dir -> es_u32 tam ->
    4294967296 <= dir + tam -> dir + tam - 4294967296 <= memoria_size st ->
    memory_stick_cpu_handler st (enviar_handshake_cpu cpu ++ (qs ≫= peticion_bytes) ++ enviar_lectura_fisica pid dir tam ++ resto) = None.
Proof.
  intros Hst Hcpu Hqs. pose proof (longitud_peticiones qs Hqs) as Hlen.
  destruct (protocolo_ok (p:=p_handshake_cpu) cpu Hcpu) as (pl & Hpl & Hr).
  change (p_enviar _ _) with (enviar_handshake_cpu cpu) in Hpl. rewrite Hpl.
  change (p_recibir p_handshake_cpu) with recibir_handshake_cpu in Hr.
  split; [|intros pid dir tam resto Hp Hd Ht Hw Hin];
    unfold memory_stick_cpu_handler; unfold mbind at 1, ST_bind at 1; rewrite codigo_trama, Z.eqb_refl;
    cbn [negb]; unfold mbind at 1, ST_bind at 1; rewrite Hr; unfold mbind, ST_bind, st_get.
  - apply atender_conexion_ok; [done..|]. unfold mbind in *. lia.
  - rewrite atender_conexion_desborda; [done..|]. rewrite length_app. unfold mbind in *. lia.
Qed.

(** The connection's loop ends on every input: any fuel above the number of
    bytes received gives the result of the fuel the thread is given. *)
Theorem atender_conexion_termina n st s :
  (length s < n)%nat -> atender_conexion n st s = atender_conexion (S (length s)) st s.
Proof.
  remember (length s) as k eqn:Hk. revert n st s Hk.
  induction k as [k IH] using (well_founded_induction lt_wf). intros n st s -> Hn.
  destruct n as [|n]; [lia|]. cbn [atender_conexion].
  unfold mbind, ST_bind. destruct (atender_peticion st s) as [[[[r st']|] s']|] eqn:E; [|done..].
  apply atender_peticion_consume in E as Hlt.
  assert (E1 : atender_conexion n st' s' = atender_conexion (S (length s')) st' s') by (eapply (IH (length s') Hlt); [done|lia]).
  assert (E2 : atender_conexion (length s) st' s' = atender_conexion (S (length s')) st' s') by (eapply (IH (length s') Hlt); [done|lia]).
  by rewrite E1, E2.
Qed.

Definition stick_ejemplo : stick := Stick [x01; x02; x03; x04] 4.
Lemma stick_ejemplo_ok : stick_ok stick_ejemplo.
Proof. split; [done|]. cbn. lia. Qed.

Lemma stick_refina_arreglo_witness :
  memory_stick_cpu_handler stick_ejemplo
    (enviar_handshake_cpu 3 ++
     ([Escribir 1 2 [x09]; Leer 1 1 2; Leer 1 3 2] ≫= peticion_bytes)) =
  Some ((trama ESCRITURA_MEMORIA (le_enc 4 (-1)) ++ trama LECTURA_MEMORIA [x02; x09] ++
         trama LECTURA_MEMORIA [], Stick [x01; x02; x09; x04] 4), []).
Proof.
  refine (proj1 (stick_refina_arreglo stick_ejemplo 3 [Escribir 1 2 [x09]; Leer 1 1 2; Leer 1 3 2] stick_ejemplo_ok _ _)).
  - unfold es_int; lia.
  - repeat first [apply Forall_nil; exact I | apply Forall_cons; split;
      [unfold peticion_valida, es_int, datos_ok; cbn [length]; lia|]].
Defined.

Lemma atender_conexion_termina_witness :
  atender_conexion 50 stick_ejemplo [x14; x00] = atender_conexion 3 stick_ejemplo [x14; x00].
Proof. apply (atender_conexion_termina 50 stick_ejemplo [x14; x00]). cbn; lia. Defined.

Lemma lectura_fuera_de_rango_aceptada_witness :
  atender_peticion stick_ejemplo (enviar_lectura_fisica 1 4294967292 8 ++ []) = None.
Proof.
  apply (lectura_fuera_de_rango_aceptada stick_ejemplo 1 4294967292 8 [] stick_ejemplo_ok);
    unfold es_int, es_u32; cbn; lia.
Defined.
