(* ===== verification/Io.v ===== *)
(** * Io: the I/O program

    Models [io/src/main.c] and [io_conexiones.c]: the requests of the Scheduler
    (sleep, read a line of the console, print), one at a time. The console is the
    bytes still to be typed; what the program logs of each request is kept in
    order. The fields are read without [validar_buffer]; a request cut short,
    whose fields the code uses unwritten, is [None]. *)

From S2P Require Import Prelude Wire Tipos Mensajes Texto.

Inductive registro_io :=
| Durmio (pid ms : Z)
| Leyo (pid cantidad : Z)
| Mostro (pid : Z) (mensaje : list byte).

Record dispositivo := Dispositivo { teclado : list byte; registro : list registro_io }.

Definition registrar (r : registro_io) (d : dispositivo) : dispositivo :=
  Dispositivo (teclado d) (registro d ++ [r]).
Definition con_teclado (t : list byte) (d : dispositivo) : dispositivo := Dispositivo t (registro d).

(** ** The three requests *)

(** [sleep] of the seconds, then [usleep] of the rest. *)
Definition milisegundos (tiempo_ms : Z) : Z :=
  if tiempo_ms >? 0 then 1000 * (tiempo_ms / 1000) + tiempo_ms mod 1000 else 0.

Definition atender_sleep (d : dispositivo) : lector (list byte * dispositivo) :=
  _ ← recv_size_t; pid ← recv_int; tiempo_ms ← recv_int;
  mret (enviar_fin_io pid, registrar (Durmio pid (milisegundos tiempo_ms)) d).

Definition sin_newline (linea : list byte) : list byte :=
  if decide (last linea = Some x0a) then take (length linea - 1) linea else linea.

(** The buffer of [calloc], with the line over it, and what is left to type. *)
Definition leer_teclado (cantidad : nat) (t : list byte) : list byte * list byte :=
  match fgets 4095 t with
  | Some (linea, t) =>
      let linea := sin_newline (cstr linea) in
      (take cantidad linea ++ replicate (cantidad - length linea) x00, t)
  | None => (replicate cantidad x00, t)
  end.

(** [calloc] of a negative size fails, and the request is not answered. *)
Definition atender_stdin (d : dispositivo) : lector (list byte * dispositivo) :=
  _ ← recv_size_t; pid ← recv_int; cantidad ← recv_int;
  if cantidad <? 0 then mret ([], d)
  else
    let '(buffer, t) := leer_teclado (Z.to_nat cantidad) (teclado d) in
    mret (enviar_datos_stdin pid buffer, registrar (Leyo pid cantidad) (con_teclado t d)).

(** [malloc(buffer_size + 1)] fails below -1, writes out of its block at -1 and
    overflows at the last [int]. The [recv] may fall short. *)
Definition atender_stdout (d : dispositivo) : lector (list byte * dispositivo) :=
  size ← recv_size_t; pid ← recv_int;
  let buffer_size := i32 (u64 (size - 4)) in
  if (buffer_size =? -1) || (buffer_size =? 2147483647) then st_abort
  else if buffer_size <? 0 then mret ([], d)
  else
    s ← st_get;
    _ ← st_put (drop (Z.to_nat buffer_size) s);
    mret (enviar_fin_io pid, registrar (Mostro pid (cstr (take (Z.to_nat buffer_size) s))) d).

(** ** The loop *)

(** [None] is the disconnection; an unknown op_code is skipped. *)
Definition atender_io (d : dispositivo) : lector (option (list byte * dispositivo)) :=
  opcode ← (fun s => Some (recibir_codigo_operacion s));
  if i32 opcode =? -1 then mret None
  else if opcode =? op_num IO_SLEEP then r ← atender_sleep d; mret (Some r)
  else if opcode =? op_num IO_STDIN then r ← atender_stdin d; mret (Some r)
  else if opcode =? op_num IO_STDOUT then r ← atender_stdout d; mret (Some r)
  else mret (Some ([], d)).

(** Each turn takes the four bytes of an op_code. *)
Fixpoint io_bucle (n : nat) (d : dispositivo) : lector (list byte * dispositivo) :=
  match n with
  | O => st_abort
  | S n =>
      r ← atender_io d;
      match r with
      | None => mret ([], d)
      | Some (resp, d) => '(resps, d) ← io_bucle n d; mret (resp ++ resps, d)
      end
  end.

Section conexion.
(** [crear_conexion] of the sockets: whether the Scheduler is there. *)
Variable crear_conexion : list byte -> list byte -> bool.

(** The handshake; [None] for [false]. *)
Definition conectar_a_scheduler (ip puerto io_name : list byte) : option (list byte) :=
  if crear_conexion ip puerto then Some (enviar_handshake_io (con_nul io_name)) else None.

(** [main], once configured: what is sent and the final state. *)
Definition io_main (ip puerto io_name entrante : list byte) (d : dispositivo) : option (list byte * dispositivo) :=
  match conectar_a_scheduler ip puerto io_name with
  | None => Some ([], d)
  | Some saludo =>
      match io_bucle (S (length entrante)) d entrante with
      | Some ((resps, d), _) => Some (saludo ++ resps, d)
      | None => None
      end
  end.
End conexion.

(** ** What the device promises *)

Inductive pedido_io :=
| PideSleep (pid ms : Z)
| PideStdin (pid cantidad : Z)
| PideStdout (pid : Z) (datos : list byte).

Definition pedido_bytes (q : pedido_io) : list byte :=
  match q with
  | PideSleep pid ms => enviar_io_sleep pid ms
  | PideStdin pid cantidad => enviar_io_stdin pid cantidad
  | PideStdout pid datos => enviar_io_stdout pid datos
  end.

Definition pedido_valido (q : pedido_io) : Prop :=
  match q with
  | PideSleep pid ms => es_int pid /\ 0 <= ms < 2147483648
  | PideStdin pid cantidad => es_int pid /\ 0 <= cantidad <= 1073741824
  | PideStdout pid datos => es_int pid /\ datos_ok datos
  end.

(** A console somebody types lines at, each shorter than the buffer. *)
Definition linea_tipeable (l : list byte) : Prop := x0a ∉ l /\ x00 ∉ l /\ (length l < 4095)%nat.
Definition tipeado (ls : list (list byte)) : list byte := ls ≫= (fun l => l ++ [x0a]).

(** A line in a field of [n] bytes: cut, or filled with zeros. *)
Definition ajustar (n : nat) (l : list byte) : list byte := take n (l ++ replicate n x00).

(** The answer, the lines not read, what is logged. *)
Definition responder_io (q : pedido_io) (ls : list (list byte)) : list byte * list (list byte) * registro_io :=
  match q with
  | PideSleep pid ms => (enviar_fin_io pid, ls, Durmio pid ms)
  | PideStdin pid n => (enviar_datos_stdin pid (ajustar (Z.to_nat n) (default [] (head ls))), tail ls, Leyo pid n)
  | PideStdout pid datos => (enviar_fin_io pid, ls, Mostro pid (cstr datos))
  end.

Fixpoint responder_todos (qs : list pedido_io) (ls : list (list byte)) : list byte * list (list byte) * list registro_io :=
  match qs with
  | [] => ([], ls, [])
  | q :: qs =>
      let '(r, ls, x) := responder_io q ls in
      let '(rs, ls, xs) := responder_todos qs ls in (r ++ rs, ls, x :: xs)
  end.

(** ** Lemmas *)

Lemma milisegundos_id ms : 0 <= ms -> milisegundos ms = ms.
Proof. intros H. unfold milisegundos. destruct (Z.gtb_spec ms 0); [|lia]. pose proof (Z.div_mod ms 1000). lia. Qed.

Lemma ajustar_eq n l : take n l ++ replicate (n - length l) x00 = ajustar n l.
Proof. unfold ajustar. rewrite take_app, take_replicate. do 2 f_equal. lia. Qed.

Lemma length_ajustar n l : length (ajustar n l) = n.
Proof. unfold ajustar. rewrite length_take, length_app, length_replicate. lia. Qed.

Lemma sin_newline_linea l : sin_newline (l ++ [x0a]) = l.
Proof.
  unfold sin_newline. rewrite last_snoc, decide_True by done. rewrite length_app. cbn.
  rewrite Nat.add_sub. apply take_app_length.
Qed.

Lemma leer_teclado_ok n ls : Forall linea_tipeable ls ->
  leer_teclado n (tipeado ls) = (ajustar n (default [] (head ls)), tipeado (tail ls)).
Proof.
  intros Hl. unfold leer_teclado, fgets. destruct Hl as [|l ls (Hn & H0 & Hc) _]; cbn [tipeado head tail default mbind list_bind].
  { rewrite <-ajustar_eq. cbn. by rewrite take_nil, Nat.sub_0_r. }
  rewrite <-app_assoc. cbn [app]. replace (match l ++ x0a :: _ with [] => _ | _ :: _ => _ end)
    with (Some (tomar_linea 4095 (l ++ x0a :: tipeado ls))) by (by destruct l).
  rewrite tomar_linea_corta by done.
  rewrite cstr_sin_nul by (rewrite elem_of_app, list_elem_of_singleton; intros [H|H]; done).
  by rewrite sin_newline_linea, ajustar_eq.
Qed.

(** A message the device reads without checking its size. *)
Lemma recv_size_pl pl resto : Z.of_nat (length pl) < MAX_PAYLOAD ->
  recv_size_t (le_enc 8 (Z.of_nat (length pl)) ++ pl ++ resto) = Some (Z.of_nat (length pl), pl ++ resto).
Proof.
  intros Hl. unfold recv_size_t, MAX_PAYLOAD in *. st_unfold.
  by rewrite (lee_recv_enc 8 (Z.of_nat (length pl)) (pl ++ resto)), le_dec_enc, Z.mod_small by lia.
Qed.

Lemma dos_enteros a b resto : es_int a -> es_int b ->
  (pid ← recv_int; x ← recv_int; mret (pid, x)) ((le_enc 4 a ++ le_enc 4 b) ++ resto) = Some ((a, b), resto).
Proof.
  intros Ha Hb. unfold mbind, ST_bind. rewrite <-app_assoc, lee_int, i32_small by done.
  rewrite lee_int, i32_small by done. done.
Qed.

Lemma bytes_dos_enteros op a b :
  enviar_paquete (agregar_a_paquete (agregar_a_paquete (crear_paquete op) (le_enc 4 a)) (le_enc 4 b)) = trama op (le_enc 4 a ++ le_enc 4 b).
Proof. apply enviar_construido; [|done]. change (le_enc 4 a ++ le_enc 4 b) with (([] ++ le_enc 4 a) ++ le_enc 4 b). auto with wire. Qed.

Lemma atender_sleep_ok d pid ms resto : es_int pid -> 0 <= ms < 2147483648 ->
  atender_sleep d (le_enc 8 (Z.of_nat (length (le_enc 4 pid ++ le_enc 4 ms))) ++ (le_enc 4 pid ++ le_enc 4 ms) ++ resto) =
  Some ((enviar_fin_io pid, registrar (Durmio pid ms) d), resto).
Proof.
  intros Hp Hm. pose proof (dos_enteros pid ms resto Hp ltac:(unfold es_int; lia)) as E. unfold atender_sleep.
  unfold mbind, ST_bind in *. rewrite (recv_size_pl (le_enc 4 pid ++ le_enc 4 ms) resto) by done.
  destruct (recv_int _) as [[a s]|]; [|done]. destruct (recv_int s) as [[b s']|]; [|done].
  injection E as -> -> ->. by rewrite milisegundos_id by lia.
Qed.

Lemma atender_stdin_ok d pid n ls resto : es_int pid -> 0 <= n <= 1073741824 -> Forall linea_tipeable ls -> teclado d = tipeado ls ->
  atender_stdin d (le_enc 8 (Z.of_nat (length (le_enc 4 pid ++ le_enc 4 n))) ++ (le_enc 4 pid ++ le_enc 4 n) ++ resto) =
  Some ((enviar_datos_stdin pid (ajustar (Z.to_nat n) (default [] (head ls))),
         registrar (Leyo pid n) (con_teclado (tipeado (tail ls)) d)), resto).
Proof.
  intros Hp Hn Hl Ht. pose proof (dos_enteros pid n resto Hp ltac:(unfold es_int; lia)) as E. unfold atender_stdin.
  unfold mbind, ST_bind in *. rewrite (recv_size_pl (le_enc 4 pid ++ le_enc 4 n) resto) by done.
  destruct (recv_int _) as [[a s]|]; [|done]. destruct (recv_int s) as [[b s']|]; [|done].
  injection E as -> -> ->. destruct (Z.ltb_spec n 0); [lia|]. by rewrite Ht, leer_teclado_ok.
Qed.

Lemma atender_stdout_ok d pid datos resto : es_int pid -> datos_ok datos ->
  atender_stdout d (le_enc 8 (Z.of_nat (length (le_enc 4 pid ++ datos))) ++ (le_enc 4 pid ++ datos) ++ resto) =
  Some ((enviar_fin_io pid, registrar (Mostro pid (cstr datos)) d), resto).
Proof.
  intros Hp Hd. unfold datos_ok in Hd. unfold atender_stdout. unfold mbind, ST_bind.
  rewrite recv_size_pl by (rewrite length_app, length_le_enc; unfold MAX_PAYLOAD; lia).
  rewrite <-app_assoc, lee_int, (i32_small pid) by done. rewrite length_app, length_le_enc.
  replace (Z.of_nat (4 + length datos) - 4) with (Z.of_nat (length datos)) by lia.
  unfold u64. rewrite Z.mod_small by lia. rewrite i32_small by (unfold es_int; lia).
  destruct (Z.eqb_spec (Z.of_nat (length datos)) (-1)); [lia|]. destruct (Z.eqb_spec (Z.of_nat (length datos)) 2147483647); [lia|].
  destruct (Z.ltb_spec (Z.of_nat (length datos)) 0); [lia|]. cbn [orb]. st_unfold.
  by rewrite Nat2Z.id, take_app_length, drop_app_length.
Qed.

Lemma bytes_stdout pid datos : datos_ok datos -> enviar_io_stdout pid datos = trama IO_STDOUT (le_enc 4 pid ++ datos).
Proof.
  intros Hd. apply enviar_construido.
  - change (le_enc 4 pid ++ datos) with (([] ++ le_enc 4 pid) ++ datos). auto with wire.
  - unfold datos_ok in Hd. rewrite length_app, length_le_enc. unfold MAX_PAYLOAD. lia.
Qed.

(** One turn of the loop serves one request. *)
Lemma atender_io_ok q d ls resto : pedido_valido q -> Forall linea_tipeable ls -> teclado d = tipeado ls ->
  let '(r, ls', x) := responder_io q ls in
  atender_io d (pedido_bytes q ++ resto) = Some (Some (r, registrar x (con_teclado (tipeado ls') d)), resto).
Proof.
  intros Hq Hl Ht. unfold atender_io. unfold mbind at 1, ST_bind at 1.
  assert (Et : con_teclado (tipeado ls) d = d) by (rewrite <-Ht; by destruct d).
  destruct q as [pid ms|pid n|pid datos]; cbn [pedido_bytes responder_io]; rewrite ?Et.
  - destruct Hq as [Hp Hm]. unfold enviar_io_sleep. rewrite bytes_dos_enteros, codigo_trama, op_num_no_neg, Z.eqb_refl.
    unfold mbind, ST_bind. rewrite (atender_sleep_ok d pid ms resto) by done. done.
  - destruct Hq as [Hp Hn]. unfold enviar_io_stdin. rewrite bytes_dos_enteros, codigo_trama, op_num_no_neg.
    change (op_num IO_STDIN =? op_num IO_SLEEP) with false. rewrite Z.eqb_refl. cbn iota.
    unfold mbind, ST_bind. rewrite (atender_stdin_ok d pid n ls resto) by done. done.
  - destruct Hq as [Hp Hd]. rewrite bytes_stdout by done. rewrite codigo_trama, op_num_no_neg. change (op_num IO_STDOUT =? op_num IO_SLEEP) with false.
    change (op_num IO_STDOUT =? op_num IO_STDIN) with false. rewrite Z.eqb_refl. cbn iota.
    unfold mbind, ST_bind. rewrite (atender_stdout_ok d pid datos resto) by done. done.
Qed.

Lemma pedido_no_vacio q : pedido_valido q -> (1 <= length (pedido_bytes q))%nat.
Proof.
  intros Hq. destruct q as [pid ms|pid n|pid datos]; cbn [pedido_bytes].
  - unfold enviar_io_sleep. rewrite bytes_dos_enteros, length_trama. lia.
  - unfold enviar_io_stdin. rewrite bytes_dos_enteros, length_trama. lia.
  - rewrite bytes_stdout by apply Hq. rewrite length_trama. lia.
Qed.

Lemma pedidos_no_vacios qs : Forall pedido_valido qs -> (length qs <= length (qs ≫= pedido_bytes))%nat.
Proof.
  induction 1 as [|q qs Hq _ IH]; [cbn; lia|]. rewrite bind_cons, length_app.
  pose proof (pedido_no_vacio q Hq). cbn [length]. lia.
Qed.

Lemma lineas_tipeables_tail q ls : Forall linea_tipeable ls -> Forall linea_tipeable (responder_io q ls).1.2.
Proof. intros H. destruct q; cbn; [done| |done]. by destruct H. Qed.

Lemma io_bucle_ok n qs d ls : Forall pedido_valido qs -> Forall linea_tipeable ls -> teclado d = tipeado ls -> (length qs < n)%nat ->
  let '(rs, ls', xs) := responder_todos qs ls in
  io_bucle n d (qs ≫= pedido_bytes) = Some ((rs, Dispositivo (tipeado ls') (registro d ++ xs)), []).
Proof.
  intros Hqs. revert n d ls. induction Hqs as [|q qs Hq _ IH]; intros n d ls Hl Ht Hn; (destruct n as [|n]; [cbn in Hn; lia|]).
  { cbn. rewrite <-Ht, app_nil_r. by destruct d. }
  cbn [length] in Hn. cbn [responder_todos]. pose proof (lineas_tipeables_tail q ls Hl) as Hl'.
  pose proof (atender_io_ok q d ls (qs ≫= pedido_bytes) Hq Hl Ht) as E.
  destruct (responder_io q ls) as [[r ls1] x]. specialize (IH n (registrar x (con_teclado (tipeado ls1) d)) ls1 Hl' eq_refl ltac:(lia)).
  destruct (responder_todos qs ls1) as [[rs ls2] xs]. cbn [io_bucle]. rewrite bind_cons. unfold mbind at 1, ST_bind at 1.
  rewrite E. unfold mbind, ST_bind. unfold mbind in IH. rewrite IH. cbn. by rewrite <-app_assoc.
Qed.

(** ** Properties *)

(** C34: an interface serves its connection in order: after the handshake it answers
    each request once, a line of the console, cut or filled to the size asked for,
    to each STDIN, and keeps the lines nobody asked for. *)
Theorem io_atiende_en_orden crear ip puerto nombre qs ls reg :
  crear ip puerto = true -> Forall pedido_valido qs -> Forall linea_tipeable ls ->
  let '(rs, ls', xs) := responder_todos qs ls in
  io_main crear ip puerto nombre (qs ≫= pedido_bytes) (Dispositivo (tipeado ls) reg) =
  Some (enviar_handshake_io (con_nul nombre) ++ rs, Dispositivo (tipeado ls') (reg ++ xs)).
Proof.
  intros Hc Hqs Hl. pose proof (pedidos_no_vacios qs Hqs) as Hn.
  pose proof (io_bucle_ok (S (length (qs ≫= pedido_bytes))) qs (Dispositivo (tipeado ls) reg) ls Hqs Hl eq_refl ltac:(lia)) as E.
  destruct (responder_todos qs ls) as [[rs ls'] xs]. unfold io_main, conectar_a_scheduler. by rewrite Hc, E.
Qed.

(** ** Witnesses *)

Lemma io_atiende_en_orden_witness :
  io_main (fun _ _ => true) [] [] [x49] ([PideStdin 3 4; PideSleep 3 1500; PideStdin 5 2; PideStdout 3 [x68; x00]] ≫= pedido_bytes)
    (Dispositivo (tipeado [[x61; x62]; [x63; x64; x65]; [x66]]) []) =
  Some (enviar_handshake_io (con_nul [x49]) ++ (enviar_datos_stdin 3 [x61; x62; x00; x00] ++ enviar_fin_io 3 ++
          enviar_datos_stdin 5 [x63; x64] ++ enviar_fin_io 3 ++ []),
        Dispositivo (tipeado [[x66]]) [Leyo 3 4; Durmio 3 1500; Leyo 5 2; Mostro 3 [x68]]).
Proof.
  assert (Hl : Forall linea_tipeable [[x61; x62]; [x63; x64; x65]; [x66]]).
  { repeat (apply Forall_cons; split; [unfold linea_tipeable; cbn; split_and!; [set_solver|set_solver|lia]|]). constructor. }
  refine (io_atiende_en_orden (fun _ _ => true) [] [] [x49] [PideStdin 3 4; PideSleep 3 1500; PideStdin 5 2; PideStdout 3 [x68; x00]]
    [[x61; x62]; [x63; x64; x65]; [x66]] [] eq_refl _ Hl).
  repeat (apply Forall_cons; split; [cbn; unfold es_int, datos_ok; cbn; lia|]). constructor.
Defined.
