(* ===== verification/Swap.v ===== *)
(** * Swap: the Swap process

    Models [swap/src/utils_swap.c] (the block file and the loop that serves
    Kernel Memory), the validation of [swap/src/swap_config.c] and the start-up
    order of [swap/src/main.c]. The file is a list of bytes; [pread] and
    [pwrite] on it do what POSIX says for a regular file on a working disk. *)

From S2P Require Import Prelude Wire Buffer Tipos Mensajes.

(** The numeric part of [t_swap_config]. *)
Record t_swap_config := SwapConfig { swap_file_size : Z; sw_block_size : Z }.

(** [load_swap_config], from the two integers of the file; [None] for [false].
    The strings are taken as present ([strdup]). *)
Definition load_swap_config (tam bs : Z) : option t_swap_config :=
  let c := SwapConfig (u32 tam) (u32 bs) in
  if (swap_file_size c =? 0) || (sw_block_size c =? 0) ||
     (sw_block_size c >? swap_file_size c) then None else Some c.

Record swap := Swap { sw_config : t_swap_config; archivo : list byte }.

(** [ftruncate(SWAP_FD, n)]: cut, or extended with zeros. *)
Definition ftruncate (n : Z) (f : list byte) : list byte :=
  take (Z.to_nat n) f ++ replicate (Z.to_nat n - length f) x00.

Definition swap_abrir_archivo (c : t_swap_config) (previo : list byte) : swap :=
  Swap c (ftruncate (swap_file_size c) previo).

(** The bytes read: fewer than [n] at the end of the file. *)
Definition pread (f : list byte) (n offset : Z) : list byte :=
  take (Z.to_nat n) (drop (Z.to_nat offset) f).

(** A write past the end extends the file; it never comes short. *)
Definition pwrite (f : list byte) (datos : list byte) (offset : Z) : list byte :=
  let f' := f ++ replicate (Z.to_nat offset - length f) x00 in
  take (Z.to_nat offset) f' ++ datos ++ drop (Z.to_nat offset + length datos) f'.

Definition is_valid_block (c : t_swap_config) (block_number : Z) : bool :=
  let blocks_count := swap_file_size c / sw_block_size c in
  block_number <? blocks_count.

Definition swap_write_block (s : swap) : lector (list byte * swap) :=
  '(block_number, block_data) ← recibir_escritura_bloque_swap (sw_block_size (sw_config s));
  let '(status, f) :=
    if negb (is_valid_block (sw_config s) block_number) then (-1, archivo s)
    else
      let offset := block_number * sw_block_size (sw_config s) in
      (0, pwrite (archivo s) block_data offset) in
  mret (enviar_resultado_swap status, Swap (sw_config s) f).

(** [block_data] starts as [calloc(1, block_size)]. *)
Definition swap_read_block (s : swap) : lector (list byte) :=
  block_number ← recibir_lectura_bloque_swap;
  let bs := sw_block_size (sw_config s) in
  let ceros := replicate (Z.to_nat bs) x00 in
  let '(status, block_data) :=
    if negb (is_valid_block (sw_config s) block_number) then (-1, ceros)
    else
      let leido := pread (archivo s) bs (block_number * bs) in
      (if Z.of_nat (length leido) =? bs then 0 else -1,
       leido ++ drop (length leido) ceros) in
  mret (enviar_bloque_swap status (Some block_data) bs).

(** One turn of the loop; [None] is the disconnection. An unknown op_code is
    skipped, its payload is not. *)
Definition swap_atender_operacion (s : swap) : lector (option (list byte * swap)) :=
  op ← (fun st => Some (recibir_codigo_operacion st));
  if i32 op =? -1 then mret None
  else if op =? op_num LECTURA_BLOQUE_SWAP then
    r ← swap_read_block s; mret (Some (r, s))
  else if op =? op_num ESCRITURA_BLOQUE_SWAP then
    r ← swap_write_block s; mret (Some r)
  else mret (Some ([], s)).

Fixpoint swap_atender_operaciones (n : nat) (s : swap) : lector (list byte * swap) :=
  match n with
  | O => st_abort
  | S n =>
      r ← swap_atender_operacion s;
      match r with
      | None => mret ([], s)
      | Some (resp, s) =>
          '(resps, s) ← swap_atender_operaciones n s; mret (resp ++ resps, s)
      end
  end.

(** [main]: configuration, file, handshake, loop. The bytes sent to Memory, in
    order, and the final file; [previo] is the file found on disk. *)
Definition swap_main (tam bs : Z) (previo entrante : list byte) : option (list byte * swap) :=
  match load_swap_config tam bs with
  | None => None
  | Some c =>
      let s := swap_abrir_archivo c previo in
      match swap_atender_operaciones (S (length entrante)) s entrante with
      | Some ((resps, s), _) =>
          Some (enviar_handshake_swap (sw_block_size c) (swap_file_size c) ++ resps, s)
      | None => None
      end
  end.

(** ** What Swap promises: an array of blocks *)

Record swap_ok (s : swap) : Prop := {
  sok_bs : 0 < sw_block_size (sw_config s) <= 1073741824;
  sok_tam : es_u32 (swap_file_size (sw_config s));
  sok_archivo : Z.of_nat (length (archivo s)) = swap_file_size (sw_config s) }.

Definition cantidad_bloques (s : swap) : Z :=
  swap_file_size (sw_config s) / sw_block_size (sw_config s).

(** The contents of block [b]. *)
Definition bloque (s : swap) (b : Z) : list byte :=
  pread (archivo s) (sw_block_size (sw_config s)) (b * sw_block_size (sw_config s)).

Inductive peticion_swap :=
| LeerBloque (b : Z)
| EscribirBloque (b : Z) (datos : list byte).

Definition peticion_swap_bytes (q : peticion_swap) : list byte :=
  match q with
  | LeerBloque b => enviar_lectura_bloque_swap b
  | EscribirBloque b datos => enviar_escritura_bloque_swap b datos
  end.

Definition peticion_swap_valida (s : swap) (q : peticion_swap) : Prop :=
  match q with
  | LeerBloque b => es_u32 b
  | EscribirBloque b datos => es_u32 b /\ Z.of_nat (length datos) = sw_block_size (sw_config s)
  end.

(** ** Lemmas *)

Lemma abrir_ok tam bs c previo :
  load_swap_config tam bs = Some c -> sw_block_size c <= 1073741824 ->
  swap_ok (swap_abrir_archivo c previo).
Proof.
  unfold load_swap_config. destruct (_ || _) eqn:E; [done|]. intros [= <-] Hb.
  cbn [sw_block_size swap_file_size] in *. b2p. pose proof (u32_range tam) as Ht. pose proof (u32_range bs).
  unfold es_u32 in *. split; cbn [swap_abrir_archivo sw_config archivo sw_block_size swap_file_size].
  - lia.
  - done.
  - unfold ftruncate. autorewrite with largo. lia.
Qed.

Lemma bloque_dentro s b :
  swap_ok s -> es_u32 b -> is_valid_block (sw_config s) b = true ->
  0 <= b * sw_block_size (sw_config s) /\
  b * sw_block_size (sw_config s) + sw_block_size (sw_config s) <= Z.of_nat (length (archivo s)).
Proof.
  intros [Hb Ht Ha] Hbl Hv. unfold is_valid_block in Hv. b2p. rewrite Ha.
  unfold es_u32 in *. split; [nia|].
  pose proof (Z.mul_div_le (swap_file_size (sw_config s)) (sw_block_size (sw_config s))). nia.
Qed.

Lemma length_bloque s b :
  swap_ok s -> es_u32 b -> is_valid_block (sw_config s) b = true ->
  Z.of_nat (length (bloque s b)) = sw_block_size (sw_config s).
Proof.
  intros Hs Hb Hv. destruct (bloque_dentro s b Hs Hb Hv). pose proof (sok_bs s Hs).
  unfold bloque, pread. autorewrite with largo. lia.
Qed.

(** Inside the file the two POSIX calls are the plain array accesses. *)
Lemma pread_leer f n o :
  0 <= n -> 0 <= o -> o + n <= Z.of_nat (length f) -> leer_buffer f o n = Some (pread f n o).
Proof. intros. unfold leer_buffer. destruct (Z.leb_spec (o + n) (Z.of_nat (length f))); [done|lia]. Qed.

Lemma pwrite_escribir f d o :
  0 <= o -> o + Z.of_nat (length d) <= Z.of_nat (length f) -> escribir_buffer f o d = Some (pwrite f d o).
Proof.
  intros. unfold escribir_buffer, pwrite.
  destruct (Z.leb_spec (o + Z.of_nat (length d)) (Z.of_nat (length f))); [|lia].
  replace (Z.to_nat o - length f)%nat with O by lia. cbn [replicate]. by rewrite app_nil_r.
Qed.

(** The answer to a request over an array [m] of [n] blocks, and the new array. *)
Definition aplicar_swap (n : Z) (q : peticion_swap) (m : Z -> list byte)
    : list byte * (Z -> list byte) :=
  match q with
  | LeerBloque b =>
      (if b <? n then trama RESPUESTA_SWAP (le_enc 4 0 ++ m b)
       else trama RESPUESTA_SWAP (le_enc 4 (-1)), m)
  | EscribirBloque b datos =>
      (trama RESPUESTA_SWAP (le_enc 4 (if b <? n then 0 else -1)),
       if b <? n then fun b' => if b' =? b then datos else m b' else m)
  end.

Fixpoint aplicar_swap_todas (n : Z) (qs : list peticion_swap) (m : Z -> list byte)
    : list byte * (Z -> list byte) :=
  match qs with
  | [] => ([], m)
  | q :: qs =>
      let '(r, m) := aplicar_swap n q m in
      let '(rs, m) := aplicar_swap_todas n qs m in (r ++ rs, m)
  end.

(** The file holds the array. *)
Definition representa (s : swap) (m : Z -> list byte) : Prop :=
  forall b, 0 <= b < cantidad_bloques s -> bloque s b = m b.

Lemma enviar_resultado_trama st :
  enviar_resultado_swap st = trama RESPUESTA_SWAP (le_enc 4 st).
Proof. apply enviar_construido; [apply (construye_agregar _ _ []), construye_crear|done]. Qed.

Lemma enviar_bloque_trama st d :
  0 < Z.of_nat (length d) <= 1073741824 ->
  enviar_bloque_swap st (Some d) (Z.of_nat (length d)) =
  trama RESPUESTA_SWAP (le_enc 4 st ++ if st =? 0 then d else []).
Proof.
  intros Hd. unfold enviar_bloque_swap. apply enviar_construido.
  - assert (Hc : construye (agregar_a_paquete (crear_paquete RESPUESTA_SWAP) (le_enc 4 st))
                   RESPUESTA_SWAP (le_enc 4 st)) by apply (construye_agregar _ _ []), construye_crear.
    destruct (Z.gtb_spec (Z.of_nat (length d)) 0); [|lia].
    rewrite andb_true_r, Nat2Z.id, firstn_all.
    destruct (st =? 0); [by apply construye_agregar|by rewrite app_nil_r].
  - unfold MAX_PAYLOAD. rewrite length_app, length_le_enc. destruct (st =? 0); cbn [length]; lia.
Qed.

Lemma valid_block_cantidad s b : is_valid_block (sw_config s) b = (b <? cantidad_bloques s).
Proof. done. Qed.

Lemma swap_read_block_ok s b resto :
  swap_ok s -> es_u32 b ->
  exists pl, enviar_lectura_bloque_swap b = trama LECTURA_BLOQUE_SWAP pl /\
  swap_read_block s (le_enc 8 (Z.of_nat (length pl)) ++ pl ++ resto) =
  Some ((aplicar_swap (cantidad_bloques s) (LeerBloque b) (bloque s)).1, resto).
Proof.
  intros Hs Hb. destruct (protocolo_ok (p:=p_lectura_bloque_swap) b Hb) as (pl & Hpl & Hr).
  exists pl. split; [done|]. unfold swap_read_block, mbind at 1, ST_bind at 1.
  change (p_recibir p_lectura_bloque_swap) with recibir_lectura_bloque_swap in Hr. rewrite Hr.
  change (p_imagen p_lectura_bloque_swap b) with b.
  cbn [aplicar_swap fst]. rewrite valid_block_cantidad. pose proof (sok_bs s Hs).
  set (bs := sw_block_size (sw_config s)) in *.
  destruct (b <? cantidad_bloques s) eqn:Hv; cbn [negb].
  - pose proof (length_bloque s b Hs Hb Hv) as Hl. fold bs in Hl.
    change (pread (archivo s) bs (b * bs)) with (bloque s b). rewrite Hl, Z.eqb_refl.
    rewrite drop_ge by (rewrite length_replicate; lia). rewrite app_nil_r.
    rewrite <-Hl at 1. rewrite enviar_bloque_trama by lia. done.
  - replace bs with (Z.of_nat (length (replicate (Z.to_nat bs) x00))) at 2
      by (rewrite length_replicate; lia).
    rewrite enviar_bloque_trama by (rewrite length_replicate; lia).
    cbn [Z.eqb]. by rewrite app_nil_r.
Qed.

(** The file after writing the valid block [b]: sound, and it holds the blocks
    of the specification. *)
Lemma escrito_representa s b datos :
  swap_ok s -> es_u32 b -> Z.of_nat (length datos) = sw_block_size (sw_config s) -> b <? cantidad_bloques s = true ->
  let s' := Swap (sw_config s) (pwrite (archivo s) datos (b * sw_block_size (sw_config s))) in
  swap_ok s' /\ representa s' (aplicar_swap (cantidad_bloques s) (EscribirBloque b datos) (bloque s)).2.
Proof.
  intros Hs Hb Hd Hv s'. pose proof (sok_bs s Hs) as Hbs. destruct (bloque_dentro s b Hs Hb Hv) as [Hin1 Hin2].
  assert (Hwr := pwrite_escribir (archivo s) datos _ Hin1 ltac:(lia)).
  pose proof (length_escribir_buffer _ _ _ _ Hin1 Hwr) as Hlen. split.
  { destruct Hs as [? ? Ha]. split; cbn [s' sw_config archivo]; [done..|]. by rewrite <-Ha, Hlen. }
  intros b' Hb'. change (cantidad_bloques s') with (cantidad_bloques s) in Hb'. cbn [aplicar_swap snd]. rewrite Hv.
  assert (Hu' : es_u32 b').
  { b2p. unfold es_u32. pose proof (sok_tam s Hs). unfold cantidad_bloques in Hb'. unfold es_u32 in *.
    pose proof (Z.div_le_upper_bound (swap_file_size (sw_config s)) (sw_block_size (sw_config s))
      (swap_file_size (sw_config s))). nia. }
  destruct (bloque_dentro s b' Hs Hu') as [Hin1' Hin2']; [rewrite valid_block_cantidad; apply Z.ltb_lt; lia|].
  apply (inj Some). unfold bloque, s'; cbn [archivo sw_config].
  rewrite <-pread_leer by lia. destruct (Z.eqb_spec b' b) as [->|Hne].
  - rewrite <-(leer_escribir _ _ _ _ Hin1 Hwr). by rewrite Hd.
  - assert (Hdis : disjuntos (b * sw_block_size (sw_config s)) (Z.of_nat (length datos))
                     (b' * sw_block_size (sw_config s)) (sw_block_size (sw_config s)))
      by (unfold disjuntos; nia).
    rewrite (leer_escribir_disjunto _ _ _ _ _ _ Hin1 Hin1' (Z.lt_le_incl _ _ (proj1 Hbs)) Hdis Hwr).
    by rewrite pread_leer by lia.
Qed.

Lemma swap_write_block_ok s b datos resto :
  swap_ok s -> es_u32 b -> Z.of_nat (length datos) = sw_block_size (sw_config s) ->
  exists pl s', enviar_escritura_bloque_swap b datos = trama ESCRITURA_BLOQUE_SWAP pl /\
  swap_write_block s (le_enc 8 (Z.of_nat (length pl)) ++ pl ++ resto) =
    Some ((aplicar_swap (cantidad_bloques s) (EscribirBloque b datos) (bloque s)).1, s', resto) /\
  swap_ok s' /\ sw_config s' = sw_config s /\
  representa s' (aplicar_swap (cantidad_bloques s) (EscribirBloque b datos) (bloque s)).2.
Proof.
  intros Hs Hb Hd. pose proof (sok_bs s Hs) as Hbs.
  destruct (protocolo_ok (p:=p_escritura_bloque_swap (sw_block_size (sw_config s))) (b, datos))
    as (pl & Hpl & Hr).
  { split; [done|]. split; [done|]. unfold datos_ok. lia. }
  change (p_enviar _ _) with (enviar_escritura_bloque_swap b datos) in Hpl.
  change (p_recibir _) with (recibir_escritura_bloque_swap (sw_block_size (sw_config s))) in Hr.
  change (p_imagen _ _) with (b, datos) in Hr.
  exists pl. unfold swap_write_block, mbind, ST_bind. rewrite Hr, valid_block_cantidad.
  pose proof (escrito_representa s b datos Hs Hb Hd) as Hw. cbv zeta in Hw. cbn [aplicar_swap fst snd] in *.
  destruct (b <? cantidad_bloques s) eqn:Hv; cbn [negb].
  - destruct (Hw eq_refl) as [Hok Hrep]. eexists. split; [done|]. split; [by rewrite enviar_resultado_trama|]. by split.
  - eexists. split; [done|]. split; [by rewrite enviar_resultado_trama|]. split; [by destruct s|]. by split.
Qed.

Lemma aplicar_swap_ext n q m m' :
  (forall b, 0 <= b < n -> m b = m' b) ->
  (match q with LeerBloque b | EscribirBloque b _ => 0 <= b end) ->
  (aplicar_swap n q m).1 = (aplicar_swap n q m').1 /\
  (forall b, 0 <= b < n -> (aplicar_swap n q m).2 b = (aplicar_swap n q m').2 b).
Proof.
  intros Hm Hb. destruct q as [b|b d]; cbn [aplicar_swap fst snd].
  - destruct (Z.ltb_spec b n); [|done]. by rewrite (Hm b) by lia.
  - split; [done|]. intros b' Hb'. destruct (b <? n); [|by apply Hm].
    destruct (b' =? b); [done|by apply Hm].
Qed.

(** One turn of the loop on a valid request. *)
Lemma swap_atender_operacion_ok s q m resto :
  swap_ok s -> peticion_swap_valida s q -> representa s m ->
  exists s', swap_atender_operacion s (peticion_swap_bytes q ++ resto) =
    Some (Some ((aplicar_swap (cantidad_bloques s) q m).1, s'), resto) /\
  swap_ok s' /\ sw_config s' = sw_config s /\ representa s' (aplicar_swap (cantidad_bloques s) q m).2.
Proof.
  intros Hs Hq Hm. assert (Hext := aplicar_swap_ext (cantidad_bloques s) q (bloque s) m Hm).
  unfold swap_atender_operacion. unfold mbind at 1, ST_bind at 1. destruct q as [b|b datos].
  - destruct Hext as [E1 _]; [unfold peticion_swap_valida, es_u32 in Hq; lia|].
    destruct (swap_read_block_ok s b resto Hs Hq) as (pl & Hpl & Hr).
    cbn [peticion_swap_bytes]. rewrite Hpl, codigo_trama. cbn [fst snd].
    change (i32 (op_num LECTURA_BLOQUE_SWAP) =? -1) with false. cbn iota. rewrite Z.eqb_refl.
    unfold mbind, ST_bind. rewrite Hr, E1. exists s. by split_and!.
  - destruct Hq as [Hb Hd]. destruct Hext as [E1 E2]; [unfold es_u32 in Hb; lia|].
    destruct (swap_write_block_ok s b datos resto Hs Hb Hd) as (pl & s' & Hpl & Hr & Hok & Hc & Hrep).
    cbn [peticion_swap_bytes]. rewrite Hpl, codigo_trama.
    change (i32 (op_num ESCRITURA_BLOQUE_SWAP) =? -1) with false.
    change (op_num ESCRITURA_BLOQUE_SWAP =? op_num LECTURA_BLOQUE_SWAP) with false.
    cbn iota. rewrite Z.eqb_refl. unfold mbind, ST_bind. rewrite Hr, E1. exists s'.
    split; [done|]. split; [done|]. split; [done|].
    intros b' Hb'. rewrite Hrep by done. apply E2. unfold cantidad_bloques in *. by rewrite <-Hc.
Qed.

Lemma longitud_peticion_swap s q :
  swap_ok s -> peticion_swap_valida s q -> (0 < length (peticion_swap_bytes q))%nat.
Proof.
  intros Hs Hq. destruct q as [b|b datos]; cbn [peticion_swap_bytes].
  - destruct (swap_read_block_ok s b [] Hs Hq) as (pl & -> & _). rewrite length_trama. lia.
  - destruct Hq as [Hb Hd].
    destruct (swap_write_block_ok s b datos [] Hs Hb Hd) as (pl & s' & -> & _).
    rewrite length_trama. lia.
Qed.

Lemma peticion_swap_valida_config s s' q :
  sw_config s' = sw_config s -> peticion_swap_valida s q -> peticion_swap_valida s' q.
Proof. intros H. destruct q; cbn; [done|]. by rewrite H. Qed.

(** ** Properties *)

(** C28: Swap serves Memory like an array of blocks: for every sequence of block
    requests the answers are those of the array (a block number past the end is
    answered -1 and changes nothing), and the file still represents the array
    when the connection closes. *)
Theorem swap_refina_bloques s m qs :
  swap_ok s -> representa s m -> Forall (peticion_swap_valida s) qs ->
  let entrante := qs ≫= peticion_swap_bytes in
  exists s', swap_atender_operaciones (S (length entrante)) s entrante =
    Some ((aplicar_swap_todas (cantidad_bloques s) qs m).1, s', []) /\
  swap_ok s' /\ representa s' (aplicar_swap_todas (cantidad_bloques s) qs m).2.
Proof.
  intros Hs Hm Hqs entrante. subst entrante.
  assert (H : forall n, (length (qs ≫= peticion_swap_bytes) < n)%nat ->
    exists s', swap_atender_operaciones n s (qs ≫= peticion_swap_bytes) =
      Some ((aplicar_swap_todas (cantidad_bloques s) qs m).1, s', []) /\
    swap_ok s' /\ representa s' (aplicar_swap_todas (cantidad_bloques s) qs m).2); [|apply H; lia].
  revert s m Hs Hm Hqs. induction qs as [|q qs IH]; intros s m Hs Hm Hqs n Hn.
  - destruct n; [lia|]. exists s. by split.
  - apply Forall_cons in Hqs as [Hq Hqs]. destruct n as [|n]; [lia|].
    destruct (swap_atender_operacion_ok s q m (qs ≫= peticion_swap_bytes) Hs Hq Hm)
      as (s1 & E & Hs1 & Hc & Hm1).
    rewrite bind_cons, length_app in Hn. pose proof (longitud_peticion_swap s q Hs Hq).
    assert (En : cantidad_bloques s1 = cantidad_bloques s) by (unfold cantidad_bloques; by rewrite Hc).
    destruct (IH s1 _ Hs1 Hm1) with (n := n) as (s' & E' & Hs' & Hm').
    { eapply Forall_impl; [done|]. intros. by apply (peticion_swap_valida_config s). }
    { lia. }
    exists s'. rewrite bind_cons. cbn [swap_atender_operaciones aplicar_swap_todas].
    rewrite En in *. unfold mbind at 1, ST_bind at 1. rewrite E.
    unfold mbind at 1, ST_bind at 1. rewrite E'.
    destruct (aplicar_swap (cantidad_bloques s) q m) as [r m1]; cbn [fst snd] in *.
    by destruct (aplicar_swap_todas _ qs m1).
Qed.

(** With a valid configuration the process announces its block and file
    sizes first and then serves the blocks found on disk, those beyond the old
    end of the file reading as zeros; an invalid one never starts it. *)
Theorem swap_main_correcto tam bs previo qs :
  es_u32 tam -> es_u32 bs -> bs <= 1073741824 ->
  let entrante := qs ≫= peticion_swap_bytes in
  ((0 < bs <= tam) ->
   Forall (peticion_swap_valida (swap_abrir_archivo (SwapConfig tam bs) previo)) qs ->
   exists s', swap_main tam bs previo entrante =
     Some (enviar_handshake_swap bs tam ++
           (aplicar_swap_todas (tam / bs) qs
              (fun b => pread (ftruncate tam previo) bs (b * bs))).1, s') /\ swap_ok s') /\
  (~ 0 < bs <= tam -> swap_main tam bs previo entrante = None).
Proof.
  intros Ht Hb Hmax entrante. unfold swap_main.
  assert (E : load_swap_config tam bs = if (tam =? 0) || (bs =? 0) || (bs >? tam) then None
                                        else Some (SwapConfig tam bs)).
  { unfold load_swap_config. by rewrite !u32_small. }
  split.
  - intros Hr Hqs. rewrite E.
    assert (E' : (tam =? 0) || (bs =? 0) || (bs >? tam) = false)
      by (rewrite !orb_false_iff, !Z.eqb_neq, Z.gtb_ltb, Z.ltb_ge; lia).
    rewrite E' in *. pose proof (abrir_ok tam bs _ previo E Hmax) as Hok.
    destruct (swap_refina_bloques _ (bloque (swap_abrir_archivo (SwapConfig tam bs) previo)) qs Hok)
      as (s' & Hs' & Hok' & _); [by intros b|done|].
    cbn [sw_block_size swap_file_size]. fold entrante in Hs'. rewrite Hs'. by exists s'.
  - intros Hr. rewrite E. unfold es_u32 in *.
    replace ((tam =? 0) || (bs =? 0) || (bs >? tam)) with true; [done|].
    symmetry. rewrite !orb_true_iff, !Z.eqb_eq, Z.gtb_ltb, Z.ltb_lt. lia.
Qed.

Definition swap_ejemplo : swap := Swap (SwapConfig 5 2) [x01; x02; x03; x04; x05].
Lemma swap_ejemplo_ok : swap_ok swap_ejemplo.
Proof. split; [cbn; lia|unfold es_u32; cbn; lia|done]. Qed.

Lemma swap_refina_bloques_witness :
  exists s', swap_atender_operaciones 65 swap_ejemplo
    ([EscribirBloque 1 [x0a; x0b]; LeerBloque 1; LeerBloque 2] ≫= peticion_swap_bytes) =
    Some (trama RESPUESTA_SWAP (le_enc 4 0) ++ trama RESPUESTA_SWAP (le_enc 4 0 ++ [x0a; x0b]) ++
          trama RESPUESTA_SWAP (le_enc 4 (-1)), s', []) /\ swap_ok s'.
Proof.
  destruct (swap_refina_bloques swap_ejemplo (bloque swap_ejemplo)
    [EscribirBloque 1 [x0a; x0b]; LeerBloque 1; LeerBloque 2] swap_ejemplo_ok) as (s' & E & Hok & _).
  - by intros b.
  - repeat first [apply Forall_nil; exact I | apply Forall_cons; split;
      [unfold peticion_swap_valida, es_u32; cbn; lia|]].
  - exists s'. split; [exact E|exact Hok].
Defined.

Lemma swap_main_correcto_witness :
  (exists s', swap_main 5 2 [x01] ([LeerBloque 0] ≫= peticion_swap_bytes) =
    Some (enviar_handshake_swap 2 5 ++ trama RESPUESTA_SWAP (le_enc 4 0 ++ [x01; x00]), s') /\ swap_ok s') /\
  swap_main 5 6 [x01] [] = None.
Proof.
  split.
  - apply (swap_main_correcto 5 2 [x01] [LeerBloque 0]); unfold es_u32; try lia.
    apply Forall_cons; split; [unfold peticion_swap_valida, es_u32; lia|apply Forall_nil; exact I].
  - apply (swap_main_correcto 5 6 [x01] []); unfold es_u32; lia.
Defined.
