(* ===== verification/Memoria.v ===== *)
(** * Memoria: the state of Kernel Memory and its sockets

    The record [memoria] gathers the static variables of
    [kernel_memory/src/*.c] (connection tables, free blocks, process list, swap
    cursor, compaction flag, configuration) and what the process sees of the
    outside: the bytes each peer has sent, the bytes sent to each peer, the
    devices behind the outbound sockets and the script files. Handlers are
    programs of the state monad over it; [None] is [abort()] or a call that
    never returns. *)

From S2P Require Import Prelude Bloques Wire Buffer Tipos Mensajes Conexiones Stick Swap.

(** ** Data *)

(** [memory_tipos.h]. The array [instrucciones] is NULL exactly when its count
    is 0. *)
Record t_contexto_ejecucion := Proceso {
  pid : Z;
  registros : t_registros;
  segmentos : list t_segmento;
  instrucciones : list (list byte) }.

Definition cantidad_instrucciones (p : t_contexto_ejecucion) : Z :=
  Z.of_nat (length (instrucciones p)).

(** [memory_config.h], less the log level, the delays and the port. *)
Record t_config_memory := ConfigMemory {
  segment_max_size : Z;
  allocation_strategy : option String.string;
  scripts_basepath : option (list byte) }.

(** The static variables of [memory_swap.c]. *)
Record swap_reserva := Reserva { block_size : Z; next_block : Z; total_blocks : Z }.

(** The other end of a socket: a live device, or one that leaves these last
    bytes as its answer and is gone. *)
Inductive enlace (D : Type) := Vivo (d : D) | Cortado (resto : list byte).
Arguments Vivo {D} d.
Arguments Cortado {D} resto.

Record memoria := Memoria {
  config_memory : t_config_memory;
  m_conexiones : conexiones;
  bloques_libres : list t_bloque_libre;
  procesos : list t_contexto_ejecucion;
  m_reserva : swap_reserva;
  en_progreso : bool;
  m_red : gmap Z (enlace stick);
  m_swap : enlace swap;
  m_entradas : gmap Z (list byte);
  m_salidas : list (Z * list byte);
  m_archivos : list byte -> option (list byte) }.

Definition con_conexiones (c : conexiones) (m : memoria) : memoria :=
  Memoria (config_memory m) c (bloques_libres m) (procesos m) (m_reserva m) (en_progreso m)
    (m_red m) (m_swap m) (m_entradas m) (m_salidas m) (m_archivos m).
Definition con_libres (l : list t_bloque_libre) (m : memoria) : memoria :=
  Memoria (config_memory m) (m_conexiones m) l (procesos m) (m_reserva m) (en_progreso m)
    (m_red m) (m_swap m) (m_entradas m) (m_salidas m) (m_archivos m).
Definition con_procesos (l : list t_contexto_ejecucion) (m : memoria) : memoria :=
  Memoria (config_memory m) (m_conexiones m) (bloques_libres m) l (m_reserva m) (en_progreso m)
    (m_red m) (m_swap m) (m_entradas m) (m_salidas m) (m_archivos m).
Definition con_reserva (r : swap_reserva) (m : memoria) : memoria :=
  Memoria (config_memory m) (m_conexiones m) (bloques_libres m) (procesos m) r (en_progreso m)
    (m_red m) (m_swap m) (m_entradas m) (m_salidas m) (m_archivos m).
Definition con_progreso (b : bool) (m : memoria) : memoria :=
  Memoria (config_memory m) (m_conexiones m) (bloques_libres m) (procesos m) (m_reserva m) b
    (m_red m) (m_swap m) (m_entradas m) (m_salidas m) (m_archivos m).
Definition con_red (r : gmap Z (enlace stick)) (m : memoria) : memoria :=
  Memoria (config_memory m) (m_conexiones m) (bloques_libres m) (procesos m) (m_reserva m)
    (en_progreso m) r (m_swap m) (m_entradas m) (m_salidas m) (m_archivos m).
Definition con_swap (s : enlace swap) (m : memoria) : memoria :=
  Memoria (config_memory m) (m_conexiones m) (bloques_libres m) (procesos m) (m_reserva m)
    (en_progreso m) (m_red m) s (m_entradas m) (m_salidas m) (m_archivos m).
Definition con_entradas (e : gmap Z (list byte)) (m : memoria) : memoria :=
  Memoria (config_memory m) (m_conexiones m) (bloques_libres m) (procesos m) (m_reserva m)
    (en_progreso m) (m_red m) (m_swap m) e (m_salidas m) (m_archivos m).
Definition con_salidas (l : list (Z * list byte)) (m : memoria) : memoria :=
  Memoria (config_memory m) (m_conexiones m) (bloques_libres m) (procesos m) (m_reserva m)
    (en_progreso m) (m_red m) (m_swap m) (m_entradas m) l (m_archivos m).

(** ** Sockets *)

Definition M := ST memoria.

(** [enviar_X(socket, ...)]: the bytes go to the socket. *)
Definition enviar (socket : Z) (bs : list byte) : M unit :=
  st_mod (fun m => con_salidas (m_salidas m ++ [(socket, bs)]) m).

Definition entrada (socket : Z) (m : memoria) : list byte := default [] (m_entradas m !! socket).

(** [recibir_X(socket)]. *)
Definition recibir_de {A} (socket : Z) (r : lector A) : M A :=
  fun m =>
    match r (entrada socket m) with
    | Some (a, s) => Some (a, con_entradas (<[socket := s]> (m_entradas m)) m)
    | None => None
    end.

(** [recv_campo]: [None] (the C [false]) on a short read, which takes what was
    left. *)
Definition recv_campo (socket : Z) (n : nat) : M (option (list byte)) :=
  recibir_de socket (fun s =>
    if (n <=? length s)%nat then Some (Some (take n s), drop n s) else Some (None, [])).

(** One request to the stick behind an outbound socket: the bytes it answers,
    and whether it has closed its end after them. *)
Definition atiende (d : stick) (pedido : list byte) : list byte * enlace stick :=
  match atender_peticion d pedido with
  | Some (Some (resp, d'), _) => (resp, Vivo d')
  | _ => ([], Cortado [])
  end.

Definition pedir_a_stick (socket : Z) (pedido : list byte) : M (list byte * bool) :=
  m ← st_get;
  match m_red m !! socket with
  | Some (Vivo d) =>
      let '(resp, e) := atiende d pedido in
      _ ← st_put (con_red (<[socket := e]> (m_red m)) m);
      mret (resp, match e with Vivo _ => false | Cortado _ => true end)
  | Some (Cortado resto) =>
      _ ← st_put (con_red (<[socket := Cortado []]> (m_red m)) m);
      mret (resto, true)
  | None => mret ([], true)
  end.

(** One request to Swap. *)
Definition pedir_a_swap (pedido : list byte) : M (list byte) :=
  m ← st_get;
  match m_swap m with
  | Vivo d =>
      match swap_atender_operacion d pedido with
      | Some (Some (resp, d'), _) => _ ← st_put (con_swap (Vivo d') m); mret resp
      | _ => _ ← st_put (con_swap (Cortado []) m); mret []
      end
  | Cortado resto => _ ← st_put (con_swap (Cortado []) m); mret resto
  end.

(** A reader over bytes at hand. *)
Definition leer_respuesta {A} (r : lector A) (resp : list byte) : M A :=
  match r resp with Some (a, _) => mret a | None => st_abort end.

(** The socket of the scheduler is notified when there is one. *)
Definition avisar_memoria_corrupta : M unit :=
  sched ← st_gets (fun m => conexiones_get_scheduler_socket (m_conexiones m));
  if sched >=? 0 then enviar sched enviar_memoria_corrupta else mret tt.

(** Weaker or equal states: the fields a run leaves alone. *)
Record misma_estructura (m m' : memoria) : Prop := {
  me_config : config_memory m' = config_memory m;
  me_conexiones : m_conexiones m' = m_conexiones m;
  me_libres : bloques_libres m' = bloques_libres m;
  me_procesos : procesos m' = procesos m;
  me_reserva : m_reserva m' = m_reserva m;
  me_progreso : en_progreso m' = en_progreso m;
  me_swap : m_swap m' = m_swap m;
  me_entradas : m_entradas m' = m_entradas m;
  me_salidas : m_salidas m' = m_salidas m;
  me_archivos : m_archivos m' = m_archivos m }.

#[export] Instance misma_estructura_preorder : PreOrder misma_estructura.
Proof.
  split; [by intros m|].
  intros m1 m2 m3 [? ? ? ? ? ? ? ? ? ?] [? ? ? ? ? ? ? ? ? ?]. split; congruence.
Qed.

Lemma misma_estructura_red r m : misma_estructura m (con_red r m).
Proof. done. Qed.
