(* ===== verification/MemoryIO.v ===== *)
(** * MemoryIO: reading and writing across the sticks

    Models [kernel_memory/src/memory_io.c]: a range of the global physical space
    is read or written stick by stick, one request per stick. The theorems state
    that the sticks together are one flat array, the concatenation of their
    buffers in the order of the table ([ram_es]), behind the interface
    [AccesoFisico] that the clients of this file are proved against. *)

From S2P Require Import Prelude Bloques Wire Buffer Tipos Mensajes Conexiones Stick Swap Memoria.

(** ** Operations *)

(** The [while (restante > 0)] loop of [memory_io_leer]: [acc] is the part of
    [resultado] already filled. Every turn reads at least one byte, so
    [restante] turns are enough. *)
Fixpoint memory_io_leer_bucle (n : nat) (pid dir_act restante : Z) (acc : list byte)
    : M (option (list byte)) :=
  if restante <=? 0 then mret (Some acc) else
  match n with
  | O => st_abort
  | S n =>
      con ← st_gets m_conexiones;
      let idx := conexiones_buscar_stick_por_dir dir_act con in
      if idx <? 0 then mret None
      else
        let base := conexiones_stick_base_fisica idx con in
        let tam_st := conexiones_stick_tamanio idx con in
        let out_sock := conexiones_stick_outbound_socket idx con in
        let local_offset := (dir_act -u base)%u32 in
        let chunk := (tam_st -u local_offset)%u32 in
        let chunk := if chunk >? restante then restante else chunk in
        '(resp, cerrado) ← pedir_a_stick out_sock (enviar_lectura_fisica pid local_offset chunk);
        let '(cod, resp) := recibir_codigo_operacion resp in
        if i32 cod =? -1 then
          _ ← avisar_memoria_corrupta; mret None
        else
          match validar_buffer resp with
          | None => st_abort
          | Some (_, resp) =>
              if Z.of_nat (length resp) <? chunk then
                if (cerrado : bool) then _ ← avisar_memoria_corrupta; mret None else st_abort
              else
                memory_io_leer_bucle n pid (dir_act +u chunk)%u32 (restante -u chunk)%u32
                  (acc ++ take (Z.to_nat chunk) resp)
          end
  end.

(** [None] for the NULL of an error. *)
Definition memory_io_leer (pid dir_fisica tamanio : Z) : M (option (list byte)) :=
  memory_io_leer_bucle (Z.to_nat tamanio) pid dir_fisica tamanio [].

(** [datos] is what is left to write, [restante] bytes. *)
Fixpoint memory_io_escribir_bucle (n : nat) (pid dir_act restante : Z) (datos : list byte) : M Z :=
  if restante <=? 0 then mret 0 else
  match n with
  | O => st_abort
  | S n =>
      con ← st_gets m_conexiones;
      let idx := conexiones_buscar_stick_por_dir dir_act con in
      if idx <? 0 then mret (-1)
      else
        let base := conexiones_stick_base_fisica idx con in
        let tam_st := conexiones_stick_tamanio idx con in
        let out_sock := conexiones_stick_outbound_socket idx con in
        let local_offset := (dir_act -u base)%u32 in
        let chunk := (tam_st -u local_offset)%u32 in
        let chunk := if chunk >? restante then restante else chunk in
        '(resp, _) ← pedir_a_stick out_sock
          (enviar_escritura_fisica pid local_offset (take (Z.to_nat chunk) datos));
        let '(cod, resp) := recibir_codigo_operacion resp in
        if i32 cod =? -1 then
          _ ← avisar_memoria_corrupta; mret (-1)
        else
          _ ← leer_respuesta recibir_ok resp;
          memory_io_escribir_bucle n pid (dir_act +u chunk)%u32 (restante -u chunk)%u32
            (drop (Z.to_nat chunk) datos)
  end.

Definition memory_io_escribir (pid dir_fisica tamanio : Z) (datos : list byte) : M Z :=
  memory_io_escribir_bucle (Z.to_nat tamanio) pid dir_fisica tamanio datos.

(** ** The flat memory *)

(** The device [d] is behind the entry [s] of the table. *)
Definition enlace_de (red : gmap Z (enlace stick)) (s : t_memory_stick_entry) (d : stick) : Prop :=
  0 <= st_outbound_socket s /\ red !! st_outbound_socket s = Some (Vivo d) /\
  stick_ok d /\ memoria_size d = st_tamanio s.

(** Every registered stick is connected, alive, of the size it announced, and on
    a socket of its own. *)
Record red_ok (m : memoria) (ds : list stick) : Prop := {
  rok_con : conexiones_ok (m_conexiones m);
  rok_total : tamanios (sticks (m_conexiones m)) < 1073741824;
  rok_enlaces : Forall2 (enlace_de (m_red m)) (sticks (m_conexiones m)) ds;
  rok_sockets : NoDup (st_outbound_socket <$> sticks (m_conexiones m)) }.

(** [ram] is the physical memory: the buffers, one after the other. *)
Definition ram_es (m : memoria) (ram : list byte) : Prop :=
  exists ds, red_ok m ds /\ ram = ds ≫= memoria_buffer.

(** What the operations promise over a flat memory. *)
Class AccesoFisico (R : memoria -> list byte -> Prop)
    (leer : Z -> Z -> Z -> M (option (list byte)))
    (escribir : Z -> Z -> Z -> list byte -> M Z) : Prop := {
  acceso_tamanio m ram : R m ram ->
    conexiones_tamanio_total_ram (m_conexiones m) = Z.of_nat (length ram) /\
    Z.of_nat (length ram) < 1073741824;
  acceso_estable m m' ram : R m ram -> m_conexiones m' = m_conexiones m -> m_red m' = m_red m -> R m' ram;
  acceso_leer m ram pid dir tam : R m ram -> es_int pid -> 0 <= dir -> 0 <= tam ->
    dir + tam <= Z.of_nat (length ram) ->
    leer pid dir tam m = Some (leer_buffer ram dir tam, m);
  acceso_escribir m ram pid dir datos : R m ram -> es_int pid -> 0 <= dir ->
    dir + Z.of_nat (length datos) <= Z.of_nat (length ram) ->
    exists m' ram', escribir pid dir (Z.of_nat (length datos)) datos m = Some (0, m') /\
      escribir_buffer ram dir datos = Some ram' /\ R m' ram' /\ misma_estructura m m' }.

(** ** Lemmas: a concatenation of buffers *)

Lemma leer_buffer_app buf d a b x y :
  0 <= d -> 0 <= a -> 0 <= b ->
  leer_buffer buf d a = Some x -> leer_buffer buf (d + a) b = Some y ->
  leer_buffer buf d (a + b) = Some (x ++ y).
Proof.
  unfold leer_buffer. intros ? ? ?. destruct (_ <=? _); [|done]. intros [= <-].
  destruct (_ <=? _) eqn:E; [|done]. b2p. intros [= <-].
  destruct (Z.leb_spec (d + (a + b)) (Z.of_nat (length buf))); [|lia]. f_equal.
  rewrite !Z2Nat.inj_add, <-drop_drop by lia. by rewrite <-take_take_drop.
Qed.

Lemma escribir_buffer_app buf d x y b1 b2 :
  0 <= d -> escribir_buffer buf d x = Some b1 ->
  escribir_buffer b1 (d + Z.of_nat (length x)) y = Some b2 ->
  escribir_buffer buf d (x ++ y) = Some b2.
Proof.
  intros Hd H1 H2. pose proof (length_escribir_buffer _ _ _ _ Hd H1) as Hl.
  unfold escribir_buffer in *. rewrite Hl in H2.
  destruct (_ <=? _) eqn:E1 in H1; [|done]. destruct (_ <=? _) eqn:E2 in H2; [|done]. b2p.
  injection H1 as <-. injection H2 as <-. rewrite length_app.
  destruct (Z.leb_spec (d + Z.of_nat (length x + length y)) (Z.of_nat (length buf))); [|lia].
  f_equal. rewrite Z2Nat.inj_add, Nat2Z.id by lia.
  assert (Ht : length (take (Z.to_nat d) buf) = Z.to_nat d) by (rewrite length_take; lia).
  rewrite (app_assoc (take _ buf) x (drop _ buf)), take_app_length' by (rewrite length_app; lia).
  rewrite drop_app_ge by (rewrite length_app; lia).
  rewrite drop_drop, length_app, Ht, <-!app_assoc. do 3 f_equal. f_equal. lia.
Qed.

Lemma leer_buffer_medio A B C d n :
  0 <= n -> Z.of_nat (length A) <= d -> d + n <= Z.of_nat (length A) + Z.of_nat (length B) ->
  leer_buffer (A ++ B ++ C) d n = leer_buffer B (d - Z.of_nat (length A)) n.
Proof.
  intros. unfold leer_buffer. rewrite !length_app.
  destruct (Z.leb_spec (d + n) (Z.of_nat (length A + (length B + length C)))); [|lia].
  destruct (Z.leb_spec (d - Z.of_nat (length A) + n) (Z.of_nat (length B))); [|lia]. f_equal.
  rewrite drop_app_ge, drop_app_le, take_app_le by (rewrite ?length_drop; lia).
  do 2 f_equal. lia.
Qed.

Lemma escribir_buffer_medio A B C d x B' :
  Z.of_nat (length A) <= d -> d + Z.of_nat (length x) <= Z.of_nat (length A) + Z.of_nat (length B) ->
  escribir_buffer B (d - Z.of_nat (length A)) x = Some B' ->
  escribir_buffer (A ++ B ++ C) d x = Some (A ++ B' ++ C).
Proof.
  intros H1 H2 H3. unfold escribir_buffer in *. rewrite !length_app.
  destruct (_ <=? _) eqn:E in H3; [|done]. injection H3 as <-. b2p.
  destruct (Z.leb_spec (d + Z.of_nat (length x)) (Z.of_nat (length A + (length B + length C)))); [|lia].
  f_equal. replace (Z.to_nat d) with (length A + Z.to_nat (d - Z.of_nat (length A)))%nat by lia.
  rewrite take_app_add, <-Nat.add_assoc, drop_app_add, <-!app_assoc. f_equal.
  rewrite take_app_le, drop_app_le by lia. done.
Qed.

(** ** Lemmas: the stick that holds an address *)

Lemma enlaces_longitud red ss ds :
  Forall2 (enlace_de red) ss ds -> Z.of_nat (length (ds ≫= memoria_buffer)) = tamanios ss.
Proof.
  induction 1 as [|s d ss ds (_ & _ & [Hs _] & Ht) _ IH]; [done|].
  rewrite bind_cons, length_app. unfold tamanios in *. cbn [fmap list_fmap suma_Z]. lia.
Qed.

Lemma ram_longitud m ds : red_ok m ds ->
  Z.of_nat (length (ds ≫= memoria_buffer)) = conexiones_tamanio_total_ram (m_conexiones m).
Proof.
  intros Hm. rewrite (enlaces_longitud _ _ _ (rok_enlaces _ _ Hm)).
  symmetry. apply suma_tamanios_spec; apply (rok_con _ _ Hm).
Qed.

Record ubicado (m : memoria) (ds : list stick) (d : Z) (i : nat) (s : t_memory_stick_entry)
    (dv : stick) : Prop := {
  ub_stick : sticks (m_conexiones m) !! i = Some s;
  ub_disp : ds !! i = Some dv;
  ub_enlace : enlace_de (m_red m) s dv;
  ub_buscar : conexiones_buscar_stick_por_dir d (m_conexiones m) = Z.of_nat i;
  ub_rango : st_base_fisica s <= d < st_base_fisica s + st_tamanio s;
  ub_base : st_base_fisica s = Z.of_nat (length (take i ds ≫= memoria_buffer));
  ub_fin : 0 <= st_base_fisica s /\ st_base_fisica s + st_tamanio s < 1073741824 }.

Lemma ubicar m ds d :
  red_ok m ds -> 0 <= d < Z.of_nat (length (ds ≫= memoria_buffer)) ->
  exists i s dv, ubicado m ds d i s dv.
Proof.
  intros Hm Hd. pose proof (rok_con _ _ Hm) as Hcon. pose proof (rok_total _ _ Hm) as Htot.
  pose proof (rok_enlaces _ _ Hm) as Hen. rewrite (enlaces_longitud _ _ _ Hen) in Hd.
  destruct (tamanios_cubre _ d (cok_tamanios _ Hcon) Hd) as (i & s & Hi & Hr).
  rewrite <-(cok_bases _ Hcon i s Hi) in Hr.
  destruct (Forall2_lookup_l _ _ _ _ _ Hen Hi) as (dv & Hdv & He).
  destruct (base_rango _ i s Hcon Hi) as (Hb0 & Hb1 & _ & Hb).
  exists i, s, dv. split; [done..| |done| |lia].
  - apply (buscar_stick_por_dir_i d _ i s); [done|unfold es_u32; lia|done|apply He|done].
  - rewrite Hb. symmetry. apply (enlaces_longitud (m_red m)). by apply Forall2_take.
Qed.

Lemma ubicado_indice m ds d i s dv :
  ubicado m ds d i s dv ->
  (Z.of_nat i <? 0) = false /\
  conexiones_stick_base_fisica (Z.of_nat i) (m_conexiones m) = st_base_fisica s /\
  conexiones_stick_tamanio (Z.of_nat i) (m_conexiones m) = st_tamanio s /\
  conexiones_stick_outbound_socket (Z.of_nat i) (m_conexiones m) = st_outbound_socket s.
Proof.
  intros [Hi _ _ _ _ _ _]. pose proof (lookup_lt_Some _ _ _ Hi).
  unfold conexiones_stick_base_fisica, conexiones_stick_tamanio, conexiones_stick_outbound_socket, en_tabla.
  rewrite Nat2Z.id, Hi. split; [by apply Z.ltb_ge; lia|].
  destruct (Z.geb_spec (Z.of_nat i) 0); [|lia].
  destruct (Z.ltb_spec (Z.of_nat i) (Z.of_nat (length (sticks (m_conexiones m))))); [done|lia].
Qed.

Lemma bind_medio (ds : list stick) i dv :
  ds !! i = Some dv ->
  ds ≫= memoria_buffer =
  (take i ds ≫= memoria_buffer) ++ memoria_buffer dv ++ (drop (S i) ds ≫= memoria_buffer).
Proof.
  intros H. rewrite <-(take_drop_middle ds i dv H) at 1. by rewrite bind_app, bind_cons.
Qed.

Lemma ubicado_leer m ds d i s dv n :
  ubicado m ds d i s dv -> 0 <= n -> d + n <= st_base_fisica s + st_tamanio s ->
  leer_buffer (ds ≫= memoria_buffer) d n = leer_buffer (memoria_buffer dv) (d - st_base_fisica s) n.
Proof.
  intros [_ Hd (_ & _ & [Hs _] & Ht) _ Hr Hb _] Hn Hfin.
  rewrite (bind_medio ds i dv Hd), leer_buffer_medio, Hb; [done|lia..].
Qed.

Lemma ubicado_escribir m ds d i s dv x b' :
  ubicado m ds d i s dv -> d + Z.of_nat (length x) <= st_base_fisica s + st_tamanio s ->
  escribir_buffer (memoria_buffer dv) (d - st_base_fisica s) x = Some b' ->
  escribir_buffer (ds ≫= memoria_buffer) d x =
  Some (<[i := Stick b' (memoria_size dv)]> ds ≫= memoria_buffer).
Proof.
  intros [_ Hd (_ & _ & [Hs _] & Ht) _ Hr Hb _] Hfin Hw.
  pose proof (lookup_lt_Some _ _ _ Hd) as Hlt.
  rewrite (bind_medio (<[i := _]> ds) i (Stick b' (memoria_size dv))) by (by apply list_lookup_insert_eq).
  rewrite take_insert_ge, drop_insert_lt by lia. cbn [memoria_buffer].
  rewrite (bind_medio ds i dv Hd). apply escribir_buffer_medio; [lia..|]. by rewrite <-Hb.
Qed.

Lemma con_red_igual m : con_red (m_red m) m = m.
Proof. by destruct m. Qed.

(** ** Lemmas: one request *)

Lemma pedir_lectura m ds d i s dv pid n :
  ubicado m ds d i s dv -> es_int pid -> 0 <= n -> d + n <= st_base_fisica s + st_tamanio s ->
  exists x, leer_buffer (memoria_buffer dv) (d - st_base_fisica s) n = Some x /\
  Z.of_nat (length x) = n /\
  pedir_a_stick (st_outbound_socket s) (enviar_lectura_fisica pid (d - st_base_fisica s) n) m =
  Some ((trama LECTURA_MEMORIA x, false), m).
Proof.
  intros Hu Hp Hn Hfin. pose proof (ub_rango _ _ _ _ _ _ Hu) as Hr. pose proof (ub_fin _ _ _ _ _ _ Hu).
  destruct (ub_enlace _ _ _ _ _ _ Hu) as (Ho & Hred & Hok & Ht).
  assert (exists x, leer_buffer (memoria_buffer dv) (d - st_base_fisica s) n = Some x) as [x Hx].
  { unfold leer_buffer. destruct (Z.leb_spec (d - st_base_fisica s + n) (Z.of_nat (length (memoria_buffer dv))));
      [by eexists|]. destruct Hok as [Hs _]. lia. }
  exists x. split; [done|]. split; [by apply (length_leer_buffer (memoria_buffer dv) (d - st_base_fisica s)); [lia..|]|].
  unfold pedir_a_stick, atiende. st_unfold. rewrite Hred.
  rewrite <-(app_nil_r (enviar_lectura_fisica _ _ _)).
  assert (Hv : peticion_valida (Leer pid (d - st_base_fisica s) n)) by (split; [done|lia]).
  assert (E := atender_peticion_ok dv _ [] Hok Hv). cbn [peticion_bytes] in E. rewrite E. clear E.
  cbn [aplicar fst snd]. rewrite Hx. cbn [from_option id].
  replace (Stick (memoria_buffer dv) (memoria_size dv)) with dv by (by destruct dv).
  by rewrite insert_id, con_red_igual.
Qed.

Lemma pedir_escritura m ds d i s dv pid x :
  ubicado m ds d i s dv -> es_int pid -> d + Z.of_nat (length x) <= st_base_fisica s + st_tamanio s ->
  exists b', escribir_buffer (memoria_buffer dv) (d - st_base_fisica s) x = Some b' /\
  pedir_a_stick (st_outbound_socket s) (enviar_escritura_fisica pid (d - st_base_fisica s) x) m =
  Some ((trama ESCRITURA_MEMORIA (le_enc 4 (-1)), false),
        con_red (<[st_outbound_socket s := Vivo (Stick b' (memoria_size dv))]> (m_red m)) m).
Proof.
  intros Hu Hp Hfin. pose proof (ub_rango _ _ _ _ _ _ Hu) as Hr. pose proof (ub_fin _ _ _ _ _ _ Hu).
  destruct (ub_enlace _ _ _ _ _ _ Hu) as (Ho & Hred & Hok & Ht).
  assert (exists b', escribir_buffer (memoria_buffer dv) (d - st_base_fisica s) x = Some b') as [b' Hb'].
  { unfold escribir_buffer. destruct (Z.leb_spec (d - st_base_fisica s + Z.of_nat (length x)) (Z.of_nat (length (memoria_buffer dv))));
      [by eexists|]. destruct Hok as [Hs _]. lia. }
  exists b'. split; [done|]. unfold pedir_a_stick, atiende. st_unfold. rewrite Hred.
  rewrite <-(app_nil_r (enviar_escritura_fisica _ _ _)).
  assert (Hv : peticion_valida (Escribir pid (d - st_base_fisica s) x))
    by (split; [done|unfold datos_ok; lia]).
  assert (E := atender_peticion_ok dv _ [] Hok Hv). cbn [peticion_bytes] in E. rewrite E. clear E.
  cbn [aplicar fst snd]. by rewrite Hb'.
Qed.

(** Replacing the buffer of one stick keeps the network well formed. *)
Lemma red_ok_escribir m ds d i s dv b' :
  red_ok m ds -> ubicado m ds d i s dv -> length b' = length (memoria_buffer dv) ->
  red_ok (con_red (<[st_outbound_socket s := Vivo (Stick b' (memoria_size dv))]> (m_red m)) m)
         (<[i := Stick b' (memoria_size dv)]> ds).
Proof.
  intros [Hcon Htot Hen Hnd] Hu Hl. pose proof (ub_stick _ _ _ _ _ _ Hu) as Hi.
  destruct (ub_enlace _ _ _ _ _ _ Hu) as (Ho & Hred & [Hs Hm] & Ht).
  split; [done..| |done]. cbn [con_red m_red m_conexiones].
  apply Forall2_same_length_lookup. split; [rewrite length_insert; by eapply Forall2_length|].
  intros j t dj Hj Hdj. destruct (decide (i = j)) as [<-|Hne].
  - rewrite Hi in Hj. injection Hj as <-.
    rewrite list_lookup_insert_eq in Hdj by (eapply lookup_lt_Some, ub_disp; done). injection Hdj as <-.
    split; [done|]. rewrite lookup_insert_eq. split; [done|]. split; [split; cbn; lia|done].
  - rewrite list_lookup_insert_ne in Hdj by done.
    destruct (Forall2_lookup_lr _ _ _ _ _ _ Hen Hj Hdj) as (Ho' & Hred' & Hok' & Ht').
    split; [done|]. split; [|done]. rewrite lookup_insert_ne; [done|]. intros E. apply Hne.
    eapply (NoDup_lookup _ i j (st_outbound_socket s) Hnd); rewrite list_lookup_fmap; [by rewrite Hi|].
    rewrite Hj. cbn. by rewrite E.
Qed.

(** ** Lemmas: the loops *)

Lemma trozo_min a b : (if a >? b then b else a) = Z.min a b.
Proof. destruct (Z.gtb_spec a b); lia. Qed.

(** One turn of the reading loop, inside the memory. *)
Lemma leer_bucle_paso n m ds pid d restante acc :
  red_ok m ds -> es_int pid -> 0 < restante < 4294967296 ->
  0 <= d < Z.of_nat (length (ds ≫= memoria_buffer)) ->
  exists k x, 0 < k <= restante /\ leer_buffer (ds ≫= memoria_buffer) d k = Some x /\
  Z.of_nat (length x) = k /\
  memory_io_leer_bucle (S n) pid d restante acc m =
  memory_io_leer_bucle n pid (d + k) (restante - k) (acc ++ x) m.
Proof.
  intros Hm Hp Hres Hd. destruct (ubicar m ds d Hm Hd) as (i & s & dv & Hu).
  destruct (ubicado_indice _ _ _ _ _ _ Hu) as (Ei & Eb & Et & Eo).
  pose proof (ub_rango _ _ _ _ _ _ Hu) as Hr. pose proof (ub_fin _ _ _ _ _ _ Hu) as Hf.
  pose proof (ram_longitud m ds Hm) as Hlen. pose proof (rok_total _ _ Hm) as Htot.
  rewrite <-(enlaces_longitud _ _ _ (rok_enlaces _ _ Hm)) in Htot.
  set (k := Z.min (st_tamanio s - (d - st_base_fisica s)) restante).
  destruct (pedir_lectura m ds d i s dv pid k Hu Hp ltac:(lia) ltac:(lia)) as (x & Hx & Hxl & Hreq).
  exists k, x. split; [lia|]. split; [rewrite (ubicado_leer m ds d i s dv k Hu); [done|lia..]|].
  split; [done|]. cbn [memory_io_leer_bucle]. destruct (Z.leb_spec restante 0); [lia|].
  st_unfold. rewrite (ub_buscar _ _ _ _ _ _ Hu), Ei, Eb, Et, Eo.
  rewrite (sub32_small d) by lia. rewrite sub32_small by lia. rewrite trozo_min. fold k.
  rewrite Hreq, codigo_trama_nil, op_num_no_neg, validar_buffer_nil by (unfold MAX_PAYLOAD; lia).
  destruct (Z.ltb_spec (Z.of_nat (length x)) k); [lia|].
  rewrite take_ge by lia. rewrite add32_small, sub32_small by lia. done.
Qed.

Lemma leer_bucle_ok n m ds pid d restante acc :
  red_ok m ds -> es_int pid -> 0 <= d -> 0 <= restante -> restante <= Z.of_nat n ->
  d + restante <= Z.of_nat (length (ds ≫= memoria_buffer)) ->
  exists x, leer_buffer (ds ≫= memoria_buffer) d restante = Some x /\
  memory_io_leer_bucle n pid d restante acc m = Some (Some (acc ++ x), m).
Proof.
  intros Hm Hp. revert d restante acc. induction n as [|n IH]; intros d restante acc Hd Hres Hn Hfin.
  - assert (restante = 0) as -> by lia. exists []. split; [|cbn; by rewrite app_nil_r].
    unfold leer_buffer. destruct (Z.leb_spec (d + 0) (Z.of_nat (length (ds ≫= memoria_buffer)))); [done|lia].
  - destruct (decide (restante = 0)) as [->|Hne].
    + exists []. split; [|cbn; by rewrite app_nil_r].
      unfold leer_buffer. destruct (Z.leb_spec (d + 0) (Z.of_nat (length (ds ≫= memoria_buffer)))); [done|lia].
    + pose proof (ram_longitud m ds Hm) as Hlen. pose proof (rok_total _ _ Hm) as Htot.
      rewrite <-(enlaces_longitud _ _ _ (rok_enlaces _ _ Hm)) in Htot.
      destruct (leer_bucle_paso n m ds pid d restante acc Hm Hp ltac:(lia) ltac:(lia))
        as (k & x & Hk & Hx & Hxl & ->).
      destruct (IH (d + k) (restante - k) (acc ++ x)) as (y & Hy & ->); [lia..|].
      exists (x ++ y). split; [|by rewrite app_assoc].
      replace restante with (k + (restante - k)) at 1 by lia.
      apply (leer_buffer_app _ d k); [lia..|done|done].
Qed.

(** One turn of the writing loop, inside the memory. *)
Lemma escribir_bucle_paso n m ds pid d datos :
  red_ok m ds -> es_int pid -> 0 <= d -> datos <> [] ->
  d + Z.of_nat (length datos) <= Z.of_nat (length (ds ≫= memoria_buffer)) ->
  exists k m' ds', (0 < k <= length datos)%nat /\ red_ok m' ds' /\ misma_estructura m m' /\
  escribir_buffer (ds ≫= memoria_buffer) d (take k datos) = Some (ds' ≫= memoria_buffer) /\
  memory_io_escribir_bucle (S n) pid d (Z.of_nat (length datos)) datos m =
  memory_io_escribir_bucle n pid (d + Z.of_nat k) (Z.of_nat (length (drop k datos))) (drop k datos) m'.
Proof.
  intros Hm Hp Hd Hne Hfin.
  assert (Hlen : (0 < length datos)%nat) by (destruct datos; [done|cbn; lia]).
  destruct (ubicar m ds d Hm) as (i & s & dv & Hu); [lia|].
  destruct (ubicado_indice _ _ _ _ _ _ Hu) as (Ei & Eb & Et & Eo).
  pose proof (ub_rango _ _ _ _ _ _ Hu) as Hr. pose proof (ub_fin _ _ _ _ _ _ Hu) as Hf.
  pose proof (rok_total _ _ Hm) as Htot. rewrite <-(enlaces_longitud _ _ _ (rok_enlaces _ _ Hm)) in Htot.
  set (k := Z.min (st_tamanio s - (d - st_base_fisica s)) (Z.of_nat (length datos))).
  set (x := take (Z.to_nat k) datos).
  assert (Hx : Z.of_nat (length x) = k) by (unfold x; rewrite length_take; lia).
  destruct (pedir_escritura m ds d i s dv pid x Hu Hp ltac:(lia)) as (b' & Hb' & Hreq).
  exists (Z.to_nat k), (con_red (<[st_outbound_socket s := Vivo (Stick b' (memoria_size dv))]> (m_red m)) m),
    (<[i := Stick b' (memoria_size dv)]> ds).
  split; [lia|]. split; [|split; [done|split]].
  - apply (red_ok_escribir m ds d i s dv); [done..|]. by apply (length_escribir_buffer _ (d - st_base_fisica s) x); [lia|].
  - fold x. by apply (ubicado_escribir m ds d i s dv x b' Hu); [lia|].
  - cbn [memory_io_escribir_bucle]. destruct (Z.leb_spec (Z.of_nat (length datos)) 0); [lia|].
    st_unfold. rewrite (ub_buscar _ _ _ _ _ _ Hu), Ei, Eb, Et, Eo.
    rewrite (sub32_small d) by lia. rewrite sub32_small by lia. rewrite trozo_min. fold k x.
    rewrite Hreq, codigo_trama_nil, op_num_no_neg. unfold leer_respuesta, recibir_ok.
    unfold mbind, ST_bind. rewrite validar_buffer_nil by (unfold MAX_PAYLOAD; cbn; lia).
    cbn [recv_int]. rewrite add32_small, sub32_small by lia. st_unfold. unfold recv.
    cbn [length le_enc Nat.leb]. rewrite Z2Nat.id, length_drop by lia.
    replace (Z.of_nat (length datos - Z.to_nat k)) with (Z.of_nat (length datos) - k) by lia. done.
Qed.

Lemma escribir_bucle_ok n m ds pid d datos :
  red_ok m ds -> es_int pid -> 0 <= d -> (length datos <= n)%nat ->
  d + Z.of_nat (length datos) <= Z.of_nat (length (ds ≫= memoria_buffer)) ->
  exists m' ds', memory_io_escribir_bucle n pid d (Z.of_nat (length datos)) datos m = Some (0, m') /\
  red_ok m' ds' /\ misma_estructura m m' /\
  escribir_buffer (ds ≫= memoria_buffer) d datos = Some (ds' ≫= memoria_buffer).
Proof.
  revert m ds d datos. induction n as [|n IH]; intros m ds d datos Hm Hp Hd Hn Hfin.
  all: destruct (decide (datos = [])) as [->|Hne].
  1,3: exists m, ds; split; [done|]; split; [done|]; split; [done|]; unfold escribir_buffer;
    cbn [length] in *; destruct (Z.leb_spec (d + Z.of_nat 0) (Z.of_nat (length (ds ≫= memoria_buffer)))); [|lia];
    by rewrite app_nil_l, Nat.add_0_r, take_drop.
  - destruct datos; [done|cbn in Hn; lia].
  - destruct (escribir_bucle_paso n m ds pid d datos Hm Hp Hd Hne Hfin)
      as (k & m1 & ds1 & Hk & Hm1 & Hme & Hw & ->).
    assert (Hl1 := length_escribir_buffer _ _ _ _ Hd Hw).
    destruct (IH m1 ds1 (d + Z.of_nat k) (drop k datos)) as (m2 & ds2 & E & Hm2 & Hme2 & Hw2);
      [done|done|lia|rewrite length_drop; lia|rewrite length_drop; lia|].
    exists m2, ds2. split; [done|]. split; [done|]. split; [by etrans|].
    rewrite <-(take_drop k datos) at 1. apply (escribir_buffer_app _ _ _ _ (ds1 ≫= memoria_buffer)); [done..|].
    rewrite length_take, Nat.min_l by lia. done.
Qed.

(** ** The implementation of the interface *)

Lemma red_ok_estable m m' ds :
  red_ok m ds -> m_conexiones m' = m_conexiones m -> m_red m' = m_red m -> red_ok m' ds.
Proof. intros [? ? ? ?] E1 E2. split; rewrite ?E1, ?E2; done. Qed.

#[export] Instance memory_io_acceso : AccesoFisico ram_es memory_io_leer memory_io_escribir.
Proof.
  split.
  - intros m ram (ds & Hm & ->). split; [by rewrite ram_longitud with (m:=m)|].
    rewrite (enlaces_longitud _ _ _ (rok_enlaces _ _ Hm)). apply Hm.
  - intros m m' ram (ds & Hm & ->) E1 E2. exists ds. split; [by eapply red_ok_estable|done].
  - intros m ram pid dir tam (ds & Hm & ->) Hp Hd Ht Hfin. unfold memory_io_leer.
    destruct (leer_bucle_ok (Z.to_nat tam) m ds pid dir tam [] Hm Hp Hd Ht) as (x & Hx & E); [lia|done|].
    by rewrite E, Hx.
  - intros m ram pid dir datos (ds & Hm & ->) Hp Hd Hfin. unfold memory_io_escribir. rewrite Nat2Z.id.
    destruct (escribir_bucle_ok (length datos) m ds pid dir datos Hm Hp Hd (le_n _) Hfin)
      as (m' & ds' & E & Hm' & Hme & Hw).
    exists m', (ds' ≫= memoria_buffer). split; [done|]. split; [done|]. split; [|done]. by exists ds'.
Qed.

(** ** Errors *)

Lemma buscar_fuera m ds d :
  red_ok m ds -> Z.of_nat (length (ds ≫= memoria_buffer)) <= d -> es_u32 d ->
  conexiones_buscar_stick_por_dir d (m_conexiones m) = -1.
Proof.
  intros Hm Hd Hu. rewrite (enlaces_longitud _ _ _ (rok_enlaces _ _ Hm)) in Hd.
  pose proof (rok_con _ _ Hm) as Hcon. unfold conexiones_buscar_stick_por_dir.
  destruct (indice_de _ _) as [k|] eqn:E; [|done]. apply indice_de_Some in E as (s & Hs & Hf & _).
  apply (contiene_dir_spec (m_conexiones m) k) in Hf as [_ Hr]; [|done..].
  destruct (base_rango _ k s Hcon Hs) as (? & ? & _). unfold en_rango in Hr. lia.
Qed.

Lemma leer_bucle_fuera n m ds pid d restante acc :
  red_ok m ds -> es_int pid -> 0 <= d -> 0 < restante -> restante <= Z.of_nat n ->
  d + restante < 4294967296 -> Z.of_nat (length (ds ≫= memoria_buffer)) < d + restante ->
  memory_io_leer_bucle n pid d restante acc m = Some (None, m).
Proof.
  intros Hm Hp. revert d restante acc. induction n as [|n IH]; intros d restante acc Hd Hres Hn Hw Hfin; [lia|].
  destruct (Z.lt_ge_cases d (Z.of_nat (length (ds ≫= memoria_buffer)))) as [H|H].
  - destruct (leer_bucle_paso n m ds pid d restante acc Hm Hp ltac:(lia) ltac:(lia))
      as (k & x & Hk & Hx & Hxl & ->).
    assert (k < restante).
    { destruct (Z.eq_dec k restante) as [->|]; [|lia]. unfold leer_buffer in Hx.
      destruct (Z.leb_spec (d + restante) (Z.of_nat (length (ds ≫= memoria_buffer)))); [lia|done]. }
    apply IH; lia.
  - cbn [memory_io_leer_bucle]. destruct (Z.leb_spec restante 0); [lia|].
    st_unfold. by rewrite (buscar_fuera m ds d Hm H) by (unfold es_u32; lia).
Qed.

(** ** Properties *)

(** C19: across sticks, a write followed by reads behaves as on one flat array:
    the range written reads back as written (even when it spans several sticks),
    every disjoint range keeps its bytes, and nothing else of Memory changes. *)
Theorem memory_io_memoria_plana m ram pid pid' dir datos :
  ram_es m ram -> es_int pid -> es_int pid' -> 0 <= dir ->
  dir + Z.of_nat (length datos) <= Z.of_nat (length ram) ->
  exists m', memory_io_escribir pid dir (Z.of_nat (length datos)) datos m = Some (0, m') /\
  misma_estructura m m' /\
  memory_io_leer pid' dir (Z.of_nat (length datos)) m' = Some (Some datos, m') /\
  (forall d t, 0 <= d -> 0 <= t -> d + t <= Z.of_nat (length ram) ->
     disjuntos dir (Z.of_nat (length datos)) d t ->
     memory_io_leer pid' d t m' = Some (leer_buffer ram d t, m')).
Proof.
  intros Hr Hp Hp' Hd Hfin.
  destruct (acceso_escribir m ram pid dir datos Hr Hp Hd Hfin) as (m' & ram' & E & Hw & Hr' & Hme).
  pose proof (length_escribir_buffer _ _ _ _ Hd Hw) as Hl.
  exists m'. split; [done|]. split; [done|]. split.
  - rewrite (acceso_leer m' ram' pid' dir _ Hr' Hp' Hd) by lia. by rewrite (leer_escribir _ _ _ _ Hd Hw).
  - intros d t Hd0 Ht Hdt Hdis. rewrite (acceso_leer m' ram' pid' d t Hr' Hp' Hd0 Ht) by lia.
    by rewrite (leer_escribir_disjunto _ _ _ _ _ _ Hd Hd0 Ht Hdis Hw).
Qed.

(** A read that ends past the last stick answers NULL and changes nothing,
    wherever it starts. *)
Theorem memory_io_leer_fuera_de_rango m ram pid dir tam :
  ram_es m ram -> es_int pid -> 0 <= dir -> 0 < tam -> dir + tam < 4294967296 ->
  Z.of_nat (length ram) < dir + tam ->
  memory_io_leer pid dir tam m = Some (None, m).
Proof.
  intros (ds & Hm & ->) Hp Hd Ht Hw Hfin. unfold memory_io_leer.
  apply (leer_bucle_fuera _ _ ds); [done..|lia|done|done].
Qed.

(** When the stick that holds the address has closed its connection, a read
    answers NULL and a write -1, and the scheduler (if connected) is told that
    memory is corrupt, once. *)
Theorem memory_io_stick_caido m i s pid dir tam datos :
  conexiones_ok (m_conexiones m) -> es_u32 dir -> 0 < tam -> tam = Z.of_nat (length datos) ->
  sticks (m_conexiones m) !! i = Some s -> 0 <= st_outbound_socket s ->
  en_rango (st_base_fisica s) (st_tamanio s) dir ->
  m_red m !! st_outbound_socket s = Some (Cortado []) ->
  let sched := conexiones_get_scheduler_socket (m_conexiones m) in
  let m' := if sched >=? 0 then con_salidas (m_salidas m ++ [(sched, enviar_memoria_corrupta)]) m else m in
  memory_io_leer pid dir tam m = Some (None, m') /\
  memory_io_escribir pid dir tam datos m = Some (-1, m').
Proof.
  intros Hcon Hd Ht Htl Hi Ho Hr Hred sched m'.
  assert (Eb := buscar_stick_por_dir_i dir _ i s Hcon Hd Hi Ho Hr).
  assert (Eo : conexiones_stick_outbound_socket (Z.of_nat i) (m_conexiones m) = st_outbound_socket s).
  { pose proof (lookup_lt_Some _ _ _ Hi). unfold conexiones_stick_outbound_socket, en_tabla.
    destruct (Z.geb_spec (Z.of_nat i) 0); [|lia].
    destruct (Z.ltb_spec (Z.of_nat i) (Z.of_nat (length (sticks (m_conexiones m))))); [|lia].
    cbn. by rewrite Nat2Z.id, Hi. }
  assert (Ei : (Z.of_nat i <? 0) = false) by (apply Z.ltb_ge; lia).
  assert (Ered : con_red (<[st_outbound_socket s := Cortado []]> (m_red m)) m = m)
    by (rewrite insert_id by done; by destruct m).
  assert (En : exists n, Z.to_nat tam = S n) by (exists (Z.to_nat tam - 1)%nat; lia).
  destruct En as [n En]. unfold memory_io_leer, memory_io_escribir. rewrite En.
  cbn [memory_io_leer_bucle memory_io_escribir_bucle]. destruct (Z.leb_spec tam 0); [lia|].
  unfold pedir_a_stick, avisar_memoria_corrupta, enviar. st_unfold. rewrite Eb, Ei, Eo, Hred. cbn [from_option].
  change (recibir_codigo_operacion []) with (NEG1, @nil byte).
  cbn beta match. change (i32 NEG1 =? -1) with true. cbn beta match. rewrite Ered. fold sched. unfold m'.
  by destruct (sched >=? 0).
Qed.

(** Two sticks of 4 and 3 bytes behind sockets 5 and 7; the scheduler on 3. *)
Definition mem_ejemplo : memoria :=
  let con := conexiones_set_scheduler_socket 3
    (conexiones_stick_set_outbound_socket 1 7 (conexiones_agregar_stick 6 3 [] []
      (conexiones_stick_set_outbound_socket 0 5
        (conexiones_agregar_stick 4 4 [] [] conexiones_init).2)).2) in
  Memoria (ConfigMemory 64 None None) con [] [] (Reserva 0 0 0) false
    (<[5 := Vivo (Stick [x01; x02; x03; x04] 4)]> (<[7 := Vivo (Stick [x05; x06; x07] 3)]> ∅))
    (Cortado []) ∅ [] (fun _ => None).

Lemma mem_ejemplo_ok : ram_es mem_ejemplo [x01; x02; x03; x04; x05; x06; x07].
Proof.
  exists [Stick [x01; x02; x03; x04] 4; Stick [x05; x06; x07] 3]. split; [|done]. split.
  - change (conexiones_ok (conexiones_set_scheduler_socket 3 (m_conexiones
      (con_conexiones (conexiones_set_scheduler_socket (-1) (m_conexiones mem_ejemplo)) mem_ejemplo)))).
    assert (H : conexiones_ok (conexiones_stick_set_outbound_socket 1 7 (conexiones_agregar_stick 6 3 [] []
      (conexiones_stick_set_outbound_socket 0 5
        (conexiones_agregar_stick 4 4 [] [] conexiones_init).2)).2)).
    { apply set_outbound_ok, agregar_stick_ok; [apply set_outbound_ok, agregar_stick_ok|..];
        auto with conexiones; vm_compute; (split || idtac); congruence. }
    destruct H as [? ? ? ? ?]. by split.
  - vm_compute; congruence.
  - repeat constructor; vm_compute; congruence.
  - vm_compute. repeat constructor; set_solver.
Qed.

Lemma memory_io_memoria_plana_witness :
  exists m', memory_io_escribir 1 3 3 [x0a; x0b; x0c] mem_ejemplo = Some (0, m') /\
    memory_io_leer 2 3 3 m' = Some (Some [x0a; x0b; x0c], m').
Proof.
  destruct (memory_io_memoria_plana mem_ejemplo _ 1 2 3 [x0a; x0b; x0c] mem_ejemplo_ok)
    as (m' & E1 & _ & E2 & _); unfold es_int; cbn [length]; try lia.
  exists m'. split; [exact E1|exact E2].
Defined.

Lemma memory_io_leer_fuera_de_rango_witness :
  memory_io_leer 1 2 6 mem_ejemplo = Some (None, mem_ejemplo).
Proof.
  apply (memory_io_leer_fuera_de_rango mem_ejemplo _ 1 2 6 mem_ejemplo_ok); unfold es_int; cbn [length]; lia.
Defined.

Definition mem_caida : memoria := con_red (<[7 := Cortado []]> (m_red mem_ejemplo)) mem_ejemplo.
Lemma memory_io_stick_caido_witness :
  memory_io_leer 1 4 2 mem_caida =
  Some (None, con_salidas [(3, enviar_memoria_corrupta)] mem_caida).
Proof.
  refine (proj1 (memory_io_stick_caido mem_caida 1 _ 1 4 2 [x00; x00] _ _ _ _ eq_refl _ _ _)).
  - destruct mem_ejemplo_ok as (ds & Hm & _). apply (rok_con _ _ Hm).
  - unfold es_u32; lia.
  - lia.
  - done.
  - vm_compute; congruence.
  - vm_compute; split; congruence.
  - reflexivity.
Defined.
