(* ===== verification/MemSwap.v ===== *)
(** * MemSwap: Kernel Memory's side of Swap

    Models [kernel_memory/src/memory_swap.c]: the cursor that reserves blocks and
    the two block transfers. Blocks are never given back: the cursor only moves
    forward. *)

From S2P Require Import Prelude Bloques Wire Buffer Tipos Mensajes Conexiones Stick Swap Memoria.

Definition swap_inicializar (bs tb : Z) : M unit := st_mod (con_reserva (Reserva bs 0 tb)).

Definition swap_block_size : M Z := st_gets (fun m => block_size (m_reserva m)).

(** The first block of the reservation, or [(uint32_t)-1]. *)
Definition reservar (n_blocks : Z) (r : swap_reserva) : Z * swap_reserva :=
  if (next_block r +u n_blocks)%u32 >? total_blocks r then (NEG1, r)
  else (next_block r, Reserva (block_size r) (next_block r +u n_blocks)%u32 (total_blocks r)).

Definition swap_reservar_bloques (n_blocks : Z) : M Z :=
  m ← st_get;
  let '(inicio, r) := reservar n_blocks (m_reserva m) in
  _ ← st_put (con_reserva r m); mret inicio.

(** [buf] has [block_size] bytes. *)
Definition swap_escribir_bloque (swap_sock bloque : Z) (buf : list byte) : M Z :=
  if swap_sock <? 0 then mret (-1)
  else
    bs ← swap_block_size;
    resp ← pedir_a_swap (enviar_escritura_bloque_swap bloque (take (Z.to_nat bs) buf));
    leer_respuesta recibir_resultado_swap resp.

(** [*out_buf], or [None] for the -1 of an error. *)
Definition swap_leer_bloque (swap_sock bloque : Z) : M (option (list byte)) :=
  if swap_sock <? 0 then mret None
  else
    bs ← swap_block_size;
    resp ← pedir_a_swap (enviar_lectura_bloque_swap bloque);
    '(status, data) ← leer_respuesta (recibir_bloque_swap bs) resp;
    mret (if negb (status =? 0) then None else data).

(** ** Lemmas *)

Definition reserva_ok (r : swap_reserva) : Prop :=
  0 <= next_block r <= total_blocks r /\ es_u32 (total_blocks r) /\ es_u32 (block_size r).

Lemma reservar_ok n r :
  reserva_ok r -> 0 <= n -> next_block r + n < 4294967296 ->
  reserva_ok (reservar n r).2 /\
  ((reservar n r).1 = next_block r /\ next_block (reservar n r).2 = next_block r + n /\
   next_block r + n <= total_blocks r \/
   (reservar n r).1 = NEG1 /\ (reservar n r).2 = r /\ total_blocks r < next_block r + n).
Proof.
  intros (Hn & Ht & Hb) H0 Hw. unfold reservar. rewrite add32_small by lia.
  destruct (Z.gtb_spec (next_block r + n) (total_blocks r)); cbn [fst snd next_block].
  - split; [done|]. right. split; [done|]. split; [done|lia].
  - split; [split; cbn; [lia|done]|]. left. split; [done|]. split; [done|lia].
Qed.

(** The swap device behind the link is the one Memory was told about. *)
Record swap_enlazado (m : memoria) (s : swap) : Prop := {
  sl_vivo : m_swap m = Vivo s;
  sl_ok : swap_ok s;
  sl_bs : block_size (m_reserva m) = sw_block_size (sw_config s);
  sl_total : total_blocks (m_reserva m) = cantidad_bloques s }.

Lemma leer_respuesta_ok {A} (r : lector A) pl a m :
  lee r pl a -> leer_respuesta r pl m = Some (a, m).
Proof. intros H. unfold leer_respuesta. pose proof (H []) as E. rewrite app_nil_r in E. by rewrite E. Qed.

(** A block transfer, when Swap answers: what it stores and what it returns. *)
Lemma swap_escribir_bloque_ok m s sock b datos :
  swap_enlazado m s -> 0 <= sock -> 0 <= b < cantidad_bloques s ->
  Z.of_nat (length datos) = sw_block_size (sw_config s) ->
  exists s', swap_escribir_bloque sock b datos m = Some (0, con_swap (Vivo s') m) /\
  swap_enlazado (con_swap (Vivo s') m) s' /\ cantidad_bloques s' = cantidad_bloques s /\
  sw_config s' = sw_config s /\
  (forall b', 0 <= b' < cantidad_bloques s -> bloque s' b' = if b' =? b then datos else bloque s b').
Proof.
  intros [Hv Hok Hbs Htot] Hs Hb Hd. pose proof (sok_bs s Hok).
  assert (Hub : es_u32 b).
  { pose proof (sok_tam s Hok) as Ht. unfold es_u32, cantidad_bloques in *.
    pose proof (Z.div_le_upper_bound (swap_file_size (sw_config s)) (sw_block_size (sw_config s))
          (swap_file_size (sw_config s))). nia. }
  destruct (swap_atender_operacion_ok s (EscribirBloque b datos) (bloque s) [] Hok)
    as (s' & E & Hok' & Hc & Hrep); [done|by intros ?|].
  rewrite app_nil_r in E. cbn [peticion_swap_bytes aplicar_swap fst snd] in *.
  assert (Hlt : (b <? cantidad_bloques s) = true) by (apply Z.ltb_lt; lia). rewrite Hlt in *.
  exists s'. split; [|split; [|split; [|split]]].
  - unfold swap_escribir_bloque, swap_block_size, pedir_a_swap. destruct (Z.ltb_spec sock 0); [lia|].
    st_unfold. rewrite Hv, Hbs, take_ge by lia. rewrite E.
    rewrite <-enviar_resultado_trama. apply leer_respuesta_ok. intros resto.
    by apply (respuestas_swap_lee 0 resto).
  - split; cbn [con_swap m_swap m_reserva]; [done|done|by rewrite Hc|].
    rewrite Htot. unfold cantidad_bloques. by rewrite Hc.
  - unfold cantidad_bloques. by rewrite Hc.
  - done.
  - intros b' Hb'. apply Hrep. unfold cantidad_bloques in *. by rewrite Hc.
Qed.

Lemma swap_leer_bloque_ok m s sock b :
  swap_enlazado m s -> 0 <= sock -> 0 <= b < cantidad_bloques s ->
  swap_leer_bloque sock b m = Some (Some (bloque s b), m).
Proof.
  intros [Hv Hok Hbs Htot] Hs Hb. pose proof (sok_bs s Hok).
  assert (Hub : es_u32 b).
  { pose proof (sok_tam s Hok) as Ht. unfold es_u32, cantidad_bloques in *.
    pose proof (Z.div_le_upper_bound (swap_file_size (sw_config s)) (sw_block_size (sw_config s))
          (swap_file_size (sw_config s))). nia. }
  destruct (swap_read_block_ok s b [] Hok Hub) as (pl & Hpl & E). rewrite app_nil_r in E.
  assert (Hlt : (b <? cantidad_bloques s) = true) by (apply Z.ltb_lt; lia).
  pose proof (length_bloque s b Hok Hub Hlt) as Hl.
  cbn [aplicar_swap fst] in E. rewrite Hlt in E.
  unfold swap_leer_bloque, swap_block_size, pedir_a_swap. destruct (Z.ltb_spec sock 0); [lia|].
  st_unfold. rewrite Hv, Hbs. unfold swap_atender_operacion, mbind, ST_bind at 1.
  rewrite Hpl, codigo_trama_nil. change (i32 (op_num LECTURA_BLOQUE_SWAP) =? -1) with false. cbn iota.
  rewrite Z.eqb_refl. unfold mbind, ST_bind. rewrite E. cbn beta match delta [mret ST_ret].
  assert (Ebl := enviar_bloque_trama 0 (bloque s b) ltac:(lia)). cbn [Z.eqb] in Ebl. rewrite <-Ebl.
  rewrite (leer_respuesta_ok _ _ (0, Some (bloque s b))).
  - cbn. do 2 f_equal. rewrite <-Hv. by destruct m.
  - intros resto. rewrite <-Hl. apply (bloque_swap_lee 0 (bloque s b) resto); [done|lia].
Qed.
