(* ===== verification/Procesos.v ===== *)
(** * Procesos: the process list of Kernel Memory

    Models [kernel_memory/src/memory_procesos.c]: the list [procesos], the
    loading of scripts and the translation of logical addresses. A pointer to a
    process is its position in the list; every function that follows one runs
    under [mutex_memoria]. *)

From S2P Require Import Prelude Bloques Wire Buffer Tipos Mensajes Texto Conexiones Stick Swap Memoria.

(** ** The list *)

Definition procesos_init : M unit := st_mod (con_procesos []).

Definition procesos_buscar (p : Z) (l : list t_contexto_ejecucion) : option nat :=
  indice_de (fun c => pid c =? p) l.

Definition procesos_agregar (p : t_contexto_ejecucion) : M unit :=
  st_mod (fun m => con_procesos (procesos m ++ [p]) m).

Definition procesos_cantidad (m : memoria) : nat := length (procesos m).
Definition procesos_obtener_en (idx : nat) (m : memoria) : option t_contexto_ejecucion :=
  procesos m !! idx.
Definition procesos_quitar_en (idx : nat) : M unit :=
  st_mod (fun m => con_procesos (delete idx (procesos m)) m).

(** The process of a pid, with its position. *)
Definition buscar_proceso (p : Z) : M (option (nat * t_contexto_ejecucion)) :=
  l ← st_gets procesos;
  mret (i ← procesos_buscar p l; c ← l !! i; Some (i, c)).

(** [*proc = ...] through a pointer to the process [i]. *)
Definition modificar_proceso (i : nat) (f : t_contexto_ejecucion -> t_contexto_ejecucion) : M unit :=
  st_mod (fun m => con_procesos (alter f i (procesos m)) m).

Definition con_segmentos (l : list t_segmento) (p : t_contexto_ejecucion) : t_contexto_ejecucion :=
  Proceso (pid p) (registros p) l (instrucciones p).

Definition actualizar_proceso_desde_contexto (ctx : t_contexto) (p : t_contexto_ejecucion)
    : t_contexto_ejecucion :=
  Proceso (pid p) (c_registros ctx) (tabla_segmentos ctx) (instrucciones p).

(** ** Scripts *)

(** [None] for NULL. *)
Fixpoint skip_blanco_y_comentario (linea : list byte) : option (list byte) :=
  match linea with
  | [] => None
  | c :: resto =>
      if decide (c = x20 \/ c = x09) then skip_blanco_y_comentario resto
      else if decide (c = x0a \/ c = x0d \/ c = x23) then None
      else Some linea
  end.

(** [contenido[strcspn(contenido, "\n")] = '\0']. *)
Fixpoint hasta_newline (l : list byte) : list byte :=
  match l with
  | [] => []
  | c :: l => if decide (c = x0a) then [] else c :: hasta_newline l
  end.

(** What the loop appends for one line, if anything. *)
Definition instruccion_de (linea : list byte) : option (list byte) :=
  hasta_newline <$> skip_blanco_y_comentario (cstr linea).

(** The [while (fgets(...))] loop; every line takes a byte at least. *)
Fixpoint cargar_script_bucle (n : nat) (f : list byte) : list (list byte) :=
  match n with
  | O => []
  | S n =>
      match fgets 255 f with
      | None => []
      | Some (linea, f) =>
          match instruccion_de linea with
          | None => cargar_script_bucle n f
          | Some i => i :: cargar_script_bucle n f
          end
      end
  end.

(** The instructions; [] for the NULL of a script that is missing or empty. *)
Definition cargar_script (archivos : list byte -> option (list byte)) (path : list byte)
    : list (list byte) :=
  match archivos path with
  | None => []
  | Some f => cargar_script_bucle (length f) f
  end.

(** ** Address translation *)

(** [None] is the division by a zero [SEGMENT_MAX_SIZE]. *)
Definition dividir_dir (sms dir_logica : Z) : option (Z * Z) :=
  if u32 sms =? 0 then None else Some (dir_logica / u32 sms, dir_logica mod u32 sms).

Definition buscar_segmento (id : Z) (l : list t_segmento) : option t_segmento :=
  i ← indice_de (fun s => s_id s =? id) l; l !! i.

(** The physical address, or [None] for the [(uint32_t)-1] of a fault. *)
Definition traducir (sms : Z) (segs : list t_segmento) (dir_logica tamanio : Z) : option (option Z) :=
  match dividir_dir sms dir_logica with
  | None => None
  | Some (num_seg, desplazamiento) =>
      Some (match buscar_segmento num_seg segs with
            | None => None
            | Some seg =>
                if (desplazamiento +u tamanio)%u32 >? s_limite seg then None
                else if s_base seg =? NEG1 then None
                else Some (s_base seg +u desplazamiento)%u32
            end)
  end.

(** Returns the address ([(uint32_t)-1] after announcing the fault). *)
Definition traducir_dir_logica (proc : t_contexto_ejecucion) (dir_logica tamanio socket : Z) : M Z :=
  sms ← st_gets (fun m => segment_max_size (config_memory m));
  match traducir sms (segmentos proc) dir_logica tamanio with
  | None => st_abort
  | Some None =>
      _ ← (if socket >=? 0 then enviar socket (enviar_ok SEGMENTATION_FAULT) else mret tt);
      mret NEG1
  | Some (Some d) => mret d
  end.

(** ** Scripts: the specification *)

(** The lines of a file, each without its newline. *)
Fixpoint lineas (f : list byte) : list (list byte) :=
  match f with
  | [] => []
  | c :: f =>
      if decide (c = x0a) then [] :: lineas f
      else match lineas f with
           | [] => [[c]]
           | l :: ls => (c :: l) :: ls
           end
  end.

(** A line that fits in the 256-byte buffer of [fgets], newline and NUL
    included, and holds no NUL itself. *)
Definition linea_corta (l : list byte) : Prop := (length l < 255)%nat /\ x00 ∉ l.

(** The instructions of a file: its lines without leading blanks, those that
    are not empty or comments. *)
Definition instrucciones_de (f : list byte) : list (list byte) :=
  omap skip_blanco_y_comentario (lineas f).

(** ** Lemmas *)

(** The first line of a file and what follows it. *)
Lemma lineas_cons f : f <> [] ->
  exists l ls, lineas f = l :: ls /\ x0a ∉ l /\
  (f = l /\ ls = [] \/ exists f', f = l ++ x0a :: f' /\ ls = lineas f').
Proof.
  induction f as [|c f IH]; [done|]. intros _. cbn. destruct (decide (c = x0a)) as [->|Hc].
  - exists [], (lineas f). split; [done|]. split; [set_solver|]. right. by exists f.
  - destruct (decide (f = [])) as [->|Hf].
    + exists [c], []. split; [done|]. split; [set_solver|]. by left.
    + destruct (IH Hf) as (l & ls & -> & Hl & Hcases). exists (c :: l), ls.
      split; [done|]. split; [set_solver|]. destruct Hcases as [[-> ->]|(f' & -> & ->)]; [by left|].
      right. by exists f'.
Qed.

(** A newline at the end of the line makes no difference. *)
Lemma instruccion_de_linea l :
  x0a ∉ l -> x00 ∉ l ->
  instruccion_de (l ++ [x0a]) = skip_blanco_y_comentario l /\
  instruccion_de l = skip_blanco_y_comentario l.
Proof.
  intros Hn H0. unfold instruccion_de.
  rewrite (cstr_sin_nul (l ++ [x0a])) by set_solver. rewrite (cstr_sin_nul l) by done.
  assert (Hh : forall k, x0a ∉ k -> hasta_newline k = k /\ hasta_newline (k ++ [x0a]) = k).
  { induction k as [|c k IH]; [done|]. intros Hk. apply not_elem_of_cons in Hk as [Hc Hk]. cbn.
    rewrite !decide_False by congruence. destruct (IH Hk) as [-> ->]. done. }
  clear H0. induction l as [|c l IH]; [done|]. cbn. apply not_elem_of_cons in Hn as [Hc Hl].
  destruct (decide (c = x20 \/ c = x09)); [by apply IH|].
  destruct (decide (c = x0a \/ c = x0d \/ c = x23)); [done|].
  destruct (Hh (c :: l)) as [E1 E2]; [by apply not_elem_of_cons|]. cbn [fmap option_fmap option_map].
  rewrite E1. change (c :: l ++ [x0a]) with ((c :: l) ++ [x0a]). by rewrite E2.
Qed.

Lemma cargar_script_bucle_ok n f :
  (length f <= n)%nat -> Forall linea_corta (lineas f) ->
  cargar_script_bucle n f = instrucciones_de f.
Proof.
  revert f. induction n as [|n IH]; intros f Hn Hf.
  { by destruct f; [|cbn in Hn; lia]. }
  destruct (decide (f = [])) as [->|Hne]; [done|].
  destruct (lineas_cons f Hne) as (l & ls & E & Hl & Hcases).
  unfold instrucciones_de. rewrite E in *. apply Forall_cons in Hf as [[Hlen H0] Hls].
  destruct (instruccion_de_linea l Hl H0) as [E1 E2].
  cbn [cargar_script_bucle]. unfold fgets. destruct f as [|c0 f0]; [done|].
  destruct Hcases as [[Ef ->]|(f' & Ef & ->)]; rewrite Ef.
  - rewrite tomar_linea_ultima by (done || lia). rewrite E2. cbn [omap list_omap].
    assert (Hnil : cargar_script_bucle n [] = []) by (destruct n; reflexivity).
    rewrite Hnil. destruct (skip_blanco_y_comentario l); reflexivity.
  - rewrite tomar_linea_corta by (done || lia). rewrite E1. cbn [omap list_omap].
    rewrite IH; [|rewrite Ef in Hn; rewrite length_app in Hn; cbn in Hn; lia|done].
    by destruct (skip_blanco_y_comentario l).
Qed.

(** The fields of an instruction read from a file: it starts at a character
    that is neither blank nor a comment mark, and has no newline. *)
Definition instruccion_valida (i : list byte) : Prop :=
  (exists c resto, i = c :: resto /\ c ∉ [x00; x20; x09; x0a; x0d; x23]) /\ x0a ∉ i /\ x00 ∉ i.

Lemma cstr_no_nul l : x00 ∉ cstr l.
Proof.
  induction l as [|c l IH]; cbn; [set_solver|]. destruct (decide (c = x00)); [set_solver|].
  apply not_elem_of_cons. split; [congruence|done].
Qed.

Lemma hasta_newline_sub l x : x ∈ hasta_newline l -> x ∈ l /\ x <> x0a.
Proof.
  induction l as [|c l IH]; cbn; [set_solver|]. destruct (decide (c = x0a)); [set_solver|].
  rewrite elem_of_cons. intros [->|H]; [split; [left|done]|]. destruct (IH H). split; [by right|done].
Qed.

Lemma skip_blanco_spec l l' : skip_blanco_y_comentario l = Some l' ->
  (forall x, x ∈ l' -> x ∈ l) /\ exists c resto, l' = c :: resto /\ c ∉ [x20; x09; x0a; x0d; x23].
Proof.
  induction l as [|c l IH]; cbn; [done|].
  destruct (decide (c = x20 \/ c = x09)).
  { intros H. destruct (IH H) as [H1 H2]. split; [|done]. intros x Hx. right. by apply H1. }
  destruct (decide (c = x0a \/ c = x0d \/ c = x23)); [done|]. intros [= <-].
  split; [done|]. exists c, l. split; [done|].
  rewrite !not_elem_of_cons. repeat split; try tauto. apply not_elem_of_nil.
Qed.

Lemma instruccion_de_valida l i : instruccion_de l = Some i -> instruccion_valida i.
Proof.
  unfold instruccion_de. rewrite fmap_Some. intros (k & Hk & ->).
  apply skip_blanco_spec in Hk as [Hsub (c & resto & -> & Hc)].
  rewrite !not_elem_of_cons in Hc. destruct Hc as (? & ? & ? & ? & ? & _).
  assert (Hc0 : c <> x00). { intros ->. apply (cstr_no_nul l), Hsub. left. }
  split; [|split].
  - cbn. rewrite decide_False by done. eexists _, _. split; [done|].
    rewrite !not_elem_of_cons. repeat split; try done. apply not_elem_of_nil.
  - intros Hin. by apply hasta_newline_sub in Hin as [_ ?].
  - intros Hin. apply hasta_newline_sub in Hin as [Hin _]. by apply (cstr_no_nul l), Hsub.
Qed.

(** ** Translation: lemmas *)

(** The C check, without wrap-around. *)
Definition acceso_valido (segs : list t_segmento) (sms dir tam : Z) (seg : t_segmento) : Prop :=
  buscar_segmento (dir / sms) segs = Some seg /\ s_base seg <> NEG1 /\
  dir mod sms + tam <= s_limite seg.

Lemma traducir_spec sms segs dir tam :
  0 < sms < 4294967296 -> es_u32 dir -> 0 <= tam -> dir mod sms + tam < 4294967296 ->
  Forall (fun s => s_base s <> NEG1 -> s_base s + s_limite s < 4294967296) segs ->
  Forall segmento_ok segs ->
  (exists seg, acceso_valido segs sms dir tam seg /\
     traducir sms segs dir tam = Some (Some (s_base seg + dir mod sms))) \/
  ((forall seg, ~ acceso_valido segs sms dir tam seg) /\ traducir sms segs dir tam = Some None).
Proof.
  intros Hs Hd Ht Hw Hlim Hok. unfold traducir, dividir_dir, acceso_valido.
  rewrite u32_small by (unfold es_u32; lia).
  destruct (Z.eqb_spec sms 0); [lia|]. pose proof (Z.mod_pos_bound dir sms ltac:(lia)).
  rewrite add32_small by lia.
  destruct (buscar_segmento (dir / sms) segs) as [seg|] eqn:E; [|right; split; [|done]; intros seg (? & _); done].
  assert (Hin : seg ∈ segs).
  { unfold buscar_segmento in E. destruct (indice_de _ segs) as [i|]; [|done].
    by apply list_elem_of_lookup_2 in E. }
  pose proof (proj1 (Forall_forall _ _) Hlim _ Hin) as Hl.
  pose proof (proj1 (Forall_forall _ _) Hok _ Hin) as (_ & Hb & Hli & _).
  destruct (Z.gtb_spec (dir mod sms + tam) (s_limite seg)) as [Hg|Hg].
  { right. split; [|done]. intros seg' (? & _ & ?). simplify_eq. lia. }
  destruct (Z.eqb_spec (s_base seg) NEG1) as [Eb|Eb].
  { right. split; [|done]. intros seg' (? & ? & _). simplify_eq. }
  left. exists seg. split; [done|]. specialize (Hl Eb). unfold es_u32 in *.
  rewrite add32_small by lia. done.
Qed.

(** ** Properties *)

(** A script whose lines fit [fgets]'s buffer is loaded as its lines without
    leading blanks, in order, less the empty ones and the comments. *)
Theorem cargar_script_lineas archivos path f :
  archivos path = Some f -> Forall linea_corta (lineas f) ->
  cargar_script archivos path = omap skip_blanco_y_comentario (lineas f).
Proof. intros Hf Hl. unfold cargar_script. rewrite Hf. by apply cargar_script_bucle_ok. Qed.

(** The translation of a logical address succeeds exactly when the segment
    exists, is in RAM and holds the whole access; the address is the segment's
    base plus the offset, the access stays inside the segment, and otherwise the
    peer is told [SEGMENTATION_FAULT] once and nothing else changes. *)
Theorem traducir_dir_logica_correcta m p dir tam sock :
  let sms := segment_max_size (config_memory m) in
  0 < sms < 4294967296 -> es_u32 dir -> 0 <= tam -> dir mod sms + tam < 4294967296 ->
  Forall segmento_ok (segmentos p) ->
  Forall (fun s => s_base s <> NEG1 -> s_base s + s_limite s < 4294967296) (segmentos p) ->
  0 <= sock ->
  (forall seg, acceso_valido (segmentos p) sms dir tam seg ->
     traducir_dir_logica p dir tam sock m = Some (s_base seg + dir mod sms, m) /\
     s_base seg <= s_base seg + dir mod sms /\
     s_base seg + dir mod sms + tam <= s_base seg + s_limite seg) /\
  ((forall seg, ~ acceso_valido (segmentos p) sms dir tam seg) ->
     traducir_dir_logica p dir tam sock m =
     Some (NEG1, con_salidas (m_salidas m ++ [(sock, enviar_ok SEGMENTATION_FAULT)]) m)).
Proof.
  intros sms Hs Hd Ht Hw Hok Hlim Hsock. unfold traducir_dir_logica. st_unfold. fold sms.
  pose proof (Z.mod_pos_bound dir sms ltac:(lia)).
  destruct (traducir_spec sms (segmentos p) dir tam Hs Hd Ht Hw Hlim Hok) as [(seg & Ha & E)|(Hno & E)];
    rewrite E; split.
  - intros seg' Ha'. destruct Ha as (E1 & _ & H1), Ha' as (E2 & _ & H2). simplify_eq.
    split; [done|]. lia.
  - intros Hno. by destruct (Hno seg).
  - intros seg' Ha'. by destruct (Hno seg').
  - intros _. unfold enviar. destruct (Z.geb_spec sock 0); [done|lia].
Qed.

(** The fault check adds offset and size in [uint32_t]: an access whose size
    wraps the sum is translated as if it were inside the segment. *)
Theorem traducir_desborda sms segs dir tam seg :
  0 < sms < 4294967296 -> es_u32 dir -> es_u32 tam -> 4294967296 <= dir mod sms + tam ->
  buscar_segmento (dir / sms) segs = Some seg -> s_base seg <> NEG1 ->
  dir mod sms + tam - 4294967296 <= s_limite seg -> es_u32 (s_limite seg) ->
  traducir sms segs dir tam = Some (Some (s_base seg +u dir mod sms)%u32) /\
  s_limite seg < dir mod sms + tam.
Proof.
  intros Hs Hd Ht Hw Hb Hne Hl Hu. split; [|unfold es_u32 in Hu; lia]. unfold traducir, dividir_dir.
  rewrite u32_small by (unfold es_u32; lia). destruct (Z.eqb_spec sms 0); [lia|]. rewrite Hb.
  pose proof (Z.mod_pos_bound dir sms ltac:(lia)).
  assert (E : (dir mod sms +u tam)%u32 = dir mod sms + tam - 4294967296).
  { unfold add32, u32, es_u32 in *. symmetry. apply (Z.mod_unique _ _ 1); lia. }
  rewrite E. destruct (Z.gtb_spec (dir mod sms + tam - 4294967296) (s_limite seg)); [lia|].
  by destruct (Z.eqb_spec (s_base seg) NEG1).
Qed.

Definition script_ejemplo : list byte :=
  (* "  NOOP\n# c\n\nEXIT" *)
  [x20; x20; x4e; x4f; x4f; x50; x0a; x23; x20; x63; x0a; x0a; x45; x58; x49; x54].

Lemma cargar_script_lineas_witness :
  cargar_script (fun _ => Some script_ejemplo) [] = [[x4e; x4f; x4f; x50]; [x45; x58; x49; x54]].
Proof.
  refine (cargar_script_lineas (fun _ => Some script_ejemplo) [] script_ejemplo eq_refl _).
  repeat first [apply Forall_nil; exact I | apply Forall_cons; split];
    (split; [cbn; lia|rewrite ?not_elem_of_cons; repeat split; try congruence; apply not_elem_of_nil]).
Defined.

Definition proc_ejemplo : t_contexto_ejecucion :=
  Proceso 7 registros_cero [Segmento 0 16 8 0; Segmento 1 4 8 0] [].
Definition mem_vacia : memoria :=
  Memoria (ConfigMemory 64 None None) conexiones_init [] [] (Reserva 0 0 0) false ∅ (Cortado []) ∅ []
    (fun _ => None).

Lemma traducir_dir_logica_correcta_witness :
  traducir_dir_logica proc_ejemplo 66 6 3 mem_vacia = Some (6, mem_vacia) /\
  traducir_dir_logica proc_ejemplo 66 7 3 mem_vacia =
    Some (NEG1, con_salidas [(3, enviar_ok SEGMENTATION_FAULT)] mem_vacia).
Proof.
  assert (Hok : Forall segmento_ok (segmentos proc_ejemplo))
    by (repeat first [apply Forall_nil; exact I | apply Forall_cons; split;
      [unfold segmento_ok, es_u32; cbn; lia|]]).
  assert (Hl : Forall (fun s => s_base s <> NEG1 -> s_base s + s_limite s < 4294967296) (segmentos proc_ejemplo))
    by (repeat first [apply Forall_nil; exact I | apply Forall_cons; split;
      [unfold segmento_ok, es_u32; cbn; lia|]]).
  split.
  - destruct (traducir_dir_logica_correcta mem_vacia proc_ejemplo 66 6 3) as [H _];
      [vm_compute; split; congruence|unfold es_u32; lia|lia|vm_compute; reflexivity|exact Hok|exact Hl|lia|].
    destruct (H (Segmento 1 4 8 0)) as [E _]; [|exact E].
    split; [reflexivity|]. split; vm_compute; congruence.
  - destruct (traducir_dir_logica_correcta mem_vacia proc_ejemplo 66 7 3) as [_ H];
      [vm_compute; split; congruence|unfold es_u32; lia|lia|vm_compute; reflexivity|exact Hok|exact Hl|lia|].
    apply H. intros seg (E & _ & Hs). injection E as <-. vm_compute in Hs. congruence.
Defined.

Lemma traducir_desborda_witness :
  traducir 64 (segmentos proc_ejemplo) 66 4294967295 = Some (Some 6) /\
  8 < 66 mod 64 + 4294967295.
Proof.
  refine (traducir_desborda 64 (segmentos proc_ejemplo) 66 4294967295 (Segmento 1 4 8 0) _ _ _ _ eq_refl _ _ _);
    vm_compute; repeat split; congruence.
Defined.
