(* ===== verification/Compactacion.v ===== *)
(** * Compactacion: moving the segments together

    Models [kernel_memory/src/memory_compactacion.c]. The theorem
    [compactar_memoria_correcta] states that after compaction every resident
    segment holds the bytes it held, the segments fill the memory from address
    0, and the free table is the one block that remains. It is proved against
    the interface [AccesoFisico] of [MemoryIO]. *)

From S2P Require Import Prelude Bloques Wire Buffer Tipos Mensajes Texto Conexiones Stick Swap Memoria MemoryIO Procesos.

(** ** Operations *)

Definition compactacion_en_progreso : M bool := st_gets en_progreso.
Definition compactacion_marcar_inicio : M unit := st_mod (con_progreso true).
Definition compactacion_marcar_fin : M unit := st_mod (con_progreso false).

(** [t_seg_entrada]: the pointers are positions; [e_s] is the segment as it was
    when the table was built, which the sort looks at. *)
Record t_seg_entrada := Entrada { e_proc : nat; e_seg : nat; e_pid : Z; e_s : t_segmento }.

Definition comparar_seg_por_base (a b : t_seg_entrada) : Prop := s_base (e_s a) <= s_base (e_s b).
#[export] Instance comparar_dec : RelDecision comparar_seg_por_base.
Proof. intros a b. unfold comparar_seg_por_base. apply _. Defined.

(** The two nested loops that fill [entradas]. *)
Fixpoint entradas_seg (i j : nat) (pid : Z) (l : list t_segmento) : list t_seg_entrada :=
  match l with
  | [] => []
  | s :: l =>
      if s_base s =? NEG1 then entradas_seg i (S j) pid l
      else Entrada i j pid s :: entradas_seg i (S j) pid l
  end.
Fixpoint entradas (i : nat) (ps : list t_contexto_ejecucion) : list t_seg_entrada :=
  match ps with
  | [] => []
  | p :: ps => entradas_seg i 0 (pid p) (segmentos p) ++ entradas (S i) ps
  end.

Definition con_base (b : Z) (s : t_segmento) : t_segmento :=
  Segmento (s_id s) b (s_limite s) (swap_bloque_inicio s).

(** [seg->base = b] *)
Definition mover (i j : nat) (b : Z) (p : list t_contexto_ejecucion) : list t_contexto_ejecucion :=
  alter (fun p => con_segmentos (alter (con_base b) j (segmentos p)) p) i p.

(** The loop over the sorted entries; the final [cursor]. *)
Fixpoint compactar_bucle (es : list t_seg_entrada) (cursor : Z) : M Z :=
  match es with
  | [] => mret cursor
  | e :: es =>
      ps ← st_gets procesos;
      match (p ← ps !! e_proc e; segmentos p !! e_seg e) with
      | None => st_abort
      | Some seg =>
          let old_base := s_base seg in
          _ ← (if negb (old_base =? cursor) then
                 datos ← memory_io_leer (e_pid e) old_base (s_limite seg);
                 _ ← match datos with
                     | Some datos => memory_io_escribir (e_pid e) cursor (s_limite seg) datos
                     | None => mret 0
                     end;
                 st_mod (fun m => con_procesos (mover (e_proc e) (e_seg e) cursor (procesos m)) m)
               else mret tt);
          compactar_bucle es (cursor +u s_limite seg)%u32
      end
  end.

Definition compactar_memoria : M unit :=
  ps ← st_gets procesos;
  let total_segs := fold_left (fun n p => n + length (segmentos p))%nat ps O in
  if (total_segs =? 0)%nat then mret tt
  else
    let es := entradas 0 ps in
    if (length es =? 0)%nat then
      ram ← st_gets (fun m => conexiones_tamanio_total_ram (m_conexiones m));
      st_mod (con_libres (bloques_reset_a_unico 0 ram))
    else
      cursor ← compactar_bucle (merge_sort comparar_seg_por_base es) 0;
      total_ram ← st_gets (fun m => conexiones_tamanio_total_ram (m_conexiones m));
      st_mod (con_libres (bloques_reset_a_unico cursor
                            (if total_ram >? cursor then (total_ram -u cursor)%u32 else 0))).

(** ** Residents *)

Definition bloque_de (s : t_segmento) : t_bloque_libre := Bloque (s_base s) (s_limite s).
Definition residentes_seg (l : list t_segmento) : list t_bloque_libre :=
  bloque_de <$> filter (fun s => s_base s <> NEG1) l.
(** The ranges of RAM that the processes occupy. *)
Definition residentes (ps : list t_contexto_ejecucion) : list t_bloque_libre :=
  ps ≫= (fun p => residentes_seg (segmentos p)).

Lemma residentes_seg_cons s l :
  residentes_seg (s :: l) =
  (if s_base s =? NEG1 then [] else [bloque_de s]) ++ residentes_seg l.
Proof.
  unfold residentes_seg. rewrite filter_cons. destruct (Z.eqb_spec (s_base s) NEG1) as [E|E].
  - by rewrite decide_False by tauto.
  - by rewrite decide_True by done.
Qed.

Lemma entradas_seg_residentes i j q l :
  bloque_de ∘ e_s <$> entradas_seg i j q l = residentes_seg l.
Proof.
  revert j. induction l as [|s l IH]; intros j; [done|].
  rewrite residentes_seg_cons. cbn. destruct (s_base s =? NEG1); [apply IH|].
  cbn. f_equal. apply IH.
Qed.

Lemma entradas_residentes i ps : bloque_de ∘ e_s <$> entradas i ps = residentes ps.
Proof.
  revert i. induction ps as [|p ps IH]; intros i; [done|].
  cbn [entradas]. rewrite fmap_app, entradas_seg_residentes, IH. done.
Qed.

Lemma elem_of_entradas_seg i j q l e :
  e ∈ entradas_seg i j q l <->
  e_proc e = i /\ e_pid e = q /\ s_base (e_s e) <> NEG1 /\
  exists k, e_seg e = (j + k)%nat /\ l !! k = Some (e_s e).
Proof.
  revert j. induction l as [|s l IH]; intros j.
  - cbn. rewrite elem_of_nil. split; [done|]. intros (_ & _ & _ & k & _ & H). done.
  - cbn [entradas_seg]. split.
    + intros H. destruct (Z.eqb_spec (s_base s) NEG1) as [E|E].
      * apply IH in H as (? & ? & ? & k & Hk & Hl). split_and!; [done..|].
        exists (S k). split; [lia|done].
      * apply elem_of_cons in H as [->|H].
        -- cbn. split_and!; [done..|]. exists O. split; [lia|done].
        -- apply IH in H as (? & ? & ? & k & Hk & Hl). split_and!; [done..|].
           exists (S k). split; [lia|done].
    + intros (Hp & Hq & Hb & [|k] & Hk & Hl).
      * cbn in Hl. injection Hl as ->. destruct (Z.eqb_spec (s_base (e_s e)) NEG1); [done|].
        apply elem_of_cons. left. destruct e; cbn in *. f_equal; [done|lia|done].
      * assert (e ∈ entradas_seg i (S j) q l).
        { apply IH. split_and!; [done..|]. exists k. split; [lia|done]. }
        destruct (s_base s =? NEG1); [done|]. by right.
Qed.

Lemma elem_of_entradas i ps e :
  e ∈ entradas i ps <->
  s_base (e_s e) <> NEG1 /\
  exists k p, e_proc e = (i + k)%nat /\ ps !! k = Some p /\ e_pid e = pid p /\
    segmentos p !! e_seg e = Some (e_s e).
Proof.
  revert i. induction ps as [|p ps IH]; intros i; cbn [entradas].
  - rewrite elem_of_nil. split; [done|]. intros (_ & k & p & _ & H & _). done.
  - rewrite elem_of_app, elem_of_entradas_seg, IH. split.
    + intros [(Hp & Hq & Hb & k & Hk & Hl)|(Hb & k & p' & Hk & Hl & H)].
      * split; [done|]. exists O, p. split; [lia|]. split; [done|]. split; [done|]. by rewrite Hk.
      * split; [done|]. exists (S k), p'. split; [lia|done].
    + intros (Hb & [|k] & p' & Hk & Hl & Hq & Hs).
      * left. cbn in Hl. injection Hl as ->. split; [lia|]. split; [done|]. split; [done|].
        exists (e_seg e). split; [done|done].
      * right. split; [done|]. exists k, p'. split; [lia|done].
Qed.

Definition clave (e : t_seg_entrada) : nat * nat := (e_proc e, e_seg e).

Lemma entradas_seg_NoDup i j q l : NoDup (clave <$> entradas_seg i j q l).
Proof.
  revert j. induction l as [|s l IH]; intros j; [constructor|].
  cbn. destruct (s_base s =? NEG1); [done|]. cbn. apply NoDup_cons. split; [|done].
  intros H. apply list_elem_of_fmap in H as (e & He & H).
  apply elem_of_entradas_seg in H as (_ & _ & _ & k & Hk & _). injection He as _ He. lia.
Qed.

Lemma entradas_NoDup i ps : NoDup (clave <$> entradas i ps).
Proof.
  revert i. induction ps as [|p ps IH]; intros i; [constructor|].
  cbn. rewrite fmap_app. apply NoDup_app. split; [apply entradas_seg_NoDup|]. split; [|apply IH].
  intros k H1 H2. apply list_elem_of_fmap in H1 as (e1 & -> & H1), H2 as (e2 & E & H2).
  apply elem_of_entradas_seg in H1 as (Hp & _). apply elem_of_entradas in H2 as (_ & n & ? & Hn & _).
  injection E as E _. lia.
Qed.

(** ** Giving new bases to the segments of a process list *)

Definition rebasar (f : nat -> nat -> option Z) (i j : nat) (s : t_segmento) : t_segmento :=
  match f i j with Some b => con_base b s | None => s end.
Definition reubicar (f : nat -> nat -> option Z) (ps : list t_contexto_ejecucion) : list t_contexto_ejecucion :=
  imap (fun i p => con_segmentos (imap (rebasar f i) (segmentos p)) p) ps.

Definition sola (i j : nat) (b : Z) : nat -> nat -> option Z :=
  fun i' j' => if decide (i' = i /\ j' = j) then Some b else None.
(** First [f], then [g] on top. *)
Definition luego (g f : nat -> nat -> option Z) : nat -> nat -> option Z :=
  fun i j => match g i j with Some b => Some b | None => f i j end.

Lemma proceso_eta p : con_segmentos (segmentos p) p = p.
Proof. by destruct p. Qed.

Lemma mover_reubicar i j b ps : mover i j b ps = reubicar (sola i j b) ps.
Proof.
  unfold mover, reubicar. apply list_eq. intros k. rewrite list_lookup_imap.
  destruct (decide (i = k)) as [->|Hne].
  - rewrite list_lookup_alter_eq. destruct (ps !! k) as [p|]; [|done]. cbn. f_equal. f_equal.
    apply list_eq. intros h. rewrite list_lookup_imap. unfold rebasar, sola.
    destruct (decide (j = h)) as [->|Hne].
    + rewrite list_lookup_alter_eq. destruct (segmentos p !! h); [|done]. cbn.
      by rewrite decide_True by done.
    + rewrite list_lookup_alter_ne by done. destruct (segmentos p !! h); [|done]. cbn.
      rewrite decide_False; [done|]. intros [_ E]. by subst.
  - rewrite list_lookup_alter_ne by done. destruct (ps !! k) as [p|]; [|done]. cbn. f_equal.
    etrans; [symmetry; apply proceso_eta|]. f_equal. apply list_eq. intros h. rewrite list_lookup_imap.
    unfold rebasar, sola. destruct (segmentos p !! h); [|done]. cbn.
    rewrite decide_False; [done|]. intros [E _]. by subst.
Qed.

Lemma reubicar_luego g f ps : reubicar g (reubicar f ps) = reubicar (luego g f) ps.
Proof.
  unfold reubicar. apply list_eq. intros i. rewrite !list_lookup_imap.
  destruct (ps !! i) as [p|]; [|done]. cbn. unfold con_segmentos. cbn. do 2 f_equal.
  apply list_eq. intros j. rewrite !list_lookup_imap. destruct (segmentos p !! j) as [s|]; [|done]. cbn.
  unfold rebasar, luego. by destruct (g i j), (f i j).
Qed.

Lemma reubicar_nada ps : reubicar (fun _ _ => None) ps = ps.
Proof.
  unfold reubicar. apply list_eq. intros i. rewrite list_lookup_imap.
  destruct (ps !! i) as [p|]; [|done]. cbn. f_equal. etrans; [|apply proceso_eta]. f_equal.
  apply list_eq. intros j. rewrite list_lookup_imap. by destruct (segmentos p !! j).
Qed.

Lemma reubicar_lookup f ps i p :
  ps !! i = Some p -> reubicar f ps !! i = Some (con_segmentos (imap (rebasar f i) (segmentos p)) p).
Proof. intros H. unfold reubicar. by rewrite list_lookup_imap, H. Qed.

(** The bases that the loop gives: each entry where the previous ones end. *)
Fixpoint bases_nuevas (cursor : Z) (es : list t_seg_entrada) : nat -> nat -> option Z :=
  match es with
  | [] => fun _ _ => None
  | e :: es => luego (bases_nuevas (cursor + s_limite (e_s e)) es) (sola (e_proc e) (e_seg e) cursor)
  end.

Lemma bases_nuevas_fuera cursor es i j :
  (i, j) ∉ (clave <$> es) -> bases_nuevas cursor es i j = None.
Proof.
  revert cursor. induction es as [|e es IH]; intros cursor H; [done|]. cbn in *.
  apply not_elem_of_cons in H as [Hne H]. unfold luego, sola. rewrite IH by done.
  rewrite decide_False; [done|]. intros [-> ->]. done.
Qed.

(** The new base of the [k]-th entry. *)
Lemma bases_nuevas_lookup cursor es k e :
  NoDup (clave <$> es) -> es !! k = Some e ->
  bases_nuevas cursor es (e_proc e) (e_seg e) =
  Some (cursor + suma_Z (s_limite ∘ e_s <$> take k es)).
Proof.
  revert cursor k. induction es as [|e' es IH]; intros cursor k Hnd Hk; [done|].
  cbn in Hnd. apply NoDup_cons in Hnd as [Hn Hnd]. cbn. unfold luego. destruct k as [|k].
  - injection Hk as ->. rewrite bases_nuevas_fuera by done. unfold sola.
    rewrite decide_True by done. cbn. f_equal. lia.
  - cbn in Hk. rewrite (IH _ k Hnd Hk). cbn. f_equal. lia.
Qed.

(** ** The loop moves the contents *)

(** The entries, from [cursor] on, can be moved down in this order. *)
Fixpoint acomodable (lim cursor : Z) (ss : list t_segmento) : Prop :=
  match ss with
  | [] => True
  | s :: ss =>
      0 <= s_base s /\ 0 <= s_limite s /\ s_base s + s_limite s <= lim /\
      cursor + s_limite s <= lim /\ (0 < s_limite s -> cursor <= s_base s) /\
      Forall (fun t => 0 < s_limite s -> 0 < s_limite t -> s_base s + s_limite s <= s_base t) ss /\
      acomodable lim (cursor + s_limite s) ss
  end.

Lemma acomodable_dentro lim cursor ss t :
  acomodable lim cursor ss -> t ∈ ss ->
  0 <= s_base t /\ 0 <= s_limite t /\ s_base t + s_limite t <= lim.
Proof.
  revert cursor. induction ss as [|u us IH]; intros c Hac Ht; [by apply elem_of_nil in Ht|].
  destruct Hac as (? & ? & ? & _ & _ & _ & Hac).
  apply elem_of_cons in Ht as [->|Ht]; [done|by apply (IH _ Hac Ht)].
Qed.

(** The entry is the segment it points to, in [ps]. *)
Definition apunta (ps : list t_contexto_ejecucion) (e : t_seg_entrada) : Prop :=
  (exists p, ps !! e_proc e = Some p /\ e_pid e = pid p /\ segmentos p !! e_seg e = Some (e_s e)) /\
  es_int (e_pid e).

Lemma apunta_reubicar f ps e :
  apunta ps e -> f (e_proc e) (e_seg e) = None -> apunta (reubicar f ps) e.
Proof.
  intros [(p & Hp & Hq & Hs) Hi] Hf. split; [|done].
  exists (con_segmentos (imap (rebasar f (e_proc e)) (segmentos p)) p).
  split; [by apply reubicar_lookup|]. split; [done|]. cbn. rewrite list_lookup_imap, Hs. cbn.
  unfold rebasar. by rewrite Hf.
Qed.

(** What a run may change: the processes and the sticks. *)
Definition misma_menos_procesos (m m' : memoria) : Prop :=
  misma_estructura (con_procesos [] m) (con_procesos [] m').

#[export] Instance misma_menos_preorder : PreOrder misma_menos_procesos.
Proof. unfold misma_menos_procesos. split; [by intros m|]. intros m1 m2 m3 H1 H2. by etrans. Qed.

Lemma misma_menos_de m m' : misma_estructura m m' -> misma_menos_procesos m m'.
Proof. intros [? ? ? ? ? ? ? ? ? ?]. by split. Qed.
Lemma misma_menos_con_procesos ps m : misma_menos_procesos m (con_procesos ps m).
Proof. done. Qed.

Lemma leer_buffer_nada ram d : 0 <= d -> d <= Z.of_nat (length ram) -> leer_buffer ram d 0 = Some [].
Proof. intros. unfold leer_buffer. destruct (Z.leb_spec (d + 0) (Z.of_nat (length ram))); [done|lia]. Qed.

Lemma escribir_buffer_nada ram d ram' : 0 <= d -> escribir_buffer ram d [] = Some ram' -> ram' = ram.
Proof.
  intros Hd. unfold escribir_buffer. destruct (_ <=? _); [|done]. intros [= <-].
  cbn [length app]. rewrite Nat.add_0_r. apply take_drop.
Qed.

(** One entry: its bytes are copied to [cursor]. *)
Lemma compactar_entrada m ram q base lim cursor :
  ram_es m ram -> es_int q -> 0 <= base -> 0 <= lim -> base + lim <= Z.of_nat (length ram) ->
  0 <= cursor -> cursor + lim <= Z.of_nat (length ram) ->
  exists m' ram' d, memory_io_leer q base lim m = Some (Some d, m) /\
    leer_buffer ram base lim = Some d /\ Z.of_nat (length d) = lim /\
    memory_io_escribir q cursor lim d m = Some (0, m') /\
    escribir_buffer ram cursor d = Some ram' /\ ram_es m' ram' /\ misma_estructura m m'.
Proof.
  intros Hr Hq Hb Hl Hbl Hc Hcl.
  assert (exists d, leer_buffer ram base lim = Some d) as [d Hd].
  { unfold leer_buffer. destruct (Z.leb_spec (base + lim) (Z.of_nat (length ram))); [by eexists|lia]. }
  pose proof (length_leer_buffer ram base lim d Hb Hl Hd) as Hdl.
  destruct (acceso_escribir m ram q cursor d Hr Hq Hc) as (m' & ram' & E & Hw & Hr' & Hme); [lia|].
  exists m', ram', d. rewrite (acceso_leer m ram q base lim Hr Hq Hb Hl Hbl), Hd.
  split; [done|]. split; [done|]. split; [done|]. rewrite <-Hdl. done.
Qed.

(** The contents after the loop: the [k]-th entry's bytes are at its new base. *)
Fixpoint trasladado (ram ram' : list byte) (cursor : Z) (ss : list t_segmento) : Prop :=
  match ss with
  | [] => True
  | s :: ss =>
      leer_buffer ram' cursor (s_limite s) = leer_buffer ram (s_base s) (s_limite s) /\
      trasladado ram ram' (cursor + s_limite s) ss
  end.

Lemma trasladado_origen ram1 ram2 ram' cursor ss :
  Forall (fun s => leer_buffer ram2 (s_base s) (s_limite s) = leer_buffer ram1 (s_base s) (s_limite s)) ss ->
  trasladado ram2 ram' cursor ss -> trasladado ram1 ram' cursor ss.
Proof.
  revert cursor. induction ss as [|s ss IH]; intros cursor H; [done|].
  apply Forall_cons in H as [H1 H2]. cbn. intros [E Ht]. split; [congruence|by apply IH].
Qed.

(** One entry: its segment goes down to the cursor, and nothing else moves. *)
Lemma compactar_paso e es m ram cursor :
  ram_es m ram -> apunta (procesos m) e ->
  let s := e_s e in
  0 <= cursor -> 0 <= s_base s -> 0 <= s_limite s -> s_base s + s_limite s <= Z.of_nat (length ram) ->
  cursor + s_limite s <= Z.of_nat (length ram) ->
  exists m1 ram1,
    compactar_bucle (e :: es) cursor m = compactar_bucle es (cursor + s_limite s) m1 /\
    ram_es m1 ram1 /\ length ram1 = length ram /\ misma_menos_procesos m m1 /\
    procesos m1 = reubicar (sola (e_proc e) (e_seg e) cursor) (procesos m) /\
    leer_buffer ram1 cursor (s_limite s) = leer_buffer ram (s_base s) (s_limite s) /\
    (forall d t, 0 <= d -> 0 <= t -> s_limite s = 0 \/ disjuntos cursor (s_limite s) d t ->
       leer_buffer ram1 d t = leer_buffer ram d t).
Proof.
  intros Hr [(p & Hp & Hq & Hs) Hi] s Hcur Hb Hl Hbl Hcl. fold s in Hs. destruct (acceso_tamanio m ram Hr) as [_ Hmax].
  cbn [compactar_bucle]. unfold mbind at 1, ST_bind at 1, st_gets at 1.
  rewrite Hp. cbn [mbind option_bind]. rewrite Hs. fold s.
  destruct (Z.eqb_spec (s_base s) cursor) as [Ec|Ec]; cbn [negb].
  - exists m, ram. unfold mbind, ST_bind, mret, ST_ret. rewrite add32_small by lia.
    split; [done|]. split; [done|]. split; [done|]. split; [done|]. split; [|by rewrite Ec].
    rewrite <-mover_reubicar. unfold mover. symmetry. rewrite <-Ec. apply list_eq. intros k.
    destruct (decide (e_proc e = k)) as [<-|]; [|by rewrite list_lookup_alter_ne].
    rewrite list_lookup_alter_eq, Hp. cbn. f_equal. etrans; [|apply proceso_eta]. f_equal.
    apply list_eq. intros h. destruct (decide (e_seg e = h)) as [<-|]; [|by rewrite list_lookup_alter_ne].
    rewrite list_lookup_alter_eq, Hs. cbn. f_equal. unfold s. by destruct (e_s e).
  - destruct (compactar_entrada m ram (e_pid e) (s_base s) (s_limite s) cursor)
      as (m1 & ram1 & d & E1 & Hd & Hdl & E2 & Hw & Hr1 & Hme1); [done|done|lia..|].
    exists (con_procesos (mover (e_proc e) (e_seg e) cursor (procesos m1)) m1), ram1.
    unfold mbind, ST_bind. rewrite E1, E2. unfold st_mod. rewrite add32_small by lia.
    split; [done|]. split; [by apply (acceso_estable m1)|].
    split; [by apply (length_escribir_buffer ram cursor d); [lia|]|].
    split; [etrans; [by apply misma_menos_de|done]|].
    split; [cbn; by rewrite mover_reubicar, (me_procesos _ _ Hme1)|].
    split; [rewrite <-Hdl at 1; rewrite (leer_escribir ram cursor d ram1); [done|lia|done]|].
    intros d0 t H1 H2 [H3|H3].
    + destruct d; [|cbn in Hdl; lia]. by rewrite (escribir_buffer_nada ram cursor ram1) by (lia || done).
    + apply (leer_escribir_disjunto ram cursor d); [lia..|by rewrite Hdl|done].
Qed.

Lemma compactar_bucle_ok es : forall m ram cursor,
  ram_es m ram -> NoDup (clave <$> es) -> Forall (apunta (procesos m)) es ->
  0 <= cursor <= Z.of_nat (length ram) -> acomodable (Z.of_nat (length ram)) cursor (e_s <$> es) ->
  exists m' ram', compactar_bucle es cursor m =
      Some (cursor + suma_Z (s_limite ∘ e_s <$> es), m') /\
    ram_es m' ram' /\ length ram' = length ram /\ misma_menos_procesos m m' /\
    procesos m' = reubicar (bases_nuevas cursor es) (procesos m) /\
    (forall d t, 0 <= d -> 0 <= t -> d + t <= cursor -> leer_buffer ram' d t = leer_buffer ram d t) /\
    trasladado ram ram' cursor (e_s <$> es).
Proof.
  induction es as [|e es IH]; intros m ram cursor Hr Hnd Hap Hcur Hac.
  { exists m, ram. cbn. rewrite Z.add_0_r, reubicar_nada. by split_and!. }
  cbn in Hnd, Hac. apply NoDup_cons in Hnd as [Hn Hnd]. apply Forall_cons in Hap as [Hap1 Hap].
  destruct Hap1 as [(p & Hp & Hq & Hs) Hi]. destruct Hac as (Hb & Hl & Hbl & Hcl & Hcb & Hsep & Hac).
  set (s := e_s e) in *.
  destruct (acceso_tamanio m ram Hr) as [_ Hmax].
  destruct (compactar_paso e es m ram cursor Hr) as (m1 & ram1 & Estep & Hr1 & Hl1 & Hme1 & Hps1 & Hc1 & Hdis1);
    [split; [by exists p|done]|fold s; lia..|]. fold s in Estep, Hps1, Hc1, Hdis1.
  destruct (IH m1 ram1 (cursor + s_limite s) Hr1 Hnd) as (m2 & ram2 & E2 & Hr2 & Hl2 & Hme2 & Hps2 & Hbajo & Htr).
  { rewrite Hps1. rewrite Forall_forall in *. intros e' He'. apply apunta_reubicar; [by apply Hap|].
    unfold sola. rewrite decide_False; [done|]. intros [E1 E2]. apply Hn.
    apply list_elem_of_fmap. exists e'. split; [|done]. unfold clave. by rewrite E1, E2. }
  { rewrite Hl1. lia. }
  { by rewrite Hl1. }
  exists m2, ram2. rewrite Estep, E2. cbn [fmap list_fmap suma_Z compose].
  split; [fold s; do 2 f_equal; unfold fmap; lia|]. split; [done|]. split; [congruence|]. split; [by etrans|].
  split; [by rewrite Hps2, Hps1, reubicar_luego|]. split.
  - intros d t Hd Ht Hdt. rewrite Hbajo by lia. apply Hdis1; [done..|]. right. unfold disjuntos. lia.
  - cbn [trasladado]. fold s. split.
    + rewrite Hbajo by lia. done.
    + apply (trasladado_origen ram ram1); [|done]. rewrite Forall_forall in *. intros t Ht.
      destruct (acomodable_dentro _ _ _ t Hac Ht) as (Ht1 & Ht2 & Ht3).
      destruct (decide (s_limite t = 0)) as [E0|E0].
      { rewrite E0, !leer_buffer_nada; [done|lia..]. }
      apply Hdis1; [done..|]. destruct (decide (s_limite s = 0)) as [E1|E1]; [by left|right].
      specialize (Hsep t Ht). unfold disjuntos. lia.
Qed.

(** ** The sorted entries can be moved down *)

Lemma por_pares_elem {A} (R : A -> A -> Prop) l1 l2 x y :
  por_pares R (l1 ++ l2) -> x ∈ l1 -> y ∈ l2 -> R x y.
Proof.
  rewrite por_pares_app. intros (_ & _ & H) Hx Hy.
  rewrite Forall_forall in H. specialize (H x Hx). rewrite Forall_forall in H. by apply H.
Qed.

Lemma ordenados_acomodables lim hechos ss :
  0 <= lim -> bloques_ok lim (bloque_de <$> (hechos ++ ss)) ->
  StronglySorted (fun a b => s_base a <= s_base b) (hechos ++ ss) ->
  acomodable lim (total (bloque_de <$> hechos)) ss.
Proof.
  intros Hlim. revert hechos. induction ss as [|s ss IH]; intros hechos Hok Hs; [done|].
  pose proof Hok as [Hr Hd]. rewrite fmap_app in Hr, Hd. apply Forall_app in Hr as [Hr1 Hr2].
  cbn in Hr2. apply Forall_cons in Hr2 as [Hrs Hr2].
  assert (Hbs : 0 <= s_base s /\ 0 <= s_limite s /\ s_base s + s_limite s <= lim /\ lim < NEG1)
    by (unfold bloque_en, bloque_de in Hrs; cbn in Hrs; lia).
  assert (Hord : forall h, h ∈ hechos -> s_base h <= s_base s).
  { intros h Hh. apply (StronglySorted_app_1_elem_of (fun a b => s_base a <= s_base b) hechos (s :: ss));
      [done|done|left]. }
  assert (Hord2 : forall t, t ∈ ss -> s_base s <= s_base t).
  { apply StronglySorted_app_1_r in Hs. apply StronglySorted_inv in Hs as [_ Hs].
    rewrite Forall_forall in Hs. done. }
  cbn. split; [lia|]. split; [lia|]. split; [lia|]. split; [|split; [|split]].
  - pose proof (total_bound lim _ Hok Hlim) as Ht. unfold total in *.
    rewrite fmap_app, fmap_app, suma_Z_app in Ht. cbn in Ht.
    assert (0 <= suma_Z (b_tam <$> (bloque_de <$> ss))); [|unfold fmap in *; lia].
    apply suma_Z_nonneg, Forall_fmap. eapply Forall_impl; [exact Hr2|]. unfold bloque_en. cbn. lia.
  - intros Hpos. apply (total_bound (s_base s)); [|lia]. split.
    + rewrite Forall_forall in *. intros b Hb. pose proof (Hr1 b Hb) as Hrb.
      apply list_elem_of_fmap in Hb as (h & -> & Hh). pose proof (Hord h Hh).
      assert (Haj : ajenos (bloque_de h) (bloque_de s)).
      { apply (por_pares_elem _ _ _ _ _ Hd); [by apply list_elem_of_fmap_2|left]. }
      unfold bloque_en, ajenos, disjuntos, bloque_de in *. cbn in *. lia.
    + by apply por_pares_app in Hd as [Hd _].
  - rewrite Forall_forall. intros t Ht Hps Hpt. pose proof (Hord2 t Ht).
    apply por_pares_app in Hd as (_ & Hd & _). cbn in Hd. destruct Hd as [Hd _].
    rewrite Forall_forall in Hd. specialize (Hd (bloque_de t) ltac:(by apply list_elem_of_fmap_2)).
    unfold ajenos, disjuntos, bloque_de in Hd. cbn in Hd. lia.
  - replace (total (bloque_de <$> hechos) + s_limite s) with (total (bloque_de <$> (hechos ++ [s]))).
    + apply IH; by rewrite <-app_assoc.
    + unfold total. rewrite !fmap_app, suma_Z_app. cbn. lia.
Qed.

(** ** The blocks after the loop *)

Fixpoint apilados (cursor : Z) (ss : list t_segmento) : list t_bloque_libre :=
  match ss with
  | [] => []
  | s :: ss => Bloque cursor (s_limite s) :: apilados (cursor + s_limite s) ss
  end.

Lemma apilados_ok lim cursor ss :
  0 <= cursor -> Forall (fun s => 0 <= s_limite s) ss ->
  cursor + suma_Z (s_limite <$> ss) <= lim -> lim < NEG1 ->
  bloques_ok lim (apilados cursor ss) /\
  Forall (fun b => cursor <= b_base b /\ b_base b + b_tam b <= cursor + suma_Z (s_limite <$> ss))
    (apilados cursor ss).
Proof.
  revert cursor. induction ss as [|s ss IH]; intros cursor Hc Hn Hs Hlim; [by split; [split|]|].
  apply Forall_cons in Hn as [Hn1 Hn2]. cbn in Hs.
  assert (0 <= suma_Z (s_limite <$> ss)) by by apply suma_Z_nonneg, Forall_fmap.
  destruct (IH (cursor + s_limite s)) as [[Hr Hd] Hb]; [lia|done|unfold fmap in *; lia|done|].
  split; [split|].
  - cbn. apply Forall_cons. split; [unfold bloque_en; cbn; unfold fmap in *; lia|done].
  - cbn. split; [|done]. eapply Forall_impl; [exact Hb|]. intros b [Hb1 Hb2].
    unfold ajenos, disjuntos. cbn. lia.
  - cbn. apply Forall_cons. split; [cbn; unfold fmap in *; lia|]. eapply Forall_impl; [exact Hb|].
    cbn. intros b. unfold fmap in *. lia.
Qed.

Lemma apilados_total cursor ss : total (apilados cursor ss) = suma_Z (s_limite <$> ss).
Proof.
  revert cursor. induction ss as [|s ss IH]; intros cursor; [done|].
  cbn [apilados]. rewrite total_cons, IH. done.
Qed.

(** The segment of an entry under its new base. *)
Definition nueva (f : nat -> nat -> option Z) (e : t_seg_entrada) : t_seg_entrada :=
  Entrada (e_proc e) (e_seg e) (e_pid e) (rebasar f (e_proc e) (e_seg e) (e_s e)).

Lemma entradas_seg_reubicar f i j q l :
  (forall k, f i k <> Some NEG1) ->
  (forall k s, l !! k = Some s -> s_base s = NEG1 -> f i (j + k)%nat = None) ->
  entradas_seg i j q (imap (fun k => rebasar f i (j + k)) l) = nueva f <$> entradas_seg i j q l.
Proof.
  intros Hne. revert j. induction l as [|s l IH]; intros j Hf; [done|]. cbn [imap entradas_seg].
  rewrite Nat.add_0_r.
  assert (E : imap ((fun k => rebasar f i (j + k)) ∘ S) l = imap (fun k => rebasar f i (S j + k)) l).
  { apply imap_ext. intros k x _. cbn. by rewrite Nat.add_succ_r. }
  rewrite E, IH.
  2: { intros k s' Hk Hs'. replace (S j + k)%nat with (j + S k)%nat by lia. by apply (Hf (S k) s'). }
  destruct (Z.eqb_spec (s_base s) NEG1) as [Hb|Hb].
  - assert (Hf0 : f i j = None) by (rewrite <-(Nat.add_0_r j); by apply (Hf O s)).
    unfold rebasar. rewrite Hf0. by destruct (Z.eqb_spec (s_base s) NEG1).
  - assert (Hr : s_base (rebasar f i j s) <> NEG1).
    { unfold rebasar. specialize (Hne j). destruct (f i j); [cbn; congruence|done]. }
    by destruct (Z.eqb_spec (s_base (rebasar f i j s)) NEG1).
Qed.

Lemma entradas_reubicar f ps :
  (forall i k, f i k <> Some NEG1) ->
  (forall i j p s, ps !! i = Some p -> segmentos p !! j = Some s -> s_base s = NEG1 -> f i j = None) ->
  entradas 0 (reubicar f ps) = nueva f <$> entradas 0 ps.
Proof.
  intros Hne Hf. unfold reubicar.
  assert (H : forall n, (forall i j p s, ps !! i = Some p -> segmentos p !! j = Some s ->
      s_base s = NEG1 -> f (n + i)%nat j = None) ->
    entradas n (imap (fun i p => con_segmentos (imap (rebasar f (n + i)) (segmentos p)) p) ps) =
    nueva f <$> entradas n ps).
  { clear Hf. induction ps as [|p ps IH]; intros n Hf; [done|]. cbn [imap entradas].
    rewrite Nat.add_0_r, fmap_app. f_equal.
    - cbn [segmentos pid con_segmentos]. apply (entradas_seg_reubicar f n 0); [done|].
      intros k s Hk Hs. rewrite <-(Nat.add_0_r n). by apply (Hf O k p s).
    - rewrite <-IH.
      + f_equal. apply imap_ext. intros k x _. cbn. by rewrite Nat.add_succ_r.
      + intros i j p' s Hi Hj Hs. replace (S n + i)%nat with (n + S i)%nat by lia. by apply (Hf (S i) j p' s). }
  apply (H O). exact Hf.
Qed.

Lemma nuevas_apiladas cursor es :
  NoDup (clave <$> es) ->
  (bloque_de ∘ e_s ∘ nueva (bases_nuevas cursor es)) <$> es = apilados cursor (e_s <$> es).
Proof.
  intros Hnd. apply list_eq. intros k. rewrite list_lookup_fmap.
  assert (H : forall c ss, apilados c ss !! k =
    (fun s => Bloque (c + suma_Z (s_limite <$> take k ss)) (s_limite s)) <$> ss !! k).
  { clear. induction k as [|k IH]; intros c [|s ss]; [done| |done|].
    - cbn. f_equal. f_equal. lia.
    - cbn. rewrite IH. destruct (ss !! k); [|done]. cbn. f_equal. f_equal. unfold fmap. lia. }
  rewrite H, list_lookup_fmap. destruct (es !! k) as [e|] eqn:E; [|done]. cbn. f_equal.
  unfold rebasar. rewrite (bases_nuevas_lookup cursor es k e Hnd E). unfold bloque_de. cbn.
  by rewrite <-fmap_take, <-list_fmap_compose.
Qed.

(** ** What compaction leaves *)

(** Every segment [(i, j)] of [m] in [m']: its new base, given by [f], and its
    bytes, those it had. *)
Definition contenidos_conservados (f : nat -> nat -> option Z) (ps : list t_contexto_ejecucion)
    (ram ram' : list byte) : Prop :=
  forall i j p s, ps !! i = Some p -> segmentos p !! j = Some s ->
    if decide (s_base s = NEG1) then f i j = None
    else exists b, f i j = Some b /\ 0 <= b /\ b + s_limite s <= total (residentes ps) /\
         leer_buffer ram' b (s_limite s) = leer_buffer ram (s_base s) (s_limite s).

Record memoria_sana (m : memoria) (ram : list byte) : Prop := {
  ms_ram : ram_es m ram;
  ms_pids : Forall (fun p => es_int (pid p)) (procesos m);
  ms_residentes : bloques_ok (Z.of_nat (length ram)) (residentes (procesos m)) }.

(** A segment after a move: the same but for its base, with the same bytes. *)
Definition mismo_contenido (ram ram' : list byte) (s s' : t_segmento) : Prop :=
  s_id s' = s_id s /\ s_limite s' = s_limite s /\ swap_bloque_inicio s' = swap_bloque_inicio s /\
  (s_base s = NEG1 <-> s_base s' = NEG1) /\
  (s_base s <> NEG1 ->
     leer_buffer ram' (s_base s') (s_limite s) = leer_buffer ram (s_base s) (s_limite s)).

(** The processes after their segments were moved. *)
Definition conserva (ram ram' : list byte) (ps ps' : list t_contexto_ejecucion) : Prop :=
  Forall2 (fun p p' => pid p' = pid p /\ registros p' = registros p /\ instrucciones p' = instrucciones p /\
     Forall2 (mismo_contenido ram ram') (segmentos p) (segmentos p')) ps ps'.

Lemma conserva_refl ram ps : conserva ram ram ps ps.
Proof.
  apply Forall_Forall2_diag, Forall_forall. intros p _. do 3 (split; [done|]).
  apply Forall_Forall2_diag, Forall_forall. intros s _. by repeat split.
Qed.

Lemma contenidos_conserva f ps ram ram' :
  Forall (fun b => 0 <= b_base b /\ 0 <= b_tam b) (residentes ps) -> total (residentes ps) < NEG1 ->
  contenidos_conservados f ps ram ram' -> conserva ram ram' ps (reubicar f ps).
Proof.
  intros Hpos Hlt H. apply Forall2_same_length_lookup. split; [unfold reubicar; by rewrite length_imap|].
  intros i p p' Hi Hi'. rewrite (reubicar_lookup f ps i p Hi) in Hi'. injection Hi' as <-.
  do 3 (split; [done|]). apply Forall2_same_length_lookup. split; [by cbn; rewrite length_imap|].
  intros j s s' Hj Hj'. cbn in Hj'. rewrite list_lookup_imap, Hj in Hj'. injection Hj' as <-.
  specialize (H i j p s Hi Hj). unfold rebasar. destruct (decide (s_base s = NEG1)) as [Hb|Hb].
  - rewrite H. by repeat split.
  - destruct H as (b & -> & Hb0 & Hb1 & Hc).
    assert (Hin : bloque_de s ∈ residentes ps).
    { unfold residentes. apply list_elem_of_bind. exists p. split; [|by apply list_elem_of_lookup_2 in Hi].
      apply list_elem_of_fmap_2, list_elem_of_filter. split; [done|]. by apply list_elem_of_lookup_2 in Hj. }
    rewrite Forall_forall in Hpos. specialize (Hpos _ Hin). cbn in Hpos.
    split_and!; cbn; [done..| |done]. split; [done|]. intros ->. lia.
Qed.

Lemma trasladado_lookup ram ram' cursor ss k s :
  trasladado ram ram' cursor ss -> ss !! k = Some s ->
  leer_buffer ram' (cursor + suma_Z (s_limite <$> take k ss)) (s_limite s) =
  leer_buffer ram (s_base s) (s_limite s).
Proof.
  revert cursor k. induction ss as [|t ss IH]; intros cursor [|k]; cbn; [done|done| |].
  - intros [E _] [= ->]. by rewrite Z.add_0_r.
  - intros [_ H] Hk. rewrite <-(IH _ k H Hk). f_equal. unfold fmap. lia.
Qed.

Lemma suma_take_le l k x :
  Forall (fun z => 0 <= z) l -> l !! k = Some x -> 0 <= suma_Z (take k l) /\ suma_Z (take k l) + x <= suma_Z l.
Proof.
  intros Hl Hk. rewrite <-(take_drop_middle l k x Hk) at 3. rewrite suma_Z_app. cbn [suma_Z].
  assert (0 <= suma_Z (take k l)) by by apply suma_Z_nonneg, Forall_take.
  assert (0 <= suma_Z (drop (S k) l)) by by apply suma_Z_nonneg, Forall_drop. lia.
Qed.

Lemma elem_of_entradas_0 ps i j p s :
  ps !! i = Some p -> segmentos p !! j = Some s -> s_base s <> NEG1 ->
  Entrada i j (pid p) s ∈ entradas 0 ps.
Proof.
  intros Hi Hj Hb. apply elem_of_entradas. split; [done|]. by exists i, p.
Qed.

Lemma apunta_entradas ps e :
  Forall (fun p => es_int (pid p)) ps -> e ∈ entradas 0 ps -> apunta ps e.
Proof.
  intros Hp He. apply elem_of_entradas in He as (Hb & k & p & Hk & Hl & Hq & Hs). cbn in Hk.
  split; [exists p; rewrite Hk; done|]. rewrite Hq. exact (Forall_lookup_1 _ _ _ _ Hp Hl).
Qed.

(** The sorted entries of a sound memory. *)
Lemma entradas_ordenadas m ram :
  memoria_sana m ram ->
  let es := merge_sort comparar_seg_por_base (entradas 0 (procesos m)) in
  es ≡ₚ entradas 0 (procesos m) /\ NoDup (clave <$> es) /\ Forall (apunta (procesos m)) es /\
  acomodable (Z.of_nat (length ram)) 0 (e_s <$> es) /\
  Forall (fun s => 0 <= s_limite s) (e_s <$> es) /\
  suma_Z (s_limite <$> (e_s <$> es)) = total (residentes (procesos m)).
Proof.
  intros [Hr Hp Hok] es. assert (Hperm : es ≡ₚ entradas 0 (procesos m)) by apply merge_sort_Permutation.
  assert (Hbl : bloque_de <$> (e_s <$> es) ≡ₚ residentes (procesos m)).
  { rewrite <-list_fmap_compose, Hperm. by rewrite (entradas_residentes 0). }
  split; [done|]. split; [rewrite Hperm; apply entradas_NoDup|]. split.
  { rewrite Hperm. apply Forall_forall. intros e He. by apply apunta_entradas. }
  split; [|split].
  - apply (ordenados_acomodables _ [] (e_s <$> es)); [lia|by rewrite Hbl|].
    assert (Hs : StronglySorted comparar_seg_por_base es).
    { apply StronglySorted_merge_sort; [intros a b c; unfold comparar_seg_por_base; lia|].
      intros a b. unfold comparar_seg_por_base. lia. }
    clear - Hs. induction Hs as [|e es Hs IH Hf]; [constructor|]. cbn. constructor; [done|].
    apply Forall_fmap. eapply Forall_impl; [exact Hf|]. done.
  - destruct Hok as [Hr' _]. rewrite <-Hbl in Hr'.
    apply (Forall_fmap bloque_de) in Hr'. eapply Forall_impl; [exact Hr'|].
    intros s. unfold bloque_en, bloque_de. cbn. lia.
  - rewrite <-Hbl. unfold total. by rewrite <-(list_fmap_compose bloque_de b_tam).
Qed.

Lemma fold_segs_cero ps n :
  fold_left (fun n p => n + length (segmentos p))%nat ps n = (n + length (ps ≫= segmentos))%nat.
Proof.
  revert n. induction ps as [|p ps IH]; intros n; [cbn; lia|].
  cbn [fold_left]. rewrite IH, bind_cons, length_app. lia.
Qed.

Lemma ocupado_le_ram m ram : memoria_sana m ram ->
  0 <= total (residentes (procesos m)) <= Z.of_nat (length ram).
Proof.
  intros [_ _ Hok]. split; [by eapply total_le|]. apply total_bound; [done|lia].
Qed.

(** Where each entry goes. *)
Lemma base_nueva es ocupado k e :
  NoDup (clave <$> es) -> Forall (fun s => 0 <= s_limite s) (e_s <$> es) -> suma_Z (s_limite <$> (e_s <$> es)) = ocupado ->
  es !! k = Some e ->
  exists b, bases_nuevas 0 es (e_proc e) (e_seg e) = Some b /\
    b = suma_Z (s_limite <$> take k (e_s <$> es)) /\ 0 <= b /\ b + s_limite (e_s e) <= ocupado.
Proof.
  intros Hnd Hpos Hsum Hk. rewrite (bases_nuevas_lookup 0 es k e Hnd Hk).
  eexists. split; [done|]. rewrite <-fmap_take, <-list_fmap_compose. split; [cbn; done|].
  rewrite <-Hsum. destruct (suma_take_le (s_limite <$> (e_s <$> es)) k (s_limite (e_s e))) as [H1 H2].
  - by apply Forall_fmap.
  - by rewrite !list_lookup_fmap, Hk.
  - assert (Et : take k (s_limite <$> (e_s <$> es)) = s_limite ∘ e_s <$> take k es)
      by (by rewrite list_fmap_compose, !fmap_take).
    rewrite Et in H1, H2. lia.
Qed.

Lemma base_nueva_valida es ocupado i k :
  NoDup (clave <$> es) -> Forall (fun s => 0 <= s_limite s) (e_s <$> es) -> suma_Z (s_limite <$> (e_s <$> es)) = ocupado ->
  ocupado < NEG1 -> bases_nuevas 0 es i k <> Some NEG1.
Proof.
  intros Hnd Hpos Hsum Hoc E. destruct (decide ((i, k) ∈ clave <$> es)) as [H|H]; [|by rewrite bases_nuevas_fuera in E].
  apply list_elem_of_fmap in H as (e & He & H). apply list_elem_of_lookup in H as (n & Hn).
  destruct (base_nueva es ocupado n e Hnd Hpos Hsum Hn) as (b & Hb & _ & Hb0 & Hb1). injection He as -> ->.
  rewrite Hb in E. injection E as ->. pose proof (proj1 (Forall_forall _ _) Hpos (e_s e)) as Hp0.
  assert (Hin : e_s e ∈ e_s <$> es) by (apply list_elem_of_lookup_2 in Hn; by apply list_elem_of_fmap_2).
  specialize (Hp0 Hin). unfold NEG1 in *. lia.
Qed.

(** A segment in swap is not an entry. *)
Lemma en_swap_no_se_mueve ps es i j p s :
  es ≡ₚ entradas 0 ps -> ps !! i = Some p -> segmentos p !! j = Some s -> s_base s = NEG1 -> bases_nuevas 0 es i j = None.
Proof.
  intros Hperm Hi Hj Hs. apply bases_nuevas_fuera. intros H.
  apply list_elem_of_fmap in H as (e & He & H). rewrite Hperm in H.
  apply elem_of_entradas in H as (Hb & k & p' & Hk & Hl & _ & Hse). injection He as -> ->.
  cbn in Hk. subst k. rewrite Hl in Hi. simplify_eq.
Qed.

(** Both ways through the code end in the same state. *)
Lemma compactar_corre m ram :
  memoria_sana m ram -> procesos m ≫= segmentos <> [] ->
  let es := merge_sort comparar_seg_por_base (entradas 0 (procesos m)) in
  let ocupado := total (residentes (procesos m)) in
  let libre := Z.of_nat (length ram) - ocupado in
  exists m' ram', compactar_memoria m = Some (tt, con_libres (bloques_reset_a_unico ocupado libre) m') /\
    ram_es m' ram' /\ length ram' = length ram /\ misma_menos_procesos m m' /\
    procesos m' = reubicar (bases_nuevas 0 es) (procesos m) /\ trasladado ram ram' 0 (e_s <$> es).
Proof.
  intros Hm Hne es ocupado lib. pose proof (ocupado_le_ram m ram Hm) as Hoc. fold ocupado in Hoc.
  destruct (entradas_ordenadas m ram Hm) as (Hperm & Hnd & Hap & Hac & Hpos & Hsum). fold es ocupado in Hperm, Hnd, Hap, Hac, Hpos, Hsum.
  pose proof (ms_ram _ _ Hm) as Hr. destruct (acceso_tamanio m ram Hr) as [Htam Hmax].
  unfold compactar_memoria. unfold mbind, ST_bind, st_gets. rewrite fold_segs_cero. cbn [Nat.add].
  destruct (Nat.eqb_spec (length (procesos m ≫= segmentos)) 0) as [E|_]; [by destruct (procesos m ≫= segmentos)|].
  destruct (Nat.eqb_spec (length (entradas 0 (procesos m))) 0) as [E|E].
  - assert (Hnil : es = []).
    { destruct (entradas 0 (procesos m)) eqn:E'; [|done]. by apply Permutation_nil_r in Hperm. }
    exists m, ram. unfold st_mod. rewrite Htam. unfold lib. rewrite Hnil in *. cbn in Hsum.
    rewrite <-Hsum, Z.sub_0_r, reubicar_nada. by split_and!.
  - destruct (compactar_bucle_ok es m ram 0) as (m' & ram' & Eb & Hr' & Hl' & Hme & Hps & _ & Htr);
      [done|done|done|lia|done|].
    exists m', ram'. fold es. rewrite Eb. cbn [fmap] in *. unfold st_mod.
    assert (Ec : m_conexiones m' = m_conexiones m) by exact (me_conexiones _ _ Hme).
    rewrite Ec, Htam. rewrite list_fmap_compose, Hsum, Z.add_0_l.
    split; [|by split_and!]. do 3 f_equal. unfold lib. destruct (Z.gtb_spec (Z.of_nat (length ram)) ocupado).
    + by rewrite sub32_small by lia.
    + f_equal. lia.
Qed.

(** The segments one after the other, and the block that is left, share out the RAM. *)
Lemma apilados_con_resto lim ss :
  0 <= suma_Z (s_limite <$> ss) <= lim -> lim < NEG1 -> Forall (fun s => 0 <= s_limite s) ss ->
  bloques_ok lim (bloques_reset_a_unico (suma_Z (s_limite <$> ss)) (lim - suma_Z (s_limite <$> ss)) ++ apilados 0 ss).
Proof.
  intros Hs Hl Hpos. set (oc := suma_Z (s_limite <$> ss)) in *.
  destruct (apilados_ok oc 0 ss) as [[Hin Hd] Hb]; [lia|done|fold oc; lia|unfold NEG1 in *; lia|]. fold oc in Hb. split.
  - apply Forall_app. split.
    + unfold bloques_reset_a_unico. destruct (Z.gtb_spec (lim - oc) 0); [|constructor].
      apply Forall_cons. split; [|constructor]. unfold bloque_en, NEG1 in *. cbn. lia.
    + eapply Forall_impl; [exact Hin|]. unfold bloque_en, NEG1 in *. cbn. intros b. lia.
  - apply por_pares_app. split; [unfold bloques_reset_a_unico; by destruct (lim - oc >? 0)|]. split; [done|].
    unfold bloques_reset_a_unico. destruct (Z.gtb_spec (lim - oc) 0); [|constructor].
    apply Forall_cons. split; [|constructor]. eapply Forall_impl; [exact Hb|]. cbn. intros b Hbb.
    unfold ajenos, disjuntos. cbn. lia.
Qed.

(** The general lemma, for a memory with some segment. *)
Lemma compactar_memoria_ok m ram :
  memoria_sana m ram -> procesos m ≫= segmentos <> [] ->
  let ocupado := total (residentes (procesos m)) in
  let libre := Z.of_nat (length ram) - ocupado in
  exists m' ram' f, compactar_memoria m = Some (tt, m') /\
    ram_es m' ram' /\ length ram' = length ram /\
    misma_menos_procesos (con_libres [] m) (con_libres [] m') /\
    procesos m' = reubicar f (procesos m) /\
    contenidos_conservados f (procesos m) ram ram' /\
    bloques_libres m' = bloques_reset_a_unico ocupado libre /\
    bloques_ok (Z.of_nat (length ram)) (bloques_libres m' ++ residentes (procesos m')) /\
    total (residentes (procesos m')) = ocupado.
Proof.
  intros Hm Hne ocupado lib. pose proof (ocupado_le_ram m ram Hm) as Hoc. fold ocupado in Hoc.
  destruct (compactar_corre m ram Hm Hne) as (m1 & ram' & Erun & Hr1 & Hl1 & Hme1 & Hps1 & Htr). fold ocupado lib in Erun.
  destruct (entradas_ordenadas m ram Hm) as (Hperm & Hnd & Hap & Hac & Hpos & Hsum).
  destruct (acceso_tamanio m ram (ms_ram _ _ Hm)) as [_ Hmax].
  set (es := merge_sort comparar_seg_por_base (entradas 0 (procesos m))) in *. set (f := bases_nuevas 0 es) in *. fold ocupado in Hsum.
  assert (Hfne : forall i k, f i k <> Some NEG1).
  { intros i k. apply (base_nueva_valida es ocupado); [done..|]. unfold NEG1. lia. }
  assert (Hres : residentes (reubicar f (procesos m)) ≡ₚ apilados 0 (e_s <$> es)).
  { rewrite <-(entradas_residentes 0), entradas_reubicar.
    - rewrite <-list_fmap_compose, <-Hperm. unfold f. by rewrite <-(nuevas_apiladas 0 es Hnd).
    - done.
    - intros i j p s Hi Hj Hb. by apply (en_swap_no_se_mueve (procesos m) es i j p s). }
  exists (con_libres (bloques_reset_a_unico ocupado lib) m1), ram', f.
  split; [done|]. split; [by apply (acceso_estable m1)|]. split; [done|].
  split; [destruct Hme1; by split|]. split; [done|]. split; [|split; [done|]].
  - intros i j p s Hi Hj. destruct (decide (s_base s = NEG1)) as [Hb|Hb]; [by apply (en_swap_no_se_mueve (procesos m) es i j p s)|].
    pose proof (elem_of_entradas_0 _ i j p s Hi Hj Hb) as He. rewrite <-Hperm in He.
    apply list_elem_of_lookup in He as (k & Hk).
    destruct (base_nueva es ocupado k _ Hnd Hpos Hsum Hk) as (b & Efb & Hbs & Hb0 & Hb1).
    cbn [e_proc e_seg e_s] in *. exists b. split; [done|]. split; [done|]. split; [done|].
    rewrite Hbs. apply (trasladado_lookup ram ram' 0 (e_s <$> es) k s Htr). by rewrite list_lookup_fmap, Hk.
  - cbn [con_libres bloques_libres procesos]. rewrite Hps1, Hres. split; [|by rewrite apilados_total].
    unfold lib. rewrite <-Hsum. apply apilados_con_resto; [rewrite Hsum; lia|unfold NEG1; lia|done].
Qed.

(** The same in terms of [conserva]. *)
Lemma compactar_memoria_conserva m ram :
  memoria_sana m ram -> procesos m ≫= segmentos <> [] ->
  let ocupado := total (residentes (procesos m)) in
  exists m' ram', compactar_memoria m = Some (tt, m') /\
    ram_es m' ram' /\ length ram' = length ram /\
    misma_menos_procesos (con_libres [] m) (con_libres [] m') /\
    conserva ram ram' (procesos m) (procesos m') /\
    (exists f, procesos m' = reubicar f (procesos m)) /\
    bloques_libres m' = bloques_reset_a_unico ocupado (Z.of_nat (length ram) - ocupado) /\
    bloques_ok (Z.of_nat (length ram)) (bloques_libres m' ++ residentes (procesos m')) /\
    total (bloques_libres m' ++ residentes (procesos m')) = Z.of_nat (length ram) /\
    total (residentes (procesos m')) = ocupado.
Proof.
  intros Hm Hne ocupado. pose proof (ocupado_le_ram m ram Hm) as Hoc. fold ocupado in Hoc.
  destruct (compactar_memoria_ok m ram Hm Hne) as (m' & ram' & f & E & Hr & Hl & Hme & Hps & Hc & Hb & Hok & Ht).
  fold ocupado in Hb, Ht. exists m', ram'. do 4 (split; [done|]). split.
  { rewrite Hps. destruct Hm as [Hr0 _ [Hin _]]. destruct (acceso_tamanio m ram Hr0) as [_ Hmax].
    apply contenidos_conserva; [|fold ocupado; unfold NEG1; lia|done].
    eapply Forall_impl; [exact Hin|]. intros b. unfold bloque_en. lia. }
  split; [by exists f|]. do 2 (split; [done|]). split; [|done].
  unfold total in *. rewrite fmap_app, suma_Z_app, Ht, Hb.
  unfold bloques_reset_a_unico. destruct (Z.gtb_spec (Z.of_nat (length ram) - ocupado) 0); cbn; lia.
Qed.

(** ** Properties *)

(** C11: compaction loses nothing: every resident segment of every process keeps
    its bytes under its new base, segments in swap are not touched, the
    residents are packed at the bottom of the memory without overlapping, and
    the free table is exactly the rest of the RAM as one block. *)
Theorem compactar_memoria_correcta m ram :
  memoria_sana m ram -> procesos m ≫= segmentos <> [] ->
  let ocupado := total (residentes (procesos m)) in
  exists m' ram', compactar_memoria m = Some (tt, m') /\
    ram_es m' ram' /\ length ram' = length ram /\
    conserva ram ram' (procesos m) (procesos m') /\
    bloques_libres m' = bloques_reset_a_unico ocupado (Z.of_nat (length ram) - ocupado) /\
    bloques_ok (Z.of_nat (length ram)) (bloques_libres m' ++ residentes (procesos m')) /\
    total (bloques_libres m' ++ residentes (procesos m')) = Z.of_nat (length ram).
Proof.
  intros Hm Hne ocupado.
  destruct (compactar_memoria_conserva m ram Hm Hne)
    as (m' & ram' & E & Hr & Hl & _ & Hps & _ & Hb & Hok & Ht & _).
  exists m', ram'. by split_and!.
Qed.

(** Two processes with a segment each, at 2 and at 5, over the two sticks of
    [mem_ejemplo]. *)
Definition mem_fragmentada : memoria :=
  con_libres [Bloque 0 2; Bloque 4 1]
    (con_procesos [Proceso 1 registros_cero [Segmento 0 5 2 0] [];
                   Proceso 2 registros_cero [Segmento 0 2 2 0; Segmento 1 NEG1 9 0] []] mem_ejemplo).

Lemma mem_fragmentada_sana : memoria_sana mem_fragmentada [x01; x02; x03; x04; x05; x06; x07].
Proof.
  split.
  - by apply (acceso_estable mem_ejemplo); [apply mem_ejemplo_ok|..].
  - repeat constructor; cbn; lia.
  - change (residentes _) with [Bloque 5 2; Bloque 2 2]. bloques_ok_concreto.
Qed.

Lemma compactar_memoria_correcta_witness :
  exists m' ram', compactar_memoria mem_fragmentada = Some (tt, m') /\ ram_es m' ram' /\
    bloques_libres m' = [Bloque 4 3] /\
    conserva [x01; x02; x03; x04; x05; x06; x07] ram' (procesos mem_fragmentada) (procesos m').
Proof.
  destruct (compactar_memoria_correcta mem_fragmentada _ mem_fragmentada_sana)
    as (m' & ram' & E & Hr & _ & Hc & Hb & _); [vm_compute; congruence|].
  exists m', ram'. split; [exact E|]. split; [exact Hr|]. split; [exact Hb|exact Hc].
Defined.

(** What the run gives, in numbers. *)
Example compactar_ejemplo :
  option_map (fun r => (procesos r.2, m_red r.2 !! 5, m_red r.2 !! 7)) (compactar_memoria mem_fragmentada) =
  Some ([Proceso 1 registros_cero [Segmento 0 2 2 0] [];
         Proceso 2 registros_cero [Segmento 0 0 2 0; Segmento 1 NEG1 9 0] []],
        Some (Vivo (Stick [x03; x04; x06; x07] 4)), Some (Vivo (Stick [x05; x06; x07] 3))).
Proof. vm_compute. reflexivity. Qed.
