(* ===== verification/MemScheduler.v ===== *)
(** * MemScheduler: what Kernel Memory does for the Scheduler

    Models [kernel_memory/src/memory_scheduler.c]: the registration of the
    scheduler, the receiver thread and its ten handlers. Each handler is the run
    of one request, from its bytes on the socket to the answer: the mutex is
    held or given back inside it as in the code, and no other thread moves in
    between. A pointer to a process or a segment is its position. *)

From S2P Require Import Prelude Bloques Wire Buffer Tipos Mensajes Texto Conexiones Stick Swap Memoria MemoryIO MemSwap Procesos Compactacion.

(** ** Helpers *)

(** [if (!recv_campo(...)) return;] *)
Definition si_recibe {A} (campo : M (option A)) (k : A -> M unit) : M unit :=
  r ← campo; match r with Some a => k a | None => mret tt end.

Definition campo_int (socket : Z) : M (option Z) :=
  r ← recv_campo socket 4; mret ((fun bs => i32 (le_dec bs)) <$> r).
Definition campo_u32 (socket : Z) : M (option Z) :=
  r ← recv_campo socket 4; mret (le_dec <$> r).

Definition notificar_memoria_liberada : M unit :=
  sched_sock ← st_gets (fun m => conexiones_get_scheduler_socket (m_conexiones m));
  if sched_sock >=? 0 then enviar sched_sock enviar_memoria_liberada else mret tt.

(** The operations of [memory_bloques.c] on the state. *)
Definition asignar (tamanio : Z) : M Z :=
  m ← st_get;
  let '(base, l) := bloques_asignar (es_worst_fit (allocation_strategy (config_memory m)))
                      (bloques_libres m) tamanio in
  _ ← st_put (con_libres l m); mret base.
Definition liberar (base tamanio : Z) : M unit :=
  st_mod (fun m => con_libres (bloques_liberar (bloques_libres m) base tamanio) m).

(** A field of a segment, through its pointer. *)
Definition modificar_segmento (k i : nat) (f : t_segmento -> t_segmento) : M unit :=
  modificar_proceso k (fun p => con_segmentos (alter f i (segmentos p)) p).
Definition leer_segmento (k i : nat) : M (option t_segmento) :=
  ps ← st_gets procesos; mret (p ← ps !! k; segmentos p !! i).

Definition con_inicio (b : Z) (s : t_segmento) : t_segmento :=
  Segmento (s_id s) (s_base s) (s_limite s) b.

(** ** Registration *)

Definition registrar_scheduler (client_socket : Z) : M unit :=
  _ ← recibir_de client_socket recibir_ok;
  _ ← st_mod (fun m => con_conexiones (conexiones_set_scheduler_socket client_socket (m_conexiones m)) m);
  enviar client_socket (enviar_ok HANDSHAKE_SCHEDULER_A_MEMORY).

(** ** Handlers *)

(** [snprintf(script_path, 512, "%s/%s", base, path)]. *)
Definition script_path (base path : list byte) : list byte := take 511 (base ++ [x2f] ++ path).

Definition resolver_path (basepath : option (list byte)) (path : list byte) : list byte :=
  match basepath with
  | Some base => if decide (head path = Some x2f) then path else script_path base path
  | None => path
  end.

Definition manejar_crear_proceso (socket : Z) : M unit :=
  '(pid, path) ← recibir_de socket recibir_crear_proceso;
  m ← st_get;
  let path_resuelto := resolver_path (scripts_basepath (config_memory m)) (cstr path) in
  let instrucciones := cargar_script (m_archivos m) path_resuelto in
  _ ← procesos_agregar (Proceso pid registros_cero [] instrucciones);
  enviar socket (enviar_ok CREAR_PROCESO).

Definition manejar_actualizar_contexto_scheduler (socket : Z) : M unit :=
  ctx ← recibir_de socket recibir_contexto_actualizar;
  r ← buscar_proceso (i32 (c_pid ctx));
  _ ← match r with
      | Some (k, _) => modificar_proceso k (actualizar_proceso_desde_contexto ctx)
      | None => mret tt
      end;
  enviar socket (enviar_ok ACTUALIZAR_CONTEXTO).

Definition manejar_obtener_espacio_libre (socket : Z) : M unit :=
  _ ← recibir_de socket validar_buffer;
  espacio ← st_gets (fun m => bloques_calcular_espacio_libre (bloques_libres m));
  enviar socket (enviar_respuesta_espacio espacio).

(** [while (compactacion_en_progreso()) usleep(5000);] *)
Definition esperar_compactacion : M unit :=
  b ← compactacion_en_progreso; if (b : bool) then st_abort else mret tt.

Definition manejar_lectura_memoria (socket : Z) : M unit :=
  _ ← esperar_compactacion;
  _ ← recibir_de socket validar_buffer;
  si_recibe (campo_int socket) (fun pid =>
  si_recibe (campo_u32 socket) (fun dir =>
  si_recibe (campo_u32 socket) (fun tamanio =>
    proc ← buscar_proceso pid;
    match proc with
    | None => enviar socket (enviar_ok SEGMENTATION_FAULT)
    | Some (_, proc) =>
        dir_fisica ← traducir_dir_logica proc dir tamanio socket;
        if dir_fisica =? NEG1 then mret tt
        else
          datos ← memory_io_leer pid dir_fisica tamanio;
          match datos with
          | None => mret tt
          | Some datos => enviar socket (enviar_respuesta_lectura datos)
          end
    end))).

Definition manejar_escritura_memoria (socket : Z) : M unit :=
  _ ← esperar_compactacion;
  _ ← recibir_de socket validar_buffer;
  si_recibe (campo_int socket) (fun pid =>
  si_recibe (campo_u32 socket) (fun dir =>
  si_recibe (campo_u32 socket) (fun tamanio =>
  si_recibe (recv_campo socket (Z.to_nat tamanio)) (fun datos =>
    proc ← buscar_proceso pid;
    match proc with
    | None => enviar socket (enviar_ok SEGMENTATION_FAULT)
    | Some (_, proc) =>
        dir_fisica ← traducir_dir_logica proc dir tamanio socket;
        if dir_fisica =? NEG1 then mret tt
        else
          _ ← memory_io_escribir pid dir_fisica tamanio datos;
          enviar socket (enviar_ok ESCRITURA_MEMORIA)
    end)))).

(** *** Suspension *)

(** [(seg->limite + bs - 1) / bs]; a zero block size is a division by zero. *)
Definition cantidad_de_bloques (limite bs : Z) : option Z :=
  if bs =? 0 then None else Some (((limite +u bs) -u 1) / bs)%u32.

(** [chunk = (b == n_blocks - 1) ? limite - b * bs : bs] *)
Definition tamanio_chunk (limite bs n_blocks b : Z) : Z :=
  if b =? (n_blocks -u 1)%u32 then (limite -u (b *u bs))%u32 else bs.

(** The [for (b ...)] loop, with [n] blocks to go. *)
Fixpoint volcar_bucle (n : nat) (swap_sock : Z) (seg : t_segmento) (pid bs n_blocks b : Z) : M Z :=
  match n with
  | O => mret 0
  | S n =>
      let chunk := tamanio_chunk (s_limite seg) bs n_blocks b in
      chunk_data ← memory_io_leer pid (s_base seg +u (b *u bs))%u32 chunk;
      match chunk_data with
      | None => mret (-1)
      | Some chunk_data =>
          let bloque_buf := chunk_data ++ replicate (Z.to_nat bs - length chunk_data) x00 in
          result ← swap_escribir_bloque swap_sock (swap_bloque_inicio seg +u b)%u32 bloque_buf;
          if negb (result =? 0) then mret (-1)
          else volcar_bucle n swap_sock seg pid bs n_blocks (b + 1)
      end
  end.

Definition volcar_segmento_a_swap (swap_sock : Z) (seg : t_segmento) (pid : Z) : M Z :=
  bs ← swap_block_size;
  match cantidad_de_bloques (s_limite seg) bs with
  | None => st_abort
  | Some n_blocks => volcar_bucle (Z.to_nat n_blocks) swap_sock seg pid bs n_blocks 0
  end.

(** The [for (i ...)] loop over the segments of the process [k], from the [i]-th
    of [n]; [false] where the function has already returned. *)
Fixpoint suspender_bucle (n k i : nat) (swap_sock socket pid bs : Z) : M bool :=
  match n with
  | O => mret true
  | S n =>
      seg ← leer_segmento k i;
      match seg with
      | None => st_abort
      | Some seg =>
          match cantidad_de_bloques (s_limite seg) bs with
          | None => st_abort
          | Some n_blocks =>
              bloque_inicio ← swap_reservar_bloques n_blocks;
              if bloque_inicio =? NEG1 then
                _ ← enviar socket (enviar_ok SUSPENDER_PROCESO); mret false
              else
                _ ← modificar_segmento k i (con_inicio bloque_inicio);
                r ← volcar_segmento_a_swap swap_sock (con_inicio bloque_inicio seg) pid;
                if negb (r =? 0) then mret false
                else
                  _ ← liberar (s_base seg) (s_limite seg);
                  _ ← modificar_segmento k i (con_base NEG1);
                  suspender_bucle n k (S i) swap_sock socket pid bs
          end
      end
  end.

Definition manejar_suspender_proceso (socket : Z) : M unit :=
  pid ← recibir_de socket recibir_suspender_proceso;
  proc ← buscar_proceso pid;
  match proc with
  | None => enviar socket (enviar_ok SUSPENDER_PROCESO)
  | Some (k, proc) =>
      swap_sock ← st_gets (fun m => conexiones_get_swap_socket (m_conexiones m));
      if swap_sock <? 0 then enviar socket (enviar_ok SUSPENDER_PROCESO)
      else
        bs ← swap_block_size;
        fin ← suspender_bucle (length (segmentos proc)) k 0 swap_sock socket pid bs;
        if (fin : bool) then enviar socket (enviar_ok SUSPENDER_PROCESO) else mret tt
  end.

(** *** De-suspension *)

(** [reserva_t]: the position of the segment, and its base before. *)
Definition reserva_t : Type := nat * Z.

(** The [for (k ...)] loop that undoes the reservations, in order. *)
Fixpoint deshacer_reservas (k : nat) (rs : list reserva_t) : M unit :=
  match rs with
  | [] => mret tt
  | (i, base_anterior) :: rs =>
      seg ← leer_segmento k i;
      match seg with
      | None => st_abort
      | Some seg =>
          _ ← liberar (s_base seg) (s_limite seg);
          _ ← modificar_segmento k i (con_base base_anterior);
          deshacer_reservas k rs
      end
  end.

(** [true] when every segment got its place. *)
Fixpoint reservar_bucle (n k i : nat) (socket : Z) (reservas : list reserva_t) : M bool :=
  match n with
  | O => mret true
  | S n =>
      seg ← leer_segmento k i;
      match seg with
      | None => st_abort
      | Some seg =>
          nueva_base ← asignar (s_limite seg);
          if nueva_base =? NEG1 then
            _ ← deshacer_reservas k reservas;
            _ ← enviar socket (enviar_ok SEGMENTATION_FAULT);
            mret false
          else
            _ ← modificar_segmento k i (con_base nueva_base);
            reservar_bucle n k (S i) socket (reservas ++ [(i, s_base seg)])
      end
  end.

Definition reservar_segmentos_con_rollback (socket : Z) (k : nat) (proc : t_contexto_ejecucion)
    : M bool := reservar_bucle (length (segmentos proc)) k 0 socket [].

(** The blocks of one segment, [n] to go. *)
Fixpoint transferir_bloques (n : nat) (swap_sock : Z) (seg : t_segmento) (pid bs n_blocks b : Z)
    : M Z :=
  match n with
  | O => mret 0
  | S n =>
      let chunk := tamanio_chunk (s_limite seg) bs n_blocks b in
      data ← swap_leer_bloque swap_sock (swap_bloque_inicio seg +u b)%u32;
      match data with
      | None => mret (-1)
      | Some data =>
          _ ← memory_io_escribir pid (s_base seg +u (b *u bs))%u32 chunk (take (Z.to_nat chunk) data);
          transferir_bloques n swap_sock seg pid bs n_blocks (b + 1)
      end
  end.

Fixpoint transferir_bucle (n k i : nat) (swap_sock pid bs : Z) : M Z :=
  match n with
  | O => mret 0
  | S n =>
      seg ← leer_segmento k i;
      match seg with
      | None => st_abort
      | Some seg =>
          match cantidad_de_bloques (s_limite seg) bs with
          | None => st_abort
          | Some n_blocks =>
              r ← transferir_bloques (Z.to_nat n_blocks) swap_sock seg pid bs n_blocks 0;
              if negb (r =? 0) then mret (-1)
              else transferir_bucle n k (S i) swap_sock pid bs
          end
      end
  end.

Definition transferir_swap_a_ram (swap_sock : Z) (k : nat) (proc : t_contexto_ejecucion) (pid : Z)
    : M Z :=
  bs ← swap_block_size; transferir_bucle (length (segmentos proc)) k 0 swap_sock pid bs.

Definition manejar_des_suspender_proceso (socket : Z) : M unit :=
  pid ← recibir_de socket recibir_des_suspender_proceso;
  proc ← buscar_proceso pid;
  match proc with
  | None => enviar socket (enviar_ok DES_SUSPENDER_PROCESO)
  | Some (k, proc) =>
      swap_sock ← st_gets (fun m => conexiones_get_swap_socket (m_conexiones m));
      if swap_sock <? 0 then enviar socket (enviar_ok SEGMENTATION_FAULT)
      else
        reservas ← reservar_segmentos_con_rollback socket k proc;
        if negb reservas then mret tt
        else
          r ← transferir_swap_a_ram swap_sock k proc pid;
          if negb (r =? 0) then enviar socket (enviar_ok SEGMENTATION_FAULT)
          else enviar socket (enviar_ok DES_SUSPENDER_PROCESO)
  end.

(** *** Segments *)

(** [*out_base] and [*out_proc], or [None] where a fault was already answered. *)
Definition compactar_y_reasignar (socket pid tamanio : Z) : M (option (Z * nat)) :=
  _ ← compactacion_marcar_inicio;
  sched_sock ← st_gets (fun m => conexiones_get_scheduler_socket (m_conexiones m));
  _ ← enviar sched_sock (enviar_ok INICIAR_COMPACTACION);
  _ ← recibir_de sched_sock (fun s => Some (recibir_codigo_operacion s));
  _ ← recibir_de sched_sock recibir_ok;
  _ ← compactar_memoria;
  _ ← compactacion_marcar_fin;
  _ ← enviar sched_sock (enviar_ok FINALIZAR_COMPACTACION);
  out_base ← asignar tamanio;
  if out_base =? NEG1 then
    _ ← enviar socket (enviar_ok SEGMENTATION_FAULT); mret None
  else
    out_proc ← buscar_proceso pid;
    match out_proc with
    | None => _ ← enviar socket (enviar_ok SEGMENTATION_FAULT); mret None
    | Some (k, _) => mret (Some (out_base, k))
    end.

(** [list_add(proc->segmentos, seg)] and the answer. *)
Definition crear_segmento (socket : Z) (k : nat) (id_segmento base tamanio : Z) : M unit :=
  _ ← modificar_proceso k (fun p =>
        con_segmentos (segmentos p ++ [Segmento id_segmento base tamanio 0]) p);
  enviar socket (enviar_respuesta_segmento id_segmento base tamanio).

Definition manejar_solicitar_segmento (socket : Z) : M unit :=
  _ ← recibir_de socket validar_buffer;
  si_recibe (campo_int socket) (fun pid =>
  si_recibe (campo_u32 socket) (fun id_segmento =>
  si_recibe (campo_u32 socket) (fun tamanio =>
    sms ← st_gets (fun m => segment_max_size (config_memory m));
    if tamanio >? u32 sms then enviar socket (enviar_ok SEGMENTATION_FAULT)
    else
      proc ← buscar_proceso pid;
      match proc with
      | None => enviar socket (enviar_ok SEGMENTATION_FAULT)
      | Some (k, _) =>
          base ← asignar tamanio;
          if base =? NEG1 then
            espacio_libre ← st_gets (fun m => bloques_calcular_espacio_libre (bloques_libres m));
            if espacio_libre <? tamanio then enviar socket (enviar_ok SEGMENTATION_FAULT)
            else
              r ← compactar_y_reasignar socket pid tamanio;
              match r with
              | None => mret tt
              | Some (base, k) => crear_segmento socket k id_segmento base tamanio
              end
          else crear_segmento socket k id_segmento base tamanio
      end))).

Definition manejar_eliminar_segmento (socket : Z) : M unit :=
  _ ← recibir_de socket validar_buffer;
  si_recibe (campo_int socket) (fun pid =>
  si_recibe (campo_u32 socket) (fun id_segmento =>
    proc ← buscar_proceso pid;
    match proc with
    | None => enviar socket (enviar_ok ELIMINAR_SEGMENTO)
    | Some (k, proc) =>
        match indice_de (fun s => s_id s =? id_segmento) (segmentos proc) with
        | None => enviar socket (enviar_ok ELIMINAR_SEGMENTO)
        | Some i =>
            match segmentos proc !! i with
            | None => st_abort
            | Some seg =>
                _ ← liberar (s_base seg) (s_limite seg);
                _ ← modificar_proceso k (fun p => con_segmentos (delete i (segmentos p)) p);
                _ ← enviar socket (enviar_ok ELIMINAR_SEGMENTO);
                notificar_memoria_liberada
            end
        end
    end)).

(** The [for (j ...)] loop: whether something was freed. *)
Fixpoint liberar_segmentos (segs : list t_segmento) (libero : bool) : M bool :=
  match segs with
  | [] => mret libero
  | seg :: segs =>
      if negb (s_base seg =? NEG1) then
        _ ← liberar (s_base seg) (s_limite seg); liberar_segmentos segs true
      else liberar_segmentos segs libero
  end.

Definition manejar_finalizar_proceso (socket : Z) : M unit :=
  _ ← recibir_de socket validar_buffer;
  si_recibe (campo_int socket) (fun pid =>
    proc ← buscar_proceso pid;
    libero ← match proc with
             | None => mret false
             | Some (k, proc) =>
                 libero ← liberar_segmentos (segmentos proc) false;
                 _ ← procesos_quitar_en k; mret libero
             end;
    _ ← enviar socket (enviar_ok FINALIZAR_PROCESO);
    if (libero : bool) then notificar_memoria_liberada else mret tt).

(** ** The receiver thread *)

Definition atender_scheduler (socket codigo : Z) : M unit :=
  if codigo =? op_num CREAR_PROCESO then manejar_crear_proceso socket
  else if codigo =? op_num ACTUALIZAR_CONTEXTO then manejar_actualizar_contexto_scheduler socket
  else if codigo =? op_num OBTENER_ESPACIO_LIBRE then manejar_obtener_espacio_libre socket
  else if codigo =? op_num LECTURA_MEMORIA then manejar_lectura_memoria socket
  else if codigo =? op_num ESCRITURA_MEMORIA then manejar_escritura_memoria socket
  else if codigo =? op_num SUSPENDER_PROCESO then manejar_suspender_proceso socket
  else if codigo =? op_num DES_SUSPENDER_PROCESO then manejar_des_suspender_proceso socket
  else if codigo =? op_num SOLICITAR_SEGMENTO then manejar_solicitar_segmento socket
  else if codigo =? op_num ELIMINAR_SEGMENTO then manejar_eliminar_segmento socket
  else if codigo =? op_num FINALIZAR_PROCESO then manejar_finalizar_proceso socket
  else mret tt.

(** [while (1)], for [n] turns at most; the thread ends when the scheduler
    disconnects. *)
Fixpoint memory_receptor_scheduler_thread (n : nat) : M unit :=
  match n with
  | O => st_abort
  | S n =>
      socket_scheduler ← st_gets (fun m => conexiones_get_scheduler_socket (m_conexiones m));
      if socket_scheduler =? -1 then memory_receptor_scheduler_thread n
      else
        codigo ← recibir_de socket_scheduler (fun s => Some (recibir_codigo_operacion s));
        if i32 codigo =? -1 then
          st_mod (fun m => con_conexiones (conexiones_set_scheduler_socket (-1) (m_conexiones m)) m)
        else
          _ ← atender_scheduler socket_scheduler codigo;
          memory_receptor_scheduler_thread n
  end.
