(* ===== verification/MemInv.v ===== *)
(** * MemInv: the invariant of Kernel Memory

    The free table and the segments of the processes share out the RAM: no
    address is used twice and none is lost ([mem_inv]). Lemmas on the steps the
    handlers are made of, shared by the files that prove them correct. *)

From S2P Require Import Prelude Bloques Wire Buffer Tipos Mensajes Texto Conexiones Stick Swap Memoria MemoryIO MemSwap Procesos Compactacion MemScheduler.

(** ** Two tables side by side *)

Lemma bloques_ok_app lim l1 l2 :
  bloques_ok lim (l1 ++ l2) <->
  bloques_ok lim l1 /\ bloques_ok lim l2 /\ (forall x, libre l1 x -> libre l2 x -> False).
Proof.
  unfold bloques_ok. rewrite Forall_app, por_pares_app. split.
  - intros [[H1 H2] (H3 & H4 & H5)]. split; [done|]. split; [done|].
    intros x (b & Hb & Hx) (c & Hc & Hx'). rewrite Forall_forall in H5. specialize (H5 b Hb).
    rewrite Forall_forall in H5. specialize (H5 c Hc). bloques_lia.
  - intros ([H1 H2] & [H3 H4] & H5). split; [done|]. split; [done|]. split; [done|].
    apply Forall_forall. intros b Hb. apply Forall_forall. intros c Hc.
    rewrite Forall_forall in H1, H3. specialize (H1 b Hb). specialize (H3 c Hc).
    unfold ajenos. destruct (decide (b_tam b = 0)); [by left|]. right.
    destruct (decide (b_tam c = 0)); [by left|]. right. unfold disjuntos.
    destruct (Z.le_gt_cases (b_base b + b_tam b) (b_base c)); [by left|].
    destruct (Z.le_gt_cases (b_base c + b_tam c) (b_base b)); [by right|]. exfalso.
    apply (H5 (Z.max (b_base b) (b_base c))); [exists b|exists c]; (split; [done|]); bloques_lia.
Qed.

Lemma total_app l1 l2 : total (l1 ++ l2) = total l1 + total l2.
Proof. unfold total. by rewrite fmap_app, suma_Z_app. Qed.

Lemma libre_app l1 l2 x : libre (l1 ++ l2) x <-> libre l1 x \/ libre l2 x.
Proof.
  unfold libre. setoid_rewrite elem_of_app. split.
  - intros (b & [Hb|Hb] & Hx); [left|right]; by exists b.
  - intros [(b & Hb & Hx)|(b & Hb & Hx)]; exists b; auto.
Qed.

Lemma libre_uno b x : libre [b] x <-> en_rango (b_base b) (b_tam b) x.
Proof. rewrite libre_cons. split; [intros [?|H]; [done|by apply libre_nil in H]|by left]. Qed.

(** Allocating: the range moves from the free table to the used side. *)
Lemma particion_asignar wf lim l r tam base l' :
  bloques_ok lim (l ++ r) -> 0 <= tam -> bloques_asignar wf l tam = (base, l') -> base <> NEG1 ->
  bloques_ok lim (l' ++ Bloque base tam :: r) /\ total (l' ++ Bloque base tam :: r) = total (l ++ r) /\
  0 <= base /\ base + tam <= lim.
Proof.
  intros Hok Ht Ha Hne. apply bloques_ok_app in Hok as (H1 & H2 & H3).
  destruct (bloques_asignar_ok wf lim l tam base l' H1 Ht Ha Hne) as (H1' & Htot & Hen & Hsub & Hlib).
  split; [|split].
  - change (l' ++ Bloque base tam :: r) with (l' ++ [Bloque base tam] ++ r).
    apply bloques_ok_app. split; [done|]. split.
    + apply bloques_ok_app. split; [split; [by apply Forall_singleton|by split]|]. split; [done|].
      intros x Hx. rewrite libre_uno in Hx. cbn in Hx. apply H3. by apply Hsub.
    + intros x Hx Hx'. apply Hlib in Hx as [Hx Hn]. rewrite libre_app, libre_uno in Hx'. cbn in Hx'.
      destruct Hx' as [Hx'|Hx']; [done|]. by apply (H3 x).
  - rewrite !total_app, total_cons, Htot. cbn. lia.
  - unfold bloque_en in Hen. cbn in Hen. lia.
Qed.

(** Freeing: the range moves back. *)
Lemma particion_liberar lim l r base tam :
  bloques_ok lim (l ++ Bloque base tam :: r) ->
  bloques_ok lim (bloques_liberar l base tam ++ r) /\
  total (bloques_liberar l base tam ++ r) = total (l ++ Bloque base tam :: r).
Proof.
  intros Hok. change (l ++ Bloque base tam :: r) with (l ++ [Bloque base tam] ++ r) in *.
  apply bloques_ok_app in Hok as (H1 & H2 & H3). apply bloques_ok_app in H2 as (H2 & H4 & H5).
  assert (Hoc : ocupado lim l base tam).
  { split; [destruct H2 as [H2 _]; rewrite Forall_singleton in H2; exact H2|].
    intros x Hx Hx'. apply (H3 x Hx'). apply libre_app. left. by apply libre_uno. }
  destruct (bloques_liberar_ok lim l base tam H1 Hoc) as (H1' & _ & Htot & Hlib).
  split.
  - apply bloques_ok_app. split; [done|]. split; [done|]. intros x Hx Hx'.
    apply Hlib in Hx as [Hx|Hx]; [apply (H3 x Hx); apply libre_app; by right|].
    apply (H5 x); [by apply libre_uno|done].
  - rewrite !total_app, Htot, total_cons. cbn. unfold total at 4. cbn. lia.
Qed.

(** ** The invariant *)

Record mem_inv (m : memoria) (ram : list byte) : Prop := {
  mi_ram : ram_es m ram;
  mi_pids : Forall (fun p => es_int (pid p)) (procesos m);
  mi_particion : bloques_ok (Z.of_nat (length ram)) (bloques_libres m ++ residentes (procesos m));
  mi_total : total (bloques_libres m ++ residentes (procesos m)) = Z.of_nat (length ram) }.

Lemma mem_inv_sana m ram : mem_inv m ram -> memoria_sana m ram.
Proof. intros [H1 H2 H3 _]. apply bloques_ok_app in H3 as (_ & H3 & _). by split. Qed.

(** A state that differs only in what the invariant does not look at. *)
Lemma mem_inv_igual m m' ram :
  mem_inv m ram -> m_conexiones m' = m_conexiones m -> m_red m' = m_red m ->
  procesos m' = procesos m -> bloques_libres m' = bloques_libres m -> mem_inv m' ram.
Proof.
  intros [H1 H2 H3 H4] E1 E2 E3 E4. split; rewrite ?E3, ?E4; try done.
  by apply (acceso_estable m).
Qed.

Lemma espacio_libre_inv m ram :
  mem_inv m ram -> bloques_calcular_espacio_libre (bloques_libres m) = total (bloques_libres m) /\
  0 <= total (bloques_libres m) <= Z.of_nat (length ram).
Proof.
  intros [H1 _ H3 H4]. destruct (acceso_tamanio m ram H1) as [_ Hmax].
  apply bloques_ok_app in H3 as (Hl & Hr & _). pose proof (total_le _ _ Hl). pose proof (total_le _ _ Hr).
  rewrite total_app in H4. rewrite espacio_libre_total, u32_small by (unfold es_u32; lia). split; [done|lia].
Qed.

(** ** Reading a request *)

Definition consumido (s : Z) (resto : list byte) (m : memoria) : memoria :=
  con_entradas (<[s := resto]> (m_entradas m)) m.

Lemma entrada_consumido s r m : entrada s (consumido s r m) = r.
Proof. unfold entrada, consumido. cbn. by rewrite lookup_insert_eq. Qed.
Lemma consumido_consumido s r1 r2 m : consumido s r2 (consumido s r1 m) = consumido s r2 m.
Proof. unfold consumido, con_entradas. cbn. by rewrite insert_insert_eq. Qed.

Lemma recibir_de_ok {A} s (r : lector A) m a resto :
  r (entrada s m) = Some (a, resto) -> recibir_de s r m = Some (a, consumido s resto m).
Proof. intros H. unfold recibir_de. by rewrite H. Qed.

Lemma recv_campo_ok s n bs resto m :
  entrada s m = bs ++ resto -> length bs = n -> recv_campo s n m = Some (Some bs, consumido s resto m).
Proof.
  intros H Hn. unfold recv_campo. apply recibir_de_ok. rewrite H, length_app.
  destruct (Nat.leb_spec n (length bs + length resto)); [|lia].
  by rewrite <-Hn, take_app_length, drop_app_length.
Qed.

Lemma campo_int_ok s v resto m :
  entrada s m = le_enc 4 v ++ resto -> es_int v -> campo_int s m = Some (Some v, consumido s resto m).
Proof.
  intros H Hv. unfold campo_int. unfold mbind, ST_bind. rewrite (recv_campo_ok s 4 _ _ m H eq_refl).
  cbn [fmap option_fmap option_map]. by rewrite le_dec_enc4, i32_u32, i32_small.
Qed.

Lemma campo_u32_ok s v resto m :
  entrada s m = le_enc 4 v ++ resto -> es_u32 v -> campo_u32 s m = Some (Some v, consumido s resto m).
Proof.
  intros H Hv. unfold campo_u32. unfold mbind, ST_bind. rewrite (recv_campo_ok s 4 _ _ m H eq_refl).
  cbn [fmap option_fmap option_map]. by rewrite le_dec_enc4, u32_small.
Qed.

Lemma recibir_validar s pl resto m :
  entrada s m = le_enc 8 (Z.of_nat (length pl)) ++ pl ++ resto -> Z.of_nat (length pl) < MAX_PAYLOAD ->
  recibir_de s validar_buffer m = Some (tt, consumido s (pl ++ resto) m).
Proof. intros H Hl. apply recibir_de_ok. rewrite H. by apply validar_buffer_ok. Qed.

(** What is left of a message once its op_code is read. *)
Definition cuerpo (mensaje : list byte) : list byte := drop 4 mensaje.

Lemma si_recibe_ok {A} (c : M (option A)) k a m m' :
  c m = Some (Some a, m') -> si_recibe c k m = k a m'.
Proof. intros H. unfold si_recibe, mbind, ST_bind. by rewrite H. Qed.

Lemma mensaje3 op a b c :
  enviar_paquete (agregar_a_paquete (agregar_a_paquete (agregar_a_paquete (crear_paquete op)
    (le_enc 4 a)) (le_enc 4 b)) (le_enc 4 c)) = trama op (le_enc 4 a ++ le_enc 4 b ++ le_enc 4 c).
Proof.
  apply enviar_construido; [|done]. rewrite app_assoc.
  apply construye_agregar, construye_agregar, (construye_agregar _ _ []), construye_crear.
Qed.
Lemma mensaje2 op a b :
  enviar_paquete (agregar_a_paquete (agregar_a_paquete (crear_paquete op) (le_enc 4 a)) (le_enc 4 b)) =
  trama op (le_enc 4 a ++ le_enc 4 b).
Proof.
  apply enviar_construido; [|done]. apply construye_agregar, (construye_agregar _ _ []), construye_crear.
Qed.
Lemma mensaje1 op a :
  enviar_paquete (agregar_a_paquete (crear_paquete op) (le_enc 4 a)) = trama op (le_enc 4 a).
Proof. apply enviar_construido; [|done]. apply (construye_agregar _ _ []), construye_crear. Qed.

Lemma cuerpo_trama op pl : cuerpo (trama op pl) = le_enc 8 (Z.of_nat (length pl)) ++ pl.
Proof. done. Qed.

(** Requests of one, two and three fields, as their handlers read them. *)
Lemma leer_peticion3 (k : Z -> Z -> Z -> M unit) s op a b c resto m :
  es_int a -> es_u32 b -> es_u32 c ->
  entrada s m = cuerpo (trama op (le_enc 4 a ++ le_enc 4 b ++ le_enc 4 c)) ++ resto ->
  (_ ← recibir_de s validar_buffer;
   si_recibe (campo_int s) (fun a => si_recibe (campo_u32 s) (fun b => si_recibe (campo_u32 s) (k a b)))) m
  = k a b c (consumido s resto m).
Proof.
  intros Ha Hb Hc H. rewrite cuerpo_trama, <-!app_assoc in H.
  unfold mbind at 1, ST_bind at 1. rewrite (recibir_validar s (le_enc 4 a ++ le_enc 4 b ++ le_enc 4 c) resto);
    [|by rewrite H, <-!app_assoc|done].
  erewrite si_recibe_ok; [|apply campo_int_ok; [rewrite entrada_consumido, <-!app_assoc; done|done]].
  erewrite si_recibe_ok; [|apply campo_u32_ok; [by rewrite consumido_consumido, entrada_consumido|done]].
  erewrite si_recibe_ok; [|apply campo_u32_ok; [by rewrite !consumido_consumido, entrada_consumido|done]].
  by rewrite !consumido_consumido.
Qed.

Lemma leer_peticion2 (k : Z -> Z -> M unit) s op a b resto m :
  es_int a -> es_u32 b ->
  entrada s m = cuerpo (trama op (le_enc 4 a ++ le_enc 4 b)) ++ resto ->
  (_ ← recibir_de s validar_buffer;
   si_recibe (campo_int s) (fun a => si_recibe (campo_u32 s) (k a))) m = k a b (consumido s resto m).
Proof.
  intros Ha Hb H. rewrite cuerpo_trama, <-!app_assoc in H.
  unfold mbind at 1, ST_bind at 1. rewrite (recibir_validar s (le_enc 4 a ++ le_enc 4 b) resto);
    [|by rewrite H, <-!app_assoc|done].
  erewrite si_recibe_ok; [|apply campo_int_ok; [rewrite entrada_consumido, <-!app_assoc; done|done]].
  erewrite si_recibe_ok; [|apply campo_u32_ok; [by rewrite consumido_consumido, entrada_consumido|done]].
  by rewrite !consumido_consumido.
Qed.

Lemma leer_peticion1 (k : Z -> M unit) s op a resto m :
  es_int a -> entrada s m = cuerpo (trama op (le_enc 4 a)) ++ resto ->
  (_ ← recibir_de s validar_buffer; si_recibe (campo_int s) k) m = k a (consumido s resto m).
Proof.
  intros Ha H. rewrite cuerpo_trama, <-!app_assoc in H.
  unfold mbind at 1, ST_bind at 1. rewrite (recibir_validar s (le_enc 4 a) resto); [|by rewrite H|done].
  erewrite si_recibe_ok; [|apply campo_int_ok; [by rewrite entrada_consumido|done]].
  by rewrite consumido_consumido.
Qed.

(** ** Changing one process *)

#[export] Instance residentes_perm : Proper ((≡ₚ) ==> (≡ₚ)) residentes.
Proof. intros l1 l2 H. unfold residentes. by rewrite H. Qed.
#[export] Instance residentes_seg_perm : Proper ((≡ₚ) ==> (≡ₚ)) residentes_seg.
Proof. intros l1 l2 H. unfold residentes_seg. by rewrite H. Qed.

Lemma residentes_medio ps k p :
  ps !! k = Some p ->
  residentes ps ≡ₚ residentes_seg (segmentos p) ++ residentes (delete k ps).
Proof.
  intros H. rewrite (delete_middle_perm ps k p H) at 1. done.
Qed.

Lemma list_delete_alter_eq {A} (f : A -> A) (k : nat) (l : list A) : delete k (alter f k l) = delete k l.
Proof. revert l. induction k as [|k IH]; intros [|x l]; cbn; [done..|]. by rewrite IH. Qed.

Lemma residentes_alter ps k p f :
  ps !! k = Some p ->
  residentes (alter f k ps) ≡ₚ residentes_seg (segmentos (f p)) ++ residentes (delete k ps).
Proof.
  intros H. assert (H' : alter f k ps !! k = Some (f p)) by (by rewrite list_lookup_alter_eq, H).
  rewrite (residentes_medio _ k _ H'). by rewrite list_delete_alter_eq.
Qed.

Lemma residentes_seg_app l1 l2 : residentes_seg (l1 ++ l2) = residentes_seg l1 ++ residentes_seg l2.
Proof. unfold residentes_seg. by rewrite filter_app, fmap_app. Qed.

Lemma residentes_seg_delete l i s :
  l !! i = Some s ->
  residentes_seg l ≡ₚ (if s_base s =? NEG1 then [] else [bloque_de s]) ++ residentes_seg (delete i l).
Proof.
  intros H. rewrite <-residentes_seg_cons. unfold residentes_seg.
  by rewrite <-(delete_middle_perm l i s H).
Qed.

(** A segment that is replaced by another. *)
Lemma residentes_seg_alter l i s f :
  l !! i = Some s ->
  residentes_seg (alter f i l) ≡ₚ
  (if s_base (f s) =? NEG1 then [] else [bloque_de (f s)]) ++ residentes_seg (delete i l).
Proof.
  intros H. assert (H' : alter f i l !! i = Some (f s)) by (by rewrite list_lookup_alter_eq, H).
  rewrite (residentes_seg_delete _ i _ H'). by rewrite list_delete_alter_eq.
Qed.

Lemma residentes_reubicar_pids f ps :
  Forall (fun p => es_int (pid p)) ps -> Forall (fun p => es_int (pid p)) (reubicar f ps).
Proof.
  intros H. unfold reubicar. apply Forall_lookup. intros i p Hi. rewrite list_lookup_imap in Hi.
  destruct (ps !! i) as [q|] eqn:E; [|done]. injection Hi as <-. cbn. exact (Forall_lookup_1 _ _ _ _ H E).
Qed.

Lemma pids_alter f k ps :
  (forall p, pid (f p) = pid p) ->
  Forall (fun p => es_int (pid p)) ps -> Forall (fun p => es_int (pid p)) (alter f k ps).
Proof.
  intros Hf H. apply Forall_alter; [done|]. intros p _ Hp. by rewrite Hf.
Qed.

(** ** Finding a process *)

Lemma procesos_buscar_Some q ps k :
  procesos_buscar q ps = Some k -> exists p, ps !! k = Some p /\ pid p = q.
Proof.
  unfold procesos_buscar. intros H. apply indice_de_Some in H as (p & Hp & Hq & _).
  exists p. by apply Z.eqb_eq in Hq.
Qed.

Lemma buscar_proceso_Some q m k p :
  procesos_buscar q (procesos m) = Some k -> procesos m !! k = Some p ->
  buscar_proceso q m = Some (Some (k, p), m).
Proof. intros H1 H2. unfold buscar_proceso. st_unfold. rewrite H1. cbn. by rewrite H2. Qed.

Lemma buscar_proceso_None q m :
  procesos_buscar q (procesos m) = None -> buscar_proceso q m = Some (None, m).
Proof. intros H. unfold buscar_proceso. st_unfold. by rewrite H. Qed.

Lemma procesos_buscar_imap q (g : nat -> t_contexto_ejecucion -> t_contexto_ejecucion) ps :
  (forall i p, pid (g i p) = pid p) -> procesos_buscar q (imap g ps) = procesos_buscar q ps.
Proof.
  unfold procesos_buscar. revert g. induction ps as [|p ps IH]; intros g Hg; [done|].
  cbn. rewrite Hg. destruct (pid p =? q); [done|]. f_equal. apply IH. intros. apply Hg.
Qed.

Lemma procesos_buscar_reubicar q f ps : procesos_buscar q (reubicar f ps) = procesos_buscar q ps.
Proof. by apply procesos_buscar_imap. Qed.

Lemma alter_conocido {A} (f : A -> A) (l : list A) k x : l !! k = Some x -> alter f k l = <[k := f x]> l.
Proof.
  revert k. induction l as [|y l IH]; intros [|k] H; [done..| |]; cbn in *.
  - by injection H as ->.
  - f_equal. by apply IH.
Qed.

Lemma procesos_buscar_alter q (f : t_contexto_ejecucion -> t_contexto_ejecucion) k ps :
  (forall p, pid (f p) = pid p) -> procesos_buscar q (alter f k ps) = procesos_buscar q ps.
Proof.
  intros Hf. unfold procesos_buscar. revert k. induction ps as [|p ps IH]; intros [|k]; [done..| |]; cbn.
  - by rewrite Hf.
  - destruct (pid p =? q); [done|]. by rewrite (IH k).
Qed.

(** ** The steps on the free table *)

Lemma con_libres_igual m : con_libres (bloques_libres m) m = m.
Proof. by destruct m. Qed.

(** Either no hole is large enough, or the range is cut from one. *)
Lemma asignar_casos lim tam m :
  bloques_ok lim (bloques_libres m) -> 0 <= tam ->
  (asignar tam m = Some (NEG1, m) /\ forall b, b ∈ bloques_libres m -> b_tam b < tam) \/
  (exists base l', bloques_asignar (es_worst_fit (allocation_strategy (config_memory m)))
      (bloques_libres m) tam = (base, l') /\ base <> NEG1 /\
    asignar tam m = Some (base, con_libres l' m)).
Proof.
  intros [Hr _] Ht. unfold asignar. st_unfold.
  destruct (bloques_asignar_cases (es_worst_fit (allocation_strategy (config_memory m)))
      (bloques_libres m) tam) as [[H Hno]|(i & e & He%list_elem_of_lookup_2 & _ & _ & H)]; rewrite H.
  - left. rewrite con_libres_igual. done.
  - right. eexists _, _. split; [done|]. split; [|done].
    rewrite Forall_forall in Hr. specialize (Hr e He). bloques_lia.
Qed.

(** Allocating for a new segment of the process [k] keeps the invariant. *)
Lemma mem_inv_nuevo_segmento m ram k p tam base l' id sw :
  mem_inv m ram -> procesos m !! k = Some p -> 0 <= tam ->
  bloques_asignar (es_worst_fit (allocation_strategy (config_memory m))) (bloques_libres m) tam = (base, l') ->
  base <> NEG1 ->
  mem_inv (con_procesos (alter (fun p => con_segmentos (segmentos p ++ [Segmento id base tam sw]) p) k
             (procesos m)) (con_libres l' m)) ram /\
  0 <= base /\ base + tam <= Z.of_nat (length ram).
Proof.
  intros [H1 H2 H3 H4] Hk Ht Ha Hne.
  destruct (particion_asignar _ _ _ _ _ _ _ H3 Ht Ha Hne) as (Hok & Htot & Hb0 & Hb1).
  assert (Hres : residentes (alter (fun p => con_segmentos (segmentos p ++ [Segmento id base tam sw]) p) k (procesos m))
     ≡ₚ Bloque base tam :: residentes (procesos m)).
  { rewrite (residentes_alter _ k p) by done. cbn [segmentos con_segmentos].
    rewrite residentes_seg_app. rewrite (residentes_medio (procesos m) k p) by done.
    unfold residentes_seg at 2. rewrite filter_cons, decide_True by done. cbn.
    by rewrite <-app_assoc, Permutation_middle. }
  split; [|done]. split; cbn [con_procesos con_libres procesos bloques_libres].
  - by apply (acceso_estable m).
  - by apply pids_alter.
  - by rewrite Hres.
  - by rewrite Hres, Htot.
Qed.

(** Freeing a resident segment of the process [k], which then leaves its list. *)
Lemma mem_inv_quitar_segmento m ram k p i s :
  mem_inv m ram -> procesos m !! k = Some p -> segmentos p !! i = Some s -> s_base s <> NEG1 ->
  mem_inv (con_procesos (alter (fun p => con_segmentos (delete i (segmentos p)) p) k (procesos m))
            (con_libres (bloques_liberar (bloques_libres m) (s_base s) (s_limite s)) m)) ram.
Proof.
  intros [H1 H2 H3 H4] Hk Hi Hb.
  assert (Hres : residentes (procesos m) ≡ₚ bloque_de s ::
     residentes (alter (fun p => con_segmentos (delete i (segmentos p)) p) k (procesos m))).
  { rewrite (residentes_alter _ k p) by done. rewrite (residentes_medio (procesos m) k p) by done.
    rewrite (residentes_seg_delete _ i s Hi). destruct (Z.eqb_spec (s_base s) NEG1); [done|].
    cbn [segmentos con_segmentos app]. done. }
  rewrite Hres in H3, H4. destruct (particion_liberar _ _ _ _ _ H3) as [H5 H6].
  split; cbn [con_procesos con_libres procesos bloques_libres].
  - by apply (acceso_estable m).
  - by apply pids_alter.
  - done.
  - by rewrite H6.
Qed.
