(* ===== verification/MemSegmentos.v ===== *)
(** * MemSegmentos: the handlers of segments and data are correct

    Correctness of [manejar_solicitar_segmento], [manejar_eliminar_segmento],
    [manejar_finalizar_proceso], [manejar_lectura_memoria] and
    [manejar_escritura_memoria] (defined in [MemScheduler]): the answer on every
    branch, the invariant of [MemInv] and the contents of the segments. *)

From S2P Require Import Prelude Bloques Wire Buffer Tipos Mensajes Texto Conexiones Stick Swap Memoria MemoryIO MemSwap Procesos Compactacion MemScheduler MemInv.

(** ** The request is at hand *)

(** The thread has read the op_code of [mensaje]; [resto] follows it. *)
Definition pendiente (m : memoria) (s : Z) (mensaje resto : list byte) : Prop :=
  entrada s m = cuerpo mensaje ++ resto.

(** A pending message of a protocol is received whole. *)
Lemma recibir_protocolo (pr : protocolo) {H : ProtocoloOk pr} d m s resto :
  p_valido pr d -> pendiente m s (p_enviar pr d) resto ->
  recibir_de s (p_recibir pr) m = Some (p_imagen pr d, consumido s resto m).
Proof.
  intros Hv Hp. destruct (protocolo_ok d Hv) as (pl & E & Hr). unfold pendiente in Hp.
  rewrite E, cuerpo_trama, <-app_assoc in Hp. apply recibir_de_ok. rewrite Hp. apply Hr.
Qed.

Definition con_salida (s : Z) (bs : list byte) (m : memoria) : memoria :=
  con_salidas (m_salidas m ++ [(s, bs)]) m.

Lemma enviar_eq s bs m : enviar s bs m = Some (tt, con_salida s bs m).
Proof. done. Qed.

Lemma mem_inv_consumido s r m ram : mem_inv m ram -> mem_inv (consumido s r m) ram.
Proof. intros H. by apply (mem_inv_igual m). Qed.
Lemma mem_inv_salida s bs m ram : mem_inv m ram -> mem_inv (con_salida s bs m) ram.
Proof. intros H. by apply (mem_inv_igual m). Qed.

(** What a request that does not concern Swap leaves alone. *)
Record marco (m m' : memoria) : Prop := {
  ma_config : config_memory m' = config_memory m;
  ma_conexiones : m_conexiones m' = m_conexiones m;
  ma_reserva : m_reserva m' = m_reserva m;
  ma_progreso : en_progreso m' = en_progreso m;
  ma_swap : m_swap m' = m_swap m;
  ma_archivos : m_archivos m' = m_archivos m }.

(** A hole is never larger than the free total. *)
Lemma hueco_le_total lim l b : bloques_ok lim l -> b ∈ l -> b_tam b <= total l.
Proof.
  intros [Hr _] Hb. apply list_elem_of_lookup in Hb as (i & Hi).
  rewrite (delete_middle_perm l i b Hi), total_cons.
  assert (0 <= total (delete i l)); [|lia]. apply suma_Z_nonneg, Forall_fmap.
  rewrite (delete_middle_perm l i b Hi) in Hr. apply Forall_cons in Hr as [_ Hr].
  eapply Forall_impl; [exact Hr|]. intros c. unfold bloque_en. cbn. lia.
Qed.

Lemma mem_inv_libres m ram : mem_inv m ram -> bloques_ok (Z.of_nat (length ram)) (bloques_libres m).
Proof. intros [_ _ H _]. by apply bloques_ok_app in H as (H & _). Qed.

(** ** [manejar_solicitar_segmento] *)

Lemma mensaje_solicitar q id tam :
  enviar_solicitar_segmento q id tam = trama SOLICITAR_SEGMENTO (le_enc 4 q ++ le_enc 4 id ++ le_enc 4 tam).
Proof. apply mensaje3. Qed.

(** What the new segment does to its process. *)
Definition agregar_seg (seg : t_segmento) (p : t_contexto_ejecucion) : t_contexto_ejecucion :=
  con_segmentos (segmentos p ++ [seg]) p.

Lemma crear_segmento_eq s k id base tam m :
  crear_segmento s k id base tam m =
  Some (tt, con_salida s (enviar_respuesta_segmento id base tam)
              (con_procesos (alter (agregar_seg (Segmento id base tam 0)) k (procesos m)) m)).
Proof. done. Qed.

(** Up to the compaction: the scheduler is told and its acknowledgement read. *)
Definition avisado (s : Z) (resto : list byte) (m : memoria) : memoria :=
  consumido s resto (con_salida s (enviar_ok INICIAR_COMPACTACION) (con_progreso true m)).

Lemma reasignar_avisa s q tam resto m :
  conexiones_get_scheduler_socket (m_conexiones m) = s -> entrada s m = enviar_ok INICIAR_COMPACTACION ++ resto ->
  compactar_y_reasignar s q tam m =
  (_ ← compactar_memoria;
   _ ← compactacion_marcar_fin;
   _ ← enviar s (enviar_ok FINALIZAR_COMPACTACION);
   out_base ← asignar tam;
   if out_base =? NEG1 then _ ← enviar s (enviar_ok SEGMENTATION_FAULT); mret None
   else
     out_proc ← buscar_proceso q;
     match out_proc with
     | None => _ ← enviar s (enviar_ok SEGMENTATION_FAULT); mret None
     | Some (k, _) => mret (Some (out_base, k))
     end) (avisado s resto m).
Proof.
  intros Hs He. unfold compactar_y_reasignar, compactacion_marcar_inicio. st_unfold.
  cbn [con_progreso m_conexiones]. rewrite Hs, enviar_eq.
  rewrite (recibir_de_ok s _ _ (op_num INICIAR_COMPACTACION)
    (le_enc 8 (Z.of_nat (length (le_enc 4 (-1)))) ++ le_enc 4 (-1) ++ resto)).
  2: { change (entrada s (con_salida _ _ _)) with (entrada s m). rewrite He, enviar_ok_trama, codigo_trama. done. }
  rewrite (recibir_de_ok s recibir_ok _ tt resto).
  2: { rewrite entrada_consumido. refine (recibe_lee _ (le_enc 4 (-1)) tt _ _ resto); [|done].
       eapply lee_bind_last; [apply lee_int|]. apply lee_ret. }
  by rewrite consumido_consumido.
Qed.

(** After the compaction, a request that fits in the free total is granted. *)
Lemma compactar_y_reasignar_ok m ram s q k tam resto :
  mem_inv m ram -> 0 < tam <= total (bloques_libres m) -> procesos m ≫= segmentos <> [] ->
  conexiones_get_scheduler_socket (m_conexiones m) = s ->
  entrada s m = enviar_ok INICIAR_COMPACTACION ++ resto ->
  procesos_buscar q (procesos m) = Some k -> en_progreso m = false ->
  exists m' ram' ps base, compactar_y_reasignar s q tam m = Some (Some (base, k), m') /\
    conserva ram ram' (procesos m) ps /\ base <> NEG1 /\ es_u32 base /\
    m_salidas m' = m_salidas m ++ [(s, enviar_ok INICIAR_COMPACTACION); (s, enviar_ok FINALIZAR_COMPACTACION)] /\
    marco m m' /\ entrada s m' = resto /\
    (forall id, mem_inv (con_procesos (alter (agregar_seg (Segmento id base tam 0)) k (procesos m')) m') ram') /\
    procesos m' = ps.
Proof.
  intros Hm Ht Hne Hs He Hq Hen. destruct (espacio_libre_inv m ram Hm) as [_ Hlib].
  destruct (acceso_tamanio m ram (mi_ram _ _ Hm)) as [_ Hmax].
  set (m1 := avisado s resto m).
  assert (Hm1 : mem_inv m1 ram) by (by apply (mem_inv_igual m)).
  destruct (compactar_memoria_conserva m1 ram (mem_inv_sana _ _ Hm1) Hne)
    as (m2 & ram2 & E2 & Hr2 & Hl2 & Hme & Hps2 & (f & Hf) & Hb2 & Hok2 & Htot2 & Hres2).
  set (m3 := con_salida s (enviar_ok FINALIZAR_COMPACTACION) (con_progreso false m2)).
  assert (Hm3 : mem_inv m3 ram2).
  { apply (mem_inv_igual m2); try done. split; [done| |by rewrite Hl2|by rewrite Hl2].
    rewrite Hf. apply residentes_reubicar_pids, (mi_pids _ _ Hm). }
  pose proof (mi_total _ _ Hm) as Htot. rewrite total_app in Htot.
  assert (Hlib3 : bloques_libres m3 = [Bloque (total (residentes (procesos m))) (total (bloques_libres m))]).
  { cbn [m3 con_salida con_salidas con_progreso bloques_libres]. rewrite Hb2.
    change (procesos m1) with (procesos m). unfold bloques_reset_a_unico.
    replace (Z.of_nat (length ram) - total (residentes (procesos m))) with (total (bloques_libres m)) by lia.
    destruct (Z.gtb_spec (total (bloques_libres m)) 0); [done|lia]. }
  destruct (asignar_casos _ tam m3 (mem_inv_libres _ _ Hm3) ltac:(lia)) as [[_ Hno]|(base & l' & Ha & Hnb & E3)].
  { exfalso. specialize (Hno (Bloque (total (residentes (procesos m))) (total (bloques_libres m)))).
    rewrite Hlib3 in Hno. specialize (Hno ltac:(left)). cbn in Hno. lia. }
  assert (Hq3 : procesos_buscar q (procesos m3) = Some k)
    by (change (procesos m3) with (procesos m2); by rewrite Hf, procesos_buscar_reubicar).
  destruct (procesos_buscar_Some _ _ _ Hq3) as (p3 & Hp3 & _).
  exists (con_libres l' m3), ram2, (procesos m2), base. split; [|split; [|split; [|split; [|split; [|split; [|split; [|split]]]]]]].
  - rewrite (reasignar_avisa s q tam resto m Hs He). change (avisado s resto m) with m1.
    unfold compactacion_marcar_fin. st_unfold. rewrite E2, enviar_eq. fold m3. rewrite E3.
    destruct (Z.eqb_spec base NEG1); [done|].
    rewrite (buscar_proceso_Some q (con_libres l' m3) k p3 Hq3 Hp3). done.
  - exact Hps2.
  - done.
  - destruct (mem_inv_nuevo_segmento m3 ram2 k p3 tam base l' 0 0 Hm3 Hp3 ltac:(lia) Ha Hnb) as (_ & Hb0 & Hb1).
    rewrite Hl2 in Hb1. unfold es_u32. lia.
  - cbn. assert (Es : m_salidas m2 = m_salidas m1) by exact (me_salidas _ _ Hme).
    rewrite Es. cbn. by rewrite <-app_assoc.
  - destruct Hme. by split.
  - pose proof (me_entradas _ _ Hme) as Een. cbn in Een. unfold entrada. cbn. rewrite Een. cbn. by rewrite lookup_insert_eq.
  - intros id. apply (mem_inv_nuevo_segmento m3 ram2 k p3 tam base l' id 0 Hm3 Hp3 ltac:(lia) Ha Hnb).
  - done.
Qed.

(** What the handler needs from the state: the request comes from the scheduler,
    and no compaction is under way. *)
Record peticion_scheduler (m : memoria) (s : Z) (mensaje resto : list byte) : Prop := {
  ps_socket : conexiones_get_scheduler_socket (m_conexiones m) = s;
  ps_valido : 0 <= s;
  ps_libre : en_progreso m = false;
  ps_pendiente : pendiente m s mensaje resto }.

(** The request is read; the rest of the handler follows. *)
Lemma leer_solicitar (k : Z -> Z -> Z -> M unit) m s q id tam resto :
  es_int q -> es_u32 id -> es_u32 tam -> pendiente m s (enviar_solicitar_segmento q id tam) resto ->
  (_ ← recibir_de s validar_buffer;
   si_recibe (campo_int s) (fun a => si_recibe (campo_u32 s) (fun b => si_recibe (campo_u32 s) (k a b)))) m =
  k q id tam (consumido s resto m).
Proof.
  intros Hq Hid Ht Hp. unfold pendiente in Hp. rewrite mensaje_solicitar in Hp.
  exact (leer_peticion3 k s SOLICITAR_SEGMENTO q id tam resto m Hq Hid Ht Hp).
Qed.

Section solicitar.
Context (m : memoria) (ram : list byte) (s q id tam : Z) (resto : list byte).
Hypothesis (Hm : mem_inv m ram) (Hq : es_int q) (Hid : es_u32 id) (Ht : es_u32 tam).
Hypothesis (Hpet : peticion_scheduler m s (enviar_solicitar_segmento q id tam) resto).
Let sms := u32 (segment_max_size (config_memory m)).
Let m1 := consumido s resto m.

Lemma solicitar_negado :
  sms < tam \/ procesos_buscar q (procesos m) = None \/ total (bloques_libres m) < tam ->
  manejar_solicitar_segmento s m = Some (tt, con_salida s (enviar_ok SEGMENTATION_FAULT) m1).
Proof.
  intros Hcases. assert (Hm1 : mem_inv m1 ram) by by apply mem_inv_consumido.
  unfold manejar_solicitar_segmento. rewrite (leer_solicitar _ m s q id tam resto Hq Hid Ht (ps_pendiente _ _ _ _ Hpet)).
  st_unfold. fold m1. cbn [m1 consumido con_entradas config_memory]. fold sms m1.
  destruct (Z.gtb_spec tam sms) as [Hg|Hg]; [done|].
  destruct (procesos_buscar q (procesos m)) as [k|] eqn:Ek; [|by rewrite (buscar_proceso_None q)].
  destruct (procesos_buscar_Some _ _ _ Ek) as (p & Hk & _). rewrite (buscar_proceso_Some q m1 k p Ek Hk).
  destruct Hcases as [Hc|[Hc|Hc]]; [lia|done|]. destruct (espacio_libre_inv _ _ Hm1) as [Hesp _].
  pose proof (mem_inv_libres _ _ Hm1) as Hlib.
  destruct (asignar_casos _ tam m1 Hlib) as [[E _]|(base & l' & Ha & Hnb & E)]; [unfold es_u32 in Ht; lia| |].
  - rewrite E, Z.eqb_refl, Hesp. change (bloques_libres m1) with (bloques_libres m).
    destruct (Z.ltb_spec (total (bloques_libres m)) tam); [done|lia].
  - exfalso. destruct (bloques_asignar_cases (es_worst_fit (allocation_strategy (config_memory m1)))
      (bloques_libres m1) tam) as [[H _]|(i & e & He%list_elem_of_lookup_2 & Hte & _)]; [congruence|].
    pose proof (hueco_le_total _ _ e Hlib He). change (bloques_libres m1) with (bloques_libres m) in *. lia.
Qed.

Context (k : nat).
Hypothesis (Hsms : tam <= sms) (Ek : procesos_buscar q (procesos m) = Some k).

(** A hole is large enough. *)
Lemma solicitar_directa b :
  b ∈ bloques_libres m -> tam <= b_tam b ->
  exists base l', let m' := con_salida s (enviar_respuesta_segmento id base tam)
      (con_procesos (alter (agregar_seg (Segmento id base tam 0)) k (procesos m)) (con_libres l' m1)) in
    manejar_solicitar_segmento s m = Some (tt, m') /\ mem_inv m' ram /\ base <> NEG1 /\ es_u32 base.
Proof.
  intros Hb Hbt. assert (Hm1 : mem_inv m1 ram) by by apply mem_inv_consumido.
  destruct (procesos_buscar_Some _ _ _ Ek) as (p & Hk & _).
  unfold manejar_solicitar_segmento. rewrite (leer_solicitar _ m s q id tam resto Hq Hid Ht (ps_pendiente _ _ _ _ Hpet)).
  st_unfold. fold m1. cbn [m1 consumido con_entradas config_memory]. fold sms m1.
  destruct (Z.gtb_spec tam sms); [lia|]. rewrite (buscar_proceso_Some q m1 k p Ek Hk).
  destruct (asignar_casos _ tam m1 (mem_inv_libres _ _ Hm1)) as [[_ Hno]|(base & l' & Ha & Hnb & E)];
    [unfold es_u32 in Ht; lia|specialize (Hno b Hb); lia|].
  rewrite E. destruct (Z.eqb_spec base NEG1); [done|]. rewrite crear_segmento_eq. exists base, l'.
  destruct (mem_inv_nuevo_segmento m1 ram k p tam base l' id 0 Hm1 Hk) as (Hinv & Hb0 & Hb1); [unfold es_u32 in Ht; lia|done|done|].
  destruct (acceso_tamanio m ram (mi_ram _ _ Hm)) as [_ Hmax].
  split; [done|]. split; [by apply mem_inv_salida|]. split; [done|]. unfold es_u32 in *. lia.
Qed.

(** No hole is, but the free total is: Memory goes on to compact. *)
Lemma solicitar_sin_hueco :
  (forall b, b ∈ bloques_libres m -> b_tam b < tam) -> 0 < tam <= total (bloques_libres m) ->
  manejar_solicitar_segmento s m =
  (r ← compactar_y_reasignar s q tam;
   match r with None => mret tt | Some (base, k) => crear_segmento s k id base tam end) m1.
Proof.
  intros Hno Htt. assert (Hm1 : mem_inv m1 ram) by by apply mem_inv_consumido.
  destruct (procesos_buscar_Some _ _ _ Ek) as (p & Hk & _). destruct (espacio_libre_inv _ _ Hm1) as [Hesp _].
  unfold manejar_solicitar_segmento. rewrite (leer_solicitar _ m s q id tam resto Hq Hid Ht (ps_pendiente _ _ _ _ Hpet)).
  st_unfold. fold m1. cbn [m1 consumido con_entradas config_memory]. fold sms m1.
  destruct (Z.gtb_spec tam sms); [lia|]. rewrite (buscar_proceso_Some q m1 k p Ek Hk).
  destruct (asignar_casos _ tam m1 (mem_inv_libres _ _ Hm1)) as [[E _]|(base & l' & Ha & Hnb0 & _)]; [lia| |].
  2: { exfalso. destruct (bloques_asignar_cases (es_worst_fit (allocation_strategy (config_memory m1)))
        (bloques_libres m1) tam) as [[Hx _]|(i & e & He%list_elem_of_lookup_2 & Hte & _)]; [congruence|].
       specialize (Hno e He). lia. }
  rewrite E, Z.eqb_refl, Hesp. change (bloques_libres m1) with (bloques_libres m).
  destruct (Z.ltb_spec (total (bloques_libres m)) tam); [lia|].
  done.
Qed.

(** A compaction, agreed with the scheduler. *)
Lemma solicitar_compactando resto' :
  (forall b, b ∈ bloques_libres m -> b_tam b < tam) -> 0 < tam <= total (bloques_libres m) ->
  procesos m ≫= segmentos <> [] -> resto = enviar_ok INICIAR_COMPACTACION ++ resto' ->
  exists m' ram' ps base, manejar_solicitar_segmento s m = Some (tt, m') /\
    mem_inv m' ram' /\ conserva ram ram' (procesos m) ps /\ base <> NEG1 /\ es_u32 base /\
    procesos m' = alter (agregar_seg (Segmento id base tam 0)) k ps /\
    m_salidas m' = m_salidas m ++ [(s, enviar_ok INICIAR_COMPACTACION); (s, enviar_ok FINALIZAR_COMPACTACION);
                                   (s, enviar_respuesta_segmento id base tam)] /\
    marco m m' /\ entrada s m' = resto'.
Proof.
  intros Hno Htt Hne Hresto. assert (Hm1 : mem_inv m1 ram) by by apply mem_inv_consumido.
  destruct (procesos_buscar_Some _ _ _ Ek) as (p & Hk & _). destruct (espacio_libre_inv _ _ Hm1) as [Hesp _].
  destruct Hpet as [Hs Hs0 Hen Hp].
  rewrite (solicitar_sin_hueco Hno Htt). unfold mbind, ST_bind.
  destruct (compactar_y_reasignar_ok m1 ram s q k tam resto' Hm1 Htt Hne Hs)
    as (m2 & ram2 & ps & base & E2 & Hc & Hnb & Hub & Hsal & Hma & He2 & Hinv & Hps);
    [etrans; [apply entrada_consumido|exact Hresto]|exact Ek|exact Hen|].
  rewrite E2, crear_segmento_eq.
  eexists _, ram2, ps, base. split; [done|]. split; [apply mem_inv_salida, Hinv|].
  split; [exact Hc|]. split; [done|]. split; [done|]. split; [cbn; by rewrite Hps|].
  split; [cbn; rewrite Hsal; by rewrite <-app_assoc|]. split; [|done]. destruct Hma. by split.
Qed.

(** Without segments there is nothing to compact, and the fault is answered. *)
Lemma solicitar_sin_segmentos resto' :
  (forall b, b ∈ bloques_libres m -> b_tam b < tam) -> 0 < tam <= total (bloques_libres m) ->
  procesos m ≫= segmentos = [] -> resto = enviar_ok INICIAR_COMPACTACION ++ resto' ->
  manejar_solicitar_segmento s m =
  Some (tt, con_salidas (m_salidas m ++ [(s, enviar_ok INICIAR_COMPACTACION); (s, enviar_ok FINALIZAR_COMPACTACION);
                                         (s, enviar_ok SEGMENTATION_FAULT)]) (consumido s resto' m)).
Proof.
  intros Hno Htt Hne Hresto. assert (Hm1 : mem_inv m1 ram) by by apply mem_inv_consumido.
  rewrite (solicitar_sin_hueco Hno Htt).
  assert (He : entrada s m1 = enviar_ok INICIAR_COMPACTACION ++ resto') by (etrans; [apply entrada_consumido|exact Hresto]).
  unfold mbind at 1, ST_bind at 1. rewrite (reasignar_avisa s q tam resto' m1 (ps_socket _ _ _ _ Hpet) He).
  set (m2 := avisado s resto' m1).
  assert (Ec : compactar_memoria m2 = Some (tt, m2)).
  { unfold compactar_memoria. st_unfold. change (procesos m2) with (procesos m).
    assert (E : fold_left (fun n p => n + length (segmentos p))%nat (procesos m) O = O).
    { assert (H : forall ps n, ps ≫= segmentos = [] -> fold_left (fun n p => n + length (segmentos p))%nat ps n = n).
      { induction ps as [|p ps IH]; intros n Hps; [done|]. cbn in Hps. apply app_eq_nil in Hps as [Hp Hps].
        cbn. rewrite Hp, Nat.add_0_r. by apply IH. }
      by apply H. }
    by rewrite E. }
  set (m3 := con_salida s (enviar_ok FINALIZAR_COMPACTACION) (con_progreso false m2)).
  assert (Ea : asignar tam m3 = Some (NEG1, m3)).
  { destruct (asignar_casos (Z.of_nat (length ram)) tam m3) as [[E _]|(base & l' & Ha & Hnb & _)];
      [exact (mem_inv_libres _ _ Hm1)|lia|done|]. exfalso.
    destruct (bloques_asignar_cases (es_worst_fit (allocation_strategy (config_memory m3))) (bloques_libres m3) tam)
      as [[Hx _]|(i & e & He'%list_elem_of_lookup_2 & Hte & _)]; [congruence|]. specialize (Hno e He'). lia. }
  unfold compactacion_marcar_fin. st_unfold. rewrite Ec, enviar_eq. fold m3. rewrite Ea, Z.eqb_refl, enviar_eq.
  destruct Hpet as [_ _ Hen _]. f_equal. f_equal. unfold m3, m2, m1, con_salida, avisado, consumido, con_salidas, con_entradas, con_progreso.
  cbn. rewrite insert_insert_eq, <-!app_assoc. cbn in Hen. by rewrite Hen.
Qed.
End solicitar.

(** C17: a segment request of the Scheduler, in the four cases of the handler.
    (1) It exceeds the maximum, the process is unknown or the free total is too
    small: it is refused with [SEGMENTATION_FAULT], and Memory is as it was. For a
    size that passes those checks, (2) when a hole is large enough it is granted at
    once, nothing else moves and only the answer is sent. When none is, and the
    Scheduler's acknowledgement of a compaction follows the request, for a size
    above 0: (3) if some process has a segment, Memory announces the compaction,
    compacts, announces its end and grants the segment; no byte of any other segment
    is lost; (4) if none has any, there is nothing to compact: after the two
    announcements the request is refused, and Memory is as it was. A granted segment
    is added to its process, with its identifier and size, and the invariant (no
    address used twice, none lost) holds. *)
Theorem solicitar_segmento_correcto m ram s q id tam resto :
  let sms := u32 (segment_max_size (config_memory m)) in
  let hueco := exists b, b ∈ bloques_libres m /\ tam <= b_tam b in
  let avisos := [(s, enviar_ok INICIAR_COMPACTACION); (s, enviar_ok FINALIZAR_COMPACTACION)] in
  mem_inv m ram -> es_int q -> es_u32 id -> es_u32 tam ->
  peticion_scheduler m s (enviar_solicitar_segmento q id tam) resto ->
  ((sms < tam \/ procesos_buscar q (procesos m) = None \/ total (bloques_libres m) < tam) ->
   manejar_solicitar_segmento s m =
   Some (tt, con_salida s (enviar_ok SEGMENTATION_FAULT) (consumido s resto m))) /\
  (forall k, tam <= sms -> procesos_buscar q (procesos m) = Some k -> tam <= total (bloques_libres m) ->
   (hueco ->
    exists m' base, manejar_solicitar_segmento s m = Some (tt, m') /\
     mem_inv m' ram /\ base <> NEG1 /\
     procesos m' = alter (agregar_seg (Segmento id base tam 0)) k (procesos m) /\
     m_salidas m' = m_salidas m ++ [(s, enviar_respuesta_segmento id base tam)] /\ en_progreso m' = false) /\
   (~ hueco -> 0 < tam -> forall resto', resto = enviar_ok INICIAR_COMPACTACION ++ resto' ->
    (procesos m ≫= segmentos <> [] ->
     exists m' ram' ps base, manejar_solicitar_segmento s m = Some (tt, m') /\
      mem_inv m' ram' /\ conserva ram ram' (procesos m) ps /\ base <> NEG1 /\
      procesos m' = alter (agregar_seg (Segmento id base tam 0)) k ps /\
      m_salidas m' = m_salidas m ++ avisos ++ [(s, enviar_respuesta_segmento id base tam)] /\ en_progreso m' = false) /\
    (procesos m ≫= segmentos = [] ->
     manejar_solicitar_segmento s m =
     Some (tt, con_salidas (m_salidas m ++ avisos ++ [(s, enviar_ok SEGMENTATION_FAULT)]) (consumido s resto' m))))).
Proof.
  intros sms hueco avisos Hm Hq Hid Ht Hpet. split; [by apply (solicitar_negado m ram s q id tam)|].
  intros k Hg Ek Hesp. split.
  - intros (b & Hb & Hbt).
    destruct (solicitar_directa m ram s q id tam resto Hm Hq Hid Ht Hpet k Hg Ek b Hb Hbt) as (base & l' & E & Hi & Hnb & _).
    eexists _, base. split; [exact E|]. split; [exact Hi|]. split_and!; [done..|]. exact (ps_libre _ _ _ _ Hpet).
  - intros Hh Ht0 resto' Hr.
    assert (Hno : forall b, b ∈ bloques_libres m -> b_tam b < tam).
    { intros b Hin. destruct (decide (tam <= b_tam b)); [|lia]. exfalso. apply Hh. by exists b. }
    split; intros Hne.
    + destruct (solicitar_compactando m ram s q id tam resto Hm Hq Hid Ht Hpet k Hg Ek resto' Hno ltac:(done) Hne Hr)
        as (m' & ram' & ps & base & E & Hi & Hc & Hnb & _ & Hps & Hsal & Hma & _).
      exists m', ram', ps, base. split_and!; [done..|]. by rewrite (ma_progreso _ _ Hma), (ps_libre _ _ _ _ Hpet).
    + exact (solicitar_sin_segmentos m ram s q id tam resto Hm Hq Hid Ht Hpet k Hg Ek resto' Hno ltac:(done) Hne Hr).
Qed.

(** ** [manejar_eliminar_segmento] and [manejar_finalizar_proceso] *)

(** The messages that follow the answer when memory was freed. *)
Definition aviso_liberada (m : memoria) : list (Z * list byte) :=
  let sched := conexiones_get_scheduler_socket (m_conexiones m) in
  if sched >=? 0 then [(sched, enviar_memoria_liberada)] else [].

Lemma notificar_eq m :
  notificar_memoria_liberada m = Some (tt, con_salidas (m_salidas m ++ aviso_liberada m) m).
Proof.
  unfold notificar_memoria_liberada, aviso_liberada. st_unfold.
  destruct (_ >=? 0); [done|]. rewrite app_nil_r. by destruct m.
Qed.

Lemma mem_inv_salidas l m ram : mem_inv m ram -> mem_inv (con_salidas l m) ram.
Proof. intros H. by apply (mem_inv_igual m). Qed.

(** Deleting a resident segment answers, frees exactly its range, takes only
    that segment from its process and tells the scheduler that memory was freed;
    an unknown process or segment is answered and changes nothing. *)
Theorem eliminar_segmento_correcto m ram s q id resto :
  mem_inv m ram -> es_int q -> es_u32 id ->
  pendiente m s (enviar_eliminar_segmento q id) resto ->
  ((forall k p, procesos_buscar q (procesos m) = Some k -> procesos m !! k = Some p ->
      buscar_segmento id (segmentos p) = None) ->
   manejar_eliminar_segmento s m = Some (tt, con_salida s (enviar_ok ELIMINAR_SEGMENTO) (consumido s resto m))) /\
  (forall k p i seg, procesos_buscar q (procesos m) = Some k -> procesos m !! k = Some p ->
   indice_de (fun s => s_id s =? id) (segmentos p) = Some i -> segmentos p !! i = Some seg ->
   s_base seg <> NEG1 ->
   exists m', manejar_eliminar_segmento s m = Some (tt, m') /\ mem_inv m' ram /\
     procesos m' = alter (fun p => con_segmentos (delete i (segmentos p)) p) k (procesos m) /\
     (forall x, libre (bloques_libres m') x <->
        libre (bloques_libres m) x \/ en_rango (s_base seg) (s_limite seg) x) /\
     m_salidas m' = m_salidas m ++ [(s, enviar_ok ELIMINAR_SEGMENTO)] ++ aviso_liberada m /\
     marco m m' /\ entrada s m' = resto).
Proof.
  intros Hm Hq Hid Hp. unfold pendiente in Hp.
  assert (Hmsg : enviar_eliminar_segmento q id = trama ELIMINAR_SEGMENTO (le_enc 4 q ++ le_enc 4 id))
    by apply mensaje2. rewrite Hmsg in Hp.
  set (m1 := consumido s resto m). assert (Hm1 : mem_inv m1 ram) by by apply mem_inv_consumido.
  assert (Hread : forall k, (_ ← recibir_de s validar_buffer;
     si_recibe (campo_int s) (fun a => si_recibe (campo_u32 s) (k a))) m = k q id m1)
    by (intros h; exact (leer_peticion2 h s ELIMINAR_SEGMENTO q id resto m Hq Hid Hp)).
  unfold manejar_eliminar_segmento. split.
  - intros Hno. rewrite Hread. st_unfold.
    destruct (procesos_buscar q (procesos m)) as [k|] eqn:Ek.
    2: { by rewrite (buscar_proceso_None q). }
    destruct (procesos_buscar_Some _ _ _ Ek) as (p & Hk & _).
    rewrite (buscar_proceso_Some q m1 k p Ek Hk).
    specialize (Hno k p eq_refl Hk). unfold buscar_segmento in Hno.
    destruct (indice_de _ (segmentos p)) as [i|] eqn:Ei; [|done].
    apply indice_de_Some in Ei as (seg & Hseg & _). cbn in Hno. congruence.
  - intros k p i seg Ek Hk Ei Hi Hb. rewrite Hread. st_unfold.
    rewrite (buscar_proceso_Some q m1 k p Ek Hk), Ei, Hi. unfold liberar, modificar_proceso. st_unfold.
    rewrite enviar_eq, notificar_eq.
    pose proof (mem_inv_quitar_segmento m1 ram k p i seg Hm1 Hk Hi Hb) as Hinv.
    eexists. split; [done|]. split; [by apply mem_inv_salidas, mem_inv_salida|]. split; [done|].
    split; [|split; [cbn; by rewrite <-app_assoc|split; [done|apply entrada_consumido]]].
    pose proof (mi_particion _ _ Hm) as Hpar.
    rewrite (residentes_medio (procesos m) k p Hk), (residentes_seg_delete _ i seg Hi) in Hpar.
    destruct (Z.eqb_spec (s_base seg) NEG1); [done|]. cbn [app] in Hpar.
    apply bloques_ok_app in Hpar as (Hl & Hr & Hx).
    cbn [con_salidas con_salida con_procesos con_libres bloques_libres].
    apply (bloques_liberar_ok (Z.of_nat (length ram))); [done|]. split.
    + destruct Hr as [Hr _]. by apply Forall_cons in Hr as [Hr _].
    + intros x Hx1 Hx2. apply (Hx x Hx2). rewrite libre_cons. by left.
Qed.

(** The loop of [manejar_finalizar_proceso]. *)
Lemma liberar_segmentos_ok segs b m lim r :
  bloques_ok lim (bloques_libres m ++ residentes_seg segs ++ r) ->
  exists l', liberar_segmentos segs b m =
    Some (b || negb (bool_decide (residentes_seg segs = [])), con_libres l' m) /\
  bloques_ok lim (l' ++ r) /\
  total (l' ++ r) = total (bloques_libres m ++ residentes_seg segs ++ r).
Proof.
  revert b m. induction segs as [|seg segs IH]; intros b m Hok.
  { exists (bloques_libres m). cbn. rewrite con_libres_igual, orb_false_r. done. }
  cbn [liberar_segmentos]. rewrite residentes_seg_cons in *.
  destruct (Z.eqb_spec (s_base seg) NEG1) as [E|E]; cbn [negb app] in *; [by apply IH|].
  destruct (particion_liberar _ _ _ _ _ Hok) as [Hok' Htot].
  unfold mbind, ST_bind, liberar, st_mod.
  destruct (IH true (con_libres (bloques_liberar (bloques_libres m) (s_base seg) (s_limite seg)) m) Hok')
    as (l' & E' & Hl' & Ht'). rewrite E'. exists l'. cbn [orb negb bool_decide].
  rewrite bool_decide_false by done. cbn [negb]. rewrite orb_true_r. split; [done|]. split; [done|].
  rewrite Ht'. exact Htot.
Qed.

(** Finishing a process frees every range it held in RAM, takes the process
    away, answers, and tells the scheduler when something was freed; an unknown
    process is only answered. *)
Theorem finalizar_proceso_correcto m ram s q resto :
  mem_inv m ram -> es_int q -> pendiente m s (enviar_finalizar_proceso_memory q) resto ->
  (procesos_buscar q (procesos m) = None ->
   manejar_finalizar_proceso s m = Some (tt, con_salida s (enviar_ok FINALIZAR_PROCESO) (consumido s resto m))) /\
  (forall k p, procesos_buscar q (procesos m) = Some k -> procesos m !! k = Some p ->
   exists m', manejar_finalizar_proceso s m = Some (tt, m') /\ mem_inv m' ram /\
     procesos m' = delete k (procesos m) /\
     total (bloques_libres m') = total (bloques_libres m) + total (residentes_seg (segmentos p)) /\
     m_salidas m' = m_salidas m ++ [(s, enviar_ok FINALIZAR_PROCESO)] ++
       (if bool_decide (residentes_seg (segmentos p) = []) then [] else aviso_liberada m) /\
     marco m m' /\ entrada s m' = resto).
Proof.
  intros Hm Hq Hp. unfold pendiente in Hp.
  assert (Hmsg : enviar_finalizar_proceso_memory q = trama FINALIZAR_PROCESO (le_enc 4 q))
    by apply mensaje1. rewrite Hmsg in Hp.
  set (m1 := consumido s resto m). assert (Hm1 : mem_inv m1 ram) by by apply mem_inv_consumido.
  assert (Hread : forall k, (_ ← recibir_de s validar_buffer; si_recibe (campo_int s) k) m = k q m1)
    by (intros h; exact (leer_peticion1 h s FINALIZAR_PROCESO q resto m Hq Hp)).
  unfold manejar_finalizar_proceso. split.
  - intros Ek. rewrite Hread. st_unfold. by rewrite (buscar_proceso_None q).
  - intros k p Ek Hk. rewrite Hread. st_unfold. rewrite (buscar_proceso_Some q m1 k p Ek Hk).
    pose proof (mi_particion _ _ Hm1) as Hpar. change (procesos m1) with (procesos m) in Hpar.
    rewrite (residentes_medio (procesos m) k p Hk) in Hpar.
    destruct (liberar_segmentos_ok (segmentos p) false m1 _ _ Hpar) as (l' & E & Hl' & Ht').
    rewrite E. unfold procesos_quitar_en. st_unfold. rewrite enviar_eq. cbn [orb].
    set (m2 := con_salida s (enviar_ok FINALIZAR_PROCESO) (con_procesos (delete k (procesos (con_libres l' m1))) (con_libres l' m1))).
    assert (Hm2 : mem_inv m2 ram).
    { split.
      - apply (acceso_estable m); [apply (mi_ram _ _ Hm)|done|done].
      - cbn. apply Forall_delete, (mi_pids _ _ Hm).
      - exact Hl'.
      - etrans; [exact Ht'|]. change (bloques_libres m1) with (bloques_libres m).
        rewrite <-(mi_total _ _ Hm). by rewrite (residentes_medio (procesos m) k p Hk). }
    assert (Htot : total l' = total (bloques_libres m) + total (residentes_seg (segmentos p))).
    { rewrite !total_app in Ht'. change (bloques_libres m1) with (bloques_libres m) in Ht'. lia. }
    destruct (bool_decide (residentes_seg (segmentos p) = [])); cbn [negb].
    + exists m2. do 4 (split; [done|]). split; [done|]. split; [done|]. apply entrada_consumido.
    + rewrite notificar_eq. eexists. split; [done|]. split; [by apply mem_inv_salidas|].
      split; [done|]. split; [done|]. split; [cbn; by rewrite <-app_assoc|]. split; [done|]. apply entrada_consumido.
Qed.

(** ** [manejar_lectura_memoria] and [manejar_escritura_memoria] *)

(** The segment that an access of the process [q] falls in: the [i]-th of the
    [k]-th process. *)
Definition acceso_de (m : memoria) (q dir tam : Z) (k i : nat) (seg : t_segmento) : Prop :=
  let sms := segment_max_size (config_memory m) in
  procesos_buscar q (procesos m) = Some k /\
  exists p, procesos m !! k = Some p /\
    indice_de (fun s => s_id s =? dir / sms) (segmentos p) = Some i /\ segmentos p !! i = Some seg /\
    s_base seg <> NEG1 /\ dir mod sms + tam <= s_limite seg.

(** The segments as the code builds them: 32-bit fields. *)
Definition segmentos_bien (m : memoria) : Prop :=
  Forall (fun p => Forall segmento_ok (segmentos p)) (procesos m).

Lemma residente_en_ram m ram k p seg :
  mem_inv m ram -> procesos m !! k = Some p -> seg ∈ segmentos p -> s_base seg <> NEG1 ->
  0 <= s_base seg /\ 0 <= s_limite seg /\ s_base seg + s_limite seg <= Z.of_nat (length ram).
Proof.
  intros Hm Hk Hs Hb. pose proof (mem_inv_sana _ _ Hm) as [_ _ [Hr _]].
  rewrite Forall_forall in Hr. specialize (Hr (bloque_de seg)).
  assert (Hin : bloque_de seg ∈ residentes (procesos m)).
  { unfold residentes. apply list_elem_of_bind. exists p. split; [|by apply list_elem_of_lookup_2 in Hk].
    apply list_elem_of_fmap_2, list_elem_of_filter. done. }
  specialize (Hr Hin). unfold bloque_en in Hr. cbn in Hr. lia.
Qed.

Lemma buscar_segmento_elem id l seg : buscar_segmento id l = Some seg -> seg ∈ l.
Proof.
  unfold buscar_segmento. destruct (indice_de _ l) as [i|]; [|done]. cbn.
  apply list_elem_of_lookup_2.
Qed.

(** The translation, inside a handler. *)
Lemma traducir_handler m ram k p dir tam s :
  mem_inv m ram -> segmentos_bien m -> procesos m !! k = Some p ->
  let sms := segment_max_size (config_memory m) in
  0 < sms < 4294967296 -> es_u32 dir -> 0 <= tam -> dir mod sms + tam < 4294967296 -> 0 <= s ->
  (exists seg, acceso_valido (segmentos p) sms dir tam seg /\
     traducir_dir_logica p dir tam s m = Some (s_base seg + dir mod sms, m) /\
     0 <= s_base seg + dir mod sms /\ s_base seg + dir mod sms + tam <= Z.of_nat (length ram)) \/
  ((forall seg, ~ acceso_valido (segmentos p) sms dir tam seg) /\
   traducir_dir_logica p dir tam s m = Some (NEG1, con_salida s (enviar_ok SEGMENTATION_FAULT) m)).
Proof.
  intros Hm Hsb Hk sms Hs Hd Ht Hw Hsock. pose proof (Forall_lookup_1 _ _ _ _ Hsb Hk) as Hok. cbn in Hok.
  pose proof (Z.mod_pos_bound dir sms ltac:(lia)).
  destruct (acceso_tamanio m ram (mi_ram _ _ Hm)) as [_ Hmax].
  assert (Hlim : Forall (fun s => s_base s <> NEG1 -> s_base s + s_limite s < 4294967296) (segmentos p)).
  { apply Forall_forall. intros seg Hseg Hb. destruct (residente_en_ram m ram k p seg Hm Hk Hseg Hb). lia. }
  unfold traducir_dir_logica. st_unfold. fold sms.
  destruct (traducir_spec sms (segmentos p) dir tam Hs Hd Ht Hw Hlim Hok) as [(seg & Ha & E)|(Hno & E)]; rewrite E.
  - left. exists seg. split; [done|]. split; [done|]. destruct Ha as (E1 & Hb & Hl).
    apply buscar_segmento_elem in E1. destruct (residente_en_ram m ram k p seg Hm Hk E1 Hb). lia.
  - right. split; [done|]. destruct (Z.geb_spec s 0); [done|lia].
Qed.

(** What both handlers require: the access arrives from the scheduler, the sizes
    do not wrap around. *)
Record acceso_pedido (m : memoria) (s q dir tam : Z) (mensaje resto : list byte) : Prop := {
  ap_pid : es_int q;
  ap_dir : es_u32 dir;
  ap_tam : es_u32 tam;
  ap_sms : 0 < segment_max_size (config_memory m) < 4294967296;
  ap_suma : dir mod segment_max_size (config_memory m) + tam < 4294967296;
  ap_socket : 0 <= s;
  ap_progreso : en_progreso m = false;
  ap_pendiente : pendiente m s mensaje resto }.

(** The outcome of translating for the process [q]. *)
Lemma acceso_casos m ram s q dir tam :
  mem_inv m ram -> segmentos_bien m -> es_u32 dir -> 0 <= tam -> 0 <= s ->
  let sms := segment_max_size (config_memory m) in
  0 < sms < 4294967296 -> dir mod sms + tam < 4294967296 ->
  (exists k i p seg, acceso_de m q dir tam k i seg /\ buscar_proceso q m = Some (Some (k, p), m) /\
     traducir_dir_logica p dir tam s m = Some (s_base seg + dir mod sms, m) /\
     0 <= s_base seg + dir mod sms /\ s_base seg + dir mod sms + tam <= Z.of_nat (length ram)) \/
  ((forall k i seg, ~ acceso_de m q dir tam k i seg) /\
   (buscar_proceso q m = Some (None, m) \/
    exists k p, buscar_proceso q m = Some (Some (k, p), m) /\
      traducir_dir_logica p dir tam s m = Some (NEG1, con_salida s (enviar_ok SEGMENTATION_FAULT) m))).
Proof.
  intros Hm Hsb Hd Ht Hs sms Hsms Hw. destruct (procesos_buscar q (procesos m)) as [k|] eqn:Ek.
  2: { right. split; [|left; by apply buscar_proceso_None]. intros k i seg (E & _). congruence. }
  destruct (procesos_buscar_Some _ _ _ Ek) as (p & Hk & _).
  destruct (traducir_handler m ram k p dir tam s Hm Hsb Hk Hsms Hd Ht Hw Hs)
    as [(seg & (Hb & Hne & Hl) & E & Hr)|(Hno & E)].
  - left. unfold buscar_segmento in Hb. destruct (indice_de _ (segmentos p)) as [i|] eqn:Ei; [|done].
    cbn in Hb. exists k, i, p, seg. split; [|split; [by apply buscar_proceso_Some|done]].
    split; [done|]. exists p. by split_and!.
  - right. split.
    + intros k' i seg (E' & p' & Hk' & Hi & Hseg & Hne & Hl). simplify_eq.
      apply (Hno seg). split; [|done]. unfold buscar_segmento. by rewrite Hi.
    + right. exists k, p. split; [by apply buscar_proceso_Some|done].
Qed.

Lemma mensaje_lectura q dir tam :
  enviar_lectura_memoria q dir tam = trama LECTURA_MEMORIA (le_enc 4 q ++ le_enc 4 dir ++ le_enc 4 tam).
Proof. apply mensaje3. Qed.

Lemma acceso_de_consumido m s r q dir tam k i seg :
  acceso_de (consumido s r m) q dir tam k i seg <-> acceso_de m q dir tam k i seg.
Proof. done. Qed.

Lemma esperar_libre {A} (k : M A) m : en_progreso m = false -> (_ ← esperar_compactacion; k) m = k m.
Proof. intros H. unfold esperar_compactacion, compactacion_en_progreso. st_unfold. by rewrite H. Qed.

(** A read of logical memory answers the bytes of the segment it falls in,
    or one [SEGMENTATION_FAULT] (unknown process, no such segment, past its
    limit, segment in swap); either way nothing else changes. *)
Theorem lectura_memoria_correcta m ram s q dir tam resto :
  mem_inv m ram -> segmentos_bien m ->
  acceso_pedido m s q dir tam (enviar_lectura_memoria q dir tam) resto ->
  (forall k i seg, acceso_de m q dir tam k i seg ->
   exists datos, leer_buffer ram (s_base seg + dir mod segment_max_size (config_memory m)) tam = Some datos /\
     manejar_lectura_memoria s m =
     Some (tt, con_salida s (enviar_respuesta_lectura datos) (consumido s resto m))) /\
  ((forall k i seg, ~ acceso_de m q dir tam k i seg) ->
   manejar_lectura_memoria s m =
   Some (tt, con_salida s (enviar_ok SEGMENTATION_FAULT) (consumido s resto m))).
Proof.
  intros Hm Hsb [Hq Hd Ht Hsms Hw Hs Hen Hp]. unfold pendiente in Hp. rewrite mensaje_lectura in Hp.
  set (m1 := consumido s resto m). assert (Hm1 : mem_inv m1 ram) by by apply mem_inv_consumido.
  assert (Hread : forall k, (_ ← recibir_de s validar_buffer;
     si_recibe (campo_int s) (fun a => si_recibe (campo_u32 s) (fun b => si_recibe (campo_u32 s) (k a b)))) m
     = k q dir tam m1)
    by (intros h; exact (leer_peticion3 h s LECTURA_MEMORIA q dir tam resto m Hq Hd Ht Hp)).
  assert (Ht0 : 0 <= tam) by (unfold es_u32 in Ht; lia).
  destruct (acceso_tamanio m ram (mi_ram _ _ Hm)) as [_ Hmax].
  eassert (Hrun : manejar_lectura_memoria s m = _).
  { unfold manejar_lectura_memoria. rewrite esperar_libre by done. apply Hread. }
  rewrite Hrun. clear Hrun Hread.
  destruct (acceso_casos m1 ram s q dir tam Hm1 Hsb Hd Ht0 Hs Hsms Hw)
    as [(k & i & p & seg & Ha & Eb & Et & Hr0 & Hr1)|(Hno & [Eb|(k & p & Eb & Et)])]; st_unfold; rewrite Eb.
  - split; [|intros Hno; by destruct (Hno k i seg)]. intros k' i' seg' (E1 & p' & E2 & E3 & E4 & _).
    destruct Ha as (F1 & p'' & F2 & F3 & F4 & _). change (procesos m1) with (procesos m) in *.
    change (config_memory m1) with (config_memory m) in *. simplify_eq.
    set (d := s_base seg + dir mod segment_max_size (config_memory m)) in *.
    rewrite Et. destruct (Z.eqb_spec d NEG1) as [E|_]; [unfold NEG1 in E; lia|].
    rewrite (acceso_leer m1 ram q d tam (mi_ram _ _ Hm1) Hq Hr0 Ht0 Hr1).
    destruct (leer_buffer ram d tam) as [datos|] eqn:El; [by exists datos|].
    unfold leer_buffer in El. destruct (Z.leb_spec (d + tam) (Z.of_nat (length ram))); [done|lia].
  - split; [intros k i seg Ha; by destruct (Hno k i seg)|by intros _].
  - split; [intros k' i seg Ha; by destruct (Hno k' i seg)|]. intros _. by rewrite Et.
Qed.

(** ** Writing *)

(** Two different segments of the processes share no address. *)
Lemma residentes_ajenos m ram k1 i1 p1 s1 k2 i2 p2 s2 :
  mem_inv m ram -> (k1, i1) <> (k2, i2) ->
  procesos m !! k1 = Some p1 -> segmentos p1 !! i1 = Some s1 -> s_base s1 <> NEG1 ->
  procesos m !! k2 = Some p2 -> segmentos p2 !! i2 = Some s2 -> s_base s2 <> NEG1 ->
  ajenos (bloque_de s1) (bloque_de s2).
Proof.
  intros Hm Hne Hk1 Hi1 Hb1 Hk2 Hi2 Hb2. destruct (mem_inv_sana _ _ Hm) as [_ _ [_ Hd]].
  rewrite <-(entradas_residentes 0) in Hd.
  pose proof (elem_of_entradas_0 _ _ _ _ _ Hk1 Hi1 Hb1) as H1.
  pose proof (elem_of_entradas_0 _ _ _ _ _ Hk2 Hi2 Hb2) as H2.
  apply list_elem_of_lookup in H1 as (a & Ha), H2 as (b & Hb).
  assert (Hab : a <> b) by (intros ->; simplify_eq).
  assert (H : forall (l : list t_seg_entrada) a b x y, por_pares ajenos (bloque_de ∘ e_s <$> l) ->
    (a < b)%nat -> l !! a = Some x -> l !! b = Some y -> ajenos (bloque_de (e_s x)) (bloque_de (e_s y))).
  { clear. induction l as [|e l IH]; intros a b x y Hd Hlt Hx Hy; [done|]. cbn in Hd. destruct Hd as [Hf Hd].
    destruct b as [|b]; [lia|]. destruct a as [|a].
    - injection Hx as ->. rewrite Forall_forall in Hf. apply Hf.
      apply list_elem_of_fmap. exists y. split; [done|]. exact (list_elem_of_lookup_2 l b y Hy).
    - apply (IH a b x y Hd); [lia|done|done]. }
  destruct (Nat.lt_trichotomy a b) as [Hlt|[Heq|Hlt]]; [|done|].
  - by apply (H _ a b _ _ Hd Hlt Ha Hb).
  - symmetry. by apply (H _ b a _ _ Hd Hlt Hb Ha).
Qed.

Lemma mensaje_escritura q dir datos :
  datos_ok datos ->
  enviar_escritura_memoria q dir datos =
  trama ESCRITURA_MEMORIA (le_enc 4 q ++ le_enc 4 dir ++ le_enc 4 (Z.of_nat (length datos)) ++ datos).
Proof.
  intros Hd. apply enviar_construido.
  - rewrite !app_assoc. apply construye_agregar, construye_agregar, construye_agregar, (construye_agregar _ _ []), construye_crear.
  - unfold MAX_PAYLOAD, datos_ok in *. autorewrite with largo. lia.
Qed.

(** The four fields of a write, as the handler reads them. *)
Lemma leer_peticion_escritura (k : Z -> Z -> Z -> list byte -> M unit) s q dir datos resto m :
  es_int q -> es_u32 dir -> datos_ok datos ->
  pendiente m s (enviar_escritura_memoria q dir datos) resto ->
  (_ ← recibir_de s validar_buffer;
   si_recibe (campo_int s) (fun a => si_recibe (campo_u32 s) (fun b => si_recibe (campo_u32 s) (fun c =>
     si_recibe (recv_campo s (Z.to_nat c)) (k a b c))))) m
  = k q dir (Z.of_nat (length datos)) datos (consumido s resto m).
Proof.
  intros Hq Hd Hdat Hp. unfold pendiente in Hp. rewrite mensaje_escritura in Hp by done.
  rewrite cuerpo_trama, <-!app_assoc in Hp. unfold mbind at 1, ST_bind at 1.
  rewrite (recibir_validar s (le_enc 4 q ++ le_enc 4 dir ++ le_enc 4 (Z.of_nat (length datos)) ++ datos) resto);
    [|by rewrite Hp, <-!app_assoc|unfold MAX_PAYLOAD, datos_ok in *; autorewrite with largo; lia].
  erewrite si_recibe_ok; [|apply campo_int_ok; [rewrite entrada_consumido, <-!app_assoc; done|done]].
  erewrite si_recibe_ok; [|apply campo_u32_ok; [by rewrite consumido_consumido, entrada_consumido|done]].
  erewrite si_recibe_ok; [|apply campo_u32_ok;
    [by rewrite !consumido_consumido, entrada_consumido|unfold es_u32, datos_ok in *; lia]].
  erewrite si_recibe_ok; [|apply (recv_campo_ok s _ datos resto);
    [by rewrite !consumido_consumido, entrada_consumido|lia]].
  by rewrite !consumido_consumido.
Qed.

(** A write to logical memory changes exactly the bytes it names, inside the
    segment it falls in: every other segment of every process keeps its bytes,
    and the write is acknowledged; an access that is not valid gets one
    [SEGMENTATION_FAULT] and writes nothing. *)
Theorem escritura_memoria_correcta m ram s q dir datos resto :
  let tam := Z.of_nat (length datos) in
  mem_inv m ram -> segmentos_bien m -> datos_ok datos ->
  acceso_pedido m s q dir tam (enviar_escritura_memoria q dir datos) resto ->
  (forall k i seg, acceso_de m q dir tam k i seg ->
   exists m' ram', manejar_escritura_memoria s m = Some (tt, m') /\
     escribir_buffer ram (s_base seg + dir mod segment_max_size (config_memory m)) datos = Some ram' /\
     mem_inv m' ram' /\ procesos m' = procesos m /\ bloques_libres m' = bloques_libres m /\
     m_salidas m' = m_salidas m ++ [(s, enviar_ok ESCRITURA_MEMORIA)] /\
     (forall k' i' p' seg', (k', i') <> (k, i) -> procesos m !! k' = Some p' ->
        segmentos p' !! i' = Some seg' -> s_base seg' <> NEG1 ->
        leer_buffer ram' (s_base seg') (s_limite seg') = leer_buffer ram (s_base seg') (s_limite seg')) /\
     marco m m' /\ entrada s m' = resto) /\
  ((forall k i seg, ~ acceso_de m q dir tam k i seg) ->
   manejar_escritura_memoria s m =
   Some (tt, con_salida s (enviar_ok SEGMENTATION_FAULT) (consumido s resto m))).
Proof.
  intros tam Hm Hsb Hdat [Hq Hd Ht Hsms Hw Hs Hen Hp].
  set (m1 := consumido s resto m). assert (Hm1 : mem_inv m1 ram) by by apply mem_inv_consumido.
  assert (Ht0 : 0 <= tam) by (unfold es_u32 in Ht; lia).
  destruct (acceso_tamanio m ram (mi_ram _ _ Hm)) as [_ Hmax].
  eassert (Hrun : manejar_escritura_memoria s m = _).
  { unfold manejar_escritura_memoria. rewrite esperar_libre by done.
    apply (leer_peticion_escritura _ s q dir datos resto m Hq Hd Hdat Hp). }
  rewrite Hrun. clear Hrun. fold m1 tam.
  destruct (acceso_casos m1 ram s q dir tam Hm1 Hsb Hd Ht0 Hs Hsms Hw)
    as [(k & i & p & seg & Ha & Eb & Et & Hr0 & Hr1)|(Hno & [Eb|(k & p & Eb & Et)])]; st_unfold; rewrite Eb.
  - split; [|intros Hno; by destruct (Hno k i seg)]. intros k' i' seg' Ha'.
    destruct Ha' as (E1 & p' & E2 & E3 & E4 & Hb' & Hl').
    destruct Ha as (F1 & p'' & F2 & F3 & F4 & _). change (procesos m1) with (procesos m) in *.
    change (config_memory m1) with (config_memory m) in *. simplify_eq.
    set (sms := segment_max_size (config_memory m)) in *. set (d := s_base seg + dir mod sms) in *.
    pose proof (Z.mod_pos_bound dir sms ltac:(lia)) as Hmod.
    rewrite Et. destruct (Z.eqb_spec d NEG1) as [E|_]; [unfold NEG1 in E; lia|].
    destruct (acceso_escribir m1 ram q d datos (mi_ram _ _ Hm1) Hq Hr0 Hr1) as (m2 & ram2 & E & Hwr & Hr2 & Hme).
    fold tam in E. rewrite E, enviar_eq. pose proof (length_escribir_buffer _ _ _ _ Hr0 Hwr) as Hl2.
    eexists _, ram2. split; [done|]. split; [done|]. split.
    { apply mem_inv_salida. destruct Hm1 as [_ G2 G3 G4].
      split; rewrite ?(me_procesos _ _ Hme), ?(me_libres _ _ Hme), ?Hl2; done. }
    split; [cbn; by rewrite (me_procesos _ _ Hme)|]. split; [cbn; by rewrite (me_libres _ _ Hme)|].
    split; [cbn; by rewrite (me_salidas _ _ Hme)|].
    split; [|split; [destruct Hme; by split|unfold entrada; cbn; rewrite (me_entradas _ _ Hme); apply entrada_consumido]].
    intros k0 i0 p0 seg0 Hne Hk0 Hi0 Hb0.
    destruct (residente_en_ram m ram k0 p0 seg0 Hm Hk0) as (G1 & G2 & G3);
      [by apply list_elem_of_lookup_2 in Hi0|done|].
    pose proof (residentes_ajenos m ram k0 i0 p0 seg0 _ _ _ seg Hm Hne Hk0 Hi0 Hb0 F2 F4 Hb') as Haj.
    unfold ajenos, disjuntos, bloque_de in Haj. cbn in Haj.
    destruct (decide (s_limite seg0 = 0)) as [E0|E0].
    { rewrite E0, !leer_buffer_nada; [done|lia..]. }
    destruct (decide (tam = 0)) as [Et0|Et0].
    { assert (Hnil : datos = []) by (unfold tam in Et0; destruct datos; [done|cbn in Et0; lia]).
      rewrite Hnil in Hwr.
      by rewrite (escribir_buffer_nada ram d ram2). }
    apply (leer_escribir_disjunto ram d datos); [lia..|unfold disjuntos; fold tam; lia|done].
  - split; [intros k i seg Ha; by destruct (Hno k i seg)|by intros _].
  - split; [intros k' i seg Ha; by destruct (Hno k' i seg)|]. intros _. by rewrite Et.
Qed.

(** ** Witnesses: requests to [mem_fragmentada] on the scheduler's socket *)

Definition ram_ejemplo : list byte := [x01; x02; x03; x04; x05; x06; x07].
Definition mem_pide (mensaje resto : list byte) : memoria :=
  con_entradas (<[3 := cuerpo mensaje ++ resto]> ∅) mem_fragmentada.

Lemma mem_pide_inv b r : mem_inv (mem_pide b r) ram_ejemplo.
Proof.
  apply (mem_inv_igual mem_fragmentada); [|done..]. destruct mem_fragmentada_sana as [H1 H2 _]. split.
  - done.
  - done.
  - change (_ ++ _) with [Bloque 0 2; Bloque 4 1; Bloque 5 2; Bloque 2 2]. bloques_ok_concreto.
  - reflexivity.
Qed.

Lemma mem_pide_pendiente b r : pendiente (mem_pide b r) 3 b r.
Proof. unfold pendiente, entrada, mem_pide. cbn. by rewrite lookup_insert_eq. Qed.

(** Two bytes fit in the first hole, three only after compacting. *)
Lemma solicitar_segmento_correcto_witness :
  manejar_solicitar_segmento 3 (mem_pide (enviar_solicitar_segmento 1 1 4) []) =
    Some (tt, con_salida 3 (enviar_ok SEGMENTATION_FAULT)
                (consumido 3 [] (mem_pide (enviar_solicitar_segmento 1 1 4) []))) /\
  exists m' ps base, manejar_solicitar_segmento 3
      (mem_pide (enviar_solicitar_segmento 1 1 3) (enviar_ok INICIAR_COMPACTACION ++ [])) = Some (tt, m') /\
    procesos m' = alter (agregar_seg (Segmento 1 base 3 0)) 0%nat ps /\
    m_salidas m' = [(3, enviar_ok INICIAR_COMPACTACION); (3, enviar_ok FINALIZAR_COMPACTACION)] ++ [(3, enviar_respuesta_segmento 1 base 3)].
Proof.
  split.
  - apply (solicitar_segmento_correcto _ ram_ejemplo 3 1 1 4 [] (mem_pide_inv _ _)); unfold es_int, es_u32; try lia.
    + split; [reflexivity|lia|reflexivity|apply mem_pide_pendiente].
    + right. right. vm_compute. reflexivity.
  - destruct (solicitar_segmento_correcto
      (mem_pide (enviar_solicitar_segmento 1 1 3) (enviar_ok INICIAR_COMPACTACION ++ []))
      ram_ejemplo 3 1 1 3 (enviar_ok INICIAR_COMPACTACION ++ []) (mem_pide_inv _ _)) as [_ H]; unfold es_int, es_u32; try lia.
    + split; [reflexivity|lia|reflexivity|apply mem_pide_pendiente].
    + destruct (H O) as [_ H2]; [vm_compute; congruence|reflexivity|vm_compute; congruence|].
      destruct H2 with (resto' := @nil byte) as [H3 _]; [|lia|reflexivity|].
      * intros (b & Hb & Ht). change (bloques_libres _) with [Bloque 0 2; Bloque 4 1] in Hb.
        apply elem_of_cons in Hb as [->|[->|Hb%elem_of_nil]%elem_of_cons]; [cbn in Ht; lia|cbn in Ht; lia|done].
      * destruct H3 as (m' & _ & ps & base & E & _ & _ & _ & Hps & Hs & _); [vm_compute; congruence|].
        exists m', ps, base. split; [exact E|]. split; [exact Hps|exact Hs].
Defined.

Lemma eliminar_segmento_correcto_witness :
  exists m', manejar_eliminar_segmento 3 (mem_pide (enviar_eliminar_segmento 1 0) []) = Some (tt, m') /\
    mem_inv m' ram_ejemplo /\
    m_salidas m' = [(3, enviar_ok ELIMINAR_SEGMENTO); (3, enviar_memoria_liberada)].
Proof.
  destruct (eliminar_segmento_correcto (mem_pide (enviar_eliminar_segmento 1 0) []) ram_ejemplo 3 1 0 []
    (mem_pide_inv _ _)) as [_ H]; [unfold es_int; lia|unfold es_u32; lia|apply mem_pide_pendiente|].
  destruct (H O _ O _ eq_refl eq_refl eq_refl eq_refl) as (m' & E & Hi & _ & _ & Hs & _); [vm_compute; congruence|].
  exists m'. split; [exact E|]. split; [exact Hi|exact Hs].
Defined.

Lemma finalizar_proceso_correcto_witness :
  exists m', manejar_finalizar_proceso 3 (mem_pide (enviar_finalizar_proceso_memory 2) []) = Some (tt, m') /\
    mem_inv m' ram_ejemplo /\ total (bloques_libres m') = 5.
Proof.
  destruct (finalizar_proceso_correcto (mem_pide (enviar_finalizar_proceso_memory 2) []) ram_ejemplo 3 2 []
    (mem_pide_inv _ _)) as [_ H]; [unfold es_int; lia|apply mem_pide_pendiente|].
  destruct (H 1%nat _ eq_refl eq_refl) as (m' & E & Hi & _ & Ht & _).
  exists m'. split; [exact E|]. split; [exact Hi|exact Ht].
Defined.

Lemma mem_pide_segmentos b r : segmentos_bien (mem_pide b r).
Proof.
  change (Forall (fun p => Forall segmento_ok (segmentos p)) (procesos mem_fragmentada)).
  repeat first [apply Forall_nil_2 | apply Forall_cons_2]; vm_compute; intuition congruence.
Qed.

Lemma lectura_memoria_correcta_witness :
  exists datos, leer_buffer ram_ejemplo 6 1 = Some datos /\
  manejar_lectura_memoria 3 (mem_pide (enviar_lectura_memoria 1 1 1) []) =
  Some (tt, con_salida 3 (enviar_respuesta_lectura datos)
              (consumido 3 [] (mem_pide (enviar_lectura_memoria 1 1 1) []))).
Proof.
  destruct (lectura_memoria_correcta (mem_pide (enviar_lectura_memoria 1 1 1) []) ram_ejemplo 3 1 1 1 []
    (mem_pide_inv _ _) (mem_pide_segmentos _ _)) as [H _].
  - split; try apply mem_pide_pendiente; unfold es_int, es_u32; try lia; vm_compute; intuition congruence.
  - destruct (H O O (Segmento 0 5 2 0)) as (datos & Hd & E).
    + split; [reflexivity|]. eexists. do 3 (split; [reflexivity|]). split; vm_compute; congruence.
    + exists datos. split; [exact Hd|exact E].
Defined.

Lemma escritura_memoria_correcta_witness :
  exists m' ram', manejar_escritura_memoria 3 (mem_pide (enviar_escritura_memoria 1 1 [x0f]) []) = Some (tt, m') /\
    escribir_buffer ram_ejemplo 6 [x0f] = Some ram' /\ mem_inv m' ram'.
Proof.
  destruct (escritura_memoria_correcta (mem_pide (enviar_escritura_memoria 1 1 [x0f]) []) ram_ejemplo 3 1 1 [x0f] []
    (mem_pide_inv _ _) (mem_pide_segmentos _ _)) as [H _].
  - unfold datos_ok. cbn. lia.
  - split; try apply mem_pide_pendiente; unfold es_int, es_u32; cbn [length]; try lia; vm_compute; intuition congruence.
  - destruct (H O O (Segmento 0 5 2 0)) as (m' & ram' & E & Hw & Hi & _).
    + split; [reflexivity|]. eexists. do 3 (split; [reflexivity|]). split; vm_compute; congruence.
    + exists m', ram'. split; [exact E|]. split; [exact Hw|exact Hi].
Defined.
