(* ===== verification/MemSuspension.v ===== *)
(** * MemSuspension: suspending a process and bringing it back

    Correctness of [manejar_suspender_proceso] and
    [manejar_des_suspender_proceso] (defined in [MemScheduler]) over the Swap
    device of [Swap] and the flat RAM of [MemoryIO]: what a suspended segment
    leaves in the blocks it reserved, what the rollback restores, and that the
    two handlers together give every segment its bytes back. *)

From S2P Require Import Prelude Bloques Wire Buffer Tipos Mensajes Texto Conexiones Stick Swap Memoria MemoryIO MemSwap Procesos Compactacion MemScheduler MemInv MemSegmentos.

(** ** What a suspended segment leaves in Swap *)

Definition n_bloques (limite bs : Z) : Z := (limite + bs - 1) / bs.
Definition bloques_de (bs : Z) (segs : list t_segmento) : Z :=
  suma_Z ((fun s => n_bloques (s_limite s) bs) <$> segs).

(** The bytes of the [b]-th block of a segment. *)
Definition pieza (bs : Z) (datos : list byte) (b : Z) : list byte :=
  take (Z.to_nat bs) (drop (Z.to_nat (b * bs)) datos).

(** The blocks from [b0] on of a segment with bytes [datos]. *)
Definition guardado_desde (b0 : Z) (s : swap) (seg : t_segmento) (datos : list byte) : Prop :=
  let bs := sw_block_size (sw_config s) in
  forall b, b0 <= b < n_bloques (s_limite seg) bs ->
    take (length (pieza bs datos b)) (bloque s (swap_bloque_inicio seg + b)) = pieza bs datos b.

Record guardado (s : swap) (seg : t_segmento) (datos : list byte) : Prop := {
  g_largo : Z.of_nat (length datos) = s_limite seg;
  g_limite : s_limite seg < 1073741824;
  g_inicio : 0 <= swap_bloque_inicio seg;
  g_fin : swap_bloque_inicio seg + n_bloques (s_limite seg) (sw_block_size (sw_config s)) <= cantidad_bloques s;
  g_datos : guardado_desde 0 s seg datos }.

(** A segment before and after the suspension. *)
Definition suspendido (s : swap) (ram : list byte) (seg seg' : t_segmento) : Prop :=
  s_id seg' = s_id seg /\ s_limite seg' = s_limite seg /\ s_base seg' = NEG1 /\
  exists datos, leer_buffer ram (s_base seg) (s_limite seg) = Some datos /\ guardado s seg' datos.

(** ** Arithmetic of the blocks *)

Lemma n_bloques_pos l bs : 0 <= l -> 0 < bs -> 0 <= n_bloques l bs.
Proof. intros. apply Z.div_pos; lia. Qed.

Lemma n_bloques_dentro l bs b : 0 < bs -> b < n_bloques l bs -> b * bs < l.
Proof. intros Hb H. unfold n_bloques in H. pose proof (Z.mul_div_le (l + bs - 1) bs Hb). nia. Qed.

Lemma n_bloques_cubre l bs : 0 < bs -> l <= n_bloques l bs * bs.
Proof. intros Hb. unfold n_bloques. pose proof (Z.mul_succ_div_gt (l + bs - 1) bs Hb). nia. Qed.

Lemma cantidad_de_bloques_ok l bs :
  0 <= l < 1073741824 -> 0 < bs <= 1073741824 -> cantidad_de_bloques l bs = Some (n_bloques l bs).
Proof.
  intros Hl Hb. unfold cantidad_de_bloques, n_bloques. destruct (Z.eqb_spec bs 0); [lia|].
  rewrite add32_small by lia. by rewrite sub32_small by lia.
Qed.

(** The chunk of a block: all of it, or what is left of the segment. *)
Lemma tamanio_chunk_ok l bs b datos :
  Z.of_nat (length datos) = l -> l < 1073741824 -> 0 < bs <= 1073741824 -> 0 <= b < n_bloques l bs ->
  tamanio_chunk l bs (n_bloques l bs) b = Z.of_nat (length (pieza bs datos b)).
Proof.
  intros Hd Hl Hb Hn. unfold tamanio_chunk, pieza. autorewrite with largo.
  pose proof (n_bloques_dentro l bs b ltac:(lia) ltac:(lia)).
  assert (Hpos : 0 <= b * bs) by nia. assert (Hl1 : 1 <= l) by lia.
  assert (Hmax : n_bloques l bs <= l) by (apply Z.div_le_upper_bound; nia).
  rewrite (sub32_small (n_bloques l bs) 1) by lia. unfold mul32.
  destruct (Z.eqb_spec b (n_bloques l bs - 1)) as [->|Hne].
  - pose proof (n_bloques_cubre l bs ltac:(lia)).
    rewrite u32_small by (unfold es_u32; nia). rewrite sub32_small by nia. lia.
  - pose proof (n_bloques_dentro l bs (b + 1) ltac:(lia) ltac:(lia)). lia.
Qed.

Lemma pieza_leer ram d l datos bs b :
  0 <= d -> 0 <= l -> 0 < bs -> 0 <= b -> leer_buffer ram d l = Some datos ->
  b * bs < l ->
  leer_buffer ram (d + b * bs) (Z.of_nat (length (pieza bs datos b))) = Some (pieza bs datos b).
Proof.
  intros Hd Hl Hb H0 H Hlt. pose proof (length_leer_buffer _ _ _ _ Hd Hl H) as Hlen.
  revert H. unfold leer_buffer. destruct (Z.leb_spec (d + l) (Z.of_nat (length ram))); [|done].
  intros [= <-]. autorewrite with largo in Hlen.
  assert (Hp : length (pieza bs (take (Z.to_nat l) (drop (Z.to_nat d) ram)) b) =
               Z.to_nat (Z.min bs (l - b * bs))) by (unfold pieza; autorewrite with largo; nia).
  rewrite Hp. destruct (Z.leb_spec (d + b * bs + Z.of_nat (Z.to_nat (Z.min bs (l - b * bs)))) (Z.of_nat (length ram)));
    [|lia]. f_equal. unfold pieza. rewrite skipn_firstn_comm, take_take, drop_drop.
  f_equal; [nia|]. f_equal. nia.
Qed.

(** ** [volcar_segmento_a_swap] *)

(** What the loop needs of the segment: its bytes in RAM, its blocks in Swap. *)
Record volcable (m : memoria) (ram : list byte) (s : swap) (seg : t_segmento) (datos : list byte) : Prop := {
  vo_ram : ram_es m ram;
  vo_swap : swap_enlazado m s;
  vo_leer : leer_buffer ram (s_base seg) (s_limite seg) = Some datos;
  vo_base : 0 <= s_base seg;
  vo_limite : 0 <= s_limite seg;
  vo_inicio : 0 <= swap_bloque_inicio seg;
  vo_fin : swap_bloque_inicio seg + n_bloques (s_limite seg) (sw_block_size (sw_config s)) <= cantidad_bloques s }.

Lemma swap_cantidad s : swap_ok s -> 0 <= cantidad_bloques s <= swap_file_size (sw_config s).
Proof.
  intros [Hb Ht _]. unfold cantidad_bloques, es_u32 in *. split; [apply Z.div_pos; lia|].
  apply Z.div_le_upper_bound; nia.
Qed.

(** The blocks other than those of the segment from [b] on. *)
Definition ajeno_desde (b : Z) (n : Z) (seg : t_segmento) (x : Z) : Prop :=
  x < swap_bloque_inicio seg + b \/ swap_bloque_inicio seg + n <= x.

Lemma volcar_bucle_ok n : forall m ram s seg datos sock q b,
  let bs := sw_block_size (sw_config s) in
  let N := n_bloques (s_limite seg) bs in
  volcable m ram s seg datos -> es_int q -> 0 <= sock -> 0 <= b -> b + Z.of_nat n = N ->
  exists s', volcar_bucle n sock seg q bs N b m = Some (0, con_swap (Vivo s') m) /\
    swap_enlazado (con_swap (Vivo s') m) s' /\ sw_config s' = sw_config s /\
    guardado_desde b s' seg datos /\
    (forall x, 0 <= x < cantidad_bloques s -> ajeno_desde b N seg x -> bloque s' x = bloque s x).
Proof.
  induction n as [|n IH]; intros m ram s seg datos sock q b bs N Hv Hq Hs Hb Hn.
  { exists s. destruct Hv as [_ Hsw _ _ _ _ _].
    replace (con_swap (Vivo s) m) with m by (destruct m; cbn; by rewrite <-(sl_vivo _ _ Hsw)).
    split; [done|]. split; [done|]. split; [done|]. split; [|done]. intros x Hx. fold bs N in Hx. lia. }
  destruct Hv as [Hr Hsw Hd Hb0 Hl0 Hi0 Hfin]. fold bs N in Hfin.
  pose proof (sok_bs s (sl_ok _ _ Hsw)) as Hbs. fold bs in Hbs.
  destruct (swap_cantidad s (sl_ok _ _ Hsw)) as [Hc0 Hc1]. pose proof (sok_tam s (sl_ok _ _ Hsw)) as Hft.
  destruct (acceso_tamanio m ram Hr) as [_ Hmax].
  pose proof (length_leer_buffer _ _ _ _ Hb0 Hl0 Hd) as Hlen.
  assert (Hend : s_base seg + s_limite seg <= Z.of_nat (length ram)).
  { revert Hd. unfold leer_buffer. by destruct (Z.leb_spec (s_base seg + s_limite seg) (Z.of_nat (length ram))). }
  assert (HbN : b * bs < s_limite seg) by (apply n_bloques_dentro; unfold N, bs in *; lia).
  assert (Hbb : 0 <= b * bs) by nia. unfold es_u32 in Hft.
  set (pz := pieza bs datos b).
  assert (Hpz : (length pz <= Z.to_nat bs)%nat) by (unfold pz, pieza; rewrite length_take; lia).
  assert (Hpl : b * bs + Z.of_nat (length pz) <= s_limite seg)
    by (unfold pz, pieza; autorewrite with largo; lia).
  cbn [volcar_bucle].
  assert (Hch : tamanio_chunk (s_limite seg) bs N b = Z.of_nat (length pz))
    by (apply tamanio_chunk_ok; fold N; lia). rewrite Hch.
  unfold mul32. rewrite (u32_small (b * bs)) by (unfold es_u32; lia).
  rewrite (add32_small (s_base seg)) by lia. st_unfold.
  rewrite (acceso_leer m ram q _ _ Hr Hq) by lia.
  unfold pz at 1. rewrite (pieza_leer ram (s_base seg) (s_limite seg) datos bs b) by (done || lia). fold pz.
  rewrite (add32_small (swap_bloque_inicio seg)) by lia.
  set (buf := pz ++ replicate (Z.to_nat bs - length pz) x00).
  destruct (swap_escribir_bloque_ok m s sock (swap_bloque_inicio seg + b) buf Hsw Hs ltac:(lia))
    as (s1 & E1 & Hsw1 & Hc & Hcfg & Hbl).
  { unfold buf. rewrite length_app, length_replicate. fold bs. lia. }
  rewrite E1. cbn [Z.eqb negb].
  destruct (IH (con_swap (Vivo s1) m) ram s1 seg datos sock q (b + 1)) as (s2 & E2 & Hsw2 & Hcfg2 & Hg2 & Ha2);
    [|done|done|lia|rewrite Hcfg; fold bs N; lia|].
  { split; [by apply (acceso_estable m)|done..|]. rewrite Hc, Hcfg. fold bs N. lia. }
  rewrite Hcfg in E2, Ha2. fold bs N in E2, Ha2. rewrite E2.
  exists s2. split; [done|]. split; [done|]. split; [by rewrite Hcfg2, Hcfg|]. split.
  - intros x Hx. rewrite Hcfg2, Hcfg in Hx |- *. fold bs N in Hx |- *.
    destruct (Z.eq_dec x b) as [->|Hne].
    + rewrite Ha2, Hbl, Z.eqb_refl by (unfold ajeno_desde; lia). fold pz. unfold buf. by rewrite take_app_length.
    + specialize (Hg2 x). cbv zeta in Hg2. rewrite Hcfg2, Hcfg in Hg2. apply Hg2. fold bs N. lia.
  - intros x Hx Haj. unfold ajeno_desde in *. rewrite Ha2 by lia. rewrite Hbl by lia.
    destruct (Z.eqb_spec x (swap_bloque_inicio seg + b)); [lia|done].
Qed.

(** ** The segments of one process *)

(** The process [p], at [k], with other segments. *)
Definition con_segs (k : nat) (p : t_contexto_ejecucion) (segs : list t_segmento) (m : memoria) : memoria :=
  con_procesos (<[k := con_segmentos segs p]> (procesos m)) m.

Section con_proceso.
Context (m : memoria) (k : nat) (p : t_contexto_ejecucion) (h t : list t_segmento) (seg : t_segmento).
Hypothesis (Hk : procesos m !! k = Some p) (Hsegs : segmentos p = h ++ seg :: t).

Lemma leer_segmento_ok : leer_segmento k (length h) m = Some (Some seg, m).
Proof. unfold leer_segmento. st_unfold. rewrite Hk. cbn. by rewrite Hsegs, list_lookup_middle. Qed.

Lemma modificar_segmento_ok f :
  modificar_segmento k (length h) f m = Some (tt, con_segs k p (h ++ f seg :: t) m).
Proof.
  unfold modificar_segmento, modificar_proceso, con_segs. st_unfold. do 3 f_equal.
  rewrite (alter_conocido _ _ k p Hk). rewrite Hsegs. unfold con_segmentos.
  do 2 f_equal. rewrite (alter_conocido f _ _ seg) by (by apply list_lookup_middle).
  by rewrite <-(Nat.add_0_r (length h)), insert_app_r.
Qed.

Lemma con_segs_lookup segs : procesos (con_segs k p segs m) !! k = Some (con_segmentos segs p).
Proof. cbn. apply list_lookup_insert_eq. by eapply lookup_lt_Some. Qed.

Lemma con_segs_dos s1 s2 : con_segs k (con_segmentos s1 p) s2 (con_segs k p s1 m) = con_segs k p s2 m.
Proof. unfold con_segs. cbn. by rewrite list_insert_insert_eq. Qed.

Lemma residentes_con_segs segs :
  residentes (procesos (con_segs k p segs m)) ≡ₚ residentes_seg segs ++ residentes (delete k (procesos m)).
Proof.
  cbn. rewrite <-(alter_conocido (con_segmentos segs) _ k p Hk). by rewrite (residentes_alter _ k p).
Qed.

Lemma pids_con_segs segs :
  Forall (fun p => es_int (pid p)) (procesos m) ->
  Forall (fun p => es_int (pid p)) (procesos (con_segs k p segs m)).
Proof. intros H. cbn. rewrite <-(alter_conocido (con_segmentos segs) _ k p Hk). by apply pids_alter. Qed.

Lemma residentes_seg_medio s' :
  residentes_seg (h ++ s' :: t) ≡ₚ (if s_base s' =? NEG1 then [] else [bloque_de s']) ++ residentes_seg (h ++ t).
Proof.
  rewrite !residentes_seg_app, residentes_seg_cons. destruct (s_base s' =? NEG1); [done|].
  cbn. by rewrite Permutation_middle.
Qed.

(** The segment leaves RAM. *)
Lemma mem_inv_sacar ram seg' :
  mem_inv m ram -> s_base seg <> NEG1 -> s_base seg' = NEG1 ->
  let m' := con_libres (bloques_liberar (bloques_libres m) (s_base seg) (s_limite seg)) m in
  mem_inv (con_segs k p (h ++ seg' :: t) m') ram /\
  total (bloques_libres m') = total (bloques_libres m) + s_limite seg.
Proof.
  intros [H1 H2 H3 H4] Hb Hb' m'.
  assert (Hres : residentes (procesos m) ≡ₚ
     bloque_de seg :: residentes_seg (h ++ t) ++ residentes (delete k (procesos m))).
  { rewrite (residentes_medio _ k p Hk), Hsegs, residentes_seg_medio.
    destruct (Z.eqb_spec (s_base seg) NEG1); [done|]. done. }
  assert (Hres' : residentes (procesos (con_segs k p (h ++ seg' :: t) m')) ≡ₚ
     residentes_seg (h ++ t) ++ residentes (delete k (procesos m))).
  { etrans; [apply residentes_con_segs|]. by rewrite residentes_seg_medio, Hb'. }
  rewrite Hres in H3, H4. destruct (particion_liberar _ _ _ _ _ H3) as [H5 H6].
  split; [split|].
  - by apply (acceso_estable m).
  - by apply pids_con_segs.
  - rewrite Hres'. exact H5.
  - rewrite Hres'. etrans; [exact H6|]. exact H4.
  - rewrite !total_app, total_cons, total_app in H6. cbn [b_tam bloque_de] in H6.
    cbn [m' con_libres bloques_libres]. lia.
Qed.

(** The segment keeps its place. *)
Lemma mem_inv_fijo ram seg' :
  mem_inv m ram -> s_base seg' = s_base seg -> s_limite seg' = s_limite seg ->
  mem_inv (con_segs k p (h ++ seg' :: t) m) ram.
Proof.
  intros [H1 H2 H3 H4] Hb Hl.
  assert (Hres : residentes (procesos (con_segs k p (h ++ seg' :: t) m)) ≡ₚ residentes (procesos m)).
  { rewrite residentes_con_segs, (residentes_medio (procesos m) k p Hk), Hsegs, !residentes_seg_medio.
    unfold bloque_de. by rewrite Hb, Hl. }
  split; [by apply (acceso_estable m)|by apply pids_con_segs|by rewrite Hres|by rewrite Hres].
Qed.

(** The segment comes back, where the allocator says. *)
Lemma mem_inv_traer ram base l' :
  mem_inv m ram -> s_base seg = NEG1 -> 0 <= s_limite seg ->
  bloques_asignar (es_worst_fit (allocation_strategy (config_memory m))) (bloques_libres m) (s_limite seg)
    = (base, l') ->
  base <> NEG1 -> mem_inv (con_segs k p (h ++ con_base base seg :: t) (con_libres l' m)) ram.
Proof.
  intros [H1 H2 H3 H4] Hb Ht Ha Hne.
  destruct (particion_asignar _ _ _ _ _ _ _ H3 Ht Ha Hne) as (Hok & Htot & _ & _).
  assert (Hres : residentes (procesos (con_segs k p (h ++ con_base base seg :: t) (con_libres l' m))) ≡ₚ
     Bloque base (s_limite seg) :: residentes (procesos m)).
  { etrans; [apply residentes_con_segs|]. rewrite residentes_seg_medio.
    rewrite (residentes_medio (procesos m) k p Hk), Hsegs, residentes_seg_medio, Hb, Z.eqb_refl.
    cbn [s_base con_base]. destruct (Z.eqb_spec base NEG1); [done|]. done. }
  split; [by apply (acceso_estable m)|by apply pids_con_segs|by rewrite Hres|].
  rewrite Hres. etrans; [exact Htot|]. exact H4.
Qed.
End con_proceso.

(** ** The suspension loop *)

Lemma guardado_estable s s' seg datos lim :
  guardado s seg datos -> sw_config s' = sw_config s ->
  swap_bloque_inicio seg + n_bloques (s_limite seg) (sw_block_size (sw_config s)) <= lim ->
  (forall x, 0 <= x < lim -> bloque s' x = bloque s x) -> guardado s' seg datos.
Proof.
  intros [H1 H2 H3 H4 H5] Hc Hlim Hb.
  split; [done..| |]; unfold guardado_desde, cantidad_bloques in *; rewrite Hc; [done|].
  intros b Hb0. rewrite Hb by lia. by apply H5.
Qed.

(** The state between two turns of the loop. *)
Record suspendible (m : memoria) (ram : list byte) (s : swap) : Prop := {
  su_inv : mem_inv m ram;
  su_swap : swap_enlazado m s;
  su_reserva : reserva_ok (m_reserva m);
  su_total : total_blocks (m_reserva m) < NEG1 }.

Lemma bloques_de_cons bs seg l : bloques_de bs (seg :: l) = n_bloques (s_limite seg) bs + bloques_de bs l.
Proof. done. Qed.

Lemma bloques_de_pos bs l : 0 < bs -> Forall (fun s => 0 <= s_limite s) l -> 0 <= bloques_de bs l.
Proof.
  intros Hb Hl. apply suma_Z_nonneg, Forall_fmap. eapply Forall_impl; [exact Hl|].
  intros s Hs. by apply n_bloques_pos.
Qed.

(** A segment whose blocks are among the reserved ones. *)
Definition ubicado_en_swap (bs next : Z) (seg : t_segmento) : Prop :=
  es_u32 (swap_bloque_inicio seg) /\ swap_bloque_inicio seg + n_bloques (s_limite seg) bs <= next.

(** What the loop does to the segments [l], between [h] and [t]. *)
Record tras_suspender (m m' : memoria) (ram : list byte) (s s' : swap) (k : nat)
    (p : t_contexto_ejecucion) (h l l' t : list t_segmento) : Prop := {
  ts_estado : suspendible m' ram s';
  ts_config : sw_config s' = sw_config s;
  ts_bloques : forall x, 0 <= x < next_block (m_reserva m) -> bloque s' x = bloque s x;
  ts_next : next_block (m_reserva m') = next_block (m_reserva m) + bloques_de (sw_block_size (sw_config s)) l;
  ts_total : total_blocks (m_reserva m') = total_blocks (m_reserva m);
  ts_segs : Forall2 (suspendido s' ram) l l';
  ts_procesos : procesos m' = <[k := con_segmentos (h ++ l' ++ t) p]> (procesos m);
  ts_libre : total (bloques_libres m') = total (bloques_libres m) + suma_Z (s_limite <$> l);
  ts_salidas : m_salidas m' = m_salidas m;
  ts_conexiones : m_conexiones m' = m_conexiones m;
  ts_memoria : config_memory m' = config_memory m;
  ts_progreso : en_progreso m' = en_progreso m;
  ts_entradas : m_entradas m' = m_entradas m;
  ts_ubicados : Forall (ubicado_en_swap (sw_block_size (sw_config s)) (next_block (m_reserva m'))) l' }.

(** A reservation that fits. *)
Lemma reservar_entra n r : reserva_ok r -> 0 <= n -> next_block r + n <= total_blocks r -> total_blocks r < NEG1 ->
  (reservar n r).1 = next_block r /\ next_block (reservar n r).2 = next_block r + n /\ reserva_ok (reservar n r).2 /\
  block_size (reservar n r).2 = block_size r /\ total_blocks (reservar n r).2 = total_blocks r.
Proof.
  intros Hr Hn Hfin Htot. destruct (reservar_ok n r Hr Hn) as (Hr' & [(E1 & E2 & _)|(_ & _ & ?)]);
    [destruct Hr as (? & ? & ?); unfold es_u32 in *; lia| |lia].
  do 3 (split; [done|]). unfold reservar. by destruct (_ >? _).
Qed.

(** The segment, with its blocks reserved, is written to swap. *)
Lemma volcar_segmento_ok m ram s k p h seg l sock q :
  let bs := sw_block_size (sw_config s) in
  let N := n_bloques (s_limite seg) bs in
  let seg1 := con_inicio (next_block (m_reserva m)) seg in
  let m1 := con_segs k p (h ++ seg1 :: l) (con_reserva (reservar N (m_reserva m)).2 m) in
  suspendible m ram s -> procesos m !! k = Some p -> seg ∈ segmentos p -> s_base seg <> NEG1 ->
  es_int q -> 0 <= sock -> next_block (m_reserva m) + N <= total_blocks (m_reserva m) ->
  exists s' datos, volcar_segmento_a_swap sock seg1 q m1 = Some (0, con_swap (Vivo s') m1) /\
    swap_enlazado (con_swap (Vivo s') m1) s' /\ sw_config s' = sw_config s /\
    leer_buffer ram (s_base seg) (s_limite seg) = Some datos /\ Z.of_nat (length datos) = s_limite seg /\
    guardado_desde 0 s' seg1 datos /\
    (forall x, 0 <= x < cantidad_bloques s -> ajeno_desde 0 N seg1 x -> bloque s' x = bloque s x).
Proof.
  intros bs N seg1 m1 [Hm Hsw Hr Htot] Hk Hin Hb Hq Hs Hn.
  destruct (residente_en_ram m ram k p seg Hm Hk Hin Hb) as (Hb0 & Hl0 & Hend).
  destruct (acceso_tamanio m ram (mi_ram _ _ Hm)) as [_ Hmax].
  pose proof (sok_bs s (sl_ok _ _ Hsw)) as Hbs. fold bs in Hbs.
  pose proof (n_bloques_pos (s_limite seg) bs Hl0 ltac:(lia)) as HN0. fold N in HN0.
  destruct (reservar_entra N (m_reserva m) Hr HN0 Hn Htot) as (_ & _ & Hr' & Ebs & Etot).
  assert (Hsw1 : swap_enlazado m1 s) by (destruct Hsw; split; cbn; congruence).
  assert (Hd : exists datos, leer_buffer ram (s_base seg) (s_limite seg) = Some datos).
  { unfold leer_buffer. destruct (Z.leb_spec (s_base seg + s_limite seg) (Z.of_nat (length ram))); [eauto|lia]. }
  destruct Hd as [datos Hd]. destruct Hr as (Hr0 & Hr1 & Hr2).
  destruct (volcar_bucle_ok (Z.to_nat N) m1 ram s seg1 datos sock q 0) as (s' & E & Hsw' & Hc & Hg & Haj);
    [|done|done|lia|cbn; fold bs N; lia|].
  { split; cbn; try done; [exact (acceso_estable m m1 ram (mi_ram _ _ Hm) eq_refl eq_refl)|lia|].
    fold bs N. rewrite <-(sl_total _ _ Hsw). lia. }
  cbn [s_limite seg1 con_inicio] in E. fold bs N in E. exists s', datos.
  split; [|do 3 (split; [done|]); split; [exact (length_leer_buffer _ _ _ _ Hb0 Hl0 Hd)|done]].
  unfold volcar_segmento_a_swap, swap_block_size. st_unfold.
  assert (Eb : block_size (m_reserva m1) = bs) by (rewrite (sl_bs _ _ Hsw1); done). rewrite Eb.
  rewrite cantidad_de_bloques_ok by (cbn; lia). exact E.
Qed.

(** One turn: the segment is dumped, its range freed, its base cleared. *)
Lemma suspender_paso m ram s k p h seg l n sock socket q :
  let bs := sw_block_size (sw_config s) in
  suspendible m ram s -> procesos m !! k = Some p -> segmentos p = h ++ seg :: l -> s_base seg <> NEG1 ->
  es_int q -> 0 <= sock ->
  next_block (m_reserva m) + n_bloques (s_limite seg) bs <= total_blocks (m_reserva m) ->
  exists m' s' seg', tras_suspender m m' ram s s' k p h [seg] [seg'] l /\
    swap_bloque_inicio seg' = next_block (m_reserva m) /\
    suspender_bucle (S n) k (length h) sock socket q bs m =
    suspender_bucle n k (S (length h)) sock socket q bs m'.
Proof.
  intros bs Hsu Hk Hsegs Hb Hq Hs Hn. assert (Hin : seg ∈ segmentos p) by (rewrite Hsegs; set_solver).
  destruct (volcar_segmento_ok m ram s k p h seg l sock q Hsu Hk Hin Hb Hq Hs Hn)
    as (s' & datos & Hv & Hsw' & Hc & Hd & Hlen & Hg & Haj).
  destruct Hsu as [Hm Hsw Hr Htot]. destruct (residente_en_ram m ram k p seg Hm Hk Hin Hb) as (Hb0 & Hl0 & Hend).
  destruct (acceso_tamanio m ram (mi_ram _ _ Hm)) as [_ Hmax].
  pose proof (sok_bs s (sl_ok _ _ Hsw)) as Hbs. fold bs in Hbs, Hv, Haj.
  pose proof (n_bloques_pos (s_limite seg) bs Hl0 ltac:(lia)) as HN0. set (N := n_bloques (s_limite seg) bs) in *.
  destruct (reservar_entra N (m_reserva m) Hr HN0 Hn Htot) as (E1 & E2 & Hr' & Ebs & Etot).
  set (r' := (reservar N (m_reserva m)).2) in *. set (ini := next_block (m_reserva m)) in *.
  set (seg1 := con_inicio ini seg) in *. set (m1 := con_segs k p (h ++ seg1 :: l) (con_reserva r' m)) in *.
  set (m2 := con_swap (Vivo s') m1) in *.
  set (m3 := con_libres (bloques_liberar (bloques_libres m2) (s_base seg) (s_limite seg)) m2).
  set (seg2 := con_base NEG1 seg1). set (p1 := con_segmentos (h ++ seg1 :: l) p).
  assert (Hk2 : procesos m2 !! k = Some p1) by (by apply con_segs_lookup).
  assert (Hm2 : mem_inv m2 ram).
  { apply (mem_inv_igual m1); [|done..]. apply (mem_inv_igual (con_segs k p (h ++ seg1 :: l) m)); [|done..].
    by apply (mem_inv_fijo m k p h l seg). }
  destruct (mem_inv_sacar m2 k p1 h l seg1 Hk2 eq_refl ram seg2 Hm2 Hb eq_refl) as [Hm3 Ht3].
  change (s_base seg1) with (s_base seg) in *. change (s_limite seg1) with (s_limite seg) in *. fold m3 in Hm3, Ht3.
  exists (con_segs k p1 (h ++ seg2 :: l) m3), s', seg2. split; [split|split]; try done.
  - split; [done| |done|]; [destruct Hsw'; by split|]. cbn. by rewrite Etot.
  - intros x Hx. apply Haj; [rewrite <-(sl_total _ _ Hsw); fold ini in Hx; lia|]. left. cbn. fold ini in Hx. lia.
  - rewrite bloques_de_cons. cbn. fold bs N. unfold bloques_de. cbn. lia.
  - apply Forall2_cons. split; [|done]. do 3 (split; [done|]). exists datos. split; [done|].
    destruct Hr as (Hr0 & Hr1 & Hr2). fold ini in Hr0. split; cbn; [done|lia|lia| |by rewrite <-(Z.add_0_l 0)].
    assert (Hcb : cantidad_bloques s' = cantidad_bloques s) by (unfold cantidad_bloques; by rewrite Hc).
    rewrite Hcb, Hc. fold bs N. rewrite <-(sl_total _ _ Hsw). lia.
  - cbn. by rewrite list_insert_insert_eq.
  - cbn [fmap list_fmap suma_Z]. change (bloques_libres (con_segs k p1 (h ++ seg2 :: l) m3)) with (bloques_libres m3).
    rewrite Ht3. change (bloques_libres m2) with (bloques_libres m). lia.
  - apply Forall_singleton. split; cbn; [destruct Hr as (Hr0 & Hr1 & Hr2); fold ini in Hr0; unfold es_u32 in *; lia|].
    fold bs N. rewrite E2. lia.
  - cbn [suspender_bucle]. st_unfold. unfold swap_reservar_bloques. st_unfold.
    rewrite (leer_segmento_ok m k p h l seg Hk Hsegs), cantidad_de_bloques_ok by lia. fold N.
    destruct (reservar N (m_reserva m)) as [ini' r''] eqn:Er. cbn in E1, r'. subst ini'.
    destruct (Z.eqb_spec ini NEG1); [destruct Hr; unfold es_u32, NEG1 in *; lia|].
    rewrite (modificar_segmento_ok (con_reserva r'' m) k p h l seg Hk Hsegs).
    change (con_segs k p (h ++ con_inicio ini seg :: l) (con_reserva r'' m)) with m1.
    change (con_inicio ini seg) with seg1. rewrite Hv. cbn [Z.eqb negb]. unfold liberar. st_unfold.
    fold m3. by rewrite (modificar_segmento_ok m3 k p1 h l seg1 Hk2 eq_refl).
Qed.

Lemma suspendido_estable s s' ram seg seg' lim :
  suspendido s ram seg seg' -> sw_config s' = sw_config s ->
  swap_bloque_inicio seg' + n_bloques (s_limite seg') (sw_block_size (sw_config s)) <= lim ->
  (forall x, 0 <= x < lim -> bloque s' x = bloque s x) -> suspendido s' ram seg seg'.
Proof.
  intros (H1 & H2 & H3 & d & H4 & H5) Hc Hl Hb. do 3 (split; [done|]). exists d. split; [done|].
  by apply (guardado_estable s s' seg' d lim).
Qed.

Lemma suspender_bucle_ok l : forall m ram s k p h sock socket q,
  let bs := sw_block_size (sw_config s) in
  suspendible m ram s -> procesos m !! k = Some p -> segmentos p = h ++ l ->
  Forall (fun seg => s_base seg <> NEG1) l -> es_int q -> 0 <= sock ->
  next_block (m_reserva m) + bloques_de bs l <= total_blocks (m_reserva m) ->
  exists m' s' l', tras_suspender m m' ram s s' k p h l l' [] /\
    suspender_bucle (length l) k (length h) sock socket q bs m = Some (true, m').
Proof.
  induction l as [|seg l IH]; intros m ram s k p h sock socket q bs Hs Hk Hsegs Hres Hq Hsk Hn.
  { exists m, s, []. split; [|done]. split; try done.
    - cbn. lia.
    - rewrite !app_nil_r in *. rewrite list_insert_id; [done|]. rewrite <-Hsegs. by rewrite proceso_eta.
    - cbn. lia. }
  apply Forall_cons in Hres as [Hb Hres].
  assert (Hbs : 0 < bs) by (destruct Hs as [_ [_ [H _ _] _ _] _ _]; fold bs in H; lia).
  assert (Hpos : 0 <= bloques_de bs l).
  { apply bloques_de_pos; [done|]. rewrite Forall_forall in *. intros x Hx.
    destruct (residente_en_ram m ram k p x (su_inv _ _ _ Hs) Hk) as (_ & ? & _); [rewrite Hsegs; set_solver|by apply Hres|done]. }
  rewrite bloques_de_cons in Hn.
  destruct (suspender_paso m ram s k p h seg l (length l) sock socket q Hs Hk Hsegs Hb Hq Hsk)
    as (m1 & s1 & seg' & T1 & Hini & E); [fold bs; lia|].
  fold bs in E. set (p1 := con_segmentos (h ++ seg' :: l) p).
  assert (Hk1 : procesos m1 !! k = Some p1).
  { rewrite (ts_procesos _ _ _ _ _ _ _ _ _ _ _ T1). cbn. apply list_lookup_insert_eq. by eapply lookup_lt_Some. }
  pose proof (ts_config _ _ _ _ _ _ _ _ _ _ _ T1) as Hc1.
  pose proof (ts_next _ _ _ _ _ _ _ _ _ _ _ T1) as Hn1. rewrite bloques_de_cons in Hn1.
  unfold bloques_de at 1 in Hn1. cbn [fmap list_fmap suma_Z] in Hn1. fold bs in Hn1.
  destruct (IH m1 ram s1 k p1 (h ++ [seg']) sock socket q (ts_estado _ _ _ _ _ _ _ _ _ _ _ T1) Hk1)
    as (m2 & s2 & l' & T2 & E2); [by cbn; rewrite <-app_assoc|done..| |].
  { rewrite Hc1, (ts_total _ _ _ _ _ _ _ _ _ _ _ T1). fold bs. lia. }
  rewrite Hc1 in E2. fold bs in E2. rewrite length_app, Nat.add_1_r in E2.
  exists m2, s2, (seg' :: l'). split; [|by cbn [length]; rewrite E].
  destruct T1 as [A1 A2 A3 A4 A5 A6 A7 A8 A9 A10 A11 A12 A13 A14]. destruct T2 as [B1 B2 B3 B4 B5 B6 B7 B8 B9 B10 B11 B12 B13 B14].
  pose proof (n_bloques_pos (s_limite seg) bs) as HN.
  destruct (residente_en_ram m ram k p seg (su_inv _ _ _ Hs) Hk) as (_ & Hl0 & _); [rewrite Hsegs; set_solver|done|].
  split; try congruence.
  - intros x Hx. rewrite B3 by lia. by apply A3.
  - rewrite B4, Hn1, Hc1, bloques_de_cons. fold bs. lia.
  - apply Forall2_cons in A6 as [A6 _]. apply Forall2_cons. split; [|done].
    apply (suspendido_estable s1 s2 ram seg seg' (next_block (m_reserva m1))); [done|done| |done].
    destruct A6 as (_ & -> & _). rewrite Hini, Hc1. fold bs. lia.
  - rewrite B7, A7. cbn. rewrite list_insert_insert_eq, <-!app_assoc, !app_nil_r. done.
  - rewrite B8, A8. cbn. lia.
  - apply Forall_cons. rewrite Hc1 in B14. split; [|exact B14]. apply Forall_singleton in A14 as [A14 A15]. split; [done|].
    rewrite B4. fold bs in A15 |- *. rewrite Hc1. fold bs. lia.
Qed.

(** The start of both handlers: the PID is read, the process looked up. *)
Lemma suspendible_consumido m ram sw s resto : suspendible m ram sw -> suspendible (consumido s resto m) ram sw.
Proof. intros [A [B1 B2 B3 B4] C D]. split; [by apply mem_inv_consumido|by split|done..]. Qed.

Lemma leer_suspender m q s resto :
  es_int q -> pendiente m s (enviar_suspender_proceso q) resto ->
  recibir_de s recibir_suspender_proceso m = Some (q, consumido s resto m).
Proof. intros Hq Hp. exact (recibir_protocolo p_suspender q m s resto Hq Hp). Qed.

Lemma leer_des_suspender m q s resto :
  es_int q -> pendiente m s (enviar_des_suspender_proceso q) resto ->
  recibir_de s recibir_des_suspender_proceso m = Some (q, consumido s resto m).
Proof. intros Hq Hp. exact (recibir_protocolo p_des_suspender q m s resto Hq Hp). Qed.

Lemma suspender_ok m ram sw s q resto k p :
  let sock := conexiones_get_swap_socket (m_conexiones m) in
  let bs := sw_block_size (sw_config sw) in
  suspendible m ram sw -> es_int q -> pendiente m s (enviar_suspender_proceso q) resto ->
  procesos_buscar q (procesos m) = Some k -> procesos m !! k = Some p -> 0 <= sock ->
  Forall (fun seg => s_base seg <> NEG1) (segmentos p) ->
  next_block (m_reserva m) + bloques_de bs (segmentos p) <= total_blocks (m_reserva m) ->
  exists m' sw' segs', manejar_suspender_proceso s m = Some (tt, m') /\ suspendible m' ram sw' /\
    Forall2 (suspendido sw' ram) (segmentos p) segs' /\
    procesos m' = <[k := con_segmentos segs' p]> (procesos m) /\
    total (bloques_libres m') = total (bloques_libres m) + suma_Z (s_limite <$> segmentos p) /\
    (forall x, 0 <= x < next_block (m_reserva m) -> bloque sw' x = bloque sw x) /\
    m_conexiones m' = m_conexiones m /\ config_memory m' = config_memory m /\
    m_salidas m' = m_salidas m ++ [(s, enviar_ok SUSPENDER_PROCESO)] /\
    sw_config sw' = sw_config sw /\ next_block (m_reserva m') = next_block (m_reserva m) + bloques_de bs (segmentos p) /\
    total_blocks (m_reserva m') = total_blocks (m_reserva m) /\ en_progreso m' = en_progreso m /\ entrada s m' = resto /\
    Forall (ubicado_en_swap bs (next_block (m_reserva m'))) segs'.
Proof.
  intros sock bs Hs Hq Hp Ek Hk Hsk Hres Hn. set (m1 := consumido s resto m).
  pose proof (suspendible_consumido m ram sw s resto Hs) as Hs1. fold m1 in Hs1.
  eassert (Hrun : manejar_suspender_proceso s m = _) by exact (st_bind_ok _ _ _ _ _ (leer_suspender m q s resto Hq Hp)).
  rewrite Hrun. clear Hrun. fold m1.
  rewrite (st_bind_ok _ _ _ _ _ (buscar_proceso_Some q m1 k p Ek Hk)). unfold swap_block_size. st_unfold.
  change (m_conexiones m1) with (m_conexiones m). fold sock. destruct (Z.ltb_spec sock 0); [lia|].
  change (m_reserva m1) with (m_reserva m). rewrite (sl_bs _ _ (su_swap _ _ _ Hs)). fold bs.
  destruct (suspender_bucle_ok (segmentos p) m1 ram sw k p [] sock s q Hs1 Hk eq_refl Hres Hq Hsk Hn)
    as (m2 & sw' & segs' & [A1 A2 A3 A4 A5 A6 A7 A8 A9 A10 A11 A12 A13 A14] & E). fold bs in E. cbn [length] in E. rewrite E.
  rewrite enviar_eq. rewrite app_nil_r in A7. exists (con_salida s (enviar_ok SUSPENDER_PROCESO) m2), sw', segs'.
  split; [done|]. split; [destruct A1 as [a b c d]; split; [by apply mem_inv_salida|by destruct b|done..]|].
  split; [done|]. split; [exact A7|]. split; [exact A8|]. split; [exact A3|]. split; [exact A10|].
  split; [exact A11|]. split; [cbn; by rewrite A9|]. split; [exact A2|]. split; [exact A4|]. split; [exact A5|].
  split; [exact A12|]. split; [|exact A14]. unfold entrada. cbn. rewrite A13. cbn. by rewrite lookup_insert_eq.
Qed.

(** suspending a process whose segments are all in RAM, with room for them in
    Swap: every segment's bytes are in the blocks it reserved, its base is
    cleared, its range is free again, the blocks reserved before keep their
    contents, and the scheduler is answered. An unknown process, or a Memory
    without Swap, is answered and nothing changes. *)
Theorem suspender_proceso_correcto m ram sw s q resto :
  let sock := conexiones_get_swap_socket (m_conexiones m) in
  let bs := sw_block_size (sw_config sw) in
  suspendible m ram sw -> es_int q -> pendiente m s (enviar_suspender_proceso q) resto ->
  ((procesos_buscar q (procesos m) = None \/ sock < 0) ->
   manejar_suspender_proceso s m = Some (tt, con_salida s (enviar_ok SUSPENDER_PROCESO) (consumido s resto m))) /\
  (forall k p, procesos_buscar q (procesos m) = Some k -> procesos m !! k = Some p -> 0 <= sock ->
   Forall (fun seg => s_base seg <> NEG1) (segmentos p) ->
   next_block (m_reserva m) + bloques_de bs (segmentos p) <= total_blocks (m_reserva m) ->
   exists m' sw' segs', manejar_suspender_proceso s m = Some (tt, m') /\ suspendible m' ram sw' /\
     Forall2 (suspendido sw' ram) (segmentos p) segs' /\
     procesos m' = <[k := con_segmentos segs' p]> (procesos m) /\
     total (bloques_libres m') = total (bloques_libres m) + suma_Z (s_limite <$> segmentos p) /\
     (forall x, 0 <= x < next_block (m_reserva m) -> bloque sw' x = bloque sw x) /\
     m_conexiones m' = m_conexiones m /\ config_memory m' = config_memory m /\
     m_salidas m' = m_salidas m ++ [(s, enviar_ok SUSPENDER_PROCESO)]).
Proof.
  intros sock bs Hs Hq Hp. split.
  2: { intros k p Ek Hk Hsk Hres Hn.
       destruct (suspender_ok m ram sw s q resto k p Hs Hq Hp Ek Hk Hsk Hres Hn)
         as (m' & sw' & segs' & H1 & H2 & H3 & H4 & H5 & H6 & H7 & H8 & H9 & _). by exists m', sw', segs'. }
  eassert (Hrun : manejar_suspender_proceso s m = _) by exact (st_bind_ok _ _ _ _ _ (leer_suspender m q s resto Hq Hp)).
  rewrite Hrun. clear Hrun. set (m1 := consumido s resto m). intros Hno.
  destruct (procesos_buscar q (procesos m)) as [k|] eqn:Ek; [|by rewrite (st_bind_ok _ _ _ _ _ (buscar_proceso_None q m1 Ek))].
  destruct (procesos_buscar_Some _ _ _ Ek) as (p & Hk & _).
  rewrite (st_bind_ok _ _ _ _ _ (buscar_proceso_Some q m1 k p Ek Hk)).
  destruct Hno as [?|Hno]; [done|]. st_unfold. change (m_conexiones m1) with (m_conexiones m). fold sock.
  by destruct (Z.ltb_spec sock 0); [|lia].
Qed.

(** ** The reservations of [reservar_segmentos_con_rollback] *)

(** The free table after giving a place to each size in turn, or [None]. *)
Fixpoint asignar_todos (wf : bool) (l : list t_bloque_libre) (tams : list Z)
    : option (list Z * list t_bloque_libre) :=
  match tams with
  | [] => Some ([], l)
  | t :: tams =>
      let '(base, l1) := bloques_asignar wf l t in
      if base =? NEG1 then None
      else '(bases, l2) ← asignar_todos wf l1 tams; Some (base :: bases, l2)
  end.

(** Segments that are out of RAM. *)
Definition fuera (segs : list t_segmento) : Prop :=
  Forall (fun s => s_base s = NEG1 /\ 0 <= s_limite s) segs.

Definition en_bases (segs : list t_segmento) (bases : list Z) : list t_segmento :=
  zip_with (fun s b => con_base b s) segs bases.

(** Undoing: the segments [l], all placed, leave RAM again. *)
Lemma deshacer_reservas_ok l : forall m ram k p h t,
  mem_inv m ram -> procesos m !! k = Some p -> segmentos p = h ++ l ++ t ->
  Forall (fun s => s_base s <> NEG1) l ->
  exists m', deshacer_reservas k (imap (fun i _ => ((length h + i)%nat, NEG1)) l) m = Some (tt, m') /\
    mem_inv m' ram /\ procesos m' = <[k := con_segmentos (h ++ (con_base NEG1 <$> l) ++ t) p]> (procesos m) /\
    m_salidas m' = m_salidas m /\ marco m m' /\ m_entradas m' = m_entradas m.
Proof.
  induction l as [|seg l IH]; intros m ram k p h t Hm Hk Hsegs Hb.
  { exists m. split; [done|]. split; [done|]. split; [|done]. cbn in *.
    rewrite <-Hsegs, proceso_eta. by rewrite list_insert_id. }
  apply Forall_cons in Hb as [Hb0 Hb]. cbn [imap deshacer_reservas]. rewrite Nat.add_0_r.
  cbn [app] in Hsegs.
  rewrite (st_bind_ok _ _ _ _ _ (leer_segmento_ok m k p h (l ++ t) seg Hk Hsegs)).
  unfold liberar. unfold mbind at 1, ST_bind at 1, st_mod at 1.
  set (m1 := con_libres (bloques_liberar (bloques_libres m) (s_base seg) (s_limite seg)) m).
  rewrite (st_bind_ok _ _ _ _ _ (modificar_segmento_ok m1 k p h (l ++ t) seg Hk Hsegs _)).
  destruct (mem_inv_sacar m k p h (l ++ t) seg Hk Hsegs ram (con_base NEG1 seg) Hm Hb0 eq_refl) as [Hm2 _].
  fold m1 in Hm2. set (m2 := con_segs k p (h ++ con_base NEG1 seg :: l ++ t) m1) in *.
  destruct (IH m2 ram k (con_segmentos (h ++ con_base NEG1 seg :: l ++ t) p) (h ++ [con_base NEG1 seg]) t)
    as (m3 & E & Hm3 & Hp3 & Hs3 & Hma3 & He3); [done|by apply con_segs_lookup|by cbn; rewrite <-app_assoc|done|].
  exists m3. split; [|split; [done|split; [|split; [by rewrite Hs3|split; [destruct Hma3; by split|by rewrite He3]]]]].
  - rewrite <-E. f_equal. apply imap_ext. intros i x _. cbn. f_equal. rewrite length_app. cbn. lia.
  - rewrite Hp3. cbn. rewrite list_insert_insert_eq, <-app_assoc. done.
Qed.

Lemma con_base_igual s b : s_base s = b -> con_base b s = s.
Proof. intros <-. by destruct s. Qed.

(** The loop follows [asignar_todos]: every segment gets its place, or everything
    is undone and the fault is answered. *)
Lemma reservar_bucle_ok l : forall m ram k p h socket,
  let wf := es_worst_fit (allocation_strategy (config_memory m)) in
  let rs := imap (fun i _ => (i, NEG1)) h in
  mem_inv m ram -> procesos m !! k = Some p -> segmentos p = h ++ l -> fuera l ->
  Forall (fun s => s_base s <> NEG1) h ->
  match asignar_todos wf (bloques_libres m) (s_limite <$> l) with
  | Some (bases, l') =>
      let m' := con_segs k p (h ++ en_bases l bases) (con_libres l' m) in
      reservar_bucle (length l) k (length h) socket rs m = Some (true, m') /\ mem_inv m' ram /\
      length bases = length l /\ Forall (fun b => b <> NEG1) bases
  | None =>
      exists m', reservar_bucle (length l) k (length h) socket rs m = Some (false, m') /\ mem_inv m' ram /\
        procesos m' = <[k := con_segmentos ((con_base NEG1 <$> h) ++ l) p]> (procesos m) /\
        m_salidas m' = m_salidas m ++ [(socket, enviar_ok SEGMENTATION_FAULT)] /\
        marco m m' /\ m_entradas m' = m_entradas m
  end.
Proof.
  induction l as [|seg l IH]; intros m ram k p h socket wf rs Hm Hk Hsegs Hl Hh.
  { cbn [fmap list_fmap asignar_todos length reservar_bucle]. rewrite app_nil_r in Hsegs.
    assert (E : con_segs k p (h ++ en_bases [] []) (con_libres (bloques_libres m) m) = m).
    { unfold con_segs. cbn. rewrite app_nil_r, <-Hsegs, proceso_eta, list_insert_id by done. by destruct m. }
    cbv zeta. rewrite E. split; [done|]. split; [done|]. by split. }
  apply Forall_cons in Hl as [[Hb Hl0] Hl].
  cbn [fmap list_fmap asignar_todos length reservar_bucle].
  rewrite (st_bind_ok _ _ _ _ _ (leer_segmento_ok m k p h l seg Hk Hsegs)).
  destruct (bloques_asignar wf (bloques_libres m) (s_limite seg)) as [base l1] eqn:Ea.
  assert (Easig : asignar (s_limite seg) m = Some (base, con_libres l1 m))
    by (unfold asignar; st_unfold; fold wf; by rewrite Ea).
  rewrite (st_bind_ok _ _ _ _ _ Easig). destruct (Z.eqb_spec base NEG1) as [E|Hne].
  - assert (Hl1 : l1 = bloques_libres m).
    { destruct (asignar_casos _ (s_limite seg) m (mem_inv_libres _ _ Hm) Hl0) as [[E1 _]|(b1 & l1' & E1 & Hn & _)].
      - rewrite Easig in E1. injection E1 as _ E1. by rewrite <-E1.
      - fold wf in E1. congruence. }
    rewrite Hl1, con_libres_igual.
    destruct (deshacer_reservas_ok h m ram k p [] (seg :: l) Hm Hk Hsegs Hh) as (m' & Ed & Hm' & Hp' & Hs' & Hma' & He').
    change (deshacer_reservas k rs m = Some (tt, m')) in Ed. rewrite (st_bind_ok _ _ _ _ _ Ed).
    rewrite (st_bind_ok _ _ _ _ _ (enviar_eq _ _ _)).
    exists (con_salida socket (enviar_ok SEGMENTATION_FAULT) m'). split; [done|]. split; [by apply mem_inv_salida|].
    split; [done|]. split; [cbn; by rewrite Hs'|]. split; [destruct Hma'; by split|done].
  - rewrite (st_bind_ok _ _ _ _ _ (modificar_segmento_ok (con_libres l1 m) k p h l seg Hk Hsegs _)).
    pose proof (mem_inv_traer m k p h l seg Hk Hsegs ram base l1 Hm Hb Hl0 Ea Hne) as Hm1.
    set (p1 := con_segmentos (h ++ con_base base seg :: l) p).
    set (m1 := con_segs k p (h ++ con_base base seg :: l) (con_libres l1 m)) in *.
    specialize (IH m1 ram k p1 (h ++ [con_base base seg]) socket). cbv zeta in IH.
    rewrite length_app, Nat.add_1_r, imap_app in IH. cbn [imap length] in IH. rewrite Nat.add_0_r in IH.
    change (s_base seg) with (s_base seg) in *. rewrite Hb. fold rs in IH.
    specialize (IH Hm1 ltac:(by apply con_segs_lookup) ltac:(by cbn; rewrite <-app_assoc) Hl).
    assert (Hh1 : Forall (fun s => s_base s <> NEG1) (h ++ [con_base base seg])).
    { apply Forall_app. split; [done|]. by apply Forall_singleton. }
    specialize (IH Hh1). change (config_memory m1) with (config_memory m) in IH. fold wf in IH.
    change (bloques_libres m1) with l1 in IH.
    destruct (asignar_todos wf l1 (s_limite <$> l)) as [[bases l2]|]; cbn [mbind option_bind].
    + destruct IH as (E & Hm2 & Hlen & Hbs).
      assert (Em : con_segs k p1 ((h ++ [con_base base seg]) ++ en_bases l bases) (con_libres l2 m1) =
        con_segs k p (h ++ en_bases (seg :: l) (base :: bases)) (con_libres l2 m)).
      { unfold con_segs. cbn. by rewrite list_insert_insert_eq, <-app_assoc. }
      rewrite Em in E, Hm2. split; [exact E|]. split; [done|]. split; [by cbn; rewrite Hlen|]. by apply Forall_cons.
    + destruct IH as (m' & E & Hm' & Hp' & Hs' & Hma' & He'). exists m'. split; [exact E|]. split; [done|].
      split; [|split; [done|split; [destruct Hma'; by split|done]]].
      rewrite Hp'. cbn. rewrite list_insert_insert_eq, fmap_app, <-app_assoc. cbn.
      assert (Ec : con_base NEG1 (con_base base seg) = seg) by (destruct seg; cbn in *; by rewrite Hb).
      by rewrite Ec.
Qed.

(** ** Bringing the bytes back *)

(** [x] written at [d], inside the buffer. *)
Definition escrito (ram : list byte) (d : nat) (x : list byte) : list byte :=
  take d ram ++ x ++ drop (d + length x) ram.

Lemma escrito_nada ram d : escrito ram d [] = ram.
Proof. unfold escrito. cbn. by rewrite Nat.add_0_r, take_drop. Qed.

Lemma escribir_escrito ram d x ram' :
  escribir_buffer ram d x = Some ram' -> ram' = escrito ram (Z.to_nat d) x.
Proof. unfold escribir_buffer. destruct (_ <=? _); [|done]. by intros [= <-]. Qed.

Lemma escrito_escribir ram d x :
  d + Z.of_nat (length x) <= Z.of_nat (length ram) ->
  escribir_buffer ram d x = Some (escrito ram (Z.to_nat d) x).
Proof. intros H. unfold escribir_buffer. by destruct (Z.leb_spec (d + Z.of_nat (length x)) (Z.of_nat (length ram))); [|lia]. Qed.

Lemma escrito_app ram d x y :
  (d + length x <= length ram)%nat ->
  escrito (escrito ram d x) (d + length x) y = escrito ram d (x ++ y).
Proof.
  intros H. unfold escrito. assert (Hd : length (take d ram) = d) by (rewrite length_take; lia).
  rewrite (app_assoc (take d ram) x), take_app_length' by (rewrite length_app; lia).
  rewrite drop_app_ge by (rewrite length_app; lia).
  rewrite drop_drop, !length_app, Hd, <-!app_assoc. do 4 f_equal. lia.
Qed.

Lemma pieza_drop bs datos b :
  0 <= b -> 0 < bs -> pieza bs datos b ++ drop (Z.to_nat ((b + 1) * bs)) datos = drop (Z.to_nat (b * bs)) datos.
Proof.
  intros Hb Hbs. unfold pieza. rewrite <-(take_drop (Z.to_nat bs) (drop (Z.to_nat (b * bs)) datos)) at 2.
  f_equal. rewrite drop_drop. f_equal. nia.
Qed.

Lemma swap_enlazado_igual m m' s : swap_enlazado m s -> misma_estructura m m' -> swap_enlazado m' s.
Proof. intros [A B C D] He. split; rewrite ?(me_swap _ _ He), ?(me_reserva _ _ He); done. Qed.

Lemma transferir_bloques_ok n : forall m ram s seg datos sock q b,
  let bs := sw_block_size (sw_config s) in
  let N := n_bloques (s_limite seg) bs in
  ram_es m ram -> swap_enlazado m s -> guardado s seg datos ->
  0 <= s_base seg -> s_base seg + s_limite seg <= Z.of_nat (length ram) ->
  es_int q -> 0 <= sock -> 0 <= b -> b + Z.of_nat n = N ->
  exists m', transferir_bloques n sock seg q bs N b m = Some (0, m') /\ misma_estructura m m' /\
    ram_es m' (escrito ram (Z.to_nat (s_base seg + b * bs)) (drop (Z.to_nat (b * bs)) datos)).
Proof.
  induction n as [|n IH]; intros m ram s seg datos sock q b bs N Hr Hsw Hg Hb0 Hend Hq Hs Hb Hn.
  { exists m. split; [done|]. split; [done|]. rewrite drop_ge; [by rewrite escrito_nada|].
    pose proof (g_largo _ _ _ Hg). pose proof (sok_bs s (sl_ok _ _ Hsw)).
    pose proof (n_bloques_cubre (s_limite seg) bs ltac:(unfold bs; lia)). fold N in H1. unfold bs in *. nia. }
  pose proof (sok_bs s (sl_ok _ _ Hsw)) as Hbs. fold bs in Hbs.
  destruct (swap_cantidad s (sl_ok _ _ Hsw)) as [Hc0 Hc1]. pose proof (sok_tam s (sl_ok _ _ Hsw)) as Hft.
  unfold es_u32 in Hft. destruct (acceso_tamanio m ram Hr) as [_ Hmax].
  pose proof (g_largo _ _ _ Hg) as Hlen. pose proof (g_limite _ _ _ Hg) as Hlim.
  pose proof (g_inicio _ _ _ Hg) as Hini. pose proof (g_fin _ _ _ Hg) as Hfin. fold bs N in Hfin.
  assert (HbN : b * bs < s_limite seg) by (apply n_bloques_dentro; unfold N, bs in *; lia).
  assert (Hbb : 0 <= b * bs) by nia. set (pz := pieza bs datos b).
  assert (Hpl : b * bs + Z.of_nat (length pz) <= s_limite seg)
    by (unfold pz, pieza; autorewrite with largo; lia).
  cbn [transferir_bloques].
  assert (Hch : tamanio_chunk (s_limite seg) bs N b = Z.of_nat (length pz))
    by (apply tamanio_chunk_ok; fold N; lia). rewrite Hch.
  unfold mul32. rewrite (u32_small (b * bs)) by (unfold es_u32; lia).
  rewrite (add32_small (s_base seg)) by lia. rewrite (add32_small (swap_bloque_inicio seg)) by lia.
  rewrite (st_bind_ok _ _ _ _ _ (swap_leer_bloque_ok m s sock (swap_bloque_inicio seg + b) Hsw Hs ltac:(lia))).
  rewrite Nat2Z.id. pose proof (g_datos _ _ _ Hg b) as Hpz. cbv zeta in Hpz. fold bs in Hpz. fold N pz in Hpz.
  rewrite Hpz by lia.
  destruct (acceso_escribir m ram q (s_base seg + b * bs) pz Hr Hq ltac:(lia) ltac:(lia))
    as (m1 & ram1 & E1 & Hw1 & Hr1 & Hme1).
  rewrite (st_bind_ok _ _ _ _ _ E1). apply escribir_escrito in Hw1.
  assert (Hl1 : length ram1 = length ram).
  { rewrite Hw1. unfold escrito. autorewrite with largo. lia. }
  destruct (IH m1 ram1 s seg datos sock q (b + 1) Hr1) as (m2 & E2 & Hme2 & Hr2);
    [by eapply swap_enlazado_igual|done|done|by rewrite Hl1|done|done|lia|fold bs N; lia|].
  exists m2. split; [exact E2|]. split; [by etrans|]. fold bs in Hr2.
  destruct (decide (n = O)) as [->|Hn0].
  - rewrite drop_ge, escrito_nada in Hr2.
    2: { pose proof (n_bloques_cubre (s_limite seg) bs ltac:(lia)). fold N in H. nia. }
    rewrite Hw1 in Hr2. replace (drop (Z.to_nat (b * bs)) datos) with pz; [done|].
    rewrite <-(pieza_drop bs datos b) by lia. rewrite (drop_ge datos), app_nil_r; [done|].
    pose proof (n_bloques_cubre (s_limite seg) bs ltac:(lia)). fold N in H. nia.
  - assert (Hfull : Z.of_nat (length pz) = bs).
    { assert ((b + 1) * bs < s_limite seg) by (apply n_bloques_dentro; fold N; lia).
      unfold pz, pieza. autorewrite with largo. nia. }
    rewrite Hw1 in Hr2.
    replace (Z.to_nat (s_base seg + (b + 1) * bs)) with (Z.to_nat (s_base seg + b * bs) + length pz)%nat in Hr2 by nia.
    rewrite escrito_app in Hr2 by nia. unfold pz in Hr2. by rewrite pieza_drop in Hr2 by lia.
Qed.

Lemma leer_ajeno ram d x ram' a :
  escribir_buffer ram d x = Some ram' -> 0 <= d ->
  bloque_en (Z.of_nat (length ram)) a -> ajenos a (Bloque d (Z.of_nat (length x))) ->
  leer_buffer ram' (b_base a) (b_tam a) = leer_buffer ram (b_base a) (b_tam a).
Proof.
  intros Hw Hd [Ha1 Ha2] Haj. pose proof (length_escribir_buffer _ _ _ _ Hd Hw) as Hl.
  unfold ajenos in Haj. cbn in Haj. destruct (decide (b_tam a = 0)) as [E|E].
  { rewrite E, !leer_buffer_nada; [done|lia..]. }
  destruct (decide (length x = O)) as [E'|E'].
  { apply nil_length_inv in E'. subst x. by rewrite (escribir_buffer_nada ram d ram'). }
  apply (leer_escribir_disjunto ram d x); [lia..| |done]. unfold disjuntos in *. lia.
Qed.

Lemma mem_inv_escrito m m' ram ram' :
  mem_inv m ram -> misma_estructura m m' -> ram_es m' ram' -> length ram' = length ram -> mem_inv m' ram'.
Proof.
  intros [H1 H2 H3 H4] He Hr Hl.
  split; rewrite ?(me_procesos _ _ He), ?(me_libres _ _ He), ?Hl; done.
Qed.

Lemma transferir_bucle_ok l : forall m ram s k p h ds sock q,
  let bs := sw_block_size (sw_config s) in
  let lim := Z.of_nat (length ram) in
  ram_es m ram -> swap_enlazado m s -> procesos m !! k = Some p -> segmentos p = h ++ l ->
  Forall2 (guardado s) l ds -> bloques_ok lim (bloque_de <$> l) -> es_int q -> 0 <= sock ->
  exists m' ram', transferir_bucle (length l) k (length h) sock q bs m = Some (0, m') /\
    misma_estructura m m' /\ ram_es m' ram' /\ length ram' = length ram /\
    Forall2 (fun seg d => leer_buffer ram' (s_base seg) (s_limite seg) = Some d) l ds /\
    (forall a, bloque_en lim a -> Forall (ajenos a) (bloque_de <$> l) ->
       leer_buffer ram' (b_base a) (b_tam a) = leer_buffer ram (b_base a) (b_tam a)).
Proof.
  induction l as [|seg l IH]; intros m ram s k p h ds sock q bs lim Hr Hsw Hk Hsegs Hg Hok Hq Hs.
  { apply Forall2_nil_inv_l in Hg as ->. exists m, ram. repeat split; try done; by constructor. }
  apply Forall2_cons_inv_l in Hg as (d & ds' & Hg & Hgs & ->).
  cbn [fmap list_fmap] in Hok. apply bloques_ok_cons in Hok as (Hen & Haj & Hok).
  destruct Hen as [Hb0 Hend]. cbn in Hb0, Hend.
  pose proof (sok_bs s (sl_ok _ _ Hsw)) as Hbs. fold bs in Hbs.
  pose proof (g_largo _ _ _ Hg) as Hlen. pose proof (g_limite _ _ _ Hg) as Hlim.
  cbn [transferir_bucle length].
  rewrite (st_bind_ok _ _ _ _ _ (leer_segmento_ok m k p h l seg Hk Hsegs)).
  rewrite cantidad_de_bloques_ok by (fold bs; lia). pose proof (n_bloques_pos (s_limite seg) bs ltac:(lia) ltac:(lia)).
  destruct (transferir_bloques_ok (Z.to_nat (n_bloques (s_limite seg) bs)) m ram s seg d sock q 0 Hr Hsw Hg)
    as (m1 & E1 & Hme1 & Hr1); [lia|lia|done|done|lia|fold bs; lia|].
  fold bs in E1. rewrite (st_bind_ok _ _ _ _ _ E1). cbn [Z.eqb negb].
  rewrite Z.mul_0_l, Z.add_0_r in Hr1. change (drop (Z.to_nat 0) d) with d in Hr1.
  assert (Hw : escribir_buffer ram (s_base seg) d = Some (escrito ram (Z.to_nat (s_base seg)) d))
    by (apply escrito_escribir; fold lim; lia).
  set (ram1 := escrito ram (Z.to_nat (s_base seg)) d) in *.
  pose proof (length_escribir_buffer _ _ _ _ Hb0 Hw) as Hl1.
  destruct (IH m1 ram1 s k p (h ++ [seg]) ds' sock q Hr1) as (m2 & ram2 & E2 & Hme2 & Hr2 & Hl2 & Hd2 & Ha2);
    [by eapply swap_enlazado_igual|by rewrite (me_procesos _ _ Hme1)|by rewrite <-app_assoc|done|by rewrite Hl1|done|done|].
  rewrite length_app, Nat.add_1_r in E2. rewrite Hl1 in Ha2. fold lim in Ha2.
  exists m2, ram2. split; [exact E2|]. split; [by etrans|]. split; [done|]. split; [congruence|]. split.
  - apply Forall2_cons. split; [|done]. specialize (Ha2 (bloque_de seg)). cbn in Ha2.
    rewrite Ha2; [|by split|done]. rewrite <-Hlen. apply (leer_escribir ram); [lia|done].
  - intros a Hen Hall. cbn [fmap list_fmap] in Hall. apply Forall_cons in Hall as [Ha Hall].
    rewrite Ha2 by done. apply (leer_ajeno ram (s_base seg) d); [done|lia|done|].
    unfold bloque_de in Ha. by rewrite Hlen.
Qed.

(** In a sound Memory the free addresses are those no segment holds. *)
Lemma mem_inv_libre m ram x :
  mem_inv m ram ->
  libre (bloques_libres m) x <-> en_rango 0 (Z.of_nat (length ram)) x /\ ~ libre (residentes (procesos m)) x.
Proof.
  intros [_ _ Hok Htot]. set (lim := Z.of_nat (length ram)) in *.
  assert (Hp : direcciones (bloques_libres m ++ residentes (procesos m)) ≡ₚ seqZ 0 lim).
  { apply submseteq_length_Permutation.
    - apply NoDup_submseteq; [by eapply direcciones_NoDup|]. intros y (b & Hb & Hy)%elem_of_direcciones.
      apply elem_of_seqZ. destruct Hok as [Hr _]. rewrite Forall_forall in Hr. specialize (Hr b Hb). bloques_lia.
    - rewrite length_seqZ. pose proof (direcciones_length lim _ Hok). lia. }
  assert (Hx : libre (bloques_libres m ++ residentes (procesos m)) x <-> en_rango 0 lim x).
  { rewrite <-elem_of_direcciones, Hp, elem_of_seqZ. unfold en_rango. lia. }
  rewrite libre_app in Hx. apply bloques_ok_app in Hok as (_ & _ & Hd). specialize (Hd x). tauto.
Qed.

Lemma residentes_seg_todos l :
  Forall (fun s => s_base s <> NEG1) l -> residentes_seg l = bloque_de <$> l.
Proof.
  induction 1 as [|s l Hs Hl IH]; [done|]. rewrite residentes_seg_cons, IH.
  destruct (Z.eqb_spec (s_base s) NEG1); done.
Qed.

Lemma en_bases_residentes l : forall bases,
  length bases = length l -> Forall (fun b => b <> NEG1) bases ->
  Forall (fun s => s_base s <> NEG1) (en_bases l bases).
Proof.
  induction l as [|s l IH]; intros [|b bases] Hl Hb; [done..|]. apply Forall_cons in Hb as [Hb0 Hb].
  apply Forall_cons. split; [done|]. apply IH; [by injection Hl|done].
Qed.

Lemma en_bases_guardado sw l : forall bases ds,
  length bases = length l -> Forall2 (guardado sw) l ds -> Forall2 (guardado sw) (en_bases l bases) ds.
Proof.
  induction l as [|s l IH]; intros [|b bases] ds Hl Hg; [done..|].
  apply Forall2_cons_inv_l in Hg as (d & ds' & [? ? ? ? ?] & Hgs & ->).
  apply Forall2_cons. split; [by split|]. apply IH; [by injection Hl|done].
Qed.

(** The bytes of the segments of the other processes. *)
Definition ajenos_intactos (k : nat) (ps : list t_contexto_ejecucion) (ram ram' : list byte) : Prop :=
  forall k' p' seg, k' <> k -> ps !! k' = Some p' -> seg ∈ segmentos p' -> s_base seg <> NEG1 ->
    leer_buffer ram' (s_base seg) (s_limite seg) = leer_buffer ram (s_base seg) (s_limite seg).

(** The dumped segments come back to the bases the reservation gave them. *)
Lemma transferir_reservados m ram sw k p bases l' ds sock q :
  let segs := en_bases (segmentos p) bases in
  let m2 := con_segs k p segs (con_libres l' m) in
  mem_inv m ram -> mem_inv m2 ram -> swap_enlazado m sw -> procesos m !! k = Some p ->
  length bases = length (segmentos p) -> Forall (fun b => b <> NEG1) bases ->
  Forall2 (guardado sw) (segmentos p) ds -> es_int q -> 0 <= sock ->
  exists m3 ram3, transferir_swap_a_ram sock k p q m2 = Some (0, m3) /\ mem_inv m3 ram3 /\ misma_estructura m2 m3 /\
    Forall2 (fun seg d => s_base seg <> NEG1 /\ leer_buffer ram3 (s_base seg) (s_limite seg) = Some d) segs ds /\
    ajenos_intactos k (procesos m) ram ram3.
Proof.
  intros segs m2 Hm Hm2 Hsw Hk Hlen Hbs Hg Hq Hsk.
  pose proof (en_bases_residentes _ _ Hlen Hbs) as Hres2. fold segs in Hres2.
  assert (Hperm : residentes (procesos m2) ≡ₚ (bloque_de <$> segs) ++ residentes (delete k (procesos m))).
  { etrans; [by apply residentes_con_segs|]. by rewrite (residentes_seg_todos segs). }
  pose proof (mi_particion _ _ Hm2) as Hpar. apply bloques_ok_app in Hpar as (_ & Hpar & _).
  rewrite Hperm in Hpar. apply bloques_ok_app in Hpar as (Hok2 & Hok' & _).
  assert (Hk2 : procesos m2 !! k = Some (con_segmentos segs p)) by (by apply con_segs_lookup).
  assert (Hl2 : length segs = length (segmentos p)) by (unfold segs, en_bases; rewrite length_zip_with; lia).
  destruct (transferir_bucle_ok segs m2 ram sw k (con_segmentos segs p) [] ds sock q (mi_ram _ _ Hm2))
    as (m3 & ram3 & E3 & Hme & Hr3 & Hl3 & Hd3 & Ha3);
    [by destruct Hsw|done|done|by apply en_bases_guardado|done|done|done|].
  exists m3, ram3. split; [|split; [by apply (mem_inv_escrito m2 _ ram)|split; [done|split]]].
  - unfold transferir_swap_a_ram, swap_block_size. unfold mbind, ST_bind, st_gets.
    change (m_reserva m2) with (m_reserva m). rewrite (sl_bs _ _ Hsw), <-Hl2. exact E3.
  - apply Forall2_same_length_lookup. split; [by eapply Forall2_length|]. intros i seg d Hi Hd. split.
    + exact (Forall_lookup_1 _ _ _ _ Hres2 Hi).
    + exact (Forall2_lookup_lr _ _ _ _ _ _ Hd3 Hi Hd).
  - intros k' p' seg Hne Hk' Hs' Hb'. apply list_elem_of_lookup in Hs' as (i' & Hi').
    destruct (residente_en_ram m ram k' p' seg Hm Hk') as (A1 & A2 & A3); [by eapply list_elem_of_lookup_2|done|].
    destruct (acceso_tamanio m ram (mi_ram _ _ Hm)) as [_ Hmax].
    apply (Ha3 (bloque_de seg)); [unfold bloque_en; cbn; unfold NEG1; lia|].
    apply Forall_fmap, Forall_lookup. intros i seg2 Hi.
    apply (residentes_ajenos m2 ram k' i' p' seg k i (con_segmentos segs p) seg2 Hm2); [congruence| |done|done|done|done|].
    + cbn. by rewrite list_lookup_insert_ne.
    + exact (Forall_lookup_1 _ _ _ _ Hres2 Hi).
Qed.

Lemma des_suspender_ok m ram sw s q resto k p ds :
  let sock := conexiones_get_swap_socket (m_conexiones m) in
  suspendible m ram sw -> es_int q -> pendiente m s (enviar_des_suspender_proceso q) resto ->
  procesos_buscar q (procesos m) = Some k -> procesos m !! k = Some p -> 0 <= sock ->
  fuera (segmentos p) -> Forall2 (guardado sw) (segmentos p) ds ->
  match asignar_todos (es_worst_fit (allocation_strategy (config_memory m))) (bloques_libres m)
          (s_limite <$> segmentos p) with
  | Some (bases, l') =>
      exists m' ram', manejar_des_suspender_proceso s m = Some (tt, m') /\ mem_inv m' ram' /\
        length bases = length (segmentos p) /\
        procesos m' = <[k := con_segmentos (en_bases (segmentos p) bases) p]> (procesos m) /\
        Forall2 (fun seg d => s_base seg <> NEG1 /\ leer_buffer ram' (s_base seg) (s_limite seg) = Some d)
          (en_bases (segmentos p) bases) ds /\
        ajenos_intactos k (procesos m) ram ram' /\ bloques_libres m' = l' /\
        m_salidas m' = m_salidas m ++ [(s, enviar_ok DES_SUSPENDER_PROCESO)] /\
        marco m m' /\ entrada s m' = resto /\ Forall (fun b => b <> NEG1) bases
  | None =>
      exists m', manejar_des_suspender_proceso s m = Some (tt, m') /\ mem_inv m' ram /\
        procesos m' = procesos m /\ (forall x, libre (bloques_libres m') x <-> libre (bloques_libres m) x) /\
        m_salidas m' = m_salidas m ++ [(s, enviar_ok SEGMENTATION_FAULT)] /\
        marco m m' /\ entrada s m' = resto
  end.
Proof.
  intros sock [Hm Hsw Hr _] Hq Hp Ek Hk Hsk Hf Hg. set (m1 := consumido s resto m).
  assert (Hm1 : mem_inv m1 ram) by (by apply mem_inv_consumido).
  assert (Hsw1 : swap_enlazado m1 sw) by (by destruct Hsw).
  eassert (Hrun : manejar_des_suspender_proceso s m = _)
    by exact (st_bind_ok _ _ _ _ _ (leer_des_suspender m q s resto Hq Hp)).
  fold m1 in Hrun.
  rewrite (st_bind_ok _ _ _ _ _ (buscar_proceso_Some q m1 k p Ek Hk)) in Hrun.
  unfold mbind at 1, ST_bind at 1, st_gets at 1 in Hrun.
  change (m_conexiones m1) with (m_conexiones m) in Hrun. fold sock in Hrun.
  destruct (Z.ltb_spec sock 0); [lia|].
  pose proof (reservar_bucle_ok (segmentos p) m1 ram k p [] s Hm1 Hk eq_refl Hf (Forall_nil_2 _)) as Hres.
  cbv zeta in Hres. change (config_memory m1) with (config_memory m) in Hres.
  change (bloques_libres m1) with (bloques_libres m) in Hres. cbn [imap length app] in Hres.
  destruct (asignar_todos _ (bloques_libres m) (s_limite <$> segmentos p)) as [[bases l']|].
  - destruct Hres as (E & Hm2 & Hlen & Hbs). set (segs2 := en_bases (segmentos p) bases) in *.
    set (m2 := con_segs k p segs2 (con_libres l' m1)) in *.
    change (reservar_segmentos_con_rollback s k p m1 = Some (true, m2)) in E.
    rewrite (st_bind_ok _ _ _ _ _ E) in Hrun. cbn [negb] in Hrun.
    destruct (transferir_reservados m1 ram sw k p bases l' ds sock q) as (m3 & ram3 & Et & Hm3 & Hme & Hd3 & Ha3); [done..|].
    fold segs2 m2 in Et, Hme, Hd3.
    rewrite (st_bind_ok _ _ _ _ _ Et) in Hrun. cbn [Z.eqb negb] in Hrun. rewrite enviar_eq in Hrun.
    exists (con_salida s (enviar_ok DES_SUSPENDER_PROCESO) m3), ram3. split; [exact Hrun|].
    split; [by apply mem_inv_salida|]. split; [done|]. split; [exact (me_procesos _ _ Hme)|].
    split; [done|]. split; [exact Ha3|]. split; [exact (me_libres _ _ Hme)|]. split; [cbn; by rewrite (me_salidas _ _ Hme)|].
    split; [destruct Hme; by split|]. split; [|done].
    unfold entrada. cbn. rewrite (me_entradas _ _ Hme). cbn. by rewrite lookup_insert_eq.
  - destruct Hres as (m2 & E & Hm2 & Hp2 & Hs2 & Hma2 & He2).
    change (reservar_segmentos_con_rollback s k p m1 = Some (false, m2)) in E.
    rewrite (st_bind_ok _ _ _ _ _ E) in Hrun. exists m2. split; [exact Hrun|]. split; [done|].
    assert (Hpp : procesos m2 = procesos m).
    { rewrite Hp2. cbn. by rewrite proceso_eta, list_insert_id. }
    split; [done|]. split; [|split; [done|split; [destruct Hma2; by split|]]].
    + intros x. by rewrite (mem_inv_libre m2 ram x Hm2), (mem_inv_libre m ram x Hm), Hpp.
    + unfold entrada. rewrite He2. cbn. by rewrite lookup_insert_eq.
Qed.

(** C24: bringing back a process whose segments are all in Swap. When the free
    table can place them in turn ([asignar_todos]), every segment gets its place
    and the very bytes that Swap kept, the other processes keep theirs, and the
    scheduler is answered. When it cannot, everything reserved on the way is
    given back: the processes and the set of free addresses are the ones before,
    and the answer is [SEGMENTATION_FAULT]. An unknown process is answered, a Memory
    without Swap answers the fault, and neither changes anything. *)
Theorem des_suspender_proceso_correcto m ram sw s q resto :
  let sock := conexiones_get_swap_socket (m_conexiones m) in
  suspendible m ram sw -> es_int q -> pendiente m s (enviar_des_suspender_proceso q) resto ->
  (procesos_buscar q (procesos m) = None ->
   manejar_des_suspender_proceso s m =
   Some (tt, con_salida s (enviar_ok DES_SUSPENDER_PROCESO) (consumido s resto m))) /\
  (procesos_buscar q (procesos m) <> None -> sock < 0 ->
   manejar_des_suspender_proceso s m =
   Some (tt, con_salida s (enviar_ok SEGMENTATION_FAULT) (consumido s resto m))) /\
  (forall k p ds, procesos_buscar q (procesos m) = Some k -> procesos m !! k = Some p -> 0 <= sock ->
   fuera (segmentos p) -> Forall2 (guardado sw) (segmentos p) ds ->
  match asignar_todos (es_worst_fit (allocation_strategy (config_memory m))) (bloques_libres m)
          (s_limite <$> segmentos p) with
  | Some (bases, l') =>
      exists m' ram', manejar_des_suspender_proceso s m = Some (tt, m') /\ mem_inv m' ram' /\
        length bases = length (segmentos p) /\
        procesos m' = <[k := con_segmentos (en_bases (segmentos p) bases) p]> (procesos m) /\
        Forall2 (fun seg d => s_base seg <> NEG1 /\ leer_buffer ram' (s_base seg) (s_limite seg) = Some d)
          (en_bases (segmentos p) bases) ds /\
        ajenos_intactos k (procesos m) ram ram' /\ bloques_libres m' = l' /\
        m_salidas m' = m_salidas m ++ [(s, enviar_ok DES_SUSPENDER_PROCESO)]
  | None =>
      exists m', manejar_des_suspender_proceso s m = Some (tt, m') /\ mem_inv m' ram /\
        procesos m' = procesos m /\ (forall x, libre (bloques_libres m') x <-> libre (bloques_libres m) x) /\
        m_salidas m' = m_salidas m ++ [(s, enviar_ok SEGMENTATION_FAULT)]
  end).
Proof.
  intros sock Hs Hq Hp.
  eassert (Hrun : manejar_des_suspender_proceso s m = _)
    by exact (st_bind_ok _ _ _ _ _ (leer_des_suspender m q s resto Hq Hp)).
  set (m1 := consumido s resto m) in *. split; [|split].
  - intros Ek. rewrite Hrun. by rewrite (st_bind_ok _ _ _ _ _ (buscar_proceso_None q m1 Ek)).
  - intros Hne Hsk. rewrite Hrun. destruct (procesos_buscar q (procesos m)) as [k|] eqn:Ek; [|done].
    destruct (procesos_buscar_Some _ _ _ Ek) as (p & Hk & _).
    rewrite (st_bind_ok _ _ _ _ _ (buscar_proceso_Some q m1 k p Ek Hk)). st_unfold.
    change (m_conexiones m1) with (m_conexiones m). fold sock. by destruct (Z.ltb_spec sock 0); [|lia].
  - intros k p ds Ek Hk Hsk Hf Hg.
    pose proof (des_suspender_ok m ram sw s q resto k p ds Hs Hq Hp Ek Hk Hsk Hf Hg) as H.
    destruct (asignar_todos _ _ _) as [[bases l']|].
    + destruct H as (m' & ram' & H1 & H2 & H3 & H4 & H5 & H6 & H7 & H8 & _). by exists m', ram'.
    + destruct H as (m' & H1 & H2 & H3 & H4 & H5 & _). by exists m'.
Qed.

(** A segment before the suspension and after the return. *)
Definition recuperado (ram ram' : list byte) (seg seg' : t_segmento) : Prop :=
  s_id seg' = s_id seg /\ s_limite seg' = s_limite seg /\ s_base seg' <> NEG1 /\
  leer_buffer ram' (s_base seg') (s_limite seg') = leer_buffer ram (s_base seg) (s_limite seg).

Lemma suspendidos_listos sw ram lim segs segs' :
  Forall (fun s => 0 <= s_limite s <= lim) segs -> Forall2 (suspendido sw ram) segs segs' ->
  fuera segs' /\ s_limite <$> segs' = s_limite <$> segs /\
  exists ds, Forall2 (guardado sw) segs' ds /\
    Forall2 (fun seg d => leer_buffer ram (s_base seg) (s_limite seg) = Some d) segs ds.
Proof.
  intros Hl H. induction H as [|seg seg' segs segs' (_ & E & Hb & d & Hd & Hg) _ IH].
  { split; [by constructor|]. split; [done|]. exists []. by split. }
  apply Forall_cons in Hl as [Hl0 Hl]. destruct (IH Hl) as (H1 & H2 & ds & H3 & H4).
  split; [apply Forall_cons; split; [lia|done]|]. split; [cbn; by rewrite E, H2|].
  exists (d :: ds). by split; apply Forall2_cons.
Qed.

Lemma recuperados sw ram ram' segs segs' bases ds :
  Forall2 (suspendido sw ram) segs segs' -> length bases = length segs' ->
  Forall2 (fun seg d => leer_buffer ram (s_base seg) (s_limite seg) = Some d) segs ds ->
  Forall2 (fun seg d => s_base seg <> NEG1 /\ leer_buffer ram' (s_base seg) (s_limite seg) = Some d)
    (en_bases segs' bases) ds ->
  Forall2 (recuperado ram ram') segs (en_bases segs' bases).
Proof.
  intros H. revert bases ds. induction H as [|seg seg' segs segs' (E1 & E2 & _) _ IH]; intros [|b bases] ds Hlen H1 H2;
    [done..| |]; [done|]. unfold en_bases in *. cbn [zip_with] in *.
  apply Forall2_cons_inv_l in H1 as (d & ds' & Hd & H1 & ->). apply Forall2_cons in H2 as [[Hb Hd'] H2].
  apply Forall2_cons. split; [|eapply IH; [by injection Hlen|done|done]].
  split; [done|]. split; [done|]. split; [done|]. by rewrite Hd, Hd'.
Qed.

(** C7: a process that is suspended and later brought back, with nothing in
    between, finds the same bytes in every segment, whatever bases it gets; the
    segments of the other processes keep theirs. *)
Theorem suspension_ida_vuelta m ram sw s q resto k p :
  let sock := conexiones_get_swap_socket (m_conexiones m) in
  let wf := es_worst_fit (allocation_strategy (config_memory m)) in
  suspendible m ram sw -> es_int q -> pendiente m s (enviar_suspender_proceso q) resto ->
  procesos_buscar q (procesos m) = Some k -> procesos m !! k = Some p -> 0 <= sock ->
  Forall (fun seg => s_base seg <> NEG1) (segmentos p) ->
  next_block (m_reserva m) + bloques_de (sw_block_size (sw_config sw)) (segmentos p) <= total_blocks (m_reserva m) ->
  exists m1, manejar_suspender_proceso s m = Some (tt, m1) /\
    forall e resto', let m2 := con_entradas e m1 in
      pendiente m2 s (enviar_des_suspender_proceso q) resto' ->
      asignar_todos wf (bloques_libres m1) (s_limite <$> segmentos p) <> None ->
      exists m3 ram' segs3, manejar_des_suspender_proceso s m2 = Some (tt, m3) /\ mem_inv m3 ram' /\
        procesos m3 = <[k := con_segmentos segs3 p]> (procesos m) /\
        Forall2 (recuperado ram ram') (segmentos p) segs3 /\ ajenos_intactos k (procesos m) ram ram'.
Proof.
  intros sock wf Hs Hq Hp Ek Hk Hsk Hres Hn.
  destruct (acceso_tamanio m ram (mi_ram _ _ (su_inv _ _ _ Hs))) as [_ Hmax].
  destruct (suspender_ok m ram sw s q resto k p Hs Hq Hp Ek Hk Hsk Hres Hn)
    as (m1 & sw' & segs' & E & Hs1 & Hsusp & Hps & _ & _ & Hcon & Hcfg & _).
  exists m1. split; [exact E|]. intros e resto' m2 Hp2 Has.
  assert (Hlim : Forall (fun seg => 0 <= s_limite seg <= Z.of_nat (length ram)) (segmentos p)).
  { apply Forall_forall. intros seg Hseg. rewrite Forall_forall in Hres.
    destruct (residente_en_ram m ram k p seg (su_inv _ _ _ Hs) Hk Hseg (Hres _ Hseg)). lia. }
  destruct (suspendidos_listos sw' ram _ _ _ Hlim Hsusp) as (Hf & Hl & ds & Hg & Hd).
  set (p1 := con_segmentos segs' p). assert (Hk1 : procesos m2 !! k = Some p1).
  { change (procesos m2) with (procesos m1). rewrite Hps. apply list_lookup_insert_eq. by eapply lookup_lt_Some. }
  assert (Ek2 : procesos_buscar q (procesos m2) = Some k).
  { change (procesos m2) with (procesos m1). rewrite Hps, <-(alter_conocido (con_segmentos segs') _ k p Hk).
    rewrite <-Ek. apply procesos_buscar_alter. done. }
  assert (Hs2 : suspendible m2 ram sw').
  { destruct Hs1 as [A [B1 B2 B3 B4] C D]. split; [by apply (mem_inv_igual m1)|by split|done..]. }
  pose proof (des_suspender_ok m2 ram sw' s q resto' k p1 ds Hs2 Hq Hp2 Ek2 Hk1) as Hdes.
  change (m_conexiones m2) with (m_conexiones m1) in Hdes. rewrite Hcon in Hdes.
  specialize (Hdes Hsk Hf Hg). change (config_memory m2) with (config_memory m1) in Hdes. rewrite Hcfg in Hdes.
  change (bloques_libres m2) with (bloques_libres m1) in Hdes. cbn [segmentos p1 con_segmentos] in Hdes. rewrite Hl in Hdes.
  fold wf in Hdes. destruct (asignar_todos wf (bloques_libres m1) (s_limite <$> segmentos p)) as [[bases l']|]; [|done].
  destruct Hdes as (m3 & ram3 & E3 & Hm3 & Hlen & Hp3 & Hd3 & Haj & _).
  exists m3, ram3, (en_bases segs' bases). split; [exact E3|]. split; [done|]. split; [|split].
  - rewrite Hp3. change (procesos m2) with (procesos m1). rewrite Hps. by rewrite list_insert_insert_eq.
  - by eapply recuperados.
  - intros k' p' seg Hne Hk' Hseg Hb. apply (Haj k' p' seg Hne); [|done..].
    change (procesos m2) with (procesos m1). rewrite Hps. by rewrite list_lookup_insert_ne.
Qed.

(** ** Witnesses: process 1 of [mem_fragmentada], and a Swap of five blocks of two bytes *)

Definition swap_vacio : swap := Swap (SwapConfig 10 2) (replicate 10 x00).
Definition mem_con_swap (mensaje resto : list byte) : memoria :=
  let m := mem_pide mensaje resto in
  con_swap (Vivo swap_vacio) (con_reserva (Reserva 2 0 5)
    (con_conexiones (conexiones_set_swap_socket 9 (m_conexiones m)) m)).

Lemma mem_con_swap_ok b r : suspendible (mem_con_swap b r) ram_ejemplo swap_vacio.
Proof.
  split.
  - destruct (mem_pide_inv b r) as [(ds & [[C1 C2 C3 C4 C5] R2 R3 R4] & Hram) H2 H3 H4]. split; [|done..].
    exists ds. split; [|done]. split; [by split|done..].
  - split; [done| |done|done]. split; vm_compute; intuition congruence.
  - vm_compute; intuition congruence.
  - vm_compute; intuition congruence.
Qed.

Lemma suspender_proceso_correcto_witness :
  exists m' sw' segs', manejar_suspender_proceso 3 (mem_con_swap (enviar_suspender_proceso 1) []) = Some (tt, m') /\
    Forall2 (suspendido sw' ram_ejemplo) [Segmento 0 5 2 0] segs' /\ total (bloques_libres m') = 5.
Proof.
  destruct (suspender_proceso_correcto (mem_con_swap (enviar_suspender_proceso 1) []) ram_ejemplo swap_vacio 3 1 []
    (mem_con_swap_ok _ _)) as [_ H]; [unfold es_int; lia|apply mem_pide_pendiente|].
  destruct (H O _ eq_refl eq_refl) as (m' & sw' & segs' & E & _ & Hs & _ & Ht & _).
  - vm_compute. congruence.
  - apply Forall_cons. split; [vm_compute; congruence|apply Forall_nil_2].
  - vm_compute. congruence.
  - exists m', sw', segs'. split; [exact E|]. split; [exact Hs|exact Ht].
Defined.

(** Process 1 with its two bytes already in Swap, from block 1 on. *)
Definition swap_lleno : swap := Swap (SwapConfig 10 2) [x00; x00; x0a; x0b; x00; x00; x00; x00; x00; x00].
Definition mem_suspendida (mensaje resto : list byte) : memoria :=
  let m := mem_con_swap mensaje resto in
  con_swap (Vivo swap_lleno) (con_libres [Bloque 0 2; Bloque 4 3]
    (con_procesos [Proceso 1 registros_cero [Segmento 0 NEG1 2 1] [];
                   Proceso 2 registros_cero [Segmento 0 2 2 0; Segmento 1 NEG1 9 0] []] m)).

Lemma mem_suspendida_ok b r : suspendible (mem_suspendida b r) ram_ejemplo swap_lleno.
Proof.
  destruct (mem_con_swap_ok b r) as [[H1 H2 _ _] [_ _ H6 H7] H8 H9]. split.
  - split.
    + by apply (acceso_estable (mem_con_swap b r)).
    + change (procesos (mem_suspendida b r)) with
        [Proceso 1 registros_cero [Segmento 0 NEG1 2 1] [];
         Proceso 2 registros_cero [Segmento 0 2 2 0; Segmento 1 NEG1 9 0] []].
      repeat first [apply Forall_nil_2 | apply Forall_cons_2]; unfold es_int; cbn; lia.
    + change (_ ++ _) with [Bloque 0 2; Bloque 4 3; Bloque 2 2]. bloques_ok_concreto.
    + reflexivity.
  - split; [done| |done|done]. split; vm_compute; intuition congruence.
  - exact H8.
  - exact H9.
Qed.

Lemma des_suspender_proceso_correcto_witness :
  exists m' ram', manejar_des_suspender_proceso 3 (mem_suspendida (enviar_des_suspender_proceso 1) []) = Some (tt, m') /\
    mem_inv m' ram' /\ leer_buffer ram' 0 2 = Some [x0a; x0b] /\ bloques_libres m' = [Bloque 4 3].
Proof.
  destruct (des_suspender_proceso_correcto (mem_suspendida (enviar_des_suspender_proceso 1) []) ram_ejemplo swap_lleno 3 1 []
    (mem_suspendida_ok _ _)) as (_ & _ & H); [unfold es_int; lia|apply mem_pide_pendiente|].
  destruct (H O _ [[x0a; x0b]] eq_refl eq_refl) as (m' & ram' & E & Hm & _ & _ & Hd & _ & Hl & _).
  - vm_compute. congruence.
  - apply Forall_cons. split; [vm_compute; intuition congruence|apply Forall_nil_2].
  - apply Forall2_cons. split; [|apply Forall2_nil_2]. split; try (vm_compute; intuition congruence).
    intros b Hb. change (n_bloques _ _) with 1 in Hb. assert (b = 0) as -> by lia. reflexivity.
  - exists m', ram'. split; [exact E|]. split; [exact Hm|]. split; [|exact Hl].
    apply Forall2_cons in Hd as [[_ Hd] _]. exact Hd.
Defined.

Lemma suspension_ida_vuelta_witness :
  exists m1, manejar_suspender_proceso 3 (mem_con_swap (enviar_suspender_proceso 1) []) = Some (tt, m1) /\
  exists m3 ram' segs3, manejar_des_suspender_proceso 3
    (con_entradas (<[3 := cuerpo (enviar_des_suspender_proceso 1) ++ []]> ∅) m1) = Some (tt, m3) /\
    Forall2 (recuperado ram_ejemplo ram') [Segmento 0 5 2 0] segs3.
Proof.
  destruct (suspension_ida_vuelta (mem_con_swap (enviar_suspender_proceso 1) []) ram_ejemplo swap_vacio 3 1 [] O _
    (mem_con_swap_ok _ _) ltac:(unfold es_int; lia) (mem_pide_pendiente (enviar_suspender_proceso 1) []) eq_refl eq_refl) as (m1 & E & H).
  - vm_compute. congruence.
  - apply Forall_cons. split; [vm_compute; congruence|apply Forall_nil_2].
  - vm_compute. congruence.
  - exists m1. split; [exact E|].
    destruct (H (<[3 := cuerpo (enviar_des_suspender_proceso 1) ++ []]> ∅) []) as (m3 & ram' & segs3 & E3 & _ & _ & Hr & _).
    + unfold pendiente, entrada. cbn. by rewrite lookup_insert_eq.
    + assert (Hm : option_map snd (manejar_suspender_proceso 3 (mem_con_swap (enviar_suspender_proceso 1) [])) = Some m1)
        by (by rewrite E). clear H E. vm_compute in Hm. injection Hm as <-. vm_compute. congruence.
    + exists m3, ram', segs3. split; [exact E3|exact Hr].
Defined.
