(* ===== verification/Indice.v ===== *)
(** * Indice: a list of records as a map by key

    The programs keep their processes, interfaces and PCBs in lists that they
    search by identifier. When identifiers do not repeat, such a list is a finite
    map; the specifications of [MemRefina] and [Sistema] speak of the map. *)

From S2P Require Import Prelude.

Section por_clave.
Context {A : Type} (clave : A -> Z).

Definition por_clave (l : list A) : gmap Z A := list_to_map ((fun x => (clave x, x)) <$> l).

Definition claves_distintas (l : list A) : Prop := NoDup (clave <$> l).

Lemma claves_fst l : ((fun x => (clave x, x)) <$> l).*1 = clave <$> l.
Proof. rewrite <-list_fmap_compose. done. Qed.

Lemma por_clave_lookup l q x :
  claves_distintas l -> por_clave l !! q = Some x <-> x ∈ l /\ clave x = q.
Proof.
  intros H. unfold por_clave. rewrite <-elem_of_list_to_map by (by rewrite claves_fst).
  rewrite list_elem_of_fmap. split; [intros (y & [= -> ->] & Hy); done|]. intros [Hx <-]. by exists x.
Qed.

Lemma por_clave_None l q : por_clave l !! q = None <-> q ∉ clave <$> l.
Proof. unfold por_clave. by rewrite <-not_elem_of_list_to_map, claves_fst. Qed.

(** The lookups by index of the code find what the map holds. *)
Lemma por_clave_indice l q k x :
  claves_distintas l -> indice_de (fun x => clave x =? q) l = Some k -> l !! k = Some x ->
  por_clave l !! q = Some x.
Proof.
  intros H Hi Hk. apply por_clave_lookup; [done|]. split; [by eapply list_elem_of_lookup_2|].
  apply indice_de_Some in Hi as (y & Hy & Hc & _). simplify_eq. by apply Z.eqb_eq.
Qed.

Lemma por_clave_sin_indice l q : indice_de (fun x => clave x =? q) l = None <-> por_clave l !! q = None.
Proof.
  rewrite por_clave_None, indice_de_None, list_elem_of_fmap. split.
  - intros H (x & -> & Hx). specialize (H x Hx). by rewrite Z.eqb_refl in H.
  - intros H x Hx. apply Z.eqb_neq. intros <-. apply H. by exists x.
Qed.

Lemma por_clave_encuentra l q x :
  por_clave l !! q = Some x -> claves_distintas l ->
  exists k, indice_de (fun x => clave x =? q) l = Some k /\ l !! k = Some x.
Proof.
  intros H Hd. destruct (indice_de (fun x => clave x =? q) l) as [k|] eqn:E.
  - pose proof E as E'. apply indice_de_Some in E as (y & Hy & _). exists k. split; [done|].
    pose proof (por_clave_indice l q k y Hd E' Hy). congruence.
  - apply por_clave_sin_indice in E. congruence.
Qed.

Lemma claves_insert (l : list A) k x y : l !! k = Some x -> clave y = clave x -> clave <$> <[k := y]> l = clave <$> l.
Proof.
  intros Hk Hc. rewrite list_fmap_insert, Hc. apply list_insert_id. by rewrite list_lookup_fmap, Hk.
Qed.

Lemma por_clave_insert l k x y :
  claves_distintas l -> l !! k = Some x -> clave y = clave x ->
  por_clave (<[k := y]> l) = <[clave x := y]> (por_clave l).
Proof.
  intros Hd Hk Hc. apply map_eq. intros q. apply option_eq. intros z.
  assert (Hd' : claves_distintas (<[k := y]> l)) by (unfold claves_distintas; by rewrite (claves_insert l k x y)).
  rewrite por_clave_lookup by done. pose proof (lookup_lt_Some _ _ _ Hk) as Hlt.
  destruct (decide (q = clave x)) as [->|Hq].
  - rewrite lookup_insert_eq. split.
    + intros [Hz Hcz]. apply list_elem_of_lookup in Hz as (i & Hi). f_equal.
      assert (i = k) as ->; [|rewrite list_lookup_insert_eq in Hi by done; congruence].
      eapply NoDup_lookup; [exact Hd'| |]; rewrite list_lookup_fmap; [rewrite Hi; cbn; by rewrite Hcz|].
      rewrite list_lookup_insert_eq by done. cbn. by rewrite Hc.
    + intros [= <-]. split; [|done]. apply list_elem_of_lookup. exists k. by rewrite list_lookup_insert_eq.
  - rewrite lookup_insert_ne by done. rewrite por_clave_lookup by done. split; intros [Hz Hcz]; split; try done.
    + apply list_elem_of_lookup in Hz as (i & Hi). destruct (decide (i = k)) as [->|].
      * rewrite list_lookup_insert_eq in Hi by done. simplify_eq.
      * rewrite list_lookup_insert_ne in Hi by done. by eapply list_elem_of_lookup_2.
    + apply list_elem_of_lookup in Hz as (i & Hi). destruct (decide (i = k)) as [->|]; [simplify_eq|].
      apply list_elem_of_lookup. exists i. by rewrite list_lookup_insert_ne.
Qed.

Lemma por_clave_snoc l x : clave x ∉ clave <$> l -> por_clave (l ++ [x]) = <[clave x := x]> (por_clave l).
Proof. intros H. unfold por_clave. rewrite fmap_app. apply list_to_map_snoc. by rewrite claves_fst. Qed.

Lemma claves_snoc l x : claves_distintas l -> clave x ∉ clave <$> l -> claves_distintas (l ++ [x]).
Proof.
  intros Hd Hx. unfold claves_distintas. rewrite fmap_app. apply NoDup_app. split; [done|].
  split; [|apply NoDup_singleton]. intros z Hz Hz'. apply list_elem_of_singleton in Hz'. by subst.
Qed.

Lemma fmap_delete {B} (f : A -> B) k (l : list A) : f <$> delete k l = delete k (f <$> l).
Proof. revert l. induction k as [|k IH]; intros [|x l]; cbn; [done..|]. f_equal. apply IH. Qed.

Lemma claves_delete l k : claves_distintas l -> claves_distintas (delete k l).
Proof.
  unfold claves_distintas. intros H. eapply sublist_NoDup; [exact H|]. rewrite fmap_delete. apply sublist_delete.
Qed.

Lemma por_clave_delete l k x :
  claves_distintas l -> l !! k = Some x -> por_clave (delete k l) = delete (clave x) (por_clave l).
Proof.
  intros Hd Hk. apply map_eq. intros q. apply option_eq. intros z.
  rewrite por_clave_lookup by (by apply claves_delete).
  assert (Hp : clave x ∉ clave <$> delete k l).
  { pose proof Hd as H. unfold claves_distintas in H. rewrite (delete_middle_perm l k x Hk) in H. cbn in H.
    by apply NoDup_cons in H as [? _]. }
  assert (Hin : forall z, z ∈ l <-> z = x \/ z ∈ delete k l).
  { intros y. rewrite (delete_middle_perm l k x Hk) at 1. by rewrite elem_of_cons. }
  destruct (decide (q = clave x)) as [->|Hq].
  - rewrite lookup_delete_eq. split; [|done]. intros [Hz Hc]. exfalso. apply Hp. apply list_elem_of_fmap. by exists z.
  - rewrite lookup_delete_ne by done. rewrite por_clave_lookup by done. rewrite Hin. split; [tauto|].
    intros [[->|Hz] Hc]; [congruence|done].
Qed.
End por_clave.

(** Sums over a list that changes in one place. *)
Section suma_en.
Context {A : Type} (f : A -> Z).

Lemma suma_en_insert (l : list A) k x y : l !! k = Some x -> suma_Z (f <$> <[k := y]> l) = suma_Z (f <$> l) - f x + f y.
Proof.
  revert k. induction l as [|z l IH]; intros [|k] H; [done..| |].
  - injection H as ->. cbn. lia.
  - change (<[S k := y]> (z :: l)) with (z :: <[k := y]> l). cbn [fmap list_fmap suma_Z]. rewrite (IH k H). lia.
Qed.

Lemma suma_en_delete (l : list A) k x : l !! k = Some x -> suma_Z (f <$> delete k l) = suma_Z (f <$> l) - f x.
Proof.
  revert k. induction l as [|z l IH]; intros [|k] H; [done..| |].
  - injection H as ->. change (delete 0%nat (x :: l)) with l. rewrite fmap_cons. cbn [suma_Z]. lia.
  - change (delete (S k) (z :: l)) with (z :: delete k l). rewrite !fmap_cons. cbn [suma_Z]. rewrite (IH k H). lia.
Qed.
End suma_en.
