(* ===== verification/MemRefina.v ===== *)
(** * MemRefina: Kernel Memory refines a store of segments

    What the Scheduler can rely on: a map from pids to lists of segments with
    their bytes, the free space of RAM and the blocks left in Swap ([almacen]),
    with one rule per request and outcome ([apaso]). Addresses, holes, sticks,
    blocks and compactions are not in it. Every request that the store admits is
    answered by the thread of [MemScheduler] as one of the rules says. *)

From S2P Require Import Prelude Bloques Wire Buffer Tipos Mensajes Texto Conexiones Stick Swap Memoria MemoryIO MemSwap Procesos Compactacion MemScheduler MemInv MemSegmentos MemSuspension Indice.

(** ** The store *)

(** A process: whether it is in Swap, and its segments with their bytes. *)
Record aproc := AProc { a_fuera : bool; a_segs : list (Z * list byte) }.
Record almacen := Almacen { a_procesos : gmap Z aproc; a_libre : Z; a_bloques : Z }.

Definition a_tam (ap : aproc) : Z := suma_Z ((fun sg => Z.of_nat (length sg.2)) <$> a_segs ap).
Definition a_n_bloques (bs : Z) (ap : aproc) : Z :=
  suma_Z ((fun sg => n_bloques (Z.of_nat (length sg.2)) bs) <$> a_segs ap).

Definition con_proceso (q : Z) (ap : aproc) (a : almacen) : gmap Z aproc := <[q := ap]> (a_procesos a).

(** The requests of the Scheduler. *)
Inductive pedido :=
| PCrear (q : Z) (path : list byte)
| PSolicitar (q id tam : Z)
| PEliminar (q id : Z)
| PLeer (q dir tam : Z)
| PEscribir (q dir : Z) (datos : list byte)
| PSuspender (q : Z)
| PDesSuspender (q : Z)
| PFinalizar (q : Z)
| PEspacio.

Definition pedido_bytes_mem (p : pedido) : list byte :=
  match p with
  | PCrear q path => enviar_crear_proceso q path
  | PSolicitar q id tam => enviar_solicitar_segmento q id tam
  | PEliminar q id => enviar_eliminar_segmento q id
  | PLeer q dir tam => enviar_lectura_memoria q dir tam
  | PEscribir q dir datos => enviar_escritura_memoria q dir datos
  | PSuspender q => enviar_suspender_proceso q
  | PDesSuspender q => enviar_des_suspender_proceso q
  | PFinalizar q => enviar_finalizar_proceso_memory q
  | PEspacio => enviar_obtener_espacio_libre
  end.

Section almacen.
Context (sms bs : Z).

(** The segment of a logical address, for a process in RAM: its position, its id
    and its bytes. *)
Definition a_segmento (a : almacen) (q dir : Z) : option (aproc * nat * (Z * list byte)) :=
  ap ← a_procesos a !! q;
  if a_fuera ap then None
  else
    i ← indice_de (fun sg => sg.1 =? dir / sms) (a_segs ap);
    sg ← a_segs ap !! i;
    Some (ap, i, sg).

Definition a_leer (a : almacen) (q dir tam : Z) : option (list byte) :=
  '(_, _, sg) ← a_segmento a q dir; leer_buffer sg.2 (dir mod sms) tam.

Definition a_escribir (a : almacen) (q dir : Z) (datos : list byte) : option almacen :=
  '(ap, i, sg) ← a_segmento a q dir;
  nuevos ← escribir_buffer sg.2 (dir mod sms) datos;
  Some (Almacen (con_proceso q (AProc false (<[i := (sg.1, nuevos)]> (a_segs ap))) a) (a_libre a) (a_bloques a)).

Definition a_buscar (a : almacen) (q id : Z) : option (aproc * nat * (Z * list byte)) :=
  ap ← a_procesos a !! q;
  i ← indice_de (fun sg => sg.1 =? id) (a_segs ap);
  sg ← a_segs ap !! i;
  Some (ap, i, sg).

Definition AVISOS_COMPACTACION : list (list byte) := [enviar_ok INICIAR_COMPACTACION; enviar_ok FINALIZAR_COMPACTACION].

(** A request, its answers in order, and the store it leaves. The bytes of a new
    segment and its base are whatever they are; whether Memory compacts, and
    whether what is in Swap finds its place among the holes, is not decided here. *)
Inductive apaso : almacen -> pedido -> list (list byte) -> almacen -> Prop :=
| ap_crear a q path :
    a_procesos a !! q = None ->
    apaso a (PCrear q path) [enviar_ok CREAR_PROCESO]
      (Almacen (con_proceso q (AProc false []) a) (a_libre a) (a_bloques a))
| ap_solicitar_no a q id tam :
    sms < tam \/ a_procesos a !! q = None \/ a_libre a < tam ->
    apaso a (PSolicitar q id tam) [enviar_ok SEGMENTATION_FAULT] a
| ap_solicitar_sin_segmentos a q id tam :
    (forall q ap, a_procesos a !! q = Some ap -> a_segs ap = []) ->
    apaso a (PSolicitar q id tam) (AVISOS_COMPACTACION ++ [enviar_ok SEGMENTATION_FAULT]) a
| ap_solicitar a q ap id tam base datos avisos :
    tam <= sms -> a_procesos a !! q = Some ap -> tam <= a_libre a -> Z.of_nat (length datos) = tam ->
    avisos = [] \/ avisos = AVISOS_COMPACTACION ->
    apaso a (PSolicitar q id tam) (avisos ++ [enviar_respuesta_segmento id base tam])
      (Almacen (con_proceso q (AProc false (a_segs ap ++ [(id, datos)])) a) (a_libre a - tam) (a_bloques a))
| ap_eliminar_no a q id :
    a_buscar a q id = None -> apaso a (PEliminar q id) [enviar_ok ELIMINAR_SEGMENTO] a
| ap_eliminar a q id ap i sg :
    a_buscar a q id = Some (ap, i, sg) ->
    apaso a (PEliminar q id) [enviar_ok ELIMINAR_SEGMENTO; enviar_memoria_liberada]
      (Almacen (con_proceso q (AProc false (delete i (a_segs ap))) a) (a_libre a + Z.of_nat (length sg.2)) (a_bloques a))
| ap_leer_no a q dir tam :
    a_leer a q dir tam = None -> apaso a (PLeer q dir tam) [enviar_ok SEGMENTATION_FAULT] a
| ap_leer a q dir tam datos :
    a_leer a q dir tam = Some datos -> apaso a (PLeer q dir tam) [enviar_respuesta_lectura datos] a
| ap_escribir_no a q dir datos :
    a_escribir a q dir datos = None -> apaso a (PEscribir q dir datos) [enviar_ok SEGMENTATION_FAULT] a
| ap_escribir a q dir datos a' :
    a_escribir a q dir datos = Some a' -> apaso a (PEscribir q dir datos) [enviar_ok ESCRITURA_MEMORIA] a'
| ap_suspender_no a q :
    a_procesos a !! q = None -> apaso a (PSuspender q) [enviar_ok SUSPENDER_PROCESO] a
| ap_suspender a q ap :
    a_procesos a !! q = Some ap ->
    apaso a (PSuspender q) [enviar_ok SUSPENDER_PROCESO]
      (Almacen (con_proceso q (AProc true (a_segs ap)) a) (a_libre a + a_tam ap) (a_bloques a - a_n_bloques bs ap))
| ap_des_suspender_no a q :
    a_procesos a !! q = None -> apaso a (PDesSuspender q) [enviar_ok DES_SUSPENDER_PROCESO] a
| ap_des_suspender a q ap :
    a_procesos a !! q = Some ap -> a_tam ap <= a_libre a ->
    apaso a (PDesSuspender q) [enviar_ok DES_SUSPENDER_PROCESO]
      (Almacen (con_proceso q (AProc false (a_segs ap)) a) (a_libre a - a_tam ap) (a_bloques a))
| ap_des_suspender_sin_lugar a q ap :
    a_procesos a !! q = Some ap -> a_segs ap <> [] ->
    apaso a (PDesSuspender q) [enviar_ok SEGMENTATION_FAULT] a
| ap_finalizar_no a q :
    a_procesos a !! q = None -> apaso a (PFinalizar q) [enviar_ok FINALIZAR_PROCESO] a
| ap_finalizar a q ap :
    a_procesos a !! q = Some ap ->
    let vacio := a_fuera ap || bool_decide (a_segs ap = []) in
    apaso a (PFinalizar q) (enviar_ok FINALIZAR_PROCESO :: if vacio then [] else [enviar_memoria_liberada])
      (Almacen (delete q (a_procesos a)) (a_libre a + (if a_fuera ap then 0 else a_tam ap)) (a_bloques a))
| ap_espacio a :
    apaso a PEspacio [enviar_respuesta_espacio (a_libre a)] a.

(** What the Scheduler must respect: sizes that fit their fields, a pid that is
    new, no change of segments and no second suspension of a process that is in
    Swap, and room in Swap for what is suspended. *)
Definition a_en_ram (a : almacen) (q : Z) : Prop := forall ap, a_procesos a !! q = Some ap -> a_fuera ap = false.

Definition admisible (a : almacen) (p : pedido) : Prop :=
  match p with
  | PCrear q path => es_int q /\ cadena_ok path /\ a_procesos a !! q = None
  | PSolicitar q id tam => es_int q /\ es_u32 id /\ es_u32 tam /\ 0 < tam /\ a_en_ram a q
  | PEliminar q id => es_int q /\ es_u32 id /\ a_en_ram a q
  | PLeer q dir tam => es_int q /\ es_u32 dir /\ es_u32 tam /\ dir mod sms + tam < 4294967296
  | PEscribir q dir datos => es_int q /\ es_u32 dir /\ datos_ok datos /\ dir mod sms + Z.of_nat (length datos) < 4294967296
  | PSuspender q => es_int q /\ a_en_ram a q /\
      forall ap, a_procesos a !! q = Some ap -> a_n_bloques bs ap <= a_bloques a
  | PDesSuspender q => es_int q /\ forall ap, a_procesos a !! q = Some ap -> a_fuera ap = true
  | PFinalizar q => es_int q
  | PEspacio => True
  end.
End almacen.

(** ** Which store a Memory stands for *)

(** The bytes of a segment: in RAM at its base, or in its blocks of Swap. *)
Definition rep_seg (sw : swap) (ram : list byte) (next : Z) (fuera : bool) (seg : t_segmento) (sg : Z * list byte) : Prop :=
  s_id seg = sg.1 /\ Z.of_nat (length sg.2) = s_limite seg /\ es_u32 (s_id seg) /\ es_u32 (swap_bloque_inicio seg) /\
  if fuera then s_base seg = NEG1 /\ guardado sw seg sg.2 /\ ubicado_en_swap (sw_block_size (sw_config sw)) next seg
  else s_base seg <> NEG1 /\ leer_buffer ram (s_base seg) (s_limite seg) = Some sg.2.

Definition rep_proc (sw : swap) (ram : list byte) (next : Z) (p : t_contexto_ejecucion) (ap : aproc) : Prop :=
  Forall2 (rep_seg sw ram next (a_fuera ap)) (segmentos p) (a_segs ap).

Record rep (s sms bs : Z) (m : memoria) (a : almacen) (ram : list byte) (sw : swap) : Prop := {
  re_su : suspendible m ram sw;
  re_bs : sw_block_size (sw_config sw) = bs;
  re_pids : claves_distintas pid (procesos m);
  re_procs : map_Forall2 (fun _ => rep_proc sw ram (next_block (m_reserva m))) (por_clave pid (procesos m)) (a_procesos a);
  re_libre : total (bloques_libres m) = a_libre a;
  re_bloques : total_blocks (m_reserva m) - next_block (m_reserva m) = a_bloques a;
  re_sched : conexiones_get_scheduler_socket (m_conexiones m) = s;
  re_swap : 0 <= conexiones_get_swap_socket (m_conexiones m);
  re_progreso : en_progreso m = false;
  re_sms : segment_max_size (config_memory m) = sms }.

(** *** Bytes inside a segment *)

Lemma leer_dentro ram b l d off tam :
  0 <= b -> 0 <= off -> 0 <= tam -> off + tam <= l -> leer_buffer ram b l = Some d ->
  leer_buffer ram (b + off) tam = leer_buffer d off tam.
Proof.
  intros Hb Ho Ht Hl H. pose proof (length_leer_buffer ram b l d Hb ltac:(lia) H) as Hd. revert H.
  unfold leer_buffer. destruct (Z.leb_spec (b + l) (Z.of_nat (length ram))); [|done]. intros [= <-].
  destruct (Z.leb_spec (b + off + tam) (Z.of_nat (length ram))); [|lia].
  destruct (Z.leb_spec (off + tam) (Z.of_nat (length (take (Z.to_nat l) (drop (Z.to_nat b) ram))))) as [_|]; [|lia].
  rewrite skipn_firstn_comm, take_take, drop_drop, Z2Nat.inj_add by done. do 2 f_equal; lia.
Qed.

Lemma leer_buffer_corto d off tam : Z.of_nat (length d) < off + tam -> leer_buffer d off tam = None.
Proof. intros H. unfold leer_buffer. by destruct (Z.leb_spec (off + tam) (Z.of_nat (length d))); [lia|]. Qed.

Lemma escribir_dentro ram b l d off x ram' :
  0 <= b -> 0 <= off -> off + Z.of_nat (length x) <= l -> leer_buffer ram b l = Some d ->
  escribir_buffer ram (b + off) x = Some ram' ->
  exists d', escribir_buffer d off x = Some d' /\ leer_buffer ram' b l = Some d' /\ length d' = length d.
Proof.
  intros Hb Ho Hl H Hw. pose proof (length_leer_buffer ram b l d Hb ltac:(lia) H) as Hd.
  pose proof (length_escribir_buffer ram (b + off) x ram' ltac:(lia) Hw) as Hlr.
  revert H Hw. unfold leer_buffer, escribir_buffer. rewrite Hlr.
  destruct (Z.leb_spec (b + l) (Z.of_nat (length ram))) as [Hbl|]; [|done]. intros [= Ed].
  destruct (Z.leb_spec (b + off + Z.of_nat (length x)) (Z.of_nat (length ram))); [|done]. intros [= Er].
  destruct (Z.leb_spec (off + Z.of_nat (length x)) (Z.of_nat (length d))); [|lia].
  eexists. split; [done|]. split; [|autorewrite with largo; lia]. f_equal. subst ram'. rewrite <-Ed. clear Ed Hlr.
  rewrite Z2Nat.inj_add by done. set (nb := Z.to_nat b) in *. set (no := Z.to_nat off). set (nl := Z.to_nat l).
  assert (Hn : (nb + nl <= length ram)%nat) by lia. assert (Hn2 : (no + length x <= nl)%nat) by lia.
  rewrite drop_app_le by (rewrite length_take; lia). rewrite skipn_firstn_comm.
  replace (nb + no - nb)%nat with no by lia. rewrite (take_app_ge (take no _)) by (rewrite length_take, length_drop; lia).
  rewrite take_take, length_take, length_drop. replace (no `min` nl)%nat with no by lia. f_equal.
  rewrite take_app_ge by lia. f_equal. rewrite skipn_firstn_comm, drop_drop. f_equal; [lia|]. f_equal. lia.
Qed.

Lemma escribir_buffer_corto d off x : Z.of_nat (length d) < off + Z.of_nat (length x) -> escribir_buffer d off x = None.
Proof. intros H. unfold escribir_buffer. by destruct (Z.leb_spec (off + Z.of_nat (length x)) (Z.of_nat (length d))); [lia|]. Qed.

(** *** Looking up *)

Definition t_res (p : t_contexto_ejecucion) : Z := total (residentes_seg (segmentos p)).

Lemma total_residentes ps : total (residentes ps) = suma_Z (t_res <$> ps).
Proof.
  induction ps as [|p ps IH]; [done|]. change (residentes (p :: ps)) with (residentes_seg (segmentos p) ++ residentes ps).
  rewrite total_app, IH. done.
Qed.

Lemma libres_por_resta m ram : mem_inv m ram -> total (bloques_libres m) = Z.of_nat (length ram) - suma_Z (t_res <$> procesos m).
Proof. intros H. pose proof (mi_total _ _ H) as Ht. rewrite total_app, total_residentes in Ht. lia. Qed.

Lemma ram_igual m m' ram ram' :
  mem_inv m ram -> mem_inv m' ram' -> m_conexiones m' = m_conexiones m -> length ram' = length ram.
Proof.
  intros H H' E. destruct (acceso_tamanio m ram (mi_ram _ _ H)) as [E1 _].
  destruct (acceso_tamanio m' ram' (mi_ram _ _ H')) as [E2 _]. rewrite E in E2. lia.
Qed.

Lemma rep_tam sw ram next p ap :
  rep_proc sw ram next p ap -> t_res p = if a_fuera ap then 0 else a_tam ap.
Proof.
  unfold rep_proc, t_res, a_tam. destruct (a_fuera ap); intros H.
  - induction H as [|seg sg segs sgs (_ & _ & _ & _ & Hb & _) _ IH]; [done|]. rewrite residentes_seg_cons, Hb, Z.eqb_refl. exact IH.
  - induction H as [|seg sg segs sgs (_ & Hl & _ & _ & Hb & _) _ IH]; [done|].
    rewrite residentes_seg_cons. destruct (Z.eqb_spec (s_base seg) NEG1); [done|]. cbn [app fmap list_fmap suma_Z].
    rewrite total_cons, IH. cbn. lia.
Qed.

Lemma rep_limites sw ram next p ap : rep_proc sw ram next p ap -> s_limite <$> segmentos p = (fun sg => Z.of_nat (length sg.2)) <$> a_segs ap.
Proof.
  unfold rep_proc. generalize (a_fuera ap). intros b H.
  induction H as [|seg sg segs sgs (_ & Hl & _) _ IH]; [done|]. rewrite !fmap_cons, IH. f_equal. done.
Qed.

Lemma rep_bloques_de sw ram next p ap bs : rep_proc sw ram next p ap -> bloques_de bs (segmentos p) = a_n_bloques bs ap.
Proof.
  intros H. unfold bloques_de, a_n_bloques. apply rep_limites in H.
  rewrite (list_fmap_compose s_limite (fun l => n_bloques l bs)), H, <-list_fmap_compose. done.
Qed.

Lemma rep_indice sw ram next b segs sgs id :
  Forall2 (rep_seg sw ram next b) segs sgs ->
  indice_de (fun s => s_id s =? id) segs = indice_de (fun sg => sg.1 =? id) sgs.
Proof.
  intros H. induction H as [|seg sg segs sgs (Hid & _) _ IH]; [done|]. cbn [indice_de]. rewrite Hid.
  destruct (sg.1 =? id); [done|]. by rewrite IH.
Qed.

(** Nothing that a process occupies changes. *)
Lemma rep_proc_estable sw sw' ram ram' next next' p ap :
  rep_proc sw ram next p ap -> sw_config sw' = sw_config sw -> next <= next' ->
  (forall x, 0 <= x < next -> bloque sw' x = bloque sw x) ->
  (forall seg, seg ∈ segmentos p -> s_base seg <> NEG1 ->
     leer_buffer ram' (s_base seg) (s_limite seg) = leer_buffer ram (s_base seg) (s_limite seg)) ->
  rep_proc sw' ram' next' p ap.
Proof.
  unfold rep_proc. intros H Hc Hn Hb Hr. apply Forall2_same_length_lookup. split; [by eapply Forall2_length|].
  intros i seg sg Hi Hj. pose proof (Forall2_lookup_lr _ _ _ _ _ _ H Hi Hj) as (H1 & H2 & H3 & H4 & H5).
  do 4 (split; [done|]). destruct (a_fuera ap).
  - destruct H5 as (E1 & E2 & E3 & E4). split; [done|]. split; [|split; [done|rewrite Hc; lia]].
    by apply (guardado_estable sw sw' seg sg.2 next).
  - destruct H5 as (E1 & E2). split; [done|]. rewrite Hr; [done|by eapply list_elem_of_lookup_2|done].
Qed.

Section con_rep.
Context (s sms bs : Z) (m : memoria) (a : almacen) (ram : list byte) (sw : swap).
Hypothesis (Hr : rep s sms bs m a ram sw).

Lemma rep_inv : mem_inv m ram.
Proof. apply Hr. Qed.

Lemma rep_buscar q ap :
  a_procesos a !! q = Some ap ->
  exists k p, procesos_buscar q (procesos m) = Some k /\ procesos m !! k = Some p /\ pid p = q /\
    rep_proc sw ram (next_block (m_reserva m)) p ap.
Proof.
  intros Hq. pose proof (re_procs _ _ _ _ _ _ _ Hr q) as H. rewrite Hq in H.
  inversion H as [p y Hp E1 E2|]; subst. destruct (por_clave_encuentra pid _ _ _ (eq_sym E1)) as (k & Hk & Hkp); [apply Hr|].
  exists k, p. split; [done|]. split; [done|]. split; [|done].
  by destruct (procesos_buscar_Some _ _ _ Hk) as (? & ? & ?); simplify_eq.
Qed.

Lemma rep_buscar_no q : a_procesos a !! q = None <-> procesos_buscar q (procesos m) = None.
Proof.
  pose proof (re_procs _ _ _ _ _ _ _ Hr q) as H. unfold procesos_buscar. rewrite por_clave_sin_indice.
  split; intros E; rewrite E in H; by inversion H.
Qed.

Lemma rep_k k p : procesos m !! k = Some p ->
  exists ap, a_procesos a !! pid p = Some ap /\ rep_proc sw ram (next_block (m_reserva m)) p ap.
Proof.
  intros Hk. assert (E : por_clave pid (procesos m) !! pid p = Some p).
  { apply por_clave_lookup; [apply Hr|]. split; [by eapply list_elem_of_lookup_2|done]. }
  pose proof (re_procs _ _ _ _ _ _ _ Hr (pid p)) as H. rewrite E in H. inversion H as [x ap Hp Ex E2|]; subst. by exists ap.
Qed.

Lemma rep_libre_no_neg : 0 <= a_libre a.
Proof. rewrite <-(re_libre _ _ _ _ _ _ _ Hr). apply (espacio_libre_inv m ram rep_inv). Qed.

Lemma rep_segmentos_bien : segmentos_bien m.
Proof.
  apply Forall_lookup. intros k p Hk. destruct (rep_k k p Hk) as (ap & _ & Hp).
  apply Forall_lookup. intros i seg Hi. destruct (Forall2_lookup_l _ _ _ _ _ Hp Hi) as (sg & _ & H1 & H2 & H3 & H4 & H5).
  destruct (acceso_tamanio m ram (mi_ram _ _ rep_inv)) as [_ Hmax].
  split; [done|]. destruct (a_fuera ap).
  - destruct H5 as (-> & Hg & _). pose proof (g_limite _ _ _ Hg). unfold es_u32, NEG1 in *. lia.
  - destruct H5 as (Hb & _). destruct (residente_en_ram m ram k p seg rep_inv Hk) as (? & ? & ?);
      [by eapply list_elem_of_lookup_2|done|]. unfold es_u32 in *. lia.
Qed.
End con_rep.

(** ** How the relation follows a change *)

(** The fields the relation looks at besides processes and free space. *)
Record mismo_marco (m m' : memoria) : Prop := {
  mm_config : config_memory m' = config_memory m;
  mm_conexiones : m_conexiones m' = m_conexiones m;
  mm_progreso : en_progreso m' = en_progreso m;
  mm_total : total_blocks (m_reserva m') = total_blocks (m_reserva m) }.

Lemma marco_mismo m m' : marco m m' -> mismo_marco m m'.
Proof. intros [A B C D E F]. split; [done..|by rewrite C]. Qed.

Section cambios.
Context (s sms bs : Z) (m m' : memoria) (a : almacen) (ram ram' : list byte) (sw sw' : swap).
Hypothesis (Hr : rep s sms bs m a ram sw) (Hs' : suspendible m' ram' sw') (Hm : mismo_marco m m').
Hypothesis (Hc : sw_config sw' = sw_config sw).
Let next := next_block (m_reserva m).
Let next' := next_block (m_reserva m').
Hypothesis (Hn : next <= next') (Hb : forall x, 0 <= x < next -> bloque sw' x = bloque sw x).

Lemma rep_de procs :
  claves_distintas pid (procesos m') ->
  map_Forall2 (fun _ => rep_proc sw' ram' next') (por_clave pid (procesos m')) procs ->
  rep s sms bs m' (Almacen procs (a_libre a + suma_Z (t_res <$> procesos m) - suma_Z (t_res <$> procesos m'))
                     (a_bloques a - (next' - next))) ram' sw'.
Proof.
  intros Hd Hf. destruct Hm as [M1 M2 M3 M4]. pose proof (rep_inv _ _ _ _ _ _ _ Hr) as Hi. pose proof (su_inv _ _ _ Hs') as Hi'.
  pose proof (ram_igual m m' ram ram' Hi Hi' M2) as Hl.
  destruct Hr as [R1 R2 R3 R4 R5 R6 R7 R8 R9 R10]. split; cbn [a_procesos a_libre a_bloques]; try congruence; try done.
  - rewrite <-R5, (libres_por_resta m ram Hi), (libres_por_resta m' ram' Hi'), Hl. lia.
  - fold next'. rewrite M4, <-R6. fold next. lia.
Qed.

(** One process changes. *)
Lemma rep_reemplaza k p p' ap' :
  procesos m !! k = Some p -> procesos m' = <[k := p']> (procesos m) -> pid p' = pid p ->
  ajenos_intactos k (procesos m) ram ram' -> rep_proc sw' ram' next' p' ap' ->
  rep s sms bs m' (Almacen (con_proceso (pid p) ap' a) (a_libre a + t_res p - t_res p') (a_bloques a - (next' - next))) ram' sw'.
Proof.
  intros Hk Hp' Hpid Haj Hrep. pose proof (re_pids _ _ _ _ _ _ _ Hr) as Hd.
  pose proof (rep_de (con_proceso (pid p) ap' a)) as H. rewrite Hp' in H.
  replace (a_libre a + suma_Z (t_res <$> procesos m) - suma_Z (t_res <$> <[k:=p']> (procesos m)))
    with (a_libre a + t_res p - t_res p') in H by (rewrite (suma_en_insert t_res _ k p p' Hk); lia).
  apply H.
  - unfold claves_distintas. by rewrite (claves_insert pid _ k p p').
  - rewrite (por_clave_insert pid _ k p p' Hd Hk Hpid). intros q. unfold con_proceso.
    destruct (decide (q = pid p)) as [->|Hq]; [rewrite !lookup_insert_eq; by constructor|].
    rewrite !lookup_insert_ne by done. pose proof (re_procs _ _ _ _ _ _ _ Hr q) as Hq'.
    destruct (por_clave pid (procesos m) !! q) as [p2|] eqn:E; inversion Hq' as [x ap2 Hx Ex E2|]; subst; [|constructor].
    constructor. apply por_clave_lookup in E as [Hin Hpq]; [|done]. apply list_elem_of_lookup in Hin as (k2 & Hk2).
    assert (k2 <> k) by congruence.
    apply (rep_proc_estable sw sw' ram ram' next next'); [done..|]. intros seg Hseg Hbs. by apply (Haj k2 p2).
Qed.

(** One process ends. *)
Lemma rep_quita k p :
  procesos m !! k = Some p -> procesos m' = delete k (procesos m) -> ram' = ram ->
  rep s sms bs m' (Almacen (delete (pid p) (a_procesos a)) (a_libre a + t_res p) (a_bloques a - (next' - next))) ram' sw'.
Proof.
  intros Hk Hp' Hram. pose proof (re_pids _ _ _ _ _ _ _ Hr) as Hd.
  pose proof (rep_de (delete (pid p) (a_procesos a))) as H. rewrite Hp' in H.
  replace (a_libre a + suma_Z (t_res <$> procesos m) - suma_Z (t_res <$> delete k (procesos m)))
    with (a_libre a + t_res p) in H by (rewrite (suma_en_delete t_res _ k p Hk); lia).
  apply H; [by apply claves_delete|]. rewrite (por_clave_delete pid _ k p Hd Hk). apply map_Forall2_delete.
  intros q. pose proof (re_procs _ _ _ _ _ _ _ Hr q) as Hq'. inversion Hq' as [x y Hx|]; constructor.
  by apply (rep_proc_estable sw sw' ram ram' next next'); subst.
Qed.

(** One process is created. *)
Lemma rep_agrega p :
  a_procesos a !! pid p = None -> segmentos p = [] -> procesos m' = procesos m ++ [p] -> ram' = ram ->
  rep s sms bs m' (Almacen (con_proceso (pid p) (AProc false []) a) (a_libre a) (a_bloques a - (next' - next))) ram' sw'.
Proof.
  intros Hno Hsegs Hp' Hram. pose proof (re_pids _ _ _ _ _ _ _ Hr) as Hd.
  assert (Hfresh : pid p ∉ pid <$> procesos m).
  { apply por_clave_None. apply (rep_buscar_no _ _ _ _ _ _ _ Hr) in Hno. by apply por_clave_sin_indice. }
  pose proof (rep_de (con_proceso (pid p) (AProc false []) a)) as H. rewrite Hp' in H.
  replace (a_libre a + suma_Z (t_res <$> procesos m) - suma_Z (t_res <$> (procesos m ++ [p])))
    with (a_libre a) in H.
  2: { rewrite fmap_app, suma_Z_app. cbn [fmap list_fmap suma_Z].
       assert (E : t_res p = 0) by (unfold t_res; by rewrite Hsegs). rewrite E. lia. }
  apply H; [by apply claves_snoc|]. rewrite (por_clave_snoc pid _ _ Hfresh). apply map_Forall2_insert_2.
  - unfold rep_proc. rewrite Hsegs. constructor.
  - intros q. pose proof (re_procs _ _ _ _ _ _ _ Hr q) as Hq'. inversion Hq' as [x y Hx|]; constructor.
    by apply (rep_proc_estable sw sw' ram ram' next next'); subst.
Qed.
End cambios.

(** Nothing changes but what was read and what was answered. *)
Lemma suspendible_igual m m' ram sw :
  suspendible m ram sw -> m_conexiones m' = m_conexiones m -> m_red m' = m_red m -> procesos m' = procesos m ->
  bloques_libres m' = bloques_libres m -> m_swap m' = m_swap m -> m_reserva m' = m_reserva m -> suspendible m' ram sw.
Proof.
  intros [A [B1 B2 B3 B4] C D] E1 E2 E3 E4 E5 E6. split; [by apply (mem_inv_igual m)| |by rewrite E6|by rewrite E6].
  split; by rewrite ?E5, ?E6.
Qed.

Definition igual_salvo_sockets (m m' : memoria) : Prop :=
  exists e l, m' = con_salidas l (con_entradas e m).

Lemma rep_igual s sms bs m m' a ram sw : rep s sms bs m a ram sw -> igual_salvo_sockets m m' -> rep s sms bs m' a ram sw.
Proof. intros [R1 R2 R3 R4 R5 R6 R7 R8 R9 R10] (e & l & ->). split; try done. by apply (suspendible_igual m). Qed.

Lemma rep_solo_responde s sms bs m a ram sw resto b :
  rep s sms bs m a ram sw -> rep s sms bs (con_salida s b (consumido s resto m)) a ram sw.
Proof. intros H. apply (rep_igual _ _ _ m); [done|]. by eexists _, _. Qed.

(** A request is served: the answers and the new store are those of a rule. *)
Definition servido (s sms bs : Z) (m : memoria) (a : almacen) (p : pedido) (resto : list byte) (handler : M unit) : Prop :=
  exists m' ram' sw' a' rs, handler m = Some (tt, m') /\ apaso sms bs a p rs a' /\ rep s sms bs m' a' ram' sw' /\
    m_salidas m' = m_salidas m ++ (pair s <$> rs) /\ entrada s m' = resto.

(** With [n] answers. *)
Definition servido_con (n : nat) (s sms bs : Z) (m : memoria) (a : almacen) (p : pedido) (resto : list byte) (handler : M unit) : Prop :=
  exists m' ram' sw' a' rs, (handler m = Some (tt, m') /\ apaso sms bs a p rs a' /\ rep s sms bs m' a' ram' sw' /\
    m_salidas m' = m_salidas m ++ (pair s <$> rs) /\ entrada s m' = resto) /\ length rs = n.

(** One answer and no change. *)
Lemma servido_responde_con s sms bs m a ram sw p resto handler b :
  rep s sms bs m a ram sw -> handler m = Some (tt, con_salida s b (consumido s resto m)) ->
  apaso sms bs a p [b] a -> servido_con 1 s sms bs m a p resto handler.
Proof.
  intros Hr E Ha. exists (con_salida s b (consumido s resto m)), ram, sw, a, [b]. split; [|done]. split; [exact E|]. split; [done|].
  split; [by apply rep_solo_responde|]. split; [done|]. apply entrada_consumido.
Qed.

Lemma servido_responde s sms bs m a ram sw p resto handler b :
  rep s sms bs m a ram sw -> handler m = Some (tt, con_salida s b (consumido s resto m)) ->
  apaso sms bs a p [b] a -> servido s sms bs m a p resto handler.
Proof.
  intros Hr E Ha. destruct (servido_responde_con s sms bs m a ram sw p resto handler b Hr E Ha) as (m' & ram' & sw' & a' & rs & H & _).
  by exists m', ram', sw', a', rs.
Qed.

(** Two stores that are the same by arithmetic. *)
Lemma almacen_igual procs l1 l2 b1 b2 : l1 = l2 -> b1 = b2 -> Almacen procs l1 b1 = Almacen procs l2 b2.
Proof. by intros -> ->. Qed.

Section pedidos.
Context (s sms bs : Z) (m : memoria) (a : almacen) (ram : list byte) (sw : swap) (resto : list byte).
Hypothesis (Hr : rep s sms bs m a ram sw) (Hs0 : 0 <= s) (Hsms : 0 < sms < 4294967296).

Lemma servido_crear q path :
  admisible sms bs a (PCrear q path) -> pendiente m s (enviar_crear_proceso q path) resto ->
  servido s sms bs m a (PCrear q path) resto (manejar_crear_proceso s).
Proof.
  intros (Hq & Hpath & Hno) Hp. set (m1 := consumido s resto m).
  assert (E : recibir_de s recibir_crear_proceso m = Some ((q, path), m1))
    by exact (recibir_protocolo p_crear_proceso (q, path) m s resto (conj Hq Hpath) Hp).
  set (instrs := cargar_script (m_archivos m) (resolver_path (scripts_basepath (config_memory m)) (cstr path))).
  set (p := Proceso q registros_cero [] instrs).
  set (m2 := con_salida s (enviar_ok CREAR_PROCESO) (con_procesos (procesos m ++ [p]) m1)).
  destruct (re_su _ _ _ _ _ _ _ Hr) as [[I1 I2 I3 I4] [S1 S2 S3 S4] R1 R2].
  assert (Hres : residentes (procesos m ++ [p]) = residentes (procesos m)).
  { unfold residentes. rewrite bind_app. cbn. by rewrite app_nil_r. }
  assert (Hs2 : suspendible m2 ram sw).
  { split; [|by split|done|done]. split; [by apply (acceso_estable m)|apply Forall_app; split; [done|by apply Forall_singleton]| |];
      change (procesos m2) with (procesos m ++ [p]); by rewrite Hres. }
  exists m2, ram, sw, (Almacen (con_proceso q (AProc false []) a) (a_libre a) (a_bloques a)), [enviar_ok CREAR_PROCESO].
  split; [|split; [by constructor|split; [|split; [done|apply entrada_consumido]]]].
  - unfold manejar_crear_proceso. rewrite (st_bind_ok _ _ _ _ _ E). reflexivity.
  - pose proof (rep_agrega s sms bs m m2 a ram ram sw sw Hr Hs2) as H.
    specialize (H ltac:(by split) eq_refl (Z.le_refl _) ltac:(done) p Hno eq_refl eq_refl eq_refl).
    change (next_block (m_reserva m2)) with (next_block (m_reserva m)) in H.
    rewrite Z.sub_diag, Z.sub_0_r in H. exact H.
Qed.

Lemma servido_espacio :
  pendiente m s enviar_obtener_espacio_libre resto ->
  servido s sms bs m a PEspacio resto (manejar_obtener_espacio_libre s).
Proof.
  intros Hp. apply (servido_responde _ _ _ _ _ ram sw _ _ _ (enviar_respuesta_espacio (a_libre a)) Hr); [|constructor].
  assert (E : recibir_de s validar_buffer m = Some (tt, consumido s resto m)).
  { apply (recibir_validar s [] resto); [|done]. exact Hp. }
  unfold manejar_obtener_espacio_libre. rewrite (st_bind_ok _ _ _ _ _ E). st_unfold.
  change (bloques_libres (consumido s resto m)) with (bloques_libres m).
  destruct (espacio_libre_inv m ram (rep_inv _ _ _ _ _ _ _ Hr)) as [-> _]. by rewrite (re_libre _ _ _ _ _ _ _ Hr).
Qed.

(** *** Reading and writing *)

Lemma segmento_rep q dir ap i sg :
  a_segmento sms a q dir = Some (ap, i, sg) ->
  exists k p seg, procesos_buscar q (procesos m) = Some k /\ procesos m !! k = Some p /\ pid p = q /\
    a_procesos a !! q = Some ap /\ a_fuera ap = false /\ a_segs ap !! i = Some sg /\
    rep_proc sw ram (next_block (m_reserva m)) p ap /\
    indice_de (fun s => s_id s =? dir / sms) (segmentos p) = Some i /\ segmentos p !! i = Some seg /\
    rep_seg sw ram (next_block (m_reserva m)) false seg sg.
Proof.
  unfold a_segmento. destruct (a_procesos a !! q) as [ap'|] eqn:Eq; cbn [mbind option_bind]; [|done].
  destruct (a_fuera ap') eqn:Ef; [done|]. destruct (indice_de _ (a_segs ap')) as [i'|] eqn:Ei; cbn [mbind option_bind]; [|done].
  destruct (a_segs ap' !! i') as [sg'|] eqn:Es; cbn [mbind option_bind]; [|done]. intros [= -> -> ->].
  destruct (rep_buscar _ _ _ _ _ _ _ Hr q ap Eq) as (k & p & Hk & Hp & Hq & Hrp).
  pose proof Hrp as H. unfold rep_proc in H. rewrite Ef in H.
  destruct (Forall2_lookup_r _ _ _ _ _ H Es) as (seg & Hseg & Hrs).
  exists k, p, seg. repeat split; try done; [|apply Hrs..]. by rewrite (rep_indice _ _ _ _ _ _ _ H).
Qed.

Lemma acceso_rep q dir tam k i seg :
  acceso_de m q dir tam k i seg ->
  exists ap sg, a_segmento sms a q dir = Some (ap, i, sg) /\ Z.of_nat (length sg.2) = s_limite seg.
Proof.
  intros (Ek & p & Hk & Hi & Hseg & Hb & Hl). rewrite (re_sms _ _ _ _ _ _ _ Hr) in Hi.
  destruct (rep_k _ _ _ _ _ _ _ Hr k p Hk) as (ap & Hap & Hrp).
  destruct (procesos_buscar_Some _ _ _ Ek) as (p' & Hk' & Hpq). simplify_eq.
  unfold rep_proc in Hrp. destruct (Forall2_lookup_l _ _ _ _ _ Hrp Hseg) as (sg & Hsg & Hrs).
  exists ap, sg. split; [|apply Hrs]. unfold a_segmento. rewrite Hap. cbn [mbind option_bind].
  destruct (a_fuera ap); [by destruct Hrs as (_ & _ & _ & _ & ? & _)|].
  rewrite <-(rep_indice _ _ _ _ _ _ _ Hrp), Hi. cbn [mbind option_bind]. by rewrite Hsg.
Qed.

Lemma segmento_acceso q dir ap i sg tam :
  a_segmento sms a q dir = Some (ap, i, sg) -> dir mod sms + tam <= Z.of_nat (length sg.2) ->
  exists k p seg, acceso_de m q dir tam k i seg /\ procesos m !! k = Some p /\ pid p = q /\ segmentos p !! i = Some seg /\
    a_procesos a !! q = Some ap /\ a_fuera ap = false /\ a_segs ap !! i = Some sg /\
    rep_proc sw ram (next_block (m_reserva m)) p ap /\ rep_seg sw ram (next_block (m_reserva m)) false seg sg /\
    0 <= s_base seg /\ s_base seg + s_limite seg <= Z.of_nat (length ram).
Proof.
  intros Hs Hl. destruct (segmento_rep q dir ap i sg Hs) as (k & p & seg & Hk & Hp & Hq & Ha & Hf & Hsg & Hrp & Hi & Hseg & Hrs).
  destruct Hrs as (E1 & E2 & E3 & E4 & Hb & E5).
  destruct (residente_en_ram m ram k p seg (rep_inv _ _ _ _ _ _ _ Hr) Hp) as (B1 & B2 & B3);
    [by eapply list_elem_of_lookup_2|done|].
  exists k, p, seg. split; [|done]. split; [done|]. exists p. rewrite (re_sms _ _ _ _ _ _ _ Hr). by split_and!; [..|lia].
Qed.

Lemma acceso_pedido_de q dir tam mensaje :
  es_int q -> es_u32 dir -> es_u32 tam -> dir mod sms + tam < 4294967296 ->
  pendiente m s mensaje resto -> acceso_pedido m s q dir tam mensaje resto.
Proof.
  intros. split; try done; rewrite ?(re_sms _ _ _ _ _ _ _ Hr); try done. apply Hr.
Qed.

Lemma servido_leer q dir tam :
  admisible sms bs a (PLeer q dir tam) -> pendiente m s (enviar_lectura_memoria q dir tam) resto ->
  servido s sms bs m a (PLeer q dir tam) resto (manejar_lectura_memoria s).
Proof.
  intros (Hq & Hd & Ht & Hw) Hp. pose proof (rep_inv _ _ _ _ _ _ _ Hr) as Hi.
  destruct (lectura_memoria_correcta m ram s q dir tam resto Hi (rep_segmentos_bien _ _ _ _ _ _ _ Hr)
    (acceso_pedido_de q dir tam _ Hq Hd Ht Hw Hp)) as [Hsi Hno].
  pose proof (Z.mod_pos_bound dir sms ltac:(lia)). unfold es_u32 in Ht.
  destruct (a_leer sms a q dir tam) as [datos|] eqn:El.
  - pose proof El as El'. unfold a_leer in El'. destruct (a_segmento sms a q dir) as [[[ap i] sg]|] eqn:Es; cbn in El'; [|done].
    assert (Hl : dir mod sms + tam <= Z.of_nat (length sg.2)).
    { revert El'. unfold leer_buffer. by destruct (Z.leb_spec (dir mod sms + tam) (Z.of_nat (length sg.2))). }
    destruct (segmento_acceso q dir ap i sg tam Es Hl)
      as (k & p & seg & Hac & _ & _ & _ & _ & _ & _ & _ & (_ & E2 & _ & _ & _ & E5) & B1 & _).
    destruct (Hsi k i seg Hac) as (datos' & Hd' & E). rewrite (re_sms _ _ _ _ _ _ _ Hr) in Hd'.
    rewrite (leer_dentro ram (s_base seg) (s_limite seg) sg.2) in Hd' by (done || lia). rewrite El' in Hd'. injection Hd' as <-.
    apply (servido_responde _ _ _ _ _ ram sw _ _ _ _ Hr E). by constructor.
  - assert (E : forall k i seg, ~ acceso_de m q dir tam k i seg).
    { intros k i seg Hac. destruct (acceso_rep q dir tam k i seg Hac) as (ap & sg & Es & Hl). unfold a_leer in El.
      rewrite Es in El. cbn in El. destruct Hac as (_ & p & _ & _ & _ & _ & Hli). rewrite (re_sms _ _ _ _ _ _ _ Hr) in Hli.
      unfold leer_buffer in El. destruct (Z.leb_spec (dir mod sms + tam) (Z.of_nat (length sg.2))); [done|lia]. }
    apply (servido_responde _ _ _ _ _ ram sw _ _ _ _ Hr (Hno E)). by constructor.
Qed.

Lemma suspendible_marco m' ram' :
  mem_inv m' ram' -> m_swap m' = m_swap m -> m_reserva m' = m_reserva m -> suspendible m' ram' sw.
Proof.
  intros Hi E1 E2. destruct (re_su _ _ _ _ _ _ _ Hr) as [_ [B1 B2 B3 B4] C D].
  split; [done|split; by rewrite ?E1, ?E2|by rewrite E2|by rewrite E2].
Qed.

Lemma servido_escribir q dir datos :
  admisible sms bs a (PEscribir q dir datos) -> pendiente m s (enviar_escritura_memoria q dir datos) resto ->
  servido s sms bs m a (PEscribir q dir datos) resto (manejar_escritura_memoria s).
Proof.
  intros (Hq & Hd & Hdat & Hw) Hp. pose proof (rep_inv _ _ _ _ _ _ _ Hr) as Hi.
  set (tam := Z.of_nat (length datos)) in *. assert (Ht : es_u32 tam) by (unfold es_u32, datos_ok in *; lia).
  destruct (escritura_memoria_correcta m ram s q dir datos resto Hi (rep_segmentos_bien _ _ _ _ _ _ _ Hr) Hdat
    (acceso_pedido_de q dir tam _ Hq Hd Ht Hw Hp)) as [Hsi Hno]. rewrite (re_sms _ _ _ _ _ _ _ Hr) in Hsi.
  pose proof (Z.mod_pos_bound dir sms ltac:(lia)) as Hmod.
  destruct (a_escribir sms a q dir datos) as [a'|] eqn:El.
  - pose proof El as El'. unfold a_escribir in El'.
    destruct (a_segmento sms a q dir) as [[[ap i] sg]|] eqn:Es; cbn [mbind option_bind] in El'; [|done].
    destruct (escribir_buffer sg.2 (dir mod sms) datos) as [nuevos|] eqn:En; cbn [mbind option_bind] in El'; [|done].
    injection El' as Ea'.
    assert (Hl : dir mod sms + tam <= Z.of_nat (length sg.2)).
    { revert En. unfold escribir_buffer. by destruct (Z.leb_spec (dir mod sms + Z.of_nat (length datos)) (Z.of_nat (length sg.2))). }
    destruct (segmento_acceso q dir ap i sg tam Es Hl)
      as (k & p & seg & Hac & Hk & Hpq & Hseg & Hap & Hf & Hsg & Hrp & Hrs & B1 & B2).
    destruct (Hsi k i seg Hac) as (m' & ram' & E & Hwr & Hi' & Hps & Hlib & Hsal & Hotros & Hma & He).
    destruct Hrs as (E1 & E2 & E3 & E4 & Hb & E5).
    destruct (escribir_dentro ram (s_base seg) (s_limite seg) sg.2 (dir mod sms) datos ram') as (d' & En' & Hle & Hlen); [lia..|done|done|].
    rewrite En in En'. injection En' as <-.
    exists m', ram', sw, a', [enviar_ok ESCRITURA_MEMORIA]. split; [exact E|]. split; [by constructor|].
    split; [|by rewrite Hsal].
    pose proof (rep_reemplaza s sms bs m m' a ram ram' sw sw Hr (suspendible_marco m' ram' Hi' (ma_swap _ _ Hma) (ma_reserva _ _ Hma))
      (marco_mismo _ _ Hma) eq_refl) as H. rewrite (ma_reserva _ _ Hma) in H.
    specialize (H (Z.le_refl _) ltac:(done) k p p (AProc false (<[i := (sg.1, nuevos)]> (a_segs ap))) Hk).
    rewrite list_insert_id, Hpq in H by done. specialize (H Hps eq_refl).
    rewrite <-Ea'. replace (a_libre a + t_res p - t_res p) with (a_libre a) in H by lia. rewrite Z.sub_diag, Z.sub_0_r in H.
    apply H; clear H.
    + intros k' p' seg' Hne Hk' Hseg' Hb'. apply list_elem_of_lookup in Hseg' as (i' & Hi'').
      apply (Hotros k' i' p' seg'); [congruence|done..].
    + unfold rep_proc in *. rewrite Hf in Hrp. cbn [a_fuera a_segs]. apply Forall2_same_length_lookup.
      split; [rewrite length_insert; by eapply Forall2_length|]. intros j sj gj Hsj Hgj.
      destruct (decide (j = i)) as [->|Hji].
      * rewrite list_lookup_insert_eq in Hgj by (by eapply lookup_lt_Some). simplify_eq.
        do 4 (split; [cbn; congruence || lia|]). split; [done|exact Hle].
      * rewrite list_lookup_insert_ne in Hgj by done.
        pose proof (Forall2_lookup_lr _ _ _ _ _ _ Hrp Hsj Hgj) as (F1 & F2 & F3 & F4 & F5 & F6).
        do 4 (split; [done|]). split; [done|]. rewrite (Hotros k j p sj); [done|congruence|done..].
  - assert (E : forall k i seg, ~ acceso_de m q dir tam k i seg).
    { intros k i seg Hac. destruct (acceso_rep q dir tam k i seg Hac) as (ap & sg & Es & Hl). unfold a_escribir in El.
      rewrite Es in El. cbn [mbind option_bind] in El. destruct Hac as (_ & p & _ & _ & _ & _ & Hli).
      rewrite (re_sms _ _ _ _ _ _ _ Hr) in Hli. unfold escribir_buffer in El.
      destruct (Z.leb_spec (dir mod sms + Z.of_nat (length datos)) (Z.of_nat (length sg.2))); [done|unfold tam in Hli; lia]. }
    apply (servido_responde _ _ _ _ _ ram sw _ _ _ _ Hr (Hno E)). by constructor.
Qed.

(** *** Removing a segment, ending a process *)

Lemma servido_eliminar q id :
  admisible sms bs a (PEliminar q id) -> pendiente m s (enviar_eliminar_segmento q id) resto ->
  servido s sms bs m a (PEliminar q id) resto (manejar_eliminar_segmento s).
Proof.
  intros (Hq & Hid & Hram) Hp. pose proof (rep_inv _ _ _ _ _ _ _ Hr) as Hi.
  destruct (eliminar_segmento_correcto m ram s q id resto Hi Hq Hid Hp) as [Hno Hsi].
  destruct (a_buscar a q id) as [[[ap i] sg]|] eqn:Eb.
  - pose proof Eb as Eb'. unfold a_buscar in Eb'. destruct (a_procesos a !! q) as [ap'|] eqn:Eq; cbn [mbind option_bind] in Eb'; [|done].
    destruct (indice_de _ (a_segs ap')) as [i'|] eqn:Ei; cbn [mbind option_bind] in Eb'; [|done].
    destruct (a_segs ap' !! i') as [sg'|] eqn:Es; cbn [mbind option_bind] in Eb'; [|done]. injection Eb' as -> -> ->.
    specialize (Hram ap Eq). destruct (rep_buscar _ _ _ _ _ _ _ Hr q ap Eq) as (k & p & Hk & Hkp & Hpq & Hrp).
    pose proof Hrp as Hrp'. unfold rep_proc in Hrp'. rewrite Hram in Hrp'.
    destruct (Forall2_lookup_r _ _ _ _ _ Hrp' Es) as (seg & Hseg & Hrs).
    rewrite <-(rep_indice _ _ _ _ _ _ _ Hrp') in Ei.
    destruct (Hsi k p i seg Hk Hkp Ei Hseg) as (m' & E & Hi' & Hps & _ & Hsal & Hma & He); [apply Hrs|].
    set (p' := con_segmentos (delete i (segmentos p)) p) in *.
    assert (Hrp2 : rep_proc sw ram (next_block (m_reserva m)) p' (AProc false (delete i (a_segs ap)))).
    { unfold rep_proc. cbn. by apply Forall2_delete. }
    exists m', ram, sw, (Almacen (con_proceso q (AProc false (delete i (a_segs ap))) a) (a_libre a + Z.of_nat (length sg.2)) (a_bloques a)),
      [enviar_ok ELIMINAR_SEGMENTO; enviar_memoria_liberada].
    split; [exact E|]. split; [by apply ap_eliminar|]. split; [|split; [|done]].
    2: { rewrite Hsal. unfold aviso_liberada. rewrite (re_sched _ _ _ _ _ _ _ Hr). by destruct (Z.geb_spec s 0); [|lia]. }
    pose proof (rep_reemplaza s sms bs m m' a ram ram sw sw Hr (suspendible_marco m' ram Hi' (ma_swap _ _ Hma) (ma_reserva _ _ Hma))
      (marco_mismo _ _ Hma) eq_refl) as H. rewrite (ma_reserva _ _ Hma) in H.
    rewrite (alter_conocido _ _ k p Hkp) in Hps.
    specialize (H (Z.le_refl _) ltac:(done) k p p' _ Hkp Hps eq_refl ltac:(done) Hrp2).
    rewrite (rep_tam _ _ _ _ _ Hrp), (rep_tam _ _ _ _ _ Hrp2), Hram, Hpq in H. unfold a_tam in H. cbn [a_fuera a_segs] in H.
    rewrite (suma_en_delete (fun sg => Z.of_nat (length sg.2)) (a_segs ap) i sg Es), Z.sub_diag, Z.sub_0_r in H.
    erewrite almacen_igual; [exact H|lia|done].
  - assert (E : manejar_eliminar_segmento s m = Some (tt, con_salida s (enviar_ok ELIMINAR_SEGMENTO) (consumido s resto m))).
    { apply Hno. intros k p Hk Hkp. destruct (rep_k _ _ _ _ _ _ _ Hr k p Hkp) as (ap & Hap & Hrp).
      destruct (procesos_buscar_Some _ _ _ Hk) as (p2 & Hk2 & Hpq). simplify_eq. unfold a_buscar in Eb.
      rewrite Hap in Eb. cbn [mbind option_bind] in Eb. unfold buscar_segmento. unfold rep_proc in Hrp.
      rewrite (rep_indice _ _ _ _ _ _ _ Hrp). destruct (indice_de _ (a_segs ap)) as [i|] eqn:Ei; [|done].
      apply indice_de_Some in Ei as (sg & Hsg & _). cbn [mbind option_bind] in Eb. by rewrite Hsg in Eb. }
    apply (servido_responde _ _ _ _ _ ram sw _ _ _ _ Hr E). by constructor.
Qed.

Lemma rep_sin_residentes next p ap :
  rep_proc sw ram next p ap -> bool_decide (residentes_seg (segmentos p) = []) = a_fuera ap || bool_decide (a_segs ap = []).
Proof.
  unfold rep_proc. intros H. destruct (a_fuera ap); cbn [orb].
  - apply bool_decide_eq_true. induction H as [|seg sg segs sgs (_ & _ & _ & _ & Hb & _) _ IH]; [done|].
    by rewrite residentes_seg_cons, Hb, Z.eqb_refl.
  - destruct H as [|seg sg segs sgs (_ & _ & _ & _ & Hb & _) _]; [done|].
    rewrite residentes_seg_cons. destruct (Z.eqb_spec (s_base seg) NEG1); [done|]. by rewrite !bool_decide_eq_false_2.
Qed.

Lemma servido_finalizar q :
  admisible sms bs a (PFinalizar q) -> pendiente m s (enviar_finalizar_proceso_memory q) resto ->
  servido s sms bs m a (PFinalizar q) resto (manejar_finalizar_proceso s).
Proof.
  intros Hq Hp. pose proof (rep_inv _ _ _ _ _ _ _ Hr) as Hi.
  destruct (finalizar_proceso_correcto m ram s q resto Hi Hq Hp) as [Hno Hsi].
  destruct (a_procesos a !! q) as [ap|] eqn:Eq.
  - destruct (rep_buscar _ _ _ _ _ _ _ Hr q ap Eq) as (k & p & Hk & Hkp & Hpq & Hrp).
    destruct (Hsi k p Hk Hkp) as (m' & E & Hi' & Hps & _ & Hsal & Hma & He).
    eexists m', ram, sw, _, _. split; [exact E|]. split; [by apply ap_finalizar|]. split; [|split; [|done]].
    + pose proof (rep_quita s sms bs m m' a ram ram sw sw Hr (suspendible_marco m' ram Hi' (ma_swap _ _ Hma) (ma_reserva _ _ Hma))
        (marco_mismo _ _ Hma) eq_refl) as H. rewrite (ma_reserva _ _ Hma) in H.
      specialize (H (Z.le_refl _) ltac:(done) k p Hkp Hps eq_refl).
      rewrite (rep_tam _ _ _ _ _ Hrp), Hpq, Z.sub_diag, Z.sub_0_r in H. exact H.
    + rewrite Hsal, (rep_sin_residentes _ _ _ Hrp). unfold aviso_liberada. rewrite (re_sched _ _ _ _ _ _ _ Hr).
      destruct (Z.geb_spec s 0); [|lia]. by destruct (a_fuera ap || bool_decide (a_segs ap = [])).
  - assert (En : procesos_buscar q (procesos m) = None) by by apply (rep_buscar_no _ _ _ _ _ _ _ Hr).
    apply (servido_responde _ _ _ _ _ ram sw _ _ _ _ Hr (Hno En)). by constructor.
Qed.

(** *** To Swap and back *)

Lemma ajenos_mismos k ps : ajenos_intactos k ps ram ram.
Proof. by intros k' p' seg _ _ _ _. Qed.

Lemma rep_en_ram next p ap :
  rep_proc sw ram next p ap -> a_fuera ap = false -> Forall (fun seg => s_base seg <> NEG1) (segmentos p).
Proof.
  unfold rep_proc. intros H Hf. rewrite Hf in H. apply Forall_lookup. intros i seg Hseg.
  by destruct (Forall2_lookup_l _ _ _ _ _ H Hseg) as (sg & _ & _ & _ & _ & _ & ? & _).
Qed.

Lemma servido_suspender q :
  admisible sms bs a (PSuspender q) -> pendiente m s (enviar_suspender_proceso q) resto ->
  servido s sms bs m a (PSuspender q) resto (manejar_suspender_proceso s).
Proof.
  intros (Hq & Hram & Hroom) Hp. pose proof (re_su _ _ _ _ _ _ _ Hr) as Hsu.
  destruct (a_procesos a !! q) as [ap|] eqn:Eq.
  - specialize (Hroom ap eq_refl). specialize (Hram ap Eq).
    destruct (rep_buscar _ _ _ _ _ _ _ Hr q ap Eq) as (k & p & Hk & Hkp & Hpq & Hrp).
    pose proof (rep_bloques_de _ _ _ _ _ bs Hrp) as Hbl. pose proof (re_bloques _ _ _ _ _ _ _ Hr) as Hnb.
    pose proof (suspender_ok m ram sw s q resto k p Hsu Hq Hp Hk Hkp (re_swap _ _ _ _ _ _ _ Hr) (rep_en_ram _ _ _ Hrp Hram)) as H.
    rewrite (re_bs _ _ _ _ _ _ _ Hr), Hbl in H. destruct H as (m' & sw' & segs' & E & Hsu' & Hsusp & Hps & _ & Hblk & Hcon & Hcfg & Hsal & Hc & Hnext & Htot & Hprog & He & Hub); [lia|].
    assert (Hpos : 0 <= a_n_bloques bs ap).
    { apply suma_Z_nonneg, Forall_fmap, Forall_forall. intros sg _. cbn. apply n_bloques_pos; [lia|].
      pose proof (sok_bs sw (sl_ok _ _ (su_swap _ _ _ Hsu))) as Hb. rewrite (re_bs _ _ _ _ _ _ _ Hr) in Hb. lia. }
    set (p' := con_segmentos segs' p) in *.
    assert (Hrp2 : rep_proc sw' ram (next_block (m_reserva m')) p' (AProc true (a_segs ap))).
    { unfold rep_proc in *. rewrite Hram in Hrp. cbn [a_fuera a_segs segmentos p' con_segmentos].
      apply Forall2_same_length_lookup. split; [rewrite <-(Forall2_length _ _ _ Hsusp); by eapply Forall2_length|].
      intros i seg' sg Hi' Hsg. destruct (Forall2_lookup_r _ _ _ _ _ Hsusp Hi') as (seg & Hseg & F1 & F2 & F3 & d & F4 & F5).
      pose proof (Forall2_lookup_lr _ _ _ _ _ _ Hrp Hseg Hsg) as (G1 & G2 & G3 & G4 & G5 & G6).
      rewrite F4 in G6. injection G6 as ->. pose proof (Forall_lookup_1 _ _ _ _ Hub Hi') as Hu.
      split; [congruence|]. split; [congruence|]. split; [congruence|]. split; [apply Hu|]. split; [done|]. split; [done|].
      by rewrite Hc, (re_bs _ _ _ _ _ _ _ Hr). }
    exists m', ram, sw', (Almacen (con_proceso q (AProc true (a_segs ap)) a) (a_libre a + a_tam ap) (a_bloques a - a_n_bloques bs ap)),
      [enviar_ok SUSPENDER_PROCESO].
    split; [exact E|]. split; [by apply ap_suspender|]. split; [|done].
    pose proof (rep_reemplaza s sms bs m m' a ram ram sw sw' Hr Hsu' ltac:(by split) Hc) as H. rewrite Hnext in H.
    rewrite Hnext in Hrp2. specialize (H ltac:(lia) Hblk k p p' _ Hkp Hps eq_refl (ajenos_mismos _ _) Hrp2).
    rewrite (rep_tam _ _ _ _ _ Hrp), (rep_tam _ _ _ _ _ Hrp2), Hram, Hpq in H. cbn [a_fuera] in H.
    erewrite almacen_igual; [exact H|lia|lia].
  - assert (En : procesos_buscar q (procesos m) = None) by by apply (rep_buscar_no _ _ _ _ _ _ _ Hr).
    apply (servido_responde _ _ _ _ _ ram sw _ _ _ (enviar_ok SUSPENDER_PROCESO) Hr); [|by constructor].
    unfold manejar_suspender_proceso. rewrite (st_bind_ok _ _ _ _ _ (leer_suspender m q s resto Hq Hp)).
    by rewrite (st_bind_ok _ _ _ _ _ (buscar_proceso_None q (consumido s resto m) En)).
Qed.

Lemma rep_fuera next p ap :
  rep_proc sw ram next p ap -> a_fuera ap = true ->
  fuera (segmentos p) /\ Forall2 (guardado sw) (segmentos p) (snd <$> a_segs ap).
Proof.
  unfold rep_proc. intros H Hf. rewrite Hf in H. split.
  - apply Forall_lookup. intros i seg Hseg. destruct (Forall2_lookup_l _ _ _ _ _ H Hseg) as (sg & _ & _ & Hl & _ & _ & Hb & _).
    split; [done|lia].
  - apply Forall2_fmap_r. eapply Forall2_impl; [exact H|]. by intros seg sg (_ & _ & _ & _ & _ & Hg & _).
Qed.

Lemma rep_de_vuelta ram' next p ap bases :
  rep_proc sw ram next p ap -> length bases = length (segmentos p) ->
  Forall2 (fun seg d => s_base seg <> NEG1 /\ leer_buffer ram' (s_base seg) (s_limite seg) = Some d)
    (en_bases (segmentos p) bases) (snd <$> a_segs ap) ->
  rep_proc sw ram' next (con_segmentos (en_bases (segmentos p) bases) p) (AProc false (a_segs ap)).
Proof.
  unfold rep_proc, en_bases. intros H Hlen H2. cbn [a_fuera a_segs con_segmentos segmentos]. apply Forall2_fmap_r in H2.
  apply Forall2_same_length_lookup. split; [by eapply Forall2_length|]. intros i seg' sg Hi' Hsg.
  pose proof (Forall2_lookup_lr _ _ _ _ _ _ H2 Hi' Hsg) as [Hb Hl]. rewrite lookup_zip_with in Hi'.
  destruct (segmentos p !! i) as [seg|] eqn:Hseg; cbn [mbind option_bind] in Hi'; [|done].
  destruct (bases !! i); cbn [mbind option_bind] in Hi'; [|done]. injection Hi' as <-.
  pose proof (Forall2_lookup_lr _ _ _ _ _ _ H Hseg Hsg) as (G1 & G2 & G3 & G4 & _). done.
Qed.

Lemma servido_des_suspender q :
  admisible sms bs a (PDesSuspender q) -> pendiente m s (enviar_des_suspender_proceso q) resto ->
  servido s sms bs m a (PDesSuspender q) resto (manejar_des_suspender_proceso s).
Proof.
  intros (Hq & Hout) Hp. pose proof (re_su _ _ _ _ _ _ _ Hr) as Hsu.
  destruct (a_procesos a !! q) as [ap|] eqn:Eq.
  - specialize (Hout ap eq_refl). destruct (rep_buscar _ _ _ _ _ _ _ Hr q ap Eq) as (k & p & Hk & Hkp & Hpq & Hrp).
    destruct (rep_fuera _ _ _ Hrp Hout) as [Hf Hg].
    pose proof (des_suspender_ok m ram sw s q resto k p _ Hsu Hq Hp Hk Hkp (re_swap _ _ _ _ _ _ _ Hr) Hf Hg) as H.
    destruct (asignar_todos _ (bloques_libres m) (s_limite <$> segmentos p)) as [[bases l']|] eqn:Eas.
    + destruct H as (m' & ram' & E & Hi' & Hlen & Hps & Hd & Haj & _ & Hsal & Hma & He & _).
      set (p' := con_segmentos (en_bases (segmentos p) bases) p) in *.
      pose proof (rep_de_vuelta ram' _ p ap bases Hrp Hlen Hd) as Hrp2. fold p' in Hrp2.
      assert (Hrep : rep s sms bs m' (Almacen (con_proceso q (AProc false (a_segs ap)) a) (a_libre a - a_tam ap) (a_bloques a)) ram' sw).
      { pose proof (rep_reemplaza s sms bs m m' a ram ram' sw sw Hr
          (suspendible_marco m' ram' Hi' (ma_swap _ _ Hma) (ma_reserva _ _ Hma)) (marco_mismo _ _ Hma) eq_refl) as H.
        rewrite (ma_reserva _ _ Hma) in H. specialize (H (Z.le_refl _) ltac:(done) k p p' _ Hkp Hps eq_refl Haj Hrp2).
        rewrite (rep_tam _ _ _ _ _ Hrp), (rep_tam _ _ _ _ _ Hrp2), Hout, Hpq in H. cbn [a_fuera] in H.
        change (a_tam (AProc false (a_segs ap))) with (a_tam ap) in H. erewrite almacen_igual; [exact H|lia|lia]. }
      exists m', ram', sw, (Almacen (con_proceso q (AProc false (a_segs ap)) a) (a_libre a - a_tam ap) (a_bloques a)),
        [enviar_ok DES_SUSPENDER_PROCESO].
      split; [exact E|]. split; [|done]. apply ap_des_suspender; [done|].
      pose proof (rep_libre_no_neg _ _ _ _ _ _ _ Hrep). cbn in *. lia.
    + destruct H as (m' & E & Hi' & Hps & _ & Hsal & Hma & He).
      exists m', ram, sw, a, [enviar_ok SEGMENTATION_FAULT]. split; [exact E|]. split; [|split; [|done]].
      * apply (ap_des_suspender_sin_lugar _ _ _ _ ap); [done|]. intros Hnil. unfold rep_proc in Hrp. rewrite Hnil in Hrp.
        apply Forall2_nil_inv_r in Hrp. by rewrite Hrp in Eas.
      * pose proof (rep_reemplaza s sms bs m m' a ram ram sw sw Hr
          (suspendible_marco m' ram Hi' (ma_swap _ _ Hma) (ma_reserva _ _ Hma)) (marco_mismo _ _ Hma) eq_refl) as H.
        rewrite (ma_reserva _ _ Hma) in H. specialize (H (Z.le_refl _) ltac:(done) k p p ap Hkp).
        rewrite list_insert_id, Hpq in H by done. specialize (H Hps eq_refl (ajenos_mismos _ _) Hrp).
        rewrite Z.sub_diag, Z.sub_0_r in H. replace (a_libre a + t_res p - t_res p) with (a_libre a) in H by lia.
        unfold con_proceso in H. rewrite insert_id in H by done. by destruct a.
  - assert (En : procesos_buscar q (procesos m) = None) by by apply (rep_buscar_no _ _ _ _ _ _ _ Hr).
    apply (servido_responde _ _ _ _ _ ram sw _ _ _ (enviar_ok DES_SUSPENDER_PROCESO) Hr); [|by constructor].
    unfold manejar_des_suspender_proceso. rewrite (st_bind_ok _ _ _ _ _ (leer_des_suspender m q s resto Hq Hp)).
    by rewrite (st_bind_ok _ _ _ _ _ (buscar_proceso_None q (consumido s resto m) En)).
Qed.

(** *** A new segment *)

Lemma rep_agregar sw' ram' next p ap id base tam datos :
  rep_proc sw' ram' next p ap -> a_fuera ap = false -> es_u32 id -> base <> NEG1 ->
  leer_buffer ram' base tam = Some datos -> Z.of_nat (length datos) = tam ->
  rep_proc sw' ram' next (agregar_seg (Segmento id base tam 0) p) (AProc false (a_segs ap ++ [(id, datos)])).
Proof.
  unfold rep_proc. intros H Hf Hid Hb Hd Hl. rewrite Hf in H. cbn. apply Forall2_app; [done|]. constructor; [|done].
  by do 4 (split; [done|]).
Qed.

(** The bytes of the new segment, in RAM. *)
Lemma nuevo_en_ram m' ram' k ps p id base tam :
  mem_inv m' ram' -> procesos m' = alter (agregar_seg (Segmento id base tam 0)) k ps -> ps !! k = Some p -> base <> NEG1 ->
  0 <= tam -> exists datos, leer_buffer ram' base tam = Some datos /\ Z.of_nat (length datos) = tam.
Proof.
  intros Hi Hps Hk Hb Ht.
  destruct (residente_en_ram m' ram' k (agregar_seg (Segmento id base tam 0) p) (Segmento id base tam 0) Hi) as (B1 & B2 & B3).
  - by rewrite Hps, list_lookup_alter_eq, Hk.
  - cbn. apply elem_of_app. right. by apply list_elem_of_singleton.
  - done.
  - cbn in B1, B2, B3. destruct (leer_buffer ram' base tam) as [d|] eqn:Ed.
    + exists d. split; [done|]. by apply (length_leer_buffer ram' base tam d).
    + unfold leer_buffer in Ed. destruct (Z.leb_spec (base + tam) (Z.of_nat (length ram'))); [done|lia].
Qed.

Lemma conserva_pids ram' ps : conserva ram ram' (procesos m) ps -> pid <$> ps = pid <$> procesos m.
Proof. intros H. symmetry. induction H as [|p p' l l' (Hp & _) _ IH]; [done|]. cbn. by rewrite Hp, IH. Qed.

Lemma conserva_rep ram' next p p' ap :
  rep_proc sw ram next p ap -> Forall2 (mismo_contenido ram ram') (segmentos p) (segmentos p') -> rep_proc sw ram' next p' ap.
Proof.
  unfold rep_proc. intros H Hc. apply Forall2_same_length_lookup.
  split; [rewrite <-(Forall2_length _ _ _ Hc); by eapply Forall2_length|]. intros i seg' sg Hi' Hsg.
  destruct (Forall2_lookup_r _ _ _ _ _ Hc Hi') as (seg & Hseg & C1 & C2 & C3 & C4 & C5).
  pose proof (Forall2_lookup_lr _ _ _ _ _ _ H Hseg Hsg) as (H1 & H2 & H3 & H4 & H5).
  split; [congruence|]. split; [congruence|]. split; [congruence|]. split; [congruence|]. destruct (a_fuera ap).
  - destruct H5 as (E1 & [G1 G2 G3 G4 G5] & E3 & E4). split; [by apply C4|]. split; [|split; [by rewrite C3|by rewrite C2, C3]].
    split; rewrite ?C2, ?C3; try done. unfold guardado_desde in *. by rewrite C2, C3.
  - destruct H5 as (E1 & E2). split; [tauto|]. rewrite C2, C5 by done. exact E2.
Qed.

Lemma conserva_reps ram' ps :
  conserva ram ram' (procesos m) ps ->
  map_Forall2 (fun _ => rep_proc sw ram' (next_block (m_reserva m))) (por_clave pid ps) (a_procesos a) /\
  suma_Z (t_res <$> ps) = suma_Z (t_res <$> procesos m).
Proof.
  intros Hc. pose proof (re_pids _ _ _ _ _ _ _ Hr) as Hd.
  assert (Hd' : claves_distintas pid ps) by (unfold claves_distintas; by rewrite (conserva_pids ram' ps Hc)).
  assert (Hp : forall k p p', procesos m !! k = Some p -> ps !! k = Some p' ->
     exists ap, a_procesos a !! pid p = Some ap /\ pid p' = pid p /\ rep_proc sw ram (next_block (m_reserva m)) p ap /\
       rep_proc sw ram' (next_block (m_reserva m)) p' ap).
  { intros k p p' Hk Hk'. destruct (rep_k _ _ _ _ _ _ _ Hr k p Hk) as (ap & Ha & Hrp).
    destruct (Forall2_lookup_lr _ _ _ _ _ _ Hc Hk Hk') as (C1 & _ & _ & C4).
    exists ap. split; [done|]. split; [done|]. split; [done|]. by apply (conserva_rep ram' _ p). }
  split.
  - intros q. pose proof (re_procs _ _ _ _ _ _ _ Hr q) as Hq. destruct (por_clave pid ps !! q) as [p'|] eqn:E.
    + apply por_clave_lookup in E as [Hin Hpq]; [|done]. apply list_elem_of_lookup in Hin as (k & Hk').
      destruct (Forall2_lookup_r _ _ _ _ _ Hc Hk') as (p & Hk & _).
      destruct (Hp k p p' Hk Hk') as (ap & Ha & E1 & _ & Hrp'). rewrite <-Hpq, E1, Ha. by constructor.
    + rewrite por_clave_None, (conserva_pids ram' ps Hc), <-por_clave_None in E. rewrite E in Hq.
      destruct (a_procesos a !! q); [by inversion Hq|constructor].
  - f_equal. apply list_eq. intros k. rewrite !list_lookup_fmap.
    pose proof (Forall2_length _ _ _ Hc) as Hlen. destruct (procesos m !! k) as [p|] eqn:Hk.
    + destruct (lookup_lt_is_Some_2 ps k) as (p' & Hk'); [rewrite <-Hlen; by eapply lookup_lt_Some|].
      destruct (Hp k p p' Hk Hk') as (ap & Ha & E1 & Hrp & Hrp'). rewrite Hk'. cbn.
      by rewrite (rep_tam _ _ _ _ _ Hrp), (rep_tam _ _ _ _ _ Hrp').
    + apply lookup_ge_None in Hk. by rewrite (lookup_ge_None_2 ps k) by lia.
Qed.

(** The segment is added, the others having moved or not. *)
Lemma rep_solicitado m' ram' k ps p id base tam q ap :
  mem_inv m' ram' -> marco m m' -> conserva ram ram' (procesos m) ps ->
  procesos m' = alter (agregar_seg (Segmento id base tam 0)) k ps -> procesos_buscar q (procesos m) = Some k ->
  procesos m !! k = Some p -> a_procesos a !! q = Some ap -> a_fuera ap = false -> es_u32 id -> base <> NEG1 -> 0 <= tam ->
  exists datos, Z.of_nat (length datos) = tam /\
    rep s sms bs m' (Almacen (con_proceso q (AProc false (a_segs ap ++ [(id, datos)])) a) (a_libre a - tam) (a_bloques a)) ram' sw.
Proof.
  intros Hi' Hma Hc Hps Hk Hkp Hap Hf Hid Hb Ht. pose proof (re_pids _ _ _ _ _ _ _ Hr) as Hd.
  destruct (Forall2_lookup_l _ _ _ _ _ Hc Hkp) as (p1 & Hk1 & C1 & _ & _ & C4).
  destruct (nuevo_en_ram m' ram' k ps p1 id base tam Hi' Hps Hk1 Hb Ht) as (datos & Hda & Hl).
  destruct (procesos_buscar_Some _ _ _ Hk) as (p2 & Hk2 & Hpq). assert (p2 = p) as -> by congruence. subst q.
  destruct (rep_k _ _ _ _ _ _ _ Hr k p Hkp) as (ap2 & Hap2 & Hrp). assert (ap2 = ap) as -> by congruence.
  pose proof (conserva_rep ram' _ p p1 ap Hrp C4) as Hrp1. destruct (conserva_reps ram' ps Hc) as [Hreps Hsum].
  exists datos. split; [done|].
  pose proof (rep_de s sms bs m m' a ram ram' sw sw Hr (suspendible_marco m' ram' Hi' (ma_swap _ _ Hma) (ma_reserva _ _ Hma))
    (marco_mismo _ _ Hma) eq_refl (con_proceso (pid p) (AProc false (a_segs ap ++ [(id, datos)])) a)) as H.
  rewrite (ma_reserva _ _ Hma), Hps, (alter_conocido _ _ k p1 Hk1) in H.
  assert (Hd' : claves_distintas pid ps) by (unfold claves_distintas; by rewrite (conserva_pids ram' ps Hc)).
  rewrite (por_clave_insert pid ps k p1 (agregar_seg (Segmento id base tam 0) p1) Hd' Hk1 eq_refl),
    (suma_en_insert t_res ps k p1 _ Hk1), Hsum, C1 in H.
  erewrite almacen_igual; [apply H| |].
  - unfold claves_distintas. by rewrite (claves_insert pid ps k p1).
  - apply map_Forall2_insert_2; [|done]. by apply rep_agregar.
  - rewrite (rep_tam _ _ _ _ _ Hrp1), Hf. rewrite (rep_tam sw ram' (next_block (m_reserva m)) _ (AProc false (a_segs ap ++ [(id, datos)])))
      by by apply rep_agregar.
    cbn [a_fuera]. unfold a_tam. cbn [a_segs]. rewrite fmap_app, suma_Z_app. cbn. lia.
  - lia.
Qed.

(** Whether Memory will compact to serve the request. *)
Definition compacta (p : pedido) : bool :=
  match p with
  | PSolicitar q _ tam =>
      (tam <=? sms) && (if procesos_buscar q (procesos m) is Some _ then true else false) &&
      forallb (fun b => b_tam b <? tam) (bloques_libres m) && (tam <=? total (bloques_libres m))
  | _ => false
  end.
(** What the Scheduler sends besides the request: its acknowledgement. *)
Definition acuse (p : pedido) : list byte := if compacta p then enviar_ok INICIAR_COMPACTACION else [].

Lemma sin_segmentos_rep : procesos m ≫= segmentos = [] -> forall q ap, a_procesos a !! q = Some ap -> a_segs ap = [].
Proof.
  intros Hno q ap Hq. destruct (rep_buscar _ _ _ _ _ _ _ Hr q ap Hq) as (k & p & _ & Hk & _ & Hrp).
  assert (Hp : segmentos p = []).
  { destruct (segmentos p) as [|seg l] eqn:E; [done|]. exfalso. apply (not_elem_of_nil seg). rewrite <-Hno.
    apply list_elem_of_bind. exists p. split; [rewrite E; left|by eapply list_elem_of_lookup_2]. }
  unfold rep_proc in Hrp. rewrite Hp in Hrp. by apply Forall2_nil_inv_l in Hrp.
Qed.

Lemma servido_solicitar q id tam :
  admisible sms bs a (PSolicitar q id tam) ->
  pendiente m s (enviar_solicitar_segmento q id tam) (acuse (PSolicitar q id tam) ++ resto) ->
  servido_con (if compacta (PSolicitar q id tam) then 3 else 1) s sms bs m a (PSolicitar q id tam) resto (manejar_solicitar_segmento s).
Proof.
  intros (Hq & Hid & Ht & Ht0 & Hram) Hp. pose proof (rep_inv _ _ _ _ _ _ _ Hr) as Hi.
  assert (Hpet : peticion_scheduler m s (enviar_solicitar_segmento q id tam) (acuse (PSolicitar q id tam) ++ resto))
    by (split; [apply Hr|done|apply Hr|done]).
  assert (Es : u32 (segment_max_size (config_memory m)) = sms)
    by (rewrite (re_sms _ _ _ _ _ _ _ Hr), u32_small by (unfold es_u32; lia); done).
  pose proof (re_libre _ _ _ _ _ _ _ Hr) as Hl. pose proof (rep_buscar_no _ _ _ _ _ _ _ Hr q) as Hbn.
  unfold acuse in Hp, Hpet. unfold compacta in *.
  destruct (Z.leb_spec tam sms) as [Hts|Hts]; cbn [andb] in *.
  2: { apply (servido_responde_con _ _ _ _ _ ram sw _ _ _ (enviar_ok SEGMENTATION_FAULT) Hr); [|constructor; by left].
       apply (solicitar_negado m ram s q id tam resto Hi Hq Hid Ht Hpet). left. lia. }
  destruct (procesos_buscar q (procesos m)) as [k|] eqn:Ek.
  2: { cbn [andb] in *.
       apply (servido_responde_con _ _ _ _ _ ram sw _ _ _ (enviar_ok SEGMENTATION_FAULT) Hr); [|constructor; right; left; by apply Hbn].
       apply (solicitar_negado m ram s q id tam resto Hi Hq Hid Ht Hpet). by right; left. }
  cbn [andb] in *.
  destruct (Z.leb_spec tam (total (bloques_libres m))) as [Htl|Htl].
  2: { rewrite andb_false_r in Hpet |- *.
       apply (servido_responde_con _ _ _ _ _ ram sw _ _ _ (enviar_ok SEGMENTATION_FAULT) Hr); [|constructor; right; right; lia].
       apply (solicitar_negado m ram s q id tam resto Hi Hq Hid Ht Hpet). right; right. lia. }
  rewrite andb_true_r in Hpet |- *. assert (Htm : tam <= u32 (segment_max_size (config_memory m))) by lia.
  destruct (procesos_buscar_Some _ _ _ Ek) as (p & Hkp & Hpq).
  destruct (a_procesos a !! q) as [ap|] eqn:Eap; [|by pose proof (proj1 Hbn eq_refl)].
  specialize (Hram ap Eap).
  destruct (forallb (fun b => b_tam b <? tam) (bloques_libres m)) eqn:Ef.
  - assert (Hno : forall b, b ∈ bloques_libres m -> b_tam b < tam).
    { intros b Hb. rewrite forallb_forall in Ef. apply Z.ltb_lt, Ef. by apply list_elem_of_In. }
    destruct (decide (procesos m ≫= segmentos = [])) as [Hne|Hne].
    + pose proof (solicitar_sin_segmentos m ram s q id tam _ Hi Hq Hid Ht Hpet k Htm Ek resto Hno ltac:(lia) Hne eq_refl) as E.
      eexists _, ram, sw, a, (AVISOS_COMPACTACION ++ [enviar_ok SEGMENTATION_FAULT]). split; [|done]. split; [exact E|].
      split; [by apply ap_solicitar_sin_segmentos, sin_segmentos_rep|].
      split; [apply (rep_igual _ _ _ m); [done|by eexists _, _]|]. split; [done|]. by apply (entrada_consumido s resto m).
    + destruct (solicitar_compactando m ram s q id tam _ Hi Hq Hid Ht Hpet k Htm Ek resto Hno ltac:(lia) Hne eq_refl)
        as (m' & ram' & ps & base & E & Hi' & Hc & Hb & _ & Hps & Hsal & Hma & He).
      destruct (rep_solicitado m' ram' k ps p id base tam q ap Hi' Hma Hc Hps Ek Hkp Eap Hram Hid Hb ltac:(lia)) as (datos & Hld & Hrep).
      eexists m', ram', sw, _, (AVISOS_COMPACTACION ++ [enviar_respuesta_segmento id base tam]). split; [|done]. split; [exact E|].
      split; [eapply (ap_solicitar sms bs a q ap id tam base datos); [done|done|lia|done|by right]|]. done.
  - assert (exists b, b ∈ bloques_libres m /\ tam <= b_tam b) as (b & Hb & Hbt).
    { destruct (decide (Exists (fun b => tam <= b_tam b) (bloques_libres m))) as [Hex|Hnex]; [by apply Exists_exists|].
      exfalso. apply not_true_iff_false in Ef. rewrite forallb_forall in Ef. apply Ef. intros b Hb%list_elem_of_In.
      apply Z.ltb_lt. destruct (decide (tam <= b_tam b)) as [Hge|]; [|lia]. exfalso. apply Hnex, Exists_exists. by exists b. }
    cbn [app] in Hpet. destruct (solicitar_directa m ram s q id tam resto Hi Hq Hid Ht Hpet k Htm Ek b Hb Hbt)
      as (base & l' & E & Hi' & Hnb & _). set (m' := con_salida _ _ _) in *.
    destruct (rep_solicitado m' ram k (procesos m) p id base tam q ap Hi' ltac:(done) (conserva_refl _ _) eq_refl Ek Hkp Eap Hram Hid Hnb ltac:(lia))
      as (datos & Hld & Hrep).
    eexists m', ram, sw, _, [enviar_respuesta_segmento id base tam]. split; [|done]. split; [exact E|].
    split; [apply (ap_solicitar sms bs a q ap id tam base datos []); [done|done|lia|done|by left]|].
    split; [exact Hrep|]. split; [done|]. apply (entrada_consumido s resto m).
Qed.
End pedidos.

(** ** The thread of the Scheduler *)

Definition manejar (s : Z) (p : pedido) : M unit :=
  match p with
  | PCrear _ _ => manejar_crear_proceso s
  | PSolicitar _ _ _ => manejar_solicitar_segmento s
  | PEliminar _ _ => manejar_eliminar_segmento s
  | PLeer _ _ _ => manejar_lectura_memoria s
  | PEscribir _ _ _ => manejar_escritura_memoria s
  | PSuspender _ => manejar_suspender_proceso s
  | PDesSuspender _ => manejar_des_suspender_proceso s
  | PFinalizar _ => manejar_finalizar_proceso s
  | PEspacio => manejar_obtener_espacio_libre s
  end.

Definition op_de (p : pedido) : op_code :=
  match p with
  | PCrear _ _ => CREAR_PROCESO | PSolicitar _ _ _ => SOLICITAR_SEGMENTO | PEliminar _ _ => ELIMINAR_SEGMENTO
  | PLeer _ _ _ => LECTURA_MEMORIA | PEscribir _ _ _ => ESCRITURA_MEMORIA | PSuspender _ => SUSPENDER_PROCESO
  | PDesSuspender _ => DES_SUSPENDER_PROCESO | PFinalizar _ => FINALIZAR_PROCESO | PEspacio => OBTENER_ESPACIO_LIBRE
  end.

Lemma atender_manejar s p : atender_scheduler s (op_num (op_de p)) = manejar s p.
Proof. by destruct p. Qed.

Lemma pedido_trama sms bs a p : admisible sms bs a p -> exists pl, pedido_bytes_mem p = trama (op_de p) pl.
Proof.
  destruct p as [q path|q id tam|q id|q dir tam|q dir datos|q|q|q|]; cbn [pedido_bytes_mem op_de]; intros Ha.
  - destruct Ha as (Hq & Hpath & _). destruct (protocolo_ok (p := p_crear_proceso) (q, path) (conj Hq Hpath)) as (pl & E & _).
    by exists pl.
  - eexists. apply mensaje3.
  - eexists. apply mensaje2.
  - eexists. apply mensaje3.
  - destruct Ha as (_ & _ & Hd & _). eexists. by apply mensaje_escritura.
  - eexists. apply mensaje1.
  - eexists. apply mensaje1.
  - eexists. apply mensaje1.
  - by exists [].
Qed.

(** A request for a segment is answered with the notices of a compaction when there
    is one. *)
Definition coherente (sms : Z) (m : memoria) (p : pedido) (rs : list (list byte)) : Prop :=
  match p with PSolicitar _ _ _ => length rs = if compacta sms m p then 3%nat else 1%nat | _ => True end.

(** Any request, once its op_code is read. *)
Lemma servido_pedido s sms bs m a ram sw p resto :
  rep s sms bs m a ram sw -> 0 <= s -> 0 < sms < 4294967296 -> admisible sms bs a p ->
  pendiente m s (pedido_bytes_mem p) (acuse sms m p ++ resto) ->
  exists m' ram' sw' a' rs, (manejar s p m = Some (tt, m') /\ apaso sms bs a p rs a' /\ rep s sms bs m' a' ram' sw' /\
    m_salidas m' = m_salidas m ++ (pair s <$> rs) /\ entrada s m' = resto) /\ coherente sms m p rs.
Proof.
  intros Hr Hs Hsms Ha Hp.
  enough (H : match p with PSolicitar _ _ _ => True | _ => servido s sms bs m a p resto (manejar s p) end).
  { destruct p as [q path|q id tam|q id|q dir tam|q dir datos|q|q|q|];
      try (destruct H as (m' & ram' & sw' & a' & rs & H); by exists m', ram', sw', a', rs).
    by eapply servido_solicitar. }
  destruct p; cbn [manejar pedido_bytes_mem] in *; try done.
  - by eapply servido_crear.
  - by eapply servido_eliminar.
  - by eapply servido_leer.
  - by eapply servido_escribir.
  - by eapply servido_suspender.
  - by eapply servido_des_suspender.
  - by eapply servido_finalizar.
  - by eapply servido_espacio.
Qed.

(** The request arrives, with the acknowledgement if one will be needed. *)
Definition llega (s sms : Z) (p : pedido) (m : memoria) : memoria :=
  con_entradas (<[s := pedido_bytes_mem p ++ acuse sms m p]> (m_entradas m)) m.

(** The thread serves the requests in turn: each one is one turn of its loop, from
    its arrival to the last answer. *)
Inductive atendidos (s sms : Z) : memoria -> list pedido -> memoria -> Prop :=
| at_nada m : atendidos s sms m [] m
| at_pedido m p m1 ps m2 :
    (forall n, memory_receptor_scheduler_thread (S n) (llega s sms p m) = memory_receptor_scheduler_thread n m1) ->
    atendidos s sms m1 ps m2 -> atendidos s sms m (p :: ps) m2.

Inductive atraza (sms bs : Z) : almacen -> list pedido -> list (list byte) -> almacen -> Prop :=
| tr_nada a : atraza sms bs a [] [] a
| tr_paso a p rs a1 ps rs' a2 :
    apaso sms bs a p rs a1 -> atraza sms bs a1 ps rs' a2 -> atraza sms bs a (p :: ps) (rs ++ rs') a2.

(** Requests that respect the store whatever it answers. *)
Fixpoint admisibles (sms bs : Z) (a : almacen) (ps : list pedido) : Prop :=
  match ps with
  | [] => True
  | p :: ps => admisible sms bs a p /\ forall rs a', apaso sms bs a p rs a' -> admisibles sms bs a' ps
  end.

Lemma turno_atendido s sms bs m a ram sw p :
  rep s sms bs m a ram sw -> 0 <= s -> 0 < sms < 4294967296 -> admisible sms bs a p ->
  exists m' ram' sw' a' rs,
    (forall n, memory_receptor_scheduler_thread (S n) (llega s sms p m) = memory_receptor_scheduler_thread n m') /\
    apaso sms bs a p rs a' /\ rep s sms bs m' a' ram' sw' /\ m_salidas m' = m_salidas m ++ (pair s <$> rs) /\
    coherente sms m p rs.
Proof.
  intros Hr Hs Hsms Ha. destruct (pedido_trama sms bs a p Ha) as (pl & Epl).
  set (m0 := llega s sms p m). set (m1 := consumido s (cuerpo (pedido_bytes_mem p) ++ acuse sms m p) m0).
  assert (Hr1 : rep s sms bs m1 a ram sw).
  { apply (rep_igual s sms bs m); [done|]. exists (m_entradas m1), (m_salidas m). by destruct m. }
  destruct (servido_pedido s sms bs m1 a ram sw p [] Hr1 Hs Hsms Ha) as (m' & ram' & sw' & a' & rs & (E & Hpaso & Hr' & Hsal & _) & Hco).
  { unfold pendiente, m1. rewrite entrada_consumido, app_nil_r. done. }
  exists m', ram', sw', a', rs. split; [|done]. intros n. cbn [memory_receptor_scheduler_thread]. unfold mbind at 1, ST_bind at 1, st_gets at 1.
  fold m0. change (m_conexiones m0) with (m_conexiones m). rewrite (re_sched _ _ _ _ _ _ _ Hr).
  destruct (Z.eqb_spec s (-1)); [lia|]. fold m0.
  assert (Ec : recibir_de s (fun b => Some (recibir_codigo_operacion b)) m0 = Some (op_num (op_de p), m1)).
  { apply recibir_de_ok. unfold m0, llega, entrada. cbn. rewrite lookup_insert_eq. cbn. rewrite Epl, codigo_trama, cuerpo_trama.
    by rewrite <-app_assoc. }
  rewrite (st_bind_ok _ _ _ _ _ Ec). pose proof (op_num_range (op_de p)).
  destruct (Z.eqb_spec (i32 (op_num (op_de p))) (-1)) as [Ei|_]; [rewrite i32_small in Ei by (unfold es_int; lia); lia|].
  rewrite atender_manejar. by rewrite (st_bind_ok _ _ _ _ _ E).
Qed.

(** Every session that the store admits is served. *)
Lemma sesion_atendida s sms bs ps m a ram sw :
  rep s sms bs m a ram sw -> 0 <= s -> 0 < sms < 4294967296 -> admisibles sms bs a ps ->
  exists m' ram' sw' a' rs, atendidos s sms m ps m' /\ atraza sms bs a ps rs a' /\
    rep s sms bs m' a' ram' sw' /\ m_salidas m' = m_salidas m ++ (pair s <$> rs).
Proof.
  intros Hr Hs Hsms. revert m a ram sw Hr. induction ps as [|p ps IH]; intros m a ram sw Hr Hadm.
  { exists m, ram, sw, a, []. split; [constructor|]. split; [constructor|]. by rewrite app_nil_r. }
  destruct Hadm as [Ha Hadm].
  destruct (turno_atendido s sms bs m a ram sw p Hr Hs Hsms Ha) as (m1 & ram1 & sw1 & a1 & rs & E & Hp & Hr1 & Hs1 & _).
  destruct (IH m1 a1 ram1 sw1 Hr1 (Hadm rs a1 Hp)) as (m2 & ram2 & sw2 & a2 & rs' & E2 & Ht & Hr2 & Hs2).
  exists m2, ram2, sw2, a2, (rs ++ rs'). split; [by econstructor|]. split; [by econstructor|]. split; [done|].
  by rewrite Hs2, Hs1, fmap_app, app_assoc.
Qed.

(** *** The first position that satisfies a test *)

Lemma indice_de_prefijo {A} (f : A -> bool) l l' i : indice_de f l = Some i -> indice_de f (l ++ l') = Some i.
Proof.
  revert i. induction l as [|x l IH]; intros i; [done|]. cbn [app indice_de]. destruct (f x); [done|].
  destruct (indice_de f l) as [j|]; [|done]. by rewrite (IH j).
Qed.

Lemma indice_de_cambio {A} (f : A -> bool) l i x y :
  l !! i = Some x -> f y = f x -> indice_de f (<[i := y]> l) = indice_de f l.
Proof.
  revert i. induction l as [|z l IH]; intros [|i] Hi E; [done..|injection Hi as ->; cbn; by rewrite E|].
  change (<[S i := y]> (z :: l)) with (z :: <[i := y]> l). cbn [indice_de]. by rewrite (IH i Hi E).
Qed.

(** *** What is written stays *)

(** Requests that leave the bytes of process [q] alone: they may still give it more
    segments, suspend it, bring it back or compact. *)
Definition ajeno_a (q : Z) (p : pedido) : Prop :=
  match p with
  | PCrear q' _ | PEliminar q' _ | PEscribir q' _ _ | PFinalizar q' => q' <> q
  | _ => True
  end.

Definition contiene (sms : Z) (q dir : Z) (datos : list byte) (a : almacen) : Prop :=
  exists ap i sg, a_procesos a !! q = Some ap /\ indice_de (fun sg => sg.1 =? dir / sms) (a_segs ap) = Some i /\
    a_segs ap !! i = Some sg /\ leer_buffer sg.2 (dir mod sms) (Z.of_nat (length datos)) = Some datos.

Lemma contiene_mantiene sms q dir datos a a' ap' :
  contiene sms q dir datos a -> a_procesos a' !! q = Some ap' ->
  (forall ap, a_procesos a !! q = Some ap -> a_segs ap `prefix_of` a_segs ap') -> contiene sms q dir datos a'.
Proof.
  intros (ap & i & sg & Hq & Hi & Hsg & Hl) Hq' Hpre. destruct (Hpre ap Hq) as [l E].
  exists ap', i, sg. split; [done|]. rewrite E. split; [by apply indice_de_prefijo|]. split; [by apply lookup_app_l_Some|done].
Qed.

Lemma paso_ajeno sms bs q dir datos a p rs a' :
  apaso sms bs a p rs a' -> ajeno_a q p -> contiene sms q dir datos a -> contiene sms q dir datos a'.
Proof.
  intros H Hp Hc. pose proof Hc as (ap & _ & _ & Hq & _).
  assert (Hotro : forall q' ap' l b, q' <> q -> contiene sms q dir datos (Almacen (con_proceso q' ap' a) l b)).
  { intros q' ap' l b Hne. apply (contiene_mantiene _ _ _ _ a _ ap); [done|cbn; unfold con_proceso; by rewrite lookup_insert_ne|].
    intros ap2 E. by simplify_eq. }
  assert (Hsi : forall q' ap' apq l b, a_procesos a !! q' = Some apq -> a_segs apq `prefix_of` a_segs ap' ->
    contiene sms q dir datos (Almacen (con_proceso q' ap' a) l b)).
  { intros q' ap' apq l b E Hpre. destruct (decide (q' = q)) as [->|Hne]; [|by apply Hotro].
    apply (contiene_mantiene _ _ _ _ a _ ap'); [done|cbn; unfold con_proceso; by rewrite lookup_insert_eq|].
    intros ap2 E2. by simplify_eq. }
  destruct H; cbn in Hp; try done.
  - by apply Hotro.
  - eapply Hsi; [done|cbn; by apply prefix_app_r].
  - by apply Hotro.
  - revert H. unfold a_escribir, a_segmento. destruct (a_procesos a !! q0) as [ap0|]; cbn; [|done].
    destruct (a_fuera ap0); cbn; [done|]. destruct (indice_de _ _); cbn; [|done]. destruct (a_segs ap0 !! _); cbn; [|done].
    destruct (escribir_buffer _ _ _); cbn; [|done]. intros [= <-]. by apply Hotro.
  - by eapply Hsi.
  - by eapply Hsi.
  - apply (contiene_mantiene _ _ _ _ a _ ap); [done|cbn; by rewrite lookup_delete_ne|].
    intros ap2 E. by simplify_eq.
Qed.

Lemma traza_ajena sms bs q dir datos a ps rs a' :
  atraza sms bs a ps rs a' -> Forall (ajeno_a q) ps -> contiene sms q dir datos a -> contiene sms q dir datos a'.
Proof. induction 1 as [|????????? IH]; [done|]. intros [Hp Hps]%Forall_cons Hc. by eapply IH, paso_ajeno. Qed.

Lemma atraza_app sms bs a ps qs rs a' :
  atraza sms bs a (ps ++ qs) rs a' ->
  exists r1 r2 a1, atraza sms bs a ps r1 a1 /\ atraza sms bs a1 qs r2 a' /\ rs = r1 ++ r2.
Proof.
  revert a rs. induction ps as [|p ps IH]; intros a rs H.
  - exists [], rs, a. by split; [constructor|].
  - inversion H as [|? ? r b ? r' ? Hp Ht]; subst. destruct (IH _ _ Ht) as (r1 & r2 & c & H1 & H2 & ->).
    exists (r ++ r1), r2, c. split; [by econstructor|]. by rewrite app_assoc.
Qed.

(** A write that is accepted leaves its bytes where a read will look for them. *)
Lemma escrito_contiene sms q dir datos a a' :
  0 < sms -> a_escribir sms a q dir datos = Some a' -> contiene sms q dir datos a'.
Proof.
  intros Hsms. unfold a_escribir, a_segmento. destruct (a_procesos a !! q) as [ap|] eqn:Eq; cbn; [|done].
  destruct (a_fuera ap); cbn; [done|]. destruct (indice_de _ (a_segs ap)) as [i|] eqn:Ei; cbn; [|done].
  destruct (a_segs ap !! i) as [sg|] eqn:Es; cbn; [|done].
  destruct (escribir_buffer sg.2 (dir mod sms) datos) as [nuevos|] eqn:En; cbn; [|done]. intros [= <-].
  pose proof (Z.mod_pos_bound dir sms Hsms).
  eexists _, i, (sg.1, nuevos). unfold con_proceso. cbn. rewrite lookup_insert_eq. split; [done|].
  split; [|split; [by apply list_lookup_insert_eq, (lookup_lt_Some _ _ sg)|apply (leer_escribir sg.2); [lia|done]]].
  cbn. rewrite <-Ei. by apply (indice_de_cambio _ _ i sg).
Qed.

(** A read of what a process contains, unless it is in Swap. *)
Lemma contiene_se_lee sms q dir datos a :
  contiene sms q dir datos a ->
  (exists ap, a_procesos a !! q = Some ap /\ a_fuera ap = true) \/ a_leer sms a q dir (Z.of_nat (length datos)) = Some datos.
Proof.
  intros (ap & i & sg & Hq & Hi & Hsg & Hl). destruct (a_fuera ap) eqn:Ef; [left; by exists ap|right].
  unfold a_leer, a_segmento. rewrite Hq. cbn. rewrite Ef, Hi. cbn. rewrite Hsg. done.
Qed.

Lemma lectura_una sms bs a q dir tam rs a' : apaso sms bs a (PLeer q dir tam) rs a' -> exists r, rs = [r].
Proof. inversion 1; by eexists. Qed.

(** C2: Kernel Memory refines the store of segments. From any state that stands for
    a store, the thread of the Scheduler serves every sequence of requests that
    the store admits, each in one turn of its loop; what it answers, in order, is
    what the rules of the store say, and its state stands for the store they
    leave: compactions, suspensions and returns included, no byte of any segment
    is lost. *)
Theorem memoria_refina_almacen s sms bs ps m a ram sw :
  rep s sms bs m a ram sw -> 0 <= s -> 0 < sms < 4294967296 -> admisibles sms bs a ps ->
  exists m' ram' sw' a' rs, atendidos s sms m ps m' /\ atraza sms bs a ps rs a' /\
    rep s sms bs m' a' ram' sw' /\ m_salidas m' = m_salidas m ++ (pair s <$> rs).
Proof. intros Hr Hs Hsms Ha. by apply (sesion_atendida s sms bs ps m a ram sw). Qed.

(** C10: What the Scheduler writes in a process is what it reads. After a write that
    Kernel Memory answers with its ok, whatever is asked next, other segments for
    the same process, other processes, compactions, its suspension and its return
    included, as long as it is not written, shrunk or ended, a read of the same
    range is answered with exactly the bytes written, or refused because the
    process is in Swap at that moment. *)
Theorem lo_escrito_se_lee s sms bs m a ram sw q dir datos ps :
  rep s sms bs m a ram sw -> 0 <= s -> 0 < sms < 4294967296 -> Forall (ajeno_a q) ps ->
  admisibles sms bs a (PEscribir q dir datos :: ps ++ [PLeer q dir (Z.of_nat (length datos))]) ->
  exists m' ram' sw' a' r rs r', rep s sms bs m' a' ram' sw' /\
    atendidos s sms m (PEscribir q dir datos :: ps ++ [PLeer q dir (Z.of_nat (length datos))]) m' /\
    m_salidas m' = m_salidas m ++ (pair s <$> r :: rs ++ [r']) /\
    (r = enviar_ok ESCRITURA_MEMORIA ->
       r' = enviar_respuesta_lectura datos \/
       r' = enviar_ok SEGMENTATION_FAULT /\ exists ap, a_procesos a' !! q = Some ap /\ a_fuera ap = true).
Proof.
  intros Hr Hs Hsms Hps Hadm. destruct (sesion_atendida s sms bs _ m a ram sw Hr Hs Hsms Hadm)
    as (m' & ram' & sw' & a' & rs & Hat & Htr & Hr' & Hsal).
  inversion Htr as [|? ? r0 a1 ? r1 ? Hw Ht]; subst. apply atraza_app in Ht as (r2 & r3 & a2 & Ht2 & Ht3 & ->).
  inversion Ht3 as [|? ? r4 a3 ? r5 ? Hl Ht4]; subst. inversion Ht4; subst. rewrite app_nil_r in Hsal.
  inversion Hw as [| | | | | | | |? ? ? ? Hno|? ? ? ? a1' Hsi| | | | | | | |]; subst.
  - destruct (lectura_una _ _ _ _ _ _ _ _ Hl) as [r' ->]. eexists m', ram', sw', a', _, _, r'. split; [done|]. split; [done|].
    split; [exact Hsal|]. intros E. vm_compute in E. discriminate E.
  - pose proof (traza_ajena sms bs q dir datos a1 ps r2 a2 Ht2 Hps (escrito_contiene sms q dir datos a a1 ltac:(lia) Hsi)) as Hc.
    destruct (contiene_se_lee _ _ _ _ _ Hc) as [Hf|Hle];
    inversion Hl as [| | | | | |? ? ? ? Hn|? ? ? ? d Hd| | | | | | | | | |]; subst.
    + eexists m', ram', sw', a', _, _, _. split; [done|]. split; [done|]. split; [exact Hsal|]. by right.
    + exfalso. destruct Hf as (ap & Hq & Hf). unfold a_leer, a_segmento in Hd. rewrite Hq in Hd. cbn in Hd. by rewrite Hf in Hd.
    + congruence.
    + eexists m', ram', sw', a', _, _, _. split; [done|]. split; [done|]. split; [exact Hsal|]. left. congruence.
Qed.

(** *** A write, a suspension, the return and a read of a process of two bytes *)

Definition mem_de (q : Z) : memoria :=
  let m := mem_con_swap [] [] in
  con_libres [Bloque 0 5]
    (con_procesos [Proceso q registros_cero [Segmento 0 5 2 0] []]
      (con_conexiones (conexiones_set_scheduler_socket 3 (m_conexiones m)) m)).
Definition almacen_de (q : Z) : almacen := Almacen {[q := AProc false [(0, [x06; x07])]]} 5 5.

Lemma mem_de_rep q : es_int q -> rep 3 64 2 (mem_de q) (almacen_de q) ram_ejemplo swap_vacio.
Proof.
  intros Hq. destruct (mem_con_swap_ok [] []) as [[(ds & [[C1 C2 C3 C4 C5] R2 R3 R4] & Hram) H2 _ _] [_ _ H6 H7] H8 H9]. split; try done.
  - split; [|split; [done| |done|done]; split; vm_compute; intuition congruence|done|done]. split.
    + exists ds. split; [|done]. split; [by split|done..].
    + repeat first [apply Forall_nil_2 | apply Forall_cons_2]; try done; unfold es_int; cbn; lia.
    + change (_ ++ _) with [Bloque 0 5; Bloque 5 2]. bloques_ok_concreto.
    + reflexivity.
  - apply NoDup_singleton.
  - change (por_clave _ _) with ({[q := Proceso q registros_cero [Segmento 0 5 2 0] []]} : gmap Z t_contexto_ejecucion).
    change (a_procesos _) with ({[q := AProc false [(0, [x06; x07])]]} : gmap Z aproc).
    apply map_Forall2_insert_2; [|apply map_Forall2_empty]. unfold rep_proc. cbn [segmentos a_segs a_fuera].
    repeat constructor; vm_compute; intuition congruence.
Qed.

Definition mem_refina_ejemplo : memoria := mem_de 1.
Definition almacen_ejemplo : almacen := almacen_de 1.
Definition sesion_ejemplo : list pedido := [PEscribir 1 1 [x0f]; PSuspender 1; PDesSuspender 1; PLeer 1 1 1].

Lemma ejemplo_rep : rep 3 64 2 mem_refina_ejemplo almacen_ejemplo ram_ejemplo swap_vacio.
Proof. apply (mem_de_rep 1). unfold es_int. lia. Qed.

Lemma sesion_ejemplo_admisible : admisibles 64 2 almacen_ejemplo sesion_ejemplo.
Proof.
  split; [split_and!; vm_compute; intuition congruence|]. intros rs a1 H1.
  assert (E1 : a_procesos a1 !! 1 = Some (AProc false [(0, [x06; x0f])]) /\ a_bloques a1 = 5).
  { remember almacen_ejemplo as a0. inversion H1 as [| | | | | | | |? ? ? ? Hn|? ? ? ? ? Hs| | | | | | | |]; subst.
    - vm_compute in Hn. discriminate Hn.
    - vm_compute in Hs. injection Hs as <-. by split. }
  clear H1. destruct E1 as [E Eb]. split.
  { split; [unfold es_int; lia|]. unfold a_en_ram. rewrite E, Eb. split; intros ap [= <-]; [done|vm_compute; congruence]. }
  intros rs2 a2 H2. inversion H2 as [| | | | | | | | | |? ? Hn|? ? ? Hs| | | | | |]; subst; [congruence|].
  rewrite E in Hs. injection Hs as <-. split.
  { split; [unfold es_int; lia|]. cbn. unfold con_proceso. rewrite lookup_insert_eq. by intros ap [= <-]. }
  intros rs3 a3 _. split; [|done]. vm_compute. intuition congruence.
Qed.

Lemma memoria_refina_almacen_witness :
  exists m' ram' sw' a' rs, atendidos 3 64 mem_refina_ejemplo sesion_ejemplo m' /\
    atraza 64 2 almacen_ejemplo sesion_ejemplo rs a' /\ rep 3 64 2 m' a' ram' sw' /\
    m_salidas m' = m_salidas mem_refina_ejemplo ++ (pair 3 <$> rs).
Proof.
  apply (memoria_refina_almacen 3 64 2 sesion_ejemplo mem_refina_ejemplo almacen_ejemplo ram_ejemplo swap_vacio ejemplo_rep);
    [lia|lia|exact sesion_ejemplo_admisible].
Defined.

Lemma lo_escrito_se_lee_witness :
  exists m' ram' sw' a' r rs r', rep 3 64 2 m' a' ram' sw' /\ atendidos 3 64 mem_refina_ejemplo sesion_ejemplo m' /\
    m_salidas m' = m_salidas mem_refina_ejemplo ++ (pair 3 <$> r :: rs ++ [r']) /\
    (r = enviar_ok ESCRITURA_MEMORIA -> r' = enviar_respuesta_lectura [x0f] \/
       r' = enviar_ok SEGMENTATION_FAULT /\ exists ap, a_procesos a' !! 1 = Some ap /\ a_fuera ap = true).
Proof.
  apply (lo_escrito_se_lee 3 64 2 mem_refina_ejemplo almacen_ejemplo ram_ejemplo swap_vacio 1 1 [x0f] [PSuspender 1; PDesSuspender 1]
    ejemplo_rep); [lia|lia|by repeat constructor|exact sesion_ejemplo_admisible].
Defined.
