(* ===== verification/MemCpu.v ===== *)
(** * MemCpu: what Kernel Memory does for the CPUs, and the handshakes

    Models [kernel_memory/src/memory_cpu.c] (registration of CPUs and Memory
    Sticks, the receiver thread of a CPU and its three handlers, the monitor of
    a stick) and [kernel_memory/src/memory_servidor.c] (registration of Swap,
    handshake dispatcher). A registration returns the thread it would spawn. *)

From S2P Require Import Prelude Bloques Wire Buffer Tipos Mensajes Texto Conexiones Stick Swap Memoria MemoryIO MemSwap Procesos Compactacion MemScheduler MemInv MemSegmentos.

(** ** Definitions *)

(** [spawn_detached(fn, arg, ...)]: the thread and its argument. *)
Inductive hilo :=
| HiloCpu (socket cpu_id : Z)
| HiloStick (socket stick_index : Z)
| HiloScheduler.

(** [close(socket)]: nothing more is read from it. *)
Definition cerrar (socket : Z) : M unit := st_mod (fun m => con_entradas (delete socket (m_entradas m)) m).

Definition cambiar_conexiones (f : conexiones -> conexiones) : M unit :=
  st_mod (fun m => con_conexiones (f (m_conexiones m)) m).

Definition memory_stick_monitor_thread (socket stick_index : Z) : M unit :=
  _ ← cambiar_conexiones (fun c => (conexiones_stick_invalidate_por_indice stick_index c).2);
  _ ← cerrar socket;
  scheduler_socket ← st_gets (fun m => conexiones_get_scheduler_socket (m_conexiones m));
  if negb (scheduler_socket =? -1) then enviar scheduler_socket enviar_memoria_corrupta else mret tt.

(** The [for] loop, from [i] with [n] sticks to go. *)
Fixpoint notificar_sticks_bucle (n : nat) (cpu_socket i : Z) : M unit :=
  match n with
  | O => mret tt
  | S n =>
      c ← st_gets m_conexiones;
      match conexiones_stick_ip i c, conexiones_stick_puerto i c with
      | Some ip, Some puerto =>
          _ ← enviar cpu_socket (enviar_nueva_memoria_disponible (conexiones_stick_tamanio i c)
                (conexiones_stick_base_fisica i c) ip puerto);
          notificar_sticks_bucle n cpu_socket (i + 1)
      | _, _ => st_abort
      end
  end.
Definition notificar_sticks_a_cpu (cpu_socket : Z) : M unit :=
  n ← st_gets (fun m => conexiones_cantidad_sticks (m_conexiones m));
  notificar_sticks_bucle (Z.to_nat n) cpu_socket 0.

Fixpoint notificar_cpus_bucle (n : nat) (aviso : list byte) (i : Z) : M unit :=
  match n with
  | O => mret tt
  | S n =>
      cpu_socket ← st_gets (fun m => conexiones_cpu_socket_en i (m_conexiones m));
      _ ← (if cpu_socket =? -1 then mret tt else enviar cpu_socket aviso);
      notificar_cpus_bucle n aviso (i + 1)
  end.
Definition notificar_cpus_de_nuevo_stick (tamanio base_fisica : Z) (ip puerto : list byte) : M unit :=
  n ← st_gets (fun m => conexiones_cantidad_cpus (m_conexiones m));
  notificar_cpus_bucle (Z.to_nat n) (enviar_nueva_memoria_disponible tamanio base_fisica ip puerto) 0.

Definition registrar_cpu (client_socket : Z) : M (option hilo) :=
  cpu_id ← recibir_de client_socket recibir_handshake_cpu;
  m ← st_get;
  let '(idx, c) := conexiones_agregar_cpu client_socket cpu_id (m_conexiones m) in
  _ ← st_put (con_conexiones c m);
  if idx <? 0 then _ ← cerrar client_socket; mret None
  else
    _ ← enviar client_socket (enviar_config_mmu_cpu (u32 (segment_max_size (config_memory m))));
    _ ← notificar_sticks_a_cpu client_socket;
    mret (Some (HiloCpu client_socket cpu_id)).

(** The lines of a program are kept without their NUL, which travels. *)
Definition manejar_obtener_instruccion (socket : Z) : M unit :=
  _ ← recibir_de socket validar_buffer;
  si_recibe (campo_int socket) (fun pid =>
  si_recibe (campo_u32 socket) (fun pc =>
    proc ← buscar_proceso pid;
    let linea :=
      match proc with
      | Some (_, proc) =>
          if pc <? u32 (cantidad_instrucciones proc) then nth (Z.to_nat pc) (instrucciones proc) []
          else []
      | None => []
      end in
    enviar socket (enviar_respuesta_instruccion (linea ++ [x00])))).

Definition manejar_obtener_contexto_cpu (socket : Z) : M unit :=
  _ ← recibir_de socket validar_buffer;
  si_recibe (campo_int socket) (fun pid =>
    proc ← buscar_proceso pid;
    match proc with
    | None => mret tt
    | Some (_, proc) => enviar socket (enviar_contexto_proceso (registros proc) (segmentos proc))
    end).

Definition manejar_actualizar_contexto_cpu (socket : Z) : M unit :=
  ctx ← recibir_de socket recibir_contexto_actualizar;
  proc ← buscar_proceso (i32 (c_pid ctx));
  _ ← match proc with
      | Some (k, _) => modificar_proceso k (actualizar_proceso_desde_contexto ctx)
      | None => mret tt
      end;
  enviar socket (enviar_ok ACTUALIZAR_CONTEXTO).

(** One request of a CPU: the switch of the receiver. *)
Definition atender_cpu (socket codigo : Z) : M unit :=
  if codigo =? op_num OBTENER_INSTRUCCION then manejar_obtener_instruccion socket
  else if codigo =? op_num OBTENER_CONTEXTO then manejar_obtener_contexto_cpu socket
  else if codigo =? op_num ACTUALIZAR_CONTEXTO then manejar_actualizar_contexto_cpu socket
  else mret tt.

(** [while (1)], for [n] turns at most. *)
Fixpoint memory_receptor_cpu_thread (n : nat) (socket cpu_id : Z) : M unit :=
  match n with
  | O => st_abort
  | S n =>
      codigo ← recibir_de socket (fun s => Some (recibir_codigo_operacion s));
      if i32 codigo =? -1 then
        _ ← cambiar_conexiones (conexiones_invalidar_cpu_por_id cpu_id); cerrar socket
      else
        _ ← atender_cpu socket codigo; memory_receptor_cpu_thread n socket cpu_id
  end.

Section servidor.
(** [crear_conexion(ip, puerto)], which is up to the operating system: the
    socket and the device that listens there, or [None] for -1. *)
Variable crear_conexion : list byte -> list byte -> option (Z * stick).

Definition conectar_stick (stick_index : Z) (ip puerto : list byte) : M unit :=
  match crear_conexion ip puerto with
  | None => mret tt
  | Some (out_sock, d) =>
      _ ← st_mod (fun m => con_red (<[out_sock := Vivo d]> (m_red m)) m);
      _ ← enviar out_sock (enviar_handshake_cpu (-999));
      cambiar_conexiones (conexiones_stick_set_outbound_socket stick_index out_sock)
  end.

Definition registrar_memory_stick (client_socket : Z) : M (option hilo) :=
  '(tamanio, ip, puerto) ← recibir_de client_socket recibir_handshake_memory_stick;
  m ← st_get;
  let '(stick_index, base, c) := conexiones_agregar_stick client_socket tamanio ip puerto (m_conexiones m) in
  _ ← st_put (con_conexiones c m);
  if stick_index <? 0 then _ ← cerrar client_socket; mret None
  else
    let base_fisica := default 0 base in
    _ ← notificar_cpus_de_nuevo_stick tamanio base_fisica ip puerto;
    _ ← st_mod (fun m => con_libres (bloques_agregar (bloques_libres m) base_fisica tamanio) m);
    _ ← conectar_stick stick_index ip puerto;
    scheduler_socket ← st_gets (fun m => conexiones_get_scheduler_socket (m_conexiones m));
    _ ← (if negb (scheduler_socket =? -1)
         then enviar scheduler_socket (enviar_nueva_memoria_disponible tamanio base_fisica ip puerto)
         else mret tt);
    mret (Some (HiloStick client_socket stick_index)).

(** A block size of 0 is a division by zero. *)
Definition registrar_swap (client_socket : Z) : M unit :=
  '(block_size, total_size) ← recibir_de client_socket recibir_handshake_swap;
  if block_size =? 0 then st_abort
  else
    _ ← swap_inicializar block_size (total_size / block_size);
    cambiar_conexiones (conexiones_set_swap_socket client_socket).

Definition memory_handshake_handler (client_socket : Z) : M (option hilo) :=
  cod_op ← recibir_de client_socket (fun s => Some (recibir_codigo_operacion s));
  if i32 cod_op =? -1 then _ ← cerrar client_socket; mret None
  else if cod_op =? op_num HANDSHAKE_SCHEDULER_A_MEMORY then
    _ ← registrar_scheduler client_socket; mret (Some HiloScheduler)
  else if cod_op =? op_num HANDSHAKE_CPU then registrar_cpu client_socket
  else if cod_op =? op_num HANDSHAKE_MEMORY_STICK then registrar_memory_stick client_socket
  else if cod_op =? op_num HANDSHAKE_SWAP then _ ← registrar_swap client_socket; mret None
  else _ ← cerrar client_socket; mret None.
End servidor.

(** [inicializar_estructuras]: the state before any connection. *)
Definition inicializar_estructuras (c : t_config_memory) (archivos : list byte -> option (list byte)) : memoria :=
  Memoria c conexiones_init [] [] (Reserva 0 0 0) false ∅ (Cortado []) ∅ [] archivos.

(** ** Lemmas: notices *)

Definition con_avisos (l : list (Z * list byte)) (m : memoria) : memoria := con_salidas (m_salidas m ++ l) m.

Lemma con_avisos_nada m : con_avisos [] m = m.
Proof. unfold con_avisos. rewrite app_nil_r. by destruct m. Qed.
Lemma con_avisos_app l1 l2 m : con_avisos l2 (con_avisos l1 m) = con_avisos (l1 ++ l2) m.
Proof. unfold con_avisos. cbn. by rewrite <-app_assoc. Qed.

(** The CPUs that are still connected, in the order of the table. *)
Definition cpus_vivas (l : list t_cpu_entry) : list t_cpu_entry := filter (fun c => cpu_socket c <> -1) l.

Lemma en_tabla_lookup {A} (l : list A) (i : nat) : en_tabla l (Z.of_nat i) = l !! i.
Proof.
  unfold en_tabla. destruct (Z.geb_spec (Z.of_nat i) 0); [|lia]. cbn. rewrite Nat2Z.id.
  destruct (Z.ltb_spec (Z.of_nat i) (Z.of_nat (length l))); [done|]. symmetry. apply lookup_ge_None. lia.
Qed.

Lemma notificar_cpus_bucle_ok aviso n : forall i m,
  (i + n = length (cpus (m_conexiones m)))%nat ->
  notificar_cpus_bucle n aviso (Z.of_nat i) m =
  Some (tt, con_avisos ((fun c => (cpu_socket c, aviso)) <$> cpus_vivas (drop i (cpus (m_conexiones m)))) m).
Proof.
  induction n as [|n IH]; intros i m Hi.
  { rewrite drop_ge by lia. cbn. by rewrite con_avisos_nada. }
  destruct (lookup_lt_is_Some_2 (cpus (m_conexiones m)) i ltac:(lia)) as [c Hc].
  rewrite (drop_S _ c i Hc). cbn [notificar_cpus_bucle]. st_unfold.
  unfold conexiones_cpu_socket_en. rewrite en_tabla_lookup, Hc. unfold cpus_vivas. rewrite filter_cons.
  replace (Z.of_nat i + 1) with (Z.of_nat (S i)) by lia.
  destruct (Z.eqb_spec (cpu_socket c) (-1)) as [E|E].
  - rewrite decide_False by (by intros []). rewrite (IH (S i) m) by lia. done.
  - rewrite decide_True by done. rewrite enviar_eq, (IH (S i)) by (cbn; lia). cbn [m_conexiones con_salida con_salidas].
    cbn [fmap list_fmap]. change (con_salida (cpu_socket c) aviso m) with (con_avisos [(cpu_socket c, aviso)] m).
    by rewrite con_avisos_app.
Qed.

Lemma notificar_cpus_ok tam base ip puerto m :
  notificar_cpus_de_nuevo_stick tam base ip puerto m =
  Some (tt, con_avisos ((fun c => (cpu_socket c, enviar_nueva_memoria_disponible tam base ip puerto))
                          <$> cpus_vivas (cpus (m_conexiones m))) m).
Proof.
  unfold notificar_cpus_de_nuevo_stick. st_unfold. unfold conexiones_cantidad_cpus, cpu_count. rewrite Nat2Z.id.
  by rewrite (notificar_cpus_bucle_ok _ _ 0%nat).
Qed.

(** What a new CPU is told of one stick. *)
Definition aviso_stick (s : t_memory_stick_entry) : list byte :=
  enviar_nueva_memoria_disponible (st_tamanio s) (st_base_fisica s) (st_ip s) (st_puerto s).

Lemma notificar_sticks_bucle_ok sock n : forall i m,
  (i + n = length (sticks (m_conexiones m)))%nat ->
  notificar_sticks_bucle n sock (Z.of_nat i) m =
  Some (tt, con_avisos ((fun s => (sock, aviso_stick s)) <$> drop i (sticks (m_conexiones m))) m).
Proof.
  induction n as [|n IH]; intros i m Hi.
  { rewrite drop_ge by lia. cbn. by rewrite con_avisos_nada. }
  destruct (lookup_lt_is_Some_2 (sticks (m_conexiones m)) i ltac:(lia)) as [c Hc].
  rewrite (drop_S _ c i Hc). cbn [notificar_sticks_bucle]. st_unfold.
  unfold conexiones_stick_ip, conexiones_stick_puerto, conexiones_stick_tamanio, conexiones_stick_base_fisica.
  rewrite en_tabla_lookup, Hc. cbn [fmap option_fmap option_map].
  replace (Z.of_nat i + 1) with (Z.of_nat (S i)) by lia. rewrite enviar_eq.
  rewrite (IH (S i)) by (cbn; lia). cbn [fmap list_fmap m_conexiones con_salida con_salidas].
  fold (aviso_stick c). change (con_salida sock (aviso_stick c) m) with (con_avisos [(sock, aviso_stick c)] m).
  by rewrite con_avisos_app.
Qed.

(** ** Lemmas: one more stick *)

Lemma bloques_ok_mas lim lim' l : bloques_ok lim l -> lim <= lim' < NEG1 -> bloques_ok lim' l.
Proof.
  intros [H1 H2] Hl. split; [|done]. eapply Forall_impl; [exact H1|]. intros b. unfold bloque_en. lia.
Qed.

Lemma alter_ultimo {A} (f : A -> A) (l : list A) x : alter f (length l) (l ++ [x]) = l ++ [f x].
Proof. induction l as [|y l IH]; [done|]. cbn. by rewrite IH. Qed.

Section nuevo_stick.
Context (m : memoria) (ds : list stick) (client_socket tamanio : Z) (ip puerto : list byte) (out : Z) (d : stick).
Hypothesis (Hm : red_ok m ds) (Hd : stick_ok d) (Htam : memoria_size d = tamanio).
Hypothesis (Hcant : stick_count (m_conexiones m) < MAX_MEMORY_STICKS).
Hypothesis (Htot : tamanios (sticks (m_conexiones m)) + tamanio < 1073741824).
Hypothesis (Hout : 0 <= out) (Hlibre : m_red m !! out = None).

Let entrada_nueva : t_memory_stick_entry :=
  StickE client_socket tamanio ip puerto out (tamanios (sticks (m_conexiones m))).

Lemma agregar_y_conectar :
  let '(idx, base, c) := conexiones_agregar_stick client_socket tamanio ip puerto (m_conexiones m) in
  idx = stick_count (m_conexiones m) /\ base = Some (tamanios (sticks (m_conexiones m))) /\
  conexiones_stick_set_outbound_socket idx out c =
    con_sticks (sticks (m_conexiones m) ++ [entrada_nueva]) (m_conexiones m).
Proof.
  pose proof (rok_con _ _ Hm) as Hc. unfold conexiones_agregar_stick.
  destruct (Z.geb_spec (stick_count (m_conexiones m)) MAX_MEMORY_STICKS); [lia|].
  rewrite suma_tamanios_spec by apply Hc. split; [done|]. split; [done|].
  unfold conexiones_stick_set_outbound_socket, stick_count. cbn [sticks con_sticks]. rewrite length_app. cbn [length].
  destruct (Z.geb_spec (Z.of_nat (length (sticks (m_conexiones m)))) 0); [|lia].
  destruct (Z.ltb_spec (Z.of_nat (length (sticks (m_conexiones m)))) (Z.of_nat (length (sticks (m_conexiones m)) + 1))); [|lia].
  cbn [andb]. rewrite Nat2Z.id, alter_ultimo. done.
Qed.

Lemma red_ok_nuevo m' :
  m_conexiones m' = con_sticks (sticks (m_conexiones m) ++ [entrada_nueva]) (m_conexiones m) ->
  m_red m' = <[out := Vivo d]> (m_red m) -> red_ok m' (ds ++ [d]).
Proof.
  intros E1 E2. destruct Hm as [Hc Ht He Hs]. destruct Hd as [Hd1 Hd2].
  assert (Htamu : es_u32 tamanio) by (unfold es_u32; lia).
  assert (Hnotin : out ∉ st_outbound_socket <$> sticks (m_conexiones m)).
  { intros (s & Es & Hin)%list_elem_of_fmap. apply list_elem_of_lookup in Hin as (i & Hi).
    destruct (Forall2_lookup_l _ _ _ _ _ He Hi) as (dv & _ & (_ & Hr & _)). congruence. }
  split; rewrite ?E1, ?E2; cbn [sticks con_sticks].
  - split; cbn [sticks con_sticks cpus].
    + unfold stick_count in *. cbn. rewrite length_app. cbn. lia.
    + apply Hc.
    + apply Forall_app. split; [apply Hc|]. by apply Forall_singleton.
    + rewrite tamanios_app. unfold tamanios at 2. cbn. lia.
    + apply bases_ok_snoc; [apply Hc|done].
  - rewrite tamanios_app. unfold tamanios at 2. cbn. lia.
  - apply Forall2_app; [|apply Forall2_cons; split; [|done]].
    + apply Forall2_same_length_lookup. split; [by eapply Forall2_length|]. intros i s dv Hi Hdv.
      destruct (Forall2_lookup_lr _ _ _ _ _ _ He Hi Hdv) as (H1 & H2 & H3 & H4).
      split; [done|]. split; [|by split]. rewrite lookup_insert_ne; [done|]. intros Eo.
      apply Hnotin, list_elem_of_fmap. exists s. split; [exact Eo|]. by eapply list_elem_of_lookup_2.
    + split; [done|]. split; [by rewrite lookup_insert_eq|]. by split.
  - rewrite fmap_app. apply NoDup_app. split; [done|]. split; [|apply NoDup_singleton].
    intros x Hx Hx'. apply list_elem_of_singleton in Hx'. by subst x.
Qed.
End nuevo_stick.

Lemma particion_nueva l r lim tam :
  bloques_ok lim (l ++ r) -> 0 <= lim -> 0 <= tam -> lim + tam < NEG1 ->
  bloques_ok (lim + tam) (bloques_agregar l lim tam ++ r) /\
  total (bloques_agregar l lim tam ++ r) = total (l ++ r) + tam.
Proof.
  intros Hok H0 Ht Hmax. assert (Hn : bloques_ok (lim + tam) (l ++ Bloque lim tam :: r)).
  { rewrite <-Permutation_middle. apply bloques_ok_cons. split; [unfold bloque_en; cbn; lia|]. split.
    - destruct Hok as [Hr _]. eapply Forall_impl; [exact Hr|]. intros b. unfold bloque_en, ajenos, disjuntos. cbn. lia.
    - apply (bloques_ok_mas lim); [done|lia]. }
  destruct (particion_liberar _ _ _ _ _ Hn) as [H1 H2]. split; [exact H1|]. etrans; [exact H2|].
  rewrite <-Permutation_middle, total_cons. cbn. lia.
Qed.

(** ** The handshakes *)

Definition aviso_scheduler (m : memoria) (bs : list byte) : list (Z * list byte) :=
  let s := conexiones_get_scheduler_socket (m_conexiones m) in
  if negb (s =? -1) then [(s, bs)] else [].

(** The memory after the registration: the free block at the end, the messages
    to the CPUs, Memory's own connection and its greeting, the new table. *)
Definition stick_registrado (m : memoria) (base tamanio : Z) (aviso : list byte) (out : Z) (d : stick)
    (ss : list t_memory_stick_entry) : memoria :=
  let m2 := con_avisos ((fun c => (cpu_socket c, aviso)) <$> cpus_vivas (cpus (m_conexiones m))) m in
  let m3 := con_libres (bloques_agregar (bloques_libres m2) base tamanio) m2 in
  con_conexiones (con_sticks ss (m_conexiones m))
    (con_salida out (enviar_handshake_cpu (-999)) (con_red (<[out := Vivo d]> (m_red m3)) m3)).

Lemma conectar_stick_ok conectar idx ip puerto out d m :
  conectar ip puerto = Some (out, d) ->
  conectar_stick conectar idx ip puerto m =
  Some (tt, con_conexiones (conexiones_stick_set_outbound_socket idx out (m_conexiones m))
              (con_salida out (enviar_handshake_cpu (-999)) (con_red (<[out := Vivo d]> (m_red m)) m))).
Proof. intros H. unfold conectar_stick. by rewrite H. Qed.

Lemma registrar_memory_stick_corre conectar m ds s tamanio ip puerto out d resto :
  red_ok m ds -> es_u32 tamanio -> cadena_ok ip -> cadena_ok puerto ->
  pendiente m s (enviar_handshake_memory_stick tamanio ip puerto) resto ->
  stick_count (m_conexiones m) < MAX_MEMORY_STICKS -> conectar ip puerto = Some (out, d) ->
  let base := tamanios (sticks (m_conexiones m)) in
  let aviso := enviar_nueva_memoria_disponible tamanio base ip puerto in
  registrar_memory_stick conectar s m =
  Some (Some (HiloStick s (stick_count (m_conexiones m))),
    con_avisos (aviso_scheduler m aviso)
      (stick_registrado (consumido s resto m) base tamanio aviso out d
         (sticks (m_conexiones m) ++ [StickE s tamanio ip puerto out base]))).
Proof.
  intros Hred Hta Hip Hpu Hp Hcant Hcon base aviso.
  pose proof (agregar_y_conectar m ds s tamanio ip puerto out Hred Hcant) as Hag.
  assert (Hread := recibir_protocolo p_handshake_memory_stick (tamanio, ip, puerto) m s resto).
  specialize (Hread (conj Hta (conj Hip Hpu)) Hp). cbn [p_imagen p_recibir p_handshake_memory_stick] in Hread.
  unfold id in Hread. set (m1 := consumido s resto m) in *.
  unfold registrar_memory_stick. rewrite (st_bind_ok _ _ _ _ _ Hread).
  unfold mbind at 1, ST_bind at 1, st_get at 1. change (m_conexiones m1) with (m_conexiones m).
  destruct (conexiones_agregar_stick s tamanio ip puerto (m_conexiones m)) as [[idx bf] c] eqn:Eag.
  destruct Hag as (-> & -> & Hset). fold base.
  assert (Ecpus : cpus c = cpus (m_conexiones m)).
  { unfold conexiones_agregar_stick in Eag.
    destruct (stick_count (m_conexiones m) >=? MAX_MEMORY_STICKS); by simplify_eq. }
  destruct (Z.ltb_spec (stick_count (m_conexiones m)) 0); [unfold stick_count in *; lia|].
  cbn [default]. unfold mbind at 1, ST_bind at 1, st_put at 1. change (default 0 (Some base)) with base.
  rewrite (st_bind_ok _ _ _ _ _ (notificar_cpus_ok tamanio base ip puerto (con_conexiones c m1))).
  change (m_conexiones (con_conexiones c m1)) with c. rewrite Ecpus. fold aviso.
  unfold mbind at 1, ST_bind at 1, st_mod at 1, id.
  rewrite (st_bind_ok _ _ _ _ _ (conectar_stick_ok conectar _ ip puerto out d _ Hcon)).
  unfold mbind at 1, ST_bind at 1, st_gets at 1.
  cbn [con_avisos con_salidas con_salida con_red con_libres con_conexiones m_conexiones m_red]. rewrite Hset.
  unfold aviso_scheduler. cbn [con_sticks conexiones_get_scheduler_socket].
  change (conexiones_get_scheduler_socket (con_sticks ?x (m_conexiones m)))
    with (conexiones_get_scheduler_socket (m_conexiones m)).
  destruct (negb _); [done|]. by rewrite con_avisos_nada.
Qed.

(** A Memory Stick that registers (and accepts Memory's own connection)
    extends the physical memory at its end: every address keeps its byte and its
    owner, the new range is free, and first the connected CPUs, then the stick,
    then the scheduler are told. *)
Theorem registrar_memory_stick_extiende conectar m ram s tamanio ip puerto out d resto :
  mem_inv m ram -> es_u32 tamanio -> cadena_ok ip -> cadena_ok puerto ->
  pendiente m s (enviar_handshake_memory_stick tamanio ip puerto) resto ->
  stick_count (m_conexiones m) < MAX_MEMORY_STICKS -> Z.of_nat (length ram) + tamanio < 1073741824 ->
  conectar ip puerto = Some (out, d) -> stick_ok d -> memoria_size d = tamanio ->
  0 <= out -> m_red m !! out = None ->
  let aviso := enviar_nueva_memoria_disponible tamanio (Z.of_nat (length ram)) ip puerto in
  exists m', registrar_memory_stick conectar s m = Some (Some (HiloStick s (stick_count (m_conexiones m))), m') /\
    mem_inv m' (ram ++ memoria_buffer d) /\ procesos m' = procesos m /\
    (forall x, libre (bloques_libres m') x <->
       libre (bloques_libres m) x \/ en_rango (Z.of_nat (length ram)) tamanio x) /\
    m_salidas m' = m_salidas m ++ ((fun c => (cpu_socket c, aviso)) <$> cpus_vivas (cpus (m_conexiones m))) ++
      [(out, enviar_handshake_cpu (-999))] ++ aviso_scheduler m aviso.
Proof.
  intros Hm Hta Hip Hpu Hp Hcant Hmax Hcon Hd Hds Hout Hfresh aviso.
  destruct (mi_ram _ _ Hm) as (ds & Hred & Hram).
  pose proof (enlaces_longitud _ _ _ (rok_enlaces _ _ Hred)) as Hlen. rewrite <-Hram in Hlen.
  pose proof (registrar_memory_stick_corre conectar m ds s tamanio ip puerto out d resto Hred Hta Hip Hpu Hp Hcant Hcon) as Hrun.
  cbv zeta in Hrun. rewrite <-Hlen in Hrun. fold aviso in Hrun. rewrite Hlen in Hmax.
  unfold es_u32 in Hta. pose proof (proj1 Hd) as Hd1.
  destruct (particion_nueva _ _ _ tamanio (mi_particion _ _ Hm)) as [Hpar Hptot];
    [lia|lia|rewrite Hlen; unfold NEG1; lia|].
  eexists. split; [exact Hrun|]. split; [|split; [done|split]].
  - split.
    + exists (ds ++ [d]). split; [|rewrite bind_app, Hram; cbn; by rewrite app_nil_r].
      by apply (red_ok_nuevo m ds s tamanio ip puerto out d Hred Hd Hds Hcant Hmax Hout Hfresh);
        [cbn; rewrite <-Hlen|].
    + exact (mi_pids _ _ Hm).
    + rewrite length_app, Nat2Z.inj_add, <-Hd1, Hds. exact Hpar.
    + rewrite length_app, Nat2Z.inj_add, <-Hd1, Hds. etrans; [exact Hptot|]. by rewrite (mi_total _ _ Hm).
  - intros x. cbn [stick_registrado con_avisos con_salidas con_conexiones con_salida con_red con_libres bloques_libres].
    apply (bloques_agregar_ok (Z.of_nat (length ram) + tamanio)).
    + apply (bloques_ok_mas (Z.of_nat (length ram))); [by apply mem_inv_libres|rewrite Hlen; unfold NEG1; lia].
    + split; [unfold bloque_en; cbn; rewrite Hlen; unfold NEG1; lia|]. intros y Hy (b & Hb & Hyb).
      pose proof (mem_inv_libres _ _ Hm) as [Hr _]. rewrite Forall_forall in Hr. specialize (Hr b Hb). bloques_lia.
  - cbn. by rewrite <-!app_assoc.
Qed.

(** A CPU that registers is entered in the table and told, on its socket and
    in this order, the segment size its MMU needs and every Memory Stick with its
    size and base; a CPU beyond the limit is turned away. *)
Theorem registrar_cpu_correcto m s id resto :
  es_int id -> pendiente m s (enviar_handshake_cpu id) resto ->
  let m1 := consumido s resto m in
  let c := m_conexiones m in
  registrar_cpu s m =
  if cpu_count c >=? MAX_CPUS then Some (None, con_entradas (delete s (m_entradas m1)) m1)
  else Some (Some (HiloCpu s id),
         con_avisos ((s, enviar_config_mmu_cpu (u32 (segment_max_size (config_memory m)))) ::
                     ((fun st => (s, aviso_stick st)) <$> sticks c))
           (con_conexiones (con_cpus (cpus c ++ [Cpu s id]) c) m1)).
Proof.
  intros Hid Hp m1 c. assert (Hread := recibir_protocolo p_handshake_cpu id m s resto Hid Hp).
  eassert (Hrun : registrar_cpu s m = _) by exact (st_bind_ok _ _ _ _ _ Hread).
  rewrite Hrun. clear Hrun Hread. fold m1. st_unfold. change (m_conexiones m1) with c.
  unfold conexiones_agregar_cpu. destruct (Z.geb_spec (cpu_count c) MAX_CPUS) as [H|H].
  { cbn. by destruct m. }
  change (p_imagen p_handshake_cpu id) with id. set (c' := con_cpus (cpus c ++ [Cpu s id]) c).
  destruct (Z.ltb_spec (cpu_count c) 0); [unfold cpu_count in *; lia|]. rewrite enviar_eq.
  unfold notificar_sticks_a_cpu. st_unfold. cbn [m_conexiones con_salida con_salidas con_conexiones].
  unfold conexiones_cantidad_sticks, stick_count. rewrite Nat2Z.id.
  rewrite (notificar_sticks_bucle_ok s _ 0%nat) by done. do 2 f_equal.
  cbn [m_conexiones con_salida con_salidas con_conexiones drop]. change (sticks c') with (sticks c).
  unfold con_avisos, con_salida. cbn. by rewrite <-app_assoc.
Qed.

(** A CPU that asks for an instruction is sent the line of the program at
    that counter, and the empty string when the counter is past the last line or
    the process is unknown. *)
Theorem obtener_instruccion_correcta m s q pc resto :
  es_int q -> es_u32 pc -> pendiente m s (enviar_obtener_instruccion q pc) resto ->
  Forall (fun p => cantidad_instrucciones p < 4294967296) (procesos m) ->
  let responde linea := manejar_obtener_instruccion s m =
    Some (tt, con_salida s (enviar_respuesta_instruccion (linea ++ [x00])) (consumido s resto m)) in
  (procesos_buscar q (procesos m) = None -> responde []) /\
  (forall k p, procesos_buscar q (procesos m) = Some k -> procesos m !! k = Some p ->
   (forall linea, instrucciones p !! Z.to_nat pc = Some linea -> responde linea) /\
   (cantidad_instrucciones p <= pc -> responde [])).
Proof.
  intros Hq Hpc Hp Hcant responde. unfold pendiente in Hp.
  assert (Hmsg : enviar_obtener_instruccion q pc = trama OBTENER_INSTRUCCION (le_enc 4 q ++ le_enc 4 pc))
    by apply mensaje2. rewrite Hmsg in Hp.
  set (m1 := consumido s resto m).
  assert (Hread : forall k, (_ ← recibir_de s validar_buffer;
     si_recibe (campo_int s) (fun a => si_recibe (campo_u32 s) (k a))) m = k q pc m1)
    by (intros h; exact (leer_peticion2 h s OBTENER_INSTRUCCION q pc resto m Hq Hpc Hp)).
  unfold responde, manejar_obtener_instruccion. rewrite Hread. split.
  - intros Ek. by rewrite (st_bind_ok _ _ _ _ _ (buscar_proceso_None q m1 Ek)).
  - intros k p Ek Hk. rewrite (st_bind_ok _ _ _ _ _ (buscar_proceso_Some q m1 k p Ek Hk)).
    pose proof (Forall_lookup_1 _ _ _ _ Hcant Hk) as Hc. cbn in Hc. unfold es_u32 in Hpc.
    rewrite u32_small by (unfold es_u32, cantidad_instrucciones in *; lia). split.
    + intros linea Hl. pose proof (lookup_lt_Some _ _ _ Hl).
      destruct (Z.ltb_spec pc (cantidad_instrucciones p)); [|unfold cantidad_instrucciones in *; lia].
      rewrite (nth_lookup_Some _ _ _ _ Hl). apply enviar_eq.
    + intros Hge. destruct (Z.ltb_spec pc (cantidad_instrucciones p)); [lia|]. apply enviar_eq.
Qed.

(** the context a CPU leaves in Memory is the one the next CPU to run the
    process receives, register by register and segment by segment; the program
    and the other processes stay as they were. *)
Theorem contexto_ida_vuelta m s ctx resto k p :
  es_int (c_pid ctx) -> es_u32 (c_pid ctx) -> registros_ok (c_registros ctx) -> segmentos_ok (tabla_segmentos ctx) ->
  pendiente m s (enviar_actualizar_contexto ctx) resto ->
  procesos_buscar (c_pid ctx) (procesos m) = Some k -> procesos m !! k = Some p ->
  exists m1, manejar_actualizar_contexto_cpu s m = Some (tt, m1) /\
    procesos m1 = <[k := Proceso (pid p) (c_registros ctx) (tabla_segmentos ctx) (instrucciones p)]> (procesos m) /\
    m_salidas m1 = m_salidas m ++ [(s, enviar_ok ACTUALIZAR_CONTEXTO)] /\
    forall e s' resto', let m2 := con_entradas e m1 in
      pendiente m2 s' (enviar_solicitar_contexto (c_pid ctx)) resto' ->
      exists bs, manejar_obtener_contexto_cpu s' m2 = Some (tt, con_salida s' bs (consumido s' resto' m2)) /\
        forall r, recibir_contexto (cuerpo bs ++ r) = Some ((c_registros ctx, tabla_segmentos ctx), r).
Proof.
  intros Hi Hu Hr Hs Hp Ek Hk.
  assert (Hread := recibir_protocolo p_actualizar_contexto ctx m s resto (conj Hu (conj Hr Hs)) Hp).
  eassert (Hrun : manejar_actualizar_contexto_cpu s m = _) by exact (st_bind_ok _ _ _ _ _ Hread).
  change (p_imagen p_actualizar_contexto ctx) with ctx in Hrun. set (m1 := consumido s resto m) in *.
  rewrite i32_small in Hrun by done.
  rewrite (st_bind_ok _ _ _ _ _ (buscar_proceso_Some _ m1 k p Ek Hk)) in Hrun.
  unfold modificar_proceso, mbind, ST_bind, st_mod in Hrun. rewrite enviar_eq in Hrun.
  rewrite (alter_conocido _ _ k p) in Hrun by done. unfold actualizar_proceso_desde_contexto in Hrun.
  set (p' := Proceso (pid p) (c_registros ctx) (tabla_segmentos ctx) (instrucciones p)) in *.
  eexists. split; [exact Hrun|]. split; [done|]. split; [done|]. intros e s' resto' m2 Hp2.
  assert (Hk2 : procesos m2 !! k = Some p') by (cbn; apply list_lookup_insert_eq; by eapply lookup_lt_Some).
  assert (Ek2 : procesos_buscar (c_pid ctx) (procesos m2) = Some k).
  { assert (E2 : procesos m2 = alter (actualizar_proceso_desde_contexto ctx) k (procesos m))
      by (by rewrite (alter_conocido _ _ k p Hk)).
    rewrite E2, <-Ek. by apply procesos_buscar_alter. }
  unfold pendiente in Hp2.
  assert (Hmsg : enviar_solicitar_contexto (c_pid ctx) = trama OBTENER_CONTEXTO (le_enc 4 (c_pid ctx))) by apply mensaje1.
  rewrite Hmsg in Hp2. exists (enviar_contexto_proceso (c_registros ctx) (tabla_segmentos ctx)). split.
  - unfold manejar_obtener_contexto_cpu. rewrite (leer_peticion1 _ s' OBTENER_CONTEXTO _ resto' m2 Hi Hp2).
    by rewrite (st_bind_ok _ _ _ _ _ (buscar_proceso_Some _ (consumido s' resto' m2) k p' Ek2 Hk2)).
  - intros r. destruct (protocolo_ok (p := p_contexto) (c_registros ctx, tabla_segmentos ctx) (conj Hr Hs))
      as (pl & E & Hrec). cbn [p_enviar p_contexto p_recibir p_op p_imagen] in E, Hrec.
    rewrite E, cuerpo_trama, <-app_assoc. exact (Hrec r).
Qed.

(** ** Witnesses *)

Lemma estructuras_ok c a : mem_inv (inicializar_estructuras c a) [].
Proof.
  split.
  - exists []. split; [|done]. split; [apply conexiones_init_ok|vm_compute; congruence|by constructor|constructor].
  - constructor.
  - split; [constructor|done].
  - done.
Qed.

Definition recien_encendida (mensaje : list byte) : memoria :=
  con_entradas (<[4 := cuerpo mensaje ++ []]> ∅)
    (inicializar_estructuras (ConfigMemory 64 None None) (fun _ => None)).
Definition stick_nuevo : stick := Stick [x0a; x0b] 2.

Lemma registrar_memory_stick_extiende_witness :
  exists m', registrar_memory_stick (fun _ _ => Some (8, stick_nuevo)) 4
      (recien_encendida (enviar_handshake_memory_stick 2 [x31; x00] [x32; x00])) = Some (Some (HiloStick 4 0), m') /\
    mem_inv m' [x0a; x0b] /\ libre (bloques_libres m') 1.
Proof.
  assert (Hm : mem_inv (recien_encendida (enviar_handshake_memory_stick 2 [x31; x00] [x32; x00])) [])
    by (apply (mem_inv_igual (inicializar_estructuras (ConfigMemory 64 None None) (fun _ => None)));
        [apply estructuras_ok|done..]).
  destruct (registrar_memory_stick_extiende (fun _ _ => Some (8, stick_nuevo))
    (recien_encendida (enviar_handshake_memory_stick 2 [x31; x00] [x32; x00])) [] 4 2 [x31; x00] [x32; x00] 8 stick_nuevo [] Hm)
    as (m' & E & Hi & _ & Hl & _); try (unfold es_u32; cbn; lia); try (vm_compute; intuition congruence).
  - split; [exists [x31]; by split; [|set_solver]|cbn; lia].
  - split; [exists [x32]; by split; [|set_solver]|cbn; lia].
  - exists m'. split; [exact E|]. split; [exact Hi|]. apply Hl. right. unfold en_rango. cbn. lia.
Defined.

Lemma registrar_cpu_correcto_witness :
  registrar_cpu 3 (mem_pide (enviar_handshake_cpu 1) []) =
  Some (Some (HiloCpu 3 1),
    con_avisos [(3, enviar_config_mmu_cpu 64); (3, enviar_nueva_memoria_disponible 4 0 [] []);
                (3, enviar_nueva_memoria_disponible 3 4 [] [])]
      (con_conexiones (con_cpus [Cpu 3 1] (m_conexiones mem_fragmentada))
         (consumido 3 [] (mem_pide (enviar_handshake_cpu 1) [])))).
Proof.
  exact (registrar_cpu_correcto (mem_pide (enviar_handshake_cpu 1) []) 3 1 []
    ltac:(unfold es_int; lia) (mem_pide_pendiente (enviar_handshake_cpu 1) [])).
Defined.

Definition mem_con_programa (mensaje : list byte) : memoria :=
  con_procesos [Proceso 1 registros_cero [] [[x45]; [x46]]] (mem_pide mensaje []).

Lemma obtener_instruccion_correcta_witness :
  manejar_obtener_instruccion 3 (mem_con_programa (enviar_obtener_instruccion 1 1)) =
    Some (tt, con_salida 3 (enviar_respuesta_instruccion [x46; x00])
                (consumido 3 [] (mem_con_programa (enviar_obtener_instruccion 1 1)))) /\
  manejar_obtener_instruccion 3 (mem_con_programa (enviar_obtener_instruccion 1 2)) =
    Some (tt, con_salida 3 (enviar_respuesta_instruccion [x00])
                (consumido 3 [] (mem_con_programa (enviar_obtener_instruccion 1 2)))).
Proof.
  split.
  - destruct (obtener_instruccion_correcta (mem_con_programa (enviar_obtener_instruccion 1 1)) 3 1 1 [])
      as [_ H]; [unfold es_int; lia|unfold es_u32; lia|exact (mem_pide_pendiente (enviar_obtener_instruccion 1 1) [])| |].
    + apply Forall_cons. split; [reflexivity|apply Forall_nil_2].
    + exact (proj1 (H O _ eq_refl eq_refl) _ eq_refl).
  - destruct (obtener_instruccion_correcta (mem_con_programa (enviar_obtener_instruccion 1 2)) 3 1 2 [])
      as [_ H]; [unfold es_int; lia|unfold es_u32; lia|exact (mem_pide_pendiente (enviar_obtener_instruccion 1 2) [])| |].
    + apply Forall_cons. split; [reflexivity|apply Forall_nil_2].
    + apply (proj2 (H O _ eq_refl eq_refl)). vm_compute. congruence.
Defined.

Definition ctx_ejemplo : t_contexto := Contexto 1 (registros_cero) [Segmento 0 5 2 0].
Lemma contexto_ida_vuelta_witness :
  exists m1, manejar_actualizar_contexto_cpu 3 (mem_pide (enviar_actualizar_contexto ctx_ejemplo) []) = Some (tt, m1) /\
    m_salidas m1 = [(3, enviar_ok ACTUALIZAR_CONTEXTO)].
Proof.
  destruct (contexto_ida_vuelta (mem_pide (enviar_actualizar_contexto ctx_ejemplo) []) 3 ctx_ejemplo [] O
    (Proceso 1 registros_cero [Segmento 0 5 2 0] [])) as (m1 & E & _ & Hs & _);
    try reflexivity; try (unfold es_int, es_u32; cbn; lia).
  - vm_compute; intuition congruence.
  - split; [|cbn; lia]. apply Forall_cons. split; [vm_compute; intuition congruence|apply Forall_nil_2].
  - exists m1. split; [exact E|exact Hs].
Defined.

(** ** A context saved late undoes a compaction

    The Scheduler acknowledges a compaction without waiting for the CPUs to give
    their processes back ([handle_iniciar_compactacion]). A CPU that saves its
    context afterwards sends the segment table it fetched before, and
    [actualizar_proceso_desde_contexto] stores it. *)

(** The residents of two processes do not overlap. *)
Lemma residentes_de_dos ps k p sg j q sq :
  por_pares ajenos (residentes ps) -> ps !! k = Some p -> ps !! j = Some q -> j <> k ->
  sg ∈ segmentos p -> s_base sg <> NEG1 -> sq ∈ segmentos q -> s_base sq <> NEG1 -> ajenos (bloque_de sg) (bloque_de sq).
Proof.
  assert (Hin : forall l i p sg, l !! i = Some p -> sg ∈ segmentos p -> s_base sg <> NEG1 -> bloque_de sg ∈ residentes l).
  { intros l i p0 s0 Hl Hs Hb. apply list_elem_of_bind. exists p0. split; [|by eapply list_elem_of_lookup_2].
    apply list_elem_of_fmap. exists s0. split; [done|]. apply list_elem_of_filter. by split. }
  assert (Hlt : forall k p sg j q sq, por_pares ajenos (residentes ps) -> ps !! k = Some p -> ps !! j = Some q -> (k < j)%nat ->
    sg ∈ segmentos p -> s_base sg <> NEG1 -> sq ∈ segmentos q -> s_base sq <> NEG1 -> ajenos (bloque_de sg) (bloque_de sq)).
  { clear k p sg j q sq. intros k p sg j q sq Hd Hk Hj Hlt Hs Hb Hs' Hb'. rewrite <-(take_drop j ps) in Hd. unfold residentes in Hd.
    rewrite bind_app in Hd. refine (por_pares_elem _ _ _ _ _ Hd (Hin _ k p sg _ Hs Hb) (Hin _ O q sq _ Hs' Hb')).
    - by rewrite lookup_take_lt.
    - by rewrite lookup_drop, Nat.add_0_r. }
  intros Hd Hk Hj Hne Hs Hb Hs' Hb'. destruct (decide (k < j)%nat) as [Hl|Hl]; [by eapply (Hlt k p sg j q sq)|].
  symmetry. apply (Hlt j q sq k p sg); try done. lia.
Qed.

(** C40: a context that a CPU saves with a segment table older than the one Memory
    has, as that it fetched before a compaction, is stored as it comes. If one of its
    segments shares an address with a segment that Memory has given to another
    process meanwhile, the save is answered ok all the same, both processes hold
    that address from then on, and no contents of RAM satisfy the invariant of
    Kernel Memory any more. *)
Theorem contexto_viejo_pisa_a_otro m s ctx resto k p j q sg sq x :
  es_int (c_pid ctx) -> es_u32 (c_pid ctx) -> registros_ok (c_registros ctx) -> segmentos_ok (tabla_segmentos ctx) ->
  pendiente m s (enviar_actualizar_contexto ctx) resto ->
  procesos_buscar (c_pid ctx) (procesos m) = Some k -> procesos m !! k = Some p ->
  procesos m !! j = Some q -> j <> k ->
  sg ∈ tabla_segmentos ctx -> s_base sg <> NEG1 -> en_rango (s_base sg) (s_limite sg) x ->
  sq ∈ segmentos q -> s_base sq <> NEG1 -> en_rango (s_base sq) (s_limite sq) x ->
  exists m1, manejar_actualizar_contexto_cpu s m = Some (tt, m1) /\
    m_salidas m1 = m_salidas m ++ [(s, enviar_ok ACTUALIZAR_CONTEXTO)] /\
    segmentos <$> procesos m1 !! k = Some (tabla_segmentos ctx) /\ procesos m1 !! j = Some q /\
    forall ram, ~ mem_inv m1 ram.
Proof.
  intros Hi Hu Hr Hs Hp Ek Hk Hj Hne Hsg Hbg Hxg Hsq Hbq Hxq.
  destruct (contexto_ida_vuelta m s ctx resto k p Hi Hu Hr Hs Hp Ek Hk) as (m1 & E & Eps & Es & _).
  set (p' := Proceso _ _ _ _) in Eps. exists m1. rewrite Eps.
  assert (Hk1 : <[k := p']> (procesos m) !! k = Some p') by (apply list_lookup_insert_eq; by eapply lookup_lt_Some).
  assert (Hj1 : <[k := p']> (procesos m) !! j = Some q) by (by rewrite list_lookup_insert_ne).
  split; [done|]. split; [done|]. split; [by rewrite Hk1|]. split; [done|]. intros ram [_ _ [_ Hd] _].
  apply por_pares_app in Hd as (_ & Hd & _). rewrite Eps in Hd.
  assert (Ha : ajenos (bloque_de sg) (bloque_de sq)) by (by eapply (residentes_de_dos _ k p' sg j q sq)).
  unfold ajenos, disjuntos, en_rango in *. cbn in Ha. lia.
Qed.

(** Process 1 has a segment at 5. A segment for process 2 makes Memory compact, with
    the agreement of the Scheduler, and takes that place; then the CPU of process 1
    saves the context it had. *)
Definition tras_compactar : option memoria :=
  snd <$> manejar_solicitar_segmento 3 (mem_pide (enviar_solicitar_segmento 2 2 3) (enviar_ok INICIAR_COMPACTACION)).
Definition guarda_despues (m : memoria) : memoria :=
  con_entradas {[4 := cuerpo (enviar_actualizar_contexto ctx_ejemplo) ++ []]} m.

Lemma contexto_viejo_pisa_a_otro_witness :
  exists m m1, tras_compactar = Some m /\
    segmentos <$> procesos (mem_pide [] []) !! 0%nat = Some (tabla_segmentos ctx_ejemplo) /\
    segmentos <$> procesos m !! 0%nat = Some [Segmento 0 2 2 0] /\
    manejar_actualizar_contexto_cpu 4 (guarda_despues m) = Some (tt, m1) /\
    segmentos <$> procesos m1 !! 0%nat = Some [Segmento 0 5 2 0] /\ forall ram, ~ mem_inv m1 ram.
Proof.
  assert (H : procesos <$> tras_compactar =
    Some [Proceso 1 registros_cero [Segmento 0 2 2 0] [];
          Proceso 2 registros_cero [Segmento 0 0 2 0; Segmento 1 NEG1 9 0; Segmento 2 4 3 0] []]) by (vm_compute; reflexivity).
  destruct tras_compactar as [m|]; [|discriminate H]. injection H as Hps.
  destruct (contexto_viejo_pisa_a_otro (guarda_despues m) 4 ctx_ejemplo [] 0 (Proceso 1 registros_cero [Segmento 0 2 2 0] [])
    1 (Proceso 2 registros_cero [Segmento 0 0 2 0; Segmento 1 NEG1 9 0; Segmento 2 4 3 0] []) (Segmento 0 5 2 0) (Segmento 2 4 3 0) 5)
    as (m1 & E & _ & Hk & _ & Hno).
  - unfold es_int; cbn; lia.
  - unfold es_u32; cbn; lia.
  - vm_compute; intuition congruence.
  - split; [|cbn; lia]. apply Forall_cons. split; [vm_compute; intuition congruence|apply Forall_nil_2].
  - reflexivity.
  - change (procesos (guarda_despues m)) with (procesos m). rewrite Hps. reflexivity.
  - change (procesos (guarda_despues m)) with (procesos m). by rewrite Hps.
  - change (procesos (guarda_despues m)) with (procesos m). by rewrite Hps.
  - discriminate.
  - left.
  - discriminate.
  - unfold en_rango; cbn; lia.
  - right; right; left.
  - discriminate.
  - unfold en_rango; cbn; lia.
  - exists m, m1. split; [reflexivity|]. split; [reflexivity|]. split; [by rewrite Hps|]. split; [exact E|]. split; [exact Hk|exact Hno].
Defined.
