(* ===== verification/CpuMmu.v ===== *)
(** * CpuMmu: the CPU's Memory Sticks and its MMU

    Models [cpu/src/cpu_types.h] (the shared state), the stick table and the
    direct accesses of [cpu/src/cpu_memory.c], and [cpu/src/cpu_mmu.c]; with them
    [mmu_leer] and [mmu_escribir] of [cpu/src/cpu_ciclo.c], which read and write
    through the translation. The bytes that Memory and the Scheduler send are
    inputs of the state; the devices behind the sticks' sockets answer as in
    [Memoria]. *)

From S2P Require Import Prelude Bloques Wire Buffer Tipos Mensajes Texto Conexiones Stick Swap Memoria MemoryIO Procesos.

(** ** Data *)

Record t_cpu_stick := CpuStick { k_socket : Z; k_base : Z; k_size : Z }.

(** What the requests to Memory wait for: [respuesta_pendiente],
    [instruccion_pendiente] and [contexto_pendiente], and the semaphore. *)
Record respuestas := Respuestas {
  codigo_pendiente : Z;
  instruccion_pendiente : option (list byte);
  contexto_pendiente : option (t_registros * list t_segmento);
  respuesta_lista : nat }.

(** [cpu_connections], [config_cpu->segment_max_size], the two sockets with the
    bytes in transit, and the devices. [c_avisos] holds the bytes that arrive
    from the Scheduler before each check for interrupts. *)
Record cpu := Cpu {
  segment_max_size_cpu : Z;
  memory_sticks : list t_cpu_stick;
  cpu_id_global : Z;
  c_respuestas : respuestas;
  interrupcion_pendiente : bool;
  motivo_interrupcion : Z;
  pid_a_ejecutar : Z;
  sem_proceso_listo : nat;
  pid_en_ejecucion : Z;
  memory_socket : Z;
  c_scheduler_socket : Z;
  c_de_memory : list byte;
  c_avisos : list (list byte);
  c_red : gmap Z (enlace stick);
  c_salidas : list (Z * list byte) }.

Definition con_sms (x : Z) (c : cpu) : cpu :=
  Cpu x (memory_sticks c) (cpu_id_global c) (c_respuestas c) (interrupcion_pendiente c) (motivo_interrupcion c)
    (pid_a_ejecutar c) (sem_proceso_listo c) (pid_en_ejecucion c) (memory_socket c) (c_scheduler_socket c) (c_de_memory c) (c_avisos c)
    (c_red c) (c_salidas c).
Definition con_cpu_sticks (x : list t_cpu_stick) (c : cpu) : cpu :=
  Cpu (segment_max_size_cpu c) x (cpu_id_global c) (c_respuestas c) (interrupcion_pendiente c) (motivo_interrupcion c)
    (pid_a_ejecutar c) (sem_proceso_listo c) (pid_en_ejecucion c) (memory_socket c) (c_scheduler_socket c) (c_de_memory c) (c_avisos c)
    (c_red c) (c_salidas c).
Definition con_respuestas (x : respuestas) (c : cpu) : cpu :=
  Cpu (segment_max_size_cpu c) (memory_sticks c) (cpu_id_global c) x (interrupcion_pendiente c) (motivo_interrupcion c)
    (pid_a_ejecutar c) (sem_proceso_listo c) (pid_en_ejecucion c) (memory_socket c) (c_scheduler_socket c) (c_de_memory c) (c_avisos c)
    (c_red c) (c_salidas c).
Definition con_interrupcion (b : bool) (motivo : Z) (c : cpu) : cpu :=
  Cpu (segment_max_size_cpu c) (memory_sticks c) (cpu_id_global c) (c_respuestas c) b motivo
    (pid_a_ejecutar c) (sem_proceso_listo c) (pid_en_ejecucion c) (memory_socket c) (c_scheduler_socket c) (c_de_memory c) (c_avisos c)
    (c_red c) (c_salidas c).
Definition con_pid_a_ejecutar (x : Z) (sem : nat) (c : cpu) : cpu :=
  Cpu (segment_max_size_cpu c) (memory_sticks c) (cpu_id_global c) (c_respuestas c) (interrupcion_pendiente c)
    (motivo_interrupcion c) x sem (pid_en_ejecucion c) (memory_socket c) (c_scheduler_socket c) (c_de_memory c)
    (c_avisos c) (c_red c) (c_salidas c).
Definition con_pid_en_ejecucion (x : Z) (c : cpu) : cpu :=
  Cpu (segment_max_size_cpu c) (memory_sticks c) (cpu_id_global c) (c_respuestas c) (interrupcion_pendiente c)
    (motivo_interrupcion c) (pid_a_ejecutar c) (sem_proceso_listo c) x (memory_socket c) (c_scheduler_socket c) (c_de_memory c)
    (c_avisos c) (c_red c) (c_salidas c).
Definition con_de_memory (x : list byte) (c : cpu) : cpu :=
  Cpu (segment_max_size_cpu c) (memory_sticks c) (cpu_id_global c) (c_respuestas c) (interrupcion_pendiente c)
    (motivo_interrupcion c) (pid_a_ejecutar c) (sem_proceso_listo c) (pid_en_ejecucion c) (memory_socket c) (c_scheduler_socket c) x
    (c_avisos c) (c_red c) (c_salidas c).
Definition con_avisos_sched (x : list (list byte)) (c : cpu) : cpu :=
  Cpu (segment_max_size_cpu c) (memory_sticks c) (cpu_id_global c) (c_respuestas c) (interrupcion_pendiente c)
    (motivo_interrupcion c) (pid_a_ejecutar c) (sem_proceso_listo c) (pid_en_ejecucion c) (memory_socket c) (c_scheduler_socket c)
    (c_de_memory c) x (c_red c) (c_salidas c).
Definition con_c_red (x : gmap Z (enlace stick)) (c : cpu) : cpu :=
  Cpu (segment_max_size_cpu c) (memory_sticks c) (cpu_id_global c) (c_respuestas c) (interrupcion_pendiente c)
    (motivo_interrupcion c) (pid_a_ejecutar c) (sem_proceso_listo c) (pid_en_ejecucion c) (memory_socket c) (c_scheduler_socket c)
    (c_de_memory c) (c_avisos c) x (c_salidas c).
Definition con_c_salidas (x : list (Z * list byte)) (c : cpu) : cpu :=
  Cpu (segment_max_size_cpu c) (memory_sticks c) (cpu_id_global c) (c_respuestas c) (interrupcion_pendiente c)
    (motivo_interrupcion c) (pid_a_ejecutar c) (sem_proceso_listo c) (pid_en_ejecucion c) (memory_socket c) (c_scheduler_socket c)
    (c_de_memory c) (c_avisos c) (c_red c) x.

Definition C := ST cpu.

Definition c_enviar (socket : Z) (bs : list byte) : C unit :=
  st_mod (fun c => con_c_salidas (c_salidas c ++ [(socket, bs)]) c).

(** ** The stick table ([cpu_memory.c]) *)

Definition cpu_get_memory_stick_count (c : cpu) : Z := Z.of_nat (length (memory_sticks c)).
Definition cpu_get_memory_stick_socket (index : Z) (l : list t_cpu_stick) : Z :=
  match en_tabla l index with Some s => k_socket s | None => -1 end.
Definition cpu_get_memory_stick_base (index : Z) (l : list t_cpu_stick) : Z :=
  match en_tabla l index with Some s => k_base s | None => 0 end.
Definition cpu_get_memory_stick_size (index : Z) (l : list t_cpu_stick) : Z :=
  match en_tabla l index with Some s => k_size s | None => 0 end.

Definition cpu_contiene_dir (dir_global : Z) (s : t_cpu_stick) : bool :=
  (dir_global >=? k_base s) && (dir_global <? (k_base s +u k_size s)%u32).
Definition cpu_buscar_stick_por_dir (dir_global : Z) (l : list t_cpu_stick) : Z :=
  match indice_de (cpu_contiene_dir dir_global) l with Some i => Z.of_nat i | None => -1 end.

Section conectar.
Variable crear_conexion : list byte -> list byte -> option (Z * stick).

Definition conectar_a_memory_stick (ip puerto : list byte) (base size : Z) : C bool :=
  match crear_conexion ip puerto with
  | None => mret false
  | Some (sock, d) =>
      _ ← st_mod (fun c => con_c_red (<[sock := Vivo d]> (c_red c)) c);
      id ← st_gets cpu_id_global;
      _ ← c_enviar sock (enviar_handshake_cpu id);
      c ← st_get;
      if cpu_get_memory_stick_count c <? MAX_MEMORY_STICKS then
        _ ← st_put (con_cpu_sticks (memory_sticks c ++ [CpuStick sock base size]) c); mret true
      else
        _ ← st_put (con_c_red (delete sock (c_red c)) c); mret false
  end.
End conectar.

(** ** Direct accesses to a stick *)

(** One request over a stick's socket: the bytes it answers. *)
Definition c_pedir (socket : Z) (pedido : list byte) : C (list byte) :=
  c ← st_get;
  match c_red c !! socket with
  | Some (Vivo d) =>
      let '(resp, e) := atiende d pedido in
      _ ← st_put (con_c_red (<[socket := e]> (c_red c)) c); mret resp
  | Some (Cortado resto) =>
      _ ← st_put (con_c_red (<[socket := Cortado []]> (c_red c)) c); mret resto
  | None => mret []
  end.

Definition c_leer_respuesta {A} (r : lector A) (resp : list byte) : C A :=
  match r resp with Some (a, _) => mret a | None => st_abort end.

Definition leer_de_memoria_fisica (stick_socket pid dir_fisica tamanio : Z) : C (option (list byte)) :=
  if stick_socket =? -1 then mret None
  else
    resp ← c_pedir stick_socket (enviar_lectura_fisica pid dir_fisica tamanio);
    let '(cod, resp) := recibir_codigo_operacion resp in
    if negb (cod =? op_num LECTURA_MEMORIA) then mret None
    else datos ← c_leer_respuesta (recibir_datos_memoria tamanio) resp; mret (Some datos).

Definition escribir_en_memoria_fisica (stick_socket pid dir_fisica : Z) (dato : list byte) : C bool :=
  if stick_socket =? -1 then mret false
  else
    resp ← c_pedir stick_socket (enviar_escritura_fisica pid dir_fisica dato);
    let '(cod, resp) := recibir_codigo_operacion resp in
    if negb (cod =? op_num ESCRITURA_MEMORIA) then mret false
    else _ ← c_leer_respuesta recibir_ok resp; mret true.

(** The same, by the index of the stick. *)
Definition cpu_stick_leer (stick_idx pid dir_local tam : Z) : C (option (list byte)) :=
  stick ← st_gets (fun c => cpu_get_memory_stick_socket stick_idx (memory_sticks c));
  leer_de_memoria_fisica stick pid dir_local tam.
Definition cpu_stick_escribir (stick_idx pid dir_local : Z) (datos : list byte) : C bool :=
  stick ← st_gets (fun c => cpu_get_memory_stick_socket stick_idx (memory_sticks c));
  escribir_en_memoria_fisica stick pid dir_local datos.

(** ** Translation ([cpu_mmu.c]) *)

Record t_traduccion_fisica := Traduccion { stick_index : Z; dir_fisica : Z; bytes_en_stick : Z }.

(** [None] is the division by a zero [segment_max_size]. *)
Definition mmu_descomponer_dir_logica (sms dir_logica : Z) : option (Z * Z) :=
  if sms =? 0 then None else Some (dir_logica / sms, dir_logica mod sms).

(** The [while (bytes_restantes > 0)] loop: what it returns and the portions it
    wrote in [resultado] either way. Every turn covers a byte at least. *)
Fixpoint mmu_bucle (n : nat) (l : list t_cpu_stick) (dir_actual bytes_restantes : Z)
    (resultado : list t_traduccion_fisica) : option (bool * list t_traduccion_fisica) :=
  if bytes_restantes <=? 0 then Some (true, resultado) else
  match n with
  | O => None
  | S n =>
      let idx := cpu_buscar_stick_por_dir dir_actual l in
      if idx <? 0 then Some (false, resultado)
      else
        let base := cpu_get_memory_stick_base idx l in
        let size := cpu_get_memory_stick_size idx l in
        let dir_local := (dir_actual -u base)%u32 in
        let espacio_en_stick := (size -u dir_local)%u32 in
        let chunk := if bytes_restantes <? espacio_en_stick then bytes_restantes else espacio_en_stick in
        mmu_bucle n l (dir_actual +u chunk)%u32 (bytes_restantes -u chunk)%u32
          (resultado ++ [Traduccion idx dir_local chunk])
  end.

(** The value returned, the array [resultado] and [*dir_fisica_global_out]
    ([None] where it is not written). *)
Definition mmu_traducir (l : list t_cpu_stick) (segs : list t_segmento) (num_segmento desplazamiento tamanio : Z)
    : option (bool * list t_traduccion_fisica * option Z) :=
  match buscar_segmento num_segmento segs with
  | None => Some (false, [], None)
  | Some seg =>
      if (desplazamiento +u tamanio)%u32 >? s_limite seg then Some (false, [], None)
      else
        let dir_fisica_global := (s_base seg +u desplazamiento)%u32 in
        match mmu_bucle (Z.to_nat tamanio) l dir_fisica_global tamanio [] with
        | None => None
        | Some r => Some (r, Some dir_fisica_global)
        end
  end.

Definition mmu_traducir_dir_logica (sms : Z) (l : list t_cpu_stick) (segs : list t_segmento)
    (dir_logica tamanio : Z) : option (bool * list t_traduccion_fisica * option Z) :=
  match mmu_descomponer_dir_logica sms dir_logica with
  | None => None
  | Some (num_segmento, desplazamiento) => mmu_traducir l segs num_segmento desplazamiento tamanio
  end.

(** ** Reading and writing through the MMU ([cpu_ciclo.c]) *)

Inductive t_resultado_execute := CONTINUAR | SYSCALL | EXIT_PROCESO | SEG_FAULT | ERROR.

#[export] Instance t_resultado_eq_dec : EqDecision t_resultado_execute.
Proof. solve_decision. Defined.

(** The [for (i ...)] loops over the portions. *)
Fixpoint leer_porciones (trad : list t_traduccion_fisica) (pid : Z) (buffer : list byte) : C (option (list byte)) :=
  match trad with
  | [] => mret (Some buffer)
  | t :: trad =>
      parte ← cpu_stick_leer (stick_index t) pid (dir_fisica t) (bytes_en_stick t);
      match parte with
      | None => mret None
      | Some parte => leer_porciones trad pid (buffer ++ parte)
      end
  end.
Fixpoint escribir_porciones (trad : list t_traduccion_fisica) (pid : Z) (datos : list byte) : C bool :=
  match trad with
  | [] => mret true
  | t :: trad =>
      ok ← cpu_stick_escribir (stick_index t) pid (dir_fisica t) (take (Z.to_nat (bytes_en_stick t)) datos);
      if (ok : bool) then escribir_porciones trad pid (drop (Z.to_nat (bytes_en_stick t)) datos) else mret false
  end.

(** [CONTINUAR] with the bytes read, or another result with none. *)
Definition mmu_leer (ctx : t_contexto) (dir_logica tam : Z) : C (t_resultado_execute * list byte) :=
  c ← st_get;
  t ← st_lift (mmu_traducir_dir_logica (segment_max_size_cpu c) (memory_sticks c) (tabla_segmentos ctx) dir_logica tam);
  match t with
  | (false, _, _) => mret (SEG_FAULT, [])
  | (true, trad, _) =>
      r ← leer_porciones trad (c_pid ctx) [];
      mret (match r with None => (ERROR, []) | Some buffer => (CONTINUAR, buffer) end)
  end.

Definition mmu_escribir (ctx : t_contexto) (dir_logica : Z) (datos : list byte) : C t_resultado_execute :=
  c ← st_get;
  t ← st_lift (mmu_traducir_dir_logica (segment_max_size_cpu c) (memory_sticks c) (tabla_segmentos ctx) dir_logica
                 (Z.of_nat (length datos)));
  match t with
  | (false, _, _) => mret SEG_FAULT
  | (true, trad, _) =>
      ok ← escribir_porciones trad (c_pid ctx) datos;
      mret (if (ok : bool) then CONTINUAR else ERROR)
  end.

(** ** Lemmas: the loop, for any table of 32-bit fields *)

Definition stick_u32 (s : t_cpu_stick) : Prop := es_u32 (k_base s) /\ es_u32 (k_size s).

Lemma en_tabla_nat {A} (l : list A) (i : nat) : en_tabla l (Z.of_nat i) = l !! i.
Proof.
  unfold en_tabla. destruct (Z.geb_spec (Z.of_nat i) 0); [|lia]. cbn. rewrite Nat2Z.id.
  destruct (Z.ltb_spec (Z.of_nat i) (Z.of_nat (length l))); [done|]. symmetry. apply lookup_ge_None. lia.
Qed.

(** Found: the address is inside the stick, whose range does not wrap around. *)
Lemma cpu_buscar_Some l d :
  Forall stick_u32 l ->
  (cpu_buscar_stick_por_dir d l = -1) \/
  (exists i s, cpu_buscar_stick_por_dir d l = Z.of_nat i /\ l !! i = Some s /\
     k_base s <= d < k_base s + k_size s /\ k_base s + k_size s < 4294967296 /\ 0 <= k_base s).
Proof.
  intros Hl. unfold cpu_buscar_stick_por_dir. destruct (indice_de _ l) as [i|] eqn:E; [|by left]. right.
  apply indice_de_Some in E as (s & Hs & Hc & _). exists i, s. split; [done|]. split; [done|].
  destruct (Forall_lookup_1 _ _ _ _ Hl Hs) as [Hb Hz]. unfold cpu_contiene_dir in Hc.
  apply andb_true_iff in Hc as [H1 H2]. apply Z.geb_le in H1. apply Z.ltb_lt in H2. u32_lia.
Qed.

(** One turn. *)
Lemma mmu_bucle_paso n l d rest acc :
  Forall stick_u32 l -> es_u32 d -> 0 < rest < 4294967296 ->
  (cpu_buscar_stick_por_dir d l = -1 /\ mmu_bucle (S n) l d rest acc = Some (false, acc)) \/
  (exists i s k, cpu_buscar_stick_por_dir d l = Z.of_nat i /\ l !! i = Some s /\
     k_base s <= d < k_base s + k_size s /\ k_base s + k_size s < 4294967296 /\ 0 <= k_base s /\
     k = Z.min rest (k_base s + k_size s - d) /\
     mmu_bucle (S n) l d rest acc =
     mmu_bucle n l (d + k) (rest - k) (acc ++ [Traduccion (Z.of_nat i) (d - k_base s) k])).
Proof.
  intros Hl Hd Hr. cbn [mmu_bucle]. destruct (Z.leb_spec rest 0); [lia|].
  destruct (cpu_buscar_Some l d Hl) as [E|(i & s & E & Hi & Hin & Hw & Hb)].
  { left. split; [done|]. by rewrite E. }
  right. exists i, s, (Z.min rest (k_base s + k_size s - d)). do 5 (split; [done|]). split; [done|].
  rewrite E. destruct (Z.ltb_spec (Z.of_nat i) 0); [lia|].
  unfold cpu_get_memory_stick_base, cpu_get_memory_stick_size. rewrite en_tabla_nat, Hi.
  rewrite (sub32_small d) by lia. rewrite (sub32_small (k_size s)) by lia.
  assert (Ek : (if rest <? k_size s - (d - k_base s) then rest else k_size s - (d - k_base s)) =
               Z.min rest (k_base s + k_size s - d)) by (destruct (Z.ltb_spec rest (k_size s - (d - k_base s))); lia).
  rewrite Ek, add32_small, sub32_small by lia. done.
Qed.

(** The sticks of the portions are different: each one ends at or before where
    the next portion starts. *)
Definition terminan_antes (l : list t_cpu_stick) (d : Z) (trad : list t_traduccion_fisica) : Prop :=
  Forall (fun t => exists i s, stick_index t = Z.of_nat i /\ l !! i = Some s /\ k_base s + k_size s <= d) trad.

Lemma mmu_bucle_termina n l : forall d rest acc,
  Forall stick_u32 l -> es_u32 d -> es_u32 rest -> rest <= Z.of_nat n ->
  (rest = 0 \/ terminan_antes l d acc) -> NoDup (stick_index <$> acc) ->
  Forall (fun t => exists i : nat, stick_index t = Z.of_nat i /\ (i < length l)%nat) acc ->
  exists ok res, mmu_bucle n l d rest acc = Some (ok, res) /\ NoDup (stick_index <$> res) /\
    Forall (fun t => exists i : nat, stick_index t = Z.of_nat i /\ (i < length l)%nat) res.
Proof.
  induction n as [|n IH]; intros d rest acc Hl Hd Hr Hn Hacc Hnd Hidx; unfold es_u32 in Hd, Hr.
  { cbn [mmu_bucle]. destruct (Z.leb_spec rest 0); [by exists true, acc|lia]. }
  destruct (Z.leb_spec rest 0) as [H|H].
  { exists true, acc. cbn [mmu_bucle]. by destruct (Z.leb_spec rest 0); [|lia]. }
  destruct Hacc as [?|Hacc]; [lia|].
  destruct (mmu_bucle_paso n l d rest acc Hl Hd ltac:(lia)) as [[_ ->]|(i & s & k & _ & Hi & Hin & Hw & Hb & Hk & ->)];
    [by exists false, acc|].
  apply IH; try (unfold es_u32; lia); [done| | |].
  - destruct (Z.eq_dec k rest) as [->|Hne]; [left; lia|]. right. apply Forall_app. split.
    + eapply Forall_impl; [exact Hacc|]. intros t (j & s' & E1 & E2 & E3). exists j, s'. split; [done|]. split; [done|lia].
    + apply Forall_singleton. exists i, s. split; [done|]. split; [done|lia].
  - rewrite fmap_app. apply NoDup_app. split; [done|]. split; [|apply NoDup_singleton].
    intros x (t & -> & Ht)%list_elem_of_fmap Hx. apply list_elem_of_singleton in Hx. cbn in Hx.
    unfold terminan_antes in Hacc. rewrite Forall_forall in Hacc.
    destruct (Hacc t Ht) as (j & s' & E1 & E2 & E3). assert (j = i) as -> by lia. rewrite Hi in E2. simplify_eq. lia.
  - apply Forall_app. split; [done|]. apply Forall_singleton. exists i. split; [done|]. by eapply lookup_lt_Some.
Qed.

(** Different indices below [n] are at most [n]. *)
Lemma indices_distintos (res : list t_traduccion_fisica) (n : nat) :
  NoDup (stick_index <$> res) -> Forall (fun t => exists i : nat, stick_index t = Z.of_nat i /\ (i < n)%nat) res ->
  (length res <= n)%nat.
Proof.
  intros Hnd Hidx. rewrite <-(length_fmap stick_index).
  assert (Hs : (stick_index <$> res) ⊆+ (Z.of_nat <$> seq 0 n)).
  { apply NoDup_submseteq; [done|]. intros x (t & -> & Ht)%list_elem_of_fmap.
    rewrite Forall_forall in Hidx. destruct (Hidx t Ht) as (i & -> & Hi).
    apply list_elem_of_fmap_2, elem_of_seq. lia. }
  apply submseteq_length in Hs. by rewrite (length_fmap Z.of_nat), length_seq in Hs.
Qed.

(** The translation ends for any address, any size and any table of sticks
    (however it was filled), and what it writes in the array of its caller, which
    has MAX_MEMORY_STICKS + 1 entries, is one entry at most for each stick. *)
Theorem mmu_traducir_sin_desborde sms l segs dir tam :
  Forall stick_u32 l -> Z.of_nat (length l) <= MAX_MEMORY_STICKS ->
  0 < sms -> es_u32 tam ->
  exists ok res out, mmu_traducir_dir_logica sms l segs dir tam = Some (ok, res, out) /\
    Z.of_nat (length res) <= Z.of_nat (length l) < MAX_MEMORY_STICKS + 1 /\ NoDup (stick_index <$> res).
Proof.
  intros Hl Hmax Hs Ht. unfold mmu_traducir_dir_logica, mmu_descomponer_dir_logica.
  destruct (Z.eqb_spec sms 0); [lia|]. unfold mmu_traducir.
  destruct (buscar_segmento _ segs) as [seg|].
  2: { eexists _, _, _. split; [done|]. split; [cbn; lia|constructor]. }
  destruct (_ >? _). { eexists _, _, _. split; [done|]. split; [cbn; lia|constructor]. }
  destruct (mmu_bucle_termina (Z.to_nat tam) l (s_base seg +u dir mod sms)%u32 tam [] Hl) as (ok & res & E & Hnd & Hidx);
    [apply u32_range|done|unfold es_u32 in Ht; lia|right; constructor|constructor|constructor|].
  rewrite E. exists ok, res. eexists. split; [done|]. split; [|done].
  pose proof (indices_distintos res (length l) Hnd Hidx). lia.
Qed.

(** ** The CPU's sticks as one memory *)

(** The CPU's table seen as Memory's: the lemmas of [MemoryIO] apply. *)
Definition entrada_de (s : t_cpu_stick) : t_memory_stick_entry :=
  StickE (-1) (k_size s) [] [] (k_socket s) (k_base s).
Definition como_memoria (c : cpu) : memoria :=
  Memoria (ConfigMemory 0 None None) (Conexiones (-1) [] (entrada_de <$> memory_sticks c) (-1)) [] []
    (Reserva 0 0 0) false (c_red c) (Cortado []) ∅ [] (fun _ => None).

Definition cpu_ram_es (c : cpu) (ram : list byte) : Prop := ram_es (como_memoria c) ram.

Lemma como_memoria_red r c : como_memoria (con_c_red r c) = con_red r (como_memoria c).
Proof. done. Qed.

(** A request seen from both sides. *)
Lemma c_pedir_ok c s pedido resp cerrado m' :
  pedir_a_stick s pedido (como_memoria c) = Some ((resp, cerrado), m') ->
  c_pedir s pedido c = Some (resp, con_c_red (m_red m') c).
Proof.
  unfold pedir_a_stick, c_pedir. st_unfold. cbn [m_red como_memoria].
  destruct (c_red c !! s) as [[d|r]|].
  - destruct (atiende d pedido) as [x e]. intros [= <- <- <-]. done.
  - intros [= <- <- <-]. done.
  - intros [= <- <- <-]. cbn. by destruct c.
Qed.

Section ubicados.
Context (c : cpu) (ds : list stick) (Hm : red_ok (como_memoria c) ds).

Lemma red_sticks_u32 : Forall stick_u32 (memory_sticks c).
Proof.
  destruct (rok_con _ _ Hm) as [_ _ Ht Htot Hb]. cbn in Ht, Htot, Hb.
  apply Forall_lookup. intros i s Hi.
  assert (Hi' : (entrada_de <$> memory_sticks c) !! i = Some (entrada_de s)) by (by rewrite list_lookup_fmap, Hi).
  destruct (base_rango _ i (entrada_de s) (rok_con _ _ Hm) Hi') as (H1 & H2 & H3 & _). cbn in H1, H2, H3.
  unfold es_u32 in *. split; unfold es_u32; lia.
Qed.

(** Both searches find the same stick. *)
Lemma cpu_buscar_como d :
  cpu_buscar_stick_por_dir d (memory_sticks c) = conexiones_buscar_stick_por_dir d (m_conexiones (como_memoria c)).
Proof.
  unfold cpu_buscar_stick_por_dir, conexiones_buscar_stick_por_dir. cbn [m_conexiones como_memoria sticks].
  pose proof (rok_enlaces _ _ Hm) as He. cbn in He.
  assert (H : indice_de (cpu_contiene_dir d) (memory_sticks c) =
              indice_de (contiene_dir d) (entrada_de <$> memory_sticks c)); [|by rewrite H].
  clear Hm. revert ds He. induction (memory_sticks c) as [|s l IH]; intros ds He; [done|].
  apply Forall2_cons_inv_l in He as (dv & ds' & (Ho & _) & He & ->). cbn [indice_de fmap list_fmap].
  assert (Hc : contiene_dir d (entrada_de s) = cpu_contiene_dir d s).
  { unfold contiene_dir, cpu_contiene_dir. cbn. cbn in Ho. destruct (Z.geb_spec (k_socket s) 0); [done|lia]. }
  rewrite Hc. destruct (cpu_contiene_dir d s); [done|]. by rewrite (IH ds' He).
Qed.

(** The stick that the loop finds, with its device. *)
Lemma cpu_ubicar d i s :
  0 <= d < Z.of_nat (length (ds ≫= memoria_buffer)) ->
  cpu_buscar_stick_por_dir d (memory_sticks c) = Z.of_nat i -> memory_sticks c !! i = Some s ->
  exists dv, ubicado (como_memoria c) ds d i (entrada_de s) dv.
Proof.
  intros Hd Hb Hi. destruct (ubicar (como_memoria c) ds d Hm Hd) as (j & s' & dv & Hu).
  rewrite cpu_buscar_como, (ub_buscar _ _ _ _ _ _ Hu) in Hb. assert (j = i) as -> by lia.
  pose proof (ub_stick _ _ _ _ _ _ Hu) as Hs. cbn in Hs. rewrite list_lookup_fmap, Hi in Hs.
  injection Hs as <-. by exists dv.
Qed.

Lemma cpu_buscar_dentro d :
  0 <= d < Z.of_nat (length (ds ≫= memoria_buffer)) -> cpu_buscar_stick_por_dir d (memory_sticks c) <> -1.
Proof.
  intros Hd. destruct (ubicar (como_memoria c) ds d Hm Hd) as (j & s' & dv & Hu).
  rewrite cpu_buscar_como, (ub_buscar _ _ _ _ _ _ Hu). lia.
Qed.

Lemma stick_socket_ok i s : memory_sticks c !! i = Some s ->
  cpu_get_memory_stick_socket (Z.of_nat i) (memory_sticks c) = k_socket s /\ 0 <= k_socket s.
Proof.
  intros Hi. unfold cpu_get_memory_stick_socket. rewrite en_tabla_nat, Hi. split; [done|].
  pose proof (rok_enlaces _ _ Hm) as He. cbn in He.
  destruct (Forall2_lookup_l _ _ _ i (entrada_de s) He) as (dv & _ & Ho & _); [by rewrite list_lookup_fmap, Hi|done].
Qed.

Lemma stick_leer_ok d i s pid k :
  0 <= d < Z.of_nat (length (ds ≫= memoria_buffer)) -> es_int pid -> 0 <= k -> d + k <= k_base s + k_size s ->
  cpu_buscar_stick_por_dir d (memory_sticks c) = Z.of_nat i -> memory_sticks c !! i = Some s ->
  exists x, leer_buffer (ds ≫= memoria_buffer) d k = Some x /\
    cpu_stick_leer (Z.of_nat i) pid (d - k_base s) k c = Some (Some x, c).
Proof.
  intros Hd Hp Hk Hfin Hb Hi. destruct (cpu_ubicar d i s Hd Hb Hi) as (dv & Hu).
  destruct (stick_socket_ok i s Hi) as [Es Hs].
  pose proof (rok_total _ _ Hm) as Htot. rewrite <-(enlaces_longitud _ _ _ (rok_enlaces _ _ Hm)) in Htot.
  pose proof (ub_fin _ _ _ _ _ _ Hu) as Hf. pose proof (ub_rango _ _ _ _ _ _ Hu) as Hr. cbn in Hf, Hr.
  destruct (pedir_lectura _ ds d i _ dv pid k Hu Hp Hk Hfin) as (x & Hx & Hxl & Hreq). cbn [st_outbound_socket st_base_fisica entrada_de] in Hx, Hreq.
  exists x. split; [by rewrite (ubicado_leer _ ds d i _ dv k Hu)|].
  unfold cpu_stick_leer, leer_de_memoria_fisica. st_unfold. rewrite Es.
  destruct (Z.eqb_spec (k_socket s) (-1)); [lia|]. st_unfold.
  rewrite (c_pedir_ok c _ _ _ _ _ Hreq). cbn [m_red como_memoria].
  replace (con_c_red (c_red c) c) with c by (by destruct c).
  rewrite codigo_trama_nil, Z.eqb_refl. cbn [negb]. unfold c_leer_respuesta, recibir_datos_memoria.
  unfold mbind, ST_bind. rewrite validar_buffer_nil by (unfold MAX_PAYLOAD; lia). unfold recv.
  destruct (Nat.leb_spec (Z.to_nat k) (length x)); [|lia]. rewrite take_ge by lia. done.
Qed.

Lemma stick_escribir_ok d i s pid x :
  0 <= d < Z.of_nat (length (ds ≫= memoria_buffer)) -> es_int pid -> d + Z.of_nat (length x) <= k_base s + k_size s ->
  cpu_buscar_stick_por_dir d (memory_sticks c) = Z.of_nat i -> memory_sticks c !! i = Some s ->
  exists r ds', cpu_stick_escribir (Z.of_nat i) pid (d - k_base s) x c = Some (true, con_c_red r c) /\
    red_ok (como_memoria (con_c_red r c)) ds' /\
    escribir_buffer (ds ≫= memoria_buffer) d x = Some (ds' ≫= memoria_buffer).
Proof.
  intros Hd Hp Hfin Hb Hi. destruct (cpu_ubicar d i s Hd Hb Hi) as (dv & Hu).
  destruct (stick_socket_ok i s Hi) as [Es Hs].
  pose proof (ub_rango _ _ _ _ _ _ Hu) as Hr. cbn in Hr.
  destruct (pedir_escritura _ ds d i _ dv pid x Hu Hp Hfin) as (b' & Hb' & Hreq). cbn [st_outbound_socket st_base_fisica entrada_de] in Hb', Hreq.
  eexists _, (<[i := Stick b' (memoria_size dv)]> ds). split; [|split].
  - unfold cpu_stick_escribir, escribir_en_memoria_fisica. st_unfold. rewrite Es.
    destruct (Z.eqb_spec (k_socket s) (-1)); [lia|]. st_unfold.
    rewrite (c_pedir_ok c _ _ _ _ _ Hreq). rewrite codigo_trama_nil, Z.eqb_refl. cbn [negb].
    unfold c_leer_respuesta, recibir_ok. unfold mbind, ST_bind.
    rewrite validar_buffer_nil by (unfold MAX_PAYLOAD; cbn; lia). reflexivity.
  - rewrite como_memoria_red. apply (red_ok_escribir _ ds d i _ dv b' Hm Hu).
    apply (length_escribir_buffer _ (d - k_base s) x); [lia|done].
  - apply (ubicado_escribir _ ds d i _ dv x b' Hu); done.
Qed.
End ubicados.

(** The portions of a range: what the loop leaves in [resultado]. *)
Fixpoint porciones (l : list t_cpu_stick) (d rest : Z) (trad : list t_traduccion_fisica) : Prop :=
  match trad with
  | [] => rest = 0
  | t :: trad =>
      exists i s k, cpu_buscar_stick_por_dir d l = Z.of_nat i /\ l !! i = Some s /\
        t = Traduccion (Z.of_nat i) (d - k_base s) k /\ 0 < k <= rest /\ d + k <= k_base s + k_size s /\
        porciones l (d + k) (rest - k) trad
  end.

(** Inside the memory the loop succeeds; past its end it fails. *)
Lemma mmu_bucle_dentro c ds n : forall d rest acc,
  red_ok (como_memoria c) ds -> 0 <= d -> 0 <= rest -> rest <= Z.of_nat n ->
  d + rest <= Z.of_nat (length (ds ≫= memoria_buffer)) ->
  exists trad, mmu_bucle n (memory_sticks c) d rest acc = Some (true, acc ++ trad) /\
    porciones (memory_sticks c) d rest trad.
Proof.
  induction n as [|n IH]; intros d rest acc Hm Hd Hr Hn Hfin.
  { assert (rest = 0) as -> by lia. exists []. cbn. by rewrite app_nil_r. }
  destruct (decide (rest = 0)) as [->|Hne]; [exists []; cbn; by rewrite app_nil_r|].
  pose proof (rok_total _ _ Hm) as Htot. rewrite <-(enlaces_longitud _ _ _ (rok_enlaces _ _ Hm)) in Htot.
  destruct (mmu_bucle_paso n (memory_sticks c) d rest acc (red_sticks_u32 c ds Hm))
    as [[E _]|(i & s & k & Hb & Hi & Hin & Hw & Hb0 & Hk & ->)]; [unfold es_u32; lia|lia| |].
  { exfalso. by apply (cpu_buscar_dentro c ds Hm d); [lia|]. }
  destruct (IH (d + k) (rest - k) (acc ++ [Traduccion (Z.of_nat i) (d - k_base s) k]) Hm) as (trad & E & Ht); [lia..|].
  exists (Traduccion (Z.of_nat i) (d - k_base s) k :: trad). rewrite E, <-app_assoc. split; [done|].
  exists i, s, k. repeat (split; [done || lia|]). done.
Qed.

Lemma mmu_bucle_fuera c ds n : forall d rest acc,
  red_ok (como_memoria c) ds -> 0 <= d < 2147483648 -> 0 < rest < 4294967296 -> rest <= Z.of_nat n ->
  Z.of_nat (length (ds ≫= memoria_buffer)) < d + rest ->
  exists trad, mmu_bucle n (memory_sticks c) d rest acc = Some (false, trad).
Proof.
  induction n as [|n IH]; intros d rest acc Hm Hd Hr Hn Hfin; [lia|].
  pose proof (rok_total _ _ Hm) as Htot. rewrite <-(enlaces_longitud _ _ _ (rok_enlaces _ _ Hm)) in Htot.
  destruct (mmu_bucle_paso n (memory_sticks c) d rest acc (red_sticks_u32 c ds Hm))
    as [[_ E]|(i & s & k & Hb & Hi & Hin & Hw & Hb0 & Hk & ->)]; [unfold es_u32; lia|lia|by eexists|].
  assert (Hlim : k_base s + k_size s <= Z.of_nat (length (ds ≫= memoria_buffer))).
  { rewrite (enlaces_longitud _ _ _ (rok_enlaces _ _ Hm)).
    assert (Hi' : sticks (m_conexiones (como_memoria c)) !! i = Some (entrada_de s))
      by (cbn; by rewrite list_lookup_fmap, Hi).
    by destruct (base_rango _ i _ (rok_con _ _ Hm) Hi') as (_ & ? & _). }
  apply IH; [done|lia..].
Qed.

Lemma leer_porciones_ok c ds pid trad : forall d rest buf,
  red_ok (como_memoria c) ds -> es_int pid -> 0 <= d -> 0 <= rest ->
  d + rest <= Z.of_nat (length (ds ≫= memoria_buffer)) -> porciones (memory_sticks c) d rest trad ->
  exists x, leer_buffer (ds ≫= memoria_buffer) d rest = Some x /\
    leer_porciones trad pid buf c = Some (Some (buf ++ x), c).
Proof.
  induction trad as [|t trad IH]; intros d rest buf Hm Hp Hd Hr Hfin Ht.
  { cbn in Ht. subst rest. exists []. cbn. rewrite app_nil_r. split; [|done]. unfold leer_buffer.
    by destruct (Z.leb_spec (d + 0) (Z.of_nat (length (ds ≫= memoria_buffer)))); [|lia]. }
  destruct Ht as (i & s & k & Hb & Hi & -> & Hk & Hke & Ht). cbn [leer_porciones stick_index dir_fisica bytes_en_stick].
  destruct (stick_leer_ok c ds Hm d i s pid k ltac:(lia) Hp ltac:(lia) Hke Hb Hi) as (x & Hx & E).
  rewrite (st_bind_ok _ _ _ _ _ E).
  destruct (IH (d + k) (rest - k) (buf ++ x) Hm Hp) as (y & Hy & E2); [lia..|done|].
  exists (x ++ y). rewrite E2, app_assoc. split; [|done]. replace rest with (k + (rest - k)) by lia.
  apply (leer_buffer_app _ d k); [lia..|done|done].
Qed.

Lemma escribir_porciones_ok pid trad : forall c ds d datos,
  red_ok (como_memoria c) ds -> es_int pid -> 0 <= d ->
  d + Z.of_nat (length datos) <= Z.of_nat (length (ds ≫= memoria_buffer)) ->
  porciones (memory_sticks c) d (Z.of_nat (length datos)) trad ->
  exists r ds', escribir_porciones trad pid datos c = Some (true, con_c_red r c) /\
    red_ok (como_memoria (con_c_red r c)) ds' /\
    escribir_buffer (ds ≫= memoria_buffer) d datos = Some (ds' ≫= memoria_buffer).
Proof.
  induction trad as [|t trad IH]; intros c ds d datos Hm Hp Hd Hfin Ht.
  { cbn in Ht. assert (datos = []) as -> by (destruct datos; [done|cbn in Ht; lia]).
    exists (c_red c), ds. replace (con_c_red (c_red c) c) with c by (by destruct c). split; [done|]. split; [done|].
    unfold escribir_buffer. cbn [length] in *. destruct (Z.leb_spec (d + Z.of_nat 0) (Z.of_nat (length (ds ≫= memoria_buffer)))); [|lia].
    by rewrite app_nil_l, Nat.add_0_r, take_drop. }
  destruct Ht as (i & s & k & Hb & Hi & -> & Hk & Hke & Ht).
  cbn [escribir_porciones stick_index dir_fisica bytes_en_stick]. set (x := take (Z.to_nat k) datos).
  assert (Hx : Z.of_nat (length x) = k) by (unfold x; rewrite length_take; lia).
  destruct (stick_escribir_ok c ds Hm d i s pid x ltac:(lia) Hp ltac:(lia) Hb Hi) as (r & ds1 & E & Hm1 & Hw).
  rewrite (st_bind_ok _ _ _ _ _ E). cbn beta iota.
  pose proof (length_escribir_buffer _ _ _ _ Hd Hw) as Hl.
  destruct (IH (con_c_red r c) ds1 (d + k) (drop (Z.to_nat k) datos) Hm1 Hp) as (r2 & ds2 & E2 & Hm2 & Hw2);
    [lia|rewrite length_drop; lia| |].
  { rewrite length_drop. by replace (Z.of_nat (length datos - Z.to_nat k)) with (Z.of_nat (length datos) - k) by lia. }
  exists r2, ds2. split; [exact E2|]. split; [exact Hm2|]. rewrite <-(take_drop (Z.to_nat k) datos). fold x.
  apply (escribir_buffer_app _ _ _ _ (ds1 ≫= memoria_buffer)); [done..|]. by rewrite Hx.
Qed.

(** ** Accesses of a process *)

(** What an access needs: sound sticks, and a process whose segments are in RAM. *)
Record mmu_listo (c : cpu) (ctx : t_contexto) (ram : list byte) : Prop := {
  ml_ram : cpu_ram_es c ram;
  ml_sms : 0 < segment_max_size_cpu c <= 1073741824;
  ml_pid : es_int (c_pid ctx);
  ml_segs : Forall (fun s => 0 <= s_base s /\ 0 <= s_limite s /\ s_base s + s_limite s <= Z.of_nat (length ram))
              (tabla_segmentos ctx) }.

Definition acceso_cpu (sms : Z) (segs : list t_segmento) (dir tam : Z) (seg : t_segmento) : Prop :=
  buscar_segmento (dir / sms) segs = Some seg /\ dir mod sms + tam <= s_limite seg.

(** The translation, on both outcomes. *)
Lemma mmu_traducir_casos c ctx ram dir tam :
  mmu_listo c ctx ram -> es_u32 tam ->
  let sms := segment_max_size_cpu c in
  (exists seg trad, acceso_cpu sms (tabla_segmentos ctx) dir tam seg /\
     0 <= s_base seg + dir mod sms /\ s_base seg + dir mod sms + tam <= Z.of_nat (length ram) /\
     mmu_traducir_dir_logica sms (memory_sticks c) (tabla_segmentos ctx) dir tam =
       Some (true, trad, Some (s_base seg + dir mod sms)) /\
     porciones (memory_sticks c) (s_base seg + dir mod sms) tam trad) \/
  ((forall seg, ~ acceso_cpu sms (tabla_segmentos ctx) dir tam seg) /\
   exists trad out, mmu_traducir_dir_logica sms (memory_sticks c) (tabla_segmentos ctx) dir tam = Some (false, trad, out)).
Proof.
  intros [(ds & Hm & ->) Hs Hp Hsegs] Ht sms.
  pose proof (rok_total _ _ Hm) as Htot. rewrite <-(enlaces_longitud _ _ _ (rok_enlaces _ _ Hm)) in Htot.
  unfold mmu_traducir_dir_logica, mmu_descomponer_dir_logica, mmu_traducir, acceso_cpu. fold sms in Hs |- *.
  destruct (Z.eqb_spec sms 0); [lia|]. pose proof (Z.mod_pos_bound dir sms ltac:(lia)) as Hoff.
  destruct (buscar_segmento (dir / sms) (tabla_segmentos ctx)) as [seg|] eqn:E.
  2: { right. split; [intros seg [? _]; done|]. by eexists _, _. }
  assert (Hin : seg ∈ tabla_segmentos ctx).
  { unfold buscar_segmento in E. destruct (indice_de _ (tabla_segmentos ctx)) as [i|]; [|done].
    by apply list_elem_of_lookup_2 in E. }
  destruct (proj1 (Forall_forall _ _) Hsegs _ Hin) as (Hb & Hl & Hend). unfold es_u32 in Ht.
  rewrite (add32_small (s_base seg)) by lia. set (off := dir mod sms) in *.
  destruct (decide (off + tam <= s_limite seg)) as [Hok|Hno].
  - left. rewrite add32_small by lia. destruct (Z.gtb_spec (off + tam) (s_limite seg)); [lia|].
    destruct (mmu_bucle_dentro c ds (Z.to_nat tam) (s_base seg + off) tam [] Hm) as (trad & -> & Htr); [lia..|].
    exists seg, trad. split; [done|]. split; [lia|]. split; [lia|]. by split.
  - right. split; [intros seg' [? ?]; simplify_eq; lia|].
    destruct (Z.gtb_spec (off +u tam)%u32 (s_limite seg)) as [|Hle]; [by eexists _, _|].
    assert (4294967296 <= off + tam) by (unfold add32, u32 in Hle; destruct (Z.lt_ge_cases (off + tam) 4294967296);
      [rewrite Z.mod_small in Hle by lia; lia|done]).
    destruct (mmu_bucle_fuera c ds (Z.to_nat tam) (s_base seg + off) tam [] Hm) as (trad & ->); [lia..|].
    by eexists _, _.
Qed.

Lemma mmu_leer_ok c ctx ram dir tam :
  mmu_listo c ctx ram -> es_u32 tam ->
  let sms := segment_max_size_cpu c in
  (forall seg, acceso_cpu sms (tabla_segmentos ctx) dir tam seg ->
     exists x, leer_buffer ram (s_base seg + dir mod sms) tam = Some x /\
       mmu_leer ctx dir tam c = Some ((CONTINUAR, x), c)) /\
  ((forall seg, ~ acceso_cpu sms (tabla_segmentos ctx) dir tam seg) ->
     mmu_leer ctx dir tam c = Some ((SEG_FAULT, []), c)).
Proof.
  intros Hl Ht sms. unfold mmu_leer. st_unfold. unfold st_lift.
  destruct (mmu_traducir_casos c ctx ram dir tam Hl Ht) as [(seg & trad & Ha & H0 & H1 & E & Htr)|(Hno & trad & out & E)];
    fold sms in E |- *; rewrite E; cbn [fmap option_fmap option_map].
  - split; [|intros Hno; by destruct (Hno seg)]. intros seg' Ha'. fold sms in Ha.
    assert (seg' = seg) as -> by (destruct Ha, Ha'; congruence).
    destruct (ml_ram _ _ _ Hl) as (ds & Hm & Hram). fold sms in H0, H1, Htr. rewrite Hram in H1 |- *. unfold es_u32 in Ht.
    destruct (leer_porciones_ok c ds (c_pid ctx) trad (s_base seg + dir mod sms) tam [] Hm (ml_pid _ _ _ Hl))
      as (x & Hx & E2); [lia..|done|]. rewrite E2. by exists x.
  - split; [intros seg Ha; by destruct (Hno seg)|done].
Qed.

Lemma mmu_escribir_ok c ctx ram dir datos :
  mmu_listo c ctx ram -> Z.of_nat (length datos) < 4294967296 ->
  let sms := segment_max_size_cpu c in
  (forall seg, acceso_cpu sms (tabla_segmentos ctx) dir (Z.of_nat (length datos)) seg ->
     exists r ram', escribir_buffer ram (s_base seg + dir mod sms) datos = Some ram' /\
       mmu_escribir ctx dir datos c = Some (CONTINUAR, con_c_red r c) /\ cpu_ram_es (con_c_red r c) ram') /\
  ((forall seg, ~ acceso_cpu sms (tabla_segmentos ctx) dir (Z.of_nat (length datos)) seg) ->
     mmu_escribir ctx dir datos c = Some (SEG_FAULT, c)).
Proof.
  intros Hl Ht sms. unfold mmu_escribir. st_unfold. unfold st_lift.
  assert (Htu : es_u32 (Z.of_nat (length datos))) by (unfold es_u32; lia).
  destruct (mmu_traducir_casos c ctx ram dir _ Hl Htu) as [(seg & trad & Ha & H0 & H1 & E & Htr)|(Hno & trad & out & E)];
    fold sms in E |- *; rewrite E; cbn [fmap option_fmap option_map].
  - split; [|intros Hno; by destruct (Hno seg)]. intros seg' Ha'. fold sms in Ha.
    assert (seg' = seg) as -> by (destruct Ha, Ha'; congruence).
    destruct (ml_ram _ _ _ Hl) as (ds & Hm & Hram). fold sms in H0, H1, Htr. rewrite Hram in H1 |- *.
    destruct (escribir_porciones_ok (c_pid ctx) trad c ds (s_base seg + dir mod sms) datos Hm (ml_pid _ _ _ Hl) H0 H1 Htr)
      as (r & ds' & E2 & Hm2 & Hw). rewrite E2. exists r, (ds' ≫= memoria_buffer). split; [done|]. split; [done|].
    by exists ds'.
  - split; [intros seg Ha; by destruct (Hno seg)|done].
Qed.

(** C12: through its MMU a process reads the bytes of the segment it names, and a
    write puts its bytes there and nowhere else, even when the access spans
    several Memory Sticks; an access to no segment of its own, or past the end of
    one (however large its size), is a [SEG_FAULT] that touches nothing. *)
Theorem mmu_acceso_correcto c ctx ram dir datos :
  mmu_listo c ctx ram -> Z.of_nat (length datos) < 4294967296 ->
  let tam := Z.of_nat (length datos) in
  let sms := segment_max_size_cpu c in
  (forall seg, acceso_cpu sms (tabla_segmentos ctx) dir tam seg ->
     let d := s_base seg + dir mod sms in
     mmu_leer ctx dir tam c = Some ((CONTINUAR, default [] (leer_buffer ram d tam)), c) /\
     exists c' ram', mmu_escribir ctx dir datos c = Some (CONTINUAR, c') /\ cpu_ram_es c' ram' /\
       mmu_leer ctx dir tam c' = Some ((CONTINUAR, datos), c') /\
       (forall d' t', 0 <= d' -> 0 <= t' -> disjuntos d tam d' t' -> leer_buffer ram' d' t' = leer_buffer ram d' t')) /\
  ((forall seg, ~ acceso_cpu sms (tabla_segmentos ctx) dir tam seg) ->
     mmu_leer ctx dir tam c = Some ((SEG_FAULT, []), c) /\ mmu_escribir ctx dir datos c = Some (SEG_FAULT, c)).
Proof.
  intros Hl Ht tam sms. assert (Htu : es_u32 tam) by (unfold es_u32, tam; lia).
  destruct (mmu_leer_ok c ctx ram dir tam Hl Htu) as [HL1 HL2].
  destruct (mmu_escribir_ok c ctx ram dir datos Hl Ht) as [HE1 HE2]. fold sms tam in HL1, HL2, HE1, HE2.
  split; [|intros Hno; split; [by apply HL2|by apply HE2]]. intros seg Ha d.
  destruct (HL1 seg Ha) as (x & Hx & E1). fold d in Hx. split; [by rewrite E1, Hx|].
  destruct (HE1 seg Ha) as (r & ram' & Hw & E2 & Hr2). fold d in Hw.
  exists (con_c_red r c), ram'. split; [done|]. split; [done|].
  assert (Hd : 0 <= d).
  { pose proof (ml_sms _ _ _ Hl) as Hs. fold sms in Hs. pose proof (Z.mod_pos_bound dir sms ltac:(lia)).
    destruct Ha as [Hb _]. assert (Hin : seg ∈ tabla_segmentos ctx).
    { unfold buscar_segmento in Hb. destruct (indice_de _ (tabla_segmentos ctx)) as [i|]; [|done].
      by apply list_elem_of_lookup_2 in Hb. }
    destruct (proj1 (Forall_forall _ _) (ml_segs _ _ _ Hl) _ Hin). unfold d. lia. }
  split.
  - assert (Hl2 : mmu_listo (con_c_red r c) ctx ram').
    { destruct Hl as [_ A B D]. split; [done..|]. by rewrite (length_escribir_buffer _ _ _ _ Hd Hw). }
    destruct (mmu_leer_ok (con_c_red r c) ctx ram' dir tam Hl2 Htu) as [H _].
    destruct (H seg Ha) as (y & Hy & ->). change (segment_max_size_cpu (con_c_red r c)) with sms in Hy.
    fold d in Hy. unfold tam in Hy. rewrite (leer_escribir _ _ _ _ Hd Hw) in Hy. by injection Hy as ->.
  - intros d' t' H1 H2 Hdis. by apply (leer_escribir_disjunto ram d datos).
Qed.

(** ** Witnesses: two sticks, and a segment that spans them *)

Definition cpu_ejemplo : cpu :=
  Cpu 64 [CpuStick 5 0 4; CpuStick 7 4 3] 1 (Respuestas 0 None None 0) false 0 0 0 (-1) 3 4 [] []
    (<[5 := Vivo (Stick [x01; x02; x03; x04] 4)]> (<[7 := Vivo (Stick [x05; x06; x07] 3)]> ∅)) [].
Definition ctx_cpu : t_contexto := Contexto 1 registros_cero [Segmento 0 2 5 0].

Lemma cpu_ejemplo_listo : mmu_listo cpu_ejemplo ctx_cpu [x01; x02; x03; x04; x05; x06; x07].
Proof.
  split.
  - exists [Stick [x01; x02; x03; x04] 4; Stick [x05; x06; x07] 3]. split; [|done]. split.
    + split; [vm_compute; congruence|vm_compute; congruence| |vm_compute; congruence|].
      * repeat first [apply Forall_nil_2 | apply Forall_cons_2]; vm_compute; intuition congruence.
      * intros [|[|i]] s Hi; cbn in Hi; [injection Hi as <-; reflexivity..|discriminate].
    + vm_compute; congruence.
    + repeat constructor; vm_compute; congruence.
    + vm_compute. repeat constructor; set_solver.
  - cbn. lia.
  - unfold es_int. cbn. lia.
  - apply Forall_cons. split; [cbn; lia|apply Forall_nil_2].
Qed.

Lemma mmu_traducir_sin_desborde_witness :
  exists ok res out, mmu_traducir_dir_logica 64 (memory_sticks cpu_ejemplo) (tabla_segmentos ctx_cpu) 1 4 =
    Some (ok, res, out) /\ Z.of_nat (length res) <= 2.
Proof.
  destruct (mmu_traducir_sin_desborde 64 (memory_sticks cpu_ejemplo) (tabla_segmentos ctx_cpu) 1 4)
    as (ok & res & out & E & Hl & _); [|vm_compute; congruence|lia|unfold es_u32; lia|].
  - repeat first [apply Forall_nil_2 | apply Forall_cons_2]; vm_compute; intuition congruence.
  - exists ok, res, out. split; [exact E|exact (proj1 Hl)].
Defined.

Lemma mmu_acceso_correcto_witness :
  mmu_leer ctx_cpu 1 2 cpu_ejemplo = Some ((CONTINUAR, [x04; x05]), cpu_ejemplo) /\
  (exists c', mmu_escribir ctx_cpu 1 [x0a; x0b] cpu_ejemplo = Some (CONTINUAR, c') /\
     mmu_leer ctx_cpu 1 2 c' = Some ((CONTINUAR, [x0a; x0b]), c')) /\
  mmu_escribir ctx_cpu 4 [x0a; x0b] cpu_ejemplo = Some (SEG_FAULT, cpu_ejemplo).
Proof.
  split; [|split].
  - destruct (mmu_acceso_correcto cpu_ejemplo ctx_cpu _ 1 [x00; x00] cpu_ejemplo_listo) as [H _]; [cbn; lia|].
    destruct (H (Segmento 0 2 5 0)) as [E _]; [split; [reflexivity|vm_compute; congruence]|exact E].
  - destruct (mmu_acceso_correcto cpu_ejemplo ctx_cpu _ 1 [x0a; x0b] cpu_ejemplo_listo) as [H _]; [cbn; lia|].
    destruct (H (Segmento 0 2 5 0)) as (_ & c' & ram' & E & _ & E2 & _); [split; [reflexivity|vm_compute; congruence]|].
    exists c'. split; [exact E|exact E2].
  - destruct (mmu_acceso_correcto cpu_ejemplo ctx_cpu _ 4 [x0a; x0b] cpu_ejemplo_listo) as [_ H]; [cbn; lia|].
    apply H. intros seg [Hs Hl]. vm_compute in Hs. injection Hs as <-. vm_compute in Hl. congruence.
Defined.
