(* ===== verification/CpuInstr.v ===== *)
(** * CpuInstr: the instructions of the CPU

    Models the registers, the execution of each instruction and their dispatcher,
    of [cpu/src/cpu_ciclo.c]. Strings are their bytes, without the NUL. *)

From Stdlib Require Import Strings.String.
From S2P Require Import Prelude Bloques Wire Buffer Tipos Mensajes Texto Conexiones Stick Swap Memoria MemoryIO Procesos CpuMmu.

(** ** Instructions *)

Record t_instruccion := Instruccion {
  nombre : list byte;
  parametros : list (list byte);
  requiere_mmu : bool;
  es_syscall : bool;
  es_syscall_memoria : bool }.
Definition cantidad_parametros (i : t_instruccion) : Z := Z.of_nat (length (parametros i)).

Definition es_instruccion_cpu_memoria (nombre : list byte) : bool :=
  strcmp0 nombre "MOV_IN" || strcmp0 nombre "MOV_OUT" || strcmp0 nombre "COPY_MEM".
Definition es_syscall_nombre (nombre : list byte) : bool :=
  strcmp0 nombre "SLEEP" || strcmp0 nombre "STDIN" || strcmp0 nombre "STDOUT" || strcmp0 nombre "INIT_PROC" ||
  strcmp0 nombre "EXIT" || strcmp0 nombre "MEM_ALLOC" || strcmp0 nombre "MEM_FREE" ||
  strcmp0 nombre "MUTEX_CREATE" || strcmp0 nombre "MUTEX_LOCK" || strcmp0 nombre "MUTEX_UNLOCK".
Definition es_syscall_memoria_nombre (nombre : list byte) : bool :=
  strcmp0 nombre "STDIN" || strcmp0 nombre "STDOUT".

(** ** Registers *)

Definition obtener_valor_registro (reg : t_registros) (nombre_reg : list byte) : Z :=
  if strcmp0 nombre_reg "AX" then ax reg
  else if strcmp0 nombre_reg "BX" then bx reg
  else if strcmp0 nombre_reg "CX" then cx reg
  else if strcmp0 nombre_reg "DX" then dx reg
  else if strcmp0 nombre_reg "EAX" then eax reg
  else if strcmp0 nombre_reg "EBX" then ebx reg
  else if strcmp0 nombre_reg "ECX" then ecx reg
  else if strcmp0 nombre_reg "EDX" then edx reg
  else if strcmp0 nombre_reg "SI" then si reg
  else if strcmp0 nombre_reg "DI" then di reg
  else 0.

Definition asignar_valor_registro (r : t_registros) (nombre_reg : list byte) (valor : Z) : t_registros :=
  let '(Registros p a b c d ea eb ec ed s i) := r in
  if strcmp0 nombre_reg "AX" then Registros p (u8 valor) b c d ea eb ec ed s i
  else if strcmp0 nombre_reg "BX" then Registros p a (u8 valor) c d ea eb ec ed s i
  else if strcmp0 nombre_reg "CX" then Registros p a b (u8 valor) d ea eb ec ed s i
  else if strcmp0 nombre_reg "DX" then Registros p a b c (u8 valor) ea eb ec ed s i
  else if strcmp0 nombre_reg "EAX" then Registros p a b c d valor eb ec ed s i
  else if strcmp0 nombre_reg "EBX" then Registros p a b c d ea valor ec ed s i
  else if strcmp0 nombre_reg "ECX" then Registros p a b c d ea eb valor ed s i
  else if strcmp0 nombre_reg "EDX" then Registros p a b c d ea eb ec valor s i
  else if strcmp0 nombre_reg "SI" then Registros p a b c d ea eb ec ed valor i
  else if strcmp0 nombre_reg "DI" then Registros p a b c d ea eb ec ed s valor
  else r.

Definition con_pc (v : Z) (r : t_registros) : t_registros :=
  Registros v (ax r) (bx r) (cx r) (dx r) (eax r) (ebx r) (ecx r) (edx r) (si r) (di r).

Definition sizeof_registro (nombre : list byte) : Z :=
  if strcmp0 nombre "AX" || strcmp0 nombre "BX" || strcmp0 nombre "CX" || strcmp0 nombre "DX" then 1 else 4.

(** ** Execute: each instruction gives its result and the context after it *)

Definition con_registros (r : t_registros) (ctx : t_contexto) : t_contexto :=
  Contexto (c_pid ctx) r (tabla_segmentos ctx).

Definition ejecutar_mov_in (instr : t_instruccion) (ctx : t_contexto) : C (t_resultado_execute * t_contexto) :=
  match parametros instr with
  | [] => mret (ERROR, ctx)
  | reg :: _ =>
      let tamanio := sizeof_registro reg in
      '(r, dato) ← mmu_leer ctx (si (c_registros ctx)) tamanio;
      if decide (r = CONTINUAR)
      then mret (CONTINUAR, con_registros (asignar_valor_registro (c_registros ctx) reg (le_dec dato)) ctx)
      else mret (r, ctx)
  end.

Definition ejecutar_mov_out (instr : t_instruccion) (ctx : t_contexto) : C (t_resultado_execute * t_contexto) :=
  match parametros instr with
  | [] => mret (ERROR, ctx)
  | reg :: _ =>
      let tamanio := sizeof_registro reg in
      let valor := obtener_valor_registro (c_registros ctx) reg in
      r ← mmu_escribir ctx (di (c_registros ctx)) (take (Z.to_nat tamanio) (le_enc 4 valor));
      mret (r, ctx)
  end.

Definition ejecutar_copy_mem (instr : t_instruccion) (ctx : t_contexto) : C (t_resultado_execute * t_contexto) :=
  match parametros instr with
  | [] => mret (ERROR, ctx)
  | reg :: _ =>
      let tamanio := obtener_valor_registro (c_registros ctx) reg in
      '(r, dato) ← mmu_leer ctx (si (c_registros ctx)) tamanio;
      if decide (r = CONTINUAR)
      then r ← mmu_escribir ctx (di (c_registros ctx)) dato; mret (r, ctx)
      else mret (r, ctx)
  end.

Definition ejecutar_instruccion_mmu (instr : t_instruccion) (ctx : t_contexto) : C (t_resultado_execute * t_contexto) :=
  if strcmp0 (nombre instr) "MOV_IN" then ejecutar_mov_in instr ctx
  else if strcmp0 (nombre instr) "MOV_OUT" then ejecutar_mov_out instr ctx
  else if strcmp0 (nombre instr) "COPY_MEM" then ejecutar_copy_mem instr ctx
  else mret (ERROR, ctx).

(** The last component is [pc_modificado]. *)
Definition ejecutar_set (ctx : t_contexto) (instr : t_instruccion) : t_resultado_execute * t_contexto * bool :=
  match parametros instr with
  | reg :: valor :: _ =>
      let valor := u32 (atoi valor) in
      if strcmp0 reg "PC" then (CONTINUAR, con_registros (con_pc valor (c_registros ctx)) ctx, true)
      else (CONTINUAR, con_registros (asignar_valor_registro (c_registros ctx) reg valor) ctx, false)
  | _ => (ERROR, ctx, false)
  end.

(** A number when it starts with a digit, a register otherwise. *)
Definition operando (r : t_registros) (orig : list byte) : Z :=
  match orig with
  | c :: _ => if isdigit c then u32 (atoi orig) else obtener_valor_registro r orig
  | [] => obtener_valor_registro r orig
  end.

Definition ejecutar_sum (ctx : t_contexto) (instr : t_instruccion) : t_resultado_execute * t_contexto :=
  match parametros instr with
  | dest :: orig :: _ =>
      let r := c_registros ctx in
      (CONTINUAR, con_registros (asignar_valor_registro r dest (obtener_valor_registro r dest +u operando r orig)%u32) ctx)
  | _ => (ERROR, ctx)
  end.
Definition ejecutar_sub (ctx : t_contexto) (instr : t_instruccion) : t_resultado_execute * t_contexto :=
  match parametros instr with
  | dest :: orig :: _ =>
      let r := c_registros ctx in
      (CONTINUAR, con_registros (asignar_valor_registro r dest (obtener_valor_registro r dest -u operando r orig)%u32) ctx)
  | _ => (ERROR, ctx)
  end.

Definition ejecutar_jnz (ctx : t_contexto) (instr : t_instruccion) : t_resultado_execute * t_contexto * bool :=
  match parametros instr with
  | reg :: nueva_pc :: _ =>
      if negb (obtener_valor_registro (c_registros ctx) reg =? 0)
      then (CONTINUAR, con_registros (con_pc (u32 (atoi nueva_pc)) (c_registros ctx)) ctx, true)
      else (CONTINUAR, ctx, false)
  | _ => (ERROR, ctx, false)
  end.

(** [if (!pc_modificado) contexto->registros.pc++] *)
Definition avanzar_pc (modificado : bool) (ctx : t_contexto) : t_contexto :=
  if modificado then ctx
  else con_registros (con_pc (pc (c_registros ctx) +u 1)%u32 (c_registros ctx)) ctx.

Definition execute_instruccion (contexto : t_contexto) (instr : t_instruccion) : C (t_resultado_execute * t_contexto) :=
  if strcmp0 (nombre instr) "NOOP" then mret (CONTINUAR, avanzar_pc false contexto)
  else if strcmp0 (nombre instr) "SET" then
    let '(r, ctx, m) := ejecutar_set contexto instr in mret (r, avanzar_pc m ctx)
  else if strcmp0 (nombre instr) "SUM" then
    let '(r, ctx) := ejecutar_sum contexto instr in mret (r, avanzar_pc false ctx)
  else if strcmp0 (nombre instr) "SUB" then
    let '(r, ctx) := ejecutar_sub contexto instr in mret (r, avanzar_pc false ctx)
  else if strcmp0 (nombre instr) "JNZ" then
    let '(r, ctx, m) := ejecutar_jnz contexto instr in mret (r, avanzar_pc m ctx)
  else if requiere_mmu instr then
    '(r, ctx) ← ejecutar_instruccion_mmu instr contexto; mret (r, avanzar_pc false ctx)
  else if strcmp0 (nombre instr) "EXIT" then mret (EXIT_PROCESO, avanzar_pc false contexto)
  else if es_syscall instr then mret (SYSCALL, avanzar_pc false contexto)
  else mret (ERROR, contexto).

(** ** Registers: lemmas *)

Definition nombres_registros : list (list byte) :=
  txt <$> ["AX"; "BX"; "CX"; "DX"; "EAX"; "EBX"; "ECX"; "EDX"; "SI"; "DI"]%string.
Definition es_registro (n : list byte) : Prop := n ∈ nombres_registros.

(** What a register of that name can hold. *)
Definition recortado (n : list byte) (v : Z) : Z := v mod 2 ^ (8 * sizeof_registro n).

Ltac casos_registro H :=
  unfold es_registro, nombres_registros in H; cbn [fmap list_fmap] in H;
  repeat (apply elem_of_cons in H as [->|H]); [..|by apply elem_of_nil in H].

Lemma asignar_obtener r n v : es_registro n -> es_u32 v ->
  obtener_valor_registro (asignar_valor_registro r n v) n = recortado n v.
Proof.
  intros Hn Hv. destruct r. casos_registro Hn; try reflexivity; cbn; unfold recortado; cbn;
    symmetry; apply u32_small; exact Hv.
Qed.

Lemma asignar_otro r n v n' : es_registro n -> n' <> n ->
  obtener_valor_registro (asignar_valor_registro r n v) n' = obtener_valor_registro r n'.
Proof.
  intros Hn Hne. destruct r. casos_registro Hn; unfold obtener_valor_registro, strcmp0;
    repeat (case_bool_decide; [try congruence; reflexivity|]); reflexivity.
Qed.

Lemma asignar_ok r n v : registros_ok r -> es_u32 v -> registros_ok (asignar_valor_registro r n v).
Proof.
  intros Hr Hv. destruct r as [p a b c d ea eb ec ed s i]. destruct Hr as (?&?&?&?&?&?&?&?&?&?&?).
  pose proof (Z.mod_pos_bound v 256 ltac:(lia)) as Hv8.
  cbn [pc ax bx cx dx eax ebx ecx edx si di] in *.
  assert (Hu : es_u8 (u8 v)) by exact Hv8.
  unfold asignar_valor_registro. repeat case_match; unfold registros_ok; cbn [pc ax bx cx dx eax ebx ecx edx si di]; tauto.
Qed.

Lemma asignar_pc r n v : pc (asignar_valor_registro r n v) = pc r.
Proof. destruct r. unfold asignar_valor_registro. by repeat case_match. Qed.

Lemma obtener_rango r n : registros_ok r -> 0 <= obtener_valor_registro r n < 2 ^ (8 * sizeof_registro n).
Proof.
  intros (?&?&?&?&?&?&?&?&?&?&?). unfold obtener_valor_registro, sizeof_registro, es_u8, es_u32 in *.
  repeat (destruct (strcmp0 n _); cbn [orb]; [cbn; lia|]). cbn. lia.
Qed.

(** ** Properties *)

Definition instr (n : string) (ps : list (list byte)) : t_instruccion :=
  Instruccion (txt n) ps (es_instruccion_cpu_memoria (txt n)) (es_syscall_nombre (txt n))
    (es_syscall_memoria_nombre (txt n)).

(** The context goes on to the next instruction with [v] in the register [n]. *)
Definition con_valor (n : list byte) (v : Z) (ctx ctx' : t_contexto) : Prop :=
  c_pid ctx' = c_pid ctx /\ tabla_segmentos ctx' = tabla_segmentos ctx /\
  registros_ok (c_registros ctx') /\
  pc (c_registros ctx') = (pc (c_registros ctx) +u 1)%u32 /\
  obtener_valor_registro (c_registros ctx') n = v /\
  (forall n', n' <> n -> obtener_valor_registro (c_registros ctx') n' = obtener_valor_registro (c_registros ctx) n').

Lemma obtener_con_pc v r n : obtener_valor_registro (con_pc v r) n = obtener_valor_registro r n.
Proof. done. Qed.

Lemma con_valor_asignar n v ctx :
  es_registro n -> registros_ok (c_registros ctx) -> es_u32 v ->
  con_valor n (recortado n v) ctx
    (avanzar_pc false (con_registros (asignar_valor_registro (c_registros ctx) n v) ctx)).
Proof.
  intros Hn Hr Hv. split; [done|]. split; [done|]. cbn [c_registros avanzar_pc con_registros].
  pose proof (asignar_ok _ n v Hr Hv) as Hok. split; [|split; [|split]].
  - destruct Hok as (_ & Hrest). split; [apply u32_range|exact Hrest].
  - cbn. by rewrite asignar_pc.
  - rewrite obtener_con_pc. by apply asignar_obtener.
  - intros n' Hne. rewrite obtener_con_pc. by apply asignar_otro.
Qed.

Lemma recortado_u32 n v : recortado n (u32 v) = recortado n v.
Proof.
  unfold recortado, sizeof_registro, u32. destruct (_ || _); cbn; [|by rewrite Z.mod_mod].
  rewrite <-Znumtheory.Zmod_div_mod; [done|lia..|]. by exists 16777216.
Qed.

Lemma digitos_pos s : forall acc, 0 <= acc -> 0 <= digitos s acc.
Proof.
  induction s as [|c s IH]; intros acc Ha; cbn [digitos]; [done|]. destruct (isdigit c) eqn:E; [|done]. apply IH.
  unfold isdigit in E. apply andb_prop in E as [E _]. lia.
Qed.
(** A literal that is an [int] is itself. *)
Lemma operando_literal r c s : isdigit c = true -> es_int (numero (c :: s)) -> operando r (c :: s) = numero (c :: s).
Proof.
  intros Hd Hn. unfold operando. rewrite Hd, atoi_numero by done. apply u32_small. unfold es_int in Hn. split; [|lia].
  cbn [numero]. unfold isdigit in Hd. apply andb_prop in Hd as [H1 H2]. unfold isspace.
  destruct (Z.eqb_spec (z_de c) 32); [lia|]. destruct (Z.leb_spec 9 (z_de c)); [|lia]. destruct (Z.leb_spec (z_de c) 13); [lia|]. cbn [andb orb].
  destruct (Z.eqb_spec (z_de c) 45); [lia|]. destruct (Z.eqb_spec (z_de c) 43); [lia|]. by apply digitos_pos.
Qed.

(** C38: SET, SUM and SUB on a register, when the number they are given is an
    [int], give the constant, the sum or the difference modulo the register's width
    (8 or 32 bits), leave every other register alone, keep the registers well formed
    and go to the next instruction. The second operand of SUM and SUB is that
    number when it begins with a digit, and otherwise the value of the register it
    names. *)
Theorem aritmetica_correcta ctx c dest orig :
  es_registro dest -> registros_ok (c_registros ctx) -> es_int (numero orig) ->
  let v1 := obtener_valor_registro (c_registros ctx) dest in
  let v2 := match orig with
            | d :: _ => if isdigit d then numero orig else obtener_valor_registro (c_registros ctx) orig
            | [] => obtener_valor_registro (c_registros ctx) orig
            end in
  (exists ctx', execute_instruccion ctx (instr "SET" [dest; orig]) c = Some ((CONTINUAR, ctx'), c) /\
     con_valor dest (recortado dest (numero orig)) ctx ctx') /\
  (exists ctx', execute_instruccion ctx (instr "SUM" [dest; orig]) c = Some ((CONTINUAR, ctx'), c) /\
     con_valor dest (recortado dest (v1 + v2)) ctx ctx') /\
  (exists ctx', execute_instruccion ctx (instr "SUB" [dest; orig]) c = Some ((CONTINUAR, ctx'), c) /\
     con_valor dest (recortado dest (v1 - v2)) ctx ctx').
Proof.
  intros Hd Hr Hn v1 v2.
  assert (H2 : v2 = operando (c_registros ctx) orig).
  { unfold v2. destruct orig as [|d s]; [done|]. destruct (isdigit d) eqn:E; [by rewrite operando_literal|]. unfold operando. by rewrite E. }
  rewrite H2.
  split; [|split]; eexists; (split; [|rewrite <-recortado_u32; apply con_valor_asignar; [done|done|apply u32_range]]).
  - assert (Hpc : strcmp0 dest "PC" = false).
    { unfold strcmp0. apply bool_decide_false. intros ->. revert Hd.
      by apply (bool_decide_eq_false_1 (txt "PC" ∈ nombres_registros)). }
    unfold execute_instruccion, ejecutar_set. cbn [parametros instr nombre]. by rewrite Hpc, atoi_numero.
  - done.
  - done.
Qed.

(** The bytes a register takes in memory. *)
Lemma bytes_registro r n :
  registros_ok r ->
  let v := obtener_valor_registro r n in
  let datos := take (Z.to_nat (sizeof_registro n)) (le_enc 4 v) in
  Z.of_nat (length datos) = sizeof_registro n /\ le_dec datos = v.
Proof.
  intros Hr v datos. pose proof (obtener_rango r n Hr) as Hv. fold v in Hv. unfold datos, sizeof_registro in *.
  destruct (_ || _); cbn [Z.to_nat]; split.
  - done.
  - transitivity (le_dec (le_enc 1 v)); [done|]. rewrite le_dec_enc. apply Z.mod_small. exact Hv.
  - done.
  - transitivity (le_dec (le_enc 4 v)); [done|]. rewrite le_dec_enc. apply Z.mod_small. exact Hv.
Qed.

Lemma sizeof_rango n : 1 <= sizeof_registro n <= 4.
Proof. unfold sizeof_registro. destruct (_ || _); lia. Qed.

(** The dispatcher on the three instructions that use the MMU. *)
Definition y_avanzar (x : C (t_resultado_execute * t_contexto)) : C (t_resultado_execute * t_contexto) :=
  '(r, ctx) ← x; mret (r, avanzar_pc false ctx).

Lemma execute_mov_out ctx reg :
  execute_instruccion ctx (instr "MOV_OUT" [reg]) = y_avanzar (
    r ← mmu_escribir ctx (di (c_registros ctx))
          (take (Z.to_nat (sizeof_registro reg)) (le_enc 4 (obtener_valor_registro (c_registros ctx) reg)));
    mret (r, ctx)).
Proof. reflexivity. Qed.
Lemma execute_mov_in ctx reg :
  execute_instruccion ctx (instr "MOV_IN" [reg]) = y_avanzar (
    '(r, dato) ← mmu_leer ctx (si (c_registros ctx)) (sizeof_registro reg);
    if decide (r = CONTINUAR)
    then mret (CONTINUAR, con_registros (asignar_valor_registro (c_registros ctx) reg (le_dec dato)) ctx)
    else mret (r, ctx)).
Proof. reflexivity. Qed.
Lemma execute_copy_mem ctx reg :
  execute_instruccion ctx (instr "COPY_MEM" [reg]) = y_avanzar (
    '(r, dato) ← mmu_leer ctx (si (c_registros ctx)) (obtener_valor_registro (c_registros ctx) reg);
    if decide (r = CONTINUAR)
    then r ← mmu_escribir ctx (di (c_registros ctx)) dato; mret (r, ctx)
    else mret (r, ctx)).
Proof. reflexivity. Qed.

Lemma acceso_base c ctx ram dir tam seg :
  mmu_listo c ctx ram -> acceso_cpu (segment_max_size_cpu c) (tabla_segmentos ctx) dir tam seg ->
  0 <= s_base seg + dir mod segment_max_size_cpu c /\
  s_base seg + dir mod segment_max_size_cpu c + tam <= Z.of_nat (length ram).
Proof.
  intros Hl [Hb Ht]. pose proof (Z.mod_pos_bound dir (segment_max_size_cpu c) ltac:(pose proof (ml_sms _ _ _ Hl); lia)).
  assert (Hin : seg ∈ tabla_segmentos ctx).
  { unfold buscar_segmento in Hb. destruct (indice_de _ (tabla_segmentos ctx)) as [i|]; [|done].
    by apply list_elem_of_lookup_2 in Hb. }
  destruct (proj1 (Forall_forall _ _) (ml_segs _ _ _ Hl) _ Hin). lia.
Qed.

(** After a write the process can go on, with any registers. *)
Lemma mmu_listo_escrito c ctx ctx2 ram d datos r ram' :
  mmu_listo c ctx ram -> 0 <= d -> escribir_buffer ram d datos = Some ram' -> cpu_ram_es (con_c_red r c) ram' ->
  c_pid ctx2 = c_pid ctx -> tabla_segmentos ctx2 = tabla_segmentos ctx -> mmu_listo (con_c_red r c) ctx2 ram'.
Proof.
  intros [_ A B D] Hd Hw Hr Hp Ht. split; [done|done|by rewrite Hp|].
  rewrite Ht. by rewrite (length_escribir_buffer _ _ _ _ Hd Hw).
Qed.

(** MOV_OUT leaves a register at DI, and a MOV_IN from there, by this process
    later or by another of its instructions, into a register of the same width
    gives its value back; the other bytes of memory stay. An address outside the
    segment is a [SEG_FAULT] that changes neither registers nor memory. *)
Theorem mov_ida_vuelta c ctx ram r1 r2 :
  mmu_listo c ctx ram -> registros_ok (c_registros ctx) -> es_registro r2 -> sizeof_registro r1 = sizeof_registro r2 ->
  let sms := segment_max_size_cpu c in
  let dir := di (c_registros ctx) in
  let tam := sizeof_registro r1 in
  (forall seg, acceso_cpu sms (tabla_segmentos ctx) dir tam seg ->
   exists c' ram', execute_instruccion ctx (instr "MOV_OUT" [r1]) c = Some ((CONTINUAR, avanzar_pc false ctx), c') /\
     cpu_ram_es c' ram' /\
     (forall d t, 0 <= d -> 0 <= t -> disjuntos (s_base seg + dir mod sms) tam d t ->
        leer_buffer ram' d t = leer_buffer ram d t) /\
     forall ctx2, c_pid ctx2 = c_pid ctx -> tabla_segmentos ctx2 = tabla_segmentos ctx ->
       registros_ok (c_registros ctx2) -> si (c_registros ctx2) = dir ->
       exists ctx3, execute_instruccion ctx2 (instr "MOV_IN" [r2]) c' = Some ((CONTINUAR, ctx3), c') /\
         con_valor r2 (obtener_valor_registro (c_registros ctx) r1) ctx2 ctx3) /\
  ((forall seg, ~ acceso_cpu sms (tabla_segmentos ctx) dir tam seg) ->
   execute_instruccion ctx (instr "MOV_OUT" [r1]) c = Some ((SEG_FAULT, avanzar_pc false ctx), c)).
Proof.
  intros Hl Hr Hr2 Hsz sms dir tam. pose proof (sizeof_rango r1) as Hs4.
  destruct (bytes_registro (c_registros ctx) r1 Hr) as [Hlen Hdec].
  set (v := obtener_valor_registro (c_registros ctx) r1) in *.
  set (datos := take (Z.to_nat (sizeof_registro r1)) (le_enc 4 v)) in *.
  destruct (mmu_escribir_ok c ctx ram dir datos Hl ltac:(lia)) as [Hok Hno]. fold sms in Hok, Hno.
  rewrite Hlen in Hok, Hno. fold tam in Hlen, Hok, Hno.
  rewrite execute_mov_out. unfold y_avanzar. fold v datos dir. split.
  - intros seg Ha. destruct (Hok seg Ha) as (r & ram' & Hw & E & Hr').
    destruct (acceso_base c ctx ram dir tam seg Hl Ha) as [Hd0 Hd1]. fold sms in Hd0, Hd1.
    exists (con_c_red r c), ram'. split; [st_unfold; by rewrite E|]. split; [done|]. split.
    + intros d t H1 H2 Hdis. apply (leer_escribir_disjunto ram (s_base seg + dir mod sms) datos); [done..| |done].
      by rewrite Hlen.
    + intros ctx2 Hp2 Ht2 Hr2' Hsi. rewrite execute_mov_in. unfold y_avanzar. rewrite <-Hsz, Hsi. fold tam.
      pose proof (mmu_listo_escrito c ctx ctx2 ram _ datos r ram' Hl Hd0 Hw Hr' Hp2 Ht2) as Hl2.
      destruct (mmu_leer_ok (con_c_red r c) ctx2 ram' dir tam Hl2) as [H _]; [unfold es_u32; lia|].
      change (segment_max_size_cpu (con_c_red r c)) with sms in H. rewrite Ht2 in H.
      destruct (H seg Ha) as (x & Hx & E2). rewrite <-Hlen, (leer_escribir _ _ _ _ Hd0 Hw) in Hx. injection Hx as <-.
      st_unfold. rewrite E2. rewrite decide_True by done. rewrite Hdec.
      eexists. split; [done|]. replace v with (recortado r2 v) at 1.
      * apply con_valor_asignar; [done|done|]. pose proof (obtener_rango (c_registros ctx) r1 Hr) as Hv. fold v in Hv.
        unfold es_u32. unfold sizeof_registro in Hv. destruct (_ || _); cbn in Hv; lia.
      * unfold recortado. apply Z.mod_small. rewrite <-Hsz. apply obtener_rango, Hr.
  - intros Hn. st_unfold. by rewrite (Hno Hn).
Qed.

(** COPY_MEM copies as many bytes as its register says from SI to DI: the
    destination ends with what the source held before (also when they overlap),
    the other bytes stay; when either end is outside its segment the result is
    [SEG_FAULT] and nothing is written. *)
Theorem copy_mem_correcto c ctx ram reg :
  mmu_listo c ctx ram -> registros_ok (c_registros ctx) ->
  let sms := segment_max_size_cpu c in
  let n := obtener_valor_registro (c_registros ctx) reg in
  let orig := si (c_registros ctx) in
  let dest := di (c_registros ctx) in
  (forall s1 s2, acceso_cpu sms (tabla_segmentos ctx) orig n s1 -> acceso_cpu sms (tabla_segmentos ctx) dest n s2 ->
   let b1 := s_base s1 + orig mod sms in
   let b2 := s_base s2 + dest mod sms in
   exists c' ram', execute_instruccion ctx (instr "COPY_MEM" [reg]) c = Some ((CONTINUAR, avanzar_pc false ctx), c') /\
     cpu_ram_es c' ram' /\ leer_buffer ram' b2 n = leer_buffer ram b1 n /\
     (forall d t, 0 <= d -> 0 <= t -> disjuntos b2 n d t -> leer_buffer ram' d t = leer_buffer ram d t)) /\
  ((forall s1, ~ acceso_cpu sms (tabla_segmentos ctx) orig n s1) \/
   (forall s2, ~ acceso_cpu sms (tabla_segmentos ctx) dest n s2) ->
   execute_instruccion ctx (instr "COPY_MEM" [reg]) c = Some ((SEG_FAULT, avanzar_pc false ctx), c)).
Proof.
  intros Hl Hr sms n orig dest. pose proof (obtener_rango (c_registros ctx) reg Hr) as Hn. fold n in Hn.
  assert (Hnu : es_u32 n) by (unfold es_u32, sizeof_registro in *; destruct (_ || _); cbn in Hn; lia).
  destruct (mmu_leer_ok c ctx ram orig n Hl Hnu) as [HL1 HL2]. fold sms in HL1, HL2.
  rewrite execute_copy_mem. unfold y_avanzar. fold n orig dest.
  assert (Hescribe : forall s1, acceso_cpu sms (tabla_segmentos ctx) orig n s1 ->
    exists x, leer_buffer ram (s_base s1 + orig mod sms) n = Some x /\ Z.of_nat (length x) = n /\
      mmu_leer ctx orig n c = Some ((CONTINUAR, x), c)).
  { intros s1 H1. destruct (HL1 s1 H1) as (x & Hx & E). exists x. split; [done|]. split; [|done].
    destruct (acceso_base c ctx ram orig n s1 Hl H1). by apply (length_leer_buffer ram (s_base s1 + orig mod sms)); [..|done]; [done|lia]. }
  split.
  - intros s1 s2 H1 H2. set (b1 := s_base s1 + orig mod sms). set (b2 := s_base s2 + dest mod sms). destruct (Hescribe s1 H1) as (x & Hx & Hlen & E).
    destruct (mmu_escribir_ok c ctx ram dest x Hl) as [HE _]; [rewrite Hlen; unfold es_u32 in Hnu; lia|].
    fold sms in HE. rewrite Hlen in HE. destruct (HE s2 H2) as (r & ram' & Hw & E2 & Hr2).
    destruct (acceso_base c ctx ram dest n s2 Hl H2) as [Hd0 _]. fold sms b2 in Hd0. fold b2 in Hw.
    exists (con_c_red r c), ram'. split; [st_unfold; rewrite E, decide_True by done; by rewrite E2|]. split; [done|]. split.
    + fold b1 in Hx. rewrite Hx, <-Hlen. by apply (leer_escribir ram b2).
    + intros d t G1 G2 Hdis. apply (leer_escribir_disjunto ram b2 x); [done..| |done]. by rewrite Hlen.
  - intros Hor. destruct (mmu_traducir_casos c ctx ram orig n Hl Hnu) as [(s1 & _ & H1 & _)|(Hno1 & _)].
    + fold sms in H1. destruct (Hescribe s1 H1) as (x & Hx & Hlen & E).
      destruct (mmu_escribir_ok c ctx ram dest x Hl) as [_ HE]; [rewrite Hlen; unfold es_u32 in Hnu; lia|].
      fold sms in HE. rewrite Hlen in HE. destruct Hor as [Hno|Hno]; [by destruct (Hno s1)|].
      st_unfold. rewrite E, decide_True by done. by rewrite (HE Hno).
    + st_unfold. by rewrite (HL2 Hno1).
Qed.

(** ** Witnesses *)

(** EAX = 258, SI = DI = 1, over the two sticks of [cpu_ejemplo]. *)
Definition ctx_datos : t_contexto :=
  Contexto 1 (Registros 0 3 0 0 0 258 0 0 0 1 1) [Segmento 0 2 5 0].

Lemma ctx_datos_listo : mmu_listo cpu_ejemplo ctx_datos [x01; x02; x03; x04; x05; x06; x07].
Proof. destruct cpu_ejemplo_listo. split; done. Qed.

Lemma ctx_datos_ok : registros_ok (c_registros ctx_datos).
Proof. vm_compute. intuition congruence. Qed.

Lemma aritmetica_correcta_witness :
  exists ctx', execute_instruccion ctx_datos (instr "SUM" [txt "AX"; txt "EAX"]) cpu_ejemplo = Some ((CONTINUAR, ctx'), cpu_ejemplo) /\
    con_valor (txt "AX") 5 ctx_datos ctx'.
Proof.
  destruct (aritmetica_correcta ctx_datos cpu_ejemplo (txt "AX") (txt "EAX")) as (_ & H & _);
    [by left|exact ctx_datos_ok|vm_compute; intuition congruence|exact H].
Defined.

Lemma mov_ida_vuelta_witness :
  exists c', execute_instruccion ctx_datos (instr "MOV_OUT" [txt "EAX"]) cpu_ejemplo =
    Some ((CONTINUAR, avanzar_pc false ctx_datos), c') /\
  exists ctx3, execute_instruccion ctx_datos (instr "MOV_IN" [txt "EBX"]) c' = Some ((CONTINUAR, ctx3), c') /\
    con_valor (txt "EBX") 258 ctx_datos ctx3.
Proof.
  destruct (mov_ida_vuelta cpu_ejemplo ctx_datos _ (txt "EAX") (txt "EBX") ctx_datos_listo ctx_datos_ok) as [H _];
    [do 5 right; by left|reflexivity|].
  destruct (H (Segmento 0 2 5 0)) as (c' & ram' & E & _ & _ & H2); [split; [reflexivity|vm_compute; congruence]|].
  exists c'. split; [exact E|]. exact (H2 ctx_datos eq_refl eq_refl ctx_datos_ok eq_refl).
Defined.

Lemma copy_mem_correcto_witness :
  exists c' ram', execute_instruccion (con_registros (Registros 0 2 0 0 0 0 0 0 0 0 1) ctx_datos)
      (instr "COPY_MEM" [txt "AX"]) cpu_ejemplo =
    Some ((CONTINUAR, avanzar_pc false (con_registros (Registros 0 2 0 0 0 0 0 0 0 0 1) ctx_datos)), c') /\
    cpu_ram_es c' ram' /\ leer_buffer ram' 3 2 = Some [x03; x04].
Proof.
  assert (Hl : mmu_listo cpu_ejemplo (con_registros (Registros 0 2 0 0 0 0 0 0 0 0 1) ctx_datos)
    [x01; x02; x03; x04; x05; x06; x07]) by (destruct cpu_ejemplo_listo; by split).
  destruct (copy_mem_correcto cpu_ejemplo _ _ (txt "AX") Hl) as [H _]; [vm_compute; intuition congruence|].
  destruct (H (Segmento 0 2 5 0) (Segmento 0 2 5 0)) as (c' & ram' & E & Hr & Hc & _);
    [split; [reflexivity|vm_compute; congruence]..|].
  exists c', ram'. split; [exact E|]. split; [exact Hr|exact Hc].
Defined.
