(* ===== verification/CpuCiclo.v ===== *)
(** * CpuCiclo: the instruction cycle

    Models the cycle of [cpu/src/cpu_ciclo.c] (fetch, decode, check for
    interrupts, the handlers of the results), the requests to Memory and the
    listener of [cpu/src/cpu_memory.c], [cpu/src/cpu_scheduler.c] and the main
    loop of [cpu/src/main.c].

    The listeners are threads. That of Memory only matters to the cycle while it
    waits for an answer, and runs then. That of the Scheduler runs just before
    each check for interrupts, on what has arrived by then: the head of
    [c_avisos]. A CPU that waits for ever, exits, or frees what it has freed
    already, is [None]. *)

From Stdlib Require Import Strings.String.
From S2P Require Import Prelude Bloques Wire Buffer Tipos Mensajes Texto Conexiones Stick Swap Memoria MemoryIO Procesos CpuMmu CpuInstr.

(** ** What Memory sends *)

Definition c_recibir {A} (r : lector A) : C A :=
  fun c => match r (c_de_memory c) with Some (a, s) => Some (a, con_de_memory s c) | None => None end.

(** The answer is left in its place and the semaphore posted. *)
Definition responder (codigo : Z) (f : respuestas -> respuestas) : C unit :=
  st_mod (fun c =>
    let r := f (c_respuestas c) in
    con_respuestas (Respuestas codigo (instruccion_pendiente r) (contexto_pendiente r) (S (respuesta_lista r))) c).

Definition manejar_instruccion : C unit :=
  instr ← c_recibir recibir_instruccion;
  responder (op_num OBTENER_INSTRUCCION)
    (fun r => Respuestas (codigo_pendiente r) (Some instr) (contexto_pendiente r) (respuesta_lista r)).

Definition manejar_contexto : C unit :=
  ctx ← c_recibir recibir_contexto;
  responder (op_num OBTENER_CONTEXTO)
    (fun r => Respuestas (codigo_pendiente r) (instruccion_pendiente r) (Some ctx) (respuesta_lista r)).

Definition manejar_ack (codigo : Z) : C unit :=
  _ ← c_recibir recibir_ok; responder codigo id.

(** ** Decode *)

Section ciclo.
(** [crear_conexion], as for Kernel Memory. *)
Variable crear_conexion : list byte -> list byte -> option (Z * stick).
(** [string_split(text, separator)] of the commons library. *)
Variable string_split : list byte -> list byte -> list (list byte).

Definition manejar_nueva_memoria : C unit :=
  '(tamanio_ms, base_ms, ip_ms, puerto_ms) ← c_recibir recibir_nueva_memoria_disponible;
  _ ← conectar_a_memory_stick crear_conexion ip_ms puerto_ms base_ms tamanio_ms; mret tt.

(** One turn of the listener; [false] when Memory has disconnected. *)
Definition escuchar_memory : C bool :=
  codigo ← c_recibir (fun s => Some (recibir_codigo_operacion s));
  if i32 codigo =? -1 then mret false
  else if codigo =? op_num NUEVA_MEMORIA_DISPONIBLE then _ ← manejar_nueva_memoria; mret true
  else if codigo =? op_num OBTENER_INSTRUCCION then _ ← manejar_instruccion; mret true
  else if codigo =? op_num OBTENER_CONTEXTO then _ ← manejar_contexto; mret true
  else if codigo =? op_num ACTUALIZAR_CONTEXTO then _ ← manejar_ack codigo; mret true
  else mret true.

(** [sem_wait(&respuesta_lista)], while the listener runs [n] turns at most:
    each takes an op_code from what Memory has sent. *)
Fixpoint esperar_respuesta_bucle (n : nat) : C unit :=
  c ← st_get;
  match respuesta_lista (c_respuestas c) with
  | S k =>
      st_mod (fun c =>
        let r := c_respuestas c in
        con_respuestas (Respuestas (codigo_pendiente r) (instruccion_pendiente r) (contexto_pendiente r) k) c)
  | O =>
      match n with
      | O => st_abort
      | S n =>
          sigue ← escuchar_memory;
          if (sigue : bool) then esperar_respuesta_bucle n else st_abort
      end
  end.
Definition esperar_respuesta : C unit :=
  c ← st_get; esperar_respuesta_bucle (S (length (c_de_memory c))).

(** [conectar_a_memory], from its handshake on: [false] marks the warning. *)
Definition conectar_a_memory (cpu_id : Z) : C bool :=
  s ← st_gets memory_socket;
  _ ← c_enviar s (enviar_handshake_cpu cpu_id);
  cod ← c_recibir (fun s => Some (recibir_codigo_operacion s));
  if cod =? op_num CONFIG_MMU_CPU then
    sms ← c_recibir recibir_config_mmu_cpu; _ ← st_mod (con_sms sms); mret true
  else mret false.

(** The context, or [None] for [return false]. *)
Definition solicitar_contexto_a_memory (pid : Z) : C (option t_contexto) :=
  s ← st_gets memory_socket;
  _ ← c_enviar s (enviar_solicitar_contexto pid);
  _ ← esperar_respuesta;
  c ← st_get;
  let r := c_respuestas c in
  _ ← st_put (con_respuestas (Respuestas (codigo_pendiente r) (instruccion_pendiente r) None (respuesta_lista r)) c);
  match contexto_pendiente r with
  | Some (regs, segs) =>
      if negb (codigo_pendiente r =? op_num OBTENER_CONTEXTO) then mret None
      else mret (Some (Contexto pid regs segs))
  | None => mret None
  end.

Definition actualizar_contexto_en_memory (contexto : t_contexto) : C bool :=
  s ← st_gets memory_socket;
  _ ← c_enviar s (enviar_actualizar_contexto contexto);
  _ ← esperar_respuesta;
  ack ← st_gets (fun c => codigo_pendiente (c_respuestas c));
  mret (ack =? op_num ACTUALIZAR_CONTEXTO).

(** [None] is [strdup(NULL)], when the line has no token. *)
Definition decode_instruccion (linea_instruccion : list byte) : option t_instruccion :=
  match string_split (recortar linea_instruccion) (txt " ") with
  | [] => None
  | nombre :: parametros =>
      Some (Instruccion nombre parametros (es_instruccion_cpu_memoria nombre) (es_syscall_nombre nombre)
              (es_syscall_memoria_nombre nombre))
  end.

(** [None] for NULL. *)
Definition fetch_instruccion (contexto : t_contexto) : C (option t_instruccion) :=
  s ← st_gets memory_socket;
  _ ← c_enviar s (enviar_obtener_instruccion (c_pid contexto) (pc (c_registros contexto)));
  _ ← esperar_respuesta;
  c ← st_get;
  let r := c_respuestas c in
  _ ← st_put (con_respuestas (Respuestas (codigo_pendiente r) None (contexto_pendiente r) (respuesta_lista r)) c);
  match instruccion_pendiente r with
  | None => mret None
  | Some linea_instruccion =>
      i ← st_lift (decode_instruccion (cstr linea_instruccion)); mret (Some i)
  end.

(** ** Interrupts *)

(** One message of the Scheduler; an unexpected one, or none, is [exit]. *)
Definition escuchar_scheduler (s : list byte) : C (list byte) :=
  let '(codigo, s) := recibir_codigo_operacion s in
  if i32 codigo =? -1 then st_abort
  else if codigo =? op_num EJECUTAR_PROCESO then
    '(pid, s) ← st_lift (recibir_pid s);
    _ ← st_mod (fun c => con_pid_a_ejecutar pid (S (sem_proceso_listo c)) c); mret s
  else if codigo =? op_num INTERRUPCION then
    '(pid, motivo, s) ← st_lift (recibir_interrupcion s);
    c ← st_get;
    _ ← (if pid =? pid_en_ejecucion c then st_put (con_interrupcion true motivo c) else mret tt);
    mret s
  else st_abort.

Fixpoint escuchar_avisos (n : nat) (s : list byte) : C unit :=
  match s with
  | [] => mret tt
  | _ =>
      match n with
      | O => st_abort
      | S n => s ← escuchar_scheduler s; escuchar_avisos n s
      end
  end.

(** What has arrived by now. *)
Definition recibir_avisos : C unit :=
  c ← st_get;
  match c_avisos c with
  | [] => mret tt
  | s :: resto => _ ← st_put (con_avisos_sched resto c); escuchar_avisos (length s) s
  end.

Definition check_interrupt : C bool :=
  _ ← recibir_avisos;
  c ← st_get;
  let tiene := interrupcion_pendiente c in
  _ ← (if tiene then st_put (con_interrupcion false (motivo_interrupcion c) c) else mret tt);
  mret tiene.

(** ** The handlers of the cycle *)

Definition devolver (pid motivo : Z) (nombre : option (list byte)) (params : list (list byte)) : C unit :=
  s ← st_gets c_scheduler_socket;
  c_enviar s (enviar_devolver_proceso pid motivo nombre params (Z.of_nat (length params))).

Definition manejar_error_fetch (pid : Z) : C unit := devolver pid (motivo_num MOTIVO_ERROR) None [].

(** [liberar_instruccion], when the array of parameters has been freed before
    ([libre]) or not. Without parameters there is no array: it is NULL. *)
Definition liberar_instruccion (libre : bool) (i : t_instruccion) : C unit :=
  if libre && (0 <? length (parametros i))%nat then st_abort else mret tt.

Definition manejar_interrupcion (contexto : t_contexto) (i : t_instruccion) : C unit :=
  _ ← actualizar_contexto_en_memory contexto;
  motivo ← st_gets motivo_interrupcion;
  _ ← devolver (c_pid contexto) motivo None [];
  liberar_instruccion false i.

(** The first two parameters are replaced by the value of the register, in a new
    array; [true] when the array it returns is the one it was given. *)
Definition resolver_parametros_syscall_io (nombre_syscall : list byte) (params : list (list byte))
    (registros : t_registros) : bool * list (list byte) :=
  if (negb (strcmp0 nombre_syscall "STDOUT") && negb (strcmp0 nombre_syscall "STDIN")) || (length params <? 2)%nat
  then (true, params)
  else (false, imap (fun i p => if (i <? 2)%nat then decimal 10 (obtener_valor_registro registros p) [] else p) params).

(** [liberar_parametros_resueltos(resueltos)] frees that array, which is the one of
    the instruction when [mismo]. *)
Definition manejar_resultado_execute (contexto : t_contexto) (i : t_instruccion) (resultado : t_resultado_execute)
    : C unit :=
  let pid := c_pid contexto in
  match resultado with
  | CONTINUAR => liberar_instruccion false i
  | SYSCALL =>
      _ ← actualizar_contexto_en_memory contexto;
      if es_syscall_memoria i then
        let '(mismo, resueltos) := resolver_parametros_syscall_io (nombre i) (parametros i) (c_registros contexto) in
        _ ← devolver pid (motivo_num MOTIVO_SYSCALL) (Some (con_nul (nombre i))) (con_nul <$> resueltos);
        liberar_instruccion mismo i
      else
        _ ← devolver pid (motivo_num MOTIVO_SYSCALL) (Some (con_nul (nombre i))) (con_nul <$> parametros i);
        liberar_instruccion false i
  | EXIT_PROCESO =>
      _ ← actualizar_contexto_en_memory contexto; _ ← devolver pid (motivo_num MOTIVO_EXIT) None [];
      liberar_instruccion false i
  | SEG_FAULT =>
      _ ← actualizar_contexto_en_memory contexto; _ ← devolver pid (motivo_num MOTIVO_SEGFAULT) None [];
      liberar_instruccion false i
  | ERROR =>
      _ ← actualizar_contexto_en_memory contexto; _ ← devolver pid (motivo_num MOTIVO_ERROR) None [];
      liberar_instruccion false i
  end.

Definition limpiar_estado_cpu : C unit :=
  st_mod (fun c => con_interrupcion false (motivo_interrupcion c) (con_pid_en_ejecucion (-1) c)).

(** ** The cycle *)

(** One turn of the [while (1)]: the context to go on with, or [None] when the
    process has been given back. *)
Definition turno (contexto : t_contexto) : C (option t_contexto) :=
  instruccion ← fetch_instruccion contexto;
  match instruccion with
  | None => _ ← manejar_error_fetch (c_pid contexto); mret None
  | Some i =>
      '(resultado, contexto) ← execute_instruccion contexto i;
      if decide (resultado = CONTINUAR) then
        interrumpido ← check_interrupt;
        if (interrumpido : bool) then _ ← manejar_interrupcion contexto i; mret None
        else _ ← liberar_instruccion false i; mret (Some contexto)
      else _ ← manejar_resultado_execute contexto i resultado; mret None
  end.

(** [n] turns at most: a program may never end. *)
Fixpoint turnos (n : nat) (contexto : t_contexto) : C unit :=
  match n with
  | O => st_abort
  | S n => r ← turno contexto; match r with Some contexto => turnos n contexto | None => mret tt end
  end.

Definition ejecutar_ciclo_instruccion (n : nat) (pid : Z) : C unit :=
  contexto ← solicitar_contexto_a_memory pid;
  match contexto with
  | None => mret tt
  | Some contexto =>
      _ ← st_mod (con_pid_en_ejecucion pid);
      _ ← turnos n contexto;
      limpiar_estado_cpu
  end.

(** [conectar_a_scheduler], from its handshake on. *)
Definition conectar_a_scheduler (cpu_id : Z) : C unit :=
  s ← st_gets c_scheduler_socket;
  _ ← c_enviar s (enviar_handshake_cpu cpu_id);
  st_mod (fun c => con_pid_en_ejecucion (-1) (con_interrupcion false (motivo_num MOTIVO_QUANTUM) (con_pid_a_ejecutar (pid_a_ejecutar c) 0 c))).

(** [sem_wait(&sem_proceso_listo)], while the listener hears what arrives. *)
Fixpoint esperar_pid_del_scheduler (n : nat) : C Z :=
  c ← st_get;
  match sem_proceso_listo c with
  | S k => _ ← st_put (con_pid_a_ejecutar (pid_a_ejecutar c) k c); mret (pid_a_ejecutar c)
  | O =>
      match n, c_avisos c with
      | S n, _ :: _ => _ ← recibir_avisos; esperar_pid_del_scheduler n
      | _, _ => st_abort
      end
  end.

(** The main loop, for [n] processes of at most [k] turns each. *)
Fixpoint main_loop (n k : nat) : C unit :=
  match n with
  | O => mret tt
  | S n =>
      c ← st_get;
      pid ← esperar_pid_del_scheduler (length (c_avisos c));
      if pid <? 0 then mret tt
      else _ ← ejecutar_ciclo_instruccion k pid; main_loop n k
  end.
End ciclo.
