(* ===== verification/CpuCicloCorrecto.v ===== *)
(** * CpuCicloCorrecto: the instruction cycle is correct

    The properties of [CpuCiclo]. First the frames: instructions touch only the
    sticks ([enmarcado]), and nothing but the end of the cycle speaks to the
    Scheduler ([callado]); with them, a process that runs is given back once.
    Then what each request to Memory does on its answer, what a check for
    interrupts finds, and the two theorems on the whole cycle: it carries out the
    run of a program ([paso], [tramo]) until a result ends it or an interrupt
    does. *)

From Stdlib Require Import Strings.String.
From S2P Require Import Prelude Bloques Wire Buffer Tipos Mensajes Texto Conexiones Stick Swap Memoria MemoryIO Procesos CpuMmu CpuInstr CpuCiclo.

(** ** Instructions only touch the sticks *)

Definition misma_memoria (c1 c2 : cpu) : Prop :=
  segment_max_size_cpu c1 = segment_max_size_cpu c2 /\ memory_sticks c1 = memory_sticks c2 /\ c_red c1 = c_red c2.

(** A step that depends on, and changes, nothing else. *)
Definition enmarcado {A} (x : C A) : Prop := forall c1 c2, misma_memoria c1 c2 ->
  match x c1 with
  | None => x c2 = None
  | Some (a, c1') => c1' = con_c_red (c_red c1') c1 /\ x c2 = Some (a, con_c_red (c_red c1') c2)
  end.

Lemma con_c_red_eq (c1 c2 : cpu) : misma_memoria c1 c2 -> con_c_red (c_red c1) c2 = c2 /\ c1 = con_c_red (c_red c1) c1.
Proof. intros (_ & _ & H). split; [rewrite H; by destruct c2|by destruct c1]. Qed.

Lemma enmarcado_ret {A} (a : A) : enmarcado (mret a).
Proof. intros c1 c2 H. destruct (con_c_red_eq c1 c2 H) as [E1 E2]. split; [done|]. cbn. by rewrite E1. Qed.
Lemma enmarcado_abort {A} : enmarcado (st_abort (A := A)).
Proof. done. Qed.
Lemma enmarcado_lift {A} (o : option A) : enmarcado (st_lift o).
Proof. destruct o; [apply enmarcado_ret|apply enmarcado_abort]. Qed.
Lemma enmarcado_bind {A B} (x : C A) (k : A -> C B) :
  enmarcado x -> (forall a, enmarcado (k a)) -> enmarcado (x ≫= k).
Proof.
  intros Hx Hk c1 c2 H. specialize (Hx c1 c2 H). unfold mbind, ST_bind.
  destruct (x c1) as [[a c1']|]; [|by rewrite Hx]. destruct Hx as [E1 ->].
  assert (H' : misma_memoria c1' (con_c_red (c_red c1') c2)).
  { rewrite E1. destruct H as (H1 & H2 & H3). split; [done|]. by split. }
  specialize (Hk a _ _ H'). destruct (k a c1') as [[b c1'']|]; [|done]. destruct Hk as [E2 ->].
  split; [|done]. rewrite E2, E1. done.
Qed.
(** Reading the part of the state that belongs to the memory. *)
Lemma enmarcado_get {A} (k : cpu -> C A) :
  (forall c, enmarcado (k c)) -> (forall c1 c2, misma_memoria c1 c2 -> k c1 = k c2) -> enmarcado (st_get ≫= k).
Proof.
  intros H1 H2 c1 c2 H. unfold mbind, ST_bind, st_get. rewrite <-(H2 c1 c2 H). apply H1, H.
Qed.
Lemma enmarcado_gets {A B} (f : cpu -> A) (k : A -> C B) :
  (forall a, enmarcado (k a)) -> (forall c1 c2, misma_memoria c1 c2 -> f c1 = f c2) -> enmarcado (st_gets f ≫= k).
Proof. intros H1 H2 c1 c2 H. unfold mbind, ST_bind, st_gets. rewrite <-(H2 c1 c2 H). apply H1, H. Qed.
#[export] Hint Resolve enmarcado_ret enmarcado_abort enmarcado_lift enmarcado_bind : marco.

Lemma enmarcado_pedir socket pedido : enmarcado (c_pedir socket pedido).
Proof.
  intros c1 c2 (H1 & H2 & H3). unfold c_pedir, mbind, ST_bind, st_get, st_put, mret, ST_ret.
  rewrite <-H3. destruct (c_red c1 !! socket) as [[d|resto]|].
  - destruct (atiende d pedido) as [resp e]. done.
  - done.
  - destruct (con_c_red_eq c1 c2 (conj H1 (conj H2 H3))) as [E1 E2]. split; [done|]. by rewrite E1.
Qed.

Lemma enmarcado_respuesta {A} (r : lector A) resp : enmarcado (c_leer_respuesta r resp).
Proof. unfold c_leer_respuesta. repeat case_match; auto with marco. Qed.
#[export] Hint Resolve enmarcado_pedir enmarcado_respuesta : marco.

Lemma enmarcado_leer idx pid dir tam : enmarcado (cpu_stick_leer idx pid dir tam).
Proof.
  apply enmarcado_gets; [|by intros c1 c2 (_ & -> & _)]. intros so. unfold leer_de_memoria_fisica.
  case_match; [auto with marco|]. apply enmarcado_bind; [auto with marco|]. intros resp.
  destruct (recibir_codigo_operacion resp) as [cod r]. case_match; auto with marco.
Qed.
Lemma enmarcado_escribir idx pid dir d : enmarcado (cpu_stick_escribir idx pid dir d).
Proof.
  apply enmarcado_gets; [|by intros c1 c2 (_ & -> & _)]. intros so. unfold escribir_en_memoria_fisica.
  case_match; [auto with marco|]. apply enmarcado_bind; [auto with marco|]. intros resp.
  destruct (recibir_codigo_operacion resp) as [cod r]. case_match; auto with marco.
Qed.
#[export] Hint Resolve enmarcado_leer enmarcado_escribir : marco.

Lemma enmarcado_leer_porciones trad pid : forall buffer, enmarcado (leer_porciones trad pid buffer).
Proof.
  induction trad as [|t trad IH]; intros buffer; cbn [leer_porciones]; [auto with marco|].
  apply enmarcado_bind; [auto with marco|]. intros [p|]; auto with marco.
Qed.
Lemma enmarcado_escribir_porciones trad pid : forall datos, enmarcado (escribir_porciones trad pid datos).
Proof.
  induction trad as [|t trad IH]; intros datos; cbn [escribir_porciones]; [auto with marco|].
  apply enmarcado_bind; [auto with marco|]. intros [|]; auto with marco.
Qed.
#[export] Hint Resolve enmarcado_leer_porciones enmarcado_escribir_porciones : marco.

Lemma enmarcado_mmu_leer ctx dir tam : enmarcado (mmu_leer ctx dir tam).
Proof.
  apply enmarcado_get; [|by intros c1 c2 (-> & -> & _)]. intros c. apply enmarcado_bind; [auto with marco|].
  intros [[[|] trad] ?]; auto with marco.
Qed.
Lemma enmarcado_mmu_escribir ctx dir datos : enmarcado (mmu_escribir ctx dir datos).
Proof.
  apply enmarcado_get; [|by intros c1 c2 (-> & -> & _)]. intros c. apply enmarcado_bind; [auto with marco|].
  intros [[[|] trad] ?]; auto with marco.
Qed.
#[export] Hint Resolve enmarcado_mmu_leer enmarcado_mmu_escribir : marco.

Lemma enmarcado_execute ctx i : enmarcado (execute_instruccion ctx i).
Proof.
  unfold execute_instruccion, ejecutar_instruccion_mmu, ejecutar_mov_in, ejecutar_mov_out, ejecutar_copy_mem.
  repeat case_match; auto with marco.
  all: repeat (apply enmarcado_bind; auto with marco; intros; repeat case_match; auto with marco).
Qed.

(** An instruction keeps the process and its segments. *)
Definition mismo_proceso (ctx ctx' : t_contexto) : Prop :=
  c_pid ctx' = c_pid ctx /\ tabla_segmentos ctx' = tabla_segmentos ctx.
Definition conserva (ctx : t_contexto) {A} (x : C (A * t_contexto)) : Prop :=
  forall c a ctx' c', x c = Some ((a, ctx'), c') -> mismo_proceso ctx ctx'.

Lemma conserva_ret ctx {A} (a : A) ctx' : mismo_proceso ctx ctx' -> conserva ctx (mret (a, ctx')).
Proof. intros H c b ctx2 c' [= _ <- _]. done. Qed.
Lemma conserva_bind ctx {A B} (x : C B) (k : B -> C (A * t_contexto)) :
  (forall b, conserva ctx (k b)) -> conserva ctx (x ≫= k).
Proof.
  intros H c a ctx' c' E. unfold mbind, ST_bind in E. destruct (x c) as [[b c1]|]; [|done]. by apply (H b c1 a ctx' c').
Qed.
Lemma conserva_avanzar ctx m ctx' : mismo_proceso ctx ctx' -> mismo_proceso ctx (avanzar_pc m ctx').
Proof. by destruct m. Qed.

Lemma conserva_mmu ctx i : conserva ctx (ejecutar_instruccion_mmu i ctx).
Proof.
  unfold ejecutar_instruccion_mmu, ejecutar_mov_in, ejecutar_mov_out, ejecutar_copy_mem.
  repeat case_match; try (by apply conserva_ret); apply conserva_bind.
  - intros [r dato]. case_match; by apply conserva_ret.
  - intros r. by apply conserva_ret.
  - intros [r dato]. case_match; [|by apply conserva_ret]. apply conserva_bind. intros. by apply conserva_ret.
Qed.

Lemma conserva_execute ctx i : conserva ctx (execute_instruccion ctx i).
Proof.
  unfold execute_instruccion, ejecutar_set, ejecutar_sum, ejecutar_sub, ejecutar_jnz.
  repeat case_match; simplify_eq; try (apply conserva_ret; try apply conserva_avanzar; done).
  all: intros c a ctx2 c' E; unfold mbind, ST_bind in E;
    destruct (ejecutar_instruccion_mmu i ctx c) as [[[r0 ctx1] c1]|] eqn:E1; [|done];
    injection E as _ <- _; apply (conserva_avanzar ctx false); exact (conserva_mmu ctx i c r0 ctx1 c1 E1).
Qed.

(** ** What the CPU tells the Scheduler *)

(** The messages sent over a socket. *)
Definition mensajes_a (s : Z) (c : cpu) : list (list byte) := snd <$> filter (fun p => p.1 = s) (c_salidas c).

Section marco.
Variable crear_conexion : list byte -> list byte -> option (Z * stick).
Variable string_split : list byte -> list byte -> list (list byte).
(** The Scheduler's socket: it is not Memory's, and a new connection gets another one. *)
Variable s : Z.
Hypothesis crear_otro : forall ip puerto sock d, crear_conexion ip puerto = Some (sock, d) -> sock <> s.

(** The same sockets and process, and nothing more said to the Scheduler. *)
Definition callado_de (c c' : cpu) : Prop :=
  c_scheduler_socket c = s -> memory_socket c <> s ->
  c_scheduler_socket c' = s /\ memory_socket c' <> s /\ pid_en_ejecucion c' = pid_en_ejecucion c /\
  mensajes_a s c' = mensajes_a s c.

#[global] Instance callado_de_preorden : PreOrder callado_de.
Proof.
  split; [by intros c Hs Hm|]. intros c1 c2 c3 H12 H23 Hs Hm.
  destruct (H12 Hs Hm) as (H1 & H2 & H3 & H4). destruct (H23 H1 H2) as (? & ? & -> & ->). by rewrite H3, H4.
Qed.

Definition callado_en {A} (x : C A) (c : cpu) : Prop := forall a c', x c = Some (a, c') -> callado_de c c'.
Definition callado {A} (x : C A) : Prop := forall c, callado_en x c.

Lemma callado_en_bind {A B} (x : C A) (k : A -> C B) c :
  callado_en x c -> (forall a c1, x c = Some (a, c1) -> callado_en (k a) c1) -> callado_en (x ≫= k) c.
Proof.
  intros Hx Hk b c' E. unfold mbind, ST_bind in E. destruct (x c) as [[a c1]|] eqn:E1; [|done].
  transitivity c1; [by apply (Hx a)|by apply (Hk a c1 eq_refl b)].
Qed.
Lemma callado_bind {A B} (x : C A) (k : A -> C B) : callado x -> (forall a, callado (k a)) -> callado (x ≫= k).
Proof. intros Hx Hk c. apply callado_en_bind; [apply Hx|intros a c1 _; apply Hk]. Qed.
Lemma callado_ret {A} (a : A) : callado (mret a).
Proof. intros c b c' [= <- <-]. reflexivity. Qed.
Lemma callado_abort {A} : callado (st_abort (A := A)).
Proof. done. Qed.
Lemma callado_lift {A} (o : option A) : callado (st_lift o).
Proof. intros c a c' E. destruct o; [|done]. by injection E as _ <-. Qed.
Lemma callado_gets {A} (f : cpu -> A) : callado (st_gets f).
Proof. intros c a c' [= _ <-]. reflexivity. Qed.
Lemma callado_mod (f : cpu -> cpu) : (forall c, callado_de c (f c)) -> callado (st_mod f).
Proof. intros H c a c' [= _ <-]. apply H. Qed.
(** A step that reads the state and puts back a changed one. *)
Lemma callado_get {A} (k : cpu -> C A) : (forall c, callado_en (k c) c) -> callado (st_get ≫= k).
Proof. intros H c. apply callado_en_bind; [by intros a c' [= _ <-]|]. intros a c1 [= -> ->]. apply H. Qed.
Lemma callado_put {A} c0 c (k : unit -> C A) :
  callado_de c c0 -> callado (k tt) -> callado_en (st_put c0 ≫= k) c.
Proof. intros H Hk. apply callado_en_bind; [by intros [] c' [= <-]|]. intros [] c1 _. apply Hk. Qed.
Lemma callado_recibir {A} (r : lector A) : callado (c_recibir r).
Proof. intros c a c' E. unfold c_recibir in E. destruct (r _) as [[b l]|]; [|done]. by injection E as _ <-. Qed.
Lemma callado_memory {A} bs (k : C A) : callado k -> callado (s ← st_gets memory_socket; _ ← c_enviar s bs; k).
Proof.
  intros Hk c. apply callado_en_bind; [apply callado_gets|]. intros so c1 [= <- <-].
  apply callado_en_bind; [|intros ? c1 _; apply Hk].
  intros [] c1 [= <-] Hs Hm. split; [done|]. split; [done|]. split; [done|].
  unfold mensajes_a. cbn [c_salidas con_c_salidas]. rewrite filter_app, filter_cons_False by done.
  by rewrite filter_nil, app_nil_r.
Qed.
Lemma callado_stick {A} sock bs (k : C A) : sock <> s -> callado k -> callado (_ ← c_enviar sock bs; k).
Proof.
  intros Hne Hk. apply callado_bind; [|done]. intros c [] c1 [= <-] Hs Hm. split; [done|]. split; [done|]. split; [done|].
  unfold mensajes_a. cbn [c_salidas con_c_salidas]. rewrite filter_app, filter_cons_False by done.
  by rewrite filter_nil, app_nil_r.
Qed.
Hint Resolve callado_ret callado_abort callado_lift callado_gets callado_recibir : callado.

Lemma callado_conectar_stick ip puerto base size : callado (conectar_a_memory_stick crear_conexion ip puerto base size).
Proof.
  unfold conectar_a_memory_stick. destruct (crear_conexion ip puerto) as [[sock d]|] eqn:E; [|apply callado_ret].
  apply callado_bind; [by apply callado_mod|]. intros _. apply callado_bind; [apply callado_gets|]. intros id.
  apply callado_stick; [by apply (crear_otro _ _ _ _ E)|]. apply callado_get. intros c.
  case_match; apply callado_put; auto with callado; by intros.
Qed.

Lemma callado_escuchar_memory : callado (escuchar_memory crear_conexion).
Proof.
  unfold escuchar_memory. apply callado_bind; [apply callado_recibir|]. intros codigo.
  repeat case_match; try apply callado_ret; (apply callado_bind; [|intros; apply callado_ret]).
  - apply callado_bind; [apply callado_recibir|]. intros [[[t b] i] p].
    apply callado_bind; [apply callado_conectar_stick|intros; apply callado_ret].
  - apply callado_bind; [apply callado_recibir|]. intros i. by apply callado_mod.
  - apply callado_bind; [apply callado_recibir|]. intros i. by apply callado_mod.
  - apply callado_bind; [apply callado_recibir|]. intros i. by apply callado_mod.
Qed.

Lemma callado_esperar : callado (esperar_respuesta crear_conexion).
Proof.
  apply callado_get. intros c0. generalize (S (length (c_de_memory c0))). intros n. generalize c0. clear c0.
  change (callado (esperar_respuesta_bucle crear_conexion n)).
  induction n as [|n IH]; apply callado_get; intros c; destruct (respuesta_lista _).
  - apply callado_abort.
  - by apply callado_mod.
  - apply callado_bind; [apply callado_escuchar_memory|]. intros [|]; [apply IH|apply callado_abort].
  - by apply callado_mod.
Qed.

Lemma callado_solicitar pid : callado (solicitar_contexto_a_memory crear_conexion pid).
Proof.
  apply callado_memory. apply callado_bind; [apply callado_esperar|]. intros _. apply callado_get. intros c.
  apply callado_put; [by intros|]. repeat case_match; apply callado_ret.
Qed.
Lemma callado_actualizar ctx : callado (actualizar_contexto_en_memory crear_conexion ctx).
Proof.
  apply callado_memory. apply callado_bind; [apply callado_esperar|]. intros _.
  apply callado_bind; [apply callado_gets|]. intros; apply callado_ret.
Qed.
Lemma callado_fetch ctx : callado (fetch_instruccion crear_conexion string_split ctx).
Proof.
  apply callado_memory. apply callado_bind; [apply callado_esperar|]. intros _. apply callado_get. intros c.
  apply callado_put; [by intros|]. case_match; [|apply callado_ret].
  apply callado_bind; [apply callado_lift|]. intros; apply callado_ret.
Qed.
End marco.

(** ** Every process that runs is given back once *)

Section una_vez.
Variable crear_conexion : list byte -> list byte -> option (Z * stick).
Variable string_split : list byte -> list byte -> list (list byte).
Variable s : Z.
Hypothesis crear_otro : forall ip puerto sock d, crear_conexion ip puerto = Some (sock, d) -> sock <> s.
Notation callado x := (callado s x).

Lemma callado_liberar l i : callado (liberar_instruccion l i).
Proof. unfold liberar_instruccion. case_match; [apply callado_abort|apply callado_ret]. Qed.
Lemma callado_enmarcado {A} (x : C A) : enmarcado x -> callado x.
Proof.
  intros H c a c' E. specialize (H c c (conj eq_refl (conj eq_refl eq_refl))). rewrite E in H.
  destruct H as [-> _]. intros Hs Hm. done.
Qed.

Lemma callado_escuchar_scheduler b : callado (escuchar_scheduler b).
Proof.
  unfold escuchar_scheduler. destruct (recibir_codigo_operacion b) as [codigo b'].
  repeat case_match; try apply callado_abort; (apply callado_bind; [apply callado_lift|]).
  - intros [pid b'']. apply callado_bind; [by apply callado_mod|intros; apply callado_ret].
  - intros [[pid motivo] b'']. apply callado_get. intros c. apply callado_en_bind; [|intros; apply callado_ret].
    case_match; [|apply callado_ret]. by intros [] c' [= <-].
Qed.
Lemma callado_avisos n : forall b, callado (escuchar_avisos n b).
Proof.
  induction n as [|n IH]; intros [|x b]; cbn [escuchar_avisos]; try apply callado_ret; [apply callado_abort|].
  apply callado_bind; [apply callado_escuchar_scheduler|apply IH].
Qed.
Lemma callado_recibir_avisos : callado recibir_avisos.
Proof.
  apply callado_get. intros c. case_match; [apply callado_ret|]. apply callado_put; [by intros|apply callado_avisos].
Qed.
Lemma callado_check : callado check_interrupt.
Proof.
  unfold check_interrupt. apply callado_bind; [apply callado_recibir_avisos|]. intros _. apply callado_get. intros c.
  apply callado_en_bind; [|intros; apply callado_ret]. case_match; [|apply callado_ret]. by intros [] c' [= <-].
Qed.

(** A message that gives back the process [pid]. *)
Definition devolucion_de (pid : Z) (bs : list byte) : Prop :=
  exists motivo nombre params, bs = enviar_devolver_proceso pid motivo nombre params (Z.of_nat (length params)).

(** One more message to the Scheduler, which gives [pid] back. *)
Definition devuelto (pid : Z) (c c' : cpu) : Prop :=
  c_scheduler_socket c = s -> memory_socket c <> s ->
  exists bs, devolucion_de pid bs /\ mensajes_a s c' = mensajes_a s c ++ [bs].

Lemma devuelto_devolver pid motivo nombre params c c' :
  devolver pid motivo nombre params c = Some (tt, c') -> devuelto pid c c'.
Proof.
  intros E Hs Hm. injection E as <-. eexists. split; [by exists motivo, nombre, params|].
  unfold mensajes_a. cbn [c_salidas con_c_salidas]. rewrite filter_app, filter_cons_True by done.
  by rewrite filter_nil, fmap_app.
Qed.
Lemma callado_devuelto pid c1 c2 c3 : callado_de s c1 c2 -> devuelto pid c2 c3 -> devuelto pid c1 c3.
Proof.
  intros H12 H23 Hs Hm. destruct (H12 Hs Hm) as (H1 & H2 & _ & H4). destruct (H23 H1 H2) as (bs & Hd & ->).
  rewrite H4. by exists bs.
Qed.

(** Runs that give the process back. *)
Definition devuelve (pid : Z) (x : C unit) : Prop := forall c c', x c = Some (tt, c') -> devuelto pid c c'.
Lemma devuelve_bind {A} pid (x : C A) k : callado x -> (forall a, devuelve pid (k a)) -> devuelve pid (x ≫= k).
Proof.
  intros Hx Hk c c' E. unfold mbind, ST_bind in E. destruct (x c) as [[a c1]|] eqn:E1; [|done].
  apply (callado_devuelto _ _ c1); [by apply (Hx c a)|by apply (Hk a)].
Qed.

Lemma devuelve_liberar pid motivo nombre params l i :
  devuelve pid (_ ← devolver pid motivo nombre params; liberar_instruccion l i).
Proof.
  intros c c' E. unfold mbind, ST_bind in E. destruct (devolver _ _ _ _ c) as [[[] c1]|] eqn:E1; [|done].
  assert (c' = c1) as -> by (unfold liberar_instruccion in E; case_match; [done|by injection E as <-]).
  by apply devuelto_devolver in E1.
Qed.
Lemma devuelve_interrupcion ctx i : devuelve (c_pid ctx) (manejar_interrupcion crear_conexion ctx i).
Proof.
  apply devuelve_bind; [by apply callado_actualizar|]. intros _. apply devuelve_bind; [apply callado_gets|].
  intros m. apply devuelve_liberar.
Qed.
Lemma devuelve_resultado ctx i r : r <> CONTINUAR -> devuelve (c_pid ctx) (manejar_resultado_execute crear_conexion ctx i r).
Proof.
  intros Hr. destruct r; [done|..]; (apply devuelve_bind; [by apply callado_actualizar|]; intros _); try apply devuelve_liberar.
  destruct (es_syscall_memoria i); [|apply devuelve_liberar].
  destruct (resolver_parametros_syscall_io _ _ _) as [mismo resueltos]. apply devuelve_liberar.
Qed.

(** A turn either goes on with the same process, having said nothing, or gives
    it back. *)
Lemma turno_devuelve ctx c r c' : turno crear_conexion string_split ctx c = Some (r, c') ->
  match r with
  | Some ctx' => c_pid ctx' = c_pid ctx /\ callado_de s c c'
  | None => devuelto (c_pid ctx) c c'
  end.
Proof.
  unfold turno. unfold mbind, ST_bind. intros E.
  destruct (fetch_instruccion _ _ ctx c) as [[[i|] c1]|] eqn:E1; [|unfold manejar_error_fetch in E|done];
    pose proof (callado_fetch crear_conexion string_split s crear_otro ctx c _ _ E1) as H1.
  - destruct (execute_instruccion ctx i c1) as [[[res ctx'] c2]|] eqn:E2; [|done].
    destruct (conserva_execute ctx i c1 res ctx' c2 E2) as [Hp _].
    pose proof (callado_enmarcado _ (enmarcado_execute ctx i) c1 _ _ E2) as H2.
    assert (H12 : callado_de s c c2) by (by transitivity c1).
    destruct (decide (res = CONTINUAR)) as [->|Hne].
    + destruct (check_interrupt c2) as [[b c3]|] eqn:E3; [|done].
      assert (H13 : callado_de s c c3).
      { transitivity c2; [done|by apply (callado_check c2 b)]. }
      destruct b.
      * destruct (manejar_interrupcion _ ctx' i c3) as [[[] c4]|] eqn:E4; [|done]. injection E as <- <-.
        rewrite <-Hp. apply (callado_devuelto _ _ c3); [done|by apply (devuelve_interrupcion ctx' i)].
      * injection E as <- <-. done.
    + destruct (manejar_resultado_execute _ ctx' i res c2) as [[[] c4]|] eqn:E4; [|done]. injection E as <- <-.
      rewrite <-Hp. apply (callado_devuelto _ _ c2); [done|by apply (devuelve_resultado ctx' i res)].
  - destruct (devolver _ _ _ _ c1) as [[[] c2]|] eqn:E2; [|done]. injection E as <- <-.
    apply (callado_devuelto _ _ c1); [done|by apply devuelto_devolver in E2].
Qed.

Lemma turnos_devuelve n : forall ctx, devuelve (c_pid ctx) (turnos crear_conexion string_split n ctx).
Proof.
  induction n as [|n IH]; intros ctx c c' E; cbn [turnos] in E; [done|]. unfold mbind, ST_bind in E.
  destruct (turno _ _ ctx c) as [[r c1]|] eqn:E1; [|done]. pose proof (turno_devuelve ctx c r c1 E1) as H.
  destruct r as [ctx'|].
  - destruct H as [<- H]. apply (callado_devuelto _ _ c1); [done|by apply IH].
  - by injection E as <-.
Qed.
End una_vez.

(** C23: a cycle that ends has either found no context, and then nothing is said
    to the Scheduler, or has given the process back exactly once and left the CPU
    without process and without pending interrupt; whatever Memory answers, the
    program does and the Scheduler interrupts. *)
Theorem ciclo_devuelve_una_vez crear_conexion string_split n pid c c' :
  let s := c_scheduler_socket c in
  (forall ip puerto sock d, crear_conexion ip puerto = Some (sock, d) -> sock <> s) ->
  memory_socket c <> s ->
  ejecutar_ciclo_instruccion crear_conexion string_split n pid c = Some (tt, c') ->
  (solicitar_contexto_a_memory crear_conexion pid c = Some (None, c') /\
   mensajes_a s c' = mensajes_a s c /\ pid_en_ejecucion c' = pid_en_ejecucion c) \/
  (exists bs, devolucion_de pid bs /\ mensajes_a s c' = mensajes_a s c ++ [bs] /\
   pid_en_ejecucion c' = -1 /\ interrupcion_pendiente c' = false).
Proof.
  intros s Hcrear Hms E. unfold ejecutar_ciclo_instruccion, mbind, ST_bind in E.
  destruct (solicitar_contexto_a_memory crear_conexion pid c) as [[[ctx|] c1]|] eqn:E1; [|left|done];
    destruct (callado_solicitar crear_conexion s Hcrear pid c _ _ E1 eq_refl Hms) as (H1 & H2 & H3 & H4).
  - right. cbn [st_mod] in E. destruct (turnos _ _ n ctx _) as [[[] c2]|] eqn:E2; [|done].
    assert (Hpid : c_pid ctx = pid).
    { unfold solicitar_contexto_a_memory, mbind, ST_bind, st_gets, st_put, st_get in E1.
      destruct (c_enviar _ _ c) as [[? c0]|]; [|done]. destruct (esperar_respuesta _ c0) as [[? c00]|]; [|done].
      destruct (contexto_pendiente _) as [[regs segs]|]; [|done]. destruct (negb _); [done|]. by injection E1 as <- _. }
    apply (turnos_devuelve crear_conexion string_split s Hcrear n ctx) in E2.
    destruct (E2 H1 H2) as (bs & Hbs & Hm). rewrite Hpid in Hbs. injection E as <-.
    exists bs. split; [done|]. split; [|done]. change (mensajes_a s c2 = mensajes_a s c ++ [bs]).
    rewrite Hm. change (mensajes_a s c1 ++ [bs] = mensajes_a s c ++ [bs]). by rewrite H4.
  - injection E as <-. done.
Qed.

(** ** The answers of Memory *)

(** After a request to Memory and its answer. *)
Definition atendido (pedido : list byte) (r : respuestas) (resto : list byte) (c : cpu) : cpu :=
  con_respuestas r (con_de_memory resto (con_c_salidas (c_salidas c ++ [(memory_socket c, pedido)]) c)).

Section respuestas_memory.
Variable crear_conexion : list byte -> list byte -> option (Z * stick).
Variable string_split : list byte -> list byte -> list (list byte).

Lemma esperar_una c c1 :
  respuesta_lista (c_respuestas c) = O -> escuchar_memory crear_conexion c = Some (true, c1) ->
  let r := c_respuestas c1 in
  respuesta_lista r = 1%nat ->
  esperar_respuesta crear_conexion c =
    Some (tt, con_respuestas (Respuestas (codigo_pendiente r) (instruccion_pendiente r) (contexto_pendiente r) O) c1).
Proof.
  intros H0 E r H1. unfold esperar_respuesta. rewrite (st_bind_ok _ _ _ c c eq_refl).
  cbn [esperar_respuesta_bucle]. rewrite (st_bind_ok _ _ _ c c eq_refl), H0, (st_bind_ok _ _ _ _ _ E).
  destruct (length (c_de_memory c)); cbn [esperar_respuesta_bucle]; rewrite (st_bind_ok _ _ _ c1 c1 eq_refl); fold r;
    by rewrite H1.
Qed.

(** A message of the protocol [p] in what Memory has sent: its op_code, then
    its fields. *)
Lemma recibe_memory (p : protocolo) {Hok : ProtocoloOk p} d c resto :
  p_valido p d -> c_de_memory c = p_enviar p d ++ resto ->
  exists s1, c_recibir (fun s => Some (recibir_codigo_operacion s)) c = Some (op_num (p_op p), con_de_memory s1 c) /\
    c_recibir (p_recibir p) (con_de_memory s1 c) = Some (p_imagen p d, con_de_memory resto c).
Proof.
  intros Hv Hc. destruct (Hok d Hv) as (pl & Hpl & Hr). rewrite Hpl in Hc.
  destruct (recibe_trama _ (p_op p) _ _ resto Hr) as (s1 & Hs1 & Hr1). exists s1. unfold c_recibir. split.
  - by rewrite Hc, Hs1.
  - cbn [c_de_memory con_de_memory]. by rewrite Hr1.
Qed.

Lemma escucha_instruccion c linea resto :
  cadena_ok linea -> c_de_memory c = enviar_respuesta_instruccion linea ++ resto ->
  let r := c_respuestas c in
  escuchar_memory crear_conexion c = Some (true,
    con_respuestas (Respuestas (op_num OBTENER_INSTRUCCION) (Some linea) (contexto_pendiente r) (S (respuesta_lista r)))
      (con_de_memory resto c)).
Proof.
  intros Hl Hc r. destruct (recibe_memory p_instruccion linea c resto Hl Hc) as (s1 & E1 & E2).
  unfold escuchar_memory. rewrite (st_bind_ok _ _ _ _ _ E1).
  change (i32 (op_num (p_op p_instruccion)) =? -1) with false. cbv iota.
  change (op_num (p_op p_instruccion) =? op_num NUEVA_MEMORIA_DISPONIBLE) with false.
  change (op_num (p_op p_instruccion) =? op_num OBTENER_INSTRUCCION) with true. cbv iota.
  eassert (E3 : manejar_instruccion (con_de_memory s1 c) = _) by exact (st_bind_ok _ _ _ _ _ E2).
  by rewrite (st_bind_ok _ _ _ _ _ E3).
Qed.

Lemma escucha_contexto c ctx resto :
  registros_ok ctx.1 -> segmentos_ok ctx.2 -> c_de_memory c = enviar_contexto_proceso ctx.1 ctx.2 ++ resto ->
  let r := c_respuestas c in
  escuchar_memory crear_conexion c = Some (true,
    con_respuestas (Respuestas (op_num OBTENER_CONTEXTO) (instruccion_pendiente r) (Some ctx) (S (respuesta_lista r)))
      (con_de_memory resto c)).
Proof.
  destruct ctx as [regs segs]. intros Hr Hs Hc r.
  destruct (recibe_memory p_contexto (regs, segs) c resto (conj Hr Hs) Hc) as (s1 & E1 & E2).
  unfold escuchar_memory. rewrite (st_bind_ok _ _ _ _ _ E1).
  change (i32 (op_num (p_op p_contexto)) =? -1) with false. cbv iota.
  change (op_num (p_op p_contexto) =? op_num NUEVA_MEMORIA_DISPONIBLE) with false.
  change (op_num (p_op p_contexto) =? op_num OBTENER_INSTRUCCION) with false.
  change (op_num (p_op p_contexto) =? op_num OBTENER_CONTEXTO) with true. cbv iota.
  eassert (E3 : manejar_contexto (con_de_memory s1 c) = _) by exact (st_bind_ok _ _ _ _ _ E2).
  by rewrite (st_bind_ok _ _ _ _ _ E3).
Qed.

Lemma escucha_ack c resto :
  c_de_memory c = enviar_ok ACTUALIZAR_CONTEXTO ++ resto ->
  let r := c_respuestas c in
  escuchar_memory crear_conexion c = Some (true,
    con_respuestas (Respuestas (op_num ACTUALIZAR_CONTEXTO) (instruccion_pendiente r) (contexto_pendiente r)
      (S (respuesta_lista r))) (con_de_memory resto c)).
Proof.
  intros Hc r. destruct (recibe_memory (p_ok ACTUALIZAR_CONTEXTO) tt c resto I Hc) as (s1 & E1 & E2).
  unfold escuchar_memory. rewrite (st_bind_ok _ _ _ _ _ E1).
  change (p_op (p_ok ACTUALIZAR_CONTEXTO)) with ACTUALIZAR_CONTEXTO.
  change (i32 (op_num ACTUALIZAR_CONTEXTO) =? -1) with false. cbv iota.
  change (op_num ACTUALIZAR_CONTEXTO =? op_num NUEVA_MEMORIA_DISPONIBLE) with false.
  change (op_num ACTUALIZAR_CONTEXTO =? op_num OBTENER_INSTRUCCION) with false.
  change (op_num ACTUALIZAR_CONTEXTO =? op_num OBTENER_CONTEXTO) with false.
  change (op_num ACTUALIZAR_CONTEXTO =? op_num ACTUALIZAR_CONTEXTO) with true. cbv iota.
  eassert (E3 : manejar_ack (op_num ACTUALIZAR_CONTEXTO) (con_de_memory s1 c) = _) by exact (st_bind_ok _ _ _ _ _ E2).
  by rewrite (st_bind_ok _ _ _ _ _ E3).
Qed.

(** Nobody has posted the semaphore yet. *)
Definition sin_respuesta (c : cpu) : Prop := respuesta_lista (c_respuestas c) = O.

Lemma solicitar_contexto_ok pid regs segs c resto :
  sin_respuesta c -> registros_ok regs -> segmentos_ok segs ->
  c_de_memory c = enviar_contexto_proceso regs segs ++ resto ->
  solicitar_contexto_a_memory crear_conexion pid c = Some (Some (Contexto pid regs segs),
    atendido (enviar_solicitar_contexto pid)
      (Respuestas (op_num OBTENER_CONTEXTO) (instruccion_pendiente (c_respuestas c)) None O) resto c).
Proof.
  intros H0 Hr Hs Hc. unfold solicitar_contexto_a_memory. rewrite (st_bind_ok _ _ _ _ _ eq_refl).
  rewrite (st_bind_ok _ _ c tt _ eq_refl). set (c1 := con_c_salidas _ c).
  pose proof (escucha_contexto c1 (regs, segs) resto Hr Hs Hc) as E.
  assert (E1 := esperar_una c1 _ H0 E).
  rewrite (st_bind_ok _ _ _ _ _ (E1 (f_equal S H0))).
  rewrite (st_bind_ok _ _ _ _ _ eq_refl). by rewrite (st_bind_ok _ _ _ _ _ eq_refl).
Qed.

Lemma actualizar_contexto_ok ctx c resto :
  sin_respuesta c -> c_de_memory c = enviar_ok ACTUALIZAR_CONTEXTO ++ resto ->
  actualizar_contexto_en_memory crear_conexion ctx c = Some (true,
    atendido (enviar_actualizar_contexto ctx)
      (Respuestas (op_num ACTUALIZAR_CONTEXTO) (instruccion_pendiente (c_respuestas c))
         (contexto_pendiente (c_respuestas c)) O) resto c).
Proof.
  intros H0 Hc. unfold actualizar_contexto_en_memory. rewrite (st_bind_ok _ _ _ _ _ eq_refl).
  rewrite (st_bind_ok _ _ c tt _ eq_refl). set (c1 := con_c_salidas _ c).
  pose proof (escucha_ack c1 resto Hc) as E. assert (E1 := esperar_una c1 _ H0 E).
  rewrite (st_bind_ok _ _ _ _ _ (E1 (f_equal S H0))). by rewrite (st_bind_ok _ _ _ _ _ eq_refl).
Qed.

Lemma fetch_ok ctx linea i c resto :
  sin_respuesta c -> cadena_ok (con_nul linea) -> decode_instruccion string_split linea = Some i ->
  c_de_memory c = enviar_respuesta_instruccion (con_nul linea) ++ resto ->
  fetch_instruccion crear_conexion string_split ctx c = Some (Some i,
    atendido (enviar_obtener_instruccion (c_pid ctx) (pc (c_registros ctx)))
      (Respuestas (op_num OBTENER_INSTRUCCION) None (contexto_pendiente (c_respuestas c)) O) resto c).
Proof.
  intros H0 Hl Hi Hc. unfold fetch_instruccion. rewrite (st_bind_ok _ _ _ _ _ eq_refl).
  rewrite (st_bind_ok _ _ c tt _ eq_refl). set (c1 := con_c_salidas _ c).
  pose proof (escucha_instruccion c1 _ resto Hl Hc) as E. assert (E1 := esperar_una c1 _ H0 E).
  rewrite (st_bind_ok _ _ _ _ _ (E1 (f_equal S H0))).
  rewrite (st_bind_ok _ _ _ _ _ eq_refl), (st_bind_ok _ _ _ tt _ eq_refl). cbn [instruccion_pendiente c_respuestas con_respuestas].
  assert (Hcs : cstr (con_nul linea) = linea).
  { destruct Hl as [(x & Hx & Hn) _]. apply app_inj_2 in Hx as [-> _]; [|done].
    clear -Hn. induction x as [|a x IH]; [done|]. apply not_elem_of_cons in Hn as [Ha Hn].
    unfold con_nul in *. cbn. rewrite decide_False by congruence. by rewrite IH. }
  rewrite Hcs, Hi. done.
Qed.
End respuestas_memory.

(** ** The messages of the Scheduler *)

Definition avisos (l : list (Z * Z)) : list byte := l ≫= fun '(pid, motivo) => enviar_interrupcion pid motivo.
Definition avisos_ok (l : list (Z * Z)) : Prop := Forall (fun '(pid, motivo) => es_int pid /\ es_int motivo) l.
(** The motive of the last one for the process [pid]. *)
Definition interrupcion_de (pid : Z) (l : list (Z * Z)) : option Z := last (snd <$> filter (fun p => p.1 = pid) l).

Lemma escuchar_interrupcion pid motivo b c :
  es_int pid -> es_int motivo ->
  escuchar_scheduler (enviar_interrupcion pid motivo ++ b) c =
    Some (b, if pid =? pid_en_ejecucion c then con_interrupcion true motivo c else c).
Proof.
  intros Hp Hm. destruct (protocolo_ok (p := p_interrupcion) (pid, motivo) (conj Hp Hm)) as (pl & Hpl & Hr).
  change (enviar_interrupcion pid motivo = trama INTERRUPCION pl) in Hpl. rewrite Hpl.
  destruct (recibe_trama _ INTERRUPCION _ _ b Hr) as (s1 & Hs1 & Hr1). unfold escuchar_scheduler. rewrite Hs1.
  change (i32 (op_num INTERRUPCION) =? -1) with false. change (op_num INTERRUPCION =? op_num EJECUTAR_PROCESO) with false.
  change (op_num INTERRUPCION =? op_num INTERRUPCION) with true. cbv iota.
  change (recibir_interrupcion s1 = Some ((pid, motivo), b)) in Hr1. rewrite Hr1.
  rewrite (st_bind_ok (st_lift (Some (pid, motivo, b))) _ c (pid, motivo, b) c eq_refl). rewrite (st_bind_ok _ _ _ c c eq_refl).
  by destruct (pid =? _).
Qed.

Lemma length_enviar_interrupcion pid motivo :
  es_int pid -> es_int motivo -> (1 <= length (enviar_interrupcion pid motivo))%nat.
Proof.
  intros Hp Hm. destruct (protocolo_ok (p := p_interrupcion) (pid, motivo) (conj Hp Hm)) as (pl & Hpl & _).
  change (enviar_interrupcion pid motivo = trama INTERRUPCION pl) in Hpl. rewrite Hpl, length_trama. lia.
Qed.

Lemma interrupcion_de_cons pid p m l :
  interrupcion_de pid ((p, m) :: l) =
    if decide (p = pid) then Some (default m (interrupcion_de pid l)) else interrupcion_de pid l.
Proof.
  unfold interrupcion_de. case_decide; [rewrite filter_cons_True by done|by rewrite filter_cons_False by done].
  cbn [fmap list_fmap snd]. rewrite last_cons. by destruct (last _).
Qed.

Lemma escuchar_avisos_ok l : forall n c, avisos_ok l -> (length (avisos l) <= n)%nat ->
  escuchar_avisos n (avisos l) c =
    Some (tt, match interrupcion_de (pid_en_ejecucion c) l with Some m => con_interrupcion true m c | None => c end).
Proof.
  induction l as [|[p m] l IH]; intros n c Hl Hn; [by destruct n|].
  apply Forall_cons in Hl as [[Hp Hm] Hl]. pose proof (length_enviar_interrupcion p m Hp Hm) as Hlen.
  unfold avisos in *. rewrite bind_cons in *. rewrite length_app in Hn. destruct n as [|n]; [lia|].
  destruct (enviar_interrupcion p m ++ _) as [|x b] eqn:E.
  { apply (f_equal length) in E. rewrite length_app in E. cbn in E. lia. }
  cbn [escuchar_avisos]. rewrite <-E. rewrite (st_bind_ok _ _ _ _ _ (escuchar_interrupcion p m _ c Hp Hm)).
  rewrite IH by (done || lia). rewrite interrupcion_de_cons.
  destruct (Z.eqb_spec p (pid_en_ejecucion c)) as [->|Hne].
  - rewrite decide_True by done. cbn [pid_en_ejecucion con_interrupcion]. by destruct (interrupcion_de _ l).
  - by rewrite decide_False.
Qed.

(** What the check finds in what has arrived. *)
Lemma check_interrupt_ok c l avs :
  avisos_ok l -> c_avisos c = avisos l :: avs -> interrupcion_pendiente c = false ->
  check_interrupt c = Some (match interrupcion_de (pid_en_ejecucion c) l with
    | Some m => (true, con_interrupcion false m (con_avisos_sched avs c))
    | None => (false, con_avisos_sched avs c)
    end).
Proof.
  intros Hl Ha Hi. unfold check_interrupt, recibir_avisos.
  assert (E : recibir_avisos c = Some (tt, match interrupcion_de (pid_en_ejecucion c) l with
    | Some m => con_interrupcion true m (con_avisos_sched avs c) | None => con_avisos_sched avs c end)).
  { unfold recibir_avisos. rewrite (st_bind_ok _ _ c c c eq_refl), Ha. rewrite (st_bind_ok _ _ c tt _ eq_refl).
    exact (escuchar_avisos_ok l _ (con_avisos_sched avs c) Hl (Nat.le_refl _)). }
  rewrite (st_bind_ok _ _ _ _ _ E). destruct (interrupcion_de _ l).
  - done.
  - unfold mbind, ST_bind, st_get. cbn [interrupcion_pendiente con_avisos_sched]. by rewrite Hi.
Qed.

(** ** The run of a program, and the cycle that carries it out *)

Section programa.
Variable string_split : list byte -> list byte -> list (list byte).
(** The instruction of the process at each program counter. *)
Variable programa : Z -> list byte.

(** One instruction of the process, on the memory of the CPU. *)
Definition paso (ctx : t_contexto) : C (t_instruccion * t_resultado_execute * t_contexto) :=
  i ← st_lift (decode_instruccion string_split (programa (pc (c_registros ctx))));
  '(r, ctx') ← execute_instruccion ctx i; mret (i, r, ctx').

(** [k] instructions, each [CONTINUAR]: the program counters, the context. *)
Fixpoint tramo (k : nat) (ctx : t_contexto) : C (list Z * t_contexto) :=
  match k with
  | O => mret ([], ctx)
  | S k =>
      '(_, r, ctx1) ← paso ctx;
      if decide (r = CONTINUAR) then
        '(pcs, ctx2) ← tramo k ctx1; mret (pc (c_registros ctx) :: pcs, ctx2)
      else st_abort
  end.

Lemma enmarcado_paso ctx : enmarcado (paso ctx).
Proof.
  apply enmarcado_bind; [auto with marco|]. intros i. apply enmarcado_bind; [apply enmarcado_execute|].
  intros [r ctx']. auto with marco.
Qed.
Lemma enmarcado_tramo k : forall ctx, enmarcado (tramo k ctx).
Proof.
  induction k as [|k IH]; intros ctx; cbn [tramo]; [auto with marco|].
  apply enmarcado_bind; [apply enmarcado_paso|]. intros [[i r] ctx1]. case_match; [|auto with marco].
  apply enmarcado_bind; [apply IH|]. intros [pcs ctx2]. auto with marco.
Qed.

Definition linea_en (pcs : list Z) : list byte :=
  pcs ≫= fun pc => enviar_respuesta_instruccion (con_nul (programa pc)).
Lemma linea_en_cons pc pcs :
  linea_en (pc :: pcs) = enviar_respuesta_instruccion (con_nul (programa pc)) ++ linea_en pcs.
Proof. done. Qed.
Definition pedidos_de (c : cpu) (pid : Z) (pcs : list Z) : list (Z * list byte) :=
  (fun pc => (memory_socket c, enviar_obtener_instruccion pid pc)) <$> pcs.

(** The CPU runs [ctx]: nobody has answered or interrupted yet. *)
Definition en_marcha (ctx : t_contexto) (c : cpu) : Prop :=
  sin_respuesta c /\ interrupcion_pendiente c = false /\ pid_en_ejecucion c = c_pid ctx.

(** [c] after the requests [ps], with the sticks [red], what Memory has sent
    down to [resto] and the Scheduler down to [avs]. *)
Definition tras (rr : respuestas) (red : gmap Z (enlace stick)) (resto : list byte) (avs : list (list byte))
    (ps : list (Z * list byte)) (c : cpu) : cpu :=
  con_respuestas rr (con_c_red red (con_avisos_sched avs (con_de_memory resto (con_c_salidas (c_salidas c ++ ps) c)))).

Variable crear_conexion : list byte -> list byte -> option (Z * stick).

Lemma turno_pasos ctx c i r ctx' red resto :
  en_marcha ctx c -> paso ctx c = Some ((i, r, ctx'), con_c_red red c) ->
  cadena_ok (con_nul (programa (pc (c_registros ctx)))) ->
  c_de_memory c = linea_en [pc (c_registros ctx)] ++ resto ->
  exists rr, respuesta_lista rr = O /\
    let c1 := tras rr red resto (c_avisos c) (pedidos_de c (c_pid ctx) [pc (c_registros ctx)]) c in
    turno crear_conexion string_split ctx c =
      (if decide (r = CONTINUAR) then
         interrumpido ← check_interrupt;
         if (interrumpido : bool) then _ ← manejar_interrupcion crear_conexion ctx' i; mret None
         else _ ← liberar_instruccion false i; mret (Some ctx')
       else _ ← manejar_resultado_execute crear_conexion ctx' i r; mret None) c1.
Proof.
  intros (H0 & Hi & Hp) E Hl Hc. unfold paso in E. set (linea := programa (pc (c_registros ctx))) in *.
  destruct (decode_instruccion string_split linea) as [i'|] eqn:Ei; [|done].
  rewrite (st_bind_ok _ _ c i' c eq_refl) in E. unfold mbind, ST_bind at 1 in E.
  destruct (execute_instruccion ctx i' c) as [[[r' ctx''] c2]|] eqn:E2; [|done]. injection E as <- <- <- ->.
  rewrite linea_en_cons, app_nil_r in Hc. fold linea in Hc.
  pose proof (fetch_ok crear_conexion string_split ctx linea i' c resto H0 Hl Ei Hc) as EF.
  exists (Respuestas (op_num OBTENER_INSTRUCCION) None (contexto_pendiente (c_respuestas c)) O).
  split; [done|]. intros c1. unfold turno. rewrite (st_bind_ok _ _ _ _ _ EF). cbv iota beta.
  set (ca := atendido _ _ _ _).
  pose proof (enmarcado_execute ctx i' c ca (conj eq_refl (conj eq_refl eq_refl))) as EX. rewrite E2 in EX.
  destruct EX as [_ EX]. rewrite (st_bind_ok _ _ _ _ _ EX). reflexivity.
Qed.

(** A turn that goes on. *)
Lemma turno_sigue ctx c i ctx' red resto l avs :
  en_marcha ctx c -> paso ctx c = Some ((i, CONTINUAR, ctx'), con_c_red red c) ->
  cadena_ok (con_nul (programa (pc (c_registros ctx)))) ->
  c_de_memory c = linea_en [pc (c_registros ctx)] ++ resto ->
  c_avisos c = avisos l :: avs -> avisos_ok l -> interrupcion_de (c_pid ctx) l = None ->
  exists rr, let c1 := tras rr red resto avs (pedidos_de c (c_pid ctx) [pc (c_registros ctx)]) c in
    en_marcha ctx' c1 /\ turno crear_conexion string_split ctx c = Some (Some ctx', c1).
Proof.
  intros Hm E Hl Hc Ha Hok Hno. destruct (turno_pasos ctx c i CONTINUAR ctx' red resto Hm E Hl Hc) as (rr & Hrr & T).
  destruct Hm as (H0 & Hi & Hp). exists rr. intros c1. split.
  - split; [done|]. split; [done|]. unfold paso, mbind, ST_bind in E. destruct (st_lift _ c) as [[i' c']|]; [|done].
    destruct (execute_instruccion ctx i' c') as [[[r ctx2] c2]|] eqn:E2; [|done].
    injection E as _ _ -> _. by rewrite (proj1 (conserva_execute ctx i' _ _ _ _ E2)).
  - rewrite T, decide_True by done. set (c2 := tras _ _ _ _ _ _).
    pose proof (check_interrupt_ok c2 l avs Hok Ha Hi) as EC. change (pid_en_ejecucion c2) with (pid_en_ejecucion c) in EC.
    rewrite Hp, Hno in EC. by rewrite (st_bind_ok _ _ _ _ _ EC).
Qed.

Lemma paso_red ctx c x c' : paso ctx c = Some (x, c') -> c' = con_c_red (c_red c') c.
Proof. intros E. pose proof (enmarcado_paso ctx c c (conj eq_refl (conj eq_refl eq_refl))) as H. rewrite E in H. apply H. Qed.

(** Any number of them. *)
Lemma turnos_tramo k n : forall ctx c pcs ctx' red resto ls avs,
  en_marcha ctx c -> tramo k ctx c = Some ((pcs, ctx'), con_c_red red c) ->
  Forall (fun pc => cadena_ok (con_nul (programa pc))) pcs ->
  c_de_memory c = linea_en pcs ++ resto ->
  c_avisos c = (avisos <$> ls) ++ avs -> length ls = k -> Forall avisos_ok ls ->
  Forall (fun l => interrupcion_de (c_pid ctx) l = None) ls ->
  exists rr, let c1 := tras rr red resto avs (pedidos_de c (c_pid ctx) pcs) c in
    en_marcha ctx' c1 /\ c_pid ctx' = c_pid ctx /\
    turnos crear_conexion string_split (k + n) ctx c = turnos crear_conexion string_split n ctx' c1.
Proof.
  induction k as [|k IH]; intros ctx c pcs ctx' red resto ls avs Hm E Hl Hc Ha Hk Hok Hno.
  - injection E as <- <- Hc2. destruct ls; [|done]. cbn in Hc, Ha. exists (c_respuestas c). intros c1.
    assert (c1 = c) as ->; [|by destruct Hm].
    unfold c1, tras, pedidos_de. cbn [fmap list_fmap]. rewrite app_nil_r, <-Hc, <-Ha.
    apply (f_equal c_red) in Hc2. cbn in Hc2. rewrite <-Hc2. by destruct c.
  - destruct ls as [|l ls]; [done|]. injection Hk as Hk. apply Forall_cons in Hok as [Hokl Hok], Hno as [Hnol Hno].
    cbn [tramo] in E. unfold mbind at 1, ST_bind at 1 in E.
    destruct (paso ctx c) as [[[[i r] ctx1] c2]|] eqn:Ep; [|done]. pose proof (paso_red _ _ _ _ Ep) as Hc2.
    case_decide as Hr; [|done]. subst r. unfold mbind, ST_bind in E.
    destruct (tramo k ctx1 c2) as [[[pcs1 ctx2] c3]|] eqn:Et; [|done]. injection E as <- <- ->.
    apply Forall_cons in Hl as [Hl1 Hl]. rewrite linea_en_cons, <-app_assoc in Hc.
    rewrite Hc2 in Ep.
    destruct (turno_sigue ctx c i ctx1 (c_red c2) (linea_en pcs1 ++ resto) l ((avisos <$> ls) ++ avs) Hm Ep Hl1)
      as (rr & Hm1 & T); [by rewrite linea_en_cons, app_nil_r|done..|].
    set (c4 := tras rr _ _ _ _ c) in *.
    assert (Hpid : c_pid ctx1 = c_pid ctx) by (destruct Hm as (_ & _ & <-), Hm1 as (_ & _ & <-); done).
    pose proof (enmarcado_tramo k ctx1 c2 c4) as HF. rewrite Et in HF.
    destruct HF as [_ HF]; [rewrite Hc2; by split|]. cbn [c_red con_c_red] in HF.
    destruct (IH ctx1 c4 pcs1 ctx2 red resto ls avs Hm1 HF Hl eq_refl eq_refl Hk Hok) as (rr2 & Hm2 & Hp2 & T2);
      [by rewrite Hpid|].
    exists rr2. rewrite Hpid in T2, Hm2.
    assert (Htras : tras rr2 red resto avs (pedidos_de c4 (c_pid ctx) pcs1) c4 =
      tras rr2 red resto avs (pedidos_de c (c_pid ctx) (pc (c_registros ctx) :: pcs1)) c).
    { unfold c4, tras, pedidos_de. cbn. by rewrite <-app_assoc. }
    rewrite Htras in T2, Hm2. split; [done|]. split; [by rewrite Hp2|]. cbn [Nat.add turnos].
    by rewrite (st_bind_ok _ _ _ _ _ T).
Qed.
End programa.

(** ** The whole cycle *)

(** The message that gives back a process whose last instruction was [i], with
    the result [r] and the context [ctx] after it. *)
Definition devolucion_por (ctx : t_contexto) (i : t_instruccion) (r : t_resultado_execute) : list byte :=
  let sin_datos m := enviar_devolver_proceso (c_pid ctx) (motivo_num m) None [] 0 in
  match r with
  | SYSCALL =>
      let params :=
        if es_syscall_memoria i then (resolver_parametros_syscall_io (nombre i) (parametros i) (c_registros ctx)).2
        else parametros i in
      let params := con_nul <$> params in
      enviar_devolver_proceso (c_pid ctx) (motivo_num MOTIVO_SYSCALL) (Some (con_nul (nombre i))) params
        (Z.of_nat (length params))
  | EXIT_PROCESO => sin_datos MOTIVO_EXIT
  | SEG_FAULT => sin_datos MOTIVO_SEGFAULT
  | _ => sin_datos MOTIVO_ERROR
  end.

(** The CPU between two processes. *)
Definition libre (c : cpu) : Prop := sin_respuesta c /\ interrupcion_pendiente c = false.

(** [c'] is [c] after it has run [pid], with the context Memory sent, the fetches
    of [pcs], the context given back to Memory and [dev] to the Scheduler. *)
Definition ciclo_hecho (c c' : cpu) (pid : Z) (pcs : list Z) (ctx : t_contexto) (dev : list byte)
    (red : gmap Z (enlace stick)) (resto : list byte) (avs : list (list byte)) : Prop :=
  c_salidas c' = c_salidas c ++ (memory_socket c, enviar_solicitar_contexto pid) :: pedidos_de c pid pcs ++
    [(memory_socket c, enviar_actualizar_contexto ctx); (c_scheduler_socket c, dev)] /\
  c_red c' = red /\ misma_memoria c' (con_c_red red c) /\ c_de_memory c' = resto /\ c_avisos c' = avs /\
  libre c' /\ pid_en_ejecucion c' = -1.

Lemma con_avisos_tras avs rr red resto avs2 ps c :
  con_avisos_sched avs (tras rr red resto avs2 ps c) = tras rr red resto avs ps c.
Proof. done. Qed.

Section ciclo_entero.
Variable crear_conexion : list byte -> list byte -> option (Z * stick).
Variable string_split : list byte -> list byte -> list (list byte).
Variable programa : Z -> list byte.

(** From the context to the last turn, after [k] that went on. *)
Lemma ciclo_tramo pid regs segs c k n pcs ctx' red resto ls avs :
  libre c -> registros_ok regs -> segmentos_ok segs ->
  tramo string_split programa k (Contexto pid regs segs) c = Some ((pcs, ctx'), con_c_red red c) ->
  Forall (fun pc => cadena_ok (con_nul (programa pc))) pcs ->
  c_de_memory c = enviar_contexto_proceso regs segs ++ linea_en programa pcs ++ resto ->
  c_avisos c = (avisos <$> ls) ++ avs -> length ls = k -> Forall avisos_ok ls ->
  Forall (fun l => interrupcion_de pid l = None) ls ->
  exists rr, let c1 := con_pid_en_ejecucion pid (tras rr red resto avs
      ((memory_socket c, enviar_solicitar_contexto pid) :: pedidos_de c pid pcs) c) in
    en_marcha ctx' c1 /\ c_pid ctx' = pid /\
    ejecutar_ciclo_instruccion crear_conexion string_split (k + n) pid c =
      (_ ← turnos crear_conexion string_split n ctx'; limpiar_estado_cpu) c1.
Proof.
  intros [H0 Hi] Hr Hs Et Hl Hc Ha Hk Hok Hno. set (ctx := Contexto pid regs segs) in *.
  pose proof (solicitar_contexto_ok crear_conexion pid regs segs c _ H0 Hr Hs Hc) as ES. fold ctx in ES.
  set (ca := atendido _ _ _ c) in ES. set (c0 := con_pid_en_ejecucion pid ca).
  pose proof (enmarcado_tramo string_split programa k ctx c c0 (conj eq_refl (conj eq_refl eq_refl))) as HF.
  rewrite Et in HF. destruct HF as [_ HF]. cbn [c_red con_c_red] in HF.
  assert (Hm : en_marcha ctx c0) by done.
  destruct (turnos_tramo string_split programa crear_conexion k n ctx c0 pcs ctx' red resto ls avs
    Hm HF Hl eq_refl Ha Hk Hok Hno) as (rr & Hm1 & Hp1 & T).
  exists rr. intros c1. assert (Hc1 : tras rr red resto avs (pedidos_de c0 (c_pid ctx) pcs) c0 = c1).
  { unfold c1, c0, ca, tras, atendido, pedidos_de. cbn. by rewrite <-app_assoc. }
  rewrite Hc1 in Hm1, T. split; [done|]. split; [done|].
  unfold ejecutar_ciclo_instruccion. rewrite (st_bind_ok _ _ _ _ _ ES).
  rewrite (st_bind_ok (st_mod (con_pid_en_ejecucion pid)) _ ca tt c0 eq_refl). unfold mbind, ST_bind. by rewrite T.
Qed.

(** The end of the cycle: the context to Memory, the process to the Scheduler. *)
Definition despedido (rr : respuestas) (resto : list byte) (ctx : t_contexto) (dev : list byte) (c : cpu) : cpu :=
  con_respuestas rr (con_de_memory resto (con_c_salidas (c_salidas c ++
    [(memory_socket c, enviar_actualizar_contexto ctx); (c_scheduler_socket c, dev)]) c)).

Lemma liberar_instruccion_ok l i c : l = false \/ parametros i = [] -> liberar_instruccion l i c = Some (tt, c).
Proof. unfold liberar_instruccion. intros [->| ->]; [done|]. by rewrite andb_false_r. Qed.

Lemma devolver_ok ctx c resto pid motivo nombre params l i :
  sin_respuesta c -> c_de_memory c = enviar_ok ACTUALIZAR_CONTEXTO ++ resto -> l = false \/ parametros i = [] ->
  exists rr, respuesta_lista rr = O /\
    (_ ← actualizar_contexto_en_memory crear_conexion ctx; _ ← devolver pid motivo nombre params; liberar_instruccion l i) c =
      Some (tt, despedido rr resto ctx (enviar_devolver_proceso pid motivo nombre params (Z.of_nat (length params))) c).
Proof.
  intros H0 Hc Hl. eexists. split; [|rewrite (st_bind_ok _ _ _ _ _ (actualizar_contexto_ok crear_conexion ctx c resto H0 Hc))].
  2:{ unfold devolver, c_enviar, mbind at 1, ST_bind at 1. unfold mbind, ST_bind, st_gets, st_mod. rewrite liberar_instruccion_ok by done. unfold despedido.
      cbn [c_salidas con_c_salidas atendido con_respuestas con_de_memory c_scheduler_socket].
      rewrite <-app_assoc. reflexivity. }
  done.
Qed.

(** The instruction is freed once: it is not a STDIN or a STDOUT with one parameter. *)
Definition se_libera_una_vez (i : t_instruccion) : Prop := es_syscall_memoria i = true -> length (parametros i) <> 1%nat.

Lemma decode_memoria linea i : decode_instruccion string_split linea = Some i -> es_syscall_memoria i = es_syscall_memoria_nombre (nombre i).
Proof. unfold decode_instruccion. destruct (string_split _ _); [done|]. by intros [= <-]. Qed.
Lemma paso_memoria ctx c i r ctx' c' : paso string_split programa ctx c = Some ((i, r, ctx'), c') ->
  es_syscall_memoria i = es_syscall_memoria_nombre (nombre i).
Proof.
  unfold paso, mbind, ST_bind. destruct (decode_instruccion _ _) as [i'|] eqn:Ei; [|done]. cbn.
  destruct (execute_instruccion ctx i' c) as [[[r' ctx1] c1]|]; [|done]. intros [= <- _ _ _]. by eapply decode_memoria.
Qed.

Lemma resultado_ok ctx i r c resto :
  es_syscall_memoria i = es_syscall_memoria_nombre (nombre i) -> se_libera_una_vez i ->
  r <> CONTINUAR -> sin_respuesta c -> c_de_memory c = enviar_ok ACTUALIZAR_CONTEXTO ++ resto ->
  exists rr, respuesta_lista rr = O /\
    manejar_resultado_execute crear_conexion ctx i r c = Some (tt, despedido rr resto ctx (devolucion_por ctx i r) c).
Proof.
  intros Hi Hu Hr H0 Hc. pose proof (fun m nm ps l => devolver_ok ctx c resto (c_pid ctx) m nm ps l i H0 Hc) as Hd.
  destruct r; [done| |exact (Hd (motivo_num MOTIVO_EXIT) None [] false (or_introl eq_refl))
    |exact (Hd (motivo_num MOTIVO_SEGFAULT) None [] false (or_introl eq_refl))
    |exact (Hd (motivo_num MOTIVO_ERROR) None [] false (or_introl eq_refl))].
  specialize (Hd (motivo_num MOTIVO_SYSCALL) (Some (con_nul (nombre i)))). unfold manejar_resultado_execute, devolucion_por.
  destruct (es_syscall_memoria i) eqn:Em; [|exact (Hd _ false (or_introl eq_refl))].
  destruct (resolver_parametros_syscall_io _ _ _) as [mismo resueltos] eqn:Er. apply (Hd _ mismo).
  unfold resolver_parametros_syscall_io in Er. unfold es_syscall_memoria_nombre in Hi. specialize (Hu Em).
  destruct (strcmp0 (nombre i) "STDOUT"), (strcmp0 (nombre i) "STDIN"); cbn in Hi, Er; try done;
    destruct (parametros i) as [|a [|b l]]; cbn in Er, Hu; try done; injection Er as <- _; auto.
Qed.

(** With one parameter the array is freed twice, whatever the answer of Memory. *)
Lemma resultado_dos_veces ctx i c :
  es_syscall_memoria i = true -> length (parametros i) = 1%nat -> manejar_resultado_execute crear_conexion ctx i SYSCALL c = None.
Proof.
  intros Hm Hl. unfold manejar_resultado_execute, mbind, ST_bind. destruct (actualizar_contexto_en_memory _ _ c) as [[u c1]|]; [|done].
  rewrite Hm. unfold resolver_parametros_syscall_io. rewrite Hl. cbn. rewrite orb_true_r. cbn. unfold liberar_instruccion. by rewrite Hl.
Qed.

Lemma interrupcion_ok ctx i c resto :
  sin_respuesta c -> c_de_memory c = enviar_ok ACTUALIZAR_CONTEXTO ++ resto ->
  exists rr, respuesta_lista rr = O /\
    manejar_interrupcion crear_conexion ctx i c =
      Some (tt, despedido rr resto ctx (enviar_devolver_proceso (c_pid ctx) (motivo_interrupcion c) None [] 0) c).
Proof.
  intros H0 Hc. destruct (devolver_ok ctx c resto (c_pid ctx) (motivo_interrupcion c) None [] false i H0 Hc) as (rr & Hrr & E); [by left|].
  exists rr. split; [done|]. rewrite (st_bind_ok _ _ _ _ _ (actualizar_contexto_ok crear_conexion ctx c resto H0 Hc)) in E.
  unfold manejar_interrupcion.
  rewrite (st_bind_ok _ _ _ _ _ (actualizar_contexto_ok crear_conexion ctx c resto H0 Hc)). exact E.
Qed.

Lemma turnos_fin n ctx c c' :
  turno crear_conexion string_split ctx c = Some (None, c') ->
  (_ ← turnos crear_conexion string_split (S n) ctx; limpiar_estado_cpu) c = limpiar_estado_cpu c'.
Proof. intros H. cbn [turnos]. unfold mbind, ST_bind. by rewrite H. Qed.

(** What is left of the last turn, the cleaning, and the whole. *)
Lemma ciclo_hecho_fin c pid pcs pc ctx dev rr1 rr2 rr3 red1 red resto resto1 resto2 avs1 avs m :
  respuesta_lista rr3 = O ->
  let c1 := con_pid_en_ejecucion pid (tras rr1 red1 resto1 avs1
      ((memory_socket c, enviar_solicitar_contexto pid) :: pedidos_de c pid pcs) c) in
  let c2 := tras rr2 red resto2 avs (pedidos_de c1 pid [pc]) c1 in
  forall c3, c3 = c2 \/ c3 = con_interrupcion false m c2 ->
  exists c', limpiar_estado_cpu (despedido rr3 resto ctx dev c3) = Some (tt, c') /\
    ciclo_hecho c c' pid (pcs ++ [pc]) ctx dev red resto avs.
Proof.
  intros H3 c1 c2 c3 Hc3. eexists. split; [reflexivity|]. destruct Hc3 as [->| ->]; (split; [|by split]).
  all: unfold c2, c1, despedido, tras, pedidos_de;
    cbn [c_salidas con_c_salidas con_respuestas con_de_memory con_interrupcion con_pid_en_ejecucion con_c_red
         con_avisos_sched memory_socket c_scheduler_socket];
    rewrite fmap_app, <-!app_assoc; cbn [app]; rewrite <-?app_assoc; reflexivity.
Qed.
End ciclo_entero.

(** C9: a process that runs [k] instructions and then one that is a syscall,
    EXIT, a segmentation fault or an error, without interruptions meant for it,
    is run by the cycle exactly so: the CPU asks Memory for its context and for
    the instruction at each program counter in turn, the sticks end as the
    instructions leave them, the resulting context goes to Memory and then the
    process to the Scheduler with its motive (and the syscall), once; the CPU is
    then free again. Except when that last instruction is a STDIN or a STDOUT with
    exactly one parameter: its array is freed twice, and the cycle has no defined
    end, whatever the Scheduler was told. *)
Theorem ciclo_hasta_resultado crear_conexion string_split programa pid regs segs c k n
    pcs ctx1 red1 i r ctx2 red resto ls avs :
  libre c -> registros_ok regs -> segmentos_ok segs ->
  tramo string_split programa k (Contexto pid regs segs) c = Some ((pcs, ctx1), con_c_red red1 c) ->
  paso string_split programa ctx1 (con_c_red red1 c) = Some ((i, r, ctx2), con_c_red red c) -> r <> CONTINUAR ->
  let pcs := pcs ++ [pc (c_registros ctx1)] in
  Forall (fun pc => cadena_ok (con_nul (programa pc))) pcs ->
  c_de_memory c = enviar_contexto_proceso regs segs ++ linea_en programa pcs ++ enviar_ok ACTUALIZAR_CONTEXTO ++ resto ->
  c_avisos c = (avisos <$> ls) ++ avs -> length ls = k -> Forall avisos_ok ls ->
  Forall (fun l => interrupcion_de pid l = None) ls ->
  (se_libera_una_vez i ->
   exists c', ejecutar_ciclo_instruccion crear_conexion string_split (k + S n) pid c = Some (tt, c') /\
    ciclo_hecho c c' pid pcs ctx2 (devolucion_por ctx2 i r) red resto avs) /\
  (r = SYSCALL -> ~ se_libera_una_vez i -> ejecutar_ciclo_instruccion crear_conexion string_split (k + S n) pid c = None).
Proof.
  intros Hf Hr Hs Et Ep Hne pcs' Hl Hc Ha Hk Hok Hno. apply Forall_app in Hl as [Hl Hl1].
  apply Forall_cons in Hl1 as [Hl1 _].
  unfold linea_en, pcs' in Hc. rewrite bind_app, <-app_assoc in Hc. fold (linea_en programa pcs) in Hc.
  destruct (ciclo_tramo crear_conexion string_split programa pid regs segs c k (S n) pcs ctx1 red1 _ ls avs
    Hf Hr Hs Et Hl Hc Ha Hk Hok Hno) as (rr & Hm & Hp & ->).
  set (c1 := con_pid_en_ejecucion _ _) in *.
  pose proof (enmarcado_paso string_split programa ctx1 (con_c_red red1 c) c1 (conj eq_refl (conj eq_refl eq_refl))) as HF.
  rewrite Ep in HF. destruct HF as [_ HF]. cbn [c_red con_c_red] in HF.
  destruct (turno_pasos string_split programa crear_conexion ctx1 c1 i r ctx2 red (enviar_ok ACTUALIZAR_CONTEXTO ++ resto)
    Hm HF Hl1 eq_refl) as (rr2 & Hrr2 & T).
  cbv zeta in T. rewrite decide_False in T by done. change (c_avisos c1) with avs in T.
  rewrite Hp in T. set (c2 := tras rr2 _ _ _ _ c1) in T.
  pose proof (paso_memoria _ _ _ _ _ _ _ _ Ep) as Hmem. split.
  - intros Huna. destruct (resultado_ok crear_conexion ctx2 i r c2 resto Hmem Huna Hne Hrr2 eq_refl) as (rr3 & Hrr3 & ER).
    rewrite (st_bind_ok _ _ _ _ _ ER) in T.
    rewrite (turnos_fin crear_conexion string_split n ctx1 c1 _ T).
    eapply (ciclo_hecho_fin c pid pcs _ ctx2 _ rr rr2 rr3 red1 red resto _ _ avs avs 0 Hrr3). by left.
  - intros -> Hdos. unfold mbind, ST_bind in T. unfold se_libera_una_vez in Hdos.
    rewrite resultado_dos_veces in T; [|by destruct (es_syscall_memoria i); [|destruct Hdos]|].
    + unfold mbind, ST_bind. cbn [turnos]. unfold mbind, ST_bind. by rewrite T.
    + destruct (decide (length (parametros i) = 1%nat)); [done|]. by destruct Hdos.
Qed.

(** C21: a process interrupted after [k + 1] instructions by a message that meant
    it: the context after the last of them goes to Memory, the process to the
    Scheduler with the motive of the last such interrupt, once, and the CPU is
    free again. Interrupts meant for other processes change nothing. *)
Theorem ciclo_interrumpido crear_conexion string_split programa pid regs segs c k n
    pcs ctx1 red1 i ctx2 red resto ls l avs motivo :
  libre c -> registros_ok regs -> segmentos_ok segs ->
  tramo string_split programa k (Contexto pid regs segs) c = Some ((pcs, ctx1), con_c_red red1 c) ->
  paso string_split programa ctx1 (con_c_red red1 c) = Some ((i, CONTINUAR, ctx2), con_c_red red c) ->
  let pcs := pcs ++ [pc (c_registros ctx1)] in
  Forall (fun pc => cadena_ok (con_nul (programa pc))) pcs ->
  c_de_memory c = enviar_contexto_proceso regs segs ++ linea_en programa pcs ++ enviar_ok ACTUALIZAR_CONTEXTO ++ resto ->
  c_avisos c = (avisos <$> ls) ++ avisos l :: avs -> length ls = k -> Forall avisos_ok ls -> avisos_ok l ->
  Forall (fun l => interrupcion_de pid l = None) ls -> interrupcion_de pid l = Some motivo ->
  exists c', ejecutar_ciclo_instruccion crear_conexion string_split (k + S n) pid c = Some (tt, c') /\
    ciclo_hecho c c' pid pcs ctx2 (enviar_devolver_proceso pid motivo None [] 0) red resto avs.
Proof.
  intros Hf Hr Hs Et Ep pcs' Hl Hc Ha Hk Hok Hokl Hno Hint. apply Forall_app in Hl as [Hl Hl1].
  apply Forall_cons in Hl1 as [Hl1 _].
  unfold linea_en, pcs' in Hc. rewrite bind_app, <-app_assoc in Hc. fold (linea_en programa pcs) in Hc.
  destruct (ciclo_tramo crear_conexion string_split programa pid regs segs c k (S n) pcs ctx1 red1 _ ls _
    Hf Hr Hs Et Hl Hc Ha Hk Hok Hno) as (rr & Hm & Hp & ->).
  set (c1 := con_pid_en_ejecucion _ _) in *.
  pose proof (enmarcado_paso string_split programa ctx1 (con_c_red red1 c) c1 (conj eq_refl (conj eq_refl eq_refl))) as HF.
  rewrite Ep in HF. destruct HF as [_ HF]. cbn [c_red con_c_red] in HF.
  destruct (turno_pasos string_split programa crear_conexion ctx1 c1 i CONTINUAR ctx2 red (enviar_ok ACTUALIZAR_CONTEXTO ++ resto)
    Hm HF Hl1 eq_refl) as (rr2 & Hrr2 & T).
  cbv zeta in T. rewrite decide_True in T by done. rewrite Hp in T. set (c2 := tras rr2 _ _ _ _ c1) in T.
  pose proof (check_interrupt_ok c2 l avs Hokl eq_refl (proj2 Hf)) as EC.
  change (pid_en_ejecucion c2) with pid in EC. rewrite Hint in EC. rewrite (st_bind_ok _ _ _ _ _ EC) in T.
  unfold c2 in T. rewrite con_avisos_tras in T. set (c3 := con_interrupcion false motivo _) in T.
  destruct (interrupcion_ok crear_conexion ctx2 i c3 resto Hrr2 eq_refl) as (rr3 & Hrr3 & ER).
  change (motivo_interrupcion c3) with motivo in ER.
  rewrite (st_bind_ok _ _ _ _ _ ER) in T.
  rewrite (turnos_fin crear_conexion string_split n ctx1 c1 _ T).
  assert (Hpid2 : c_pid ctx2 = pid).
  { rewrite <-Hp. unfold paso, mbind, ST_bind in Ep. destruct (st_lift _ _) as [[i' c']|]; [|done].
    destruct (execute_instruccion ctx1 i' c') as [[[r ctx3] c4]|] eqn:E2; [|done].
    injection Ep as _ _ -> _. apply (conserva_execute ctx1 i' _ _ _ _ E2). }
  rewrite Hpid2.
  eapply (ciclo_hecho_fin c pid pcs _ ctx2 _ rr rr2 rr3 red1 red resto _ _ _ avs motivo Hrr3). by right.
Qed.

(** ** Witnesses: a process that sets AX, jumps on it and ends *)

(** [string_split] by blanks, and no Memory Stick that can be reached. *)
Fixpoint partir (s : list byte) (actual : list byte) : list (list byte) :=
  match s with
  | [] => [actual]
  | x20 :: s => actual :: partir s []
  | b :: s => partir s (actual ++ [b])
  end.
Definition split_ejemplo (s _ : list byte) : list (list byte) := partir s [].
Definition sin_sticks (_ _ : list byte) : option (Z * stick) := None.

Definition programa_ejemplo (pc : Z) : list byte :=
  if pc =? 0 then txt "SET AX 5" else if pc =? 1 then txt "JNZ AX 3" else txt "EXIT".

(** The CPU, with what Memory answers to the fetches of [pcs] and the checks for
    interrupts [avs]. *)
Definition cpu_programa (pcs : list Z) (avs : list (list byte)) : cpu :=
  Cpu 64 [] 1 (Respuestas 0 None None 0) false 0 0 0 (-1) 3 4
    (enviar_contexto_proceso registros_cero [] ++ linea_en programa_ejemplo pcs ++ enviar_ok ACTUALIZAR_CONTEXTO ++ [])
    avs ∅ [].
Definition ctx_en (pc ax : Z) : t_contexto := Contexto 1 (Registros pc ax 0 0 0 0 0 0 0 0 0) [].

Lemma programa_cadena pc : cadena_ok (con_nul (programa_ejemplo pc)).
Proof.
  unfold programa_ejemplo. repeat case_match; (split; [eexists; split; [reflexivity|]|vm_compute; congruence]);
    apply (bool_decide_eq_true_1 (_ ∉ _)); reflexivity.
Qed.

Lemma registros_cero_ok : registros_ok registros_cero.
Proof. vm_compute. intuition congruence. Qed.

Lemma segmentos_nil_ok : segmentos_ok [].
Proof. split; [apply Forall_nil_2|cbn; lia]. Qed.

Lemma ciclo_devuelve_una_vez_witness :
  let c := cpu_programa [0; 1; 3] (replicate 2 (avisos [])) in
  exists c', ejecutar_ciclo_instruccion sin_sticks split_ejemplo 3 1 c = Some (tt, c') /\
    exists bs, devolucion_de 1 bs /\ mensajes_a 4 c' = [bs].
Proof.
  intros c. eexists. split; [vm_compute; reflexivity|].
  match goal with |- exists bs, _ /\ mensajes_a 4 ?c1 = _ => set (c' := c1) end.
  destruct (ciclo_devuelve_una_vez sin_sticks split_ejemplo 3 1 c c') as [(H & _)|(bs & Hb & Hm & _)].
  - intros ip puerto sock d H. discriminate H.
  - discriminate.
  - vm_compute. reflexivity.
  - vm_compute in H. discriminate H.
  - exists bs. split; [exact Hb|exact Hm].
Defined.

Lemma ciclo_hasta_resultado_witness :
  let c := cpu_programa [0; 1; 3] [avisos [(9, 0)]; avisos []] in
  exists c', ejecutar_ciclo_instruccion sin_sticks split_ejemplo (2 + 1) 1 c = Some (tt, c') /\
    ciclo_hecho c c' 1 [0; 1; 3] (ctx_en 4 5) (enviar_devolver_proceso 1 (motivo_num MOTIVO_EXIT) None [] 0) ∅ [] [].
Proof.
  intros c.
  apply (ciclo_hasta_resultado sin_sticks split_ejemplo programa_ejemplo 1 registros_cero [] c 2 0
    [0; 1] (ctx_en 3 5) ∅ (instr "EXIT" []) EXIT_PROCESO (ctx_en 4 5) ∅ [] [[(9, 0)]; []] []).
  - split; reflexivity.
  - exact registros_cero_ok.
  - exact segmentos_nil_ok.
  - vm_compute. reflexivity.
  - vm_compute. reflexivity.
  - discriminate.
  - apply Forall_forall. intros pc _. apply programa_cadena.
  - reflexivity.
  - reflexivity.
  - reflexivity.
  - repeat first [apply Forall_nil_2 | apply Forall_cons_2]; unfold es_int; lia.
  - repeat first [apply Forall_nil_2 | apply Forall_cons_2]; reflexivity.
  - intros H. vm_compute in H. discriminate H.
Defined.

Lemma ciclo_interrumpido_witness :
  let c := cpu_programa [0; 1] [avisos []; avisos [(9, 0); (1, 3)]] in
  exists c', ejecutar_ciclo_instruccion sin_sticks split_ejemplo (1 + 1) 1 c = Some (tt, c') /\
    ciclo_hecho c c' 1 [0; 1] (ctx_en 3 5) (enviar_devolver_proceso 1 3 None [] 0) ∅ [] [].
Proof.
  intros c.
  apply (ciclo_interrumpido sin_sticks split_ejemplo programa_ejemplo 1 registros_cero [] c 1 0
    [0] (ctx_en 1 5) ∅ (instr "JNZ" [txt "AX"; txt "3"]) (ctx_en 3 5) ∅ [] [[]] [(9, 0); (1, 3)] [] 3).
  - split; reflexivity.
  - exact registros_cero_ok.
  - exact segmentos_nil_ok.
  - vm_compute. reflexivity.
  - vm_compute. reflexivity.
  - apply Forall_forall. intros pc _. apply programa_cadena.
  - reflexivity.
  - reflexivity.
  - reflexivity.
  - repeat first [apply Forall_nil_2 | apply Forall_cons_2].
  - repeat first [apply Forall_nil_2 | apply Forall_cons_2]; unfold es_int; lia.
  - repeat first [apply Forall_nil_2 | apply Forall_cons_2]; reflexivity.
  - reflexivity.
Defined.
