(* ===== verification/SchedTipos.v ===== *)
(** * SchedTipos: the state of the Kernel Scheduler

    Models the data of [kernel_scheduler/src]: [globalesKernelScheduler.h] (PCBs,
    mutexes, queues, semaphores), the CPU table of [utils_kernel_scheduler.h], the
    I/O table of [colaIO.h] and the list of [planificadorMedianoPlazo.h], as one
    record; and the monad of its handlers.

    A PCB lives in a heap and its pointer is its pid ([generar_pid] never repeats
    one); [free] takes it out, and reading a freed PCB is [Indefinido]. A pointer
    to a mutex is its index in [lista_mutexes], which only grows. The lists that
    start-up creates and nothing destroys are lists; the queues that [manejar_bsod]
    destroys are options. The threads that wait (timers, the worker of each
    interface) are the work they have pending. *)

From Stdlib Require Import Strings.String.
From S2P Require Import Prelude Wire Tipos Mensajes Texto.

Definition MAX_CPUS_SCHED : nat := 1000.
Definition MAX_IOS : nat := 1000.
Definition MAX_PRIORITY_LEVELS : nat := 10.

Inductive t_estado := NEW | READY | EXEC | BLOCK | SUSP_READY | SUSP_BLOCK | EXIT_STATE.

#[export] Instance t_estado_eq_dec : EqDecision t_estado.
Proof. solve_decision. Defined.

Record t_mutex_sistema := MutexS {
  m_nombre : list byte;
  asignado_a_pid : Z;
  cola_bloqueados : list Z }.

Record t_pcb := Pcb {
  prioridad : Z;
  estado : t_estado;
  quantum_restante : Z;
  tiempo_llegada : Z;
  tiempo_inicio_ejecucion : Z;
  prioridad_dinamica : Z;
  tiempo_total_cpu : Z;
  conteo_context_switch : Z;
  mutex_esperando : option nat;
  suspendido_en_swap : bool;
  block_epoch : Z;
  total_memoria : Z;
  segmentos_info : list (Z * Z);
  stdin_pendiente : option (list byte);
  stdin_pendiente_dir : Z;
  stdin_pendiente_size : Z }.

(** An entry of the CPU table. *)
Record t_cpu := CpuS {
  q_socket : Z;
  q_cpu_id : Z;
  disponible : bool;
  proceso_actual : option Z;
  timer_activo : bool;
  timer_pid : Z }.

Inductive t_io_type := IO_TYPE_SLEEP | IO_TYPE_STDIN | IO_TYPE_STDOUT.

#[export] Instance t_io_type_eq_dec : EqDecision t_io_type.
Proof. solve_decision. Defined.

(** [t_io_request]: each type of request fills its own fields. *)
Inductive t_io_request :=
| ReqSleep (proceso tiempo_ms : Z)
| ReqStdin (proceso stdin_size stdin_dir_logica : Z)
| ReqStdout (proceso stdout_dir_logica stdout_size : Z) (stdout_buffer : option (list byte)).

Definition r_proceso (r : t_io_request) : Z :=
  match r with ReqSleep p _ => p | ReqStdin p _ _ => p | ReqStdout p _ _ _ => p end.

(** [io_en_curso] is the request its worker waits the end of. *)
Record t_interfaz_io := Interfaz {
  io_socket : Z;
  io_nombre : list byte;
  io_tipo : t_io_type;
  io_cola : list t_io_request;
  sem_cola : nat;
  activa : bool;
  io_en_curso : option t_io_request }.

Record t_config_scheduler := ConfigScheduler {
  planification_algorithm : option (list byte);
  queue_preemption : option (list byte);
  rr_quantum : Z;
  suspension_timeout : Z;
  cantidad_colas : Z;
  algoritmos_colas : list (option (list byte)) }.

(** The CPU a receptor thread reads, while it runs. *)
Record t_cpu_thread_arg := CpuThread { rt_socket : Z; rt_cpu_id : Z }.

(** The arguments of the timers started and not expired. *)
Record t_quantum_timer_args := QuantumTimer { qt_cpu_id : Z; qt_pid : Z; quantum_ms : Z }.
Record t_suspension_timer_arg := SuspensionTimer { su_pid : Z; su_epoch : Z }.

Record kernel := Kernel {
  k_config : option t_config_scheduler;
  k_pcbs : gmap Z t_pcb;
  todos_los_procesos : list Z;
  contador_pids : Z;
  lista_mutexes : list t_mutex_sistema;
  mutex_lista_tomado : bool;
  cola_procesos_new : option (list Z);
  cola_procesos_ready : option (list Z);
  colas_ready_por_prioridad : list (option (list Z));
  cantidad_niveles_prioridad : Z;
  sem_new : nat;
  sem_ready : nat;
  sem_cpu_disponible : nat;
  sem_reevaluar_suspendidos : nat;
  sistema_corrupto : bool;
  compactacion_en_progreso : bool;
  k_cpus : list t_cpu;
  receptores : list t_cpu_thread_arg;
  tabla_ios : list t_interfaz_io;
  cola_procesos_block : list Z;
  lista_suspendidos : list (Z * Z);
  timers_quantum : list t_quantum_timer_args;
  timers_suspension : list t_suspension_timer_arg;
  suspensiones_en_curso : list Z;
  k_memory_socket : Z;
  k_entradas : gmap Z (list byte);
  k_salidas : list (Z * list byte);
  k_reloj : Z }.

(** ** Setters *)

Definition con_estado (x : t_estado) (p : t_pcb) : t_pcb :=
  Pcb (prioridad p) x (quantum_restante p) (tiempo_llegada p) (tiempo_inicio_ejecucion p)
    (prioridad_dinamica p) (tiempo_total_cpu p) (conteo_context_switch p) (mutex_esperando p)
    (suspendido_en_swap p) (block_epoch p) (total_memoria p) (segmentos_info p) (stdin_pendiente
    p) (stdin_pendiente_dir p) (stdin_pendiente_size p).
Definition con_quantum_restante (x : Z) (p : t_pcb) : t_pcb :=
  Pcb (prioridad p) (estado p) x (tiempo_llegada p) (tiempo_inicio_ejecucion p)
    (prioridad_dinamica p) (tiempo_total_cpu p) (conteo_context_switch p) (mutex_esperando p)
    (suspendido_en_swap p) (block_epoch p) (total_memoria p) (segmentos_info p) (stdin_pendiente
    p) (stdin_pendiente_dir p) (stdin_pendiente_size p).
Definition con_tiempo_llegada (x : Z) (p : t_pcb) : t_pcb :=
  Pcb (prioridad p) (estado p) (quantum_restante p) x (tiempo_inicio_ejecucion p)
    (prioridad_dinamica p) (tiempo_total_cpu p) (conteo_context_switch p) (mutex_esperando p)
    (suspendido_en_swap p) (block_epoch p) (total_memoria p) (segmentos_info p) (stdin_pendiente
    p) (stdin_pendiente_dir p) (stdin_pendiente_size p).
Definition con_tiempo_inicio_ejecucion (x : Z) (p : t_pcb) : t_pcb :=
  Pcb (prioridad p) (estado p) (quantum_restante p) (tiempo_llegada p) x (prioridad_dinamica p)
    (tiempo_total_cpu p) (conteo_context_switch p) (mutex_esperando p) (suspendido_en_swap p)
    (block_epoch p) (total_memoria p) (segmentos_info p) (stdin_pendiente p)
    (stdin_pendiente_dir p) (stdin_pendiente_size p).
Definition con_prioridad_dinamica (x : Z) (p : t_pcb) : t_pcb :=
  Pcb (prioridad p) (estado p) (quantum_restante p) (tiempo_llegada p) (tiempo_inicio_ejecucion
    p) x (tiempo_total_cpu p) (conteo_context_switch p) (mutex_esperando p) (suspendido_en_swap
    p) (block_epoch p) (total_memoria p) (segmentos_info p) (stdin_pendiente p)
    (stdin_pendiente_dir p) (stdin_pendiente_size p).
Definition con_conteo_context_switch (x : Z) (p : t_pcb) : t_pcb :=
  Pcb (prioridad p) (estado p) (quantum_restante p) (tiempo_llegada p) (tiempo_inicio_ejecucion
    p) (prioridad_dinamica p) (tiempo_total_cpu p) x (mutex_esperando p) (suspendido_en_swap p)
    (block_epoch p) (total_memoria p) (segmentos_info p) (stdin_pendiente p)
    (stdin_pendiente_dir p) (stdin_pendiente_size p).
Definition con_mutex_esperando (x : option nat) (p : t_pcb) : t_pcb :=
  Pcb (prioridad p) (estado p) (quantum_restante p) (tiempo_llegada p) (tiempo_inicio_ejecucion
    p) (prioridad_dinamica p) (tiempo_total_cpu p) (conteo_context_switch p) x
    (suspendido_en_swap p) (block_epoch p) (total_memoria p) (segmentos_info p) (stdin_pendiente
    p) (stdin_pendiente_dir p) (stdin_pendiente_size p).
Definition con_suspendido_en_swap (x : bool) (p : t_pcb) : t_pcb :=
  Pcb (prioridad p) (estado p) (quantum_restante p) (tiempo_llegada p) (tiempo_inicio_ejecucion
    p) (prioridad_dinamica p) (tiempo_total_cpu p) (conteo_context_switch p) (mutex_esperando p)
    x (block_epoch p) (total_memoria p) (segmentos_info p) (stdin_pendiente p)
    (stdin_pendiente_dir p) (stdin_pendiente_size p).
Definition con_block_epoch (x : Z) (p : t_pcb) : t_pcb :=
  Pcb (prioridad p) (estado p) (quantum_restante p) (tiempo_llegada p) (tiempo_inicio_ejecucion
    p) (prioridad_dinamica p) (tiempo_total_cpu p) (conteo_context_switch p) (mutex_esperando p)
    (suspendido_en_swap p) x (total_memoria p) (segmentos_info p) (stdin_pendiente p)
    (stdin_pendiente_dir p) (stdin_pendiente_size p).
Definition con_total_memoria (x : Z) (p : t_pcb) : t_pcb :=
  Pcb (prioridad p) (estado p) (quantum_restante p) (tiempo_llegada p) (tiempo_inicio_ejecucion
    p) (prioridad_dinamica p) (tiempo_total_cpu p) (conteo_context_switch p) (mutex_esperando p)
    (suspendido_en_swap p) (block_epoch p) x (segmentos_info p) (stdin_pendiente p)
    (stdin_pendiente_dir p) (stdin_pendiente_size p).
Definition con_segmentos_info (x : list (Z * Z)) (p : t_pcb) : t_pcb :=
  Pcb (prioridad p) (estado p) (quantum_restante p) (tiempo_llegada p) (tiempo_inicio_ejecucion
    p) (prioridad_dinamica p) (tiempo_total_cpu p) (conteo_context_switch p) (mutex_esperando p)
    (suspendido_en_swap p) (block_epoch p) (total_memoria p) x (stdin_pendiente p)
    (stdin_pendiente_dir p) (stdin_pendiente_size p).
Definition con_stdin_pendiente (x : option (list byte)) (p : t_pcb) : t_pcb :=
  Pcb (prioridad p) (estado p) (quantum_restante p) (tiempo_llegada p) (tiempo_inicio_ejecucion
    p) (prioridad_dinamica p) (tiempo_total_cpu p) (conteo_context_switch p) (mutex_esperando p)
    (suspendido_en_swap p) (block_epoch p) (total_memoria p) (segmentos_info p) x
    (stdin_pendiente_dir p) (stdin_pendiente_size p).
Definition con_stdin_pendiente_dir (x : Z) (p : t_pcb) : t_pcb :=
  Pcb (prioridad p) (estado p) (quantum_restante p) (tiempo_llegada p) (tiempo_inicio_ejecucion
    p) (prioridad_dinamica p) (tiempo_total_cpu p) (conteo_context_switch p) (mutex_esperando p)
    (suspendido_en_swap p) (block_epoch p) (total_memoria p) (segmentos_info p) (stdin_pendiente
    p) x (stdin_pendiente_size p).
Definition con_stdin_pendiente_size (x : Z) (p : t_pcb) : t_pcb :=
  Pcb (prioridad p) (estado p) (quantum_restante p) (tiempo_llegada p) (tiempo_inicio_ejecucion
    p) (prioridad_dinamica p) (tiempo_total_cpu p) (conteo_context_switch p) (mutex_esperando p)
    (suspendido_en_swap p) (block_epoch p) (total_memoria p) (segmentos_info p) (stdin_pendiente
    p) (stdin_pendiente_dir p) x.

Definition con_k_pcbs (x : gmap Z t_pcb) (k : kernel) : kernel :=
  Kernel (k_config k) x (todos_los_procesos k) (contador_pids k) (lista_mutexes k)
    (mutex_lista_tomado k) (cola_procesos_new k) (cola_procesos_ready k)
    (colas_ready_por_prioridad k) (cantidad_niveles_prioridad k) (sem_new k) (sem_ready k)
    (sem_cpu_disponible k) (sem_reevaluar_suspendidos k) (sistema_corrupto k)
    (compactacion_en_progreso k) (k_cpus k) (receptores k) (tabla_ios k) (cola_procesos_block k)
    (lista_suspendidos k) (timers_quantum k) (timers_suspension k) (suspensiones_en_curso k)
    (k_memory_socket k) (k_entradas k) (k_salidas k) (k_reloj k).
Definition con_todos_los_procesos (x : list Z) (k : kernel) : kernel :=
  Kernel (k_config k) (k_pcbs k) x (contador_pids k) (lista_mutexes k) (mutex_lista_tomado k)
    (cola_procesos_new k) (cola_procesos_ready k) (colas_ready_por_prioridad k)
    (cantidad_niveles_prioridad k) (sem_new k) (sem_ready k) (sem_cpu_disponible k)
    (sem_reevaluar_suspendidos k) (sistema_corrupto k) (compactacion_en_progreso k) (k_cpus k)
    (receptores k) (tabla_ios k) (cola_procesos_block k) (lista_suspendidos k) (timers_quantum
    k) (timers_suspension k) (suspensiones_en_curso k) (k_memory_socket k) (k_entradas k)
    (k_salidas k) (k_reloj k).
Definition con_contador_pids (x : Z) (k : kernel) : kernel :=
  Kernel (k_config k) (k_pcbs k) (todos_los_procesos k) x (lista_mutexes k) (mutex_lista_tomado
    k) (cola_procesos_new k) (cola_procesos_ready k) (colas_ready_por_prioridad k)
    (cantidad_niveles_prioridad k) (sem_new k) (sem_ready k) (sem_cpu_disponible k)
    (sem_reevaluar_suspendidos k) (sistema_corrupto k) (compactacion_en_progreso k) (k_cpus k)
    (receptores k) (tabla_ios k) (cola_procesos_block k) (lista_suspendidos k) (timers_quantum
    k) (timers_suspension k) (suspensiones_en_curso k) (k_memory_socket k) (k_entradas k)
    (k_salidas k) (k_reloj k).
Definition con_lista_mutexes (x : list t_mutex_sistema) (k : kernel) : kernel :=
  Kernel (k_config k) (k_pcbs k) (todos_los_procesos k) (contador_pids k) x (mutex_lista_tomado
    k) (cola_procesos_new k) (cola_procesos_ready k) (colas_ready_por_prioridad k)
    (cantidad_niveles_prioridad k) (sem_new k) (sem_ready k) (sem_cpu_disponible k)
    (sem_reevaluar_suspendidos k) (sistema_corrupto k) (compactacion_en_progreso k) (k_cpus k)
    (receptores k) (tabla_ios k) (cola_procesos_block k) (lista_suspendidos k) (timers_quantum
    k) (timers_suspension k) (suspensiones_en_curso k) (k_memory_socket k) (k_entradas k)
    (k_salidas k) (k_reloj k).
Definition con_mutex_lista_tomado (x : bool) (k : kernel) : kernel :=
  Kernel (k_config k) (k_pcbs k) (todos_los_procesos k) (contador_pids k) (lista_mutexes k) x
    (cola_procesos_new k) (cola_procesos_ready k) (colas_ready_por_prioridad k)
    (cantidad_niveles_prioridad k) (sem_new k) (sem_ready k) (sem_cpu_disponible k)
    (sem_reevaluar_suspendidos k) (sistema_corrupto k) (compactacion_en_progreso k) (k_cpus k)
    (receptores k) (tabla_ios k) (cola_procesos_block k) (lista_suspendidos k) (timers_quantum
    k) (timers_suspension k) (suspensiones_en_curso k) (k_memory_socket k) (k_entradas k)
    (k_salidas k) (k_reloj k).
Definition con_cola_procesos_new (x : option (list Z)) (k : kernel) : kernel :=
  Kernel (k_config k) (k_pcbs k) (todos_los_procesos k) (contador_pids k) (lista_mutexes k)
    (mutex_lista_tomado k) x (cola_procesos_ready k) (colas_ready_por_prioridad k)
    (cantidad_niveles_prioridad k) (sem_new k) (sem_ready k) (sem_cpu_disponible k)
    (sem_reevaluar_suspendidos k) (sistema_corrupto k) (compactacion_en_progreso k) (k_cpus k)
    (receptores k) (tabla_ios k) (cola_procesos_block k) (lista_suspendidos k) (timers_quantum
    k) (timers_suspension k) (suspensiones_en_curso k) (k_memory_socket k) (k_entradas k)
    (k_salidas k) (k_reloj k).
Definition con_cola_procesos_ready (x : option (list Z)) (k : kernel) : kernel :=
  Kernel (k_config k) (k_pcbs k) (todos_los_procesos k) (contador_pids k) (lista_mutexes k)
    (mutex_lista_tomado k) (cola_procesos_new k) x (colas_ready_por_prioridad k)
    (cantidad_niveles_prioridad k) (sem_new k) (sem_ready k) (sem_cpu_disponible k)
    (sem_reevaluar_suspendidos k) (sistema_corrupto k) (compactacion_en_progreso k) (k_cpus k)
    (receptores k) (tabla_ios k) (cola_procesos_block k) (lista_suspendidos k) (timers_quantum
    k) (timers_suspension k) (suspensiones_en_curso k) (k_memory_socket k) (k_entradas k)
    (k_salidas k) (k_reloj k).
Definition con_colas_ready_por_prioridad (x : list (option (list Z))) (k : kernel) : kernel :=
  Kernel (k_config k) (k_pcbs k) (todos_los_procesos k) (contador_pids k) (lista_mutexes k)
    (mutex_lista_tomado k) (cola_procesos_new k) (cola_procesos_ready k) x
    (cantidad_niveles_prioridad k) (sem_new k) (sem_ready k) (sem_cpu_disponible k)
    (sem_reevaluar_suspendidos k) (sistema_corrupto k) (compactacion_en_progreso k) (k_cpus k)
    (receptores k) (tabla_ios k) (cola_procesos_block k) (lista_suspendidos k) (timers_quantum
    k) (timers_suspension k) (suspensiones_en_curso k) (k_memory_socket k) (k_entradas k)
    (k_salidas k) (k_reloj k).
Definition con_cantidad_niveles_prioridad (x : Z) (k : kernel) : kernel :=
  Kernel (k_config k) (k_pcbs k) (todos_los_procesos k) (contador_pids k) (lista_mutexes k)
    (mutex_lista_tomado k) (cola_procesos_new k) (cola_procesos_ready k)
    (colas_ready_por_prioridad k) x (sem_new k) (sem_ready k) (sem_cpu_disponible k)
    (sem_reevaluar_suspendidos k) (sistema_corrupto k) (compactacion_en_progreso k) (k_cpus k)
    (receptores k) (tabla_ios k) (cola_procesos_block k) (lista_suspendidos k) (timers_quantum
    k) (timers_suspension k) (suspensiones_en_curso k) (k_memory_socket k) (k_entradas k)
    (k_salidas k) (k_reloj k).
Definition con_sem_new (x : nat) (k : kernel) : kernel :=
  Kernel (k_config k) (k_pcbs k) (todos_los_procesos k) (contador_pids k) (lista_mutexes k)
    (mutex_lista_tomado k) (cola_procesos_new k) (cola_procesos_ready k)
    (colas_ready_por_prioridad k) (cantidad_niveles_prioridad k) x (sem_ready k)
    (sem_cpu_disponible k) (sem_reevaluar_suspendidos k) (sistema_corrupto k)
    (compactacion_en_progreso k) (k_cpus k) (receptores k) (tabla_ios k) (cola_procesos_block k)
    (lista_suspendidos k) (timers_quantum k) (timers_suspension k) (suspensiones_en_curso k)
    (k_memory_socket k) (k_entradas k) (k_salidas k) (k_reloj k).
Definition con_sem_ready (x : nat) (k : kernel) : kernel :=
  Kernel (k_config k) (k_pcbs k) (todos_los_procesos k) (contador_pids k) (lista_mutexes k)
    (mutex_lista_tomado k) (cola_procesos_new k) (cola_procesos_ready k)
    (colas_ready_por_prioridad k) (cantidad_niveles_prioridad k) (sem_new k) x
    (sem_cpu_disponible k) (sem_reevaluar_suspendidos k) (sistema_corrupto k)
    (compactacion_en_progreso k) (k_cpus k) (receptores k) (tabla_ios k) (cola_procesos_block k)
    (lista_suspendidos k) (timers_quantum k) (timers_suspension k) (suspensiones_en_curso k)
    (k_memory_socket k) (k_entradas k) (k_salidas k) (k_reloj k).
Definition con_sem_cpu_disponible (x : nat) (k : kernel) : kernel :=
  Kernel (k_config k) (k_pcbs k) (todos_los_procesos k) (contador_pids k) (lista_mutexes k)
    (mutex_lista_tomado k) (cola_procesos_new k) (cola_procesos_ready k)
    (colas_ready_por_prioridad k) (cantidad_niveles_prioridad k) (sem_new k) (sem_ready k) x
    (sem_reevaluar_suspendidos k) (sistema_corrupto k) (compactacion_en_progreso k) (k_cpus k)
    (receptores k) (tabla_ios k) (cola_procesos_block k) (lista_suspendidos k) (timers_quantum
    k) (timers_suspension k) (suspensiones_en_curso k) (k_memory_socket k) (k_entradas k)
    (k_salidas k) (k_reloj k).
Definition con_sem_reevaluar_suspendidos (x : nat) (k : kernel) : kernel :=
  Kernel (k_config k) (k_pcbs k) (todos_los_procesos k) (contador_pids k) (lista_mutexes k)
    (mutex_lista_tomado k) (cola_procesos_new k) (cola_procesos_ready k)
    (colas_ready_por_prioridad k) (cantidad_niveles_prioridad k) (sem_new k) (sem_ready k)
    (sem_cpu_disponible k) x (sistema_corrupto k) (compactacion_en_progreso k) (k_cpus k)
    (receptores k) (tabla_ios k) (cola_procesos_block k) (lista_suspendidos k) (timers_quantum
    k) (timers_suspension k) (suspensiones_en_curso k) (k_memory_socket k) (k_entradas k)
    (k_salidas k) (k_reloj k).
Definition con_sistema_corrupto (x : bool) (k : kernel) : kernel :=
  Kernel (k_config k) (k_pcbs k) (todos_los_procesos k) (contador_pids k) (lista_mutexes k)
    (mutex_lista_tomado k) (cola_procesos_new k) (cola_procesos_ready k)
    (colas_ready_por_prioridad k) (cantidad_niveles_prioridad k) (sem_new k) (sem_ready k)
    (sem_cpu_disponible k) (sem_reevaluar_suspendidos k) x (compactacion_en_progreso k) (k_cpus
    k) (receptores k) (tabla_ios k) (cola_procesos_block k) (lista_suspendidos k)
    (timers_quantum k) (timers_suspension k) (suspensiones_en_curso k) (k_memory_socket k)
    (k_entradas k) (k_salidas k) (k_reloj k).
Definition con_compactacion_en_progreso (x : bool) (k : kernel) : kernel :=
  Kernel (k_config k) (k_pcbs k) (todos_los_procesos k) (contador_pids k) (lista_mutexes k)
    (mutex_lista_tomado k) (cola_procesos_new k) (cola_procesos_ready k)
    (colas_ready_por_prioridad k) (cantidad_niveles_prioridad k) (sem_new k) (sem_ready k)
    (sem_cpu_disponible k) (sem_reevaluar_suspendidos k) (sistema_corrupto k) x (k_cpus k)
    (receptores k) (tabla_ios k) (cola_procesos_block k) (lista_suspendidos k) (timers_quantum
    k) (timers_suspension k) (suspensiones_en_curso k) (k_memory_socket k) (k_entradas k)
    (k_salidas k) (k_reloj k).
Definition con_k_cpus (x : list t_cpu) (k : kernel) : kernel :=
  Kernel (k_config k) (k_pcbs k) (todos_los_procesos k) (contador_pids k) (lista_mutexes k)
    (mutex_lista_tomado k) (cola_procesos_new k) (cola_procesos_ready k)
    (colas_ready_por_prioridad k) (cantidad_niveles_prioridad k) (sem_new k) (sem_ready k)
    (sem_cpu_disponible k) (sem_reevaluar_suspendidos k) (sistema_corrupto k)
    (compactacion_en_progreso k) x (receptores k) (tabla_ios k) (cola_procesos_block k)
    (lista_suspendidos k) (timers_quantum k) (timers_suspension k) (suspensiones_en_curso k)
    (k_memory_socket k) (k_entradas k) (k_salidas k) (k_reloj k).
Definition con_receptores (x : list t_cpu_thread_arg) (k : kernel) : kernel :=
  Kernel (k_config k) (k_pcbs k) (todos_los_procesos k) (contador_pids k) (lista_mutexes k)
    (mutex_lista_tomado k) (cola_procesos_new k) (cola_procesos_ready k)
    (colas_ready_por_prioridad k) (cantidad_niveles_prioridad k) (sem_new k) (sem_ready k)
    (sem_cpu_disponible k) (sem_reevaluar_suspendidos k) (sistema_corrupto k)
    (compactacion_en_progreso k) (k_cpus k) x (tabla_ios k) (cola_procesos_block k)
    (lista_suspendidos k) (timers_quantum k) (timers_suspension k) (suspensiones_en_curso k)
    (k_memory_socket k) (k_entradas k) (k_salidas k) (k_reloj k).
Definition con_tabla_ios (x : list t_interfaz_io) (k : kernel) : kernel :=
  Kernel (k_config k) (k_pcbs k) (todos_los_procesos k) (contador_pids k) (lista_mutexes k)
    (mutex_lista_tomado k) (cola_procesos_new k) (cola_procesos_ready k)
    (colas_ready_por_prioridad k) (cantidad_niveles_prioridad k) (sem_new k) (sem_ready k)
    (sem_cpu_disponible k) (sem_reevaluar_suspendidos k) (sistema_corrupto k)
    (compactacion_en_progreso k) (k_cpus k) (receptores k) x (cola_procesos_block k)
    (lista_suspendidos k) (timers_quantum k) (timers_suspension k) (suspensiones_en_curso k)
    (k_memory_socket k) (k_entradas k) (k_salidas k) (k_reloj k).
Definition con_cola_procesos_block (x : list Z) (k : kernel) : kernel :=
  Kernel (k_config k) (k_pcbs k) (todos_los_procesos k) (contador_pids k) (lista_mutexes k)
    (mutex_lista_tomado k) (cola_procesos_new k) (cola_procesos_ready k)
    (colas_ready_por_prioridad k) (cantidad_niveles_prioridad k) (sem_new k) (sem_ready k)
    (sem_cpu_disponible k) (sem_reevaluar_suspendidos k) (sistema_corrupto k)
    (compactacion_en_progreso k) (k_cpus k) (receptores k) (tabla_ios k) x (lista_suspendidos k)
    (timers_quantum k) (timers_suspension k) (suspensiones_en_curso k) (k_memory_socket k)
    (k_entradas k) (k_salidas k) (k_reloj k).
Definition con_lista_suspendidos (x : list (Z * Z)) (k : kernel) : kernel :=
  Kernel (k_config k) (k_pcbs k) (todos_los_procesos k) (contador_pids k) (lista_mutexes k)
    (mutex_lista_tomado k) (cola_procesos_new k) (cola_procesos_ready k)
    (colas_ready_por_prioridad k) (cantidad_niveles_prioridad k) (sem_new k) (sem_ready k)
    (sem_cpu_disponible k) (sem_reevaluar_suspendidos k) (sistema_corrupto k)
    (compactacion_en_progreso k) (k_cpus k) (receptores k) (tabla_ios k) (cola_procesos_block k)
    x (timers_quantum k) (timers_suspension k) (suspensiones_en_curso k) (k_memory_socket k)
    (k_entradas k) (k_salidas k) (k_reloj k).
Definition con_timers_quantum (x : list t_quantum_timer_args) (k : kernel) : kernel :=
  Kernel (k_config k) (k_pcbs k) (todos_los_procesos k) (contador_pids k) (lista_mutexes k)
    (mutex_lista_tomado k) (cola_procesos_new k) (cola_procesos_ready k)
    (colas_ready_por_prioridad k) (cantidad_niveles_prioridad k) (sem_new k) (sem_ready k)
    (sem_cpu_disponible k) (sem_reevaluar_suspendidos k) (sistema_corrupto k)
    (compactacion_en_progreso k) (k_cpus k) (receptores k) (tabla_ios k) (cola_procesos_block k)
    (lista_suspendidos k) x (timers_suspension k) (suspensiones_en_curso k) (k_memory_socket k)
    (k_entradas k) (k_salidas k) (k_reloj k).
Definition con_timers_suspension (x : list t_suspension_timer_arg) (k : kernel) : kernel :=
  Kernel (k_config k) (k_pcbs k) (todos_los_procesos k) (contador_pids k) (lista_mutexes k)
    (mutex_lista_tomado k) (cola_procesos_new k) (cola_procesos_ready k)
    (colas_ready_por_prioridad k) (cantidad_niveles_prioridad k) (sem_new k) (sem_ready k)
    (sem_cpu_disponible k) (sem_reevaluar_suspendidos k) (sistema_corrupto k)
    (compactacion_en_progreso k) (k_cpus k) (receptores k) (tabla_ios k) (cola_procesos_block k)
    (lista_suspendidos k) (timers_quantum k) x (suspensiones_en_curso k) (k_memory_socket k)
    (k_entradas k) (k_salidas k) (k_reloj k).
Definition con_suspensiones_en_curso (x : list Z) (k : kernel) : kernel :=
  Kernel (k_config k) (k_pcbs k) (todos_los_procesos k) (contador_pids k) (lista_mutexes k)
    (mutex_lista_tomado k) (cola_procesos_new k) (cola_procesos_ready k)
    (colas_ready_por_prioridad k) (cantidad_niveles_prioridad k) (sem_new k) (sem_ready k)
    (sem_cpu_disponible k) (sem_reevaluar_suspendidos k) (sistema_corrupto k)
    (compactacion_en_progreso k) (k_cpus k) (receptores k) (tabla_ios k) (cola_procesos_block k)
    (lista_suspendidos k) (timers_quantum k) (timers_suspension k) x (k_memory_socket k)
    (k_entradas k) (k_salidas k) (k_reloj k).
Definition con_k_entradas (x : gmap Z (list byte)) (k : kernel) : kernel :=
  Kernel (k_config k) (k_pcbs k) (todos_los_procesos k) (contador_pids k) (lista_mutexes k)
    (mutex_lista_tomado k) (cola_procesos_new k) (cola_procesos_ready k)
    (colas_ready_por_prioridad k) (cantidad_niveles_prioridad k) (sem_new k) (sem_ready k)
    (sem_cpu_disponible k) (sem_reevaluar_suspendidos k) (sistema_corrupto k)
    (compactacion_en_progreso k) (k_cpus k) (receptores k) (tabla_ios k) (cola_procesos_block k)
    (lista_suspendidos k) (timers_quantum k) (timers_suspension k) (suspensiones_en_curso k)
    (k_memory_socket k) x (k_salidas k) (k_reloj k).
Definition con_k_salidas (x : list (Z * list byte)) (k : kernel) : kernel :=
  Kernel (k_config k) (k_pcbs k) (todos_los_procesos k) (contador_pids k) (lista_mutexes k)
    (mutex_lista_tomado k) (cola_procesos_new k) (cola_procesos_ready k)
    (colas_ready_por_prioridad k) (cantidad_niveles_prioridad k) (sem_new k) (sem_ready k)
    (sem_cpu_disponible k) (sem_reevaluar_suspendidos k) (sistema_corrupto k)
    (compactacion_en_progreso k) (k_cpus k) (receptores k) (tabla_ios k) (cola_procesos_block k)
    (lista_suspendidos k) (timers_quantum k) (timers_suspension k) (suspensiones_en_curso k)
    (k_memory_socket k) (k_entradas k) x (k_reloj k).
Definition con_k_reloj (x : Z) (k : kernel) : kernel :=
  Kernel (k_config k) (k_pcbs k) (todos_los_procesos k) (contador_pids k) (lista_mutexes k)
    (mutex_lista_tomado k) (cola_procesos_new k) (cola_procesos_ready k)
    (colas_ready_por_prioridad k) (cantidad_niveles_prioridad k) (sem_new k) (sem_ready k)
    (sem_cpu_disponible k) (sem_reevaluar_suspendidos k) (sistema_corrupto k)
    (compactacion_en_progreso k) (k_cpus k) (receptores k) (tabla_ios k) (cola_procesos_block k)
    (lista_suspendidos k) (timers_quantum k) (timers_suspension k) (suspensiones_en_curso k)
    (k_memory_socket k) (k_entradas k) (k_salidas k) x.

Definition con_q_socket (x : Z) (c : t_cpu) : t_cpu :=
  CpuS x (q_cpu_id c) (disponible c) (proceso_actual c) (timer_activo c) (timer_pid c).
Definition con_disponible (x : bool) (c : t_cpu) : t_cpu :=
  CpuS (q_socket c) (q_cpu_id c) x (proceso_actual c) (timer_activo c) (timer_pid c).
Definition con_proceso_actual (x : option Z) (c : t_cpu) : t_cpu :=
  CpuS (q_socket c) (q_cpu_id c) (disponible c) x (timer_activo c) (timer_pid c).
Definition con_timer (a : bool) (pid : Z) (c : t_cpu) : t_cpu :=
  CpuS (q_socket c) (q_cpu_id c) (disponible c) (proceso_actual c) a pid.

Definition con_asignado (x : Z) (m : t_mutex_sistema) : t_mutex_sistema :=
  MutexS (m_nombre m) x (cola_bloqueados m).
Definition con_bloqueados (x : list Z) (m : t_mutex_sistema) : t_mutex_sistema :=
  MutexS (m_nombre m) (asignado_a_pid m) x.

Definition con_io_cola (l : list t_io_request) (n : nat) (i : t_interfaz_io) : t_interfaz_io :=
  Interfaz (io_socket i) (io_nombre i) (io_tipo i) l n (activa i) (io_en_curso i).
Definition con_activa (x : bool) (i : t_interfaz_io) : t_interfaz_io :=
  Interfaz (io_socket i) (io_nombre i) (io_tipo i) (io_cola i) (sem_cola i) x (io_en_curso i).
Definition con_en_curso (x : option t_io_request) (i : t_interfaz_io) : t_interfaz_io :=
  Interfaz (io_socket i) (io_nombre i) (io_tipo i) (io_cola i) (sem_cola i) (activa i) x.

(** ** The monad

    A handler goes on, waits for something that only another thread can do, is
    stuck for ever at the lock of the list of mutexes (with what it has done till
    then in the state: the other threads see it), ends the process ([exit]), calls [abort()] (or
    reads a value that never arrived), or has no defined behaviour. A handler that
    waits has changed nothing: it runs again from its beginning. *)
Inductive fin (A : Type) :=
| Sigue (a : A) (k : kernel)
| Bloqueado
| Trabado (k : kernel)
| Terminado (k : kernel)
| Abortado
| Indefinido.
Arguments Sigue {A}. Arguments Bloqueado {A}. Arguments Trabado {A}. Arguments Terminado {A}.
Arguments Abortado {A}. Arguments Indefinido {A}.

Definition K (A : Type) := kernel -> fin A.
#[export] Instance K_ret : MRet K := fun A a k => Sigue a k.
#[export] Instance K_bind : MBind K := fun A B f m k =>
  match m k with
  | Sigue a k' => f a k'
  | Bloqueado => Bloqueado
  | Trabado k' => Trabado k'
  | Terminado k' => Terminado k'
  | Abortado => Abortado
  | Indefinido => Indefinido
  end.
Definition k_get : K kernel := fun k => Sigue k k.
Definition k_gets {A} (f : kernel -> A) : K A := fun k => Sigue (f k) k.
Definition k_mod (f : kernel -> kernel) : K unit := fun k => Sigue tt (f k).
Definition k_bloqueado {A} : K A := fun _ => Bloqueado.
Definition k_indefinido {A} : K A := fun _ => Indefinido.
Definition k_exit {A} : K A := fun k => Terminado k.

(** ** PCBs, mutexes, sockets *)

(** [proceso->...]: the PCB behind a pointer. *)
Definition leer (p : Z) : K t_pcb :=
  fun k => match k_pcbs k !! p with Some b => Sigue b k | None => Indefinido end.
Definition modificar (p : Z) (f : t_pcb -> t_pcb) : K unit :=
  b ← leer p; k_mod (fun k => con_k_pcbs (<[p := f b]> (k_pcbs k)) k).
Definition liberar_pcb (p : Z) : K unit :=
  _ ← leer p; k_mod (fun k => con_k_pcbs (delete p (k_pcbs k)) k).

Definition leer_mutex (i : nat) : K t_mutex_sistema :=
  fun k => match lista_mutexes k !! i with Some m => Sigue m k | None => Indefinido end.
Definition modificar_mutex (i : nat) (f : t_mutex_sistema -> t_mutex_sistema) : K unit :=
  _ ← leer_mutex i; k_mod (fun k => con_lista_mutexes (alter f i (lista_mutexes k)) k).

(** [pthread_mutex_lock] of [mutex_lista_mutexes], the one lock the code takes
    while it may hold it already: it is not recursive, and who holds it waits for
    itself. The other locks protect single steps and are not part of the state. *)
Definition lock_lista_mutexes : K unit := fun k =>
  if mutex_lista_tomado k then Trabado k else Sigue tt (con_mutex_lista_tomado true k).
Definition unlock_lista_mutexes : K unit := k_mod (con_mutex_lista_tomado false).

(** The bytes given to a socket; [send] on the descriptor [-1] fails. *)
Definition k_enviar (socket : Z) (bs : list byte) : K unit :=
  k_mod (fun k => if socket =? -1 then k else con_k_salidas (k_salidas k ++ [(socket, bs)]) k).
Definition k_entrada (socket : Z) (k : kernel) : list byte := default [] (k_entradas k !! socket).
Definition k_recibir {A} (socket : Z) (r : lector A) : K A := fun k =>
  match r (k_entrada socket k) with
  | Some (a, s) => Sigue a (con_k_entradas (<[socket := s]> (k_entradas k)) k)
  | None => Abortado
  end.
Definition k_codigo (socket : Z) : K Z := k_recibir socket (fun s => Some (recibir_codigo_operacion s)).

(** [sem_post] *)
Definition post_sem_new : K unit := k_mod (fun k => con_sem_new (S (sem_new k)) k).
Definition post_sem_ready : K unit := k_mod (fun k => con_sem_ready (S (sem_ready k)) k).
Definition post_sem_cpu : K unit := k_mod (fun k => con_sem_cpu_disponible (S (sem_cpu_disponible k)) k).
Definition notificar_reevaluar_suspendidos : K unit :=
  k_mod (fun k => con_sem_reevaluar_suspendidos (S (sem_reevaluar_suspendidos k)) k).

(** [sem_wait] *)
Definition wait_sem_new : K unit := fun k =>
  match sem_new k with S n => Sigue tt (con_sem_new n k) | O => Bloqueado end.
Definition wait_sem_ready : K unit := fun k =>
  match sem_ready k with S n => Sigue tt (con_sem_ready n k) | O => Bloqueado end.
Definition wait_sem_cpu : K unit := fun k =>
  match sem_cpu_disponible k with S n => Sigue tt (con_sem_cpu_disponible n k) | O => Bloqueado end.
Definition wait_sem_reevaluar : K unit := fun k =>
  match sem_reevaluar_suspendidos k with S n => Sigue tt (con_sem_reevaluar_suspendidos n k) | O => Bloqueado end.

(** The position of a process in a list of PCBs, each read in turn. *)
Fixpoint posicion_pid (pid : Z) (l : list Z) : K (option nat) :=
  match l with
  | [] => mret None
  | p :: l =>
      _ ← leer p;
      if p =? pid then mret (Some O) else i ← posicion_pid pid l; mret (S <$> i)
  end.

(** ** The algorithms of the configuration *)

Inductive t_algoritmo_corto_plazo := ALGORITMO_FIFO | ALGORITMO_RR | ALGORITMO_CMN | ALGORITMO_DESCONOCIDO.

#[export] Instance t_algoritmo_eq_dec : EqDecision t_algoritmo_corto_plazo.
Proof. solve_decision. Defined.

(** [None] is a NULL string. *)
Definition string_igual_ignora_mayusculas (izquierda : option (list byte)) (derecha : string) : bool :=
  match izquierda with Some s => strcasecmp0 s (txt derecha) | None => false end.

Definition obtener_algoritmo_global (c : option t_config_scheduler) : t_algoritmo_corto_plazo :=
  match c with
  | None => ALGORITMO_DESCONOCIDO
  | Some c =>
      let a := planification_algorithm c in
      if string_igual_ignora_mayusculas a "FIFO" then ALGORITMO_FIFO
      else if string_igual_ignora_mayusculas a "RR" then ALGORITMO_RR
      else if string_igual_ignora_mayusculas a "CMN" then ALGORITMO_CMN
      else ALGORITMO_DESCONOCIDO
  end.

Definition obtener_algoritmo_por_prioridad (c : option t_config_scheduler) (prioridad : Z) : t_algoritmo_corto_plazo :=
  match c with
  | None => ALGORITMO_DESCONOCIDO
  | Some c =>
      if (prioridad <? 0) || (prioridad >=? cantidad_colas c) then ALGORITMO_DESCONOCIDO
      else
        let a := default None (algoritmos_colas c !! Z.to_nat prioridad) in
        if string_igual_ignora_mayusculas a "FIFO" then ALGORITMO_FIFO
        else if string_igual_ignora_mayusculas a "RR" then ALGORITMO_RR
        else ALGORITMO_DESCONOCIDO
  end.

Definition queue_preemption_habilitada (c : option t_config_scheduler) : bool :=
  match c with Some c => string_igual_ignora_mayusculas (queue_preemption c) "TRUE" | None => false end.

(** ** Start-up *)

(** The globals before [main], once the configuration is loaded and Memory
    connected. *)
Definition kernel_global (c : t_config_scheduler) (memory : Z) : kernel :=
  Kernel (Some c) ∅ [] 0 [] false None None (replicate MAX_PRIORITY_LEVELS None) 0
    0 0 0 0 false false [] [] [] [] [] [] [] [] memory ∅ [] 0.

Definition inicializar_recursos_kernel_scheduler (k : kernel) : kernel :=
  con_cola_procesos_new (Some (default [] (cola_procesos_new k)))
    (con_cola_procesos_ready (Some (default [] (cola_procesos_ready k)))
      (con_sem_new 0 (con_sem_ready 0 (con_sem_cpu_disponible 0 k)))).

Definition inicializar_colas_multinivel (cantidad_colas : Z) (k : kernel) : kernel :=
  if cantidad_colas <=? 0 then con_cantidad_niveles_prioridad 0 k
  else
    let cantidad_colas := if cantidad_colas >? Z.of_nat MAX_PRIORITY_LEVELS then Z.of_nat MAX_PRIORITY_LEVELS else cantidad_colas in
    con_colas_ready_por_prioridad
      (imap (fun i q => if (Z.of_nat i <? cantidad_colas) then Some (default [] q) else q) (colas_ready_por_prioridad k))
      (con_cantidad_niveles_prioridad cantidad_colas k).
