(* ===== verification/SchedColas.v ===== *)
(** * SchedColas: ready queues, CPUs, preemption

    Models the helpers of [kernel_scheduler/src/utils_kernel_scheduler.c]: the
    multilevel queues, the CPU table, the quantum timers, preemption between queues
    and the start and the end of a compaction; and [pop_ready] of
    [globalesKernelScheduler.c]. *)

From S2P Require Import Prelude Wire Tipos Mensajes Texto SchedTipos.

(** ** The queues *)

(** [colas_ready_por_prioridad[i]]: an array of ten pointers. *)
Definition cola_prioridad (i : Z) : K (option (list Z)) := fun k =>
  if i <? 0 then Indefinido
  else match colas_ready_por_prioridad k !! Z.to_nat i with Some q => Sigue q k | None => Indefinido end.
Definition poner_cola_prioridad (i : Z) (q : list Z) : K unit :=
  k_mod (fun k => con_colas_ready_por_prioridad (<[Z.to_nat i := Some q]> (colas_ready_por_prioridad k)) k).

Definition pop_ready : K (option Z) := fun k =>
  match cola_procesos_ready k with
  | Some (p :: q) => Sigue (Some p) (con_cola_procesos_ready (Some q) k)
  | _ => Sigue None k
  end.

(** The [for] of [desencolar_proceso_ready], from level [p] on, [n] levels. *)
Fixpoint desencolar_desde (n : nat) (p : Z) : K (option Z) :=
  match n with
  | O => mret None
  | S n =>
      q ← cola_prioridad p;
      match q with
      | Some (x :: q) => _ ← poner_cola_prioridad p q; mret (Some x)
      | _ => desencolar_desde n (p + 1)
      end
  end.
Definition desencolar_proceso_ready : K (option Z) :=
  k ← k_get; desencolar_desde (Z.to_nat (cantidad_niveles_prioridad k)) 0.

(** ** Preemption between queues *)

(** The [for] that looks for the victim: the candidate, its priority and when it
    started. *)
Fixpoint buscar_victima (cs : list t_cpu) (acc : option (t_cpu * Z * Z)) : K (option (t_cpu * Z * Z)) :=
  match cs with
  | [] => mret acc
  | cpu :: cs =>
      match proceso_actual cpu with
      | None => buscar_victima cs acc
      | Some p =>
          if disponible cpu || (q_socket cpu =? -1) then buscar_victima cs acc
          else
            b ← leer p;
            let actual := (cpu, prioridad b, tiempo_inicio_ejecucion b) in
            buscar_victima cs
              (match acc with
               | None => Some actual
               | Some (_, menor, inicio) =>
                   if prioridad b >? menor then Some actual
                   else if (prioridad b =? menor) && (tiempo_inicio_ejecucion b <? inicio) then Some actual
                   else acc
               end)
      end
  end.

Definition verificar_y_desalojar_por_prioridad (nuevo_proceso : Z) : K unit :=
  k ← k_get;
  if negb (queue_preemption_habilitada (k_config k)) then mret tt
  else if compactacion_en_progreso k then mret tt
  else
    b ← leer nuevo_proceso;
    v ← buscar_victima (k_cpus k) None;
    match v with
    | Some (cpu, menor_prioridad, _) =>
        if prioridad b <? menor_prioridad then
          k_enviar (q_socket cpu) (enviar_interrupcion (default (-1) (proceso_actual cpu)) (motivo_num MOTIVO_DESALOJO_COLA))
        else mret tt
    | None => mret tt
    end.

(** ** Arrival to READY *)

(** At the end ([inicio = false]) or at the beginning of the queue of a level. *)
Definition agregar_a (inicio : bool) (q : list Z) (p : Z) : list Z := if inicio then p :: q else q ++ [p].

Definition poner_en_prioridad (inicio : bool) (p prioridad : Z) : K unit :=
  q ← cola_prioridad prioridad;
  match q with
  | Some q => _ ← poner_cola_prioridad prioridad (agregar_a inicio q p); post_sem_ready
  | None => mret tt
  end.

Definition reencolar_proceso_ready_final (proceso prioridad : Z) : K unit :=
  k ← k_get;
  if (prioridad <? 0) || (prioridad >=? cantidad_niveles_prioridad k) then mret tt
  else _ ← poner_en_prioridad false proceso prioridad; verificar_y_desalojar_por_prioridad proceso.

Definition reencolar_proceso_ready_inicio (proceso prioridad : Z) : K unit :=
  k ← k_get;
  if (prioridad <? 0) || (prioridad >=? cantidad_niveles_prioridad k) then mret tt
  else poner_en_prioridad true proceso prioridad.

(** The single queue, and [sem_post(&sem_ready)] when it exists. *)
Definition poner_en_ready (inicio : bool) (p : Z) : K unit :=
  k ← k_get;
  match cola_procesos_ready k with
  | Some q => _ ← k_mod (con_cola_procesos_ready (Some (agregar_a inicio q p))); post_sem_ready
  | None => mret tt
  end.

Definition encolar_en_ready_y_notificar (proceso : Z) : K unit :=
  _ ← modificar proceso (con_estado READY);
  k ← k_get;
  if cantidad_niveles_prioridad k >? 0 then
    b ← leer proceso; reencolar_proceso_ready_final proceso (prioridad b)
  else poner_en_ready false proceso.

Definition encolar_en_ready_por_prioridad (proceso : Z) : K unit :=
  b ← leer proceso;
  k ← k_get;
  if (prioridad b <? 0) || (prioridad b >=? cantidad_niveles_prioridad k) then liberar_pcb proceso
  else
    _ ← modificar proceso (con_estado READY);
    _ ← poner_en_prioridad false proceso (prioridad b);
    verificar_y_desalojar_por_prioridad proceso.

(** The branch of [DEVOLVER_PROCESO] for both evictions. *)
Definition devolver_al_principio (proceso : Z) : K unit :=
  _ ← modificar proceso (con_estado READY);
  k ← k_get;
  if cantidad_niveles_prioridad k >? 0 then
    b ← leer proceso; reencolar_proceso_ready_inicio proceso (prioridad b)
  else poner_en_ready true proceso.

(** ** The CPU table *)

(** The [for] that stops at the first entry of the CPU. *)
Definition indice_cpu (cpu_id : Z) (cs : list t_cpu) : option nat :=
  indice_de (fun c => q_cpu_id c =? cpu_id) cs.
Definition modificar_cpu (cpu_id : Z) (f : t_cpu -> t_cpu) : K unit :=
  k_mod (fun k =>
    match indice_cpu cpu_id (k_cpus k) with
    | Some i => con_k_cpus (alter f i (k_cpus k)) k
    | None => k
    end).
Definition cpu_de (cpu_id : Z) (k : kernel) : option t_cpu := indice_cpu cpu_id (k_cpus k) ≫= (k_cpus k !!.).

Definition retirar_proceso_de_cpu (cpu_id pid : Z) : K (option Z) :=
  c ← k_gets (cpu_de cpu_id);
  _ ← modificar_cpu cpu_id (fun c => con_disponible true (con_timer false (timer_pid c) (con_proceso_actual None c)));
  _ ← post_sem_cpu;
  mret (c ≫= proceso_actual).

(** The CPU stays reserved. *)
Definition retirar_proceso_de_cpu_reservando (cpu_id pid : Z) : K (option Z) :=
  c ← k_gets (cpu_de cpu_id);
  _ ← modificar_cpu cpu_id (fun c => con_timer false (timer_pid c) (con_proceso_actual None c));
  mret (c ≫= proceso_actual).

Definition liberar_cpu_reservada (cpu_id : Z) : K unit :=
  _ ← modificar_cpu cpu_id (con_disponible true); post_sem_cpu.

Definition marcar_cpu_desconectada (cpu_id socket : Z) : K unit := modificar_cpu cpu_id (con_q_socket (-1)).

Definition iniciar_quantum_timer (cpu_id pid quantum_ms : Z) : K unit :=
  _ ← modificar_cpu cpu_id (con_timer true pid);
  k_mod (fun k => con_timers_quantum (timers_quantum k ++ [QuantumTimer cpu_id pid quantum_ms]) k).

(** The [i]-th quantum timer started expires. *)
Definition quantum_timer_thread (i : nat) : K unit :=
  k ← k_get;
  match timers_quantum k !! i with
  | None => k_bloqueado
  | Some t =>
      _ ← k_mod (con_timers_quantum (delete i (timers_quantum k)));
      match indice_de (fun c => (q_cpu_id c =? qt_cpu_id t) && timer_activo c && (timer_pid c =? qt_pid t)) (k_cpus k) with
      | None => mret tt
      | Some j =>
          _ ← k_mod (fun k => con_k_cpus (alter (fun c => con_timer false (timer_pid c) c) j (k_cpus k)) k);
          match k_cpus k !! j with
          | Some c => k_enviar (q_socket c) (enviar_interrupcion (qt_pid t) (motivo_num MOTIVO_QUANTUM))
          | None => mret tt
          end
      end
  end.

(** [true] when the process is again in its CPU. *)
Definition devolver_proceso_a_misma_cpu (cpu_id proceso : Z) : K bool :=
  c ← k_gets (cpu_de cpu_id);
  match c with
  | None => mret false
  | Some c =>
      if q_socket c =? -1 then mret false
      else
        _ ← modificar_cpu cpu_id (con_proceso_actual (Some proceso));
        _ ← k_enviar (q_socket c) (enviar_pid proceso);
        b ← leer proceso;
        _ ← (if quantum_restante b >? 0 then iniciar_quantum_timer cpu_id proceso (quantum_restante b) else mret tt);
        mret true
  end.

Definition cpu_libre (c : t_cpu) : bool := disponible c && negb (q_socket c =? -1).
Definition hay_cpu_libre (k : kernel) : bool := existsb cpu_libre (k_cpus k).

(** The id of the CPU chosen, or [-1]. *)
Definition enviar_proceso_a_cpu (proceso : Z) : K Z :=
  k ← k_get;
  if (length (k_cpus k) =? 0)%nat then mret (-1)
  else
    _ ← leer proceso;
    match indice_de cpu_libre (k_cpus k) with
    | None => mret (-1)
    | Some i =>
        match k_cpus k !! i with
        | None => mret (-1)
        | Some c =>
            _ ← k_mod (con_k_cpus (alter (fun c => con_disponible false (con_proceso_actual (Some proceso) c)) i (k_cpus k)));
            _ ← k_enviar (q_socket c) (enviar_pid proceso);
            mret (q_cpu_id c)
        end
    end.

(** ** Compaction *)

Fixpoint desalojar_bucle (cs : list t_cpu) : K unit :=
  match cs with
  | [] => mret tt
  | c :: cs =>
      _ ← match proceso_actual c with
          | Some p =>
              if negb (disponible c) && negb (q_socket c =? -1) then
                _ ← leer p; k_enviar (q_socket c) (enviar_interrupcion p (motivo_num MOTIVO_DESALOJO))
              else mret tt
          | None => mret tt
          end;
      desalojar_bucle cs
  end.
Definition desalojar_todos_procesos : K unit := k ← k_get; desalojar_bucle (k_cpus k).

Definition manejar_compactacion_inicio : K unit :=
  _ ← k_mod (con_compactacion_en_progreso true); desalojar_todos_procesos.

Definition manejar_compactacion_fin : K unit :=
  _ ← k_mod (con_compactacion_en_progreso false); _ ← post_sem_ready; notificar_reevaluar_suspendidos.
