(* ===== verification/SchedMutex.v ===== *)
(** * SchedMutex: processes, mutexes, priority inheritance

    Models the lists of [kernel_scheduler/src/globalesKernelScheduler.c] (PCBs and
    mutexes), the inheritance of priorities, the release of the mutexes of a process
    that ends, and the three mutex syscalls of [utils_kernel_scheduler.c]. *)

From S2P Require Import Prelude Wire Tipos Mensajes Texto SchedTipos SchedColas.

(** ** Processes *)

Definition buscar_pcb_por_pid (pid : Z) : K (option Z) :=
  l ← k_gets todos_los_procesos;
  i ← posicion_pid pid l;
  mret (i ≫= (l !!.)).

Definition registrar_pcb (pcb : Z) : K unit :=
  k_mod (fun k => con_todos_los_procesos (todos_los_procesos k ++ [pcb]) k).

Definition eliminar_pcb (pid : Z) : K unit :=
  l ← k_gets todos_los_procesos;
  i ← posicion_pid pid l;
  match i with
  | None => mret tt
  | Some i =>
      _ ← k_mod (con_todos_los_procesos (delete i l));
      modificar pid (con_segmentos_info [])
  end.

(** ** Mutexes *)

Definition buscar_mutex_por_nombre (nombre : list byte) : K (option nat) :=
  _ ← lock_lista_mutexes;
  l ← k_gets lista_mutexes;
  _ ← unlock_lista_mutexes;
  mret (indice_de (fun m => bool_decide (m_nombre m = nombre)) l).

(** The pointer of the mutex created: its index. *)
Definition registrar_mutex (mut : t_mutex_sistema) : K nat :=
  _ ← lock_lista_mutexes;
  l ← k_gets lista_mutexes;
  _ ← k_mod (con_lista_mutexes (l ++ [mut]));
  _ ← unlock_lista_mutexes;
  mret (length l).

(** ** Inheritance of priorities *)

Definition reubicar_proceso_en_ready (pcb prioridad_anterior prioridad_nueva : Z) : K unit :=
  b ← leer pcb;
  k ← k_get;
  if bool_decide (estado b <> READY) || (cantidad_niveles_prioridad k <=? 0) then mret tt
  else if prioridad_anterior =? prioridad_nueva then mret tt
  else
    cola_ant ← cola_prioridad prioridad_anterior;
    match cola_ant with
    | None => mret tt
    | Some q =>
        i ← posicion_pid pcb q;
        match i with
        | None => mret tt
        | Some i =>
            _ ← poner_cola_prioridad prioridad_anterior (delete i q);
            cola_nueva ← cola_prioridad prioridad_nueva;
            match cola_nueva with
            | None => mret tt
            | Some q => poner_cola_prioridad prioridad_nueva (q ++ [pcb])
            end
        end
    end.

(** The recursion climbs from a process to the owner of the mutex it waits for,
    [n] owners at most. *)
Fixpoint propagar_herencia_prioridad (n : nat) (proceso_bloqueado prioridad_a_heredar : Z) : K unit :=
  b ← leer proceso_bloqueado;
  match mutex_esperando b with
  | None => mret tt
  | Some i =>
      mut ← leer_mutex i;
      if asignado_a_pid mut =? -1 then mret tt
      else
        poseedor ← buscar_pcb_por_pid (asignado_a_pid mut);
        match poseedor with
        | None => mret tt
        | Some poseedor =>
            bp ← leer poseedor;
            if prioridad_a_heredar <? prioridad_dinamica bp then
              _ ← modificar poseedor (con_prioridad_dinamica prioridad_a_heredar);
              _ ← reubicar_proceso_en_ready poseedor (prioridad_dinamica bp) prioridad_a_heredar;
              match mutex_esperando bp, n with
              | None, _ => mret tt
              | Some _, S n => propagar_herencia_prioridad n poseedor prioridad_a_heredar
              | Some _, O => k_bloqueado
              end
            else mret tt
        end
  end.

(** The inner [for]: the best priority among the blocked ones and [maxp]. *)
Fixpoint mejor_bloqueado (l : list Z) (maxp : Z) : K Z :=
  match l with
  | [] => mret maxp
  | p :: l =>
      b ← leer p;
      mejor_bloqueado l (if prioridad_dinamica b <? maxp then prioridad_dinamica b else maxp)
  end.
Fixpoint mejor_heredada (pid : Z) (ms : list t_mutex_sistema) (maxp : Z) : K Z :=
  match ms with
  | [] => mret maxp
  | m :: ms =>
      maxp ← (if asignado_a_pid m =? pid then mejor_bloqueado (cola_bloqueados m) maxp else mret maxp);
      mejor_heredada pid ms maxp
  end.

Definition recalcular_prioridad_dinamica (proceso : Z) : K unit :=
  b ← leer proceso;
  _ ← lock_lista_mutexes;
  ms ← k_gets lista_mutexes;
  max_prioridad ← mejor_heredada proceso ms (prioridad b);
  _ ← unlock_lista_mutexes;
  let anterior_prioridad := prioridad_dinamica b in
  if max_prioridad =? anterior_prioridad then mret tt
  else
    _ ← modificar proceso (con_prioridad_dinamica max_prioridad);
    reubicar_proceso_en_ready proceso anterior_prioridad max_prioridad.

(** The mutex [i] goes to the first process that waits for it. *)
Definition entregar_mutex (i : nat) (siguiente : Z) (resto : list Z) : K unit :=
  _ ← leer siguiente;
  _ ← modificar_mutex i (fun m => con_asignado siguiente (con_bloqueados resto m));
  _ ← modificar siguiente (fun b => con_estado READY (con_mutex_esperando None b));
  _ ← encolar_en_ready_y_notificar siguiente;
  recalcular_prioridad_dinamica siguiente.

(** The [while] that rebuilds a queue without the process. *)
Fixpoint sin_pid (pid : Z) (l : list Z) : K (list Z) :=
  match l with
  | [] => mret []
  | p :: l => _ ← leer p; r ← sin_pid pid l; mret (if p =? pid then r else p :: r)
  end.

Fixpoint liberar_mutexes_bucle (n i : nat) (pid : Z) : K unit :=
  match n with
  | O => mret tt
  | S n =>
      m ← leer_mutex i;
      _ ← (if asignado_a_pid m =? pid then
             match cola_bloqueados m with
             | siguiente :: resto => entregar_mutex i siguiente resto
             | [] => modificar_mutex i (con_asignado (-1))
             end
           else q ← sin_pid pid (cola_bloqueados m); modificar_mutex i (con_bloqueados q));
      liberar_mutexes_bucle n (S i) pid
  end.

Definition liberar_mutexes_de_proceso (pid : Z) : K unit :=
  _ ← lock_lista_mutexes;
  l ← k_gets lista_mutexes;
  _ ← liberar_mutexes_bucle (length l) 0 pid;
  unlock_lista_mutexes.

(** ** The timer a process that enters BLOCK starts *)

Definition notificar_proceso_en_block (pcb epoch : Z) : K unit :=
  c ← k_gets k_config;
  match c with
  | None => mret tt
  | Some c =>
      if suspension_timeout c <=? 0 then mret tt
      else k_mod (fun k => con_timers_suspension (timers_suspension k ++ [SuspensionTimer pcb epoch]) k)
  end.

(** ** Syscalls *)

Definition manejar_syscall_mutex_create (proceso : Z) (params : list (list byte)) : K unit :=
  match params with
  | [] => mret tt
  | nombre :: _ =>
      let nombre_mutex := cstr nombre in
      mut ← buscar_mutex_por_nombre nombre_mutex;
      match mut with
      | None => _ ← registrar_mutex (MutexS nombre_mutex (-1) []); mret tt
      | Some _ => mret tt
      end
  end.

(** [true] when the process is left blocked. *)
Definition manejar_syscall_mutex_lock (proceso : Z) (params : list (list byte)) : K bool :=
  match params with
  | [] => mret false
  | nombre :: _ =>
      let nombre_mutex := cstr nombre in
      mut ← buscar_mutex_por_nombre nombre_mutex;
      i ← match mut with
          | None => registrar_mutex (MutexS nombre_mutex (-1) [])
          | Some i => mret i
          end;
      m ← leer_mutex i;
      if asignado_a_pid m =? -1 then
        _ ← modificar_mutex i (con_asignado proceso); mret false
      else
        _ ← modificar proceso (fun b => con_mutex_esperando (Some i) (con_estado BLOCK b));
        _ ← modificar_mutex i (con_bloqueados (cola_bloqueados m ++ [proceso]));
        b ← leer proceso;
        n ← k_gets (fun k => length (todos_los_procesos k));
        _ ← propagar_herencia_prioridad n proceso (prioridad_dinamica b);
        _ ← modificar proceso (fun b => con_block_epoch (block_epoch b +u 1)%u32 b);
        b ← leer proceso;
        _ ← notificar_proceso_en_block proceso (block_epoch b);
        mret true
  end.

Definition manejar_syscall_mutex_unlock (proceso : Z) (params : list (list byte)) : K unit :=
  match params with
  | [] => mret tt
  | nombre :: _ =>
      mut ← buscar_mutex_por_nombre (cstr nombre);
      match mut with
      | None => mret tt
      | Some i =>
          m ← leer_mutex i;
          if negb (asignado_a_pid m =? proceso) then mret tt
          else
            _ ← match cola_bloqueados m with
                | siguiente :: resto => entregar_mutex i siguiente resto
                | [] => modificar_mutex i (con_asignado (-1))
                end;
            recalcular_prioridad_dinamica proceso
      end
  end.
