(* ===== verification/SchedMemoria.v ===== *)
(** * SchedMemoria: the Scheduler as a client of Kernel Memory

    Models [kernel_scheduler/src/memory_protocol.c] (the demultiplexer that drains
    the notifications Memory pushes), [manejar_bsod] of
    [planificadorLargoPlazo.c], [crearProceso.c], and the exchanges of
    [utils_kernel_scheduler.c] and [colaIO.c] with Memory. *)

From S2P Require Import Prelude Wire Tipos Mensajes Texto SchedTipos SchedColas SchedMutex.

(** ** BSOD *)

Fixpoint marcar_exit (l : list Z) : K unit :=
  match l with
  | [] => mret tt
  | p :: l =>
      b ← leer p;
      _ ← (if bool_decide (estado b = EXIT_STATE) then mret tt else modificar p (con_estado EXIT_STATE));
      marcar_exit l
  end.

(** The queues of the levels in use are destroyed. *)
Definition destruir_colas (k : kernel) : kernel :=
  con_cola_procesos_new None (con_cola_procesos_ready None
    (con_colas_ready_por_prioridad
      (imap (fun i q => if Z.of_nat i <? cantidad_niveles_prioridad k then None else q) (colas_ready_por_prioridad k))
      (con_cantidad_niveles_prioridad 0 k))).

Definition manejar_bsod : K unit :=
  k ← k_get;
  if sistema_corrupto k then mret tt
  else
    _ ← k_mod (con_sistema_corrupto true);
    _ ← marcar_exit (todos_los_procesos k);
    _ ← k_mod destruir_colas;
    k_exit.

(** ** Notifications *)

Definition handle_memoria_corrupta_bsod (socket : Z) : K unit :=
  _ ← k_recibir socket recibir_ok; manejar_bsod.
Definition handle_memoria_liberada (socket : Z) : K unit :=
  _ ← k_recibir socket recibir_ok; notificar_reevaluar_suspendidos.
Definition handle_iniciar_compactacion (socket : Z) : K unit :=
  _ ← k_recibir socket recibir_ok;
  _ ← manejar_compactacion_inicio;
  k_enviar socket (enviar_ok INICIAR_COMPACTACION).
Definition handle_finalizar_compactacion (socket : Z) : K unit :=
  _ ← k_recibir socket recibir_ok; manejar_compactacion_fin.
Definition handle_nueva_memoria_disponible (socket : Z) : K unit :=
  _ ← k_recibir socket recibir_nueva_memoria_disponible; notificar_reevaluar_suspendidos.

Definition despachar_si_es_notificacion (socket op : Z) : K bool :=
  if op =? op_num MEMORIA_CORRUPTA_BSOD then _ ← handle_memoria_corrupta_bsod socket; mret true
  else if op =? op_num MEMORIA_LIBERADA then _ ← handle_memoria_liberada socket; mret true
  else if op =? op_num INICIAR_COMPACTACION then _ ← handle_iniciar_compactacion socket; mret true
  else if op =? op_num FINALIZAR_COMPACTACION then _ ← handle_finalizar_compactacion socket; mret true
  else if op =? op_num NUEVA_MEMORIA_DISPONIBLE then _ ← handle_nueva_memoria_disponible socket; mret true
  else mret false.

(** The [while (1)], for [n] op_codes at most: each takes four bytes. *)
Fixpoint recibir_respuesta_bucle (n : nat) (socket : Z) : K Z :=
  op ← k_codigo socket;
  if i32 op =? -1 then mret op
  else
    notificacion ← despachar_si_es_notificacion socket op;
    if negb notificacion then mret op
    else match n with O => k_bloqueado | S n => recibir_respuesta_bucle n socket end.
Definition recibir_respuesta_de_memoria (socket : Z) : K Z :=
  k ← k_get; recibir_respuesta_bucle (length (k_entrada socket k)) socket.

(** ** Requests *)

(** Send, wait for the answer, take its [ok] unless the socket failed: the
    answer's op_code. *)
Definition pedir_ok (pedido : list byte) : K Z :=
  s ← k_gets k_memory_socket;
  _ ← k_enviar s pedido;
  ack ← recibir_respuesta_de_memoria s;
  _ ← (if i32 ack =? -1 then mret tt else k_recibir s recibir_ok);
  mret ack.

Definition notificar_fin_a_memoria (pid : Z) : K unit :=
  s ← k_gets k_memory_socket;
  if s <? 0 then mret tt
  else _ ← pedir_ok (enviar_finalizar_proceso_memory pid); mret tt.

Definition escribir_stdin_en_memoria (pid dir_logica : Z) (datos : list byte) (size : Z) : K bool :=
  ack ← pedir_ok (enviar_escritura_memoria pid dir_logica (take (Z.to_nat size) datos));
  mret (ack =? op_num ESCRITURA_MEMORIA).

(** ** The end of a process *)

(** The five lines that follow [estado = EXIT_STATE] wherever a process ends. *)
Definition terminar_proceso (proceso : Z) : K unit :=
  _ ← modificar proceso (con_estado EXIT_STATE);
  _ ← liberar_mutexes_de_proceso proceso;
  _ ← notificar_fin_a_memoria proceso;
  _ ← eliminar_pcb proceso;
  liberar_pcb proceso.

(** ** Creation *)

(** [_contador_pids++] overflows after the last [int]. *)
Definition generar_pid : K Z :=
  nuevo_pid ← k_gets contador_pids;
  if nuevo_pid =? 2147483647 then k_indefinido
  else _ ← k_mod (con_contador_pids (nuevo_pid + 1)); mret nuevo_pid.

Definition enviar_creacion_proceso_a_memory (pid : Z) (path : list byte) : K bool :=
  s ← k_gets k_memory_socket;
  if s =? -1 then mret false
  else
    _ ← k_enviar s (enviar_crear_proceso pid (con_nul path));
    codigo ← recibir_respuesta_de_memoria s;
    if i32 codigo =? -1 then mret false
    else if negb (codigo =? op_num CREAR_PROCESO) then mret false
    else _ ← k_recibir s recibir_ok; mret true.

Definition pcb_nuevo (prioridad ahora : Z) : t_pcb :=
  Pcb prioridad NEW 0 ahora 0 prioridad 0 0 None false 0 0 [] None 0 0.

(** [path] is a C string; [None] is NULL. *)
Definition crear_proceso (path : list byte) (prioridad : Z) : K (option Z) :=
  if bool_decide (path = []) then mret None
  else
    pid ← generar_pid;
    _ ← k_mod (fun k => con_k_pcbs (<[pid := pcb_nuevo prioridad (k_reloj k)]> (k_pcbs k)) k);
    _ ← registrar_pcb pid;
    _ ← enviar_creacion_proceso_a_memory pid path;
    k ← k_get;
    match cola_procesos_new k with
    | Some q =>
        _ ← k_mod (con_cola_procesos_new (Some (q ++ [pid])));
        _ ← post_sem_new;
        mret (Some pid)
    | None => _ ← liberar_pcb pid; mret None
    end.

Definition crear_proceso_inicial (path : list byte) : K (option Z) :=
  if bool_decide (path = []) then mret None else crear_proceso path 0.
