(* ===== verification/SchedIO.v ===== *)
(** * SchedIO: I/O interfaces and the medium-term planner

    Models [kernel_scheduler/src/colaIO.c] (the table of interfaces, their queues
    and workers) and [planificadorMedianoPlazo.c] (the suspension of the processes
    that stay in BLOCK, their return to READY).

    A worker, and a suspension timer that has expired, wait for somebody in the
    middle of their work: each is two steps here, what it does before it waits and
    what it does once answered, so that the others can run in between. *)

From Stdlib Require Import Strings.String.
From S2P Require Import Prelude Wire Tipos Mensajes Texto SchedTipos SchedColas SchedMutex SchedMemoria.

(** ** The table of interfaces *)

Definition inicializar_tabla_ios : K unit :=
  k_mod (fun k => con_tabla_ios [] (con_cola_procesos_block [] k)).

Definition inferir_tipo_io (nombre : list byte) : t_io_type :=
  if strncasecmp0 5 nombre (txt "SLEEP") then IO_TYPE_SLEEP
  else if strncasecmp0 5 nombre (txt "STDIN") then IO_TYPE_STDIN
  else if strncasecmp0 6 nombre (txt "STDOUT") then IO_TYPE_STDOUT
  else IO_TYPE_SLEEP.

(** [false] when there is no room. *)
Definition registrar_interfaz_io (socket : Z) (nombre : list byte) : K bool :=
  l ← k_gets tabla_ios;
  if (MAX_IOS <=? length l)%nat then mret false
  else
    _ ← k_mod (con_tabla_ios (l ++ [Interfaz socket nombre (inferir_tipo_io nombre) [] 0 true None]));
    mret true.

Definition buscar_interfaz_io (nombre : list byte) : K (option nat) :=
  l ← k_gets tabla_ios; mret (indice_de (fun io => activa io && strcasecmp0 (io_nombre io) nombre) l).

Definition buscar_interfaz_io_por_tipo (tipo : t_io_type) : K (option nat) :=
  l ← k_gets tabla_ios; mret (indice_de (fun io => activa io && bool_decide (io_tipo io = tipo)) l).

Definition leer_io (i : nat) : K t_interfaz_io := fun k =>
  match tabla_ios k !! i with Some io => Sigue io k | None => Indefinido end.
Definition modificar_io (i : nat) (f : t_interfaz_io -> t_interfaz_io) : K unit :=
  k_mod (fun k => con_tabla_ios (alter f i (tabla_ios k)) k).

Definition encolar_io_request (i : nat) (request : t_io_request) : K bool :=
  io ← leer_io i;
  if negb (activa io) then mret false
  else
    let proceso := r_proceso request in
    _ ← modificar proceso (con_estado BLOCK);
    _ ← modificar proceso (fun b => con_block_epoch (block_epoch b +u 1)%u32 b);
    b ← leer proceso;
    _ ← k_mod (fun k => con_cola_procesos_block (cola_procesos_block k ++ [proceso]) k);
    _ ← notificar_proceso_en_block proceso (block_epoch b);
    _ ← modificar_io i (fun io => con_io_cola (io_cola io ++ [request]) (S (sem_cola io)) io);
    mret true.

(** [None] (NULL) when it is not in BLOCK; it waits while the process is being
    moved to swap. *)
Definition extraer_de_block (pid : Z) : K (option Z) :=
  l ← k_gets cola_procesos_block;
  i ← posicion_pid pid l;
  match i with
  | None => mret None
  | Some i =>
      b ← leer pid;
      if bool_decide (estado b = SUSP_BLOCK) && negb (suspendido_en_swap b) then k_bloqueado
      else _ ← k_mod (con_cola_procesos_block (delete i l)); mret (Some pid)
  end.

Definition desbloquear_proceso_por_io (pid : Z) : K unit :=
  proceso ← extraer_de_block pid;
  match proceso with
  | None => mret tt
  | Some proceso =>
      b ← leer proceso;
      if bool_decide (estado b = SUSP_BLOCK) then
        _ ← modificar proceso (con_estado SUSP_READY); notificar_reevaluar_suspendidos
      else encolar_en_ready_y_notificar proceso
  end.

(** ** The list of suspended processes *)

Definition agregar_a_lista_suspendidos (pcb : Z) : K unit :=
  k_mod (fun k => con_lista_suspendidos (lista_suspendidos k ++ [(pcb, k_reloj k)]) k).

Definition remover_de_lista_suspendidos (pid : Z) : K unit :=
  l ← k_gets lista_suspendidos;
  i ← posicion_pid pid l.*1;
  match i with
  | None => mret tt
  | Some i => k_mod (con_lista_suspendidos (delete i l))
  end.

Definition finalizar_pcb_por_seg_fault (proceso : Z) : K unit :=
  _ ← modificar proceso (con_estado EXIT_STATE);
  _ ← remover_de_lista_suspendidos proceso;
  _ ← liberar_mutexes_de_proceso proceso;
  _ ← notificar_fin_a_memoria proceso;
  _ ← modificar proceso (con_stdin_pendiente None);
  _ ← eliminar_pcb proceso;
  liberar_pcb proceso.

(** ** The worker of an interface *)

(** A request to the interface, until its answer is awaited. The worker of an
    interface that is no longer active has ended. *)
Definition io_worker_despachar (i : nat) : K unit :=
  io ← leer_io i;
  match sem_cola io, io_en_curso io with
  | S n, None =>
      if negb (activa io) then k_bloqueado
      else
        match io_cola io with
        | [] => modificar_io i (fun io => con_io_cola [] n io)
        | req :: cola =>
            _ ← modificar_io i (fun io => con_io_cola cola n io);
            _ ← leer (r_proceso req);
            match req with
            | ReqSleep pid tiempo_ms =>
                _ ← k_enviar (io_socket io) (enviar_io_sleep pid tiempo_ms);
                modificar_io i (con_en_curso (Some req))
            | ReqStdin pid size _ =>
                _ ← k_enviar (io_socket io) (enviar_io_stdin pid size);
                modificar_io i (con_en_curso (Some req))
            | ReqStdout pid dir size (Some buffer) =>
                _ ← k_enviar (io_socket io) (enviar_io_stdout pid (take (Z.to_nat size) buffer));
                modificar_io i (con_en_curso (Some req))
            | ReqStdout pid dir size None => desbloquear_proceso_por_io pid
            end
        end
  | _, _ => k_bloqueado
  end.

(** The end of a read: the bytes go to Memory, or wait in the PCB for the process
    to be back in RAM. *)
Definition terminar_stdin (pid size dir : Z) (buffer : list byte) : K unit :=
  proceso ← extraer_de_block pid;
  match proceso with
  | None => mret tt
  | Some proceso =>
      b ← leer proceso;
      if bool_decide (estado b = SUSP_BLOCK) then
        _ ← modificar proceso (fun b => con_estado SUSP_READY (con_stdin_pendiente_size (u32 size)
              (con_stdin_pendiente_dir (u32 dir) (con_stdin_pendiente (Some buffer) b))));
        notificar_reevaluar_suspendidos
      else
        escrito ← escribir_stdin_en_memoria pid dir buffer size;
        if negb escrito then finalizar_pcb_por_seg_fault proceso
        else encolar_en_ready_y_notificar proceso
  end.

(** The answer to the request in course, or the end of the interface. *)
Definition io_worker_respuesta (i : nat) : K unit :=
  io ← leer_io i;
  match io_en_curso io with
  | None => k_bloqueado
  | Some req =>
      _ ← modificar_io i (con_en_curso None);
      resp ← k_codigo (io_socket io);
      if (i32 resp =? -1) || negb (resp =? op_num IO_FINALIZADA) then modificar_io i (con_activa false)
      else
        match req with
        | ReqStdin pid size dir =>
            '(_, buffer) ← k_recibir (io_socket io) (recibir_datos_stdin size);
            terminar_stdin pid size dir buffer
        | _ =>
            _ ← k_recibir (io_socket io) recibir_fin_io;
            desbloquear_proceso_por_io (r_proceso req)
        end
  end.

(** ** Suspension *)

(** The [for] that looks for a process in the same episode of BLOCK. *)
Fixpoint en_episodio (pid epoch : Z) (l : list Z) : K bool :=
  match l with
  | [] => mret false
  | p :: l =>
      b ← leer p;
      if (p =? pid) && bool_decide (estado b = BLOCK) && (block_epoch b =? epoch) then mret true
      else en_episodio pid epoch l
  end.

(** The [i]-th suspension timer started expires: until Memory is asked. *)
Definition suspension_timer_inicio (i : nat) : K unit :=
  k ← k_get;
  match timers_suspension k !! i with
  | None => k_bloqueado
  | Some a =>
      _ ← k_mod (con_timers_suspension (delete i (timers_suspension k)));
      if sistema_corrupto k then mret tt
      else
        sigue ← en_episodio (su_pid a) (su_epoch a) (cola_procesos_block k);
        if negb sigue then mret tt
        else
          _ ← modificar (su_pid a) (fun b => con_suspendido_en_swap false (con_estado SUSP_BLOCK b));
          _ ← agregar_a_lista_suspendidos (su_pid a);
          k_mod (fun k => con_suspensiones_en_curso (suspensiones_en_curso k ++ [su_pid a]) k)
  end.

(** The exchange with Memory of the [j]-th suspension in course, and its end. *)
Definition suspension_timer_fin (j : nat) : K unit :=
  k ← k_get;
  match suspensiones_en_curso k !! j with
  | None => k_bloqueado
  | Some pid =>
      _ ← pedir_ok (enviar_suspender_proceso pid);
      l ← k_gets cola_procesos_block;
      idx ← posicion_pid pid l;
      _ ← match idx with
          | Some _ => modificar pid (con_suspendido_en_swap true)
          | None => mret tt
          end;
      _ ← k_mod (fun k => con_suspensiones_en_curso (delete j (suspensiones_en_curso k)) k);
      notificar_reevaluar_suspendidos
  end.

(** ** Return to READY *)

(** A candidate: its pointer, its dynamic priority and when it was suspended. *)
Definition candidato : Type := Z * Z * Z.
Definition comparar_suspendidos (a b : candidato) : bool :=
  let '(_, da, ta) := a in let '(_, db, tb) := b in
  if negb (da =? db) then da <? db else ta <? tb.

Fixpoint candidatos_susp_ready (l : list (Z * Z)) : K (list candidato) :=
  match l with
  | [] => mret []
  | (p, t) :: l =>
      b ← leer p;
      r ← candidatos_susp_ready l;
      mret (if bool_decide (estado b = SUSP_READY) then (p, prioridad_dinamica b, t) :: r else r)
  end.

(** One turn of the [for]. *)
Definition des_suspender_candidato (pcb : Z) : K unit :=
  _ ← leer pcb;
  ack ← pedir_ok (enviar_des_suspender_proceso pcb);
  if negb (ack =? op_num DES_SUSPENDER_PROCESO) then mret tt
  else
    _ ← remover_de_lista_suspendidos pcb;
    b ← leer pcb;
    match stdin_pendiente b with
    | Some datos =>
        escrito ← escribir_stdin_en_memoria pcb (i32 (stdin_pendiente_dir b)) datos (i32 (stdin_pendiente_size b));
        _ ← modificar pcb (con_stdin_pendiente None);
        if negb escrito then finalizar_pcb_por_seg_fault pcb else encolar_en_ready_y_notificar pcb
    | None => encolar_en_ready_y_notificar pcb
    end.

Fixpoint des_suspender_bucle (l : list candidato) : K unit :=
  match l with
  | [] => mret tt
  | (pcb, _, _) :: l =>
      corrupto ← k_gets sistema_corrupto;
      if (corrupto : bool) then mret tt else _ ← des_suspender_candidato pcb; des_suspender_bucle l
  end.

Section mediano_plazo.
(** [list_sort] of the commons library. *)
Variable list_sort : (candidato -> candidato -> bool) -> list candidato -> list candidato.

Definition intentar_des_suspender_susp_ready : K unit :=
  l ← k_gets lista_suspendidos;
  candidatos ← candidatos_susp_ready l;
  des_suspender_bucle (list_sort comparar_suspendidos candidatos).

(** One turn of the [while]. *)
Definition planificadorMedianoPlazo : K unit :=
  _ ← wait_sem_reevaluar;
  corrupto ← k_gets sistema_corrupto;
  if (corrupto : bool) then mret tt else intentar_des_suspender_susp_ready.
End mediano_plazo.
