(* ===== verification/SchedCpu.v ===== *)
(** * SchedCpu: what the CPUs give back

    Models the syscalls ([manejar_syscall_io] and those it calls), the receptor of
    each CPU and the handshakes, of
    [kernel_scheduler/src/utils_kernel_scheduler.c]. *)

From Stdlib Require Import Strings.String.
From S2P Require Import Prelude Wire Tipos Mensajes Texto SchedTipos SchedColas SchedMutex SchedMemoria SchedIO.

(** [atoi] of a parameter, as an [int] and as a [uint32_t]. *)
Definition atoi_int (p : list byte) : Z := i32 (atoi (cstr p)).
Definition atoi_u32 (p : list byte) : Z := u32 (atoi (cstr p)).

(** ** Syscalls *)

Definition manejar_syscall_init_proc (params : list (list byte)) : K unit :=
  match params with
  | path :: prioridad :: _ => _ ← crear_proceso (cstr path) (atoi_int prioridad); mret tt
  | _ => mret tt
  end.

(** The request goes to the interface found, or the process back to READY. *)
Definition pedir_io (proceso : Z) (io : option nat) (req : t_io_request) : K unit :=
  match io with
  | None => encolar_en_ready_y_notificar proceso
  | Some i => _ ← encolar_io_request i req; mret tt
  end.

Definition syscall_sleep (proceso : Z) (params : list (list byte)) : K unit :=
  match params with
  | tiempo :: _ =>
      io ← buscar_interfaz_io_por_tipo IO_TYPE_SLEEP; pedir_io proceso io (ReqSleep proceso (atoi_int tiempo))
  | [] => encolar_en_ready_y_notificar proceso
  end.

Definition syscall_io_sleep (proceso : Z) (params : list (list byte)) : K unit :=
  match params with
  | nombre :: tiempo :: _ =>
      io ← buscar_interfaz_io (cstr nombre); pedir_io proceso io (ReqSleep proceso (atoi_int tiempo))
  | _ => encolar_en_ready_y_notificar proceso
  end.

Definition syscall_stdin (proceso : Z) (params : list (list byte)) : K unit :=
  match params with
  | dir :: size :: _ =>
      io ← buscar_interfaz_io_por_tipo IO_TYPE_STDIN;
      pedir_io proceso io (ReqStdin proceso (atoi_int size) (atoi_int dir))
  | _ => encolar_en_ready_y_notificar proceso
  end.

(** The bytes are read from Memory at once. *)
Definition syscall_stdout (proceso : Z) (params : list (list byte)) : K unit :=
  match params with
  | dir :: size :: _ =>
      io ← buscar_interfaz_io_por_tipo IO_TYPE_STDOUT;
      match io with
      | None => encolar_en_ready_y_notificar proceso
      | Some i =>
          s ← k_gets k_memory_socket;
          _ ← k_enviar s (enviar_lectura_memoria proceso (atoi_int dir) (atoi_int size));
          ack ← recibir_respuesta_de_memoria s;
          if ack =? op_num SEGMENTATION_FAULT then
            _ ← k_recibir s recibir_ok; finalizar_pcb_por_seg_fault proceso
          else if i32 ack =? -1 then encolar_en_ready_y_notificar proceso
          else
            buffer ← k_recibir s (recibir_datos_memoria (atoi_int size));
            _ ← encolar_io_request i (ReqStdout proceso (atoi_int dir) (atoi_int size) (Some buffer));
            mret tt
      end
  | _ => encolar_en_ready_y_notificar proceso
  end.

(** The process ends and its CPU is free again. *)
Definition terminar_en_cpu (proceso cpu_origen : Z) : K unit :=
  _ ← terminar_proceso proceso; liberar_cpu_reservada cpu_origen.

(** The process goes back to its CPU, or to READY when it has disconnected. *)
Definition volver_a_cpu (proceso cpu_origen : Z) : K unit :=
  volvio ← devolver_proceso_a_misma_cpu cpu_origen proceso;
  if (volvio : bool) then mret tt else encolar_en_ready_y_notificar proceso.

Definition agregar_segmento_info (id tamanio : Z) (b : t_pcb) : t_pcb :=
  con_total_memoria (total_memoria b +u tamanio)%u32 (con_segmentos_info (segmentos_info b ++ [(id, tamanio)]) b).

Definition quitar_segmento_info (id : Z) (b : t_pcb) : t_pcb :=
  match indice_de (fun s => s.1 =? id) (segmentos_info b) with
  | None => b
  | Some i =>
      let tamanio := default 0 (snd <$> segmentos_info b !! i) in
      con_segmentos_info (delete i (segmentos_info b))
        (con_total_memoria (if total_memoria b >=? tamanio then total_memoria b - tamanio else 0) b)
  end.

Definition syscall_mem_alloc (proceso : Z) (params : list (list byte)) (cpu_origen : Z) : K unit :=
  match params with
  | id :: tam :: _ =>
      s ← k_gets k_memory_socket;
      _ ← k_enviar s (enviar_solicitar_segmento proceso (atoi_u32 id) (atoi_u32 tam));
      ack ← recibir_respuesta_de_memoria s;
      if i32 ack =? -1 then terminar_en_cpu proceso cpu_origen
      else if ack =? op_num SEGMENTATION_FAULT then
        _ ← k_recibir s recibir_ok; terminar_en_cpu proceso cpu_origen
      else
        '(id_resp, _, limite_resp) ← k_recibir s recibir_respuesta_segmento;
        _ ← modificar proceso (agregar_segmento_info id_resp limite_resp);
        volver_a_cpu proceso cpu_origen
  | _ => terminar_en_cpu proceso cpu_origen
  end.

Definition syscall_mem_free (proceso : Z) (params : list (list byte)) (cpu_origen : Z) : K unit :=
  match params with
  | id :: _ =>
      _ ← pedir_ok (enviar_eliminar_segmento proceso (atoi_u32 id));
      _ ← modificar proceso (quitar_segmento_info (atoi_u32 id));
      volver_a_cpu proceso cpu_origen
  | [] => terminar_en_cpu proceso cpu_origen
  end.

Definition manejar_syscall_io (proceso : Z) (nombre_syscall : option (list byte)) (params : list (list byte))
    (cpu_origen : Z) : K unit :=
  match nombre_syscall with
  | None => mret tt
  | Some nombre =>
      let es := strcmp0 (cstr nombre) in
      if es "SLEEP"%string then syscall_sleep proceso params
      else if es "IO_SLEEP"%string then syscall_io_sleep proceso params
      else if es "STDIN"%string then syscall_stdin proceso params
      else if es "STDOUT"%string then syscall_stdout proceso params
      else if es "MEM_ALLOC"%string then syscall_mem_alloc proceso params cpu_origen
      else if es "MEM_FREE"%string then syscall_mem_free proceso params cpu_origen
      else if es "MUTEX_CREATE"%string then
        _ ← manejar_syscall_mutex_create proceso params; encolar_en_ready_y_notificar proceso
      else if es "MUTEX_LOCK"%string then
        se_bloqueo ← manejar_syscall_mutex_lock proceso params;
        if (se_bloqueo : bool) then mret tt else encolar_en_ready_y_notificar proceso
      else if es "MUTEX_UNLOCK"%string then
        _ ← manejar_syscall_mutex_unlock proceso params; encolar_en_ready_y_notificar proceso
      else if es "INIT_PROC"%string then
        _ ← manejar_syscall_init_proc params; encolar_en_ready_y_notificar proceso
      else encolar_en_ready_y_notificar proceso
  end.

(** ** The receptor of a CPU *)

Definition es_syscall_de_memoria (motivo : Z) (nombre : option (list byte)) : bool :=
  (motivo =? motivo_num MOTIVO_SYSCALL) &&
  match nombre with
  | Some n => strcmp0 (cstr n) "MEM_ALLOC" || strcmp0 (cstr n) "MEM_FREE"
  | None => false
  end.

(** The [switch (motivo)]. *)
Definition manejar_motivo (proceso motivo : Z) (nombre : option (list byte)) (params : list (list byte))
    (cpu_id : Z) : K unit :=
  if (motivo =? motivo_num MOTIVO_EXIT) || (motivo =? motivo_num MOTIVO_ERROR) || (motivo =? motivo_num MOTIVO_SEGFAULT)
  then terminar_proceso proceso
  else if motivo =? motivo_num MOTIVO_QUANTUM then encolar_en_ready_y_notificar proceso
  else if motivo =? motivo_num MOTIVO_SYSCALL then manejar_syscall_io proceso nombre params cpu_id
  else if (motivo =? motivo_num MOTIVO_DESALOJO) || (motivo =? motivo_num MOTIVO_DESALOJO_COLA)
  then devolver_al_principio proceso
  else encolar_en_ready_y_notificar proceso.

Definition manejar_devolver_proceso (socket cpu_id : Z) : K unit :=
  '(pid_devuelto, motivo, nombre, params) ← k_recibir socket recibir_devolver_proceso;
  if pid_devuelto <? 0 then mret tt
  else
    let es_memoria := es_syscall_de_memoria motivo nombre in
    proceso ← (if es_memoria then retirar_proceso_de_cpu_reservando cpu_id pid_devuelto
               else retirar_proceso_de_cpu cpu_id pid_devuelto);
    match proceso with
    | None => if es_memoria then liberar_cpu_reservada cpu_id else mret tt
    | Some proceso => manejar_motivo proceso motivo nombre params cpu_id
    end.

(** One turn of the [j]-th receptor running, which may end it. *)
Definition scheduler_cpu_receptor_thread (j : nat) : K unit :=
  k ← k_get;
  match receptores k !! j with
  | None => k_bloqueado
  | Some r =>
      codigo ← k_codigo (rt_socket r);
      if i32 codigo =? -1 then
        _ ← marcar_cpu_desconectada (rt_cpu_id r) (rt_socket r);
        k_mod (fun k => con_receptores (delete j (receptores k)) k)
      else if codigo =? op_num DEVOLVER_PROCESO then manejar_devolver_proceso (rt_socket r) (rt_cpu_id r)
      else
        _ ← marcar_cpu_desconectada (rt_cpu_id r) (rt_socket r);
        k_mod (fun k => con_receptores (delete j (receptores k)) k)
  end.

(** ** Connections *)

Definition registrar_cpu_sched (client_socket cpu_id : Z) : K unit :=
  _ ← k_mod (fun k =>
        if (length (k_cpus k) <? MAX_CPUS_SCHED)%nat
        then con_k_cpus (k_cpus k ++ [CpuS client_socket cpu_id true None false 0]) k
        else k);
  _ ← post_sem_cpu;
  k ← k_get;
  _ ← match cola_procesos_ready k with Some (_ :: _) => post_sem_ready | _ => mret tt end;
  k_mod (fun k => con_receptores (receptores k ++ [CpuThread client_socket cpu_id]) k).

(** A connection accepted on [client_socket]. *)
Definition scheduler_handshake_handler (client_socket : Z) : K unit :=
  codigo ← k_codigo client_socket;
  if i32 codigo =? -1 then mret tt
  else if codigo =? op_num HANDSHAKE_CPU then
    cpu_id ← k_recibir client_socket recibir_handshake_cpu;
    if cpu_id <=? 0 then mret tt else registrar_cpu_sched client_socket cpu_id
  else if codigo =? op_num HANDSHAKE_IO then
    nombre_io ← k_recibir client_socket recibir_handshake_io;
    _ ← registrar_interfaz_io client_socket (cstr nombre_io); mret tt
  else mret tt.
