(* ===== verification/SchedPlan.v ===== *)
(** * SchedPlan: the long- and short-term planners, and the whole Scheduler

    Models [kernel_scheduler/src/planificadorLargoPlazo.c] and
    [planificadorCortoPlazo.c], and the Scheduler as the interleaving of the steps
    of its threads. *)

From S2P Require Import Prelude Wire Tipos Mensajes Texto SchedTipos SchedColas SchedMutex SchedMemoria SchedIO SchedCpu.

(** ** Long term: NEW to READY *)

(** One turn of the [while]. [queue_pop] of an empty queue is NULL. *)
Definition planificadorLargoPlazo : K unit :=
  _ ← wait_sem_new;
  k ← k_get;
  match cola_procesos_new k with
  | None => k_indefinido
  | Some [] => mret tt
  | Some (proceso :: q) =>
      _ ← k_mod (con_cola_procesos_new (Some q));
      _ ← modificar proceso (fun b => con_tiempo_llegada (k_reloj k) (con_estado READY b));
      if cantidad_niveles_prioridad k >? 0 then encolar_en_ready_por_prioridad proceso
      else
        match cola_procesos_ready k with
        | None => k_indefinido
        | Some _ => poner_en_ready false proceso
        end
  end.

(** ** Short term: READY to EXEC *)

Definition obtener_proximo_proceso_ready (algoritmo_global : t_algoritmo_corto_plazo) : K (option Z) :=
  if decide (algoritmo_global = ALGORITMO_CMN) then
    k ← k_get;
    if cantidad_niveles_prioridad k <=? 0 then mret None else desencolar_proceso_ready
  else pop_ready.

(** Without [sem_post]. *)
Definition reencolar_ready (inicio : bool) (proceso : Z) : K unit :=
  k_mod (fun k => con_cola_procesos_ready ((fun q => agregar_a inicio q proceso) <$> cola_procesos_ready k) k).
Definition reencolar_ready_final : Z -> K unit := reencolar_ready false.
Definition reencolar_ready_inicio : Z -> K unit := reencolar_ready true.

Definition reencolar_por_fallo_de_envio (proceso : Z) (algoritmo_global : t_algoritmo_corto_plazo) : K unit :=
  match algoritmo_global with
  | ALGORITMO_CMN => b ← leer proceso; reencolar_proceso_ready_inicio proceso (prioridad b)
  | ALGORITMO_RR => reencolar_ready_final proceso
  | _ => reencolar_ready_inicio proceso
  end.

(** [(uint32_t)config_scheduler->rr_quantum] *)
Definition quantum_config (c : option t_config_scheduler) : Z := u32 (default 0 (rr_quantum <$> c)).

Definition quantum_para_algoritmo (c : option t_config_scheduler) (algoritmo : t_algoritmo_corto_plazo) (prioridad : Z) : Z :=
  match algoritmo with
  | ALGORITMO_RR => quantum_config c
  | ALGORITMO_CMN =>
      if decide (obtener_algoritmo_por_prioridad c prioridad = ALGORITMO_RR) then quantum_config c else 0
  | _ => 0
  end.

Definition algoritmo_debe_usar_fifo (c : option t_config_scheduler) (algoritmo : t_algoritmo_corto_plazo) (prioridad : Z) : bool :=
  match algoritmo with
  | ALGORITMO_FIFO => true
  | ALGORITMO_CMN => bool_decide (obtener_algoritmo_por_prioridad c prioridad = ALGORITMO_FIFO)
  | _ => false
  end.

(** The policy of a dispatch: FIFO, whether a timer starts, and the quantum. *)
Definition politica (c : option t_config_scheduler) (algoritmo : t_algoritmo_corto_plazo) (niveles prioridad : Z)
    : bool * bool * Z :=
  let quantum := quantum_para_algoritmo c algoritmo prioridad in
  let fifo := algoritmo_debe_usar_fifo c algoritmo prioridad in
  let rr := negb fifo && (quantum >? 0) in
  let es_cmn := bool_decide (algoritmo = ALGORITMO_CMN) in
  let '(fifo, rr, quantum) := if es_cmn && (niveles <=? 0) then (true, false, 0) else (fifo, rr, quantum) in
  let rr := if es_cmn && negb fifo && (quantum =? 0) then false else rr in
  if negb es_cmn && negb fifo && negb rr then
    if bool_decide (algoritmo = ALGORITMO_RR) then (fifo, true, quantum_config c) else (true, rr, quantum)
  else (fifo, rr, quantum).

(** The [while] that waits for a CPU; [n] is the value of the semaphore. *)
Fixpoint esperar_cpu (n : nat) : K unit :=
  k ← k_get;
  if sistema_corrupto k || hay_cpu_libre k then mret tt
  else _ ← wait_sem_cpu; match n with O => mret tt | S n => esperar_cpu n end.

(** What follows a process taken from READY. *)
Definition despachar (algoritmo_global : t_algoritmo_corto_plazo) (proceso : Z) : K unit :=
  b ← leer proceso;
  k ← k_get;
  let '(fifo, rr, quantum) := politica (k_config k) algoritmo_global (cantidad_niveles_prioridad k) (prioridad b) in
  if bool_decide (algoritmo_global = ALGORITMO_CMN) &&
     ((prioridad b <? 0) || (prioridad b >=? cantidad_niveles_prioridad k)) then mret tt
  else
    cpu_id_asignado ← enviar_proceso_a_cpu proceso;
    if cpu_id_asignado <? 0 then
      _ ← reencolar_por_fallo_de_envio proceso algoritmo_global;
      _ ← post_sem_ready;
      k ← k_get;
      esperar_cpu (sem_cpu_disponible k)
    else
      _ ← modificar proceso (fun b =>
            con_quantum_restante quantum
              (con_conteo_context_switch (conteo_context_switch b +u 1)%u32
                (con_tiempo_inicio_ejecucion (k_reloj k) (con_estado EXEC b))));
      if negb fifo && rr then iniciar_quantum_timer cpu_id_asignado proceso quantum else mret tt.

Definition algoritmo_de_turno (c : option t_config_scheduler) : t_algoritmo_corto_plazo :=
  match obtener_algoritmo_global c with ALGORITMO_DESCONOCIDO => ALGORITMO_FIFO | a => a end.

(** One turn of the [while]. *)
Definition planificadorCortoPlazo : K unit :=
  _ ← wait_sem_ready;
  k ← k_get;
  if sistema_corrupto k then mret tt
  else if compactacion_en_progreso k then post_sem_ready
  else if negb (hay_cpu_libre k) then _ ← post_sem_ready; wait_sem_cpu
  else
    let algoritmo_global := algoritmo_de_turno (k_config k) in
    proceso ← obtener_proximo_proceso_ready algoritmo_global;
    match proceso with
    | None => mret tt
    | Some proceso => despachar algoritmo_global proceso
    end.

(** ** Start-up *)

Definition arrancar : K unit :=
  _ ← k_mod inicializar_recursos_kernel_scheduler;
  k ← k_get;
  _ ← (if decide (obtener_algoritmo_global (k_config k) = ALGORITMO_CMN)
       then k_mod (inicializar_colas_multinivel (default 0 (cantidad_colas <$> k_config k)))
       else mret tt);
  inicializar_tabla_ios.

(** ** The Scheduler: the steps of its threads, and what comes from outside *)

Inductive evento :=
| EvProcesoInicial (path : list byte)
| EvLargoPlazo
| EvCortoPlazo
| EvMedianoPlazo
| EvConexion (socket : Z)
| EvCpu (j : nat)
| EvQuantum (i : nat)
| EvSuspension (i : nat)
| EvSuspensionFin (j : nat)
| EvIoDespachar (i : nat)
| EvIoRespuesta (i : nat)
| EvLlegan (socket : Z) (bs : list byte)
| EvReloj (t : Z).

(** Each interface registered has its worker. *)
Definition worker_de (i : nat) (m : K unit) : K unit :=
  l ← k_gets tabla_ios; if (i <? length l)%nat then m else k_bloqueado.

Section kernel_scheduler.
Variable list_sort : (candidato -> candidato -> bool) -> list candidato -> list candidato.

Definition ejecutar (e : evento) : K unit :=
  match e with
  | EvProcesoInicial path => _ ← crear_proceso_inicial path; mret tt
  | EvLargoPlazo => planificadorLargoPlazo
  | EvCortoPlazo => planificadorCortoPlazo
  | EvMedianoPlazo => planificadorMedianoPlazo list_sort
  | EvConexion socket => scheduler_handshake_handler socket
  | EvCpu j => scheduler_cpu_receptor_thread j
  | EvQuantum i => quantum_timer_thread i
  | EvSuspension i => suspension_timer_inicio i
  | EvSuspensionFin j => suspension_timer_fin j
  | EvIoDespachar i => worker_de i (io_worker_despachar i)
  | EvIoRespuesta i => worker_de i (io_worker_respuesta i)
  | EvLlegan socket bs => k_mod (fun k => con_k_entradas (<[socket := k_entrada socket k ++ bs]> (k_entradas k)) k)
  | EvReloj t => k_mod (con_k_reloj t)
  end.
End kernel_scheduler.
