(* ===== verification/Configs.v ===== *)
(** * Configs: loading the configuration of each program

    Models [scheduler_config.c], [memory_config.c], [memory_stick_config.c],
    [cpu_config.c] and [io_configs.c]: which keys each program asks for, in which
    order, and what a missing one does. The file is read by the commons library:
    its five operations are a parameter ([t_config]). A getter of a missing key
    gives NULL, and [strdup] or [atoi] of NULL is undefined ([Indefinida]). *)

From Stdlib Require Import Strings.String.
From S2P Require Import Prelude Wire Tipos Mensajes Texto Memoria SchedTipos SchedColas SchedMutex SchedMemoria SchedIO SchedCpu SchedPlan.

(** An open file: [config_has_property] and the three getters. *)
Record t_config := Config {
  config_has_property : list byte -> bool;
  config_get_string_value : list byte -> option (list byte);
  config_get_int_value : list byte -> option Z;
  config_get_array_value : list byte -> option (list (list byte)) }.

(** [Rechazada] is the [false] of a loader. *)
Inductive carga (A : Type) :=
| Cargada (a : A)
| Rechazada
| Indefinida.
Arguments Cargada {A}. Arguments Rechazada {A}. Arguments Indefinida {A}.

#[export] Instance carga_ret : MRet carga := fun A a => Cargada a.
#[export] Instance carga_bind : MBind carga := fun A B f m =>
  match m with Cargada a => f a | Rechazada => Rechazada | Indefinida => Indefinida end.

Definition strdup (s : option (list byte)) : carga (list byte) :=
  match s with Some s => Cargada (cstr s) | None => Indefinida end.
Definition cadena (c : t_config) (clave : string) : carga (list byte) := strdup (config_get_string_value c (txt clave)).
Definition entero (c : t_config) (clave : string) : carga Z :=
  match config_get_int_value c (txt clave) with Some z => Cargada z | None => Indefinida end.

(** ** Kernel Scheduler *)

Definition MAX_QUEUES : nat := 10.

(** The strings of the connections, which only [main] uses. *)
Record t_conexiones_scheduler := ConexionesScheduler {
  cs_log_level : list byte; cs_puerto_escucha : list byte; cs_memory_ip : list byte; cs_memory_port : list byte }.

Definition claves_scheduler : list string :=
  ["LOG_LEVEL"; "PLANIFICATION_ALGORITHM"; "QUEUE_PREEMPTION"; "RR_QUANTUM"; "SUSPENSION_TIMEOUT";
   "PUERTO_ESCUCHA"; "MEMORY_IP"; "MEMORY_PORT"]%string.

(** The length of a NULL-terminated array. *)
Definition contar_algoritmos (algoritmos : option (list (list byte))) : Z := Z.of_nat (length (default [] algoritmos)).

(** The [for] over the queues in use, writing [algoritmos_colas[i]]. *)
Fixpoint llenar_colas (n : nat) (i : nat) (f : nat -> carga (list byte)) (l : list (option (list byte))) : carga (list (option (list byte))) :=
  match n with
  | O => mret l
  | S n => a ← f i; llenar_colas n (S i) f (<[i := Some a]> l)
  end.

(** [snprintf(key, "ALGORITMO_COLA_%d", i)], for a queue in range. *)
Definition clave_cola (i : nat) : list byte := txt "ALGORITMO_COLA_" ++ decimal 10 (Z.of_nat i) [].

Definition cargar_algoritmos_legacy (c : t_config) (cantidad_colas : Z) (algoritmo : list byte) (l : list (option (list byte))) :=
  llenar_colas (Z.to_nat cantidad_colas) 0
    (fun i => if config_has_property c (clave_cola i) then strdup (config_get_string_value c (clave_cola i)) else mret algoritmo) l.

Definition cargar_algoritmos_moderno (c : t_config) (cantidad_colas : Z) (algoritmo : list byte) (l : list (option (list byte))) :=
  let algoritmos := config_get_array_value c (txt "QUEUES_ALGORITHMS") in
  llenar_colas (Z.to_nat cantidad_colas) 0
    (fun i => match default [] algoritmos !! i with Some a => strdup (Some a) | None => mret algoritmo end) l.

(** [CANTIDAD_COLAS], or the length of the array, or one. *)
Definition cantidad_de_colas (c : t_config) : carga Z :=
  if config_has_property c (txt "CANTIDAD_COLAS") then
    n ← entero c "CANTIDAD_COLAS"; mret (if n >? Z.of_nat MAX_QUEUES then Z.of_nat MAX_QUEUES else n)
  else if config_has_property c (txt "QUEUES_ALGORITHMS") then
    let n := contar_algoritmos (config_get_array_value c (txt "QUEUES_ALGORITHMS")) in
    let n := if n <=? 0 then 1 else n in
    mret (if n >? Z.of_nat MAX_QUEUES then Z.of_nat MAX_QUEUES else n)
  else mret 1.

(** [None] is a file that [config_create] cannot open. *)
Definition load_config_scheduler (archivo : option t_config) : carga (t_config_scheduler * t_conexiones_scheduler) :=
  match archivo with
  | None => Rechazada
  | Some c =>
      if negb (forallb (fun k => config_has_property c (txt k)) claves_scheduler) then Rechazada
      else
        log_level ← cadena c "LOG_LEVEL";
        algoritmo ← cadena c "PLANIFICATION_ALGORITHM";
        preemption ← cadena c "QUEUE_PREEMPTION";
        quantum ← entero c "RR_QUANTUM";
        timeout ← entero c "SUSPENSION_TIMEOUT";
        puerto ← cadena c "PUERTO_ESCUCHA";
        ip ← cadena c "MEMORY_IP";
        port ← cadena c "MEMORY_PORT";
        n ← cantidad_de_colas c;
        let vacias := replicate MAX_QUEUES None in
        colas ← (if config_has_property c (txt "QUEUES_ALGORITHMS") then cargar_algoritmos_moderno c n algoritmo vacias
                 else cargar_algoritmos_legacy c n algoritmo vacias);
        mret (ConfigScheduler (Some algoritmo) (Some preemption) quantum timeout n colas, ConexionesScheduler log_level puerto ip port)
  end.

(** ** Kernel Memory, Memory Stick, CPU, I/O *)

(** What [Memoria.t_config_memory] leaves out. *)
Record t_config_memory_resto := ConfigMemoryResto {
  cm_log_level : list byte; instruction_delay : Z; compaction_delay : Z; cm_puerto_escucha : list byte }.

Definition load_config_memory (archivo : option t_config) : carga (t_config_memory * t_config_memory_resto) :=
  match archivo with
  | None => Rechazada
  | Some c =>
      log_level ← cadena c "LOG_LEVEL";
      sms ← entero c "SEGMENT_MAX_SIZE";
      strategy ← cadena c "ALLOCATION_STRATEGY";
      instruction_delay ← entero c "INSTRUCTION_DELAY";
      compaction_delay ← entero c "COMPACTION_DELAY";
      basepath ← cadena c "SCRIPTS_BASEPATH";
      puerto ← cadena c "PUERTO_ESCUCHA";
      mret (ConfigMemory sms (Some (string_of_list_byte strategy)) (Some basepath),
            ConfigMemoryResto log_level instruction_delay compaction_delay puerto)
  end.

Record t_config_memory_stick := ConfigStick {
  st_log_level : list byte; kernel_memory_ip : list byte; kernel_memory_port : list byte;
  ip_propia : list byte; puerto_propio : list byte; memory_size : Z; memory_delay : Z }.

(** Of the six tests at the end, [strdup] leaves only the last one to fail. *)
Definition load_config_memory_stick (archivo : option t_config) : carga t_config_memory_stick :=
  match archivo with
  | None => Rechazada
  | Some c =>
      log_level ← cadena c "LOG_LEVEL";
      ip ← cadena c "MEMORY_IP";
      port ← cadena c "MEMORY_PORT";
      ip_propia ← cadena c "STICK_IP";
      puerto_propio ← cadena c "STICK_PORT";
      size ← entero c "MEMORY_SIZE";
      delay ← entero c "MEMORY_DELAY";
      if u32 size =? 0 then Rechazada
      else mret (ConfigStick log_level ip port ip_propia puerto_propio (u32 size) (u32 delay))
  end.

Record t_config_cpu := ConfigCpu {
  cc_log_level : list byte; cc_scheduler_ip : list byte; cc_scheduler_port : list byte;
  cc_memory_ip : list byte; cc_memory_port : list byte; cc_segment_max_size : Z }.

Definition load_config_cpu (archivo : option t_config) : carga t_config_cpu :=
  match archivo with
  | None => Rechazada
  | Some c =>
      log_level ← cadena c "LOG_LEVEL";
      sip ← cadena c "SCHEDULER_IP";
      sport ← cadena c "SCHEDULER_PORT";
      mip ← cadena c "MEMORY_IP";
      mport ← cadena c "MEMORY_PORT";
      sms ← (if config_has_property c (txt "SEGMENT_MAX_SIZE") then z ← entero c "SEGMENT_MAX_SIZE"; mret (u32 z) else mret 1024);
      mret (ConfigCpu log_level sip sport mip mport sms)
  end.

Record t_config_io := ConfigIo { ic_log_level : list byte; ic_scheduler_ip : list byte; ic_scheduler_port : list byte; ic_io_name : list byte }.

Definition load_config_io (archivo : option t_config) (io_name : list byte) : carga t_config_io :=
  match archivo with
  | None => Rechazada
  | Some c =>
      if negb (forallb (fun k => config_has_property c (txt k)) ["LOG_LEVEL"; "SCHEDULER_IP"; "SCHEDULER_PORT"]%string) then Rechazada
      else
        log_level ← cadena c "LOG_LEVEL";
        ip ← cadena c "SCHEDULER_IP";
        port ← cadena c "SCHEDULER_PORT";
        mret (ConfigIo log_level ip port (cstr io_name))
  end.

(** ** Lemmas *)

(** What the getters do with a key that is there. *)
Class ConfigOk (c : t_config) : Prop := {
  tiene_cadena k : config_has_property c k = true -> is_Some (config_get_string_value c k);
  tiene_entero k : config_has_property c k = true -> is_Some (config_get_int_value c k) }.

Lemma cadena_ok `{ConfigOk c} clave : config_has_property c (txt clave) = true -> exists s, cadena c clave = Cargada s.
Proof. intros Hk. destruct (tiene_cadena _ Hk) as [s E]. exists (cstr s). unfold cadena. by rewrite E. Qed.
Lemma entero_ok `{ConfigOk c} clave : config_has_property c (txt clave) = true -> exists z, entero c clave = Cargada z.
Proof. intros Hk. destruct (tiene_entero _ Hk) as [z E]. exists z. unfold entero. by rewrite E. Qed.

(** The queues in use get their algorithm, the others stay as they were. *)
Lemma llenar_colas_ok n i f l l' : llenar_colas n i f l = Cargada l' ->
  length l' = length l /\ (forall j, (i <= j < i + n)%nat -> (j < length l)%nat -> exists a, f j = Cargada a /\ l' !! j = Some (Some a)) /\
  (forall j, ~ (i <= j < i + n)%nat -> l' !! j = l !! j).
Proof.
  revert i l. induction n as [|n IH]; intros i l; cbn [llenar_colas].
  { intros [= <-]. split_and!; [done|lia|done]. }
  unfold mbind, carga_bind at 1. destruct (f i) as [a| |] eqn:Ef; try done. intros E. apply IH in E as (L & H1 & H2).
  rewrite length_insert in *. split_and!; [done| |].
  - intros j Hj Hl. destruct (decide (j = i)) as [->|Hne]; [|apply H1; lia].
    exists a. split; [done|]. rewrite H2 by lia. by apply list_lookup_insert_eq.
  - intros j Hj. rewrite H2 by lia. apply list_lookup_insert_ne. lia.
Qed.

Lemma llenar_colas_total n i f l : (forall j, exists a, f j = Cargada a) -> exists l', llenar_colas n i f l = Cargada l'.
Proof.
  intros Hf. revert i l. induction n as [|n IH]; intros i l; cbn [llenar_colas]; [by eexists|].
  destruct (Hf i) as [a ->]. apply IH.
Qed.

Lemma cantidad_de_colas_ok c `{ConfigOk c} : exists n, cantidad_de_colas c = Cargada n.
Proof.
  unfold cantidad_de_colas. destruct (config_has_property c (txt "CANTIDAD_COLAS")) eqn:E; [|destruct (config_has_property c (txt "QUEUES_ALGORITHMS")); eexists; reflexivity].
  destruct (entero_ok "CANTIDAD_COLAS" E) as [z ->]. by eexists.
Qed.

Lemma algoritmos_ok c `{ConfigOk c} n a l :
  exists l', (if config_has_property c (txt "QUEUES_ALGORITHMS") then cargar_algoritmos_moderno c n a l
              else cargar_algoritmos_legacy c n a l) = Cargada l'.
Proof.
  destruct (config_has_property c (txt "QUEUES_ALGORITHMS")); apply llenar_colas_total; intros j.
  - destruct (_ !! j); by eexists.
  - destruct (config_has_property c (clave_cola j)) eqn:E; [|by eexists]. destruct (tiene_cadena _ E) as [s ->]. by eexists.
Qed.

Lemma tope n m : (if n >? m then m else n) <= m.
Proof. destruct (Z.gtb_spec n m); lia. Qed.

Lemma cantidad_de_colas_cota c n : cantidad_de_colas c = Cargada n -> n <= Z.of_nat MAX_QUEUES.
Proof.
  unfold cantidad_de_colas. destruct (config_has_property c _); [|destruct (config_has_property c _)].
  - unfold mbind, carga_bind. destruct (entero _ _) as [z| |]; try done. intros [= <-]. apply tope.
  - intros [= <-]. apply tope.
  - intros [= <-]. unfold MAX_QUEUES. lia.
Qed.

(** ** Properties *)

Ltac con_clave Hk s :=
  let a := fresh "a" in let E := fresh "E" in
  destruct (cadena_ok s) as [a E]; [apply Hk; cbn; set_solver|]; rewrite E; clear E; cbn [mbind carga_bind].
Ltac entero_clave Hk s :=
  let a := fresh "a" in let E := fresh "E" in
  destruct (entero_ok s) as [a E]; [apply Hk; cbn; set_solver|]; rewrite E; clear E; cbn [mbind carga_bind].

(** The validated loader never reads a key that is missing: it answers [false]
    exactly when one of the eight is. *)
Lemma carga_scheduler_total c `{ConfigOk c} :
  load_config_scheduler (Some c) <> Indefinida /\
  (load_config_scheduler (Some c) = Rechazada <-> exists k, k ∈ claves_scheduler /\ config_has_property c (txt k) = false).
Proof.
  unfold load_config_scheduler. destruct (forallb _ claves_scheduler) eqn:Ef; cbn [negb].
  - rewrite forallb_forall in Ef. assert (Hk : forall k, k ∈ claves_scheduler -> config_has_property c (txt k) = true)
      by (intros k Hk; apply Ef; by apply list_elem_of_In).
    set (m := mbind _ _). assert (E : exists a, m = Cargada a).
    { unfold m. clear m. con_clave Hk "LOG_LEVEL"%string. con_clave Hk "PLANIFICATION_ALGORITHM"%string. con_clave Hk "QUEUE_PREEMPTION"%string.
      entero_clave Hk "RR_QUANTUM"%string. entero_clave Hk "SUSPENSION_TIMEOUT"%string.
      con_clave Hk "PUERTO_ESCUCHA"%string. con_clave Hk "MEMORY_IP"%string. con_clave Hk "MEMORY_PORT"%string.
      destruct (cantidad_de_colas_ok c) as [n ->]. cbn [mbind carga_bind].
      set (l := if config_has_property c _ then _ else _). assert (El : exists x, l = Cargada x) by exact (algoritmos_ok c _ _ _).
      destruct El as [x ->]. by eexists. }
    destruct E as [a ->]. split; [done|]. split; [done|]. intros (k & Hin & Hf). rewrite Hk in Hf by done. done.
  - split; [done|]. split; [intros _|done]. apply not_true_iff_false in Ef.
    destruct (decide (Exists (fun k => config_has_property c (txt k) = false) claves_scheduler)) as [Hx|Hx]; [by apply Exists_exists|].
    destruct Ef. apply forallb_forall. intros k Hk%list_elem_of_In. rewrite <-Forall_Exists_neg, Forall_forall in Hx.
    specialize (Hx k Hk). by destruct (config_has_property c (txt k)).
Qed.

(** A missing key is not rejected by the loader of Kernel Memory: it is read. *)
Lemma carga_memory_sin_clave c k : k ∈ ["LOG_LEVEL"; "ALLOCATION_STRATEGY"; "SCRIPTS_BASEPATH"; "PUERTO_ESCUCHA"]%string ->
  config_get_string_value c (txt k) = None -> load_config_memory (Some c) = Indefinida.
Proof.
  intros Hk Hn. assert (E : cadena c k = Indefinida) by (unfold cadena; by rewrite Hn). unfold load_config_memory, mbind, carga_bind.
  rewrite !elem_of_cons, elem_of_nil in Hk.
  destruct Hk as [->|[->|[->|[->|[]]]]]; rewrite E; repeat (case_match; try done); unfold cadena, entero, strdup in *; repeat case_match; congruence.
Qed.

(** What a loaded configuration says of the queues. *)
Lemma config_colas c cf cx : load_config_scheduler (Some c) = Cargada (cf, cx) ->
  length (algoritmos_colas cf) = MAX_QUEUES /\ cantidad_colas cf <= Z.of_nat MAX_QUEUES /\
  forall i, (exists a, algoritmos_colas cf !! i = Some (Some a)) <-> Z.of_nat i < cantidad_colas cf.
Proof.
  unfold load_config_scheduler. destruct (negb _); [done|]. unfold mbind, carga_bind.
  repeat (destruct (cadena _ _); [|done..] || destruct (entero _ _); [|done..]).
  destruct (cantidad_de_colas c) as [n| |] eqn:En; try done. apply cantidad_de_colas_cota in En.
  set (vacias := replicate MAX_QUEUES None).
  assert (G : forall f l', llenar_colas (Z.to_nat n) 0 f vacias = Cargada l' ->
    length l' = MAX_QUEUES /\ forall i, (exists a, l' !! i = Some (Some a)) <-> Z.of_nat i < n).
  { intros f l' E. apply llenar_colas_ok in E as (L & H1 & H2). unfold vacias in *. rewrite length_replicate in *. split; [done|].
    intros i. split.
    - intros [x Hx]. destruct (Z.lt_ge_cases (Z.of_nat i) n) as [|Hge]; [done|]. rewrite H2 in Hx by lia. by apply lookup_replicate_1 in Hx as [[=] _].
    - intros Hi. destruct (H1 i) as (x & _ & Hx); [lia..|by exists x]. }
  unfold cargar_algoritmos_moderno, cargar_algoritmos_legacy. set (l := if config_has_property c _ then _ else _).
  destruct l as [l'| |] eqn:El; try done. intros [= <- <-]. cbn.
  destruct (config_has_property c _); unfold l in El; apply G in El as [? ?]; done.
Qed.

(** C31: the loader and the start-up agree on the queues: each of the CANTIDAD_COLAS
    queues in use (ten at most) has an algorithm and starts empty, and no other
    queue exists. *)
Theorem colas_con_algoritmo c cf cx memory k :
  load_config_scheduler (Some c) = Cargada (cf, cx) -> obtener_algoritmo_global (Some cf) = ALGORITMO_CMN -> 0 < cantidad_colas cf ->
  arrancar (kernel_global cf memory) = Sigue tt k ->
  cantidad_niveles_prioridad k = cantidad_colas cf /\ cantidad_colas cf <= Z.of_nat MAX_PRIORITY_LEVELS /\
  forall i, colas_ready_por_prioridad k !! i = Some (Some []) <-> exists a, algoritmos_colas cf !! i = Some (Some a).
Proof.
  intros Hc Ha Hn. destruct (config_colas _ _ _ Hc) as (_ & Hm & Hi). set (k0 := inicializar_recursos_kernel_scheduler (kernel_global cf memory)).
  assert (E : arrancar (kernel_global cf memory) =
    Sigue tt (con_tabla_ios [] (con_cola_procesos_block [] (inicializar_colas_multinivel (cantidad_colas cf) k0)))).
  { unfold arrancar. unfold mbind, K_bind, k_mod, k_get. fold k0. change (k_config k0) with (Some cf). by rewrite decide_True. }
  rewrite E. intros [= <-]. cbn [con_tabla_ios con_cola_procesos_block colas_ready_por_prioridad cantidad_niveles_prioridad].
  unfold inicializar_colas_multinivel, MAX_QUEUES, MAX_PRIORITY_LEVELS in *. destruct (Z.leb_spec (cantidad_colas cf) 0); [lia|].
  destruct (Z.gtb_spec (cantidad_colas cf) (Z.of_nat 10)); [lia|]. cbn [con_colas_ready_por_prioridad con_cantidad_niveles_prioridad colas_ready_por_prioridad cantidad_niveles_prioridad].
  split; [done|]. split; [done|]. intros i. rewrite Hi, list_lookup_imap. change (colas_ready_por_prioridad k0) with (replicate 10 (@None (list Z))).
  split.
  - intros Hq. destruct (Z.ltb_spec (Z.of_nat i) (cantidad_colas cf)) as [|Hge]; [done|]. destruct (replicate 10 None !! i) as [q|] eqn:Eq; [|done].
    apply lookup_replicate_1 in Eq as [-> _]. cbn in Hq. destruct (Z.ltb_spec (Z.of_nat i) (cantidad_colas cf)); [lia|done].
  - intros Hl. rewrite lookup_replicate_2 by lia. cbn. by destruct (Z.ltb_spec (Z.of_nat i) (cantidad_colas cf)); [|lia].
Qed.

(** With CANTIDAD_COLAS at zero or less, the short-term planner of CMN never takes a
    process: a turn only spends its wake-up. *)
Lemma cmn_sin_colas_no_despacha k k' :
  obtener_algoritmo_global (k_config k) = ALGORITMO_CMN -> cantidad_niveles_prioridad k <= 0 ->
  planificadorCortoPlazo k = Sigue tt k' ->
  k_cpus k' = k_cpus k /\ k_salidas k' = k_salidas k /\ cola_procesos_ready k' = cola_procesos_ready k /\ k_pcbs k' = k_pcbs k.
Proof.
  intros Ha Hn. unfold planificadorCortoPlazo, mbind, K_bind, k_get, wait_sem_ready. destruct (sem_ready k) as [|n]; [done|].
  cbn [con_sem_ready sistema_corrupto compactacion_en_progreso]. destruct (sistema_corrupto k); [by intros [= <-]|].
  destruct (compactacion_en_progreso k); [by intros [= <-]|]. destruct (negb _).
  - unfold post_sem_ready, k_mod, wait_sem_cpu. cbn. destruct (sem_cpu_disponible k); [done|]. by intros [= <-].
  - unfold algoritmo_de_turno. change (k_config (con_sem_ready n k)) with (k_config k). rewrite Ha.
    unfold obtener_proximo_proceso_ready. rewrite decide_True by done. unfold mbind, K_bind, k_get.
    cbn. destruct (Z.leb_spec (cantidad_niveles_prioridad k) 0); [|lia]. by intros [= <-].
Qed.

(** ** Witnesses *)

(** The commons library over a list of keys and values. *)
Definition valor (l : list (string * string)) (k : list byte) : option (list byte) :=
  (fun p => con_nul (txt p.2)) <$> List.find (fun p => bool_decide (txt p.1 = k)) l.
Definition config_de (l : list (string * string)) (colas : list string) : t_config :=
  Config (fun k => bool_decide (is_Some (valor l k))) (valor l) (fun k => atoi <$> valor l k) (fun _ => Some ((fun s => con_nul (txt s)) <$> colas)).

Definition conf_ejemplo : t_config :=
  config_de [("LOG_LEVEL", "INFO"); ("PLANIFICATION_ALGORITHM", "CMN"); ("QUEUE_PREEMPTION", "TRUE"); ("RR_QUANTUM", "100");
    ("SUSPENSION_TIMEOUT", "50"); ("PUERTO_ESCUCHA", "8001"); ("MEMORY_IP", "127.0.0.1"); ("MEMORY_PORT", "8000");
    ("QUEUES_ALGORITHMS", "[RR,FIFO,RR]")]%string ["RR"; "FIFO"; "RR"]%string.

Lemma config_de_ok l colas : ConfigOk (config_de l colas).
Proof.
  split; intros k Hk; apply bool_decide_eq_true in Hk; cbn in *; [done|]. destruct Hk as [s ->]. by eexists.
Qed.

Lemma colas_con_algoritmo_witness :
  exists cf cx k, load_config_scheduler (Some conf_ejemplo) = Cargada (cf, cx) /\ arrancar (kernel_global cf 4) = Sigue tt k /\
    cantidad_niveles_prioridad k = 3 /\ colas_ready_por_prioridad k !! 1%nat = Some (Some []) /\
    obtener_algoritmo_por_prioridad (Some cf) 1 = ALGORITMO_FIFO.
Proof.
  destruct (load_config_scheduler (Some conf_ejemplo)) as [[cf cx]| |] eqn:E; [|vm_compute in E; discriminate..].
  assert (Hc : obtener_algoritmo_global (Some cf) = ALGORITMO_CMN /\ cantidad_colas cf = 3 /\
    algoritmos_colas cf !! 1%nat = Some (Some (txt "FIFO")) /\ obtener_algoritmo_por_prioridad (Some cf) 1 = ALGORITMO_FIFO)
    by (vm_compute in E; injection E as <- <-; vm_compute; done).
  destruct Hc as (Ha & Hn & Hf & Hp). destruct (arrancar (kernel_global cf 4)) as [[] k| | | | |] eqn:Ek;
    [|exfalso; vm_compute in E; injection E as <- <-; vm_compute in Ek; discriminate..].
  destruct (colas_con_algoritmo conf_ejemplo cf cx 4 k E Ha ltac:(lia) Ek) as (H1 & _ & H2).
  exists cf, cx, k. split; [reflexivity|]. split; [exact Ek|]. split; [rewrite H1; exact Hn|]. split; [|exact Hp].
  apply H2. exists (txt "FIFO"). exact Hf.
Defined.
