(* ===== verification/Legado.v ===== *)
(** * Legado: the older packets of [sockets.c]

    The packets without op_code table and with [int] sizes that
    [utils/src/utils/sockets.c] keeps next to those of [serializacion.c]: their
    construction, their bytes and their readers, and [split_file_tag]. *)

From S2P Require Import Prelude Bloques Wire Texto Tipos Mensajes.

(** ** Packets *)

Record t_socket_buffer := SocketBuffer { sb_size : Z; sb_stream : list byte }.
Record t_socket_paquete := SocketPaquete { sp_codigo : Z; sp_buffer : t_socket_buffer }.

Definition MENSAJE : Z := 0.
Definition PAQUETE : Z := 1.

Definition socket_crear_buffer : t_socket_buffer := SocketBuffer 0 [].
Definition socket_crear_paquete : t_socket_paquete := SocketPaquete PAQUETE socket_crear_buffer.

(** [realloc], and two [memcpy] at the offset [size]; the new size is an [int]. *)
Definition socket_agregar_a_paquete (p : t_socket_paquete) (valor : list byte) : t_socket_paquete :=
  let b := sp_buffer p in
  let tamanio := Z.of_nat (length valor) in
  SocketPaquete (sp_codigo p)
    (SocketBuffer (i32 (sb_size b + tamanio + 4)) (take (Z.to_nat (sb_size b)) (sb_stream b) ++ le_enc 4 tamanio ++ valor)).

(** The [bytes] of the stream that are written. *)
Definition socket_serializar_paquete (p : t_socket_paquete) : list byte :=
  le_enc 4 (sp_codigo p) ++ le_enc 4 (sb_size (sp_buffer p)) ++
  take (Z.to_nat (sb_size (sp_buffer p))) (sb_stream (sp_buffer p)).

Definition socket_enviar_paquete (p : t_socket_paquete) : list byte :=
  take (Z.to_nat (i32 (sb_size (sp_buffer p) + 8))) (socket_serializar_paquete p).

(** [mensaje] without its NUL, which travels. *)
Definition enviar_mensaje (mensaje : list byte) : list byte :=
  let p := SocketPaquete MENSAJE (SocketBuffer (Z.of_nat (length mensaje) + 1) (con_nul mensaje)) in
  take (Z.to_nat (i32 (sb_size (sp_buffer p) + 8))) (socket_serializar_paquete p).

Definition socket_enviar_paquete_simple (opcode : Z) (instr : list byte) : list byte :=
  socket_enviar_paquete (socket_agregar_a_paquete (SocketPaquete opcode socket_crear_buffer) (con_nul instr)).

(** ** Readers *)

(** The code, -1 (and the socket closed) when the peer is gone. *)
Definition recibir_operacion (s : list byte) : option (Z * list byte) :=
  match s with
  | [] => Some (-1, [])
  | _ => match recv_int s with Some r => Some r | None => None end
  end.

(** The size and the bytes; a negative size is an invalid [malloc]. *)
Definition recibir_buffer : lector (Z * list byte) :=
  size ← recv_int;
  if size <? 0 then st_abort else buffer ← recv (Z.to_nat size); mret (size, buffer).

Definition recibir_mensaje : lector (list byte) := '(_, buffer) ← recibir_buffer; mret buffer.

(** The [while (desplazamiento < size)]: each turn advances four bytes at least. A
    size that is negative or leaves the buffer is a read outside it. *)
Fixpoint valores_bucle (n : nat) (buffer : list byte) (desplazamiento : nat) : option (list (list byte)) :=
  match n with
  | O => None
  | S n =>
      if (length buffer <=? desplazamiento)%nat then Some []
      else
        '(tamanio, _) ← recv_int (drop desplazamiento buffer);
        if tamanio <? 0 then None
        else
          '(valor, _) ← recv (Z.to_nat tamanio) (drop (desplazamiento + 4) buffer);
          valores ← valores_bucle n buffer (desplazamiento + 4 + Z.to_nat tamanio);
          Some (valor :: valores)
  end.

Definition recibir_paquete : lector (list (list byte)) :=
  '(_, buffer) ← recibir_buffer;
  st_lift (valores_bucle (S (length buffer)) buffer 0).

(** [strchr(filetag, ':')], and the copies on each side of it. *)
Definition split_file_tag (filetag : list byte) : option (list byte * list byte) :=
  sep ← indice_de (fun c => bool_decide (c = x3a)) filetag;
  Some (take sep filetag, drop (S sep) filetag).

(** ** A poll *)

(** [recibir_memoria_corrupta_no_bloqueante] ([mensajes.c]): with nothing to read
    it is [false] at once; what there is, is taken out of the socket, whatever it
    is. *)
Definition recibir_memoria_corrupta_no_bloqueante : lector bool := fun s =>
  match s with
  | [] => Some (false, [])
  | _ =>
      (codigo ← recv_u32;
       tamanio ← recv_size_t;
       _ ← (if tamanio >? 0 then recv (Z.to_nat tamanio) else mret []);
       mret (codigo =? op_num MEMORIA_CORRUPTA_BSOD)) s
  end.

(** ** Round trips *)

Definition campo_legado (v : list byte) : list byte := le_enc 4 (Z.of_nat (length v)) ++ v.
Definition campos_legado (vs : list (list byte)) : list byte := vs ≫= campo_legado.

Lemma length_le_enc4 z : length (le_enc 4 z) = 4%nat.
Proof. done. Qed.

Lemma recv_int_le z resto : es_int z -> recv_int (le_enc 4 z ++ resto) = Some (z, resto).
Proof.
  intros H. unfold recv_int, recv. st_unfold. rewrite length_app, length_le_enc4. cbn [Nat.add Nat.leb].
  rewrite take_app_length', drop_app_length' by done. by rewrite le_dec_enc4, i32_u32, i32_small.
Qed.

Lemma recv_todo (v resto : list byte) : recv (length v) (v ++ resto) = Some (v, resto).
Proof.
  unfold recv. rewrite length_app. destruct (Nat.leb_spec (length v) (length v + length resto)); [|lia].
  by rewrite take_app_length, drop_app_length.
Qed.

Lemma agregados cod vs : forall pre,
  Z.of_nat (length (pre ++ campos_legado vs)) < 2147483648 ->
  fold_left socket_agregar_a_paquete vs (SocketPaquete cod (SocketBuffer (Z.of_nat (length pre)) pre)) =
  SocketPaquete cod (SocketBuffer (Z.of_nat (length (pre ++ campos_legado vs))) (pre ++ campos_legado vs)).
Proof.
  induction vs as [|v vs IH]; intros pre Hl.
  { cbn. by rewrite app_nil_r. }
  change (campos_legado (v :: vs)) with (campo_legado v ++ campos_legado vs) in *. rewrite app_assoc in *.
  rewrite <-IH by done. cbn [fold_left]. f_equal. unfold socket_agregar_a_paquete. cbn [sp_buffer sp_codigo sb_size sb_stream].
  rewrite Nat2Z.id, firstn_all. f_equal. f_equal.
  rewrite i32_small; [unfold campo_legado; rewrite !length_app, length_le_enc4; lia|].
  unfold es_int. rewrite !length_app in Hl. unfold campo_legado in Hl. rewrite length_app, length_le_enc4 in Hl. lia.
Qed.

Lemma valores_ok vs : forall n pre,
  (length vs < n)%nat -> Forall (fun v => Z.of_nat (length v) < 2147483648) vs ->
  valores_bucle n (pre ++ campos_legado vs) (length pre) = Some vs.
Proof.
  induction vs as [|v vs IH]; intros [|n] pre Hn Hv; [cbn in Hn; lia| |cbn in Hn; lia|].
  - cbn [valores_bucle]. cbn. rewrite app_nil_r. by rewrite Nat.leb_refl.
  - apply Forall_cons in Hv as [Hv Hvs]. change (campos_legado (v :: vs)) with (campo_legado v ++ campos_legado vs).
    cbn [valores_bucle]. unfold campo_legado. rewrite <-app_assoc.
    set (b := pre ++ _).
    assert (E1 : drop (length pre) b = le_enc 4 (Z.of_nat (length v)) ++ v ++ campos_legado vs) by apply drop_app_length.
    assert (E2 : drop (length pre + 4) b = v ++ campos_legado vs).
    { unfold b. rewrite (app_assoc pre). apply drop_app_length'. rewrite length_app, length_le_enc4. lia. }
    assert (Hb : length b = (length pre + 4 + length v + length (campos_legado vs))%nat)
      by (unfold b; rewrite !length_app, length_le_enc4; lia).
    destruct (Nat.leb_spec (length b) (length pre)); [lia|]. rewrite E1.
    rewrite recv_int_le by (unfold es_int; lia). cbn [mbind option_bind].
    destruct (Z.ltb_spec (Z.of_nat (length v)) 0); [lia|]. rewrite Nat2Z.id.
    rewrite E2, recv_todo. cbn [mbind option_bind].
    unfold b. rewrite 2!app_assoc.
    replace (length pre + 4 + length v)%nat with (length ((pre ++ le_enc 4 (Z.of_nat (length v))) ++ v))
      by (rewrite !length_app, length_le_enc4; lia).
    rewrite IH; [done|cbn in Hn; lia|done].
Qed.

(** a packet of [sockets.c] is read back field by field, with its op_code,
    and leaves what follows it in the stream. *)
Theorem legado_ida_vuelta cod vs resto :
  es_int cod -> Z.of_nat (length (campos_legado vs)) < 2147483640 ->
  let p := fold_left socket_agregar_a_paquete vs (SocketPaquete cod socket_crear_buffer) in
  exists s, recibir_operacion (socket_enviar_paquete p ++ resto) = Some (cod, s) /\
    recibir_paquete s = Some (vs, resto).
Proof.
  intros Hc Hl p. set (b := campos_legado vs) in *.
  assert (Hp : p = SocketPaquete cod (SocketBuffer (Z.of_nat (length b)) b)).
  { unfold p, socket_crear_buffer. apply (agregados cod vs []). cbn. fold b. lia. }
  assert (Hs : socket_enviar_paquete p = le_enc 4 cod ++ le_enc 4 (Z.of_nat (length b)) ++ b).
  { rewrite Hp. unfold socket_enviar_paquete, socket_serializar_paquete. cbn [sp_buffer sp_codigo sb_size sb_stream].
    rewrite Nat2Z.id, firstn_all. rewrite i32_small by (unfold es_int; lia).
    apply take_ge. rewrite !length_app, !length_le_enc4. lia. }
  exists ((le_enc 4 (Z.of_nat (length b)) ++ b) ++ resto). rewrite Hs. split.
  - rewrite <-!app_assoc. change (recibir_operacion (le_enc 4 cod ++ ?r)) with (recv_int (le_enc 4 cod ++ r)).
    rewrite recv_int_le by done. done.
  - unfold recibir_paquete, recibir_buffer. st_unfold. rewrite <-app_assoc, recv_int_le by (unfold es_int; lia).
    destruct (Z.ltb_spec (Z.of_nat (length b)) 0); [lia|]. rewrite Nat2Z.id, recv_todo.
    unfold st_lift. assert (E : valores_bucle (S (length b)) b 0 = Some vs); [|by rewrite E].
    apply (valores_ok vs (S (length b)) []).
    + assert (forall ws, length ws <= length (campos_legado ws))%nat; [|by apply Nat.lt_succ_r].
      induction ws as [|w ws IH]; [done|]. change (campos_legado (w :: ws)) with (campo_legado w ++ campos_legado ws).
      unfold campo_legado. rewrite !length_app, length_le_enc4. cbn [length]. lia.
    + assert (forall ws, Forall (fun v => Z.of_nat (length v) <= Z.of_nat (length (campos_legado ws))) ws) as Hws.
      { induction ws as [|w ws IH]; [constructor|]. change (campos_legado (w :: ws)) with (campo_legado w ++ campos_legado ws).
        unfold campo_legado. constructor; [rewrite !length_app; lia|]. eapply Forall_impl; [exact IH|]. intros v Hv. cbn in Hv.
        rewrite !length_app. lia. }
      eapply Forall_impl; [apply Hws|]. intros v Hv. cbn in Hv. fold b in Hv. lia.
Qed.

(** [split_file_tag] cuts at the first colon. *)
Lemma split_file_tag_ok f t : x3a ∉ f -> split_file_tag (f ++ x3a :: t) = Some (f, t).
Proof.
  intros Hf. unfold split_file_tag.
  assert (E : indice_de (fun c => bool_decide (c = x3a)) (f ++ x3a :: t) = Some (length f)).
  { apply indice_de_Some. exists x3a. split; [by apply list_lookup_middle|]. split; [done|].
    intros j y Hj Hy. rewrite lookup_app_l in Hy by done. apply bool_decide_eq_false. intros ->.
    apply Hf. by eapply list_elem_of_lookup_2. }
  rewrite E. cbn [mbind option_bind]. rewrite take_app_length.
  change (x3a :: t) with ([x3a] ++ t). rewrite app_assoc.
  rewrite drop_app_length' by (rewrite length_app; cbn; lia). done.
Qed.

Lemma split_file_tag_sin_dos_puntos s : split_file_tag s = None <-> x3a ∉ s.
Proof.
  unfold split_file_tag. destruct (indice_de _ s) as [i|] eqn:E.
  - split; [done|]. intros H. apply indice_de_Some in E as (x & Hx & Hf & _). apply bool_decide_eq_true in Hf as ->.
    by apply list_elem_of_lookup_2 in Hx.
  - split; [|done]. intros _ H. rewrite indice_de_None in E. specialize (E _ H). by rewrite bool_decide_eq_false in E.
Qed.

(** A message, with its NUL. *)
Lemma mensaje_legado m resto :
  Z.of_nat (length m) < 2147483639 ->
  exists s, recibir_operacion (enviar_mensaje m ++ resto) = Some (MENSAJE, s) /\ recibir_mensaje s = Some (con_nul m, resto).
Proof.
  intros Hl. set (n := Z.of_nat (length m) + 1).
  assert (Hn : length (con_nul m) = Z.to_nat n) by (unfold con_nul, n; rewrite length_app; cbn; lia).
  assert (Hs : enviar_mensaje m = le_enc 4 MENSAJE ++ le_enc 4 n ++ con_nul m).
  { unfold enviar_mensaje, socket_serializar_paquete. cbn [sp_buffer sp_codigo sb_size sb_stream]. fold n.
    rewrite <-Hn, firstn_all, i32_small by (unfold es_int, n; lia). apply take_ge.
    rewrite !length_app, !length_le_enc4, Hn. lia. }
  exists ((le_enc 4 n ++ con_nul m) ++ resto). rewrite Hs. split.
  - rewrite <-!app_assoc. change (recibir_operacion (le_enc 4 MENSAJE ++ ?r)) with (recv_int (le_enc 4 MENSAJE ++ r)).
    by rewrite recv_int_le.
  - unfold recibir_mensaje, recibir_buffer. st_unfold. rewrite <-app_assoc, recv_int_le by (unfold es_int, n; lia).
    destruct (Z.ltb_spec n 0); [lia|]. rewrite <-Hn, recv_todo. done.
Qed.

(** The poll takes one whole message out of the socket and says whether it was the
    BSOD: any other is lost. *)
Lemma sondeo_saca_un_mensaje op pl resto :
  Z.of_nat (length pl) < MAX_PAYLOAD ->
  recibir_memoria_corrupta_no_bloqueante (trama op pl ++ resto) =
  Some (bool_decide (op = MEMORIA_CORRUPTA_BSOD), resto).
Proof.
  intros Hl. unfold recibir_memoria_corrupta_no_bloqueante, trama. rewrite <-!app_assoc.
  set (t := le_enc 4 (op_num op) ++ _). destruct t as [|b t'] eqn:Et; [by apply (f_equal length) in Et; unfold t in Et; rewrite length_app in Et|].
  rewrite <-Et. unfold t, recv_u32, recv_size_t. st_unfold.
  change (recv 4) with (recv (length (le_enc 4 (op_num op)))). rewrite recv_todo.
  change (recv 8) with (recv (length (le_enc 8 (Z.of_nat (length pl))))). rewrite recv_todo.
  rewrite le_dec_enc4, le_dec_enc, u32_small by (pose proof (op_num_range op); unfold es_u32; lia).
  rewrite Z.mod_small by (unfold MAX_PAYLOAD in Hl; lia).
  assert (E : (op_num op =? op_num MEMORIA_CORRUPTA_BSOD) = bool_decide (op = MEMORIA_CORRUPTA_BSOD)).
  { case_bool_decide as Ho; [by subst; apply Z.eqb_refl|]. apply Z.eqb_neq. intros H. by apply op_num_inj in H. }
  destruct (Z.gtb_spec (Z.of_nat (length pl)) 0).
  - rewrite Nat2Z.id, recv_todo. by rewrite E.
  - assert (pl = []) as -> by (destruct pl; [done|cbn in *; lia]). by rewrite E.
Qed.

Lemma legado_ida_vuelta_witness :
  let p := fold_left socket_agregar_a_paquete [[x41; x00]; []] (SocketPaquete 7 socket_crear_buffer) in
  exists s, recibir_operacion (socket_enviar_paquete p ++ [x09]) = Some (7, s) /\
    recibir_paquete s = Some ([[x41; x00]; []], [x09]).
Proof. apply (legado_ida_vuelta 7 [[x41; x00]; []] [x09]); [unfold es_int; lia|vm_compute; reflexivity]. Defined.
