(* ===== verification/Sockets.v ===== *)
(** * Sockets: connecting and listening

    Models the functions of [utils/src/utils/sockets.c] that open connections,
    the loops of the modules that retry them and that accept clients
    ([cpu_memory.c], [cpu_scheduler.c], [utils_kernel_scheduler.c],
    [memory_servidor.c], [utils_memory_stick.c]), over what a process sees of the
    operating system: a table of descriptors of fixed size, of which each call
    takes the lowest free one, the ports of the host, and what the other
    programs answer ([Entorno]). *)

From S2P Require Import Prelude Bloques Wire Tipos Mensajes.

(** ** The operating system *)

(** What an open descriptor names. *)
Inductive descriptor :=
| Abierto
| SocketNuevo
| Ligado (puerto : Z)
| Escucha (puerto : Z)
| Conectado (dir : Z * Z)
| Aceptado (cliente : Z).

(** What the process does not decide: the answer of [getaddrinfo] to a node and
    a service, the port [listen] gives a socket that has none, which of the
    [connect]s the peer accepts, what it then answers to the handshake before the
    time-out, which of the [pthread_create]s succeed. *)
Class Entorno := {
  resolver : option (list byte) -> list byte -> option (Z * Z);
  efimero : Z;
  acepta : Z * Z -> nat -> bool;
  responde : nat -> list byte;
  crea_hilo : nat -> bool }.

(** [pendientes]: what [accept] will find, a client or an error ([None]).
    [atendidos]: the sockets given to a new thread. [esperado]: microseconds of
    [usleep]. [errores]: lines on [stderr]. *)
Record so := So {
  descriptores : list (option descriptor); puertos_ajenos : list Z;
  intentos : nat; hilos : nat; pendientes : list (option Z); atendidos : list Z;
  enviado : list (Z * list byte); esperado : Z; errores : nat }.

Definition con_descriptores (t : list (option descriptor)) (s : so) : so :=
  So t (puertos_ajenos s) (intentos s) (hilos s) (pendientes s) (atendidos s) (enviado s) (esperado s) (errores s).
Definition con_pendientes (l : list (option Z)) (s : so) : so :=
  So (descriptores s) (puertos_ajenos s) (intentos s) (hilos s) l (atendidos s) (enviado s) (esperado s) (errores s).
Definition con_atendidos (l : list Z) (s : so) : so :=
  So (descriptores s) (puertos_ajenos s) (intentos s) (hilos s) (pendientes s) l (enviado s) (esperado s) (errores s).
Definition con_enviado (l : list (Z * list byte)) (s : so) : so :=
  So (descriptores s) (puertos_ajenos s) (intentos s) (hilos s) (pendientes s) (atendidos s) l (esperado s) (errores s).
Definition sumar_intento (s : so) : so :=
  So (descriptores s) (puertos_ajenos s) (S (intentos s)) (hilos s) (pendientes s) (atendidos s) (enviado s) (esperado s) (errores s).
Definition sumar_hilo (s : so) : so :=
  So (descriptores s) (puertos_ajenos s) (intentos s) (S (hilos s)) (pendientes s) (atendidos s) (enviado s) (esperado s) (errores s).
Definition dormir (us : Z) (s : so) : so :=
  So (descriptores s) (puertos_ajenos s) (intentos s) (hilos s) (pendientes s) (atendidos s) (enviado s) (esperado s + us) (errores s).
Definition sumar_error (s : so) : so :=
  So (descriptores s) (puertos_ajenos s) (intentos s) (hilos s) (pendientes s) (atendidos s) (enviado s) (esperado s) (S (errores s)).

Definition O_ (A : Type) : Type := ST so A.

(** What a descriptor names, [None] for one that is not open. *)
Definition que_es (fd : Z) (s : so) : option descriptor :=
  if fd <? 0 then None else mjoin (descriptores s !! Z.to_nat fd).
Definition poner_descriptor (fd : Z) (d : option descriptor) (s : so) : so :=
  con_descriptores (<[Z.to_nat fd := d]> (descriptores s)) s.

(** The lowest free descriptor. *)
Definition libre_mas_bajo (t : list (option descriptor)) : option nat :=
  indice_de (fun d => bool_decide (d = None)) t.

Definition abrir (d : descriptor) : O_ Z :=
  s ← st_get;
  match libre_mas_bajo (descriptores s) with
  | None => mret (-1)
  | Some i => _ ← st_put (poner_descriptor (Z.of_nat i) (Some d) s); mret (Z.of_nat i)
  end.

Definition socket_ : O_ Z := abrir SocketNuevo.
Definition close_ (fd : Z) : O_ unit :=
  st_mod (fun s => match que_es fd s with Some _ => poner_descriptor fd None s | None => s end).

Definition bind_ (fd puerto : Z) : O_ Z :=
  s ← st_get;
  match que_es fd s with
  | Some SocketNuevo =>
      if bool_decide (puerto ∈ puertos_ajenos s) then mret (-1)
      else _ ← st_put (poner_descriptor fd (Some (Ligado puerto)) s); mret 0
  | _ => mret (-1)
  end.

Definition accept_ (fd : Z) : O_ (option Z) :=
  s ← st_get;
  match que_es fd s with
  | Some (Escucha _) =>
      match pendientes s with
      | [] => mret None
      | None :: r => _ ← st_put (con_pendientes r s); mret (Some (-1))
      | Some c :: r =>
          client ← abrir (Aceptado c);
          if client =? -1 then mret (Some (-1))
          else _ ← st_mod (con_pendientes r); mret (Some client)
      end
  | _ => mret (Some (-1))
  end.

Definition usleep (us : Z) : O_ unit := st_mod (dormir us).
Definition enviar_so (fd : Z) (b : list byte) : O_ unit := st_mod (fun s => con_enviado (enviado s ++ [(fd, b)]) s).

Section entorno.
Context {red : Entorno}.

(** A socket without a port is given one. *)
Definition listen_ (fd : Z) : O_ Z :=
  s ← st_get;
  match que_es fd s with
  | Some (Ligado puerto) => _ ← st_put (poner_descriptor fd (Some (Escucha puerto)) s); mret 0
  | Some SocketNuevo => _ ← st_put (poner_descriptor fd (Some (Escucha efimero)) s); mret 0
  | Some (Escucha _) => mret 0
  | _ => mret (-1)
  end.

Definition connect_ (fd : Z) (dir : Z * Z) : O_ Z :=
  s ← st_get;
  _ ← st_mod sumar_intento;
  match que_es fd s with
  | Some SocketNuevo =>
      if acepta dir (intentos s) then _ ← st_mod (poner_descriptor fd (Some (Conectado dir))); mret 0
      else mret (-1)
  | _ => mret (-1)
  end.

(** [pthread_create], with the socket the thread is for. *)
Definition pthread_create (fd : Z) : O_ bool :=
  s ← st_get;
  _ ← st_mod sumar_hilo;
  if crea_hilo (hilos s) then _ ← st_mod (fun s => con_atendidos (atendidos s ++ [fd]) s); mret true
  else mret false.

(** ** [sockets.c] *)

(** The pointer [getaddrinfo] does not fill in when it fails is followed
    ([None]). *)
Definition getaddrinfo (nodo : option (list byte)) (servicio : list byte) : O_ (Z * Z) :=
  st_lift (resolver nodo servicio).

Definition iniciar_servidor (puerto : list byte) : O_ Z :=
  servinfo ← getaddrinfo None puerto;
  socket_servidor ← socket_;
  _ ← bind_ socket_servidor servinfo.2;
  err ← listen_ socket_servidor;
  _ ← (if negb (err =? 0) then st_mod sumar_error else mret tt);
  mret socket_servidor.

Definition esperar_cliente (socket_servidor : Z) : O_ (option Z) := accept_ socket_servidor.

Definition crear_conexion (ip puerto : list byte) : O_ Z :=
  server_info ← getaddrinfo (Some ip) puerto;
  socket_cliente ← socket_;
  r ← connect_ socket_cliente server_info;
  if r <? 0 then mret (-1) else mret socket_cliente.

Definition liberar_conexion (socket_cliente : Z) : O_ unit := close_ socket_cliente.

(** ** The loops that retry *)

Definition RETARDO_REINTENTO_MS : Z := 2000.

(** [n] turns of the loop; [None] while it goes on. *)
Fixpoint esperar_conexion (n : nat) (ip puerto : list byte) : O_ (option Z) :=
  match n with
  | O => mret None
  | S n =>
      sock ← crear_conexion ip puerto;
      if sock =? -1 then _ ← usleep (RETARDO_REINTENTO_MS * 1000); esperar_conexion n ip puerto
      else mret (Some sock)
  end.

(** The same with a handshake, whose failure closes the socket. *)
Fixpoint conectar_a_kernel_memory (n : nat) (ip puerto : list byte) : O_ (option Z) :=
  match n with
  | O => mret None
  | S n =>
      sock ← crear_conexion ip puerto;
      if sock =? -1 then _ ← usleep (RETARDO_REINTENTO_MS * 1000); conectar_a_kernel_memory n ip puerto
      else
        _ ← enviar_so sock enviar_handshake_scheduler_a_memory;
        s ← st_get;
        let '(ack, resto) := recibir_codigo_operacion (responde (pred (intentos s))) in
        if (ack =? NEG1) || negb (ack =? op_num HANDSHAKE_SCHEDULER_A_MEMORY) then
          _ ← close_ sock; _ ← usleep (RETARDO_REINTENTO_MS * 1000); conectar_a_kernel_memory n ip puerto
        else
          _ ← st_lift (recibir_ok resto);
          mret (Some sock)
  end.

(** ** The loops that accept *)

(** Waiting for a client, ended, or still turning when the fuel runs out. *)
Inductive fin_listener := EnEspera | Terminado | Gira.

Definition spawn_detached (fd : Z) : O_ unit := _ ← pthread_create fd; mret tt.

Fixpoint memory_listener_thread (n : nat) (server_socket : Z) : O_ fin_listener :=
  match n with
  | O => mret Gira
  | S n =>
      r ← esperar_cliente server_socket;
      match r with
      | None => mret EnEspera
      | Some client_socket =>
          if client_socket =? -1 then mret Terminado
          else _ ← spawn_detached client_socket; memory_listener_thread n server_socket
      end
  end.

(** The loop of the Scheduler is the same. *)
Definition scheduler_listener_thread : nat -> Z -> O_ fin_listener := memory_listener_thread.

Fixpoint memory_stick_listener_thread (n : nat) (server_socket : Z) : O_ fin_listener :=
  match n with
  | O => mret Gira
  | S n =>
      r ← esperar_cliente server_socket;
      match r with
      | None => mret EnEspera
      | Some client_socket =>
          if client_socket =? -1 then memory_stick_listener_thread n server_socket
          else
            creado ← pthread_create client_socket;
            if negb creado then _ ← close_ client_socket; memory_stick_listener_thread n server_socket
            else memory_stick_listener_thread n server_socket
      end
  end.
End entorno.

(** ** The table of descriptors *)

Definition libres (t : list (option descriptor)) : nat := length (filter (fun d => d = None) t).
#[global] Arguments libres : simpl never.
Definition sin_abrir (s : so) : nat := libres (descriptores s).

Lemma libres_cons d t : libres (d :: t) = ((if decide (d = None) then 1 else 0) + libres t)%nat.
Proof. unfold libres. rewrite filter_cons. by destruct (decide (d = None)). Qed.

Lemma libre_mas_bajo_None t : libres t = 0%nat -> libre_mas_bajo t = None.
Proof.
  intros H. apply indice_de_None. intros d Hd. apply bool_decide_eq_false. intros ->.
  unfold libres in H. apply length_zero_iff_nil in H. apply (not_elem_of_nil (A := option descriptor) None).
  rewrite <-H. by apply list_elem_of_filter.
Qed.

Lemma libre_mas_bajo_Some t : (0 < libres t)%nat -> exists i, libre_mas_bajo t = Some i /\ t !! i = Some None.
Proof.
  intros H. destruct (libre_mas_bajo t) as [i|] eqn:E.
  - exists i. split; [done|]. apply indice_de_Some in E as (d & Hd & Hf & _). by apply bool_decide_eq_true in Hf as ->.
  - exfalso. unfold libre_mas_bajo in E. rewrite indice_de_None in E. unfold libres in H.
    destruct (filter _ t) as [|d l] eqn:Ef; [cbn in H; lia|].
    assert (Hd : d ∈ filter (fun d => d = None) t) by (rewrite Ef; left).
    apply list_elem_of_filter in Hd as [-> Hd]. specialize (E _ Hd). by rewrite bool_decide_eq_false in E.
Qed.

(** Changing one entry. *)
Lemma libres_poner t i d d' :
  t !! i = Some d ->
  (libres (<[i := d']> t) + (if decide (d = None) then 1 else 0) = libres t + (if decide (d' = None) then 1 else 0))%nat.
Proof.
  revert i. induction t as [|x t IH]; intros [|i] H; [done..| |].
  - injection H as ->. change (<[0%nat := d']> (d :: t)) with (d' :: t). rewrite !libres_cons. lia.
  - change (<[S i := d']> (x :: t)) with (x :: <[i := d']> t). rewrite !libres_cons. specialize (IH i H). lia.
Qed.

Lemma libres_abrir t i d : t !! i = Some None -> libres t = S (libres (<[i := Some d]> t)).
Proof. intros H. pose proof (libres_poner t i None (Some d) H) as E. rewrite decide_True, decide_False in E by done. lia. Qed.
Lemma libres_cambiar t i d d' : t !! i = Some (Some d) -> libres (<[i := Some d']> t) = libres t.
Proof. intros H. pose proof (libres_poner t i (Some d) (Some d') H) as E. rewrite !decide_False in E by done. lia. Qed.
Lemma libres_cerrar t i d : t !! i = Some (Some d) -> libres (<[i := None]> t) = S (libres t).
Proof. intros H. pose proof (libres_poner t i (Some d) None H) as E. rewrite decide_False, decide_True in E by done. lia. Qed.

Lemma que_es_poner i d s : (i < length (descriptores s))%nat -> que_es (Z.of_nat i) (poner_descriptor (Z.of_nat i) d s) = d.
Proof.
  intros H. unfold que_es, poner_descriptor. destruct (Z.ltb_spec (Z.of_nat i) 0); [lia|].
  cbn. rewrite Nat2Z.id, list_lookup_insert_eq by done. done.
Qed.
Lemma que_es_menos_uno s : que_es (-1) s = None.
Proof. done. Qed.

(** ** One attempt *)

(** What [k] attempts leave: the descriptors open before, [n] fewer free ones,
    [us] microseconds asleep. *)
Record tras_intentos (n k : nat) (us : Z) (s s' : so) : Prop := {
  ti_libres : sin_abrir s = (n + sin_abrir s')%nat;
  ti_intentos : intentos s' = (intentos s + k)%nat;
  ti_esperado : esperado s' = esperado s + us;
  ti_abiertos : forall fd d, que_es fd s = Some d -> que_es fd s' = Some d }.

Lemma tras_nada s : tras_intentos 0 0 0 s s.
Proof. split; [done|lia|lia|done]. Qed.
Lemma tras_luego n1 k1 us1 n2 k2 us2 s s1 s2 :
  tras_intentos n1 k1 us1 s s1 -> tras_intentos n2 k2 us2 s1 s2 ->
  tras_intentos (n1 + n2) (k1 + k2) (us1 + us2) s s2.
Proof. intros [A1 A2 A3 A4] [B1 B2 B3 B4]. split; [lia..|]. intros fd d H. by apply B4, A4. Qed.
Lemma tras_dormir us s : tras_intentos 0 0 us s (dormir us s).
Proof. split; [done|cbn; lia|done|done]. Qed.

Lemma abrir_lleno d s : sin_abrir s = 0%nat -> abrir d s = Some (-1, s).
Proof. intros H. unfold abrir. st_unfold. by rewrite libre_mas_bajo_None. Qed.

Lemma abrir_libre_ok d s : (0 < sin_abrir s)%nat -> exists i,
  abrir d s = Some (Z.of_nat i, poner_descriptor (Z.of_nat i) (Some d) s) /\ descriptores s !! i = Some None.
Proof.
  intros H. destruct (libre_mas_bajo_Some _ H) as (i & E & Hi). exists i. split; [|done].
  unfold abrir. st_unfold. by rewrite E.
Qed.

Lemma poner_dos fd d d' s : poner_descriptor fd d' (poner_descriptor fd d s) = poner_descriptor fd d' s.
Proof. unfold poner_descriptor, con_descriptores. cbn. by rewrite list_insert_insert_eq. Qed.

Lemma abiertos_poner i d s fd d0 :
  descriptores s !! i = Some None -> que_es fd s = Some d0 -> que_es fd (poner_descriptor (Z.of_nat i) d s) = Some d0.
Proof.
  unfold que_es, poner_descriptor. cbn. rewrite Nat2Z.id. destruct (Z.ltb_spec fd 0); [done|]. intros Hi Hq.
  rewrite list_lookup_insert_ne; [done|]. intros ->. by rewrite Hi in Hq.
Qed.

Section intentos.
Context {red : Entorno} (ip puerto : list byte) (dir : Z * Z).
Hypothesis (Hdir : resolver (Some ip) puerto = Some dir).

Lemma crear_conexion_lleno s :
  sin_abrir s = 0%nat -> crear_conexion ip puerto s = Some (-1, sumar_intento s).
Proof.
  intros H. unfold crear_conexion, getaddrinfo, st_lift. st_unfold. rewrite Hdir. cbn [fmap option_fmap option_map].
  unfold socket_. by rewrite (abrir_lleno _ _ H).
Qed.

(** A refused connection leaves its socket open. *)
Lemma crear_conexion_negada s :
  (0 < sin_abrir s)%nat -> acepta dir (intentos s) = false ->
  exists s', crear_conexion ip puerto s = Some (-1, s') /\ tras_intentos 1 1 0 s s'.
Proof.
  intros H Ha. destruct (abrir_libre_ok SocketNuevo s H) as (i & E & Hi). pose proof (lookup_lt_Some _ _ _ Hi) as Hlt.
  exists (sumar_intento (poner_descriptor (Z.of_nat i) (Some SocketNuevo) s)). split.
  - unfold crear_conexion, getaddrinfo, st_lift, socket_. st_unfold. rewrite Hdir. cbn [fmap option_fmap option_map].
    rewrite E. unfold connect_. st_unfold. change (que_es ?a (sumar_intento ?b)) with (que_es a b).
    rewrite que_es_poner by done. cbn [intentos poner_descriptor con_descriptores]. by rewrite Ha.
  - split; [|cbn; lia|cbn; lia|].
    + unfold sin_abrir, poner_descriptor. cbn. rewrite Nat2Z.id. by apply libres_abrir.
    + intros fd d Hq. by apply abiertos_poner.
Qed.

Lemma crear_conexion_aceptada s :
  (0 < sin_abrir s)%nat -> acepta dir (intentos s) = true ->
  exists fd s', crear_conexion ip puerto s = Some (fd, s') /\ 0 <= fd /\ que_es fd s = None /\
    que_es fd s' = Some (Conectado dir) /\ tras_intentos 1 1 0 s s' /\ enviado s' = enviado s.
Proof.
  intros H Ha. destruct (abrir_libre_ok SocketNuevo s H) as (i & E & Hi). pose proof (lookup_lt_Some _ _ _ Hi) as Hlt.
  exists (Z.of_nat i), (sumar_intento (poner_descriptor (Z.of_nat i) (Some (Conectado dir)) s)).
  split; [|split; [lia|split; [|split; [|split; [|done]]]]].
  - unfold crear_conexion, getaddrinfo, st_lift, socket_. st_unfold. rewrite Hdir. cbn [fmap option_fmap option_map].
    rewrite E. unfold connect_. st_unfold. change (que_es ?a (sumar_intento ?b)) with (que_es a b).
    rewrite que_es_poner by done. cbn [intentos poner_descriptor con_descriptores]. rewrite Ha. cbn [Z.ltb Z.compare].
    change (poner_descriptor ?f ?d (sumar_intento ?b)) with (sumar_intento (poner_descriptor f d b)). by rewrite poner_dos.
  - unfold que_es. rewrite Nat2Z.id, Hi. by destruct (_ <? 0).
  - change (que_es ?a (sumar_intento ?b)) with (que_es a b). by rewrite que_es_poner.
  - split; [|cbn; lia|cbn; lia|].
    + unfold sin_abrir, poner_descriptor. cbn. rewrite Nat2Z.id. by apply libres_abrir.
    + intros fd d Hq. by apply abiertos_poner.
Qed.

(** ** Attempts in a row *)

Definition RETARDO : Z := RETARDO_REINTENTO_MS * 1000.

(** [k] refusals: each takes a descriptor. *)
Lemma esperar_rechazos k : forall s,
  (k <= sin_abrir s)%nat -> (forall j, (j < k)%nat -> acepta dir (intentos s + j) = false) ->
  exists s', (forall n, esperar_conexion (k + n) ip puerto s = esperar_conexion n ip puerto s') /\
    tras_intentos k k (Z.of_nat k * RETARDO) s s'.
Proof.
  induction k as [|k IH]; intros s Hk Hr.
  { exists s. split; [done|]. apply tras_nada. }
  destruct (crear_conexion_negada s) as (s1 & E1 & H1); [lia|rewrite <-(Nat.add_0_r (intentos s)); apply Hr; lia|].
  pose proof (tras_luego _ _ _ _ _ _ _ _ _ H1 (tras_dormir RETARDO s1)) as H1'.
  destruct (IH (dormir RETARDO s1)) as (s2 & E2 & H2).
  - pose proof (ti_libres _ _ _ _ _ H1'). lia.
  - intros j Hj. rewrite (ti_intentos _ _ _ _ _ H1'). replace (intentos s + (1 + 0) + j)%nat with (intentos s + S j)%nat by lia.
    apply Hr. lia.
  - exists s2. split.
    + intros n. cbn [esperar_conexion Nat.add]. rewrite (st_bind_ok _ _ _ _ _ E1). cbn [Z.eqb Pos.eqb]. apply E2.
    + pose proof (tras_luego _ _ _ _ _ _ _ _ _ H1' H2) as H3.
      replace (Z.of_nat (S k) * RETARDO) with (0 + RETARDO + Z.of_nat k * RETARDO) by lia. exact H3.
Qed.

(** Without descriptors, for ever. *)
Lemma esperar_agotado n : forall s, sin_abrir s = 0%nat ->
  exists s', esperar_conexion n ip puerto s = Some (None, s').
Proof.
  induction n as [|n IH]; intros s H; [by exists s|].
  cbn [esperar_conexion]. rewrite (st_bind_ok _ _ _ _ _ (crear_conexion_lleno s H)). cbn [Z.eqb Pos.eqb]. by apply IH.
Qed.
End intentos.

(** C39: a CPU that waits for its peer is connected at the first attempt the peer
    accepts, after two seconds of sleep per refusal, if there are fewer refusals
    before it than free descriptors: every refused attempt leaves its socket
    open. Once the descriptors are gone it is never connected, however many times
    it tries and even if the peer accepts from then on. *)
Theorem esperar_conexion_conecta `{red : Entorno} ip puerto dir s :
  resolver (Some ip) puerto = Some dir ->
  (forall k n, (k < sin_abrir s)%nat -> acepta dir (intentos s + k) = true ->
   (forall j, (j < k)%nat -> acepta dir (intentos s + j) = false) -> (k < n)%nat ->
   exists fd s', esperar_conexion n ip puerto s = Some (Some fd, s') /\ 0 <= fd /\
     que_es fd s' = Some (Conectado dir) /\ tras_intentos (S k) (S k) (Z.of_nat k * 2000000) s s') /\
  ((forall j, (j < sin_abrir s)%nat -> acepta dir (intentos s + j) = false) ->
   forall n, exists s', esperar_conexion n ip puerto s = Some (None, s')).
Proof.
  intros Hdir. split.
  - intros k n Hk Ha Hr Hn. destruct (esperar_rechazos ip puerto dir Hdir k s) as (s1 & E & H1); [lia|done|].
    replace n with (k + S (n - S k))%nat by lia. rewrite E.
    destruct (crear_conexion_aceptada ip puerto dir Hdir s1) as (fd & s2 & E2 & Hfd & _ & Hq & H2 & _).
    + pose proof (ti_libres _ _ _ _ _ H1). lia.
    + by rewrite (ti_intentos _ _ _ _ _ H1).
    + exists fd, s2. cbn [esperar_conexion]. rewrite (st_bind_ok _ _ _ _ _ E2).
      destruct (Z.eqb_spec fd (-1)); [lia|]. split; [done|]. split; [done|]. split; [done|].
      pose proof (tras_luego _ _ _ _ _ _ _ _ _ H1 H2) as H3. rewrite !Nat.add_1_r, Z.add_0_r in H3. exact H3.
  - intros Hr n. destruct (esperar_rechazos ip puerto dir Hdir (sin_abrir s) s) as (s1 & E & H1); [lia|done|].
    destruct (decide (n <= sin_abrir s)%nat) as [Hn|Hn].
    + destruct (esperar_rechazos ip puerto dir Hdir n s) as (s2 & E2 & _); [done|intros j Hj; apply Hr; lia|].
      exists s2. specialize (E2 O). by rewrite Nat.add_0_r in E2.
    + replace n with (sin_abrir s + (n - sin_abrir s))%nat by lia. rewrite E.
      apply (esperar_agotado ip puerto dir Hdir). pose proof (ti_libres _ _ _ _ _ H1). lia.
Qed.

(** ** The Scheduler, with its handshake *)

(** What an attempt meets, when there is a descriptor for it. *)
Inductive turno_conexion := Rechazado | MalSaludo | Saludado.
Definition turno_de `{Entorno} (dir : Z * Z) (i : nat) : turno_conexion :=
  if acepta dir i then
    if (recibir_codigo_operacion (responde i)).1 =? op_num HANDSHAKE_SCHEDULER_A_MEMORY then Saludado else MalSaludo
  else Rechazado.

(** Whether those turns connect, with [l] descriptors: a refusal costs one, a
    failed handshake none. *)
Fixpoint conecta (l : nat) (ts : list turno_conexion) : bool :=
  match l, ts with
  | O, _ | _, [] => false
  | S l, Rechazado :: ts => conecta l ts
  | S _, MalSaludo :: ts => conecta l ts
  | S _, Saludado :: _ => true
  end.

Lemma close_abierto fd d s :
  0 <= fd -> que_es fd s = Some d ->
  exists s', close_ fd s = Some (tt, s') /\ sin_abrir s' = S (sin_abrir s) /\ intentos s' = intentos s /\
    esperado s' = esperado s /\ (forall fd' d', fd' <> fd -> que_es fd' s = Some d' -> que_es fd' s' = Some d').
Proof.
  intros Hfd H. exists (poner_descriptor fd None s). unfold close_. st_unfold. rewrite H. split; [done|].
  unfold que_es in H. destruct (Z.ltb_spec fd 0); [lia|].
  destruct (descriptores s !! Z.to_nat fd) as [x|] eqn:E; [|done]. cbn in H. subst x. split; [by eapply libres_cerrar|].
  do 2 (split; [done|]). intros fd' d' Hne. unfold que_es. destruct (Z.ltb_spec fd' 0); [done|].
  cbn. rewrite list_lookup_insert_ne by lia. done.
Qed.

Lemma op_num_saludo ack : (ack =? NEG1) || negb (ack =? op_num HANDSHAKE_SCHEDULER_A_MEMORY) =
  negb (ack =? op_num HANDSHAKE_SCHEDULER_A_MEMORY).
Proof.
  destruct (Z.eqb_spec ack (op_num HANDSHAKE_SCHEDULER_A_MEMORY)) as [->|_]; [done|]. by rewrite orb_true_r.
Qed.

Section scheduler.
Context {red : Entorno} (ip puerto : list byte) (dir : Z * Z).
Hypothesis (Hdir : resolver (Some ip) puerto = Some dir).
Hypothesis (Hok : forall i, turno_de dir i = Saludado -> recibir_ok (recibir_codigo_operacion (responde i)).2 <> None).

Lemma conectar_turno s :
  (0 < sin_abrir s)%nat ->
  match turno_de dir (intentos s) with
  | Saludado => exists fd s', (forall n, conectar_a_kernel_memory (S n) ip puerto s = Some (Some fd, s')) /\
      0 <= fd /\ que_es fd s' = Some (Conectado dir) /\ tras_intentos 1 1 0 s s'
  | t => exists s', (forall n, conectar_a_kernel_memory (S n) ip puerto s = conectar_a_kernel_memory n ip puerto s') /\
      tras_intentos (if t is Rechazado then 1 else 0) 1 RETARDO s s'
  end.
Proof.
  intros Hl. specialize (Hok (intentos s)). unfold turno_de in *. destruct (acepta dir (intentos s)) eqn:Ea.
  - destruct (crear_conexion_aceptada ip puerto dir Hdir s Hl Ea) as (fd & s1 & E1 & Hfd & Hno & Hq & H1 & _).
    set (s2 := con_enviado (enviado s1 ++ [(fd, enviar_handshake_scheduler_a_memory)]) s1).
    assert (H2 : tras_intentos 1 1 0 s s2) by (destruct H1; split; done).
    assert (Hi : pred (intentos s2) = intentos s) by (rewrite (ti_intentos _ _ _ _ _ H2); lia).
    destruct (recibir_codigo_operacion (responde (intentos s))) as [ack resto] eqn:Er. cbn [fst snd] in *.
    assert (Hrun : forall n, conectar_a_kernel_memory (S n) ip puerto s =
       (if negb (ack =? op_num HANDSHAKE_SCHEDULER_A_MEMORY) then
          _ ← close_ fd; _ ← usleep RETARDO; conectar_a_kernel_memory n ip puerto
        else _ ← st_lift (recibir_ok resto); mret (Some fd)) s2).
    { intros n. cbn [conectar_a_kernel_memory]. rewrite (st_bind_ok _ _ _ _ _ E1). destruct (Z.eqb_spec fd (-1)); [lia|].
      rewrite (st_bind_ok (enviar_so fd _) _ s1 tt s2 eq_refl), (st_bind_ok st_get _ s2 s2 s2 eq_refl), Hi, Er.
      by rewrite op_num_saludo. }
    destruct (ack =? op_num HANDSHAKE_SCHEDULER_A_MEMORY).
    + destruct (recibir_ok resto) as [[[] r]|] eqn:Eok; [|by destruct (Hok eq_refl)].
      exists fd, s2. split; [|done]. intros n. by rewrite Hrun.
    + destruct (close_abierto fd (Conectado dir) s2 Hfd Hq) as (s3 & E3 & Hl3 & Hi3 & He3 & Ha3).
      exists (dormir RETARDO s3). split; [intros n; rewrite Hrun; cbn [negb]; by rewrite (st_bind_ok _ _ _ _ _ E3)|].
      split; [change (sin_abrir (dormir RETARDO s3)) with (sin_abrir s3); pose proof (ti_libres _ _ _ _ _ H2); lia|
        cbn; rewrite Hi3; apply H2|cbn; rewrite He3; pose proof (ti_esperado _ _ _ _ _ H2); lia|].
      intros fd' d' Hq'. apply (Ha3 fd' d'); [congruence|]. by apply H2.
  - destruct (crear_conexion_negada ip puerto dir Hdir s Hl Ea) as (s1 & E1 & H1). exists (dormir RETARDO s1). split.
    + intros n. cbn [conectar_a_kernel_memory]. by rewrite (st_bind_ok _ _ _ _ _ E1).
    + exact (tras_luego _ _ _ _ _ _ _ _ _ H1 (tras_dormir RETARDO s1)).
Qed.

Lemma conectar_agotado n : forall s, sin_abrir s = 0%nat ->
  exists s', conectar_a_kernel_memory n ip puerto s = Some (None, s').
Proof.
  induction n as [|n IH]; intros s H; [by exists s|].
  cbn [conectar_a_kernel_memory]. rewrite (st_bind_ok _ _ _ _ _ (crear_conexion_lleno ip puerto dir Hdir s H)).
  cbn [Z.eqb Pos.eqb]. by apply IH.
Qed.
End scheduler.

(** the Scheduler's connection to Memory is what its turns say: with as many
    descriptors as it has, a refusal costs one (the socket is not closed), a wrong
    or late handshake none (that socket is closed), and it connects in the first
    turn that is greeted while a descriptor is left; after that it never does. *)
Theorem scheduler_conecta_con_memoria `{red : Entorno} ip puerto dir n s :
  resolver (Some ip) puerto = Some dir ->
  (forall i, turno_de dir i = Saludado -> recibir_ok (recibir_codigo_operacion (responde i)).2 <> None) ->
  exists r s', conectar_a_kernel_memory n ip puerto s = Some (r, s') /\
    (is_Some r <-> conecta (sin_abrir s) (turno_de dir <$> seq (intentos s) n) = true) /\
    (forall fd, r = Some fd -> 0 <= fd /\ que_es fd s' = Some (Conectado dir)).
Proof.
  intros Hdir Hok. revert s. induction n as [|n IH]; intros s.
  { exists None, s. split; [done|]. split; [|done]. split; [by intros [? ?]|]. by destruct (sin_abrir s). }
  destruct (sin_abrir s) as [|l] eqn:El.
  { destruct (conectar_agotado ip puerto dir Hdir (S n) s El) as (s' & E). exists None, s'.
    split; [done|]. split; [split; [by intros [? ?]|done]|done]. }
  pose proof (conectar_turno ip puerto dir Hdir Hok s ltac:(lia)) as Ht. cbn [seq fmap list_fmap].
  destruct (turno_de dir (intentos s)); cbn [conecta].
  3: { destruct Ht as (fd & s1 & E & Hfd & Hq & _). exists (Some fd), s1. split; [apply E|]. split; [done|].
    intros fd' [= <-]. done. }
  all: destruct Ht as (s1 & E & [H1 H2 _ _]); rewrite El in H1; rewrite Nat.add_1_r in H2; rewrite E, <-H2;
    destruct (IH s1) as (r & s' & E' & Hr & Hfd); exists r, s'; split; [done|]; split; [|done]; rewrite Hr.
  - by injection H1 as ->.
  - cbn [Nat.add] in H1. by rewrite <-H1.
Qed.

(** ** Listening *)

Lemma iniciar_servidor_lleno `{red : Entorno} puerto dir s :
  resolver None puerto = Some dir -> sin_abrir s = 0%nat -> iniciar_servidor puerto s = Some (-1, sumar_error s).
Proof.
  intros Hr Hl. unfold iniciar_servidor, getaddrinfo, st_lift. st_unfold. rewrite Hr.
  cbn [fmap option_fmap option_map]. unfold socket_. by rewrite (abrir_lleno _ _ Hl).
Qed.

Lemma iniciar_servidor_ok `{red : Entorno} puerto a p s :
  resolver None puerto = Some (a, p) -> (0 < sin_abrir s)%nat ->
  exists fd s', iniciar_servidor puerto s = Some (fd, s') /\ 0 <= fd /\
    que_es fd s' = Some (Escucha (if bool_decide (p ∈ puertos_ajenos s) then efimero else p)) /\
    tras_intentos 1 0 0 s s' /\ errores s' = errores s /\ hilos s' = hilos s /\ enviado s' = enviado s.
Proof.
  intros Hr Hl. unfold iniciar_servidor, getaddrinfo, st_lift. st_unfold. rewrite Hr.
  cbn [fmap option_fmap option_map snd]. unfold socket_.
  destruct (abrir_libre_ok SocketNuevo s Hl) as (i & E & Hi). rewrite E. clear E.
  pose proof (lookup_lt_Some _ _ _ Hi) as Hlt. set (fd := Z.of_nat i).
  set (q := if bool_decide (p ∈ puertos_ajenos s) then efimero else p).
  exists fd, (poner_descriptor fd (Some (Escucha q)) s).
  split; [|split; [unfold fd; lia|split; [by apply que_es_poner|split; [|done]]]].
  - unfold bind_, listen_. st_unfold. unfold fd. rewrite que_es_poner by done.
    change (puertos_ajenos (poner_descriptor _ _ s)) with (puertos_ajenos s). unfold q.
    destruct (bool_decide (p ∈ puertos_ajenos s)); [rewrite que_es_poner by done; by rewrite poner_dos|].
    rewrite que_es_poner by (cbn; by rewrite length_insert). cbn [Z.eqb negb]. by rewrite !poner_dos.
  - split; [|cbn; lia|cbn; lia|].
    + unfold sin_abrir, poner_descriptor, fd. cbn. rewrite Nat2Z.id. by apply libres_abrir.
    + intros fd' d Hq. by apply abiertos_poner.
Qed.

(** what [iniciar_servidor] returns says nothing about the port: it is a socket
    that listens on the port asked for when it is free, a socket that listens on
    another port when it is taken (the error of [bind] is overwritten by the
    success of [listen]), and -1 only when there is no descriptor left. *)
Theorem iniciar_servidor_segun_puerto `{red : Entorno} puerto a p s :
  resolver None puerto = Some (a, p) ->
  (sin_abrir s = 0%nat -> exists s', iniciar_servidor puerto s = Some (-1, s') /\ errores s' = S (errores s)) /\
  ((0 < sin_abrir s)%nat -> exists fd s', iniciar_servidor puerto s = Some (fd, s') /\ 0 <= fd /\
     que_es fd s' = Some (Escucha (if bool_decide (p ∈ puertos_ajenos s) then efimero else p)) /\
     errores s' = errores s /\ tras_intentos 1 0 0 s s').
Proof.
  intros Hr. split; intros Hl.
  - exists (sumar_error s). split; [by eapply iniciar_servidor_lleno|done].
  - destruct (iniciar_servidor_ok puerto a p s Hr Hl) as (fd & s' & E & Hfd & Hq & Ht & He & _). by exists fd, s'.
Qed.

(** ** Accepting *)

Section aceptar.
Context {red : Entorno} (sv p : Z).
Hypothesis (Hhilos : forall i, crea_hilo i = true).

Lemma accept_nadie s : que_es sv s = Some (Escucha p) -> pendientes s = [] -> esperar_cliente sv s = Some (None, s).
Proof. intros Hsv Hp. unfold esperar_cliente, accept_. st_unfold. by rewrite Hsv, Hp. Qed.

Lemma accept_error s r :
  que_es sv s = Some (Escucha p) -> pendientes s = None :: r -> esperar_cliente sv s = Some (Some (-1), con_pendientes r s).
Proof. intros Hsv Hp. unfold esperar_cliente, accept_. st_unfold. by rewrite Hsv, Hp. Qed.

(** A client is given the lowest free descriptor and a thread. *)
Lemma aceptar_y_derivar s c r :
  que_es sv s = Some (Escucha p) -> pendientes s = Some c :: r -> (0 < sin_abrir s)%nat ->
  exists fd s1 s2, esperar_cliente sv s = Some (Some fd, s1) /\ pthread_create fd s1 = Some (true, s2) /\ 0 <= fd /\
    que_es fd s2 = Some (Aceptado c) /\ pendientes s2 = r /\ atendidos s2 = atendidos s ++ [fd] /\ tras_intentos 1 0 0 s s2.
Proof.
  intros Hsv Hp Hl. destruct (abrir_libre_ok (Aceptado c) s Hl) as (i & E & Hi). pose proof (lookup_lt_Some _ _ _ Hi) as Hlt.
  set (s1 := con_pendientes r (poner_descriptor (Z.of_nat i) (Some (Aceptado c)) s)).
  exists (Z.of_nat i), s1, (con_atendidos (atendidos s ++ [Z.of_nat i]) (sumar_hilo s1)).
  split; [|split; [|split; [lia|split; [|split; [done|split; [done|]]]]]].
  - unfold esperar_cliente, accept_. st_unfold. rewrite Hsv, Hp, E. by destruct (Z.eqb_spec (Z.of_nat i) (-1)); [lia|].
  - unfold pthread_create. st_unfold. by rewrite Hhilos.
  - by apply (que_es_poner i (Some (Aceptado c)) s).
  - split; [|cbn; lia|cbn; lia|].
    + unfold sin_abrir. cbn. rewrite Nat2Z.id. by apply libres_abrir.
    + intros fd d Hq. by apply (abiertos_poner i).
Qed.

Definition atendido_por (s : so) (fd c : Z) : Prop := que_es fd s = Some (Aceptado c).

(** The clients before the rest of the queue, one turn each. *)
Lemma listener_clientes cs : forall s resto,
  que_es sv s = Some (Escucha p) -> pendientes s = (Some <$> cs) ++ resto -> (length cs <= sin_abrir s)%nat ->
  exists fds s', (forall n, memory_listener_thread (length cs + n) sv s = memory_listener_thread n sv s') /\
    Forall2 (atendido_por s') fds cs /\ atendidos s' = atendidos s ++ fds /\ pendientes s' = resto /\
    tras_intentos (length cs) 0 0 s s'.
Proof.
  induction cs as [|c cs IH]; intros s resto Hsv Hp Hl.
  { exists [], s. split; [done|]. split; [by constructor|]. rewrite app_nil_r. do 2 (split; [done|]). apply tras_nada. }
  cbn [fmap list_fmap app length] in *.
  destruct (aceptar_y_derivar s c _ Hsv Hp) as (fd & s1 & s2 & E1 & E2 & Hfd & Hq & Hp2 & Ha & Ht); [lia|].
  destruct (IH s2 resto) as (fds & s' & E3 & Hat & Ha' & Hp' & Ht').
  - by apply Ht.
  - done.
  - pose proof (ti_libres _ _ _ _ _ Ht). lia.
  - exists (fd :: fds), s'. split; [|split; [|split; [|split; [done|]]]].
    + intros n. cbn [Nat.add memory_listener_thread]. rewrite (st_bind_ok _ _ _ _ _ E1).
      destruct (Z.eqb_spec fd (-1)); [lia|]. unfold spawn_detached. st_unfold. rewrite E2. apply E3.
    + constructor; [|done]. by apply Ht'.
    + by rewrite Ha', Ha, <-app_assoc.
    + exact (tras_luego _ _ _ _ _ _ _ _ _ Ht Ht').
Qed.

(** The queue of the stick, errors included. *)
Lemma stick_cola l : forall s,
  que_es sv s = Some (Escucha p) -> pendientes s = l -> (length (omap id l) <= sin_abrir s)%nat ->
  exists fds s', (forall n, memory_stick_listener_thread (length l + n) sv s = memory_stick_listener_thread n sv s') /\
    Forall2 (atendido_por s') fds (omap id l) /\ atendidos s' = atendidos s ++ fds /\ pendientes s' = [] /\
    (forall fd d, que_es fd s = Some d -> que_es fd s' = Some d).
Proof.
  induction l as [|[c|] l IH]; intros s Hsv Hp Hl.
  - exists [], s. split; [done|]. split; [by constructor|]. by rewrite app_nil_r.
  - cbn [omap list_omap id length] in *.
    destruct (aceptar_y_derivar s c _ Hsv Hp) as (fd & s1 & s2 & E1 & E2 & Hfd & Hq & Hp2 & Ha & Ht); [lia|].
    destruct (IH s2) as (fds & s' & E4 & Hat & Ha' & Hp' & Hab); [by apply Ht|done| |].
    { pose proof (ti_libres _ _ _ _ _ Ht). lia. }
    exists (fd :: fds), s'. split; [|split; [|split; [|split; [done|]]]].
    + intros n. cbn [Nat.add memory_stick_listener_thread]. rewrite (st_bind_ok _ _ _ _ _ E1).
      destruct (Z.eqb_spec fd (-1)); [lia|]. rewrite (st_bind_ok _ _ _ _ _ E2). apply E4.
    + constructor; [|done]. by apply Hab.
    + by rewrite Ha', Ha, <-app_assoc.
    + intros fd' d Hd. by apply Hab, Ht.
  - destruct (IH (con_pendientes l s)) as (fds & s' & E4 & Hat & Ha' & Hp' & Hab); [done..|].
    exists fds, s'. split; [|done]. intros n. cbn [length Nat.add memory_stick_listener_thread].
    rewrite (st_bind_ok _ _ _ _ _ (accept_error s l Hsv Hp)). apply E4.
Qed.
End aceptar.

(** the listeners of Memory and of the Scheduler give each client its own
    descriptor and thread, in order of arrival, until the first error of
    [accept]; there they end, and who comes later is never attended. The listener
    of a stick passes over the errors: it attends every client and waits for more. *)
Theorem listeners_y_errores `{red : Entorno} sv p s cs (error : bool) r :
  (forall i, crea_hilo i = true) -> que_es sv s = Some (Escucha p) ->
  pendientes s = (Some <$> cs) ++ (if error then None :: r else []) ->
  (length (omap id (pendientes s)) <= sin_abrir s)%nat ->
  (exists fds s',
     (forall n, (length cs < n)%nat -> memory_listener_thread n sv s = Some (if error then Terminado else EnEspera, s')) /\
     Forall2 (atendido_por s') fds cs /\ atendidos s' = atendidos s ++ fds /\
     pendientes s' = (if error then r else [])) /\
  (exists fds s',
     (forall n, (length (pendientes s) < n)%nat -> memory_stick_listener_thread n sv s = Some (EnEspera, s')) /\
     Forall2 (atendido_por s') fds (omap id (pendientes s)) /\ atendidos s' = atendidos s ++ fds /\ pendientes s' = []).
Proof.
  intros Hh Hsv Hp Hl. split.
  - assert (Hcs : (length cs <= sin_abrir s)%nat).
    { etrans; [|exact Hl]. rewrite Hp, omap_app, length_app. clear. induction cs as [|c cs IH]; cbn; [lia|]. cbn in IH. lia. }
    destruct (listener_clientes sv p Hh cs s _ Hsv Hp Hcs) as (fds & s1 & E & Hat & Ha & Hp1 & Ht).
    pose proof (ti_abiertos _ _ _ _ _ Ht _ _ Hsv) as Hsv1.
    exists fds, (if error then con_pendientes r s1 else s1). split; [|by destruct error].
    intros n Hn. replace n with (length cs + S (n - S (length cs)))%nat by lia. rewrite E. cbn [memory_listener_thread].
    destruct error; [by rewrite (st_bind_ok _ _ _ _ _ (accept_error sv p s1 r Hsv1 Hp1))|].
    by rewrite (st_bind_ok _ _ _ _ _ (accept_nadie sv p s1 Hsv1 Hp1)).
  - destruct (stick_cola sv p Hh _ s Hsv eq_refl Hl) as (fds & s1 & E & Hat & Ha & Hp1 & Hab).
    exists fds, s1. split; [|done]. intros n Hn.
    replace n with (length (pendientes s) + S (n - S (length (pendientes s))))%nat by lia. rewrite E.
    cbn [memory_stick_listener_thread]. by rewrite (st_bind_ok _ _ _ _ _ (accept_nadie sv p s1 (Hab _ _ Hsv) Hp1)).
Qed.

(** ** Witnesses: a peer that is up from the third attempt on *)

Definition dir_ejemplo : Z * Z := (2130706433, 8002).
#[export] Instance red_ejemplo : Entorno := {
  resolver := fun _ _ => Some dir_ejemplo; efimero := 49152; acepta := fun _ i => (2 <=? i)%nat;
  responde := fun i => if (i =? 2)%nat then enviar_ok SEGMENTATION_FAULT else enviar_ok HANDSHAKE_SCHEDULER_A_MEMORY;
  crea_hilo := fun _ => true }.

(** The three standard descriptors and [n] free ones; [ps] waiting. *)
Definition proceso_con (n : nat) (ps : list (option Z)) : so :=
  So (replicate 3 (Some Abierto) ++ replicate n None) [8002] 0 0 ps [] [] 0 0.

Lemma esperar_conexion_conecta_witness :
  (exists s', esperar_conexion 5 [] [] (proceso_con 3 []) = Some (Some 5, s') /\ que_es 5 s' = Some (Conectado dir_ejemplo)) /\
  (exists s', esperar_conexion 1000 [] [] (proceso_con 2 []) = Some (None, s')).
Proof.
  split.
  - destruct (esperar_conexion_conecta (red := red_ejemplo) [] [] dir_ejemplo (proceso_con 3 []) eq_refl) as [H _].
    destruct (H 2%nat 5%nat) as (fd & s' & E & _ & Hq & _); [vm_compute; lia|reflexivity| |lia|].
    + intros [|[|j]] Hj; [reflexivity..|lia].
    + assert (Hfd : fd = 5) by (vm_compute in E; congruence). subst fd. exists s'. split; [exact E|exact Hq].
  - destruct (esperar_conexion_conecta (red := red_ejemplo) [] [] dir_ejemplo (proceso_con 2 []) eq_refl) as [_ H].
    apply H. intros [|[|j]] Hj; [reflexivity..|vm_compute in Hj; lia].
Defined.

Lemma scheduler_conecta_con_memoria_witness :
  exists r s', conectar_a_kernel_memory 4 [] [] (proceso_con 3 []) = Some (r, s') /\ is_Some r.
Proof.
  destruct (scheduler_conecta_con_memoria (red := red_ejemplo) [] [] dir_ejemplo 4 (proceso_con 3 []) eq_refl) as (r & s' & E & Hr & _).
  - intros i _. cbn [responde red_ejemplo]. destruct (i =? 2)%nat; vm_compute; congruence.
  - exists r, s'. split; [exact E|]. apply Hr. reflexivity.
Defined.

Lemma iniciar_servidor_segun_puerto_witness :
  exists fd s', iniciar_servidor [] (proceso_con 1 []) = Some (fd, s') /\ que_es fd s' = Some (Escucha 49152).
Proof.
  destruct (iniciar_servidor_segun_puerto (red := red_ejemplo) [] 2130706433 8002 (proceso_con 1 []) eq_refl) as [_ H].
  destruct H as (fd & s' & E & _ & Hq & _); [vm_compute; lia|]. exists fd, s'. split; [exact E|exact Hq].
Defined.

(** The socket 3 listens; a client, an error, another client. *)
Lemma listeners_y_errores_witness :
  let s := poner_descriptor 3 (Some (Escucha 8002)) (proceso_con 4 [Some 70; None; Some 80]) in
  (exists s', memory_listener_thread 9 3 s = Some (Terminado, s') /\ pendientes s' = [Some 80]) /\
  (exists s', memory_stick_listener_thread 9 3 s = Some (EnEspera, s') /\ pendientes s' = []).
Proof.
  cbv zeta.
  destruct (listeners_y_errores 3 8002 (poner_descriptor 3 (Some (Escucha 8002)) (proceso_con 4 [Some 70; None; Some 80]))
    [70] true [Some 80]) as [(fds & s1 & E1 & _ & _ & H1) (fds' & s2 & E2 & _ & _ & H2)];
    [reflexivity|reflexivity|reflexivity|vm_compute; lia|].
  split; [exists s1|exists s2]; (split; [|done]); [apply E1|apply E2]; cbn; lia.
Defined.
