(* ===== verification/Arranque.v ===== *)
(** * Arranque: the start of the modules that listen

    Models [memory_stick/src/main.c] with the start of its server and its
    announcement to Kernel Memory ([utils_memory_stick.c]), and the servers that
    Kernel Memory and the Scheduler start ([memory_servidor.c],
    [scheduler_conexiones.c]), over the operating system of [Sockets]. *)

From S2P Require Import Prelude Bloques Wire Texto Tipos Mensajes Stick Configs Sockets.

(** ** Servers *)

Section arranque.
Context {red : Entorno}.

(** The value left in [server_socket]. *)
Definition iniciar_servidor_memory_stick (puerto : list byte) : O_ Z :=
  server_socket ← iniciar_servidor puerto;
  if server_socket =? -1 then mret (-1)
  else
    creado ← pthread_create server_socket;
    if negb creado then _ ← close_ server_socket; mret (-1) else mret server_socket.

(** [None] is [exit(EXIT_FAILURE)]. *)
Definition iniciar_servidor_memory (puerto : list byte) : O_ (option Z) :=
  server_socket ← iniciar_servidor puerto;
  if server_socket =? -1 then mret None
  else _ ← spawn_detached server_socket; mret (Some server_socket).

Definition iniciar_servidor_scheduler (puerto : list byte) : O_ (option Z) :=
  server_socket ← iniciar_servidor puerto;
  if server_socket =? -1 then mret None
  else _ ← spawn_detached server_socket; mret (Some server_socket).

(** ** The stick *)

Definition stick_conectar_a_kernel_memory (ip puerto : list byte) (memory_size : Z) (ip_propia puerto_propio : list byte) : O_ Z :=
  memory_socket ← crear_conexion ip puerto;
  if memory_socket =? -1 then mret (-1)
  else _ ← enviar_so memory_socket (enviar_handshake_memory_stick memory_size (con_nul ip_propia) (con_nul puerto_propio)); mret memory_socket.

(** [main] ends with a code, or goes on for ever with its buffer, its server and
    its connection to Memory. *)
Inductive fin_main := Sale (codigo : Z) | Activo (st : stick) (server_socket memory_socket : Z).
Definition EXIT_FAILURE : Z := 1.

(** [config]: what the loader gave; [arg]: [argv[2]]; [logger], [memoria]: whether
    [log_create] and [calloc] succeed. *)
Definition stick_main (config : option t_config_memory_stick) (arg : option (list byte)) (logger memoria : bool) : O_ fin_main :=
  match config with
  | None => mret (Sale EXIT_FAILURE)
  | Some c =>
      let memory_size := match arg with Some a => u32 (atoi a) | None => memory_size c end in
      if negb logger then mret (Sale EXIT_FAILURE)
      else if negb memoria then mret (Sale EXIT_FAILURE)
      else
        let st := inicializar_memoria_stick memory_size in
        server_socket ← iniciar_servidor_memory_stick (puerto_propio c);
        memory_socket ← stick_conectar_a_kernel_memory (kernel_memory_ip c) (kernel_memory_port c) memory_size
                          (ip_propia c) (puerto_propio c);
        if memory_socket =? -1 then mret (Sale EXIT_FAILURE) else mret (Activo st server_socket memory_socket)
  end.
End arranque.

(** ** What a stick announces *)

(** The server after the start: closed if its thread was not created, on another
    port if its own was taken. *)
Definition servidor_de (creado ocupado : bool) (efimero p : Z) : option descriptor :=
  if creado then Some (Escucha (if ocupado then efimero else p)) else None.

Lemma iniciar_stick_ok `{red : Entorno} puerto a p s :
  resolver None puerto = Some (a, p) -> (0 < sin_abrir s)%nat ->
  exists sv s', iniciar_servidor_memory_stick puerto s = Some (sv, s') /\
    que_es sv s' = servidor_de (crea_hilo (hilos s)) (bool_decide (p ∈ puertos_ajenos s)) efimero p /\
    (sin_abrir s <= S (sin_abrir s'))%nat /\ intentos s' = intentos s /\ enviado s' = enviado s /\
    (crea_hilo (hilos s) = false -> sv = -1).
Proof.
  intros Hr Hl. destruct (iniciar_servidor_ok puerto a p s Hr Hl) as (fd & s1 & E & Hfd & Hq & Ht & _ & Hh & Hs).
  unfold iniciar_servidor_memory_stick. rewrite (st_bind_ok _ _ _ _ _ E). destruct (Z.eqb_spec fd (-1)); [lia|].
  unfold pthread_create. st_unfold. change (hilos s1) with (hilos s1). rewrite Hh.
  pose proof (ti_libres _ _ _ _ _ Ht) as H1. pose proof (ti_intentos _ _ _ _ _ Ht) as H2.
  destruct (crea_hilo (hilos s)); cbn [negb servidor_de].
  - eexists fd, _. split; [done|]. split; [exact Hq|].
    unfold sin_abrir in *. cbn in *. split; [lia|]. split; [lia|done].
  - set (s2 := sumar_hilo s1). destruct (close_abierto fd _ s2 Hfd Hq) as (s3 & E3 & Hl3 & Hi3 & _).
    exists (-1), s3. fold s2. rewrite E3. split; [done|]. split; [done|]. split; [|split; [|split; [|done]]].
    + rewrite Hl3. change (sin_abrir s2) with (sin_abrir s1). lia.
    + rewrite Hi3. cbn in *. lia.
    + unfold close_ in E3. injection E3 as <-. cbn. unfold st_mod. by destruct (que_es fd s2).
Qed.

(** a stick announces its port to Kernel Memory, and goes on, whatever became
    of its own server: with the port free and its thread created it listens there;
    with the port taken it listens on another one, so that Memory and the CPUs
    that dial what was announced reach the other program; without its thread
    nobody listens. *)
Theorem stick_se_anuncia_igual `{red : Entorno} c arg s a p dir :
  resolver None (puerto_propio c) = Some (a, p) ->
  resolver (Some (kernel_memory_ip c)) (kernel_memory_port c) = Some dir ->
  (2 <= sin_abrir s)%nat -> acepta dir (intentos s) = true ->
  let tam := match arg with Some a => u32 (atoi a) | None => memory_size c end in
  exists sv ms s', stick_main (Some c) arg true true s = Some (Activo (inicializar_memoria_stick tam) sv ms, s') /\
    que_es ms s' = Some (Conectado dir) /\
    enviado s' = enviado s ++ [(ms, enviar_handshake_memory_stick tam (con_nul (ip_propia c)) (con_nul (puerto_propio c)))] /\
    que_es sv s' = servidor_de (crea_hilo (hilos s)) (bool_decide (p ∈ puertos_ajenos s)) efimero p.
Proof.
  intros Hr Hd Hl Ha tam.
  destruct (iniciar_stick_ok (puerto_propio c) a p s Hr) as (sv & s1 & E1 & Hsv & Hl1 & Hi1 & Hs1 & Hno1); [lia|].
  destruct (crear_conexion_aceptada (kernel_memory_ip c) (kernel_memory_port c) dir Hd s1)
    as (ms & s2 & E2 & Hms & Hno & Hq & Ht & Hs2); [lia|by rewrite Hi1|].
  eexists sv, ms, _. split; [|split; [|split]].
  - unfold stick_main. cbn [negb]. fold tam. rewrite (st_bind_ok _ _ _ _ _ E1).
    unfold stick_conectar_a_kernel_memory. st_unfold. rewrite E2. destruct (Z.eqb_spec ms (-1)) as [|Hne]; [lia|].
    unfold enviar_so. st_unfold. destruct (Z.eqb_spec ms (-1)); [lia|]. reflexivity.
  - exact Hq.
  - cbn. by rewrite Hs2, Hs1.
  - change (que_es sv (con_enviado ?x ?y)) with (que_es sv y).
    destruct (crea_hilo (hilos s)) eqn:Eh; cbn [servidor_de] in *; [by apply Ht|].
    by rewrite (Hno1 eq_refl).
Qed.

(** ** Witness: the port of the stick is taken *)

Definition config_stick_ejemplo : t_config_memory_stick := ConfigStick [] [] [] [] [] 64 0.

Definition red_lista : Entorno := {|
  resolver := fun _ _ => Some dir_ejemplo; efimero := 49152; acepta := fun _ _ => true;
  responde := fun _ => []; crea_hilo := fun _ => true |}.

Lemma stick_se_anuncia_igual_witness :
  exists sv ms s', stick_main (red := red_lista) (Some config_stick_ejemplo) None true true (proceso_con 5 []) =
      Some (Activo (inicializar_memoria_stick 64) sv ms, s') /\
    que_es sv s' = Some (Escucha 49152).
Proof.
  destruct (stick_se_anuncia_igual (red := red_lista) config_stick_ejemplo None (proceso_con 5 []) 2130706433 8002 dir_ejemplo)
    as (sv & ms & s' & E & _ & _ & Hq); [reflexivity..|vm_compute; lia|reflexivity|].
  exists sv, ms, s'. split; [exact E|exact Hq].
Defined.
