(* ===== verification/SchedInv.v ===== *)
(** * SchedInv: the invariant of the Scheduler

    Where a process is, and what its state says: every live process is in exactly
    one place (a queue, a CPU, the list of the suspended, or the hands of the
    handler that runs), and its [estado] is that of the place. The rules to reason
    on handlers, and what the sockets, the semaphores and the timers leave alone. *)

From S2P Require Import Prelude Wire Tipos Mensajes Texto SchedTipos SchedColas SchedMutex SchedMemoria SchedIO SchedCpu SchedPlan.

(** ** Reasoning on handlers

    [cumple m Q k]: [m], run from [k], has a defined behaviour, and [Q] holds of
    its result and state if it goes on. *)
Definition cumple {A} (m : K A) (Q : A -> kernel -> Prop) (k : kernel) : Prop :=
  match m k with
  | Sigue a k' => Q a k'
  | Indefinido => False
  | Bloqueado | Trabado _ | Terminado _ | Abortado => True
  end.

Lemma cumple_mono {A} (m : K A) (Q R : A -> kernel -> Prop) k :
  cumple m Q k -> (forall a k', Q a k' -> R a k') -> cumple m R k.
Proof. unfold cumple. destruct (m k); auto. Qed.

Lemma cumple_bind {A B} (m : K A) (f : A -> K B) Q k :
  cumple m (fun a k' => cumple (f a) Q k') k -> cumple (m ≫= f) Q k.
Proof. unfold cumple, mbind, K_bind. by destruct (m k). Qed.

Lemma cumple_ret {A} (a : A) (Q : A -> kernel -> Prop) k : Q a k -> cumple (mret a) Q k.
Proof. done. Qed.
Lemma cumple_get (Q : kernel -> kernel -> Prop) k : Q k k -> cumple k_get Q k.
Proof. done. Qed.
Lemma cumple_gets {A} (f : kernel -> A) (Q : A -> kernel -> Prop) k : Q (f k) k -> cumple (k_gets f) Q k.
Proof. done. Qed.
Lemma cumple_mod f (Q : unit -> kernel -> Prop) k : Q tt (f k) -> cumple (k_mod f) Q k.
Proof. done. Qed.
Lemma cumple_bloqueado {A} (Q : A -> kernel -> Prop) k : cumple k_bloqueado Q k.
Proof. done. Qed.

Lemma cumple_leer p b (Q : t_pcb -> kernel -> Prop) k :
  k_pcbs k !! p = Some b -> Q b k -> cumple (leer p) Q k.
Proof. unfold cumple, leer. by intros ->. Qed.
Lemma cumple_modificar p b f (Q : unit -> kernel -> Prop) k :
  k_pcbs k !! p = Some b -> Q tt (con_k_pcbs (<[p := f b]> (k_pcbs k)) k) -> cumple (modificar p f) Q k.
Proof. intros H HQ. eapply cumple_bind, cumple_leer; [done|]. by apply cumple_mod. Qed.
Lemma cumple_liberar p b (Q : unit -> kernel -> Prop) k :
  k_pcbs k !! p = Some b -> Q tt (con_k_pcbs (delete p (k_pcbs k)) k) -> cumple (liberar_pcb p) Q k.
Proof. intros H HQ. eapply cumple_bind, cumple_leer; [done|]. by apply cumple_mod. Qed.
Lemma cumple_leer_mutex i m (Q : t_mutex_sistema -> kernel -> Prop) k :
  lista_mutexes k !! i = Some m -> Q m k -> cumple (leer_mutex i) Q k.
Proof. unfold cumple, leer_mutex. by intros ->. Qed.
Lemma cumple_modificar_mutex i m f (Q : unit -> kernel -> Prop) k :
  lista_mutexes k !! i = Some m -> Q tt (con_lista_mutexes (alter f i (lista_mutexes k)) k) ->
  cumple (modificar_mutex i f) Q k.
Proof. intros H HQ. eapply cumple_bind, cumple_leer_mutex; [done|]. by apply cumple_mod. Qed.
Lemma cumple_lock (Q : unit -> kernel -> Prop) k :
  Q tt (con_mutex_lista_tomado true k) -> cumple lock_lista_mutexes Q k.
Proof. unfold cumple, lock_lista_mutexes. by destruct (mutex_lista_tomado k). Qed.

(** Apply the rule of the first step. *)
Ltac paso :=
  lazymatch goal with
  | |- cumple (_ ≫= _) _ _ => apply cumple_bind
  | |- cumple (mret _) _ _ => apply cumple_ret
  | |- cumple k_get _ _ => apply cumple_get
  | |- cumple (k_gets _) _ _ => apply cumple_gets
  | |- cumple (k_mod _) _ _ => apply cumple_mod
  | |- cumple k_bloqueado _ _ => apply cumple_bloqueado
  | |- cumple lock_lista_mutexes _ _ => apply cumple_lock
  | |- cumple unlock_lista_mutexes _ _ => apply cumple_mod
  | |- cumple (leer _) _ _ => eapply cumple_leer; [eassumption|]
  | |- cumple (modificar _ _) _ _ => eapply cumple_modificar; [eassumption|]
  | |- cumple (leer_mutex _) _ _ => eapply cumple_leer_mutex; [eassumption|]
  | |- cumple (modificar_mutex _ _) _ _ => eapply cumple_modificar_mutex; [eassumption|]
  end.
Ltac pasos := repeat (paso; cbv beta).

(** ** Places *)

Definition en (k : kernel) (P : t_pcb -> Prop) (p : Z) : Prop := exists b, k_pcbs k !! p = Some b /\ P b.

Definition en_ready (k : kernel) : list Z :=
  default [] (cola_procesos_ready k) ++ mjoin (default [] <$> colas_ready_por_prioridad k).
Definition en_cpus (k : kernel) : list Z := omap proceso_actual (k_cpus k).
Definition en_mutexes (k : kernel) : list Z := lista_mutexes k ≫= cola_bloqueados.
Definition en_new (k : kernel) : list Z := default [] (cola_procesos_new k).

(** [sr] are the processes in SUSP_READY, [M] those the handler has taken. *)
Definition lugares (sr M : list Z) (k : kernel) : list Z :=
  en_new k ++ en_ready k ++ en_cpus k ++ cola_procesos_block k ++ en_mutexes k ++ sr ++ M.

Definition pedidos (io : t_interfaz_io) : list Z :=
  (r_proceso <$> io_cola io) ++ option_list (r_proceso <$> io_en_curso io).

Definition colas_ok (colas : list (option (list Z))) (niveles : Z) : Prop :=
  0 <= niveles <= 10 /\ length colas = MAX_PRIORITY_LEVELS /\
  forall i q, colas !! i = Some q -> is_Some q <-> Z.of_nat i < niveles.

Definition en_nivel (niveles x : Z) : Prop := niveles > 0 -> 0 <= x < niveles.

(** The owner of a mutex is live, and has run. *)
Definition duenio_ok (k : kernel) (m : t_mutex_sistema) : Prop :=
  asignado_a_pid m = -1 \/ en k (fun b => estado b <> NEW) (asignado_a_pid m).

Record Inv (sr M : list Z) (k : kernel) : Prop := {
  i_perm : lugares sr M k ≡ₚ todos_los_procesos k;
  i_nodup : NoDup (todos_los_procesos k);
  i_vivos : forall p, p ∈ todos_los_procesos k <-> is_Some (k_pcbs k !! p);
  i_contador : 0 <= contador_pids k;
  i_pids : Forall (fun p => 0 <= p < contador_pids k) (todos_los_procesos k);
  i_new : Forall (en k (fun b => estado b = NEW)) (en_new k);
  i_ready : Forall (en k (fun b => estado b = READY)) (en_ready k);
  i_exec : Forall (en k (fun b => estado b = EXEC)) (en_cpus k);
  i_block : Forall (en k (fun b => estado b = BLOCK \/ estado b = SUSP_BLOCK)) (cola_procesos_block k);
  i_mutex : forall i m, lista_mutexes k !! i = Some m ->
    Forall (en k (fun b => estado b = BLOCK /\ mutex_esperando b = Some i)) (cola_bloqueados m);
  i_sr : Forall (en k (fun b => estado b = SUSP_READY /\ suspendido_en_swap b = true)) sr;
  i_susp_nodup : NoDup (lista_suspendidos k).*1;
  i_susp : forall p, p ∈ (lista_suspendidos k).*1 <->
    p ∈ sr \/ (p ∈ cola_procesos_block k /\ en k (fun b => estado b = SUSP_BLOCK) p);
  i_libre : Forall (fun m => asignado_a_pid m = -1 -> cola_bloqueados m = []) (lista_mutexes k);
  i_duenio : Forall (duenio_ok k) (lista_mutexes k);
  i_espera : forall p b i, k_pcbs k !! p = Some b -> mutex_esperando b = Some i ->
    exists m, lista_mutexes k !! i = Some m /\ p ∈ cola_bloqueados m;
  i_colas : colas_ok (colas_ready_por_prioridad k) (cantidad_niveles_prioridad k) /\
    is_Some (cola_procesos_new k) /\ is_Some (cola_procesos_ready k);
  i_prio : forall p b, k_pcbs k !! p = Some b -> estado b <> NEW ->
    en_nivel (cantidad_niveles_prioridad k) (prioridad b) /\
    en_nivel (cantidad_niveles_prioridad k) (prioridad_dinamica b);
  i_cpus : Forall (fun c => 0 < q_cpu_id c /\ (disponible c = true -> proceso_actual c = None)) (k_cpus k);
  i_pedidos : NoDup (tabla_ios k ≫= pedidos) /\ Forall (.∈ cola_procesos_block k) (tabla_ios k ≫= pedidos);
  i_curso_nodup : NoDup (suspensiones_en_curso k);
  i_curso : forall p, p ∈ suspensiones_en_curso k <-> p ∈ cola_procesos_block k /\
    en k (fun b => estado b = SUSP_BLOCK /\ suspendido_en_swap b = false) p }.

Definition inv (M : list Z) (k : kernel) : Prop := exists sr, Inv sr M k.

(** ** What the invariant does not see *)

Definition nucleo (k : kernel) :=
  (k_config k, k_pcbs k, todos_los_procesos k, contador_pids k, lista_mutexes k,
   (cola_procesos_new k, cola_procesos_ready k, colas_ready_por_prioridad k, cantidad_niveles_prioridad k),
   (k_cpus k, tabla_ios k, cola_procesos_block k, lista_suspendidos k, suspensiones_en_curso k)).

(** The same places, states and tables: only sockets, semaphores, timers, flags
    and the clock may differ. *)
Definition misma (k k' : kernel) : Prop := nucleo k' = nucleo k.

#[export] Instance misma_equiv : Equivalence misma.
Proof. split; red; unfold misma; congruence. Qed.

Lemma Inv_misma sr M k k' : misma k k' -> Inv sr M k -> Inv sr M k'.
Proof.
  unfold misma, nucleo. intros [= Hcf H1 H2 H3 H4 H5 H6 H7 H8 H9 H10 H11 H12 H13] [].
  constructor; unfold lugares, en_new, en_ready, en_cpus, en_mutexes, duenio_ok, en in *;
    rewrite ?H1, ?H2, ?H3, ?H4, ?H5, ?H6, ?H7, ?H8, ?H9, ?H10, ?H11, ?H12, ?H13; done.
Qed.

Lemma inv_misma M k k' : misma k k' -> inv M k -> inv M k'.
Proof. intros H [sr Hi]. exists sr. by eapply Inv_misma. Qed.

Lemma misma_leer k k' p b : misma k k' -> k_pcbs k !! p = Some b -> k_pcbs k' !! p = Some b.
Proof. unfold misma, nucleo. intros [=]. congruence. Qed.

(** A handler that leaves the core alone, whatever it returns. *)
Definition no_toca {A} (m : K A) : Prop := forall k, match m k with Sigue _ k' => misma k k' | Indefinido => False | _ => True end.

Lemma cumple_no_toca {A} (m : K A) (Q : A -> kernel -> Prop) k :
  no_toca m -> (forall a k', misma k k' -> Q a k') -> cumple m Q k.
Proof. intros Hm HQ. specialize (Hm k). unfold cumple. destruct (m k); auto. Qed.

Lemma no_toca_enviar s bs : no_toca (k_enviar s bs).
Proof. intros k. cbn. by destruct (s =? -1). Qed.
Lemma no_toca_recibir {A} s (r : lector A) : no_toca (k_recibir s r).
Proof. intros k. unfold k_recibir. by destruct (r _) as [[]|]. Qed.
Lemma no_toca_codigo s : no_toca (k_codigo s).
Proof. apply no_toca_recibir. Qed.
Lemma no_toca_mod f : (forall k, misma k (f k)) -> no_toca (k_mod f).
Proof. intros Hf k. apply Hf. Qed.
Lemma no_toca_bind {A B} (m : K A) (f : A -> K B) : no_toca m -> (forall a, no_toca (f a)) -> no_toca (m ≫= f).
Proof.
  intros Hm Hf k. specialize (Hm k). unfold mbind, K_bind.
  destruct (m k) as [a k'| | | | |]; try done. specialize (Hf a k').
  destruct (f a k'); try done. by etrans.
Qed.
Lemma no_toca_ret {A} (a : A) : no_toca (mret a).
Proof. by intros k. Qed.
Lemma no_toca_gets {A} (f : kernel -> A) : no_toca (k_gets f).
Proof. by intros k. Qed.
Lemma no_toca_get : no_toca k_get.
Proof. by intros k. Qed.

(** Waiting on a semaphore changes the semaphore. *)
Lemma no_toca_wait_new : no_toca wait_sem_new.
Proof. intros k. unfold wait_sem_new. by destruct (sem_new k). Qed.
Lemma no_toca_wait_ready : no_toca wait_sem_ready.
Proof. intros k. unfold wait_sem_ready. by destruct (sem_ready k). Qed.
Lemma no_toca_wait_cpu : no_toca wait_sem_cpu.
Proof. intros k. unfold wait_sem_cpu. by destruct (sem_cpu_disponible k). Qed.
Lemma no_toca_wait_reevaluar : no_toca wait_sem_reevaluar.
Proof. intros k. unfold wait_sem_reevaluar. by destruct (sem_reevaluar_suspendidos k). Qed.
Lemma no_toca_bloqueado {A} : no_toca (@k_bloqueado A).
Proof. by intros k. Qed.

Create HintDb no_toca.
#[export] Hint Resolve no_toca_enviar no_toca_recibir no_toca_codigo no_toca_ret no_toca_gets no_toca_get
  no_toca_wait_new no_toca_wait_ready no_toca_wait_cpu no_toca_wait_reevaluar no_toca_bloqueado : no_toca.

Lemma no_toca_post_ready : no_toca post_sem_ready.
Proof. by apply no_toca_mod. Qed.
Lemma no_toca_post_new : no_toca post_sem_new.
Proof. by apply no_toca_mod. Qed.
Lemma no_toca_post_cpu : no_toca post_sem_cpu.
Proof. by apply no_toca_mod. Qed.
Lemma no_toca_reevaluar : no_toca notificar_reevaluar_suspendidos.
Proof. by apply no_toca_mod. Qed.
Lemma no_toca_en_block p e : no_toca (notificar_proceso_en_block p e).
Proof.
  apply no_toca_bind; [apply no_toca_gets|]. intros [c|]; [|apply no_toca_ret].
  destruct (_ <=? 0); [apply no_toca_ret|by apply no_toca_mod].
Qed.
#[export] Hint Resolve no_toca_post_ready no_toca_post_new no_toca_post_cpu no_toca_reevaluar no_toca_en_block : no_toca.

(** ** Reading the invariant *)

Lemma Inv_lugar sr M k p : Inv sr M k -> p ∈ lugares sr M k -> exists b, k_pcbs k !! p = Some b.
Proof. intros H Hp. apply (i_vivos _ _ _ H). by rewrite <-(i_perm _ _ _ H). Qed.

Lemma Inv_nodup sr M k : Inv sr M k -> NoDup (lugares sr M k).
Proof. intros H. rewrite (i_perm _ _ _ H). apply (i_nodup _ _ _ H). Qed.

(** Two different places share no process. *)
Lemma lugares_dec sr M k p : p ∈ lugares sr M k <->
  p ∈ en_new k \/ p ∈ en_ready k \/ p ∈ en_cpus k \/ p ∈ cola_procesos_block k \/ p ∈ en_mutexes k \/ p ∈ sr \/ p ∈ M.
Proof. unfold lugares. rewrite !elem_of_app. tauto. Qed.

(** Counting occurrences turns permutations into arithmetic. *)
Definition cuenta (x : Z) (l : list Z) : nat := count_occ Z.eq_dec l x.

Lemma cuenta_app x l1 l2 : cuenta x (l1 ++ l2) = (cuenta x l1 + cuenta x l2)%nat.
Proof. apply count_occ_app. Qed.
Lemma cuenta_cons x y l : cuenta x (y :: l) = (cuenta x [y] + cuenta x l)%nat.
Proof. exact (cuenta_app x [y] l). Qed.
Lemma cuenta_nil x : cuenta x [] = 0%nat.
Proof. done. Qed.
Lemma perm_cuenta l1 l2 : (forall x, cuenta x l1 = cuenta x l2) <-> l1 ≡ₚ l2.
Proof.
  split; [intros H|intros H x]; [|by apply Permutation_count_occ].
  apply (Permutation_count_occ Z.eq_dec). exact H.
Qed.

Ltac cuentas := rewrite ?cuenta_app, ?cuenta_nil in *; repeat match goal with
  | |- context [cuenta ?x (?y :: ?l)] => lazymatch l with nil => fail | _ => rewrite (cuenta_cons x y l) end
  | H : context [cuenta ?x (?y :: ?l)] |- _ => lazymatch l with nil => fail | _ => rewrite (cuenta_cons x y l) in H end
  end; rewrite ?cuenta_app, ?cuenta_nil in *.

(** Prove a permutation from others, by counting. *)
Ltac perm :=
  let x := fresh "x" in
  apply perm_cuenta; intros x;
  repeat match goal with
  | H : _ ≡ₚ _ |- _ => let H' := fresh in pose proof (proj2 (perm_cuenta _ _) H x) as H'; clear H
  end; cuentas; lia.
