(* ===== verification/SchedInvOps.v ===== *)
(** * SchedInvOps: moves of one process

    What each elementary step of the handlers does to the invariant: a PCB is
    written, or a process goes from one place to another. *)

From S2P Require Import Prelude Wire Tipos Mensajes Texto SchedTipos SchedColas SchedMutex SchedMemoria SchedIO SchedCpu SchedPlan SchedInv.

(** ** Writing a PCB *)

Lemma en_otro k p b P l :
  p ∉ l -> Forall (en k P) l -> Forall (en (con_k_pcbs (<[p := b]> (k_pcbs k)) k) P) l.
Proof.
  intros Hp H. rewrite Forall_forall in *. intros q Hq. destruct (H q Hq) as (c & Hc & HP).
  exists c. split; [|done]. cbn. rewrite lookup_insert_ne; [done|]. by intros ->.
Qed.

(** What the invariant reads of a PCB, priorities apart. *)
Definition misma_situacion (b b' : t_pcb) : Prop :=
  estado b' = estado b /\ mutex_esperando b' = mutex_esperando b /\ suspendido_en_swap b' = suspendido_en_swap b.

Lemma en_igual k p b b' P q :
  k_pcbs k !! p = Some b -> (P b <-> P b') ->
  en (con_k_pcbs (<[p := b']> (k_pcbs k)) k) P q <-> en k P q.
Proof.
  intros Hb HP. unfold en. cbn. destruct (decide (q = p)) as [->|Hne].
  - rewrite lookup_insert, decide_True by done. split.
    + intros (c & [= <-] & Hc). exists b. tauto.
    + intros (c & Hc & HPc). exists b'. simplify_eq. tauto.
  - by rewrite lookup_insert_ne.
Qed.

Lemma Forall_en_igual k p b b' P l :
  k_pcbs k !! p = Some b -> (P b <-> P b') ->
  Forall (en k P) l -> Forall (en (con_k_pcbs (<[p := b']> (k_pcbs k)) k) P) l.
Proof. intros Hb HP H. eapply Forall_impl; [done|]. intros q Hq. by eapply en_igual. Qed.

Definition prio_ok (k : kernel) (b : t_pcb) : Prop :=
  en_nivel (cantidad_niveles_prioridad k) (prioridad b) /\
  en_nivel (cantidad_niveles_prioridad k) (prioridad_dinamica b).

Lemma vivos_insert k p b b' :
  k_pcbs k !! p = Some b ->
  (forall q, q ∈ todos_los_procesos k <-> is_Some (k_pcbs k !! q)) ->
  (forall q, q ∈ todos_los_procesos k <-> is_Some (<[p := b']> (k_pcbs k) !! q)).
Proof.
  intros Hb H q. rewrite H. destruct (decide (q = p)) as [->|Hne].
  - rewrite lookup_insert, Hb, decide_True by done. split; eauto.
  - by rewrite lookup_insert_ne.
Qed.

Lemma prio_insert k p b' :
  (estado b' <> NEW -> prio_ok k b') ->
  (forall q b, k_pcbs k !! q = Some b -> estado b <> NEW -> prio_ok k b) ->
  (forall q b, <[p := b']> (k_pcbs k) !! q = Some b -> estado b <> NEW -> prio_ok k b).
Proof.
  intros Hb H q b. destruct (decide (q = p)) as [->|Hne].
  - rewrite lookup_insert, decide_True by done. by intros [= <-].
  - rewrite lookup_insert_ne by done. apply H.
Qed.

Lemma duenio_insert k p b b' ms :
  k_pcbs k !! p = Some b -> (estado b <> NEW -> estado b' <> NEW) -> Forall (duenio_ok k) ms ->
  Forall (duenio_ok (con_k_pcbs (<[p := b']> (k_pcbs k)) k)) ms.
Proof.
  intros Hb He H. eapply Forall_impl; [exact H|]. intros m [?|(c & Hc & Hn)]; [by left|right].
  unfold en. cbn. destruct (decide (asignado_a_pid m = p)) as [E|Hne].
  - rewrite E in Hc |- *. rewrite lookup_insert, decide_True by done. exists b'. split; [done|]. apply He. congruence.
  - rewrite lookup_insert_ne by done. eauto.
Qed.

(** Any PCB, when its situation does not change. *)
Lemma Inv_pcb_igual sr M k p b b' :
  Inv sr M k -> k_pcbs k !! p = Some b -> misma_situacion b b' ->
  (estado b' <> NEW -> prio_ok k b') ->
  Inv sr M (con_k_pcbs (<[p := b']> (k_pcbs k)) k).
Proof.
  intros [] Hb (He & Hm & Hs) Hpr.
  constructor; try done;
    try (eapply Forall_en_igual; [done|cbn; rewrite ?He, ?Hm, ?Hs; tauto|done]).
  - exact (vivos_insert k p b _ Hb i_vivos).
  - intros i m Hi. eapply Forall_en_igual; [done|cbn; rewrite He, Hm; tauto|by apply i_mutex].
  - intros q. cbn. rewrite i_susp, (en_igual k p b b') by (rewrite ?He; done). tauto.
  - exact (duenio_insert k p b b' _ Hb ltac:(by rewrite He) i_duenio).
  - intros q c i. cbn. destruct (decide (q = p)) as [->|Hne].
    + rewrite lookup_insert, decide_True by done. intros [= <-]. rewrite Hm. by apply i_espera.
    + rewrite lookup_insert_ne by done. apply i_espera.
  - exact (prio_insert k p b' Hpr i_prio).
  - intros q. cbn. rewrite i_curso, (en_igual k p b b') by (rewrite ?He, ?Hs; done). tauto.
Qed.

(** Where a process in the hands of a handler is not. *)
Lemma tomado_fuera sr M k p :
  Inv sr (p :: M) k ->
  p ∉ en_new k /\ p ∉ en_ready k /\ p ∉ en_cpus k /\ p ∉ cola_procesos_block k /\ p ∉ en_mutexes k /\ p ∉ sr /\ p ∉ M.
Proof.
  intros H. pose proof (Inv_nodup _ _ _ H) as Hn. unfold lugares in Hn.
  rewrite !NoDup_app in Hn. destruct Hn as (_ & A1 & _ & A2 & _ & A3 & _ & A4 & _ & A5 & _ & A6 & HM).
  assert (Hp : p ∈ p :: M) by left. rewrite NoDup_cons in HM.
  split_and!; try (by apply HM); intros Hq;
    [apply (A1 p)|apply (A2 p)|apply (A3 p)|apply (A4 p)|apply (A5 p)|apply (A6 p)]; rewrite ?elem_of_app; tauto.
Qed.

Lemma en_mutexes_lookup k i m p : lista_mutexes k !! i = Some m -> p ∈ cola_bloqueados m -> p ∈ en_mutexes k.
Proof. intros Hi Hp. unfold en_mutexes. apply list_elem_of_bind. eauto using list_elem_of_lookup_2. Qed.

Lemma tomado_sin_mutex sr M k p b :
  Inv sr (p :: M) k -> k_pcbs k !! p = Some b -> mutex_esperando b = None.
Proof.
  intros H Hb. destruct (mutex_esperando b) as [i|] eqn:Hm; [|done].
  destruct (i_espera _ _ _ H _ _ _ Hb Hm) as (m & Hi & Hp).
  pose proof (tomado_fuera _ _ _ _ H) as Hf. pose proof (en_mutexes_lookup _ _ _ _ Hi Hp). tauto.
Qed.

Lemma tomado_vivo sr M k p : Inv sr (p :: M) k -> exists b, k_pcbs k !! p = Some b.
Proof. intros H. eapply Inv_lugar; [done|]. apply lugares_dec. do 6 right. left. Qed.

Lemma tomado_no_susp sr M k p : Inv sr (p :: M) k -> p ∉ (lista_suspendidos k).*1.
Proof. intros H. pose proof (tomado_fuera _ _ _ _ H). rewrite (i_susp _ _ _ H). tauto. Qed.

(** The PCB of a process the handler has taken. *)
Lemma Inv_pcb_tomado sr M k p b b' :
  Inv sr (p :: M) k -> k_pcbs k !! p = Some b -> mutex_esperando b' = None -> (estado b' <> NEW -> prio_ok k b') ->
  (estado b <> NEW -> estado b' <> NEW) ->
  Inv sr (p :: M) (con_k_pcbs (<[p := b']> (k_pcbs k)) k).
Proof.
  intros H Hb Hm Hpr Hnn. pose proof (tomado_fuera _ _ _ _ H) as (?&?&?&?&Hmu&?&?).
  destruct H. constructor; try done; try (by apply en_otro).
  - exact (vivos_insert k p b _ Hb i_vivos).
  - intros i m Hi. apply en_otro; [|by apply i_mutex].
    intros Hp. by apply Hmu, (en_mutexes_lookup k i m).
  - intros q. cbn. rewrite i_susp. split; (intros [?|[Hq Hen]]; [by left|right; split; [done|]]).
    + eapply Forall_forall; [apply (en_otro k p b' _ [q])|set_solver]; [set_solver|by constructor].
    + destruct Hen as (c & Hc & HP). exists c. cbn in Hc. rewrite lookup_insert_ne in Hc by set_solver. done.
  - exact (duenio_insert k p b b' _ Hb Hnn i_duenio).
  - intros q c i. cbn. destruct (decide (q = p)) as [->|Hne].
    + rewrite lookup_insert, decide_True by done. intros [= <-]. by rewrite Hm.
    + rewrite lookup_insert_ne by done. apply i_espera.
  - exact (prio_insert k p b' Hpr i_prio).
  - intros q. cbn. rewrite i_curso. split; (intros [Hq Hen]; split; [done|]).
    + eapply Forall_forall; [apply (en_otro k p b' _ [q])|set_solver]; [set_solver|by constructor].
    + destruct Hen as (c & Hc & HP). exists c. cbn in Hc. rewrite lookup_insert_ne in Hc by set_solver. done.
Qed.

(** ** READY *)

Lemma mjoin_insert_nivel (colas : list (option (list Z))) i q q' :
  colas !! i = Some q ->
  exists l1 l2, mjoin (default [] <$> colas) = l1 ++ default [] q ++ l2 /\
    mjoin (default [] <$> <[i := Some q']> colas) = l1 ++ q' ++ l2.
Proof.
  intros Hi. exists (mjoin (default [] <$> take i colas)), (mjoin (default [] <$> drop (S i) colas)).
  split.
  - rewrite <-(take_drop_middle colas i q Hi) at 1. by rewrite fmap_app, join_app, fmap_cons.
  - rewrite insert_take_drop by (by eapply lookup_lt_Some).
    by rewrite fmap_app, join_app, fmap_cons.
Qed.

Lemma colas_ok_insert colas niveles i q q' :
  colas !! i = Some (Some q) -> colas_ok colas niveles -> colas_ok (<[i := Some q']> colas) niveles.
Proof.
  intros Hi (Hn & Hl & H). split_and!; [lia..|by rewrite length_insert|].
  intros j r. destruct (decide (i = j)) as [->|Hne].
  - rewrite list_lookup_insert, decide_True by (split; [done|by eapply lookup_lt_Some]). intros [= <-].
    rewrite <-(H j _ Hi). split; eauto.
  - rewrite list_lookup_insert_ne by done. apply H.
Qed.

(** A change of the ready queues that, with the hands, keeps every process. *)
Lemma Inv_ready sr M M' k k' :
  Inv sr M k ->
  nucleo k' = nucleo (con_cola_procesos_ready (cola_procesos_ready k')
    (con_colas_ready_por_prioridad (colas_ready_por_prioridad k') k)) ->
  en_ready k' ++ M' ≡ₚ en_ready k ++ M ->
  Forall (en k (fun b => estado b = READY)) (en_ready k') ->
  colas_ok (colas_ready_por_prioridad k') (cantidad_niveles_prioridad k) -> is_Some (cola_procesos_ready k') ->
  Inv sr M' k'.
Proof.
  intros H Hk Hp Hr Hc Hs. unfold nucleo in Hk. cbn in Hk. injection Hk.
  intros H1 H2 H3 H4 H5 H6 H7 H8 H9 H10 H11 H12.
  destruct H. constructor; unfold lugares, en_new, en_cpus, en_mutexes, duenio_ok, en in *;
    rewrite ?H1, ?H2, ?H3, ?H4, ?H5, ?H6, ?H7, ?H8, ?H9, ?H10, ?H11; try done.
  - rewrite <-i_perm. perm.
  - split_and!; [done|naive_solver|done].
Qed.

Lemma Inv_poner_prioridad sr M k p b i q inicio :
  Inv sr (p :: M) k -> k_pcbs k !! p = Some b -> estado b = READY ->
  colas_ready_por_prioridad k !! i = Some (Some q) ->
  Inv sr M (con_colas_ready_por_prioridad (<[i := Some (agregar_a inicio q p)]> (colas_ready_por_prioridad k)) k).
Proof.
  intros H Hb He Hi. pose proof (i_ready _ _ _ H) as Hr. pose proof (i_colas _ _ _ H) as (Hc & _ & Hrd).
  destruct (mjoin_insert_nivel _ _ _ (agregar_a inicio q p) Hi) as (l1 & l2 & Hl & Hl').
  eapply Inv_ready; [exact H|done|..]; cbn; unfold en_ready in *; cbn in *; rewrite ?Hl, ?Hl' in *; cbn.
  - destruct inicio; cbn; perm.
  - rewrite !Forall_app in *. destruct Hr as (? & ? & Hq & ?). cbn in Hq. split_and!; try done.
    destruct inicio; cbn; rewrite ?Forall_app, ?Forall_cons; split_and?; try done; by exists b.
  - by eapply colas_ok_insert.
  - done.
Qed.

Lemma Inv_poner_ready sr M k p b q inicio :
  Inv sr (p :: M) k -> k_pcbs k !! p = Some b -> estado b = READY -> cola_procesos_ready k = Some q ->
  Inv sr M (con_cola_procesos_ready (Some (agregar_a inicio q p)) k).
Proof.
  intros H Hb He Hq. pose proof (i_ready _ _ _ H) as Hr. pose proof (i_colas _ _ _ H) as (Hc & _ & Hrd).
  eapply Inv_ready; [exact H|done|..]; cbn; unfold en_ready in *; cbn in *; rewrite ?Hq in *; cbn in *.
  - destruct inicio; cbn; perm.
  - rewrite !Forall_app in *. destruct Hr as (Hq' & ?). split; [|done].
    destruct inicio; cbn; rewrite ?Forall_app, ?Forall_cons; split_and?; try done; by exists b.
  - done.
  - done.
Qed.

Lemma Inv_tomar_prioridad sr M k p i q :
  Inv sr M k -> colas_ready_por_prioridad k !! i = Some (Some (p :: q)) ->
  Inv sr (p :: M) (con_colas_ready_por_prioridad (<[i := Some q]> (colas_ready_por_prioridad k)) k).
Proof.
  intros H Hi. pose proof (i_ready _ _ _ H) as Hr. pose proof (i_colas _ _ _ H) as (Hc & _ & Hrd).
  destruct (mjoin_insert_nivel _ _ _ q Hi) as (l1 & l2 & Hl & Hl').
  eapply Inv_ready; [exact H|done|..]; cbn; unfold en_ready in *; cbn in *; rewrite ?Hl, ?Hl' in *; cbn in *.
  - perm.
  - rewrite !Forall_app, Forall_cons, ?Forall_app in Hr. rewrite !Forall_app. tauto.
  - by eapply colas_ok_insert.
  - done.
Qed.

Lemma Inv_tomar_ready sr M k p q :
  Inv sr M k -> cola_procesos_ready k = Some (p :: q) -> Inv sr (p :: M) (con_cola_procesos_ready (Some q) k).
Proof.
  intros H Hq. pose proof (i_ready _ _ _ H) as Hr. pose proof (i_colas _ _ _ H) as (Hc & _ & Hrd).
  eapply Inv_ready; [exact H|done|..]; cbn; unfold en_ready in *; cbn in *; rewrite ?Hq in *; cbn in *.
  - perm.
  - inversion Hr; subst. done.
  - done.
  - done.
Qed.

(** ** NEW *)

(** Only the queue NEW, and the hands. *)
Lemma Inv_new sr M M' k q :
  Inv sr M k -> q ++ M' ≡ₚ en_new k ++ M -> Forall (en k (fun b => estado b = NEW)) q ->
  Inv sr M' (con_cola_procesos_new (Some q) k).
Proof.
  intros [] Hp Hq. constructor; try done.
  - cbn. rewrite <-i_perm. unfold lugares, en_new, en_ready, en_cpus, en_mutexes in *; cbn in *. perm.
  - naive_solver.
Qed.

(** A process is created, in the hands of its creator. *)
Lemma Inv_crear sr M k b :
  Inv sr M k -> estado b = NEW -> mutex_esperando b = None ->
  Inv sr (contador_pids k :: M)
    (con_todos_los_procesos (todos_los_procesos k ++ [contador_pids k])
      (con_k_pcbs (<[contador_pids k := b]> (k_pcbs k)) (con_contador_pids (contador_pids k + 1) k))).
Proof.
  intros [] He Hm.
  assert (Hn : contador_pids k ∉ todos_los_procesos k).
  { intros Hin. rewrite Forall_forall in i_pids. specialize (i_pids _ Hin). lia. }
  assert (Hfresco : k_pcbs k !! contador_pids k = None).
  { apply eq_None_not_Some. by rewrite <-i_vivos. }
  assert (Hotro : forall P l, l ⊆ todos_los_procesos k -> Forall (en k P) l ->
    Forall (en (con_k_pcbs (<[contador_pids k := b]> (k_pcbs k)) k) P) l).
  { intros P l Hl. apply en_otro. intros H. by apply Hn, Hl. }
  assert (Hlug : forall l p, p ∈ l -> l ⊆ lugares sr M k -> p <> contador_pids k).
  { intros l p Hp Hl ->. apply Hn. rewrite <-i_perm. by apply Hl. }
  assert (Hsub : lugares sr M k ⊆ todos_los_procesos k) by (by rewrite i_perm).
  unfold lugares in Hsub.
  constructor; try done; try (apply Hotro; [set_solver|done]).
  - cbn. rewrite <-i_perm. unfold lugares, en_new, en_ready, en_cpus, en_mutexes; cbn. perm.
  - cbn. rewrite NoDup_app. split_and!; [done|set_solver|apply NoDup_singleton].
  - intros p. cbn. rewrite elem_of_app, i_vivos, list_elem_of_singleton.
    destruct (decide (p = contador_pids k)) as [->|Hne].
    + rewrite lookup_insert, decide_True by done. split; eauto.
    + rewrite lookup_insert_ne by done. tauto.
  - cbn. lia.
  - cbn. rewrite Forall_app, Forall_singleton. split; [|lia].
    eapply Forall_impl; [exact i_pids|]. cbn. lia.
  - intros i m Hi. apply Hotro; [|by apply i_mutex]. intros p Hp. apply Hsub.
    pose proof (en_mutexes_lookup _ _ _ _ Hi Hp). rewrite !elem_of_app. tauto.
  - intros p. cbn. rewrite i_susp. split; (intros [?|[Hp (c & Hc & HP)]]; [by left|right; split; [done|]]); exists c; cbn in *.
    + rewrite lookup_insert_ne; [done|]. apply not_eq_sym, (Hlug (cola_procesos_block k)); [done|]. unfold lugares. set_solver.
    + rewrite lookup_insert_ne in Hc; [done|]. apply not_eq_sym, (Hlug (cola_procesos_block k)); [done|]. unfold lugares. set_solver.
  - cbn. eapply Forall_impl; [exact i_duenio|]. intros m [?|(c & Hc' & ?)]; [by left|right].
    exists c. cbn. rewrite lookup_insert_ne; [done|]. intros E. rewrite <-E, Hfresco in Hc'. done.
  - intros p c i. cbn. destruct (decide (p = contador_pids k)) as [->|Hne].
    + rewrite lookup_insert, decide_True by done. intros [= <-]. by rewrite Hm.
    + rewrite lookup_insert_ne by done. apply i_espera.
  - intros p c. cbn. destruct (decide (p = contador_pids k)) as [->|Hne].
    + rewrite lookup_insert, decide_True by done. intros [= <-]. done.
    + rewrite lookup_insert_ne by done. apply i_prio.
  - intros p. cbn. rewrite i_curso. split; (intros [Hp (c & Hc & HP)]; split; [done|]); exists c; cbn in *.
    + rewrite lookup_insert_ne; [done|]. apply not_eq_sym, (Hlug (cola_procesos_block k)); [done|]. unfold lugares. set_solver.
    + rewrite lookup_insert_ne in Hc; [done|]. apply not_eq_sym, (Hlug (cola_procesos_block k)); [done|]. unfold lugares. set_solver.
Qed.

(** ** CPUs *)

Definition cpu_ok (c : t_cpu) : Prop := 0 < q_cpu_id c /\ (disponible c = true -> proceso_actual c = None).

(** Only the CPU table, and the hands. *)
Lemma Inv_cpus sr M M' k cs :
  Inv sr M k -> omap proceso_actual cs ++ M' ≡ₚ en_cpus k ++ M ->
  Forall (en k (fun b => estado b = EXEC)) (omap proceso_actual cs) -> Forall cpu_ok cs ->
  Inv sr M' (con_k_cpus cs k).
Proof.
  intros [] Hp Hq Hc. constructor; try done.
  cbn. rewrite <-i_perm. unfold lugares, en_new, en_ready, en_cpus, en_mutexes in *; cbn in *. perm.
Qed.

Lemma alter_medio {A} (f : A -> A) l i x :
  l !! i = Some x -> exists l1 l2, l = l1 ++ x :: l2 /\ alter f i l = l1 ++ f x :: l2.
Proof.
  intros Hi. exists (take i l), (drop (S i) l). split; [by rewrite take_drop_middle|].
  rewrite <-(take_drop_middle l i x Hi) at 1. pose proof (lookup_lt_Some _ _ _ Hi).
  rewrite alter_app_r_alt by (rewrite length_take; lia).
  rewrite length_take, Nat.min_l by lia. by rewrite Nat.sub_diag.
Qed.

Lemma omap_medio {A B} (f : A -> option B) l1 x l2 :
  omap f (l1 ++ x :: l2) = omap f l1 ++ option_list (f x) ++ omap f l2.
Proof. rewrite omap_app. cbn. by destruct (f x). Qed.

(** A change of one entry. *)
Lemma Inv_cpu sr M M' k i c f :
  Inv sr M k -> k_cpus k !! i = Some c ->
  option_list (proceso_actual (f c)) ++ M' ≡ₚ option_list (proceso_actual c) ++ M ->
  Forall (en k (fun b => estado b = EXEC)) (option_list (proceso_actual (f c))) -> cpu_ok (f c) ->
  Inv sr M' (con_k_cpus (alter f i (k_cpus k)) k).
Proof.
  intros H Hi Hp He Hok. destruct (alter_medio f _ _ _ Hi) as (l1 & l2 & Hl & Hl').
  pose proof (i_exec _ _ _ H) as Hx. pose proof (i_cpus _ _ _ H) as Hc. unfold en_cpus in Hx.
  rewrite Hl, omap_medio, !Forall_app in Hx. rewrite Hl, Forall_app, Forall_cons in Hc.
  rewrite Hl'. eapply Inv_cpus; [done|..].
  - unfold en_cpus. rewrite Hl, !omap_medio. perm.
  - rewrite omap_medio, !Forall_app. tauto.
  - rewrite Forall_app, Forall_cons. tauto.
Qed.

(** ** I/O *)

(** Only the table of interfaces. *)
Lemma Inv_ios sr M k ios :
  Inv sr M k -> NoDup (ios ≫= pedidos) -> Forall (.∈ cola_procesos_block k) (ios ≫= pedidos) ->
  Inv sr M (con_tabla_ios ios k).
Proof. intros [] Hn Hb. by constructor. Qed.

Lemma pedidos_medio ios i io f :
  ios !! i = Some io ->
  exists l1 l2, ios ≫= pedidos = l1 ++ pedidos io ++ l2 /\ alter f i ios ≫= pedidos = l1 ++ pedidos (f io) ++ l2.
Proof.
  intros Hi. destruct (alter_medio f _ _ _ Hi) as (l1 & l2 & -> & ->).
  exists (l1 ≫= pedidos), (l2 ≫= pedidos). by rewrite !bind_app, !bind_cons.
Qed.

(** An interface whose requests are some of those it had. *)
Lemma Inv_io sr M k i io f :
  Inv sr M k -> tabla_ios k !! i = Some io -> (exists l, pedidos io ≡ₚ pedidos (f io) ++ l) ->
  Inv sr M (con_tabla_ios (alter f i (tabla_ios k)) k).
Proof.
  intros H Hi [l Hl]. destruct (pedidos_medio _ _ _ f Hi) as (l1 & l2 & Hp & Hp').
  pose proof (i_pedidos _ _ _ H) as [Hn Hb]. rewrite Hp in Hn, Hb.
  apply Inv_ios; [done|..]; rewrite Hp'.
  - assert (E : l1 ++ pedidos io ++ l2 ≡ₚ (l1 ++ pedidos (f io) ++ l2) ++ l) by perm.
    rewrite E, NoDup_app in Hn. tauto.
  - rewrite !Forall_app in *. rewrite Hl, Forall_app in Hb. tauto.
Qed.

(** A request of a process that had none. *)
Lemma Inv_io_pedir sr M k i io f p :
  Inv sr M k -> tabla_ios k !! i = Some io -> pedidos (f io) ≡ₚ p :: pedidos io ->
  p ∉ tabla_ios k ≫= pedidos -> p ∈ cola_procesos_block k ->
  Inv sr M (con_tabla_ios (alter f i (tabla_ios k)) k).
Proof.
  intros H Hi Hl Hn Hb. destruct (pedidos_medio _ _ _ f Hi) as (l1 & l2 & Hp & Hp').
  pose proof (i_pedidos _ _ _ H) as [Hnd HB]. rewrite Hp in Hnd, HB, Hn.
  assert (E : l1 ++ pedidos (f io) ++ l2 ≡ₚ p :: l1 ++ pedidos io ++ l2) by perm.
  apply Inv_ios; [done|..]; rewrite Hp', E.
  - by constructor.
  - by constructor.
Qed.

(** ** BLOCK *)

Lemma en_block_no sr M k p : Inv sr (p :: M) k -> p ∉ tabla_ios k ≫= pedidos.
Proof.
  intros H Hp. pose proof (i_pedidos _ _ _ H) as [_ Hb]. rewrite Forall_forall in Hb.
  pose proof (tomado_fuera _ _ _ _ H) as Hf. specialize (Hb _ Hp). tauto.
Qed.

Lemma Inv_poner_block sr M k p b :
  Inv sr (p :: M) k -> k_pcbs k !! p = Some b -> estado b = BLOCK ->
  Inv sr M (con_cola_procesos_block (cola_procesos_block k ++ [p]) k).
Proof.
  intros H Hb He. assert (Hno : forall P, (forall c, P c -> estado c = SUSP_BLOCK) -> ~ en k P p).
  { intros P HP (c & Hc & HPc). apply HP in HPc. congruence. }
  destruct H. constructor; try done.
  - cbn. rewrite <-i_perm. unfold lugares, en_new, en_ready, en_cpus, en_mutexes; cbn. perm.
  - cbn. rewrite Forall_app, Forall_singleton. split; [done|]. exists b. eauto.
  - intros q. cbn. rewrite i_susp, elem_of_app, list_elem_of_singleton.
    split; [naive_solver|]. intros [?|[[?| ->] Hen]]; [by left|by right|]. exfalso. by eapply Hno, Hen.
  - cbn. destruct i_pedidos as [? Hp]. split; [done|]. eapply Forall_impl; [exact Hp|].
    intros q Hq. rewrite elem_of_app. by left.
  - intros q. cbn. rewrite i_curso, elem_of_app, list_elem_of_singleton.
    split; [naive_solver|]. intros [[?| ->] Hen]; [done|]. exfalso. eapply Hno, Hen. cbn. tauto.
Qed.

Lemma delete_medio {A} (l : list A) i x : l !! i = Some x -> exists l1 l2, l = l1 ++ x :: l2 /\ delete i l = l1 ++ l2.
Proof.
  intros Hi. exists (take i l), (drop (S i) l). split; [by rewrite take_drop_middle|]. apply delete_take_drop.
Qed.

Lemma block_nodup sr M k : Inv sr M k -> NoDup (cola_procesos_block k).
Proof. intros H. apply Inv_nodup in H. unfold lugares in H. rewrite !NoDup_app in H. tauto. Qed.

(** A process leaves BLOCK without having been suspended. *)
Lemma Inv_sacar_block sr M k i p b :
  Inv sr M k -> cola_procesos_block k !! i = Some p -> k_pcbs k !! p = Some b -> estado b <> SUSP_BLOCK ->
  p ∉ tabla_ios k ≫= pedidos ->
  Inv sr (p :: M) (con_cola_procesos_block (delete i (cola_procesos_block k)) k).
Proof.
  intros H Hi Hb He Hp. pose proof (block_nodup _ _ _ H) as Hnd.
  destruct (delete_medio _ _ _ Hi) as (l1 & l2 & Hl & ->).
  assert (Hno : forall P, (forall c, P c -> estado c = SUSP_BLOCK) -> ~ en k P p).
  { intros P HP (c & Hc & HPc). apply HP in HPc. congruence. }
  assert (Hin : forall q, q ∈ cola_procesos_block k <-> q = p \/ q ∈ l1 ++ l2).
  { intros q. rewrite Hl, !elem_of_app, elem_of_cons. tauto. }
  destruct H. constructor; try done.
  - cbn. rewrite <-i_perm. unfold lugares, en_new, en_ready, en_cpus, en_mutexes; cbn. rewrite Hl. perm.
  - cbn. rewrite Hl, Forall_app, Forall_cons in i_block. rewrite Forall_app. tauto.
  - intros q. cbn. rewrite i_susp, Hin.
    split; [|naive_solver]. intros [?|[[->|?] Hen]]; [by left| |by right]. exfalso. by eapply Hno, Hen.
  - cbn. destruct i_pedidos as [? HB]. split; [done|]. rewrite Forall_forall in *. intros q Hq.
    specialize (HB q Hq). apply Hin in HB as [->|]; done.
  - intros q. cbn. rewrite i_curso, Hin.
    split; [|naive_solver]. intros [[->|?] Hen]; [|done]. exfalso. eapply Hno, Hen. cbn. tauto.
Qed.

(** A process leaves BLOCK once it is in swap: it is ready, suspended. *)
Lemma Inv_block_a_susp_ready sr M k i p b b' :
  Inv sr M k -> cola_procesos_block k !! i = Some p -> k_pcbs k !! p = Some b ->
  estado b = SUSP_BLOCK -> suspendido_en_swap b = true -> p ∉ tabla_ios k ≫= pedidos ->
  estado b' = SUSP_READY -> suspendido_en_swap b' = true -> mutex_esperando b' = mutex_esperando b -> prio_ok k b' ->
  Inv (p :: sr) M (con_k_pcbs (<[p := b']> (k_pcbs k)) (con_cola_procesos_block (delete i (cola_procesos_block k)) k)).
Proof.
  intros H Hi Hb He Hsw Hp He' Hsw' Hm Hpr. pose proof (Inv_nodup _ _ _ H) as Hnd. unfold lugares in Hnd.
  destruct (delete_medio _ _ _ Hi) as (l1 & l2 & Hl & ->).
  assert (Hfuera : p ∉ en_new k /\ p ∉ en_ready k /\ p ∉ en_cpus k /\ p ∉ l1 ++ l2 /\ p ∉ en_mutexes k /\ p ∉ sr).
  { assert (E : en_new k ++ en_ready k ++ en_cpus k ++ cola_procesos_block k ++ en_mutexes k ++ sr ++ M ≡ₚ
      p :: (en_new k ++ en_ready k ++ en_cpus k ++ (l1 ++ l2) ++ en_mutexes k ++ sr ++ M)) by (rewrite Hl; perm).
    rewrite E, NoDup_cons, !elem_of_app in Hnd. rewrite elem_of_app. tauto. }
  destruct Hfuera as (F1&F2&F3&F4&F5&F6).
  assert (Hin : forall q, q ∈ cola_procesos_block k <-> q = p \/ q ∈ l1 ++ l2).
  { intros q. rewrite Hl, !elem_of_app, elem_of_cons. tauto. }
  assert (Hen : forall P q, q <> p ->
    en (con_k_pcbs (<[p := b']> (k_pcbs k)) (con_cola_procesos_block (l1 ++ l2) k)) P q <-> en k P q).
  { intros P q Hq. unfold en. cbn. by rewrite lookup_insert_ne. }
  destruct H. constructor; try done; try (by apply (en_otro k p b')).
  - cbn. rewrite <-i_perm. unfold lugares, en_new, en_ready, en_cpus, en_mutexes; cbn. rewrite Hl. perm.
  - exact (vivos_insert k p b _ Hb i_vivos).
  - apply (en_otro k p b'); [done|]. rewrite Hl, Forall_app, Forall_cons in i_block. cbn. rewrite Forall_app. tauto.
  - intros j m Hj. apply (en_otro k p b'); [|by apply i_mutex]. intros Hq. by apply F5, (en_mutexes_lookup k j m).
  - constructor; [|by apply (en_otro k p b')]. exists b'. cbn. by rewrite lookup_insert, decide_True.
  - intros q. cbn. rewrite i_susp, Hin, elem_of_cons. destruct (decide (q = p)) as [->|Hq].
    + split; [tauto|]. intros _. right. split; [by left|]. by exists b.
    + rewrite (Hen _ q Hq). tauto.
  - exact (duenio_insert k p b b' _ Hb ltac:(by rewrite He') i_duenio).
  - intros q c j. cbn. destruct (decide (q = p)) as [->|Hne].
    + rewrite lookup_insert, decide_True by done. intros [= <-]. rewrite Hm. by apply i_espera.
    + rewrite lookup_insert_ne by done. apply i_espera.
  - exact (prio_insert k p b' (fun _ => Hpr) i_prio).
  - cbn. destruct i_pedidos as [? HB]. split; [done|]. rewrite Forall_forall in *. intros q Hq.
    specialize (HB q Hq). apply Hin in HB as [->|]; done.
  - intros q. cbn. rewrite i_curso, Hin. destruct (decide (q = p)) as [->|Hq].
    + split; intros [? (c & Hc & HP)]; [|done]. rewrite Hb in Hc. naive_solver congruence.
    + rewrite (Hen _ q Hq). tauto.
Qed.

(** A process leaves its queue from any position. *)
Lemma Inv_sacar_prioridad sr M k p i j q :
  Inv sr M k -> colas_ready_por_prioridad k !! i = Some (Some q) -> q !! j = Some p ->
  Inv sr (p :: M) (con_colas_ready_por_prioridad (<[i := Some (delete j q)]> (colas_ready_por_prioridad k)) k) /\
  en k (fun b => estado b = READY) p.
Proof.
  intros H Hi Hj. pose proof (i_ready _ _ _ H) as Hr. pose proof (i_colas _ _ _ H) as (Hc & _ & Hrd).
  destruct (delete_medio _ _ _ Hj) as (q1 & q2 & -> & ->).
  destruct (mjoin_insert_nivel _ _ _ (q1 ++ q2) Hi) as (l1 & l2 & Hl & Hl').
  unfold en_ready in Hr. rewrite Hl in Hr. cbn in Hr. rewrite !Forall_app, Forall_cons in Hr. split; [|tauto].
  eapply Inv_ready; [exact H|done|..]; cbn; unfold en_ready in *; cbn in *; rewrite ?Hl, ?Hl' in *; cbn.
  - perm.
  - rewrite !Forall_app. tauto.
  - by eapply colas_ok_insert.
  - done.
Qed.
