(* ===== verification/SchedInvFin.v ===== *)
(** * SchedInvFin: suspension, mutexes and the end of a process

    The moves of a process into swap and back, through the queue of a mutex, and
    out of the system. *)

From S2P Require Import Prelude Wire Tipos Mensajes Texto SchedTipos SchedColas SchedMutex SchedMemoria SchedIO SchedCpu SchedPlan SchedInv SchedInvOps.

(** ** Suspension *)

Lemma block_fuera sr M k p :
  Inv sr M k -> p ∈ cola_procesos_block k ->
  p ∉ en_new k /\ p ∉ en_ready k /\ p ∉ en_cpus k /\ p ∉ en_mutexes k /\ p ∉ sr /\ p ∉ M.
Proof.
  intros H Hp. pose proof (Inv_nodup _ _ _ H) as Hn. unfold lugares in Hn.
  rewrite !NoDup_app in Hn. destruct Hn as (_ & A1 & _ & A2 & _ & A3 & _ & A4 & _).
  specialize (A4 p Hp). rewrite !elem_of_app in A4.
  split_and!; try tauto; intros Hq; [apply (A1 p)|apply (A2 p)|apply (A3 p)]; rewrite ?elem_of_app; tauto.
Qed.

(** A process that stays in BLOCK is being moved to swap. *)
Lemma Inv_suspender sr M k p b b' t :
  Inv sr M k -> p ∈ cola_procesos_block k -> k_pcbs k !! p = Some b -> estado b = BLOCK ->
  estado b' = SUSP_BLOCK -> suspendido_en_swap b' = false -> mutex_esperando b' = mutex_esperando b -> prio_ok k b' ->
  Inv sr M (con_suspensiones_en_curso (suspensiones_en_curso k ++ [p])
    (con_lista_suspendidos (lista_suspendidos k ++ [(p, t)]) (con_k_pcbs (<[p := b']> (k_pcbs k)) k))).
Proof.
  intros H Hp Hb He He' Hsw Hm Hpr. destruct (block_fuera _ _ _ _ H Hp) as (F1&F2&F3&F5&F6&F7).
  assert (Hno : forall P, (forall c, P c -> estado c = SUSP_BLOCK) -> ~ en k P p).
  { intros P HP (c & Hc & HPc). apply HP in HPc. congruence. }
  assert (Hen : forall P q, q <> p -> en (con_k_pcbs (<[p := b']> (k_pcbs k)) k) P q <-> en k P q).
  { intros P q Hq. unfold en. cbn. by rewrite lookup_insert_ne. }
  assert (Hpp : forall P : t_pcb -> Prop, P b' -> en (con_k_pcbs (<[p := b']> (k_pcbs k)) k) P p).
  { intros P HP. exists b'. cbn. by rewrite lookup_insert, decide_True. }
  assert (Hns : p ∉ (lista_suspendidos k).*1).
  { rewrite (i_susp _ _ _ H). intros [?|[_ Hx]]; [done|]. by eapply Hno, Hx. }
  assert (Hnc : p ∉ suspensiones_en_curso k).
  { rewrite (i_curso _ _ _ H). intros [_ Hx]. eapply Hno, Hx. cbn. tauto. }
  destruct H. constructor; try done; try (by apply (en_otro k p b')).
  - exact (vivos_insert k p b _ Hb i_vivos).
  - rewrite Forall_forall in i_block |- *. intros q Hq. destruct (decide (q = p)) as [->|Hne].
    + apply Hpp. by right.
    + apply (Hen _ q Hne). by apply i_block.
  - intros j m Hj. apply (en_otro k p b'); [|by apply i_mutex]. intros Hq. by apply F5, (en_mutexes_lookup k j m).
  - cbn. rewrite fmap_app, NoDup_app. cbn. split_and!; [done|set_solver|apply NoDup_singleton].
  - intros q. cbn. rewrite fmap_app, elem_of_app. cbn. rewrite list_elem_of_singleton, i_susp. destruct (decide (q = p)) as [->|Hne].
    + split; [|tauto]. intros _. right. split; [done|]. by apply Hpp.
    + pose proof (Hen (fun b => estado b = SUSP_BLOCK) q Hne) as E.
      split; [intros [[?|[? ?]]|?]|intros [?|[? ?]]]; try done; try tauto.
  - exact (duenio_insert k p b b' _ Hb ltac:(by rewrite He') i_duenio).
  - intros q c j. cbn. destruct (decide (q = p)) as [->|Hne].
    + rewrite lookup_insert, decide_True by done. intros [= <-]. rewrite Hm. by apply i_espera.
    + rewrite lookup_insert_ne by done. apply i_espera.
  - exact (prio_insert k p b' (fun _ => Hpr) i_prio).
  - cbn. rewrite NoDup_app. split_and!; [done|set_solver|apply NoDup_singleton].
  - intros q. cbn. rewrite elem_of_app, list_elem_of_singleton, i_curso. destruct (decide (q = p)) as [->|Hne].
    + split; [|tauto]. intros _. split; [done|]. by apply Hpp.
    + pose proof (Hen (fun b => estado b = SUSP_BLOCK /\ suspendido_en_swap b = false) q Hne) as E.
      split; [intros [[? ?]|?]|intros [? ?]]; try done; try tauto.
Qed.

(** Memory has answered: the process is in swap. *)
Lemma Inv_suspendido sr M k j p b b' :
  Inv sr M k -> suspensiones_en_curso k !! j = Some p -> k_pcbs k !! p = Some b ->
  estado b' = estado b -> suspendido_en_swap b' = true -> mutex_esperando b' = mutex_esperando b -> prio_ok k b' ->
  Inv sr M (con_suspensiones_en_curso (delete j (suspensiones_en_curso k)) (con_k_pcbs (<[p := b']> (k_pcbs k)) k)).
Proof.
  intros H Hj Hb He Hsw Hm Hpr.
  assert (Hpc : p ∈ suspensiones_en_curso k) by (by eapply list_elem_of_lookup_2).
  pose proof Hpc as Hpc'. apply (i_curso _ _ _ H) in Hpc' as [Hp (c & Hc & Hec & Hsc)]. simplify_eq.
  destruct (block_fuera _ _ _ _ H Hp) as (F1&F2&F3&F5&F6&F7).
  destruct (delete_medio _ _ _ Hj) as (l1 & l2 & Hl & ->).
  assert (Hen : forall P q, q <> p -> en (con_k_pcbs (<[p := b']> (k_pcbs k)) k) P q <-> en k P q).
  { intros P q Hq. unfold en. cbn. by rewrite lookup_insert_ne. }
  pose proof (i_curso_nodup _ _ _ H) as Hnd. rewrite Hl in Hnd.
  assert (Hn12 : p ∉ l1 ++ l2).
  { assert (E : l1 ++ p :: l2 ≡ₚ p :: l1 ++ l2) by perm. rewrite E, NoDup_cons in Hnd. tauto. }
  destruct H. constructor; try done; try (by apply (en_otro k p b')).
  - exact (vivos_insert k p b _ Hb i_vivos).
  - eapply (Forall_en_igual k p b b'); [done|cbn; by rewrite He|done].
  - intros i m Hi. apply (en_otro k p b'); [|by apply i_mutex]. intros Hq. by apply F5, (en_mutexes_lookup k i m).
  - intros q. cbn. rewrite i_susp. pose proof (en_igual k p b b' (fun b => estado b = SUSP_BLOCK) q Hb) as E.
    cbn in E. rewrite He in E. specialize (E ltac:(done)). split; (intros [?|[? ?]]; [by left|right; split; [done|tauto]]).
  - exact (duenio_insert k p b b' _ Hb ltac:(by rewrite He) i_duenio).
  - intros q d i. cbn. destruct (decide (q = p)) as [->|Hne].
    + rewrite lookup_insert, decide_True by done. intros [= <-]. rewrite Hm. by apply i_espera.
    + rewrite lookup_insert_ne by done. apply i_espera.
  - exact (prio_insert k p b' (fun _ => Hpr) i_prio).
  - cbn. assert (E : l1 ++ p :: l2 ≡ₚ p :: l1 ++ l2) by perm. rewrite E, NoDup_cons in Hnd. tauto.
  - intros q. cbn. destruct (decide (q = p)) as [->|Hne].
    + split; [done|]. intros [_ (d & Hd & _ & Hd')]. exfalso. cbn in Hd.
      rewrite lookup_insert, decide_True in Hd by done. congruence.
    + assert (E : q ∈ l1 ++ l2 <-> q ∈ suspensiones_en_curso k).
      { rewrite Hl, !elem_of_app, elem_of_cons. tauto. }
      rewrite E, i_curso.
      pose proof (Hen (fun b => estado b = SUSP_BLOCK /\ suspendido_en_swap b = false) q Hne) as E'.
      split; (intros [? ?]; split; [done|tauto]).
Qed.

Lemma sr_nodup sr M k : Inv sr M k -> NoDup sr.
Proof. intros H. apply Inv_nodup in H. unfold lugares in H. rewrite !NoDup_app in H. tauto. Qed.

(** A process leaves the list of the suspended. *)
Lemma Inv_salir_suspendido sr M k i p t :
  Inv sr M k -> lista_suspendidos k !! i = Some (p, t) -> p ∈ sr ->
  exists sr', Inv sr' (p :: M) (con_lista_suspendidos (delete i (lista_suspendidos k)) k) /\ sr ≡ₚ p :: sr'.
Proof.
  intros H Hi Hsr. apply list_elem_of_split in Hsr as (s1 & s2 & ->). exists (s1 ++ s2).
  assert (Es : s1 ++ p :: s2 ≡ₚ p :: s1 ++ s2) by perm. split; [|done].
  destruct (delete_medio _ _ _ Hi) as (l1 & l2 & Hl & ->).
  pose proof (i_susp_nodup _ _ _ H) as Hnd. rewrite Hl, fmap_app, fmap_cons in Hnd. cbn in Hnd.
  assert (El : l1.*1 ++ p :: l2.*1 ≡ₚ p :: l1.*1 ++ l2.*1) by perm.
  rewrite El, NoDup_cons in Hnd. destruct Hnd as [Hn12 Hnd].
  pose proof (sr_nodup _ _ _ H) as Hss. rewrite Es, NoDup_cons in Hss. destruct Hss as [Hps Hss].
  assert (Hpb : p ∉ cola_procesos_block k).
  { intros Hx. pose proof (block_fuera _ _ _ _ H Hx) as (_&_&_&_&F&_). apply F. rewrite Es. by left. }
  destruct H. constructor; try done.
  - cbn. rewrite <-i_perm. unfold lugares, en_new, en_ready, en_cpus, en_mutexes; cbn. perm.
  - rewrite Forall_app, Forall_cons in i_sr. rewrite Forall_app. tauto.
  - cbn. by rewrite fmap_app.
  - intros q. cbn. rewrite fmap_app.
    assert (Hq : q ∈ (lista_suspendidos k).*1 <-> q = p \/ q ∈ l1.*1 ++ l2.*1)
      by (rewrite Hl, fmap_app, fmap_cons, !elem_of_app, elem_of_cons; tauto).
    assert (Hq' : q ∈ s1 ++ p :: s2 <-> q = p \/ q ∈ s1 ++ s2) by (rewrite !elem_of_app, elem_of_cons; tauto).
    rewrite i_susp, Hq' in Hq. destruct (decide (q = p)) as [->|Hne]; [|tauto].
    split; [done|]. intros [?|[? _]]; done.
Qed.

(** ** Mutexes *)

Lemma Forall_alter {A} (P : A -> Prop) f l i x :
  l !! i = Some x -> Forall P l -> P (f x) -> Forall P (alter f i l).
Proof.
  intros Hi H Hx. destruct (alter_medio f _ _ _ Hi) as (l1 & l2 & E & ->).
  rewrite E, Forall_app, Forall_cons in H. rewrite Forall_app, Forall_cons. tauto.
Qed.

Lemma bloqueados_medio ms i m f :
  ms !! i = Some m -> exists l1 l2, ms ≫= cola_bloqueados = l1 ++ cola_bloqueados m ++ l2 /\
    alter f i ms ≫= cola_bloqueados = l1 ++ cola_bloqueados (f m) ++ l2.
Proof.
  intros Hi. destruct (alter_medio f _ _ _ Hi) as (l1 & l2 & -> & ->).
  exists (l1 ≫= cola_bloqueados), (l2 ≫= cola_bloqueados). by rewrite !bind_app, !bind_cons.
Qed.

(** A mutex changes its owner; its queue does not change. *)
Lemma Inv_duenio sr M k i m o :
  Inv sr M k -> lista_mutexes k !! i = Some m -> (o = -1 -> cola_bloqueados m = []) ->
  o = -1 \/ en k (fun b => estado b <> NEW) o ->
  Inv sr M (con_lista_mutexes (alter (con_asignado o) i (lista_mutexes k)) k).
Proof.
  intros H Hi Ho Hv. destruct (bloqueados_medio _ _ _ (con_asignado o) Hi) as (l1 & l2 & E & E').
  destruct H. constructor; try done.
  - cbn. rewrite <-i_perm. unfold lugares, en_mutexes; cbn. by rewrite E, E'.
  - intros j m'. cbn. destruct (decide (i = j)) as [->|Hne].
    + rewrite list_lookup_alter_eq, Hi. intros [= <-]. by apply (i_mutex j m).
    + rewrite list_lookup_alter_ne by done. apply i_mutex.
  - cbn. eapply Forall_alter; [done..|]. done.
  - cbn. eapply Forall_alter; [done..|]. done.
  - intros p b j Hb Hj. destruct (i_espera p b j Hb Hj) as (m' & Hm' & Hp). cbn. destruct (decide (i = j)) as [->|Hne].
    + rewrite list_lookup_alter_eq, Hi. simplify_eq. by eexists.
    + rewrite list_lookup_alter_ne by done. eauto.
Qed.

Lemma Inv_mutex_nuevo sr M k nombre :
  Inv sr M k -> Inv sr M (con_lista_mutexes (lista_mutexes k ++ [MutexS nombre (-1) []]) k).
Proof.
  intros []. constructor; try done.
  - cbn. rewrite <-i_perm. unfold lugares, en_mutexes; cbn. by rewrite bind_app, bind_cons, !app_nil_r.
  - intros i m. cbn. rewrite lookup_app_Some. intros [Hi|[? Hi]]; [by apply i_mutex|].
    destruct (i - _)%nat; [|done]. injection Hi as <-. constructor.
  - cbn. by rewrite Forall_app, Forall_singleton.
  - cbn. rewrite Forall_app, Forall_singleton. split; [done|by left].
  - intros p b i Hb Hi. destruct (i_espera p b i Hb Hi) as (m & Hm & Hp). exists m. split; [|done].
    cbn. rewrite lookup_app. by rewrite Hm.
Qed.

(** A process is blocked in a mutex that has an owner. *)
Lemma Inv_bloquear_mutex sr M k p b b' i m :
  Inv sr (p :: M) k -> k_pcbs k !! p = Some b -> lista_mutexes k !! i = Some m -> asignado_a_pid m <> -1 ->
  estado b' = BLOCK -> mutex_esperando b' = Some i -> prio_ok k b' ->
  Inv sr M (con_lista_mutexes (alter (con_bloqueados (cola_bloqueados m ++ [p])) i (lista_mutexes k))
    (con_k_pcbs (<[p := b']> (k_pcbs k)) k)).
Proof.
  intros H Hb Hi Ha He Hm Hpr. pose proof (tomado_fuera _ _ _ _ H) as (F1&F2&F3&F4&F5&F6&F7).
  destruct (bloqueados_medio _ _ _ (con_bloqueados (cola_bloqueados m ++ [p])) Hi) as (l1 & l2 & E & E').
  assert (Hen : forall P q, q <> p -> en (con_k_pcbs (<[p := b']> (k_pcbs k)) k) P q <-> en k P q).
  { intros P q Hq. unfold en. cbn. by rewrite lookup_insert_ne. }
  destruct H. constructor; try done; try (by apply (en_otro k p b')).
  - cbn. rewrite <-i_perm. unfold lugares, en_new, en_ready, en_cpus, en_mutexes; cbn. rewrite E, E'. cbn. perm.
  - exact (vivos_insert k p b _ Hb i_vivos).
  - intros j m'. cbn. destruct (decide (i = j)) as [->|Hne].
    + rewrite list_lookup_alter_eq, Hi. intros [= <-]. cbn. rewrite Forall_app, Forall_singleton. split.
      * apply (en_otro k p b'); [|by apply i_mutex]. intros Hq. by apply F5, (en_mutexes_lookup k j m).
      * exists b'. cbn. by rewrite lookup_insert, decide_True.
    + rewrite list_lookup_alter_ne by done. intros Hj. apply (en_otro k p b'); [|by apply i_mutex].
      intros Hq. by apply F5, (en_mutexes_lookup k j m').
  - intros q. cbn. rewrite i_susp.
    split; (intros [?|[Hq ?]]; [by left|right; split; [done|]]); apply (Hen _ q); try done; by intros ->.
  - cbn. eapply Forall_alter; [done..|]. done.
  - cbn. pose proof (duenio_insert k p b b' _ Hb ltac:(by rewrite He) i_duenio) as Hd.
    eapply Forall_alter; [done|exact Hd|]. rewrite Forall_forall in Hd.
    apply (Hd m). by eapply list_elem_of_lookup_2.
  - intros q c j. cbn. destruct (decide (q = p)) as [->|Hne].
    + rewrite lookup_insert, decide_True by done. intros [= <-]. rewrite Hm. intros [= <-].
      rewrite list_lookup_alter_eq, Hi. eexists; split; [done|]. cbn. rewrite elem_of_app. right. by left.
    + rewrite lookup_insert_ne by done. intros Hq Hj. destruct (i_espera _ _ _ Hq Hj) as (m' & Hm' & Hp).
      destruct (decide (i = j)) as [->|Hij].
      * rewrite list_lookup_alter_eq, Hi. simplify_eq. eexists; split; [done|]. cbn. rewrite elem_of_app. by left.
      * rewrite list_lookup_alter_ne by done. eauto.
  - exact (prio_insert k p b' (fun _ => Hpr) i_prio).
  - intros q. cbn. rewrite i_curso.
    split; (intros [Hq ?]; split; [done|]); apply (Hen _ q); try done; by intros ->.
Qed.

(** The mutex goes to the first that waits for it, which is no longer blocked. *)
Lemma Inv_entregar sr M k p b b' i m resto :
  Inv sr M k -> k_pcbs k !! p = Some b -> lista_mutexes k !! i = Some m -> cola_bloqueados m = p :: resto ->
  mutex_esperando b' = None -> prio_ok k b' -> estado b' <> NEW ->
  Inv sr (p :: M) (con_k_pcbs (<[p := b']> (k_pcbs k))
    (con_lista_mutexes (alter (fun m => con_asignado p (con_bloqueados resto m)) i (lista_mutexes k)) k)).
Proof.
  intros H Hb Hi Hm He Hpr Hnn.
  destruct (bloqueados_medio _ _ _ (fun m => con_asignado p (con_bloqueados resto m)) Hi) as (l1 & l2 & E & E').
  rewrite Hm in E. cbn in E'.
  assert (Hfuera : p ∉ en_new k /\ p ∉ en_ready k /\ p ∉ en_cpus k /\ p ∉ cola_procesos_block k /\
    p ∉ l1 ++ resto ++ l2 /\ p ∉ sr).
  { pose proof (Inv_nodup _ _ _ H) as Hnd. unfold lugares, en_mutexes in Hnd. rewrite E in Hnd.
    assert (P : en_new k ++ en_ready k ++ en_cpus k ++ cola_procesos_block k ++ (l1 ++ (p :: resto) ++ l2) ++ sr ++ M ≡ₚ
      p :: (en_new k ++ en_ready k ++ en_cpus k ++ cola_procesos_block k ++ (l1 ++ resto ++ l2) ++ sr ++ M)) by perm.
    rewrite P, NoDup_cons, !elem_of_app in Hnd. rewrite !elem_of_app. tauto. }
  destruct Hfuera as (F1&F2&F3&F4&F5&F6).
  assert (Hotro : forall j m', lista_mutexes k !! j = Some m' -> i <> j -> p ∉ cola_bloqueados m').
  { intros j m' Hj Hne Hp. pose proof (i_mutex _ _ _ H _ _ Hj) as HF. rewrite Forall_forall in HF.
    destruct (HF p Hp) as (c & Hc & _ & Hc').
    pose proof (i_mutex _ _ _ H _ _ Hi) as HF'. rewrite Hm, Forall_cons in HF'.
    destruct HF' as [(c' & Hc1 & _ & Hc2) _]. simplify_eq. }
  assert (Hen : forall P q, q <> p -> en (con_k_pcbs (<[p := b']> (k_pcbs k)) k) P q <-> en k P q).
  { intros P q Hq. unfold en. cbn. by rewrite lookup_insert_ne. }
  assert (Hv : p ∈ todos_los_procesos k) by (rewrite (i_vivos _ _ _ H); eauto).
  destruct H. constructor; try done; try (by apply (en_otro k p b')).
  - cbn. rewrite <-i_perm. unfold lugares, en_new, en_ready, en_cpus, en_mutexes; cbn. rewrite E, E'. perm.
  - exact (vivos_insert k p b _ Hb i_vivos).
  - intros j m'. cbn. destruct (decide (i = j)) as [->|Hne].
    + rewrite list_lookup_alter_eq, Hi. intros [= <-]. cbn. apply (en_otro k p b').
      * intros Hp. apply F5. rewrite !elem_of_app. tauto.
      * specialize (i_mutex _ _ Hi). rewrite Hm, Forall_cons in i_mutex. tauto.
    + rewrite list_lookup_alter_ne by done. intros Hj. apply (en_otro k p b'); [|by apply i_mutex]. eauto.
  - intros q. cbn. rewrite i_susp.
    split; (intros [?|[Hq ?]]; [by left|right; split; [done|]]); apply (Hen _ q); try done; by intros ->.
  - cbn. eapply Forall_alter; [done..|]. cbn. intros ->.
    rewrite Forall_forall in i_pids. specialize (i_pids _ Hv). lia.
  - cbn. pose proof (duenio_insert k p b b' _ Hb ltac:(done) i_duenio) as Hd.
    eapply Forall_alter; [done|exact Hd|]. right. exists b'. cbn. by rewrite lookup_insert, decide_True.
  - intros q c j. cbn. destruct (decide (q = p)) as [->|Hne].
    + rewrite lookup_insert, decide_True by done. intros [= <-]. by rewrite He.
    + rewrite lookup_insert_ne by done. intros Hq Hj. destruct (i_espera _ _ _ Hq Hj) as (m' & Hm' & Hp).
      destruct (decide (i = j)) as [->|Hij].
      * rewrite list_lookup_alter_eq, Hi. simplify_eq. eexists; split; [done|]. cbn.
        rewrite Hm, elem_of_cons in Hp. tauto.
      * rewrite list_lookup_alter_ne by done. eauto.
  - exact (prio_insert k p b' (fun _ => Hpr) i_prio).
  - intros q. cbn. rewrite i_curso.
    split; (intros [Hq ?]; split; [done|]); apply (Hen _ q); try done; by intros ->.
Qed.

(** ** The end of a process *)

Lemma en_borrado k p P l :
  p ∉ l -> Forall (en k P) l -> Forall (en (con_k_pcbs (delete p (k_pcbs k)) k) P) l.
Proof.
  intros Hp H. rewrite Forall_forall in *. intros q Hq. destruct (H q Hq) as (c & Hc & HP).
  exists c. split; [|done]. cbn. rewrite lookup_delete_ne; [done|]. by intros ->.
Qed.

Lemma Inv_fin sr M k p i :
  Inv sr (p :: M) k -> todos_los_procesos k !! i = Some p ->
  Forall (fun m => asignado_a_pid m <> p) (lista_mutexes k) ->
  Inv sr M (con_k_pcbs (delete p (k_pcbs k)) (con_todos_los_procesos (delete i (todos_los_procesos k)) k)).
Proof.
  intros H Hi Hm. pose proof (tomado_fuera _ _ _ _ H) as (F1&F2&F3&F4&F5&F6&F7).
  destruct (delete_medio _ _ _ Hi) as (l1 & l2 & Hl & Hd). rewrite Hd.
  pose proof (i_nodup _ _ _ H) as Hnd. rewrite Hl in Hnd.
  assert (E : l1 ++ p :: l2 ≡ₚ p :: l1 ++ l2) by perm. rewrite E, NoDup_cons in Hnd. destruct Hnd as [Hp Hnd].
  assert (Hin : forall q, q ∈ todos_los_procesos k <-> q = p \/ q ∈ l1 ++ l2).
  { intros q. rewrite Hl, !elem_of_app, elem_of_cons. tauto. }
  assert (Hen : forall P q, q <> p -> en (con_k_pcbs (delete p (k_pcbs k)) k) P q <-> en k P q).
  { intros P q Hq. unfold en. cbn. by rewrite lookup_delete_ne. }
  destruct H. constructor; try done; try (by apply (en_borrado k p)).
  - cbn. rewrite Hl, E in i_perm. unfold lugares, en_new, en_ready, en_cpus, en_mutexes in *; cbn in *. perm.
  - intros q. cbn. destruct (decide (q = p)) as [->|Hne].
    + rewrite lookup_delete, decide_True by done. split; [done|]. intros [? [=]].
    + rewrite lookup_delete_ne by done. rewrite <-i_vivos, Hin. tauto.
  - cbn. rewrite Hl, Forall_app, Forall_cons in i_pids. rewrite Forall_app. tauto.
  - intros j m Hj. apply (en_borrado k p); [|by apply i_mutex]. intros Hq. by apply F5, (en_mutexes_lookup k j m).
  - intros q. cbn. rewrite i_susp.
    split; (intros [?|[Hq ?]]; [by left|right; split; [done|]]); apply (Hen _ q); try done; by intros ->.
  - cbn. rewrite Forall_forall in *. intros m Hx. destruct (i_duenio m Hx) as [?|(c & Hc & ?)]; [by left|right].
    exists c. cbn. rewrite lookup_delete_ne; [done|]. by apply not_eq_sym, Hm.
  - intros q c j. cbn. destruct (decide (q = p)) as [->|Hne].
    + rewrite lookup_delete, decide_True by done. done.
    + rewrite lookup_delete_ne by done. apply i_espera.
  - intros q c. cbn. destruct (decide (q = p)) as [->|Hne].
    + rewrite lookup_delete, decide_True by done. done.
    + rewrite lookup_delete_ne by done. apply i_prio.
  - intros q. cbn. rewrite i_curso.
    split; (intros [Hq ?]; split; [done|]); apply (Hen _ q); try done; by intros ->.
Qed.
