(* ===== verification/SchedSeguroOps.v ===== *)
(** * SchedSeguroOps: the helpers keep the invariant

    For each function the handlers call: from a state in which the invariant holds
    it has a defined behaviour (it reads no freed PCB, follows no null pointer,
    indexes no array out of range) and the invariant holds again. *)

From S2P Require Import Prelude Wire Tipos Mensajes Texto SchedTipos SchedColas SchedMutex SchedMemoria SchedIO SchedCpu SchedPlan SchedInv SchedInvOps SchedInvFin.

Lemma cumple_bind_assoc {A B C} (m : K A) (f : A -> K B) (g : B -> K C) Q k :
  cumple ((m ≫= f) ≫= g) Q k -> cumple (m ≫= (fun a => f a ≫= g)) Q k.
Proof. unfold cumple, mbind, K_bind. by destruct (m k). Qed.

Definition vivo (k : kernel) (p : Z) : Prop := is_Some (k_pcbs k !! p).

Lemma Inv_vivo sr M k p : Inv sr M k -> p ∈ lugares sr M k -> vivo k p.
Proof. intros H Hp. destruct (Inv_lugar _ _ _ _ H Hp) as [b Hb]. by exists b. Qed.
Lemma vivo_todos sr M k p : Inv sr M k -> vivo k p <-> p ∈ todos_los_procesos k.
Proof. intros H. symmetry. apply (i_vivos _ _ _ H). Qed.

(** The same processes, tables and lists: what a change of the ready queues, or of
    PCBs, leaves alone. *)
Definition tablas (k : kernel) :=
  (todos_los_procesos k, contador_pids k, lista_mutexes k, lista_suspendidos k, k_cpus k,
   (tabla_ios k, cola_procesos_block k, cantidad_niveles_prioridad k, suspensiones_en_curso k, k_config k)).
Definition mismos (k k' : kernel) : Prop := tablas k' = tablas k.
#[export] Instance mismos_equiv : Equivalence mismos.
Proof. split; red; unfold mismos; congruence. Qed.
Lemma misma_mismos k k' : misma k k' -> mismos k k'.
Proof. unfold misma, nucleo, mismos, tablas. intros [=]. congruence. Qed.
Lemma mismos_niveles k k' : mismos k k' -> cantidad_niveles_prioridad k' = cantidad_niveles_prioridad k.
Proof. by intros [=]. Qed.
Lemma mismos_mutexes k k' : mismos k k' -> lista_mutexes k' = lista_mutexes k.
Proof. by intros [=]. Qed.
Lemma mismos_todos k k' : mismos k k' -> todos_los_procesos k' = todos_los_procesos k.
Proof. by intros [=]. Qed.
Lemma mismos_vivo sr sr' M M' k k' p : Inv sr M k -> Inv sr' M' k' -> mismos k k' -> vivo k p -> vivo k' p.
Proof.
  intros H H' E. rewrite (vivo_todos _ _ _ _ H), (vivo_todos _ _ _ _ H'). by rewrite (mismos_todos _ _ E).
Qed.

(** ** Lists of PCBs *)

Lemma cumple_posicion pid l (Q : option nat -> kernel -> Prop) k :
  Forall (vivo k) l -> Q (indice_de (fun p => p =? pid) l) k -> cumple (posicion_pid pid l) Q k.
Proof.
  intros Hl. revert Q. induction Hl as [|p l [b Hb] Hl IH]; intros Q HQ; [done|]. cbn [posicion_pid].
  pasos. cbn in HQ. destruct (p =? pid); [done|]. paso. apply IH. by paso.
Qed.

Lemma indice_pid pid l i : indice_de (fun p => p =? pid) l = Some i -> l !! i = Some pid.
Proof. intros H. apply indice_de_Some in H as (x & Hx & Hp & _). apply Z.eqb_eq in Hp as ->. done. Qed.
Lemma indice_pid_None pid l : indice_de (fun p => p =? pid) l = None <-> pid ∉ l.
Proof.
  rewrite indice_de_None. split.
  - intros H Hin. specialize (H _ Hin). lia.
  - intros H x Hx. apply Z.eqb_neq. by intros ->.
Qed.
Lemma indice_pid_Some pid l : pid ∈ l -> exists i, indice_de (fun p => p =? pid) l = Some i /\ l !! i = Some pid.
Proof.
  intros H. destruct (indice_de _ l) as [i|] eqn:E; [|by apply indice_pid_None in E].
  exists i. split; [done|]. by apply indice_pid.
Qed.

Lemma todos_vivos sr M k : Inv sr M k -> Forall (vivo k) (todos_los_procesos k).
Proof. intros H. apply Forall_forall. intros p. apply (vivo_todos _ _ _ _ H). Qed.

Lemma cumple_buscar_pcb sr M pid (Q : option Z -> kernel -> Prop) k :
  Inv sr M k -> (pid ∈ todos_los_procesos k -> Q (Some pid) k) -> (pid ∉ todos_los_procesos k -> Q None k) ->
  cumple (buscar_pcb_por_pid pid) Q k.
Proof.
  intros H H1 H2. unfold buscar_pcb_por_pid. pasos. apply cumple_posicion; [by eapply todos_vivos|]. paso.
  destruct (decide (pid ∈ todos_los_procesos k)) as [Hin|Hin].
  - destruct (indice_pid_Some _ _ Hin) as (i & -> & Hi). cbn. rewrite Hi. auto.
  - rewrite (proj2 (indice_pid_None _ _) Hin). auto.
Qed.

(** ** Preemption *)

Lemma cumple_victima cs acc (Q : option (t_cpu * Z * Z) -> kernel -> Prop) k :
  Forall (vivo k) (omap proceso_actual cs) -> (forall r, Q r k) -> cumple (buscar_victima cs acc) Q k.
Proof.
  revert acc. induction cs as [|c cs IH]; intros acc Hv HQ; [by apply HQ|]. cbn [buscar_victima]. cbn in Hv.
  destruct (proceso_actual c) as [p|]; [|by apply IH]. apply Forall_cons in Hv as [[b Hb] Hv].
  destruct (_ || _)%bool; [by apply IH|]. pasos. by apply IH.
Qed.

Lemma cpus_vivas sr M k : Inv sr M k -> Forall (vivo k) (en_cpus k).
Proof.
  intros H. apply Forall_forall. intros p Hp. eapply Inv_vivo; [done|]. apply lugares_dec. tauto.
Qed.

Lemma cumple_verificar sr M p (Q : unit -> kernel -> Prop) k :
  Inv sr M k -> vivo k p -> (forall k', misma k k' -> Q tt k') -> cumple (verificar_y_desalojar_por_prioridad p) Q k.
Proof.
  intros H [b Hb] HQ. unfold verificar_y_desalojar_por_prioridad. pasos.
  destruct (negb _); [by apply HQ|]. destruct (compactacion_en_progreso k); [by apply HQ|].
  pasos. apply cumple_victima; [by eapply cpus_vivas|]. intros [[[c menor] ini]|]; [|by apply HQ].
  destruct (_ <? _); [|by apply HQ]. apply cumple_no_toca; [apply no_toca_enviar|]. intros []. apply HQ.
Qed.

(** ** Arrival to READY *)

Lemma nivel_cola k x :
  colas_ok (colas_ready_por_prioridad k) (cantidad_niveles_prioridad k) -> 0 <= x < cantidad_niveles_prioridad k ->
  exists q, colas_ready_por_prioridad k !! Z.to_nat x = Some (Some q).
Proof.
  intros (Hn & Hl & H) Hx. unfold MAX_PRIORITY_LEVELS in Hl.
  destruct (lookup_lt_is_Some_2 (colas_ready_por_prioridad k) (Z.to_nat x) ltac:(lia)) as [q Hq].
  destruct (proj2 (H _ _ Hq) ltac:(lia)) as [q' ->]. eauto.
Qed.

Lemma cumple_cola x q (Q : option (list Z) -> kernel -> Prop) k :
  0 <= x -> colas_ready_por_prioridad k !! Z.to_nat x = Some q -> Q q k -> cumple (cola_prioridad x) Q k.
Proof.
  intros Hx Hq HQ. unfold cumple, cola_prioridad. destruct (Z.ltb_spec x 0); [lia|]. by rewrite Hq.
Qed.

Lemma cumple_poner_prioridad sr M p b inicio x (Q : unit -> kernel -> Prop) k :
  Inv sr (p :: M) k -> k_pcbs k !! p = Some b -> estado b = READY -> 0 <= x < cantidad_niveles_prioridad k ->
  (forall k', Inv sr M k' -> mismos k k' -> k_pcbs k' = k_pcbs k -> Q tt k') -> cumple (poner_en_prioridad inicio p x) Q k.
Proof.
  intros H Hb He Hx HQ. destruct (i_colas _ _ _ H) as [Hc _]. destruct (nivel_cola _ _ Hc Hx) as [q Hq].
  unfold poner_en_prioridad. pasos. eapply cumple_cola; [lia|done|]. cbn beta iota. unfold poner_cola_prioridad. pasos.
  apply HQ; [|done|done]. eapply Inv_misma; [|by eapply Inv_poner_prioridad]. done.
Qed.

Lemma cumple_poner_ready sr M p b inicio (Q : unit -> kernel -> Prop) k :
  Inv sr (p :: M) k -> k_pcbs k !! p = Some b -> estado b = READY ->
  (forall k', Inv sr M k' -> mismos k k' -> k_pcbs k' = k_pcbs k -> Q tt k') -> cumple (poner_en_ready inicio p) Q k.
Proof.
  intros H Hb He HQ. destruct (i_colas _ _ _ H) as (_ & _ & [q Hq]). unfold poner_en_ready. pasos. rewrite Hq. pasos.
  apply HQ; [|done|done]. eapply Inv_misma; [|by eapply Inv_poner_ready]. done.
Qed.

Lemma prio_tomado sr M k p b :
  Inv sr (p :: M) k -> k_pcbs k !! p = Some b -> estado b <> NEW -> prio_ok k b.
Proof. intros H Hb He. by apply (i_prio _ _ _ H p). Qed.

(** The state of a process in the hands of its handler. *)
Lemma cumple_estado sr M p b f (Q : unit -> kernel -> Prop) k :
  Inv sr (p :: M) k -> k_pcbs k !! p = Some b -> mutex_esperando (f b) = mutex_esperando b ->
  (estado (f b) <> NEW -> prio_ok k (f b)) -> (estado b <> NEW -> estado (f b) <> NEW) ->
  (forall k', Inv sr (p :: M) k' -> k' = con_k_pcbs (<[p := f b]> (k_pcbs k)) k -> k_pcbs k' !! p = Some (f b) ->
    Q tt k') ->
  cumple (modificar p f) Q k.
Proof.
  intros H Hb Hm Hp Hnn HQ. paso. apply HQ; [|done|cbn; by rewrite lookup_insert, decide_True].
  eapply Inv_pcb_tomado; [done..| |done|done]. rewrite Hm. by eapply tomado_sin_mutex.
Qed.

Lemma cumple_encolar sr M p b (Q : unit -> kernel -> Prop) k :
  Inv sr (p :: M) k -> k_pcbs k !! p = Some b -> estado b <> NEW ->
  (forall k', Inv sr M k' -> mismos k k' -> k_pcbs k' = <[p := con_estado READY b]> (k_pcbs k) -> Q tt k') ->
  cumple (encolar_en_ready_y_notificar p) Q k.
Proof.
  intros H Hb Hn HQ. pose proof (prio_tomado _ _ _ _ _ H Hb Hn) as Hpr.
  unfold encolar_en_ready_y_notificar. paso.
  eapply cumple_estado; [exact H|exact Hb|done|done|done|]. intros k1 H1 E1 Hb1. pasos.
  assert (E : cantidad_niveles_prioridad k1 = cantidad_niveles_prioridad k) by (by rewrite E1).
  assert (Hm1 : mismos k k1) by (by rewrite E1).
  destruct (Z.gtb_spec (cantidad_niveles_prioridad k1) 0) as [Hg|Hg].
  - pasos. unfold reencolar_proceso_ready_final. pasos. cbn. destruct Hpr as [Hpr _].
    specialize (Hpr ltac:(lia)). destruct (Z.ltb_spec (prioridad b) 0); [lia|]. cbn.
    destruct (Z.geb_spec (prioridad b) (cantidad_niveles_prioridad k1)); [lia|]. pasos.
    eapply cumple_poner_prioridad; [done..|lia|]. intros k2 Hi2 Hm2 Ep2.
    eapply cumple_verificar; [exact Hi2| |].
    + eapply (mismos_vivo _ _ _ _ k1 k2); [done..|]. by eexists.
    + intros k3 Hk3. apply HQ; [by eapply Inv_misma| |].
      * etrans; [done|]. etrans; [done|]. by apply misma_mismos.
      * injection Hk3. intros. by rewrite E1 in Ep2; etrans.
  - eapply cumple_poner_ready; [done..|]. intros k2 H2 Hm2 Ep2. apply HQ; [done|by etrans|]. by rewrite Ep2, E1.
Qed.

Lemma cumple_al_principio sr M p b (Q : unit -> kernel -> Prop) k :
  Inv sr (p :: M) k -> k_pcbs k !! p = Some b -> estado b <> NEW ->
  (forall k', Inv sr M k' -> mismos k k' -> Q tt k') -> cumple (devolver_al_principio p) Q k.
Proof.
  intros H Hb Hn HQ. pose proof (prio_tomado _ _ _ _ _ H Hb Hn) as Hpr.
  unfold devolver_al_principio. paso.
  eapply cumple_estado; [exact H|exact Hb|done|done|done|]. intros k1 H1 E1 Hb1. pasos.
  assert (E : cantidad_niveles_prioridad k1 = cantidad_niveles_prioridad k) by (by rewrite E1).
  assert (Hm1 : mismos k k1) by (by rewrite E1).
  destruct (Z.gtb_spec (cantidad_niveles_prioridad k1) 0) as [Hg|Hg].
  - pasos. unfold reencolar_proceso_ready_inicio. pasos. cbn. destruct Hpr as [Hpr _].
    specialize (Hpr ltac:(lia)). destruct (Z.ltb_spec (prioridad b) 0); [lia|]. cbn.
    destruct (Z.geb_spec (prioridad b) (cantidad_niveles_prioridad k1)); [lia|].
    eapply cumple_poner_prioridad; [done..|lia|]. intros k2 Hi2 Hm2 _. apply HQ; [done|]. by etrans.
  - eapply cumple_poner_ready; [done..|]. intros k2 H2 Hm2 _. apply HQ; [done|]. by etrans.
Qed.

(** ** Inheritance of priorities *)

Lemma cumple_reubicar sr M p b x y (Q : unit -> kernel -> Prop) k :
  Inv sr M k -> k_pcbs k !! p = Some b ->
  en_nivel (cantidad_niveles_prioridad k) x -> en_nivel (cantidad_niveles_prioridad k) y ->
  (forall c, Inv sr M (con_colas_ready_por_prioridad c k) -> Q tt (con_colas_ready_por_prioridad c k)) ->
  Q tt k -> cumple (reubicar_proceso_en_ready p x y) Q k.
Proof.
  intros H Hb Hx Hy HQ HQk. unfold reubicar_proceso_en_ready. pasos.
  destruct (bool_decide_reflect (estado b <> READY)) as [|He]; [done|]. cbn [orb].
  destruct (Z.leb_spec (cantidad_niveles_prioridad k) 0) as [|Hn]; [done|].
  destruct (x =? y); [done|]. specialize (Hx ltac:(lia)). specialize (Hy ltac:(lia)).
  destruct (i_colas _ _ _ H) as [Hc _]. destruct (nivel_cola _ _ Hc Hx) as [q Hq].
  pasos. eapply cumple_cola; [lia|done|]. cbn beta iota. pasos.
  apply cumple_posicion.
  { apply Forall_forall. intros r Hr. eapply Inv_vivo; [done|]. apply lugares_dec. right. left.
    unfold en_ready. rewrite elem_of_app. right. apply list_elem_of_join. exists q. split; [done|].
    apply list_elem_of_fmap. exists (Some q). split; [done|]. by eapply list_elem_of_lookup_2. }
  destruct (indice_de _ q) as [j|] eqn:Ej; [|done]. apply indice_pid in Ej. unfold poner_cola_prioridad. pasos.
  destruct (Inv_sacar_prioridad _ _ _ _ _ _ _ H Hq Ej) as [H1 (b' & Hb' & He')].
  set (k1 := con_colas_ready_por_prioridad _ k) in *.
  destruct (i_colas _ _ _ H1) as [Hc1 _]. destruct (nivel_cola k1 y Hc1 Hy) as [q' Hq'].
  eapply cumple_cola; [lia|done|]. cbn beta iota. pasos.
  apply (HQ (<[Z.to_nat y := Some (q' ++ [p])]> (colas_ready_por_prioridad k1))).
  eapply Inv_misma; [|eapply (Inv_poner_prioridad _ _ k1 p b' _ q' false); done]. done.
Qed.

(** Owners and those who wait have a priority of the configured range. *)
Lemma prio_bloqueado sr M k i m p :
  Inv sr M k -> lista_mutexes k !! i = Some m -> p ∈ cola_bloqueados m ->
  exists b, k_pcbs k !! p = Some b /\ estado b = BLOCK /\ prio_ok k b.
Proof.
  intros H Hi Hp. pose proof (i_mutex _ _ _ H _ _ Hi) as HF. rewrite Forall_forall in HF.
  destruct (HF p Hp) as (b & Hb & He & _). exists b. split; [done|]. split; [done|]. apply (i_prio _ _ _ H p); [done|congruence].
Qed.

(** What the inheritance of priorities changes. *)
Definition solo_prioridades (k k' : kernel) : Prop :=
  mismos k k' /\ forall p, (fun b => (prioridad b, estado b, mutex_esperando b, suspendido_en_swap b)) <$> k_pcbs k' !! p =
            (fun b => (prioridad b, estado b, mutex_esperando b, suspendido_en_swap b)) <$> k_pcbs k !! p.

#[export] Instance solo_prioridades_equiv : Equivalence solo_prioridades.
Proof.
  split; red; unfold solo_prioridades; [by intros x| |].
  - intros x y [E1 E2]. by split.
  - intros x y z [E1 E2] [E3 E4]. split; [by etrans|congruence].
Qed.

Lemma solo_prioridades_lookup k k' p b :
  solo_prioridades k k' -> k_pcbs k !! p = Some b ->
  exists b', k_pcbs k' !! p = Some b' /\ prioridad b' = prioridad b /\ estado b' = estado b /\
    mutex_esperando b' = mutex_esperando b /\ suspendido_en_swap b' = suspendido_en_swap b.
Proof.
  intros (_&E) Hb. specialize (E p). rewrite Hb in E. cbn in E.
  destruct (k_pcbs k' !! p) as [b'|]; [|done]. injection E. intros. by exists b'.
Qed.

Lemma cambiar_prioridad k p b x c :
  k_pcbs k !! p = Some b ->
  solo_prioridades k (con_colas_ready_por_prioridad c (con_k_pcbs (<[p := con_prioridad_dinamica x b]> (k_pcbs k)) k)).
Proof.
  intros Hb. split; [done|]. intros q. cbn. destruct (decide (q = p)) as [->|Hne].
  - rewrite lookup_insert, Hb, decide_True by done. done.
  - by rewrite lookup_insert_ne.
Qed.

Lemma Inv_prioridad sr M k p b x :
  Inv sr M k -> k_pcbs k !! p = Some b -> estado b <> NEW -> en_nivel (cantidad_niveles_prioridad k) x ->
  Inv sr M (con_k_pcbs (<[p := con_prioridad_dinamica x b]> (k_pcbs k)) k).
Proof.
  intros H Hb He Hx. eapply Inv_pcb_igual; [exact H|exact Hb|by repeat split|]. intros _. split; [|done].
  exact (proj1 (i_prio _ _ _ H p b Hb He)).
Qed.

(** A new dynamic priority, and the move that follows. *)
Lemma cumple_cambiar sr M p b x (Q : unit -> kernel -> Prop) k :
  Inv sr M k -> k_pcbs k !! p = Some b -> estado b <> NEW -> en_nivel (cantidad_niveles_prioridad k) x ->
  (forall k', Inv sr M k' -> solo_prioridades k k' -> Q tt k') ->
  cumple (_ ← modificar p (con_prioridad_dinamica x); reubicar_proceso_en_ready p (prioridad_dinamica b) x) Q k.
Proof.
  intros H Hb He Hx HQ. paso. paso. pose proof (Inv_prioridad _ _ _ _ _ _ H Hb He Hx) as H1.
  eapply cumple_reubicar; [exact H1|cbn; by rewrite lookup_insert, decide_True| |done|..].
  - exact (proj2 (i_prio _ _ _ H p b Hb He)).
  - intros c Hc. apply HQ; [done|]. by apply cambiar_prioridad.
  - apply HQ; [done|]. exact (cambiar_prioridad k p b x (colas_ready_por_prioridad k) Hb).
Qed.

Lemma duenio_de sr M k i m b :
  Inv sr M k -> lista_mutexes k !! i = Some m -> k_pcbs k !! asignado_a_pid m = Some b -> estado b <> NEW.
Proof.
  intros H Hi Hb. pose proof (i_duenio _ _ _ H) as Hd. rewrite Forall_forall in Hd.
  destruct (Hd m) as [E|(c & Hc & He)]; [by eapply list_elem_of_lookup_2| |by simplify_eq].
  rewrite E in Hb. assert (Hv : vivo k (-1)) by by eexists. apply (vivo_todos _ _ _ _ H) in Hv.
  pose proof (i_pids _ _ _ H) as Hp. rewrite Forall_forall in Hp. specialize (Hp _ Hv). lia.
Qed.

Lemma cumple_propagar sr M n p b x (Q : unit -> kernel -> Prop) k :
  Inv sr M k -> k_pcbs k !! p = Some b -> en_nivel (cantidad_niveles_prioridad k) x ->
  (forall k', Inv sr M k' -> solo_prioridades k k' -> Q tt k') ->
  cumple (propagar_herencia_prioridad n p x) Q k.
Proof.
  revert p b k. induction n as [|n IH]; intros p b k H Hb Hx HQ; cbn [propagar_herencia_prioridad]; pasos.
  all: assert (HQk : Q tt k) by (apply HQ; [done|reflexivity]).
  all: destruct (mutex_esperando b) as [i|] eqn:Hm; [|exact HQk].
  all: destruct (i_espera _ _ _ H _ _ _ Hb Hm) as (m & Hi & _); pasos.
  all: destruct (_ =? -1); [exact HQk|]; pasos.
  all: eapply cumple_buscar_pcb; [exact H| |intros _; exact HQk]; intros Ho.
  all: apply (vivo_todos _ _ _ _ H) in Ho as [bp Hbp]; pasos.
  all: destruct (_ <? _); [|exact HQk].
  all: apply cumple_bind_assoc, cumple_bind.
  all: eapply cumple_cambiar; [exact H|exact Hbp|by eapply duenio_de|done|].
  all: intros k1 H1 Hs1; destruct (solo_prioridades_lookup _ _ _ _ Hs1 Hbp) as (b1 & Hb1 & _).
  all: destruct (mutex_esperando bp); [|by apply HQ]; try done.
  eapply IH; [exact H1|exact Hb1| |].
  - destruct Hs1 as [Hs1 _]. by rewrite (mismos_niveles _ _ Hs1).
  - intros k2 H2 Hs2. apply HQ; [done|]. by etrans.
Qed.

Lemma cumple_mejor_bloqueado l x (Q : Z -> kernel -> Prop) k :
  Forall (fun p => exists b, k_pcbs k !! p = Some b /\ estado b = BLOCK /\ prio_ok k b) l ->
  en_nivel (cantidad_niveles_prioridad k) x ->
  (forall y, en_nivel (cantidad_niveles_prioridad k) y -> Q y k) -> cumple (mejor_bloqueado l x) Q k.
Proof.
  intros Hl. revert x. induction Hl as [|p l (b & Hb & _ & Hp) Hl IH]; intros x Hx HQ; [by apply HQ|].
  cbn [mejor_bloqueado]. pasos. apply IH; [|done]. destruct (_ <? x); [|done]. exact (proj2 Hp).
Qed.

Lemma cumple_mejor_heredada sr M pid ms x (Q : Z -> kernel -> Prop) k :
  Inv sr M k -> (forall m, m ∈ ms -> m ∈ lista_mutexes k) -> en_nivel (cantidad_niveles_prioridad k) x ->
  (forall y, en_nivel (cantidad_niveles_prioridad k) y -> Q y k) -> cumple (mejor_heredada pid ms x) Q k.
Proof.
  intros H. revert x. induction ms as [|m ms IH]; intros x Hms Hx HQ; [by apply HQ|]. cbn [mejor_heredada]. pasos.
  assert (HI : forall y, en_nivel (cantidad_niveles_prioridad k) y -> cumple (mejor_heredada pid ms y) Q k).
  { intros y Hy. apply IH; [|done|done]. intros m' Hm'. apply Hms. by right. }
  destruct (_ =? pid); [|by apply HI]. apply cumple_mejor_bloqueado; [|done|done].
  apply Forall_forall. intros p Hp. specialize (Hms m ltac:(left)).
  apply list_elem_of_lookup in Hms as [i Hi]. by eapply prio_bloqueado.
Qed.

Lemma cumple_recalcular sr M p b (Q : unit -> kernel -> Prop) k :
  Inv sr M k -> k_pcbs k !! p = Some b -> estado b <> NEW ->
  (forall k', Inv sr M k' -> solo_prioridades k k' -> Q tt k') -> cumple (recalcular_prioridad_dinamica p) Q k.
Proof.
  intros H Hb He HQ. unfold recalcular_prioridad_dinamica. pasos.
  set (k1 := con_mutex_lista_tomado true k). assert (H1 : Inv sr M k1) by (by apply (Inv_misma _ _ k)).
  eapply cumple_mejor_heredada; [exact H1|done| |].
  { exact (proj1 (i_prio _ _ _ H p b Hb He)). }
  intros y Hy. pasos.
  assert (H2 : Inv sr M (con_mutex_lista_tomado false k1)) by (by apply (Inv_misma _ _ k)).
  destruct (y =? _); [apply HQ; [done|by split]|].
  eapply cumple_cambiar; [exact H2|exact Hb|done|done|]. intros k3 H3 Hs3. by apply HQ.
Qed.

(** ** Mutexes *)

Definition firmes (k k' : kernel) : Prop := (todos_los_procesos k', k_cpus k') = (todos_los_procesos k, k_cpus k).
#[export] Instance firmes_equiv : Equivalence firmes.
Proof. split; red; unfold firmes; congruence. Qed.
Lemma mismos_firmes k k' : mismos k k' -> firmes k k'.
Proof. unfold mismos, tablas, firmes. intros [=]. congruence. Qed.

Lemma cumple_entregar sr M i p resto m (Q : unit -> kernel -> Prop) k :
  Inv sr M k -> lista_mutexes k !! i = Some m -> cola_bloqueados m = p :: resto ->
  (forall k', Inv sr M k' -> firmes k k' ->
     lista_mutexes k' = alter (fun m => con_asignado p (con_bloqueados resto m)) i (lista_mutexes k) ->
     (forall q c, q <> p -> k_pcbs k !! q = Some c -> exists c', k_pcbs k' !! q = Some c' /\ estado c' = estado c) -> Q tt k') ->
  cumple (entregar_mutex i p resto) Q k.
Proof.
  intros H Hi Hm HQ. destruct (prio_bloqueado _ _ _ _ _ p H Hi) as (b & Hb & He & Hpr); [rewrite Hm; left|].
  unfold entregar_mutex. pasos.
  set (k1 := con_k_pcbs _ _).
  assert (H1 : Inv sr (p :: M) k1).
  { exact (Inv_entregar _ _ k p b (con_estado READY (con_mutex_esperando None b)) i m resto H Hb Hi Hm eq_refl Hpr ltac:(done)). }
  assert (Hb1 : k_pcbs k1 !! p = Some (con_estado READY (con_mutex_esperando None b))).
  { unfold k1. cbn. by rewrite lookup_insert, decide_True. }
  eapply cumple_encolar; [exact H1|exact Hb1|done|]. intros k2 H2 Hs2 Ep2.
  assert (Hv2 : vivo k2 p) by (eapply (mismos_vivo _ _ _ _ k1 k2); [done..|by eexists]).
  destruct Hv2 as [b2 Hb2].
  assert (He2 : estado b2 <> NEW).
  { eapply (duenio_de sr M k2 i (con_asignado p (con_bloqueados resto m))); [done| |done].
    rewrite (mismos_mutexes _ _ Hs2). unfold k1. cbn. by rewrite list_lookup_alter_eq, Hi. }
  eapply cumple_recalcular; [exact H2|exact Hb2|done|]. intros k3 H3 Hs3. pose proof (proj1 Hs3) as Hm3. apply HQ; [done| | |].
  - transitivity k2; [|by apply mismos_firmes]. exact (mismos_firmes k1 k2 Hs2).
  - by rewrite (mismos_mutexes _ _ Hm3), (mismos_mutexes _ _ Hs2).
  - intros q c Hq Hc. assert (Hc2 : k_pcbs k2 !! q = Some c).
    { rewrite Ep2. unfold k1. cbn. by rewrite !lookup_insert_ne. }
    destruct (solo_prioridades_lookup _ _ _ _ Hs3 Hc2) as (c' & Hc' & _ & He' & _). eauto.
Qed.

Lemma cumple_sin_pid pid l (Q : list Z -> kernel -> Prop) k :
  Forall (vivo k) l -> pid ∉ l -> Q l k -> cumple (sin_pid pid l) Q k.
Proof.
  intros Hl. revert Q. induction Hl as [|p l [b Hb] Hl IH]; intros Q Hp HQ; [done|]. cbn [sin_pid]. pasos.
  rewrite elem_of_cons in Hp. apply IH; [tauto|]. paso. destruct (Z.eqb_spec p pid) as [->|]; [tauto|done].
Qed.

Lemma alter_igual {A} (f : A -> A) (l : list A) (i : nat) x : l !! i = Some x -> f x = x -> alter f i l = l.
Proof. intros Hi Hf. destruct (alter_medio f _ _ _ Hi) as (l1 & l2 & E & ->). by rewrite Hf. Qed.

Lemma cumple_liberar_bucle sr M n i p (Q : unit -> kernel -> Prop) k :
  Inv sr (p :: M) k -> length (lista_mutexes k) = (i + n)%nat ->
  (forall j m, (j < i)%nat -> lista_mutexes k !! j = Some m -> asignado_a_pid m <> p) ->
  (forall k', Inv sr (p :: M) k' -> firmes k k' ->
     Forall (fun m => asignado_a_pid m <> p) (lista_mutexes k') -> Q tt k') ->
  cumple (liberar_mutexes_bucle n i p) Q k.
Proof.
  revert i k. induction n as [|n IH]; intros i k H Hl Hj HQ; cbn [liberar_mutexes_bucle].
  { apply HQ; [done|reflexivity|]. apply Forall_lookup. intros j m Hm. apply (Hj j); [|done].
    apply lookup_lt_Some in Hm. lia. }
  destruct (lookup_lt_is_Some_2 (lista_mutexes k) i ltac:(lia)) as [m Hm]. pasos.
  pose proof (tomado_fuera _ _ _ _ H) as (_&_&_&_&Hpm&_&_).
  assert (Hpb : p ∉ cola_bloqueados m) by (intros Hx; by apply Hpm, (en_mutexes_lookup k i m)).
  assert (Hp0 : 0 <= p).
  { pose proof (i_pids _ _ _ H) as Hp. rewrite Forall_forall in Hp. apply Hp. rewrite <-(i_perm _ _ _ H).
    apply lugares_dec. do 6 right. left. }
  assert (HI : forall m' k1, Inv sr (p :: M) k1 -> firmes k k1 ->
     lista_mutexes k1 = alter (fun _ => m') i (lista_mutexes k) -> asignado_a_pid m' <> p ->
     cumple (liberar_mutexes_bucle n (S i) p) Q k1).
  { intros m' k1 H1 Ht El Hm'. apply IH; [done|rewrite El, length_alter; lia| |].
    - intros j x Hjx. rewrite El. destruct (decide (i = j)) as [->|Hne].
      + rewrite list_lookup_alter_eq, Hm. by intros [= <-].
      + rewrite list_lookup_alter_ne by done. apply Hj. lia.
    - intros k2 H2 Ht2. apply HQ; [done|by etrans]. }
  assert (Eal : forall f, alter f i (lista_mutexes k) = alter (fun _ => f m) i (lista_mutexes k)).
  { intros f. apply list_alter_ext; [|done]. intros x Hx. simplify_eq. done. }
  destruct (Z.eqb_spec (asignado_a_pid m) p) as [Ha|Ha].
  - destruct (cola_bloqueados m) as [|s resto] eqn:Hc; pasos.
    + eapply (HI (con_asignado (-1) m)); [|done|exact (Eal _)|cbn; lia].
      eapply Inv_duenio; [done..|by left].
    + eapply cumple_entregar; [exact H|exact Hm|exact Hc|]. intros k1 H1 Ht1 El1 _.
      eapply (HI (con_asignado s (con_bloqueados resto m))); [done|done|by rewrite El1, (Eal (fun m => _))|].
      cbn. intros ->. apply Hpb. left.
  - pasos. apply cumple_sin_pid; [|done|].
    { apply Forall_forall. intros q Hq. eapply Inv_vivo; [done|]. apply lugares_dec.
      pose proof (en_mutexes_lookup k i m q Hm Hq). tauto. }
    pasos. eapply (HI m); [|done|cbn|done].
    + rewrite (alter_igual _ _ _ m); [|done|by destruct m]. by apply (Inv_misma _ _ k).
    + rewrite (Eal (con_bloqueados _)). by destruct m.
Qed.

Lemma cumple_liberar_mutexes sr M p (Q : unit -> kernel -> Prop) k :
  Inv sr (p :: M) k ->
  (forall k', Inv sr (p :: M) k' -> firmes k k' ->
     Forall (fun m => asignado_a_pid m <> p) (lista_mutexes k') -> Q tt k') ->
  cumple (liberar_mutexes_de_proceso p) Q k.
Proof.
  intros H HQ. unfold liberar_mutexes_de_proceso. pasos.
  eapply (cumple_liberar_bucle sr M); [by apply (Inv_misma _ _ k)|done|intros; lia|].
  intros k1 H1 Ht Hf. pasos. apply HQ; [by apply (Inv_misma _ _ k1)|done|done].
Qed.
