(* ===== verification/SchedSeguroMem.v ===== *)
(** * SchedSeguroMem: the exchanges with Memory keep the invariant

    The demultiplexer, the requests, the creation and the end of a process, and the
    moves of a process through BLOCK and the list of the suspended. *)

From S2P Require Import Prelude Wire Tipos Mensajes Texto SchedTipos SchedColas SchedMutex SchedMemoria SchedIO SchedCpu SchedPlan SchedInv SchedInvOps SchedInvFin SchedSeguroOps.

(** ** Notifications *)

Lemma cumple_marcar_exit l k : Forall (vivo k) l -> cumple (marcar_exit l) (fun _ _ => True) k.
Proof.
  revert k. induction l as [|p l IH]; intros k Hl; [done|]. apply Forall_cons in Hl as [[b Hb] Hl].
  cbn [marcar_exit]. pasos. destruct (bool_decide _); pasos; [by apply IH|].
  apply IH. eapply Forall_impl; [exact Hl|]. intros q [c Hc]. unfold vivo. cbn.
  destruct (decide (q = p)) as [->|Hne].
  - rewrite lookup_insert, decide_True by done. eauto.
  - rewrite lookup_insert_ne by done. eauto.
Qed.

Lemma cumple_bsod sr M (Q : unit -> kernel -> Prop) k : Inv sr M k -> Q tt k -> cumple manejar_bsod Q k.
Proof.
  intros H HQ. unfold manejar_bsod. pasos. destruct (sistema_corrupto k); [done|]. pasos.
  eapply cumple_mono; [apply cumple_marcar_exit|].
  - exact (todos_vivos _ _ _ H).
  - intros [] k' _. by pasos.
Qed.

Lemma cumple_desalojar cs (Q : unit -> kernel -> Prop) k :
  Forall (vivo k) (omap proceso_actual cs) -> (forall k', misma k k' -> Q tt k') -> cumple (desalojar_bucle cs) Q k.
Proof.
  revert k. induction cs as [|c cs IH]; intros k Hl HQ; [by apply HQ|]. cbn [desalojar_bucle]. cbn in Hl. pasos.
  destruct (proceso_actual c) as [p|]; [apply Forall_cons in Hl as [[b Hb] Hl]|by apply IH].
  destruct (_ && _)%bool; [|by apply IH]. pasos.
  apply cumple_no_toca; [apply no_toca_enviar|]. intros [] k1 H1. apply IH.
  - eapply Forall_impl; [exact Hl|]. intros q [d Hd]. exists d. by eapply misma_leer.
  - intros k2 H2. apply HQ. by etrans.
Qed.

Lemma cumple_no_toca_bind {A B} (m : K A) (f : A -> K B) (Q : B -> kernel -> Prop) k :
  no_toca m -> (forall a k', misma k k' -> cumple (f a) Q k') -> cumple (m ≫= f) Q k.
Proof. intros Hm Hf. apply cumple_bind. by apply cumple_no_toca. Qed.

(** A receiver, or another step that does not see the core, then the rest. *)
Ltac ajeno :=
  lazymatch goal with
  | |- cumple (_ ≫= _) _ _ => apply cumple_no_toca_bind; [solve [auto with no_toca]|]
  | |- _ => apply cumple_no_toca; [solve [auto with no_toca]|]
  end; cbv beta.

Lemma cumple_despachar sr M s op (Q : bool -> kernel -> Prop) k :
  Inv sr M k -> (forall r k', misma k k' -> Q r k') -> cumple (despachar_si_es_notificacion s op) Q k.
Proof.
  intros H HQ. unfold despachar_si_es_notificacion.
  destruct (_ =? _).
  { unfold handle_memoria_corrupta_bsod. apply cumple_bind. ajeno. intros [] k1 H1.
    eapply cumple_bsod; [eapply (Inv_misma _ _ k); eassumption|]. by apply HQ. }
  destruct (_ =? _).
  { unfold handle_memoria_liberada. apply cumple_bind. ajeno. intros [] k1 H1.
    apply cumple_no_toca; [auto with no_toca|]. intros [] k2 H2. apply HQ. by etrans. }
  destruct (_ =? _).
  { unfold handle_iniciar_compactacion. apply cumple_bind. ajeno. intros [] k1 H1.
    unfold manejar_compactacion_inicio, desalojar_todos_procesos. pasos.
    apply cumple_desalojar.
    - eapply (cpus_vivas sr M). by apply (Inv_misma _ _ k).
    - intros k2 H2. apply cumple_no_toca; [apply no_toca_enviar|]. intros [] k3 H3. pasos. apply HQ.
      etrans; [exact H1|]. etrans; [|exact H3]. exact H2. }
  destruct (_ =? _).
  { unfold handle_finalizar_compactacion. apply cumple_bind. ajeno. intros [] k1 H1.
    unfold manejar_compactacion_fin. pasos. apply HQ. exact H1. }
  destruct (_ =? _); [|by apply HQ].
  unfold handle_nueva_memoria_disponible. apply cumple_bind. ajeno. intros [[[? ?] ?] ?] k1 H1.
  apply cumple_no_toca; [auto with no_toca|]. intros [] k2 H2. apply HQ. by etrans.
Qed.

Lemma cumple_respuesta sr M s (Q : Z -> kernel -> Prop) k :
  Inv sr M k -> (forall r k', misma k k' -> Q r k') -> cumple (recibir_respuesta_de_memoria s) Q k.
Proof.
  unfold recibir_respuesta_de_memoria. intros H HQ. pasos. generalize (length (k_entrada s k)) as n.
  intros n. revert k H HQ. induction n as [|n IH]; intros k H HQ; cbn [recibir_respuesta_bucle].
  all: ajeno; intros op k1 H1; destruct (_ =? -1); [by apply HQ|]; apply cumple_bind.
  all: eapply cumple_despachar; [eapply (Inv_misma _ _ k); eassumption|]; intros [] k2 H2; cbn; try (apply HQ; by etrans).
  - done.
  - assert (H3 : misma k k2) by by etrans. apply IH; [eapply (Inv_misma _ _ k); eassumption|].
    intros r k3 H4. apply HQ. by etrans.
Qed.

Lemma cumple_pedir sr M pedido (Q : Z -> kernel -> Prop) k :
  Inv sr M k -> (forall r k', misma k k' -> Q r k') -> cumple (pedir_ok pedido) Q k.
Proof.
  intros H HQ. unfold pedir_ok. pasos. ajeno. intros [] k1 H1. apply cumple_bind.
  eapply cumple_respuesta; [eapply (Inv_misma _ _ k); eassumption|]. intros r k2 H2. apply cumple_no_toca_bind.
  { destruct (_ =? -1); auto with no_toca. }
  intros [] k3 H3. apply HQ. etrans; [done|]. by etrans.
Qed.

Lemma cumple_notificar_fin sr M pid (Q : unit -> kernel -> Prop) k :
  Inv sr M k -> (forall k', misma k k' -> Q tt k') -> cumple (notificar_fin_a_memoria pid) Q k.
Proof.
  intros H HQ. unfold notificar_fin_a_memoria. pasos. destruct (_ <? 0); [by apply HQ|]. apply cumple_bind.
  eapply cumple_pedir; [done|]. intros r k1 H1. by apply HQ.
Qed.

Lemma cumple_escribir_stdin sr M pid dir datos size (Q : bool -> kernel -> Prop) k :
  Inv sr M k -> (forall r k', misma k k' -> Q r k') -> cumple (escribir_stdin_en_memoria pid dir datos size) Q k.
Proof.
  intros H HQ. unfold escribir_stdin_en_memoria. apply cumple_bind. eapply cumple_pedir; [done|].
  intros r k1 H1. by apply HQ.
Qed.

(** ** The end of a process *)

Lemma cumple_borrar sr M p (Q : unit -> kernel -> Prop) k :
  Inv sr (p :: M) k -> Forall (fun m => asignado_a_pid m <> p) (lista_mutexes k) ->
  (forall k', Inv sr M k' -> k_cpus k' = k_cpus k -> Q tt k') -> cumple (_ ← eliminar_pcb p; liberar_pcb p) Q k.
Proof.
  intros H Hm HQ. unfold eliminar_pcb. pasos. apply cumple_posicion; [by eapply todos_vivos|].
  destruct (tomado_vivo _ _ _ _ H) as [b Hb].
  destruct (indice_pid_Some p (todos_los_procesos k)) as (i & -> & Hi).
  { apply (i_vivos _ _ _ H). by exists b. }
  pasos. eapply cumple_liberar; [cbn; by rewrite lookup_insert, decide_True|]. apply HQ; [|done].
  eapply Inv_misma; [|exact (Inv_fin _ _ _ _ _ H Hi Hm)]. unfold misma, nucleo. cbn.
  by rewrite delete_insert_eq.
Qed.

Lemma cumple_terminar sr M p b (Q : unit -> kernel -> Prop) k :
  Inv sr (p :: M) k -> k_pcbs k !! p = Some b -> estado b <> NEW ->
  (forall k', Inv sr M k' -> k_cpus k' = k_cpus k -> Q tt k') -> cumple (terminar_proceso p) Q k.
Proof.
  intros H Hb Hn HQ. pose proof (prio_tomado _ _ _ _ _ H Hb Hn) as Hpr. unfold terminar_proceso. paso.
  eapply cumple_estado; [exact H|exact Hb|done..|]. intros k1 H1 E1 _. paso.
  eapply cumple_liberar_mutexes; [exact H1|]. intros k2 H2 F2 Hf. paso.
  eapply cumple_notificar_fin; [exact H2|]. intros k3 H3.
  apply (cumple_borrar sr M); [by apply (Inv_misma _ _ k2)| |].
  - rewrite (mismos_mutexes k2 k3); [done|]. by apply misma_mismos.
  - intros k4 H4 E4. apply HQ; [done|]. rewrite E4. pose proof (mismos_firmes _ _ (misma_mismos _ _ H3)) as F3.
    assert (F : firmes k1 k3) by by etrans. injection F as _ ->. by rewrite E1.
Qed.

Lemma cumple_remover_ajeno sr M p (Q : unit -> kernel -> Prop) k :
  Inv sr M k -> p ∉ (lista_suspendidos k).*1 -> Q tt k -> cumple (remover_de_lista_suspendidos p) Q k.
Proof.
  intros H Hp HQ. unfold remover_de_lista_suspendidos. pasos. apply cumple_posicion.
  - apply Forall_forall. intros q Hq. eapply Inv_vivo; [done|]. apply lugares_dec.
    apply (i_susp _ _ _ H) in Hq. tauto.
  - by rewrite (proj2 (indice_pid_None _ _) Hp).
Qed.

Lemma cumple_seg_fault sr M p b (Q : unit -> kernel -> Prop) k :
  Inv sr (p :: M) k -> k_pcbs k !! p = Some b -> estado b <> NEW ->
  (forall k', Inv sr M k' -> Q tt k') -> cumple (finalizar_pcb_por_seg_fault p) Q k.
Proof.
  intros H Hb Hn HQ. pose proof (prio_tomado _ _ _ _ _ H Hb Hn) as Hpr. unfold finalizar_pcb_por_seg_fault. paso.
  eapply cumple_estado; [exact H|exact Hb|done..|]. intros k1 H1 E1 Hb1. paso.
  eapply cumple_remover_ajeno; [exact H1|by eapply tomado_no_susp|]. paso.
  eapply cumple_liberar_mutexes; [exact H1|]. intros k2 H2 _ Hf. paso.
  eapply cumple_notificar_fin; [exact H2|]. intros k3 H3. paso.
  assert (H4 : Inv sr (p :: M) k3) by (by apply (Inv_misma _ _ k2)).
  destruct (tomado_vivo _ _ _ _ H4) as [b3 Hb3].
  eapply cumple_estado; [exact H4|exact Hb3|done| |done|].
  { intros Hx. exact (i_prio _ _ _ H4 p b3 Hb3 Hx). }
  intros k5 H5 -> _. apply (cumple_borrar sr M); [done| |by intros; apply HQ]. cbn.
  rewrite (mismos_mutexes k2 k3); [done|]. by apply misma_mismos.
Qed.

(** ** Creation *)

Definition contador_ok (k : kernel) : Prop := contador_pids k < 2147483647.

Lemma cumple_crear sr M path prio (Q : option Z -> kernel -> Prop) k :
  Inv sr M k -> contador_ok k ->
  (forall r k', Inv sr M k' -> (forall q c, k_pcbs k !! q = Some c -> k_pcbs k' !! q = Some c) -> Q r k') ->
  cumple (crear_proceso path prio) Q k.
Proof.
  intros H Hc HQ. unfold crear_proceso. destruct (bool_decide _); [by apply HQ|].
  unfold generar_pid. pasos. destruct (Z.eqb_spec (contador_pids k) 2147483647) as [E|_]; [unfold contador_ok in Hc; lia|].
  pasos. set (pid := contador_pids k). unfold registrar_pcb, enviar_creacion_proceso_a_memory. pasos. cbn.
  assert (HC := Inv_crear sr M k (pcb_nuevo prio (k_reloj k)) H eq_refl eq_refl).
  fold pid in HC. set (k1 := con_todos_los_procesos _ _) in HC |- *. cbn in k1.
  assert (HT : forall r k2, misma k1 k2 -> cumple (k ← k_get;
    match cola_procesos_new k with
    | Some q => _ ← k_mod (con_cola_procesos_new (Some (q ++ [pid]))); _ ← post_sem_new; mret (Some pid)
    | None => _ ← liberar_pcb pid; mret None
    end) Q k2 /\ r = r :> bool).
  { intros r k2 H2. split; [|done]. pose proof (Inv_misma _ _ _ _ H2 HC) as HC2. pasos.
    destruct (i_colas _ _ _ HC2) as (_ & [q Hq] & _). rewrite Hq. pasos. apply HQ.
    2: { intros r0 c Hr0. change (k_pcbs k2 !! r0 = Some c). eapply (misma_leer k1); [exact H2|]. unfold k1. cbn. rewrite lookup_insert_ne; [done|].
      intros <-. assert (Hv : vivo k pid) by by eexists. apply (vivo_todos _ _ _ _ H) in Hv.
      pose proof (i_pids _ _ _ H) as Hp. rewrite Forall_forall in Hp. specialize (Hp _ Hv). unfold pid in Hp. lia. }
    eapply (Inv_misma _ _ (con_cola_procesos_new (Some (q ++ [pid])) k2)); [done|].
    eapply Inv_new; [exact HC2|unfold en_new; rewrite Hq; cbn; perm|].
    rewrite Forall_app, Forall_singleton. split.
    - pose proof (i_new _ _ _ HC2) as Hn. unfold en_new in Hn. by rewrite Hq in Hn.
    - exists (pcb_nuevo prio (k_reloj k)). split; [|done]. eapply misma_leer; [exact H2|].
      unfold k1. cbn. by rewrite lookup_insert, decide_True. }
  destruct (_ =? -1); [pasos; by apply (HT false k1)|].
  apply cumple_bind. ajeno. intros [] k2 H2. apply cumple_bind.
  eapply cumple_respuesta; [by eapply Inv_misma; [exact H2|]|]. intros r k3 H3.
  assert (H13 : misma k1 k3) by by etrans.
  destruct (_ =? -1); [pasos; by apply (HT false k3)|]. destruct (negb _); [pasos; by apply (HT false k3)|].
  ajeno. intros [] k4 H4. pasos. apply (HT true k4). by etrans.
Qed.
