(* ===== verification/SchedSeguroIO.v ===== *)
(** * SchedSeguroIO: CPUs, interfaces and suspension keep the invariant *)

From S2P Require Import Prelude Wire Tipos Mensajes Texto SchedTipos SchedColas SchedMutex SchedMemoria SchedIO SchedCpu SchedPlan SchedInv SchedInvOps SchedInvFin SchedSeguroOps SchedSeguroMem.

(** ** CPUs *)

Lemma indice_cpu_lookup id cs i : indice_cpu id cs = Some i -> exists c, cs !! i = Some c /\ q_cpu_id c = id.
Proof. intros H. apply indice_de_Some in H as (c & Hc & E & _). exists c. split; [done|lia]. Qed.

Lemma cpu_de_ok id k i : indice_cpu id (k_cpus k) = Some i -> cpu_de id k = k_cpus k !! i.
Proof. unfold cpu_de. by intros ->. Qed.

Lemma Inv_cpu_entrada sr M k i c : Inv sr M k -> k_cpus k !! i = Some c -> cpu_ok c.
Proof. intros H Hi. pose proof (i_cpus _ _ _ H) as Hc. rewrite Forall_lookup in Hc. by apply (Hc i). Qed.

(** A change of the entry of a CPU that does not move its process. *)
Lemma cumple_cpu_igual sr M id f (Q : unit -> kernel -> Prop) k :
  Inv sr M k -> (forall c, cpu_de id k = Some c -> proceso_actual (f c) = proceso_actual c /\ (cpu_ok c -> cpu_ok (f c))) ->
  (forall cs, Inv sr M (con_k_cpus cs k) -> Q tt (con_k_cpus cs k)) -> Q tt k ->
  cumple (modificar_cpu id f) Q k.
Proof.
  intros H Hf HQ HQk. unfold modificar_cpu. paso.
  destruct (indice_cpu id (k_cpus k)) as [i|] eqn:Ei; [|done].
  destruct (indice_cpu_lookup _ _ _ Ei) as (c & Hc & _).
  destruct (Hf c) as [Hp Hok]; [by rewrite (cpu_de_ok _ _ _ Ei)|]. apply HQ.
  eapply Inv_cpu; [done..|by rewrite Hp| |].
  - rewrite Hp. pose proof (i_exec _ _ _ H) as Hx. unfold en_cpus in Hx.
    destruct (alter_medio f _ _ _ Hc) as (l1 & l2 & E & _). rewrite E, omap_medio, !Forall_app in Hx. tauto.
  - apply Hok. by eapply Inv_cpu_entrada.
Qed.

(** Changing the first entry of a CPU leaves it the first. *)
Lemma indice_alter id f i (cs : list t_cpu) c :
  indice_cpu id cs = Some i -> cs !! i = Some c -> (forall c, q_cpu_id (f c) = q_cpu_id c) ->
  indice_cpu id (alter f i cs) = Some i.
Proof.
  intros Ei Hc Hf. apply indice_de_Some in Ei as (x & Hx & Ex & Hmin).
  rewrite Hc in Hx. injection Hx as <-.
  apply indice_de_Some. exists (f c). cbn in *. split_and!.
  - by rewrite list_lookup_alter_eq, Hc.
  - by rewrite Hf.
  - intros j y Hj. rewrite list_lookup_alter_ne by lia. by apply Hmin.
Qed.

(** The process of a CPU comes to the hands of its receptor. *)
Lemma cumple_retirar sr id f (Q : unit -> kernel -> Prop) k :
  Inv sr [] k -> (forall c, proceso_actual (f c) = None /\ q_cpu_id (f c) = q_cpu_id c) ->
  (forall k', Inv sr (option_list (cpu_de id k ≫= proceso_actual)) k' ->
     (forall p, cpu_de id k ≫= proceso_actual = Some p -> exists b, k_pcbs k' !! p = Some b /\ estado b = EXEC) ->
     cpu_de id k' = f <$> cpu_de id k -> contador_pids k' = contador_pids k -> Q tt k') ->
  cumple (modificar_cpu id f) Q k.
Proof.
  intros H Hf HQ. unfold modificar_cpu. paso. unfold cpu_de in *.
  destruct (indice_cpu id (k_cpus k)) as [i|] eqn:Ei; cbn in *.
  - destruct (indice_cpu_lookup _ _ _ Ei) as (c & Hc & Hid). rewrite Hc in HQ. cbn in HQ. apply HQ.
    + eapply Inv_cpu; [done..| | |].
      * rewrite (proj1 (Hf c)). perm.
      * rewrite (proj1 (Hf c)). constructor.
      * split; [|by intros _; rewrite (proj1 (Hf c))]. rewrite (proj2 (Hf c)).
        exact (proj1 (Inv_cpu_entrada _ _ _ _ _ H Hc)).
    + intros p Hp. pose proof (i_exec _ _ _ H) as Hx. rewrite Forall_forall in Hx. apply Hx.
      unfold en_cpus. apply list_elem_of_omap. exists c. split; [by eapply list_elem_of_lookup_2|done].
    + change (indice_cpu id (alter f i (k_cpus k)) ≫= (alter f i (k_cpus k) !!.) = Some (f c)).
      rewrite (indice_alter id f i (k_cpus k) c) by (done || apply Hf). cbn. by rewrite list_lookup_alter_eq, Hc.
    + done.
  - apply HQ; [done|done|by rewrite Ei|done].
Qed.

Definition cpu_retirada (id : Z) (k : kernel) : Prop := forall c, cpu_de id k = Some c -> proceso_actual c = None.
Definition cpu_reservada (id : Z) (k : kernel) : Prop :=
  forall c, cpu_de id k = Some c -> proceso_actual c = None /\ disponible c = false.
Lemma reservada_retirada id k : cpu_reservada id k -> cpu_retirada id k.
Proof. intros H c Hc. apply (H c Hc). Qed.
Lemma cpu_reservada_igual id k k' : k_cpus k' = k_cpus k -> cpu_reservada id k -> cpu_reservada id k'.
Proof. unfold cpu_reservada, cpu_de. by intros ->. Qed.

Lemma cpu_retirada_igual id k k' : k_cpus k' = k_cpus k -> cpu_retirada id k -> cpu_retirada id k'.
Proof. unfold cpu_retirada, cpu_de. by intros ->. Qed.

Lemma cumple_liberar_reservada sr M id (Q : unit -> kernel -> Prop) k :
  Inv sr M k -> cpu_retirada id k -> (forall k', Inv sr M k' -> Q tt k') -> cumple (liberar_cpu_reservada id) Q k.
Proof.
  intros H Hr HQ. unfold liberar_cpu_reservada. paso. eapply cumple_cpu_igual; [exact H| | |].
  - intros c Hc. split; [done|]. intros [Hid _]. split; [done|]. intros _. exact (Hr c Hc).
  - intros cs Hcs. apply cumple_no_toca; [auto with no_toca|]. intros [] k1 H1. apply HQ. by eapply Inv_misma.
  - apply cumple_no_toca; [auto with no_toca|]. intros [] k1 H1. apply HQ. by eapply Inv_misma.
Qed.

Lemma cumple_iniciar_timer sr M id p q (Q : unit -> kernel -> Prop) k :
  Inv sr M k -> (forall k', Inv sr M k' -> Q tt k') -> cumple (iniciar_quantum_timer id p q) Q k.
Proof.
  intros H HQ. unfold iniciar_quantum_timer. paso.
  eapply cumple_cpu_igual; [exact H|done| |]; intros; paso; apply HQ; (eapply Inv_misma; [|eassumption]); done.
Qed.

Lemma cumple_quantum_timer sr i (Q : unit -> kernel -> Prop) k :
  Inv sr [] k -> (forall k', Inv sr [] k' -> Q tt k') -> cumple (quantum_timer_thread i) Q k.
Proof.
  intros H HQ. unfold quantum_timer_thread. pasos. destruct (_ !! i) as [t|]; pasos.
  set (k1 := con_timers_quantum _ k). assert (H1 : Inv sr [] k1) by (by apply (Inv_misma _ _ k)).
  destruct (indice_de _ (k_cpus k)) as [j|] eqn:Ej; [|by apply HQ]. pasos.
  apply indice_de_Some in Ej as (c & Hc & _). rewrite Hc.
  apply cumple_no_toca; [auto with no_toca|]. intros [] k2 H2. apply HQ. eapply Inv_misma; [exact H2|].
  eapply (Inv_cpu sr [] [] k1); [done|done|done| |].
  - pose proof (i_exec _ _ _ H) as Hx. unfold en_cpus in Hx. cbn.
    destruct (alter_medio (fun c => c) _ _ _ Hc) as (l1 & l2 & E & _). rewrite E, omap_medio, !Forall_app in Hx. tauto.
  - exact (Inv_cpu_entrada _ _ _ _ _ H Hc).
Qed.

Lemma cumple_volver sr p b id (Q : unit -> kernel -> Prop) k :
  Inv sr [p] k -> k_pcbs k !! p = Some b -> estado b = EXEC -> cpu_reservada id k ->
  (forall k', Inv sr [] k' -> Q tt k') -> cumple (volver_a_cpu p id) Q k.
Proof.
  intros H Hb He Hr HQ. unfold volver_a_cpu, devolver_proceso_a_misma_cpu. pasos.
  assert (HE : cumple (encolar_en_ready_y_notificar p) Q k).
  { eapply cumple_encolar; [done|done|congruence|]. intros. by apply HQ. }
  destruct (cpu_de id k) as [c|] eqn:Hc; [|exact HE].
  destruct (q_socket c =? -1); [exact HE|]. pasos. unfold modificar_cpu. pasos.
  destruct (Hr c Hc) as [Hc0 Hd]. pose proof Hc as Hi.
  unfold cpu_de in Hi. destruct (indice_cpu id (k_cpus k)) as [i|] eqn:Ei; [|done]. cbn in Hi.
  destruct (Inv_cpu_entrada _ _ _ _ _ H Hi) as [Hid Hok].
  ajeno. intros [] k1 H1.
  assert (H2 : Inv sr [] k1).
  { eapply Inv_misma; [exact H1|]. eapply (Inv_cpu sr [p] [] k); [done|done| | |].
    - cbn. rewrite Hc0. cbn. perm.
    - cbn. constructor; [|constructor]. by exists b.
    - split; [done|]. cbn. congruence. }
  pose proof (misma_leer _ _ p b H1 Hb) as Hb1. pasos.
  destruct (_ >? 0).
  - eapply cumple_iniciar_timer; [exact H2|]. intros k2 H3. pasos. by apply HQ.
  - pasos. by apply HQ.
Qed.

Lemma cumple_enviar_cpu sr M p b (Q : Z -> kernel -> Prop) k :
  Inv sr (p :: M) k -> k_pcbs k !! p = Some b -> estado b = READY ->
  (Q (-1) k) ->
  (forall i c k', k_cpus k !! i = Some c -> cpu_libre c = true -> 0 < q_cpu_id c ->
     misma (con_k_cpus (alter (fun c => con_disponible false (con_proceso_actual (Some p) c)) i (k_cpus k)) k) k' ->
     Q (q_cpu_id c) k') ->
  cumple (enviar_proceso_a_cpu p) Q k.
Proof.
  intros H Hb He HQ1 HQ. unfold enviar_proceso_a_cpu. pasos. destruct (_ =? 0)%nat; [done|]. pasos.
  destruct (indice_de cpu_libre (k_cpus k)) as [i|] eqn:Ei; [|done].
  apply indice_de_Some in Ei as (c & Hc & Hl & _). rewrite Hc. pasos.
  ajeno. intros [] k1 H1. pasos. eapply HQ; [done|done| |done].
  exact (proj1 (Inv_cpu_entrada _ _ _ _ _ H Hc)).
Qed.

(** ** I/O *)

Lemma cumple_leer_io i io (Q : t_interfaz_io -> kernel -> Prop) k :
  tabla_ios k !! i = Some io -> Q io k -> cumple (leer_io i) Q k.
Proof. unfold cumple, leer_io. by intros ->. Qed.

Lemma cumple_en_io sr M p b i io req (Q : bool -> kernel -> Prop) k :
  Inv sr (p :: M) k -> k_pcbs k !! p = Some b -> estado b <> NEW -> r_proceso req = p ->
  tabla_ios k !! i = Some io -> activa io = true ->
  (forall k', Inv sr M k' -> Q true k') -> cumple (encolar_io_request i req) Q k.
Proof.
  intros H Hb Hn Hr Hio Ha HQ. pose proof (prio_tomado _ _ _ _ _ H Hb Hn) as Hpr. unfold encolar_io_request. paso.
  eapply cumple_leer_io; [done|]. rewrite Ha, Hr. cbn [negb]. paso.
  eapply cumple_estado; [exact H|exact Hb|done..|]. intros k1 H1 E1 Hb1. paso.
  eapply cumple_estado; [exact H1|exact Hb1|done|by rewrite E1|done|]. intros k2 H2 E2 Hb2.
  assert (Hno : p ∉ tabla_ios k2 ≫= pedidos) by (by eapply en_block_no).
  pasos. ajeno. intros [] k3 H3.
  pose proof (Inv_poner_block _ _ _ _ _ H2 Hb2 eq_refl) as H4.
  pose proof (Inv_misma _ _ _ _ H3 H4) as H5. unfold modificar_io. pasos. apply HQ.
  assert (Hio3 : tabla_ios k3 = tabla_ios k).
  { injection (misma_mismos _ _ H3). intros. cbn in *. by rewrite E2, E1 in *. }
  assert (Hbl : cola_procesos_block k3 = cola_procesos_block k2 ++ [p]).
  { injection (misma_mismos _ _ H3). by intros. }
  eapply (Inv_io_pedir _ _ _ i io _ p H5).
  - by rewrite Hio3.
  - unfold pedidos. cbn. rewrite fmap_app. cbn. rewrite Hr. perm.
  - rewrite Hio3. by rewrite E2, E1 in Hno.
  - rewrite Hbl, elem_of_app. right. left.
Qed.

Lemma cumple_pedir_io sr p b oi req (Q : unit -> kernel -> Prop) k :
  Inv sr [p] k -> k_pcbs k !! p = Some b -> estado b <> NEW -> r_proceso req = p ->
  (forall i, oi = Some i -> exists io, tabla_ios k !! i = Some io /\ activa io = true) ->
  (forall k', Inv sr [] k' -> Q tt k') -> cumple (pedir_io p oi req) Q k.
Proof.
  intros H Hb Hn Hr Hi HQ. destruct oi as [i|]; cbn [pedir_io].
  - destruct (Hi i eq_refl) as (io & Hio & Ha). paso. eapply cumple_en_io; [done..|]. intros. paso. by apply HQ.
  - eapply cumple_encolar; [done..|]. intros. by apply HQ.
Qed.

Lemma indice_activa (f : t_interfaz_io -> bool) l i :
  indice_de (fun io => activa io && f io) l = Some i -> exists io, l !! i = Some io /\ activa io = true.
Proof. intros H. apply indice_de_Some in H as (io & Hio & E & _). apply andb_prop in E as [? _]. by exists io. Qed.

(** ** Out of BLOCK *)

(** A process that leaves BLOCK is in the hands of the handler, or already in
    swap: then writing it as SUSP_READY is all that is left to do. *)
Definition fuera_de_block (sr M : list Z) (p : Z) (b : t_pcb) (k : kernel) : Prop :=
  (estado b = BLOCK /\ Inv sr (p :: M) k) \/
  (estado b = SUSP_BLOCK /\ forall b', estado b' = SUSP_READY -> suspendido_en_swap b' = suspendido_en_swap b ->
     mutex_esperando b' = mutex_esperando b -> prioridad b' = prioridad b -> prioridad_dinamica b' = prioridad_dinamica b ->
     Inv (p :: sr) M (con_k_pcbs (<[p := b']> (k_pcbs k)) k)).

Lemma cumple_extraer sr M p (Q : option Z -> kernel -> Prop) k :
  Inv sr M k -> p ∉ tabla_ios k ≫= pedidos ->
  (p ∉ cola_procesos_block k -> Q None k) ->
  (forall b k', k_pcbs k' !! p = Some b -> fuera_de_block sr M p b k' -> Q (Some p) k') ->
  cumple (extraer_de_block p) Q k.
Proof.
  intros H Hp HQn HQ. unfold extraer_de_block. pasos.
  assert (Hv : Forall (vivo k) (cola_procesos_block k)).
  { apply Forall_forall. intros q Hq. eapply Inv_vivo; [done|]. apply lugares_dec. tauto. }
  apply cumple_posicion; [done|].
  destruct (indice_de _ (cola_procesos_block k)) as [i|] eqn:Ei; [|apply HQn; by apply indice_pid_None].
  apply indice_pid in Ei. assert (Hin : p ∈ cola_procesos_block k) by (by eapply list_elem_of_lookup_2).
  pose proof (i_block _ _ _ H) as HB. rewrite Forall_forall in HB. destruct (HB p Hin) as (b & Hb & He). pasos.
  destruct (bool_decide_reflect (estado b = SUSP_BLOCK)) as [Hs|Hs]; cbn [andb].
  - destruct (suspendido_en_swap b) eqn:Hsw; cbn [negb]; pasos. eapply HQ; [exact Hb|]. right. split; [done|].
    intros b' He' Hs' Hm' Hp' Hd'.
    assert (Hpr : prio_ok k b') by (unfold prio_ok; rewrite Hp', Hd'; apply (i_prio _ _ _ H p b Hb); congruence).
    exact (Inv_block_a_susp_ready sr M k i p b b' H Ei Hb Hs Hsw Hp He' ltac:(congruence) Hm' Hpr).
  - pasos. eapply HQ; [exact Hb|]. left. split; [naive_solver|]. by eapply Inv_sacar_block.
Qed.

Lemma cumple_desbloquear sr M p (Q : unit -> kernel -> Prop) k :
  Inv sr M k -> p ∉ tabla_ios k ≫= pedidos -> (forall sr' k', Inv sr' M k' -> Q tt k') ->
  cumple (desbloquear_proceso_por_io p) Q k.
Proof.
  intros H Hp HQ. unfold desbloquear_proceso_por_io. paso. eapply cumple_extraer; [done|done| |].
  - intros _. by eapply HQ.
  - intros b k1 Hb [[He H1]|[He H1]]; pasos; rewrite He.
    + rewrite bool_decide_eq_false_2 by done. eapply cumple_encolar; [exact H1|exact Hb|congruence|]. intros. by eapply HQ.
    + rewrite bool_decide_eq_true_2 by done. pasos. eapply HQ.
      eapply Inv_misma; [|by apply (H1 (con_estado SUSP_READY b))]. done.
Qed.

(** ** The workers *)

Lemma pedido_block sr M k i io p :
  Inv sr M k -> tabla_ios k !! i = Some io -> p ∈ pedidos io -> vivo k p.
Proof.
  intros H Hi Hp. pose proof (i_pedidos _ _ _ H) as [_ HB]. rewrite Forall_forall in HB.
  eapply Inv_vivo; [done|]. apply lugares_dec. do 3 right. left. apply HB.
  apply list_elem_of_bind. exists io. split; [done|]. by eapply list_elem_of_lookup_2.
Qed.

Lemma inv_io_quita sr k i io f p l :
  Inv sr [] k -> tabla_ios k !! i = Some io -> pedidos io ≡ₚ p :: l -> pedidos (f io) ≡ₚ l ->
  Inv sr [] (con_tabla_ios (alter f i (tabla_ios k)) k) /\ p ∉ alter f i (tabla_ios k) ≫= pedidos.
Proof.
  intros H Hi Hp Hl. split.
  - eapply Inv_io; [done..|]. exists [p]. perm.
  - destruct (pedidos_medio _ _ _ f Hi) as (l1 & l2 & E & E').
    pose proof (i_pedidos _ _ _ H) as [Hn _]. rewrite E in Hn.
    assert (P : l1 ++ pedidos io ++ l2 ≡ₚ p :: (l1 ++ pedidos (f io) ++ l2)) by perm.
    rewrite P, NoDup_cons in Hn. rewrite E'. tauto.
Qed.

Lemma cumple_worker_despachar sr i (Q : unit -> kernel -> Prop) k :
  Inv sr [] k -> (i < length (tabla_ios k))%nat -> (forall sr' k', Inv sr' [] k' -> Q tt k') ->
  cumple (io_worker_despachar i) Q k.
Proof.
  intros H Hi HQ. destruct (lookup_lt_is_Some_2 _ _ Hi) as [io Hio]. unfold io_worker_despachar, modificar_io. paso.
  eapply cumple_leer_io; [done|]. destruct (sem_cola io) as [|n]; [pasos|]. destruct (io_en_curso io) as [r|] eqn:Hc; [pasos|].
  destruct (negb _); [pasos|]. destruct (io_cola io) as [|req cola] eqn:Hq; pasos.
  { eapply HQ, Inv_io; [done..|]. exists []. unfold pedidos. rewrite Hq, Hc. cbn. rewrite Hc. done. }
  set (f := fun io => con_io_cola cola n io).
  assert (Hp : pedidos io ≡ₚ r_proceso req :: (r_proceso <$> cola)) by (unfold pedidos; by rewrite Hq, Hc, app_nil_r).
  assert (Hf : pedidos (f io) ≡ₚ r_proceso <$> cola) by (unfold pedidos, f; cbn; by rewrite Hc, app_nil_r).
  destruct (inv_io_quita _ _ _ _ f _ _ H Hio Hp Hf) as [H1 Hno].
  destruct (pedido_block sr [] k i io (r_proceso req) H Hio) as [b Hb]; [rewrite Hp; left|].
  set (k1 := con_tabla_ios _ k) in *.
  assert (HE : forall x, cumple (_ ← k_enviar (io_socket io) x; k_mod (fun k => con_tabla_ios (alter (con_en_curso (Some req)) i (tabla_ios k)) k)) Q k1).
  { intros x. ajeno. intros [] k2 H2. paso. eapply HQ.
    assert (Ht : tabla_ios k2 = tabla_ios k1) by (injection (misma_mismos _ _ H2); by intros).
    assert (Hbk : cola_procesos_block k2 = cola_procesos_block k1) by (injection (misma_mismos _ _ H2); by intros).
    eapply (Inv_io_pedir sr [] k2 i (f io) _ (r_proceso req)).
    - by apply (Inv_misma _ _ k1).
    - rewrite Ht. unfold k1. cbn. by rewrite list_lookup_alter_eq, Hio.
    - unfold pedidos, f. cbn. rewrite Hc. cbn. perm.
    - by rewrite Ht.
    - rewrite Hbk. pose proof (i_pedidos _ _ _ H) as [_ HB]. rewrite Forall_forall in HB. apply HB.
      apply list_elem_of_bind. exists io. split; [rewrite Hp; left|]. by eapply list_elem_of_lookup_2. }
  eapply cumple_leer; [exact Hb|].
  destruct req as [p t|p sz d|p d sz [bf|]]; try (apply HE).
  eapply cumple_desbloquear; [exact H1|done|exact HQ].
Qed.

Lemma cumple_terminar_stdin sr p size dir buffer (Q : unit -> kernel -> Prop) k :
  Inv sr [] k -> p ∉ tabla_ios k ≫= pedidos -> (forall sr' k', Inv sr' [] k' -> Q tt k') ->
  cumple (terminar_stdin p size dir buffer) Q k.
Proof.
  intros H Hp HQ. unfold terminar_stdin. paso. eapply cumple_extraer; [done|done| |].
  - intros _. by eapply HQ.
  - intros b k1 Hb [[He H1]|[He H1]]; pasos; rewrite He.
    + rewrite bool_decide_eq_false_2 by done. apply cumple_bind.
      eapply cumple_escribir_stdin; [exact H1|]. intros r k2 H2.
      pose proof (misma_leer _ _ _ _ H2 Hb) as Hb2. pose proof (Inv_misma _ _ _ _ H2 H1) as H3.
      destruct (negb r).
      * eapply cumple_seg_fault; [exact H3|exact Hb2|congruence|]. intros. by eapply HQ.
      * eapply cumple_encolar; [exact H3|exact Hb2|congruence|]. intros. by eapply HQ.
    + rewrite bool_decide_eq_true_2 by done. pasos. eapply HQ.
      eapply Inv_misma; [|by apply (H1 (con_estado SUSP_READY (con_stdin_pendiente_size (u32 size)
              (con_stdin_pendiente_dir (u32 dir) (con_stdin_pendiente (Some buffer) b)))))]. done.
Qed.

Lemma cumple_worker_respuesta sr i (Q : unit -> kernel -> Prop) k :
  Inv sr [] k -> (i < length (tabla_ios k))%nat -> (forall sr' k', Inv sr' [] k' -> Q tt k') ->
  cumple (io_worker_respuesta i) Q k.
Proof.
  intros H Hi HQ. destruct (lookup_lt_is_Some_2 _ _ Hi) as [io Hio]. unfold io_worker_respuesta, modificar_io. paso.
  eapply cumple_leer_io; [done|]. destruct (io_en_curso io) as [req|] eqn:Hc; [|pasos]. pasos.
  assert (Hp : pedidos io ≡ₚ r_proceso req :: (r_proceso <$> io_cola io)) by (unfold pedidos; rewrite Hc; cbn; perm).
  assert (Hf : pedidos (con_en_curso None io) ≡ₚ r_proceso <$> io_cola io) by (unfold pedidos; cbn; by rewrite app_nil_r).
  destruct (inv_io_quita _ _ _ _ (con_en_curso None) _ _ H Hio Hp Hf) as [H1 Hno].
  set (k1 := con_tabla_ios _ k) in *. ajeno. intros resp k2 H2.
  assert (Ht : tabla_ios k2 = tabla_ios k1) by (injection (misma_mismos _ _ H2); by intros).
  pose proof (Inv_misma _ _ _ _ H2 H1) as H3.
  destruct (_ || _)%bool.
  { paso. eapply HQ, Inv_io; [exact H3| |].
    - rewrite Ht. unfold k1. cbn. by rewrite list_lookup_alter_eq, Hio.
    - exists []. by rewrite app_nil_r. }
  assert (Hno2 : r_proceso req ∉ tabla_ios k2 ≫= pedidos) by (by rewrite Ht).
  destruct req as [p t|p sz d|p d sz bf]; ajeno.
  - intros z k3 H4. eapply cumple_desbloquear; [by apply (Inv_misma _ _ k2)| |exact HQ].
    assert (Ht3 : tabla_ios k3 = tabla_ios k2) by (injection (misma_mismos _ _ H4); by intros). by rewrite Ht3.
  - intros [z buffer] k3 H4. eapply cumple_terminar_stdin; [by apply (Inv_misma _ _ k2)| |exact HQ].
    assert (Ht3 : tabla_ios k3 = tabla_ios k2) by (injection (misma_mismos _ _ H4); by intros). by rewrite Ht3.
  - intros z k3 H4. eapply cumple_desbloquear; [by apply (Inv_misma _ _ k2)| |exact HQ].
    assert (Ht3 : tabla_ios k3 = tabla_ios k2) by (injection (misma_mismos _ _ H4); by intros). by rewrite Ht3.
Qed.
