(* ===== verification/SchedSeguro.v ===== *)
(** * SchedSeguro: the Scheduler is safe

    Every step of every thread keeps the invariant, so no interleaving of them loses
    a process, runs it in two places or touches a PCB already freed. *)

From Stdlib Require Import Strings.String.
From S2P Require Import Prelude Wire Tipos Mensajes Texto SchedTipos SchedColas SchedMutex SchedMemoria SchedIO SchedCpu SchedPlan SchedInv SchedInvOps SchedInvFin SchedSeguroOps SchedSeguroMem SchedSeguroIO.

(** ** Suspension *)

Lemma cumple_episodio p e l (Q : bool -> kernel -> Prop) k :
  Forall (vivo k) l -> (forall b, p ∈ l -> k_pcbs k !! p = Some b -> estado b = BLOCK -> Q true k) -> Q false k ->
  cumple (en_episodio p e l) Q k.
Proof.
  intros Hl HQ HQf. induction Hl as [|q l [b Hb] Hl IH]; [done|]. cbn [en_episodio]. pasos.
  destruct (_ && _)%bool eqn:E; [|apply IH; intros; eapply HQ; [by right|done..]].
  apply andb_prop in E as [E _]. apply andb_prop in E as [Ep E]. apply bool_decide_eq_true in E.
  apply Z.eqb_eq in Ep as ->. pasos. eapply HQ; [left|done|done].
Qed.

Lemma block_vivos sr M k : Inv sr M k -> Forall (vivo k) (cola_procesos_block k).
Proof. intros H. apply Forall_forall. intros q Hq. eapply Inv_vivo; [done|]. apply lugares_dec. tauto. Qed.

Lemma cumple_suspension_inicio sr M i (Q : unit -> kernel -> Prop) k :
  Inv sr M k -> (forall k', Inv sr M k' -> Q tt k') -> cumple (suspension_timer_inicio i) Q k.
Proof.
  intros H HQ. unfold suspension_timer_inicio. pasos. destruct (_ !! i) as [a|]; pasos.
  set (k1 := con_timers_suspension _ k). assert (H1 : Inv sr M k1) by (by apply (Inv_misma _ _ k)).
  destruct (sistema_corrupto k); [by apply HQ|]. pasos.
  apply cumple_episodio; [exact (block_vivos _ _ _ H1)| |by apply HQ].
  intros b Hin Hb He. cbn [negb]. pose proof (i_prio _ _ _ H1 _ _ Hb ltac:(congruence)) as Hpr.
  unfold agregar_a_lista_suspendidos. pasos. apply HQ.
  exact (Inv_suspender sr M k1 (su_pid a) b (con_suspendido_en_swap false (con_estado SUSP_BLOCK b)) (k_reloj k) H1 Hin Hb He eq_refl eq_refl eq_refl Hpr).
Qed.

Lemma cumple_suspension_fin sr M j (Q : unit -> kernel -> Prop) k :
  Inv sr M k -> (forall k', Inv sr M k' -> Q tt k') -> cumple (suspension_timer_fin j) Q k.
Proof.
  intros H HQ. unfold suspension_timer_fin. pasos. destruct (_ !! j) as [p|] eqn:Hj; pasos.
  eapply cumple_pedir; [exact H|]. intros r k1 E1. pose proof (Inv_misma _ _ _ _ E1 H) as H1. pasos.
  assert (Hj1 : suspensiones_en_curso k1 !! j = Some p).
  { assert (Hx : suspensiones_en_curso k1 = suspensiones_en_curso k) by (injection (misma_mismos _ _ E1); by intros).
    by rewrite Hx. }
  apply cumple_posicion; [by eapply block_vivos|].
  assert (Hin : p ∈ suspensiones_en_curso k1) by (by eapply list_elem_of_lookup_2).
  apply (i_curso _ _ _ H1) in Hin as (Hin & b & Hb & He & _).
  destruct (indice_pid_Some _ _ Hin) as (i & -> & _). pasos. apply HQ.
  pose proof (i_prio _ _ _ H1 _ _ Hb ltac:(congruence)) as Hpr.
  eapply Inv_misma; [|exact (Inv_suspendido sr M k1 j p b (con_suspendido_en_swap true b) H1 Hj1 Hb eq_refl eq_refl eq_refl Hpr)]. done.
Qed.

Lemma cumple_remover sr M p (Q : unit -> kernel -> Prop) k :
  Inv sr M k -> p ∈ sr -> (forall sr' k', Inv sr' (p :: M) k' -> sr ≡ₚ p :: sr' -> k_pcbs k' = k_pcbs k -> Q tt k') ->
  cumple (remover_de_lista_suspendidos p) Q k.
Proof.
  intros H Hp HQ. unfold remover_de_lista_suspendidos. pasos. apply cumple_posicion.
  - apply Forall_forall. intros q Hq. eapply Inv_vivo; [done|]. apply lugares_dec.
    apply (i_susp _ _ _ H) in Hq. tauto.
  - destruct (indice_pid_Some p (lista_suspendidos k).*1) as (i & -> & Hi); [apply (i_susp _ _ _ H); tauto|].
    apply list_lookup_fmap_Some in Hi as ([q t] & Hq & Hi). cbn in Hq. subst q.
    destruct (Inv_salir_suspendido _ _ _ _ _ _ H Hi Hp) as (sr' & H' & E). pasos. by eapply HQ.
Qed.

Lemma cumple_candidato sr p (Q : unit -> kernel -> Prop) k :
  Inv sr [] k -> p ∈ sr -> (forall sr' k', Inv sr' [] k' -> sr' = sr \/ sr ≡ₚ p :: sr' -> Q tt k') ->
  cumple (des_suspender_candidato p) Q k.
Proof.
  intros H Hp HQ. destruct (Inv_lugar _ _ _ p H) as [b Hb]; [apply lugares_dec; tauto|].
  assert (He : estado b = SUSP_READY).
  { pose proof (i_sr _ _ _ H) as Hs. rewrite Forall_forall in Hs. destruct (Hs p Hp) as (c & Hc & ? & _). congruence. }
  unfold des_suspender_candidato. pasos. eapply cumple_pedir; [exact H|]. intros r k1 E1.
  pose proof (Inv_misma _ _ _ _ E1 H) as H1. destruct (negb _); [eapply HQ; [done|by left]|]. pasos.
  eapply cumple_remover; [exact H1|done|]. intros sr' k2 H2 Es Ep.
  assert (Hb2 : k_pcbs k2 !! p = Some b) by (rewrite Ep; by eapply misma_leer). pasos.
  assert (HQ' : forall k', Inv sr' [] k' -> Q tt k') by (intros; eapply HQ; [done|by right]).
  destruct (stdin_pendiente b) as [datos|]; pasos.
  - eapply cumple_escribir_stdin; [exact H2|]. intros w k3 E3.
    pose proof (Inv_misma _ _ _ _ E3 H2) as H3. pose proof (misma_leer _ _ _ _ E3 Hb2) as Hb3. paso.
    eapply cumple_estado; [exact H3|exact Hb3|done| |done|].
    { intros Hx. exact (i_prio _ _ _ H3 p b Hb3 Hx). }
    intros k4 H4 _ Hb4. destruct (negb w).
    + eapply cumple_seg_fault; [exact H4|exact Hb4|cbn; congruence|exact HQ'].
    + eapply cumple_encolar; [exact H4|exact Hb4|cbn; congruence|]. intros. by apply HQ'.
  - eapply cumple_encolar; [exact H2|exact Hb2|congruence|]. intros. by apply HQ'.
Qed.

Definition de_candidato (c : candidato) : Z := c.1.1.

Lemma cumple_des_suspender_bucle sr l (Q : unit -> kernel -> Prop) k :
  Inv sr [] k -> NoDup (de_candidato <$> l) -> Forall (fun c => de_candidato c ∈ sr) l ->
  (forall sr' k', Inv sr' [] k' -> Q tt k') -> cumple (des_suspender_bucle l) Q k.
Proof.
  revert sr k. induction l as [|[[p d] t] l IH]; intros sr k H Hn Hl HQ; [by eapply HQ|]. cbn [des_suspender_bucle].
  pasos. destruct (sistema_corrupto k); [by eapply HQ|]. pasos.
  rewrite fmap_cons in Hn. apply NoDup_cons in Hn as [Hp Hn]. apply Forall_cons in Hl as [Hps Hl].
  eapply cumple_candidato; [exact H|done|]. intros sr' k1 H1 Es. eapply IH; [exact H1|done| |exact HQ].
  destruct Es as [->|Es]; [done|]. rewrite Forall_forall in *. intros c Hc. specialize (Hl c Hc).
  rewrite Es, elem_of_cons in Hl. destruct Hl as [Hcp|]; [|done]. exfalso. apply Hp. cbn. rewrite <-Hcp.
  by apply list_elem_of_fmap_2.
Qed.

Lemma cumple_candidatos l (Q : list candidato -> kernel -> Prop) k :
  Forall (vivo k) l.*1 ->
  (forall cs, de_candidato <$> cs `sublist_of` l.*1 ->
     Forall (fun c => en k (fun b => estado b = SUSP_READY) (de_candidato c)) cs -> Q cs k) ->
  cumple (candidatos_susp_ready l) Q k.
Proof.
  revert Q. induction l as [|[p t] l IH]; intros Q Hl HQ; [by apply HQ|].
  rewrite fmap_cons in Hl. apply Forall_cons in Hl as [[b Hb] Hl]. cbn in Hb. cbn [candidatos_susp_ready]. pasos.
  apply IH; [done|]. intros cs Hcs HF. pasos. apply HQ.
  - destruct (bool_decide _); cbn; [by constructor|by apply sublist_cons].
  - destruct (bool_decide_reflect (estado b = SUSP_READY)); [|done]. constructor; [by exists b|done].
Qed.

(** ** Syscalls *)

Lemma cumple_buscar_mutex nombre sr M (Q : option nat -> kernel -> Prop) k :
  Inv sr M k ->
  (forall i k', misma k k' -> (forall j, i = Some j -> exists m, lista_mutexes k' !! j = Some m) -> Q i k') ->
  cumple (buscar_mutex_por_nombre nombre) Q k.
Proof.
  intros H HQ. unfold buscar_mutex_por_nombre. pasos. apply HQ; [done|].
  intros j Hj. apply indice_de_Some in Hj as (m & Hm & _). by exists m.
Qed.

Lemma cumple_registrar_mutex nombre sr M (Q : nat -> kernel -> Prop) k :
  Inv sr M k ->
  (forall i k', Inv sr M k' -> lista_mutexes k' !! i = Some (MutexS nombre (-1) []) -> k_pcbs k' = k_pcbs k -> Q i k') ->
  cumple (registrar_mutex (MutexS nombre (-1) [])) Q k.
Proof.
  intros H HQ. unfold registrar_mutex. pasos. apply HQ; [|cbn; by rewrite lookup_app_r, Nat.sub_diag|done].
  eapply Inv_misma; [|exact (Inv_mutex_nuevo _ _ _ nombre H)]. done.
Qed.

Lemma cumple_mutex_create sr M p params (Q : unit -> kernel -> Prop) k :
  Inv sr M k -> (forall k', Inv sr M k' -> k_pcbs k' = k_pcbs k -> Q tt k') ->
  cumple (manejar_syscall_mutex_create p params) Q k.
Proof.
  intros H HQ. destruct params as [|nombre ps]; cbn [manejar_syscall_mutex_create]; [by apply HQ|]. paso.
  eapply cumple_buscar_mutex; [exact H|]. intros i k1 E1 _. pose proof (Inv_misma _ _ _ _ E1 H) as H1.
  assert (Ep : k_pcbs k1 = k_pcbs k) by (injection E1; by intros).
  destruct i; [by apply HQ|]. paso. eapply cumple_registrar_mutex; [exact H1|]. intros j k2 H2 _ Ep2. paso.
  apply HQ; [done|by etrans].
Qed.

(** The mutex to lock exists, or is created. *)
Lemma cumple_mutex_lock sr M p b params (Q : bool -> kernel -> Prop) k :
  Inv sr (p :: M) k -> k_pcbs k !! p = Some b -> estado b <> NEW ->
  (forall k', Inv sr (p :: M) k' -> k_pcbs k' = k_pcbs k -> Q false k') ->
  (forall k', Inv sr M k' -> Q true k') -> cumple (manejar_syscall_mutex_lock p params) Q k.
Proof.
  intros H Hb Hn HQf HQt. destruct params as [|nombre ps]; cbn [manejar_syscall_mutex_lock]; [by apply HQf|]. paso.
  eapply cumple_buscar_mutex; [exact H|]. intros oi k1 E1 Hm1. pose proof (Inv_misma _ _ _ _ E1 H) as H1.
  assert (Ep : k_pcbs k1 = k_pcbs k) by (injection E1; by intros).
  assert (HI : forall i m k2, Inv sr (p :: M) k2 -> k_pcbs k2 = k_pcbs k -> lista_mutexes k2 !! i = Some m ->
    cumple (m ← leer_mutex i;
      if asignado_a_pid m =? -1 then _ ← modificar_mutex i (con_asignado p); mret false
      else
        _ ← modificar p (fun b => con_mutex_esperando (Some i) (con_estado BLOCK b));
        _ ← modificar_mutex i (con_bloqueados (cola_bloqueados m ++ [p]));
        b ← leer p;
        n ← k_gets (fun k => length (todos_los_procesos k));
        _ ← propagar_herencia_prioridad n p (prioridad_dinamica b);
        _ ← modificar p (fun b => con_block_epoch (block_epoch b +u 1)%u32 b);
        b ← leer p;
        _ ← notificar_proceso_en_block p (block_epoch b);
        mret true) Q k2).
  { intros i m k2 H2 Ep2 Hm. assert (Hb2 : k_pcbs k2 !! p = Some b) by (by rewrite Ep2). pasos.
    pose proof (prio_tomado _ _ _ _ _ H2 Hb2 Hn) as Hpr.
    destruct (Z.eqb_spec (asignado_a_pid m) (-1)) as [Ha|Ha]; pasos.
    - apply HQf; [|done]. eapply Inv_duenio; [exact H2|exact Hm| |right; by exists b]. intros _.
      pose proof (i_libre _ _ _ H2) as Hl. rewrite Forall_lookup in Hl. by apply (Hl i).
    - pose proof (Inv_bloquear_mutex sr M k2 p b (con_mutex_esperando (Some i) (con_estado BLOCK b)) i m
        H2 Hb2 Hm Ha eq_refl eq_refl Hpr) as H3.
      set (k3 := con_lista_mutexes _ _) in H3. match goal with |- cumple ?m ?R _ => change (cumple m R k3) end.
      assert (Hb3 : k_pcbs k3 !! p = Some (con_mutex_esperando (Some i) (con_estado BLOCK b))).
      { unfold k3. cbn. by rewrite lookup_insert, decide_True. }
      pasos. eapply cumple_propagar; [exact H3|exact Hb3|exact (proj2 Hpr)|]. intros k4 H4 Hs4.
      destruct (solo_prioridades_lookup _ _ _ _ Hs4 Hb3) as (b4 & Hb4 & _ & He4 & _). pasos.
      assert (H5 : Inv sr M (con_k_pcbs (<[p := con_block_epoch (block_epoch b4 +u 1)%u32 b4]> (k_pcbs k4)) k4)).
      { eapply Inv_pcb_igual; [exact H4|exact Hb4|by repeat split|]. intros Hx. exact (i_prio _ _ _ H4 p b4 Hb4 Hx). }
      eapply cumple_leer; [cbn; by rewrite lookup_insert, decide_True|]. pasos. ajeno. intros [] k6 E6. pasos.
      apply HQt. by eapply Inv_misma. }
  destruct oi as [i|]; paso.
  - paso. destruct (Hm1 i eq_refl) as [m Hm]. by eapply HI.
  - eapply cumple_registrar_mutex; [exact H1|]. intros i k2 H2 Hm2 Ep2. eapply HI; [exact H2|by etrans|exact Hm2].
Qed.

Lemma cumple_mutex_unlock sr M p b params (Q : unit -> kernel -> Prop) k :
  Inv sr (p :: M) k -> k_pcbs k !! p = Some b -> estado b = EXEC ->
  (forall b' k', Inv sr (p :: M) k' -> k_pcbs k' !! p = Some b' -> estado b' = EXEC -> Q tt k') ->
  cumple (manejar_syscall_mutex_unlock p params) Q k.
Proof.
  intros H Hb He HQ. destruct params as [|nombre ps]; cbn [manejar_syscall_mutex_unlock]; [by eapply HQ|]. paso.
  eapply cumple_buscar_mutex; [exact H|]. intros oi k1 E1 Hm1. pose proof (Inv_misma _ _ _ _ E1 H) as H1.
  pose proof (misma_leer _ _ _ _ E1 Hb) as Hb1.
  destruct oi as [i|]; [|by eapply HQ]. destruct (Hm1 i eq_refl) as [m Hm]. pasos.
  destruct (negb _); [by eapply HQ|]. paso.
  assert (HR : forall k2, Inv sr (p :: M) k2 -> (exists c, k_pcbs k2 !! p = Some c /\ estado c = EXEC) ->
    cumple (recalcular_prioridad_dinamica p) Q k2).
  { intros k2 H2 (c & Hc & Hce). eapply cumple_recalcular; [exact H2|exact Hc|congruence|]. intros k3 H3 Hs3.
    destruct (solo_prioridades_lookup _ _ _ _ Hs3 Hc) as (c3 & Hc3 & _ & He3 & _). eapply HQ; [done|done|congruence]. }
  destruct (cola_bloqueados m) as [|s resto] eqn:Hc.
  - pasos. apply HR; [|by exists b]. eapply Inv_duenio; [done..|by left].
  - assert (Hps : p <> s).
    { intros ->. pose proof (tomado_fuera _ _ _ _ H1) as (_&_&_&_&Hx&_). apply Hx.
      eapply en_mutexes_lookup; [exact Hm|]. rewrite Hc. left. }
    eapply cumple_entregar; [exact H1|exact Hm|exact Hc|]. intros k2 H2 _ _ Ho.
    destruct (Ho p b Hps Hb1) as (c & Hcc & Hce). apply HR; [done|]. exists c. split; [done|congruence].
Qed.

Lemma cumple_terminar_en_cpu sr p b id (Q : unit -> kernel -> Prop) k :
  Inv sr [p] k -> k_pcbs k !! p = Some b -> estado b = EXEC -> cpu_reservada id k ->
  (forall k', Inv sr [] k' -> Q tt k') -> cumple (terminar_en_cpu p id) Q k.
Proof.
  intros H Hb He Hr HQ. unfold terminar_en_cpu. paso. eapply cumple_terminar; [exact H|exact Hb|congruence|].
  intros k1 H1 E1. eapply cumple_liberar_reservada; [exact H1| |exact HQ].
  eapply cpu_retirada_igual; [exact E1|]. by apply reservada_retirada.
Qed.

Lemma misma_cpus k k' : misma k k' -> k_cpus k' = k_cpus k.
Proof. intros E. injection (misma_mismos _ _ E). by intros. Qed.

Lemma cumple_mem_alloc sr p b params id (Q : unit -> kernel -> Prop) k :
  Inv sr [p] k -> k_pcbs k !! p = Some b -> estado b = EXEC -> cpu_reservada id k ->
  (forall k', Inv sr [] k' -> Q tt k') -> cumple (syscall_mem_alloc p params id) Q k.
Proof.
  intros H Hb He Hr HQ. destruct params as [|x [|y ps]]; cbn [syscall_mem_alloc]; try (by eapply cumple_terminar_en_cpu).
  paso. paso. cbv beta. ajeno. intros [] k1 E1. paso.
  eapply cumple_respuesta; [exact (Inv_misma _ _ _ _ E1 H)|]. intros r k2 E2.
  assert (E12 : misma k k2) by by etrans.
  assert (HT : forall k3, misma k k3 -> cumple (terminar_en_cpu p id) Q k3).
  { intros k3 E3. eapply cumple_terminar_en_cpu; [exact (Inv_misma _ _ _ _ E3 H)|exact (misma_leer _ _ _ _ E3 Hb)|done| |done].
    eapply cpu_reservada_igual; [by apply misma_cpus|done]. }
  destruct (_ =? -1); [by apply HT|]. destruct (_ =? _).
  { ajeno. intros [] k3 E3. apply HT. by etrans. }
  ajeno. intros [[idr base] lim] k3 E3. assert (E13 : misma k k3) by by etrans. paso.
  pose proof (Inv_misma _ _ _ _ E13 H) as H3. pose proof (misma_leer _ _ _ _ E13 Hb) as Hb3.
  eapply cumple_estado; [exact H3|exact Hb3|done| |done|].
  { intros Hx. exact (i_prio _ _ _ H3 p b Hb3 ltac:(congruence)). }
  intros k4 H4 E4 Hb4. eapply cumple_volver; [exact H4|exact Hb4|done| |done].
  eapply (cpu_reservada_igual id k); [|done]. rewrite E4. exact (misma_cpus _ _ E13).
Qed.

Lemma quitar_campos id b :
  estado (quitar_segmento_info id b) = estado b /\ mutex_esperando (quitar_segmento_info id b) = mutex_esperando b /\
  prioridad (quitar_segmento_info id b) = prioridad b /\
  prioridad_dinamica (quitar_segmento_info id b) = prioridad_dinamica b.
Proof. unfold quitar_segmento_info. by destruct (indice_de _ _). Qed.

Lemma cumple_mem_free sr p b params id (Q : unit -> kernel -> Prop) k :
  Inv sr [p] k -> k_pcbs k !! p = Some b -> estado b = EXEC -> cpu_reservada id k ->
  (forall k', Inv sr [] k' -> Q tt k') -> cumple (syscall_mem_free p params id) Q k.
Proof.
  intros H Hb He Hr HQ. destruct params as [|x ps]; cbn [syscall_mem_free]; [by eapply cumple_terminar_en_cpu|].
  paso. eapply cumple_pedir; [exact H|]. intros r k1 E1. paso.
  pose proof (Inv_misma _ _ _ _ E1 H) as H1. pose proof (misma_leer _ _ _ _ E1 Hb) as Hb1.
  destruct (quitar_campos (atoi_u32 x) b) as (F1&F2&F3&F4).
  eapply cumple_estado; [exact H1|exact Hb1|done| |congruence|].
  { intros _. unfold prio_ok. rewrite F3, F4. exact (i_prio _ _ _ H1 p b Hb1 ltac:(congruence)). }
  intros k4 H4 E4 Hb4. eapply cumple_volver; [exact H4|exact Hb4|congruence| |done].
  eapply (cpu_reservada_igual id k); [|done]. rewrite E4. exact (misma_cpus _ _ E1).
Qed.
