(* ===== verification/SchedSistema.v ===== *)
(** * SchedSistema: every reachable state of the Scheduler

    The steps of the threads, one by one, and the theorem on their interleavings. *)

From Stdlib Require Import Strings.String.
From S2P Require Import Prelude Wire Tipos Mensajes Texto SchedTipos SchedColas SchedMutex SchedMemoria SchedIO SchedCpu SchedPlan SchedInv SchedInvOps SchedInvFin SchedSeguroOps SchedSeguroMem SchedSeguroIO SchedSeguro.

(** ** What a CPU gives back *)

Lemma cumple_stdout sr p b params (Q : unit -> kernel -> Prop) k :
  Inv sr [p] k -> k_pcbs k !! p = Some b -> estado b = EXEC ->
  (forall k', Inv sr [] k' -> Q tt k') -> cumple (syscall_stdout p params) Q k.
Proof.
  intros H Hb He HQ.
  assert (HE : forall k', misma k k' -> cumple (encolar_en_ready_y_notificar p) Q k').
  { intros k' E. eapply cumple_encolar; [exact (Inv_misma _ _ _ _ E H)|exact (misma_leer _ _ _ _ E Hb)|congruence|].
    intros. by apply HQ. }
  destruct params as [|dir [|size ps]]; cbn [syscall_stdout]; try (by apply HE).
  unfold buscar_interfaz_io_por_tipo. pasos.
  destruct (indice_de _ _) as [i|] eqn:Ei; [|by apply HE]. apply indice_activa in Ei as (io & Hio & Ha). pasos.
  ajeno. intros [] k1 E1. paso. eapply cumple_respuesta; [exact (Inv_misma _ _ _ _ E1 H)|].
  intros ack k2 E2. assert (E12 : misma k k2) by by etrans. destruct (_ =? _).
  { ajeno. intros [] k3 E3. assert (E13 : misma k k3) by by etrans.
    eapply cumple_seg_fault; [exact (Inv_misma _ _ _ _ E13 H)|exact (misma_leer _ _ _ _ E13 Hb)|congruence|done]. }
  destruct (_ =? -1); [by apply HE|]. ajeno. intros buffer k3 E3. assert (E13 : misma k k3) by by etrans. paso.
  eapply (cumple_en_io sr [] p b i io);
    [exact (Inv_misma _ _ _ _ E13 H)|exact (misma_leer _ _ _ _ E13 Hb)|congruence|done| |done|].
  - assert (Ht : tabla_ios k3 = tabla_ios k) by (injection (misma_mismos _ _ E13); by intros). by rewrite Ht.
  - intros k4 H4. paso. by apply HQ.
Qed.

Lemma cumple_syscall sr p b nombre params id (Q : unit -> kernel -> Prop) k :
  Inv sr [p] k -> k_pcbs k !! p = Some b -> estado b = EXEC -> contador_ok k -> nombre <> None ->
  (es_syscall_de_memoria (motivo_num MOTIVO_SYSCALL) nombre = true -> cpu_reservada id k) ->
  (forall k', Inv sr [] k' -> Q tt k') -> cumple (manejar_syscall_io p nombre params id) Q k.
Proof.
  intros H Hb He Hc Hn Hr HQ. destruct nombre as [nombre|]; [|done]. cbn [manejar_syscall_io].
  assert (HE : forall k' c, Inv sr [p] k' -> k_pcbs k' !! p = Some c -> estado c = EXEC ->
    cumple (encolar_en_ready_y_notificar p) Q k').
  { intros k' c H' Hc' Hce. eapply cumple_encolar; [done|done|congruence|]. intros. by apply HQ. }
  assert (HN : estado b <> NEW) by congruence.
  destruct (strcmp0 _ "SLEEP").
  { destruct params; cbn [syscall_sleep]; [by eapply HE|]. unfold buscar_interfaz_io_por_tipo. pasos.
    eapply cumple_pedir_io; [done..| |done]. intros i. apply indice_activa. }
  destruct (strcmp0 _ "IO_SLEEP").
  { destruct params as [|? [|]]; cbn [syscall_io_sleep]; try (by eapply HE). unfold buscar_interfaz_io. pasos.
    eapply cumple_pedir_io; [done..| |done]. intros i. apply indice_activa. }
  destruct (strcmp0 _ "STDIN").
  { destruct params as [|? [|]]; cbn [syscall_stdin]; try (by eapply HE). unfold buscar_interfaz_io_por_tipo. pasos.
    eapply cumple_pedir_io; [done..| |done]. intros i. apply indice_activa. }
  destruct (strcmp0 _ "STDOUT"); [by eapply cumple_stdout|].
  destruct (strcmp0 _ "MEM_ALLOC") eqn:Ea.
  { eapply cumple_mem_alloc; [done..| |done]. apply Hr. unfold es_syscall_de_memoria. cbn. by rewrite Ea. }
  destruct (strcmp0 _ "MEM_FREE") eqn:Ef.
  { eapply cumple_mem_free; [done..| |done]. apply Hr. unfold es_syscall_de_memoria. cbn. by rewrite Ea, Ef. }
  destruct (strcmp0 _ "MUTEX_CREATE").
  { paso. eapply cumple_mutex_create; [exact H|]. intros k1 H1 Ep. eapply HE; [done|by rewrite Ep|done]. }
  destruct (strcmp0 _ "MUTEX_LOCK").
  { paso. eapply cumple_mutex_lock; [exact H|exact Hb|done| |].
    - intros k1 H1 Ep. eapply HE; [done|by rewrite Ep|done].
    - intros k1 H1. by apply HQ. }
  destruct (strcmp0 _ "MUTEX_UNLOCK").
  { paso. eapply cumple_mutex_unlock; [exact H|exact Hb|done|]. intros c k1 H1 Hb1 He1. by eapply HE. }
  destruct (strcmp0 _ "INIT_PROC"); [|by eapply HE].
  paso. destruct params as [|x [|y ps]]; cbn [manejar_syscall_init_proc]; pasos; try (by eapply HE).
  eapply cumple_crear; [exact H|done|]. intros r k1 H1 Ho. pasos. eapply HE; [done|by apply Ho|done].
Qed.

Lemma cumple_motivo sr p b motivo nombre params id (Q : unit -> kernel -> Prop) k :
  Inv sr [p] k -> k_pcbs k !! p = Some b -> estado b = EXEC -> contador_ok k ->
  (motivo = motivo_num MOTIVO_SYSCALL -> nombre <> None) ->
  (es_syscall_de_memoria motivo nombre = true -> cpu_reservada id k) ->
  (forall k', Inv sr [] k' -> Q tt k') -> cumple (manejar_motivo p motivo nombre params id) Q k.
Proof.
  intros H Hb He Hc Hn Hr HQ. unfold manejar_motivo.
  assert (HN : estado b <> NEW) by congruence.
  destruct (_ || _)%bool; [eapply cumple_terminar; [done..|]; intros; by apply HQ|].
  destruct (motivo =? _); [eapply cumple_encolar; [done..|]; intros; by apply HQ|].
  destruct (Z.eqb_spec motivo (motivo_num MOTIVO_SYSCALL)) as [->|].
  { eapply cumple_syscall; [done..|by apply Hn|done|done]. }
  destruct (_ || _)%bool; [eapply cumple_al_principio|eapply cumple_encolar]; try done; intros; by apply HQ.
Qed.

(** A message with the motive of a syscall brings its name. *)
Lemma devolver_con_nombre s pid motivo nombre params s' :
  recibir_devolver_proceso s = Some ((pid, motivo, nombre, params), s') ->
  motivo = motivo_num MOTIVO_SYSCALL -> nombre <> None.
Proof.
  unfold recibir_devolver_proceso. st_unfold. intros H ->.
  repeat match type of H with
  | context [match ?m ?x with Some _ => _ | None => _ end] => destruct (m x) as [[? ?]|]; [|done]
  | context [if negb (?a =? ?b) then _ else _] => destruct (Z.eqb_spec a b); cbn [negb] in H
  end; simplify_eq/=; done.
Qed.

Lemma cumple_devolver sr socket id (Q : unit -> kernel -> Prop) k :
  Inv sr [] k -> contador_ok k -> (forall sr' k', Inv sr' [] k' -> Q tt k') ->
  cumple (manejar_devolver_proceso socket id) Q k.
Proof.
  intros H Hc HQ. unfold manejar_devolver_proceso. paso. unfold cumple at 1, k_recibir.
  destruct (recibir_devolver_proceso _) as [[[[[pid motivo] nombre] params] s']|] eqn:Er; [|done].
  pose proof (devolver_con_nombre _ _ _ _ _ _ Er) as Hn. set (k1 := con_k_entradas _ k).
  assert (E1 : misma k k1) by done. pose proof (Inv_misma _ _ _ _ E1 H) as H1.
  assert (Hc1 : contador_ok k1) by done. clearbody k1.
  destruct (pid <? 0); [by eapply HQ|]. paso.
  assert (HQ' : forall k', Inv sr [] k' -> Q tt k') by (intros; by eapply HQ).
  destruct (es_syscall_de_memoria motivo nombre) eqn:Em.
  - unfold retirar_proceso_de_cpu_reservando. pasos.
    eapply cumple_retirar; [exact H1|done|]. intros k2 H2 Hex Hcpu Hct. paso.
    destruct (cpu_de id k1 ≫= proceso_actual) as [p|] eqn:Ep; cbn in H2.
    + destruct (Hex p eq_refl) as (b & Hb & He).
      eapply cumple_motivo; [exact H2|exact Hb|done|unfold contador_ok; by rewrite Hct|done| |done].
      intros _ c Hc2. rewrite Hcpu in Hc2. destruct (cpu_de id k1) as [c0|] eqn:Ecpu; [|done].
      cbn in Hc2, Ep. injection Hc2 as <-. split; [done|]. cbn.
      destruct (disponible c0) eqn:Ed; [|done]. exfalso.
      unfold cpu_de in Ecpu. destruct (indice_cpu id (k_cpus k1)) as [i|]; [|done].
      destruct (Inv_cpu_entrada _ _ _ _ _ H1 Ecpu) as [_ Hok]. rewrite (Hok Ed) in Ep. done.
    + eapply cumple_liberar_reservada; [exact H2| |done]. intros c Hc2. rewrite Hcpu in Hc2.
      destruct (cpu_de id k1); [|done]. by injection Hc2 as <-.
  - unfold retirar_proceso_de_cpu. pasos.
    eapply cumple_retirar; [exact H1|done|]. intros k2 H2 Hex Hcpu Hct. ajeno. intros [] k3 E3. paso.
    pose proof (Inv_misma _ _ _ _ E3 H2) as H3.
    destruct (cpu_de id k1 ≫= proceso_actual) as [p|] eqn:Ep; cbn in H3; [|by apply HQ'].
    destruct (Hex p eq_refl) as (b & Hb & He).
    eapply cumple_motivo; [exact H3|exact (misma_leer _ _ _ _ E3 Hb)|done| |done|by rewrite Em|done].
    unfold contador_ok. assert (Hx : contador_pids k3 = contador_pids k2) by (injection (misma_mismos _ _ E3); by intros).
    by rewrite Hx, Hct.
Qed.

Lemma cumple_desconectar sr id s j (Q : unit -> kernel -> Prop) k :
  Inv sr [] k -> (forall k', Inv sr [] k' -> Q tt k') ->
  cumple (_ ← marcar_cpu_desconectada id s; k_mod (fun k => con_receptores (delete j (receptores k)) k)) Q k.
Proof.
  intros H HQ. paso. unfold marcar_cpu_desconectada.
  eapply cumple_cpu_igual; [exact H|done| |]; intros; paso; apply HQ; (eapply Inv_misma; [|eassumption]); done.
Qed.

Lemma cumple_receptor sr j (Q : unit -> kernel -> Prop) k :
  Inv sr [] k -> contador_ok k -> (forall sr' k', Inv sr' [] k' -> Q tt k') ->
  cumple (scheduler_cpu_receptor_thread j) Q k.
Proof.
  intros H Hc HQ. unfold scheduler_cpu_receptor_thread. pasos. destruct (_ !! j) as [r|]; [|pasos].
  ajeno. intros codigo k1 E1. pose proof (Inv_misma _ _ _ _ E1 H) as H1.
  assert (HQ' : forall k', Inv sr [] k' -> Q tt k') by (intros; by eapply HQ).
  destruct (_ =? -1); [by eapply cumple_desconectar|]. destruct (_ =? _); [|by eapply cumple_desconectar].
  eapply cumple_devolver; [exact H1| |exact HQ]. unfold contador_ok.
  assert (Hx : contador_pids k1 = contador_pids k) by (injection (misma_mismos _ _ E1); by intros). by rewrite Hx.
Qed.

(** ** Connections *)

Lemma cumple_registrar_io sr s nombre (Q : bool -> kernel -> Prop) k :
  Inv sr [] k -> (forall r k', Inv sr [] k' -> Q r k') -> cumple (registrar_interfaz_io s nombre) Q k.
Proof.
  intros H HQ. unfold registrar_interfaz_io. pasos. destruct (_ <=? _)%nat; pasos; [by apply HQ|]. apply HQ.
  pose proof (i_pedidos _ _ _ H). apply Inv_ios; [done|..]; rewrite bind_app, bind_cons; cbn; rewrite !app_nil_r; tauto.
Qed.

Lemma cumple_registrar_cpu sr s id (Q : unit -> kernel -> Prop) k :
  Inv sr [] k -> 0 < id -> (forall k', Inv sr [] k' -> Q tt k') -> cumple (registrar_cpu_sched s id) Q k.
Proof.
  intros H Hid HQ. unfold registrar_cpu_sched. paso. paso.
  match goal with |- cumple _ _ ?s => set (k1 := s) end.
  assert (H1 : Inv sr [] k1).
  { unfold k1. destruct (_ <? _)%nat; [|done]. eapply Inv_cpus; [exact H|..].
    - rewrite omap_app. cbn. by rewrite !app_nil_r.
    - rewrite omap_app, Forall_app. split; [exact (i_exec _ _ _ H)|by cbn].
    - rewrite Forall_app, Forall_singleton. split; [exact (i_cpus _ _ _ H)|]. by split. }
  clearbody k1. ajeno. intros [] k2 E2. paso. paso. paso.
  apply cumple_no_toca.
  - destruct (cola_procesos_ready k2) as [[|]|]; auto with no_toca.
  - intros [] k3 E3. paso. apply HQ. eapply (Inv_misma _ _ k1); [|done]. etrans; [exact E2|]. exact E3.
Qed.

Lemma cumple_handshake sr s (Q : unit -> kernel -> Prop) k :
  Inv sr [] k -> (forall k', Inv sr [] k' -> Q tt k') -> cumple (scheduler_handshake_handler s) Q k.
Proof.
  intros H HQ. unfold scheduler_handshake_handler. ajeno. intros op k1 E1. pose proof (Inv_misma _ _ _ _ E1 H) as H1.
  destruct (_ =? -1); [by apply HQ|]. destruct (_ =? _).
  { ajeno. intros id k2 E2. pose proof (Inv_misma _ _ _ _ E2 H1) as H2.
    destruct (Z.leb_spec id 0); [by apply HQ|]. by eapply cumple_registrar_cpu. }
  destruct (_ =? _); [|by apply HQ]. ajeno. intros nombre k2 E2. pose proof (Inv_misma _ _ _ _ E2 H1) as H2. paso.
  eapply cumple_registrar_io; [exact H2|]. intros r k3 H3. paso. by apply HQ.
Qed.

(** ** The planners *)

(** The priority of each process in NEW names a queue, when there are several. *)
Definition prioridades_validas (k : kernel) : Prop :=
  forall p b, p ∈ en_new k -> k_pcbs k !! p = Some b -> prio_ok k b.

Lemma misma_new k k' : misma k k' -> cola_procesos_new k' = cola_procesos_new k.
Proof. by intros [=]. Qed.
Lemma misma_pcbs k k' : misma k k' -> k_pcbs k' = k_pcbs k.
Proof. by intros [=]. Qed.
Lemma misma_niveles k k' : misma k k' -> cantidad_niveles_prioridad k' = cantidad_niveles_prioridad k.
Proof. by intros [=]. Qed.

Lemma cumple_largo_plazo sr (Q : unit -> kernel -> Prop) k :
  Inv sr [] k -> prioridades_validas k -> (forall k', Inv sr [] k' -> Q tt k') ->
  cumple planificadorLargoPlazo Q k.
Proof.
  intros H Hv HQ. unfold planificadorLargoPlazo. ajeno. intros [] k1 E1. pose proof (Inv_misma _ _ _ _ E1 H) as H1. pasos.
  destruct (i_colas _ _ _ H1) as (_ & [q Hq] & Hrd). rewrite Hq.
  destruct q as [|p q]; pasos; [by apply HQ|].
  assert (Hp : p ∈ en_new k1) by (unfold en_new; rewrite Hq; left).
  pose proof (i_new _ _ _ H1) as Hn. unfold en_new in Hn. rewrite Hq in Hn. apply Forall_cons in Hn as [(b & Hb & He) Hn].
  assert (Hpr : prio_ok k1 b).
  { unfold prio_ok. rewrite (misma_niveles _ _ E1). apply (Hv p).
    - unfold en_new in *. by rewrite <-(misma_new _ _ E1).
    - by rewrite <-(misma_pcbs _ _ E1). }
  assert (H2 : Inv sr [p] (con_cola_procesos_new (Some q) k1)).
  { eapply Inv_new; [exact H1|unfold en_new; rewrite Hq; cbn; perm|done]. }
  eapply cumple_estado; [exact H2|exact Hb|done|done|done|]. intros k3 H3 E3 Hb3.
  assert (Hniv : cantidad_niveles_prioridad k3 = cantidad_niveles_prioridad k1) by (by rewrite E3).
  destruct (Z.gtb_spec (cantidad_niveles_prioridad k1) 0) as [Hg|Hg].
  - unfold encolar_en_ready_por_prioridad. pasos. cbn [prioridad con_tiempo_llegada con_estado].
    destruct Hpr as [Hpr Hpd]. specialize (Hpr ltac:(lia)). rewrite Hniv.
    destruct (Z.ltb_spec (prioridad b) 0) as [Hz|Hz]; [lia|]. cbn [orb].
    destruct (Z.geb_spec (prioridad b) (cantidad_niveles_prioridad k1)) as [Hy|Hy]; [lia|]. paso.
    eapply cumple_estado; [exact H3|exact Hb3|done| |done|].
    { intros _. unfold prio_ok. rewrite Hniv. split; [done|exact Hpd]. }
    intros k4 H4 E4 Hb4. paso. eapply cumple_poner_prioridad; [exact H4|exact Hb4|done| |].
    { rewrite E4. cbn. rewrite Hniv. lia. }
    intros k5 H5 _ Ep5. eapply cumple_verificar; [exact H5|unfold vivo; rewrite Ep5; by eexists|].
    intros k6 E6. apply HQ. by eapply Inv_misma.
  - destruct Hrd as [r Hr]. rewrite Hr. eapply cumple_poner_ready; [exact H3|exact Hb3|done|]. intros. by apply HQ.
Qed.

Lemma cumple_tomar_nivel sr n x (Q : option Z -> kernel -> Prop) k :
  Inv sr [] k -> 0 <= x -> x + Z.of_nat n = cantidad_niveles_prioridad k -> Q None k ->
  (forall p b k', Inv sr [p] k' -> k_pcbs k' !! p = Some b -> estado b = READY -> 0 < cantidad_niveles_prioridad k' ->
     k_cpus k' = k_cpus k -> sistema_corrupto k' = sistema_corrupto k -> Q (Some p) k') ->
  cumple (desencolar_desde n x) Q k.
Proof.
  revert x. induction n as [|n IH]; intros x H Hx Hn HQN HQ; [done|]. cbn [desencolar_desde]. pasos.
  destruct (i_colas _ _ _ H) as [Hc _]. destruct (nivel_cola k x Hc ltac:(lia)) as [q Hq].
  eapply cumple_cola; [done..|]. destruct q as [|p q]; [apply IH; [done|lia|lia|done|done]|].
  unfold poner_cola_prioridad. pasos.
  assert (Hr : en k (fun b => estado b = READY) p).
  { pose proof (i_ready _ _ _ H) as HF. unfold en_ready in HF.
    destruct (mjoin_insert_nivel _ _ _ [] Hq) as (l1 & l2 & El & _). rewrite El in HF.
    cbn in HF. rewrite !Forall_app, Forall_cons in HF. tauto. }
  destruct Hr as (b & Hb & He). eapply HQ; [|exact Hb|done|cbn; lia|done|done].
  by apply Inv_tomar_prioridad.
Qed.

Lemma cumple_proximo sr alg (Q : option Z -> kernel -> Prop) k :
  Inv sr [] k -> (forall k', Inv sr [] k' -> Q None k') ->
  (forall p b k', Inv sr [p] k' -> k_pcbs k' !! p = Some b -> estado b = READY ->
     (alg = ALGORITMO_CMN -> 0 < cantidad_niveles_prioridad k') -> Q (Some p) k') ->
  cumple (obtener_proximo_proceso_ready alg) Q k.
Proof.
  intros H HQN HQ. unfold obtener_proximo_proceso_ready. destruct (decide _) as [Ha|Ha].
  - pasos. destruct (Z.leb_spec (cantidad_niveles_prioridad k) 0); [by apply HQN|].
    unfold desencolar_proceso_ready. pasos. eapply cumple_tomar_nivel; [exact H|lia|lia|by apply HQN|].
    intros p b k' H' Hb He Hn _ _. by eapply HQ.
  - unfold cumple, pop_ready. destruct (i_colas _ _ _ H) as (_ & _ & [q Hq]). rewrite Hq.
    destruct q as [|p q]; [by apply HQN|]. pose proof (i_ready _ _ _ H) as HF. unfold en_ready in HF. rewrite Hq in HF.
    apply Forall_app in HF as [HF _]. apply Forall_cons in HF as [(b & Hb & He) _].
    eapply HQ; [by apply Inv_tomar_ready|exact Hb|done|done].
Qed.

Lemma no_toca_esperar n : no_toca (esperar_cpu n).
Proof.
  induction n as [|n IH]; cbn [esperar_cpu]; (apply no_toca_bind; [auto with no_toca|]; intros k; destruct (_ || _)%bool;
    [auto with no_toca|]; apply no_toca_bind; [auto with no_toca|]; intros []; [auto with no_toca]); done.
Qed.

Lemma cumple_reencolar sr p b inicio (Q : unit -> kernel -> Prop) k :
  Inv sr [p] k -> k_pcbs k !! p = Some b -> estado b = READY -> (forall k', Inv sr [] k' -> Q tt k') ->
  cumple (reencolar_ready inicio p) Q k.
Proof.
  intros H Hb He HQ. unfold reencolar_ready. paso. apply HQ.
  destruct (i_colas _ _ _ H) as (_ & _ & [q Hq]). rewrite Hq. by eapply Inv_poner_ready.
Qed.

Lemma cumple_fallo sr alg p b (Q : unit -> kernel -> Prop) k :
  Inv sr [p] k -> k_pcbs k !! p = Some b -> estado b = READY -> (alg = ALGORITMO_CMN -> 0 < cantidad_niveles_prioridad k) ->
  (forall k', Inv sr [] k' -> Q tt k') -> cumple (reencolar_por_fallo_de_envio p alg) Q k.
Proof.
  intros H Hb He Hn HQ. destruct alg; cbn [reencolar_por_fallo_de_envio]; try (by eapply cumple_reencolar).
  pasos. unfold reencolar_proceso_ready_inicio. pasos.
  destruct (prio_tomado _ _ _ _ _ H Hb ltac:(congruence)) as [Hpr _]. specialize (Hn eq_refl). specialize (Hpr ltac:(lia)).
  destruct (Z.ltb_spec (prioridad b) 0) as [Hz|Hz]; [lia|]. cbn [orb].
  destruct (Z.geb_spec (prioridad b) (cantidad_niveles_prioridad k)) as [Hy|Hy]; [lia|].
  eapply cumple_poner_prioridad; [done..|]. intros. by apply HQ.
Qed.

(** The process goes to the free CPU chosen. *)
Lemma Inv_despacho sr p b b' i c k k1 :
  Inv sr [p] k -> k_pcbs k !! p = Some b -> estado b = READY -> k_cpus k !! i = Some c -> cpu_libre c = true ->
  misma (con_k_cpus (alter (fun c => con_disponible false (con_proceso_actual (Some p) c)) i (k_cpus k)) k) k1 ->
  estado b' = EXEC -> mutex_esperando b' = mutex_esperando b -> prio_ok k b' ->
  Inv sr [] (con_k_pcbs (<[p := b']> (k_pcbs k1)) k1).
Proof.
  intros H Hb He Hc Hl E1 He' Hm Hpr. destruct (Inv_cpu_entrada _ _ _ _ _ H Hc) as [Hid Hok].
  apply andb_prop in Hl as [Hd _].
  assert (HA : Inv sr [p] (con_k_pcbs (<[p := b']> (k_pcbs k)) k)).
  { eapply Inv_pcb_tomado; [exact H|exact Hb| |done|congruence]. rewrite Hm. by eapply tomado_sin_mutex. }
  eapply (Inv_misma _ _ (con_k_cpus (alter (fun c => con_disponible false (con_proceso_actual (Some p) c)) i (k_cpus k))
    (con_k_pcbs (<[p := b']> (k_pcbs k)) k))).
  - unfold misma, nucleo in *. cbn in *. injection E1. intros. congruence.
  - eapply (Inv_cpu _ _ _ _ _ c _ HA); [done|cbn; rewrite (Hok Hd); cbn; perm| |done].
    cbn. constructor; [|constructor]. exists b'. cbn. by rewrite lookup_insert, decide_True.
Qed.

Lemma cumple_despachar_proceso sr alg p b (Q : unit -> kernel -> Prop) k :
  Inv sr [p] k -> k_pcbs k !! p = Some b -> estado b = READY -> (alg = ALGORITMO_CMN -> 0 < cantidad_niveles_prioridad k) ->
  (forall k', Inv sr [] k' -> Q tt k') -> cumple (despachar alg p) Q k.
Proof.
  intros H Hb He Hn HQ. unfold despachar. pasos. destruct (politica _ _ _ _) as [[fifo rr] quantum].
  pose proof (prio_tomado _ _ _ _ _ H Hb ltac:(congruence)) as Hpr.
  assert (Hrango : bool_decide (alg = ALGORITMO_CMN) &&
     ((prioridad b <? 0) || (prioridad b >=? cantidad_niveles_prioridad k)) = false).
  { destruct (bool_decide_reflect (alg = ALGORITMO_CMN)) as [Ha|]; [|done]. specialize (Hn Ha).
    destruct Hpr as [Hp _]. specialize (Hp ltac:(lia)). cbn.
    destruct (Z.ltb_spec (prioridad b) 0), (Z.geb_spec (prioridad b) (cantidad_niveles_prioridad k)); done || lia. }
  rewrite Hrango. paso. eapply cumple_enviar_cpu; [exact H|exact Hb|done| |].
  - cbn [Z.ltb Z.compare]. paso. eapply cumple_fallo; [exact H|exact Hb|done|done|]. intros k1 H1.
    ajeno. intros [] k2 E2. pasos. apply cumple_no_toca; [apply no_toca_esperar|]. intros [] k3 E3. apply HQ.
    exact (Inv_misma _ _ _ _ E3 (Inv_misma _ _ _ _ E2 H1)).
  - intros i c k1 Hc Hl Hid E1. destruct (Z.ltb_spec (q_cpu_id c) 0); [lia|]. paso.
    assert (Hb1 : k_pcbs k1 !! p = Some b) by (rewrite (misma_pcbs _ _ E1); exact Hb).
    eapply cumple_modificar; [exact Hb1|]. cbv beta.
    match goal with |- cumple _ _ ?s => assert (H2 : Inv sr [] s) end.
    { by eapply Inv_despacho. }
    destruct (negb fifo && rr); [by eapply cumple_iniciar_timer|by apply HQ].
Qed.

Lemma cumple_corto_plazo sr (Q : unit -> kernel -> Prop) k :
  Inv sr [] k -> (forall k', Inv sr [] k' -> Q tt k') -> cumple planificadorCortoPlazo Q k.
Proof.
  intros H HQ. unfold planificadorCortoPlazo. ajeno. intros [] k1 E1. pose proof (Inv_misma _ _ _ _ E1 H) as H1. pasos.
  destruct (sistema_corrupto k1); [by apply HQ|].
  destruct (compactacion_en_progreso k1).
  { apply cumple_no_toca; [auto with no_toca|]. intros [] k2 E2. apply HQ. by eapply Inv_misma. }
  destruct (negb _).
  { ajeno. intros [] k2 E2. apply cumple_no_toca; [auto with no_toca|]. intros [] k3 E3. apply HQ.
    eapply (Inv_misma _ _ k1); [by etrans|done]. }
  paso. eapply cumple_proximo; [exact H1|by intros; apply HQ|]. intros p b k2 H2 Hb He Hn.
  by eapply cumple_despachar_proceso.
Qed.

(** ** Start-up *)

Definition cola_vacia (q : option (list Z)) : Prop := q = None \/ q = Some [].

Lemma mjoin_vacias (colas : list (option (list Z))) : Forall cola_vacia colas -> mjoin (default [] <$> colas) = [].
Proof. induction 1 as [|q l [-> | ->] _ IH]; cbn; done. Qed.

Lemma colas_inicio_ok n k :
  colas_ready_por_prioridad k = replicate MAX_PRIORITY_LEVELS None -> cantidad_niveles_prioridad k = 0 ->
  let k' := inicializar_colas_multinivel n k in
  colas_ok (colas_ready_por_prioridad k') (cantidad_niveles_prioridad k') /\
  Forall cola_vacia (colas_ready_por_prioridad k').
Proof.
  intros Hc Hn. unfold inicializar_colas_multinivel. destruct (Z.leb_spec n 0) as [Hz|Hz]; cbn.
  - rewrite Hc. split; [|repeat constructor]. split_and!; [lia|lia|done|].
    intros i q Hi. apply lookup_replicate_1 in Hi as [-> _]. split; [by intros []|lia].
  - set (m := if n >? Z.of_nat MAX_PRIORITY_LEVELS then _ else n).
    assert (Hm : 0 < m <= 10).
    { subst m. destruct (Z.gtb_spec n (Z.of_nat MAX_PRIORITY_LEVELS)); unfold MAX_PRIORITY_LEVELS in *; lia. }
    rewrite Hc. split.
    + split_and!; [lia|lia|by rewrite length_imap|].
      intros i q Hi. apply list_lookup_imap_Some in Hi as (x & Hx & ->).
      apply lookup_replicate_1 in Hx as [-> _]. destruct (Z.ltb_spec (Z.of_nat i) m); split; done || lia.
    + apply Forall_lookup. intros i q Hi. apply list_lookup_imap_Some in Hi as (x & Hx & ->).
      apply lookup_replicate_1 in Hx as [-> _]. unfold cola_vacia. destruct (_ <? _); auto.
Qed.

Lemma Inv_vacio k :
  k_pcbs k = ∅ -> todos_los_procesos k = [] -> contador_pids k = 0 -> lista_mutexes k = [] ->
  cola_procesos_new k = Some [] -> cola_procesos_ready k = Some [] ->
  colas_ok (colas_ready_por_prioridad k) (cantidad_niveles_prioridad k) ->
  Forall cola_vacia (colas_ready_por_prioridad k) ->
  k_cpus k = [] -> tabla_ios k = [] -> cola_procesos_block k = [] -> lista_suspendidos k = [] ->
  suspensiones_en_curso k = [] -> Inv [] [] k.
Proof.
  intros H1 H2 H3 H4 H5 H6 H7 H8 H9 H10 H11 H12 H13. apply mjoin_vacias in H8.
  constructor; unfold lugares, en_new, en_ready, en_cpus, en_mutexes;
    rewrite ?H1, ?H2, ?H3, ?H4, ?H5, ?H6, ?H8, ?H9, ?H10, ?H11, ?H12, ?H13; cbn; auto using NoDup_nil_2; try lia; try done.
  - intros p. rewrite lookup_empty. split; [by intros ?%elem_of_nil|by intros []].
  - intros p. split; [by intros ?%elem_of_nil|]. intros [H|[H _]]; by apply elem_of_nil in H.
  - intros p. split; [by intros ?%elem_of_nil|]. intros [H _]. by apply elem_of_nil in H.
Qed.

Lemma Inv_arrancar config memory k : arrancar (kernel_global config memory) = Sigue tt k -> Inv [] [] k.
Proof.
  unfold arrancar. set (k0 := inicializar_recursos_kernel_scheduler (kernel_global config memory)).
  unfold mbind, K_bind, k_mod, k_get. fold k0.
  destruct (decide (_ = ALGORITMO_CMN)); cbn -[inicializar_colas_multinivel]; intros [= <-].
  - set (n := cantidad_colas config). destruct (colas_inicio_ok n k0) as [Hok Hv]; [done..|].
    apply Inv_vacio; try done; unfold inicializar_colas_multinivel; by destruct (n <=? 0).
  - apply Inv_vacio; try done.
    + split_and!; [cbn; lia|cbn; lia|done|]. intros i q Hi. apply lookup_replicate_1 in Hi as [-> _].
      split; [by intros []|cbn; lia].
    + repeat constructor.
Qed.

Section sistema.
Variable list_sort : (candidato -> candidato -> bool) -> list candidato -> list candidato.
Hypothesis list_sort_perm : forall cmp l, list_sort cmp l ≡ₚ l.

Lemma cumple_mediano_plazo sr (Q : unit -> kernel -> Prop) k :
  Inv sr [] k -> (forall sr' k', Inv sr' [] k' -> Q tt k') -> cumple (planificadorMedianoPlazo list_sort) Q k.
Proof.
  intros H HQ. unfold planificadorMedianoPlazo. ajeno. intros [] k1 E1. pose proof (Inv_misma _ _ _ _ E1 H) as H1. pasos.
  destruct (sistema_corrupto k1); [by eapply HQ|]. unfold intentar_des_suspender_susp_ready. pasos.
  apply cumple_candidatos.
  { apply Forall_forall. intros q Hq. eapply Inv_vivo; [done|]. apply lugares_dec. apply (i_susp _ _ _ H1) in Hq. tauto. }
  intros cs Hcs HF. eapply cumple_des_suspender_bucle; [exact H1| | |exact HQ].
  - rewrite list_sort_perm. eapply sublist_NoDup; [exact (i_susp_nodup _ _ _ H1)|exact Hcs].
  - rewrite list_sort_perm. rewrite Forall_forall in *. intros c Hc.
    destruct (HF c Hc) as (b & Hb & He).
    assert (Hin : de_candidato c ∈ (lista_suspendidos k1).*1).
    { eapply elem_of_sublist; [|exact Hcs]. by apply list_elem_of_fmap_2. }
    apply (i_susp _ _ _ H1) in Hin as [|(_ & b' & Hb' & He')]; [done|]. congruence.
Qed.

(** One step of any thread, or of the environment. *)
Lemma ejecutar_seguro sr e k :
  Inv sr [] k -> prioridades_validas k -> contador_ok k -> cumple (ejecutar list_sort e) (fun _ k' => inv [] k') k.
Proof.
  intros H Hv Hc. assert (HQ : forall sr' k', Inv sr' [] k' -> inv [] k') by (intros sr' ? ?; by exists sr').
  destruct e; cbn [ejecutar].
  - paso. unfold crear_proceso_inicial. destruct (bool_decide _); [by eapply HQ|].
    eapply cumple_crear; [done..|]. intros. paso. by eapply HQ.
  - eapply cumple_largo_plazo; [done..|]. intros. by eapply HQ.
  - eapply cumple_corto_plazo; [done|]. intros. by eapply HQ.
  - eapply cumple_mediano_plazo; [done|]. intros. by eapply HQ.
  - eapply cumple_handshake; [done|]. intros. by eapply HQ.
  - eapply cumple_receptor; [done..|]. intros. by eapply HQ.
  - eapply cumple_quantum_timer; [done|]. intros. by eapply HQ.
  - eapply cumple_suspension_inicio; [done|]. intros. by eapply HQ.
  - eapply cumple_suspension_fin; [done|]. intros. by eapply HQ.
  - unfold worker_de. pasos. destruct (Nat.ltb_spec i (length (tabla_ios k))); [|pasos].
    eapply cumple_worker_despachar; [done..|]. intros. by eapply HQ.
  - unfold worker_de. pasos. destruct (Nat.ltb_spec i (length (tabla_ios k))); [|pasos].
    eapply cumple_worker_respuesta; [done..|]. intros. by eapply HQ.
  - paso. eapply HQ. by eapply (Inv_misma _ _ k).
  - paso. eapply HQ. by eapply (Inv_misma _ _ k).
Qed.

(** ** Reachable states *)

Variable config : t_config_scheduler.
Variable memory : Z.

(** From start-up, by the steps of the threads in any order, as long as the
    priorities asked for name a queue and there are pids left. Every step has ended:
    what a thread stuck at the lock of the list of mutexes leaves half done
    ([Trabado]) is not a state of these. *)
Inductive alcanzable : kernel -> Prop :=
| al_inicio k : arrancar (kernel_global config memory) = Sigue tt k -> alcanzable k
| al_paso k e k' : alcanzable k -> prioridades_validas k -> contador_ok k ->
    ejecutar list_sort e k = Sigue tt k' -> alcanzable k'.

(** Every reachable state satisfies the invariant. *)
Lemma alcanzable_inv k : alcanzable k -> inv [] k.
Proof.
  induction 1 as [k H|k e k' _ IH Hv Hc He]; [exists []; by eapply Inv_arrancar|].
  destruct IH as [sr H]. pose proof (ejecutar_seguro sr e k H Hv Hc) as Hs. unfold cumple in Hs. by rewrite He in Hs.
Qed.
End sistema.
