(* ===== verification/SchedCorrecto.v ===== *)
(** * SchedCorrecto: theorems on the whole Scheduler

    What holds of every state the Scheduler reaches from start-up, by the steps of
    its threads in any order. *)

From Stdlib Require Import Strings.String.
From S2P Require Import Prelude Wire Tipos Mensajes Texto SchedTipos SchedColas SchedMutex SchedMemoria SchedIO SchedCpu SchedPlan SchedInv SchedInvOps SchedInvFin SchedSeguroOps SchedSeguroMem SchedSeguro SchedSistema.

(** The processes in SUSP_READY: suspended, and no longer in the queue of BLOCK. *)
Definition en_susp_ready (k : kernel) : list Z := filter (.∉ cola_procesos_block k) (lista_suspendidos k).*1.

Lemma sr_en_susp_ready sr M k : Inv sr M k -> sr ≡ₚ en_susp_ready k.
Proof.
  intros H. apply NoDup_Permutation; [by eapply sr_nodup|apply NoDup_filter, (i_susp_nodup _ _ _ H)|].
  intros p. unfold en_susp_ready. rewrite list_elem_of_filter, (i_susp _ _ _ H). split.
  - intros Hp. split; [|by left]. intros Hb. pose proof (Inv_nodup _ _ _ H) as Hn. unfold lugares in Hn.
    rewrite !NoDup_app in Hn. destruct Hn as (_ & _ & _ & _ & _ & _ & _ & Hx & _).
    apply (Hx p Hb). rewrite !elem_of_app. tauto.
  - intros [Hb [|[]]]; done.
Qed.

(** The state of a process, by its place. *)
Lemma lugar_estado sr M k p b : Inv sr M k -> k_pcbs k !! p = Some b ->
  (p ∈ en_new k -> estado b = NEW) /\ (p ∈ en_ready k -> estado b = READY) /\ (p ∈ en_cpus k -> estado b = EXEC) /\
  (p ∈ cola_procesos_block k -> estado b = BLOCK \/ estado b = SUSP_BLOCK) /\ (p ∈ en_mutexes k -> estado b = BLOCK) /\
  (p ∈ sr -> estado b = SUSP_READY).
Proof.
  intros H Hb.
  assert (Hen : forall P l, Forall (en k P) l -> p ∈ l -> P b).
  { intros P l Hl Hp. rewrite Forall_forall in Hl. destruct (Hl p Hp) as (b' & Hb' & HP). congruence. }
  split_and!.
  - exact (Hen _ _ (i_new _ _ _ H)).
  - exact (Hen _ _ (i_ready _ _ _ H)).
  - exact (Hen _ _ (i_exec _ _ _ H)).
  - exact (Hen _ _ (i_block _ _ _ H)).
  - unfold en_mutexes. intros (m & Hp & Hm)%list_elem_of_bind. apply list_elem_of_lookup in Hm as [i Hi].
    exact (proj1 (Hen _ _ (i_mutex _ _ _ H i m Hi) Hp)).
  - intros Hp. exact (proj1 (Hen _ _ (i_sr _ _ _ H) Hp)).
Qed.

(** And the place, by its state. *)
Lemma estado_lugar sr M k p b : Inv sr M k -> k_pcbs k !! p = Some b -> p ∉ M ->
  (estado b = NEW -> p ∈ en_new k) /\ (estado b = READY -> p ∈ en_ready k) /\ (estado b = EXEC -> p ∈ en_cpus k) /\
  (estado b = BLOCK \/ estado b = SUSP_BLOCK -> p ∈ cola_procesos_block k \/ p ∈ en_mutexes k) /\ (estado b = SUSP_READY -> p ∈ sr).
Proof.
  intros H Hb HM. assert (Hin : p ∈ todos_los_procesos k) by (apply (i_vivos _ _ _ H); by exists b).
  rewrite <-(i_perm _ _ _ H) in Hin. apply lugares_dec in Hin.
  pose proof (lugar_estado sr M k p b H Hb) as (H1 & H2 & H3 & H4 & H5 & H6).
  split_and!; intros He; repeat (destruct Hin as [Hx|Hin]; [intuition congruence|]); intuition congruence.
Qed.

(** ** Runs *)

Definition nivel_valido (niveles x : Z) : bool := (niveles <=? 0) || ((0 <=? x) && (x <? niveles)).
Definition validas (k : kernel) : bool :=
  (contador_pids k <? 2147483647) &&
  forallb (fun p =>
    match k_pcbs k !! p with
    | Some b => nivel_valido (cantidad_niveles_prioridad k) (prioridad b) &&
                nivel_valido (cantidad_niveles_prioridad k) (prioridad_dinamica b)
    | None => true
    end) (en_new k).

Lemma nivel_valido_ok n x : nivel_valido n x = true -> en_nivel n x.
Proof. unfold nivel_valido, en_nivel. intros [H|H]%orb_prop Hn; b2p; lia. Qed.

Lemma validas_ok k : validas k = true -> prioridades_validas k /\ contador_ok k.
Proof.
  unfold validas. intros [Hc Hv]%andb_prop. apply Z.ltb_lt in Hc. split; [|exact Hc].
  intros p b Hp Hb. rewrite forallb_forall in Hv. specialize (Hv p (proj1 (list_elem_of_In _ _) Hp)). rewrite Hb in Hv.
  apply andb_prop in Hv as [H1 H2]. split; by apply nivel_valido_ok.
Qed.

(** The events in order; [None] if a step does not go on, or asks for a priority
    that names no queue. *)
Fixpoint correr (ls : (candidato -> candidato -> bool) -> list candidato -> list candidato) (es : list evento)
    (k : kernel) : option kernel :=
  match es with
  | [] => Some k
  | e :: es => if validas k then match ejecutar ls e k with Sigue _ k' => correr ls es k' | _ => None end else None
  end.

Lemma correr_alcanzable ls config memory es k k' :
  alcanzable ls config memory k -> correr ls es k = Some k' -> alcanzable ls config memory k'.
Proof.
  revert k. induction es as [|e es IH]; intros k Hk; cbn; [by intros [= <-]|].
  destruct (validas k) eqn:Hv; [|done]. apply validas_ok in Hv as [Hv Hc].
  destruct (ejecutar ls e k) as [[] k1| | | | |] eqn:He; try done. apply IH. by eapply al_paso.
Qed.

(** A stable insertion, as an instance of [list_sort]. *)
Fixpoint insertar (cmp : candidato -> candidato -> bool) (x : candidato) (l : list candidato) : list candidato :=
  match l with [] => [x] | y :: l => if cmp y x then y :: insertar cmp x l else x :: y :: l end.
Definition ordenar (cmp : candidato -> candidato -> bool) (l : list candidato) : list candidato :=
  foldr (insertar cmp) [] l.

Lemma insertar_perm cmp x l : insertar cmp x l ≡ₚ x :: l.
Proof. induction l as [|y l IH]; cbn; [done|]. destruct (cmp y x); [|done]. rewrite IH. constructor. Qed.
Lemma ordenar_perm cmp l : ordenar cmp l ≡ₚ l.
Proof. induction l as [|x l IH]; cbn; [done|]. by rewrite insertar_perm, IH. Qed.

(** ** An example run

    Two queues, one CPU on socket 10, one interface SLEEP on socket 11, Memory on
    socket 4. Process 0 creates process 1, takes a mutex, sleeps and is suspended;
    process 1 waits for the mutex; the interface ends and process 0 is in
    SUSP_READY. *)
Definition config_cmn : t_config_scheduler :=
  ConfigScheduler (Some (txt "CMN")) (Some (txt "TRUE")) 100 50 2 [Some (txt "RR"); Some (txt "FIFO")].

Definition devuelve (pid : Z) (syscall : string) (params : list string) : evento :=
  EvLlegan 10 (enviar_devolver_proceso pid (motivo_num MOTIVO_SYSCALL) (Some (con_nul (txt syscall)))
    (map (fun s => con_nul (txt s)) params) (Z.of_nat (List.length params))).

Definition eventos_ejemplo : list evento :=
  [EvLlegan 10 (enviar_handshake_cpu 1); EvConexion 10;
   EvLlegan 11 (enviar_handshake_io (con_nul (txt "SLEEP"))); EvConexion 11;
   EvLlegan 4 (enviar_ok CREAR_PROCESO); EvProcesoInicial (txt "A"); EvLargoPlazo; EvCortoPlazo;
   EvLlegan 4 (enviar_ok CREAR_PROCESO); devuelve 0 "INIT_PROC" ["B"; "1"]%string; EvCpu 0; EvLargoPlazo;
   EvCortoPlazo; devuelve 0 "MUTEX_LOCK" ["M"%string]; EvCpu 0;
   EvCortoPlazo; devuelve 0 "SLEEP" ["100"%string]; EvCpu 0;
   EvCortoPlazo; devuelve 1 "MUTEX_LOCK" ["M"%string]; EvCpu 0;
   EvSuspension 0; EvLlegan 4 (enviar_ok SUSPENDER_PROCESO); EvSuspensionFin 0;
   EvIoDespachar 0; EvLlegan 11 (enviar_fin_io 0); EvIoRespuesta 0].

Definition inicio (config : t_config_scheduler) : kernel :=
  match arrancar (kernel_global config 4) with Sigue _ k => k | _ => kernel_global config 4 end.
(** The state after a run. *)
Definition despues_de (es : list evento) : kernel := default (inicio config_cmn) (correr ordenar es (inicio config_cmn)).

Lemma despues_alcanzable es :
  is_Some (correr ordenar es (inicio config_cmn)) -> alcanzable ordenar config_cmn 4 (despues_de es).
Proof.
  intros [k Hk]. unfold despues_de. rewrite Hk. refine (correr_alcanzable _ _ _ _ _ _ _ Hk). apply al_inicio. vm_compute. reflexivity.
Qed.

(** The state after the first [n] events of the example. *)
Definition ejemplo (n : nat) : kernel := despues_de (take n eventos_ejemplo).

Lemma ejemplo_alcanzable n :
  is_Some (correr ordenar (take n eventos_ejemplo) (inicio config_cmn)) -> alcanzable ordenar config_cmn 4 (ejemplo n).
Proof. apply despues_alcanzable. Qed.

(** ** Theorems *)

Section sistema.
Variable list_sort : (candidato -> candidato -> bool) -> list candidato -> list candidato.
Variable config : t_config_scheduler.
Variable memory : Z.
Hypothesis list_sort_perm : forall cmp l, list_sort cmp l ≡ₚ l.
Abbreviation alcanzable := (alcanzable list_sort config memory).

(** C8: in every state the Scheduler reaches by turns that end ([alcanzable]),
    each live process is in exactly one place (NEW, a ready queue, a CPU, the queue of
    BLOCK, the queue of one mutex, or suspended and ready), and its state is that of
    the place. *)
Theorem cada_proceso_en_su_lugar k : alcanzable k ->
  en_new k ++ en_ready k ++ en_cpus k ++ cola_procesos_block k ++ en_mutexes k ++ en_susp_ready k ≡ₚ todos_los_procesos k /\
  NoDup (todos_los_procesos k) /\
  (forall p, p ∈ todos_los_procesos k <-> is_Some (k_pcbs k !! p)) /\
  (forall p b, k_pcbs k !! p = Some b ->
    (p ∈ en_new k <-> estado b = NEW) /\
    (p ∈ en_ready k <-> estado b = READY) /\
    (p ∈ en_cpus k <-> estado b = EXEC) /\
    (p ∈ cola_procesos_block k ++ en_mutexes k <-> estado b = BLOCK \/ estado b = SUSP_BLOCK) /\
    (p ∈ en_susp_ready k <-> estado b = SUSP_READY)).
Proof.
  intros [sr H]%alcanzable_inv; [|done]. pose proof (sr_en_susp_ready _ _ _ H) as Hsr.
  pose proof (i_perm _ _ _ H) as Hp. unfold lugares in Hp. rewrite app_nil_r in Hp. rewrite Hsr in Hp.
  split; [exact Hp|]. split; [exact (i_nodup _ _ _ H)|]. split; [exact (i_vivos _ _ _ H)|].
  intros p b Hb. pose proof (lugar_estado sr [] k p b H Hb). pose proof (estado_lugar sr [] k p b H Hb (not_elem_of_nil p)).
  rewrite elem_of_app, <-Hsr. tauto.
Qed.

(** C1: no thread reads a freed PCB or mutex, an index out of a table, or a
    destroyed queue: from a state the Scheduler reaches by turns that end, no step has
    undefined behaviour, as long as the priorities asked for name a queue. *)
Theorem sin_comportamiento_indefinido k e :
  alcanzable k -> prioridades_validas k -> contador_ok k -> ejecutar list_sort e k <> Indefinido.
Proof.
  intros [sr H]%alcanzable_inv Hv Hc He; [|done]. pose proof (ejecutar_seguro _ list_sort_perm sr e k H Hv Hc) as Hs.
  unfold cumple in Hs. by rewrite He in Hs.
Qed.

(** C26: a process that waits to be brought back to RAM is not being moved out of it.
    In every state reached by turns that end, a process in SUSP_READY has its flag
    [suspendido_en_swap] set, is in the list of the suspended, and the exchange of its
    suspension with Memory is over: it is none of the suspensions in course. (The
    flag is set when that exchange ends, whatever its answer was.) *)
Theorem susp_ready_esta_en_swap k p b :
  alcanzable k -> k_pcbs k !! p = Some b -> estado b = SUSP_READY ->
  suspendido_en_swap b = true /\ p ∈ (lista_suspendidos k).*1 /\ p ∉ suspensiones_en_curso k.
Proof.
  intros Ha Hb He. destruct (alcanzable_inv _ list_sort_perm _ _ _ Ha) as [sr H].
  destruct (estado_lugar sr [] k p b H Hb (not_elem_of_nil p)) as (_ & _ & _ & _ & Hsr). specialize (Hsr He).
  pose proof (i_sr _ _ _ H) as Hs. rewrite Forall_forall in Hs. destruct (Hs p Hsr) as (b' & Hb' & _ & Hw).
  split; [congruence|]. split; [apply (i_susp _ _ _ H); by left|].
  intros Hc. apply (i_curso _ _ _ H) in Hc as [_ (b'' & Hb'' & He'' & _)]. congruence.
Qed.

(** C22: in every state reached by turns that end, a process that waits for a mutex
    is in BLOCK, in the queue of that mutex and in no other, and the mutex has an
    owner that is alive. *)
Theorem espera_con_duenio_vivo k p b i :
  alcanzable k -> k_pcbs k !! p = Some b -> mutex_esperando b = Some i ->
  estado b = BLOCK /\
  exists m o, lista_mutexes k !! i = Some m /\ p ∈ cola_bloqueados m /\ asignado_a_pid m = o /\ is_Some (k_pcbs k !! o) /\
    (forall j m', lista_mutexes k !! j = Some m' -> p ∈ cola_bloqueados m' -> j = i).
Proof.
  intros [sr H]%alcanzable_inv Hb Hi; [|done]. destruct (i_espera _ _ _ H p b i Hb Hi) as (m & Hm & Hp).
  assert (Hq : forall j m', lista_mutexes k !! j = Some m' -> p ∈ cola_bloqueados m' -> estado b = BLOCK /\ j = i).
  { intros j m' Hj Hin. pose proof (i_mutex _ _ _ H j m' Hj) as HF. rewrite Forall_forall in HF.
    destruct (HF p Hin) as (b' & Hb' & He & Hw). split; congruence. }
  split; [by eapply Hq|]. exists m, (asignado_a_pid m). split_and!; [done|done|done| |by intros; eapply Hq].
  pose proof (i_duenio _ _ _ H) as Hd. rewrite Forall_lookup in Hd.
  destruct (Hd i m Hm) as [Hl|(bo & Ho & _)]; [|by exists bo].
  pose proof (i_libre _ _ _ H) as Hf. rewrite Forall_lookup in Hf. rewrite (Hf i m Hm Hl) in Hp. by apply elem_of_nil in Hp.
Qed.
End sistema.

(** ** Witnesses: the example run *)

Lemma ejemplo_30 : alcanzable ordenar config_cmn 4 (ejemplo 30).
Proof. apply ejemplo_alcanzable. vm_compute. by eexists. Qed.

Lemma cada_proceso_en_su_lugar_witness :
  en_new (ejemplo 30) ++ en_ready (ejemplo 30) ++ en_cpus (ejemplo 30) ++ cola_procesos_block (ejemplo 30) ++
    en_mutexes (ejemplo 30) ++ en_susp_ready (ejemplo 30) ≡ₚ [0; 1].
Proof. exact (proj1 (cada_proceso_en_su_lugar ordenar config_cmn 4 ordenar_perm (ejemplo 30) ejemplo_30)). Defined.

Lemma sin_comportamiento_indefinido_witness :
  validas (ejemplo 30) = true /\ ejecutar ordenar EvMedianoPlazo (ejemplo 30) <> Indefinido.
Proof.
  assert (Hv : validas (ejemplo 30) = true) by (vm_compute; reflexivity). split; [exact Hv|].
  destruct (validas_ok _ Hv) as [H1 H2].
  exact (sin_comportamiento_indefinido ordenar config_cmn 4 ordenar_perm (ejemplo 30) EvMedianoPlazo ejemplo_30 H1 H2).
Defined.

Lemma susp_ready_esta_en_swap_witness :
  exists b, k_pcbs (ejemplo 30) !! 0 = Some b /\ estado b = SUSP_READY /\ suspendido_en_swap b = true.
Proof.
  destruct (k_pcbs (ejemplo 30) !! 0) as [b|] eqn:Hb; [|vm_compute in Hb; discriminate].
  assert (He : estado b = SUSP_READY) by (vm_compute in Hb; injection Hb as <-; reflexivity).
  exists b. split; [reflexivity|]. split; [exact He|].
  exact (proj1 (susp_ready_esta_en_swap ordenar config_cmn 4 ordenar_perm (ejemplo 30) 0 b ejemplo_30 Hb He)).
Defined.

Lemma espera_con_duenio_vivo_witness :
  exists b, k_pcbs (ejemplo 30) !! 1 = Some b /\ mutex_esperando b = Some 0%nat /\ estado b = BLOCK.
Proof.
  destruct (k_pcbs (ejemplo 30) !! 1) as [b|] eqn:Hb; [|vm_compute in Hb; discriminate].
  assert (Hm : mutex_esperando b = Some 0%nat) by (vm_compute in Hb; injection Hb as <-; reflexivity).
  exists b. split; [reflexivity|]. split; [exact Hm|].
  exact (proj1 (espera_con_duenio_vivo ordenar config_cmn 4 ordenar_perm (ejemplo 30) 1 b 0%nat ejemplo_30 Hb Hm)).
Defined.
