(* ===== verification/SchedVivacidad.v ===== *)
(** * SchedVivacidad: the short-term planner does not sleep over work

    [sem_ready] counts at least the processes in the ready queues ([avanza]: no
    step takes from that credit, but the planner that spends it), so a READY
    process and a free CPU always let the planner dispatch. *)

From Stdlib Require Import Strings.String.
From S2P Require Import Prelude Wire Tipos Mensajes Texto SchedTipos SchedColas SchedMutex SchedMemoria SchedIO SchedCpu SchedPlan SchedInv SchedInvOps SchedInvFin SchedSeguroOps SchedSeguroMem SchedSeguroIO SchedSeguro SchedSistema SchedCorrecto.

Definition largo_ready (k : kernel) : nat := length (default [] (cola_procesos_ready k)).

(** The posts of [sem_ready] keep up with the arrivals to the queues. *)
Definition avanza (k k' : kernel) : Prop :=
  k_config k' = k_config k /\ cantidad_niveles_prioridad k' = cantidad_niveles_prioridad k /\
  sistema_corrupto k' = sistema_corrupto k /\
  (length (en_ready k') + sem_ready k <= length (en_ready k) + sem_ready k')%nat /\
  (0 < cantidad_niveles_prioridad k -> (largo_ready k' <= largo_ready k)%nat).

#[export] Instance avanza_preorder : PreOrder avanza.
Proof.
  split; red; unfold avanza; [intros k; split_and!; done || lia|]. intros k1 k2 k3 (H1 & H2 & H3 & H4 & H5) (G1 & G2 & G3 & G4 & G5).
  split_and!; [congruence..|lia|]. intros H. specialize (H5 H). rewrite H2 in G5. specialize (G5 H). lia.
Qed.

Definition respeta {A} (m : K A) : Prop := forall k, match m k with Sigue _ k' => avanza k k' | _ => True end.

Lemma respeta_ret {A} (a : A) : respeta (mret a).
Proof. intros k. cbn. reflexivity. Qed.
Lemma respeta_bind {A B} (m : K A) (f : A -> K B) : respeta m -> (forall a, respeta (f a)) -> respeta (m ≫= f).
Proof.
  intros Hm Hf k. specialize (Hm k). unfold mbind, K_bind. destruct (m k) as [a k'| | | | |]; try done.
  specialize (Hf a k'). destruct (f a k'); try done. by etrans.
Qed.
Lemma bind_eq {A B} (m : K A) (f : A -> K B) k :
  (m ≫= f) k = match m k with
               | Sigue a k' => f a k'
               | Bloqueado => Bloqueado | Trabado k' => Trabado k' | Terminado k' => Terminado k' | Abortado => Abortado | Indefinido => Indefinido
               end.
Proof. done. Qed.
(** A step on fields that the credit does not see. *)
Definition sin_credito (f : kernel -> kernel) : Prop := forall k,
  (k_config (f k), cantidad_niveles_prioridad (f k), sistema_corrupto (f k), sem_ready (f k), cola_procesos_ready (f k),
   colas_ready_por_prioridad (f k)) =
  (k_config k, cantidad_niveles_prioridad k, sistema_corrupto k, sem_ready k, cola_procesos_ready k, colas_ready_por_prioridad k).
Lemma sin_credito_avanza f k : sin_credito f -> avanza k (f k).
Proof.
  intros Hf. specialize (Hf k). injection Hf as H1 H2 H3 H4 H5 H6. unfold avanza, largo_ready, en_ready.
  rewrite H1, H2, H3, H4, H5, H6. split_and!; done || lia.
Qed.
Lemma respeta_mod f : sin_credito f -> respeta (k_mod f).
Proof. intros Hf k. by apply sin_credito_avanza. Qed.
Lemma respeta_leer p : respeta (leer p).
Proof. intros k. unfold leer. by destruct (_ !! _). Qed.
Lemma respeta_leer_mutex i : respeta (leer_mutex i).
Proof. intros k. unfold leer_mutex. by destruct (_ !! _). Qed.
Lemma respeta_leer_io i : respeta (leer_io i).
Proof. intros k. unfold leer_io. by destruct (_ !! _). Qed.
Lemma respeta_cola x : respeta (cola_prioridad x).
Proof. intros k. unfold cola_prioridad. destruct (x <? 0); [done|]. by destruct (_ !! _). Qed.
Lemma respeta_get : respeta k_get.
Proof. intros k. cbn. reflexivity. Qed.
Lemma respeta_gets {A} (f : kernel -> A) : respeta (k_gets f).
Proof. intros k. cbn. reflexivity. Qed.
Lemma respeta_bloqueado {A} : respeta (@k_bloqueado A).
Proof. done. Qed.
Lemma respeta_indefinido {A} : respeta (@k_indefinido A).
Proof. done. Qed.
Lemma respeta_lock : respeta lock_lista_mutexes.
Proof. intros k. unfold lock_lista_mutexes. destruct (mutex_lista_tomado k); [done|]. by apply (sin_credito_avanza (con_mutex_lista_tomado true)). Qed.
Lemma respeta_enviar s bs : respeta (k_enviar s bs).
Proof. apply respeta_mod. intros k. by destruct (s =? -1). Qed.
Lemma respeta_recibir {A} s (r : lector A) : respeta (k_recibir s r).
Proof. intros k. unfold k_recibir. destruct (r _) as [[a l]|]; [|done]. by apply (sin_credito_avanza (con_k_entradas _)). Qed.
Lemma respeta_codigo s : respeta (k_codigo s).
Proof. apply respeta_recibir. Qed.
Lemma respeta_post_ready : respeta post_sem_ready.
Proof. intros k. cbn. unfold avanza, en_ready, largo_ready. cbn. split_and!; done || lia. Qed.
Lemma respeta_wait_new : respeta wait_sem_new.
Proof. intros k. unfold wait_sem_new. destruct (sem_new k) as [|n]; [done|]. by apply (sin_credito_avanza (con_sem_new n)). Qed.
Lemma respeta_wait_cpu : respeta wait_sem_cpu.
Proof. intros k. unfold wait_sem_cpu. destruct (sem_cpu_disponible k) as [|n]; [done|]. by apply (sin_credito_avanza (con_sem_cpu_disponible n)). Qed.
Lemma respeta_wait_reevaluar : respeta wait_sem_reevaluar.
Proof.
  intros k. unfold wait_sem_reevaluar. destruct (sem_reevaluar_suspendidos k) as [|n]; [done|].
  by apply (sin_credito_avanza (con_sem_reevaluar_suspendidos n)).
Qed.

Create HintDb respeta.
#[export] Hint Resolve respeta_ret respeta_leer respeta_leer_mutex respeta_leer_io respeta_cola respeta_get respeta_gets
  respeta_bloqueado respeta_indefinido respeta_lock respeta_enviar respeta_recibir respeta_codigo respeta_post_ready
  respeta_wait_new respeta_wait_cpu respeta_wait_reevaluar : respeta.

(** A handler made of steps that respect the credit. *)
Ltac respeta1 :=
  match goal with
  | |- respeta _ => solve [auto with respeta nocore]
  | |- respeta (k_mod _) => apply respeta_mod; intros ?; cbn; reflexivity
  | |- respeta (_ ≫= _) => apply respeta_bind; [|intros ?]
  | |- respeta (match ?x with _ => _ end) => destruct x
  | |- respeta (let '_ := ?x in _) => destruct x
  end.
Ltac respetar := repeat (cbv beta; respeta1).

Lemma respeta_modificar p f : respeta (modificar p f).
Proof. unfold modificar. respetar. Qed.
Lemma respeta_liberar p : respeta (liberar_pcb p).
Proof. unfold liberar_pcb. respetar. Qed.
Lemma respeta_modificar_mutex i f : respeta (modificar_mutex i f).
Proof. unfold modificar_mutex. respetar. Qed.
Lemma respeta_unlock : respeta unlock_lista_mutexes.
Proof. unfold unlock_lista_mutexes. respetar. Qed.
Lemma respeta_post_new : respeta post_sem_new.
Proof. unfold post_sem_new. respetar. Qed.
Lemma respeta_post_cpu : respeta post_sem_cpu.
Proof. unfold post_sem_cpu. respetar. Qed.
Lemma respeta_reevaluar : respeta notificar_reevaluar_suspendidos.
Proof. unfold notificar_reevaluar_suspendidos. respetar. Qed.
Lemma respeta_modificar_cpu id f : respeta (modificar_cpu id f).
Proof. apply respeta_mod. intros k. by destruct (indice_cpu _ _). Qed.
Lemma respeta_posicion p l : respeta (posicion_pid p l).
Proof. induction l; cbn [posicion_pid]; respetar. Qed.
Lemma respeta_victima cs acc : respeta (buscar_victima cs acc).
Proof. revert acc. induction cs; intros acc; cbn [buscar_victima]; respetar. Qed.
#[export] Hint Resolve respeta_modificar respeta_liberar respeta_modificar_mutex respeta_unlock respeta_post_new
  respeta_post_cpu respeta_reevaluar respeta_modificar_cpu respeta_posicion respeta_victima : respeta.
Lemma respeta_verificar p : respeta (verificar_y_desalojar_por_prioridad p).
Proof. unfold verificar_y_desalojar_por_prioridad. respetar. Qed.
#[export] Hint Resolve respeta_verificar : respeta.

(** ** The queues *)

Lemma largo_en_ready k i q0 q :
  colas_ready_por_prioridad k !! i = Some q0 ->
  (length (en_ready (con_colas_ready_por_prioridad (<[i := Some q]> (colas_ready_por_prioridad k)) k)) + length (default [] q0) =
   length (en_ready k) + length q)%nat.
Proof.
  intros Hi. unfold en_ready. destruct (mjoin_insert_nivel _ i q0 q Hi) as (l1 & l2 & E1 & E2).
  cbn [con_colas_ready_por_prioridad colas_ready_por_prioridad cola_procesos_ready]. rewrite E1, E2, !length_app. lia.
Qed.

(** A level that changes, with [n] posts. *)
Lemma avanza_cola k i q0 q n :
  colas_ready_por_prioridad k !! i = Some q0 -> (length q <= length (default [] q0) + n)%nat ->
  avanza k (con_sem_ready (sem_ready k + n) (con_colas_ready_por_prioridad (<[i := Some q]> (colas_ready_por_prioridad k)) k)).
Proof.
  intros Hi Hl. pose proof (largo_en_ready k i q0 q Hi) as Hs. unfold avanza, largo_ready. unfold en_ready in *. cbn in *.
  split_and!; done || lia.
Qed.

Lemma cola_prioridad_inv x k q k' : cola_prioridad x k = Sigue q k' -> k' = k /\ colas_ready_por_prioridad k !! Z.to_nat x = Some q.
Proof. unfold cola_prioridad. destruct (x <? 0); [done|]. destruct (_ !! _) eqn:E; [|done]. by intros [= -> ->]. Qed.

Lemma largo_agregar inicio q p : length (agregar_a inicio q p) = S (length q).
Proof. destruct inicio; cbn; [done|]. rewrite length_app. cbn. lia. Qed.

Lemma con_sem_ready_igual k n : sem_ready k = n -> con_sem_ready n k = k.
Proof. intros <-. by destruct k. Qed.

Lemma respeta_poner_prioridad inicio p x : respeta (poner_en_prioridad inicio p x).
Proof.
  intros k. unfold poner_en_prioridad, mbind, K_bind. destruct (cola_prioridad x k) as [q k'| | | | |] eqn:Hc; try done.
  apply cola_prioridad_inv in Hc as [-> Hc]. destruct q as [q|]; [|cbn; reflexivity]. cbn.
  replace (S (sem_ready k)) with (sem_ready k + 1)%nat by lia. eapply avanza_cola; [exact Hc|]. rewrite largo_agregar. cbn. lia.
Qed.
#[export] Hint Resolve respeta_poner_prioridad : respeta.
Lemma respeta_reencolar_final p x : respeta (reencolar_proceso_ready_final p x).
Proof. unfold reencolar_proceso_ready_final. respetar. Qed.
Lemma respeta_reencolar_inicio p x : respeta (reencolar_proceso_ready_inicio p x).
Proof. unfold reencolar_proceso_ready_inicio. respetar. Qed.
#[export] Hint Resolve respeta_reencolar_final respeta_reencolar_inicio : respeta.

(** The single queue is used when there are no levels. *)
Lemma avanza_poner_ready inicio p k : cantidad_niveles_prioridad k <= 0 ->
  match poner_en_ready inicio p k with Sigue _ k' => avanza k k' | _ => True end.
Proof.
  intros Hn. unfold poner_en_ready, mbind, K_bind, k_get. destruct (cola_procesos_ready k) as [q|] eqn:Hq; [|cbn; reflexivity].
  cbn. unfold avanza, largo_ready, en_ready. cbn. rewrite Hq. cbn. rewrite !length_app, largo_agregar.
  split_and!; done || lia.
Qed.

Lemma respeta_poner_sin_niveles (f : kernel -> bool) (m : K unit) inicio p :
  respeta m -> (forall k, f k = false -> cantidad_niveles_prioridad k <= 0) ->
  respeta (k ← k_get; if f k then m else poner_en_ready inicio p).
Proof.
  intros Hm Hf k. unfold mbind, K_bind, k_get. destruct (f k) eqn:Hk; [apply Hm|]. by apply avanza_poner_ready, Hf.
Qed.

Lemma respeta_encolar p : respeta (encolar_en_ready_y_notificar p).
Proof.
  apply respeta_bind; [auto with respeta|]. intros _.
  apply (respeta_poner_sin_niveles (fun k => cantidad_niveles_prioridad k >? 0)); [respetar|]. intros k Hk. lia.
Qed.
Lemma respeta_al_principio p : respeta (devolver_al_principio p).
Proof.
  apply respeta_bind; [auto with respeta|]. intros _.
  apply (respeta_poner_sin_niveles (fun k => cantidad_niveles_prioridad k >? 0)); [respetar|]. intros k Hk. lia.
Qed.
Lemma respeta_encolar_prioridad p : respeta (encolar_en_ready_por_prioridad p).
Proof. unfold encolar_en_ready_por_prioridad. respetar. Qed.
#[export] Hint Resolve respeta_encolar respeta_al_principio respeta_encolar_prioridad : respeta.

(** A move between levels. *)
Lemma respeta_mover x y i pcb (q : list Z) :
  forall k, colas_ready_por_prioridad k !! Z.to_nat x = Some (Some q) -> is_Some (q !! i) ->
  match (_ ← poner_cola_prioridad x (delete i q);
         cola_nueva ← cola_prioridad y;
         match cola_nueva with None => mret tt | Some q => poner_cola_prioridad y (q ++ [pcb]) end) k with
  | Sigue _ k' => avanza k k'
  | _ => True
  end.
Proof.
  intros k Hq [p Hi]. pose proof (largo_en_ready k _ _ (delete i q) Hq) as H1. cbn in H1.
  rewrite length_delete in H1 by (by eexists). pose proof (lookup_lt_Some _ _ _ Hi) as Hlt.
  unfold mbind, K_bind, poner_cola_prioridad, k_mod. set (k1 := con_colas_ready_por_prioridad _ k) in *.
  destruct (cola_prioridad y k1) as [q' k2| | | | |] eqn:Hc; try done. apply cola_prioridad_inv in Hc as [-> Hc].
  destruct q' as [q'|]; cbn -[con_colas_ready_por_prioridad].
  - pose proof (largo_en_ready k1 _ _ (q' ++ [pcb]) Hc) as H2. cbn [default] in H2. rewrite length_app in H2. cbn in H2.
    unfold avanza. cbn [con_colas_ready_por_prioridad k_config cantidad_niveles_prioridad sistema_corrupto sem_ready].
    split_and!; [done..| |done]. change (sem_ready k1) with (sem_ready k). cbn in *. lia.
  - unfold avanza. split_and!; [done..| |done]. change (sem_ready k1) with (sem_ready k). cbn in *. lia.
Qed.

Lemma posicion_inv p l k o k' : posicion_pid p l k = Sigue o k' -> k' = k /\ o = indice_de (fun x => x =? p) l.
Proof.
  revert o. induction l as [|x l IH]; intros o; cbn; [by intros [= <- <-]|].
  unfold mbind, K_bind, leer. destruct (k_pcbs k !! x); [|done]. destruct (x =? p); [by intros [= <- <-]|].
  destruct (posicion_pid p l k) as [o' k1| | | | |]; try done. cbn. intros [= <- ->]. by destruct (IH o' eq_refl) as [-> ->].
Qed.

Lemma respeta_reubicar p x y : respeta (reubicar_proceso_en_ready p x y).
Proof.
  unfold reubicar_proceso_en_ready. apply respeta_bind; [auto with respeta|]. intros b.
  apply respeta_bind; [auto with respeta|]. intros k0. destruct (_ || _); [auto with respeta|]. destruct (x =? y); [auto with respeta|].
  intros k. rewrite bind_eq. destruct (cola_prioridad x k) as [q k1| | | | |] eqn:Hc; try done.
  apply cola_prioridad_inv in Hc as [-> Hc]. destruct q as [q|]; [|cbn; reflexivity]. rewrite bind_eq.
  destruct (posicion_pid p q k) as [o k1| | | | |] eqn:Hp; try done. apply posicion_inv in Hp as [-> ->].
  destruct (indice_de _ q) as [i|] eqn:Hi; [|cbn; reflexivity]. apply respeta_mover; [done|].
  apply indice_de_Some in Hi as (z & Hz & _). by exists z.
Qed.
#[export] Hint Resolve respeta_reubicar : respeta.

(** ** Mutexes and inheritance *)

Lemma respeta_buscar_pcb p : respeta (buscar_pcb_por_pid p).
Proof. unfold buscar_pcb_por_pid. respetar. Qed.
Lemma respeta_eliminar p : respeta (eliminar_pcb p).
Proof. unfold eliminar_pcb. respetar. Qed.
Lemma respeta_buscar_mutex nombre : respeta (buscar_mutex_por_nombre nombre).
Proof. unfold buscar_mutex_por_nombre. respetar. Qed.
Lemma respeta_registrar_mutex m : respeta (registrar_mutex m).
Proof. unfold registrar_mutex. respetar. Qed.
#[export] Hint Resolve respeta_buscar_pcb respeta_eliminar respeta_buscar_mutex respeta_registrar_mutex : respeta.
Lemma respeta_propagar n p x : respeta (propagar_herencia_prioridad n p x).
Proof. revert p. induction n; intros p; cbn [propagar_herencia_prioridad]; respetar. Qed.
Lemma respeta_mejor_bloqueado l x : respeta (mejor_bloqueado l x).
Proof. revert x. induction l; intros x; cbn [mejor_bloqueado]; respetar. Qed.
#[export] Hint Resolve respeta_propagar respeta_mejor_bloqueado : respeta.
Lemma respeta_mejor_heredada p ms x : respeta (mejor_heredada p ms x).
Proof. revert x. induction ms; intros x; cbn [mejor_heredada]; respetar. Qed.
#[export] Hint Resolve respeta_mejor_heredada : respeta.
Lemma respeta_recalcular p : respeta (recalcular_prioridad_dinamica p).
Proof. unfold recalcular_prioridad_dinamica. respetar. Qed.
#[export] Hint Resolve respeta_recalcular : respeta.
Lemma respeta_entregar i p r : respeta (entregar_mutex i p r).
Proof. unfold entregar_mutex. respetar. Qed.
Lemma respeta_sin_pid p l : respeta (sin_pid p l).
Proof. induction l; cbn [sin_pid]; respetar. Qed.
#[export] Hint Resolve respeta_entregar respeta_sin_pid : respeta.
Lemma respeta_liberar_bucle n i p : respeta (liberar_mutexes_bucle n i p).
Proof. revert i. induction n; intros i; cbn [liberar_mutexes_bucle]; respetar. Qed.
#[export] Hint Resolve respeta_liberar_bucle : respeta.
Lemma respeta_liberar_mutexes p : respeta (liberar_mutexes_de_proceso p).
Proof. unfold liberar_mutexes_de_proceso. respetar. Qed.
Lemma respeta_en_block p e : respeta (notificar_proceso_en_block p e).
Proof. unfold notificar_proceso_en_block. respetar. Qed.
#[export] Hint Resolve respeta_liberar_mutexes respeta_en_block : respeta.
Lemma respeta_mutex_create p ps : respeta (manejar_syscall_mutex_create p ps).
Proof. unfold manejar_syscall_mutex_create. respetar. Qed.
Lemma respeta_mutex_lock p ps : respeta (manejar_syscall_mutex_lock p ps).
Proof. unfold manejar_syscall_mutex_lock. respetar. Qed.
Lemma respeta_mutex_unlock p ps : respeta (manejar_syscall_mutex_unlock p ps).
Proof. unfold manejar_syscall_mutex_unlock. respetar. Qed.
#[export] Hint Resolve respeta_mutex_create respeta_mutex_lock respeta_mutex_unlock : respeta.

(** ** Memory *)

Lemma respeta_marcar_exit l : respeta (marcar_exit l).
Proof. induction l; cbn [marcar_exit]; respetar. Qed.
(** It returns only when the Scheduler was ending already. *)
Lemma respeta_bsod : respeta manejar_bsod.
Proof.
  intros k. unfold manejar_bsod. rewrite bind_eq. cbn [k_get]. destruct (sistema_corrupto k); [cbn; reflexivity|].
  rewrite bind_eq. cbn [k_mod]. rewrite bind_eq. destruct (marcar_exit _ _); done.
Qed.
Lemma respeta_desalojar cs : respeta (desalojar_bucle cs).
Proof. induction cs; cbn [desalojar_bucle]; respetar. Qed.
#[export] Hint Resolve respeta_bsod respeta_desalojar : respeta.
Lemma respeta_notificacion s op : respeta (despachar_si_es_notificacion s op).
Proof.
  unfold despachar_si_es_notificacion, handle_memoria_corrupta_bsod, handle_memoria_liberada, handle_iniciar_compactacion,
    handle_finalizar_compactacion, handle_nueva_memoria_disponible, manejar_compactacion_inicio, manejar_compactacion_fin,
    desalojar_todos_procesos. respetar.
Qed.
#[export] Hint Resolve respeta_notificacion : respeta.
Lemma respeta_respuesta_bucle n s : respeta (recibir_respuesta_bucle n s).
Proof. induction n; cbn [recibir_respuesta_bucle]; respetar. Qed.
#[export] Hint Resolve respeta_respuesta_bucle : respeta.
Lemma respeta_respuesta s : respeta (recibir_respuesta_de_memoria s).
Proof. unfold recibir_respuesta_de_memoria. respetar. Qed.
#[export] Hint Resolve respeta_respuesta : respeta.
Lemma respeta_pedir_ok bs : respeta (pedir_ok bs).
Proof. unfold pedir_ok. respetar. Qed.
#[export] Hint Resolve respeta_pedir_ok : respeta.
Lemma respeta_notificar_fin p : respeta (notificar_fin_a_memoria p).
Proof. unfold notificar_fin_a_memoria. respetar. Qed.
Lemma respeta_escribir_stdin p d ds z : respeta (escribir_stdin_en_memoria p d ds z).
Proof. unfold escribir_stdin_en_memoria. respetar. Qed.
#[export] Hint Resolve respeta_notificar_fin respeta_escribir_stdin : respeta.
Lemma respeta_terminar p : respeta (terminar_proceso p).
Proof. unfold terminar_proceso. respetar. Qed.
Lemma respeta_crear path x : respeta (crear_proceso path x).
Proof. unfold crear_proceso, generar_pid, registrar_pcb, enviar_creacion_proceso_a_memory. respetar. Qed.
#[export] Hint Resolve respeta_terminar respeta_crear : respeta.

(** ** I/O and suspension *)

Lemma respeta_buscar_io n : respeta (buscar_interfaz_io n).
Proof. unfold buscar_interfaz_io. respetar. Qed.
Lemma respeta_buscar_io_tipo t : respeta (buscar_interfaz_io_por_tipo t).
Proof. unfold buscar_interfaz_io_por_tipo. respetar. Qed.
Lemma respeta_modificar_io i f : respeta (modificar_io i f).
Proof. unfold modificar_io. respetar. Qed.
#[export] Hint Resolve respeta_buscar_io respeta_buscar_io_tipo respeta_modificar_io : respeta.
Lemma respeta_encolar_io i r : respeta (encolar_io_request i r).
Proof. unfold encolar_io_request. respetar. Qed.
Lemma respeta_extraer p : respeta (extraer_de_block p).
Proof. unfold extraer_de_block. respetar. Qed.
#[export] Hint Resolve respeta_encolar_io respeta_extraer : respeta.
Lemma respeta_desbloquear p : respeta (desbloquear_proceso_por_io p).
Proof. unfold desbloquear_proceso_por_io. respetar. Qed.
Lemma respeta_remover p : respeta (remover_de_lista_suspendidos p).
Proof. unfold remover_de_lista_suspendidos. respetar. Qed.
#[export] Hint Resolve respeta_desbloquear respeta_remover : respeta.
Lemma respeta_seg_fault p : respeta (finalizar_pcb_por_seg_fault p).
Proof. unfold finalizar_pcb_por_seg_fault. respetar. Qed.
#[export] Hint Resolve respeta_seg_fault : respeta.
Lemma respeta_worker_despachar i : respeta (io_worker_despachar i).
Proof. unfold io_worker_despachar. respetar. Qed.
Lemma respeta_terminar_stdin p z d bs : respeta (terminar_stdin p z d bs).
Proof. unfold terminar_stdin. respetar. Qed.
#[export] Hint Resolve respeta_terminar_stdin : respeta.
Lemma respeta_worker_respuesta i : respeta (io_worker_respuesta i).
Proof. unfold io_worker_respuesta. respetar. Qed.
Lemma respeta_episodio p e l : respeta (en_episodio p e l).
Proof. induction l; cbn [en_episodio]; respetar. Qed.
#[export] Hint Resolve respeta_episodio : respeta.
Lemma respeta_suspension_inicio i : respeta (suspension_timer_inicio i).
Proof. unfold suspension_timer_inicio, agregar_a_lista_suspendidos. respetar. Qed.
Lemma respeta_suspension_fin j : respeta (suspension_timer_fin j).
Proof. unfold suspension_timer_fin. respetar. Qed.
Lemma respeta_candidatos l : respeta (candidatos_susp_ready l).
Proof. induction l as [|[] l IH]; cbn [candidatos_susp_ready]; respetar. Qed.
Lemma respeta_des_suspender p : respeta (des_suspender_candidato p).
Proof. unfold des_suspender_candidato. respetar. Qed.
#[export] Hint Resolve respeta_candidatos respeta_des_suspender : respeta.
Lemma respeta_des_suspender_bucle l : respeta (des_suspender_bucle l).
Proof. induction l as [|[[]] l IH]; cbn [des_suspender_bucle]; respetar. Qed.
#[export] Hint Resolve respeta_des_suspender_bucle : respeta.
Lemma respeta_mediano ls : respeta (planificadorMedianoPlazo ls).
Proof. unfold planificadorMedianoPlazo, intentar_des_suspender_susp_ready. respetar. Qed.

(** ** CPUs *)

Lemma respeta_quantum i : respeta (quantum_timer_thread i).
Proof. unfold quantum_timer_thread. respetar. Qed.
Lemma respeta_iniciar_timer id p q : respeta (iniciar_quantum_timer id p q).
Proof. unfold iniciar_quantum_timer. respetar. Qed.
#[export] Hint Resolve respeta_iniciar_timer : respeta.
Lemma respeta_volver p id : respeta (volver_a_cpu p id).
Proof. unfold volver_a_cpu, devolver_proceso_a_misma_cpu. respetar. Qed.
Lemma respeta_terminar_en_cpu p id : respeta (terminar_en_cpu p id).
Proof. unfold terminar_en_cpu, liberar_cpu_reservada. respetar. Qed.
#[export] Hint Resolve respeta_volver respeta_terminar_en_cpu : respeta.
Lemma respeta_stdout p ps : respeta (syscall_stdout p ps).
Proof. unfold syscall_stdout. respetar. Qed.
Lemma respeta_mem_alloc p ps id : respeta (syscall_mem_alloc p ps id).
Proof. unfold syscall_mem_alloc. respetar. Qed.
Lemma respeta_mem_free p ps id : respeta (syscall_mem_free p ps id).
Proof. unfold syscall_mem_free. respetar. Qed.
Lemma respeta_init_proc ps : respeta (manejar_syscall_init_proc ps).
Proof. unfold manejar_syscall_init_proc. respetar. Qed.
Lemma respeta_pedir_io p o r : respeta (pedir_io p o r).
Proof. unfold pedir_io. respetar. Qed.
#[export] Hint Resolve respeta_stdout respeta_mem_alloc respeta_mem_free respeta_init_proc respeta_pedir_io : respeta.
Lemma respeta_syscall p nombre ps id : respeta (manejar_syscall_io p nombre ps id).
Proof. unfold manejar_syscall_io, syscall_sleep, syscall_io_sleep, syscall_stdin. respetar. Qed.
#[export] Hint Resolve respeta_syscall : respeta.
Lemma respeta_motivo p motivo nombre ps id : respeta (manejar_motivo p motivo nombre ps id).
Proof. unfold manejar_motivo. respetar. Qed.
#[export] Hint Resolve respeta_motivo : respeta.
Lemma respeta_devolver s id : respeta (manejar_devolver_proceso s id).
Proof. unfold manejar_devolver_proceso, retirar_proceso_de_cpu, retirar_proceso_de_cpu_reservando, liberar_cpu_reservada. respetar. Qed.
#[export] Hint Resolve respeta_devolver : respeta.
Lemma respeta_receptor j : respeta (scheduler_cpu_receptor_thread j).
Proof. unfold scheduler_cpu_receptor_thread, marcar_cpu_desconectada. respetar. Qed.
Lemma respeta_registrar_cpu s id : respeta (registrar_cpu_sched s id).
Proof.
  apply respeta_bind; [|intros _; respetar]. apply respeta_mod. intros k. by destruct (_ <? _)%nat.
Qed.
#[export] Hint Resolve respeta_registrar_cpu : respeta.
Lemma respeta_handshake s : respeta (scheduler_handshake_handler s).
Proof. unfold scheduler_handshake_handler, registrar_interfaz_io. respetar. Qed.

(** ** The planners *)

Lemma respeta_largo_plazo : respeta planificadorLargoPlazo.
Proof.
  apply respeta_bind; [auto with respeta|]. intros _ k. rewrite bind_eq. cbn [k_get].
  destruct (cola_procesos_new k) as [[|p q]|]; [cbn; reflexivity| |done].
  rewrite bind_eq. cbn [k_mod]. set (k1 := con_cola_procesos_new (Some q) k).
  assert (E1 : avanza k k1) by (by apply (sin_credito_avanza (con_cola_procesos_new (Some q)))).
  rewrite bind_eq. pose proof (respeta_modificar p (fun b => con_tiempo_llegada (k_reloj k) (con_estado READY b)) k1) as E2.
  destruct (modificar p _ k1) as [[] k2| | | | |]; try done.
  enough (E3 : match (if cantidad_niveles_prioridad k >? 0 then encolar_en_ready_por_prioridad p
    else match cola_procesos_ready k with None => k_indefinido | Some _ => poner_en_ready false p end) k2 with
    Sigue _ k' => avanza k2 k' | _ => True end).
  { destruct (_ k2); try done. by rewrite E1, E2. }
  destruct (Z.gtb_spec (cantidad_niveles_prioridad k) 0) as [Hn|Hn].
  - apply respeta_encolar_prioridad.
  - destruct (cola_procesos_ready k); [|done]. apply avanza_poner_ready.
    destruct E2 as (_ & -> & _). destruct E1 as (_ & -> & _). lia.
Qed.

(** ** The next process

    The queues of the levels in use, from level 0 on: the first one that is not
    empty gives its first process. *)

Definition vacia (k : kernel) (i : nat) : Prop := colas_ready_por_prioridad k !! i = Some (Some []).

Lemma desencolar_vacias n x k :
  0 <= x -> (forall i, (Z.to_nat x <= i < Z.to_nat x + n)%nat -> vacia k i) -> desencolar_desde n x k = Sigue None k.
Proof.
  revert x. induction n as [|n IH]; intros x Hx Hv; [done|]. cbn [desencolar_desde]. rewrite bind_eq. unfold cola_prioridad.
  destruct (Z.ltb_spec x 0); [lia|]. rewrite (Hv (Z.to_nat x)) by lia. apply IH; [lia|]. intros i Hi. apply Hv. lia.
Qed.

Lemma desencolar_primera n x k j p q :
  0 <= x -> (Z.to_nat x <= j < Z.to_nat x + n)%nat -> (forall i, (Z.to_nat x <= i < j)%nat -> vacia k i) ->
  colas_ready_por_prioridad k !! j = Some (Some (p :: q)) ->
  desencolar_desde n x k = Sigue (Some p) (con_colas_ready_por_prioridad (<[j := Some q]> (colas_ready_por_prioridad k)) k).
Proof.
  revert x. induction n as [|n IH]; intros x Hx Hj Hv Hq; [lia|]. cbn [desencolar_desde]. rewrite bind_eq. unfold cola_prioridad.
  destruct (Z.ltb_spec x 0); [lia|]. destruct (decide (Z.to_nat x = j)) as [He|Hne]; [rewrite He, Hq; unfold poner_cola_prioridad; rewrite bind_eq, He; done|].
  rewrite (Hv (Z.to_nat x)) by lia. apply IH; [lia|lia|intros i Hi; apply Hv; lia|done].
Qed.

(** Every level of [l] is empty, or one is the first that is not. *)
Lemma primera_no_vacia (n : nat) (colas : list (option (list Z))) :
  (forall i, (i < n)%nat -> exists q, colas !! i = Some (Some q)) ->
  (forall i, (i < n)%nat -> colas !! i = Some (Some [])) \/
  exists j p q, (j < n)%nat /\ colas !! j = Some (Some (p :: q)) /\ forall i, (i < j)%nat -> colas !! i = Some (Some []).
Proof.
  induction n as [|n IH]; intros H; [left; lia|]. destruct (IH ltac:(intros i Hi; apply H; lia)) as [Hv|(j & p & q & Hj & Hq & Hv)].
  - destruct (H n) as [[|p q] Hq]; [lia| |].
    + left. intros i Hi. destruct (decide (i = n)) as [->|]; [done|]. apply Hv. lia.
    + right. exists n, p, q. split_and!; [lia|done|done].
  - right. exists j, p, q. split_and!; [lia|done|done].
Qed.

Lemma niveles_definidos k : colas_ok (colas_ready_por_prioridad k) (cantidad_niveles_prioridad k) ->
  forall i, (i < Z.to_nat (cantidad_niveles_prioridad k))%nat -> exists q, colas_ready_por_prioridad k !! i = Some (Some q).
Proof.
  intros (Hn & Hl & H) i Hi. unfold MAX_PRIORITY_LEVELS in Hl.
  destruct (lookup_lt_is_Some_2 (colas_ready_por_prioridad k) i) as [o Ho]; [lia|].
  destruct (proj2 (H i o Ho)) as [q ->]; [lia|]. by exists q.
Qed.

(** With every level empty the ready queues are the single queue. *)
Lemma en_ready_sin_niveles k : colas_ok (colas_ready_por_prioridad k) (cantidad_niveles_prioridad k) ->
  (forall i, (i < Z.to_nat (cantidad_niveles_prioridad k))%nat -> vacia k i) -> en_ready k = default [] (cola_procesos_ready k).
Proof.
  intros (Hn & Hl & H) Hv. unfold en_ready. rewrite mjoin_vacias; [apply app_nil_r|].
  apply Forall_lookup. intros i o Ho. destruct (decide (i < Z.to_nat (cantidad_niveles_prioridad k))%nat) as [Hi|Hi].
  - right. pose proof (Hv i Hi) as E. unfold vacia in E. congruence.
  - left. destruct o as [q|]; [|done]. assert (Hs : Z.of_nat i < cantidad_niveles_prioridad k) by (apply (H i (Some q)); [done|by exists q]). lia.
Qed.

(** Only the ready queues change. *)
Definition con_colas (cs : list (option (list Z))) (r : option (list Z)) (k : kernel) : kernel :=
  con_colas_ready_por_prioridad cs (con_cola_procesos_ready r k).

Lemma con_colas_cs cs k : con_colas_ready_por_prioridad cs k = con_colas cs (cola_procesos_ready k) k.
Proof. by destruct k. Qed.
Lemma con_colas_r r k : con_cola_procesos_ready r k = con_colas (colas_ready_por_prioridad k) r k.
Proof. by destruct k. Qed.

Definition con_el_algoritmo (alg : t_algoritmo_corto_plazo) (k : kernel) : Prop :=
  (alg = ALGORITMO_CMN <-> 0 < cantidad_niveles_prioridad k) /\
  (0 < cantidad_niveles_prioridad k -> largo_ready k = 0%nat).

Lemma proximo_ok sr M alg k : Inv sr M k -> con_el_algoritmo alg k ->
  (en_ready k = [] /\ obtener_proximo_proceso_ready alg k = Sigue None k) \/
  (exists p cs r, obtener_proximo_proceso_ready alg k = Sigue (Some p) (con_colas cs r k) /\
    en_ready k ≡ₚ p :: en_ready (con_colas cs r k) /\ (length (default [] r) <= largo_ready k)%nat).
Proof.
  intros H [Ha Hl]. destruct (i_colas _ _ _ H) as (Hc & _ & [r Hr]). unfold obtener_proximo_proceso_ready.
  destruct (decide (alg = ALGORITMO_CMN)) as [E|E].
  - apply Ha in E. rewrite bind_eq. cbn [k_get]. destruct (Z.leb_spec (cantidad_niveles_prioridad k) 0); [lia|].
    unfold desencolar_proceso_ready. rewrite bind_eq. cbn [k_get].
    destruct (primera_no_vacia _ _ (niveles_definidos k Hc)) as [Hv|(j & p & q & Hj & Hq & Hv)].
    + left. rewrite (en_ready_sin_niveles k Hc Hv). split; [|apply desencolar_vacias; [lia|]; intros i Hi; apply Hv; lia].
      specialize (Hl E). unfold largo_ready in Hl. by destruct (default [] _).
    + right. exists p, (<[j := Some q]> (colas_ready_por_prioridad k)), (cola_procesos_ready k). rewrite <-con_colas_cs.
      split; [apply desencolar_primera; [lia|lia| |done]; intros i Hi; apply Hv; lia|]. split; [|done].
      unfold en_ready. destruct (mjoin_insert_nivel _ j _ q Hq) as (l1 & l2 & E1 & E2). cbn. rewrite E1, E2.
      cbn. solve_Permutation.
  - assert (Hn : cantidad_niveles_prioridad k <= 0) by (destruct (Z.lt_ge_cases 0 (cantidad_niveles_prioridad k)); [tauto|lia]).
    unfold pop_ready. rewrite Hr. destruct r as [|p r].
    + left. split; [|done]. rewrite en_ready_sin_niveles, Hr; [done|done|lia].
    + right. exists p, (colas_ready_por_prioridad k), (Some r). rewrite <-con_colas_r. split; [done|].
      unfold en_ready, largo_ready. cbn. rewrite Hr. cbn. split; [done|lia].
Qed.

(** ** The dispatch *)

Definition despachado (fifo rr : bool) (quantum : Z) (c : t_cpu) (p : Z) (b : t_pcb) (i : nat) (k : kernel) : kernel :=
  let k1 := con_k_cpus (alter (fun c => con_disponible false (con_proceso_actual (Some p) c)) i (k_cpus k)) k in
  let k2 := con_k_salidas (k_salidas k ++ [(q_socket c, enviar_pid p)]) k1 in
  let k3 := con_k_pcbs (<[p := con_quantum_restante quantum (con_conteo_context_switch (conteo_context_switch b +u 1)%u32
              (con_tiempo_inicio_ejecucion (k_reloj k) (con_estado EXEC b)))]> (k_pcbs k)) k2 in
  if negb fifo && rr then
    match iniciar_quantum_timer (q_cpu_id c) p quantum k3 with Sigue _ k4 => k4 | _ => k3 end
  else k3.

Lemma despachar_ok alg p b c i k :
  k_pcbs k !! p = Some b -> indice_de cpu_libre (k_cpus k) = Some i -> k_cpus k !! i = Some c -> 0 < q_cpu_id c ->
  (alg = ALGORITMO_CMN -> 0 <= prioridad b < cantidad_niveles_prioridad k) ->
  let '(fifo, rr, quantum) := politica (k_config k) alg (cantidad_niveles_prioridad k) (prioridad b) in
  despachar alg p k = Sigue tt (despachado fifo rr quantum c p b i k).
Proof.
  intros Hb Hi Hc Hid Hr. unfold despachado. set (t := con_quantum_restante). unfold despachar. rewrite bind_eq. unfold leer at 1. rewrite Hb.
  rewrite bind_eq. cbn [k_get]. destruct (politica _ _ _ _) as [[fifo rr] quantum].
  assert (Hrango : bool_decide (alg = ALGORITMO_CMN) &&
     ((prioridad b <? 0) || (prioridad b >=? cantidad_niveles_prioridad k)) = false).
  { destruct (bool_decide_reflect (alg = ALGORITMO_CMN)) as [Ha|]; [|done]. specialize (Hr Ha).
    destruct (Z.ltb_spec (prioridad b) 0), (Z.geb_spec (prioridad b) (cantidad_niveles_prioridad k)); done || lia. }
  rewrite Hrango. rewrite bind_eq. unfold enviar_proceso_a_cpu. rewrite bind_eq. cbn [k_get].
  destruct (k_cpus k) as [|c0 cs] eqn:Hcs; [done|]. cbn [length Nat.eqb]. rewrite <-Hcs in *.
  rewrite bind_eq. unfold leer at 1. rewrite Hb, Hi, Hc. rewrite bind_eq. cbn [k_mod]. rewrite bind_eq. unfold k_enviar at 1.
  apply indice_de_Some in Hi as (c' & Hc' & Hl & _). assert (c' = c) as -> by congruence.
  apply andb_prop in Hl as [_ Hs]. apply negb_true_iff in Hs. unfold k_mod at 1. rewrite Hs. cbn [mret K_ret].
  destruct (Z.ltb_spec (q_cpu_id c) 0); [lia|]. rewrite bind_eq. unfold modificar, leer. rewrite bind_eq. cbn. rewrite Hb.
  subst t. by destruct (negb fifo && rr).
Qed.

(** The invariant of the credit. *)
Definition al_dia (k : kernel) : Prop :=
  sistema_corrupto k = false /\ (length (en_ready k) <= sem_ready k)%nat /\ con_el_algoritmo (algoritmo_de_turno (k_config k)) k.

Lemma avanza_al_dia k k' : avanza k k' -> al_dia k -> al_dia k'.
Proof.
  intros (E1 & E2 & E3 & E4 & E5) (H1 & H2 & H3 & H4). unfold al_dia, con_el_algoritmo. rewrite E1, E2, E3.
  split_and!; [done|lia|exact H3|]. intros Hn. specialize (E5 Hn). specialize (H4 Hn). lia.
Qed.

Lemma libre_indice k : hay_cpu_libre k = true -> exists i c, indice_de cpu_libre (k_cpus k) = Some i /\ k_cpus k !! i = Some c.
Proof.
  unfold hay_cpu_libre. intros H. destruct (indice_de cpu_libre (k_cpus k)) as [i|] eqn:E.
  - pose proof E as E'. apply indice_de_Some in E' as (c & Hc & _). by exists i, c.
  - apply existsb_exists in H as (c & Hc & Hl). rewrite indice_de_None in E. specialize (E c). rewrite list_elem_of_In in E. by rewrite E in Hl.
Qed.

(** The turn of the planner, from where it has taken its unit of [sem_ready]. *)
Lemma corto_plazo_turno sr k n : Inv sr [] k -> al_dia k -> sem_ready k = S n -> compactacion_en_progreso k = false ->
  hay_cpu_libre k = true ->
  (en_ready k = [] /\ planificadorCortoPlazo k = Sigue tt (con_sem_ready n k)) \/
  (exists p b i c cs r, let k1 := con_colas cs r (con_sem_ready n k) in
     let '(fifo, rr, quantum) := politica (k_config k) (algoritmo_de_turno (k_config k)) (cantidad_niveles_prioridad k) (prioridad b) in
     planificadorCortoPlazo k = Sigue tt (despachado fifo rr quantum c p b i k1) /\
     en_ready k ≡ₚ p :: en_ready k1 /\ (largo_ready k1 <= largo_ready k)%nat /\
     k_pcbs k !! p = Some b /\ indice_de cpu_libre (k_cpus k) = Some i /\ k_cpus k !! i = Some c).
Proof.
  intros H (Hs & Hr & Ha) Hn Hc Hl. unfold planificadorCortoPlazo. rewrite bind_eq. unfold wait_sem_ready. rewrite Hn.
  rewrite bind_eq. cbn [k_get]. set (k0 := con_sem_ready n k).
  change (sistema_corrupto k0) with (sistema_corrupto k). change (compactacion_en_progreso k0) with (compactacion_en_progreso k).
  change (hay_cpu_libre k0) with (hay_cpu_libre k). change (k_config k0) with (k_config k). rewrite Hs, Hc, Hl. cbn [negb].
  assert (H0 : Inv sr [] k0) by (by eapply Inv_misma; [|exact H]).
  set (alg := algoritmo_de_turno (k_config k)) in *. rewrite bind_eq.
  destruct (proximo_ok sr [] alg k0 H0 Ha) as [[E ->]|(p & cs & r & -> & Hp & Hlr)]; [by left|]. right.
  destruct (libre_indice k Hl) as (i & c & Hi & Hci).
  assert (Hin : p ∈ en_ready k) by (change (en_ready k) with (en_ready k0); rewrite Hp; left).
  pose proof (i_ready _ _ _ H) as HF. rewrite Forall_forall in HF. destruct (HF p Hin) as (b & Hb & He).
  exists p, b, i, c, cs, r. pose proof (Forall_lookup_1 _ _ _ _ (i_cpus _ _ _ H) Hci) as [Hid _].
  pose proof (despachar_ok alg p b c i (con_colas cs r k0) Hb Hi Hci Hid) as Hd.
  destruct (i_prio _ _ _ H p b Hb) as [Hpr _]; [congruence|].
  change (k_config (con_colas cs r k0)) with (k_config k) in Hd.
  change (cantidad_niveles_prioridad (con_colas cs r k0)) with (cantidad_niveles_prioridad k) in Hd.
  destruct (politica _ _ _ _) as [[fifo rr] quantum]. split_and!; try done.
  apply Hd. intros Hcmn. apply Hpr. destruct Ha as [Ha _]. apply Ha in Hcmn. change (cantidad_niveles_prioridad k0) with (cantidad_niveles_prioridad k) in Hcmn. lia.
Qed.

Lemma despachado_campos fifo rr quantum c p b i k :
  let k' := despachado fifo rr quantum c p b i k in
  k_config k' = k_config k /\ cantidad_niveles_prioridad k' = cantidad_niveles_prioridad k /\
  sistema_corrupto k' = sistema_corrupto k /\ sem_ready k' = sem_ready k /\ cola_procesos_ready k' = cola_procesos_ready k /\
  colas_ready_por_prioridad k' = colas_ready_por_prioridad k.
Proof.
  unfold despachado. destruct (negb fifo && rr); [|by cbn].
  unfold iniciar_quantum_timer, modificar_cpu. rewrite bind_eq. cbn [k_mod]. by destruct (indice_cpu _ _).
Qed.

Lemma despachado_en_cpu fifo rr quantum c p b i k : k_cpus k !! i = Some c ->
  let k' := despachado fifo rr quantum c p b i k in
  exists b' c', k_pcbs k' !! p = Some b' /\ estado b' = EXEC /\ k_cpus k' !! i = Some c' /\ proceso_actual c' = Some p /\
    disponible c' = false /\ q_socket c' = q_socket c /\ k_salidas k' = k_salidas k ++ [(q_socket c', enviar_pid p)].
Proof.
  intros Hc. unfold despachado. cbv zeta. destruct (negb fifo && rr).
  - unfold iniciar_quantum_timer, modificar_cpu. rewrite bind_eq. cbn [k_mod]. eexists.
    destruct (indice_cpu _ _) as [j|]; cbn.
    + destruct (decide (j = i)) as [->|Hne].
      * rewrite !list_lookup_alter_eq, Hc. cbn. eexists. by rewrite lookup_insert_eq.
      * rewrite list_lookup_alter_ne, list_lookup_alter_eq, Hc by done. cbn. eexists. by rewrite lookup_insert_eq.
    + rewrite list_lookup_alter_eq, Hc. cbn. eexists. by rewrite lookup_insert_eq.
  - eexists. cbn. rewrite list_lookup_alter_eq, Hc. cbn. eexists. by rewrite lookup_insert_eq.
Qed.

(** A turn of the planner keeps the credit. *)
Lemma corto_plazo_al_dia sr k k' : Inv sr [] k -> al_dia k -> planificadorCortoPlazo k = Sigue tt k' -> al_dia k'.
Proof.
  intros H Hd E. pose proof Hd as (Hs & Hr & Ha). destruct (sem_ready k) as [|n] eqn:Hn.
  { unfold planificadorCortoPlazo in E. rewrite bind_eq in E. unfold wait_sem_ready in E. by rewrite Hn in E. }
  destruct (compactacion_en_progreso k || negb (hay_cpu_libre k)) eqn:Hcl.
  - apply (avanza_al_dia k); [|done]. unfold planificadorCortoPlazo in E. rewrite bind_eq in E.
    unfold wait_sem_ready in E. rewrite Hn, bind_eq in E. cbn [k_get] in E. change (sistema_corrupto (con_sem_ready n k)) with (sistema_corrupto k) in E.
    rewrite Hs in E. cbn in E. fold (hay_cpu_libre k) in E. change (hay_cpu_libre (con_sem_ready n k)) with (hay_cpu_libre k) in E.
    destruct (compactacion_en_progreso k).
    + injection E as <-. unfold post_sem_ready, avanza, largo_ready, en_ready. cbn. split_and!; done || lia.
    + cbn in Hcl. rewrite Hcl, bind_eq in E. unfold wait_sem_cpu in E. cbn in E. destruct (sem_cpu_disponible k); [done|].
      injection E as <-. unfold avanza, largo_ready, en_ready. cbn. split_and!; done || lia.
  - apply orb_false_iff in Hcl as [Hc Hl%negb_false_iff].
    destruct (corto_plazo_turno sr k n H Hd Hn Hc Hl) as [[E0 E1]|(p & b & i & c & cs & r & E1)].
    + rewrite E1 in E. injection E as <-. unfold al_dia. change (en_ready (con_sem_ready n k)) with (en_ready k). rewrite E0.
      split; [exact Hs|]. split; [cbn; lia|exact Ha].
    + destruct (politica _ _ _ _) as [[fifo rr] quantum]. destruct E1 as (E1 & Hp & Hl2 & _). rewrite E1 in E. injection E as <-.
      destruct (despachado_campos fifo rr quantum c p b i (con_colas cs r (con_sem_ready n k))) as (F1 & F2 & F3 & F4 & F5 & F6).
      unfold al_dia, con_el_algoritmo, largo_ready. rewrite F1, F2, F3, F4, F5. unfold en_ready at 1. rewrite F5, F6.
      fold (en_ready (con_colas cs r (con_sem_ready n k))). apply Permutation_length in Hp. cbn in Hp. destruct Ha as [Ha1 Ha2].
      split_and!; [done| |exact Ha1|].
      * unfold con_colas in *. cbn in *. lia.
      * intros Hx. specialize (Ha2 Hx). unfold largo_ready in *. cbn in *. lia.
Qed.

(** ** Every reachable state *)

Lemma ejecutar_respeta ls e : e <> EvCortoPlazo -> respeta (ejecutar ls e).
Proof.
  intros He. destruct e; try done; cbn [ejecutar];
    auto using respeta_largo_plazo, respeta_mediano, respeta_handshake, respeta_receptor, respeta_quantum,
      respeta_suspension_inicio, respeta_suspension_fin.
  - unfold crear_proceso_inicial. respetar.
  - unfold worker_de. apply respeta_bind; [auto with respeta|]. intros l. destruct (_ <? _)%nat; [apply respeta_worker_despachar|respetar].
  - unfold worker_de. apply respeta_bind; [auto with respeta|]. intros l. destruct (_ <? _)%nat; [apply respeta_worker_respuesta|respetar].
Qed.

(** With several queues, there is at least one. *)
Definition config_util (c : t_config_scheduler) : Prop := obtener_algoritmo_global (Some c) = ALGORITMO_CMN -> 0 < cantidad_colas c.

Lemma turno_cmn c : algoritmo_de_turno c = ALGORITMO_CMN <-> obtener_algoritmo_global c = ALGORITMO_CMN.
Proof. unfold algoritmo_de_turno. by destruct (obtener_algoritmo_global c). Qed.

Lemma arrancar_al_dia config memory k : config_util config -> arrancar (kernel_global config memory) = Sigue tt k -> al_dia k.
Proof.
  intros Hu. unfold arrancar. set (k0 := inicializar_recursos_kernel_scheduler (kernel_global config memory)).
  unfold mbind, K_bind, k_mod, k_get. fold k0.
  destruct (decide (_ = ALGORITMO_CMN)) as [E|E]; cbn -[inicializar_colas_multinivel]; intros [= <-].
  - change (k_config k0) with (Some config) in E. specialize (Hu E). set (n := cantidad_colas config) in *.
    destruct (colas_inicio_ok n k0) as [Hok Hv]; [done..|]. unfold inicializar_colas_multinivel in *.
    destruct (Z.leb_spec n 0); [lia|]. unfold al_dia, con_el_algoritmo, largo_ready, en_ready. cbn -[k0] in *.
    rewrite (mjoin_vacias _ Hv). cbn. split_and!; [done|lia| |done].
    rewrite turno_cmn. split; [|done]. intros _. unfold MAX_PRIORITY_LEVELS. destruct (n >? _); lia.
  - unfold al_dia, con_el_algoritmo, largo_ready, en_ready. cbn. split_and!; [done|lia| |done].
    rewrite turno_cmn. change (k_config k0) with (Some config) in E. split; [done|lia].
Qed.

Section sistema.
Variable list_sort : (candidato -> candidato -> bool) -> list candidato -> list candidato.
Variable config : t_config_scheduler.
Variable memory : Z.
Hypothesis list_sort_perm : forall cmp l, list_sort cmp l ≡ₚ l.
Hypothesis util : config_util config.
Abbreviation alcanzable := (alcanzable list_sort config memory).

Lemma alcanzable_al_dia k : alcanzable k -> al_dia k.
Proof.
  induction 1 as [k H|k e k' Ha IH Hv Hc He]; [by eapply arrancar_al_dia|].
  assert (e = EvCortoPlazo \/ e <> EvCortoPlazo) as [->|Hne] by (destruct e; auto; by right).
  - destruct (alcanzable_inv _ list_sort_perm _ _ _ Ha) as [sr H]. by eapply corto_plazo_al_dia.
  - pose proof (ejecutar_respeta list_sort e Hne k) as Hr. rewrite He in Hr. by eapply avanza_al_dia.
Qed.

(** C18: no wake-up is lost, if the configuration has a queue at all (with the
    algorithm CMN, CANTIDAD_COLAS above 0: without queues each turn of the planner
    spends a wake-up and takes nothing). In every state reached by turns that end, the
    semaphore the short-term planner waits on counts at least the processes in the
    ready queues. *)
Theorem sem_ready_cubre_las_colas k : alcanzable k -> (length (en_ready k) <= sem_ready k)%nat.
Proof. intros H. by apply alcanzable_al_dia. Qed.

(** C13: the planner conserves work, if the configuration has a queue at all (with
    the algorithm CMN, CANTIDAD_COLAS above 0: see [cmn_sin_colas_no_despacha]). In
    every state reached by turns that end, when a process is READY, a CPU is free and
    no compaction is in progress, its turn does not wait: it takes one of the READY
    processes, sends it to the first free CPU, which is busy with it from then on,
    and the process is in EXEC. *)
Theorem listo_y_cpu_libre_se_despacha k :
  alcanzable k -> en_ready k <> [] -> hay_cpu_libre k = true -> compactacion_en_progreso k = false ->
  exists p b i c k', planificadorCortoPlazo k = Sigue tt k' /\
    en_ready k ≡ₚ p :: en_ready k' /\
    k_pcbs k' !! p = Some b /\ estado b = EXEC /\
    indice_de cpu_libre (k_cpus k) = Some i /\ k_cpus k' !! i = Some c /\ proceso_actual c = Some p /\ disponible c = false /\
    k_salidas k' = k_salidas k ++ [(q_socket c, enviar_pid p)].
Proof.
  intros Ha He Hl Hc. pose proof (alcanzable_al_dia k Ha) as Hd. destruct (alcanzable_inv _ list_sort_perm _ _ _ Ha) as [sr H].
  destruct (sem_ready k) as [|n] eqn:Hn.
  { destruct Hd as (_ & Hr & _). rewrite Hn in Hr. destruct (en_ready k); [done|cbn in Hr; lia]. }
  destruct (corto_plazo_turno sr k n H Hd Hn Hc Hl) as [[E0 _]|(p & b & i & c & cs & r & E1)]; [done|].
  destruct (politica _ _ _ _) as [[fifo rr] quantum]. destruct E1 as (E1 & Hp & _ & Hb & Hi & Hci).
  destruct (despachado_en_cpu fifo rr quantum c p b i (con_colas cs r (con_sem_ready n k)) Hci) as (b' & c' & F1 & F2 & F3 & F4 & F5 & F6 & F7).
  exists p, b', i, c', (despachado fifo rr quantum c p b i (con_colas cs r (con_sem_ready n k))).
  split_and!; try done. unfold en_ready at 2.
  destruct (despachado_campos fifo rr quantum c p b i (con_colas cs r (con_sem_ready n k))) as (_ & _ & _ & _ & G5 & G6).
  by rewrite G5, G6.
Qed.
End sistema.

(** The multilevel queues are served by level, and in order inside a level:
    the process taken is the first of the first level that is not empty, and none
    is taken only when every level is empty. *)
Theorem desencolar_por_nivel_y_orden k :
  colas_ok (colas_ready_por_prioridad k) (cantidad_niveles_prioridad k) ->
  let n := Z.to_nat (cantidad_niveles_prioridad k) in
  ((forall i, (i < n)%nat -> vacia k i) /\ desencolar_proceso_ready k = Sigue None k) \/
  exists j p q, (j < n)%nat /\ (forall i, (i < j)%nat -> vacia k i) /\ colas_ready_por_prioridad k !! j = Some (Some (p :: q)) /\
    desencolar_proceso_ready k =
      Sigue (Some p) (con_colas_ready_por_prioridad (<[j := Some q]> (colas_ready_por_prioridad k)) k).
Proof.
  intros Hc n. unfold desencolar_proceso_ready. rewrite bind_eq. cbn [k_get].
  destruct (primera_no_vacia _ _ (niveles_definidos k Hc)) as [Hv|(j & p & q & Hj & Hq & Hv)].
  - left. split; [exact Hv|]. apply desencolar_vacias; [lia|]. intros i Hi. apply Hv. lia.
  - right. exists j, p, q. split_and!; [done|done|done|]. apply desencolar_primera; [lia|lia| |done]. intros i Hi. apply Hv. lia.
Qed.

(** ** Witnesses *)

(** Process 0 is READY and the CPU is free. *)
Lemma ejemplo_7 : alcanzable ordenar config_cmn 4 (ejemplo 7).
Proof. apply ejemplo_alcanzable. vm_compute. by eexists. Qed.

Lemma sem_ready_cubre_las_colas_witness : en_ready (ejemplo 7) = [0] /\ (1 <= sem_ready (ejemplo 7))%nat.
Proof.
  split; [vm_compute; reflexivity|].
  exact (sem_ready_cubre_las_colas ordenar config_cmn 4 ordenar_perm (fun _ => eq_refl) (ejemplo 7) ejemplo_7).
Defined.

Lemma listo_y_cpu_libre_se_despacha_witness :
  exists p b k', planificadorCortoPlazo (ejemplo 7) = Sigue tt k' /\ k_pcbs k' !! p = Some b /\ estado b = EXEC.
Proof.
  destruct (listo_y_cpu_libre_se_despacha ordenar config_cmn 4 ordenar_perm (fun _ => eq_refl) (ejemplo 7) ejemplo_7)
    as (p & b & i & c & k' & H1 & _ & H2 & H3 & _).
  - vm_compute. discriminate.
  - vm_compute. reflexivity.
  - vm_compute. reflexivity.
  - exists p, b, k'. split; [exact H1|]. split; [exact H2|exact H3].
Defined.

Lemma desencolar_por_nivel_y_orden_witness :
  exists k', desencolar_proceso_ready (ejemplo 7) = Sigue (Some 0) k'.
Proof.
  destruct (desencolar_por_nivel_y_orden (ejemplo 7)) as [[_ E]|(j & p & q & _ & _ & _ & E)].
  - destruct (alcanzable_inv _ ordenar_perm _ _ _ ejemplo_7) as [sr H]. exact (proj1 (i_colas _ _ _ H)).
  - vm_compute in E. discriminate.
  - exists (con_colas_ready_por_prioridad (<[j := Some q]> (colas_ready_por_prioridad (ejemplo 7))) (ejemplo 7)).
    rewrite E. assert (Hp : Some p = Some 0); [|rewrite Hp; reflexivity].
    assert (Hv : match desencolar_proceso_ready (ejemplo 7) with Sigue o _ => o = Some 0 | _ => False end) by (vm_compute; reflexivity).
    rewrite E in Hv. exact Hv.
Defined.
