(* ===== verification/SchedHerencia.v ===== *)
(** * SchedHerencia: priority inheritance

    [propagar_herencia_prioridad] ends, [recalcular_prioridad_dinamica] computes a
    minimum, and with them a lock or an unlock keeps the owner of each mutex at
    least as urgent as the processes that wait for it ([sin_inversion]). And the
    end of a process that owns an awaited mutex never returns. *)

From Stdlib Require Import Strings.String.
From S2P Require Import Prelude Wire Tipos Mensajes Texto SchedTipos SchedColas SchedMutex SchedMemoria SchedIO SchedCpu SchedPlan SchedInv SchedInvOps SchedInvFin SchedSeguroOps SchedSeguroMem SchedSeguroIO SchedSeguro SchedSistema SchedCorrecto SchedVivacidad.

(** ** Steps that see neither PCBs nor mutexes *)

Definition dueno (k : kernel) := (k_pcbs k, lista_mutexes k, todos_los_procesos k, mutex_lista_tomado k).
Definition quieta {A} (m : K A) : Prop := forall k, match m k with Sigue _ k' => dueno k' = dueno k | Indefinido => True | _ => False end.

Lemma quieta_ret {A} (a : A) : quieta (mret a).
Proof. done. Qed.
Lemma quieta_bind {A B} (m : K A) (f : A -> K B) : quieta m -> (forall a, quieta (f a)) -> quieta (m ≫= f).
Proof.
  intros Hm Hf k. specialize (Hm k). rewrite bind_eq. destruct (m k) as [a k'| | | | |]; try done.
  specialize (Hf a k'). destruct (f a k'); try done. by etrans.
Qed.
Lemma quieta_mod f : (forall k, dueno (f k) = dueno k) -> quieta (k_mod f).
Proof. intros Hf k. apply Hf. Qed.
Lemma quieta_leer p : quieta (leer p).
Proof. intros k. unfold leer. by destruct (_ !! _). Qed.
Lemma quieta_leer_mutex i : quieta (leer_mutex i).
Proof. intros k. unfold leer_mutex. by destruct (_ !! _). Qed.
Lemma quieta_cola x : quieta (cola_prioridad x).
Proof. intros k. unfold cola_prioridad. destruct (x <? 0); [done|]. by destruct (_ !! _). Qed.
Lemma quieta_get : quieta k_get.
Proof. done. Qed.
Lemma quieta_gets {A} (f : kernel -> A) : quieta (k_gets f).
Proof. done. Qed.
Lemma quieta_enviar s bs : quieta (k_enviar s bs).
Proof. apply quieta_mod. intros k. by destruct (s =? -1). Qed.
Create HintDb quieta.
#[export] Hint Resolve quieta_ret quieta_leer quieta_leer_mutex quieta_cola quieta_get quieta_gets quieta_enviar : quieta.
Ltac quieta1 :=
  match goal with
  | |- quieta _ => solve [auto with quieta nocore]
  | |- quieta (k_mod _) => apply quieta_mod; intros ?; cbn; reflexivity
  | |- quieta (_ ≫= _) => apply quieta_bind; [|intros ?]
  | |- quieta (match ?x with _ => _ end) => destruct x
  end.
Ltac aquietar := repeat (cbv beta; quieta1).

Lemma quieta_posicion p l : quieta (posicion_pid p l).
Proof. induction l; cbn [posicion_pid]; aquietar. Qed.
Lemma quieta_victima cs acc : quieta (buscar_victima cs acc).
Proof. revert acc. induction cs; intros acc; cbn [buscar_victima]; aquietar. Qed.
#[export] Hint Resolve quieta_posicion quieta_victima : quieta.
Lemma quieta_verificar p : quieta (verificar_y_desalojar_por_prioridad p).
Proof. unfold verificar_y_desalojar_por_prioridad. aquietar. Qed.
Lemma quieta_poner_prioridad inicio p x : quieta (poner_en_prioridad inicio p x).
Proof. unfold poner_en_prioridad, poner_cola_prioridad, post_sem_ready. aquietar. Qed.
Lemma quieta_poner_ready inicio p : quieta (poner_en_ready inicio p).
Proof. unfold poner_en_ready, post_sem_ready. aquietar. Qed.
#[export] Hint Resolve quieta_verificar quieta_poner_prioridad quieta_poner_ready : quieta.
Lemma quieta_reencolar_final p x : quieta (reencolar_proceso_ready_final p x).
Proof. unfold reencolar_proceso_ready_final. aquietar. Qed.
Lemma quieta_reubicar p x y : quieta (reubicar_proceso_en_ready p x y).
Proof. unfold reubicar_proceso_en_ready, poner_cola_prioridad. aquietar. Qed.
Lemma quieta_buscar_pcb p : quieta (buscar_pcb_por_pid p).
Proof. unfold buscar_pcb_por_pid. aquietar. Qed.
Lemma quieta_mejor_bloqueado l x : quieta (mejor_bloqueado l x).
Proof. revert x. induction l; intros x; cbn [mejor_bloqueado]; aquietar. Qed.
#[export] Hint Resolve quieta_reencolar_final quieta_reubicar quieta_buscar_pcb quieta_mejor_bloqueado : quieta.
Lemma quieta_mejor_heredada p ms x : quieta (mejor_heredada p ms x).
Proof. revert x. induction ms; intros x; cbn [mejor_heredada]; aquietar. Qed.
#[export] Hint Resolve quieta_mejor_heredada : quieta.

(** The first step, when it goes on. *)
Lemma bind_sigue {A B} (m : K A) (f : A -> K B) k b k' :
  (m ≫= f) k = Sigue b k' -> exists a k1, m k = Sigue a k1 /\ f a k1 = Sigue b k'.
Proof. rewrite bind_eq. destruct (m k) as [a k1| | | | |]; try done. intros H. by exists a, k1. Qed.
Lemma quieta_sigue {A} (m : K A) k a k' : quieta m -> m k = Sigue a k' -> dueno k' = dueno k.
Proof. intros Hm E. specialize (Hm k). by rewrite E in Hm. Qed.
Lemma leer_sigue p k b k' : leer p k = Sigue b k' -> k' = k /\ k_pcbs k !! p = Some b.
Proof. unfold leer. destruct (_ !! _); [|done]. by intros [= -> ->]. Qed.
Lemma modificar_sigue p f k u k' : modificar p f k = Sigue u k' ->
  exists b, k_pcbs k !! p = Some b /\ k' = con_k_pcbs (<[p := f b]> (k_pcbs k)) k.
Proof. unfold modificar. intros (b & k1 & [-> Hb]%leer_sigue & [= <-])%bind_sigue. by exists b. Qed.
Lemma leer_mutex_sigue i k m k' : leer_mutex i k = Sigue m k' -> k' = k /\ lista_mutexes k !! i = Some m.
Proof. unfold leer_mutex. destruct (_ !! _); [|done]. by intros [= -> ->]. Qed.
Lemma modificar_mutex_sigue i f k u k' : modificar_mutex i f k = Sigue u k' ->
  exists m, lista_mutexes k !! i = Some m /\ k' = con_lista_mutexes (alter f i (lista_mutexes k)) k.
Proof. unfold modificar_mutex. intros (m & k1 & [-> Hm]%leer_mutex_sigue & [= <-])%bind_sigue. by exists m. Qed.
Lemma buscar_pcb_sigue p k o k' : buscar_pcb_por_pid p k = Sigue o k' ->
  k' = k /\ forall q, o = Some q -> q = p /\ q ∈ todos_los_procesos k.
Proof.
  unfold buscar_pcb_por_pid. intros (l & k1 & [= <- <-] & (i & k2 & [-> ->]%posicion_inv & [= <- <-])%bind_sigue)%bind_sigue.
  split; [done|]. intros q Hq. destruct (indice_de _ _) as [i|] eqn:Hi; [|done]. cbn in Hq.
  apply indice_de_Some in Hi as (x & Hx & He & _). apply Z.eqb_eq in He. split; [congruence|]. by eapply list_elem_of_lookup_2.
Qed.

Lemma buscar_pcb_esta p k : p ∈ todos_los_procesos k -> forall o k', buscar_pcb_por_pid p k = Sigue o k' -> o = Some p /\ k' = k.
Proof.
  intros Hp o k'. unfold buscar_pcb_por_pid.
  intros (l & k1 & [= <- <-] & (i & k2 & [-> ->]%posicion_inv & [= <- <-])%bind_sigue)%bind_sigue. split; [|done].
  destruct (indice_pid_Some p _ Hp) as (i & -> & Hi). exact Hi.
Qed.

(** ** The recursion ends *)

Lemma bind_no_bloquea {A B} (m : K A) (f : A -> K B) k :
  m k <> Bloqueado -> (forall a k', m k = Sigue a k' -> f a k' <> Bloqueado) -> (m ≫= f) k <> Bloqueado.
Proof. intros Hm Hf. rewrite bind_eq. destruct (m k) eqn:E; try done. by apply Hf. Qed.
Lemma quieta_no_bloquea {A} (m : K A) k : quieta m -> m k <> Bloqueado.
Proof. intros Hm E. specialize (Hm k). by rewrite E in Hm. Qed.

(** How many processes are less urgent than [x]. *)
Definition menos_urgente (x : Z) (k : kernel) (q : Z) : bool :=
  match k_pcbs k !! q with Some b => x <? prioridad_dinamica b | None => false end.
Definition menos_urgentes (x : Z) (k : kernel) : nat := length (List.filter (menos_urgente x k) (todos_los_procesos k)).

Lemma filter_menos {A} (f g : A -> bool) l q :
  (forall y, y ∈ l -> g y = true -> f y = true) -> q ∈ l -> f q = true -> g q = false ->
  (length (List.filter g l) < length (List.filter f l))%nat.
Proof.
  intros Hfg Hq Hf Hg. induction l as [|y l IH]; [by apply elem_of_nil in Hq|]. cbn.
  assert (Hle : forall l', (forall y, y ∈ l' -> g y = true -> f y = true) ->
    (length (List.filter g l') <= length (List.filter f l'))%nat).
  { clear. induction l' as [|z l' IH]; intros H; [done|]. cbn. specialize (IH ltac:(intros; apply H; [by right|done])).
    destruct (g z) eqn:Eg; [rewrite (H z ltac:(left) Eg); cbn; lia|destruct (f z); cbn; lia]. }
  apply elem_of_cons in Hq as [->|Hq].
  - rewrite Hf, Hg. cbn. specialize (Hle l ltac:(intros; apply Hfg; [by right|done])). lia.
  - specialize (IH ltac:(intros; apply Hfg; [by right|done]) Hq).
    destruct (g y) eqn:Eg; [rewrite (Hfg y ltac:(left) Eg); cbn; lia|destruct (f y); cbn; lia].
Qed.

(** Giving [x] to a less urgent process leaves one fewer. *)
Lemma menos_urgentes_baja x k k' o b :
  k_pcbs k !! o = Some b -> o ∈ todos_los_procesos k -> x < prioridad_dinamica b ->
  k_pcbs k' = <[o := con_prioridad_dinamica x b]> (k_pcbs k) -> todos_los_procesos k' = todos_los_procesos k ->
  (menos_urgentes x k' < menos_urgentes x k)%nat.
Proof.
  intros Hb Ho Hx Hp Ht. unfold menos_urgentes. rewrite Ht. apply (filter_menos _ _ _ o); [|done| |].
  - intros y _. unfold menos_urgente. rewrite Hp. destruct (decide (y = o)) as [->|Hne].
    + rewrite lookup_insert_eq. cbn. intros H. b2p. lia.
    + rewrite lookup_insert_ne by congruence. tauto.
  - unfold menos_urgente. rewrite Hb. apply Z.ltb_lt. lia.
  - unfold menos_urgente. rewrite Hp, lookup_insert_eq. cbn. apply Z.ltb_irrefl.
Qed.

Lemma dueno_campos k k' : dueno k' = dueno k ->
  k_pcbs k' = k_pcbs k /\ lista_mutexes k' = lista_mutexes k /\ todos_los_procesos k' = todos_los_procesos k.
Proof. unfold dueno. by intros [=]. Qed.

(** One owner up, when the priority is given. *)
Lemma propagar_no_bloquea n p x k : (menos_urgentes x k <= n)%nat -> propagar_herencia_prioridad n p x k <> Bloqueado.
Proof.
  revert p k. induction n as [|n IH]; intros p k Hn; cbn [propagar_herencia_prioridad].
  all: apply bind_no_bloquea; [apply quieta_no_bloquea, quieta_leer|intros b k1 [-> Hb]%leer_sigue].
  all: destruct (mutex_esperando b) as [i|]; [|done].
  all: apply bind_no_bloquea; [apply quieta_no_bloquea, quieta_leer_mutex|intros m k1 [-> Hm]%leer_mutex_sigue].
  all: destruct (asignado_a_pid m =? -1); [done|].
  all: apply bind_no_bloquea; [apply quieta_no_bloquea, quieta_buscar_pcb|intros o k1 [-> Ho]%buscar_pcb_sigue].
  all: destruct o as [o|]; [|done]; destruct (Ho o eq_refl) as [_ Hin].
  all: apply bind_no_bloquea; [apply quieta_no_bloquea, quieta_leer|intros bo k1 [-> Hbo]%leer_sigue].
  all: destruct (Z.ltb_spec x (prioridad_dinamica bo)) as [Hx|]; [|done].
  all: apply bind_no_bloquea; [unfold modificar; rewrite bind_eq; unfold leer; rewrite Hbo; discriminate|].
  all: intros [] k1 (bo' & Hbo' & ->)%modificar_sigue; assert (bo' = bo) as -> by congruence.
  all: apply bind_no_bloquea; [apply quieta_no_bloquea, quieta_reubicar|].
  all: intros [] k2 (E1 & _ & E3)%(quieta_sigue _ _ _ _ (quieta_reubicar _ _ _))%dueno_campos.
  all: pose proof (menos_urgentes_baja x k k2 o bo Hbo Hin Hx E1 E3) as Hlt.
  - lia.
  - destruct (mutex_esperando bo); [|done]. apply IH. lia.
Qed.

(** C32: the recursion up the chain of owners ends, whatever the chain: each owner it
    visits stops being less urgent than the priority it carries, so as many steps
    as processes are enough. *)
Theorem propagar_herencia_termina p x k :
  propagar_herencia_prioridad (length (todos_los_procesos k)) p x k <> Bloqueado.
Proof. apply propagar_no_bloquea. apply List.filter_length_le. Qed.

(** ** Handlers that go on when the lock is free *)

Definition sigue {A} (m : K A) : Prop := forall k, mutex_lista_tomado k = false ->
  match m k with Sigue _ k' => mutex_lista_tomado k' = false | Indefinido => True | _ => False end.

Lemma sigue_quieta {A} (m : K A) : quieta m -> sigue m.
Proof. intros Hm k Hk. specialize (Hm k). destruct (m k); try done. unfold dueno in Hm. congruence. Qed.
Lemma sigue_bind {A B} (m : K A) (f : A -> K B) : sigue m -> (forall a, sigue (f a)) -> sigue (m ≫= f).
Proof.
  intros Hm Hf k Hk. specialize (Hm k Hk). rewrite bind_eq. destruct (m k) as [a k'| | | | |]; try done. by apply Hf.
Qed.
Lemma sigue_mod f : (forall k, mutex_lista_tomado (f k) = mutex_lista_tomado k) -> sigue (k_mod f).
Proof. intros Hf k Hk. cbn. congruence. Qed.
Lemma sigue_modificar p f : sigue (modificar p f).
Proof. apply sigue_bind; [apply sigue_quieta, quieta_leer|]. intros b. by apply sigue_mod. Qed.
Lemma sigue_modificar_mutex i f : sigue (modificar_mutex i f).
Proof. apply sigue_bind; [apply sigue_quieta, quieta_leer_mutex|]. intros b. by apply sigue_mod. Qed.
(** Between the lock and the unlock. *)
Lemma sigue_seccion {A} (m : K A) : quieta m -> sigue (_ ← lock_lista_mutexes; a ← m; _ ← unlock_lista_mutexes; mret a).
Proof.
  intros Hm k Hk. rewrite bind_eq. unfold lock_lista_mutexes. rewrite Hk, bind_eq.
  specialize (Hm (con_mutex_lista_tomado true k)). by destruct (m _).
Qed.
Lemma sigue_buscar_mutex nombre : sigue (buscar_mutex_por_nombre nombre).
Proof. intros k Hk. unfold buscar_mutex_por_nombre. rewrite bind_eq. unfold lock_lista_mutexes. by rewrite Hk. Qed.
Lemma sigue_registrar m : sigue (registrar_mutex m).
Proof. intros k Hk. unfold registrar_mutex. rewrite bind_eq. unfold lock_lista_mutexes. by rewrite Hk. Qed.
Lemma sigue_en_block p e : sigue (notificar_proceso_en_block p e).
Proof.
  apply sigue_bind; [by apply sigue_quieta, quieta_gets|]. intros [c|]; [|by apply sigue_quieta].
  destruct (_ <=? 0); [by apply sigue_quieta|by apply sigue_mod].
Qed.
Create HintDb sigue.
#[export] Hint Resolve sigue_quieta sigue_modificar sigue_modificar_mutex sigue_buscar_mutex sigue_registrar sigue_en_block : sigue.
Ltac sigue1 :=
  match goal with
  | |- sigue _ => solve [auto with sigue quieta nocore]
  | |- sigue (k_mod _) => apply sigue_mod; intros ?; cbn; reflexivity
  | |- sigue (_ ≫= _) => apply sigue_bind; [|intros ?]
  | |- sigue (match ?x with _ => _ end) => destruct x
  end.
Ltac seguir := repeat (cbv beta; sigue1).

Lemma sigue_recalcular p : sigue (recalcular_prioridad_dinamica p).
Proof.
  unfold recalcular_prioridad_dinamica. apply sigue_bind; [seguir|]. intros b k Hk. rewrite bind_eq. unfold lock_lista_mutexes.
  rewrite Hk, bind_eq. cbn [k_gets]. rewrite bind_eq.
  pose proof (quieta_mejor_heredada p (lista_mutexes (con_mutex_lista_tomado true k)) (prioridad b) (con_mutex_lista_tomado true k)) as Hq.
  destruct (mejor_heredada _ _ _ _) as [y k1| | | | |]; try done. rewrite bind_eq. cbn [unlock_lista_mutexes k_mod].
  enough (Hs : sigue (if y =? prioridad_dinamica b then mret tt
    else _ ← modificar p (con_prioridad_dinamica y); reubicar_proceso_en_ready p (prioridad_dinamica b) y)) by (by apply Hs).
  seguir.
Qed.
Lemma sigue_encolar p : sigue (encolar_en_ready_y_notificar p).
Proof. unfold encolar_en_ready_y_notificar. seguir. Qed.
#[export] Hint Resolve sigue_recalcular sigue_encolar : sigue.
Lemma sigue_entregar i p r : sigue (entregar_mutex i p r).
Proof. unfold entregar_mutex. seguir. Qed.
#[export] Hint Resolve sigue_entregar : sigue.
Lemma sigue_unlock p ps : sigue (manejar_syscall_mutex_unlock p ps).
Proof. unfold manejar_syscall_mutex_unlock. seguir. Qed.

(** The climb: it never ends the process, and it does not wait when it has enough steps. *)
Lemma propagar_lock n p x k : mutex_lista_tomado k = false ->
  match propagar_herencia_prioridad n p x k with
  | Sigue _ k' => mutex_lista_tomado k' = false | Indefinido | Bloqueado => True | _ => False end.
Proof.
  assert (Hseq : forall (m : K unit) (f : unit -> K unit) k, sigue m -> mutex_lista_tomado k = false ->
    (forall k1, mutex_lista_tomado k1 = false -> match f tt k1 with
       Sigue _ k' => mutex_lista_tomado k' = false | Indefinido | Bloqueado => True | _ => False end) ->
    match (m ≫= f) k with Sigue _ k' => mutex_lista_tomado k' = false | Indefinido | Bloqueado => True | _ => False end).
  { intros m f k0 Hm Hk Hf. specialize (Hm k0 Hk). rewrite bind_eq. destruct (m k0) as [[] k1| | | | |]; try done. by apply Hf. }
  revert p k. induction n as [|n IH]; intros p k Hk; cbn [propagar_herencia_prioridad].
  all: rewrite bind_eq; unfold leer at 1; destruct (k_pcbs k !! p) as [b|]; [|done].
  all: destruct (mutex_esperando b) as [i|]; [|done].
  all: rewrite bind_eq; unfold leer_mutex at 1; destruct (lista_mutexes k !! i) as [m|]; [|done].
  all: destruct (_ =? -1); [done|]; rewrite bind_eq.
  all: pose proof (quieta_buscar_pcb (asignado_a_pid m) k) as Hq; destruct (buscar_pcb_por_pid _ _) as [o k1| | | | |] eqn:E; try done.
  all: apply buscar_pcb_sigue in E as [-> _]; destruct o as [o|]; [|done].
  all: rewrite bind_eq; unfold leer at 1; destruct (k_pcbs k !! o) as [bo|]; [|done].
  all: destruct (_ <? _); [|done].
  all: apply Hseq; [auto with sigue|done|]; intros k1 Hk1; apply Hseq; [auto with sigue quieta|done|]; intros k2 Hk2.
  all: destruct (mutex_esperando bo); [|done].
  - done.
  - by apply IH.
Qed.

Lemma sigue_lock p ps : sigue (manejar_syscall_mutex_lock p ps).
Proof.
  assert (Hp : forall x (f : unit -> K bool), (forall u, sigue (f u)) ->
    sigue (n ← k_gets (fun k => length (todos_los_procesos k)); propagar_herencia_prioridad n p x ≫= f)).
  { intros x f Hf k Hk. rewrite bind_eq. cbn [k_gets]. rewrite bind_eq.
    pose proof (propagar_lock (length (todos_los_procesos k)) p x k Hk) as H1.
    pose proof (propagar_no_bloquea (length (todos_los_procesos k)) p x k (List.filter_length_le _ _)) as H2.
    destruct (propagar_herencia_prioridad _ _ _ _); try done. by apply Hf. }
  unfold manejar_syscall_mutex_lock. destruct ps as [|nombre ps]; [seguir|]. apply sigue_bind; [seguir|]. intros o.
  apply sigue_bind; [seguir|]. intros i. apply sigue_bind; [seguir|]. intros m. destruct (_ =? -1); [seguir|].
  apply sigue_bind; [seguir|]. intros _. apply sigue_bind; [seguir|]. intros _. apply sigue_bind; [seguir|]. intros b.
  apply Hp. intros _. seguir.
Qed.

(** ** No inversion of priorities *)

(** [o] is at least as urgent as [w]. *)
Definition urgente (k : kernel) (o w : Z) : Prop := forall bo bw,
  k_pcbs k !! o = Some bo -> k_pcbs k !! w = Some bw -> prioridad_dinamica bo <= prioridad_dinamica bw.

(** Owners are at least as urgent as those who wait for them, but for the owners
    in [D] and the waiters in [W]. *)
Definition sin_inversion_salvo (D W : Z -> Prop) (k : kernel) : Prop := forall i m w,
  lista_mutexes k !! i = Some m -> w ∈ cola_bloqueados m -> ~ D (asignado_a_pid m) -> ~ W w -> urgente k (asignado_a_pid m) w.
Definition nadie (p : Z) : Prop := False.
Definition sin_inversion (k : kernel) : Prop := forall i m w,
  lista_mutexes k !! i = Some m -> w ∈ cola_bloqueados m -> urgente k (asignado_a_pid m) w.

Lemma sin_inversion_nadie k : sin_inversion k <-> sin_inversion_salvo nadie nadie k.
Proof. unfold sin_inversion, sin_inversion_salvo, nadie. split; intros H i m w Hi Hw; [intros _ _|]; by eapply H; try tauto. Qed.

(** Those who wait for a mutex know it. *)
Definition esperas (k : kernel) : Prop := forall i m w,
  lista_mutexes k !! i = Some m -> w ∈ cola_bloqueados m -> exists b, k_pcbs k !! w = Some b /\ mutex_esperando b = Some i.

Lemma Inv_esperas sr M k : Inv sr M k -> esperas k.
Proof.
  intros H i m w Hi Hw. pose proof (i_mutex _ _ _ H i m Hi) as HF. rewrite Forall_forall in HF.
  destruct (HF w Hw) as (b & Hb & _ & Hm). by exists b.
Qed.

(** Giving [x] to the owner [o]: its own waiters are served, those it waits for may not be. *)
Lemma dar_prioridad k k' p o bo b m i x :
  sin_inversion_salvo nadie (eq p) k -> esperas k -> k_pcbs k !! p = Some b -> mutex_esperando b = Some i ->
  lista_mutexes k !! i = Some m -> asignado_a_pid m = o -> k_pcbs k !! o = Some bo ->
  x < prioridad_dinamica bo -> x = prioridad_dinamica b ->
  k_pcbs k' = <[o := con_prioridad_dinamica x bo]> (k_pcbs k) -> lista_mutexes k' = lista_mutexes k ->
  sin_inversion_salvo nadie (eq o) k' /\ esperas k'.
Proof.
  intros Hs He Hb Hi Hm Ho Hbo Hx Ex Ep El. split.
  - intros j m' w Hj Hw _ Hwo co cw. rewrite El in Hj. rewrite Ep. rewrite (lookup_insert_ne _ o w) by congruence. intros Hco Hcw.
    destruct (decide (w = p)) as [->|Hwp].
    + destruct (He j m' p Hj Hw) as (b' & Hb' & Hj'). assert (j = i) as -> by congruence. assert (m' = m) as -> by congruence.
      rewrite Ho, lookup_insert_eq in Hco. injection Hco as <-. cbn. assert (cw = b) as -> by congruence. lia.
    + assert (Hu : urgente k (asignado_a_pid m') w) by (eapply Hs; [done|done|tauto|congruence]).
      destruct (decide (asignado_a_pid m' = o)) as [Eo|Hne].
      * rewrite Eo, lookup_insert_eq in Hco. injection Hco as <-. cbn. rewrite Eo in Hu. specialize (Hu bo cw Hbo Hcw). lia.
      * rewrite lookup_insert_ne in Hco by congruence. by apply Hu.
  - intros j m' w Hj Hw. rewrite El in Hj. destruct (He j m' w Hj Hw) as (c & Hc & Hcj). rewrite Ep.
    destruct (decide (w = o)) as [->|Hwo].
    + exists (con_prioridad_dinamica x bo). rewrite lookup_insert_eq. split; [done|]. cbn. congruence.
    + exists c. rewrite lookup_insert_ne by congruence. done.
Qed.

Lemma sin_espera k p b : sin_inversion_salvo nadie (eq p) k -> esperas k -> k_pcbs k !! p = Some b -> mutex_esperando b = None -> sin_inversion k.
Proof.
  intros Hs He Hb Hn i m w Hi Hw. destruct (decide (w = p)) as [->|Hne].
  - destruct (He i m p Hi Hw) as (c & Hc & Hci). congruence.
  - eapply Hs; [done|done|tauto|congruence].
Qed.

(** The climb from a process that has just blocked serves the whole chain. *)
Lemma propagar_repara n p b k k' :
  sin_inversion_salvo nadie (eq p) k -> esperas k -> k_pcbs k !! p = Some b ->
  Forall (fun m => asignado_a_pid m = -1 -> cola_bloqueados m = []) (lista_mutexes k) ->
  (forall i m, lista_mutexes k !! i = Some m -> asignado_a_pid m <> -1 -> asignado_a_pid m ∈ todos_los_procesos k) ->
  propagar_herencia_prioridad n p (prioridad_dinamica b) k = Sigue tt k' -> sin_inversion k'.
Proof.
  remember (prioridad_dinamica b) as x eqn:Ex. revert p b k Ex. induction n as [|n IH]; intros p b k Ex Hs He Hb Hl Ht; cbn [propagar_herencia_prioridad].
  all: intros (b' & k1 & [-> Hb']%leer_sigue & E)%bind_sigue; assert (b' = b) as -> by congruence; clear Hb'.
  all: destruct (mutex_esperando b) as [i|] eqn:Hi; [|injection E as <-; by eapply sin_espera].
  all: apply bind_sigue in E as (m & k1 & [-> Hm]%leer_mutex_sigue & E).
  all: assert (Hp : forall w j m', lista_mutexes k !! j = Some m' -> w ∈ cola_bloqueados m' -> w = p -> m' = m)
    by (intros w j m' Hj Hw ->; destruct (He j m' p Hj Hw) as (c & Hc & Hcj); congruence).
  all: assert (Hfin : (p ∈ cola_bloqueados m -> urgente k (asignado_a_pid m) p) -> sin_inversion k)
    by (intros Hu j m' w Hj Hw; destruct (decide (w = p)) as [->|Hne];
        [assert (m' = m) as -> by (by apply (Hp p j m')); by apply Hu|eapply Hs; [done|done|tauto|congruence]]).
  all: destruct (Z.eqb_spec (asignado_a_pid m) (-1)) as [Ha|Ha];
    [injection E as <-; apply Hfin; intros Hw; rewrite Forall_lookup in Hl; rewrite (Hl i m Hm Ha) in Hw; by apply elem_of_nil in Hw|].
  all: apply bind_sigue in E as (o & k1 & Eo & E).
  all: destruct (buscar_pcb_esta _ k (Ht i m Hm Ha) _ _ Eo) as [-> ->].
  all: apply bind_sigue in E as (bo & k1 & [-> Hbo]%leer_sigue & E).
  all: destruct (Z.ltb_spec x (prioridad_dinamica bo)) as [Hx|Hx];
    [|injection E as <-; apply Hfin; intros _ co cw Hco Hcw; assert (co = bo) as -> by congruence; assert (cw = b) as -> by congruence; lia].
  all: apply bind_sigue in E as ([] & k1 & (bo' & Hbo' & ->)%modificar_sigue & E); assert (bo' = bo) as -> by congruence.
  all: apply bind_sigue in E as ([] & k2 & (E1 & E2 & E3)%(quieta_sigue _ _ _ _ (quieta_reubicar _ _ _))%dueno_campos & E).
  all: cbn [con_k_pcbs k_pcbs lista_mutexes todos_los_procesos] in E1, E2, E3.
  all: destruct (dar_prioridad k k2 p (asignado_a_pid m) bo b m i x Hs He Hb Hi Hm eq_refl Hbo Hx Ex E1 E2) as [Hs2 He2].
  all: assert (Hbo2 : k_pcbs k2 !! asignado_a_pid m = Some (con_prioridad_dinamica x bo)) by (by rewrite E1, lookup_insert_eq).
  all: destruct (mutex_esperando bo) as [j|] eqn:Hj; [|injection E as <-; by eapply sin_espera].
  - done.
  - apply (IH (asignado_a_pid m) (con_prioridad_dinamica x bo) k2 eq_refl Hs2 He2 Hbo2); [by rewrite E2| |exact E].
    intros i' m' Hi' Ha'. rewrite E3. rewrite E2 in Hi'. by eapply Ht.
Qed.

(** ** The recomputation is a minimum *)

(** [y] is the least of [x] and of the dynamic priorities of [l]. *)
Definition es_minimo (k : kernel) (x : Z) (l : list Z) (y : Z) : Prop :=
  y <= x /\ (forall w b, w ∈ l -> k_pcbs k !! w = Some b -> y <= prioridad_dinamica b) /\
  (y = x \/ exists w b, w ∈ l /\ k_pcbs k !! w = Some b /\ y = prioridad_dinamica b).

(** Those who wait for the mutexes of [p]. *)
Definition esperan_a (p : Z) (ms : list t_mutex_sistema) : list Z :=
  ms ≫= fun m => if asignado_a_pid m =? p then cola_bloqueados m else [].

Lemma es_minimo_nil k x : es_minimo k x [] x.
Proof. split; [lia|]. split; [by intros w b ?%elem_of_nil|by left]. Qed.
Lemma es_minimo_app k x l1 l2 y z : es_minimo k x l1 y -> es_minimo k y l2 z -> es_minimo k x (l1 ++ l2) z.
Proof.
  intros (H1 & H2 & H3) (G1 & G2 & G3). split; [lia|]. split.
  - intros w b [Hw|Hw]%elem_of_app Hb; [specialize (H2 w b Hw Hb); lia|by eapply G2].
  - destruct G3 as [->|(w & b & Hw & Hb & E)]; [|right; exists w, b; split; [apply elem_of_app; by right|done]].
    destruct H3 as [->|(w & b & Hw & Hb & E)]; [by left|right; exists w, b; split; [apply elem_of_app; by left|done]].
Qed.

Lemma mejor_bloqueado_sigue l x k y k' : mejor_bloqueado l x k = Sigue y k' -> k' = k /\ es_minimo k x l y.
Proof.
  revert x. induction l as [|p l IH]; intros x; cbn [mejor_bloqueado]; [intros [= <- <-]; split; [done|apply es_minimo_nil]|].
  intros (b & k1 & [-> Hb]%leer_sigue & [-> H]%IH)%bind_sigue. split; [done|]. revert H. set (z := if _ <? _ then _ else _). intros H. apply (es_minimo_app k x [p] l z y); [|exact H].
  assert (Hz : z <= x /\ z <= prioridad_dinamica b /\ (z = x \/ z = prioridad_dinamica b)).
  { subst z. destruct (Z.ltb_spec (prioridad_dinamica b) x); lia. }
  split; [lia|]. split.
  - intros w c ->%list_elem_of_singleton Hc. assert (c = b) as -> by congruence. lia.
  - destruct Hz as (_ & _ & [Hz|Hz]); [by left|]. right. exists p, b. split; [left|done].
Qed.

Lemma mejor_heredada_sigue p ms x k y k' : mejor_heredada p ms x k = Sigue y k' -> k' = k /\ es_minimo k x (esperan_a p ms) y.
Proof.
  revert x. induction ms as [|m ms IH]; intros x; cbn [mejor_heredada]; [intros [= <- <-]; split; [done|apply es_minimo_nil]|].
  intros (z & k1 & E & H)%bind_sigue. cbn [esperan_a mbind list_bind].
  assert (Hz : k1 = k /\ es_minimo k x (if asignado_a_pid m =? p then cola_bloqueados m else []) z).
  { destruct (_ =? p); [by apply mejor_bloqueado_sigue|]. injection E as <- <-. split; [done|apply es_minimo_nil]. }
  destruct Hz as [-> Hz]. apply IH in H as [-> H]. split; [done|]. by eapply es_minimo_app.
Qed.

Lemma con_prioridad_misma b : con_prioridad_dinamica (prioridad_dinamica b) b = b.
Proof. by destruct b. Qed.

Lemma recalcular_sigue p k k' : recalcular_prioridad_dinamica p k = Sigue tt k' ->
  exists b y, k_pcbs k !! p = Some b /\ es_minimo k (prioridad b) (esperan_a p (lista_mutexes k)) y /\
    k_pcbs k' = <[p := con_prioridad_dinamica y b]> (k_pcbs k) /\
    lista_mutexes k' = lista_mutexes k /\ todos_los_procesos k' = todos_los_procesos k.
Proof.
  unfold recalcular_prioridad_dinamica. intros (b & k1 & [-> Hb]%leer_sigue & E)%bind_sigue.
  apply bind_sigue in E as ([] & k1 & E1 & E). unfold lock_lista_mutexes in E1. destruct (mutex_lista_tomado k); [done|]. injection E1 as <-.
  apply bind_sigue in E as (ms & k1 & [= <- <-] & E). apply bind_sigue in E as (y & k1 & [-> Hy]%mejor_heredada_sigue & E).
  apply bind_sigue in E as ([] & k1 & [= <-] & E). exists b, y. split; [done|]. split; [exact Hy|].
  destruct (Z.eqb_spec y (prioridad_dinamica b)) as [->|Hne].
  - injection E as <-. cbn. rewrite con_prioridad_misma, insert_id by done. done.
  - apply bind_sigue in E as ([] & k1 & (b' & Hb' & ->)%modificar_sigue & E). cbn in Hb'. assert (b' = b) as -> by congruence.
    apply (quieta_sigue _ _ _ _ (quieta_reubicar _ _ _)) in E as (E1 & E2 & E3)%dueno_campos. by rewrite E1, E2, E3.
Qed.

(** the dynamic priority of a process is recomputed as the least of its own and
    of the dynamic priorities of the processes that wait for its mutexes; nothing
    else of any PCB or mutex changes. *)
Theorem recalcular_es_el_minimo sr M p b k :
  Inv sr M k -> mutex_lista_tomado k = false -> k_pcbs k !! p = Some b -> estado b <> NEW ->
  exists k' y, recalcular_prioridad_dinamica p k = Sigue tt k' /\ es_minimo k (prioridad b) (esperan_a p (lista_mutexes k)) y /\
    k_pcbs k' = <[p := con_prioridad_dinamica y b]> (k_pcbs k) /\ lista_mutexes k' = lista_mutexes k.
Proof.
  intros H Hk Hb He. pose proof (cumple_recalcular sr M p b (fun _ _ => True) k H Hb He ltac:(done)) as Hc.
  pose proof (sigue_recalcular p k Hk) as Hs. unfold cumple in Hc.
  destruct (recalcular_prioridad_dinamica p k) as [[] k'| | | | |] eqn:E; try done.
  destruct (recalcular_sigue p k k' E) as (b' & y & Hb' & Hy & E1 & E2 & _). assert (b' = b) as -> by congruence. by exists k', y.
Qed.

(** The recomputation serves those who wait for [p]. *)
Lemma recalcular_repara D p k k' :
  sin_inversion_salvo (fun q => q = p \/ D q) nadie k -> (forall i m, lista_mutexes k !! i = Some m -> p ∉ cola_bloqueados m) ->
  recalcular_prioridad_dinamica p k = Sigue tt k' -> sin_inversion_salvo D nadie k'.
Proof.
  intros Hs Hp (b & y & Hb & (_ & Hmin & _) & E1 & E2 & _)%recalcular_sigue i m w Hi Hw HD _ bo bw. rewrite E2 in Hi. rewrite E1.
  assert (Hwp : w <> p) by (intros ->; by eapply Hp). rewrite (lookup_insert_ne _ p w) by congruence. intros Hbo Hbw.
  destruct (decide (asignado_a_pid m = p)) as [Ho|Ho].
  - rewrite Ho, lookup_insert_eq in Hbo. injection Hbo as <-. cbn. eapply Hmin; [|exact Hbw].
    unfold esperan_a. apply list_elem_of_bind. exists m. split; [|by eapply list_elem_of_lookup_2].
    rewrite (proj2 (Z.eqb_eq _ _) Ho). exact Hw.
  - rewrite lookup_insert_ne in Hbo by congruence. eapply Hs; [exact Hi|exact Hw|tauto|by intros []|done|done].
Qed.

Lemma inversion_D D W D' W' k : (forall q, D q -> D' q) -> (forall q, W q -> W' q) -> sin_inversion_salvo D W k -> sin_inversion_salvo D' W' k.
Proof. intros HD HW H i m w Hi Hw Hd Hv. eapply H; [done|done| |]; auto. Qed.

(** A PCB that keeps its dynamic priority. *)
Lemma inversion_pcb D W k k' p b b' :
  k_pcbs k !! p = Some b -> prioridad_dinamica b' = prioridad_dinamica b ->
  k_pcbs k' = <[p := b']> (k_pcbs k) -> lista_mutexes k' = lista_mutexes k ->
  sin_inversion_salvo D W k -> sin_inversion_salvo D W k'.
Proof.
  intros Hb Ed E1 E2 H i m w Hi Hw HD HW bo bw. rewrite E2 in Hi. rewrite E1. intros Hbo Hbw.
  assert (Hx : forall q c, <[p:=b']> (k_pcbs k) !! q = Some c -> exists c', k_pcbs k !! q = Some c' /\ prioridad_dinamica c' = prioridad_dinamica c).
  { intros q c. destruct (decide (q = p)) as [->|Hne].
    - rewrite lookup_insert_eq. intros [= <-]. by exists b.
    - rewrite lookup_insert_ne by congruence. intros Hc. exists c. done. }
  destruct (Hx _ _ Hbo) as (co & Hco & <-). destruct (Hx _ _ Hbw) as (cw & Hcw & <-).
  exact (H i m w Hi Hw HD HW co cw Hco Hcw).
Qed.

Lemma buscar_mutex_sigue nombre k o k' : buscar_mutex_por_nombre nombre k = Sigue o k' ->
  k_pcbs k' = k_pcbs k /\ lista_mutexes k' = lista_mutexes k /\ todos_los_procesos k' = todos_los_procesos k /\
  o = indice_de (fun m => bool_decide (m_nombre m = nombre)) (lista_mutexes k).
Proof.
  unfold buscar_mutex_por_nombre. intros ([] & k1 & E1 & E)%bind_sigue. unfold lock_lista_mutexes in E1.
  destruct (mutex_lista_tomado k); [done|]. injection E1 as <-.
  apply bind_sigue in E as (ms & k1 & [= <- <-] & E). by apply bind_sigue in E as ([] & k1 & [= <-] & [= <- <-]).
Qed.

Lemma entregar_sigue i s resto k k' : entregar_mutex i s resto k = Sigue tt k' ->
  exists b k1, k_pcbs k !! s = Some b /\ recalcular_prioridad_dinamica s k1 = Sigue tt k' /\
    mutex_lista_tomado k1 = mutex_lista_tomado k /\
    (exists b', k_pcbs k1 = <[s := b']> (k_pcbs k) /\ prioridad_dinamica b' = prioridad_dinamica b /\ estado b' = READY /\
      mutex_esperando b' = None /\ prioridad b' = prioridad b) /\
    lista_mutexes k1 = alter (fun m => con_asignado s (con_bloqueados resto m)) i (lista_mutexes k).
Proof.
  unfold entregar_mutex. intros (b & k1 & [-> Hb]%leer_sigue & E)%bind_sigue.
  apply bind_sigue in E as ([] & k1 & (m & Hm & ->)%modificar_mutex_sigue & E).
  apply bind_sigue in E as ([] & k1 & (b1 & Hb1 & ->)%modificar_sigue & E). cbn in Hb1. assert (b1 = b) as -> by congruence. clear Hb1.
  apply bind_sigue in E as ([] & k1 & E1 & E). exists b, k1. split; [done|]. split; [exact E|].
  unfold encolar_en_ready_y_notificar in E1. apply bind_sigue in E1 as ([] & k2 & (b2 & Hb2 & ->)%modificar_sigue & E1).
  cbn in Hb2. rewrite lookup_insert_eq in Hb2. injection Hb2 as <-.
  assert (Hq : quieta (k0 ← k_get; if cantidad_niveles_prioridad k0 >? 0 then b0 ← leer s; reencolar_proceso_ready_final s (prioridad b0)
    else poner_en_ready false s)) by aquietar.
  apply (quieta_sigue _ _ _ _ Hq) in E1. split; [by injection E1|].
  apply dueno_campos in E1 as (F1 & F2 & _). cbn in F1, F2. rewrite F1, F2, insert_insert_eq. split; [|done].
  eexists. split; [reflexivity|done].
Qed.

(** ** A lock *)

Lemma quieta_en_block p e : quieta (notificar_proceso_en_block p e).
Proof. unfold notificar_proceso_en_block. aquietar. Qed.

(** The process in the queue of the mutex: only its own pair may be wrong. *)
Lemma lock_estado sr M p b i m k k1 :
  Inv sr (p :: M) k -> k_pcbs k !! p = Some b -> lista_mutexes k !! i = Some m -> asignado_a_pid m <> -1 -> sin_inversion k ->
  k_pcbs k1 = <[p := con_mutex_esperando (Some i) (con_estado BLOCK b)]> (k_pcbs k) ->
  lista_mutexes k1 = alter (con_bloqueados (cola_bloqueados m ++ [p])) i (lista_mutexes k) ->
  todos_los_procesos k1 = todos_los_procesos k ->
  sin_inversion_salvo nadie (eq p) k1 /\ esperas k1 /\
  Forall (fun m => asignado_a_pid m = -1 -> cola_bloqueados m = []) (lista_mutexes k1) /\
  (forall i m, lista_mutexes k1 !! i = Some m -> asignado_a_pid m <> -1 -> asignado_a_pid m ∈ todos_los_procesos k1).
Proof.
  intros H Hb Hm Ha Hs E1 E2 E3.
  assert (Hpm : forall j m', lista_mutexes k !! j = Some m' -> p ∉ cola_bloqueados m').
  { intros j m' Hj Hp. pose proof (tomado_fuera _ _ _ _ H) as Hf. pose proof (en_mutexes_lookup _ _ _ _ Hj Hp). tauto. }
  assert (Hold : forall j m', lista_mutexes k1 !! j = Some m' -> exists m0, lista_mutexes k !! j = Some m0 /\
    asignado_a_pid m' = asignado_a_pid m0 /\ forall w, w ∈ cola_bloqueados m' -> w ∈ cola_bloqueados m0 \/ (w = p /\ j = i)).
  { intros j m'. rewrite E2. destruct (decide (i = j)) as [<-|Hne].
    - rewrite list_lookup_alter_eq, Hm. intros [= <-]. exists m. split; [done|]. split; [done|]. intros w. cbn.
      rewrite elem_of_app, list_elem_of_singleton. tauto.
    - rewrite list_lookup_alter_ne by done. intros Hj. exists m'. split; [done|]. split; [done|]. tauto. }
  pose proof (Inv_esperas _ _ _ H) as He. pose proof (i_duenio _ _ _ H) as Hd. pose proof (i_libre _ _ _ H) as Hl.
  rewrite Forall_lookup in Hd, Hl. split_and!.
  - apply (inversion_pcb _ _ (con_lista_mutexes (lista_mutexes k1) k) k1 p b (con_mutex_esperando (Some i) (con_estado BLOCK b))); try done.
    intros j m' w Hj Hw _ Hwp. destruct (Hold j m' Hj) as (m0 & Hm0 & -> & Hq). destruct (Hq w Hw) as [Hw0|[-> _]]; [|done].
    exact (Hs j m0 w Hm0 Hw0).
  - intros j m' w Hj Hw. destruct (Hold j m' Hj) as (m0 & Hm0 & _ & Hq). rewrite E1. destruct (Hq w Hw) as [Hw0|[-> ->]].
    + assert (w <> p) by (intros ->; by apply (Hpm j m0)). rewrite lookup_insert_ne by congruence. by eapply He.
    + rewrite lookup_insert_eq. by eexists.
  - apply Forall_lookup. intros j m' Hj. destruct (Hold j m' Hj) as (m0 & Hm0 & Ea & Hq). intros Ha'. rewrite Ea in Ha'.
    specialize (Hl j m0 Hm0 Ha'). destruct (cola_bloqueados m') as [|w l]; [done|]. destruct (Hq w ltac:(left)) as [Hw|[-> ->]].
    + rewrite Hl in Hw. by apply elem_of_nil in Hw.
    + congruence.
  - intros j m' Hj Ha'. destruct (Hold j m' Hj) as (m0 & Hm0 & Ea & _). rewrite E3. rewrite Ea in *.
    destruct (Hd j m0 Hm0) as [Hx|(bo & Hbo & _)]; [done|]. apply (i_vivos _ _ _ H). by exists bo.
Qed.

(** What the rest of a lock does, from the mutex found or created on. *)
Lemma lock_repara sr M p b i m k r k' :
  Inv sr (p :: M) k -> k_pcbs k !! p = Some b -> lista_mutexes k !! i = Some m -> sin_inversion k ->
  (if asignado_a_pid m =? -1 then _ ← modificar_mutex i (con_asignado p); mret false
   else
     _ ← modificar p (fun b => con_mutex_esperando (Some i) (con_estado BLOCK b));
     _ ← modificar_mutex i (con_bloqueados (cola_bloqueados m ++ [p]));
     b ← leer p;
     n ← k_gets (fun k => length (todos_los_procesos k));
     _ ← propagar_herencia_prioridad n p (prioridad_dinamica b);
     _ ← modificar p (fun b => con_block_epoch (block_epoch b +u 1)%u32 b);
     b ← leer p;
     _ ← notificar_proceso_en_block p (block_epoch b);
     mret true) k = Sigue r k' -> sin_inversion k'.
Proof.
  intros H Hb Hm Hs. destruct (Z.eqb_spec (asignado_a_pid m) (-1)) as [Ha|Ha].
  - intros ([] & k1 & (m' & Hm' & ->)%modificar_mutex_sigue & [= <- <-])%bind_sigue. assert (m' = m) as -> by congruence.
    pose proof (i_libre _ _ _ H) as Hl. rewrite Forall_lookup in Hl. specialize (Hl i m Hm Ha).
    intros j m' w Hj Hw. cbn in Hj. destruct (decide (i = j)) as [<-|Hne].
    + rewrite list_lookup_alter_eq, Hm in Hj. injection Hj as <-. cbn in Hw. rewrite Hl in Hw. by apply elem_of_nil in Hw.
    + rewrite list_lookup_alter_ne in Hj by done. exact (Hs j m' w Hj Hw).
  - intros ([] & k1 & (b' & Hb' & ->)%modificar_sigue & E)%bind_sigue. assert (b' = b) as -> by congruence. clear Hb'.
    apply bind_sigue in E as ([] & k1 & (m' & Hm' & ->)%modificar_mutex_sigue & E). cbn in Hm'. assert (m' = m) as -> by congruence. clear Hm'.
    set (b1 := con_mutex_esperando (Some i) (con_estado BLOCK b)) in *. set (k1 := con_lista_mutexes _ _) in E.
    assert (E1 : k_pcbs k1 = <[p := b1]> (k_pcbs k)) by done.
    assert (E2 : lista_mutexes k1 = alter (con_bloqueados (cola_bloqueados m ++ [p])) i (lista_mutexes k)) by done.
    assert (Hb1 : k_pcbs k1 !! p = Some b1) by (by rewrite E1, lookup_insert_eq).
    destruct (lock_estado sr M p b i m k k1 H Hb Hm Ha Hs E1 E2 eq_refl) as (Hs1 & He1 & Hl1 & Ht1).
    clearbody k1. apply bind_sigue in E as (b' & k2 & [-> Hb']%leer_sigue & E). assert (b' = b1) as -> by congruence.
    apply bind_sigue in E as (n & k2 & [= <- <-] & E). apply bind_sigue in E as ([] & k2 & Ep & E).
    pose proof (propagar_repara _ p b1 k1 k2 Hs1 He1 Hb1 Hl1 Ht1 Ep) as Hs2.
    apply bind_sigue in E as ([] & k3 & (b2 & Hb2 & ->)%modificar_sigue & E).
    apply bind_sigue in E as (b3 & k3 & [-> Hb3]%leer_sigue & E). apply bind_sigue in E as ([] & k3 & En & [= <- <-]).
    rewrite sin_inversion_nadie in *.
    pose proof (quieta_en_block p (block_epoch b3)) as Hq. apply (quieta_sigue _ _ _ _ Hq) in En as (F1 & F2 & _)%dueno_campos.
    cbn in F1, F2. exact (inversion_pcb _ _ k2 k3 p b2 (con_block_epoch (block_epoch b2 +u 1)%u32 b2) Hb2 eq_refl F1 F2 Hs2).
Qed.

Lemma lock_sin_inversion sr M p b params k r k' :
  Inv sr (p :: M) k -> k_pcbs k !! p = Some b -> sin_inversion k ->
  manejar_syscall_mutex_lock p params k = Sigue r k' -> sin_inversion k'.
Proof.
  intros H Hb Hs. destruct params as [|nombre ps]; cbn [manejar_syscall_mutex_lock]; [by intros [= <- <-]|].
  intros (o & k1 & Eb & E)%bind_sigue.
  pose proof (cumple_buscar_mutex (cstr nombre) sr (p :: M) (fun o k1 => misma k k1) k H) as Hc.
  unfold cumple in Hc. rewrite Eb in Hc. specialize (Hc ltac:(done)). pose proof (Inv_misma _ _ _ _ Hc H) as H1.
  apply buscar_mutex_sigue in Eb as (E1 & E2 & _ & ->).
  assert (Hs1 : sin_inversion k1) by (intros i m w; unfold urgente; rewrite E1, E2; apply Hs).
  rewrite <-E1 in Hb. apply bind_sigue in E as (i & k2 & Ei & E).
  destruct (indice_de _ _) as [j|] eqn:Hj.
  - injection Ei as <- <-. apply bind_sigue in E as (m & k2 & [-> Hm]%leer_mutex_sigue & E). by eapply lock_repara.
  - pose proof (cumple_registrar_mutex (cstr nombre) sr (p :: M) (fun i k2 => Inv sr (p :: M) k2 /\ k_pcbs k2 = k_pcbs k1) k1 H1 ltac:(done)) as Hr.
    unfold cumple in Hr. rewrite Ei in Hr. destruct Hr as [H2 E3].
    assert (E4 : lista_mutexes k2 = lista_mutexes k1 ++ [MutexS (cstr nombre) (-1) []]).
    { unfold registrar_mutex in Ei. apply bind_sigue in Ei as ([] & k3 & El & Ei). unfold lock_lista_mutexes in El.
      destruct (mutex_lista_tomado k1); [done|]. injection El as <-. apply bind_sigue in Ei as (l & k3 & [= <- <-] & Ei).
      apply bind_sigue in Ei as ([] & k3 & [= <-] & Ei). by apply bind_sigue in Ei as ([] & k3 & [= <-] & [= <- <-]). }
    apply bind_sigue in E as (m & k3 & [-> Hm]%leer_mutex_sigue & E). rewrite <-E3 in Hb.
    eapply lock_repara; [exact H2|exact Hb|exact Hm| |exact E].
    intros j m' w Hi Hw. unfold urgente. rewrite E3. rewrite E4 in Hi. apply lookup_app_Some in Hi as [Hi|[_ Hi]].
    + exact (Hs1 j m' w Hi Hw).
    + apply list_lookup_singleton_Some in Hi as [_ <-]. by apply elem_of_nil in Hw.
Qed.

(** ** An unlock *)

Lemma cola_nodup sr M k i m : Inv sr M k -> lista_mutexes k !! i = Some m -> NoDup (cola_bloqueados m).
Proof.
  intros H Hm. pose proof (Inv_nodup _ _ _ H) as Hn. unfold lugares in Hn.
  apply NoDup_app in Hn as (_ & _ & Hn). apply NoDup_app in Hn as (_ & _ & Hn). apply NoDup_app in Hn as (_ & _ & Hn).
  apply NoDup_app in Hn as (_ & _ & Hn). apply NoDup_app in Hn as (Hn & _). unfold en_mutexes in Hn.
  rewrite <-(take_drop_middle _ _ _ Hm) in Hn. rewrite bind_app in Hn. apply NoDup_app in Hn as (_ & _ & Hn).
  cbn in Hn. by apply NoDup_app in Hn as (Hn & _).
Qed.

(** The mutex handed over: the new owner is served, the queues only shrink. *)
Lemma entregar_repara sr M i m s resto k0 k k' :
  Inv sr M k0 -> sin_inversion k -> k_pcbs k = k_pcbs k0 -> lista_mutexes k = lista_mutexes k0 ->
  lista_mutexes k !! i = Some m -> cola_bloqueados m = s :: resto -> entregar_mutex i s resto k = Sigue tt k' ->
  sin_inversion k' /\ forall j x, lista_mutexes k' !! j = Some x ->
    exists x0, lista_mutexes k !! j = Some x0 /\ forall w, w ∈ cola_bloqueados x -> w ∈ cola_bloqueados x0.
Proof.
  intros H Hs P1 P2 Hm Hc (b & k1 & Hb & Er & _ & (b' & E1 & Ed & _) & E2)%entregar_sigue.
  assert (Hsub : forall j x, lista_mutexes k1 !! j = Some x -> exists x0, lista_mutexes k !! j = Some x0 /\
    (asignado_a_pid x <> s -> asignado_a_pid x = asignado_a_pid x0) /\
    (forall w, w ∈ cola_bloqueados x -> w ∈ cola_bloqueados x0) /\ s ∉ cola_bloqueados x).
  { intros j x. rewrite E2. pose proof (Inv_nodup _ _ _ H) as Hn.
    assert (Hsi : forall j' x', lista_mutexes k !! j' = Some x' -> s ∈ cola_bloqueados x' -> j' = i).
    { intros j' x' Hj' Hx'. rewrite P2 in Hj', Hm. pose proof (Inv_esperas _ _ _ H) as He.
      destruct (He j' x' s Hj' Hx') as (c & Hcc & Hci). destruct (He i m s Hm) as (c' & Hc' & Hci'); [rewrite Hc; left|]. congruence. }
    destruct (decide (i = j)) as [<-|Hne].
    - rewrite list_lookup_alter_eq, Hm. intros [= <-]. exists m. split; [done|]. cbn. split; [done|]. rewrite Hc. split; [by right|].
      assert (Hnd : NoDup (cola_bloqueados m)) by (rewrite P2 in Hm; by eapply cola_nodup). rewrite Hc, NoDup_cons in Hnd. tauto.
    - rewrite list_lookup_alter_ne by done. intros Hj. exists x. split; [done|]. split; [done|]. split; [done|].
      intros Hx. by rewrite (Hsi j x Hj Hx) in Hne. }
  assert (Es : lista_mutexes k' = lista_mutexes k1) by (by apply recalcular_sigue in Er as (? & ? & _ & _ & _ & ? & _)).
  split.
  - apply sin_inversion_nadie. eapply (recalcular_repara nadie s k1); [| |exact Er].
    + apply (inversion_pcb _ _ (con_lista_mutexes (lista_mutexes k1) k) k1 s b b'); try done.
      intros j x w Hj Hw Hns _. destruct (Hsub j x Hj) as (x0 & Hx0 & Ea & Hw0 & _). cbn in Hns.
      assert (Hxs : asignado_a_pid x <> s) by tauto. rewrite (Ea Hxs). exact (Hs j x0 w Hx0 (Hw0 w Hw)).
    + intros j x Hj. by destruct (Hsub j x Hj) as (_ & _ & _ & _ & Hx).
  - intros j x. rewrite Es. intros Hj. destruct (Hsub j x Hj) as (x0 & Hx0 & _ & Hw0 & _). by exists x0.
Qed.

Lemma unlock_sin_inversion sr M p params k k' :
  Inv sr (p :: M) k -> sin_inversion k -> manejar_syscall_mutex_unlock p params k = Sigue tt k' -> sin_inversion k'.
Proof.
  intros H Hs. destruct params as [|nombre ps]; cbn [manejar_syscall_mutex_unlock]; [by intros [= <-]|].
  intros (o & k1 & (E1 & E2 & _ & Eo)%buscar_mutex_sigue & E)%bind_sigue.
  assert (Hs1 : sin_inversion k1) by (intros i m w; unfold urgente; rewrite E1, E2; apply Hs).
  destruct o as [i|]; [|by injection E as <-]. apply bind_sigue in E as (m & k2 & [-> Hm]%leer_mutex_sigue & E).
  destruct (negb _); [by injection E as <-|]. apply bind_sigue in E as ([] & k2 & Ee & E).
  assert (Hpm : forall j m', lista_mutexes k1 !! j = Some m' -> p ∉ cola_bloqueados m').
  { intros j m' Hj Hp. rewrite E2 in Hj. pose proof (tomado_fuera _ _ _ _ H). pose proof (en_mutexes_lookup _ _ _ _ Hj Hp). tauto. }
  assert (Hfin : forall k2, sin_inversion k2 -> (forall j m', lista_mutexes k2 !! j = Some m' -> p ∉ cola_bloqueados m') ->
    recalcular_prioridad_dinamica p k2 = Sigue tt k' -> sin_inversion k').
  { intros k3 Hs3 Hp3 Er. apply sin_inversion_nadie. eapply (recalcular_repara nadie p k3); [|exact Hp3|exact Er].
    apply sin_inversion_nadie in Hs3. by eapply inversion_D; [| |exact Hs3]. }
  destruct (cola_bloqueados m) as [|s resto] eqn:Hc.
  - apply modificar_mutex_sigue in Ee as (m' & _ & ->). eapply Hfin; [| |exact E]; cbn.
    + intros j x w Hj Hw. destruct (decide (i = j)) as [<-|Hne].
      * cbn in Hj. rewrite list_lookup_alter_eq, Hm in Hj. injection Hj as <-. cbn in Hw. rewrite Hc in Hw. by apply elem_of_nil in Hw.
      * cbn in Hj. rewrite list_lookup_alter_ne in Hj by done. exact (Hs1 j x w Hj Hw).
    + intros j x Hj Hp. destruct (decide (i = j)) as [<-|Hne].
      * rewrite list_lookup_alter_eq, Hm in Hj. injection Hj as <-. cbn in Hp. rewrite Hc in Hp. by apply elem_of_nil in Hp.
      * rewrite list_lookup_alter_ne in Hj by done. exact (Hpm j x Hj Hp).
  - destruct (entregar_repara sr (p :: M) i m s resto k k1 k2 H Hs1 E1 E2 Hm Hc Ee) as [Hs2 Hq]. eapply Hfin; [exact Hs2| |exact E].
    intros j x Hj Hp. destruct (Hq j x Hj) as (x0 & Hx0 & Hsub). exact (Hpm j x0 Hx0 (Hsub p Hp)).
Qed.

(** A lock and an unlock return, and keep every owner of a mutex at least as
    urgent as each of the processes that wait for it: an urgent process never waits
    for the processes between its priority and the owner's. *)
Theorem mutex_sin_inversion sr M p b params k :
  Inv sr (p :: M) k -> mutex_lista_tomado k = false -> k_pcbs k !! p = Some b -> estado b = EXEC -> sin_inversion k ->
  (exists r k', manejar_syscall_mutex_lock p params k = Sigue r k' /\ sin_inversion k') /\
  (exists k', manejar_syscall_mutex_unlock p params k = Sigue tt k' /\ sin_inversion k').
Proof.
  intros H Hk Hb He Hs. split.
  - pose proof (sigue_lock p params k Hk) as Hg.
    pose proof (cumple_mutex_lock sr M p b params (fun _ _ => True) k H Hb ltac:(congruence) ltac:(done) ltac:(done)) as Hc.
    unfold cumple in Hc. destruct (manejar_syscall_mutex_lock p params k) as [r k'| | | | |] eqn:E; try done.
    exists r, k'. split; [done|]. by eapply lock_sin_inversion.
  - pose proof (sigue_unlock p params k Hk) as Hg.
    pose proof (cumple_mutex_unlock sr M p b params (fun _ _ => True) k H Hb He ltac:(done)) as Hc.
    unfold cumple in Hc. destruct (manejar_syscall_mutex_unlock p params k) as [[] k'| | | | |] eqn:E; try done.
    exists k'. split; [done|]. by eapply unlock_sin_inversion.
Qed.

(** ** The end of an owner *)

(** With the lock taken, the recomputation never returns. *)
Lemma entregar_con_lock i s resto k k' : mutex_lista_tomado k = true -> entregar_mutex i s resto k <> Sigue tt k'.
Proof.
  intros Hk (b & k1 & Hb & Er & Ht & _)%entregar_sigue. rewrite Hk in Ht. unfold recalcular_prioridad_dinamica in Er.
  apply bind_sigue in Er as (b' & k2 & [-> _]%leer_sigue & Er). apply bind_sigue in Er as ([] & k2 & El & _).
  unfold lock_lista_mutexes in El. by rewrite Ht in El.
Qed.

Lemma quieta_sin_pid p l : quieta (sin_pid p l).
Proof. induction l; cbn [sin_pid]; aquietar. Qed.

Lemma liberar_bucle_no_vuelve n j p i m w ws k k' :
  mutex_lista_tomado k = true -> (j <= i < j + n)%nat -> lista_mutexes k !! i = Some m -> asignado_a_pid m = p ->
  cola_bloqueados m = w :: ws -> liberar_mutexes_bucle n j p k <> Sigue tt k'.
Proof.
  revert j k. induction n as [|n IH]; intros j k Hk Hj Hm Ha Hc; [lia|]. cbn [liberar_mutexes_bucle].
  intros (mj & k1 & [-> Hmj]%leer_mutex_sigue & E)%bind_sigue. apply bind_sigue in E as ([] & k1 & E1 & E).
  destruct (decide (i = j)) as [->|Hne].
  - assert (mj = m) as -> by congruence. rewrite (proj2 (Z.eqb_eq _ _) Ha), Hc in E1. by eapply entregar_con_lock.
  - revert E. apply IH; [|lia| |exact Ha|exact Hc].
    + destruct (_ =? p).
      * destruct (cola_bloqueados mj); [|by apply entregar_con_lock in E1]. by apply modificar_mutex_sigue in E1 as (? & _ & ->).
      * apply bind_sigue in E1 as (q & k2 & E0 & (? & _ & ->)%modificar_mutex_sigue). apply (quieta_sigue _ _ _ _ (quieta_sin_pid _ _)) in E0.
        injection E0. intros. cbn. congruence.
    + destruct (_ =? p).
      * destruct (cola_bloqueados mj); [|by apply entregar_con_lock in E1]. apply modificar_mutex_sigue in E1 as (? & _ & ->).
        cbn. by rewrite list_lookup_alter_ne.
      * apply bind_sigue in E1 as (q & k2 & E0 & (? & _ & ->)%modificar_mutex_sigue). apply (quieta_sigue _ _ _ _ (quieta_sin_pid _ _)) in E0.
        apply dueno_campos in E0 as (_ & E0 & _). cbn. rewrite list_lookup_alter_ne by done. by rewrite E0.
Qed.

(** C36: the end of a process that owns a mutex somebody waits for never returns:
    [liberar_mutexes_de_proceso] holds the lock of the list while the handover
    recomputes a priority, which takes the same lock. *)
Theorem fin_de_duenio_no_vuelve p i m w ws k k' :
  lista_mutexes k !! i = Some m -> asignado_a_pid m = p -> cola_bloqueados m = w :: ws -> terminar_proceso p k <> Sigue tt k'.
Proof.
  intros Hm Ha Hc. unfold terminar_proceso. intros ([] & k1 & (b & Hb & ->)%modificar_sigue & E)%bind_sigue.
  apply bind_sigue in E as ([] & k1 & E & _). unfold liberar_mutexes_de_proceso in E.
  apply bind_sigue in E as ([] & k2 & El & E). unfold lock_lista_mutexes in El. destruct (mutex_lista_tomado _) eqn:Hk; [done|].
  injection El as <-. apply bind_sigue in E as (l & k2 & [= <- <-] & E). apply bind_sigue in E as ([] & k2 & E & _).
  revert E. eapply (liberar_bucle_no_vuelve _ _ _ i m); [done| |exact Hm|exact Ha|exact Hc]. apply lookup_lt_Some in Hm. cbn. lia.
Qed.

(** ** Witnesses *)

(** From the example, process 0 comes back to its CPU and calls EXIT: it owns the
    mutex process 1 waits for. *)
Definition eventos_fin : list evento :=
  eventos_ejemplo ++
  [EvLlegan 4 (enviar_ok DES_SUSPENDER_PROCESO); EvMedianoPlazo; EvCortoPlazo;
   EvLlegan 10 (enviar_devolver_proceso 0 (motivo_num MOTIVO_EXIT) None [] 0)].
Definition antes_del_fin : kernel := despues_de eventos_fin.

Lemma antes_del_fin_alcanzable : alcanzable ordenar config_cmn 4 antes_del_fin.
Proof. apply despues_alcanzable. vm_compute. by eexists. Qed.

Lemma fin_de_duenio_no_vuelve_witness :
  alcanzable ordenar config_cmn 4 antes_del_fin /\ (exists k', ejecutar ordenar (EvCpu 0) antes_del_fin = Trabado k' /\ mutex_lista_tomado k' = true /\
    (estado <$> k_pcbs k' !! 0) = Some EXIT_STATE /\ (estado <$> k_pcbs k' !! 1) = Some READY) /\
  forall k', terminar_proceso 0 antes_del_fin <> Sigue tt k'.
Proof.
  split; [exact antes_del_fin_alcanzable|]. split; [by vm_compute; eexists; repeat split|]. intros k'.
  apply (fin_de_duenio_no_vuelve 0 0%nat (MutexS (txt "M") 0 [1]) 1 []); [vm_compute; reflexivity|reflexivity|reflexivity].
Defined.

(** Process 1, of priority 1, owns the mutex; process 0, of priority 0, has just
    called MUTEX_LOCK and is in the hands of its receptor. *)
Definition eventos_herencia : list evento :=
  [EvLlegan 10 (enviar_handshake_cpu 1); EvConexion 10;
   EvLlegan 11 (enviar_handshake_io (con_nul (txt "SLEEP"))); EvConexion 11;
   EvLlegan 4 (enviar_ok CREAR_PROCESO); EvProcesoInicial (txt "A"); EvLargoPlazo; EvCortoPlazo;
   EvLlegan 4 (enviar_ok CREAR_PROCESO); devuelve 0 "INIT_PROC" ["B"; "1"]%string; EvCpu 0; EvLargoPlazo;
   EvCortoPlazo; devuelve 0 "SLEEP" ["100"%string]; EvCpu 0;
   EvCortoPlazo; devuelve 1 "MUTEX_LOCK" ["M"%string]; EvCpu 0;
   EvIoDespachar 0; EvLlegan 11 (enviar_fin_io 0); EvIoRespuesta 0; EvCortoPlazo].
Definition antes_de_heredar : kernel := despues_de eventos_herencia.
Definition quitar_de_cpu : t_cpu -> t_cpu := fun c => con_disponible true (con_timer false (timer_pid c) (con_proceso_actual None c)).
Definition en_manos : kernel := match modificar_cpu 1 quitar_de_cpu antes_de_heredar with Sigue _ k => k | _ => antes_de_heredar end.

Lemma en_manos_inv : exists sr, Inv sr [0] en_manos.
Proof.
  assert (Ha : alcanzable ordenar config_cmn 4 antes_de_heredar) by (apply despues_alcanzable; vm_compute; by eexists).
  destruct (alcanzable_inv _ ordenar_perm _ _ _ Ha) as [sr H]. exists sr.
  pose proof (cumple_retirar sr 1 quitar_de_cpu (fun _ k' => Inv sr [0] k') antes_de_heredar H) as Hc. unfold cumple in Hc.
  unfold en_manos. destruct (modificar_cpu 1 quitar_de_cpu antes_de_heredar) as [[] k'| | | | |] eqn:E; try (vm_compute in E; discriminate).
  apply Hc; [intros c; split; reflexivity|]. intros k1 H1 _ _ _. assert (Eo : cpu_de 1 antes_de_heredar ≫= proceso_actual = Some 0) by (vm_compute; reflexivity).
  rewrite Eo in H1. exact H1.
Qed.

Lemma en_manos_sin_inversion : sin_inversion en_manos.
Proof.
  assert (E : lista_mutexes en_manos = [MutexS (txt "M") 1 []]) by (vm_compute; reflexivity).
  intros i m w Hi Hw. rewrite E in Hi. apply list_lookup_singleton_Some in Hi as [_ <-].
  destruct (proj1 (elem_of_nil w) Hw).
Qed.

(** The lock leaves process 0 waiting, and process 1 with priority 0. *)
Lemma mutex_sin_inversion_witness :
  exists k', manejar_syscall_mutex_lock 0 [con_nul (txt "M")] en_manos = Sigue true k' /\ sin_inversion k' /\
    (prioridad_dinamica <$> k_pcbs en_manos !! 1) = Some 1 /\ (prioridad_dinamica <$> k_pcbs k' !! 1) = Some 0.
Proof.
  destruct en_manos_inv as [sr H]. destruct (k_pcbs en_manos !! 0) as [b|] eqn:Hb; [|vm_compute in Hb; discriminate].
  assert (He : estado b = EXEC) by (vm_compute in Hb; injection Hb as <-; reflexivity).
  destruct (mutex_sin_inversion sr [] 0 b [con_nul (txt "M")] en_manos H ltac:(vm_compute; reflexivity) Hb He en_manos_sin_inversion)
    as [(r & k' & E & Hs) _].
  assert (Hr : match manejar_syscall_mutex_lock 0 [con_nul (txt "M")] en_manos with
    Sigue r k' => r = true /\ (prioridad_dinamica <$> k_pcbs k' !! 1) = Some 0 | _ => False end) by (vm_compute; split; reflexivity).
  rewrite E in Hr. destruct Hr as [-> Hr]. exists k'. split; [exact E|]. split; [exact Hs|]. split; [vm_compute; reflexivity|exact Hr].
Defined.

Lemma recalcular_es_el_minimo_witness :
  exists k' y, recalcular_prioridad_dinamica 1 en_manos = Sigue tt k' /\ es_minimo en_manos 1 (esperan_a 1 (lista_mutexes en_manos)) y.
Proof.
  destruct en_manos_inv as [sr H]. destruct (k_pcbs en_manos !! 1) as [b|] eqn:Hb; [|vm_compute in Hb; discriminate].
  assert (He : estado b = READY /\ prioridad b = 1) by (vm_compute in Hb; injection Hb as <-; split; reflexivity).
  destruct He as [He Hp].
  destruct (recalcular_es_el_minimo sr [0] 1 b en_manos H ltac:(vm_compute; reflexivity) Hb ltac:(rewrite He; discriminate)) as (k' & y & E & Hy & _).
  exists k', y. split; [exact E|]. rewrite Hp in Hy. exact Hy.
Defined.
