(* ===== verification/SchedConserva.v ===== *)
(** * SchedConserva: what leaves the inheritance of priorities alone

    The specification of the inheritance ([exacta]): the dynamic priority of a
    process is the least of its own priority and of the dynamic priorities of the
    processes that wait for the mutexes it owns. A frame relation between states
    ([conserva]) keeps it, and every handler but a lock and an unlock respects the
    relation ([conservadora]), the ends of processes included. *)

From Stdlib Require Import Strings.String.
From S2P Require Import Prelude Wire Tipos Mensajes Texto SchedTipos SchedColas SchedMutex SchedMemoria SchedIO SchedCpu SchedPlan SchedInv SchedInvOps SchedInvFin SchedSeguroOps SchedSeguroMem SchedSeguroIO SchedSeguro SchedSistema SchedCorrecto SchedVivacidad SchedHerencia.

(** ** The specification *)

(** [w] waits for a mutex of [o]. *)
Definition espera_a (k : kernel) (w o : Z) : Prop :=
  exists i m, lista_mutexes k !! i = Some m /\ asignado_a_pid m = o /\ w ∈ cola_bloqueados m.
Definition pd (k : kernel) (p : Z) : option Z := prioridad_dinamica <$> k_pcbs k !! p.

Definition exacta_en (k : kernel) (p : Z) : Prop := forall b, k_pcbs k !! p = Some b ->
  es_minimo k (prioridad b) (esperan_a p (lista_mutexes k)) (prioridad_dinamica b).
Definition exacta_salvo (D : Z -> Prop) (k : kernel) : Prop := forall p, ~ D p -> exacta_en k p.
Definition exacta (k : kernel) : Prop := forall p, exacta_en k p.

Lemma exacta_nadie k : exacta_salvo nadie k -> exacta k.
Proof. intros H p. apply H. by intros []. Qed.

Lemma elem_of_esperan_a p k w : w ∈ esperan_a p (lista_mutexes k) <-> espera_a k w p.
Proof.
  unfold esperan_a, espera_a. rewrite list_elem_of_bind. split.
  - intros (m & Hw & Hm). destruct (Z.eqb_spec (asignado_a_pid m) p); [|by apply elem_of_nil in Hw].
    apply list_elem_of_lookup_1 in Hm as [i Hi]. by exists i, m.
  - intros (i & m & Hi & <- & Hw). exists m. rewrite Z.eqb_refl. split; [done|]. by eapply list_elem_of_lookup_2.
Qed.

Lemma pd_Some k p x : pd k p = Some x <-> exists b, k_pcbs k !! p = Some b /\ prioridad_dinamica b = x.
Proof. unfold pd. rewrite fmap_Some. split; intros (b & H1 & H2); by exists b. Qed.

(** A minimum sees who waits, and their priorities. *)
Lemma es_minimo_igual k k' x l l' y :
  (forall w, w ∈ l' <-> w ∈ l) -> (forall w, w ∈ l -> pd k' w = pd k w) -> es_minimo k x l y -> es_minimo k' x l' y.
Proof.
  intros Hl Hp (H1 & H2 & H3). split; [done|]. split.
  - intros w b Hw Hb. apply Hl in Hw. assert (Hx : pd k w = Some (prioridad_dinamica b)).
    { rewrite <-(Hp w Hw). apply pd_Some. by exists b. }
    apply pd_Some in Hx as (c & Hc & <-). by eapply H2.
  - destruct H3 as [->|(w & b & Hw & Hb & ->)]; [by left|right].
    assert (Hx : pd k' w = Some (prioridad_dinamica b)) by (rewrite (Hp w Hw); apply pd_Some; by exists b).
    apply pd_Some in Hx as (c & Hc & E). exists w, c. split; [by apply Hl|done].
Qed.

Lemma exacta_en_igual k k' p :
  pd k' p = pd k p -> prioridad <$> k_pcbs k' !! p = prioridad <$> k_pcbs k !! p ->
  (forall w, espera_a k' w p <-> espera_a k w p) -> (forall w, espera_a k w p -> pd k' w = pd k w) ->
  exacta_en k p -> exacta_en k' p.
Proof.
  intros E1 E2 Hw Hp H b' Hb'. unfold pd in E1. rewrite Hb' in E1, E2. destruct (k_pcbs k !! p) as [b|] eqn:Hb; [|done].
  cbn in E1, E2. injection E1 as E1. injection E2 as E2. rewrite E1, E2. eapply es_minimo_igual; [| |by apply H].
  - intros w. by rewrite !elem_of_esperan_a.
  - intros w. rewrite elem_of_esperan_a. apply Hp.
Qed.

(** With it, no owner is less urgent than those who wait for it. *)
Lemma exacta_sin_inversion k : exacta k -> sin_inversion k.
Proof.
  intros H i m w Hi Hw bo bw Hbo Hbw. destruct (H _ bo Hbo) as (_ & H2 & _). apply (H2 w); [|done].
  apply elem_of_esperan_a. by exists i, m.
Qed.

(** ** Steps that leave the inheritance alone

    [S] are the processes a step may end. The others that wait go on waiting, for
    the same owners and with the same priorities; nobody begins to wait; and a PCB
    either keeps its priorities or is of a new process. *)
Record conserva (S : Z -> Prop) (k k' : kernel) : Prop := {
  c_contador : contador_pids k <= contador_pids k';
  c_menos w o : espera_a k' w o -> espera_a k w o;
  c_esperas w o : ~ S w -> w < contador_pids k -> espera_a k w o -> espera_a k' w o;
  c_quedan w o : ~ S w -> w < contador_pids k -> espera_a k w o -> pd k' w = pd k w;
  c_pcbs p b' : k_pcbs k' !! p = Some b' ->
    (contador_pids k <= p /\ prioridad_dinamica b' = prioridad b') \/
    exists b, k_pcbs k !! p = Some b /\ prioridad b' = prioridad b /\ prioridad_dinamica b' = prioridad_dinamica b }.

Lemma conserva_reflexiva S k : conserva S k k.
Proof. split; try done. intros p b Hb. right. by exists b. Qed.

Lemma conserva_transitiva S k1 k2 k3 : conserva S k1 k2 -> conserva S k2 k3 -> conserva S k1 k3.
Proof.
  intros [A1 A2 A3 A4 A5] [B1 B2 B3 B4 B5]. split.
  - lia.
  - auto.
  - intros w o HS Hw He. apply B3; [done|lia|auto].
  - intros w o HS Hw He. rewrite (B4 w o); [by eapply A4|done|lia|auto].
  - intros p b3 Hb3. destruct (B5 p b3 Hb3) as [[? ?]|(b2 & Hb2 & E1 & E2)]; [left; split; [lia|done]|].
    destruct (A5 p b2 Hb2) as [[? ?]|(b1 & Hb1 & E3 & E4)]; [left; split; [lia|congruence]|].
    right. exists b1. split; [done|]. split; congruence.
Qed.

#[export] Instance conserva_preorder S : PreOrder (conserva S).
Proof. split; [exact (conserva_reflexiva S)|exact (conserva_transitiva S)]. Qed.

Lemma conserva_mono (S S' : Z -> Prop) k k' : (forall w, S w -> S' w) -> conserva S k k' -> conserva S' k k'.
Proof. intros HS [A1 A2 A3 A4 A5]. split; auto. intros w o Hw. apply A4. auto. Qed.

(** The end of a process created after [k] does not count. *)
Lemma conserva_fresco S q k k1 k2 : conserva S k k1 -> contador_pids k <= q -> conserva (eq q) k1 k2 -> conserva S k k2.
Proof.
  intros [A1 A2 A3 A4 A5] Hq [B1 B2 B3 B4 B5]. split.
  - lia.
  - auto.
  - intros w o HS Hw He. apply B3; [lia|lia|auto].
  - intros w o HS Hw He. rewrite (B4 w o); [by eapply A4|lia|lia|auto].
  - intros p b3 Hb3. destruct (B5 p b3 Hb3) as [[? ?]|(b2 & Hb2 & E1 & E2)]; [left; split; [lia|done]|].
    destruct (A5 p b2 Hb2) as [[? ?]|(b1 & Hb1 & E3 & E4)]; [left; split; [lia|congruence]|].
    right. exists b1. split; [done|]. split; congruence.
Qed.

Definition visto (k : kernel) := (k_pcbs k, lista_mutexes k, contador_pids k).

Lemma visto_campos k k' : visto k' = visto k ->
  k_pcbs k' = k_pcbs k /\ lista_mutexes k' = lista_mutexes k /\ contador_pids k' = contador_pids k.
Proof. unfold visto. by intros [=]. Qed.
Lemma espera_a_igual k k' w o : lista_mutexes k' = lista_mutexes k -> espera_a k' w o <-> espera_a k w o.
Proof. unfold espera_a. by intros ->. Qed.
Lemma conserva_visto S k k' : visto k' = visto k -> conserva S k k'.
Proof.
  intros (E1 & E2 & E3)%visto_campos. split; unfold espera_a, pd; rewrite ?E1, ?E2, ?E3; try done.
  intros p b Hb. right. by exists b.
Qed.

(** Every live waiter is older than the next pid, and its owner too. *)
Lemma espera_vivos sr M k w o : Inv sr M k -> espera_a k w o -> w < contador_pids k /\ o < contador_pids k.
Proof.
  intros H (i & m & Hi & <- & Hw). pose proof (i_pids _ _ _ H) as Hp. rewrite Forall_forall in Hp.
  assert (Hv : forall q, vivo k q -> q < contador_pids k).
  { intros q Hq. apply (vivo_todos _ _ _ _ H) in Hq. specialize (Hp q Hq). lia. }
  split.
  - destruct (Inv_esperas _ _ _ H i m w Hi Hw) as (b & Hb & _). apply Hv. by exists b.
  - pose proof (i_duenio _ _ _ H) as Hd. rewrite Forall_lookup in Hd. destruct (Hd i m Hi) as [->|(b & Hb & _)].
    + pose proof (i_contador _ _ _ H). lia.
    + apply Hv. by exists b.
Qed.

(** So such a step keeps the specification, if it ends none of those who wait. *)
Lemma conserva_exacta S sr M k k' :
  Inv sr M k -> (forall w o, S w -> ~ espera_a k w o) -> conserva S k k' -> exacta k -> exacta k'.
Proof.
  intros H HS [A1 A2 A3 A4 A5] Hx p b' Hb'.
  assert (Hw : forall w o, espera_a k w o -> ~ S w /\ w < contador_pids k).
  { intros w o Hw. split; [intros Hs; by eapply HS|]. by destruct (espera_vivos _ _ _ _ _ H Hw). }
  destruct (A5 p b' Hb') as [[Hp E]|(b & Hb & E1 & E2)].
  - rewrite E. split; [lia|]. split; [|by left]. intros w c Hwp. apply elem_of_esperan_a, A2 in Hwp.
    destruct (espera_vivos _ _ _ _ _ H Hwp). lia.
  - rewrite E1, E2. eapply es_minimo_igual; [| |by apply (Hx p b)].
    + intros w. rewrite !elem_of_esperan_a. split; [apply A2|]. intros Hwp. destruct (Hw _ _ Hwp). by apply A3.
    + intros w Hwp. apply elem_of_esperan_a in Hwp. destruct (Hw _ _ Hwp). by eapply A4.
Qed.

(** ** Handlers that leave it alone *)

Definition respeta {A} (S : Z -> Prop) (m : K A) (k : kernel) : Prop :=
  match m k with Sigue _ k' => conserva S k k' | _ => True end.
Definition conservadora {A} (S : Z -> Prop) (m : K A) : Prop := forall k, respeta S m k.

Lemma conservadora_ret {A} S (a : A) : conservadora S (mret a).
Proof. intros k. apply conserva_reflexiva. Qed.
Lemma conservadora_bloqueado {A} S : conservadora S (@k_bloqueado A).
Proof. done. Qed.
Lemma conservadora_indefinido {A} S : conservadora S (@k_indefinido A).
Proof. done. Qed.
Lemma conservadora_exit {A} S : conservadora S (@k_exit A).
Proof. done. Qed.
Lemma conservadora_get S : conservadora S k_get.
Proof. intros k. apply conserva_reflexiva. Qed.
Lemma conservadora_gets {A} S (f : kernel -> A) : conservadora S (k_gets f).
Proof. intros k. apply conserva_reflexiva. Qed.
Lemma conservadora_bind {A B} S (m : K A) (f : A -> K B) :
  conservadora S m -> (forall a, conservadora S (f a)) -> conservadora S (m ≫= f).
Proof.
  intros Hm Hf k. specialize (Hm k). unfold respeta in *. rewrite bind_eq. destruct (m k) as [a k1| | | | |]; try done.
  specialize (Hf a k1). unfold respeta in Hf. destruct (f a k1); try done. by etrans.
Qed.
Lemma conservadora_mod S f : (forall k, visto (f k) = visto k) -> conservadora S (k_mod f).
Proof. intros Hf k. apply conserva_visto, Hf. Qed.
(** A receiver that only reads, or takes from a socket. *)
Lemma conservadora_visto {A} S (m : K A) :
  (forall k, match m k with Sigue _ k' => visto k' = visto k | _ => True end) -> conservadora S m.
Proof. intros Hm k. specialize (Hm k). unfold respeta. destruct (m k); try done. by apply conserva_visto. Qed.
Lemma conservadora_leer S p : conservadora S (leer p).
Proof. apply conservadora_visto. intros k. unfold leer. by destruct (_ !! _). Qed.
Lemma conservadora_leer_mutex S i : conservadora S (leer_mutex i).
Proof. apply conservadora_visto. intros k. unfold leer_mutex. by destruct (_ !! _). Qed.
Lemma conservadora_leer_io S i : conservadora S (leer_io i).
Proof. apply conservadora_visto. intros k. unfold leer_io. by destruct (_ !! _). Qed.
Lemma conservadora_cola S x : conservadora S (cola_prioridad x).
Proof. apply conservadora_visto. intros k. unfold cola_prioridad. destruct (x <? 0); [done|]. by destruct (_ !! _). Qed.
Lemma conservadora_pop S : conservadora S pop_ready.
Proof. apply conservadora_visto. intros k. unfold pop_ready. by destruct (cola_procesos_ready k) as [[]|]. Qed.
Lemma conservadora_enviar S s bs : conservadora S (k_enviar s bs).
Proof. apply conservadora_mod. intros k. by destruct (s =? -1). Qed.
Lemma conservadora_recibir {A} S s (r : lector A) : conservadora S (k_recibir s r).
Proof. apply conservadora_visto. intros k. unfold k_recibir. by destruct (r _) as [[]|]. Qed.
Lemma conservadora_codigo S s : conservadora S (k_codigo s).
Proof. apply conservadora_recibir. Qed.
Lemma conservadora_lock S : conservadora S lock_lista_mutexes.
Proof. apply conservadora_visto. intros k. unfold lock_lista_mutexes. by destruct (mutex_lista_tomado k). Qed.
Lemma conservadora_unlock S : conservadora S unlock_lista_mutexes.
Proof. by apply conservadora_mod. Qed.
Lemma conservadora_wait_new S : conservadora S wait_sem_new.
Proof. apply conservadora_visto. intros k. unfold wait_sem_new. by destruct (sem_new k). Qed.
Lemma conservadora_wait_ready S : conservadora S wait_sem_ready.
Proof. apply conservadora_visto. intros k. unfold wait_sem_ready. by destruct (sem_ready k). Qed.
Lemma conservadora_wait_cpu S : conservadora S wait_sem_cpu.
Proof. apply conservadora_visto. intros k. unfold wait_sem_cpu. by destruct (sem_cpu_disponible k). Qed.
Lemma conservadora_wait_reevaluar S : conservadora S wait_sem_reevaluar.
Proof. apply conservadora_visto. intros k. unfold wait_sem_reevaluar. by destruct (sem_reevaluar_suspendidos k). Qed.
Lemma conservadora_cpu S id f : conservadora S (modificar_cpu id f).
Proof. apply conservadora_mod. intros k. by destruct (indice_cpu _ _). Qed.

(** A PCB written, with its priorities as they were. *)
Lemma conserva_pcb S k p b b' :
  k_pcbs k !! p = Some b -> prioridad b' = prioridad b -> prioridad_dinamica b' = prioridad_dinamica b ->
  conserva S k (con_k_pcbs (<[p := b']> (k_pcbs k)) k).
Proof.
  intros Hb E1 E2. split; try done.
  - intros w o _ _ _. unfold pd. cbn. destruct (decide (w = p)) as [->|Hne]; [by rewrite lookup_insert_eq, Hb; cbn; rewrite E2|].
    by rewrite lookup_insert_ne.
  - intros q c. cbn. destruct (decide (q = p)) as [->|Hne].
    + rewrite lookup_insert_eq. intros [= <-]. right. by exists b.
    + rewrite lookup_insert_ne by congruence. intros Hc. right. by exists c.
Qed.
Lemma conservadora_modificar S p f :
  (forall b, prioridad (f b) = prioridad b) -> (forall b, prioridad_dinamica (f b) = prioridad_dinamica b) ->
  conservadora S (modificar p f).
Proof.
  intros H1 H2 k. unfold respeta. destruct (modificar p f k) as [u k'| | | | |] eqn:E; try done.
  apply modificar_sigue in E as (b & Hb & ->). by eapply conserva_pcb.
Qed.
(** A PCB freed, of a process the step may end. *)
Lemma conservadora_liberar (S : Z -> Prop) p : S p -> conservadora S (liberar_pcb p).
Proof.
  intros HS k. unfold respeta. destruct (liberar_pcb p k) as [u k'| | | | |] eqn:E; try done.
  unfold liberar_pcb in E. apply bind_sigue in E as (b & k1 & [-> Hb]%leer_sigue & E). injection E as <- <-. split; try done.
  - intros w o Hw _ _. unfold pd. cbn. rewrite lookup_delete_ne; [done|]. intros ->. done.
  - intros q c. cbn. rewrite lookup_delete_Some. intros [_ Hc]. right. by exists c.
Qed.
(** A new mutex. *)
Lemma conservadora_registrar S nombre : conservadora S (registrar_mutex (MutexS nombre (-1) [])).
Proof.
  unfold registrar_mutex. apply conservadora_bind; [apply conservadora_lock|]. intros _ k. unfold respeta.
  rewrite bind_eq. cbn [k_gets]. rewrite bind_eq. cbn [k_mod]. rewrite bind_eq. cbn. split; try done.
  - intros w o (i & m & Hi & Ha & Hw). cbn in Hi. apply lookup_app_Some in Hi as [Hi|[_ Hi]]; [by exists i, m|].
    apply list_lookup_singleton_Some in Hi as [_ <-]. by apply elem_of_nil in Hw.
  - intros w o _ _ (i & m & Hi & Ha & Hw). exists i, m. cbn. by rewrite lookup_app_l by (by eapply lookup_lt_Some).
  - intros q c Hc. right. by exists c.
Qed.

Create HintDb conservadora.
#[export] Hint Resolve conservadora_ret conservadora_bloqueado conservadora_indefinido conservadora_exit conservadora_get
  conservadora_gets conservadora_leer conservadora_leer_mutex conservadora_leer_io conservadora_cola conservadora_pop
  conservadora_enviar conservadora_recibir conservadora_codigo conservadora_lock conservadora_unlock conservadora_wait_new
  conservadora_wait_ready conservadora_wait_cpu conservadora_wait_reevaluar conservadora_cpu conservadora_registrar : conservadora.
Ltac conservar1 :=
  match goal with
  | |- conservadora _ _ => solve [auto with conservadora nocore]
  | |- conservadora _ (k_mod _) => apply conservadora_mod; intros ?; reflexivity
  | |- conservadora _ (modificar _ _) => apply conservadora_modificar; intros ?; reflexivity
  | |- conservadora _ (_ ≫= _) => apply conservadora_bind; [|intros ?]
  | |- conservadora _ (match ?x with _ => _ end) => destruct x
  end.
Ltac conservar := repeat (cbv beta; conservar1).

(** *** Queues, CPUs and notifications *)

Lemma conservadora_posicion S p l : conservadora S (posicion_pid p l).
Proof. induction l; cbn [posicion_pid]; conservar. Qed.
Lemma conservadora_victima S cs acc : conservadora S (buscar_victima cs acc).
Proof. revert acc. induction cs; intros acc; cbn [buscar_victima]; conservar. Qed.
Lemma conservadora_desencolar S n x : conservadora S (desencolar_desde n x).
Proof. revert x. induction n; intros x; cbn [desencolar_desde]; unfold poner_cola_prioridad; conservar. Qed.
Lemma conservadora_desalojar S cs : conservadora S (desalojar_bucle cs).
Proof. induction cs; cbn [desalojar_bucle]; conservar. Qed.
#[export] Hint Resolve conservadora_posicion conservadora_victima conservadora_desencolar conservadora_desalojar : conservadora.
Lemma conservadora_verificar S p : conservadora S (verificar_y_desalojar_por_prioridad p).
Proof. unfold verificar_y_desalojar_por_prioridad. conservar. Qed.
Lemma conservadora_post_ready S : conservadora S post_sem_ready.
Proof. by apply conservadora_mod. Qed.
Lemma conservadora_post_new S : conservadora S post_sem_new.
Proof. by apply conservadora_mod. Qed.
Lemma conservadora_post_cpu S : conservadora S post_sem_cpu.
Proof. by apply conservadora_mod. Qed.
Lemma conservadora_reevaluar S : conservadora S notificar_reevaluar_suspendidos.
Proof. by apply conservadora_mod. Qed.
#[export] Hint Resolve conservadora_verificar conservadora_post_ready conservadora_post_new conservadora_post_cpu
  conservadora_reevaluar : conservadora.
Lemma conservadora_poner_prioridad S inicio p x : conservadora S (poner_en_prioridad inicio p x).
Proof. unfold poner_en_prioridad, poner_cola_prioridad. conservar. Qed.
Lemma conservadora_poner_ready S inicio p : conservadora S (poner_en_ready inicio p).
Proof. unfold poner_en_ready. conservar. Qed.
#[export] Hint Resolve conservadora_poner_prioridad conservadora_poner_ready : conservadora.
Lemma conservadora_encolar S p : conservadora S (encolar_en_ready_y_notificar p).
Proof. unfold encolar_en_ready_y_notificar, reencolar_proceso_ready_final. conservar. Qed.
Lemma conservadora_al_principio S p : conservadora S (devolver_al_principio p).
Proof. unfold devolver_al_principio, reencolar_proceso_ready_inicio. conservar. Qed.
Lemma conservadora_iniciar_timer S id p q : conservadora S (iniciar_quantum_timer id p q).
Proof. unfold iniciar_quantum_timer. conservar. Qed.
Lemma conservadora_liberar_cpu S id : conservadora S (liberar_cpu_reservada id).
Proof. unfold liberar_cpu_reservada. conservar. Qed.
#[export] Hint Resolve conservadora_encolar conservadora_al_principio conservadora_iniciar_timer conservadora_liberar_cpu : conservadora.
Lemma conservadora_volver S p id : conservadora S (volver_a_cpu p id).
Proof. unfold volver_a_cpu, devolver_proceso_a_misma_cpu. conservar. Qed.
Lemma conservadora_marcar_exit S l : conservadora S (marcar_exit l).
Proof. induction l; cbn [marcar_exit]; conservar. Qed.
#[export] Hint Resolve conservadora_volver conservadora_marcar_exit : conservadora.
Lemma conservadora_notificacion S s op : conservadora S (despachar_si_es_notificacion s op).
Proof.
  unfold despachar_si_es_notificacion, handle_memoria_corrupta_bsod, manejar_bsod, handle_memoria_liberada,
    handle_iniciar_compactacion, manejar_compactacion_inicio, desalojar_todos_procesos, handle_finalizar_compactacion,
    manejar_compactacion_fin, handle_nueva_memoria_disponible. conservar.
Qed.
#[export] Hint Resolve conservadora_notificacion : conservadora.
Lemma conservadora_respuesta_bucle S n s : conservadora S (recibir_respuesta_bucle n s).
Proof. induction n; cbn [recibir_respuesta_bucle]; conservar. Qed.
#[export] Hint Resolve conservadora_respuesta_bucle : conservadora.
Lemma conservadora_respuesta S s : conservadora S (recibir_respuesta_de_memoria s).
Proof. unfold recibir_respuesta_de_memoria. conservar. Qed.
#[export] Hint Resolve conservadora_respuesta : conservadora.
Lemma conservadora_pedir S bs : conservadora S (pedir_ok bs).
Proof. unfold pedir_ok. conservar. Qed.
#[export] Hint Resolve conservadora_pedir : conservadora.
Lemma conservadora_notificar_fin S p : conservadora S (notificar_fin_a_memoria p).
Proof. unfold notificar_fin_a_memoria. conservar. Qed.
Lemma conservadora_escribir_stdin S p d bs n : conservadora S (escribir_stdin_en_memoria p d bs n).
Proof. unfold escribir_stdin_en_memoria. conservar. Qed.
Lemma conservadora_eliminar S p : conservadora S (eliminar_pcb p).
Proof. unfold eliminar_pcb. conservar. Qed.
Lemma conservadora_en_block S p e : conservadora S (notificar_proceso_en_block p e).
Proof. unfold notificar_proceso_en_block. conservar. Qed.
#[export] Hint Resolve conservadora_notificar_fin conservadora_escribir_stdin conservadora_eliminar conservadora_en_block : conservadora.

(** *** The end of a process *)

Lemma sin_pid_sigue p l k q k' : sin_pid p l k = Sigue q k' -> k' = k /\ forall w, w ∈ q <-> w <> p /\ w ∈ l.
Proof.
  revert q k'. induction l as [|x l IH]; intros q k'; cbn [sin_pid].
  { intros [= <- <-]. split; [done|]. intros w. rewrite !elem_of_nil. tauto. }
  intros (b & k1 & [-> _]%leer_sigue & E)%bind_sigue. apply bind_sigue in E as (r & k1 & [-> H]%IH & [= <- <-]). split; [done|].
  intros w. destruct (Z.eqb_spec x p) as [->|Hx]; rewrite ?elem_of_cons, H; [tauto|]. split; [|tauto]. intros [->|]; tauto.
Qed.

(** A mutex left to nobody, or without [p] in its queue. *)
Lemma conserva_mutex (S : Z -> Prop) k i m m' :
  lista_mutexes k !! i = Some m -> (forall w, w ∈ cola_bloqueados m' -> w ∈ cola_bloqueados m) ->
  (forall w, ~ S w -> w ∈ cola_bloqueados m -> w ∈ cola_bloqueados m') ->
  (cola_bloqueados m = [] \/ asignado_a_pid m' = asignado_a_pid m) ->
  conserva S k (con_lista_mutexes (<[i := m']> (lista_mutexes k)) k).
Proof.
  intros Hm H1 H2 Ha. assert (Hi : (i < length (lista_mutexes k))%nat) by (by eapply lookup_lt_Some). split; try done.
  - intros w o (j & x & Hj & Ho & Hw). cbn in Hj. apply list_lookup_insert_Some in Hj as [(<- & <- & _)|[_ Hj]].
    + exists i, m. split; [done|]. specialize (H1 w Hw). split; [|done]. destruct Ha as [Ha|Ha]; [|congruence].
      rewrite Ha in H1. by apply elem_of_nil in H1.
    + by exists j, x.
  - intros w o HS _ (j & x & Hj & Ho & Hw). destruct (decide (i = j)) as [<-|Hne].
    + assert (x = m) as -> by congruence. exists i, m'. cbn. rewrite list_lookup_insert_eq by done. split; [done|].
      split; [|by apply H2]. destruct Ha as [Ha|Ha]; [|congruence]. rewrite Ha in Hw. by apply elem_of_nil in Hw.
    + exists j, x. cbn. by rewrite list_lookup_insert_ne.
  - intros p b Hb. right. by exists b.
Qed.

Lemma alter_insert {A} (f : A -> A) (l : list A) i x : l !! i = Some x -> alter f i l = <[i := f x]> l.
Proof.
  intros Hi. apply list_eq. intros j. destruct (decide (i = j)) as [<-|Hne].
  - rewrite list_lookup_alter_eq, Hi, list_lookup_insert_eq; [done|]. by eapply lookup_lt_Some.
  - by rewrite list_lookup_alter_ne, list_lookup_insert_ne.
Qed.

(** With the lock taken, the release returns only when nobody waits for what it releases. *)
Lemma liberar_bucle_conserva n j p k k' :
  mutex_lista_tomado k = true -> liberar_mutexes_bucle n j p k = Sigue tt k' -> conserva (eq p) k k'.
Proof.
  revert j k. induction n as [|n IH]; intros j k Hk; cbn [liberar_mutexes_bucle]; [intros [= <-]; apply conserva_reflexiva|].
  intros (m & k1 & [-> Hm]%leer_mutex_sigue & E)%bind_sigue. apply bind_sigue in E as ([] & k1 & E1 & E).
  assert (Hg : forall f, modificar_mutex j f k = Sigue tt k1 -> (forall w, w ∈ cola_bloqueados (f m) -> w ∈ cola_bloqueados m) ->
    (forall w, p <> w -> w ∈ cola_bloqueados m -> w ∈ cola_bloqueados (f m)) ->
    (cola_bloqueados m = [] \/ asignado_a_pid (f m) = asignado_a_pid m) -> conserva (eq p) k k').
  { intros f (m' & Hm' & ->)%modificar_mutex_sigue H1 H2 H3. assert (m' = m) as -> by congruence.
    etrans; [|eapply (IH (S j)); [|exact E]; exact Hk]. rewrite (alter_insert f (lista_mutexes k) j m Hm). by eapply conserva_mutex. }
  destruct (_ =? p).
  - destruct (cola_bloqueados m) eqn:Hc; [|by apply entregar_con_lock in E1]. apply (Hg _ E1); cbn; rewrite ?Hc; auto.
  - apply bind_sigue in E1 as (q & k2 & [-> Hq]%sin_pid_sigue & E1). apply (Hg _ E1); cbn; [..|by right]; intros w.
    + rewrite Hq. tauto.
    + rewrite Hq. intros Hne Hw. split; [congruence|done].
Qed.

Lemma conservadora_liberar_mutexes (S : Z -> Prop) p : S p -> conservadora S (liberar_mutexes_de_proceso p).
Proof.
  intros HS k. unfold respeta. destruct (liberar_mutexes_de_proceso p k) as [[] k'| | | | |] eqn:E; try done.
  unfold liberar_mutexes_de_proceso in E. apply bind_sigue in E as ([] & k1 & El & E). unfold lock_lista_mutexes in El.
  destruct (mutex_lista_tomado k); [done|]. injection El as <-. apply bind_sigue in E as (l & k1 & [= <- <-] & E).
  apply bind_sigue in E as ([] & k1 & E & [= <-]). apply (conserva_mono (eq p)); [by intros w <-|].
  etrans; [|by apply (conserva_visto _ k1)]. etrans; [|eapply liberar_bucle_conserva; [|exact E]; done]. by apply conserva_visto.
Qed.
#[export] Hint Resolve conservadora_liberar conservadora_liberar_mutexes : conservadora.

Lemma conservadora_terminar (S : Z -> Prop) p : S p -> conservadora S (terminar_proceso p).
Proof. intros HS. unfold terminar_proceso. conservar. Qed.
Lemma conservadora_remover S p : conservadora S (remover_de_lista_suspendidos p).
Proof. unfold remover_de_lista_suspendidos. conservar. Qed.
#[export] Hint Resolve conservadora_terminar conservadora_remover : conservadora.
Lemma conservadora_seg_fault (S : Z -> Prop) p : S p -> conservadora S (finalizar_pcb_por_seg_fault p).
Proof. intros HS. unfold finalizar_pcb_por_seg_fault. conservar. Qed.
#[export] Hint Resolve conservadora_seg_fault : conservadora.

(** *** Creation *)

Lemma conservadora_crear S path prio : conservadora S (crear_proceso path prio).
Proof.
  intros k. unfold crear_proceso. destruct (bool_decide _); [apply conserva_reflexiva|]. unfold respeta.
  match goal with |- match ?r with _ => _ end => destruct r as [r0 k'| | | | |] eqn:E; try done end. apply bind_sigue in E as (pid & k1 & Eg & E).
  unfold generar_pid in Eg. apply bind_sigue in Eg as (n & k2 & [= <- <-] & Eg). destruct (_ =? _); [done|].
  apply bind_sigue in Eg as ([] & k2 & [= <-] & [= <- <-]). apply bind_sigue in E as ([] & k2 & [= <-] & E).
  eapply (conserva_fresco _ (contador_pids k)); [|done|].
  2: { set (pid := contador_pids k) in *. match type of E with ?m ?s = _ => assert (Hm : conservadora (eq pid) m) end.
    { unfold registrar_pcb, enviar_creacion_proceso_a_memory. conservar. by apply conservadora_liberar. }
    match type of E with _ ?s = _ => specialize (Hm s) end. unfold respeta in Hm. rewrite E in Hm. exact Hm. }
  split; try done; cbn.
  - lia.
  - intros w o _ Hw _. unfold pd. cbn. by rewrite lookup_insert_ne by lia.
  - intros q b. destruct (decide (q = contador_pids k)) as [->|Hne].
    + rewrite lookup_insert_eq. intros [= <-]. left. split; [lia|done].
    + rewrite lookup_insert_ne by congruence. intros Hb. right. by exists b.
Qed.
#[export] Hint Resolve conservadora_crear : conservadora.

(** *** Interfaces and suspension *)

Lemma conservadora_en_io S i req : conservadora S (encolar_io_request i req).
Proof. unfold encolar_io_request, modificar_io. conservar. Qed.
#[export] Hint Resolve conservadora_en_io : conservadora.
Lemma conservadora_pedir_io S p io req : conservadora S (pedir_io p io req).
Proof. unfold pedir_io. conservar. Qed.
Lemma conservadora_extraer S p : conservadora S (extraer_de_block p).
Proof. unfold extraer_de_block. conservar. Qed.
#[export] Hint Resolve conservadora_pedir_io conservadora_extraer : conservadora.
Lemma conservadora_desbloquear S p : conservadora S (desbloquear_proceso_por_io p).
Proof. unfold desbloquear_proceso_por_io. conservar. Qed.
#[export] Hint Resolve conservadora_desbloquear : conservadora.
Lemma conservadora_worker_despachar S i : conservadora S (io_worker_despachar i).
Proof. unfold io_worker_despachar, modificar_io. conservar. Qed.
Lemma conservadora_episodio S p e l : conservadora S (en_episodio p e l).
Proof. induction l; cbn [en_episodio]; conservar. Qed.
#[export] Hint Resolve conservadora_worker_despachar conservadora_episodio : conservadora.
Lemma conservadora_suspension_inicio S i : conservadora S (suspension_timer_inicio i).
Proof. unfold suspension_timer_inicio, agregar_a_lista_suspendidos. conservar. Qed.
Lemma conservadora_suspension_fin S j : conservadora S (suspension_timer_fin j).
Proof. unfold suspension_timer_fin. conservar. Qed.
Lemma conservadora_handshake S s : conservadora S (scheduler_handshake_handler s).
Proof.
  unfold scheduler_handshake_handler, registrar_cpu_sched, registrar_interfaz_io. conservar.
  apply conservadora_mod. intros k0. by destruct (_ <? _)%nat.
Qed.
Lemma conservadora_quantum S i : conservadora S (quantum_timer_thread i).
Proof. unfold quantum_timer_thread. conservar. Qed.
#[export] Hint Resolve conservadora_suspension_inicio conservadora_suspension_fin conservadora_handshake conservadora_quantum : conservadora.

(** *** Syscalls *)

Lemma conservadora_buscar_mutex S nombre : conservadora S (buscar_mutex_por_nombre nombre).
Proof. unfold buscar_mutex_por_nombre. conservar. Qed.
#[export] Hint Resolve conservadora_buscar_mutex : conservadora.
Lemma conservadora_quitar S p id : conservadora S (modificar p (quitar_segmento_info id)).
Proof. apply conservadora_modificar; intros b; apply quitar_campos. Qed.
#[export] Hint Resolve conservadora_quitar : conservadora.

Lemma conservadora_mem_alloc (S : Z -> Prop) p ps id : S p -> conservadora S (syscall_mem_alloc p ps id).
Proof. intros HS. unfold syscall_mem_alloc, terminar_en_cpu. conservar. Qed.
Lemma conservadora_mem_free (S : Z -> Prop) p ps id : S p -> conservadora S (syscall_mem_free p ps id).
Proof. intros HS. unfold syscall_mem_free, terminar_en_cpu. conservar. Qed.
Lemma conservadora_stdout (S : Z -> Prop) p ps : S p -> conservadora S (syscall_stdout p ps).
Proof. intros HS. unfold syscall_stdout, buscar_interfaz_io_por_tipo. conservar. Qed.
Lemma conservadora_sleep S p ps : conservadora S (syscall_sleep p ps).
Proof. unfold syscall_sleep, buscar_interfaz_io_por_tipo. conservar. Qed.
Lemma conservadora_io_sleep S p ps : conservadora S (syscall_io_sleep p ps).
Proof. unfold syscall_io_sleep, buscar_interfaz_io. conservar. Qed.
Lemma conservadora_stdin S p ps : conservadora S (syscall_stdin p ps).
Proof. unfold syscall_stdin, buscar_interfaz_io_por_tipo. conservar. Qed.
Lemma conservadora_mutex_create S p ps : conservadora S (manejar_syscall_mutex_create p ps).
Proof. unfold manejar_syscall_mutex_create. conservar. Qed.
Lemma conservadora_init_proc S ps : conservadora S (manejar_syscall_init_proc ps).
Proof. unfold manejar_syscall_init_proc. conservar. Qed.
#[export] Hint Resolve conservadora_mem_alloc conservadora_mem_free conservadora_stdout conservadora_sleep conservadora_io_sleep
  conservadora_stdin conservadora_mutex_create conservadora_init_proc : conservadora.

(** *** The short-term planner *)

Lemma conservadora_esperar S n : conservadora S (esperar_cpu n).
Proof. induction n; cbn [esperar_cpu]; conservar. Qed.
Lemma conservadora_proximo S alg : conservadora S (obtener_proximo_proceso_ready alg).
Proof. unfold obtener_proximo_proceso_ready, desencolar_proceso_ready. conservar. Qed.
Lemma conservadora_fallo S p alg : conservadora S (reencolar_por_fallo_de_envio p alg).
Proof.
  unfold reencolar_por_fallo_de_envio, reencolar_proceso_ready_inicio, reencolar_ready_final, reencolar_ready_inicio, reencolar_ready.
  conservar.
Qed.
Lemma conservadora_enviar_cpu S p : conservadora S (enviar_proceso_a_cpu p).
Proof. unfold enviar_proceso_a_cpu. conservar. Qed.
#[export] Hint Resolve conservadora_esperar conservadora_proximo conservadora_fallo conservadora_enviar_cpu : conservadora.
Lemma conservadora_corto_plazo S : conservadora S planificadorCortoPlazo.
Proof. unfold planificadorCortoPlazo, despachar. conservar. Qed.
#[export] Hint Resolve conservadora_corto_plazo : conservadora.
