(* ===== verification/SchedExacta.v ===== *)
(** * SchedExacta: the dynamic priority is the one inherited, in every reachable state

    The code never computes the specification of the inheritance in one go: a lock
    climbs from owner to owner, an unlock recomputes two processes, and the rest
    leaves it alone. Here, that together they keep it exactly. *)

From Stdlib Require Import Strings.String.
From S2P Require Import Prelude Wire Tipos Mensajes Texto SchedTipos SchedColas SchedMutex SchedMemoria SchedIO SchedCpu SchedPlan SchedInv SchedInvOps SchedInvFin SchedSeguroOps SchedSeguroMem SchedSeguroIO SchedSeguro SchedSistema SchedCorrecto SchedVivacidad SchedHerencia SchedConserva.

(** ** The climb of a lock *)

(** What the climb uses of the mutexes. *)
Record red (k : kernel) : Prop := {
  rd_esperas : esperas k;
  rd_vuelta p b i : k_pcbs k !! p = Some b -> mutex_esperando b = Some i ->
    exists m, lista_mutexes k !! i = Some m /\ p ∈ cola_bloqueados m;
  rd_libre i m : lista_mutexes k !! i = Some m -> asignado_a_pid m = -1 -> cola_bloqueados m = [];
  rd_duenio i m : lista_mutexes k !! i = Some m -> asignado_a_pid m <> -1 -> asignado_a_pid m ∈ todos_los_procesos k }.

Lemma Inv_red sr M k : Inv sr M k -> red k.
Proof.
  intros H. split.
  - by eapply Inv_esperas.
  - exact (i_espera _ _ _ H).
  - pose proof (i_libre _ _ _ H) as Hl. rewrite Forall_lookup in Hl. exact Hl.
  - intros i m Hi Ha. pose proof (i_duenio _ _ _ H) as Hd. rewrite Forall_lookup in Hd.
    destruct (Hd i m Hi) as [|(b & Hb & _)]; [done|]. apply (i_vivos _ _ _ H). by exists b.
Qed.

Lemma red_prioridad k k' o bo x :
  red k -> k_pcbs k !! o = Some bo -> k_pcbs k' = <[o := con_prioridad_dinamica x bo]> (k_pcbs k) ->
  lista_mutexes k' = lista_mutexes k -> todos_los_procesos k' = todos_los_procesos k -> red k'.
Proof.
  intros [R1 R2 R3 R4] Hbo E1 E2 E3. split.
  - intros i m w. rewrite E1, E2. intros Hi Hw. destruct (R1 i m w Hi Hw) as (b & Hb & Hm).
    destruct (decide (w = o)) as [->|Hne].
    + assert (b = bo) as -> by congruence. eexists. by rewrite lookup_insert_eq.
    + exists b. by rewrite lookup_insert_ne.
  - intros p b i. rewrite E1, E2. destruct (decide (p = o)) as [->|Hne].
    + rewrite lookup_insert_eq. intros [= <-] Hi. by eapply R2.
    + rewrite lookup_insert_ne by congruence. apply R2.
  - by rewrite E2.
  - rewrite E2, E3. apply R4.
Qed.

(** A process waits for one owner at most, that of the mutex in its PCB. *)
Lemma espera_una k p b i m o : esperas k -> k_pcbs k !! p = Some b -> mutex_esperando b = Some i ->
  lista_mutexes k !! i = Some m -> espera_a k p o -> o = asignado_a_pid m.
Proof. intros He Hb Hi Hm (j & m' & Hj & <- & Hp). destruct (He j m' p Hj Hp) as (c & Hc & Hcj). congruence. Qed.
Lemma no_espera k p b o : esperas k -> k_pcbs k !! p = Some b -> mutex_esperando b = None -> ~ espera_a k p o.
Proof. intros He Hb Hn (j & m' & Hj & _ & Hp). destruct (He j m' p Hj Hp) as (c & Hc & Hcj). congruence. Qed.

(** While the climb is at [p], of priority [x]: everybody is right but those [p]
    waits for, and those are right but for [p] itself, or less urgent than it. *)
Definition pendiente (p x : Z) (k : kernel) (q : Z) : Prop := forall b, k_pcbs k !! q = Some b ->
  prioridad_dinamica b <= prioridad b /\
  (forall w c, espera_a k w q -> w <> p -> k_pcbs k !! w = Some c -> prioridad_dinamica b <= prioridad_dinamica c) /\
  (x < prioridad_dinamica b \/ prioridad_dinamica b = prioridad b \/
   exists w c, espera_a k w q /\ k_pcbs k !! w = Some c /\ prioridad_dinamica b = prioridad_dinamica c).
Definition subiendo (p x : Z) (k : kernel) : Prop := forall q,
  (~ espera_a k p q -> exacta_en k q) /\ (espera_a k p q -> pendiente p x k q).

Lemma exacta_pendiente k p x q : exacta_en k q -> pendiente p x k q.
Proof.
  intros H b Hb. destruct (H b Hb) as (H1 & H2 & H3). split; [done|]. split.
  - intros w c Hw _. apply H2. by apply elem_of_esperan_a.
  - right. destruct H3 as [|(w & c & Hw & Hc & E)]; [by left|right]. apply elem_of_esperan_a in Hw. by exists w, c.
Qed.

(** The climb stops where it changes nothing. *)
Lemma subiendo_fin p b x k : subiendo p x k -> k_pcbs k !! p = Some b -> prioridad_dinamica b = x ->
  (forall o bo, espera_a k p o -> k_pcbs k !! o = Some bo -> prioridad_dinamica bo <= x) -> exacta k.
Proof.
  intros H Hb Hx Ho q c Hc. destruct (decide (p ∈ esperan_a q (lista_mutexes k))) as [Hp|Hp].
  - apply elem_of_esperan_a in Hp. pose proof (Ho q c Hp Hc) as Hle. destruct (proj2 (H q) Hp c Hc) as (H1 & H2 & H3).
    split; [done|]. split.
    + intros w d Hw Hd. apply elem_of_esperan_a in Hw. destruct (decide (w = p)) as [->|Hne]; [|by eapply H2].
      assert (d = b) as -> by congruence. lia.
    + destruct H3 as [|[|(w & d & Hw & Hd & E)]]; [lia|by left|right]. exists w, d. split; [by apply elem_of_esperan_a|done].
  - apply (proj1 (H q)); [|done]. by rewrite <-elem_of_esperan_a.
Qed.

(** One owner up. *)
Lemma subiendo_sube p b o bo x k k' :
  subiendo p x k -> k_pcbs k !! p = Some b -> prioridad_dinamica b = x -> espera_a k p o -> (forall q, espera_a k p q -> q = o) ->
  k_pcbs k !! o = Some bo -> x < prioridad_dinamica bo ->
  k_pcbs k' = <[o := con_prioridad_dinamica x bo]> (k_pcbs k) -> lista_mutexes k' = lista_mutexes k -> subiendo o x k'.
Proof.
  intros H Hb Hx Hpo Huna Hbo Hlt Ep El.
  assert (Hw : forall w q, espera_a k' w q <-> espera_a k w q) by (intros; by apply espera_a_igual).
  assert (Hpne : p <> o) by (intros ->; assert (b = bo) by congruence; subst; lia).
  assert (Hotro : forall q, q <> o -> k_pcbs k' !! q = k_pcbs k !! q) by (intros q Hq; by rewrite Ep, lookup_insert_ne).
  assert (Hex : forall q, q <> o -> exacta_en k q) by (intros q Hq; apply (proj1 (H q)); intros Hp; by apply Hq, Huna).
  destruct (proj2 (H o) Hpo bo Hbo) as (Hb1 & Hb2 & _).
  assert (Ho : forall w c, espera_a k w o -> w <> o -> k_pcbs k' !! w = Some c -> x <= prioridad_dinamica c).
  { intros w c Hwo Hne Hc. rewrite Hotro in Hc by done. destruct (decide (w = p)) as [->|Hwp]; [|specialize (Hb2 w c Hwo Hwp Hc); lia].
    assert (c = b) as -> by congruence. lia. }
  assert (Hbo' : k_pcbs k' !! o = Some (con_prioridad_dinamica x bo)) by (by rewrite Ep, lookup_insert_eq).
  assert (Hbp : k_pcbs k' !! p = Some b) by (by rewrite Hotro).
  intros q. destruct (decide (q = o)) as [->|Hqo]; split; intros Hoq; rewrite Hw in Hoq.
  - intros c Hc. assert (c = con_prioridad_dinamica x bo) as -> by congruence. cbn. split; [lia|]. split.
    + intros w d Hwo. apply elem_of_esperan_a, Hw in Hwo. apply Ho; [done|]. by intros ->.
    + right. exists p, b. split; [by apply elem_of_esperan_a, Hw|done].
  - intros c Hc. assert (c = con_prioridad_dinamica x bo) as -> by congruence. cbn. split; [lia|]. split.
    + intros w d Hwo. apply Hw in Hwo. by apply Ho.
    + right; right. exists p, b. by rewrite Hw.
  - eapply exacta_en_igual; [unfold pd; by rewrite Hotro|by rewrite Hotro|intros w; apply Hw| |by apply Hex].
    intros w Hwq. unfold pd. rewrite Hotro; [done|]. by intros ->.
  - intros c Hc. rewrite Hotro in Hc by done. destruct (exacta_pendiente k o x q (Hex q Hqo) c Hc) as (H1 & H2 & H3).
    split; [done|]. split; [intros w d Hwq Hne; rewrite Hotro by done; apply H2; [by apply Hw|done]|].
    destruct H3 as [|[|(w & d & Hwq & Hd & E)]]; [by left|by right; left|].
    destruct (decide (w = o)) as [->|Hwo]; [left; assert (d = bo) as -> by congruence; lia|].
    right; right. exists w, d. rewrite Hw, Hotro by done. done.
Qed.

Lemma propagar_exacta n p b k k' :
  red k -> subiendo p (prioridad_dinamica b) k -> k_pcbs k !! p = Some b ->
  propagar_herencia_prioridad n p (prioridad_dinamica b) k = Sigue tt k' -> exacta k'.
Proof.
  remember (prioridad_dinamica b) as x eqn:Ex. revert p b k Ex. induction n as [|n IH]; intros p b k Ex R Hs Hb; cbn [propagar_herencia_prioridad].
  all: intros (b' & k1 & [-> Hb']%leer_sigue & E)%bind_sigue; assert (b' = b) as -> by congruence; clear Hb'.
  all: destruct (mutex_esperando b) as [i|] eqn:Hi;
    [|injection E as <-; eapply subiendo_fin; [exact Hs|exact Hb|done|]; intros o bo Ho; by destruct (no_espera k p b o (rd_esperas _ R) Hb Hi)].
  all: apply bind_sigue in E as (m & k1 & [-> Hm]%leer_mutex_sigue & E).
  all: destruct (rd_vuelta _ R p b i Hb Hi) as (m' & Hm' & Hpm); assert (m' = m) as -> by congruence; clear Hm'.
  all: assert (Hpo : espera_a k p (asignado_a_pid m)) by (by exists i, m).
  all: assert (Huna : forall q, espera_a k p q -> q = asignado_a_pid m) by (intros q Hq; by eapply espera_una; [exact (rd_esperas _ R)|..]).
  all: destruct (Z.eqb_spec (asignado_a_pid m) (-1)) as [Ha|Ha]; [rewrite (rd_libre _ R i m Hm Ha) in Hpm; by apply elem_of_nil in Hpm|].
  all: apply bind_sigue in E as (o & k1 & Eo & E).
  all: destruct (buscar_pcb_esta _ k (rd_duenio _ R i m Hm Ha) _ _ Eo) as [-> ->].
  all: apply bind_sigue in E as (bo & k1 & [-> Hbo]%leer_sigue & E).
  all: destruct (Z.ltb_spec x (prioridad_dinamica bo)) as [Hx|Hx];
    [|injection E as <-; eapply subiendo_fin; [exact Hs|exact Hb|done|]; intros q c ->%Huna Hc; assert (c = bo) as -> by congruence; lia].
  all: apply bind_sigue in E as ([] & k1 & (bo' & Hbo' & ->)%modificar_sigue & E); assert (bo' = bo) as -> by congruence.
  all: apply bind_sigue in E as ([] & k2 & (E1 & E2 & E3)%(quieta_sigue _ _ _ _ (quieta_reubicar _ _ _))%dueno_campos & E).
  all: cbn [con_k_pcbs k_pcbs lista_mutexes todos_los_procesos] in E1, E2, E3.
  all: pose proof (subiendo_sube p b _ bo x k k2 Hs Hb (eq_sym Ex) Hpo Huna Hbo Hx E1 E2) as Hs2.
  all: pose proof (red_prioridad k k2 _ bo x R Hbo E1 E2 E3) as R2.
  all: assert (Hbo2 : k_pcbs k2 !! asignado_a_pid m = Some (con_prioridad_dinamica x bo)) by (by rewrite E1, lookup_insert_eq).
  all: destruct (mutex_esperando bo) as [j|] eqn:Hj;
    [|injection E as <-; eapply subiendo_fin; [exact Hs2|exact Hbo2|done|]; intros q c Hq;
      by destruct (no_espera k2 _ _ q (rd_esperas _ R2) Hbo2 Hj)].
  - done.
  - by apply (IH (asignado_a_pid m) (con_prioridad_dinamica x bo) k2).
Qed.

(** ** A lock *)

Lemma tomado_no_espera sr M p k o : Inv sr (p :: M) k -> ~ espera_a k p o.
Proof. intros H (i & m & Hi & _ & Hp). pose proof (tomado_fuera _ _ _ _ H). pose proof (en_mutexes_lookup _ _ _ _ Hi Hp). tauto. Qed.

(** [p], in nobody's queue, at the end of the queue of the mutex [i]. *)
Lemma encolado_subiendo p b b1 i m k k1 :
  exacta k -> (forall o, ~ espera_a k p o) -> k_pcbs k !! p = Some b -> lista_mutexes k !! i = Some m ->
  prioridad b1 = prioridad b -> prioridad_dinamica b1 = prioridad_dinamica b -> k_pcbs k1 = <[p := b1]> (k_pcbs k) ->
  lista_mutexes k1 = alter (con_bloqueados (cola_bloqueados m ++ [p])) i (lista_mutexes k) -> subiendo p (prioridad_dinamica b1) k1.
Proof.
  intros Hx Hp Hb Hm Ep Ed E1 E2.
  assert (Hw : forall w q, espera_a k1 w q <-> espera_a k w q \/ (w = p /\ q = asignado_a_pid m)).
  { intros w q. unfold espera_a. rewrite E2. split.
    - intros (j & x & Hj & Ha & Hwx). destruct (decide (i = j)) as [<-|Hne].
      + rewrite list_lookup_alter_eq, Hm in Hj. injection Hj as <-. cbn in Ha, Hwx. rewrite elem_of_app, list_elem_of_singleton in Hwx.
        destruct Hwx as [Hwx| ->]; [left; by exists i, m|by right].
      + rewrite list_lookup_alter_ne in Hj by done. left. by exists j, x.
    - intros [(j & x & Hj & Ha & Hwx)|[-> ->]].
      + destruct (decide (i = j)) as [<-|Hne].
        * assert (x = m) as -> by congruence. eexists i, _. rewrite list_lookup_alter_eq, Hm. split; [reflexivity|]. split; [done|].
          cbn. apply elem_of_app. by left.
        * exists j, x. by rewrite list_lookup_alter_ne.
      + eexists i, _. rewrite list_lookup_alter_eq, Hm. split; [reflexivity|]. split; [done|]. cbn. apply elem_of_app. right. left. }
  assert (Hpd : forall w, pd k1 w = pd k w).
  { intros w. unfold pd. rewrite E1. destruct (decide (w = p)) as [->|Hne]; [rewrite lookup_insert_eq, Hb; cbn; congruence|].
    by rewrite lookup_insert_ne. }
  assert (Hpr : forall w, prioridad <$> k_pcbs k1 !! w = prioridad <$> k_pcbs k !! w).
  { intros w. rewrite E1. destruct (decide (w = p)) as [->|Hne]; [rewrite lookup_insert_eq, Hb; cbn; congruence|].
    by rewrite lookup_insert_ne. }
  intros q. split.
  - intros Hq. eapply exacta_en_igual; [apply Hpd|apply Hpr| |by intros; apply Hpd|by apply Hx].
    intros w. rewrite Hw. split; [|by left]. intros [|[-> ->]]; [done|]. exfalso. apply Hq, Hw. by right.
  - intros _ c1 Hc1. pose proof (Hpd q) as Hdq. pose proof (Hpr q) as Hrq. unfold pd in Hdq. rewrite Hc1 in Hdq, Hrq.
    destruct (k_pcbs k !! q) as [c|] eqn:Hc; [|done]. injection Hdq as Hdq. injection Hrq as Hrq. rewrite Hdq, Hrq.
    destruct (exacta_pendiente k p (prioridad_dinamica b1) q (Hx q) c Hc) as (H1 & H2 & H3). split; [done|]. split.
    + intros w d Hwq Hne Hd. apply Hw in Hwq as [Hwq|[]]; [|done]. apply (H2 w d Hwq Hne). by rewrite E1, lookup_insert_ne in Hd.
    + destruct H3 as [|[|(w & d & Hwq & Hd & E)]]; [by left|by right; left|right; right]. exists w, d. rewrite Hw, E1.
      rewrite lookup_insert_ne by (intros ->; by eapply Hp). split; [by left|done].
Qed.

Lemma exacta_pcb k p b b' : k_pcbs k !! p = Some b -> prioridad b' = prioridad b -> prioridad_dinamica b' = prioridad_dinamica b ->
  exacta k -> exacta (con_k_pcbs (<[p := b']> (k_pcbs k)) k).
Proof.
  intros Hb E1 E2 Hx q. assert (H : forall w, pd (con_k_pcbs (<[p := b']> (k_pcbs k)) k) w = pd k w).
  { intros w. unfold pd. cbn. destruct (decide (w = p)) as [->|Hne]; [rewrite lookup_insert_eq, Hb; cbn; congruence|]. by rewrite lookup_insert_ne. }
  eapply exacta_en_igual; [apply H| |by intros w; apply espera_a_igual|by intros; apply H|apply Hx]. cbn.
  destruct (decide (q = p)) as [->|Hne]; [rewrite lookup_insert_eq, Hb; cbn; congruence|]. by rewrite lookup_insert_ne.
Qed.

Lemma exacta_visto k k' : k_pcbs k' = k_pcbs k -> lista_mutexes k' = lista_mutexes k -> exacta k -> exacta k'.
Proof.
  intros E1 E2 Hx q. eapply exacta_en_igual; [unfold pd; by rewrite E1|by rewrite E1|by intros w; apply espera_a_igual| |apply Hx].
  intros w _. unfold pd. by rewrite E1.
Qed.

Lemma exacta_misma k k' : misma k k' -> exacta k -> exacta k'.
Proof. intros E. apply exacta_visto; [exact (misma_pcbs _ _ E)|exact (mismos_mutexes _ _ (misma_mismos _ _ E))]. Qed.

Lemma lock_resto sr M p b i m k r k' :
  Inv sr (p :: M) k -> k_pcbs k !! p = Some b -> estado b <> NEW -> lista_mutexes k !! i = Some m -> exacta k ->
  (if asignado_a_pid m =? -1 then _ ← modificar_mutex i (con_asignado p); mret false
   else
     _ ← modificar p (fun b => con_mutex_esperando (Some i) (con_estado BLOCK b));
     _ ← modificar_mutex i (con_bloqueados (cola_bloqueados m ++ [p]));
     b ← leer p;
     n ← k_gets (fun k => length (todos_los_procesos k));
     _ ← propagar_herencia_prioridad n p (prioridad_dinamica b);
     _ ← modificar p (fun b => con_block_epoch (block_epoch b +u 1)%u32 b);
     b ← leer p;
     _ ← notificar_proceso_en_block p (block_epoch b);
     mret true) k = Sigue r k' -> exacta k'.
Proof.
  intros H Hb Hn Hm Hx. destruct (Z.eqb_spec (asignado_a_pid m) (-1)) as [Ha|Ha].
  - intros ([] & k1 & (m' & Hm' & ->)%modificar_mutex_sigue & [= <- <-])%bind_sigue. assert (m' = m) as -> by congruence.
    rewrite (alter_insert _ _ i m Hm). pose proof (rd_libre _ (Inv_red _ _ _ H) i m Hm Ha) as Hl.
    eapply (conserva_exacta nadie); [exact H|by intros ? ? []| |exact Hx].
    eapply conserva_mutex; [exact Hm|by cbn|by cbn|by left].
  - intros ([] & k1 & (b' & Hb' & ->)%modificar_sigue & E)%bind_sigue. assert (b' = b) as -> by congruence. clear Hb'.
    apply bind_sigue in E as ([] & k1 & (m' & Hm' & ->)%modificar_mutex_sigue & E). cbn in Hm'. assert (m' = m) as -> by congruence. clear Hm'.
    set (b1 := con_mutex_esperando (Some i) (con_estado BLOCK b)) in *.
    pose proof (prio_tomado _ _ _ _ _ H Hb Hn) as Hpr.
    pose proof (Inv_bloquear_mutex sr M k p b b1 i m H Hb Hm Ha eq_refl eq_refl Hpr) as H1. apply Inv_red in H1.
    set (k1 := con_lista_mutexes _ _) in E, H1.
    assert (Hb1 : k_pcbs k1 !! p = Some b1) by (unfold k1; cbn; by rewrite lookup_insert_eq).
    assert (Hs : subiendo p (prioridad_dinamica b1) k1).
    { eapply (encolado_subiendo p b b1 i m k k1); try done. intros o. by eapply tomado_no_espera. }
    clearbody k1. apply bind_sigue in E as (b' & k2 & [-> Hb']%leer_sigue & E). assert (b' = b1) as -> by congruence.
    apply bind_sigue in E as (n & k2 & [= <- <-] & E). apply bind_sigue in E as ([] & k2 & Ep & E).
    pose proof (propagar_exacta _ p b1 k1 k2 H1 Hs Hb1 Ep) as Hx2.
    apply bind_sigue in E as ([] & k3 & (b2 & Hb2 & ->)%modificar_sigue & E).
    apply bind_sigue in E as (b3 & k3 & [-> Hb3]%leer_sigue & E). apply bind_sigue in E as ([] & k3 & En & [= <- <-]).
    pose proof (quieta_en_block p (block_epoch b3)) as Hq. apply (quieta_sigue _ _ _ _ Hq) in En as (F1 & F2 & _)%dueno_campos.
    eapply exacta_visto; [exact F1|exact F2|]. by eapply exacta_pcb.
Qed.

(** A step that leaves the inheritance alone, with [p] in the hands of the handler. *)
Lemma exacta_conservadora {A} (m : K A) sr M p k a k' :
  conservadora (eq p) m -> Inv sr (p :: M) k -> exacta k -> m k = Sigue a k' -> exacta k'.
Proof.
  intros Hm H Hx E. specialize (Hm k). unfold respeta in Hm. rewrite E in Hm.
  eapply (conserva_exacta (eq p)); [exact H| |exact Hm|exact Hx]. intros w o <-. by eapply tomado_no_espera.
Qed.
Lemma exacta_nada {A} (m : K A) sr M k a k' :
  conservadora nadie m -> Inv sr M k -> exacta k -> m k = Sigue a k' -> exacta k'.
Proof.
  intros Hm H Hx E. specialize (Hm k). unfold respeta in Hm. rewrite E in Hm.
  eapply (conserva_exacta nadie); [exact H|by intros w o []|exact Hm|exact Hx].
Qed.

Lemma lock_exacta sr M p b params k r k' :
  Inv sr (p :: M) k -> k_pcbs k !! p = Some b -> estado b <> NEW -> exacta k ->
  manejar_syscall_mutex_lock p params k = Sigue r k' -> exacta k'.
Proof.
  intros H Hb Hn Hx. destruct params as [|nombre ps]; cbn [manejar_syscall_mutex_lock]; [by intros [= <- <-]|].
  intros (o & k1 & Eb & E)%bind_sigue.
  pose proof (cumple_buscar_mutex (cstr nombre) sr (p :: M) (fun o k1 => misma k k1) k H ltac:(done)) as Hc.
  unfold cumple in Hc. rewrite Eb in Hc. pose proof (Inv_misma _ _ _ _ Hc H) as H1. apply (misma_leer _ _ _ _ Hc) in Hb.
  apply (exacta_nada _ _ _ _ _ _ (conservadora_buscar_mutex _ _) H Hx) in Eb. apply bind_sigue in E as (i & k2 & Ei & E).
  assert (H2 : Inv sr (p :: M) k2 /\ k_pcbs k2 !! p = Some b /\ exacta k2).
  { destruct o as [j|]; [by injection Ei as <- <-|].
    pose proof (cumple_registrar_mutex (cstr nombre) sr (p :: M) (fun i k2 => Inv sr (p :: M) k2 /\ k_pcbs k2 = k_pcbs k1) k1 H1 ltac:(done)) as Hr.
    unfold cumple in Hr. rewrite Ei in Hr. destruct Hr as [H2 ->]. split; [done|]. split; [done|].
    by apply (exacta_nada _ _ _ _ _ _ (conservadora_registrar _ _) H1 Eb) in Ei. }
  destruct H2 as (H2 & Hb2 & Hx2). apply bind_sigue in E as (m & k3 & [-> Hm]%leer_mutex_sigue & E). by eapply lock_resto.
Qed.

(** ** An unlock *)

(** The recomputation puts right a process that waits for nobody. *)
Lemma recalcular_exacta D p k k' :
  exacta_salvo (fun q => q = p \/ D q) k -> (forall o, ~ espera_a k p o) ->
  recalcular_prioridad_dinamica p k = Sigue tt k' -> exacta_salvo D k'.
Proof.
  intros Hs Hp (b & y & Hb & Hmin & E1 & E2 & _)%recalcular_sigue q HD c Hc. rewrite E1 in Hc. rewrite E2.
  assert (Hpd : forall o w, w ∈ esperan_a o (lista_mutexes k) -> pd k' w = pd k w).
  { intros o w Hw%elem_of_esperan_a. unfold pd. rewrite E1, lookup_insert_ne; [done|]. intros ->. by eapply Hp. }
  destruct (decide (q = p)) as [->|Hne].
  - rewrite lookup_insert_eq in Hc. injection Hc as <-. cbn. by eapply es_minimo_igual; [done|apply Hpd|].
  - rewrite lookup_insert_ne in Hc by congruence. eapply es_minimo_igual; [done|apply Hpd|]. by apply (Hs q); [tauto|].
Qed.

(** The mutex handed over: the old owner [p] is still to be recomputed. *)
Lemma entregar_exacta sr M i m p s resto k k' :
  Inv sr M k -> exacta k -> lista_mutexes k !! i = Some m -> asignado_a_pid m = p -> cola_bloqueados m = s :: resto ->
  (forall o, ~ espera_a k p o) -> entregar_mutex i s resto k = Sigue tt k' ->
  exacta_salvo (eq p) k' /\ forall o, ~ espera_a k' p o.
Proof.
  intros H Hx Hm Ha Hc Hp (b & k1 & Hb & Er & _ & (b' & E1 & Ed & _ & _ & Eb) & E2)%entregar_sigue.
  assert (Hs : s ∈ cola_bloqueados m) by (rewrite Hc; left).
  assert (Hps : p <> s) by (intros ->; apply (Hp (asignado_a_pid m)); by exists i, m).
  pose proof (Inv_esperas _ _ _ H) as He. destruct (He i m s Hm Hs) as (bs & Hbs & Hsi).
  assert (Hw : forall w q, espera_a k1 w q -> w <> s /\ (espera_a k w q \/ (q = s /\ espera_a k w p))).
  { intros w q (j & x & Hj & Hq & Hwx). rewrite E2 in Hj. destruct (decide (i = j)) as [<-|Hne].
    - rewrite list_lookup_alter_eq, Hm in Hj. injection Hj as <-. cbn in Hq, Hwx. split.
      + intros ->. pose proof (cola_nodup _ _ _ _ _ H Hm) as Hnd. rewrite Hc in Hnd. by apply NoDup_cons in Hnd as [].
      + right. split; [done|]. exists i, m. split; [done|]. split; [done|]. rewrite Hc. by right.
    - rewrite list_lookup_alter_ne in Hj by done. split; [|left; by exists j, x]. intros ->.
      destruct (He j x s Hj Hwx) as (c & Hcs & Hcj). congruence. }
  assert (Hw' : forall w q, q <> p -> espera_a k w q -> espera_a k1 w q).
  { intros w q Hqp (j & x & Hj & Hq & Hwx). exists j, x. rewrite E2, list_lookup_alter_ne; [done|]. intros <-. congruence. }
  assert (Hpd : forall w, pd k1 w = pd k w).
  { intros w. unfold pd. rewrite E1. destruct (decide (w = s)) as [->|Hne]; [rewrite lookup_insert_eq, Hb; cbn; congruence|].
    by rewrite lookup_insert_ne. }
  assert (Hx1 : exacta_salvo (fun q => q = s \/ p = q) k1).
  { intros q Hq. eapply exacta_en_igual; [apply Hpd| | |by intros; apply Hpd|apply Hx].
    - rewrite E1, lookup_insert_ne; [done|]. intros ->. tauto.
    - intros w. split; [|apply Hw'; intros ->; tauto]. intros Hwq. destruct (Hw w q Hwq) as [_ [|[-> _]]]; tauto. }
  split; [eapply recalcular_exacta; [exact Hx1| |exact Er]; intros o Ho; by destruct (Hw s o Ho)|].
  intros o Ho. apply recalcular_sigue in Er as (? & ? & _ & _ & _ & El & _). rewrite (espera_a_igual k1 k') in Ho by done.
  destruct (Hw p o Ho) as [_ [Hpo|[_ Hpo]]]; by eapply Hp.
Qed.

Lemma unlock_exacta sr M p params k k' :
  Inv sr (p :: M) k -> exacta k -> manejar_syscall_mutex_unlock p params k = Sigue tt k' -> exacta k'.
Proof.
  intros H Hx. destruct params as [|nombre ps]; cbn [manejar_syscall_mutex_unlock]; [by intros [= <-]|].
  intros (o & k1 & Eb & E)%bind_sigue.
  pose proof (cumple_buscar_mutex (cstr nombre) sr (p :: M) (fun o k1 => misma k k1) k H ltac:(done)) as Hc.
  unfold cumple in Hc. rewrite Eb in Hc. pose proof (Inv_misma _ _ _ _ Hc H) as H1.
  apply (exacta_nada _ _ _ _ _ _ (conservadora_buscar_mutex _ _) H Hx) in Eb. clear Hc.
  destruct o as [i|]; [|by injection E as <-]. apply bind_sigue in E as (m & k2 & [-> Hm]%leer_mutex_sigue & E).
  destruct (Z.eqb_spec (asignado_a_pid m) p) as [Ha|]; [|by injection E as <-]. cbn [negb] in E.
  assert (Hp : forall o, ~ espera_a k1 p o) by (intros o; by eapply tomado_no_espera).
  apply bind_sigue in E as ([] & k2 & Ee & E).
  assert (Hfin : exacta_salvo (eq p) k2 -> (forall o, ~ espera_a k2 p o) -> exacta k').
  { intros Hs Hp2. apply exacta_nadie. eapply recalcular_exacta; [|exact Hp2|exact E]. intros q Hq. apply Hs. intros ->. tauto. }
  destruct (cola_bloqueados m) as [|s resto] eqn:Hc.
  - apply modificar_mutex_sigue in Ee as (m' & Hm' & ->). assert (m' = m) as -> by congruence.
    rewrite (alter_insert _ _ i m Hm) in *. assert (Hcv : conserva nadie k1 (con_lista_mutexes (<[i := con_asignado (-1) m]> (lista_mutexes k1)) k1))
      by (eapply conserva_mutex; [exact Hm|by cbn|by cbn|by left]).
    apply Hfin; [|intros o Ho; by eapply Hp, (c_menos _ _ _ Hcv)].
    intros q _. eapply (conserva_exacta nadie); [exact H1|by intros w o []|exact Hcv|exact Eb].
  - destruct (entregar_exacta sr (p :: M) i m p s resto k1 k2 H1 Eb Hm Ha Hc Hp Ee). by apply Hfin.
Qed.

(** ** Every step of every thread *)

(** After a mutex syscall that does not block, the process goes back to READY. *)
Lemma syscall_exacta sr p b nombre params id k k' :
  Inv sr [p] k -> k_pcbs k !! p = Some b -> estado b = EXEC -> exacta k ->
  manejar_syscall_io p nombre params id k = Sigue tt k' -> exacta k'.
Proof.
  intros H Hb He Hx. destruct nombre as [nombre|]; cbn [manejar_syscall_io]; [|by intros [= <-]].
  assert (HS : eq p p) by done.
  assert (HC : forall m : K unit, conservadora (eq p) m -> m k = Sigue tt k' -> exacta k') by (intros m Hm; by eapply exacta_conservadora).
  assert (HE : forall M k1, Inv sr M k1 -> exacta k1 -> encolar_en_ready_y_notificar p k1 = Sigue tt k' -> exacta k').
  { intros M k1 H1 Hx1. by eapply exacta_nada; [apply conservadora_encolar|..]. }
  destruct (strcmp0 _ "SLEEP"); [apply HC; conservar|].
  destruct (strcmp0 _ "IO_SLEEP"); [apply HC; conservar|].
  destruct (strcmp0 _ "STDIN"); [apply HC; conservar|].
  destruct (strcmp0 _ "STDOUT"); [apply HC; conservar|].
  destruct (strcmp0 _ "MEM_ALLOC"); [apply HC; conservar|].
  destruct (strcmp0 _ "MEM_FREE"); [apply HC; conservar|].
  destruct (strcmp0 _ "MUTEX_CREATE"); [apply HC; conservar|].
  destruct (strcmp0 _ "MUTEX_LOCK").
  { intros (r & k1 & El & E)%bind_sigue.
    pose proof (cumple_mutex_lock sr [] p b params (fun _ k1 => exists M, Inv sr M k1) k H Hb ltac:(congruence)
      ltac:(intros; by eexists) ltac:(intros; by eexists)) as Hc. unfold cumple in Hc. rewrite El in Hc. destruct Hc as [M H1].
    apply (lock_exacta _ _ _ _ _ _ _ _ H Hb ltac:(congruence) Hx) in El. destruct r; [by injection E as <-|by eapply HE]. }
  destruct (strcmp0 _ "MUTEX_UNLOCK").
  { intros ([] & k1 & El & E)%bind_sigue.
    pose proof (cumple_mutex_unlock sr [] p b params (fun _ k1 => Inv sr [p] k1) k H Hb He ltac:(done)) as Hc.
    unfold cumple in Hc. rewrite El in Hc. apply (unlock_exacta _ _ _ _ _ _ H Hx) in El. by eapply HE. }
  destruct (strcmp0 _ "INIT_PROC"); apply HC; conservar.
Qed.

Lemma motivo_exacta sr p b motivo nombre params id k k' :
  Inv sr [p] k -> k_pcbs k !! p = Some b -> estado b = EXEC -> exacta k ->
  manejar_motivo p motivo nombre params id k = Sigue tt k' -> exacta k'.
Proof.
  intros H Hb He Hx. unfold manejar_motivo. assert (HS : eq p p) by done.
  assert (HC : forall m : K unit, conservadora (eq p) m -> m k = Sigue tt k' -> exacta k') by (intros m Hm; by eapply exacta_conservadora).
  destruct (_ || _)%bool; [apply HC; conservar|]. destruct (_ =? _); [apply HC; conservar|].
  destruct (_ =? _); [by eapply syscall_exacta|]. apply HC. conservar.
Qed.

(** The process that a CPU gives back, in the hands of its receptor. *)
Lemma retirado_inv sr id f k k' :
  Inv sr [] k -> (forall c, proceso_actual (f c) = None /\ q_cpu_id (f c) = q_cpu_id c) -> modificar_cpu id f k = Sigue tt k' ->
  Inv sr (option_list (cpu_de id k ≫= proceso_actual)) k' /\
  forall p, cpu_de id k ≫= proceso_actual = Some p -> exists b, k_pcbs k' !! p = Some b /\ estado b = EXEC.
Proof.
  intros H Hf E.
  pose proof (cumple_retirar sr id f (fun _ k' => Inv sr (option_list (cpu_de id k ≫= proceso_actual)) k' /\
    forall p, cpu_de id k ≫= proceso_actual = Some p -> exists b, k_pcbs k' !! p = Some b /\ estado b = EXEC) k H Hf ltac:(done)) as Hc.
  unfold cumple in Hc. by rewrite E in Hc.
Qed.

(** The retirement, with or without keeping the CPU. *)
Definition retirar (reservando : bool) (id pid : Z) : K (option Z) :=
  if reservando then retirar_proceso_de_cpu_reservando id pid else retirar_proceso_de_cpu id pid.

Lemma retirar_inv sr r id pid k po k' :
  Inv sr [] k -> retirar r id pid k = Sigue po k' ->
  Inv sr (option_list po) k' /\ forall p, po = Some p -> exists b, k_pcbs k' !! p = Some b /\ estado b = EXEC.
Proof.
  intros H E. destruct r; cbn [retirar] in E; apply bind_sigue in E as (c & k1 & [= <- <-] & E); apply bind_sigue in E as ([] & k1 & Em & E).
  - injection E as <- <-. revert Em. apply retirado_inv; [done|]. intros c. by split.
  - apply bind_sigue in E as ([] & k2 & [= <-] & [= <- <-]).
    assert (A : Inv sr (option_list (cpu_de id k ≫= proceso_actual)) k1 /\
      forall p, cpu_de id k ≫= proceso_actual = Some p -> exists b, k_pcbs k1 !! p = Some b /\ estado b = EXEC).
    { revert Em. apply retirado_inv; [done|]. intros c. by split. }
    destruct A as [A1 A2]. split; [|exact A2]. by eapply Inv_misma; [|exact A1].
Qed.
Lemma conservadora_retirar S r id pid : conservadora S (retirar r id pid).
Proof. destruct r; cbn [retirar]; unfold retirar_proceso_de_cpu, retirar_proceso_de_cpu_reservando; conservar. Qed.

Lemma devolver_exacta sr socket id k k' :
  Inv sr [] k -> exacta k -> manejar_devolver_proceso socket id k = Sigue tt k' -> exacta k'.
Proof.
  intros H Hx (d & k1 & E1 & E)%bind_sigue.
  pose proof (no_toca_recibir socket recibir_devolver_proceso k) as H1. rewrite E1 in H1. apply (Inv_misma _ _ _ _ H1) in H.
  apply (exacta_misma _ _ H1) in Hx. clear H1 E1. destruct d as [[[pid motivo] nombre] params].
  destruct (pid <? 0); [by injection E as <-|]. apply bind_sigue in E as (po & k2 & Er & E).
  change (retirar (es_syscall_de_memoria motivo nombre) id pid k1 = Sigue po k2) in Er.
  destruct (retirar_inv _ _ _ _ _ _ _ H Er) as [H2 Hp].
  apply (exacta_nada _ _ _ _ _ _ (conservadora_retirar nadie _ _ _) H Hx) in Er. destruct po as [p|].
  - destruct (Hp p eq_refl) as (b & Hb & He). by eapply motivo_exacta.
  - revert E. apply (exacta_nada _ sr [] k2); [|done..]. destruct (es_syscall_de_memoria _ _); conservar.
Qed.

Lemma receptor_exacta sr j k k' : Inv sr [] k -> exacta k -> scheduler_cpu_receptor_thread j k = Sigue tt k' -> exacta k'.
Proof.
  intros H Hx (k0 & k1 & [= <- <-] & E)%bind_sigue. destruct (_ !! j) as [r|]; [|done]. apply bind_sigue in E as (c & k1 & E1 & E).
  pose proof (no_toca_codigo (rt_socket r) k) as H1. rewrite E1 in H1. pose proof (Inv_misma _ _ _ _ H1 H) as H2.
  apply (exacta_misma _ _ H1) in Hx.
  assert (HM : forall m, conservadora nadie m -> m k1 = Sigue tt k' -> exacta k') by (intros m Hm; by eapply exacta_nada).
  destruct (_ =? -1); [revert E; apply HM; unfold marcar_cpu_desconectada; conservar|].
  destruct (_ =? _); [by eapply devolver_exacta|]. revert E. apply HM. unfold marcar_cpu_desconectada. conservar.
Qed.

(** *** Threads that may end a process *)

Lemma exacta_fin {A} (S : Z -> Prop) (m : K A) sr M k a k' :
  respeta S m k -> Inv sr M k -> (forall w o, S w -> ~ espera_a k w o) -> exacta k -> m k = Sigue a k' -> exacta k'.
Proof. unfold respeta. intros Hm H HS Hx E. rewrite E in Hm. by eapply (conserva_exacta S). Qed.

(** Who is in NEW, in BLOCK or suspended waits for no mutex. *)
Lemma sitio_no_espera sr M k w o : Inv sr M k -> w ∈ en_new k \/ w ∈ cola_procesos_block k \/ w ∈ sr -> ~ espera_a k w o.
Proof.
  intros H Hw (i & m & Hi & _ & Hm). pose proof (en_mutexes_lookup _ _ _ _ Hi Hm) as He.
  pose proof (Inv_nodup _ _ _ H) as Hn. unfold lugares in Hn.
  apply NoDup_app in Hn as (_ & N1 & Hn). apply NoDup_app in Hn as (_ & _ & Hn). apply NoDup_app in Hn as (_ & _ & Hn).
  apply NoDup_app in Hn as (_ & N2 & Hn). apply NoDup_app in Hn as (_ & N3 & _).
  destruct Hw as [Hw|[Hw|Hw]]; [apply (N1 w Hw)|apply (N2 w Hw)|apply (N3 w He)]; rewrite !elem_of_app; tauto.
Qed.

Lemma conserva_respeta {A} S (m : K A) k k1 :
  conserva S k k1 -> conservadora S m -> match m k1 with Sigue _ k' => conserva S k k' | _ => True end.
Proof. intros Hc Hm. specialize (Hm k1). unfold respeta in Hm. destruct (m k1); try done. by etrans. Qed.

Lemma largo_plazo_respeta k : respeta (fun w => w ∈ en_new k) planificadorLargoPlazo k.
Proof.
  unfold planificadorLargoPlazo, respeta. rewrite bind_eq. destruct (wait_sem_new k) as [[] k1| | | | |] eqn:E1; try done.
  assert (Hk : visto k1 = visto k /\ cola_procesos_new k1 = cola_procesos_new k).
  { unfold wait_sem_new in E1. destruct (sem_new k); [done|]. by injection E1 as <-. }
  destruct Hk as [Hv Hq]. rewrite bind_eq. cbn [k_get]. rewrite Hq. destruct (cola_procesos_new k) as [[|p q]|] eqn:Hc; [by apply conserva_visto| |done].
  apply conserva_respeta; [by apply conserva_visto|]. assert (HS : (fun w => w ∈ en_new k) p) by (unfold en_new; rewrite Hc; left).
  unfold encolar_en_ready_por_prioridad. conservar.
Qed.

Lemma conservadora_terminar_stdin (S : Z -> Prop) p size dir bs : S p -> conservadora S (terminar_stdin p size dir bs).
Proof.
  intros HS k. unfold respeta, terminar_stdin. rewrite bind_eq. pose proof (conservadora_extraer S p k) as He. unfold respeta in He.
  destruct (extraer_de_block p k) as [po k1| | | | |] eqn:E; try done.
  assert (Hpo : po = None \/ po = Some p).
  { unfold extraer_de_block in E. apply bind_sigue in E as (l & k2 & [= <- <-] & E). apply bind_sigue in E as (i & k2 & [-> ->]%posicion_inv & E).
    destruct (indice_de _ _); [|injection E; auto]. apply bind_sigue in E as (b & k2 & _ & E). destruct (_ && _)%bool; [done|].
    apply bind_sigue in E as ([] & k3 & _ & [= <- _]). auto. }
  apply conserva_respeta; [done|]. destruct Hpo as [-> | ->]; conservar.
Qed.
#[export] Hint Resolve conservadora_terminar_stdin : conservadora.

Lemma respuesta_respeta k i : respeta (fun w => w ∈ tabla_ios k ≫= pedidos) (io_worker_respuesta i) k.
Proof.
  unfold io_worker_respuesta, respeta. rewrite bind_eq. unfold leer_io. destruct (tabla_ios k !! i) as [io|] eqn:Hio; [|done].
  destruct (io_en_curso io) as [req|] eqn:Hc; [|done].
  apply conserva_respeta; [done|].
  assert (HS : (fun w => w ∈ tabla_ios k ≫= pedidos) (r_proceso req)).
  { apply list_elem_of_bind. exists io. split; [|by eapply list_elem_of_lookup_2]. unfold pedidos. rewrite Hc. apply elem_of_app. right. left. }
  unfold modificar_io. destruct req; cbn in HS; conservar.
Qed.

Lemma conservadora_candidato (S : Z -> Prop) p : S p -> conservadora S (des_suspender_candidato p).
Proof. intros HS. unfold des_suspender_candidato. conservar. Qed.
Lemma conservadora_des_suspender (S : Z -> Prop) l : Forall (fun c => S (de_candidato c)) l -> conservadora S (des_suspender_bucle l).
Proof.
  induction 1 as [|[[p d] t] l HS Hl IH]; cbn [des_suspender_bucle]; [conservar|]. pose proof (conservadora_candidato S p HS). conservar.
Qed.

Section pasos.
Variable list_sort : (candidato -> candidato -> bool) -> list candidato -> list candidato.
Hypothesis list_sort_perm : forall cmp l, list_sort cmp l ≡ₚ l.

Lemma mediano_exacta sr k k' : Inv sr [] k -> exacta k -> planificadorMedianoPlazo list_sort k = Sigue tt k' -> exacta k'.
Proof.
  intros H Hx ([] & k1 & E1 & E)%bind_sigue. pose proof (no_toca_wait_reevaluar k) as H1. rewrite E1 in H1.
  apply (Inv_misma _ _ _ _ H1) in H. apply (exacta_misma _ _ H1) in Hx. clear H1 E1.
  apply bind_sigue in E as (c & k2 & [= <- <-] & E). destruct (sistema_corrupto k1); [by injection E as <-|].
  apply bind_sigue in E as (l & k2 & [= <- <-] & E). apply bind_sigue in E as (cs & k2 & Ec & E).
  assert (Hv : Forall (vivo k1) (lista_suspendidos k1).*1).
  { apply Forall_forall. intros q Hq. eapply Inv_vivo; [done|]. apply lugares_dec. apply (i_susp _ _ _ H) in Hq. tauto. }
  pose proof (cumple_candidatos (lista_suspendidos k1) (fun cs k2 => k2 = k1 /\ Forall (fun c => de_candidato c ∈ sr) cs) k1 Hv) as Hc.
  unfold cumple in Hc. rewrite Ec in Hc. destruct Hc as [-> Hcs].
  { intros cs' Hs HF. split; [done|]. rewrite Forall_forall in *. intros c Hc. destruct (HF c Hc) as (b & Hb & He).
    assert (Hin : de_candidato c ∈ (lista_suspendidos k1).*1) by (eapply elem_of_sublist; [|exact Hs]; by apply list_elem_of_fmap_2).
    apply (i_susp _ _ _ H) in Hin as [|(_ & b' & Hb' & He')]; [done|]. congruence. }
  eapply (exacta_fin (.∈ sr)); [|exact H| |exact Hx|exact E].
  - apply conservadora_des_suspender. by rewrite list_sort_perm.
  - intros w o Hw. eapply sitio_no_espera; [exact H|tauto].
Qed.

Lemma ejecutar_exacta sr e k k' : Inv sr [] k -> exacta k -> ejecutar list_sort e k = Sigue tt k' -> exacta k'.
Proof.
  intros H Hx. assert (HM : forall m : K unit, conservadora nadie m -> m k = Sigue tt k' -> exacta k') by (intros m Hm; by eapply exacta_nada).
  destruct e; cbn [ejecutar].
  - apply HM. unfold crear_proceso_inicial. conservar.
  - apply (exacta_fin _ _ sr [] _ _ _ (largo_plazo_respeta k) H); [|done]. intros w o Hw. eapply sitio_no_espera; [exact H|tauto].
  - apply HM. conservar.
  - by eapply mediano_exacta.
  - apply HM. conservar.
  - by eapply receptor_exacta.
  - apply HM. conservar.
  - apply HM. conservar.
  - apply HM. conservar.
  - apply HM. unfold worker_de. conservar.
  - intros (l & k1 & [= <- <-] & E)%bind_sigue. destruct (_ <? _)%nat; [|done]. revert E.
    apply (exacta_fin _ _ sr [] _ _ _ (respuesta_respeta k i) H); [|done]. intros w o Hw.
    eapply sitio_no_espera; [exact H|]. right; left. pose proof (i_pedidos _ _ _ H) as [_ HB]. rewrite Forall_forall in HB. by apply HB.
  - apply HM. conservar.
  - apply HM. conservar.
Qed.
End pasos.

(** ** In every reachable state *)

Lemma arrancar_exacta config memory k : arrancar (kernel_global config memory) = Sigue tt k -> exacta k.
Proof.
  intros E p b Hb. assert (Hv : k_pcbs k = ∅); [|by rewrite Hv, lookup_empty in Hb]. clear Hb. revert E. unfold arrancar.
  set (k0 := inicializar_recursos_kernel_scheduler (kernel_global config memory)). unfold mbind, K_bind, k_mod, k_get. fold k0.
  destruct (decide (_ = ALGORITMO_CMN)); cbn -[inicializar_colas_multinivel]; intros [= <-]; [|done].
  unfold inicializar_colas_multinivel. by destruct (_ <=? 0).
Qed.

(** C5: in every state reached by turns that end, in any order, the dynamic
    priority of each process is exactly the least of its own priority and of the
    dynamic priorities of the processes that wait for the mutexes it owns: nobody who
    waits is kept behind by a less urgent owner, and nobody keeps an inherited
    priority when those it came from no longer wait for it. A turn that is stuck for
    ever at the lock of the list of mutexes, as the end of the owner of an awaited
    mutex ([fin_de_duenio_no_vuelve]), is not one of them: what it leaves half done
    ([Trabado]) need not satisfy this. *)
Theorem prioridad_dinamica_exacta list_sort config memory k p b :
  (forall cmp l, list_sort cmp l ≡ₚ l) -> alcanzable list_sort config memory k -> k_pcbs k !! p = Some b ->
  es_minimo k (prioridad b) (esperan_a p (lista_mutexes k)) (prioridad_dinamica b).
Proof.
  intros Hsort Ha. revert p b. change (exacta k).
  induction Ha as [k H|k e k' Ha IH _ _ E]; [by eapply arrancar_exacta|].
  destruct (alcanzable_inv _ Hsort _ _ _ Ha) as [sr H]. by eapply ejecutar_exacta.
Qed.

(** ** Witness *)

(** Process 0, of priority 0, waits for the mutex of process 1, of priority 1. *)
Definition eventos_heredado : list evento := eventos_herencia ++ [devuelve 0 "MUTEX_LOCK" ["M"%string]; EvCpu 0].

Lemma prioridad_dinamica_exacta_witness :
  exists b, k_pcbs (despues_de eventos_heredado) !! 1 = Some b /\ prioridad b = 1 /\ prioridad_dinamica b = 0 /\
    es_minimo (despues_de eventos_heredado) 1 [0] 0.
Proof.
  assert (Ha : alcanzable ordenar config_cmn 4 (despues_de eventos_heredado)) by (apply despues_alcanzable; vm_compute; by eexists).
  destruct (k_pcbs (despues_de eventos_heredado) !! 1) as [b|] eqn:Hb; [|vm_compute in Hb; discriminate].
  pose proof (prioridad_dinamica_exacta ordenar config_cmn 4 _ 1 b ordenar_perm Ha Hb) as Hm.
  assert (El : esperan_a 1 (lista_mutexes (despues_de eventos_heredado)) = [0]) by (vm_compute; reflexivity).
  assert (Eb : prioridad b = 1 /\ prioridad_dinamica b = 0) by (vm_compute in Hb; injection Hb as <-; split; reflexivity).
  destruct Eb as [E1 E2]. rewrite E1, E2, El in Hm. exists b. split; [reflexivity|]. split; [exact E1|]. split; [exact E2|exact Hm].
Defined.
