(* ===== verification/SchedProtocolo.v ===== *)
(** * SchedProtocolo: the demultiplexer of Memory's socket

    Memory answers requests and pushes notifications on one socket. Whoever waits
    for an answer carries out every notification that precedes it, and gets the
    answer with the rest of the stream intact; the notification of corrupted memory
    ends the Scheduler. *)

From Stdlib Require Import Strings.String.
From S2P Require Import Prelude Wire Tipos Mensajes Texto SchedTipos SchedColas SchedMutex SchedMemoria SchedInv SchedInvOps SchedSeguroOps SchedSistema SchedCorrecto SchedVivacidad.

Inductive notificacion :=
| MemoriaLiberada
| NuevaMemoria (tamanio base : Z) (ip puerto : list byte)
| IniciaCompactacion
| FinalizaCompactacion.

Definition notificacion_bytes (n : notificacion) : list byte :=
  match n with
  | MemoriaLiberada => enviar_memoria_liberada
  | NuevaMemoria tamanio base ip puerto => enviar_nueva_memoria_disponible tamanio base ip puerto
  | IniciaCompactacion => enviar_ok INICIAR_COMPACTACION
  | FinalizaCompactacion => enviar_ok FINALIZAR_COMPACTACION
  end.

Definition notificacion_valida (n : notificacion) : Prop :=
  match n with
  | NuevaMemoria tamanio base ip puerto => es_u32 tamanio /\ es_u32 base /\ cadena_ok ip /\ cadena_ok puerto
  | _ => True
  end.

(** One interrupt for each CPU that runs a process and is connected. *)
Definition interrupciones (cs : list t_cpu) : list (Z * list byte) :=
  omap (fun c => match proceso_actual c with
                 | Some p => if negb (disponible c) && negb (q_socket c =? -1)
                             then Some (q_socket c, enviar_interrupcion p (motivo_num MOTIVO_DESALOJO)) else None
                 | None => None
                 end) cs.

(** What each notification does. *)
Definition efecto (s : Z) (k : kernel) (n : notificacion) : kernel :=
  match n with
  | MemoriaLiberada | NuevaMemoria _ _ _ _ => con_sem_reevaluar_suspendidos (S (sem_reevaluar_suspendidos k)) k
  | IniciaCompactacion =>
      con_k_salidas (k_salidas k ++ interrupciones (k_cpus k) ++ [(s, enviar_ok INICIAR_COMPACTACION)])
        (con_compactacion_en_progreso true k)
  | FinalizaCompactacion =>
      con_sem_reevaluar_suspendidos (S (sem_reevaluar_suspendidos k))
        (con_sem_ready (S (sem_ready k)) (con_compactacion_en_progreso false k))
  end.

Definition con_entrada (s : Z) (bs : list byte) (k : kernel) : kernel := con_k_entradas (<[s := bs]> (k_entradas k)) k.
Definition es_respuesta (op : op_code) : bool :=
  match op with
  | MEMORIA_CORRUPTA_BSOD | MEMORIA_LIBERADA | INICIAR_COMPACTACION | FINALIZAR_COMPACTACION | NUEVA_MEMORIA_DISPONIBLE => false
  | _ => true
  end.

(** ** Reading from a socket *)

Lemma recibir_en {A} (r : lector A) s bs k a resto :
  r bs = Some (a, resto) -> k_recibir s r (con_entrada s bs k) = Sigue a (con_entrada s resto k).
Proof.
  intros E. unfold k_recibir, k_entrada. cbn. rewrite lookup_insert_eq. cbn. rewrite E.
  unfold con_entrada. cbn. by rewrite insert_insert_eq.
Qed.

Lemma codigo_en op pl resto s k :
  k_codigo s (con_entrada s (trama op pl ++ resto) k) =
  Sigue (op_num op) (con_entrada s (le_enc 8 (Z.of_nat (length pl)) ++ pl ++ resto) k).
Proof. apply recibir_en. by rewrite codigo_trama. Qed.

(** ** The interrupts of a compaction *)

Lemma desalojar_ok cs k : Forall (vivo k) (omap proceso_actual cs) ->
  desalojar_bucle cs k = Sigue tt (con_k_salidas (k_salidas k ++ interrupciones cs) k).
Proof.
  revert k. induction cs as [|c cs IH]; intros k Hv; cbn [desalojar_bucle].
  { cbn. rewrite app_nil_r. by destruct k. }
  unfold interrupciones. cbn [omap list_omap]. fold (interrupciones cs). cbn in Hv. rewrite bind_eq.
  destruct (proceso_actual c) as [p|]; [apply Forall_cons in Hv as [[b Hb] Hv]|by apply IH].
  destruct (negb (disponible c)); cbn [andb]; [|by apply IH].
  destruct (negb (q_socket c =? -1)) eqn:Hs; [|by apply IH]. apply negb_true_iff in Hs.
  rewrite bind_eq. unfold leer. rewrite Hb. unfold k_enviar, k_mod. rewrite Hs.
  rewrite IH by done. cbn. rewrite <-app_assoc. done.
Qed.

(** ** One notification *)

Lemma notificacion_ok n s resto k :
  notificacion_valida n -> s <> -1 -> Forall (vivo k) (en_cpus k) ->
  exists op pl, notificacion_bytes n = trama op pl /\
    despachar_si_es_notificacion s (op_num op) (con_entrada s (le_enc 8 (Z.of_nat (length pl)) ++ pl ++ resto) k) =
    Sigue true (con_entrada s resto (efecto s k n)).
Proof.
  intros Hn Hs Hv. assert (Hs' : (s =? -1) = false) by lia. destruct n as [|tam base ip puerto| |]; cbn [notificacion_bytes].
  - destruct (protocolo_ok (p := p_ok MEMORIA_LIBERADA) tt I) as (pl & E & Hr). exists MEMORIA_LIBERADA, pl. split; [exact E|].
    change (despachar_si_es_notificacion s (op_num MEMORIA_LIBERADA)) with (_ ← handle_memoria_liberada s; mret true : K bool).
    rewrite bind_eq. unfold handle_memoria_liberada. rewrite bind_eq, (recibir_en _ _ _ _ _ _ (Hr resto)). done.
  - destruct (protocolo_ok (p := p_nueva_memoria) (tam, base, ip, puerto) Hn) as (pl & E & Hr). exists NUEVA_MEMORIA_DISPONIBLE, pl. split; [exact E|].
    change (despachar_si_es_notificacion s (op_num NUEVA_MEMORIA_DISPONIBLE)) with (_ ← handle_nueva_memoria_disponible s; mret true : K bool).
    rewrite bind_eq. unfold handle_nueva_memoria_disponible. rewrite bind_eq, (recibir_en _ _ _ _ _ _ (Hr resto)). done.
  - destruct (protocolo_ok (p := p_ok INICIAR_COMPACTACION) tt I) as (pl & E & Hr). exists INICIAR_COMPACTACION, pl. split; [exact E|].
    change (despachar_si_es_notificacion s (op_num INICIAR_COMPACTACION)) with (_ ← handle_iniciar_compactacion s; mret true : K bool).
    rewrite bind_eq. unfold handle_iniciar_compactacion. rewrite bind_eq, (recibir_en _ _ _ _ _ _ (Hr resto)).
    rewrite bind_eq. unfold manejar_compactacion_inicio. rewrite bind_eq. cbn [k_mod]. unfold desalojar_todos_procesos. rewrite bind_eq. cbn [k_get].
    rewrite desalojar_ok by exact Hv. unfold k_enviar, k_mod. rewrite Hs'. cbn. by rewrite <-app_assoc.
  - destruct (protocolo_ok (p := p_ok FINALIZAR_COMPACTACION) tt I) as (pl & E & Hr). exists FINALIZAR_COMPACTACION, pl. split; [exact E|].
    change (despachar_si_es_notificacion s (op_num FINALIZAR_COMPACTACION)) with (_ ← handle_finalizar_compactacion s; mret true : K bool).
    rewrite bind_eq. unfold handle_finalizar_compactacion. rewrite bind_eq, (recibir_en _ _ _ _ _ _ (Hr resto)). done.
Qed.

Lemma efecto_vivos s k n l : Forall (vivo k) l -> Forall (vivo (efecto s k n)) l.
Proof. intros H. eapply Forall_impl; [exact H|]. intros p Hp. by destruct n. Qed.
Lemma efecto_cpus s k n : en_cpus (efecto s k n) = en_cpus k.
Proof. by destruct n. Qed.

Lemma bytes_no_vacios n s : notificacion_valida n -> (1 <= length (notificacion_bytes n ++ s))%nat.
Proof.
  intros Hn. assert (He : exists op pl, notificacion_bytes n = trama op pl).
  { destruct n as [|tam base ip puerto| |]; cbn.
    - destruct (protocolo_ok (p := p_ok MEMORIA_LIBERADA) tt I) as (pl & E & _). exists MEMORIA_LIBERADA, pl. exact E.
    - destruct (protocolo_ok (p := p_nueva_memoria) (tam, base, ip, puerto) Hn) as (pl & E & _). exists NUEVA_MEMORIA_DISPONIBLE, pl. exact E.
    - destruct (protocolo_ok (p := p_ok INICIAR_COMPACTACION) tt I) as (pl & E & _). exists INICIAR_COMPACTACION, pl. exact E.
    - destruct (protocolo_ok (p := p_ok FINALIZAR_COMPACTACION) tt I) as (pl & E & _). exists FINALIZAR_COMPACTACION, pl. exact E. }
  destruct He as (op & pl & ->). rewrite length_app, length_trama. lia.
Qed.

(** The loop, up to what follows the notifications. *)
Lemma bucle_notificaciones ns n s bs k :
  Forall notificacion_valida ns -> s <> -1 -> Forall (vivo k) (en_cpus k) ->
  recibir_respuesta_bucle (length ns + n) s (con_entrada s ((ns ≫= notificacion_bytes) ++ bs) k) =
  recibir_respuesta_bucle n s (con_entrada s bs (foldl (efecto s) k ns)).
Proof.
  intros Hns Hs. revert k. induction Hns as [|x ns Hx Hns IH]; intros k Hv; [done|].
  rewrite bind_cons, <-app_assoc. cbn [length Nat.add recibir_respuesta_bucle foldl].
  destruct (notificacion_ok x s ((ns ≫= notificacion_bytes) ++ bs) k Hx Hs Hv) as (op & pl & -> & E).
  rewrite bind_eq, codigo_en, op_num_no_neg, bind_eq, E. cbn [negb]. apply IH. rewrite efecto_cpus. by apply efecto_vivos.
Qed.

Lemma bytes_notificaciones ns bs : Forall notificacion_valida ns -> (length ns <= length ((ns ≫= notificacion_bytes) ++ bs))%nat.
Proof.
  induction 1 as [|x ns Hx _ IH]; [cbn; lia|]. rewrite bind_cons, <-app_assoc, length_app. cbn [length].
  pose proof (bytes_no_vacios x [] Hx) as H1. rewrite app_nil_r in H1. lia.
Qed.

(** With enough steps for the notifications, whatever is left. *)
Lemma respuesta_bucle ns s bs k :
  Forall notificacion_valida ns -> s <> -1 -> Forall (vivo k) (en_cpus k) ->
  exists n, recibir_respuesta_de_memoria s (con_entrada s ((ns ≫= notificacion_bytes) ++ bs) k) =
    recibir_respuesta_bucle n s (con_entrada s bs (foldl (efecto s) k ns)).
Proof.
  intros Hns Hs Hv. pose proof (bytes_notificaciones ns bs Hns) as Hl.
  exists (length ((ns ≫= notificacion_bytes) ++ bs) - length ns)%nat. unfold recibir_respuesta_de_memoria. rewrite bind_eq. cbn [k_get].
  unfold k_entrada at 1. unfold con_entrada at 1. cbn [con_k_entradas k_entradas]. rewrite lookup_insert_eq. cbn [default].
  rewrite <-(bucle_notificaciones ns) by done. f_equal. cbn. lia.
Qed.

Lemma respuesta_bucle_op ns s op pl resto k :
  Forall notificacion_valida ns -> es_respuesta op = true -> s <> -1 -> Forall (vivo k) (en_cpus k) ->
  recibir_respuesta_de_memoria s (con_entrada s ((ns ≫= notificacion_bytes) ++ trama op pl ++ resto) k) =
  Sigue (op_num op) (con_entrada s (le_enc 8 (Z.of_nat (length pl)) ++ pl ++ resto) (foldl (efecto s) k ns)).
Proof.
  intros Hns Hop Hs Hv. destruct (respuesta_bucle ns s (trama op pl ++ resto) k Hns Hs Hv) as [n ->].
  assert (E : despachar_si_es_notificacion s (op_num op) = mret false) by (by destruct op).
  destruct n; cbn [recibir_respuesta_bucle]; rewrite bind_eq, codigo_en, op_num_no_neg, bind_eq, E; done.
Qed.

(** C14: who waits for an answer of Memory carries out the notifications that come
    before it, in order (a wake-up of the suspended, the start of a compaction with
    one interrupt for each running CPU and the acknowledgement, its end), and gets
    the op_code of the answer, with the body still unread. *)
Theorem respuesta_tras_notificaciones ns s op pl resto k :
  Forall notificacion_valida ns -> es_respuesta op = true -> s <> -1 -> Forall (vivo k) (en_cpus k) ->
  recibir_respuesta_de_memoria s (con_entrada s ((ns ≫= notificacion_bytes) ++ trama op pl ++ resto) k) =
  Sigue (op_num op) (con_entrada s (le_enc 8 (Z.of_nat (length pl)) ++ pl ++ resto) (foldl (efecto s) k ns)).
Proof. exact (respuesta_bucle_op ns s op pl resto k). Qed.

(** ** Corrupted memory *)

Lemma marcar_exit_ok l k : Forall (vivo k) l ->
  exists m, marcar_exit l k = Sigue tt (con_k_pcbs m k) /\
    (forall p b, m !! p = Some b -> p ∈ l \/ (exists b', k_pcbs k !! p = Some b' /\ estado b' = EXIT_STATE) -> estado b = EXIT_STATE) /\
    (forall p, is_Some (m !! p) <-> vivo k p).
Proof.
  revert k. induction l as [|p l IH]; intros k Hl.
  { exists (k_pcbs k). split; [by destruct k|]. split; [|done].
    intros p b Hb [Hp|(b' & Hb' & He)]; [by apply elem_of_nil in Hp|congruence]. }
  apply Forall_cons in Hl as [[b Hb] Hl]. cbn [marcar_exit]. rewrite bind_eq. unfold leer at 1. rewrite Hb, bind_eq.
  set (k1 := con_k_pcbs (<[p := con_estado EXIT_STATE b]> (k_pcbs k)) k).
  assert (Hk : exists k1, (if bool_decide (estado b = EXIT_STATE) then mret tt else modificar p (con_estado EXIT_STATE)) k = Sigue tt k1 /\
    (forall q, is_Some (k_pcbs k1 !! q) <-> vivo k q) /\ k1 = con_k_pcbs (k_pcbs k1) k /\
    (forall q c, k_pcbs k1 !! q = Some c -> q = p \/ (exists c', k_pcbs k !! q = Some c' /\ estado c' = EXIT_STATE) -> estado c = EXIT_STATE)).
  { destruct (bool_decide_reflect (estado b = EXIT_STATE)) as [He|He].
    - exists k. split; [done|]. split; [done|]. split; [by destruct k|]. intros q c Hc [->|(c' & Hc' & He')]; congruence.
    - exists k1. split; [unfold modificar, leer; rewrite bind_eq, Hb; done|]. split; [|split; [done|]]; subst k1; cbn.
      + intros q. unfold vivo. destruct (decide (q = p)) as [->|Hne].
        * rewrite lookup_insert_eq, Hb. split; by eexists.
        * by rewrite lookup_insert_ne.
      + intros q c. destruct (decide (q = p)) as [->|Hne]; [rewrite lookup_insert_eq; by intros [= <-]|].
        rewrite lookup_insert_ne by congruence. intros Hc [->|(c' & Hc' & He')]; congruence. }
  clear k1. destruct Hk as (k1 & -> & Hv1 & Ek & Hx1).
  destruct (IH k1) as (m & -> & Hm & Hv); [eapply Forall_impl; [exact Hl|]; intros q Hq; by apply Hv1|].
  exists m. split; [by rewrite Ek|]. split.
  - intros q c Hc Hq. eapply Hm; [exact Hc|]. rewrite elem_of_cons in Hq.
    assert (Hv1q : is_Some (k_pcbs k1 !! q)) by (apply Hv; by eexists). destruct Hv1q as [c1 Hc1].
    destruct Hq as [[->|Hq]|Hq]; [|by left|]; right; exists c1; (split; [done|]); eapply Hx1; eauto.
  - intros q. rewrite Hv. apply Hv1.
Qed.

(** C30: the notification of corrupted memory, at any point of the wait for an
    answer, ends the Scheduler, when its processes are alive, as in every reachable
    state, and it is not ending already: every process is left in EXIT, the queues of
    NEW and of READY, that of each level in use included, are destroyed, no level is
    left in use and the system is marked as corrupted. *)
Theorem memoria_corrupta_termina ns s resto k :
  Forall notificacion_valida ns -> s <> -1 -> Forall (vivo k) (en_cpus k) -> Forall (vivo k) (todos_los_procesos k) ->
  sistema_corrupto k = false ->
  exists k', recibir_respuesta_de_memoria s (con_entrada s ((ns ≫= notificacion_bytes) ++ enviar_memoria_corrupta ++ resto) k) = Terminado k' /\
    sistema_corrupto k' = true /\ cola_procesos_new k' = None /\ cola_procesos_ready k' = None /\
    cantidad_niveles_prioridad k' = 0 /\
    (forall i q, Z.of_nat i < cantidad_niveles_prioridad k -> colas_ready_por_prioridad k' !! i <> Some (Some q)) /\
    (forall p b, p ∈ todos_los_procesos k -> k_pcbs k' !! p = Some b -> estado b = EXIT_STATE).
Proof.
  intros Hns Hs Hv Ht Hc. destruct (respuesta_bucle ns s (enviar_memoria_corrupta ++ resto) k Hns Hs Hv) as [n ->].
  set (k1 := foldl (efecto s) k ns).
  assert (Hk1 : todos_los_procesos k1 = todos_los_procesos k /\ k_pcbs k1 = k_pcbs k /\ sistema_corrupto k1 = false /\
    cantidad_niveles_prioridad k1 = cantidad_niveles_prioridad k).
  { subst k1. clear Hv Ht Hns. revert k Hc. induction ns as [|x ns IH]; intros k Hc; [done|]. cbn [foldl].
    destruct (IH (efecto s k x)) as (E1 & E2 & E3 & E4); [by destruct x|]. rewrite E1, E2, E3, E4. by destruct x. }
  destruct Hk1 as (E1 & E2 & E3 & E4). clearbody k1.
  destruct (protocolo_ok (p := p_ok MEMORIA_CORRUPTA_BSOD) tt I) as (pl & E & Hr).
  change (enviar_memoria_corrupta = trama MEMORIA_CORRUPTA_BSOD pl) in E. rewrite E.
  assert (Eb : recibir_respuesta_bucle n s (con_entrada s (trama MEMORIA_CORRUPTA_BSOD pl ++ resto) k1) =
    (_ ← (_ ← handle_memoria_corrupta_bsod s; mret true : K bool);
     match n with O => k_bloqueado | S n => recibir_respuesta_bucle n s end)
      (con_entrada s (le_enc 8 (Z.of_nat (length pl)) ++ pl ++ resto) k1)).
  { destruct n; cbn [recibir_respuesta_bucle]; rewrite bind_eq, codigo_en, op_num_no_neg, !bind_eq;
      change (despachar_si_es_notificacion s (op_num MEMORIA_CORRUPTA_BSOD)) with (_ ← handle_memoria_corrupta_bsod s; mret true : K bool);
      rewrite !bind_eq; by destruct (handle_memoria_corrupta_bsod _ _). }
  rewrite Eb, !bind_eq. unfold handle_memoria_corrupta_bsod. rewrite bind_eq, (recibir_en _ _ _ _ _ _ (Hr resto)).
  unfold manejar_bsod. rewrite bind_eq. cbn [k_get]. change (sistema_corrupto (con_entrada s resto k1)) with (sistema_corrupto k1).
  rewrite E3, bind_eq. cbn [k_mod]. set (k2 := con_sistema_corrupto true (con_entrada s resto k1)).
  change (todos_los_procesos (con_entrada s resto k1)) with (todos_los_procesos k1). rewrite E1, bind_eq.
  assert (H2 : Forall (vivo k2) (todos_los_procesos k)).
  { eapply Forall_impl; [exact Ht|]. intros p [b Hb]. exists b. subst k2. cbn. by rewrite E2. }
  destruct (marcar_exit_ok _ _ H2) as (m & -> & Hm & _). rewrite bind_eq. cbn [k_mod k_exit].
  eexists. split; [reflexivity|]. do 4 (split; [done|]). split.
  { intros i q Hi. cbn. rewrite list_lookup_imap, E4. destruct (_ !! i) as [o|]; [|done]. cbn.
    by destruct (Z.ltb_spec (Z.of_nat i) (cantidad_niveles_prioridad k)); [|lia]. }
  cbn. intros p b Hp Hb. eapply Hm; [exact Hb|by left].
Qed.

(** ** Witnesses: process 0 runs on the CPU of socket 10 *)

Lemma ejemplo_8_vivos : Forall (vivo (ejemplo 8)) (en_cpus (ejemplo 8)).
Proof.
  assert (E : en_cpus (ejemplo 8) = [0]) by (vm_compute; reflexivity). rewrite E. constructor; [|constructor].
  unfold vivo. destruct (k_pcbs (ejemplo 8) !! 0) as [b|] eqn:Hb; [exists b; reflexivity|vm_compute in Hb; discriminate].
Qed.

Lemma respuesta_tras_notificaciones_witness :
  exists k', recibir_respuesta_de_memoria 4
    (con_entrada 4 (([IniciaCompactacion; MemoriaLiberada] ≫= notificacion_bytes) ++ enviar_ok CREAR_PROCESO) (ejemplo 8)) =
    Sigue (op_num CREAR_PROCESO) k' /\ compactacion_en_progreso k' = true /\ k_entrada 4 k' <> [] /\
    k_salidas k' = k_salidas (ejemplo 8) ++ [(10, enviar_interrupcion 0 (motivo_num MOTIVO_DESALOJO)); (4, enviar_ok INICIAR_COMPACTACION)].
Proof.
  rewrite enviar_ok_trama, <-(app_nil_r (trama CREAR_PROCESO _)).
  rewrite (respuesta_tras_notificaciones [IniciaCompactacion; MemoriaLiberada] 4 CREAR_PROCESO (le_enc 4 (-1)) [] (ejemplo 8));
    [|repeat constructor|reflexivity|discriminate|exact ejemplo_8_vivos].
  eexists. split; [reflexivity|]. split; [vm_compute; reflexivity|]. split; [vm_compute; discriminate|vm_compute; reflexivity].
Defined.

Lemma memoria_corrupta_termina_witness :
  exists k', recibir_respuesta_de_memoria 4
    (con_entrada 4 (([MemoriaLiberada] ≫= notificacion_bytes) ++ enviar_memoria_corrupta ++ []) (ejemplo 8)) = Terminado k' /\
    sistema_corrupto k' = true.
Proof.
  destruct (memoria_corrupta_termina [MemoriaLiberada] 4 [] (ejemplo 8)) as (k' & E & H & _).
  - repeat constructor.
  - discriminate.
  - exact ejemplo_8_vivos.
  - assert (E : todos_los_procesos (ejemplo 8) = en_cpus (ejemplo 8)) by (vm_compute; reflexivity). rewrite E. exact ejemplo_8_vivos.
  - vm_compute. reflexivity.
  - exists k'. split; [exact E|exact H].
Defined.
