(* ===== verification/SchedDesalojo.v ===== *)
(** * SchedDesalojo: preemption, suspension timers, priorities out of range

    Which process a newcomer preempts; what a suspension timer does when the
    episode of BLOCK it was started for goes on, and when it does not; and the PCB
    that the long-term planner frees and leaves in the list of processes. *)

From Stdlib Require Import Strings.String.
From S2P Require Import Prelude Wire Tipos Mensajes Texto SchedTipos SchedColas SchedMutex SchedMemoria SchedIO SchedCpu SchedPlan SchedInv SchedInvOps SchedSeguroOps SchedSistema SchedCorrecto SchedVivacidad.

(** ** The victim *)

(** The CPUs that run a process: the CPU, the priority and the start of its process. *)
Definition en_ejecucion (k : kernel) (cs : list t_cpu) : list (t_cpu * Z * Z) :=
  omap (fun c =>
    p ← proceso_actual c;
    if disponible c || (q_socket c =? -1) then None
    else (fun b => (c, prioridad b, tiempo_inicio_ejecucion b)) <$> k_pcbs k !! p) cs.

(** Less urgent, or as urgent and not started later. *)
Definition peor (x y : t_cpu * Z * Z) : Prop :=
  let '(_, px, tx) := x in let '(_, py, ty) := y in py < px \/ (py = px /\ tx <= ty).

Lemma peor_refl x : peor x x.
Proof. destruct x as [[c p] t]. cbn. lia. Qed.
Lemma peor_trans x y z : peor x y -> peor y z -> peor x z.
Proof. destruct x as [[? ?] ?], y as [[? ?] ?], z as [[? ?] ?]. cbn. lia. Qed.

(** The choice between the candidate and the next one. *)
Definition elegir (acc : option (t_cpu * Z * Z)) (x : t_cpu * Z * Z) : option (t_cpu * Z * Z) :=
  match acc with
  | None => Some x
  | Some (_, menor, inicio) =>
      if x.1.2 >? menor then Some x else if (x.1.2 =? menor) && (x.2 <? inicio) then Some x else acc
  end.

Lemma buscar_victima_elige cs acc k : Forall (vivo k) (omap proceso_actual cs) ->
  buscar_victima cs acc k = Sigue (foldl elegir acc (en_ejecucion k cs)) k.
Proof.
  revert acc. induction cs as [|c cs IH]; intros acc Hv; [done|]. cbn [buscar_victima]. unfold en_ejecucion. cbn [omap list_omap].
  fold (en_ejecucion k cs). cbn in Hv. destruct (proceso_actual c) as [p|]; cbn [mbind option_bind]; [|by apply IH].
  apply Forall_cons in Hv as [[b Hb] Hv]. destruct (_ || _); [by apply IH|]. rewrite bind_eq. unfold leer. rewrite Hb.
  rewrite IH by done. cbn [fmap option_fmap option_map foldl]. destruct acc as [[[c' m] t]|]; done.
Qed.

Lemma elegir_peor l acc :
  match foldl elegir acc l with
  | None => acc = None /\ l = []
  | Some r => (acc = Some r \/ r ∈ l) /\ (forall a, acc = Some a -> peor r a) /\ Forall (peor r) l
  end.
Proof.
  revert acc. induction l as [|x l IH]; intros acc; cbn [foldl].
  { destruct acc as [a|]; [|done]. split; [by left|]. split; [|constructor]. intros ? [= <-]. apply peor_refl. }
  specialize (IH (elegir acc x)). destruct (foldl elegir (elegir acc x) l) as [r|].
  - destruct IH as (Hr & Ha & Hl).
    assert (Hx : exists e, elegir acc x = Some e /\ peor e x /\ (e = x \/ acc = Some e) /\ forall a, acc = Some a -> peor e a).
    { destruct acc as [[[c m] t]|]; cbn; [|exists x; split_and!; [done|apply peor_refl|by left|done]].
      destruct x as [[cx px] tx]. cbn. destruct (Z.gtb_spec px m).
      - exists (cx, px, tx). split_and!; [done|apply peor_refl|by left|]. intros ? [= <-]. cbn. lia.
      - destruct (Z.eqb_spec px m), (Z.ltb_spec tx t); cbn; eexists; (split; [reflexivity|]); (split; [cbn; lia|]);
          (split; [auto|]); intros ? [= <-]; cbn; lia. }
    destruct Hx as (e & E & Hex & Hor & Hea). specialize (Ha e E). split; [|split].
    + rewrite E in Hr. destruct Hr as [[= <-]|Hr]; [|right; by right]. destruct Hor as [->|]; [right; left|by left].
    + intros a Hacc. eapply peor_trans; [exact Ha|by apply Hea].
    + constructor; [by eapply peor_trans|exact Hl].
  - destruct IH as [IH _]. destruct acc as [[[c m] t]|]; cbn in IH; [|done]. destruct (_ >? _); [done|]. by destruct (_ && _).
Qed.

(** C25: a newcomer preempts at most one CPU: the one that runs the least urgent
    process (the one that started first, when several are), and only if the
    newcomer is strictly more urgent; otherwise nothing changes. *)
Theorem desalojo_por_prioridad nuevo b k :
  queue_preemption_habilitada (k_config k) = true -> compactacion_en_progreso k = false ->
  k_pcbs k !! nuevo = Some b -> Forall (vivo k) (en_cpus k) ->
  (verificar_y_desalojar_por_prioridad nuevo k = Sigue tt k /\
   Forall (fun '(_, px, _) => px <= prioridad b) (en_ejecucion k (k_cpus k))) \/
  (exists c p px tx, (c, px, tx) ∈ en_ejecucion k (k_cpus k) /\ proceso_actual c = Some p /\ prioridad b < px /\
     Forall (peor (c, px, tx)) (en_ejecucion k (k_cpus k)) /\
     verificar_y_desalojar_por_prioridad nuevo k =
       Sigue tt (con_k_salidas (k_salidas k ++ [(q_socket c, enviar_interrupcion p (motivo_num MOTIVO_DESALOJO_COLA))]) k)).
Proof.
  intros Hq Hc Hb Hv. unfold verificar_y_desalojar_por_prioridad. rewrite bind_eq. cbn [k_get]. rewrite Hq, Hc. cbn [negb].
  rewrite bind_eq. unfold leer. rewrite Hb, bind_eq, buscar_victima_elige by exact Hv.
  pose proof (elegir_peor (en_ejecucion k (k_cpus k)) None) as H.
  destruct (foldl elegir None (en_ejecucion k (k_cpus k))) as [[[c px] tx]|].
  - destruct H as ([|Hin] & _ & Hp); [done|]. destruct (Z.ltb_spec (prioridad b) px) as [Hlt|Hge].
    + right. pose proof Hin as Hin'. unfold en_ejecucion in Hin'. apply list_elem_of_omap in Hin' as (c' & _ & Hx).
      destruct (proceso_actual c') as [p|] eqn:Ep; [|done]. cbn in Hx. destruct (disponible c'), (q_socket c' =? -1) eqn:Es; try done.
      cbn in Hx. destruct (k_pcbs k !! p); [|done]. injection Hx as <- <- <-. exists c', p, (prioridad t), (tiempo_inicio_ejecucion t).
      split_and!; try done. rewrite Ep. unfold k_enviar, k_mod. by rewrite Es.
    + left. split; [done|]. eapply Forall_impl; [exact Hp|]. intros [[c' px'] tx']. cbn. lia.
  - destruct H as [_ ->]. left. split; [done|constructor].
Qed.

(** ** The suspension timer *)

(** The process is still in the episode of BLOCK the timer was started for. *)
Definition en_su_episodio (k : kernel) (a : t_suspension_timer_arg) : Prop :=
  su_pid a ∈ cola_procesos_block k /\
  exists b, k_pcbs k !! su_pid a = Some b /\ estado b = BLOCK /\ block_epoch b = su_epoch a.

Lemma en_episodio_ok pid e l k : Forall (vivo k) l ->
  exists r, en_episodio pid e l k = Sigue r k /\
    (r = true <-> pid ∈ l /\ exists b, k_pcbs k !! pid = Some b /\ estado b = BLOCK /\ block_epoch b = e).
Proof.
  induction 1 as [|p l [b Hb] _ IH]; cbn [en_episodio].
  { exists false. split; [done|]. split; [done|]. by intros [?%elem_of_nil _]. }
  destruct IH as (r & E & Hr). rewrite bind_eq. unfold leer. rewrite Hb.
  destruct (Z.eqb_spec p pid) as [->|Hne]; cbn [andb].
  - destruct (bool_decide_reflect (estado b = BLOCK)) as [He|He]; cbn [andb]; [destruct (Z.eqb_spec (block_epoch b) e) as [Hep|Hep]|].
    + exists true. split; [done|]. split; [intros _|done]. split; [left|]. by exists b.
    + exists r. split; [exact E|]. rewrite Hr. split; [by intros [H1 H2]; split; [right|]|].
      intros [_ (b' & Hb' & _ & He')]. congruence.
    + exists r. split; [exact E|]. rewrite Hr. split; [by intros [H1 H2]; split; [right|]|].
      intros [_ (b' & Hb' & He' & _)]. congruence.
  - exists r. split; [exact E|]. rewrite Hr, elem_of_cons. split; [tauto|]. intros [[Hx|] ?]; [congruence|done].
Qed.

(** when a suspension timer expires, the process is moved towards swap exactly
    when it is still in the same episode of BLOCK; a timer of an earlier episode
    only disappears. *)
Theorem suspension_solo_en_su_episodio i a k :
  timers_suspension k !! i = Some a -> sistema_corrupto k = false -> Forall (vivo k) (cola_procesos_block k) ->
  let k0 := con_timers_suspension (delete i (timers_suspension k)) k in
  (~ en_su_episodio k a -> suspension_timer_inicio i k = Sigue tt k0) /\
  (forall b, en_su_episodio k a -> k_pcbs k !! su_pid a = Some b ->
     suspension_timer_inicio i k = Sigue tt
       (con_suspensiones_en_curso (suspensiones_en_curso k ++ [su_pid a])
         (con_lista_suspendidos (lista_suspendidos k ++ [(su_pid a, k_reloj k)])
           (con_k_pcbs (<[su_pid a := con_suspendido_en_swap false (con_estado SUSP_BLOCK b)]> (k_pcbs k)) k0)))).
Proof.
  intros Hi Hc Hv k0.
  destruct (en_episodio_ok (su_pid a) (su_epoch a) (cola_procesos_block k) k0 Hv) as (r & E & Hr).
  assert (Ek : suspension_timer_inicio i k =
    (if negb r then mret tt
     else
       _ ← modificar (su_pid a) (fun b => con_suspendido_en_swap false (con_estado SUSP_BLOCK b));
       _ ← agregar_a_lista_suspendidos (su_pid a);
       k_mod (fun k => con_suspensiones_en_curso (suspensiones_en_curso k ++ [su_pid a]) k)) k0).
  { unfold suspension_timer_inicio. rewrite bind_eq. cbn [k_get]. rewrite Hi, bind_eq. cbn [k_mod]. rewrite Hc, bind_eq.
    fold k0. by rewrite E. }
  rewrite Ek. split.
  - intros Hn. destruct r; [|done]. destruct Hn. by apply Hr.
  - intros b He Hb. assert (r = true) as -> by (by apply Hr). cbn [negb]. rewrite bind_eq. unfold modificar, leer. rewrite bind_eq.
    change (k_pcbs k0) with (k_pcbs k). by rewrite Hb.
Qed.

(** ** A priority that names no queue *)

Lemma posicion_muerto l1 l2 p pid k :
  Forall (vivo k) l1 -> pid ∉ l1 -> k_pcbs k !! p = None -> posicion_pid pid (l1 ++ p :: l2) k = Indefinido.
Proof.
  induction 1 as [|q l1 [b Hb] _ IH]; intros Hp Hn; cbn [app posicion_pid]; rewrite bind_eq; unfold leer.
  - by rewrite Hn.
  - rewrite Hb. apply not_elem_of_cons in Hp as [Hq Hp]. destruct (Z.eqb_spec q pid); [congruence|]. rewrite bind_eq. by rewrite IH.
Qed.

(** C37: with several queues, the long-term planner frees the PCB of a process whose
    priority names none of them, and leaves it in the list of processes: the next
    search that passes by it reads freed memory. *)
Theorem prioridad_fuera_de_rango_usa_pcb_liberado sr p q b n k l1 l2 :
  Inv sr [] k -> sem_new k = S n -> cola_procesos_new k = Some (p :: q) -> k_pcbs k !! p = Some b ->
  0 < cantidad_niveles_prioridad k -> ~ 0 <= prioridad b < cantidad_niveles_prioridad k ->
  todos_los_procesos k = l1 ++ p :: l2 ->
  exists k', planificadorLargoPlazo k = Sigue tt k' /\ todos_los_procesos k' = todos_los_procesos k /\ k_pcbs k' !! p = None /\
    forall pid, pid ∉ l1 -> buscar_pcb_por_pid pid k' = Indefinido.
Proof.
  intros H Hs Hq Hb Hn Hp Ht. unfold planificadorLargoPlazo. rewrite bind_eq. unfold wait_sem_new. rewrite Hs, bind_eq. cbn [k_get].
  cbn [con_sem_new cola_procesos_new]. rewrite Hq, bind_eq. cbn [k_mod]. rewrite bind_eq. unfold modificar at 1. rewrite bind_eq.
  unfold leer at 1. cbn [con_cola_procesos_new con_sem_new k_pcbs]. rewrite Hb. cbn [k_mod con_sem_new cantidad_niveles_prioridad].
  destruct (Z.gtb_spec (cantidad_niveles_prioridad k) 0) as [_|]; [|lia]. unfold encolar_en_ready_por_prioridad. rewrite bind_eq.
  set (k1 := con_k_pcbs _ _). set (b1 := con_tiempo_llegada _ _) in k1.
  assert (Hb1 : k_pcbs k1 !! p = Some b1) by (unfold k1; cbn; by rewrite lookup_insert_eq).
  assert (Hr : (prioridad b1 <? 0) || (prioridad b1 >=? cantidad_niveles_prioridad k1) = true).
  { change (prioridad b1) with (prioridad b). change (cantidad_niveles_prioridad k1) with (cantidad_niveles_prioridad k).
    destruct (Z.ltb_spec (prioridad b) 0), (Z.geb_spec (prioridad b) (cantidad_niveles_prioridad k)); done || lia. }
  unfold leer at 1. rewrite Hb1, bind_eq. cbn [k_get]. rewrite Hr. unfold liberar_pcb. rewrite bind_eq. unfold leer at 1. rewrite Hb1.
  cbn [k_mod].
  eexists. split; [reflexivity|]. split; [done|]. cbn [con_k_pcbs k_pcbs]. split; [by rewrite lookup_delete_eq|].
  intros pid Hpid. unfold buscar_pcb_por_pid. rewrite bind_eq. cbn [k_gets]. rewrite bind_eq.
  match goal with |- context [todos_los_procesos ?s] => change (todos_los_procesos s) with (todos_los_procesos k) end. rewrite Ht.
  rewrite posicion_muerto; [done| |exact Hpid|cbn; by rewrite lookup_delete_eq].
  pose proof (i_nodup _ _ _ H) as Hd. rewrite Ht in Hd. apply NoDup_app in Hd as (_ & Hx & _).
  apply Forall_forall. intros x Hxin. assert (x <> p) by (intros ->; apply (Hx p Hxin); left).
  assert (Hv : vivo k x) by (apply (vivo_todos _ _ _ _ H); rewrite Ht; apply elem_of_app; by left).
  unfold vivo in *. cbn. rewrite lookup_delete_ne, lookup_insert_ne by congruence. exact Hv.
Qed.

(** ** Witnesses *)

(** Process 1 runs; process 0, more urgent, preempts it. *)
Lemma desalojo_por_prioridad_witness :
  verificar_y_desalojar_por_prioridad 0 (ejemplo 19) =
  Sigue tt (con_k_salidas (k_salidas (ejemplo 19) ++ [(10, enviar_interrupcion 1 (motivo_num MOTIVO_DESALOJO_COLA))]) (ejemplo 19)).
Proof.
  destruct (k_pcbs (ejemplo 19) !! 0) as [b|] eqn:Hb; [|vm_compute in Hb; discriminate].
  assert (Hp : prioridad b = 0) by (vm_compute in Hb; injection Hb as <-; reflexivity).
  assert (Hv : Forall (vivo (ejemplo 19)) (en_cpus (ejemplo 19))).
  { assert (E : en_cpus (ejemplo 19) = [1]) by (vm_compute; reflexivity). rewrite E. constructor; [|constructor].
    unfold vivo. destruct (k_pcbs (ejemplo 19) !! 1) as [b1|] eqn:H1; [exists b1; reflexivity|vm_compute in H1; discriminate]. }
  destruct (desalojo_por_prioridad 0 b (ejemplo 19) ltac:(vm_compute; reflexivity) ltac:(vm_compute; reflexivity) Hb Hv)
    as [[_ HF]|(c & p & px & tx & Hin & Hc & _ & _ & E)].
  - exfalso. assert (Hx : Forall (fun '(_, px, _) => px <= 0) (en_ejecucion (ejemplo 19) (k_cpus (ejemplo 19)))) by (rewrite <-Hp; exact HF).
    vm_compute in Hx. apply Forall_inv in Hx. exact (Hx eq_refl).
  - rewrite E. assert (Hs : q_socket c = 10 /\ p = 1).
    { vm_compute in Hin. apply list_elem_of_singleton in Hin. injection Hin as -> _ _. cbn in Hc. injection Hc as <-. split; reflexivity. }
    destruct Hs as [-> ->]. reflexivity.
Defined.

(** The timer of process 0, which sleeps. *)
Lemma suspension_solo_en_su_episodio_witness :
  exists k', suspension_timer_inicio 0 (ejemplo 21) = Sigue tt k' /\ suspensiones_en_curso k' = [0].
Proof.
  destruct (k_pcbs (ejemplo 21) !! 0) as [b|] eqn:Hb; [|vm_compute in Hb; discriminate].
  assert (Hv : Forall (vivo (ejemplo 21)) (cola_procesos_block (ejemplo 21))).
  { assert (E : cola_procesos_block (ejemplo 21) = [0]) by (vm_compute; reflexivity). rewrite E.
    constructor; [exists b; exact Hb|constructor]. }
  destruct (suspension_solo_en_su_episodio 0 (SuspensionTimer 0 1) (ejemplo 21) ltac:(vm_compute; reflexivity)
    ltac:(vm_compute; reflexivity) Hv) as [_ H].
  eexists. split; [refine (H b _ Hb)|vm_compute; reflexivity].
  split; [vm_compute; left|]. exists b. split; [exact Hb|]. vm_compute in Hb. injection Hb as <-. split; reflexivity.
Defined.

(** Process 0 creates process 1 with priority 9; there are two queues. *)
Definition eventos_prioridad : list evento :=
  take 9 eventos_ejemplo ++ [devuelve 0 "INIT_PROC" ["B"; "9"]%string; EvCpu 0].
Definition con_prioridad_9 : kernel := despues_de eventos_prioridad.

Lemma con_prioridad_9_alcanzable : alcanzable ordenar config_cmn 4 con_prioridad_9.
Proof. apply despues_alcanzable. vm_compute. by eexists. Qed.

Lemma prioridad_fuera_de_rango_usa_pcb_liberado_witness :
  exists k', ejecutar ordenar EvLargoPlazo con_prioridad_9 = Sigue tt k' /\ buscar_pcb_por_pid 1 k' = Indefinido.
Proof.
  destruct (alcanzable_inv _ ordenar_perm _ _ _ con_prioridad_9_alcanzable) as [sr H].
  destruct (k_pcbs con_prioridad_9 !! 1) as [b|] eqn:Hb; [|vm_compute in Hb; discriminate].
  assert (Hp : prioridad b = 9) by (vm_compute in Hb; injection Hb as <-; reflexivity).
  assert (Hn : cantidad_niveles_prioridad con_prioridad_9 = 2) by (vm_compute; reflexivity).
  destruct (prioridad_fuera_de_rango_usa_pcb_liberado sr 1 [] b 0 con_prioridad_9 [0] [] H ltac:(vm_compute; reflexivity)
    ltac:(vm_compute; reflexivity) Hb ltac:(lia) ltac:(lia) ltac:(vm_compute; reflexivity)) as (k' & E & _ & _ & Hx).
  exists k'. split; [exact E|]. apply Hx. intros Hin. apply list_elem_of_singleton in Hin. discriminate.
Defined.
