(* ===== verification/SchedSyscalls.v ===== *)
(** * SchedSyscalls: mutexes in order, memory syscalls

    What the mutex syscalls do to the mutex and to the processes, and the exchange
    with Memory of MEM_ALLOC, after which the process goes on in its own CPU. *)

From Stdlib Require Import Strings.String.
From S2P Require Import Prelude Wire Tipos Mensajes Texto SchedTipos SchedColas SchedMutex SchedMemoria SchedIO SchedCpu SchedPlan SchedInv SchedInvOps SchedInvFin SchedSeguroOps SchedSeguroMem SchedSeguroIO SchedSeguro SchedSistema SchedCorrecto SchedVivacidad SchedHerencia SchedProtocolo.

(** ** Mutexes *)

Definition mutex_de (nombre : list byte) (k : kernel) : option nat :=
  indice_de (fun m => bool_decide (m_nombre m = cstr nombre)) (lista_mutexes k).

(** A process blocked on the mutex [i]. *)
Definition bloqueado_en (i : nat) (k : kernel) (p : Z) : Prop :=
  exists b, k_pcbs k !! p = Some b /\ estado b = BLOCK /\ mutex_esperando b = Some i.

Lemma cumple_buscar_sigue {A} nombre (f : option nat -> K A) (Q : A -> kernel -> Prop) k :
  (forall k1, misma k k1 -> cumple (f (mutex_de nombre k)) Q k1) -> cumple (o ← buscar_mutex_por_nombre (cstr nombre); f o) Q k.
Proof. intros H. paso. unfold buscar_mutex_por_nombre. pasos. by apply H. Qed.

Lemma cumple_lock_pasos sr p b nombre ps i m k :
  Inv sr [p] k -> k_pcbs k !! p = Some b -> estado b <> NEW -> mutex_de nombre k = Some i -> lista_mutexes k !! i = Some m ->
  cumple (manejar_syscall_mutex_lock p (nombre :: ps)) (fun r k' =>
    (asignado_a_pid m = -1 /\ r = false /\ lista_mutexes k' = alter (con_asignado p) i (lista_mutexes k)) \/
    (asignado_a_pid m <> -1 /\ r = true /\ bloqueado_en i k' p /\
     lista_mutexes k' = alter (con_bloqueados (cola_bloqueados m ++ [p])) i (lista_mutexes k))) k.
Proof.
  intros H Hb Hn Hi Hm. cbn [manejar_syscall_mutex_lock]. apply cumple_buscar_sigue. intros k1 E1. rewrite Hi. paso. paso.
  pose proof (Inv_misma _ _ _ _ E1 H) as H1. pose proof (misma_leer _ _ _ _ E1 Hb) as Hb1.
  assert (El : lista_mutexes k1 = lista_mutexes k) by (injection E1; by intros). assert (Hm1 : lista_mutexes k1 !! i = Some m) by (by rewrite El).
  pasos. pose proof (prio_tomado _ _ _ _ _ H1 Hb1 Hn) as Hpr. rewrite <-El. clear El Hi Hm H Hb E1.
  destruct (Z.eqb_spec (asignado_a_pid m) (-1)) as [Ha|Ha]; pasos; [by left|].
  pose proof (Inv_bloquear_mutex sr [] k1 p b (con_mutex_esperando (Some i) (con_estado BLOCK b)) i m
    H1 Hb1 Hm1 Ha eq_refl eq_refl Hpr) as H3.
  set (k3 := con_lista_mutexes _ _) in H3. match goal with |- cumple ?m ?R _ => change (cumple m R k3) end.
  assert (Hb3 : k_pcbs k3 !! p = Some (con_mutex_esperando (Some i) (con_estado BLOCK b))) by (unfold k3; cbn; by rewrite lookup_insert_eq).
  pasos. eapply cumple_propagar; [exact H3|exact Hb3|exact (proj2 Hpr)|]. intros k4 H4 Hs4.
  destruct (solo_prioridades_lookup _ _ _ _ Hs4 Hb3) as (b4 & Hb4 & _ & He4 & Hw4 & _). pasos.
  eapply cumple_leer; [cbn; by rewrite lookup_insert_eq|]. pasos. ajeno. intros [] k6 E6. pasos. right.
  split; [done|]. split; [done|]. split.
  - exists (con_block_epoch (block_epoch b4 +u 1)%u32 b4). split; [|done]. rewrite (misma_pcbs _ _ E6). cbn. by rewrite lookup_insert_eq.
  - assert (El : lista_mutexes k6 = lista_mutexes k4) by (injection E6; by intros). rewrite El. by rewrite (mismos_mutexes _ _ (proj1 Hs4)).
Qed.

Lemma cumple_unlock_pasos sr p b nombre ps i m s resto k :
  Inv sr [p] k -> k_pcbs k !! p = Some b -> estado b = EXEC -> mutex_de nombre k = Some i -> lista_mutexes k !! i = Some m ->
  asignado_a_pid m = p -> cola_bloqueados m = s :: resto ->
  cumple (manejar_syscall_mutex_unlock p (nombre :: ps)) (fun _ k' =>
    lista_mutexes k' = alter (fun m => con_asignado s (con_bloqueados resto m)) i (lista_mutexes k) /\
    exists bs, k_pcbs k' !! s = Some bs /\ estado bs = READY /\ mutex_esperando bs = None) k.
Proof.
  intros H Hb He Hi Hm Ha Hc. cbn [manejar_syscall_mutex_unlock]. apply cumple_buscar_sigue. intros k1 E1. rewrite Hi.
  pose proof (Inv_misma _ _ _ _ E1 H) as H1. pose proof (misma_leer _ _ _ _ E1 Hb) as Hb1.
  assert (El : lista_mutexes k1 = lista_mutexes k) by (injection E1; by intros). assert (Hm1 : lista_mutexes k1 !! i = Some m) by (by rewrite El).
  pasos. rewrite (proj2 (Z.eqb_eq _ _) Ha), Hc. cbn [negb]. paso.
  assert (Hps : p <> s).
  { intros ->. pose proof (tomado_fuera _ _ _ _ H1) as (_&_&_&_&Hx&_). apply Hx. eapply en_mutexes_lookup; [exact Hm1|]. rewrite Hc. left. }
  unfold cumple. pose proof (cumple_entregar sr [p] i s resto m (fun _ k2 => Inv sr [p] k2 /\
     exists c, k_pcbs k2 !! p = Some c /\ estado c = EXEC) k1 H1 Hm1 Hc) as Hce.
  specialize (Hce ltac:(intros k2 H2 _ _ Ho; split; [exact H2|]; destruct (Ho p b Hps Hb1) as (c & Hcc & Hcx);
    exists c; split; [exact Hcc|congruence])).
  unfold cumple in Hce. destruct (entregar_mutex i s resto k1) as [[] k2| | | | |] eqn:Ee; try done.
  destruct Hce as [H2 (c & Hcp & Hcx)].
  apply entregar_sigue in Ee as (bs & k3 & Hbs & Er & _ & (b' & E3 & _ & Hr & Hw & _) & El3).
  apply recalcular_sigue in Er as (b3 & y & Hb3 & _ & Ep & Em & _). rewrite E3, lookup_insert_eq in Hb3. injection Hb3 as <-.
  eapply cumple_recalcular; [exact H2|exact Hcp|congruence|]. intros k4 H4 Hs4. split.
  - by rewrite (mismos_mutexes _ _ (proj1 Hs4)), Em, El3, El.
  - assert (Hs2 : k_pcbs k2 !! s = Some (con_prioridad_dinamica y b')) by (by rewrite Ep, lookup_insert_eq).
    destruct (solo_prioridades_lookup _ _ _ _ Hs4 Hs2) as (b4 & Hb4 & _ & He4 & Hw4 & _). exists b4. split; [done|].
    cbn in He4, Hw4. split; congruence.
Qed.

(** C29: the mutexes are handed over in order of arrival: a lock takes a free mutex,
    or leaves the process in BLOCK at the end of the queue; an unlock by the owner
    gives the mutex to the first of the queue, which is READY and waits no more. *)
Theorem mutex_por_orden_de_llegada sr p b nombre ps i m k :
  Inv sr [p] k -> mutex_lista_tomado k = false -> k_pcbs k !! p = Some b -> estado b = EXEC ->
  mutex_de nombre k = Some i -> lista_mutexes k !! i = Some m ->
  (exists r k', manejar_syscall_mutex_lock p (nombre :: ps) k = Sigue r k' /\
    ((asignado_a_pid m = -1 /\ r = false /\ lista_mutexes k' = alter (con_asignado p) i (lista_mutexes k)) \/
     (asignado_a_pid m <> -1 /\ r = true /\ bloqueado_en i k' p /\
      lista_mutexes k' = alter (con_bloqueados (cola_bloqueados m ++ [p])) i (lista_mutexes k)))) /\
  (forall s resto, asignado_a_pid m = p -> cola_bloqueados m = s :: resto ->
    exists k', manejar_syscall_mutex_unlock p (nombre :: ps) k = Sigue tt k' /\
      lista_mutexes k' = alter (fun m => con_asignado s (con_bloqueados resto m)) i (lista_mutexes k) /\
      exists bs, k_pcbs k' !! s = Some bs /\ estado bs = READY /\ mutex_esperando bs = None).
Proof.
  intros H Hk Hb He Hi Hm. split.
  - pose proof (cumple_lock_pasos sr p b nombre ps i m k H Hb ltac:(congruence) Hi Hm) as Hc.
    pose proof (sigue_lock p (nombre :: ps) k Hk) as Hs. unfold cumple in Hc.
    destruct (manejar_syscall_mutex_lock p (nombre :: ps) k) as [r k'| | | | |]; try done. by exists r, k'.
  - intros s resto Ha Hcb. pose proof (cumple_unlock_pasos sr p b nombre ps i m s resto k H Hb He Hi Hm Ha Hcb) as Hc.
    pose proof (sigue_unlock p (nombre :: ps) k Hk) as Hs. unfold cumple in Hc.
    destruct (manejar_syscall_mutex_unlock p (nombre :: ps) k) as [[] k'| | | | |]; try done. by exists k'.
Qed.

(** ** MEM_ALLOC *)

Lemma efectos_campos s ns k :
  k_pcbs (foldl (efecto s) k ns) = k_pcbs k /\ k_cpus (foldl (efecto s) k ns) = k_cpus k.
Proof.
  revert k. induction ns as [|n ns IH]; intros k; [done|]. cbn [foldl]. destruct (IH (efecto s k n)) as [-> ->]. by destruct n.
Qed.

(** The process is again in its CPU. *)
Lemma volver_ok p b cpu i c k :
  k_pcbs k !! p = Some b -> indice_cpu cpu (k_cpus k) = Some i -> k_cpus k !! i = Some c -> q_socket c <> -1 ->
  exists k', volver_a_cpu p cpu k = Sigue tt k' /\ k_pcbs k' = k_pcbs k /\ k_entradas k' = k_entradas k /\
    k_salidas k' = k_salidas k ++ [(q_socket c, enviar_pid p)] /\
    exists c', k_cpus k' !! i = Some c' /\ proceso_actual c' = Some p /\ disponible c' = disponible c.
Proof.
  intros Hb Hi Hc Hs. assert (Hs' : (q_socket c =? -1) = false) by lia. unfold volver_a_cpu, devolver_proceso_a_misma_cpu.
  rewrite !bind_eq. cbn [k_gets]. unfold cpu_de. rewrite Hi. cbn [mbind option_bind]. rewrite Hc, Hs', bind_eq.
  unfold modificar_cpu at 1. cbn [k_mod]. rewrite Hi, bind_eq. unfold k_enviar, k_mod at 1. rewrite Hs', bind_eq. unfold leer. cbn [con_k_salidas con_k_cpus k_pcbs].
  rewrite Hb, bind_eq. destruct (quantum_restante b >? 0).
  - unfold iniciar_quantum_timer, modificar_cpu. rewrite bind_eq. cbn [k_mod].
    set (k1 := con_k_salidas _ _). assert (Ei : indice_cpu cpu (k_cpus k1) = Some i).
    { change (k_cpus k1) with (alter (con_proceso_actual (Some p)) i (k_cpus k)).
      by apply (indice_alter cpu _ i (k_cpus k) c). }
    rewrite Ei. eexists. split; [reflexivity|]. cbn. split_and!; [done..|]. rewrite !list_lookup_alter_eq, Hc. cbn. by eexists.
  - eexists. split; [reflexivity|]. cbn. split_and!; [done..|]. rewrite list_lookup_alter_eq, Hc. cbn. by eexists.
Qed.

(** MEM_ALLOC answered by Memory: whatever notifications come first, the segment
    granted is added to the PCB, the answer is consumed exactly, and the process
    goes back to the very CPU it came from, which was kept for it. *)
Theorem mem_alloc_vuelve_a_su_cpu ns s p b id tam ps cpu i c id_resp base limite resto k :
  Forall notificacion_valida ns -> k_memory_socket k = s -> s <> -1 -> Forall (vivo k) (en_cpus k) ->
  es_u32 id_resp -> es_u32 base -> es_u32 limite -> k_pcbs k !! p = Some b ->
  indice_cpu cpu (k_cpus k) = Some i -> k_cpus k !! i = Some c -> q_socket c <> -1 ->
  let pedido := con_k_salidas (k_salidas k ++ [(s, enviar_solicitar_segmento p (atoi_u32 id) (atoi_u32 tam))]) k in
  exists k', syscall_mem_alloc p (id :: tam :: ps) cpu
      (con_entrada s ((ns ≫= notificacion_bytes) ++ enviar_respuesta_segmento id_resp base limite ++ resto) k) = Sigue tt k' /\
    k_entrada s k' = resto /\ k_pcbs k' = <[p := agregar_segmento_info id_resp limite b]> (k_pcbs k) /\
    k_salidas k' = k_salidas (foldl (efecto s) pedido ns) ++ [(q_socket c, enviar_pid p)] /\
    exists c', k_cpus k' !! i = Some c' /\ proceso_actual c' = Some p /\ disponible c' = disponible c.
Proof.
  intros Hns Hms Hs Hv Hid Hba Hli Hb Hi Hc Hq pedido. assert (Hs' : (s =? -1) = false) by lia.
  destruct (protocolo_ok (p := p_respuesta_segmento) (id_resp, base, limite) ltac:(done)) as (pl & E & Hr).
  change (enviar_respuesta_segmento id_resp base limite = trama SOLICITAR_SEGMENTO pl) in E. rewrite E. cbn [syscall_mem_alloc].
  rewrite bind_eq. cbn [k_gets]. change (k_memory_socket (con_entrada s _ k)) with (k_memory_socket k). rewrite Hms, bind_eq.
  unfold k_enviar at 1, k_mod at 1. rewrite Hs', bind_eq.
  change (con_k_salidas _ (con_entrada s ((ns ≫= notificacion_bytes) ++ trama SOLICITAR_SEGMENTO pl ++ resto) k))
    with (con_entrada s ((ns ≫= notificacion_bytes) ++ trama SOLICITAR_SEGMENTO pl ++ resto) pedido).
  rewrite (respuesta_bucle_op ns s SOLICITAR_SEGMENTO pl resto pedido Hns eq_refl Hs Hv).
  rewrite op_num_no_neg. change (op_num SOLICITAR_SEGMENTO =? op_num SEGMENTATION_FAULT) with false. cbn iota.
  rewrite bind_eq, (recibir_en _ _ _ _ _ _ (Hr resto)). change (p_imagen p_respuesta_segmento (id_resp, base, limite)) with (id_resp, base, limite). cbv beta iota.
  set (k1 := foldl (efecto s) pedido ns). destruct (efectos_campos s ns pedido) as [Ep Ec]. fold k1 in Ep, Ec.
  rewrite bind_eq. unfold modificar, leer. rewrite bind_eq. change (k_pcbs (con_entrada s resto k1)) with (k_pcbs k1).
  rewrite Ep. change (k_pcbs pedido) with (k_pcbs k). rewrite Hb. cbn [k_mod]. change (k_pcbs (con_entrada s resto k1)) with (k_pcbs k1). rewrite Ep.
  change (k_pcbs pedido) with (k_pcbs k). set (k2 := con_k_pcbs _ _).
  assert (E2 : k_cpus k2 = k_cpus k) by (unfold k2; cbn; exact Ec).
  destruct (volver_ok p (agregar_segmento_info id_resp limite b) cpu i c k2) as (k' & -> & F1 & F2 & F3 & F4);
    [unfold k2; cbn; by rewrite lookup_insert_eq|by rewrite E2|by rewrite E2|done|].
  exists k'. split; [done|]. split; [|split; [exact F1|split; [exact F3|exact F4]]].
  unfold k_entrada. rewrite F2. unfold k2. cbn. by rewrite lookup_insert_eq.
Qed.

(** ** Witnesses *)

Lemma mutex_por_orden_de_llegada_witness :
  exists r k', manejar_syscall_mutex_lock 0 [con_nul (txt "M")] en_manos = Sigue r k' /\ r = true /\ bloqueado_en 0 k' 0.
Proof.
  destruct en_manos_inv as [sr H]. destruct (k_pcbs en_manos !! 0) as [b|] eqn:Hb; [|vm_compute in Hb; discriminate].
  assert (He : estado b = EXEC) by (vm_compute in Hb; injection Hb as <-; reflexivity).
  destruct (mutex_por_orden_de_llegada sr 0 b (con_nul (txt "M")) [] 0 (MutexS (txt "M") 1 []) en_manos H
    ltac:(vm_compute; reflexivity) Hb He ltac:(vm_compute; reflexivity) ltac:(vm_compute; reflexivity))
    as [(r & k' & E & [(Ha & _)|(_ & Hr & Hq & _)]) _]; [discriminate Ha|].
  exists r, k'. split; [exact E|]. split; [exact Hr|exact Hq].
Defined.

Lemma mem_alloc_vuelve_a_su_cpu_witness :
  exists k', syscall_mem_alloc 0 [con_nul (txt "1"); con_nul (txt "64")] 1
    (con_entrada 4 (([MemoriaLiberada] ≫= notificacion_bytes) ++ enviar_respuesta_segmento 1 128 64 ++ []) (ejemplo 8)) = Sigue tt k' /\
    k_entrada 4 k' = [] /\ (segmentos_info <$> k_pcbs k' !! 0) = Some [(1, 64)].
Proof.
  destruct (k_pcbs (ejemplo 8) !! 0) as [b|] eqn:Hb; [|vm_compute in Hb; discriminate].
  assert (Hg : segmentos_info b = []) by (vm_compute in Hb; injection Hb as <-; reflexivity).
  destruct (mem_alloc_vuelve_a_su_cpu [MemoriaLiberada] 4 0 b (con_nul (txt "1")) (con_nul (txt "64")) [] 1 0 (CpuS 10 1 false (Some 0) true 0)
    1 128 64 [] (ejemplo 8)) as (k' & E & He & Ep & _).
  - repeat constructor.
  - vm_compute. reflexivity.
  - discriminate.
  - exact ejemplo_8_vivos.
  - unfold es_u32. lia.
  - unfold es_u32. lia.
  - unfold es_u32. lia.
  - exact Hb.
  - vm_compute. reflexivity.
  - vm_compute. reflexivity.
  - discriminate.
  - exists k'. split; [exact E|]. split; [exact He|]. rewrite Ep, lookup_insert_eq. cbn. rewrite Hg. reflexivity.
Defined.
