(* ===== verification/SchedDispositivo.v ===== *)
(** * SchedDispositivo: a request of a process, through its interface

    The worker of an interface ([SchedIO]) and the I/O program ([Io]) at the two
    ends of a socket, with Memory answering: a STDIN from the queue of the
    interface to the bytes in Memory and the process in READY; and, when the
    process was suspended meanwhile, to the bytes kept in its PCB and written once
    it is back in RAM. *)

From Stdlib Require Import Strings.String.
From S2P Require Import Prelude Wire Tipos Mensajes Texto Io SchedTipos SchedColas SchedMutex SchedMemoria SchedIO SchedPlan SchedInv SchedInvOps SchedInvFin SchedSeguroOps SchedSeguroMem SchedSeguroIO SchedSeguro SchedSistema SchedCorrecto SchedVivacidad SchedHerencia SchedProtocolo.

(** The I/O program reads the last message sent to its socket, and its answer
    reaches the Scheduler. *)
Definition servir (s : Z) (d : dispositivo) (k : kernel) : option (kernel * dispositivo) :=
  match last (k_salidas k) with
  | Some (s', bs) =>
      if s' =? s then
        match atender_io d bs with
        | Some (Some (resp, d'), _) => Some (con_entrada s (k_entrada s k ++ resp) k, d')
        | _ => None
        end
      else None
  | None => None
  end.

(** ** What is sent stays sent *)

Lemma enviado {A} (l l' : list A) x : l ++ [x] `prefix_of` l' -> x ∈ l'.
Proof. intros H. eapply elem_of_prefix; [|exact H]. apply elem_of_app. right. by apply list_elem_of_singleton. Qed.

Definition crece {A} (m : K A) : Prop := forall k, match m k with Sigue _ k' => k_salidas k `prefix_of` k_salidas k' | _ => True end.

Lemma crece_ret {A} (a : A) : crece (mret a).
Proof. intros k. cbn. reflexivity. Qed.
Lemma crece_bind {A B} (m : K A) (f : A -> K B) : crece m -> (forall a, crece (f a)) -> crece (m ≫= f).
Proof.
  intros Hm Hf k. specialize (Hm k). rewrite bind_eq. destruct (m k) as [a k1| | | | |]; try done.
  specialize (Hf a k1). destruct (f a k1); try done. by etrans.
Qed.
Lemma crece_mod f : (forall k, k_salidas (f k) = k_salidas k) -> crece (k_mod f).
Proof. intros H k. cbn. rewrite H. reflexivity. Qed.
Lemma crece_leer p : crece (leer p).
Proof. intros k. unfold leer. destruct (k_pcbs k !! p); [reflexivity|done]. Qed.
Lemma crece_enviar s bs : crece (k_enviar s bs).
Proof. intros k. cbn. destruct (s =? -1); [reflexivity|]. cbn. by apply prefix_app_r. Qed.
Lemma crece_get : crece k_get.
Proof. intros k. cbn. reflexivity. Qed.
Create HintDb crece.
#[export] Hint Resolve crece_ret crece_bind crece_leer crece_enviar crece_get : crece.

Lemma crece_modificar p f : crece (modificar p f).
Proof. apply crece_bind; [auto with crece|]. intros b. by apply crece_mod. Qed.
Lemma crece_cola x : crece (cola_prioridad x).
Proof. intros k. unfold cola_prioridad. destruct (x <? 0); [done|]. destruct (_ !! _); [reflexivity|done]. Qed.
Lemma crece_poner_cola x q : crece (poner_cola_prioridad x q).
Proof. by apply crece_mod. Qed.
Lemma crece_post : crece post_sem_ready.
Proof. by apply crece_mod. Qed.
#[export] Hint Resolve crece_modificar crece_cola crece_poner_cola crece_post : crece.

Ltac creciendo := repeat (case_match || (apply crece_bind; [solve [auto with crece]|intros ?]) || solve [auto with crece | by apply crece_mod]).

Lemma crece_victima cs acc : crece (buscar_victima cs acc).
Proof. revert acc. induction cs as [|c cs IH]; intros acc; cbn [buscar_victima]; creciendo; apply IH. Qed.
#[export] Hint Resolve crece_victima : crece.
Lemma crece_verificar p : crece (verificar_y_desalojar_por_prioridad p).
Proof. unfold verificar_y_desalojar_por_prioridad. creciendo. Qed.
#[export] Hint Resolve crece_verificar : crece.
Lemma crece_poner_prioridad b p x : crece (poner_en_prioridad b p x).
Proof. unfold poner_en_prioridad. creciendo. Qed.
Lemma crece_poner_ready b p : crece (poner_en_ready b p).
Proof. unfold poner_en_ready. creciendo. Qed.
#[export] Hint Resolve crece_poner_prioridad crece_poner_ready : crece.
Lemma crece_encolar p : crece (encolar_en_ready_y_notificar p).
Proof. unfold encolar_en_ready_y_notificar, reencolar_proceso_ready_final. creciendo. Qed.

(** ** The steps of the exchange *)

Lemma recibir_eq {A} (r : lector A) s k a resto :
  r (k_entrada s k) = Some (a, resto) -> k_recibir s r k = Sigue a (con_entrada s resto k).
Proof. intros E. unfold k_recibir. by rewrite E. Qed.

Lemma entrada_con_entrada s bs k : k_entrada s (con_entrada s bs k) = bs.
Proof. unfold k_entrada, con_entrada. cbn. by rewrite lookup_insert_eq. Qed.
Lemma entrada_otra s s' bs k : s <> s' -> k_entrada s' (con_entrada s bs k) = k_entrada s' k.
Proof. intros H. unfold k_entrada, con_entrada. cbn. by rewrite lookup_insert_ne. Qed.
Lemma con_entrada_id s bs k : k_entrada s k = bs -> bs <> [] -> k = con_entrada s bs k.
Proof.
  unfold k_entrada, con_entrada. intros E Hb. destruct (k_entradas k !! s) as [x|] eqn:Ex; cbn in E; [|congruence]. subst x.
  rewrite insert_id by done. by destruct k.
Qed.

Lemma posicion_ok pid l k : Forall (vivo k) l -> posicion_pid pid l k = Sigue (indice_de (fun p => p =? pid) l) k.
Proof.
  induction 1 as [|p l [b Hb] _ IH]; [done|]. cbn [posicion_pid indice_de]. rewrite bind_eq. unfold leer. rewrite Hb.
  destruct (p =? pid); [done|]. by rewrite bind_eq, IH.
Qed.

Lemma misma_efectos s ns k : misma k (foldl (efecto s) k ns).
Proof.
  revert k. induction ns as [|n ns IH]; intros k; [done|]. cbn [foldl]. etrans; [|apply IH]. by destruct n.
Qed.
Lemma salidas_efectos s ns k : k_salidas k `prefix_of` k_salidas (foldl (efecto s) k ns).
Proof.
  revert k. induction ns as [|n ns IH]; intros k; [reflexivity|]. cbn [foldl]. etrans; [|apply IH].
  destruct n; cbn; try reflexivity. by apply prefix_app_r.
Qed.
Lemma tomado_efectos s ns k : mutex_lista_tomado (foldl (efecto s) k ns) = mutex_lista_tomado k.
Proof. revert k. induction ns as [|n ns IH]; intros k; [done|]. cbn [foldl]. rewrite IH. by destruct n. Qed.

Lemma entrada_efectos s s' ns k : k_entrada s' (foldl (efecto s) k ns) = k_entrada s' k.
Proof. revert k. induction ns as [|n ns IH]; intros k; [done|]. cbn [foldl]. rewrite IH. by destruct n. Qed.
Lemma socket_efectos s ns k : k_memory_socket (foldl (efecto s) k ns) = k_memory_socket k.
Proof. revert k. induction ns as [|n ns IH]; intros k; [done|]. cbn [foldl]. rewrite IH. by destruct n. Qed.

(** What a request to Memory leaves: its notifications carried out, its answer read. *)
Definition tras_pedir (pedido : list byte) (ns : list notificacion) (resto : list byte) (k : kernel) : kernel :=
  let s := k_memory_socket k in
  con_entrada s resto (foldl (efecto s) (con_k_salidas (k_salidas k ++ [(s, pedido)]) k) ns).

Lemma pedir_ok_eq ns op pedido resto k :
  Forall notificacion_valida ns -> es_respuesta op = true -> k_memory_socket k <> -1 -> Forall (vivo k) (en_cpus k) ->
  k_entrada (k_memory_socket k) k = (ns ≫= notificacion_bytes) ++ enviar_ok op ++ resto ->
  pedir_ok pedido k = Sigue (op_num op) (tras_pedir pedido ns resto k).
Proof.
  intros Hns Hop Hs Hv He. unfold tras_pedir. set (m := k_memory_socket k) in *. assert (Hs' : (m =? -1) = false) by lia.
  set (k1 := con_k_salidas (k_salidas k ++ [(m, pedido)]) k).
  assert (Ek : k1 = con_entrada m ((ns ≫= notificacion_bytes) ++ trama op (le_enc 4 (-1)) ++ resto) k1).
  { apply con_entrada_id; [unfold k1; rewrite <-enviar_ok_trama; exact He|]. intros E%(f_equal length). rewrite !length_app, length_trama in E. cbn in E. lia. }
  set (k2 := con_entrada m resto (foldl (efecto m) k1 ns)).
  unfold pedir_ok. rewrite bind_eq. cbn [k_gets]. fold m. rewrite bind_eq. unfold k_enviar, k_mod. rewrite Hs'. fold k1.
  rewrite bind_eq, Ek. rewrite respuesta_bucle_op by done. rewrite op_num_no_neg, bind_eq.
  destruct (protocolo_ok (p := p_ok op) tt I) as (pl & E & Hr). change (enviar_ok op = trama op pl) in E.
  assert (pl = le_enc 4 (-1)) as -> by (rewrite enviar_ok_trama in E; unfold trama in E; simplify_list_eq; congruence).
  rewrite (recibir_en _ _ _ _ _ _ (Hr resto)). done.
Qed.

(** A request that Memory grants, after its notifications. *)
Lemma pedir_ok_concedido ns op pedido resto k :
  Forall notificacion_valida ns -> es_respuesta op = true -> k_memory_socket k <> -1 -> Forall (vivo k) (en_cpus k) ->
  k_entrada (k_memory_socket k) k = (ns ≫= notificacion_bytes) ++ enviar_ok op ++ resto ->
  exists k', pedir_ok pedido k = Sigue (op_num op) k' /\ misma k k' /\ mutex_lista_tomado k' = mutex_lista_tomado k /\
    k_entrada (k_memory_socket k) k' = resto /\ (forall s, s <> k_memory_socket k -> k_entrada s k' = k_entrada s k) /\
    k_memory_socket k' = k_memory_socket k /\
    k_salidas k ++ [(k_memory_socket k, pedido)] `prefix_of` k_salidas k'.
Proof.
  intros Hns Hop Hs Hv He. exists (tras_pedir pedido ns resto k). split; [by eapply pedir_ok_eq|]. unfold tras_pedir.
  set (m := k_memory_socket k) in *. set (k1 := con_k_salidas (k_salidas k ++ [(m, pedido)]) k). split_and!.
  - etrans; [apply (misma_efectos m ns k1)|]. done.
  - cbn. by rewrite tomado_efectos.
  - apply entrada_con_entrada.
  - intros s Hne. rewrite entrada_otra by congruence. by rewrite entrada_efectos.
  - cbn. by rewrite socket_efectos.
  - apply (salidas_efectos m ns k1).
Qed.

Lemma extraer_ok sr M pid b k :
  Inv sr M k -> pid ∈ cola_procesos_block k -> k_pcbs k !! pid = Some b -> (estado b = SUSP_BLOCK -> suspendido_en_swap b = true) ->
  exists j, cola_procesos_block k !! j = Some pid /\
    extraer_de_block pid k = Sigue (Some pid) (con_cola_procesos_block (delete j (cola_procesos_block k)) k).
Proof.
  intros H Hp Hb Hs. pose proof (block_vivos _ _ _ H) as Hv.
  destruct (indice_pid_Some _ _ Hp) as (j & Hj & Hjl). exists j. split; [done|].
  unfold extraer_de_block. rewrite bind_eq. cbn [k_gets]. rewrite bind_eq, posicion_ok, Hj, bind_eq by done.
  unfold leer. rewrite Hb. replace (bool_decide (estado b = SUSP_BLOCK) && negb (suspendido_en_swap b)) with false; [done|].
  destruct (bool_decide_reflect (estado b = SUSP_BLOCK)) as [E|E]; [by rewrite (Hs E)|done].
Qed.

Lemma encolar_ok sr M p b k :
  Inv sr (p :: M) k -> k_pcbs k !! p = Some b -> estado b <> NEW -> mutex_lista_tomado k = false ->
  exists k', encolar_en_ready_y_notificar p k = Sigue tt k' /\ Inv sr M k' /\ mismos k k' /\
    k_pcbs k' = <[p := con_estado READY b]> (k_pcbs k) /\ k_salidas k `prefix_of` k_salidas k'.
Proof.
  intros H Hb He Hl. pose proof (sigue_encolar p k Hl) as Hs. pose proof (crece_encolar p k) as Hg.
  pose proof (cumple_encolar sr M p b (fun _ k' => Inv sr M k' /\ mismos k k' /\ k_pcbs k' = <[p := con_estado READY b]> (k_pcbs k))
    k H Hb He ltac:(done)) as Hc. unfold cumple in Hc.
  destruct (encolar_en_ready_y_notificar p k) as [[] k'| | | | |]; try done. exists k'. destruct Hc as (H1 & H2 & H3). done.
Qed.

(** What the interface reads as the end of its request. *)
Lemma datos_stdin_trama pid datos : es_int pid -> datos_ok datos ->
  exists pl, enviar_datos_stdin pid datos = trama IO_FINALIZADA pl /\ recibe (recibir_datos_stdin (Z.of_nat (length datos))) pl (pid, datos).
Proof.
  intros Hp Hd. destruct (protocolo_ok (p := p_datos_stdin (Z.of_nat (length datos))) (pid, datos)) as (pl & E & Hr); [done|].
  exists pl. split; [exact E|exact Hr].
Qed.

(** The worker, once the interface has answered: the rest is [terminar_stdin]. *)
Lemma respuesta_stdin i io pid dir datos k :
  tabla_ios k !! i = Some io -> io_en_curso io = Some (ReqStdin pid (Z.of_nat (length datos)) dir) -> es_int pid -> datos_ok datos ->
  k_entrada (io_socket io) k = enviar_datos_stdin pid datos ->
  io_worker_respuesta i k =
  terminar_stdin pid (Z.of_nat (length datos)) dir datos
    (con_entrada (io_socket io) [] (con_tabla_ios (alter (con_en_curso None) i (tabla_ios k)) k)).
Proof.
  intros Hio Hc Hp Hd He. destruct (datos_stdin_trama pid datos Hp Hd) as (pl & E & Hr).
  unfold io_worker_respuesta. rewrite bind_eq. unfold leer_io. rewrite Hio, Hc, bind_eq. unfold modificar_io at 1. cbn [k_mod].
  set (k1 := con_tabla_ios _ k). change (k_entrada (io_socket io) k) with (k_entrada (io_socket io) k1) in He.
  rewrite bind_eq. unfold k_codigo. rewrite (recibir_eq _ _ _ (op_num IO_FINALIZADA) (le_enc 8 (Z.of_nat (length pl)) ++ pl ++ [])).
  2: { rewrite He, E. rewrite <-(app_nil_r (trama _ _)). by rewrite codigo_trama. }
  rewrite op_num_no_neg, Z.eqb_refl. cbn [orb negb]. rewrite bind_eq, (recibir_en _ _ _ _ _ _ (Hr [])). done.
Qed.

Lemma terminar_stdin_ram sr ns pid b dir datos resto k :
  Inv sr [] k -> pid ∉ tabla_ios k ≫= pedidos -> pid ∈ cola_procesos_block k -> k_pcbs k !! pid = Some b -> estado b = BLOCK ->
  mutex_lista_tomado k = false -> k_memory_socket k <> -1 -> Forall notificacion_valida ns ->
  k_entrada (k_memory_socket k) k = (ns ≫= notificacion_bytes) ++ enviar_ok ESCRITURA_MEMORIA ++ resto ->
  exists k', terminar_stdin pid (Z.of_nat (length datos)) dir datos k = Sigue tt k' /\ Inv sr [] k' /\
    k_pcbs k' = <[pid := con_estado READY b]> (k_pcbs k) /\
    k_salidas k ++ [(k_memory_socket k, enviar_escritura_memoria pid dir datos)] `prefix_of` k_salidas k'.
Proof.
  intros H Hp Hin Hb He Hl Hs Hns Hm. destruct (extraer_ok sr [] pid b k H Hin Hb ltac:(congruence)) as (j & Hj & E).
  pose proof (Inv_sacar_block sr [] k j pid b H Hj Hb ltac:(congruence) Hp) as H1.
  unfold terminar_stdin. rewrite bind_eq, E. set (k1 := con_cola_procesos_block _ k) in *. rewrite bind_eq. unfold leer.
  change (k_pcbs k1) with (k_pcbs k). rewrite Hb, He. rewrite bool_decide_eq_false_2 by done.
  rewrite bind_eq. unfold escribir_stdin_en_memoria. rewrite bind_eq, Nat2Z.id, take_ge by lia.
  destruct (pedir_ok_concedido ns ESCRITURA_MEMORIA (enviar_escritura_memoria pid dir datos) resto k1 Hns eq_refl Hs (cpus_vivas _ _ _ H1) Hm)
    as (k2 & -> & M2 & L2 & _ & _ & _ & S2).
  rewrite Z.eqb_refl. cbn [negb mret K_ret].
  destruct (encolar_ok sr [] pid b k2) as (k3 & E3 & H3 & _ & P3 & S3);
    [by eapply Inv_misma|by apply (misma_leer _ _ _ _ M2)|congruence|by rewrite L2|].
  exists k3. split; [exact E3|]. split; [exact H3|]. split.
  - rewrite P3. f_equal. injection M2. by intros.
  - etrans; [|exact S3]. exact S2.
Qed.

Lemma terminar_stdin_swap sr pid b dir datos k :
  Inv sr [] k -> pid ∈ cola_procesos_block k -> k_pcbs k !! pid = Some b -> estado b = SUSP_BLOCK -> suspendido_en_swap b = true ->
  exists k', terminar_stdin pid (Z.of_nat (length datos)) dir datos k = Sigue tt k' /\ k_salidas k' = k_salidas k /\
    mutex_lista_tomado k' = mutex_lista_tomado k /\ k_memory_socket k' = k_memory_socket k /\
    k_pcbs k' = <[pid := con_estado SUSP_READY (con_stdin_pendiente_size (u32 (Z.of_nat (length datos)))
              (con_stdin_pendiente_dir (u32 dir) (con_stdin_pendiente (Some datos) b)))]> (k_pcbs k).
Proof.
  intros H Hin Hb He Hs. destruct (extraer_ok sr [] pid b k H Hin Hb ltac:(done)) as (j & Hj & E).
  unfold terminar_stdin. rewrite bind_eq, E. rewrite bind_eq. unfold leer at 1. cbn [con_cola_procesos_block k_pcbs]. rewrite Hb, He.
  rewrite bool_decide_eq_true_2 by done. rewrite bind_eq. unfold modificar, leer. rewrite bind_eq. cbn [con_cola_procesos_block k_pcbs]. rewrite Hb.
  eexists. split; [reflexivity|]. done.
Qed.

(** The worker gives the first request of its queue to the interface. *)
Lemma despachar_stdin i io pid size dir cola n b k :
  tabla_ios k !! i = Some io -> activa io = true -> io_en_curso io = None -> sem_cola io = S n ->
  io_cola io = ReqStdin pid size dir :: cola -> io_socket io <> -1 -> k_pcbs k !! pid = Some b ->
  io_worker_despachar i k =
  Sigue tt (con_k_salidas (k_salidas k ++ [(io_socket io, enviar_io_stdin pid size)])
    (con_tabla_ios (alter (fun io => con_en_curso (Some (ReqStdin pid size dir)) (con_io_cola cola n io)) i (tabla_ios k)) k)).
Proof.
  intros Hio Ha Hc Hsem Hq Hs Hb. assert (Hs' : (io_socket io =? -1) = false) by lia.
  unfold io_worker_despachar. rewrite bind_eq. unfold leer_io. rewrite Hio, Hsem, Hc, Ha, Hq. cbn [negb].
  unfold modificar_io. rewrite bind_eq. cbn [k_mod r_proceso]. rewrite bind_eq. unfold leer. cbn [con_tabla_ios k_pcbs]. rewrite Hb.
  rewrite bind_eq. unfold k_enviar, k_mod. rewrite Hs'. cbn. do 2 f_equal.
  by rewrite list_alter_alter_eq.
Qed.

(** A process back in RAM: the bytes it waited for are written before it is READY. *)
Lemma remover_ok sr p k : Inv sr [] k -> p ∈ sr ->
  exists sr' i, remover_de_lista_suspendidos p k = Sigue tt (con_lista_suspendidos (delete i (lista_suspendidos k)) k) /\
    Inv sr' [p] (con_lista_suspendidos (delete i (lista_suspendidos k)) k).
Proof.
  intros H Hp. destruct (indice_pid_Some p (lista_suspendidos k).*1) as (i & Ei & Hi); [apply (i_susp _ _ _ H); tauto|].
  apply list_lookup_fmap_Some in Hi as ([q t] & Hq & Hi). cbn in Hq. subst q.
  destruct (Inv_salir_suspendido _ _ _ _ _ _ H Hi Hp) as (sr' & H' & _). exists sr', i. split; [|exact H'].
  unfold remover_de_lista_suspendidos. rewrite bind_eq. cbn [k_gets]. rewrite bind_eq, posicion_ok, Ei; [done|].
  apply Forall_forall. intros q Hq. eapply Inv_vivo; [done|]. apply lugares_dec. apply (i_susp _ _ _ H) in Hq. tauto.
Qed.

Lemma des_suspender_con_stdin sr ns1 ns2 p b datos resto k :
  Inv sr [] k -> p ∈ sr -> k_pcbs k !! p = Some b -> stdin_pendiente b = Some datos ->
  i32 (stdin_pendiente_size b) = Z.of_nat (length datos) -> mutex_lista_tomado k = false -> k_memory_socket k <> -1 ->
  Forall notificacion_valida ns1 -> Forall notificacion_valida ns2 ->
  k_entrada (k_memory_socket k) k = (ns1 ≫= notificacion_bytes) ++ enviar_ok DES_SUSPENDER_PROCESO ++
    (ns2 ≫= notificacion_bytes) ++ enviar_ok ESCRITURA_MEMORIA ++ resto ->
  exists k' sr', des_suspender_candidato p k = Sigue tt k' /\ Inv sr' [] k' /\
    k_pcbs k' = <[p := con_estado READY (con_stdin_pendiente None b)]> (k_pcbs k) /\
    (k_memory_socket k, enviar_escritura_memoria p (i32 (stdin_pendiente_dir b)) datos) ∈ k_salidas k'.
Proof.
  intros H Hp Hb Hd Hz Hl Hs Hn1 Hn2 He.
  assert (Hest : estado b = SUSP_READY).
  { pose proof (i_sr _ _ _ H) as Hx. rewrite Forall_forall in Hx. destruct (Hx p Hp) as (c & Hc & ? & _). congruence. }
  unfold des_suspender_candidato. rewrite bind_eq. unfold leer at 1. rewrite Hb, bind_eq.
  destruct (pedir_ok_concedido ns1 DES_SUSPENDER_PROCESO (enviar_des_suspender_proceso p) _ k Hn1 eq_refl Hs (cpus_vivas _ _ _ H) He)
    as (k1 & -> & M1 & L1 & E1 & _ & S1 & _).
  rewrite Z.eqb_refl. cbn [negb]. rewrite bind_eq. destruct (remover_ok sr p k1) as (sr' & i & -> & H2); [by eapply Inv_misma|done|].
  set (k2 := con_lista_suspendidos _ k1) in *. pose proof (misma_leer _ _ _ _ M1 Hb) as Hb1. change (k_pcbs k2 !! p = Some b) in Hb1.
  rewrite bind_eq. unfold leer at 1. rewrite Hb1, Hd, bind_eq. unfold escribir_stdin_en_memoria. rewrite bind_eq, Hz, Nat2Z.id, take_ge by lia.
  assert (Hm2 : k_memory_socket k2 = k_memory_socket k) by exact S1. rewrite <-Hm2 in Hs, E1 |- *. 
  destruct (pedir_ok_concedido ns2 ESCRITURA_MEMORIA (enviar_escritura_memoria p (i32 (stdin_pendiente_dir b)) datos) resto k2
    Hn2 eq_refl Hs (cpus_vivas _ _ _ H2) E1) as (k3 & -> & M3 & L3 & _ & _ & _ & P3).
  rewrite Z.eqb_refl. cbn [mret K_ret]. rewrite bind_eq. pose proof (Inv_misma _ _ _ _ M3 H2) as H3. pose proof (misma_leer _ _ _ _ M3 Hb1) as Hb3.
  unfold modificar, leer. rewrite bind_eq, Hb3. cbn [k_mod negb].
  pose proof (cumple_estado sr' [] p b (con_stdin_pendiente None) (fun _ k' => Inv sr' [p] k' /\ k' = con_k_pcbs (<[p := con_stdin_pendiente None b]> (k_pcbs k3)) k3)
    k3 H3 Hb3 eq_refl (fun Hx => i_prio _ _ _ H3 p b Hb3 Hx) ltac:(done) ltac:(done)) as H4.
  unfold cumple, modificar, leer in H4. rewrite bind_eq, Hb3 in H4. cbn [k_mod] in H4. destruct H4 as [H4 _].
  set (k4 := con_k_pcbs _ k3) in *.
  destruct (encolar_ok sr' [] p (con_stdin_pendiente None b) k4 H4) as (k5 & E5 & H5 & _ & P5 & S5);
    [unfold k4; cbn; by rewrite lookup_insert_eq|cbn; congruence|unfold k4, k2 in *; cbn; by rewrite L3; cbn; rewrite L1|].
  exists k5, sr'. split; [exact E5|]. split; [exact H5|]. split.
  - rewrite P5. unfold k4. cbn. rewrite insert_insert_eq. f_equal.
    assert (G3 : k_pcbs k3 = k_pcbs k2) by (injection M3; by intros). assert (G1 : k_pcbs k1 = k_pcbs k) by (injection M1; by intros).
    rewrite G3. exact G1.
  - apply (enviado (k_salidas k2)). etrans; [exact P3|exact S5].
Qed.

(** ** Properties *)

(** The first request in the queue of an idle interface is a STDIN of [pid], and at
    its other end somebody types [ls]. *)
Record pide_stdin (i : nat) (s pid size dir : Z) (d : dispositivo) (ls : list (list byte)) (k : kernel) : Prop := {
  ps_io : exists io n cola, tabla_ios k !! i = Some io /\ activa io = true /\ io_en_curso io = None /\ sem_cola io = S n /\
    io_cola io = ReqStdin pid size dir :: cola /\ io_socket io = s;
  ps_socket : s <> -1 /\ s <> k_memory_socket k /\ k_entrada s k = [];
  ps_pid : es_int pid;
  ps_size : 0 <= size <= 1073741824;
  ps_lineas : Forall linea_tipeable ls;
  ps_teclado : teclado d = tipeado ls }.

(** The line in the buffer of the request. *)
Definition leido (size : Z) (ls : list (list byte)) : list byte := ajustar (Z.to_nat size) (default [] (head ls)).

Lemma length_leido size ls : 0 <= size -> Z.of_nat (length (leido size ls)) = size.
Proof. intros H. unfold leido. rewrite length_ajustar. lia. Qed.

(** The request goes out, the interface answers it. *)
Lemma ida_y_vuelta sr i s pid size dir d ls b k :
  Inv sr [] k -> pide_stdin i s pid size dir d ls k -> k_pcbs k !! pid = Some b ->
  exists k1 k2 d' k3, io_worker_despachar i k = Sigue tt k1 /\ servir s d k1 = Some (k2, d') /\ teclado d' = tipeado (tail ls) /\
    io_worker_respuesta i k2 = terminar_stdin pid size dir (leido size ls) k3 /\
    Inv sr [] k3 /\ pid ∉ tabla_ios k3 ≫= pedidos /\ pid ∈ cola_procesos_block k3 /\ k_pcbs k3 = k_pcbs k /\
    mutex_lista_tomado k3 = mutex_lista_tomado k /\ k_memory_socket k3 = k_memory_socket k /\
    k_entrada (k_memory_socket k) k3 = k_entrada (k_memory_socket k) k /\ k_salidas k3 = k_salidas k ++ [(s, enviar_io_stdin pid size)].
Proof.
  intros H [(io & n & cola & Hio & Ha & Hc & Hsem & Hq & Es) (Hs & Hsm & He) Hp Hz Hls Ht] Hb.
  set (req := ReqStdin pid size dir). set (io1 := con_en_curso (Some req) (con_io_cola cola n io)).
  set (k1 := con_k_salidas (k_salidas k ++ [(s, enviar_io_stdin pid size)])
    (con_tabla_ios (alter (fun io => con_en_curso (Some req) (con_io_cola cola n io)) i (tabla_ios k)) k)).
  pose proof (atender_io_ok (PideStdin pid size) d ls [] (conj Hp Hz) Hls Ht) as Ed. cbn [responder_io pedido_bytes] in Ed.
  rewrite app_nil_r in Ed. fold (leido size ls) in Ed. set (d' := registrar _ _) in Ed.
  set (k2 := con_entrada s (enviar_datos_stdin pid (leido size ls)) k1).
  assert (Hio2 : tabla_ios k2 !! i = Some io1) by (unfold k2, k1; cbn; by rewrite list_lookup_alter_eq, Hio).
  set (k3 := con_entrada s [] (con_tabla_ios (alter (con_en_curso None) i (tabla_ios k2)) k2)).
  exists k1, k2, d', k3.
  assert (P1 : pedidos io ≡ₚ pid :: (r_proceso <$> cola)) by (unfold pedidos; rewrite Hq, Hc; cbn; by rewrite app_nil_r).
  assert (P2 : pedidos io1 ≡ₚ pid :: (r_proceso <$> cola)) by (unfold pedidos, io1; cbn; perm).
  assert (P3 : pedidos (con_en_curso None io1) ≡ₚ r_proceso <$> cola) by (unfold pedidos, io1; cbn; by rewrite app_nil_r).
  assert (H2 : Inv sr [] k2).
  { eapply (Inv_misma _ _ (con_tabla_ios (tabla_ios k1) k)); [done|]. eapply Inv_io; [exact H|exact Hio|]. exists []. rewrite app_nil_r. fold io1. by rewrite P1, P2. }
  destruct (inv_io_quita _ _ _ _ (con_en_curso None) _ _ H2 Hio2 P2 P3) as [H3 Hno].
  assert (Hin : pid ∈ cola_procesos_block k).
  { pose proof (i_pedidos _ _ _ H) as [_ HB]. rewrite Forall_forall in HB. apply HB. apply list_elem_of_bind. exists io.
    split; [rewrite P1; apply elem_of_cons; by left|by eapply list_elem_of_lookup_2]. }
  split_and!.
  - unfold k1. rewrite <-Es in *. by apply (despachar_stdin i io pid size dir cola n b).
  - unfold servir, k1. cbn [con_k_salidas k_salidas]. rewrite last_snoc, Z.eqb_refl. unfold mbind in Ed. rewrite Ed.
    change (k_entrada s _) with (k_entrada s k). by rewrite He.
  - done.
  - pose proof (respuesta_stdin i io1 pid dir (leido size ls) k2 Hio2) as Er. rewrite length_leido in Er by lia.
    rewrite Er; [unfold k3; by rewrite <-Es|done|done|unfold datos_ok; rewrite length_leido; lia|].
    change (io_socket io1) with (io_socket io). rewrite Es. apply entrada_con_entrada.
  - by apply (Inv_misma _ _ (con_tabla_ios (alter (con_en_curso None) i (tabla_ios k2)) k2)).
  - exact Hno.
  - exact Hin.
  - done.
  - done.
  - done.
  - unfold k3. rewrite entrada_otra by done. change (k_entrada ?m (con_tabla_ios _ k2)) with (k_entrada m k2).
    unfold k2. by rewrite entrada_otra.
  - done.
Qed.

(** a STDIN from end to end: the request at the head of the queue of an interface
    goes out to the I/O program, which answers the next line typed, cut or filled
    to the size asked for; the worker writes those very bytes in the memory of the
    process, whatever notifications Memory sends first, and the process is READY. *)
Theorem stdin_de_punta_a_punta sr ns i s pid size dir d ls b resto k :
  Inv sr [] k -> mutex_lista_tomado k = false -> pide_stdin i s pid size dir d ls k ->
  k_pcbs k !! pid = Some b -> estado b = BLOCK -> k_memory_socket k <> -1 -> Forall notificacion_valida ns ->
  k_entrada (k_memory_socket k) k = (ns ≫= notificacion_bytes) ++ enviar_ok ESCRITURA_MEMORIA ++ resto ->
  exists k1 k2 d' k3, io_worker_despachar i k = Sigue tt k1 /\ servir s d k1 = Some (k2, d') /\ teclado d' = tipeado (tail ls) /\
    io_worker_respuesta i k2 = Sigue tt k3 /\
    (k_memory_socket k, enviar_escritura_memoria pid dir (leido size ls)) ∈ k_salidas k3 /\
    k_pcbs k3 = <[pid := con_estado READY b]> (k_pcbs k) /\ pid ∈ en_ready k3.
Proof.
  intros H Hl Hps Hb He Hm Hns Hme.
  destruct (ida_y_vuelta sr i s pid size dir d ls b k H Hps Hb) as (k1 & k2 & d' & k3 & E1 & E2 & Et & E3 & H3 & Hno & Hin & Ep & El & Es & Een & _).
  destruct (terminar_stdin_ram sr ns pid b dir (leido size ls) resto k3) as (k4 & E4 & H4 & P4 & S4);
    [done..|by rewrite Ep|done|by rewrite El|by rewrite Es|done|by rewrite Es, Een|].
  rewrite length_leido in E4 by (destruct Hps; lia). exists k1, k2, d', k4. split_and!; [done..|by rewrite E3| | |].
  - rewrite <-Es. by eapply enviado.
  - by rewrite P4, Ep.
  - eapply (estado_lugar sr [] k4 pid (con_estado READY b) H4); [|set_solver|done]. by rewrite P4, lookup_insert_eq.
Qed.

(** C27: a STDIN of a process that was suspended while it waited: nothing is written
    over the memory it left; the line is kept in its PCB, and goes to the address
    asked for once Memory has brought the process back, before it is READY. *)
Theorem stdin_diferido sr i s pid size dir d ls b k :
  Inv sr [] k -> mutex_lista_tomado k = false -> pide_stdin i s pid size dir d ls k -> es_int dir ->
  k_pcbs k !! pid = Some b -> estado b = SUSP_BLOCK -> suspendido_en_swap b = true -> k_memory_socket k <> -1 ->
  exists k1 k2 d' k3, io_worker_despachar i k = Sigue tt k1 /\ servir s d k1 = Some (k2, d') /\
    io_worker_respuesta i k2 = Sigue tt k3 /\ k_salidas k3 = k_salidas k1 /\
    forall ns1 ns2 resto, Forall notificacion_valida ns1 -> Forall notificacion_valida ns2 ->
      exists k4, des_suspender_candidato pid (con_entrada (k_memory_socket k) ((ns1 ≫= notificacion_bytes) ++ enviar_ok DES_SUSPENDER_PROCESO ++
          (ns2 ≫= notificacion_bytes) ++ enviar_ok ESCRITURA_MEMORIA ++ resto) k3) = Sigue tt k4 /\
        (k_memory_socket k, enviar_escritura_memoria pid dir (leido size ls)) ∈ k_salidas k4 /\ pid ∈ en_ready k4.
Proof.
  intros H Hl Hps Hdir Hb He Hsw Hm.
  destruct (ida_y_vuelta sr i s pid size dir d ls b k H Hps Hb) as (k1 & k2 & d' & k3 & E1 & E2 & Et & E3 & H3 & Hno & Hin & Ep & El & Es & Een & Esal).
  pose proof (length_leido size ls ltac:(destruct Hps; lia)) as Hlen.
  destruct (terminar_stdin_swap sr pid b dir (leido size ls) k3) as (k4 & E4 & S4 & L4 & M4 & P4); [done|done|by rewrite Ep|done|done|].
  rewrite Hlen in E4, P4. exists k1, k2, d', k4. split_and!; [done|done|by rewrite E3| |].
  { rewrite S4, Esal. destruct Hps as [(io & n & cola & Hio & Ha & Hc & Hsem & Hq & <-) (Hs & _)].
    rewrite (despachar_stdin i io pid size dir cola n b k) in E1 by done. by injection E1 as <-. }
  intros ns1 ns2 resto Hn1 Hn2.
  pose proof (cumple_terminar_stdin sr pid size dir (leido size ls) (fun _ k' => inv [] k') k3 H3 Hno (fun sr' k' Hi => ex_intro _ sr' Hi)) as Hc.
  unfold cumple in Hc. rewrite E4 in Hc. destruct Hc as [sr4 H4]. set (k5 := con_entrada _ _ k4).
  assert (H5 : Inv sr4 [] k5) by (by apply (Inv_misma _ _ k4)).
  set (b4 := con_estado SUSP_READY _) in P4. assert (Hb4 : k_pcbs k5 !! pid = Some b4) by (unfold k5; cbn; by rewrite P4, lookup_insert_eq).
  assert (Hsr : pid ∈ sr4) by (eapply (estado_lugar sr4 [] k5 pid b4 H5 Hb4); [set_solver|done]).
  assert (Hm5 : k_memory_socket k5 = k_memory_socket k) by (unfold k5; cbn; by rewrite M4).
  assert (Hsz : i32 (u32 size) = size) by (rewrite i32_u32, i32_small; [done|]; destruct Hps; unfold es_int; lia).
  assert (Hdr : i32 (u32 dir) = dir) by (by rewrite i32_u32, i32_small).
  destruct (des_suspender_con_stdin sr4 ns1 ns2 pid b4 (leido size ls) resto k5 H5 Hsr Hb4 eq_refl) as (k6 & sr6 & E6 & H6 & P6 & S6);
    [by rewrite Hlen|unfold k5; cbn; by rewrite L4, El|by rewrite Hm5|done|done|rewrite Hm5; apply entrada_con_entrada|].
  exists k6. split; [exact E6|]. split; [by rewrite <-Hm5, <-Hdr|].
  eapply (estado_lugar sr6 [] k6 pid _ H6); [rewrite P6; apply lookup_insert_eq|set_solver|done].
Qed.

(** ** Witnesses *)

(** Process 0 asks for four bytes at address 16 and waits; somebody types [ab]. *)
Definition eventos_stdin : list evento :=
  [EvLlegan 10 (enviar_handshake_cpu 1); EvConexion 10;
   EvLlegan 11 (enviar_handshake_io (con_nul (txt "STDIN"))); EvConexion 11;
   EvLlegan 4 (enviar_ok CREAR_PROCESO); EvProcesoInicial (txt "A"); EvLargoPlazo; EvCortoPlazo;
   devuelve 0 "STDIN" ["16"; "4"]%string; EvCpu 0].
Definition espera_linea : kernel := despues_de (eventos_stdin ++ [EvLlegan 4 (enviar_memoria_liberada ++ enviar_ok ESCRITURA_MEMORIA)]).
Definition espera_suspendido : kernel :=
  despues_de (eventos_stdin ++ [EvSuspension 0; EvLlegan 4 (enviar_ok SUSPENDER_PROCESO); EvSuspensionFin 0]).
Definition consola_ab : dispositivo := Dispositivo (tipeado [txt "ab"]) [].

Lemma linea_ab : Forall linea_tipeable [txt "ab"].
Proof. apply Forall_singleton. split_and!; [set_solver|set_solver|cbn; lia]. Qed.

Lemma pide_stdin_ejemplo k io :
  tabla_ios k = [io] -> activa io = true -> io_en_curso io = None -> sem_cola io = 1%nat -> io_cola io = [ReqStdin 0 4 16] ->
  io_socket io = 11 -> k_memory_socket k = 4 -> k_entrada 11 k = [] -> pide_stdin 0 11 0 4 16 consola_ab [txt "ab"] k.
Proof.
  intros Ht Ha Hc Hs Hq Hk Hm He. split; [|rewrite Hm; done|unfold es_int; lia|lia|exact linea_ab|done].
  exists io, 0%nat, []. by rewrite Ht.
Qed.

Lemma stdin_de_punta_a_punta_witness :
  exists k1 k2 d' k3, io_worker_despachar 0 espera_linea = Sigue tt k1 /\ servir 11 consola_ab k1 = Some (k2, d') /\
    io_worker_respuesta 0 k2 = Sigue tt k3 /\
    (4, enviar_escritura_memoria 0 16 [x61; x62; x00; x00]) ∈ k_salidas k3 /\ 0 ∈ en_ready k3.
Proof.
  assert (Ha : alcanzable ordenar config_cmn 4 espera_linea) by (apply despues_alcanzable; vm_compute; by eexists).
  destruct (alcanzable_inv _ ordenar_perm _ _ _ Ha) as [sr H].
  destruct (k_pcbs espera_linea !! 0) as [b|] eqn:Hb; [|vm_compute in Hb; discriminate].
  assert (He : estado b = BLOCK) by (vm_compute in Hb; injection Hb as <-; reflexivity).
  destruct (tabla_ios espera_linea) as [|io l] eqn:Hio; [vm_compute in Hio; discriminate|].
  assert (Hps : pide_stdin 0 11 0 4 16 consola_ab [txt "ab"] espera_linea).
  { assert (Ht := Hio). vm_compute in Hio. injection Hio as <- <-. by eapply pide_stdin_ejemplo; [exact Ht|vm_compute; reflexivity..]. }
  destruct (stdin_de_punta_a_punta sr [MemoriaLiberada] 0 11 0 4 16 consola_ab [txt "ab"] b [] espera_linea H
    ltac:(vm_compute; reflexivity) Hps Hb He ltac:(vm_compute; discriminate) ltac:(repeat constructor) ltac:(vm_compute; reflexivity))
    as (k1 & k2 & d' & k3 & E1 & E2 & _ & E3 & E4 & _ & E5).
  exists k1, k2, d', k3. split; [exact E1|]. split; [exact E2|]. split; [exact E3|]. split; [exact E4|exact E5].
Defined.

Lemma stdin_diferido_witness :
  exists k1 k2 d' k3, io_worker_despachar 0 espera_suspendido = Sigue tt k1 /\ servir 11 consola_ab k1 = Some (k2, d') /\
    io_worker_respuesta 0 k2 = Sigue tt k3 /\
    exists k4, des_suspender_candidato 0 (con_entrada 4 (enviar_ok DES_SUSPENDER_PROCESO ++ enviar_ok ESCRITURA_MEMORIA) k3) = Sigue tt k4 /\
      (4, enviar_escritura_memoria 0 16 [x61; x62; x00; x00]) ∈ k_salidas k4.
Proof.
  assert (Ha : alcanzable ordenar config_cmn 4 espera_suspendido) by (apply despues_alcanzable; vm_compute; by eexists).
  destruct (alcanzable_inv _ ordenar_perm _ _ _ Ha) as [sr H].
  destruct (k_pcbs espera_suspendido !! 0) as [b|] eqn:Hb; [|vm_compute in Hb; discriminate].
  assert (He : estado b = SUSP_BLOCK /\ suspendido_en_swap b = true) by (vm_compute in Hb; injection Hb as <-; done).
  destruct (tabla_ios espera_suspendido) as [|io l] eqn:Hio; [vm_compute in Hio; discriminate|].
  assert (Hps : pide_stdin 0 11 0 4 16 consola_ab [txt "ab"] espera_suspendido).
  { assert (Ht := Hio). vm_compute in Hio. injection Hio as <- <-. by eapply pide_stdin_ejemplo; [exact Ht|vm_compute; reflexivity..]. }
  destruct (stdin_diferido sr 0 11 0 4 16 consola_ab [txt "ab"] b espera_suspendido H ltac:(vm_compute; reflexivity) Hps
    ltac:(unfold es_int; lia) Hb (proj1 He) (proj2 He) ltac:(vm_compute; discriminate)) as (k1 & k2 & d' & k3 & E1 & E2 & E3 & _ & Hd).
  destruct (Hd [] [] [] ltac:(constructor) ltac:(constructor)) as (k4 & E4 & E5 & _).
  exists k1, k2, d', k3. split; [exact E1|]. split; [exact E2|]. split; [exact E3|].
  exists k4. split; [exact E4|exact E5].
Defined.
