(* ===== verification/Tardanza.v ===== *)
(** * Tardanza: when the answer of Memory comes too late

    A wait for an answer that ends without one, by the time-out of the socket, is
    in the model a wait on a socket where nothing has arrived. What the suspension
    of a process does then, and what the next requests read. *)

From Stdlib Require Import Strings.String.
From S2P Require Import Prelude Wire Tipos Mensajes Texto SchedTipos SchedColas SchedMutex SchedMemoria SchedIO SchedCpu SchedPlan SchedInv SchedInvOps SchedInvFin SchedSeguroOps SchedSeguroMem SchedSeguroIO SchedSeguro SchedSistema SchedCorrecto SchedVivacidad SchedProtocolo SchedDispositivo.

(** The request is sent, the wait gives [-1]. *)
Definition tras_pedir_en_vano (pedido : list byte) (k : kernel) : kernel :=
  let s := k_memory_socket k in con_entrada s [] (con_k_salidas (k_salidas k ++ [(s, pedido)]) k).

Lemma pedir_ok_en_vano pedido k :
  k_memory_socket k <> -1 -> k_entrada (k_memory_socket k) k = [] -> pedir_ok pedido k = Sigue NEG1 (tras_pedir_en_vano pedido k).
Proof.
  intros Hs He. unfold tras_pedir_en_vano. set (s := k_memory_socket k) in *. assert (Hs' : (s =? -1) = false) by lia.
  unfold pedir_ok. rewrite bind_eq. cbn [k_gets]. fold s. rewrite bind_eq. unfold k_enviar, k_mod. rewrite Hs'.
  set (k1 := con_k_salidas _ k). rewrite bind_eq. unfold recibir_respuesta_de_memoria. rewrite bind_eq. cbn [k_get].
  change (k_entrada s k1) with (k_entrada s k). rewrite He. cbn [length recibir_respuesta_bucle]. rewrite bind_eq.
  unfold k_codigo, k_recibir. change (k_entrada s k1) with (k_entrada s k). rewrite He. reflexivity.
Qed.

(** The suspension of [p] goes on as if Memory had done it. *)
Lemma suspension_en_vano sr M j p k :
  Inv sr M k -> suspensiones_en_curso k !! j = Some p -> k_memory_socket k <> -1 -> k_entrada (k_memory_socket k) k = [] ->
  exists b k', k_pcbs k !! p = Some b /\ suspension_timer_fin j k = Sigue tt k' /\
    k_pcbs k' = <[p := con_suspendido_en_swap true b]> (k_pcbs k) /\ k_memory_socket k' = k_memory_socket k /\
    k_entrada (k_memory_socket k) k' = [] /\ k_cpus k' = k_cpus k.
Proof.
  intros H Hj Hs He. assert (Hin : p ∈ suspensiones_en_curso k) by (by eapply list_elem_of_lookup_2).
  apply (i_curso _ _ _ H) in Hin as (Hin & b & Hb & _). pose proof (block_vivos _ _ _ H) as Hv.
  destruct (indice_pid_Some _ _ Hin) as (i & Hi & _). exists b. eexists. split; [exact Hb|].
  unfold suspension_timer_fin. rewrite bind_eq. cbn [k_get]. rewrite Hj, bind_eq, pedir_ok_en_vano by done.
  set (k1 := tras_pedir_en_vano _ k). rewrite bind_eq. cbn [k_gets]. rewrite bind_eq, posicion_ok by exact Hv.
  change (cola_procesos_block k1) with (cola_procesos_block k). rewrite Hi, bind_eq. unfold modificar. rewrite bind_eq. unfold leer.
  change (k_pcbs k1) with (k_pcbs k). rewrite Hb. split; [reflexivity|]. split; [done|]. split; [done|]. split; [|done].
  unfold k_entrada. cbn. by rewrite lookup_insert_eq.
Qed.

(** When Memory's answer to a suspension comes after the time-out, the Scheduler has
    already marked the process as in swap, and the answer is taken as that of the
    next request: here a return to RAM, which is so given up, and whose own answer
    is left for the request after it, and so on. *)
Theorem respuesta_tardia_desfasa sr M j p q op resto k :
  Inv sr M k -> suspensiones_en_curso k !! j = Some p -> k_memory_socket k <> -1 -> k_entrada (k_memory_socket k) k = [] ->
  es_respuesta op = true ->
  exists b k1 k2, k_pcbs k !! p = Some b /\ suspension_timer_fin j k = Sigue tt k1 /\
    k_pcbs k1 = <[p := con_suspendido_en_swap true b]> (k_pcbs k) /\
    pedir_ok (enviar_des_suspender_proceso q) (con_entrada (k_memory_socket k) (enviar_ok op ++ resto) k1) = Sigue (op_num op) k2 /\
    k_entrada (k_memory_socket k) k2 = resto.
Proof.
  intros H Hj Hs He Hop. destruct (suspension_en_vano sr M j p k H Hj Hs He) as (b & k1 & Hb & E & Ep & Es & _ & Ec).
  pose proof (cumple_suspension_fin sr M j (fun _ k1 => Inv sr M k1) k H ltac:(done)) as Hc. unfold cumple in Hc. rewrite E in Hc.
  set (s := k_memory_socket k) in *. set (k1' := con_entrada s (enviar_ok op ++ resto) k1).
  exists b, k1, (tras_pedir (enviar_des_suspender_proceso q) [] resto k1'). split; [done|]. split; [done|]. split; [done|].
  assert (Es' : k_memory_socket k1' = s) by exact Es.
  split; [|unfold tras_pedir; rewrite Es'; apply entrada_con_entrada].
  apply pedir_ok_eq; [by constructor|done|by rewrite Es'|exact (cpus_vivas _ _ _ Hc)|]. rewrite Es'. apply entrada_con_entrada.
Qed.

(** *** Witness *)

Definition sin_respuesta : kernel := despues_de (take 22 eventos_ejemplo).

Lemma respuesta_tardia_desfasa_witness :
  exists k1 k2, suspension_timer_fin 0 sin_respuesta = Sigue tt k1 /\ (suspendido_en_swap <$> k_pcbs k1 !! 0) = Some true /\
    pedir_ok (enviar_des_suspender_proceso 0) (con_entrada 4 (enviar_ok SUSPENDER_PROCESO ++ []) k1) = Sigue (op_num SUSPENDER_PROCESO) k2.
Proof.
  assert (Ha : alcanzable ordenar config_cmn 4 sin_respuesta) by (apply despues_alcanzable; vm_compute; by eexists).
  destruct (alcanzable_inv _ ordenar_perm _ _ _ Ha) as [sr H].
  assert (Ej : suspensiones_en_curso sin_respuesta !! 0%nat = Some 0) by (vm_compute; reflexivity).
  assert (Em : k_memory_socket sin_respuesta = 4) by (vm_compute; reflexivity).
  assert (Ee : k_entrada 4 sin_respuesta = []) by (vm_compute; reflexivity).
  destruct (respuesta_tardia_desfasa sr [] 0 0 0 SUSPENDER_PROCESO [] sin_respuesta H Ej) as (b & k1 & k2 & _ & E1 & Ep & E2 & _).
  - rewrite Em. discriminate.
  - rewrite Em. exact Ee.
  - reflexivity.
  - exists k1, k2. split; [exact E1|]. rewrite Em in E2. split; [|exact E2]. rewrite Ep, lookup_insert_eq. reflexivity.
Defined.
