(* ===== verification/Dialogo.v ===== *)
(** * Dialogo: the Scheduler and Kernel Memory on the two ends of a socket

    A handler of the Scheduler sends its requests to Memory and waits for the
    answers; Memory serves each one in a turn of its thread. What both do is one
    step here ([conjunto]): the bytes one of them sends are the bytes the other
    reads. *)

From S2P Require Import Prelude Bloques Wire Buffer Tipos Mensajes Texto Conexiones Stick Swap Memoria MemoryIO MemSwap Procesos Compactacion MemScheduler MemInv MemSegmentos MemSuspension Indice MemRefina.
From S2P Require Import SchedTipos SchedColas SchedMutex SchedMemoria SchedIO SchedCpu SchedPlan SchedInv SchedInvOps SchedInvFin SchedSeguroOps SchedSeguroMem SchedSeguroIO SchedSeguro SchedSistema SchedCorrecto SchedVivacidad SchedProtocolo SchedSyscalls SchedDispositivo.

(** ** What a handler says to a socket *)

Definition a_socket (s : Z) (l : list (Z * list byte)) : list (list byte) :=
  omap (fun x => if x.1 =? s then Some x.2 else None) l.

Lemma a_socket_app s l1 l2 : a_socket s (l1 ++ l2) = a_socket s l1 ++ a_socket s l2.
Proof. apply omap_app. Qed.
Lemma a_socket_propio s bs : a_socket s [(s, bs)] = [bs].
Proof. unfold a_socket. cbn. by rewrite Z.eqb_refl. Qed.
Lemma a_socket_otro s s' bs : s' <> s -> a_socket s [(s', bs)] = [].
Proof. intros H. unfold a_socket. cbn. by destruct (Z.eqb_spec s' s). Qed.

(** No CPU is behind the socket [s]. *)
Definition ajena (s : Z) (k : kernel) : Prop := Forall (.≠ s) (q_socket <$> k_cpus k).

(** What a step leaves of the surroundings of a handler. *)
Record mismo_entorno (k k' : kernel) : Prop := {
  me_memory : k_memory_socket k' = k_memory_socket k;
  me_tomado : mutex_lista_tomado k' = mutex_lista_tomado k;
  me_contador : contador_pids k' = contador_pids k;
  me_cpus : q_socket <$> k_cpus k' = q_socket <$> k_cpus k }.

#[export] Instance mismo_entorno_preorder : PreOrder mismo_entorno.
Proof. split; [by intros k; split|]. intros k1 k2 k3 [] []. split; congruence. Qed.

Lemma ajena_entorno s k k' : mismo_entorno k k' -> ajena s k -> ajena s k'.
Proof. intros []. unfold ajena. congruence. Qed.

(** The step says nothing to [s], and reads nothing. *)
Definition calla {A} (s : Z) (m : K A) : Prop := forall k, ajena s k ->
  match m k with
  | Sigue _ k' => a_socket s (k_salidas k') = a_socket s (k_salidas k) /\ mismo_entorno k k' /\ k_entradas k' = k_entradas k
  | _ => True
  end.

Lemma calla_ret {A} s (a : A) : calla s (mret a).
Proof. intros k _. cbn. split; [done|]. by split. Qed.
Lemma calla_bind {A B} s (m : K A) (f : A -> K B) : calla s m -> (forall a, calla s (f a)) -> calla s (m ≫= f).
Proof.
  intros Hm Hf k Hk. specialize (Hm k Hk). rewrite bind_eq. destruct (m k) as [a k1| | | | |]; try done.
  destruct Hm as (E1 & M1 & N1). specialize (Hf a k1 (ajena_entorno _ _ _ M1 Hk)). destruct (f a k1); try done.
  destruct Hf as (E2 & M2 & N2). split; [congruence|]. split; [by etrans|congruence].
Qed.
Lemma calla_mod s f : (forall k, k_salidas (f k) = k_salidas k) -> (forall k, mismo_entorno k (f k)) ->
  (forall k, k_entradas (f k) = k_entradas k) -> calla s (k_mod f).
Proof. intros H1 H2 H3 k _. cbn. by rewrite H1. Qed.
Lemma calla_leer s p : calla s (leer p).
Proof. intros k _. unfold leer. destruct (k_pcbs k !! p); [|done]. split; [done|]. by split. Qed.
Lemma calla_get s : calla s k_get.
Proof. intros k _. cbn. split; [done|]. by split. Qed.
Lemma calla_gets {A} s (f : kernel -> A) : calla s (k_gets f).
Proof. intros k _. cbn. split; [done|]. by split. Qed.
Lemma calla_modificar s p f : calla s (modificar p f).
Proof. apply calla_bind; [apply calla_leer|]. intros b. by apply calla_mod. Qed.
Lemma calla_cola s x : calla s (cola_prioridad x).
Proof. intros k _. unfold cola_prioridad. destruct (x <? 0); [done|]. destruct (_ !! _); [|done]. split; [done|]. by split. Qed.
Lemma calla_poner_cola s x q : calla s (poner_cola_prioridad x q).
Proof. by apply calla_mod. Qed.
Lemma calla_post s : calla s post_sem_ready.
Proof. by apply calla_mod. Qed.
Create HintDb calla.
#[export] Hint Resolve calla_ret calla_leer calla_get calla_gets calla_modificar calla_cola calla_poner_cola calla_post : calla.

Ltac callando := repeat (solve [auto with calla | by apply calla_mod] || case_match || (apply calla_bind; [solve [auto with calla | by apply calla_mod]|intros ?])).

(** The victim of an eviction is one of the CPUs. *)
Lemma victima_de cs acc v k k' :
  buscar_victima cs acc k = Sigue v k' -> k' = k /\ (v = acc \/ exists c x y, v = Some (c, x, y) /\ c ∈ cs).
Proof.
  revert acc. induction cs as [|c cs IH]; intros acc; cbn [buscar_victima]; [intros [= <- <-]; by split; [|left]|].
  assert (HI : forall acc, buscar_victima cs acc k = Sigue v k' -> (acc = Some (c, 0, 0) \/ True) ->
    k' = k /\ (v = acc \/ exists c' x y, v = Some (c', x, y) /\ c' ∈ c :: cs)).
  { intros acc' H _. destruct (IH acc' H) as [-> [->|(c' & x & y & -> & Hc)]]; (split; [done|]); [by left|right].
    exists c', x, y. split; [done|by right]. }
  destruct (proceso_actual c) as [p|]; [|intros H; by apply HI; [|right]].
  destruct (_ || _); [intros H; by apply HI; [|right]|]. rewrite bind_eq. unfold leer. destruct (k_pcbs k !! p) as [b|]; [|done].
  intros H. apply HI in H as [-> Hv]; [|by right]. split; [done|]. destruct Hv as [->|Hv]; [|by right].
  assert (Hc : exists c' x y, Some (c, prioridad b, tiempo_inicio_ejecucion b) = Some (c', x, y) /\ c' ∈ c :: cs)
    by (eexists _, _, _; split; [done|left]).
  destruct acc as [[[c0 x0] y0]|]; [|by right]. destruct (_ >? _); [by right|]. destruct (_ && _); [by right|by left].
Qed.

Lemma calla_enviar s s' bs : s' <> s -> calla s (k_enviar s' bs).
Proof.
  intros H k _. unfold k_enviar, k_mod. destruct (s' =? -1); [split; [done|]; by split|].
  split; [|by split]. cbn [con_k_salidas k_salidas]. by rewrite a_socket_app, a_socket_otro, app_nil_r.
Qed.

Lemma calla_verificar s p : calla s (verificar_y_desalojar_por_prioridad p).
Proof.
  intros k Hk. unfold verificar_y_desalojar_por_prioridad. rewrite bind_eq. cbn [k_get].
  destruct (negb _); [by apply calla_ret|]. destruct (compactacion_en_progreso k); [by apply calla_ret|].
  rewrite bind_eq. unfold leer at 1. destruct (k_pcbs k !! p) as [b|]; [|done]. rewrite bind_eq.
  destruct (buscar_victima (k_cpus k) None k) as [v k1| | | | |] eqn:E; try done. apply victima_de in E as [-> Hv].
  destruct v as [[[c x] y]|]; [|by apply calla_ret]. destruct (_ <? _); [|by apply calla_ret].
  apply calla_enviar; [|done]. destruct Hv as [?|(c' & x' & y' & [= <- <- <-] & Hc)]; [done|].
  unfold ajena in Hk. rewrite Forall_fmap, Forall_forall in Hk. by apply Hk.
Qed.
#[export] Hint Resolve calla_verificar : calla.
Lemma calla_poner_prioridad s b p x : calla s (poner_en_prioridad b p x).
Proof. unfold poner_en_prioridad. callando. Qed.
Lemma calla_poner_ready s b p : calla s (poner_en_ready b p).
Proof. unfold poner_en_ready. callando. Qed.
#[export] Hint Resolve calla_poner_prioridad calla_poner_ready : calla.
Lemma calla_encolar s p : calla s (encolar_en_ready_y_notificar p).
Proof. unfold encolar_en_ready_y_notificar, reencolar_proceso_ready_final. callando. Qed.

#[export] Hint Resolve calla_encolar : calla.

(** The CPU table keeps its sockets. *)
Lemma calla_modificar_cpu s id f : (forall c, q_socket (f c) = q_socket c) -> calla s (modificar_cpu id f).
Proof.
  intros H. apply calla_mod; intros k; destruct (indice_cpu id (k_cpus k)) as [i|]; try done. split; [done..|].
  cbn [con_k_cpus k_cpus]. apply list_eq. intros j. rewrite !list_lookup_fmap, list_lookup_alter.
  destruct (decide (i = j)) as [->|]; [|done]. destruct (k_cpus k !! j); [|done]. cbn. by rewrite H.
Qed.
Lemma calla_liberar_reservada s id : calla s (liberar_cpu_reservada id).
Proof. apply calla_bind; [by apply calla_modificar_cpu|]. intros _. by apply calla_mod. Qed.

Lemma calla_volver s p id : calla s (volver_a_cpu p id).
Proof.
  intros k Hk. unfold volver_a_cpu, devolver_proceso_a_misma_cpu.
  assert (E : forall (f : option t_cpu -> K bool) (g : bool -> K unit), ((c ← k_gets (cpu_de id); f c) ≫= g) k = (f (cpu_de id k) ≫= g) k)
    by done.
  rewrite E. clear E. destruct (cpu_de id k) as [c|] eqn:Ec; [|by apply calla_encolar].
  destruct (Z.eqb_spec (q_socket c) (-1)) as [|_]; [by apply calla_encolar|].
  assert (Hc : q_socket c <> s).
  { unfold cpu_de in Ec. apply bind_Some in Ec as (i & _ & Hi). unfold ajena in Hk. rewrite Forall_fmap, Forall_forall in Hk.
    apply Hk. by eapply list_elem_of_lookup_2. }
  revert k Hk Ec. unfold iniciar_quantum_timer. intros k Hk _. revert k Hk.
  apply calla_bind; [|intros []; auto with calla].
  apply calla_bind; [by apply calla_modificar_cpu|]. intros _. apply calla_bind; [by apply calla_enviar|]. intros _.
  apply calla_bind; [auto with calla|]. intros b. apply calla_bind; [|auto with calla]. destruct (_ >? 0); [|auto with calla].
  apply calla_bind; [by apply calla_modificar_cpu|]. intros _. by apply calla_mod.
Qed.

(** ** A request and its answer *)

(** The acknowledgements a wait sends. *)
Definition acks (ns : list notificacion) : list (list byte) :=
  ns ≫= (fun n => match n with IniciaCompactacion => [enviar_ok INICIAR_COMPACTACION] | _ => [] end).

Lemma interrupciones_ajenas s cs : Forall (.≠ s) (q_socket <$> cs) -> a_socket s (interrupciones cs) = [].
Proof.
  induction cs as [|c cs IH]; [done|]. rewrite fmap_cons, Forall_cons. intros [Hc Hcs]. unfold interrupciones. cbn [omap list_omap].
  fold (interrupciones cs). destruct (proceso_actual c) as [p|]; [|by apply IH]. destruct (_ && _); [|by apply IH].
  unfold a_socket. cbn [omap list_omap fst snd]. destruct (Z.eqb_spec (q_socket c) s); [done|]. by apply IH.
Qed.

Lemma entorno_efectos s ns k : mismo_entorno k (foldl (efecto s) k ns).
Proof.
  revert k. induction ns as [|n ns IH]; intros k; [reflexivity|]. cbn [foldl]. etrans; [|apply IH]. by destruct n.
Qed.

Lemma dicho_efectos s ns k : ajena s k -> a_socket s (k_salidas (foldl (efecto s) k ns)) = a_socket s (k_salidas k) ++ acks ns.
Proof.
  revert k. induction ns as [|n ns IH]; intros k Hk; [by rewrite app_nil_r|]. cbn [foldl].
  rewrite IH by (eapply ajena_entorno; [|exact Hk]; by apply (entorno_efectos s [n])).
  unfold acks. rewrite bind_cons. destruct n; cbn [efecto app k_salidas con_sem_reevaluar_suspendidos con_sem_ready con_compactacion_en_progreso con_k_salidas]; try done.
  rewrite !a_socket_app, a_socket_propio, interrupciones_ajenas by exact Hk. by rewrite <-app_assoc.
Qed.

Lemma tras_pedir_ok pedido ns resto k :
  ajena (k_memory_socket k) k -> let k' := tras_pedir pedido ns resto k in
  misma k k' /\ mismo_entorno k k' /\ k_entrada (k_memory_socket k) k' = resto /\
  a_socket (k_memory_socket k) (k_salidas k') = a_socket (k_memory_socket k) (k_salidas k) ++ pedido :: acks ns.
Proof.
  intros Hk. cbv zeta. unfold tras_pedir. set (s := k_memory_socket k) in *. set (k1 := con_k_salidas (k_salidas k ++ [(s, pedido)]) k).
  split; [|split; [|split; [apply entrada_con_entrada|]]].
  - etrans; [apply (misma_efectos s ns k1)|]. done.
  - destruct (entorno_efectos s ns k1) as [M1 M2 M3 M4]. by split.
  - change (k_salidas (con_entrada s resto (foldl (efecto s) k1 ns))) with (k_salidas (foldl (efecto s) k1 ns)).
    rewrite dicho_efectos by exact Hk. unfold k1. cbn [con_k_salidas k_salidas]. by rewrite a_socket_app, a_socket_propio, <-app_assoc.
Qed.

(** ** What both say to each other *)

(** A conversation: what the Scheduler says, in order, and what Memory answers; each
    request is one turn of the thread of Memory. *)
Inductive dialogo (s sms : Z) : memoria -> list (list byte) -> list (list byte) -> memoria -> Prop :=
| di_fin m : dialogo s sms m [] [] m
| di_pedido m p m1 rs dichos rs' m2 :
    (forall n, memory_receptor_scheduler_thread (S n) (llega s sms p m) = memory_receptor_scheduler_thread n m1) ->
    m_salidas m1 = m_salidas m ++ (pair s <$> rs) ->
    dialogo s sms m1 dichos rs' m2 ->
    dialogo s sms m (pedido_bytes_mem p :: (if compacta sms m p then [enviar_ok INICIAR_COMPACTACION] else []) ++ dichos) (rs ++ rs') m2.

Lemma dialogo_app s sms m d1 r1 m1 d2 r2 m2 :
  dialogo s sms m d1 r1 m1 -> dialogo s sms m1 d2 r2 m2 -> dialogo s sms m (d1 ++ d2) (r1 ++ r2) m2.
Proof.
  induction 1 as [|m p m' rs dichos rs' m'' E Hs _ IH]; intros H2; [done|]. cbn [app]. rewrite <-app_assoc.
  rewrite <-app_assoc. eapply di_pedido; [done..|]. by apply IH.
Qed.

(** The two programs, joined by the socket that is [k_memory_socket] for one and [s]
    for the other: the handler reads what Memory answers to what the handler says.
    Whatever else is in the stream ([e]) stays in it. *)
Definition conjunto {A} (s sms : Z) (h : K A) (k : kernel) (m : memoria) (x : A) (k' : kernel) (m' : memoria) : Prop :=
  let sk := k_memory_socket k in
  exists dichos rs, dialogo s sms m dichos rs m' /\
    (forall e, h (con_entrada sk (k_entrada sk k ++ mjoin rs ++ e) k) = Sigue x (con_entrada sk (k_entrada sk k' ++ e) k')) /\
    k_memory_socket k' = sk /\ a_socket sk (k_salidas k') = a_socket sk (k_salidas k) ++ dichos.

Lemma con_entrada_dos s x y k : con_entrada s x (con_entrada s y k) = con_entrada s x k.
Proof. unfold con_entrada. cbn. by rewrite insert_insert_eq. Qed.

Lemma conjunto_bind {A B} s sms (h : K A) (f : A -> K B) k m x k1 m1 y k2 m2 :
  conjunto s sms h k m x k1 m1 -> conjunto s sms (f x) k1 m1 y k2 m2 -> conjunto s sms (h ≫= f) k m y k2 m2.
Proof.
  intros (d1 & r1 & D1 & E1 & S1 & A1) (d2 & r2 & D2 & E2 & S2 & A2). rewrite S1 in *. exists (d1 ++ d2), (r1 ++ r2).
  split; [by eapply dialogo_app|]. split; [|split; [done|by rewrite A2, A1, app_assoc]].
  intros e. rewrite bind_eq, join_app, <-app_assoc, E1. apply E2.
Qed.

(** The same handler, but for what it finds in the stream. *)
Lemma conjunto_igual {A} s sms (h g : K A) k m x k' m' :
  (forall bs, h (con_entrada (k_memory_socket k) bs k) = g (con_entrada (k_memory_socket k) bs k)) ->
  conjunto s sms g k m x k' m' -> conjunto s sms h k m x k' m'.
Proof.
  intros Hg (d & r & D & E & S1 & A1). exists d, r. split; [done|]. split; [|done]. intros e. by rewrite Hg.
Qed.

(** *** Handlers that do not read *)

Definition fin_con {A} (f : kernel -> kernel) (r : fin A) : fin A :=
  match r with
  | Sigue a k => Sigue a (f k) | Terminado k => Terminado (f k)
  | Trabado k => Trabado (f k) | Bloqueado => Bloqueado | Abortado => Abortado | Indefinido => Indefinido
  end.

(** What arrived on the sockets makes no difference to the step. *)
Definition ciega {A} (m : K A) : Prop := forall k e, m (con_k_entradas e k) = fin_con (con_k_entradas e) (m k).

Lemma ciega_ret {A} (a : A) : ciega (mret a).
Proof. done. Qed.
Lemma ciega_bind {A B} (m : K A) (f : A -> K B) : ciega m -> (forall a, ciega (f a)) -> ciega (m ≫= f).
Proof. intros Hm Hf k e. rewrite !bind_eq, Hm. destruct (m k); cbn; [|done..]. apply Hf. Qed.
Lemma ciega_mod f : (forall k e, f (con_k_entradas e k) = con_k_entradas e (f k)) -> ciega (k_mod f).
Proof. intros H k e. unfold k_mod, fin_con. by rewrite H. Qed.
Lemma ciega_gets {A} (f : kernel -> A) : (forall k e, f (con_k_entradas e k) = f k) -> ciega (k_gets f).
Proof. intros H k e. unfold k_gets, fin_con. by rewrite H. Qed.
(** The state read is used, but not for its inputs. *)
Lemma ciega_get {A} (f : kernel -> K A) :
  (forall k e, f (con_k_entradas e k) = f k) -> (forall k, ciega (f k)) -> ciega (k ← k_get; f k).
Proof. intros H Hf k e. change (f (con_k_entradas e k) (con_k_entradas e k) = fin_con (con_k_entradas e) (f k k)). rewrite H. apply Hf. Qed.
Lemma ciega_leer p : ciega (leer p).
Proof. intros k e. unfold leer. cbn. by destruct (k_pcbs k !! p). Qed.
Lemma ciega_modificar p f : ciega (modificar p f).
Proof. apply ciega_bind; [apply ciega_leer|]. intros b. by apply ciega_mod. Qed.
Lemma ciega_leer_mutex i : ciega (leer_mutex i).
Proof. intros k e. unfold leer_mutex. cbn. by destruct (lista_mutexes k !! i). Qed.
Lemma ciega_modificar_mutex i f : ciega (modificar_mutex i f).
Proof. apply ciega_bind; [apply ciega_leer_mutex|]. intros b. by apply ciega_mod. Qed.
Lemma ciega_cola x : ciega (cola_prioridad x).
Proof. intros k e. unfold cola_prioridad. destruct (x <? 0); [done|]. cbn. by destruct (_ !! _). Qed.
Lemma ciega_enviar s bs : ciega (k_enviar s bs).
Proof. apply ciega_mod. intros k e. by destruct (s =? -1). Qed.
Lemma ciega_lock : ciega lock_lista_mutexes.
Proof. intros k e. unfold lock_lista_mutexes. cbn. by destruct (mutex_lista_tomado k). Qed.
Create HintDb ciega.
#[export] Hint Resolve ciega_ret ciega_leer ciega_modificar ciega_leer_mutex ciega_modificar_mutex ciega_cola ciega_enviar ciega_lock : ciega.

Ltac cegando :=
  first
    [ solve [auto with ciega | by apply ciega_mod | by apply ciega_gets]
    | case_match; cegando
    | apply ciega_get; [done|intros ?; cegando]
    | apply ciega_bind; [cegando|intros ?; cegando] ].

Lemma ciega_victima cs acc : ciega (buscar_victima cs acc).
Proof. revert acc. induction cs as [|c cs IH]; intros acc; cbn [buscar_victima]; cegando. Qed.
#[export] Hint Resolve ciega_victima : ciega.
Lemma ciega_verificar p : ciega (verificar_y_desalojar_por_prioridad p).
Proof. unfold verificar_y_desalojar_por_prioridad. cegando. Qed.
#[export] Hint Resolve ciega_verificar : ciega.
Lemma ciega_poner_prioridad b p x : ciega (poner_en_prioridad b p x).
Proof. unfold poner_en_prioridad, poner_cola_prioridad, post_sem_ready. cegando. Qed.
#[export] Hint Resolve ciega_poner_prioridad : ciega.
Lemma ciega_encolar p : ciega (encolar_en_ready_y_notificar p).
Proof. unfold encolar_en_ready_y_notificar, reencolar_proceso_ready_final, poner_en_ready, post_sem_ready. cegando. Qed.
Lemma ciega_posicion p l : ciega (posicion_pid p l).
Proof. induction l as [|x l IH]; cbn [posicion_pid]; cegando. Qed.
Lemma ciega_modificar_cpu id f : ciega (modificar_cpu id f).
Proof. apply ciega_mod. intros k e. change (k_cpus (con_k_entradas e k)) with (k_cpus k). by destruct (indice_cpu id (k_cpus k)). Qed.
#[export] Hint Resolve ciega_encolar ciega_posicion ciega_modificar_cpu : ciega.
Lemma ciega_remover p : ciega (remover_de_lista_suspendidos p).
Proof. unfold remover_de_lista_suspendidos. cegando. Qed.
Lemma ciega_volver p id : ciega (volver_a_cpu p id).
Proof. unfold volver_a_cpu, devolver_proceso_a_misma_cpu, iniciar_quantum_timer. cegando. Qed.

Lemma ciega_sin_pid p l : ciega (sin_pid p l).
Proof. induction l; cbn [sin_pid]; cegando. Qed.
Lemma ciega_mejor_bloqueado l x : ciega (mejor_bloqueado l x).
Proof. revert x. induction l; intros x; cbn [mejor_bloqueado]; cegando. Qed.
#[export] Hint Resolve ciega_remover ciega_volver ciega_sin_pid ciega_mejor_bloqueado : ciega.
Lemma ciega_mejor_heredada p ms x : ciega (mejor_heredada p ms x).
Proof. revert x. induction ms; intros x; cbn [mejor_heredada]; cegando. Qed.
#[export] Hint Resolve ciega_mejor_heredada : ciega.
Lemma ciega_recalcular p : ciega (recalcular_prioridad_dinamica p).
Proof. unfold recalcular_prioridad_dinamica, reubicar_proceso_en_ready, unlock_lista_mutexes, poner_cola_prioridad. cegando. Qed.
#[export] Hint Resolve ciega_recalcular : ciega.
Lemma ciega_liberar_bucle n i p : ciega (liberar_mutexes_bucle n i p).
Proof. revert i. induction n; intros i; cbn [liberar_mutexes_bucle]; unfold entregar_mutex; cegando. Qed.
#[export] Hint Resolve ciega_liberar_bucle : ciega.
Lemma ciega_liberar_mutexes p : ciega (liberar_mutexes_de_proceso p).
Proof. unfold liberar_mutexes_de_proceso, unlock_lista_mutexes. cegando. Qed.
Lemma ciega_eliminar p : ciega (eliminar_pcb p).
Proof. unfold eliminar_pcb. cegando. Qed.
Lemma ciega_liberar_pcb p : ciega (liberar_pcb p).
Proof. unfold liberar_pcb. cegando. Qed.
#[export] Hint Resolve ciega_liberar_mutexes ciega_eliminar ciega_liberar_pcb : ciega.

(** Such a handler talks to nobody while it runs. *)
Lemma conjunto_puro {A} s sms (h : K A) k m x k' :
  ciega h -> h k = Sigue x k' -> k_memory_socket k' = k_memory_socket k -> k_entradas k' = k_entradas k ->
  a_socket (k_memory_socket k) (k_salidas k') = a_socket (k_memory_socket k) (k_salidas k) -> conjunto s sms h k m x k' m.
Proof.
  intros Hc E Hm He Ha. exists [], []. split; [constructor|]. split; [|split; [done|by rewrite Ha, app_nil_r]].
  intros e. unfold con_entrada at 1. rewrite Hc, E. cbn [fin_con]. f_equal. unfold con_entrada, k_entrada. by rewrite He.
Qed.

(** *** Requests that are answered with an [ok] *)

Lemma efectos_con_entrada s x ns k : foldl (efecto s) (con_entrada s x k) ns = con_entrada s x (foldl (efecto s) k ns).
Proof. revert k. induction ns as [|n ns IH]; intros k; [done|]. cbn [foldl]. rewrite <-IH. by destruct n. Qed.

Lemma tras_pedir_entrada pedido ns r x k :
  tras_pedir pedido ns r (con_entrada (k_memory_socket k) x k) = tras_pedir pedido ns r k.
Proof.
  unfold tras_pedir. change (k_memory_socket (con_entrada _ x k)) with (k_memory_socket k). set (sk := k_memory_socket k).
  change (con_k_salidas (k_salidas (con_entrada sk x k) ++ [(sk, pedido)]) (con_entrada sk x k)) with
    (con_entrada sk x (con_k_salidas (k_salidas k ++ [(sk, pedido)]) k)).
  by rewrite efectos_con_entrada, con_entrada_dos.
Qed.

Lemma conjunto_pedir s sms k m m' op pedido extra ns :
  Forall notificacion_valida ns -> acks ns = [] -> k_entrada (k_memory_socket k) k = ns ≫= notificacion_bytes ->
  es_respuesta op = true -> k_memory_socket k <> -1 -> Forall (vivo k) (en_cpus k) -> ajena (k_memory_socket k) k ->
  dialogo s sms m [pedido] (enviar_ok op :: extra) m' ->
  conjunto s sms (pedir_ok pedido) k m (op_num op) (tras_pedir pedido ns (mjoin extra) k) m'.
Proof.
  intros Hns Hak He Hop Hs Hv Ha Hd. destruct (tras_pedir_ok pedido ns (mjoin extra) k Ha) as (_ & [M1 _ _ _] & M3 & M4).
  rewrite Hak in M4. exists [pedido], (enviar_ok op :: extra). split; [done|]. split; [|done]. intros e. rewrite M3.
  rewrite (pedir_ok_eq ns op pedido (mjoin extra ++ e)).
  - f_equal. rewrite tras_pedir_entrada. unfold tras_pedir. by rewrite con_entrada_dos.
  - done.
  - done.
  - done.
  - exact Hv.
  - change (k_memory_socket (con_entrada _ ?x k)) with (k_memory_socket k). rewrite entrada_con_entrada, He. cbn. by rewrite !app_assoc.
Qed.

(** *** Any other exchange *)

(** What arrived is read. *)
Lemma conjunto_recibir {A} s sms (r : lector A) k m a pl resto :
  (forall e, r (pl ++ e) = Some (a, e)) -> k_entrada (k_memory_socket k) k = pl ++ resto ->
  conjunto s sms (k_recibir (k_memory_socket k) r) k m a (con_entrada (k_memory_socket k) resto k) m.
Proof.
  intros Hr He. exists [], []. split; [constructor|]. split; [|split; [done|by rewrite app_nil_r]]. intros e.
  rewrite He, entrada_con_entrada, con_entrada_dos. cbn [mjoin list_join app].
  apply recibir_en. by rewrite <-app_assoc.
Qed.

Definition pregunta (pedido : list byte) : K Z :=
  s ← k_gets k_memory_socket; _ ← k_enviar s pedido; recibir_respuesta_de_memoria s.

(** The op_code of the answer, after the notifications that were in the stream
    ([ns0]) and those that come with it ([ns]); its body is still to be read. *)
Lemma conjunto_pregunta s sms k m m' pedido ns0 ns op pl extra rs :
  Forall notificacion_valida ns0 -> acks ns0 = [] -> Forall notificacion_valida ns ->
  k_entrada (k_memory_socket k) k = ns0 ≫= notificacion_bytes ->
  es_respuesta op = true -> k_memory_socket k <> -1 -> Forall (vivo k) (en_cpus k) -> ajena (k_memory_socket k) k ->
  mjoin rs = (ns ≫= notificacion_bytes) ++ trama op pl ++ extra -> dialogo s sms m (pedido :: acks ns) rs m' ->
  conjunto s sms (pregunta pedido) k m (op_num op)
    (tras_pedir pedido (ns0 ++ ns) (le_enc 8 (Z.of_nat (length pl)) ++ pl ++ extra) k) m'.
Proof.
  intros Hns0 Hak Hns He Hop Hs Hv Ha Hrs Hd. set (resto := le_enc 8 (Z.of_nat (length pl)) ++ pl ++ extra).
  destruct (tras_pedir_ok pedido (ns0 ++ ns) resto k Ha) as (_ & [M1 _ _ _] & M3 & M4).
  exists (pedido :: acks ns), rs. split; [done|]. split; [|split; [done|]].
  2: { rewrite M4. unfold acks. rewrite bind_app. fold (acks ns0) (acks ns). by rewrite Hak. }
  intros e. rewrite M3, He, Hrs. set (sk := k_memory_socket k) in *. assert (Hs' : (sk =? -1) = false) by lia.
  rewrite <-!app_assoc, (app_assoc (ns0 ≫= _)), <-bind_app. unfold pregunta. rewrite bind_eq. cbn [k_gets].
  change (k_memory_socket (con_entrada sk ?x k)) with sk. rewrite bind_eq. unfold k_enviar at 1, k_mod at 1. rewrite Hs'.
  match goal with |- context [con_k_salidas _ (con_entrada sk ?x k)] =>
    change (con_k_salidas _ (con_entrada sk x k)) with (con_entrada sk x (con_k_salidas (k_salidas k ++ [(sk, pedido)]) k)) end.
  rewrite (respuesta_bucle_op (ns0 ++ ns) sk op pl (extra ++ e)); [|by apply Forall_app|done..].
  f_equal. unfold tras_pedir. fold sk. rewrite con_entrada_dos. unfold resto. by rewrite <-!app_assoc.
Qed.

(** ** What both know *)

(** The Scheduler has the process in swap. *)
Definition fuera_k (b : t_pcb) : bool :=
  suspendido_en_swap b && (bool_decide (estado b = SUSP_BLOCK) || bool_decide (estado b = SUSP_READY)).

(** The Scheduler and Memory agree on the segments of a process, and on where it is. *)
Definition acoplado (b : t_pcb) (ap : aproc) : Prop :=
  segmentos_info b = (fun sg => (sg.1, Z.of_nat (length sg.2))) <$> a_segs ap /\ fuera_k b = a_fuera ap.

(** A notification that does not belong to an exchange. *)
Definition aviso (n : notificacion) : Prop :=
  match n with MemoriaLiberada | NuevaMemoria _ _ _ _ => notificacion_valida n | _ => False end.

Record acoplados (s sms bs : Z) (k : kernel) (m : memoria) (a : almacen) : Prop := {
  ac_rep : exists ram sw, rep s sms bs m a ram sw;
  ac_pcbs : map_Forall2 (fun _ => acoplado) (k_pcbs k) (a_procesos a);
  ac_socket : 0 <= k_memory_socket k;
  ac_ajena : ajena (k_memory_socket k) k;
  ac_tomado : mutex_lista_tomado k = false;
  ac_contador : contador_pids k <= 2147483647;
  ac_avisos : exists ns, Forall aviso ns /\ k_entrada (k_memory_socket k) k = ns ≫= notificacion_bytes }.

Lemma avisos_validos ns : Forall aviso ns -> Forall notificacion_valida ns /\ acks ns = [].
Proof.
  induction 1 as [|n ns Hn _ [IH1 IH2]]; [by split|]. split; [constructor; [by destruct n|done]|].
  unfold acks. rewrite bind_cons. fold (acks ns). rewrite IH2. by destruct n.
Qed.

(** What another handler may change without Memory having to know. *)
Lemma acoplados_ajeno s sms bs k k' m a :
  acoplados s sms bs k m a -> mismo_entorno k k' -> k_entrada (k_memory_socket k) k' = k_entrada (k_memory_socket k) k ->
  map_Forall2 (fun _ b b' => segmentos_info b' = segmentos_info b /\ fuera_k b' = fuera_k b) (k_pcbs k) (k_pcbs k') ->
  acoplados s sms bs k' m a.
Proof.
  intros [H1 H2 H3 H4 H5 H6 H7] Hm He Hp. pose proof Hm as [M1 M2 M3 M4]. split; rewrite ?M1; try done; try congruence.
  - intros p. specialize (Hp p). specialize (H2 p).
    destruct (k_pcbs k !! p) as [b|] eqn:Eb; inversion Hp as [x b' [E1 E2] Ex Ey|]; subst; inversion H2 as [y ap [F1 F2] Ex' Ey'|]; subst; constructor.
    split; congruence.
  - by apply (ajena_entorno _ k).
  - by rewrite He.
Qed.
