(* ===== verification/Sistema.v ===== *)
(** * Sistema: the Scheduler and Kernel Memory together

    Every exchange between the two, as one step of both ([Dialogo]). As long as the
    Scheduler is in a state its threads reach, its requests are ones Memory admits,
    Memory's answers are ones the Scheduler understands, and both go on agreeing on
    the segments of every process and on which processes are in swap. *)

From S2P Require Import Prelude Bloques Wire Buffer Tipos Mensajes Texto Conexiones Stick Swap Memoria MemoryIO MemSwap Procesos Compactacion MemScheduler MemInv MemSegmentos MemSuspension Indice MemRefina.
From S2P Require Import SchedTipos SchedColas SchedMutex SchedMemoria SchedIO SchedCpu SchedPlan SchedInv SchedInvOps SchedInvFin SchedSeguroOps SchedSeguroMem SchedSeguroIO SchedSeguro SchedSistema SchedCorrecto SchedVivacidad SchedProtocolo SchedSyscalls SchedDispositivo Dialogo.

Section sistema.
Context (s sms bs : Z) (Hs0 : 0 <= s) (Hsms : 0 < sms < 4294967296).

(** ** One exchange *)

(** Memory's side: a request that the store admits, in one turn. *)
Lemma un_pedido m a p :
  (exists ram sw, rep s sms bs m a ram sw) -> admisible sms bs a p ->
  exists m' a' rs, apaso sms bs a p rs a' /\ (exists ram sw, rep s sms bs m' a' ram sw) /\ coherente sms m p rs /\
    (forall dichos rs' m2, dialogo s sms m' dichos rs' m2 ->
       dialogo s sms m (pedido_bytes_mem p :: (if compacta sms m p then [enviar_ok INICIAR_COMPACTACION] else []) ++ dichos) (rs ++ rs') m2).
Proof.
  intros (ram & sw & Hr) Ha.
  destruct (turno_atendido s sms bs m a ram sw p Hr Hs0 Hsms Ha) as (m' & ram' & sw' & a' & rs & E & Hp & Hr' & Hsal & Hc).
  exists m', a', rs. split; [done|]. split; [by exists ram', sw'|]. split; [done|]. intros dichos rs' m2 Hd. by eapply di_pedido.
Qed.

Lemma un_dialogo m a p :
  (exists ram sw, rep s sms bs m a ram sw) -> admisible sms bs a p ->
  exists m' a' rs, apaso sms bs a p rs a' /\ (exists ram sw, rep s sms bs m' a' ram sw) /\ coherente sms m p rs /\
    dialogo s sms m (pedido_bytes_mem p :: if compacta sms m p then [enviar_ok INICIAR_COMPACTACION] else []) rs m'.
Proof.
  intros H Ha. destruct (un_pedido m a p H Ha) as (m' & a' & rs & Hp & Hr & Hc & Hd). exists m', a', rs.
  split; [done|]. split; [done|]. split; [done|]. specialize (Hd [] [] m' (di_fin _ _ _)). by rewrite !app_nil_r in Hd.
Qed.

Lemma pid_int sr M k m a p b : Inv sr M k -> acoplados s sms bs k m a -> k_pcbs k !! p = Some b -> es_int p /\ 0 <= p.
Proof.
  intros H Hac Hb. assert (Hp : p ∈ todos_los_procesos k) by (apply (i_vivos _ _ _ H); by exists b).
  pose proof (i_pids _ _ _ H) as Hf. rewrite Forall_forall in Hf. specialize (Hf p Hp).
  pose proof (ac_contador _ _ _ _ _ _ Hac). unfold es_int. lia.
Qed.

Lemma acoplado_de k m a p b :
  acoplados s sms bs k m a -> k_pcbs k !! p = Some b -> exists ap, a_procesos a !! p = Some ap /\ acoplado b ap.
Proof.
  intros H Hb. pose proof (ac_pcbs _ _ _ _ _ _ H p) as Hp. rewrite Hb in Hp. inversion Hp as [x ap Hx|]; subst. by exists ap.
Qed.

(** The Scheduler's side. *)
Definition oyente (k : kernel) : Prop :=
  0 <= k_memory_socket k /\ ajena (k_memory_socket k) k /\ exists ns, Forall aviso ns /\ k_entrada (k_memory_socket k) k = ns ≫= notificacion_bytes.

Lemma ac_oyente k m a : acoplados s sms bs k m a -> oyente k.
Proof. intros []. by split_and!. Qed.

Lemma oyente_tras k k' ns :
  oyente k -> mismo_entorno k k' -> Forall aviso ns -> k_entrada (k_memory_socket k) k' = ns ≫= notificacion_bytes -> oyente k'.
Proof.
  intros (H1 & H2 & _) Hm Hns He. unfold oyente. rewrite (me_memory _ _ Hm). split; [done|]. split; [by apply (ajena_entorno _ k)|]. by exists ns.
Qed.

(** When the answer is an [ok]. *)
Lemma pedir_conjunto sr M k m m' op pedido extra :
  Inv sr M k -> oyente k -> es_respuesta op = true -> dialogo s sms m [pedido] (enviar_ok op :: extra) m' ->
  exists k1, conjunto s sms (pedir_ok pedido) k m (op_num op) k1 m' /\ misma k k1 /\ mismo_entorno k k1 /\
    k_entrada (k_memory_socket k) k1 = mjoin extra.
Proof.
  intros H (Hsk & Haj & ns & Hns & He) Hop Hd. destruct (avisos_validos ns Hns) as [Hv Ha].
  destruct (tras_pedir_ok pedido ns (mjoin extra) k Haj) as (M1 & M2 & M3 & _).
  exists (tras_pedir pedido ns (mjoin extra) k). split; [|done].
  apply conjunto_pedir; try done; [lia|exact (cpus_vivas _ _ _ H)].
Qed.

Lemma acoplados_tras k k' m m' a a' :
  acoplados s sms bs k m a -> mismo_entorno k k' -> (exists ram sw, rep s sms bs m' a' ram sw) ->
  map_Forall2 (fun _ => acoplado) (k_pcbs k') (a_procesos a') ->
  (exists ns, Forall aviso ns /\ k_entrada (k_memory_socket k) k' = ns ≫= notificacion_bytes) -> acoplados s sms bs k' m' a'.
Proof.
  intros [H1 H2 H3 H4 H5 H6 H7] Hm Hr Hp He. pose proof Hm as [M1 M2 M3 M4]. split; rewrite ?M1; try done; try congruence.
  by apply (ajena_entorno _ k).
Qed.

Lemma le_enc_u32 x : le_enc 4 (u32 x) = le_enc 4 x.
Proof. rewrite <-(le_enc_dec (le_enc 4 x)) at 1. by rewrite length_le_enc, le_dec_enc4. Qed.

(** ** Suspension *)

Lemma suspension_conjunta sr j p b ap k m a :
  Inv sr [] k -> acoplados s sms bs k m a -> suspensiones_en_curso k !! j = Some p -> k_pcbs k !! p = Some b ->
  a_procesos a !! p = Some ap -> a_n_bloques bs ap <= a_bloques a ->
  exists k' m', let a' := Almacen (con_proceso p (AProc true (a_segs ap)) a) (a_libre a + a_tam ap) (a_bloques a - a_n_bloques bs ap) in
    conjunto s sms (suspension_timer_fin j) k m tt k' m' /\ acoplados s sms bs k' m' a' /\
    k_pcbs k' = <[p := con_suspendido_en_swap true b]> (k_pcbs k).
Proof.
  intros H Hac Hj Hb Hap Hbl. destruct (pid_int _ _ _ _ _ _ _ H Hac Hb) as [Hpi _].
  destruct (acoplado_de _ _ _ _ _ Hac Hb) as (ap2 & Hap2 & Hsg & Hf). simplify_eq.
  assert (Hcur : p ∈ suspensiones_en_curso k) by (by eapply list_elem_of_lookup_2).
  apply (i_curso _ _ _ H) in Hcur as [Hblk (b2 & Hb2 & He & Hsw)]. simplify_eq.
  assert (Hfu : a_fuera ap = false) by (rewrite <-Hf; unfold fuera_k; by rewrite Hsw).
  assert (Hadm : admisible sms bs a (PSuspender p)).
  { split; [done|]. split; intros ap' E; simplify_eq; done. }
  destruct (un_dialogo m a _ (ac_rep _ _ _ _ _ _ Hac) Hadm) as (m' & a' & rs & Hpa & Hr' & _ & Hd).
  inversion Hpa as [| | | | | | | | | |? ? Hno|? ? ap' Hsi| | | | | |]; subst; [congruence|]. simplify_eq.
  destruct (pedir_conjunto sr [] k m m' SUSPENDER_PROCESO _ [] H (ac_oyente _ _ _ Hac) eq_refl Hd) as (k1 & C1 & M1 & N1 & G1).
  pose proof (Inv_misma _ _ _ _ M1 H) as H1. pose proof (misma_leer _ _ _ _ M1 Hb) as Hb1.
  assert (Eb : cola_procesos_block k1 = cola_procesos_block k) by (injection M1; by intros).
  assert (Ep : k_pcbs k1 = k_pcbs k) by (injection M1; by intros).
  destruct (indice_pid_Some p (cola_procesos_block k)) as (i & Hi & _); [done|].
  eexists _, m'. cbv zeta. split; [|split].
  - eapply conjunto_igual; [intros x; unfold suspension_timer_fin; rewrite bind_eq; cbn [k_get con_entrada con_k_entradas suspensiones_en_curso];
      rewrite Hj; reflexivity|].
    eapply conjunto_bind; [exact C1|]. eapply conjunto_puro; [cegando| | | |].
    + rewrite bind_eq. cbn [k_gets]. rewrite bind_eq, posicion_ok, Eb, Hi by (apply (block_vivos _ _ _ H1)).
      rewrite bind_eq. unfold modificar, leer. rewrite bind_eq, Hb1. reflexivity.
    + done.
    + done.
    + done.
  - apply (acoplados_tras k _ m _ a); [done| |done| |].
    + destruct N1. by split.
    + cbn. rewrite Ep. apply map_Forall2_insert_2; [|apply Hac]. split; [exact Hsg|]. unfold fuera_k. cbn. by rewrite He.
    + exists []. split; [done|]. exact G1.
  - cbn. by rewrite Ep.
Qed.

(** ** The end of a process *)

(** Nobody waits for a mutex of the process: else its end never comes back
    ([fin_de_duenio_no_vuelve]). *)
Definition libre_de (p : Z) (ms : list t_mutex_sistema) : Prop :=
  Forall (fun m => asignado_a_pid m = p -> cola_bloqueados m = []) ms.
Definition suelto (p : Z) (k : kernel) : Prop := libre_de p (lista_mutexes k).

(** No process has somebody waiting for it who had nobody. *)
Definition afloja (ms ms' : list t_mutex_sistema) : Prop := forall q, 0 <= q -> libre_de q ms -> libre_de q ms'.
#[export] Instance afloja_preorder : PreOrder afloja.
Proof. split; [by intros ms q|]. intros m1 m2 m3 H1 H2 q Hq H. by apply H2, H1. Qed.
Lemma afloja_mutexes k k' : lista_mutexes k' = lista_mutexes k -> afloja (lista_mutexes k) (lista_mutexes k').
Proof. by intros ->. Qed.
Lemma misma_mutexes k k' : misma k k' -> lista_mutexes k' = lista_mutexes k.
Proof. intros H. by apply mismos_mutexes, misma_mismos. Qed.

Lemma sin_pid_ok p l k : Forall (vivo k) l -> p ∉ l -> sin_pid p l k = Sigue l k.
Proof.
  induction 1 as [|q l [b Hb] _ IH]; [done|]. rewrite elem_of_cons. intros Hp. cbn [sin_pid]. rewrite bind_eq. unfold leer. rewrite Hb.
  rewrite bind_eq, IH by tauto. destruct (Z.eqb_spec q p) as [->|]; [tauto|done].
Qed.

Lemma liberar_bucle_ok p n i k :
  Forall (fun m => Forall (vivo k) (cola_bloqueados m) /\ p ∉ cola_bloqueados m /\ (asignado_a_pid m = p -> cola_bloqueados m = []))
    (lista_mutexes k) -> length (lista_mutexes k) = (i + n)%nat ->
  exists ms, liberar_mutexes_bucle n i p k = Sigue tt (con_lista_mutexes ms k) /\ afloja (lista_mutexes k) ms.
Proof.
  revert i k. induction n as [|n IH]; intros i k Hf Hl; [exists (lista_mutexes k); by destruct k|]. cbn [liberar_mutexes_bucle].
  destruct (lookup_lt_is_Some_2 (lista_mutexes k) i ltac:(lia)) as [m Hm]. pose proof (Forall_lookup_1 _ _ _ _ Hf Hm) as (Hv & Hp & Ha).
  rewrite bind_eq. unfold leer_mutex at 1. rewrite Hm, bind_eq.
  assert (HI : forall f, (Forall (vivo k) (cola_bloqueados (f m)) /\ p ∉ cola_bloqueados (f m) /\ (asignado_a_pid (f m) = p -> cola_bloqueados (f m) = [])) ->
    (forall q, 0 <= q -> (asignado_a_pid m = q -> cola_bloqueados m = []) -> asignado_a_pid (f m) = q -> cola_bloqueados (f m) = []) ->
    exists ms, liberar_mutexes_bucle n (S i) p (con_lista_mutexes (alter f i (lista_mutexes k)) k) = Sigue tt (con_lista_mutexes ms k) /\
      afloja (lista_mutexes k) ms).
  { intros f Hfm Haf. destruct (IH (S i) (con_lista_mutexes (alter f i (lista_mutexes k)) k)) as (ms & E & Hms).
    - cbn. by eapply Forall_alter.
    - cbn. rewrite length_alter. lia.
    - exists ms. split; [done|]. etrans; [|exact Hms]. intros q Hq Hl'. cbn. eapply Forall_alter; [exact Hm|exact Hl'|apply Haf; [done|exact (Forall_lookup_1 _ _ _ _ Hl' Hm)]]. }
  destruct (Z.eqb_spec (asignado_a_pid m) p) as [E|E].
  - rewrite (Ha E). unfold modificar_mutex, leer_mutex. rewrite bind_eq, Hm. apply HI; cbn; rewrite (Ha E); [|by intros q Hq _]. split; [constructor|].
    split; [by intros ?%elem_of_nil|done].
  - rewrite bind_eq, sin_pid_ok by done. unfold modificar_mutex, leer_mutex. rewrite bind_eq, Hm. by apply HI; destruct m.
Qed.

Lemma liberar_ok sr M p k :
  Inv sr (p :: M) k -> suelto p k -> mutex_lista_tomado k = false ->
  exists ms, let k' := con_lista_mutexes ms k in liberar_mutexes_de_proceso p k = Sigue tt k' /\ Inv sr (p :: M) k' /\
    Forall (fun m => asignado_a_pid m <> p) ms /\ afloja (lista_mutexes k) ms.
Proof.
  intros H Hs Ht. pose proof (tomado_fuera _ _ _ _ H) as (_&_&_&_&Hpm&_&_).
  destruct (liberar_bucle_ok p (length (lista_mutexes k)) 0 (con_mutex_lista_tomado true k)) as (ms & E & Haf); [|done|].
  { cbn. apply Forall_lookup. intros i m Hm. split; [|split].
    - apply Forall_forall. intros q Hq. change (vivo k q). eapply Inv_vivo; [done|]. apply lugares_dec.
      pose proof (en_mutexes_lookup k i m q Hm Hq). tauto.
    - intros Hp. by eapply Hpm, en_mutexes_lookup.
    - by apply (Forall_lookup_1 _ _ _ _ Hs Hm). }
  assert (El : liberar_mutexes_de_proceso p k = Sigue tt (con_lista_mutexes ms k)).
  { unfold liberar_mutexes_de_proceso, lock_lista_mutexes. rewrite bind_eq, Ht, bind_eq. cbn [k_gets]. rewrite bind_eq.
    change (lista_mutexes (con_mutex_lista_tomado true k)) with (lista_mutexes k). rewrite E. cbn. f_equal. destruct k. cbn in *. by subst. }
  exists ms. split; [done|]. pose proof (cumple_liberar_mutexes sr M p (fun _ k' => Inv sr (p :: M) k' /\ Forall (fun m => asignado_a_pid m <> p) (lista_mutexes k')) k H ltac:(done)) as Hc.
  unfold cumple in Hc. rewrite El in Hc. split; [apply Hc|]. split; [apply Hc|done].
Qed.

Lemma conjunto_asoc {A B C} (h : K A) (f : A -> K B) (g : B -> K C) k m x k' m' :
  conjunto s sms ((h ≫= f) ≫= g) k m x k' m' -> conjunto s sms (h ≫= (fun y => f y ≫= g)) k m x k' m'.
Proof. apply conjunto_igual. intros l. rewrite !bind_eq. by destruct (h _). Qed.

(** The store without the process. *)
Definition a_sin (p : Z) (ap : aproc) (a : almacen) : almacen :=
  Almacen (delete p (a_procesos a)) (a_libre a + a_tam ap) (a_bloques a).

Lemma notificar_fin_conjunto sr M p ap k m a :
  Inv sr M k -> oyente k -> (exists ram sw, rep s sms bs m a ram sw) -> es_int p -> a_procesos a !! p = Some ap -> a_fuera ap = false ->
  exists k' m' ns, conjunto s sms (notificar_fin_a_memoria p) k m tt k' m' /\ misma k k' /\ mismo_entorno k k' /\
    (exists ram sw, rep s sms bs m' (a_sin p ap a) ram sw) /\ Forall aviso ns /\
    k_entrada (k_memory_socket k) k' = ns ≫= notificacion_bytes.
Proof.
  intros H Ho Hr Hpi Hap Hfu. destruct (un_dialogo m a (PFinalizar p) Hr Hpi) as (m' & a' & rs & Hpa & Hr' & _ & Hd).
  inversion Hpa as [| | | | | | | | | | | | | | |? ? Hno|? ? ap' Hsi vacio|]; subst; [congruence|]. simplify_eq. subst vacio.
  destruct (pedir_conjunto sr M k m m' FINALIZAR_PROCESO _ _ H Ho eq_refl Hd) as (k1 & C1 & M1 & N1 & G1).
  rewrite Hfu in Hr', G1. cbn [orb] in G1.
  exists k1, m', (if bool_decide (a_segs ap = []) then [] else [MemoriaLiberada]).
  split; [|split; [done|split; [done|split; [done|split]]]].
  - unfold notificar_fin_a_memoria. eapply conjunto_igual.
    { intros x. rewrite bind_eq. cbn [k_gets]. change (k_memory_socket (con_entrada _ x k)) with (k_memory_socket k).
      destruct (Z.ltb_spec (k_memory_socket k) 0); [destruct Ho; lia|reflexivity]. }
    eapply conjunto_bind; [exact C1|]. by apply (conjunto_puro _ _ _ _ _ _ k1).
  - destruct (bool_decide _); repeat constructor.
  - rewrite G1. by destruct (bool_decide _).
Qed.

Lemma borrar_ok sr p b k :
  Inv sr [p] k -> k_pcbs k !! p = Some b -> Forall (fun m => asignado_a_pid m <> p) (lista_mutexes k) ->
  exists i, let k' := con_k_pcbs (delete p (k_pcbs k)) (con_todos_los_procesos (delete i (todos_los_procesos k)) k) in
    (_ ← eliminar_pcb p; liberar_pcb p) k = Sigue tt k' /\ Inv sr [] k'.
Proof.
  intros H Hb Hms. destruct (indice_pid_Some p (todos_los_procesos k)) as (i & Hi & Hil); [apply (i_vivos _ _ _ H); by eexists|].
  exists i. cbv zeta. split; [|by apply (Inv_fin sr [] k p i H Hil)].
  rewrite bind_eq. unfold eliminar_pcb. rewrite bind_eq. cbn [k_gets]. rewrite bind_eq, posicion_ok, Hi, bind_eq by (by eapply todos_vivos).
  cbn [k_mod]. unfold modificar, leer at 1. rewrite bind_eq. cbn [con_todos_los_procesos k_pcbs]. rewrite Hb. cbn [k_mod].
  unfold liberar_pcb, leer. rewrite bind_eq. cbn [con_k_pcbs k_pcbs]. rewrite lookup_insert_eq. unfold k_mod. cbn.
  by rewrite delete_insert_eq.
Qed.

(** The process ends for both. *)
Definition muere (sr : list Z) (p : Z) (ap : aproc) (h : K unit) (k : kernel) (m : memoria) (a : almacen) : Prop :=
  exists k' m' ns, conjunto s sms h k m tt k' m' /\ mismo_entorno k k' /\ k_pcbs k' = delete p (k_pcbs k) /\ k_cpus k' = k_cpus k /\
    Inv sr [] k' /\ afloja (lista_mutexes k) (lista_mutexes k') /\ (exists ram sw, rep s sms bs m' (a_sin p ap a) ram sw) /\
    Forall aviso ns /\ k_entrada (k_memory_socket k) k' = ns ≫= notificacion_bytes.

Lemma muere_acoplados sr p ap h k m a k0 m0 a0 :
  muere sr p ap h k m a -> acoplados s sms bs k0 m0 a0 -> mismo_entorno k0 k ->
  map_Forall2 (fun _ => acoplado) (delete p (k_pcbs k)) (delete p (a_procesos a)) ->
  exists k' m', conjunto s sms h k m tt k' m' /\ acoplados s sms bs k' m' (a_sin p ap a) /\ k_pcbs k' = delete p (k_pcbs k) /\
    k_cpus k' = k_cpus k /\ Inv sr [] k' /\ afloja (lista_mutexes k) (lista_mutexes k').
Proof.
  intros (k' & m' & ns & C & N & P & Q & H & Haf & Hr & Hns & G) Hac N0 Hp. exists k', m'. split; [done|]. split; [|done].
  apply (acoplados_tras k0 _ m0 _ a0); [done|by etrans|done|by rewrite P|]. exists ns. by rewrite <-(me_memory _ _ N0).
Qed.

(** The input it waited for is no longer pending. *)
Lemma sin_pendiente sr p b k :
  Inv sr [p] k -> k_pcbs k !! p = Some b ->
  let k' := con_k_pcbs (<[p := con_stdin_pendiente None b]> (k_pcbs k)) k in
  modificar p (con_stdin_pendiente None) k = Sigue tt k' /\ Inv sr [p] k'.
Proof.
  intros H Hb k'. assert (E : modificar p (con_stdin_pendiente None) k = Sigue tt k') by (unfold modificar, leer; by rewrite bind_eq, Hb).
  split; [done|]. pose proof (cumple_estado sr [] p b (con_stdin_pendiente None) (fun _ k' => Inv sr [p] k') k H Hb eq_refl
    (fun Hx => i_prio _ _ _ H p b Hb Hx) ltac:(done) ltac:(auto)) as Hc. unfold cumple in Hc. by rewrite E in Hc.
Qed.

Section muerte.
Context (sr : list Z) (p : Z) (b : t_pcb) (ap : aproc) (k : kernel) (m : memoria) (a : almacen).
Context (H : Inv sr [p] k) (Ho : oyente k) (Hr : exists ram sw, rep s sms bs m a ram sw) (Ht : mutex_lista_tomado k = false).
Context (Hb : k_pcbs k !! p = Some b) (He : estado b <> NEW) (Hsu : suelto p k) (Hpi : es_int p).
Context (Hap : a_procesos a !! p = Some ap) (Hfu : a_fuera ap = false).

Let k1 := con_k_pcbs (<[p := con_estado EXIT_STATE b]> (k_pcbs k)) k.

Lemma muere_exit : modificar p (con_estado EXIT_STATE) k = Sigue tt k1 /\ Inv sr [p] k1.
Proof.
  assert (E : modificar p (con_estado EXIT_STATE) k = Sigue tt k1) by (unfold modificar, leer; by rewrite bind_eq, Hb).
  split; [done|]. pose proof (cumple_estado sr [] p b (con_estado EXIT_STATE) (fun _ k' => Inv sr [p] k') k H Hb eq_refl
    (fun _ => prio_tomado _ _ _ _ _ H Hb He) ltac:(done) ltac:(auto)) as Hc.
  unfold cumple in Hc. by rewrite E in Hc.
Qed.

(** Its mutexes are released and Memory is told. *)
Lemma muere_avisado :
  exists k3 m' ns, conjunto s sms (_ ← liberar_mutexes_de_proceso p; notificar_fin_a_memoria p) k1 m tt k3 m' /\
    mismo_entorno k k3 /\ k_pcbs k3 = k_pcbs k1 /\ k_cpus k3 = k_cpus k /\ Inv sr [p] k3 /\
    Forall (fun m => asignado_a_pid m <> p) (lista_mutexes k3) /\ afloja (lista_mutexes k) (lista_mutexes k3) /\ (exists ram sw, rep s sms bs m' (a_sin p ap a) ram sw) /\
    Forall aviso ns /\ k_entrada (k_memory_socket k) k3 = ns ≫= notificacion_bytes.
Proof.
  destruct muere_exit as [_ H1]. destruct (liberar_ok sr [] p k1 H1 Hsu Ht) as (ms & E2 & H2 & Hms & Haf). set (k2 := con_lista_mutexes ms k1) in *.
  destruct (notificar_fin_conjunto sr [p] p ap k2 m a H2 Ho Hr Hpi Hap Hfu) as (k3 & m' & ns & C3 & M3 & N3 & Hr3 & Hns & G3).
  exists k3, m', ns. split.
  { eapply conjunto_bind; [apply (conjunto_puro _ _ _ _ _ _ k2); [cegando|exact E2|done..]|exact C3]. }
  split; [destruct N3; by split|]. split; [injection M3; by intros|]. split; [injection M3; by intros|].
  split; [by eapply Inv_misma|]. rewrite (misma_mutexes _ _ M3). by split.
Qed.

Lemma terminar_conjunto : muere sr p ap (terminar_proceso p) k m a.
Proof.
  destruct muere_exit as [E1 _]. destruct muere_avisado as (k3 & m' & ns & C3 & N3 & P3 & Q3 & H3 & Hms & Haf & Hr3 & Hns & G3).
  destruct (borrar_ok sr p (con_estado EXIT_STATE b) k3 H3) as (i & E4 & H4); [rewrite P3; apply lookup_insert_eq|done|].
  eexists _, m', ns. split; [|split; [|split; [|split; [|split; [exact H4|by split_and!]]]]].
  - unfold terminar_proceso. eapply conjunto_bind; [apply (conjunto_puro _ _ _ _ _ _ k1); [cegando|exact E1|done..]|].
    apply (conjunto_asoc _ (fun _ => notificar_fin_a_memoria p) (fun _ => _ ← eliminar_pcb p; liberar_pcb p)).
    eapply conjunto_bind; [exact C3|]. by apply conjunto_puro; [cegando| |..].
  - destruct N3. by split.
  - cbn. rewrite P3. apply delete_insert_eq.
  - done.
Qed.
(** A write that Memory refused ends the process in the same way. *)
Lemma seg_fault_conjunto : muere sr p ap (finalizar_pcb_por_seg_fault p) k m a.
Proof.
  destruct muere_exit as [E1 H1]. destruct muere_avisado as (k3 & m' & ns & C3 & N3 & P3 & Q3 & H3 & Hms & Haf & Hr3 & Hns & G3).
  assert (Er : remover_de_lista_suspendidos p k1 = Sigue tt k1).
  { pose proof (cumple_remover_ajeno sr [p] p (fun _ k' => k' = k1) k1 H1 (tomado_no_susp _ _ _ _ H1) eq_refl) as Hc.
    unfold cumple in Hc. unfold remover_de_lista_suspendidos in *. rewrite bind_eq in *. cbn [k_gets] in *. rewrite bind_eq in *.
    rewrite posicion_ok in *; [|apply Forall_forall; intros q Hq; eapply Inv_vivo; [exact H1|]; apply lugares_dec; apply (i_susp _ _ _ H1) in Hq; tauto..].
    by rewrite (proj2 (indice_pid_None _ _) (tomado_no_susp _ _ _ _ H1)). }
  set (b3 := con_estado EXIT_STATE b). assert (Hb3 : k_pcbs k3 !! p = Some b3) by (rewrite P3; apply lookup_insert_eq).
  set (k4 := con_k_pcbs (<[p := con_stdin_pendiente None b3]> (k_pcbs k3)) k3).
  destruct (sin_pendiente sr p b3 k3 H3 Hb3) as [E4 H4]. fold k4 in E4, H4.
  destruct (borrar_ok sr p (con_stdin_pendiente None b3) k4 H4) as (i & E5 & H5); [apply lookup_insert_eq|done|].
  eexists _, m', ns. split; [|split; [|split; [|split; [|split; [exact H5|by split_and!]]]]].
  - unfold finalizar_pcb_por_seg_fault. eapply conjunto_bind; [apply (conjunto_puro _ _ _ _ _ _ k1); [cegando|exact E1|done..]|].
    eapply conjunto_bind; [apply (conjunto_puro _ _ _ _ _ _ k1); [cegando|exact Er|done..]|].
    apply (conjunto_asoc _ (fun _ => notificar_fin_a_memoria p)
      (fun _ => _ ← modificar p (con_stdin_pendiente None); _ ← eliminar_pcb p; liberar_pcb p)).
    eapply conjunto_bind; [exact C3|]. eapply conjunto_bind; [apply (conjunto_puro _ _ _ _ _ _ k4); [cegando|exact E4|done..]|].
    by apply conjunto_puro; [cegando| |..].
  - destruct N3. by split.
  - cbn. rewrite delete_insert_eq, P3. apply delete_insert_eq.
  - done.
Qed.
End muerte.

Lemma fin_conjunta sr p b ap k m a :
  Inv sr [p] k -> acoplados s sms bs k m a -> k_pcbs k !! p = Some b -> estado b = EXEC -> suelto p k ->
  a_procesos a !! p = Some ap ->
  exists k' m', conjunto s sms (terminar_proceso p) k m tt k' m' /\ acoplados s sms bs k' m' (a_sin p ap a) /\
    k_pcbs k' = delete p (k_pcbs k) /\ k_cpus k' = k_cpus k /\ Inv sr [] k' /\ afloja (lista_mutexes k) (lista_mutexes k').
Proof.
  intros H Hac Hb He Hsu Hap. destruct (pid_int _ _ _ _ _ _ _ H Hac Hb) as [Hpi _].
  destruct (acoplado_de _ _ _ _ _ Hac Hb) as (ap2 & Hap2 & _ & Hf). simplify_eq.
  apply (muere_acoplados sr p ap _ k m a k m a); [|done|done|by apply map_Forall2_delete, Hac].
  eapply terminar_conjunto; try done; [by eapply ac_oyente|apply Hac|apply Hac|congruence|].
  rewrite <-Hf. unfold fuera_k. rewrite He. apply andb_false_r.
Qed.
(** ** Writes *)

Lemma listo_conjunto sr p b k m :
  Inv sr [p] k -> k_pcbs k !! p = Some b -> estado b <> NEW -> mutex_lista_tomado k = false -> ajena (k_memory_socket k) k ->
  exists k', conjunto s sms (encolar_en_ready_y_notificar p) k m tt k' m /\ k_pcbs k' = <[p := con_estado READY b]> (k_pcbs k) /\
    mismo_entorno k k' /\ k_entradas k' = k_entradas k /\ Inv sr [] k' /\ lista_mutexes k' = lista_mutexes k.
Proof.
  intros H Hb He Hl Ha. destruct (encolar_ok sr [] p b k H Hb He Hl) as (k' & E & H' & Hm & P & _).
  pose proof (calla_encolar (k_memory_socket k) p k Ha) as Hc. rewrite E in Hc. destruct Hc as (D & N & G).
  exists k'. split; [by apply conjunto_puro; [cegando|done|apply N|done|done]|]. pose proof (mismos_mutexes _ _ Hm). done.
Qed.

(** The process keeps its segments, and their sizes. *)
Lemma a_escribir_acoplado a p dir datos a' :
  a_escribir sms a p dir datos = Some a' ->
  exists ap ap', a_procesos a !! p = Some ap /\ a_procesos a' = <[p := ap']> (a_procesos a) /\
    a_fuera ap = false /\ a_fuera ap' = false /\
    forall b, acoplado b ap -> acoplado b ap'.
Proof.
  unfold a_escribir, a_segmento. destruct (a_procesos a !! p) as [ap|] eqn:Hap; cbn; [|done]. destruct (a_fuera ap) eqn:Hf; [done|].
  destruct (indice_de _ _) as [i|]; cbn; [|done]. destruct (a_segs ap !! i) as [sg|] eqn:Hi; cbn; [|done].
  destruct (escribir_buffer _ _ _) as [n|] eqn:E; cbn; [|done]. intros [= <-].
  assert (Hd : 0 <= dir mod sms) by (apply Z.mod_pos_bound; lia).
  exists ap. eexists. split; [done|]. split; [reflexivity|]. split; [done|]. split; [done|]. intros b [Hs Hb]. split; [|cbn; congruence].
  cbn. rewrite Hs, list_fmap_insert. cbn. rewrite (length_escribir_buffer _ _ _ _ Hd E). symmetry. apply list_insert_id.
  by rewrite list_lookup_fmap, Hi.
Qed.

Lemma escritura_u32 p dir datos : enviar_escritura_memoria p dir datos = enviar_escritura_memoria p (u32 dir) datos.
Proof. unfold enviar_escritura_memoria. by rewrite le_enc_u32. Qed.

Lemma escribir_conjunto sr M p dir size datos k m a :
  let d := take (Z.to_nat size) datos in
  Inv sr M k -> oyente k -> (exists ram sw, rep s sms bs m a ram sw) -> es_int p -> datos_ok d ->
  u32 dir mod sms + Z.of_nat (length d) < 4294967296 ->
  exists k' m' escrito a', conjunto s sms (escribir_stdin_en_memoria p dir datos size) k m escrito k' m' /\ misma k k' /\
    mismo_entorno k k' /\ k_entrada (k_memory_socket k) k' = [] /\ (exists ram sw, rep s sms bs m' a' ram sw) /\
    (escrito = true /\ a_escribir sms a p (u32 dir) d = Some a' \/
     escrito = false /\ a_escribir sms a p (u32 dir) d = None /\ a' = a).
Proof.
  intros d H Ho Hr Hpi Hd Hsz. assert (Hadm : admisible sms bs a (PEscribir p (u32 dir) d)) by (split_and!; [done|apply u32_range|done|done]).
  destruct (un_dialogo m a _ Hr Hadm) as (m' & a' & rs & Hpa & Hr' & _ & Hdi). cbn [compacta pedido_bytes_mem] in Hdi.
  assert (Hop : exists op, rs = [enviar_ok op] /\ es_respuesta op = true /\
    (op = ESCRITURA_MEMORIA /\ a_escribir sms a p (u32 dir) d = Some a' \/
     op = SEGMENTATION_FAULT /\ a_escribir sms a p (u32 dir) d = None /\ a' = a)).
  { inversion Hpa; subst; [exists SEGMENTATION_FAULT|exists ESCRITURA_MEMORIA]; (split; [done|]); (split; [done|]); tauto. }
  destruct Hop as (op & -> & Hres & Hop). rewrite <-escritura_u32 in Hdi.
  destruct (pedir_conjunto sr M k m m' op _ [] H Ho Hres Hdi) as (k1 & C1 & M1 & N1 & G1).
  exists k1, m', (op_num op =? op_num ESCRITURA_MEMORIA), a'. split; [|split; [done|split; [done|split; [done|split; [done|]]]]].
  - unfold escribir_stdin_en_memoria. eapply conjunto_bind; [exact C1|]. by apply conjunto_puro; [cegando|..].
  - destruct Hop as [[-> ?]|[-> ?]]; [left|right]; by split.
Qed.

Lemma ciega_extraer p : ciega (extraer_de_block p).
Proof.
  unfold extraer_de_block. apply ciega_bind; [by apply ciega_gets|]. intros l. apply ciega_bind; [auto with ciega|].
  intros [i|]; [|auto with ciega]. apply ciega_bind; [auto with ciega|]. intros b. destruct (_ && _); [done|].
  apply ciega_bind; [by apply ciega_mod|auto with ciega].
Qed.

(** What follows a write: the process is READY, or it ends for both. *)
Lemma escrito_conjunto sr p b ap w r k m a1 a k0 m0 a0 :
  acoplados s sms bs k0 m0 a0 -> mismo_entorno k0 k -> Inv sr [p] k -> k_pcbs k !! p = Some b -> estado b <> NEW -> suelto p k -> es_int p ->
  k_entrada (k_memory_socket k) k = [] -> a_procesos a1 !! p = Some ap -> a_fuera ap = false -> acoplado (con_estado READY b) ap ->
  map_Forall2 (fun _ => acoplado) (delete p (k_pcbs k)) (delete p (a_procesos a1)) ->
  (exists ram sw, rep s sms bs m a ram sw) ->
  (exists dir d, r = a_escribir sms a1 p dir d) -> w = true /\ r = Some a \/ w = false /\ r = None /\ a = a1 ->
  exists k' m' a', conjunto s sms (if negb w then finalizar_pcb_por_seg_fault p else encolar_en_ready_y_notificar p) k m tt k' m' /\
    acoplados s sms bs k' m' a' /\ afloja (lista_mutexes k) (lista_mutexes k') /\
    (r = Some a' /\ k_pcbs k' = <[p := con_estado READY b]> (k_pcbs k) \/
     r = None /\ a' = a_sin p ap a1 /\ k_pcbs k' = delete p (k_pcbs k)).
Proof.
  intros Hac N H Hb He Hsu Hpi G Hap Hfu Hco Hdel Hr (dir & d & Er) Hw.
  assert (Ht : mutex_lista_tomado k = false) by (rewrite (me_tomado _ _ N); apply Hac).
  assert (Haj : ajena (k_memory_socket k) k) by (rewrite (me_memory _ _ N); apply (ajena_entorno _ k0), Hac; exact N).
  assert (Ho : oyente k) by (split; [rewrite (me_memory _ _ N); apply Hac|]; split; [done|]; by exists []).
  destruct Hw as [[-> Hw]|(-> & Hw & ->)]; cbn [negb].
  - destruct (listo_conjunto sr p b k m H Hb He Ht Haj) as (k' & C & P & N' & G' & _ & L'). exists k', m, a.
    split; [done|]. split; [|split; [by apply afloja_mutexes|by left]].
    rewrite Er in Hw. destruct (a_escribir_acoplado a1 p dir d a Hw) as (ap0 & ap' & Hap0 & Ea & _ & _ & Hco'). simplify_eq.
    apply (acoplados_tras k0 _ m0 _ a0); [done|by etrans|done| |].
    + rewrite P, Ea, <-(insert_delete_eq (k_pcbs k)), <-(insert_delete_eq (a_procesos a1)). apply map_Forall2_insert_2; [by apply Hco'|done].
    + exists []. split; [done|]. unfold k_entrada in *. by rewrite G', <-(me_memory _ _ N).
  - pose proof (seg_fault_conjunto sr p b ap k m a1 H Ho Hr Ht Hb He Hsu Hpi Hap Hfu) as Hm.
    destruct (muere_acoplados sr p ap _ k m a1 k0 m0 a0 Hm Hac N Hdel) as (k' & m' & C & Hac' & P & _ & _ & Haf).
    exists k', m', (a_sin p ap a1). split; [done|]. split; [done|]. split; [done|by right].
Qed.

(** The answer of an interface to a process that is in RAM. *)
Lemma stdin_conjunto sr p b ap size dir datos k m a :
  Inv sr [] k -> acoplados s sms bs k m a -> p ∈ cola_procesos_block k -> p ∉ tabla_ios k ≫= pedidos ->
  k_pcbs k !! p = Some b -> estado b = BLOCK -> a_procesos a !! p = Some ap -> suelto p k ->
  let d := take (Z.to_nat size) datos in datos_ok d -> u32 dir mod sms + Z.of_nat (length d) < 4294967296 ->
  exists k' m' a', conjunto s sms (terminar_stdin p size dir datos) k m tt k' m' /\ acoplados s sms bs k' m' a' /\
    (a_escribir sms a p (u32 dir) d = Some a' /\ k_pcbs k' = <[p := con_estado READY b]> (k_pcbs k) \/
     a_escribir sms a p (u32 dir) d = None /\ a' = a_sin p ap a /\ k_pcbs k' = delete p (k_pcbs k)).
Proof.
  intros H Hac Hin Hio Hb He Hap Hsu d Hd Hsz. destruct (pid_int _ _ _ _ _ _ _ H Hac Hb) as [Hpi _].
  destruct (acoplado_de _ _ _ _ _ Hac Hb) as (ap2 & Hap2 & Hco). simplify_eq.
  assert (Hfu : a_fuera ap = false) by (rewrite <-(proj2 Hco); unfold fuera_k; rewrite He; apply andb_false_r).
  destruct (extraer_ok sr [] p b k H Hin Hb ltac:(congruence)) as (j & Hj & Ex).
  pose proof (Inv_sacar_block sr [] k j p b H Hj Hb ltac:(congruence) Hio) as H1. set (k1 := con_cola_procesos_block _ k) in *.
  assert (Ho1 : oyente k1) by exact (ac_oyente _ _ _ Hac).
  destruct (escribir_conjunto sr [p] p dir size datos k1 m a H1 Ho1 (ac_rep _ _ _ _ _ _ Hac) Hpi Hd Hsz)
    as (k2 & m2 & w & a2 & C2 & M2 & N2 & G2 & Hr2 & Hw).
  assert (E2 : k_pcbs k2 = k_pcbs k) by (injection M2; by intros). assert (N : mismo_entorno k k2) by (destruct N2; by split).
  assert (El : lista_mutexes k2 = lista_mutexes k) by (injection M2; by intros).
  destruct (escrito_conjunto sr p b ap w (a_escribir sms a p (u32 dir) d) k2 m2 a a2 k m a) as (k3 & m3 & a3 & C3 & Hac3 & _ & Hres).
  { done. } { done. } { by eapply Inv_misma. } { by rewrite E2. } { congruence. } { unfold suelto. by rewrite El. } { done. }
  { by rewrite (me_memory _ _ N2). } { done. } { done. } { split; [apply Hco|]. rewrite Hfu. apply andb_false_r. }
  { rewrite E2. by apply map_Forall2_delete, Hac. } { done. } { by exists (u32 dir), d. } { done. }
  exists k3, m3, a3. rewrite E2 in Hres. split; [|done]. unfold terminar_stdin.
  eapply conjunto_bind; [apply (conjunto_puro _ _ _ _ _ (Some p) k1); [apply ciega_extraer|exact Ex|done..]|]. cbv beta iota.
  eapply conjunto_bind; [apply (conjunto_puro _ _ _ _ _ b k1); [cegando|unfold leer; change (k_pcbs k1) with (k_pcbs k); by rewrite Hb|done..]|].
  rewrite bool_decide_false by congruence. eapply conjunto_bind; [exact C2|exact C3].
Qed.

(** ** Return *)

(** [des_suspender_candidato] once Memory has brought the process back. *)
Definition tras_regreso (p : Z) (b : t_pcb) : K unit :=
  match stdin_pendiente b with
  | Some datos =>
      escrito ← escribir_stdin_en_memoria p (i32 (stdin_pendiente_dir b)) datos (i32 (stdin_pendiente_size b));
      _ ← modificar p (con_stdin_pendiente None);
      if negb escrito then finalizar_pcb_por_seg_fault p else encolar_en_ready_y_notificar p
  | None => encolar_en_ready_y_notificar p
  end.

(** The store with the process back in RAM. *)
Definition a_volver (p : Z) (ap : aproc) (a : almacen) : almacen :=
  Almacen (con_proceso p (AProc false (a_segs ap)) a) (a_libre a - a_tam ap) (a_bloques a).

Lemma pedir_regreso sr p b ap k m a :
  Inv sr [] k -> acoplados s sms bs k m a -> p ∈ sr -> k_pcbs k !! p = Some b -> a_procesos a !! p = Some ap ->
  (a_tam ap <= a_libre a /\ exists sr' k2 m2,
     (forall k' m', conjunto s sms (tras_regreso p b) k2 m2 tt k' m' -> conjunto s sms (des_suspender_candidato p) k m tt k' m') /\
     Inv sr' [p] k2 /\ k_pcbs k2 = k_pcbs k /\ lista_mutexes k2 = lista_mutexes k /\ mismo_entorno k k2 /\
     k_entrada (k_memory_socket k) k2 = [] /\ exists ram sw, rep s sms bs m2 (a_volver p ap a) ram sw) \/
  exists k' m', conjunto s sms (des_suspender_candidato p) k m tt k' m' /\ acoplados s sms bs k' m' a /\ k_pcbs k' = k_pcbs k /\
    lista_mutexes k' = lista_mutexes k.
Proof.
  intros H Hac Hp Hb Hap. destruct (pid_int _ _ _ _ _ _ _ H Hac Hb) as [Hpi _].
  destruct (acoplado_de _ _ _ _ _ Hac Hb) as (ap2 & Hap2 & Hsg & Hf). simplify_eq.
  assert (Hsr : estado b = SUSP_READY /\ suspendido_en_swap b = true).
  { pose proof (i_sr _ _ _ H) as Hx. rewrite Forall_forall in Hx. destruct (Hx p Hp) as (c & Hc & He). by simplify_eq. }
  destruct Hsr as [He Hsw]. assert (Hfu : a_fuera ap = true) by (rewrite <-Hf; unfold fuera_k; by rewrite Hsw, He).
  assert (Hadm : admisible sms bs a (PDesSuspender p)) by (split; [done|]; intros ap' E; by simplify_eq).
  destruct (un_dialogo m a _ (ac_rep _ _ _ _ _ _ Hac) Hadm) as (m' & a' & rs & Hpa & Hr' & _ & Hdi).
  assert (Hleer : forall (h : Z -> K unit) k' m', conjunto s sms (ack ← pedir_ok (enviar_des_suspender_proceso p); h ack) k m tt k' m' ->
    conjunto s sms (_ ← leer p; ack ← pedir_ok (enviar_des_suspender_proceso p); h ack) k m tt k' m').
  { intros h k' m2. apply conjunto_igual. intros x. rewrite bind_eq. unfold leer at 1. cbn [con_entrada con_k_entradas k_pcbs]. by rewrite Hb. }
  inversion Hpa as [| | | | | | | | | | | |? ? Hno|? ? ap' Hsi Hle|? ? ap' Hsi Hne| | |]; subst; [congruence| |]; simplify_eq; [left|right].
  - destruct (pedir_conjunto sr [] k m m' DES_SUSPENDER_PROCESO _ [] H (ac_oyente _ _ _ Hac) eq_refl Hdi) as (k1 & C1 & M1 & N1 & G1).
    assert (Ep : k_pcbs k1 = k_pcbs k) by (injection M1; by intros).
    destruct (remover_ok sr p k1) as (sr' & i & E2 & H2); [by eapply Inv_misma|done|]. set (k2 := con_lista_suspendidos _ k1) in *.
    split; [done|]. exists sr', k2, m'. split; [|split; [done|split; [done|split; [injection M1; by intros|split; [destruct N1; by split|done]]]]].
    intros k' m2 C. unfold des_suspender_candidato. apply Hleer. eapply conjunto_bind; [exact C1|]. rewrite Z.eqb_refl. cbn [negb].
    eapply conjunto_bind; [apply (conjunto_puro _ _ _ _ _ tt k2); [cegando|exact E2|done..]|].
    eapply conjunto_bind; [apply (conjunto_puro _ _ _ _ _ b k2); [cegando|unfold leer; change (k_pcbs k2) with (k_pcbs k1); by rewrite Ep, Hb|done..]|].
    exact C.
  - destruct (pedir_conjunto sr [] k m m' SEGMENTATION_FAULT _ [] H (ac_oyente _ _ _ Hac) eq_refl Hdi) as (k1 & C1 & M1 & N1 & G1).
    assert (Ep : k_pcbs k1 = k_pcbs k) by (injection M1; by intros). exists k1, m'. split; [|split; [|split; [done|by apply misma_mutexes]]].
    + unfold des_suspender_candidato. apply Hleer. eapply conjunto_bind; [exact C1|]. by eapply conjunto_puro.
    + apply (acoplados_tras k _ m _ a'); [done..| |]; [rewrite Ep; apply Hac|by exists []].
Qed.

Lemma regreso_conjunto sr p b ap k m a :
  Inv sr [] k -> acoplados s sms bs k m a -> p ∈ sr -> k_pcbs k !! p = Some b -> a_procesos a !! p = Some ap ->
  stdin_pendiente b = None ->
  exists k' m' a', conjunto s sms (des_suspender_candidato p) k m tt k' m' /\ acoplados s sms bs k' m' a' /\
    afloja (lista_mutexes k) (lista_mutexes k') /\
    (a_tam ap <= a_libre a /\ k_pcbs k' = <[p := con_estado READY b]> (k_pcbs k) /\ a' = a_volver p ap a \/
     k_pcbs k' = k_pcbs k /\ a' = a).
Proof.
  intros H Hac Hp Hb Hap Hst.
  assert (Hest : estado b <> NEW).
  { pose proof (i_sr _ _ _ H) as Hx. rewrite Forall_forall in Hx. destruct (Hx p Hp) as (c & Hc & He & _). simplify_eq. by rewrite He. }
  destruct (pedir_regreso sr p b ap k m a H Hac Hp Hb Hap) as [(Hle & sr' & k2 & m2 & HC & H2 & P2 & L2 & N2 & G2 & Hr2)|(k' & m' & C & Hac' & P & L')];
    [|exists k', m', a; split; [done|]; split; [done|]; split; [by apply afloja_mutexes|by right]].
  destruct (listo_conjunto sr' p b k2 m2 H2) as (k3 & C3 & P3 & N3 & G3 & _ & L3);
    [by rewrite P2|done|rewrite (me_tomado _ _ N2); apply Hac|rewrite (me_memory _ _ N2); apply (ajena_entorno _ k), Hac; exact N2|].
  exists k3, m2, (a_volver p ap a). split; [apply HC; unfold tras_regreso; by rewrite Hst|].
  split; [|split; [apply afloja_mutexes; by rewrite L3|left; by rewrite P3, P2]].
  destruct (acoplado_de _ _ _ _ _ Hac Hb) as (ap2 & Hap2 & Hsg & Hf). simplify_eq.
  apply (acoplados_tras k _ m _ a); [done|by etrans|done| |].
  - rewrite P3, P2. apply map_Forall2_insert_2; [|apply Hac]. split; [exact Hsg|apply andb_false_r].
  - exists []. split; [done|]. unfold k_entrada in *. by rewrite G3.
Qed.

(** The process comes back with an input to be written. *)
Lemma regreso_stdin_conjunto sr p b ap datos k m a :
  Inv sr [] k -> acoplados s sms bs k m a -> p ∈ sr -> k_pcbs k !! p = Some b -> a_procesos a !! p = Some ap ->
  stdin_pendiente b = Some datos -> suelto p k ->
  let dir := u32 (i32 (stdin_pendiente_dir b)) in let d := take (Z.to_nat (i32 (stdin_pendiente_size b))) datos in
  datos_ok d -> dir mod sms + Z.of_nat (length d) < 4294967296 ->
  exists k' m' a', conjunto s sms (des_suspender_candidato p) k m tt k' m' /\ acoplados s sms bs k' m' a' /\
    afloja (lista_mutexes k) (lista_mutexes k') /\
    (a_tam ap <= a_libre a /\
       (a_escribir sms (a_volver p ap a) p dir d = Some a' /\
          k_pcbs k' = <[p := con_estado READY (con_stdin_pendiente None b)]> (k_pcbs k) \/
        a_escribir sms (a_volver p ap a) p dir d = None /\ a' = a_sin p (AProc false (a_segs ap)) (a_volver p ap a) /\
          k_pcbs k' = delete p (k_pcbs k)) \/
     k_pcbs k' = k_pcbs k /\ a' = a).
Proof.
  intros H Hac Hp Hb Hap Hst Hsu dir d Hd Hsz. destruct (pid_int _ _ _ _ _ _ _ H Hac Hb) as [Hpi _].
  assert (Hest : estado b <> NEW).
  { pose proof (i_sr _ _ _ H) as Hx. rewrite Forall_forall in Hx. destruct (Hx p Hp) as (c & Hc & He & _). simplify_eq. by rewrite He. }
  destruct (pedir_regreso sr p b ap k m a H Hac Hp Hb Hap) as [(Hle & sr' & k2 & m2 & HC & H2 & P2 & L2 & N2 & G2 & Hr2)|(k' & m' & C & Hac' & P & L')];
    [|exists k', m', a; split; [done|]; split; [done|]; split; [by apply afloja_mutexes|by right]].
  destruct (acoplado_de _ _ _ _ _ Hac Hb) as (ap2 & Hap2 & Hsg & Hf). simplify_eq.
  assert (Ho2 : oyente k2) by (by apply (oyente_tras k _ []); [by eapply ac_oyente|..]).
  destruct (escribir_conjunto sr' [p] p (i32 (stdin_pendiente_dir b)) (i32 (stdin_pendiente_size b)) datos k2 m2 (a_volver p ap a) H2 Ho2 Hr2 Hpi Hd Hsz)
    as (k3 & m3 & w & a3 & C3 & M3 & N3 & G3 & Hr3 & Hw).
  set (b' := con_stdin_pendiente None b). set (k4 := con_k_pcbs (<[p := b']> (k_pcbs k3)) k3).
  assert (E3 : k_pcbs k3 = k_pcbs k) by (rewrite <-P2; injection M3; by intros).
  assert (Hb3 : k_pcbs k3 !! p = Some b) by (by rewrite E3). assert (N4 : mismo_entorno k k4) by (etrans; [exact N2|]; destruct N3; by split).
  destruct (sin_pendiente sr' p b k3) as [E4 H4]; [by eapply Inv_misma|done|]. fold b' k4 in E4, H4.
  assert (Hp4 : delete p (k_pcbs k4) = delete p (k_pcbs k)) by (cbn; by rewrite delete_insert_eq, E3).
  assert (El : lista_mutexes k4 = lista_mutexes k) by (rewrite <-L2; injection M3; by intros).
  destruct (escrito_conjunto sr' p b' (AProc false (a_segs ap)) w (a_escribir sms (a_volver p ap a) p dir d) k4 m3 (a_volver p ap a) a3 k m a)
    as (k5 & m5 & a5 & C5 & Hac5 & Haf & Hres).
  { done. } { done. } { done. } { apply lookup_insert_eq. } { done. } { unfold suelto. by rewrite El. } { done. }
  { rewrite (me_memory _ _ N4), <-(me_memory _ _ N2). exact G3. } { apply lookup_insert_eq. } { done. } { split; [exact Hsg|apply andb_false_r]. }
  { rewrite Hp4. unfold a_volver, con_proceso. cbn [a_procesos]. rewrite delete_insert_eq. by apply map_Forall2_delete, Hac. }
  { done. } { by exists dir, d. } { done. }
  exists k5, m5, a5. split; [|split; [done|split; [by rewrite <-El|left; split; [done|]]]].
  - apply HC. unfold tras_regreso. rewrite Hst. eapply conjunto_bind; [exact C3|].
    eapply conjunto_bind; [apply (conjunto_puro _ _ _ _ _ tt k4); [cegando|exact E4|done..]|exact C5].
  - destruct Hres as [[? P5]|(? & ? & P5)]; [left|right; by rewrite P5, Hp4]. split; [done|]. rewrite P5. cbn. by rewrite insert_insert_eq, E3.
Qed.

(** ** Segments *)

(** The CPU that made the system call: it is connected, and kept for the process. *)
Definition espera_en (cpu : Z) (c : t_cpu) (k : kernel) : Prop :=
  exists i, indice_cpu cpu (k_cpus k) = Some i /\ k_cpus k !! i = Some c /\ q_socket c <> -1.

(** It has the process again. *)
Definition de_vuelta (cpu p : Z) (c : t_cpu) (k k' : kernel) : Prop :=
  (q_socket c, enviar_pid p) ∈ k_salidas k' /\
  exists i c', indice_cpu cpu (k_cpus k) = Some i /\ k_cpus k' !! i = Some c' /\ proceso_actual c' = Some p /\ disponible c' = disponible c.

Lemma volver_conjunto p b cpu c k m :
  k_pcbs k !! p = Some b -> espera_en cpu c k -> ajena (k_memory_socket k) k ->
  exists k', conjunto s sms (volver_a_cpu p cpu) k m tt k' m /\ k_pcbs k' = k_pcbs k /\ mismo_entorno k k' /\
    k_entradas k' = k_entradas k /\ de_vuelta cpu p c k k'.
Proof.
  intros Hb (i & Hi & Hc & Hq) Ha. destruct (volver_ok p b cpu i c k Hb Hi Hc Hq) as (k' & E & P & G & S & c' & Hc' & Hp & Hd).
  pose proof (calla_volver (k_memory_socket k) p cpu k Ha) as Hca. rewrite E in Hca. destruct Hca as (D & N & _).
  exists k'. split; [apply conjunto_puro; [cegando|done|apply N|done|done]|]. split; [done|]. split; [done|]. split; [done|].
  split; [rewrite S; apply elem_of_app; right; by left|]. by exists i, c'.
Qed.

Lemma espera_misma cpu c k k' : misma k k' -> espera_en cpu c k -> espera_en cpu c k'.
Proof. intros H. assert (E : k_cpus k' = k_cpus k) by (injection H; by intros). unfold espera_en. by rewrite E. Qed.
Lemma de_vuelta_misma cpu p c k0 k k' : misma k0 k -> de_vuelta cpu p c k k' -> de_vuelta cpu p c k0 k'.
Proof. intros H. assert (E : k_cpus k = k_cpus k0) by (injection H; by intros). unfold de_vuelta. by rewrite E. Qed.

Lemma indice_de_fmap {A B} (g : A -> B) (f : B -> bool) l : indice_de f (g <$> l) = indice_de (fun x => f (g x)) l.
Proof. induction l as [|x l IH]; [done|]. cbn. destruct (f (g x)); [done|]. by rewrite IH. Qed.

(** The store without a segment. *)
Definition a_quitar (a : almacen) (p id : Z) : almacen :=
  match a_buscar a p id with
  | Some (ap, i, sg) =>
      Almacen (con_proceso p (AProc false (delete i (a_segs ap))) a) (a_libre a + Z.of_nat (length sg.2)) (a_bloques a)
  | None => a
  end.

Lemma atoi_u32_ok x : es_u32 (atoi_u32 x).
Proof. apply u32_range. Qed.

(** Removing the segment from what the PCB says. *)
Lemma quitar_acoplado b ap p id a :
  acoplado b ap -> a_fuera ap = false -> a_procesos a !! p = Some ap ->
  exists ap', a_procesos (a_quitar a p id) !! p = Some ap' /\ acoplado (quitar_segmento_info id b) ap' /\
    forall q, q <> p -> a_procesos (a_quitar a p id) !! q = a_procesos a !! q.
Proof.
  intros [Hsg Hf] Hfu Hap. unfold a_quitar, a_buscar, quitar_segmento_info. rewrite Hap. cbn [mbind option_bind].
  rewrite Hsg, indice_de_fmap. cbn [fst]. destruct (indice_de _ (a_segs ap)) as [i|] eqn:Ei; cbn [mbind option_bind].
  - apply indice_de_Some in Ei as (sg & Hi & _). rewrite Hi. cbn [mbind option_bind]. unfold con_proceso. cbn [a_procesos].
    eexists. split; [apply lookup_insert_eq|]. split; [|intros q Hq; by apply lookup_insert_ne].
    split; [cbn; by rewrite list_fmap_delete|]. cbn. by rewrite <-Hfu, <-Hf.
  - exists ap. split; [done|]. split; [by split|done].
Qed.

Lemma free_conjunto sr p b ap id ps cpu c k m a :
  Inv sr [p] k -> acoplados s sms bs k m a -> k_pcbs k !! p = Some b -> estado b = EXEC -> a_procesos a !! p = Some ap ->
  espera_en cpu c k ->
  exists k' m', conjunto s sms (syscall_mem_free p (id :: ps) cpu) k m tt k' m' /\
    acoplados s sms bs k' m' (a_quitar a p (atoi_u32 id)) /\
    k_pcbs k' = <[p := quitar_segmento_info (atoi_u32 id) b]> (k_pcbs k) /\ de_vuelta cpu p c k k'.
Proof.
  intros H Hac Hb He Hap Hcpu. destruct (pid_int _ _ _ _ _ _ _ H Hac Hb) as [Hpi Hp0].
  destruct (acoplado_de _ _ _ _ _ Hac Hb) as (ap2 & Hap2 & Hco). simplify_eq.
  assert (Hfu : a_fuera ap = false) by (rewrite <-(proj2 Hco); unfold fuera_k; rewrite He; apply andb_false_r).
  assert (Hadm : admisible sms bs a (PEliminar p (atoi_u32 id))).
  { split; [done|]. split; [apply atoi_u32_ok|]. intros ap' E. by simplify_eq. }
  destruct (un_dialogo m a _ (ac_rep _ _ _ _ _ _ Hac) Hadm) as (m' & a' & rs & Hpa & Hr' & _ & Hd).
  assert (Ha' : exists extra, rs = enviar_ok ELIMINAR_SEGMENTO :: extra /\ a' = a_quitar a p (atoi_u32 id) /\
    exists ns, Forall aviso ns /\ mjoin extra = ns ≫= notificacion_bytes).
  { inversion Hpa as [| | | |? ? ? Hno|? ? ? ? ? ? Hsi| | | | | | | | | | | |]; subst; unfold a_quitar; [rewrite Hno|rewrite Hsi].
    - exists []. split; [done|]. split; [done|]. by exists [].
    - exists [enviar_memoria_liberada]. split; [done|]. split; [done|]. exists [MemoriaLiberada]. by split; [repeat constructor|]. }
  destruct Ha' as (extra & -> & -> & ns & Hns & Hex). cbn [compacta] in Hd.
  destruct (pedir_conjunto sr [p] k m m' ELIMINAR_SEGMENTO _ extra H (ac_oyente _ _ _ Hac) eq_refl Hd) as (k1 & C1 & M1 & N1 & G1).
  assert (Ep : k_pcbs k1 = k_pcbs k) by (injection M1; by intros).
  set (k2 := con_k_pcbs (<[p := quitar_segmento_info (atoi_u32 id) b]> (k_pcbs k1)) k1).
  assert (N2 : mismo_entorno k k2) by (destruct N1; by split).
  destruct (volver_conjunto p (quitar_segmento_info (atoi_u32 id) b) cpu c k2 m') as (k3 & C3 & P3 & N3 & G3 & V3);
    [apply lookup_insert_eq|exact (espera_misma cpu c k k1 M1 Hcpu)|rewrite (me_memory _ _ N2); apply (ajena_entorno _ k), Hac; exact N2|].
  exists k3, m'. split; [|split; [|split; [|by apply (de_vuelta_misma cpu p c k k1)]]].
  - cbn [syscall_mem_free]. eapply conjunto_bind; [exact C1|].
    eapply conjunto_bind; [apply (conjunto_puro _ _ _ _ _ _ k2); [cegando| |done..]; unfold modificar, leer; by rewrite bind_eq, Ep, Hb|].
    exact C3.
  - apply (acoplados_tras k _ m _ a); [done|by etrans|done| |].
    + rewrite P3. unfold k2. cbn [con_k_pcbs k_pcbs]. rewrite Ep.
      destruct (quitar_acoplado b ap p (atoi_u32 id) a Hco Hfu Hap) as (ap' & Hap' & Hco' & Hot). intros q.
      destruct (decide (q = p)) as [->|Hne]; [rewrite lookup_insert_eq, Hap'; by constructor|].
      rewrite lookup_insert_ne, Hot by done. apply Hac.
    + exists ns. split; [done|]. unfold k_entrada in *. rewrite G3. by rewrite <-Hex.
  - rewrite P3. unfold k2. cbn. by rewrite Ep.
Qed.
(** What Memory answers to a request for a segment. *)
Definition a_conceder (a : almacen) (p id tam : Z) (ap : aproc) (datos : list byte) : almacen :=
  Almacen (con_proceso p (AProc false (a_segs ap ++ [(id, datos)])) a) (a_libre a - tam) (a_bloques a).

Lemma solicitar_partes m a p id tam rs a' :
  apaso sms bs a (PSolicitar p id tam) rs a' -> coherente sms m (PSolicitar p id tam) rs ->
  exists ns resp, rs = (notificacion_bytes <$> ns) ++ [resp] /\ Forall notificacion_valida ns /\
    acks ns = (if compacta sms m (PSolicitar p id tam) then [enviar_ok INICIAR_COMPACTACION] else []) /\
    (resp = enviar_ok SEGMENTATION_FAULT /\ a' = a \/
     exists ap base datos, tam <= sms /\ tam <= a_libre a /\ a_procesos a !! p = Some ap /\ Z.of_nat (length datos) = tam /\
       resp = enviar_respuesta_segmento id base tam /\ a' = a_conceder a p id tam ap datos).
Proof.
  intros Hp Hc. cbn [coherente] in Hc.
  inversion Hp as [|? ? ? ? Hno|? ? ? ? Hsin|? ? ap ? ? base datos avisos H1 H2 H3 H4 H5| | | | | | | | | | | | | |]; subst.
  - exists [], (enviar_ok SEGMENTATION_FAULT). split; [done|]. split; [done|]. split; [|by left]. by destruct (compacta _ _ _).
  - exists [IniciaCompactacion; FinalizaCompactacion], (enviar_ok SEGMENTATION_FAULT). split; [done|]. split; [by repeat constructor|].
    split; [|by left]. by destruct (compacta _ _ _).
  - destruct H5 as [->| ->].
    + exists [], (enviar_respuesta_segmento id base (Z.of_nat (length datos))). split; [done|]. split; [done|].
      split; [by destruct (compacta _ _ _)|]. right. by exists ap, base, datos.
    + exists [IniciaCompactacion; FinalizaCompactacion], (enviar_respuesta_segmento id base (Z.of_nat (length datos))).
      split; [done|]. split; [by repeat constructor|]. split; [by destruct (compacta _ _ _)|]. right. by exists ap, base, datos.
Qed.

Lemma respuesta_segmento_u32 id base tam : enviar_respuesta_segmento id base tam = enviar_respuesta_segmento id (u32 base) tam.
Proof. unfold enviar_respuesta_segmento. by rewrite le_enc_u32. Qed.

Lemma mjoin_notificaciones ns resp : mjoin ((notificacion_bytes <$> ns) ++ [resp]) = (ns ≫= notificacion_bytes) ++ resp.
Proof. rewrite join_app. f_equal; [|cbn; apply app_nil_r]. induction ns as [|n ns IH]; [done|]. by rewrite bind_cons, <-IH. Qed.

(** *** The request for a segment *)

Lemma preguntar_conjunto sr M k m m' pedido ns op pl resp :
  Inv sr M k -> oyente k -> Forall notificacion_valida ns -> resp = trama op pl -> es_respuesta op = true ->
  dialogo s sms m (pedido :: acks ns) ((notificacion_bytes <$> ns) ++ [resp]) m' ->
  exists k1, conjunto s sms (pregunta pedido) k m (op_num op) k1 m' /\ misma k k1 /\ mismo_entorno k k1 /\
    k_entrada (k_memory_socket k) k1 = (le_enc 8 (Z.of_nat (length pl)) ++ pl) ++ [] /\
    forall s', s' <> k_memory_socket k -> k_entrada s' k1 = k_entrada s' k.
Proof.
  intros H (Hsk & Haj & ns0 & Hns0 & Hen) Hns Er Hop Hd. destruct (avisos_validos ns0 Hns0) as [Hv0 Ha0].
  exists (tras_pedir pedido (ns0 ++ ns) (le_enc 8 (Z.of_nat (length pl)) ++ pl ++ []) k).
  destruct (tras_pedir_ok pedido (ns0 ++ ns) (le_enc 8 (Z.of_nat (length pl)) ++ pl ++ []) k Haj) as (M1 & M2 & M3 & _).
  split; [|split; [done|split; [done|split; [by rewrite M3, app_assoc|]]]].
  2: { intros s' Hs'. unfold tras_pedir. rewrite entrada_otra by done. etrans; [apply entrada_efectos|done]. }
  apply (conjunto_pregunta s sms k m m' _ ns0 ns op pl [] ((notificacion_bytes <$> ns) ++ [resp])); try done; [lia|exact (cpus_vivas _ _ _ H)|].
  by rewrite mjoin_notificaciones, Er, app_nil_r.
Qed.

(** [syscall_mem_alloc] once the op_code of the answer has arrived. *)
Definition tras_respuesta (sk p cpu ack : Z) : K unit :=
  if i32 ack =? -1 then terminar_en_cpu p cpu
  else if ack =? op_num SEGMENTATION_FAULT then _ ← k_recibir sk recibir_ok; terminar_en_cpu p cpu
  else '(id_resp, _, limite_resp) ← k_recibir sk recibir_respuesta_segmento;
       _ ← modificar p (agregar_segmento_info id_resp limite_resp); volver_a_cpu p cpu.

Lemma alloc_partes p id tam ps cpu k m m1 op k1 k' m' :
  conjunto s sms (pregunta (enviar_solicitar_segmento p (atoi_u32 id) (atoi_u32 tam))) k m op k1 m1 ->
  conjunto s sms (tras_respuesta (k_memory_socket k) p cpu op) k1 m1 tt k' m' ->
  conjunto s sms (syscall_mem_alloc p (id :: tam :: ps) cpu) k m tt k' m'.
Proof.
  intros C1 C2. apply (conjunto_igual _ _ _ (ack ← pregunta (enviar_solicitar_segmento p (atoi_u32 id) (atoi_u32 tam));
    tras_respuesta (k_memory_socket k) p cpu ack)); [intros x; reflexivity|by eapply conjunto_bind].
Qed.

Section respuesta.
Context (sr : list Z) (p : Z) (b : t_pcb) (ap : aproc) (cpu : Z) (k : kernel) (m : memoria) (a : almacen).
Context (H : Inv sr [p] k) (Hac : acoplados s sms bs k m a) (Hb : k_pcbs k !! p = Some b) (He : estado b = EXEC).
Context (Hap : a_procesos a !! p = Some ap).
(** The answer has arrived, and its op_code has been read. *)
Context (k1 : kernel) (m1 : memoria) (M1 : misma k k1) (N1 : mismo_entorno k k1).

Lemma alloc_negado pl :
  (exists ram sw, rep s sms bs m1 a ram sw) -> suelto p k ->
  k_entrada (k_memory_socket k) k1 = (le_enc 8 (Z.of_nat (length pl)) ++ pl) ++ [] -> recibe recibir_ok pl tt ->
  exists k' m', conjunto s sms (tras_respuesta (k_memory_socket k) p cpu (op_num SEGMENTATION_FAULT)) k1 m1 tt k' m' /\
    acoplados s sms bs k' m' (a_sin p ap a) /\ k_pcbs k' = delete p (k_pcbs k).
Proof.
  intros Hr Hsu G1 Hrd. set (k2 := con_entrada (k_memory_socket k) [] k1).
  assert (M2 : misma k k2) by (etrans; [exact M1|done]). assert (N2 : mismo_entorno k k2) by (destruct N1; by split).
  assert (Ep : k_pcbs k2 = k_pcbs k) by (injection M2; by intros). pose proof (Inv_misma _ _ _ _ M2 H) as H2.
  assert (Hac2 : acoplados s sms bs k2 m1 a).
  { apply (acoplados_tras k _ m _ a); [done..|rewrite Ep; apply Hac|]. exists []. split; [done|apply entrada_con_entrada]. }
  assert (Hsu2 : suelto p k2) by (unfold suelto; assert (El : lista_mutexes k2 = lista_mutexes k) by (injection M2; by intros); by rewrite El).
  destruct (fin_conjunta sr p b ap k2 m1 a H2 Hac2 ltac:(by rewrite Ep) He Hsu2 Hap) as (k3 & m3 & C3 & Hac3 & P3 & Q3 & H3 & _).
  pose proof (calla_liberar_reservada (k_memory_socket k3) cpu k3 (ac_ajena _ _ _ _ _ _ Hac3)) as Hcl.
  destruct (liberar_cpu_reservada cpu k3) as [[] k4| | | | |] eqn:E4; try done. destruct Hcl as (D4 & N4 & G4).
  assert (P4 : k_pcbs k4 = k_pcbs k3).
  { revert E4. unfold liberar_cpu_reservada. rewrite bind_eq. unfold modificar_cpu, k_mod. intros [= <-]. by destruct (indice_cpu cpu (k_cpus k3)). }
  exists k4, m3. split; [|split; [|by rewrite P4, P3, Ep]].
  - unfold tras_respuesta. rewrite op_num_no_neg, Z.eqb_refl. unfold k2 in *. rewrite <-(me_memory _ _ N1) in *.
    eapply conjunto_bind; [eapply conjunto_recibir; [|exact G1]|].
    { intros e. rewrite <-app_assoc. apply Hrd. }
    unfold terminar_en_cpu. eapply conjunto_bind; [exact C3|].
    apply conjunto_puro; [unfold liberar_cpu_reservada, post_sem_cpu; cegando|done|apply N4|done|done].
  - apply (acoplados_tras k3 _ m3 _ (a_sin p ap a)); [done|done|apply Hac3|rewrite P4; apply Hac3|].
    destruct (ac_avisos _ _ _ _ _ _ Hac3) as (ns3 & Hns3 & He3). exists ns3. split; [done|]. unfold k_entrada in *. by rewrite G4.
Qed.

Lemma alloc_concedido pl c idz base t datos :
  (exists ram sw, rep s sms bs m1 (a_conceder a p idz t ap datos) ram sw) -> espera_en cpu c k -> Z.of_nat (length datos) = t ->
  k_entrada (k_memory_socket k) k1 = (le_enc 8 (Z.of_nat (length pl)) ++ pl) ++ [] -> recibe recibir_respuesta_segmento pl (idz, base, t) ->
  exists k', conjunto s sms (tras_respuesta (k_memory_socket k) p cpu (op_num SOLICITAR_SEGMENTO)) k1 m1 tt k' m1 /\
    acoplados s sms bs k' m1 (a_conceder a p idz t ap datos) /\
    k_pcbs k' = <[p := agregar_segmento_info idz t b]> (k_pcbs k) /\ de_vuelta cpu p c k k'.
Proof.
  intros Hr Hcpu Hld G1 Hrd. destruct (acoplado_de _ _ _ _ _ Hac Hb) as (ap2 & Hap2 & Hsg & Hf). simplify_eq.
  assert (Hfu : a_fuera ap = false) by (rewrite <-Hf; unfold fuera_k; rewrite He; apply andb_false_r).
  set (sk := k_memory_socket k) in *. set (k2 := con_k_pcbs (<[p := agregar_segmento_info idz (Z.of_nat (length datos)) b]> (k_pcbs k)) (con_entrada sk [] k1)).
  assert (Ep : k_pcbs k1 = k_pcbs k) by (injection M1; by intros). assert (N2 : mismo_entorno k k2) by (destruct N1; by split).
  destruct (volver_conjunto p (agregar_segmento_info idz (Z.of_nat (length datos)) b) cpu c k2 m1) as (k3 & C3 & P3 & N3 & G3 & V3);
    [apply lookup_insert_eq|exact (espera_misma cpu c k k1 M1 Hcpu)|rewrite (me_memory _ _ N2); apply (ajena_entorno _ k), Hac; exact N2|].
  exists k3. split; [|split; [|split; [exact P3|by apply (de_vuelta_misma cpu p c k k1)]]].
  - unfold tras_respuesta. rewrite op_num_no_neg. change (op_num SOLICITAR_SEGMENTO =? op_num SEGMENTATION_FAULT) with false. cbn iota.
    assert (Esk : sk = k_memory_socket k1) by (by rewrite (me_memory _ _ N1)).
    rewrite Esk in G1 |- *. eapply conjunto_bind; [eapply conjunto_recibir; [|exact G1]|].
    { intros e. rewrite <-app_assoc. apply Hrd. }
    cbv beta iota. rewrite <-Esk. eapply conjunto_bind; [|exact C3]. apply conjunto_puro; [cegando| |done..].
    unfold modificar, leer. rewrite bind_eq. change (k_pcbs (con_entrada _ [] k1)) with (k_pcbs k1). rewrite Ep, Hb. unfold k_mod, k2.
    change (k_pcbs (con_entrada _ [] k1)) with (k_pcbs k1). by rewrite Ep.
  - apply (acoplados_tras k _ m _ a); [done|by etrans|done| |].
    + rewrite P3. cbn. apply map_Forall2_insert_2; [|apply Hac].
      split; [cbn; by rewrite Hsg, fmap_app|cbn; rewrite <-Hfu, <-Hf; done].
    + exists []. split; [done|]. fold sk. unfold k_entrada. rewrite G3. cbn. apply entrada_con_entrada.
Qed.
End respuesta.

Lemma alloc_conjunto sr p b ap id tam ps cpu c k m a :
  Inv sr [p] k -> acoplados s sms bs k m a -> k_pcbs k !! p = Some b -> estado b = EXEC -> suelto p k ->
  a_procesos a !! p = Some ap -> espera_en cpu c k -> 0 < atoi_u32 tam ->
  exists k' m' a', conjunto s sms (syscall_mem_alloc p (id :: tam :: ps) cpu) k m tt k' m' /\ acoplados s sms bs k' m' a' /\
    ((exists datos, atoi_u32 tam <= sms /\ atoi_u32 tam <= a_libre a /\ Z.of_nat (length datos) = atoi_u32 tam /\
        a' = a_conceder a p (atoi_u32 id) (atoi_u32 tam) ap datos /\
        k_pcbs k' = <[p := agregar_segmento_info (atoi_u32 id) (atoi_u32 tam) b]> (k_pcbs k) /\ de_vuelta cpu p c k k') \/
     (a' = a_sin p ap a /\ k_pcbs k' = delete p (k_pcbs k))).
Proof.
  intros H Hac Hb He Hsu Hap Hcpu Ht0. destruct (pid_int _ _ _ _ _ _ _ H Hac Hb) as [Hpi _].
  destruct (acoplado_de _ _ _ _ _ Hac Hb) as (ap2 & Hap2 & Hco). simplify_eq.
  assert (Hadm : admisible sms bs a (PSolicitar p (atoi_u32 id) (atoi_u32 tam))).
  { split; [done|]. split; [apply atoi_u32_ok|]. split; [apply atoi_u32_ok|]. split; [done|]. intros ap' E. simplify_eq.
    rewrite <-(proj2 Hco). unfold fuera_k. rewrite He. apply andb_false_r. }
  destruct (un_dialogo m a _ (ac_rep _ _ _ _ _ _ Hac) Hadm) as (m' & a' & rs & Hpa & Hr' & Hcoh & Hd).
  destruct (solicitar_partes m a p _ _ rs a' Hpa Hcoh) as (ns & resp & -> & Hns & Hack & Hres).
  rewrite <-Hack in Hd. destruct Hres as [[Er ->]|(ap' & base & datos & Hts & Htl & Hap' & Hld & Er & ->)].
  - destruct (protocolo_ok (p := p_ok SEGMENTATION_FAULT) tt I) as (pl & Epl & Hrd).
    destruct (preguntar_conjunto sr [p] k m m' _ ns SEGMENTATION_FAULT pl resp H (ac_oyente _ _ _ Hac) Hns ltac:(by rewrite Er) eq_refl Hd)
      as (k1 & C1 & M1 & N1 & G1 & _).
    destruct (alloc_negado sr p b ap cpu k m a H Hac Hb He Hap k1 m' M1 N1 pl Hr' Hsu G1 Hrd) as (k' & m2 & C2 & Hac2 & P2).
    exists k', m2, (a_sin p ap a). split; [by eapply alloc_partes|]. split; [done|by right].
  - simplify_eq. rewrite respuesta_segmento_u32 in Hd.
    destruct (protocolo_ok (p := p_respuesta_segmento) (atoi_u32 id, u32 base, atoi_u32 tam)) as (pl & Epl & Hrd).
    { split_and!; [apply atoi_u32_ok|apply u32_range|apply atoi_u32_ok]. }
    destruct (preguntar_conjunto sr [p] k m m' _ ns SOLICITAR_SEGMENTO pl _ H (ac_oyente _ _ _ Hac) Hns Epl eq_refl Hd) as (k1 & C1 & M1 & N1 & G1 & _).
    destruct (alloc_concedido p b ap cpu k m a Hac Hb He Hap k1 m' M1 N1 pl c _ _ _ datos Hr' Hcpu Hld G1 Hrd) as (k' & C2 & Hac2 & P2 & V2).
    exists k', m', (a_conceder a p (atoi_u32 id) (atoi_u32 tam) ap datos). split; [by eapply alloc_partes|]. split; [done|]. left. by exists datos.
Qed.

(** ** Creation *)

Lemma ciega_generar : ciega generar_pid.
Proof.
  intros k e. unfold generar_pid. rewrite !bind_eq. cbn [k_gets con_k_entradas contador_pids]. by destruct (_ =? _).
Qed.

Lemma creacion_pide pid path k k' :
  k_memory_socket k <> -1 -> pedir_ok (enviar_crear_proceso pid (con_nul path)) k = Sigue (op_num CREAR_PROCESO) k' ->
  enviar_creacion_proceso_a_memory pid path k = Sigue true k'.
Proof.
  intros Hs. unfold pedir_ok, enviar_creacion_proceso_a_memory. rewrite !bind_eq. cbn [k_gets]. rewrite (proj2 (Z.eqb_neq _ _) Hs), !bind_eq.
  destruct (k_enviar _ _ k) as [[] k1| | | | |]; try done. rewrite !bind_eq.
  destruct (recibir_respuesta_de_memoria _ k1) as [c k2| | | | |]; try done.
  destruct (i32 c =? -1) eqn:Ec; [cbn; intros [= -> ->]; by rewrite op_num_no_neg in Ec|].
  rewrite bind_eq. destruct (k_recibir (k_memory_socket k) recibir_ok k2) as [[] k3| | | | |] eqn:E; try done. intros [= -> ->].
  rewrite Z.eqb_refl. cbn [negb]. by rewrite bind_eq, E.
Qed.

Lemma crear_conjunto sr M path prio k m a :
  Inv sr M k -> acoplados s sms bs k m a -> contador_ok k -> path <> [] -> cadena_ok (con_nul path) ->
  exists k' m', let pid := contador_pids k in
    conjunto s sms (crear_proceso path prio) k m (Some pid) k' m' /\
    acoplados s sms bs k' m' (Almacen (con_proceso pid (AProc false []) a) (a_libre a) (a_bloques a)) /\
    k_pcbs k' = <[pid := pcb_nuevo prio (k_reloj k)]> (k_pcbs k).
Proof.
  intros H Hac Hc Hpath Hcad. cbv zeta. set (pid := contador_pids k). set (b := pcb_nuevo prio (k_reloj k)).
  assert (Hno : k_pcbs k !! pid = None).
  { destruct (k_pcbs k !! pid) as [c|] eqn:E; [|done]. assert (Hv : vivo k pid) by by eexists. apply (vivo_todos _ _ _ _ H) in Hv.
    pose proof (i_pids _ _ _ H) as Hp. rewrite Forall_forall in Hp. specialize (Hp _ Hv). unfold pid in Hp. lia. }
  assert (Hna : a_procesos a !! pid = None).
  { pose proof (ac_pcbs _ _ _ _ _ _ Hac pid) as Hp. rewrite Hno in Hp. by inversion Hp. }
  assert (Hpi : es_int pid) by (pose proof (i_contador _ _ _ H); unfold contador_ok, pid, es_int in *; lia).
  destruct (un_dialogo m a (PCrear pid (con_nul path)) (ac_rep _ _ _ _ _ _ Hac)) as (m' & a' & rs & Hpa & Hr' & _ & Hd); [done|].
  inversion Hpa; subst. cbn [compacta] in Hd.
  pose proof (Inv_crear sr M k b H eq_refl eq_refl) as H1. set (k1 := con_todos_los_procesos _ _) in H1.
  destruct (ac_avisos _ _ _ _ _ _ Hac) as (ns & Hns & He). destruct (avisos_validos ns Hns) as [Hv Ha].
  pose proof (ac_socket _ _ _ _ _ _ Hac) as Hsk.
  set (k2 := tras_pedir (enviar_crear_proceso pid (con_nul path)) ns [] k1).
  assert (C2 : conjunto s sms (pedir_ok (enviar_crear_proceso pid (con_nul path))) k1 m (op_num CREAR_PROCESO) k2 m').
  { apply (conjunto_pedir s sms k1 m m' CREAR_PROCESO _ []); try done; [cbn; lia|exact (cpus_vivas _ _ _ H1)|apply Hac]. }
  destruct (tras_pedir_ok (enviar_crear_proceso pid (con_nul path)) ns [] k1 (ac_ajena _ _ _ _ _ _ Hac)) as (M2 & N2 & G2 & _). fold k2 in M2, N2, G2.
  destruct (i_colas _ _ _ (Inv_misma _ _ _ _ M2 H1)) as (_ & [q Hq] & _).
  set (k3 := con_sem_new (S (sem_new k2)) (con_cola_procesos_new (Some (q ++ [pid])) k2)).
  assert (Ep : k_pcbs k2 = <[pid := b]> (k_pcbs k)) by (injection M2; by intros).
  destruct N2 as [N1 N3 N4 N5]. exists k3, m'. split; [|split; [|exact Ep]].
  - unfold crear_proceso. rewrite bool_decide_false by done.
    eapply conjunto_bind; [apply (conjunto_puro _ _ _ _ _ _ (con_contador_pids (pid + 1) k)); [apply ciega_generar| |done..]|].
    { unfold generar_pid. rewrite bind_eq. cbn [k_gets]. unfold contador_ok in Hc. rewrite (proj2 (Z.eqb_neq _ _)) by lia. reflexivity. }
    eapply conjunto_bind; [apply (conjunto_puro _ _ _ _ _ tt); [cegando|reflexivity|done..]|].
    eapply conjunto_bind; [apply (conjunto_puro _ _ _ _ _ tt k1); [unfold registrar_pcb; cegando|reflexivity|done..]|].
    eapply conjunto_bind.
    { destruct C2 as (d & r & D & E & S1 & A1). exists d, r. split; [done|]. split; [|done]. intros e. apply creacion_pide; [cbn; lia|apply E]. }
    apply (conjunto_puro _ _ _ k2); [unfold post_sem_new, liberar_pcb; cegando| |done..].
    rewrite bind_eq. cbn [k_get]. by rewrite Hq.
  - pose proof Hac as [A1 A2 A3 A4 A5 A6 A7]. split.
    + done.
    + change (k_pcbs k3) with (k_pcbs k2). rewrite Ep. by apply map_Forall2_insert_2.
    + change (0 <= k_memory_socket k2). by rewrite N1.
    + unfold ajena. change (k_memory_socket k3) with (k_memory_socket k2). change (k_cpus k3) with (k_cpus k2). by rewrite N1, N5.
    + change (mutex_lista_tomado k2 = false). by rewrite N3.
    + change (contador_pids k2 <= 2147483647). rewrite N4. cbn. unfold contador_ok in Hc. lia.
    + exists []. split; [done|]. change (k_memory_socket k3) with (k_memory_socket k2). rewrite N1. exact G2.
Qed.

End sistema.
