(* ===== verification/Salida.v ===== *)
(** * Salida: STDOUT with Memory at the other end

    The Scheduler reads from Memory what the interface will print, before the
    process goes to BLOCK. *)

From S2P Require Import Prelude Bloques Wire Buffer Tipos Mensajes Texto Conexiones Stick Swap Memoria MemoryIO MemSwap Procesos Compactacion MemScheduler MemInv MemSegmentos MemSuspension Indice MemRefina.
From S2P Require Import SchedTipos SchedColas SchedMutex SchedMemoria SchedIO SchedCpu SchedPlan SchedInv SchedInvOps SchedInvFin SchedSeguroOps SchedSeguroMem SchedSeguroIO SchedSeguro SchedSistema SchedCorrecto SchedVivacidad SchedProtocolo SchedSyscalls SchedDispositivo Dialogo Sistema.

(** ** The queue of an interface *)

Definition en_block (b : t_pcb) : t_pcb := con_block_epoch (block_epoch b +u 1)%u32 (con_estado BLOCK b).

Lemma encolar_io_ok i io req b k :
  tabla_ios k !! i = Some io -> activa io = true -> k_pcbs k !! r_proceso req = Some b ->
  exists k', encolar_io_request i req k = Sigue true k' /\ k_pcbs k' = <[r_proceso req := en_block b]> (k_pcbs k) /\
    tabla_ios k' = alter (fun io => con_io_cola (io_cola io ++ [req]) (S (sem_cola io)) io) i (tabla_ios k) /\
    mismo_entorno k k' /\ k_entradas k' = k_entradas k /\ k_salidas k' = k_salidas k.
Proof.
  intros Hio Ha Hb. unfold encolar_io_request. rewrite bind_eq. unfold leer_io. rewrite Hio, Ha. cbn [negb].
  unfold modificar, leer. rewrite !bind_eq, Hb. cbn [k_mod]. rewrite !bind_eq. cbn [con_k_pcbs k_pcbs]. rewrite lookup_insert_eq. cbn [k_mod].
  rewrite bind_eq. cbn [con_k_pcbs k_pcbs]. rewrite lookup_insert_eq. cbn [k_mod]. rewrite bind_eq. cbn [k_mod]. rewrite bind_eq.
  unfold notificar_proceso_en_block. rewrite bind_eq. cbn [k_gets con_cola_procesos_block con_k_pcbs k_config].
  assert (E : forall x, <[r_proceso req := x]> (<[r_proceso req := con_estado BLOCK b]> (k_pcbs k)) = <[r_proceso req := x]> (k_pcbs k))
    by (intros x; apply insert_insert_eq).
  destruct (k_config k) as [c|]; [destruct (suspension_timeout c <=? 0)|]; eexists; (split; [reflexivity|]); cbn; rewrite E; by split_and!.
Qed.

Lemma ciega_encolar_io i req : ciega (encolar_io_request i req).
Proof.
  unfold encolar_io_request. apply ciega_bind; [intros k e; unfold leer_io; cbn; by destruct (tabla_ios k !! i)|]. intros io.
  destruct (negb (activa io)); [auto with ciega|]. unfold notificar_proceso_en_block, modificar_io. cegando.
Qed.

(** ** The reading *)

Section salida.
Context (s sms bs : Z) (Hs0 : 0 <= s) (Hsms : 0 < sms < 4294967296).

Lemma lectura_u32 p dir tam : enviar_lectura_memoria p dir tam = enviar_lectura_memoria p (u32 dir) tam.
Proof. unfold enviar_lectura_memoria. by rewrite le_enc_u32. Qed.

(** What the Scheduler does with the answer. *)
Definition tras_lectura (sk p : Z) (i : nat) (dir size : Z) (ack : Z) : K unit :=
  if ack =? op_num SEGMENTATION_FAULT then _ ← k_recibir sk recibir_ok; finalizar_pcb_por_seg_fault p
  else if i32 ack =? -1 then encolar_en_ready_y_notificar p
  else buffer ← k_recibir sk (recibir_datos_memoria size); _ ← encolar_io_request i (ReqStdout p dir size (Some buffer)); mret tt.

Lemma stdout_partes p i dir size ps k m op k1 m1 k' m' :
  indice_de (fun io => activa io && bool_decide (io_tipo io = IO_TYPE_STDOUT)) (tabla_ios k) = Some i ->
  conjunto s sms (pregunta (enviar_lectura_memoria p (atoi_int dir) (atoi_int size))) k m op k1 m1 ->
  conjunto s sms (tras_lectura (k_memory_socket k) p i (atoi_int dir) (atoi_int size) op) k1 m1 tt k' m' ->
  conjunto s sms (syscall_stdout p (dir :: size :: ps)) k m tt k' m'.
Proof.
  intros Hi C1 C2. apply (conjunto_igual _ _ _ (ack ← pregunta (enviar_lectura_memoria p (atoi_int dir) (atoi_int size));
    tras_lectura (k_memory_socket k) p i (atoi_int dir) (atoi_int size) ack)); [|by eapply conjunto_bind].
  intros x. cbn [syscall_stdout]. rewrite bind_eq. unfold buscar_interfaz_io_por_tipo. rewrite bind_eq.
  cbn [k_gets con_entrada con_k_entradas tabla_ios mret K_ret]. rewrite Hi. reflexivity.
Qed.

Lemma leer_longitud a p dir tam datos : 0 <= tam -> a_leer sms a p dir tam = Some datos -> Z.of_nat (length datos) = tam.
Proof.
  unfold a_leer. destruct (a_segmento sms a p dir) as [[[ap i] sg]|]; cbn; [|done]. intros Ht.
  apply length_leer_buffer; [apply Z.mod_pos_bound; lia|done].
Qed.

Section respuesta.
Context (sr : list Z) (p : Z) (b : t_pcb) (ap : aproc) (k : kernel) (m : memoria) (a : almacen).
Context (H : Inv sr [p] k) (Hac : acoplados s sms bs k m a) (Hb : k_pcbs k !! p = Some b) (He : estado b = EXEC).
Context (Hap : a_procesos a !! p = Some ap).
Context (k1 : kernel) (m1 : memoria) (M1 : misma k k1) (N1 : mismo_entorno k k1).
Context (Hr : exists ram sw, rep s sms bs m1 a ram sw).

(** Once the answer has been read. *)
Let k2 := con_entrada (k_memory_socket k) [] k1.

Lemma leida_acoplados : acoplados s sms bs k2 m1 a.
Proof.
  apply (acoplados_tras s sms bs k _ m _ a); [done|destruct N1; by split|done| |exists []; split; [done|apply entrada_con_entrada]].
  assert (Ep : k_pcbs k2 = k_pcbs k) by (injection M1; by intros). rewrite Ep. apply Hac.
Qed.

Lemma lectura_negada i dir size pl :
  suelto p k -> k_entrada (k_memory_socket k) k1 = (le_enc 8 (Z.of_nat (length pl)) ++ pl) ++ [] -> recibe recibir_ok pl tt ->
  exists k' m', conjunto s sms (tras_lectura (k_memory_socket k) p i dir size (op_num SEGMENTATION_FAULT)) k1 m1 tt k' m' /\
    acoplados s sms bs k' m' (a_sin p ap a) /\ k_pcbs k' = delete p (k_pcbs k).
Proof.
  intros Hsu G1 Hrd. pose proof leida_acoplados as Hac2. assert (M2 : misma k k2) by exact M1.
  pose proof (Inv_misma _ _ _ _ M2 H) as H2. pose proof (misma_leer _ _ _ _ M2 Hb) as Hb2.
  destruct (pid_int _ _ _ _ _ _ _ _ _ _ H Hac Hb) as [Hpi _]. destruct (acoplado_de _ _ _ _ _ _ _ _ Hac Hb) as (ap2 & Hap2 & _ & Hf). simplify_eq.
  assert (Hm : muere s sms bs sr p ap (finalizar_pcb_por_seg_fault p) k2 m1 a).
  { apply (seg_fault_conjunto s sms bs Hs0 Hsms sr p b ap k2 m1 a H2 (ac_oyente _ _ _ _ _ _ Hac2) Hr (ac_tomado _ _ _ _ _ _ Hac2) Hb2); try done.
    - congruence.
    - unfold suelto. by rewrite (misma_mutexes _ _ M2).
    - rewrite <-Hf. unfold fuera_k. rewrite He. apply andb_false_r. }
  destruct (muere_acoplados s sms bs sr p ap _ k2 m1 a k2 m1 a Hm Hac2 ltac:(done)) as (k' & m' & C & Hac' & P' & _); [by apply map_Forall2_delete, Hac2|].
  exists k', m'. split; [|split; [done|]].
  - unfold tras_lectura. rewrite Z.eqb_refl. unfold k2 in *. rewrite <-(me_memory _ _ N1) in *.
    eapply conjunto_bind; [eapply conjunto_recibir; [|exact G1]|exact C]. intros e. rewrite <-app_assoc. apply Hrd.
  - rewrite P'. f_equal. injection M1. by intros.
Qed.

Lemma lectura_concedida i io dir size pl datos :
  tabla_ios k !! i = Some io -> activa io = true ->
  k_entrada (k_memory_socket k) k1 = (le_enc 8 (Z.of_nat (length pl)) ++ pl) ++ [] -> recibe (recibir_datos_memoria size) pl datos ->
  exists k', conjunto s sms (tras_lectura (k_memory_socket k) p i dir size (op_num LECTURA_MEMORIA)) k1 m1 tt k' m1 /\
    acoplados s sms bs k' m1 a /\ k_pcbs k' = <[p := en_block b]> (k_pcbs k) /\
    tabla_ios k' = alter (fun io => con_io_cola (io_cola io ++ [ReqStdout p dir size (Some datos)]) (S (sem_cola io)) io) i (tabla_ios k) /\
    forall s', s' <> k_memory_socket k -> k_entrada s' k' = k_entrada s' k1.
Proof.
  intros Hio Ha G1 Hrd. pose proof leida_acoplados as Hac2. assert (M2 : misma k k2) by exact M1.
  pose proof (misma_leer _ _ _ _ M2 Hb) as Hb2. assert (Et : tabla_ios k2 = tabla_ios k) by (injection M1; by intros).
  assert (Ep : k_pcbs k2 = k_pcbs k) by (injection M1; by intros).
  destruct (encolar_io_ok i io (ReqStdout p dir size (Some datos)) b k2) as (k3 & E3 & P3 & T3 & N3 & G3 & S3); [by rewrite Et|done|done|].
  cbn [r_proceso] in P3. exists k3. split; [|split; [|split; [by rewrite P3, Ep|split; [by rewrite T3, Et|]]]].
  3: { intros s' Hs'. unfold k_entrada at 1. rewrite G3. by apply entrada_otra. }
  - unfold tras_lectura. change (op_num LECTURA_MEMORIA =? op_num SEGMENTATION_FAULT) with false. rewrite op_num_no_neg. cbn iota.
    unfold k2 in *. rewrite <-(me_memory _ _ N1) in *.
    eapply conjunto_bind; [eapply conjunto_recibir; [|exact G1]|]. { intros e. rewrite <-app_assoc. apply Hrd. }
    eapply conjunto_bind; [apply (conjunto_puro _ _ _ _ _ true k3); [apply ciega_encolar_io|exact E3|apply N3|done|by rewrite S3]|by apply conjunto_puro].
  - apply (acoplados_ajeno s sms bs k2); [done|done|by unfold k_entrada; rewrite G3|].
    rewrite P3. rewrite <-(insert_id _ _ _ Hb2) at 1. apply map_Forall2_insert_2; [|intros q; destruct (k_pcbs k2 !! q); by constructor].
    split; [done|]. unfold fuera_k. cbn. by rewrite He, !andb_false_r.
Qed.
End respuesta.

Lemma stdout_conjunto sr p b ap i dir size ps k m a :
  Inv sr [p] k -> acoplados s sms bs k m a -> k_pcbs k !! p = Some b -> estado b = EXEC -> suelto p k -> a_procesos a !! p = Some ap ->
  indice_de (fun io => activa io && bool_decide (io_tipo io = IO_TYPE_STDOUT)) (tabla_ios k) = Some i ->
  0 <= atoi_int size <= 1073741824 -> sms + atoi_int size <= 4294967296 ->
  exists k' m' a', conjunto s sms (syscall_stdout p (dir :: size :: ps)) k m tt k' m' /\ acoplados s sms bs k' m' a' /\
    ((exists datos, a_leer sms a p (u32 (atoi_int dir)) (atoi_int size) = Some datos /\ a' = a /\ k_pcbs k' = <[p := en_block b]> (k_pcbs k) /\
        tabla_ios k' = alter (fun io => con_io_cola (io_cola io ++ [ReqStdout p (atoi_int dir) (atoi_int size) (Some datos)]) (S (sem_cola io)) io)
          i (tabla_ios k) /\ forall s', s' <> k_memory_socket k -> k_entrada s' k' = k_entrada s' k) \/
     a_leer sms a p (u32 (atoi_int dir)) (atoi_int size) = None /\ a' = a_sin p ap a /\ k_pcbs k' = delete p (k_pcbs k)).
Proof.
  intros H Hac Hb He Hsu Hap Hi Hz Hsz. destruct (pid_int _ _ _ _ _ _ _ _ _ _ H Hac Hb) as [Hpi _].
  destruct (indice_activa _ _ _ Hi) as (io & Hio & Hact).
  assert (Hadm : admisible sms bs a (PLeer p (u32 (atoi_int dir)) (atoi_int size))).
  { split; [done|]. split; [apply u32_range|]. split; [split; [lia|lia]|]. pose proof (Z.mod_pos_bound (u32 (atoi_int dir)) sms ltac:(lia)). lia. }
  destruct (un_dialogo s sms bs Hs0 Hsms m a _ (ac_rep _ _ _ _ _ _ Hac) Hadm) as (m' & a' & rs & Hpa & Hr' & _ & Hd).
  cbn [compacta pedido_bytes_mem] in Hd. rewrite <-lectura_u32 in Hd.
  inversion Hpa as [| | | | | |? ? ? ? Hno|? ? ? ? datos Hsi| | | | | | | | | |]; subst.
  - destruct (protocolo_ok (p := p_ok SEGMENTATION_FAULT) tt I) as (pl & Epl & Hrd).
    destruct (preguntar_conjunto s sms sr [p] k m m' _ [] SEGMENTATION_FAULT pl _ H (ac_oyente _ _ _ _ _ _ Hac) (Forall_nil_2 _) Epl eq_refl Hd)
      as (k1 & C1 & M1 & N1 & G1 & O1).
    destruct (lectura_negada sr p b ap k m a' H Hac Hb He Hap k1 m' M1 N1 Hr' i (atoi_int dir) (atoi_int size) pl Hsu G1 Hrd) as (k' & m2 & C2 & Hac2 & P2).
    exists k', m2, (a_sin p ap a'). split; [by eapply stdout_partes|]. split; [done|]. by right.
  - pose proof (leer_longitud _ _ _ _ _ (proj1 Hz) Hsi) as Hl.
    destruct (protocolo_ok (p := p_datos_memoria (atoi_int size)) datos) as (pl & Epl & Hrd); [split; [done|unfold datos_ok; lia]|].
    destruct (preguntar_conjunto s sms sr [p] k m m' _ [] LECTURA_MEMORIA pl _ H (ac_oyente _ _ _ _ _ _ Hac) (Forall_nil_2 _) Epl eq_refl Hd)
      as (k1 & C1 & M1 & N1 & G1 & O1).
    destruct (lectura_concedida p b k m a' Hac Hb He k1 m' M1 N1 Hr' i io (atoi_int dir) (atoi_int size) pl datos Hio Hact G1 Hrd) as (k' & C2 & Hac2 & P2 & T2 & O2).
    exists k', m', a'. split; [by eapply stdout_partes|]. split; [done|]. left. exists datos.
    split_and!; try done. intros s' Hs'. by rewrite O2, O1.
Qed.
End salida.
