(* ===== verification/Juntos.v ===== *)
(** * Juntos: the turns of the Scheduler that talk with Memory

    Whole turns of its threads, as they read what a CPU, an interface or the clock
    brings, with Memory at the other end of the socket: [Sistema] serves the part
    of each that goes to Memory. *)

From Stdlib Require Import Strings.String.
From S2P Require Import Prelude Bloques Wire Buffer Tipos Mensajes Texto Conexiones Stick Swap Memoria MemoryIO MemSwap Procesos Compactacion MemScheduler MemInv MemSegmentos MemSuspension Indice MemRefina.
From S2P Require Import SchedTipos SchedColas SchedMutex SchedMemoria SchedIO SchedCpu SchedPlan SchedInv SchedInvOps SchedInvFin SchedSeguroOps SchedSeguroMem SchedSeguroIO SchedSeguro SchedSistema SchedCorrecto SchedVivacidad SchedProtocolo SchedSyscalls SchedDispositivo Dialogo Sistema Salida.

(** ** Turns *)

(** What a handler guarantees, it guarantees with Memory at the other end. *)
Lemma conjunto_cumple {A} s sms (h : K A) Q k m x k' m' :
  (forall k0, misma k k0 -> cumple h Q k0) -> conjunto s sms h k m x k' m' -> exists k1, misma k' k1 /\ Q x k1.
Proof.
  intros HQ (d & r & _ & E & _). specialize (E []). specialize (HQ (con_entrada (k_memory_socket k) (k_entrada (k_memory_socket k) k ++ mjoin r ++ []) k) eq_refl).
  unfold cumple in HQ. rewrite E in HQ. eexists. split; [|exact HQ]. done.
Qed.

Lemma conjunto_inv {A} s sms (h : K A) k m x k' m' :
  (forall k0, misma k k0 -> cumple h (fun _ k' => inv [] k') k0) -> conjunto s sms h k m x k' m' -> inv [] k'.
Proof.
  intros HQ HC. destruct (conjunto_cumple _ _ _ _ _ _ _ _ _ HQ HC) as (k1 & M & sr & H). exists sr. by eapply Inv_misma.
Qed.

(** What comes from a CPU or an interface. *)
Lemma conjunto_recibir_otro {A} s sms (r : lector A) s' k m x resto :
  s' <> k_memory_socket k -> r (k_entrada s' k) = Some (x, resto) ->
  conjunto s sms (k_recibir s' r) k m x (con_entrada s' resto k) m.
Proof.
  intros Hs Hr. exists [], []. split; [constructor|]. split; [|split; [done|by rewrite app_nil_r]]. intros e.
  set (sk := k_memory_socket k) in *. rewrite (recibir_eq r s' _ x resto) by (by rewrite entrada_otra).
  rewrite entrada_otra by done. f_equal. unfold con_entrada. cbn. by rewrite insert_insert_ne.
Qed.

(** [r] is the receptor of the CPU [c], which has [p], and gives it back. *)
Record devuelve_cpu (j : nat) (r : t_cpu_thread_arg) (c : t_cpu) (p : Z) (motivo : t_motivo_devolucion) (nombre : option (list byte))
    (params : list (list byte)) (resto : list byte) (k : kernel) : Prop := {
  dv_receptor : receptores k !! j = Some r;
  dv_mensaje : k_entrada (rt_socket r) k =
    enviar_devolver_proceso p (motivo_num motivo) nombre params (Z.of_nat (length params)) ++ resto;
  dv_valida : devolucion_valida (p, motivo, nombre, params);
  dv_socket : rt_socket r <> k_memory_socket k;
  dv_cpu : cpu_de (rt_cpu_id r) k = Some c;
  dv_actual : proceso_actual c = Some p;
  dv_conectada : q_socket c <> -1 }.

Section turno.
Context (s sms bs : Z).

(** The CPU without the process, reserved or not. *)
Definition cpu_sin (mem : bool) (c : t_cpu) : t_cpu :=
  if mem then con_timer false (timer_pid c) (con_proceso_actual None c)
  else con_disponible true (con_timer false (timer_pid c) (con_proceso_actual None c)).

Lemma retirado (mem : bool) id i c p pid k :
  indice_cpu id (k_cpus k) = Some i -> k_cpus k !! i = Some c -> proceso_actual c = Some p ->
  let k1 := con_k_cpus (alter (cpu_sin mem) i (k_cpus k)) k in
  (if mem then retirar_proceso_de_cpu_reservando id pid else retirar_proceso_de_cpu id pid) k =
  Sigue (Some p) (if mem then k1 else con_sem_cpu_disponible (S (sem_cpu_disponible k)) k1).
Proof.
  intros Hi Hc Hp. assert (Hd : cpu_de id k = Some c) by (unfold cpu_de; by rewrite Hi).
  destruct mem; [unfold retirar_proceso_de_cpu_reservando|unfold retirar_proceso_de_cpu];
    rewrite bind_eq; cbn [k_gets]; rewrite Hd, bind_eq; unfold modificar_cpu at 1, k_mod at 1; rewrite Hi; cbn; by rewrite Hp.
Qed.

Lemma turno_devuelto sr j r c p motivo nombre params resto k m a :
  Inv sr [] k -> acoplados s sms bs k m a -> devuelve_cpu j r c p motivo nombre params resto k ->
  exists b k1, k_pcbs k !! p = Some b /\ estado b = EXEC /\ 
    Inv sr [p] k1 /\ acoplados s sms bs k1 m a /\ mismo_entorno k k1 /\ k_pcbs k1 = k_pcbs k /\ lista_mutexes k1 = lista_mutexes k /\
    k_reloj k1 = k_reloj k /\ tabla_ios k1 = tabla_ios k /\
    (forall s', s' <> rt_socket r -> k_entrada s' k1 = k_entrada s' k) /\
    (es_syscall_de_memoria (motivo_num motivo) nombre = true ->
       espera_en (rt_cpu_id r) (cpu_sin true c) k1 /\ indice_cpu (rt_cpu_id r) (k_cpus k1) = indice_cpu (rt_cpu_id r) (k_cpus k)) /\
    forall k' m', conjunto s sms (manejar_motivo p (motivo_num motivo) nombre params (rt_cpu_id r)) k1 m tt k' m' ->
      conjunto s sms (scheduler_cpu_receptor_thread j) k m tt k' m'.
Proof.
  intros H Hac [Hj Hmsg Hval Hsk Hcpu Hact Hq]. set (mem := es_syscall_de_memoria (motivo_num motivo) nombre).
  unfold cpu_de in Hcpu. apply bind_Some in Hcpu as (i & Hi & Hc).
  destruct (protocolo_ok (p := p_devolver_proceso) (p, motivo, nombre, params) Hval) as (pl & Epl & Hrd).
  change (p_enviar _ _) with (enviar_devolver_proceso p (motivo_num motivo) nombre params (Z.of_nat (length params))) in Epl.
  rewrite Epl in Hmsg. set (so := rt_socket r) in *.
  set (kA := con_entrada so (le_enc 8 (Z.of_nat (length pl)) ++ pl ++ resto) k). set (kB := con_entrada so resto kA).
  set (k0 := con_k_cpus (alter (cpu_sin mem) i (k_cpus k)) kB).
  set (k1 := if mem then k0 else con_sem_cpu_disponible (S (sem_cpu_disponible k)) k0).
  assert (HB : Inv sr [] kB) by (by apply (Inv_misma _ _ k)).
  pose proof (indice_cpu_lookup _ _ _ Hi) as (c' & Hc' & Hid). assert (c' = c) as -> by congruence. clear Hc'.
  assert (Hex : exists b, k_pcbs k !! p = Some b /\ estado b = EXEC).
  { pose proof (i_exec _ _ _ H) as Hx. rewrite Forall_forall in Hx. apply Hx. unfold en_cpus. apply list_elem_of_omap.
    exists c. split; [by eapply list_elem_of_lookup_2|done]. }
  destruct Hex as (b & Hb & He). destruct (pid_int _ _ _ _ _ _ _ _ _ _ H Hac Hb) as [_ Hp0].
  assert (H0 : Inv sr [p] k0).
  { eapply (Inv_cpu sr [] [p] kB i c (cpu_sin mem) HB Hc).
    - destruct mem; cbn [cpu_sin]; cbn; rewrite Hact; done.
    - destruct mem; constructor.
    - split; [|by destruct mem]. destruct mem; exact (proj1 (Inv_cpu_entrada _ _ _ _ _ HB Hc)). }
  assert (N0 : mismo_entorno k k0).
  { split; try done. cbn. apply list_eq. intros n. rewrite !list_lookup_fmap, list_lookup_alter.
    destruct (decide (i = n)) as [->|]; [|done]. rewrite Hc. by destruct mem. }
  assert (N1 : mismo_entorno k k1) by (unfold k1; destruct mem; [done|destruct N0; by split]).
  assert (Ep : k_pcbs k1 = k_pcbs k) by (unfold k1; by destruct mem).
  exists b, k1. split; [done|]. split; [done|]. split; [unfold k1; destruct mem; [done|by apply (Inv_misma _ _ k0)]|].
  split; [|split; [done|split; [done|split; [unfold k1; by destruct mem|split; [unfold k1; by destruct mem|
    split; [unfold k1; by destruct mem|split; [|split]]]]]]].
  - apply (acoplados_ajeno s sms bs k); [done|done| |].
    + transitivity (k_entrada (k_memory_socket k) kB); [unfold k1; by destruct mem|]. unfold kB, kA. by rewrite !entrada_otra.
    + rewrite Ep. intros q. destruct (k_pcbs k !! q); by constructor.
  - intros s' Hs'. transitivity (k_entrada s' kB); [unfold k1; by destruct mem|]. unfold kB, kA. by rewrite !entrada_otra by congruence.
  - intros Hm. unfold k1, k0. rewrite Hm. change (k_cpus (con_k_cpus ?cs kB)) with cs.
    assert (Ei : indice_cpu (rt_cpu_id r) (alter (cpu_sin true) i (k_cpus k)) = Some i) by (by rewrite (indice_alter (rt_cpu_id r) (cpu_sin true) i (k_cpus k) c)).
    split; [|by rewrite Ei]. exists i. split; [exact Ei|]. split; [|done]. cbn. by rewrite list_lookup_alter_eq, Hc.
  - intros k' m' C. apply (conjunto_igual _ _ _ (codigo ← k_codigo so;
      if i32 codigo =? -1 then _ ← marcar_cpu_desconectada (rt_cpu_id r) so; k_mod (fun k => con_receptores (delete j (receptores k)) k)
      else if codigo =? op_num DEVOLVER_PROCESO then manejar_devolver_proceso so (rt_cpu_id r)
      else _ ← marcar_cpu_desconectada (rt_cpu_id r) so; k_mod (fun k => con_receptores (delete j (receptores k)) k))).
    { intros x. unfold scheduler_cpu_receptor_thread. rewrite bind_eq. cbn [k_get con_entrada con_k_entradas receptores]. by rewrite Hj. }
    eapply conjunto_bind; [apply (conjunto_recibir_otro _ _ _ _ _ _ (op_num DEVOLVER_PROCESO) (le_enc 8 (Z.of_nat (length pl)) ++ pl ++ resto) Hsk)|].
    { rewrite Hmsg. by rewrite codigo_trama. }
    rewrite op_num_no_neg, Z.eqb_refl. fold kA. unfold manejar_devolver_proceso.
    eapply conjunto_bind; [apply (conjunto_recibir_otro s sms recibir_devolver_proceso so kA m (p, motivo_num motivo, nombre, params) resto Hsk)|].
    { unfold kA. rewrite entrada_con_entrada. apply (Hrd resto). }
    fold kB. cbv beta iota. destruct (Z.ltb_spec p 0); [lia|]. fold mem.
    eapply conjunto_bind; [apply (conjunto_puro _ _ _ _ _ (Some p) k1)|exact C].
    + unfold retirar_proceso_de_cpu_reservando, retirar_proceso_de_cpu, post_sem_cpu. cegando.
    + exact (retirado mem (rt_cpu_id r) i c p p kB Hi Hc Hact).
    + exact (me_memory _ _ N1).
    + unfold k1. by destruct mem.
    + unfold k1. by destruct mem.
Qed.
End turno.

(** ** The medium term *)

Section mediano.
Context (s sms bs : Z) (Hs0 : 0 <= s) (Hsms : 0 < sms < 4294967296).

(** What the process waits to write fits, and nobody waits for it. *)
Definition regresable (k : kernel) (p : Z) : Prop := forall b datos, k_pcbs k !! p = Some b -> stdin_pendiente b = Some datos ->
  let d := take (Z.to_nat (i32 (stdin_pendiente_size b))) datos in
  datos_ok d /\ sms + Z.of_nat (length d) <= 4294967296 /\ suelto p k.

Lemma regreso_uno sr p k m a :
  Inv sr [] k -> acoplados s sms bs k m a -> p ∈ sr -> regresable k p ->
  exists k' m' a', conjunto s sms (des_suspender_candidato p) k m tt k' m' /\ acoplados s sms bs k' m' a' /\
    afloja (lista_mutexes k) (lista_mutexes k') /\ (forall q, q <> p -> k_pcbs k' !! q = k_pcbs k !! q) /\
    exists sr', Inv sr' [] k' /\ (sr' = sr \/ sr ≡ₚ p :: sr').
Proof.
  intros H Hac Hp Hre. destruct (Inv_lugar _ _ _ p H) as [b Hb]; [apply lugares_dec; tauto|].
  destruct (acoplado_de _ _ _ _ _ _ _ _ Hac Hb) as (ap & Hap & _).
  assert (Hinv : forall k' m', conjunto s sms (des_suspender_candidato p) k m tt k' m' -> exists sr', Inv sr' [] k' /\ (sr' = sr \/ sr ≡ₚ p :: sr')).
  { intros k' m' C. destruct (conjunto_cumple s sms _ (fun _ k' => exists sr', Inv sr' [] k' /\ (sr' = sr \/ sr ≡ₚ p :: sr')) _ _ _ _ _
      ltac:(intros k0 M0; eapply (cumple_candidato sr); [by eapply Inv_misma|done|intros sr' k1 H1 E1; by exists sr']) C)
      as (k1 & M1 & sr' & H1 & E1). exists sr'. split; [by eapply Inv_misma|done]. }
  destruct (stdin_pendiente b) as [datos|] eqn:Hst.
  - destruct (Hre b datos Hb Hst) as (Hd & Hsz & Hsu).
    destruct (regreso_stdin_conjunto s sms bs Hs0 Hsms sr p b ap datos k m a H Hac Hp Hb Hap Hst Hsu Hd)
      as (k' & m' & a' & C & Hac' & Haf & Hres).
    { pose proof (Z.mod_pos_bound (u32 (i32 (stdin_pendiente_dir b))) sms ltac:(lia)). lia. }
    exists k', m', a'. split; [done|]. split; [done|]. split; [done|]. split; [|by eapply Hinv]. intros q Hq.
    destruct Hres as [[_ [[_ ->]|(_ & _ & ->)]]|[-> _]]; [by rewrite lookup_insert_ne|by rewrite lookup_delete_ne|done].
  - destruct (regreso_conjunto s sms bs Hs0 Hsms sr p b ap k m a H Hac Hp Hb Hap Hst) as (k' & m' & a' & C & Hac' & Haf & Hres).
    exists k', m', a'. split; [done|]. split; [done|]. split; [done|]. split; [|by eapply Hinv]. intros q Hq.
    destruct Hres as [(_ & -> & _)|[-> _]]; [by rewrite lookup_insert_ne|done].
Qed.

Lemma bucle_conjunto sr l k m a :
  Inv sr [] k -> acoplados s sms bs k m a -> NoDup (de_candidato <$> l) -> Forall (fun c => de_candidato c ∈ sr) l ->
  Forall (fun c => regresable k (de_candidato c)) l ->
  exists k' m' a', conjunto s sms (des_suspender_bucle l) k m tt k' m' /\ acoplados s sms bs k' m' a'.
Proof.
  revert sr k m a. induction l as [|[[p d] t] l IH]; intros sr k m a H Hac Hn Hl Hre.
  { exists k, m, a. split; [|done]. by apply conjunto_puro. }
  rewrite fmap_cons in Hn. apply NoDup_cons in Hn as [Hp Hn]. apply Forall_cons in Hl as [Hps Hl]. apply Forall_cons in Hre as [Hrp Hre].
  cbn [de_candidato fst] in *. destruct (sistema_corrupto k) eqn:Eco.
  { exists k, m, a. split; [|done]. apply (conjunto_igual _ _ _ (mret tt)); [|by apply conjunto_puro]. intros x. cbn [des_suspender_bucle].
    rewrite bind_eq. cbn [k_gets con_entrada con_k_entradas sistema_corrupto]. by rewrite Eco. }
  destruct (regreso_uno sr p k m a H Hac Hps Hrp) as (k1 & m1 & a1 & C1 & Hac1 & Haf & Hot & sr1 & H1 & Es).
  assert (Hne : Forall (fun c => de_candidato c <> p) l).
  { apply Forall_forall. intros c Hc E. apply Hp. change (de_candidato (p, d, t)) with p. rewrite <-E. by apply list_elem_of_fmap_2. }
  destruct (IH sr1 k1 m1 a1 H1 Hac1 Hn) as (k2 & m2 & a2 & C2 & Hac2).
  - rewrite Forall_forall in *. intros c Hc. specialize (Hl c Hc). specialize (Hne c Hc). destruct Es as [->|Es]; [done|].
    rewrite Es, elem_of_cons in Hl. tauto.
  - rewrite Forall_forall in *. intros c Hc b datos Hb Hst. rewrite Hot in Hb by auto.
    destruct (Hre c Hc b datos Hb Hst) as (G1 & G2 & G3). split; [done|]. split; [done|]. apply Haf; [|done].
    destruct (pid_int _ _ _ _ _ _ _ _ _ _ H Hac Hb) as [_ ?]. done.
  - exists k2, m2, a2. split; [|done].
    apply (conjunto_igual _ _ _ (_ ← des_suspender_candidato p; des_suspender_bucle l)); [|by eapply conjunto_bind].
    intros x. cbn [des_suspender_bucle]. rewrite bind_eq. cbn [k_gets con_entrada con_k_entradas sistema_corrupto]. by rewrite Eco.
Qed.

Lemma candidatos_ok l k : Forall (vivo k) l.*1 -> exists cs, candidatos_susp_ready l k = Sigue cs k.
Proof.
  induction l as [|[p t] l IH]; intros Hl; [by exists []|]. rewrite fmap_cons in Hl. apply Forall_cons in Hl as [[b Hb] Hl].
  destruct (IH Hl) as [cs E]. cbn [candidatos_susp_ready]. rewrite bind_eq. unfold leer. cbn in Hb. rewrite Hb, bind_eq, E. by eexists.
Qed.
Lemma ciega_candidatos l : ciega (candidatos_susp_ready l).
Proof. induction l as [|[p t] l IH]; cbn [candidatos_susp_ready]; [auto with ciega|]. cegando. Qed.

Variable list_sort : (candidato -> candidato -> bool) -> list candidato -> list candidato.
Hypothesis list_sort_perm : forall cmp l, list_sort cmp l ≡ₚ l.

Lemma mediano_conjunto sr k m a :
  Inv sr [] k -> acoplados s sms bs k m a -> (0 < sem_reevaluar_suspendidos k)%nat -> (forall p, p ∈ sr -> regresable k p) ->
  exists k' m' a', conjunto s sms (planificadorMedianoPlazo list_sort) k m tt k' m' /\ acoplados s sms bs k' m' a'.
Proof.
  intros H Hac Hsem Hre. destruct (sem_reevaluar_suspendidos k) as [|n] eqn:En; [lia|].
  set (k1 := con_sem_reevaluar_suspendidos n k). assert (H1 : Inv sr [] k1) by (by apply (Inv_misma _ _ k)).
  assert (Hac1 : acoplados s sms bs k1 m a).
  { apply (acoplados_ajeno s sms bs k); [done|by split|done|]. intros q. cbn. destruct (k_pcbs k !! q); by constructor. }
  assert (HW : forall h k' m', conjunto s sms (h : K unit) k1 m tt k' m' -> conjunto s sms (_ ← wait_sem_reevaluar; h) k m tt k' m').
  { intros h k' m' C. eapply conjunto_bind; [apply (conjunto_puro _ _ _ _ _ tt k1); [intros x e; unfold wait_sem_reevaluar; cbn; by destruct (sem_reevaluar_suspendidos x)| |done..]|exact C].
    unfold wait_sem_reevaluar. by rewrite En. }
  destruct (sistema_corrupto k) eqn:Eco.
  { exists k1, m, a. split; [|done]. apply HW. apply (conjunto_igual _ _ _ (mret tt)); [|by apply conjunto_puro]. intros x.
    rewrite bind_eq. cbn [k_gets con_entrada con_k_entradas sistema_corrupto con_sem_reevaluar_suspendidos]. change (sistema_corrupto k1) with (sistema_corrupto k). by rewrite Eco. }
  assert (Hv : Forall (vivo k1) (lista_suspendidos k1).*1).
  { apply Forall_forall. intros q Hq. eapply Inv_vivo; [exact H1|]. apply lugares_dec. apply (i_susp _ _ _ H1) in Hq. tauto. }
  destruct (candidatos_ok (lista_suspendidos k1) k1 Hv) as [cs Ecs].
  pose proof (cumple_candidatos (lista_suspendidos k1) (fun cs' k' => (de_candidato <$> cs' `sublist_of` (lista_suspendidos k1).*1) /\
     Forall (fun c => en k1 (fun b => estado b = SUSP_READY) (de_candidato c)) cs') k1 Hv ltac:(done)) as Hcs.
  unfold cumple in Hcs. rewrite Ecs in Hcs. destruct Hcs as [Hsub HF].
  assert (Hsr : Forall (fun c => de_candidato c ∈ sr) cs).
  { rewrite Forall_forall in *. intros c Hc. destruct (HF c Hc) as (b & Hb & He).
    assert (Hin : de_candidato c ∈ (lista_suspendidos k1).*1) by (eapply elem_of_sublist; [|exact Hsub]; by apply list_elem_of_fmap_2).
    apply (i_susp _ _ _ H1) in Hin as [|(_ & b' & Hb' & He')]; [done|]. congruence. }
  destruct (bucle_conjunto sr (list_sort comparar_suspendidos cs) k1 m a H1 Hac1) as (k' & m' & a' & C & Hac').
  - rewrite list_sort_perm. eapply sublist_NoDup; [exact (i_susp_nodup _ _ _ H1)|exact Hsub].
  - by rewrite list_sort_perm.
  - rewrite list_sort_perm. eapply Forall_impl; [exact Hsr|]. intros c Hc. by apply Hre.
  - exists k', m', a'. split; [|done]. unfold planificadorMedianoPlazo. apply HW.
    apply (conjunto_igual _ _ _ (cs ← candidatos_susp_ready (lista_suspendidos k1); des_suspender_bucle (list_sort comparar_suspendidos cs))).
    { intros x. unfold intentar_des_suspender_susp_ready. rewrite bind_eq. cbn [k_gets con_entrada con_k_entradas sistema_corrupto con_sem_reevaluar_suspendidos].
      change (sistema_corrupto k1) with (sistema_corrupto k). by rewrite Eco. }
    eapply conjunto_bind; [apply (conjunto_puro _ _ _ _ _ cs k1); [apply ciega_candidatos|done..]|exact C].
Qed.
End mediano.

(** ** An interface answers *)

Section respuesta_io.
Context (s sms bs : Z) (Hs0 : 0 <= s) (Hsms : 0 < sms < 4294967296).

Lemma respuesta_conjunta sr i io p dir datos b ap k m a :
  Inv sr [] k -> acoplados s sms bs k m a -> tabla_ios k !! i = Some io ->
  io_en_curso io = Some (ReqStdin p (Z.of_nat (length datos)) dir) -> io_socket io <> k_memory_socket k ->
  k_entrada (io_socket io) k = enviar_datos_stdin p datos -> datos_ok datos -> sms + Z.of_nat (length datos) <= 4294967296 ->
  k_pcbs k !! p = Some b -> estado b = BLOCK -> a_procesos a !! p = Some ap -> suelto p k ->
  exists k' m' a', conjunto s sms (io_worker_respuesta i) k m tt k' m' /\ acoplados s sms bs k' m' a' /\
    (a_escribir sms a p (u32 dir) datos = Some a' /\ k_pcbs k' = <[p := con_estado READY b]> (k_pcbs k) \/
     a_escribir sms a p (u32 dir) datos = None /\ a' = a_sin p ap a /\ k_pcbs k' = delete p (k_pcbs k)).
Proof.
  intros H Hac Hio Hc Hso He Hd Hsz Hb Hest Hap Hsu. destruct (pid_int _ _ _ _ _ _ _ _ _ _ H Hac Hb) as [Hpi _].
  set (k1 := con_entrada (io_socket io) [] (con_tabla_ios (alter (con_en_curso None) i (tabla_ios k)) k)).
  assert (P1 : pedidos io ≡ₚ p :: (r_proceso <$> io_cola io)) by (unfold pedidos; rewrite Hc; cbn; perm).
  assert (P3 : pedidos (con_en_curso None io) ≡ₚ r_proceso <$> io_cola io) by (unfold pedidos; cbn; by rewrite app_nil_r).
  destruct (inv_io_quita _ _ _ _ (con_en_curso None) _ _ H Hio P1 P3) as [H1 Hno].
  assert (Hin : p ∈ cola_procesos_block k).
  { pose proof (i_pedidos _ _ _ H) as [_ HB]. rewrite Forall_forall in HB. apply HB. apply list_elem_of_bind. exists io.
    split; [rewrite P1; apply elem_of_cons; by left|by eapply list_elem_of_lookup_2]. }
  assert (Hk1 : k_entrada (k_memory_socket k) k1 = k_entrada (k_memory_socket k) k) by (unfold k1; by rewrite entrada_otra).
  assert (Hac1 : acoplados s sms bs k1 m a).
  { apply (acoplados_ajeno s sms bs k); [done|by split|done|]. intros q. cbn. destruct (k_pcbs k !! q); by constructor. }
  destruct (stdin_conjunto s sms bs Hs0 Hsms sr p b ap (Z.of_nat (length datos)) dir datos k1 m a) as (k' & m' & a' & C & Hac' & Hres); try done.
  { by apply (Inv_misma _ _ (con_tabla_ios (alter (con_en_curso None) i (tabla_ios k)) k)). }
  { by rewrite Nat2Z.id, take_ge. }
  { rewrite Nat2Z.id, take_ge by lia. pose proof (Z.mod_pos_bound (u32 dir) sms ltac:(lia)). lia. }
  rewrite Nat2Z.id, take_ge in Hres by lia. exists k', m', a'. split; [|by split].
  destruct C as (d & r & D & E & S1 & A1). exists d, r. split; [done|]. split; [|by split]. intros e.
  set (sk := k_memory_socket k) in *. rewrite (respuesta_stdin i io p dir datos (con_entrada sk (k_entrada sk k ++ mjoin r ++ e) k) Hio Hc Hpi Hd) by (by rewrite entrada_otra).
  change (k_memory_socket k1) with sk in E. rewrite <-(E e), Hk1. f_equal. unfold k1, con_entrada. cbn. by rewrite insert_insert_ne.
Qed.
End respuesta_io.

(** ** A CPU gives a process back *)

Lemma cstr_con_nul x : x00 ∉ x -> cstr (con_nul x) = x.
Proof.
  induction x as [|c x IH]; [done|]. rewrite not_elem_of_cons. intros [Hc Hx]. cbn. rewrite decide_False by done. f_equal. by apply IH.
Qed.
Lemma misma_contador k k' : misma k k' -> contador_pids k' = contador_pids k.
Proof. by intros [=]. Qed.

Definition txt_alloc : list byte := con_nul (txt "MEM_ALLOC").
Definition txt_free : list byte := con_nul (txt "MEM_FREE").
Definition txt_init : list byte := con_nul (txt "INIT_PROC").
Definition txt_stdout : list byte := con_nul (txt "STDOUT").

Section turnos.
Context (s sms bs : Z) (Hs0 : 0 <= s) (Hsms : 0 < sms < 4294967296).
Context (sr : list Z) (k : kernel) (m : memoria) (a : almacen) (j : nat) (r : t_cpu_thread_arg) (c : t_cpu) (p : Z).
Context (H : Inv sr [] k) (Hac : acoplados s sms bs k m a).

Lemma turno_fin motivo nombre params resto :
  devuelve_cpu j r c p motivo nombre params resto k ->
  motivo = MOTIVO_EXIT \/ motivo = MOTIVO_ERROR \/ motivo = MOTIVO_SEGFAULT -> suelto p k ->
  exists ap k' m', a_procesos a !! p = Some ap /\ conjunto s sms (scheduler_cpu_receptor_thread j) k m tt k' m' /\
    acoplados s sms bs k' m' (a_sin p ap a) /\ k_pcbs k' = delete p (k_pcbs k).
Proof.
  intros Hd Hm Hsu. destruct (turno_devuelto s sms bs sr j r c p motivo nombre params resto k m a H Hac Hd)
    as (b & k1 & Hb & He & H1 & Hac1 & _ & P1 & L1 & _ & _ & _ & _ & HC).
  rewrite <-P1 in Hb. destruct (acoplado_de _ _ _ _ _ _ _ _ Hac1 Hb) as (ap & Hap & _).
  destruct (fin_conjunta s sms bs Hs0 Hsms sr p b ap k1 m a H1 Hac1 Hb He) as (k' & m' & C & Hac' & P' & _); [by unfold suelto; rewrite L1|done|].
  exists ap, k', m'. split; [done|]. split; [|split; [done|by rewrite P', P1]]. apply HC. by destruct Hm as [->|[->| ->]].
Qed.

Lemma turno_alloc id tam ps resto :
  devuelve_cpu j r c p MOTIVO_SYSCALL (Some txt_alloc) (id :: tam :: ps) resto k -> 0 < atoi_u32 tam -> suelto p k ->
  exists b ap k' m' a', k_pcbs k !! p = Some b /\ a_procesos a !! p = Some ap /\
    conjunto s sms (scheduler_cpu_receptor_thread j) k m tt k' m' /\ acoplados s sms bs k' m' a' /\
    ((exists datos, atoi_u32 tam <= sms /\ atoi_u32 tam <= a_libre a /\ Z.of_nat (length datos) = atoi_u32 tam /\
        a' = a_conceder a p (atoi_u32 id) (atoi_u32 tam) ap datos /\
        k_pcbs k' = <[p := agregar_segmento_info (atoi_u32 id) (atoi_u32 tam) b]> (k_pcbs k) /\
        (q_socket c, enviar_pid p) ∈ k_salidas k' /\
        exists i c', indice_cpu (rt_cpu_id r) (k_cpus k) = Some i /\ k_cpus k' !! i = Some c' /\ proceso_actual c' = Some p /\
          disponible c' = disponible c) \/
     (a' = a_sin p ap a /\ k_pcbs k' = delete p (k_pcbs k))).
Proof.
  intros Hd Ht Hsu. destruct (turno_devuelto s sms bs sr j r c p _ _ _ resto k m a H Hac Hd)
    as (b & k1 & Hb & He & H1 & Hac1 & N1 & P1 & L1 & _ & _ & _ & Hcpu & HC).
  destruct (Hcpu eq_refl) as [Hes Hind]. pose proof Hb as Hb'. rewrite <-P1 in Hb'. destruct (acoplado_de _ _ _ _ _ _ _ _ Hac1 Hb') as (ap & Hap & _).
  destruct (alloc_conjunto s sms bs Hs0 Hsms sr p b ap id tam ps (rt_cpu_id r) (cpu_sin true c) k1 m a H1 Hac1 Hb' He) as (k' & m' & a' & C & Hac' & Hres);
    [by unfold suelto; rewrite L1|done|done|done|].
  exists b, ap, k', m', a'. split; [done|]. split; [done|]. split; [by apply HC|]. split; [done|]. rewrite P1 in Hres.
  destruct Hres as [(datos & R1 & R2 & R3 & R4 & R5 & R6 & (i & c' & Hi & Hc' & Hp' & Hdis))|Hres]; [left|by right].
  exists datos. rewrite Hind in Hi. split_and!; try done. by exists i, c'.
Qed.

Lemma turno_free id ps resto :
  devuelve_cpu j r c p MOTIVO_SYSCALL (Some txt_free) (id :: ps) resto k ->
  exists b k' m', k_pcbs k !! p = Some b /\ conjunto s sms (scheduler_cpu_receptor_thread j) k m tt k' m' /\
    acoplados s sms bs k' m' (a_quitar a p (atoi_u32 id)) /\
    k_pcbs k' = <[p := quitar_segmento_info (atoi_u32 id) b]> (k_pcbs k).
Proof.
  intros Hd. destruct (turno_devuelto s sms bs sr j r c p _ _ _ resto k m a H Hac Hd)
    as (b & k1 & Hb & He & H1 & Hac1 & N1 & P1 & L1 & _ & _ & _ & Hcpu & HC).
  destruct (Hcpu eq_refl) as [Hes _]. pose proof Hb as Hb'. rewrite <-P1 in Hb'. destruct (acoplado_de _ _ _ _ _ _ _ _ Hac1 Hb') as (ap & Hap & _).
  destruct (free_conjunto s sms bs Hs0 Hsms sr p b ap id ps (rt_cpu_id r) (cpu_sin true c) k1 m a H1 Hac1 Hb' He Hap Hes) as (k' & m' & C & Hac' & P' & _).
  exists b, k', m'. split; [done|]. split; [by apply HC|]. split; [done|]. by rewrite P', P1.
Qed.

(** The bytes that an interface will print are the ones Memory has. *)
Lemma turno_stdout dir size ps resto i :
  devuelve_cpu j r c p MOTIVO_SYSCALL (Some txt_stdout) (dir :: size :: ps) resto k -> suelto p k ->
  indice_de (fun io => activa io && bool_decide (io_tipo io = IO_TYPE_STDOUT)) (tabla_ios k) = Some i ->
  0 <= atoi_int size <= 1073741824 -> sms + atoi_int size <= 4294967296 ->
  exists b ap k' m' a', k_pcbs k !! p = Some b /\ a_procesos a !! p = Some ap /\
    conjunto s sms (scheduler_cpu_receptor_thread j) k m tt k' m' /\ acoplados s sms bs k' m' a' /\
    ((exists datos, a_leer sms a p (u32 (atoi_int dir)) (atoi_int size) = Some datos /\ a' = a /\ k_pcbs k' = <[p := en_block b]> (k_pcbs k) /\
        tabla_ios k' = alter (fun io => con_io_cola (io_cola io ++ [ReqStdout p (atoi_int dir) (atoi_int size) (Some datos)]) (S (sem_cola io)) io)
          i (tabla_ios k) /\
        forall s', s' <> rt_socket r -> s' <> k_memory_socket k -> k_entrada s' k' = k_entrada s' k) \/
     a_leer sms a p (u32 (atoi_int dir)) (atoi_int size) = None /\ a' = a_sin p ap a /\ k_pcbs k' = delete p (k_pcbs k)).
Proof.
  intros Hd Hsu Hi Hz Hsz. destruct (turno_devuelto s sms bs sr j r c p _ _ _ resto k m a H Hac Hd)
    as (b & k1 & Hb & He & H1 & Hac1 & N1 & P1 & L1 & _ & T1 & O1 & _ & HC).
  pose proof Hb as Hb'. rewrite <-P1 in Hb'. destruct (acoplado_de _ _ _ _ _ _ _ _ Hac1 Hb') as (ap & Hap & _).
  destruct (stdout_conjunto s sms bs Hs0 Hsms sr p b ap i dir size ps k1 m a H1 Hac1 Hb' He) as (k' & m' & a' & C & Hac' & Hres);
    [by unfold suelto; rewrite L1|done|by rewrite T1|done|done|].
  exists b, ap, k', m', a'. split; [done|]. split; [done|]. split; [by apply HC|]. split; [done|]. rewrite P1, T1 in Hres.
  destruct Hres as [(datos & R1 & R2 & R3 & R4 & R5)|Hres]; [left|by right]. exists datos. split_and!; try done.
  intros s' Hs' Hm'. rewrite R5 by (by rewrite (me_memory _ _ N1)). by apply O1.
Qed.

(** The new process is known to both; who asked for it is READY. *)
Lemma turno_init path prio ps resto :
  devuelve_cpu j r c p MOTIVO_SYSCALL (Some txt_init) (path :: prio :: ps) resto k -> contador_ok k -> cstr path <> [] ->
  exists b k' m', let pid := contador_pids k in k_pcbs k !! p = Some b /\
    conjunto s sms (scheduler_cpu_receptor_thread j) k m tt k' m' /\
    acoplados s sms bs k' m' (Almacen (con_proceso pid (AProc false []) a) (a_libre a) (a_bloques a)) /\
    k_pcbs k' = <[p := con_estado READY b]> (<[pid := pcb_nuevo (atoi_int prio) (k_reloj k)]> (k_pcbs k)).
Proof.
  intros Hd Hcon Hpath. destruct (turno_devuelto s sms bs sr j r c p _ _ _ resto k m a H Hac Hd)
    as (b & k1 & Hb & He & H1 & Hac1 & N1 & P1 & L1 & R1 & _ & _ & _ & HC).
  assert (Hcad : cadena_ok (con_nul (cstr path))).
  { destruct (dv_valida _ _ _ _ _ _ _ _ _ Hd) as (_ & [Hps _] & _). apply Forall_cons in Hps as [[(x & -> & Hx) Hl] _].
    change (x ++ [x00]) with (con_nul x) in *. rewrite cstr_con_nul by done. split; [by exists x|exact Hl]. }
  destruct (crear_conjunto s sms bs Hs0 Hsms sr [p] (cstr path) (atoi_int prio) k1 m a H1 Hac1) as (k2 & m2 & C2 & Hac2 & P2);
    [unfold contador_ok; by rewrite (me_contador _ _ N1)|done|done|]. rewrite (me_contador _ _ N1) in *.
  assert (Hne : p <> contador_pids k).
  { intros ->. assert (Hv : vivo k (contador_pids k)) by by eexists. apply (vivo_todos _ _ _ _ H) in Hv.
    pose proof (i_pids _ _ _ H) as Hp. rewrite Forall_forall in Hp. specialize (Hp _ Hv). lia. }
  assert (Hb2 : k_pcbs k2 !! p = Some b) by (by rewrite P2, lookup_insert_ne, P1).
  assert (H2 : Inv sr [p] k2).
  { destruct (conjunto_cumple s sms _ (fun _ k' => Inv sr [p] k') _ _ _ _ _
      ltac:(intros k0 M0; eapply (cumple_crear sr [p]); [by eapply Inv_misma| |by intros]; unfold contador_ok;
        rewrite (misma_contador _ _ M0), (me_contador _ _ N1); exact Hcon) C2) as (k3 & M3 & H3).
    by apply (Inv_misma _ _ k3). }
  destruct (listo_conjunto s sms sr p b k2 m2 H2 Hb2 ltac:(congruence) (ac_tomado _ _ _ _ _ _ Hac2) (ac_ajena _ _ _ _ _ _ Hac2))
    as (k3 & C3 & P3 & N3 & G3 & _ & _).
  exists b, k3, m2. cbv zeta. split; [done|]. split; [|split; [|by rewrite P3, P2, P1, R1]].
  - apply HC. change (conjunto s sms (_ ← (_ ← crear_proceso (cstr path) (atoi_int prio); mret tt); encolar_en_ready_y_notificar p) k1 m tt k3 m2).
    eapply conjunto_bind; [eapply conjunto_bind; [exact C2|by apply conjunto_puro]|exact C3].
  - apply (acoplados_ajeno s sms bs k2); [done|done|by unfold k_entrada in *; rewrite G3|].
    rewrite P3. rewrite <-(insert_id _ _ _ Hb2) at 1. apply map_Forall2_insert_2.
    + split; [done|]. unfold fuera_k. cbn. rewrite He, !andb_false_r. done.
    + intros q. destruct (k_pcbs k2 !! q); by constructor.
Qed.
End turnos.

(** ** Theorems *)

Section acuerdo.
Variable list_sort : (candidato -> candidato -> bool) -> list candidato -> list candidato.
Hypothesis list_sort_perm : forall cmp l, list_sort cmp l ≡ₚ l.
Context (s sms bs : Z).

(** The turns that talk with Memory, and what each needs. A process that ends has
    nobody waiting for its mutexes; what is suspended has room in Swap; what is
    written and its offset fit in 32 bits. *)
Inductive habla (k : kernel) (a : almacen) : evento -> Prop :=
| ha_inicial path : path <> [] -> cadena_ok (con_nul path) -> habla k a (EvProcesoInicial path)
| ha_init j r c p path prio ps resto :
    devuelve_cpu j r c p MOTIVO_SYSCALL (Some txt_init) (path :: prio :: ps) resto k -> cstr path <> [] -> habla k a (EvCpu j)
| ha_alloc j r c p id tam ps resto :
    devuelve_cpu j r c p MOTIVO_SYSCALL (Some txt_alloc) (id :: tam :: ps) resto k -> 0 < atoi_u32 tam -> suelto p k -> habla k a (EvCpu j)
| ha_free j r c p id ps resto :
    devuelve_cpu j r c p MOTIVO_SYSCALL (Some txt_free) (id :: ps) resto k -> habla k a (EvCpu j)
| ha_stdout j r c p dir size ps resto i :
    devuelve_cpu j r c p MOTIVO_SYSCALL (Some txt_stdout) (dir :: size :: ps) resto k -> suelto p k ->
    indice_de (fun io => activa io && bool_decide (io_tipo io = IO_TYPE_STDOUT)) (tabla_ios k) = Some i ->
    0 <= atoi_int size <= 1073741824 -> sms + atoi_int size <= 4294967296 -> habla k a (EvCpu j)
| ha_fin j r c p motivo nombre params resto :
    devuelve_cpu j r c p motivo nombre params resto k -> motivo = MOTIVO_EXIT \/ motivo = MOTIVO_ERROR \/ motivo = MOTIVO_SEGFAULT ->
    suelto p k -> habla k a (EvCpu j)
| ha_suspension j p :
    suspensiones_en_curso k !! j = Some p -> (forall ap, a_procesos a !! p = Some ap -> a_n_bloques bs ap <= a_bloques a) ->
    habla k a (EvSuspensionFin j)
| ha_regreso :
    (0 < sem_reevaluar_suspendidos k)%nat ->
    (forall p b, k_pcbs k !! p = Some b -> estado b = SUSP_READY -> regresable sms k p) -> habla k a EvMedianoPlazo
| ha_stdin i io p dir datos b :
    tabla_ios k !! i = Some io -> io_en_curso io = Some (ReqStdin p (Z.of_nat (length datos)) dir) -> io_socket io <> k_memory_socket k ->
    k_entrada (io_socket io) k = enviar_datos_stdin p datos -> datos_ok datos -> sms + Z.of_nat (length datos) <= 4294967296 ->
    k_pcbs k !! p = Some b -> estado b = BLOCK -> suelto p k -> habla k a (EvIoRespuesta i).

Lemma habla_conjunto k m a e :
  0 <= s -> 0 < sms < 4294967296 -> inv [] k -> contador_ok k -> acoplados s sms bs k m a -> habla k a e ->
  exists k' m' a', conjunto s sms (ejecutar list_sort e) k m tt k' m' /\ acoplados s sms bs k' m' a'.
Proof.
  intros Hs Hsms [sr H] Hc Hac Hh. destruct Hh as [path Hp Hcad|j r c p path prio ps resto Hd Hp|j r c p id tam ps resto Hd Ht Hsu|
    j r c p id ps resto Hd|j r c p dir size ps resto i Hd Hsu Hi Hz Hsz|j r c p motivo nombre params resto Hd Hm Hsu|j p Hj Hroom|Hsem Hre|i io p dir datos b Hio Hcu Hso He Hda Hsz Hb Hest Hsu];
    cbn [ejecutar].
  - destruct (crear_conjunto s sms bs Hs Hsms sr [] path 0 k m a H Hac Hc Hp Hcad) as (k' & m' & C & Hac' & _).
    eexists k', m', _. split; [|exact Hac']. unfold crear_proceso_inicial. rewrite bool_decide_false by done.
    eapply conjunto_bind; [exact C|by apply conjunto_puro].
  - destruct (turno_init s sms bs Hs Hsms sr k m a j r c p H Hac path prio ps resto Hd Hc Hp) as (b & k' & m' & _ & C & Hac' & _). by eexists k', m', _.
  - destruct (turno_alloc s sms bs Hs Hsms sr k m a j r c p H Hac id tam ps resto Hd Ht Hsu) as (b & ap & k' & m' & a' & _ & _ & C & Hac' & _). by exists k', m', a'.
  - destruct (turno_free s sms bs Hs Hsms sr k m a j r c p H Hac id ps resto Hd) as (b & k' & m' & _ & C & Hac' & _). by eexists k', m', _.
  - destruct (turno_stdout s sms bs Hs Hsms sr k m a j r c p H Hac dir size ps resto i Hd Hsu Hi Hz Hsz) as (b & ap & k' & m' & a' & _ & _ & C & Hac' & _). by exists k', m', a'.
  - destruct (turno_fin s sms bs Hs Hsms sr k m a j r c p H Hac motivo nombre params resto Hd Hm Hsu) as (ap & k' & m' & _ & C & Hac' & _). by eexists k', m', _.
  - assert (Hcur : p ∈ suspensiones_en_curso k) by (by eapply list_elem_of_lookup_2).
    apply (i_curso _ _ _ H) in Hcur as [_ (b & Hb & _)]. destruct (acoplado_de _ _ _ _ _ _ _ _ Hac Hb) as (ap & Hap & _).
    destruct (suspension_conjunta s sms bs Hs Hsms sr j p b ap k m a H Hac Hj Hb Hap (Hroom ap Hap)) as (k' & m' & C & Hac' & _). by eexists k', m', _.
  - destruct (mediano_conjunto s sms bs Hs Hsms list_sort list_sort_perm sr k m a H Hac Hsem) as (k' & m' & a' & C & Hac'); [|by exists k', m', a'].
    intros p Hp. pose proof (i_sr _ _ _ H) as Hx. rewrite Forall_forall in Hx. destruct (Hx p Hp) as (b & Hb & He & _). by eapply Hre.
  - destruct (acoplado_de _ _ _ _ _ _ _ _ Hac Hb) as (ap & Hap & _).
    destruct (respuesta_conjunta s sms bs Hs Hsms sr i io p dir datos b ap k m a H Hac Hio Hcu Hso He Hda Hsz Hb Hest Hap Hsu) as (k' & m' & a' & C & Hac' & _).
    exists k', m', a'. split; [|done]. apply (conjunto_igual _ _ _ (io_worker_respuesta i)); [|exact C]. intros x. unfold worker_de.
    rewrite bind_eq. cbn [k_gets con_entrada con_k_entradas tabla_ios]. pose proof (lookup_lt_Some _ _ _ Hio) as Hlt.
    by rewrite (proj2 (Nat.ltb_lt _ _) Hlt).
Qed.

(** A turn that talks, whole. *)
Lemma habla_paso k m a e :
  0 <= s -> 0 < sms < 4294967296 -> inv [] k -> prioridades_validas k -> contador_ok k ->
  acoplados s sms bs k m a -> habla k a e ->
  exists k' m' a', conjunto s sms (ejecutar list_sort e) k m tt k' m' /\ acoplados s sms bs k' m' a' /\ inv [] k'.
Proof.
  intros Hs Hsms Hi Hv Hc Hac Hh. destruct (habla_conjunto k m a e Hs Hsms Hi Hc Hac Hh) as (k' & m' & a' & C & Hac').
  exists k', m', a'. split; [done|]. split; [done|]. eapply conjunto_inv; [|exact C]. intros k0 M0. destruct Hi as [sr H].
  apply (ejecutar_seguro list_sort list_sort_perm sr); [by eapply Inv_misma| |unfold contador_ok; by rewrite (misma_contador _ _ M0)].
  unfold prioridades_validas, en_new. rewrite (misma_new _ _ M0), (misma_pcbs _ _ M0). intros q b Hq Hb.
  pose proof (Hv q b Hq Hb) as Hx. unfold prio_ok in *. replace (cantidad_niveles_prioridad k0) with (cantidad_niveles_prioridad k); [done|].
  symmetry. by apply mismos_niveles, misma_mismos.
Qed.

(** C3: The Scheduler and Kernel Memory stay in agreement through the turns of
    [habla]. Take a state of the Scheduler that satisfies its invariant and a Memory
    that stands for a store, which agree on the segments of every process and on
    which processes are in Swap, and a turn of a thread of the Scheduler that talks
    with Memory under these conditions: the first process or INIT_PROC, with a path;
    MEM_ALLOC of a size above 0, MEM_FREE; STDOUT to an interface of that type, of a
    size that with its offset fits in 32 bits; the end of a process by EXIT, error or
    segmentation fault; a suspension with enough blocks left in Swap; the turn of the
    medium term planner, where what is to be written in a process that returns fits
    too; an input to be written in a process still in BLOCK, that fits. And nobody
    waits for a mutex of the process in MEM_ALLOC, STDOUT, its end and the writing of
    an input, which may end it ([fin_de_duenio_no_vuelve] is what happens
    otherwise). With the thread of Memory at the other end of the socket, the turn
    has an outcome in which it comes to its end: no request is one that Memory does
    not admit and no wait is left without its answer; and both are again in
    agreement. *)
Theorem acuerdo_se_mantiene k m a e :
  0 <= s -> 0 < sms < 4294967296 -> inv [] k -> prioridades_validas k -> contador_ok k ->
  acoplados s sms bs k m a -> habla k a e ->
  exists k' m' a', conjunto s sms (ejecutar list_sort e) k m tt k' m' /\ acoplados s sms bs k' m' a' /\ inv [] k'.
Proof. exact (habla_paso k m a e). Qed.
End acuerdo.

(** C6: MEM_ALLOC, from end to end. When a CPU gives back a process that asks for a
    segment of a size above 0, nobody waits for a mutex that the process owns, and
    Memory is at the other end of the socket, in agreement with the Scheduler, one of
    two things happens, whether Memory has to compact or not. The segment is granted:
    Memory has it, of the size asked for, the PCB lists it, the free space has gone
    down by its size and the same CPU has been given the process again. Or it is
    refused: the process is over for both. *)
Theorem mem_alloc_en_ambos s sms bs k m a j r c p id tam ps resto :
  0 <= s -> 0 < sms < 4294967296 -> inv [] k -> acoplados s sms bs k m a ->
  devuelve_cpu j r c p MOTIVO_SYSCALL (Some txt_alloc) (id :: tam :: ps) resto k -> 0 < atoi_u32 tam -> suelto p k ->
  exists b ap k' m' a', k_pcbs k !! p = Some b /\ a_procesos a !! p = Some ap /\
    conjunto s sms (scheduler_cpu_receptor_thread j) k m tt k' m' /\ acoplados s sms bs k' m' a' /\
    ((exists datos, atoi_u32 tam <= sms /\ atoi_u32 tam <= a_libre a /\ Z.of_nat (length datos) = atoi_u32 tam /\
        a' = a_conceder a p (atoi_u32 id) (atoi_u32 tam) ap datos /\
        k_pcbs k' = <[p := agregar_segmento_info (atoi_u32 id) (atoi_u32 tam) b]> (k_pcbs k) /\
        (q_socket c, enviar_pid p) ∈ k_salidas k' /\
        exists i c', indice_cpu (rt_cpu_id r) (k_cpus k) = Some i /\ k_cpus k' !! i = Some c' /\ proceso_actual c' = Some p /\
          disponible c' = disponible c) \/
     (a' = a_sin p ap a /\ k_pcbs k' = delete p (k_pcbs k))).
Proof.
  intros Hs Hsms [sr H] Hac Hd Ht Hsu. by apply (turno_alloc s sms bs Hs Hsms sr k m a j r c p H Hac id tam ps resto).
Qed.

(** *** Process 0 asks for three bytes *)

Definition kernel_pide : kernel := despues_de (take 8 eventos_ejemplo ++ [devuelve 0 "MEM_ALLOC" ["1"; "3"]%string]).
Definition memoria_pide : memoria :=
  let m := mem_con_swap [] [] in
  con_libres [Bloque 0 7] (con_procesos [Proceso 0 registros_cero [] []]
    (con_conexiones (conexiones_set_scheduler_socket 3 (m_conexiones m)) m)).
Definition almacen_pide : almacen := Almacen {[0 := AProc false []]} 7 5.

Lemma kernel_pide_inv : inv [] kernel_pide /\ prioridades_validas kernel_pide /\ contador_ok kernel_pide.
Proof.
  split.
  - apply (alcanzable_inv ordenar ordenar_perm config_cmn 4). apply despues_alcanzable. vm_compute. by eexists.
  - apply validas_ok. vm_compute. reflexivity.
Qed.

Lemma memoria_pide_rep : rep 3 64 2 memoria_pide almacen_pide ram_ejemplo swap_vacio.
Proof.
  destruct (mem_con_swap_ok [] []) as [[(ds & [[C1 C2 C3 C4 C5] R2 R3 R4] & Hram) H2 _ _] [_ _ H6 H7] H8 H9]. split; try done.
  - split; [|split; [done| |done|done]; split; vm_compute; intuition congruence|done|done]. split.
    + exists ds. split; [|done]. split; [by split|done..].
    + repeat first [apply Forall_nil_2 | apply Forall_cons_2]; unfold es_int; cbn; lia.
    + change (_ ++ _) with [Bloque 0 7]. bloques_ok_concreto.
    + reflexivity.
  - apply NoDup_singleton.
  - change (por_clave _ _) with ({[0 := Proceso 0 registros_cero [] []]} : gmap Z t_contexto_ejecucion).
    change (a_procesos _) with ({[0 := AProc false []]} : gmap Z aproc).
    apply map_Forall2_insert_2; [|apply map_Forall2_empty]. unfold rep_proc. cbn [segmentos a_segs a_fuera].
    repeat constructor; vm_compute; intuition congruence.
Qed.

Lemma pide_acoplados : acoplados 3 64 2 kernel_pide memoria_pide almacen_pide.
Proof.
  split.
  - exists ram_ejemplo, swap_vacio. exact memoria_pide_rep.
  - destruct (k_pcbs kernel_pide !! 0) as [b|] eqn:Hb; [|vm_compute in Hb; discriminate].
    assert (E : k_pcbs kernel_pide = {[0 := b]}).
    { vm_compute in Hb. injection Hb as <-. vm_compute. reflexivity. }
    rewrite E. change (a_procesos almacen_pide) with ({[0 := AProc false []]} : gmap Z aproc).
    apply map_Forall2_insert_2; [|apply map_Forall2_empty]. vm_compute in Hb. injection Hb as <-. by split.
  - vm_compute. congruence.
  - assert (E : k_memory_socket kernel_pide = 4 /\ (q_socket <$> k_cpus kernel_pide) = [10]) by (by vm_compute).
    unfold ajena. destruct E as [-> ->]. by repeat constructor.
  - by vm_compute.
  - vm_compute. congruence.
  - exists []. split; [done|]. by vm_compute.
Qed.

Definition cpu_pide : t_cpu := CpuS 10 1 false (Some 0) true 0.

Lemma pide_devuelve : devuelve_cpu 0 (CpuThread 10 1) cpu_pide 0 MOTIVO_SYSCALL (Some txt_alloc) [con_nul (txt "1"); con_nul (txt "3")] [] kernel_pide.
Proof.
  split; [vm_compute; reflexivity|vm_compute; reflexivity| |vm_compute; congruence|vm_compute; reflexivity|reflexivity|done].
  split; [unfold es_int; lia|]. split; [split; [|vm_compute; congruence]|split; [done|split; [|vm_compute; congruence]]].
  - apply Forall_cons. split; [|apply Forall_cons; split; [|apply Forall_nil; exact I]]; (split; [|vm_compute; congruence]).
    + exists (txt "1"). split; [reflexivity|]. apply (bool_decide_unpack _). by vm_compute.
    + exists (txt "3"). split; [reflexivity|]. apply (bool_decide_unpack _). by vm_compute.
  - exists (txt "MEM_ALLOC"). split; [reflexivity|]. apply (bool_decide_unpack _). by vm_compute.
Qed.

Lemma pide_suelto : suelto 0 kernel_pide.
Proof. unfold suelto. assert (E : lista_mutexes kernel_pide = []) by (vm_compute; reflexivity). rewrite E. constructor. Qed.

Lemma acuerdo_se_mantiene_witness :
  exists k' m' a', conjunto 3 64 (ejecutar ordenar (EvCpu 0)) kernel_pide memoria_pide tt k' m' /\ acoplados 3 64 2 k' m' a' /\ inv [] k'.
Proof.
  destruct kernel_pide_inv as (Hi & Hv & Hc).
  apply (acuerdo_se_mantiene ordenar ordenar_perm 3 64 2 kernel_pide memoria_pide almacen_pide (EvCpu 0)); [lia|lia|done..|exact pide_acoplados|].
  eapply ha_alloc; [exact pide_devuelve|vm_compute; reflexivity|]. exact pide_suelto.
Defined.

Lemma mem_alloc_en_ambos_witness :
  exists k' m' a', conjunto 3 64 (scheduler_cpu_receptor_thread 0) kernel_pide memoria_pide tt k' m' /\ acoplados 3 64 2 k' m' a' /\
    ((exists datos, Z.of_nat (length datos) = 3 /\ a' = a_conceder almacen_pide 0 1 3 (AProc false []) datos /\
        (10, enviar_pid 0) ∈ k_salidas k') \/ k_pcbs k' = delete 0 (k_pcbs kernel_pide)).
Proof.
  destruct kernel_pide_inv as (Hi & _ & _).
  destruct (mem_alloc_en_ambos 3 64 2 kernel_pide memoria_pide almacen_pide 0 (CpuThread 10 1) cpu_pide 0 (con_nul (txt "1")) (con_nul (txt "3")) [] []
    ltac:(lia) ltac:(lia) Hi pide_acoplados pide_devuelve) as (b & ap & k' & m' & a' & Hb & Hap & C & Hac & Hres).
  - vm_compute. reflexivity.
  - exact pide_suelto.
  - exists k', m', a'. split; [exact C|]. split; [exact Hac|]. vm_compute in Hap. injection Hap as <-.
    assert (E1 : atoi_u32 (con_nul (txt "1")) = 1) by (vm_compute; reflexivity).
    assert (E3 : atoi_u32 (con_nul (txt "3")) = 3) by (vm_compute; reflexivity). rewrite E1, E3 in Hres.
    destruct Hres as [(datos & _ & _ & Hl & Ha & _ & Hs & _)|[_ Hp]]; [left|right; exact Hp].
    exists datos. split; [exact Hl|]. split; [exact Ha|exact Hs].
Defined.
