(* ===== verification/Silencio.v ===== *)
(** * Silencio: the turns of the Scheduler that say nothing to Memory

    Most turns of the threads of the Scheduler send nothing to Kernel Memory. Those
    leave what both agree on ([acoplados]) as it was: no segment listed in a PCB
    appears or disappears, no process moves between RAM and Swap. What makes it true
    is the invariant of the Scheduler: a process whose state a silent turn writes
    freely was not in Swap. *)

From Stdlib Require Import Strings.String.
From S2P Require Import Prelude Bloques Wire Buffer Tipos Mensajes Texto Conexiones Stick Swap Memoria MemoryIO MemSwap Procesos Compactacion MemScheduler MemInv MemSegmentos MemSuspension Indice MemRefina.
From S2P Require Import SchedTipos SchedColas SchedMutex SchedMemoria SchedIO SchedCpu SchedPlan SchedInv SchedInvOps SchedInvFin SchedSeguroOps SchedSeguroMem SchedSeguroIO SchedSeguro SchedSistema SchedCorrecto SchedVivacidad SchedHerencia SchedConserva SchedExacta SchedProtocolo SchedSyscalls SchedDispositivo Dialogo Sistema Salida Juntos.

Section silencio.
(** The socket of Memory. *)
Context (s : Z) (Hs0 : 0 <= s).

(** ** What a silent step may change

    [S] are the processes whose state it may write, if they are not in Swap after. *)
Record igual (S : Z -> Prop) (k k' : kernel) : Prop := {
  g_ajena : ajena s k -> ajena s k';
  g_tomado : mutex_lista_tomado k = false -> mutex_lista_tomado k' = false;
  g_contador : contador_pids k' = contador_pids k;
  g_entrada : k_entrada s k' = k_entrada s k;
  g_pcbs : map_Forall2 (fun p b b' => segmentos_info b' = segmentos_info b /\ (fuera_k b' = fuera_k b \/ S p /\ fuera_k b' = false))
    (k_pcbs k) (k_pcbs k') }.

Lemma igual_refl S k : igual S k k.
Proof. split; try done. intros p. destruct (k_pcbs k !! p); constructor. split; [done|by left]. Qed.

Lemma igual_trans S k1 k2 k3 : igual S k1 k2 -> igual S k2 k3 -> igual S k1 k3.
Proof.
  intros [A1 A2 A3 A4 A5] [B1 B2 B3 B4 B5]. split; try congruence; try tauto.
  intros p. specialize (A5 p). specialize (B5 p).
  destruct (k_pcbs k1 !! p) as [b1|]; inversion A5 as [x1 b2 [E1 F1] Ex Ey|E1 E2]; subst.
  - rewrite <-Ey in B5. inversion B5 as [x b3 [E2 F2]|]; subst. constructor. split; [congruence|].
    destruct F1 as [F1|[? F1]], F2 as [F2|[? F2]]; [left; congruence|right; by split|right; split; [done|congruence]|right; by split].
  - rewrite <-E2 in B5. inversion B5; subst. constructor.
Qed.

Lemma igual_mono (S S' : Z -> Prop) k k' : (forall p, S p -> S' p) -> igual S k k' -> igual S' k k'.
Proof.
  intros HS [A1 A2 A3 A4 A5]. split; try done. intros p. specialize (A5 p). inversion A5 as [x y [E F]|]; constructor.
  split; [done|]. destruct F as [|[? ?]]; [by left|right; auto].
Qed.

(** If none of them was in Swap, nothing has changed. *)
Lemma igual_nadie (S : Z -> Prop) k k' :
  (forall p b, S p -> k_pcbs k !! p = Some b -> fuera_k b = false) -> igual S k k' -> igual nadie k k'.
Proof.
  intros HS [A1 A2 A3 A4 A5]. split; try done. intros p. specialize (A5 p). inversion A5 as [x y [E F] Ex Ey|]; constructor.
  split; [done|]. left. destruct F as [|[Hp F]]; [done|]. symmetry in Ex. by rewrite (HS p x Hp Ex).
Qed.

(** [h] tells whether something has been said before the step. What it says is
    added to what was said; when nothing is, the step is silent. *)
Definition callado (h : bool) (S : Z -> Prop) (k k' : kernel) : Prop :=
  k_memory_socket k' = k_memory_socket k /\
  exists d, a_socket s (k_salidas k') = a_socket s (k_salidas k) ++ d /\ (h = false -> d = [] -> igual S k k').

Lemma callado_refl h S k : callado h S k k.
Proof. split; [done|]. exists []. rewrite app_nil_r. split; [done|]. intros _ _. apply igual_refl. Qed.
Lemma callado_trans h S k1 k2 k3 : callado h S k1 k2 -> callado h S k2 k3 -> callado h S k1 k3.
Proof.
  intros (M1 & d1 & E1 & I1) (M2 & d2 & E2 & I2). split; [congruence|]. exists (d1 ++ d2). rewrite E2, E1, app_assoc. split; [done|].
  intros Hh [Hd1 Hd2]%app_eq_nil. eapply igual_trans; auto.
Qed.
#[local] Instance callado_preorder h S : PreOrder (callado h S).
Proof. split; [exact (callado_refl h S)|exact (callado_trans h S)]. Qed.

(** A step that sends nothing. *)
Lemma callado_igual h S k k' :
  k_memory_socket k' = k_memory_socket k -> k_salidas k' = k_salidas k -> (h = false -> igual S k k') -> callado h S k k'.
Proof. intros H1 H2 H3. split; [done|]. exists []. rewrite H2, app_nil_r. by split; [|auto]. Qed.
Lemma callado_true S S' k k' h : callado h S k k' -> callado true S' k k'.
Proof. intros (M & d & E & _). split; [done|]. exists d. by split. Qed.

Definition discreta {A} (h : bool) (S : Z -> Prop) (m : K A) : Prop := forall k, k_memory_socket k = s ->
  match m k with Sigue _ k' => callado h S k k' | _ => True end.
(** Steps that do say something. *)
Definition dicha {A} (m : K A) : Prop := forall k, k_memory_socket k = s ->
  match m k with
  | Sigue _ k' => k_memory_socket k' = s /\ exists d, a_socket s (k_salidas k') = a_socket s (k_salidas k) ++ d /\ d <> []
  | _ => True
  end.

Lemma discreta_ret {A} h S (a : A) : discreta h S (mret a).
Proof. intros k _. apply callado_refl. Qed.
Lemma discreta_bloqueado {A} h S : discreta h S (@k_bloqueado A).
Proof. done. Qed.
Lemma discreta_indefinido {A} h S : discreta h S (@k_indefinido A).
Proof. done. Qed.
Lemma discreta_exit {A} h S : discreta h S (@k_exit A).
Proof. done. Qed.
Lemma discreta_get h S : discreta h S k_get.
Proof. intros k _. apply callado_refl. Qed.
Lemma discreta_gets {A} h S (f : kernel -> A) : discreta h S (k_gets f).
Proof. intros k _. apply callado_refl. Qed.
Lemma discreta_bind {A B} h S (m : K A) (f : A -> K B) : discreta h S m -> (forall a, discreta h S (f a)) -> discreta h S (m ≫= f).
Proof.
  intros Hm Hf k Hk. specialize (Hm k Hk). rewrite bind_eq. destruct (m k) as [a k1| | | | |]; try done.
  specialize (Hf a k1 ltac:(rewrite (proj1 Hm); exact Hk)). destruct (f a k1); try done. by etrans.
Qed.
Lemma callado_luego {A} h S (m : K A) k k1 :
  callado h S k k1 -> k_memory_socket k = s -> discreta h S m -> match m k1 with Sigue _ k' => callado h S k k' | _ => True end.
Proof. intros Hc Hk Hm. specialize (Hm k1 ltac:(rewrite (proj1 Hc); exact Hk)). destruct (m k1); try done. by etrans. Qed.
Lemma dicha_discreta {A} h S (m : K A) : dicha m -> discreta h S m.
Proof.
  intros Hm k Hk. specialize (Hm k Hk). destruct (m k) as [a k1| | | | |]; try done. destruct Hm as (M & d & E & Hd).
  split; [congruence|]. by exists d.
Qed.
Lemma dicha_bind_r {A B} (m : K A) (f : A -> K B) : discreta true nadie m -> (forall a, dicha (f a)) -> dicha (m ≫= f).
Proof.
  intros Hm Hf k Hk. specialize (Hm k Hk). rewrite bind_eq. destruct (m k) as [a k1| | | | |]; try done. destruct Hm as (M & d & E & _).
  specialize (Hf a k1 ltac:(congruence)). destruct (f a k1); try done. destruct Hf as (M2 & d2 & E2 & Hd2). split; [done|].
  exists (d ++ d2). rewrite E2, E, app_assoc. split; [done|]. by intros [_ ?]%app_eq_nil.
Qed.
Lemma dicha_bind_l {A B} (m : K A) (f : A -> K B) : dicha m -> (forall a, discreta true nadie (f a)) -> dicha (m ≫= f).
Proof.
  intros Hm Hf k Hk. specialize (Hm k Hk). rewrite bind_eq. destruct (m k) as [a k1| | | | |]; try done. destruct Hm as (M & d & E & Hd).
  specialize (Hf a k1 M). destruct (f a k1); try done. destruct Hf as (M2 & d2 & E2 & _). split; [congruence|].
  exists (d ++ d2). rewrite E2, E, app_assoc. split; [done|]. by intros [? _]%app_eq_nil.
Qed.
(** A request. *)
Lemma dicha_pedido {A} x (f : Z -> K A) : (forall sk, discreta true nadie (f sk)) ->
  dicha (sk ← k_gets k_memory_socket; _ ← k_enviar sk x; f sk).
Proof.
  intros Hf k Hk. rewrite bind_eq. cbn [k_gets]. rewrite Hk. revert k Hk. apply dicha_bind_l; [|intros _; apply Hf].
  intros k Hk. unfold k_enviar, k_mod. destruct (Z.eqb_spec s (-1)); [lia|]. split; [done|]. exists [x].
  cbn [con_k_salidas k_salidas]. by rewrite a_socket_app, a_socket_propio.
Qed.

(** *** The basic steps *)

Definition lo_visto (k : kernel) :=
  (k_pcbs k, mutex_lista_tomado k, contador_pids k, k_entradas k, k_salidas k, k_memory_socket k, q_socket <$> k_cpus k).
Lemma callado_visto h S k k' : lo_visto k' = lo_visto k -> callado h S k k'.
Proof.
  unfold lo_visto. intros [= E1 E2 E3 E4 E5 E6 E7]. apply callado_igual; [done|done|]. intros _. split.
  - unfold ajena. by rewrite E7.
  - congruence.
  - done.
  - unfold k_entrada. by rewrite E4.
  - rewrite E1. apply (igual_refl S k).
Qed.
Lemma discreta_mod h S f : (forall k, lo_visto (f k) = lo_visto k) -> discreta h S (k_mod f).
Proof. intros Hf k _. apply callado_visto, Hf. Qed.
Lemma discreta_visto {A} h S (m : K A) :
  (forall k, match m k with Sigue _ k' => lo_visto k' = lo_visto k | _ => True end) -> discreta h S m.
Proof. intros Hm k _. specialize (Hm k). destruct (m k); try done. by apply callado_visto. Qed.
Lemma discreta_leer h S p : discreta h S (leer p).
Proof. apply discreta_visto. intros k. unfold leer. by destruct (_ !! _). Qed.
Lemma discreta_leer_mutex h S i : discreta h S (leer_mutex i).
Proof. apply discreta_visto. intros k. unfold leer_mutex. by destruct (_ !! _). Qed.
Lemma discreta_modificar_mutex h S i f : discreta h S (modificar_mutex i f).
Proof. apply discreta_bind; [apply discreta_leer_mutex|]. intros _. by apply discreta_mod. Qed.
Lemma discreta_leer_io h S i : discreta h S (leer_io i).
Proof. apply discreta_visto. intros k. unfold leer_io. by destruct (_ !! _). Qed.
Lemma discreta_cola h S x : discreta h S (cola_prioridad x).
Proof. apply discreta_visto. intros k. unfold cola_prioridad. destruct (x <? 0); [done|]. by destruct (_ !! _). Qed.
Lemma discreta_pop h S : discreta h S pop_ready.
Proof. apply discreta_visto. intros k. unfold pop_ready. by destruct (cola_procesos_ready k) as [[]|]. Qed.
Lemma discreta_wait_new h S : discreta h S wait_sem_new.
Proof. apply discreta_visto. intros k. unfold wait_sem_new. by destruct (sem_new k). Qed.
Lemma discreta_wait_ready h S : discreta h S wait_sem_ready.
Proof. apply discreta_visto. intros k. unfold wait_sem_ready. by destruct (sem_ready k). Qed.
Lemma discreta_wait_cpu h S : discreta h S wait_sem_cpu.
Proof. apply discreta_visto. intros k. unfold wait_sem_cpu. by destruct (sem_cpu_disponible k). Qed.
Lemma discreta_wait_reevaluar h S : discreta h S wait_sem_reevaluar.
Proof. apply discreta_visto. intros k. unfold wait_sem_reevaluar. by destruct (sem_reevaluar_suspendidos k). Qed.
(** Whatever is sent to Memory is said. *)
Lemma discreta_enviar h S sk x : discreta h S (k_enviar sk x).
Proof.
  intros k _. unfold k_enviar, k_mod. destruct (sk =? -1); [apply callado_refl|]. split; [done|]. cbn [con_k_salidas k_salidas].
  rewrite a_socket_app.
  eexists. split; [reflexivity|]. intros _ Hd. split; try done. apply (igual_refl S k).
Qed.
Lemma discreta_recibir {A} h S sk (r : lector A) : h = true \/ sk <> s -> discreta h S (k_recibir sk r).
Proof.
  intros Hh k _. unfold k_recibir. destruct (r _) as [[a x]|]; [|done]. apply callado_igual; [done|done|]. intros ->.
  destruct Hh as [|Hne]; [done|]. split; try done; [|apply (igual_refl S k)]. unfold k_entrada. cbn. by rewrite lookup_insert_ne.
Qed.
Lemma discreta_codigo h S sk : h = true \/ sk <> s -> discreta h S (k_codigo sk).
Proof. apply discreta_recibir. Qed.

Lemma igual_pcb (S : Z -> Prop) k p b b' :
  k_pcbs k !! p = Some b -> segmentos_info b' = segmentos_info b -> fuera_k b' = fuera_k b \/ S p /\ fuera_k b' = false ->
  igual S k (con_k_pcbs (<[p := b']> (k_pcbs k)) k).
Proof.
  intros Hb E F. split; try done. intros q. cbn. destruct (decide (q = p)) as [->|Hne].
  - rewrite lookup_insert_eq, Hb. by constructor.
  - rewrite lookup_insert_ne by congruence. apply (igual_refl S k).
Qed.
(** The state of [p] may be written: something has been said, or it is in [S]. *)
Definition libre (h : bool) (S : Z -> Prop) (p : Z) : Prop := h = true \/ S p.
Lemma libre_true S p : libre true S p.
Proof. by left. Qed.
Lemma libre_S h (S : Z -> Prop) p : S p -> libre h S p.
Proof. by right. Qed.
Lemma discreta_modificar h S p f :
  (forall b, segmentos_info (f b) = segmentos_info b) ->
  (forall b, fuera_k (f b) = fuera_k b) \/ libre h S p /\ (forall b, fuera_k (f b) = false) -> discreta h S (modificar p f).
Proof.
  intros H1 H2 k _. destruct (modificar p f k) as [u k'| | | | |] eqn:E; try done. apply modificar_sigue in E as (b & Hb & ->).
  apply callado_igual; [done|done|]. intros Hh. eapply igual_pcb; [exact Hb|done|].
  destruct H2 as [H2|[[|Hp] H2]]; [by left|congruence|by right].
Qed.
Lemma discreta_modificar_dicho S p f : discreta true S (modificar p f).
Proof.
  intros k _. destruct (modificar p f k) as [u k'| | | | |] eqn:E; try done. apply modificar_sigue in E as (b & Hb & ->). by apply callado_igual.
Qed.
Lemma discreta_liberar S p : discreta true S (liberar_pcb p).
Proof.
  intros k _. destruct (liberar_pcb p k) as [u k'| | | | |] eqn:E; try done. apply bind_sigue in E as (b & k1 & [-> _]%leer_sigue & E).
  injection E as _ <-. by apply callado_igual.
Qed.
Lemma visto_cpus k i f : (forall c, q_socket (f c) = q_socket c) -> lo_visto (con_k_cpus (alter f i (k_cpus k)) k) = lo_visto k.
Proof.
  intros H. unfold lo_visto. cbn. f_equal. apply list_eq. intros j. rewrite !list_lookup_fmap, list_lookup_alter.
  destruct (decide (i = j)) as [->|]; [|done]. destruct (k_cpus k !! j); [|done]. cbn. by rewrite H.
Qed.
Lemma discreta_cpu h S id f : (forall c, q_socket (f c) = q_socket c) -> discreta h S (modificar_cpu id f).
Proof. intros H. apply discreta_mod. intros k. destruct (indice_cpu id (k_cpus k)) as [i|]; [|done]. by apply visto_cpus. Qed.
Lemma discreta_desconectar h S id sk : discreta h S (marcar_cpu_desconectada id sk).
Proof.
  intros k Hk. unfold marcar_cpu_desconectada, modificar_cpu, k_mod. destruct (indice_cpu id (k_cpus k)) as [i|]; [|apply callado_refl].
  apply callado_igual; [done|done|]. intros _. split; try done; [|apply (igual_refl S k)]. unfold ajena. cbn.
  rewrite !Forall_fmap, !Forall_lookup. intros Hc j c. rewrite list_lookup_alter. destruct (decide (i = j)) as [->|]; [|apply Hc].
  intros (c0 & _ & ->)%fmap_Some. cbn. lia.
Qed.
(** Between the lock of the list of mutexes and its unlock. *)
Lemma discreta_seccion {A B} h S (m : K A) (f : A -> K B) : discreta h S m -> (forall a, discreta h S (f a)) ->
  discreta h S (_ ← lock_lista_mutexes; a ← m; _ ← unlock_lista_mutexes; f a).
Proof.
  intros Hm Hf k Hk. rewrite bind_eq. unfold lock_lista_mutexes. destruct (mutex_lista_tomado k) eqn:Ht; [done|]. rewrite bind_eq.
  specialize (Hm (con_mutex_lista_tomado true k) Hk). destruct (m _) as [a k1| | | | |]; try done. rewrite bind_eq. cbn [unlock_lista_mutexes k_mod].
  destruct Hm as (M & d & E & I). cbn in M, E. specialize (Hf a (con_mutex_lista_tomado false k1) ltac:(cbn; congruence)).
  destruct (f a _) as [b k2| | | | |]; try done. etrans; [|exact Hf]. split; [done|]. exists d. split; [done|]. intros Hh Hd.
  destruct (I Hh Hd) as [I1 I2 I3 I4 I5]. by split.
Qed.

#[local] Hint Resolve discreta_ret discreta_bloqueado discreta_indefinido discreta_exit discreta_get discreta_gets discreta_leer
  discreta_leer_mutex discreta_modificar_mutex discreta_leer_io discreta_cola discreta_pop discreta_wait_new discreta_wait_ready
  discreta_wait_cpu discreta_wait_reevaluar discreta_enviar discreta_recibir discreta_codigo discreta_liberar discreta_desconectar
  discreta_modificar_dicho libre_true libre_S dicha_discreta or_introl or_intror eq_refl : discreta.
Ltac discretar1 :=
  match goal with
  | |- discreta _ _ _ => solve [auto with discreta nocore]
  | |- discreta _ _ (k_mod _) => apply discreta_mod; intros ?; reflexivity
  | |- discreta _ _ (modificar_cpu _ _) => apply discreta_cpu; intros ?; reflexivity
  | |- discreta _ _ (modificar _ _) => apply discreta_modificar; [intros ?; reflexivity|];
      first [left; intros ?; reflexivity
            |right; split; [solve [auto with discreta nocore]|intros ?; unfold fuera_k; cbn; rewrite ?andb_false_r; reflexivity]]
  | |- discreta _ _ (_ ≫= _) => first [apply discreta_seccion; [|intros ?] | apply discreta_bind; [|intros ?]]
  | |- discreta _ _ (match ?x with _ => _ end) => destruct x
  end.
Ltac discretar := repeat (cbv beta; discretar1).

(** ** Handlers that may be silent *)

Lemma discreta_posicion h S p l : discreta h S (posicion_pid p l).
Proof. induction l; cbn [posicion_pid]; discretar. Qed.
Lemma discreta_victima h S cs acc : discreta h S (buscar_victima cs acc).
Proof. revert acc. induction cs; intros acc; cbn [buscar_victima]; discretar. Qed.
Lemma discreta_desencolar h S n x : discreta h S (desencolar_desde n x).
Proof. revert x. induction n; intros x; cbn [desencolar_desde]; unfold poner_cola_prioridad; discretar. Qed.
Lemma discreta_desalojar h S cs : discreta h S (desalojar_bucle cs).
Proof. induction cs; cbn [desalojar_bucle]; discretar. Qed.
#[local] Hint Resolve discreta_posicion discreta_victima discreta_desencolar discreta_desalojar : discreta.
Lemma discreta_verificar h S p : discreta h S (verificar_y_desalojar_por_prioridad p).
Proof. unfold verificar_y_desalojar_por_prioridad. discretar. Qed.
Lemma discreta_post_ready h S : discreta h S post_sem_ready.
Proof. by apply discreta_mod. Qed.
Lemma discreta_post_new h S : discreta h S post_sem_new.
Proof. by apply discreta_mod. Qed.
Lemma discreta_post_cpu h S : discreta h S post_sem_cpu.
Proof. by apply discreta_mod. Qed.
Lemma discreta_reevaluar h S : discreta h S notificar_reevaluar_suspendidos.
Proof. by apply discreta_mod. Qed.
#[local] Hint Resolve discreta_verificar discreta_post_ready discreta_post_new discreta_post_cpu discreta_reevaluar : discreta.
Lemma discreta_poner_prioridad h S inicio p x : discreta h S (poner_en_prioridad inicio p x).
Proof. unfold poner_en_prioridad, poner_cola_prioridad. discretar. Qed.
Lemma discreta_poner_ready h S inicio p : discreta h S (poner_en_ready inicio p).
Proof. unfold poner_en_ready. discretar. Qed.
#[local] Hint Resolve discreta_poner_prioridad discreta_poner_ready : discreta.
Lemma discreta_encolar h S p : libre h S p -> discreta h S (encolar_en_ready_y_notificar p).
Proof. intros Hp. unfold encolar_en_ready_y_notificar, reencolar_proceso_ready_final. discretar. Qed.
Lemma discreta_al_principio h S p : libre h S p -> discreta h S (devolver_al_principio p).
Proof. intros Hp. unfold devolver_al_principio, reencolar_proceso_ready_inicio. discretar. Qed.
Lemma discreta_iniciar_timer h S id p q : discreta h S (iniciar_quantum_timer id p q).
Proof. unfold iniciar_quantum_timer. discretar. Qed.
Lemma discreta_liberar_cpu h S id : discreta h S (liberar_cpu_reservada id).
Proof. unfold liberar_cpu_reservada. discretar. Qed.
#[local] Hint Resolve discreta_encolar discreta_al_principio discreta_iniciar_timer discreta_liberar_cpu : discreta.
Lemma discreta_volver h S p id : libre h S p -> discreta h S (volver_a_cpu p id).
Proof. intros Hp. unfold volver_a_cpu, devolver_proceso_a_misma_cpu. discretar. Qed.
#[local] Hint Resolve discreta_volver : discreta.

(** *** Mutexes *)

Lemma discreta_reubicar h S p x y : discreta h S (reubicar_proceso_en_ready p x y).
Proof. unfold reubicar_proceso_en_ready, poner_cola_prioridad. discretar. Qed.
Lemma discreta_buscar_pcb h S p : discreta h S (buscar_pcb_por_pid p).
Proof. unfold buscar_pcb_por_pid. discretar. Qed.
#[local] Hint Resolve discreta_reubicar discreta_buscar_pcb : discreta.
Lemma discreta_propagar h S n p x : discreta h S (propagar_herencia_prioridad n p x).
Proof. revert p. induction n; intros p; cbn [propagar_herencia_prioridad]; discretar. Qed.
Lemma discreta_mejor_bloqueado h S l x : discreta h S (mejor_bloqueado l x).
Proof. revert x. induction l; intros x; cbn [mejor_bloqueado]; discretar. Qed.
#[local] Hint Resolve discreta_propagar discreta_mejor_bloqueado : discreta.
Lemma discreta_mejor_heredada h S p ms x : discreta h S (mejor_heredada p ms x).
Proof. revert x. induction ms; intros x; cbn [mejor_heredada]; discretar. Qed.
#[local] Hint Resolve discreta_mejor_heredada : discreta.
Lemma discreta_recalcular h S p : discreta h S (recalcular_prioridad_dinamica p).
Proof.
  unfold recalcular_prioridad_dinamica. apply discreta_bind; [discretar|]. intros b k Hk.
  pose proof (discreta_seccion h S (ms ← k_gets lista_mutexes; mejor_heredada p ms (prioridad b))
    (fun y => if y =? prioridad_dinamica b then mret tt
      else _ ← modificar p (con_prioridad_dinamica y); reubicar_proceso_en_ready p (prioridad_dinamica b) y)
    ltac:(discretar) ltac:(intros; discretar) k Hk) as H.
  revert H. rewrite !bind_eq. by destruct (lock_lista_mutexes k).
Qed.
Lemma discreta_buscar_mutex h S nombre : discreta h S (buscar_mutex_por_nombre nombre).
Proof. unfold buscar_mutex_por_nombre. discretar. Qed.
Lemma discreta_registrar h S m : discreta h S (registrar_mutex m).
Proof.
  intros k Hk. unfold registrar_mutex. rewrite bind_eq. unfold lock_lista_mutexes. destruct (mutex_lista_tomado k) eqn:Ht; [done|].
  rewrite bind_eq. cbn [k_gets]. rewrite bind_eq. cbn [k_mod]. rewrite bind_eq. cbn. apply callado_visto. unfold lo_visto. cbn. by rewrite Ht.
Qed.
#[local] Hint Resolve discreta_recalcular discreta_buscar_mutex discreta_registrar : discreta.
Lemma discreta_entregar h S i p r : libre h S p -> discreta h S (entregar_mutex i p r).
Proof. intros Hp. unfold entregar_mutex. discretar. Qed.
Lemma discreta_en_block h S p e : discreta h S (notificar_proceso_en_block p e).
Proof. unfold notificar_proceso_en_block. discretar. Qed.
#[local] Hint Resolve discreta_entregar discreta_en_block : discreta.
Lemma discreta_mutex_create h S p ps : discreta h S (manejar_syscall_mutex_create p ps).
Proof. unfold manejar_syscall_mutex_create. discretar. Qed.
Lemma discreta_lock h S p ps : libre h S p -> discreta h S (manejar_syscall_mutex_lock p ps).
Proof. intros Hp. unfold manejar_syscall_mutex_lock. discretar. Qed.
#[local] Hint Resolve discreta_mutex_create discreta_lock : discreta.

(** ** Handlers that speak *)

Lemma discreta_marcar_exit S l : discreta true S (marcar_exit l).
Proof. induction l; cbn [marcar_exit]; discretar. Qed.
#[local] Hint Resolve discreta_marcar_exit : discreta.
Lemma discreta_bsod S : discreta true S manejar_bsod.
Proof. unfold manejar_bsod. discretar. Qed.
#[local] Hint Resolve discreta_bsod : discreta.
Lemma discreta_notificacion S sk op : discreta true S (despachar_si_es_notificacion sk op).
Proof.
  unfold despachar_si_es_notificacion, handle_memoria_corrupta_bsod, handle_memoria_liberada, handle_iniciar_compactacion,
    manejar_compactacion_inicio, desalojar_todos_procesos, handle_finalizar_compactacion, manejar_compactacion_fin,
    handle_nueva_memoria_disponible. discretar.
Qed.
#[local] Hint Resolve discreta_notificacion : discreta.
Lemma discreta_respuesta_bucle S n sk : discreta true S (recibir_respuesta_bucle n sk).
Proof. induction n; cbn [recibir_respuesta_bucle]; discretar. Qed.
#[local] Hint Resolve discreta_respuesta_bucle : discreta.
Lemma discreta_respuesta S sk : discreta true S (recibir_respuesta_de_memoria sk).
Proof. unfold recibir_respuesta_de_memoria. discretar. Qed.
#[local] Hint Resolve discreta_respuesta : discreta.

Lemma dicha_pedir x : dicha (pedir_ok x).
Proof. apply dicha_pedido. intros sk. discretar. Qed.
#[local] Hint Resolve dicha_pedir : discreta.
Lemma dicha_notificar_fin p : dicha (notificar_fin_a_memoria p).
Proof.
  intros k Hk. unfold notificar_fin_a_memoria. rewrite bind_eq. cbn [k_gets]. rewrite Hk. destruct (Z.ltb_spec s 0); [lia|].
  revert k Hk. apply dicha_bind_l; [apply dicha_pedir|]. intros. discretar.
Qed.
Lemma dicha_escribir_stdin p d bs n : dicha (escribir_stdin_en_memoria p d bs n).
Proof. apply dicha_bind_l; [apply dicha_pedir|]. intros. discretar. Qed.
Lemma discreta_liberar_bucle S n i p : discreta true S (liberar_mutexes_bucle n i p).
Proof.
  assert (Hp : forall l, discreta true S (sin_pid p l)) by (induction l; cbn [sin_pid]; discretar).
  revert i. induction n; intros i; cbn [liberar_mutexes_bucle]; discretar.
Qed.
#[local] Hint Resolve dicha_notificar_fin dicha_escribir_stdin discreta_liberar_bucle : discreta.
(** Once something has been said, the lock of the list does not matter. *)
Lemma discreta_candado S : discreta true S lock_lista_mutexes /\ discreta true S unlock_lista_mutexes.
Proof.
  split; intros k _; [unfold lock_lista_mutexes; destruct (mutex_lista_tomado k); [done|]|]; by apply callado_igual.
Qed.
Lemma discreta_liberar_mutexes S p : discreta true S (liberar_mutexes_de_proceso p).
Proof.
  destruct (discreta_candado S) as [H1 H2]. unfold liberar_mutexes_de_proceso. apply discreta_bind; [done|]. intros _.
  apply discreta_bind; [discretar|]. intros l. apply discreta_bind; [discretar|]. by intros _.
Qed.
Lemma discreta_eliminar S p : discreta true S (eliminar_pcb p).
Proof. unfold eliminar_pcb. discretar. Qed.
Lemma discreta_remover h S p : discreta h S (remover_de_lista_suspendidos p).
Proof. unfold remover_de_lista_suspendidos. discretar. Qed.
#[local] Hint Resolve discreta_liberar_mutexes discreta_eliminar discreta_remover : discreta.
Lemma dicha_terminar p : dicha (terminar_proceso p).
Proof.
  unfold terminar_proceso. apply dicha_bind_r; [discretar|]. intros _. apply dicha_bind_r; [discretar|]. intros _.
  apply dicha_bind_l; [auto with discreta|]. intros _. discretar.
Qed.
Lemma dicha_seg_fault p : dicha (finalizar_pcb_por_seg_fault p).
Proof.
  unfold finalizar_pcb_por_seg_fault. apply dicha_bind_r; [discretar|]. intros _. apply dicha_bind_r; [discretar|]. intros _.
  apply dicha_bind_r; [discretar|]. intros _. apply dicha_bind_l; [auto with discreta|]. intros _. discretar.
Qed.
#[local] Hint Resolve dicha_terminar dicha_seg_fault : discreta.

Lemma dicha_creacion p path : dicha (enviar_creacion_proceso_a_memory p path).
Proof.
  intros k Hk. unfold enviar_creacion_proceso_a_memory. rewrite bind_eq. cbn [k_gets]. rewrite Hk.
  destruct (Z.eqb_spec s (-1)); [lia|].
  pose proof (dicha_pedido (enviar_crear_proceso p (con_nul path)) (fun sk =>
    codigo ← recibir_respuesta_de_memoria sk;
    if i32 codigo =? -1 then mret false
    else if negb (codigo =? op_num CREAR_PROCESO) then mret false
    else _ ← k_recibir sk recibir_ok; mret true) ltac:(intros; discretar) k Hk) as H.
  revert H. rewrite bind_eq. cbn [k_gets]. by rewrite Hk.
Qed.
Lemma discreta_generar S : discreta true S generar_pid.
Proof.
  unfold generar_pid. apply discreta_bind; [discretar|]. intros n. destruct (_ =? _); [discretar|].
  apply discreta_bind; [|intros; discretar]. intros k _. by apply callado_igual.
Qed.
(** Without a path there is no process, and nothing is said. *)
Lemma discreta_crear h S path prio : discreta h S (crear_proceso path prio).
Proof.
  unfold crear_proceso. destruct (bool_decide _); [discretar|]. apply dicha_discreta.
  apply dicha_bind_r; [apply discreta_generar|]. intros pid.
  apply dicha_bind_r; [intros k _; by apply callado_igual|]. intros _.
  apply dicha_bind_r; [unfold registrar_pcb; discretar|]. intros _.
  apply dicha_bind_l; [apply dicha_creacion|]. intros _. discretar.
Qed.
#[local] Hint Resolve discreta_crear : discreta.

Lemma dicha_terminar_en_cpu p id : dicha (terminar_en_cpu p id).
Proof. apply dicha_bind_l; [auto with discreta|]. intros. discretar. Qed.
#[local] Hint Resolve dicha_terminar_en_cpu : discreta.
Lemma dicha_mem_alloc p ps id : dicha (syscall_mem_alloc p ps id).
Proof.
  destruct ps as [|x [|y ps]]; cbn [syscall_mem_alloc]; [auto with discreta..|]. apply dicha_pedido. intros sk. discretar.
Qed.
Lemma dicha_mem_free p ps id : dicha (syscall_mem_free p ps id).
Proof.
  destruct ps as [|x ps]; cbn [syscall_mem_free]; [auto with discreta|]. apply dicha_bind_l; [auto with discreta|]. intros. discretar.
Qed.
Lemma dicha_candidato p : dicha (des_suspender_candidato p).
Proof.
  unfold des_suspender_candidato. apply dicha_bind_r; [discretar|]. intros _. apply dicha_bind_l; [auto with discreta|]. intros. discretar.
Qed.
#[local] Hint Resolve dicha_mem_alloc dicha_mem_free dicha_candidato : discreta.
Lemma discreta_des_suspender h S l : discreta h S (des_suspender_bucle l).
Proof. induction l as [|[[p d] t] l IH]; cbn [des_suspender_bucle]; discretar. Qed.
Lemma discreta_candidatos h S l : discreta h S (candidatos_susp_ready l).
Proof. induction l as [|[p t] l IH]; cbn [candidatos_susp_ready]; discretar. Qed.
#[local] Hint Resolve discreta_des_suspender discreta_candidatos : discreta.
Lemma discreta_suspension_fin h S j : discreta h S (suspension_timer_fin j).
Proof.
  unfold suspension_timer_fin. apply discreta_bind; [discretar|]. intros k. destruct (_ !! j); [|discretar].
  apply dicha_discreta. apply dicha_bind_l; [auto with discreta|]. intros. discretar.
Qed.
#[local] Hint Resolve discreta_suspension_fin : discreta.

(** *** System calls *)

Lemma discreta_en_io h S i req : libre h S (r_proceso req) -> discreta h S (encolar_io_request i req).
Proof. intros Hp. unfold encolar_io_request, modificar_io. discretar. Qed.
#[local] Hint Resolve discreta_en_io : discreta.
Lemma discreta_pedir_io h S p io req : libre h S p -> r_proceso req = p -> discreta h S (pedir_io p io req).
Proof. intros Hp <-. unfold pedir_io. discretar. Qed.
#[local] Hint Resolve discreta_pedir_io : discreta.
Lemma discreta_sleep h S p ps : libre h S p -> discreta h S (syscall_sleep p ps).
Proof. intros Hp. unfold syscall_sleep, buscar_interfaz_io_por_tipo. discretar. Qed.
Lemma discreta_io_sleep h S p ps : libre h S p -> discreta h S (syscall_io_sleep p ps).
Proof. intros Hp. unfold syscall_io_sleep, buscar_interfaz_io. discretar. Qed.
Lemma discreta_stdin h S p ps : libre h S p -> discreta h S (syscall_stdin p ps).
Proof. intros Hp. unfold syscall_stdin, buscar_interfaz_io_por_tipo. discretar. Qed.
Lemma discreta_stdout h S p ps : libre h S p -> discreta h S (syscall_stdout p ps).
Proof.
  intros Hp. destruct ps as [|dir [|size ps]]; cbn [syscall_stdout]; [discretar..|]. unfold buscar_interfaz_io_por_tipo.
  apply discreta_bind; [discretar|]. intros [i|]; [|discretar]. apply dicha_discreta, dicha_pedido. intros sk. discretar.
Qed.
Lemma discreta_init_proc h S ps : discreta h S (manejar_syscall_init_proc ps).
Proof. unfold manejar_syscall_init_proc. discretar. Qed.
#[local] Hint Resolve discreta_sleep discreta_io_sleep discreta_stdin discreta_stdout discreta_init_proc : discreta.

(** ** Turns *)

(** From [k], the step changes nothing that Memory knows, or has said something. *)
Definition calla_en {A} (m : K A) (k : kernel) : Prop := k_memory_socket k = s ->
  match m k with Sigue _ k' => callado false nadie k k' | _ => True end.

(** A handler that writes the state of processes that were not in Swap. *)
Lemma calla_en_de {A} (S : Z -> Prop) (m : K A) k :
  discreta false S m -> (forall p b, S p -> k_pcbs k !! p = Some b -> fuera_k b = false) -> calla_en m k.
Proof.
  intros Hm HS Hk. specialize (Hm k Hk). destruct (m k) as [a k'| | | | |]; try done. destruct Hm as (M & d & E & I). split; [done|].
  exists d. split; [done|]. intros _ Hd. by apply (igual_nadie S), I.
Qed.
Lemma calla_en_bind {A B} (m : K A) (f : A -> K B) k :
  discreta false nadie m -> (forall a k1, m k = Sigue a k1 -> calla_en (f a) k1) -> calla_en (m ≫= f) k.
Proof.
  intros Hm Hf Hk. specialize (Hm k Hk). rewrite bind_eq. destruct (m k) as [a k1| | | | |] eqn:E; try done.
  specialize (Hf a k1 eq_refl ltac:(rewrite (proj1 Hm); exact Hk)). destruct (f a k1); try done. by etrans.
Qed.
Lemma calla_en_discreta {A} (m : K A) k : discreta false nadie m -> calla_en m k.
Proof. intros Hm. apply (calla_en_de nadie); [done|by intros p b []]. Qed.
Lemma calla_en_dicha {A} (m : K A) k : dicha m -> calla_en m k.
Proof. intros Hm. by apply calla_en_discreta, dicha_discreta. Qed.

Lemma no_fuera b : estado b <> SUSP_BLOCK -> estado b <> SUSP_READY -> fuera_k b = false.
Proof. intros H1 H2. unfold fuera_k. rewrite !bool_decide_false by done. apply andb_false_r. Qed.

(** *** What a CPU gives back *)

Lemma unlock_calla sr M p b params k :
  Inv sr (p :: M) k -> k_pcbs k !! p = Some b -> estado b = EXEC -> calla_en (manejar_syscall_mutex_unlock p params) k.
Proof.
  intros H Hb He. destruct params as [|nombre ps]; cbn [manejar_syscall_mutex_unlock]; [by apply calla_en_discreta, discreta_ret|].
  apply calla_en_bind; [apply discreta_buscar_mutex|]. intros o k1 (E1 & E2 & _)%buscar_mutex_sigue.
  destruct o as [i|]; [|by apply calla_en_discreta, discreta_ret].
  apply calla_en_bind; [apply discreta_leer_mutex|]. intros m k2 [-> Hm]%leer_mutex_sigue. rewrite E2 in Hm.
  apply (calla_en_de (fun w => w ∈ cola_bloqueados m)).
  - destruct (negb _); [apply discreta_ret|]. destruct (cola_bloqueados m) as [|w ws] eqn:Hc.
    + discretar.
    + assert (Hw : (fun q => q ∈ w :: ws) w) by left. discretar.
  - intros q c Hq. rewrite E1. intros Hqc. pose proof (i_mutex _ _ _ H i m Hm) as HF. rewrite Forall_forall in HF.
    destruct (HF q Hq) as (c' & Hc' & Hx & _). apply no_fuera; congruence.
Qed.

Lemma syscall_calla sr p b nombre params id k :
  Inv sr [p] k -> k_pcbs k !! p = Some b -> estado b = EXEC -> calla_en (manejar_syscall_io p nombre params id) k.
Proof.
  intros H Hb He. destruct nombre as [nombre|]; cbn [manejar_syscall_io]; [|by apply calla_en_discreta, discreta_ret].
  assert (HS : eq p p) by done.
  assert (HC : forall m : K unit, discreta false (eq p) m -> calla_en m k).
  { intros m Hm. apply (calla_en_de (eq p)); [done|]. intros q c <- Hq. apply no_fuera; congruence. }
  destruct (strcmp0 _ "SLEEP"); [apply HC; discretar|]. destruct (strcmp0 _ "IO_SLEEP"); [apply HC; discretar|].
  destruct (strcmp0 _ "STDIN"); [apply HC; discretar|]. destruct (strcmp0 _ "STDOUT"); [apply HC; discretar|].
  destruct (strcmp0 _ "MEM_ALLOC"); [apply HC; discretar|]. destruct (strcmp0 _ "MEM_FREE"); [apply HC; discretar|].
  destruct (strcmp0 _ "MUTEX_CREATE"); [apply HC; discretar|]. destruct (strcmp0 _ "MUTEX_LOCK"); [apply HC; discretar|].
  destruct (strcmp0 _ "MUTEX_UNLOCK"); [|destruct (strcmp0 _ "INIT_PROC"); apply HC; discretar].
  intros Hk. pose proof (unlock_calla sr [] p b params k H Hb He Hk) as Hu. rewrite bind_eq.
  pose proof (cumple_mutex_unlock sr [] p b params (fun _ k1 => exists b1, k_pcbs k1 !! p = Some b1 /\ estado b1 = EXEC) k H Hb He
    ltac:(intros; by eexists)) as Hc. unfold cumple in Hc.
  destruct (manejar_syscall_mutex_unlock p params k) as [[] k1| | | | |]; try done. destruct Hc as (b1 & Hb1 & He1).
  assert (Hc1 : calla_en (encolar_en_ready_y_notificar p) k1).
  { apply (calla_en_de (eq p)); [discretar|]. intros q c <- Hq. apply no_fuera; congruence. }
  specialize (Hc1 ltac:(rewrite (proj1 Hu); exact Hk)). destruct (encolar_en_ready_y_notificar p k1); try done. by etrans.
Qed.

Lemma motivo_calla sr p b motivo nombre params id k :
  Inv sr [p] k -> k_pcbs k !! p = Some b -> estado b = EXEC -> calla_en (manejar_motivo p motivo nombre params id) k.
Proof.
  intros H Hb He. unfold manejar_motivo. assert (HS : eq p p) by done.
  assert (HC : forall m : K unit, discreta false (eq p) m -> calla_en m k).
  { intros m Hm. apply (calla_en_de (eq p)); [done|]. intros q c <- Hq. apply no_fuera; congruence. }
  destruct (_ || _)%bool; [apply HC; discretar|]. destruct (_ =? _); [apply HC; discretar|].
  destruct (_ =? _); [by eapply syscall_calla|]. apply HC. discretar.
Qed.

Lemma devolver_calla sr socket id k : Inv sr [] k -> socket <> s -> calla_en (manejar_devolver_proceso socket id) k.
Proof.
  intros H Hne. unfold manejar_devolver_proceso. apply calla_en_bind; [apply discreta_recibir; by right|].
  intros [[[pid motivo] nombre] params] k1 E1.
  pose proof (no_toca_recibir socket recibir_devolver_proceso k) as H1. rewrite E1 in H1. apply (Inv_misma _ _ _ _ H1) in H. clear H1 E1.
  destruct (pid <? 0); [by apply calla_en_discreta, discreta_ret|]. set (em := es_syscall_de_memoria motivo nombre).
  change (calla_en (po ← retirar em id pid; match po with
    | None => if em then liberar_cpu_reservada id else mret tt | Some p => manejar_motivo p motivo nombre params id end) k1).
  apply calla_en_bind.
  { destruct em; cbn [retirar]; unfold retirar_proceso_de_cpu, retirar_proceso_de_cpu_reservando; discretar. }
  intros po k2 Er. destruct (retirar_inv _ _ _ _ _ _ _ H Er) as [H2 Hp]. destruct po as [p|].
  - destruct (Hp p eq_refl) as (b & Hb & He). by eapply motivo_calla.
  - apply calla_en_discreta. discretar.
Qed.

Lemma receptor_calla sr j k : Inv sr [] k -> (forall r, receptores k !! j = Some r -> rt_socket r <> s) ->
  calla_en (scheduler_cpu_receptor_thread j) k.
Proof.
  intros H Hr. unfold scheduler_cpu_receptor_thread. apply calla_en_bind; [discretar|]. intros k0 k1 [= <- <-].
  destruct (receptores k !! j) as [r|]; [|by apply calla_en_discreta]. specialize (Hr r eq_refl).
  apply calla_en_bind; [apply discreta_codigo; by right|]. intros c k1 E1.
  pose proof (no_toca_codigo (rt_socket r) k) as H1. rewrite E1 in H1. apply (Inv_misma _ _ _ _ H1) in H.
  destruct (_ =? -1); [apply calla_en_discreta; discretar|]. destruct (_ =? _); [by eapply devolver_calla|]. apply calla_en_discreta. discretar.
Qed.

(** *** Interfaces

    Before its end, the turn of a worker leaves the PCBs and the queue of BLOCK. *)

Definition cola_igual (k k' : kernel) : Prop := k_pcbs k' = k_pcbs k /\ cola_procesos_block k' = cola_procesos_block k.

Lemma en_block_estado sr M k p b : Inv sr M k -> p ∈ cola_procesos_block k -> k_pcbs k !! p = Some b -> estado b = BLOCK \/ estado b = SUSP_BLOCK.
Proof.
  intros H Hp Hb. pose proof (i_block _ _ _ H) as HF. rewrite Forall_forall in HF. destruct (HF p Hp) as (c & Hc & Hx).
  by assert (c = b) as -> by congruence.
Qed.

Lemma extraer_sigue p k po k' : extraer_de_block p k = Sigue po k' ->
  (po = None /\ k' = k) \/ (po = Some p /\ p ∈ cola_procesos_block k /\ k_pcbs k' = k_pcbs k).
Proof.
  unfold extraer_de_block. intros (l & k1 & [= <- <-] & E)%bind_sigue. apply bind_sigue in E as (i & k1 & [-> ->]%posicion_inv & E).
  destruct (indice_de _ _) as [i|] eqn:Ei; [|injection E; auto]. apply indice_pid in Ei. apply list_elem_of_lookup_2 in Ei.
  apply bind_sigue in E as (b & k1 & [-> _]%leer_sigue & E). destruct (_ && _)%bool; [done|].
  apply bind_sigue in E as ([] & k1 & [= <-] & [= <- <-]). by right.
Qed.

Lemma discreta_extraer h S p : discreta h S (extraer_de_block p).
Proof. unfold extraer_de_block. discretar. Qed.

(** A process in SUSP_BLOCK becomes SUSP_READY where it is. *)
Lemma modificar_susp p f k :
  (forall b, segmentos_info (f b) = segmentos_info b /\ estado (f b) = SUSP_READY /\ suspendido_en_swap (f b) = suspendido_en_swap b) ->
  (forall b, k_pcbs k !! p = Some b -> estado b = SUSP_BLOCK) -> calla_en (modificar p f) k.
Proof.
  intros Hf Hp _. destruct (modificar p f k) as [u k'| | | | |] eqn:E; try done. apply modificar_sigue in E as (b & Hb & ->).
  destruct (Hf b) as (F1 & F2 & F3). apply callado_igual; [done|done|]. intros _. eapply igual_pcb; [exact Hb|exact F1|left].
  unfold fuera_k. by rewrite F2, F3, (Hp b Hb).
Qed.

(** Once out of BLOCK, the process is in the hands of the worker. *)
Lemma fuera_de_block_calla sr k k1 p (f : t_pcb -> t_pcb) (m : Z -> K unit) :
  Inv sr [] k -> cola_igual k k1 ->
  (forall b, segmentos_info (f b) = segmentos_info b /\ estado (f b) = SUSP_READY /\ suspendido_en_swap (f b) = suspendido_en_swap b) ->
  discreta false (eq p) (m p) ->
  calla_en (po ← extraer_de_block p; match po with
    | None => mret tt
    | Some p => b ← leer p; if bool_decide (estado b = SUSP_BLOCK) then _ ← modificar p f; notificar_reevaluar_suspendidos else m p
    end) k1.
Proof.
  intros H [E1 E2] Hf Hm. apply calla_en_bind; [apply discreta_extraer|]. intros po k2 Ex.
  apply extraer_sigue in Ex as [[-> ->]|(-> & Hp & Ep)]; [by apply calla_en_discreta, discreta_ret|]. rewrite E1 in Ep. rewrite E2 in Hp.
  apply calla_en_bind; [discretar|]. intros b k3 [-> Hb]%leer_sigue. rewrite Ep in Hb.
  destruct (bool_decide_reflect (estado b = SUSP_BLOCK)) as [He|He].
  - intros Hk. pose proof (modificar_susp p f k2 Hf ltac:(intros c Hc; rewrite Ep in Hc; congruence) Hk) as Hs. rewrite bind_eq.
    destruct (modificar p f k2) as [u k3| | | | |]; try done. apply (callado_trans _ _ _ k3); [exact Hs|by apply callado_visto].
  - apply (calla_en_de (eq p)); [apply Hm|]. intros q c <- Hq. rewrite Ep in Hq. assert (c = b) as -> by congruence.
    destruct (en_block_estado _ _ _ _ _ H Hp Hb) as [Hx|]; [|done]. apply no_fuera; congruence.
Qed.

Lemma desbloquear_calla sr k k1 p : Inv sr [] k -> cola_igual k k1 -> calla_en (desbloquear_proceso_por_io p) k1.
Proof.
  intros H E. apply (fuera_de_block_calla sr k k1 p (con_estado SUSP_READY) encolar_en_ready_y_notificar); [done|done|intros b; by split_and!|].
  apply discreta_encolar. by right.
Qed.
Lemma terminar_stdin_calla sr k k1 p size dir bs : Inv sr [] k -> cola_igual k k1 -> calla_en (terminar_stdin p size dir bs) k1.
Proof.
  intros H E. apply (fuera_de_block_calla sr k k1 p (fun b => con_estado SUSP_READY (con_stdin_pendiente_size (u32 size)
    (con_stdin_pendiente_dir (u32 dir) (con_stdin_pendiente (Some bs) b)))) (fun proceso =>
    escrito ← escribir_stdin_en_memoria p dir bs size;
    if negb escrito then finalizar_pcb_por_seg_fault proceso else encolar_en_ready_y_notificar proceso)); [done|done|intros b; by split_and!|].
  apply dicha_discreta, dicha_bind_l; [auto with discreta|]. intros w. discretar.
Qed.

Lemma recibir_cola {A} sk (r : lector A) k a k' : k_recibir sk r k = Sigue a k' -> cola_igual k k'.
Proof. unfold k_recibir. destruct (r _) as [[x y]|]; [|done]. by intros [= _ <-]. Qed.

Lemma worker_despachar_calla sr i k : Inv sr [] k -> calla_en (io_worker_despachar i) k.
Proof.
  intros H. unfold io_worker_despachar, modificar_io. apply calla_en_bind; [discretar|]. intros io k1 Ei.
  unfold leer_io in Ei. destruct (tabla_ios k !! i) as [io'|]; [|done]. injection Ei as -> <-.
  destruct (sem_cola io) as [|n]; [by apply calla_en_discreta|]. destruct (io_en_curso io); [by apply calla_en_discreta|].
  destruct (negb _); [by apply calla_en_discreta|]. destruct (io_cola io) as [|req cola]; [apply calla_en_discreta; discretar|].
  apply calla_en_bind; [discretar|]. intros [] k1 [= <-]. apply calla_en_bind; [discretar|]. intros b k1 [-> _]%leer_sigue.
  destruct req as [p t|p sz d|p d sz [bf|]]; [apply calla_en_discreta; discretar..|]. by eapply desbloquear_calla.
Qed.

Lemma worker_respuesta_calla sr i k : Inv sr [] k -> (forall io, tabla_ios k !! i = Some io -> io_socket io <> s) ->
  calla_en (io_worker_respuesta i) k.
Proof.
  intros H Hs. unfold io_worker_respuesta, modificar_io. apply calla_en_bind; [discretar|]. intros io k1 Ei.
  unfold leer_io in Ei. destruct (tabla_ios k !! i) as [io'|]; [|done]. injection Ei as -> <-. specialize (Hs io eq_refl).
  destruct (io_en_curso io) as [req|]; [|by apply calla_en_discreta]. apply calla_en_bind; [discretar|]. intros [] k1 [= <-].
  apply calla_en_bind; [apply discreta_codigo; by right|]. intros resp k2 E2. unfold k_codigo in E2. apply recibir_cola in E2.
  destruct (_ || _)%bool; [apply calla_en_discreta; discretar|].
  destruct req as [p t|p sz d|p d sz bf]; (apply calla_en_bind; [apply discreta_recibir; by right|]); intros x k3 E3%recibir_cola.
  all: assert (Hc : cola_igual k k3) by (destruct E2 as [A1 A2], E3 as [B1 B2]; split; [by rewrite B1, A1|by rewrite B2, A2]).
  - by eapply desbloquear_calla.
  - destruct x as [z buffer]. by eapply terminar_stdin_calla.
  - by eapply desbloquear_calla.
Qed.

(** *** The timers and the planners *)

Lemma episodio_sigue p e l k r k' : en_episodio p e l k = Sigue r k' ->
  k' = k /\ (r = true -> exists b, k_pcbs k !! p = Some b /\ estado b = BLOCK).
Proof.
  induction l as [|q l IH]; cbn [en_episodio]; [by intros [= <- <-]|]. intros (b & k1 & [-> Hb]%leer_sigue & E)%bind_sigue.
  destruct (_ && _)%bool eqn:Ec; [|by apply IH]. injection E as <- <-. split; [done|]. intros _.
  apply andb_prop in Ec as [Ec _]. apply andb_prop in Ec as [Ep Ee]. apply bool_decide_eq_true in Ee. apply Z.eqb_eq in Ep as ->. by exists b.
Qed.
Lemma discreta_episodio h S p e l : discreta h S (en_episodio p e l).
Proof. induction l; cbn [en_episodio]; discretar. Qed.

Lemma suspension_inicio_calla i k : calla_en (suspension_timer_inicio i) k.
Proof.
  unfold suspension_timer_inicio. apply calla_en_bind; [discretar|]. intros k0 k1 [= <- <-].
  destruct (timers_suspension k !! i) as [a|]; [|by apply calla_en_discreta]. apply calla_en_bind; [discretar|]. intros [] k1 _.
  destruct (sistema_corrupto k); [apply calla_en_discreta; discretar|].
  apply calla_en_bind; [apply discreta_episodio|]. intros r k2 [-> Hr]%episodio_sigue.
  destruct r; cbn [negb]; [|apply calla_en_discreta; discretar]. destruct (Hr eq_refl) as (b & Hb & He).
  apply (calla_en_de (eq (su_pid a))).
  - assert (HS : eq (su_pid a) (su_pid a)) by done. unfold agregar_a_lista_suspendidos. discretar.
  - intros q c <- Hq. apply no_fuera; congruence.
Qed.

Lemma discreta_enviar_cpu h S p : discreta h S (enviar_proceso_a_cpu p).
Proof.
  intros k Hk. unfold enviar_proceso_a_cpu. rewrite bind_eq. cbn [k_get]. destruct (_ =? _)%nat; [by apply discreta_ret|].
  rewrite bind_eq. unfold leer at 1. destruct (k_pcbs k !! p); [|done].
  destruct (indice_de _ _) as [i|]; [|by apply discreta_ret]. destruct (k_cpus k !! i) as [c|]; [|by apply discreta_ret].
  rewrite bind_eq. cbn [k_mod]. set (k1 := con_k_cpus _ k).
  assert (H1 : callado h S k k1) by (by apply callado_visto, visto_cpus).
  eapply callado_luego; [exact H1|exact Hk|discretar].
Qed.
Lemma discreta_quantum h S i : discreta h S (quantum_timer_thread i).
Proof.
  unfold quantum_timer_thread. apply discreta_bind; [discretar|]. intros k. destruct (_ !! i); [|discretar].
  apply discreta_bind; [discretar|]. intros _. destruct (indice_de _ _); [|discretar]. apply discreta_bind; [|intros _; discretar].
  apply discreta_mod. intros k1. by apply visto_cpus.
Qed.
#[local] Hint Resolve discreta_enviar_cpu discreta_quantum : discreta.

(** What the short-term planner dispatches was ready. *)
Lemma corto_plazo_calla sr k : Inv sr [] k -> calla_en planificadorCortoPlazo k.
Proof.
  intros H. unfold planificadorCortoPlazo. apply calla_en_bind; [discretar|]. intros [] k1 E1.
  pose proof (no_toca_wait_ready k) as M1. rewrite E1 in M1. apply (Inv_misma _ _ _ _ M1) in H.
  apply calla_en_bind; [discretar|]. intros k0 k2 [= <- <-]. destruct (sistema_corrupto k1); [apply calla_en_discreta; discretar|].
  destruct (compactacion_en_progreso k1); [apply calla_en_discreta; discretar|]. destruct (negb _); [apply calla_en_discreta; discretar|].
  set (alg := algoritmo_de_turno (k_config k1)). apply calla_en_bind.
  { unfold obtener_proximo_proceso_ready, desencolar_proceso_ready. discretar. }
  intros po k2 Ep. pose proof (cumple_proximo sr alg (fun po k2 => forall p, po = Some p -> exists b, k_pcbs k2 !! p = Some b /\ estado b = READY)
    k1 H ltac:(done) ltac:(intros p b k3 _ Hb He _ q [= <-]; by exists b)) as Hc. unfold cumple in Hc. rewrite Ep in Hc.
  destruct po as [p|]; [|apply calla_en_discreta; discretar]. destruct (Hc p eq_refl) as (b & Hb & He).
  apply (calla_en_de (eq p)).
  - assert (HS : eq p p) by done. assert (Hw : forall n, discreta false (eq p) (esperar_cpu n)) by (induction n; cbn [esperar_cpu]; discretar).
    unfold despachar, reencolar_por_fallo_de_envio, reencolar_proceso_ready_inicio, reencolar_ready_final,
      reencolar_ready_inicio, reencolar_ready. discretar.
  - intros q c <- Hq. apply no_fuera; congruence.
Qed.

(** A process of NEW, with a priority that names a queue. *)
Lemma largo_plazo_calla sr k : Inv sr [] k -> prioridades_validas k -> calla_en planificadorLargoPlazo k.
Proof.
  intros H Hv. unfold planificadorLargoPlazo. apply calla_en_bind; [discretar|]. intros [] k1 E1.
  assert (Hk1 : k_pcbs k1 = k_pcbs k /\ cola_procesos_new k1 = cola_procesos_new k /\ cantidad_niveles_prioridad k1 = cantidad_niveles_prioridad k).
  { unfold wait_sem_new in E1. destruct (sem_new k); [done|]. by injection E1 as <-. }
  destruct Hk1 as (P1 & Q1 & N1). apply calla_en_bind; [discretar|]. intros k0 k2 [= <- <-]. rewrite Q1.
  destruct (cola_procesos_new k) as [[|p q]|] eqn:Hc; [by apply calla_en_discreta, discreta_ret| |done].
  assert (Hp : p ∈ en_new k) by (unfold en_new; rewrite Hc; left).
  apply calla_en_bind; [discretar|]. intros [] k2 [= <-]. pose proof (i_new _ _ _ H) as Hn. rewrite Forall_forall in Hn.
  destruct (Hn p Hp) as (b & Hb & He). destruct (Hv p b Hp Hb) as [Hpr _]. set (k2 := con_cola_procesos_new _ k1).
  assert (Hb2 : k_pcbs k2 !! p = Some b) by (unfold k2; cbn; by rewrite P1).
  assert (HS : eq p p) by done. rewrite N1.
  destruct (Z.gtb_spec (cantidad_niveles_prioridad k) 0) as [Hg|Hg].
  2: { apply (calla_en_de (eq p)); [|intros r c <- Hr; apply no_fuera; congruence].
    destruct (cola_procesos_ready k1); discretar. }
  intros Hk. rewrite bind_eq. unfold modificar. rewrite bind_eq. unfold leer at 1. rewrite Hb2. cbn [k_mod]. set (f := con_tiempo_llegada _).
  set (k3 := con_k_pcbs _ k2). assert (Hb3 : k_pcbs k3 !! p = Some (f (con_estado READY b))) by (unfold k3; cbn; by rewrite lookup_insert_eq).
  assert (H3 : callado false (eq p) k2 k3).
  { apply callado_igual; [done|done|]. intros _. eapply igual_pcb; [exact Hb2|done|right; split; [done|]]. unfold fuera_k. cbn. apply andb_false_r. }
  unfold encolar_en_ready_por_prioridad. rewrite bind_eq. unfold leer at 1. rewrite Hb3, bind_eq. cbn [k_get].
  change (prioridad (f (con_estado READY b))) with (prioridad b). change (cantidad_niveles_prioridad k3) with (cantidad_niveles_prioridad k1).
  rewrite N1. unfold en_nivel in Hpr. destruct (Z.ltb_spec (prioridad b) 0); [lia|].
  destruct (Z.geb_spec (prioridad b) (cantidad_niveles_prioridad k)); [lia|]. cbn [orb].
  match goal with |- match ?m k3 with _ => _ end => assert (Hm : discreta false (eq p) m) by discretar end.
  pose proof (callado_luego _ _ _ _ _ H3 Hk Hm) as Hl. revert Hl.
  match goal with |- match ?r with _ => _ end -> _ => destruct r; try done end. intros (M & d & E & I).
  split; [done|]. exists d. split; [done|]. intros _ Hd. apply (igual_nadie (eq p)); [|by apply I].
  intros r c <- Hr. apply no_fuera; congruence.
Qed.

(** *** Every turn *)

(** What the turn reads does not come through the socket of Memory. *)
Definition otra_puerta (k : kernel) (e : evento) : Prop :=
  match e with
  | EvConexion sk | EvLlegan sk _ => sk <> s
  | EvCpu j => forall r, receptores k !! j = Some r -> rt_socket r <> s
  | EvIoRespuesta i => forall io, tabla_ios k !! i = Some io -> io_socket io <> s
  | _ => True
  end.

Lemma handshake_calla sk k : sk <> s -> calla_en (scheduler_handshake_handler sk) k.
Proof.
  intros Hne. apply calla_en_discreta. unfold scheduler_handshake_handler, registrar_cpu_sched, registrar_interfaz_io. discretar.
  intros k1 _. unfold k_mod. destruct (_ <? _)%nat; [|apply callado_refl]. apply callado_igual; [done|done|]. intros _.
  split; try done; [|apply (igual_refl nadie k1)]. unfold ajena. cbn. rewrite fmap_app, Forall_app. intros Ha. split; [done|by constructor].
Qed.

Lemma ejecutar_calla list_sort sr e k : Inv sr [] k -> prioridades_validas k -> otra_puerta k e -> calla_en (ejecutar list_sort e) k.
Proof.
  intros H Hv Ho. assert (Hw : forall i (m : K unit), calla_en m k -> calla_en (worker_de i m) k).
  { intros i m Hm. unfold worker_de. apply calla_en_bind; [discretar|]. intros l k1 [= <- <-]. destruct (_ <? _)%nat; [done|].
    by apply calla_en_discreta. }
  destruct e; cbn [ejecutar]; cbn [otra_puerta] in Ho.
  - apply calla_en_discreta. unfold crear_proceso_inicial. discretar.
  - by eapply largo_plazo_calla.
  - by eapply corto_plazo_calla.
  - apply calla_en_discreta. unfold planificadorMedianoPlazo, intentar_des_suspender_susp_ready. discretar.
  - by apply handshake_calla.
  - by eapply receptor_calla.
  - apply calla_en_discreta. discretar.
  - by apply suspension_inicio_calla.
  - apply calla_en_discreta. discretar.
  - apply Hw. by eapply worker_despachar_calla.
  - apply Hw. by eapply worker_respuesta_calla.
  - intros _. apply callado_igual; [done|done|]. intros _. split; try done; [|apply (igual_refl nadie k)].
    unfold k_entrada. cbn. by rewrite lookup_insert_ne.
  - apply calla_en_discreta. discretar.
Qed.
End silencio.

(** ** The agreement *)

(** A turn of any thread of the Scheduler that sends nothing to Memory, and reads
    nothing from it, leaves the agreement of both programs as it was, and the
    invariant of the Scheduler: the processes, the segments each PCB lists and who
    is in Swap are still those of Memory, which has not moved. With the turns that
    do talk, every turn of the Scheduler is accounted for. *)
Theorem acuerdo_en_silencio list_sort s sms bs k m a e k' :
  (forall cmp l, list_sort cmp l ≡ₚ l) -> inv [] k -> prioridades_validas k -> contador_ok k ->
  acoplados s sms bs k m a -> otra_puerta (k_memory_socket k) k e -> ejecutar list_sort e k = Sigue tt k' ->
  a_socket (k_memory_socket k) (k_salidas k') = a_socket (k_memory_socket k) (k_salidas k) ->
  acoplados s sms bs k' m a /\ inv [] k'.
Proof.
  intros Hsort [sr H] Hv Hc Hac Ho E Hs. split.
  - pose proof Hac as [A1 A2 A3 A4 A5 A6 A7].
    pose proof (ejecutar_calla (k_memory_socket k) A3 list_sort sr e k H Hv Ho eq_refl) as Hca. rewrite E in Hca.
    destruct Hca as (M & d & Ed & I). rewrite Hs in Ed. apply (f_equal length) in Ed. rewrite length_app in Ed.
    destruct d; [|cbn in Ed; lia]. destruct (I eq_refl eq_refl) as [I1 I2 I3 I4 I5].
    split; rewrite ?M, ?I3, ?I4; try done; [|by apply I1|by apply I2]. intros p. specialize (A2 p). specialize (I5 p).
    inversion I5 as [x y [F1 F2] Ex Ey|Ex Ey]; rewrite <-Ex in A2; inversion A2 as [x' ap [G1 G2]|]; subst; constructor.
    destruct F2 as [F2|[[] _]]. split; congruence.
  - pose proof (ejecutar_seguro list_sort Hsort sr e k H Hv Hc) as Hseg. unfold cumple in Hseg. by rewrite E in Hseg.
Qed.

(** *** Witness: process 0 goes to sleep *)

Definition kernel_duerme : kernel := despues_de (take 8 eventos_ejemplo ++ [devuelve 0 "SLEEP" ["100"%string]]).

Lemma kernel_duerme_inv : inv [] kernel_duerme /\ prioridades_validas kernel_duerme /\ contador_ok kernel_duerme.
Proof.
  split.
  - apply (alcanzable_inv ordenar ordenar_perm config_cmn 4). apply despues_alcanzable. vm_compute. by eexists.
  - apply validas_ok. vm_compute. reflexivity.
Qed.

Lemma duerme_acoplados : acoplados 3 64 2 kernel_duerme memoria_pide almacen_pide.
Proof.
  split.
  - exists ram_ejemplo, swap_vacio. exact memoria_pide_rep.
  - destruct (k_pcbs kernel_duerme !! 0) as [b|] eqn:Hb; [|vm_compute in Hb; discriminate].
    assert (E : k_pcbs kernel_duerme = {[0 := b]}).
    { vm_compute in Hb. injection Hb as <-. vm_compute. reflexivity. }
    rewrite E. change (a_procesos almacen_pide) with ({[0 := AProc false []]} : gmap Z aproc).
    apply map_Forall2_insert_2; [|apply map_Forall2_empty]. vm_compute in Hb. injection Hb as <-. by split.
  - vm_compute. congruence.
  - assert (E : k_memory_socket kernel_duerme = 4 /\ (q_socket <$> k_cpus kernel_duerme) = [10]) by (by vm_compute).
    unfold ajena. destruct E as [-> ->]. by repeat constructor.
  - by vm_compute.
  - vm_compute. congruence.
  - exists []. split; [done|]. by vm_compute.
Qed.

Lemma acuerdo_en_silencio_witness :
  exists k', ejecutar ordenar (EvCpu 0) kernel_duerme = Sigue tt k' /\ (estado <$> k_pcbs k' !! 0) = Some BLOCK /\
    acoplados 3 64 2 k' memoria_pide almacen_pide.
Proof.
  destruct kernel_duerme_inv as (Hi & Hv & Hc).
  assert (Hr : match ejecutar ordenar (EvCpu 0) kernel_duerme with
    | Sigue tt k' => (estado <$> k_pcbs k' !! 0) = Some BLOCK /\ a_socket 4 (k_salidas k') = a_socket 4 (k_salidas kernel_duerme)
    | _ => False end) by (vm_compute; split; reflexivity).
  destruct (ejecutar ordenar (EvCpu 0) kernel_duerme) as [[] k'| | | | |] eqn:E; [|destruct Hr..].
  exists k'. split; [reflexivity|]. destruct Hr as [He Hs]. split; [exact He|].
  assert (Em : k_memory_socket kernel_duerme = 4) by (vm_compute; reflexivity).
  apply (acuerdo_en_silencio ordenar 3 64 2 kernel_duerme memoria_pide almacen_pide (EvCpu 0) k' ordenar_perm Hi Hv Hc duerme_acoplados); [|exact E|].
  - intros r Hrec. assert (Er : receptores kernel_duerme !! 0%nat = Some (CpuThread 10 1)) by (vm_compute; reflexivity).
    assert (r = CpuThread 10 1) as -> by congruence. rewrite Em. discriminate.
  - rewrite Em. exact Hs.
Defined.
