(* ===== verification/Corridas.v ===== *)
(** * Corridas: the Scheduler and Kernel Memory, from the start of both

    One turn after another: those of [Juntos], that talk with Memory, those of
    [Silencio], that do not, and the notifications Memory pushes between them. *)

From Stdlib Require Import Strings.String.
From S2P Require Import Prelude Bloques Wire Buffer Tipos Mensajes Texto Conexiones Stick Swap Memoria MemoryIO MemSwap Procesos Compactacion MemScheduler MemInv MemSegmentos MemSuspension Indice MemRefina.
From S2P Require Import SchedTipos SchedColas SchedMutex SchedMemoria SchedIO SchedCpu SchedPlan SchedInv SchedInvOps SchedInvFin SchedSeguroOps SchedSeguroMem SchedSeguroIO SchedSeguro SchedSistema SchedCorrecto SchedVivacidad SchedHerencia SchedConserva SchedExacta SchedProtocolo SchedSyscalls SchedDispositivo Dialogo Sistema Salida Juntos Silencio.

Section corridas.
Variable list_sort : (candidato -> candidato -> bool) -> list candidato -> list candidato.
Hypothesis list_sort_perm : forall cmp l, list_sort cmp l ≡ₚ l.
Context (s sms bs : Z).



End corridas.

(** ** From the start *)



(** *** Witness: a first process is created *)




