(* ===== verification/Consola.v ===== *)
(** * Consola: STDOUT, from the memory of a process to the console

    A process asks to print: the Scheduler reads the bytes from Memory, gives them
    to the interface and, when it has printed them, makes the process READY. The
    four programs take part: the CPU that gives the process back, the Scheduler,
    Kernel Memory and the I/O program. *)

From Stdlib Require Import Strings.String.
From S2P Require Import Prelude Bloques Wire Buffer Tipos Mensajes Texto Io Conexiones Stick Swap Memoria MemoryIO MemSwap Procesos Compactacion MemScheduler MemInv MemSegmentos MemSuspension Indice MemRefina.
From S2P Require Import SchedTipos SchedColas SchedMutex SchedMemoria SchedIO SchedCpu SchedPlan SchedInv SchedInvOps SchedInvFin SchedSeguroOps SchedSeguroMem SchedSeguroIO SchedSeguro SchedSistema SchedCorrecto SchedVivacidad SchedHerencia SchedProtocolo SchedSyscalls SchedDispositivo Dialogo Sistema Salida Juntos.

(** ** The interface *)

Lemma despachar_stdout i io pid dir size datos cola n b k :
  tabla_ios k !! i = Some io -> activa io = true -> io_en_curso io = None -> sem_cola io = S n ->
  io_cola io = ReqStdout pid dir size (Some datos) :: cola -> io_socket io <> -1 -> k_pcbs k !! pid = Some b ->
  io_worker_despachar i k =
  Sigue tt (con_k_salidas (k_salidas k ++ [(io_socket io, enviar_io_stdout pid (take (Z.to_nat size) datos))])
    (con_tabla_ios (alter (fun io => con_en_curso (Some (ReqStdout pid dir size (Some datos))) (con_io_cola cola n io)) i (tabla_ios k)) k)).
Proof.
  intros Hio Ha Hc Hsem Hq Hs Hb. assert (Hs' : (io_socket io =? -1) = false) by lia.
  unfold io_worker_despachar. rewrite bind_eq. unfold leer_io. rewrite Hio, Hsem, Hc, Ha, Hq. cbn [negb].
  unfold modificar_io. rewrite bind_eq. cbn [k_mod r_proceso]. rewrite bind_eq. unfold leer. cbn [con_tabla_ios k_pcbs]. rewrite Hb.
  rewrite bind_eq. unfold k_enviar, k_mod. rewrite Hs'. cbn. do 2 f_equal. by rewrite list_alter_alter_eq.
Qed.

(** The interface ends what was not a read: the process leaves BLOCK. *)
Lemma respuesta_fin i io req pid k :
  tabla_ios k !! i = Some io -> io_en_curso io = Some req -> (forall p s d, req <> ReqStdin p s d) -> es_int pid ->
  k_entrada (io_socket io) k = enviar_fin_io pid ->
  io_worker_respuesta i k =
  desbloquear_proceso_por_io (r_proceso req)
    (con_entrada (io_socket io) [] (con_tabla_ios (alter (con_en_curso None) i (tabla_ios k)) k)).
Proof.
  intros Hio Hc Hno Hp He. destruct (protocolo_ok (p := p_fin_io) pid Hp) as (pl & E & Hr). change (enviar_fin_io pid = trama IO_FINALIZADA pl) in E.
  unfold io_worker_respuesta. rewrite bind_eq. unfold leer_io. rewrite Hio, Hc, bind_eq. unfold modificar_io at 1. cbn [k_mod].
  set (k1 := con_tabla_ios _ k). change (k_entrada (io_socket io) k) with (k_entrada (io_socket io) k1) in He.
  rewrite bind_eq. unfold k_codigo. rewrite (recibir_eq _ _ _ (op_num IO_FINALIZADA) (le_enc 8 (Z.of_nat (length pl)) ++ pl ++ [])).
  2: { rewrite He, E. rewrite <-(app_nil_r (trama _ _)). by rewrite codigo_trama. }
  rewrite op_num_no_neg, Z.eqb_refl. cbn [orb negb].
  assert (Er : k_recibir (io_socket io) recibir_fin_io (con_entrada (io_socket io) (le_enc 8 (Z.of_nat (length pl)) ++ pl ++ []) k1) =
    Sigue pid (con_entrada (io_socket io) [] k1)) by apply (recibir_en _ _ _ _ _ _ (Hr [])).
  destruct req as [| |]; [|by edestruct Hno|]; by rewrite bind_eq, Er.
Qed.

Lemma desbloquear_ok sr pid b k :
  Inv sr [] k -> pid ∉ tabla_ios k ≫= pedidos -> pid ∈ cola_procesos_block k -> k_pcbs k !! pid = Some b -> estado b = BLOCK ->
  mutex_lista_tomado k = false ->
  exists k', desbloquear_proceso_por_io pid k = Sigue tt k' /\ Inv sr [] k' /\ k_pcbs k' = <[pid := con_estado READY b]> (k_pcbs k) /\
    (ajena (k_memory_socket k) k -> mismo_entorno k k' /\ k_entradas k' = k_entradas k).
Proof.
  intros H Hp Hin Hb He Hl. destruct (extraer_ok sr [] pid b k H Hin Hb ltac:(congruence)) as (j & Hj & E).
  pose proof (Inv_sacar_block sr [] k j pid b H Hj Hb ltac:(congruence) Hp) as H1. set (k1 := con_cola_procesos_block _ k) in *.
  destruct (encolar_ok sr [] pid b k1 H1 Hb ltac:(congruence) Hl) as (k2 & E2 & H2 & _ & P2 & _). exists k2.
  split; [|split; [done|split; [done|]]].
  - unfold desbloquear_proceso_por_io. rewrite bind_eq, E, bind_eq. unfold leer. change (k_pcbs k1) with (k_pcbs k). rewrite Hb, He.
    by rewrite bool_decide_eq_false_2.
  - intros Ha. pose proof (calla_encolar (k_memory_socket k) pid k1 Ha) as Hc. rewrite E2 in Hc. destruct Hc as (_ & [N1 N2 N3 N4] & G).
    split; [by split|done].
Qed.

Lemma interfaz_imprime s sms bs sr i io n p dir datos b d k m a :
  let req := ReqStdout p dir (Z.of_nat (length datos)) (Some datos) in
  Inv sr [] k -> acoplados s sms bs k m a -> tabla_ios k !! i = Some io -> activa io = true -> io_en_curso io = None ->
  sem_cola io = S n -> io_cola io = [req] -> io_socket io <> -1 -> io_socket io <> k_memory_socket k -> k_entrada (io_socket io) k = [] ->
  k_pcbs k !! p = Some b -> estado b = BLOCK -> datos_ok datos -> teclado d = [] ->
  exists k2 k3 d' k4, io_worker_despachar i k = Sigue tt k2 /\ servir (io_socket io) d k2 = Some (k3, d') /\
    registro d' = registro d ++ [Mostro p (cstr datos)] /\ io_worker_respuesta i k3 = Sigue tt k4 /\
    k_pcbs k4 = <[p := con_estado READY b]> (k_pcbs k) /\ p ∈ en_ready k4 /\ acoplados s sms bs k4 m a.
Proof.
  intros req H Hac Hio Hact Hcu Hsem Hq Hso Hsm He Hb Hest Hd Ht. destruct (pid_int _ _ _ _ _ _ _ _ _ _ H Hac Hb) as [Hpi _].
  assert (E2 := despachar_stdout i io p dir (Z.of_nat (length datos)) datos [] n b k Hio Hact Hcu Hsem Hq Hso Hb). fold req in E2.
  rewrite Nat2Z.id, firstn_all in E2. set (f := fun io => con_en_curso (Some req) (con_io_cola [] n io)) in E2. set (k2 := con_k_salidas _ _) in E2.
  pose proof (atender_io_ok (PideStdout p datos) d [] [] (conj Hpi Hd) (Forall_nil_2 _) Ht) as Hat.
  cbn [responder_io pedido_bytes] in Hat. rewrite app_nil_r in Hat. set (d' := registrar _ _) in Hat.
  set (k3 := con_entrada (io_socket io) (enviar_fin_io p) k2).
  assert (Hio3 : tabla_ios k3 !! i = Some (f io)) by (unfold k3, k2; cbn; by rewrite list_lookup_alter_eq, Hio).
  assert (P1 : pedidos io ≡ₚ [p]) by (unfold pedidos; by rewrite Hq, Hcu).
  assert (P2 : pedidos (f io) ≡ₚ [p]) by done. assert (P3 : pedidos (con_en_curso None (f io)) ≡ₚ []) by done.
  assert (H3 : Inv sr [] k3).
  { apply (Inv_misma _ _ (con_tabla_ios (tabla_ios k3) k)); [done|]. eapply Inv_io; [exact H|exact Hio|]. exists []. by rewrite P1, P2. }
  destruct (inv_io_quita _ _ _ _ (con_en_curso None) _ _ H3 Hio3 P2 P3) as [H4 Hno].
  set (k4 := con_entrada (io_socket io) [] (con_tabla_ios (alter (con_en_curso None) i (tabla_ios k3)) k3)).
  assert (Hin : p ∈ cola_procesos_block k).
  { pose proof (i_pedidos _ _ _ H) as [_ HB]. rewrite Forall_forall in HB. apply HB. apply list_elem_of_bind. exists io.
    split; [rewrite P1; left|by eapply list_elem_of_lookup_2]. }
  assert (H4' : Inv sr [] k4) by (by apply (Inv_misma _ _ (con_tabla_ios (alter (con_en_curso None) i (tabla_ios k3)) k3))).
  destruct (desbloquear_ok sr p b k4 H4' Hno Hin Hb Hest (ac_tomado _ _ _ _ _ _ Hac)) as (k5 & E5 & H5 & P5 & N5).
  destruct (N5 (ac_ajena _ _ _ _ _ _ Hac)) as [[N51 N52 N53 N54] G5]. exists k2, k3, d', k5. split_and!.
  - exact E2.
  - unfold servir, k2. cbn [con_k_salidas k_salidas]. rewrite last_snoc, Z.eqb_refl. unfold mbind in Hat. rewrite Hat.
    change (k_entrada (io_socket io) _) with (k_entrada (io_socket io) k). by rewrite He.
  - done.
  - rewrite (respuesta_fin i (f io) req p k3 Hio3 eq_refl ltac:(by intros) Hpi) by apply entrada_con_entrada. exact E5.
  - exact P5.
  - eapply (estado_lugar sr [] k5 p (con_estado READY b) H5); [|set_solver|done]. by rewrite P5, lookup_insert_eq.
  - apply (acoplados_ajeno s sms bs k); [done|by split| |].
    + unfold k_entrada at 1. rewrite G5. change (k_entrada (k_memory_socket k) k4 = k_entrada (k_memory_socket k) k). unfold k4, k3.
      rewrite entrada_otra by done. change (k_entrada ?x (con_tabla_ios ?l ?y)) with (k_entrada x y). by rewrite entrada_otra.
    + rewrite P5. change (k_pcbs k4) with (k_pcbs k). rewrite <-(insert_id _ _ _ Hb) at 1. apply map_Forall2_insert_2.
      * split; [done|]. unfold fuera_k. cbn. by rewrite Hest, !andb_false_r.
      * intros q. destruct (k_pcbs k !! q); by constructor.
Qed.

(** ** From the memory of a process to the console *)

(** C16: STDOUT prints what the process has in memory. A CPU gives back a process that
    asks to print a range of a segment, with Memory at the other end of its socket
    and an idle interface of type STDOUT at the end of its own. Then the Scheduler
    reads from Memory exactly the bytes of the range; the interface is given them,
    prints them as text and answers; and the process is READY again. Memory is left
    as it was, and the Scheduler in agreement with it. *)
Theorem stdout_de_punta_a_punta s sms bs k m a j r c p dir size ps resto i io d datos :
  0 <= s -> 0 < sms < 4294967296 -> inv [] k -> contador_ok k -> acoplados s sms bs k m a ->
  devuelve_cpu j r c p MOTIVO_SYSCALL (Some txt_stdout) (dir :: size :: ps) resto k -> suelto p k ->
  0 <= atoi_int size <= 1073741824 -> sms + atoi_int size <= 4294967296 ->
  a_leer sms a p (u32 (atoi_int dir)) (atoi_int size) = Some datos ->
  indice_de (fun io => activa io && bool_decide (io_tipo io = IO_TYPE_STDOUT)) (tabla_ios k) = Some i -> tabla_ios k !! i = Some io ->
  io_cola io = [] -> io_en_curso io = None -> io_socket io <> -1 -> io_socket io <> k_memory_socket k -> io_socket io <> rt_socket r ->
  k_entrada (io_socket io) k = [] -> teclado d = [] ->
  exists b k1 m1 k2 k3 d' k4, k_pcbs k !! p = Some b /\
    conjunto s sms (scheduler_cpu_receptor_thread j) k m tt k1 m1 /\
    io_worker_despachar i k1 = Sigue tt k2 /\ servir (io_socket io) d k2 = Some (k3, d') /\
    registro d' = registro d ++ [Mostro p (cstr datos)] /\
    io_worker_respuesta i k3 = Sigue tt k4 /\ k_pcbs k4 = <[p := con_estado READY (en_block b)]> (k_pcbs k) /\
    p ∈ en_ready k4 /\ acoplados s sms bs k4 m1 a.
Proof.
  intros Hs Hsms [sr H] Hcon Hac Hd Hsu Hz Hsz Hl Hi Hio Hq Hcu Hso Hsm Hsr He Ht.
  destruct (turno_stdout s sms bs Hs Hsms sr k m a j r c p H Hac dir size ps resto i Hd Hsu Hi Hz Hsz)
    as (b & ap & k1 & m1 & a' & Hb & Hap & C & Hac1 & Hres).
  destruct Hres as [(datos' & Hl' & -> & P1 & T1 & O1)|(Hno & _)]; [|congruence]. assert (datos' = datos) as -> by congruence.
  assert (Hinv : inv [] k1).
  { eapply conjunto_inv; [|exact C]. intros k0 M0. eapply (cumple_receptor sr); [by eapply Inv_misma| |intros sr' k' H'; by exists sr'].
    unfold contador_ok. by rewrite (misma_contador _ _ M0). }
  destruct Hinv as [sr1 H1]. destruct (pid_int _ _ _ _ _ _ _ _ _ _ H Hac Hb) as [Hpi _].
  destruct (indice_activa _ _ _ Hi) as (io' & Hio' & Hact). assert (io' = io) as -> by congruence.
  pose proof (leer_longitud sms Hsms _ _ _ _ _ (proj1 Hz) Hl) as Hlen.
  assert (Hdat : datos_ok datos) by (unfold datos_ok; lia).
  destruct (interfaz_imprime s sms bs sr1 i (con_io_cola [ReqStdout p (atoi_int dir) (atoi_int size) (Some datos)] (S (sem_cola io)) io) (sem_cola io)
    p (atoi_int dir) datos (en_block b) d k1 m1 a) as (k2 & k3 & d' & k4 & E2 & E3 & R3 & E4 & P4 & Q4 & Hac4); try done.
  - rewrite T1, list_lookup_alter_eq, Hio. cbn. by rewrite Hq.
  - cbn. by rewrite Hlen.
  - cbn. destruct C as (_ & _ & _ & _ & -> & _). done.
  - cbn. by rewrite O1.
  - rewrite P1. apply lookup_insert_eq.
  - exists b, k1, m1, k2, k3, d', k4. split_and!; try done. rewrite P4, P1. apply insert_insert_eq.
Qed.

(** ** From the keyboard to the memory of a process *)

Lemma interfaz_lee s sms bs sr i s' p size dir b d ls k m a :
  Inv sr [] k -> acoplados s sms bs k m a -> pide_stdin i s' p size dir d ls k -> k_pcbs k !! p = Some b ->
  exists k1 k2 d' io2, io_worker_despachar i k = Sigue tt k1 /\ servir s' d k1 = Some (k2, d') /\ teclado d' = tipeado (tail ls) /\
    Inv sr [] k2 /\ acoplados s sms bs k2 m a /\ k_pcbs k2 = k_pcbs k /\ lista_mutexes k2 = lista_mutexes k /\
    k_memory_socket k2 = k_memory_socket k /\
    tabla_ios k2 !! i = Some io2 /\ io_en_curso io2 = Some (ReqStdin p (Z.of_nat (length (leido size ls))) dir) /\ io_socket io2 = s' /\
    k_entrada s' k2 = enviar_datos_stdin p (leido size ls).
Proof.
  intros H Hac [(io & n & cola & Hio & Ha & Hc & Hsem & Hq & Es) (Hs & Hsm & He) Hp Hz Hls Ht] Hb.
  set (req := ReqStdin p size dir). set (f := fun io => con_en_curso (Some req) (con_io_cola cola n io)).
  set (k1 := con_k_salidas (k_salidas k ++ [(s', enviar_io_stdin p size)]) (con_tabla_ios (alter f i (tabla_ios k)) k)).
  pose proof (atender_io_ok (PideStdin p size) d ls [] (conj Hp Hz) Hls Ht) as Ed. cbn [responder_io pedido_bytes] in Ed.
  rewrite app_nil_r in Ed. fold (leido size ls) in Ed. set (d' := registrar _ _) in Ed.
  set (k2 := con_entrada s' (enviar_datos_stdin p (leido size ls)) k1). exists k1, k2, d', (f io). split_and!.
  - unfold k1, f. rewrite <-Es in *. by apply (despachar_stdin i io p size dir cola n b).
  - unfold servir, k1. cbn [con_k_salidas k_salidas]. rewrite last_snoc, Z.eqb_refl. unfold mbind in Ed. rewrite Ed.
    change (k_entrada s' _) with (k_entrada s' k). by rewrite He.
  - done.
  - apply (Inv_misma _ _ (con_tabla_ios (alter f i (tabla_ios k)) k)); [done|]. eapply Inv_io; [exact H|exact Hio|]. exists [].
    unfold pedidos, f. rewrite Hq, Hc. cbn. perm.
  - apply (acoplados_ajeno s sms bs k); [done|by split|unfold k2; by rewrite entrada_otra|]. intros q. cbn. destruct (k_pcbs k !! q); by constructor.
  - done.
  - done.
  - done.
  - unfold k2, k1. cbn. by rewrite list_lookup_alter_eq, Hio.
  - cbn. by rewrite length_leido by lia.
  - exact Es.
  - apply entrada_con_entrada.
Qed.

(** C15: STDIN leaves in the memory of the process what was typed. The request at the
    front of the queue of an idle interface goes to its I/O program, which reads a
    line and answers with as many bytes as were asked for; the Scheduler writes
    them in the process, which is still in BLOCK and of whose mutexes nobody waits
    for any, with Memory at the other end of its socket and a size that with its
    offset fits in 32 bits. Either the segment of Memory has them, with nothing else
    changed, and the process is READY, or the address is not in a segment of the
    process, and it is over for both. *)
Theorem stdin_hasta_la_memoria s sms bs i s' p size dir d ls b k m a :
  0 <= s -> 0 < sms < 4294967296 -> inv [] k -> acoplados s sms bs k m a -> pide_stdin i s' p size dir d ls k ->
  k_pcbs k !! p = Some b -> estado b = BLOCK -> suelto p k -> sms + size <= 4294967296 ->
  exists k1 k2 d' k3 m' a', io_worker_despachar i k = Sigue tt k1 /\ servir s' d k1 = Some (k2, d') /\ teclado d' = tipeado (tail ls) /\
    conjunto s sms (io_worker_respuesta i) k2 m tt k3 m' /\ acoplados s sms bs k3 m' a' /\
    (a_escribir sms a p (u32 dir) (leido size ls) = Some a' /\ k_pcbs k3 = <[p := con_estado READY b]> (k_pcbs k) /\ p ∈ en_ready k3 \/
     a_escribir sms a p (u32 dir) (leido size ls) = None /\ (exists ap, a_procesos a !! p = Some ap /\ a' = a_sin p ap a) /\
       k_pcbs k3 = delete p (k_pcbs k)).
Proof.
  intros Hs Hsms [sr H] Hac Hps Hb Hest Hsu Hsz. pose proof (ps_size _ _ _ _ _ _ _ _ Hps) as Hz. pose proof (length_leido size ls (proj1 Hz)) as Hl.
  destruct (interfaz_lee s sms bs sr i s' p size dir b d ls k m a H Hac Hps Hb)
    as (k1 & k2 & d' & io2 & E1 & E2 & Et & H2 & Hac2 & P2 & L2 & S2 & T2 & C2 & Es & En).
  destruct (acoplado_de _ _ _ _ _ _ _ _ Hac Hb) as (ap & Hap & _).
  destruct (respuesta_conjunta s sms bs Hs Hsms sr i io2 p dir (leido size ls) b ap k2 m a) as (k3 & m' & a' & C & Hac' & Hres); try done.
  - rewrite Es, S2. apply (ps_socket _ _ _ _ _ _ _ _ Hps).
  - by rewrite Es.
  - unfold datos_ok. lia.
  - lia.
  - by rewrite P2.
  - unfold suelto. by rewrite L2.
  - rewrite P2 in Hres. exists k1, k2, d', k3, m', a'. split_and!; try done.
    destruct Hres as [[Hw P3]|(Hw & Ha' & P3)]; [left|right; split; [done|]; split; [by exists ap|done]].
    split; [done|]. split; [done|].
    assert (Hi : inv [] k3).
    { eapply conjunto_inv; [|exact C]. intros k0 M0. eapply (cumple_worker_respuesta sr i); [by eapply Inv_misma| |intros sr' k' H'; by exists sr'].
      assert (Ti : tabla_ios k0 = tabla_ios k2) by (injection M0; by intros). rewrite Ti. by eapply lookup_lt_Some. }
    destruct Hi as [sr3 H3]. eapply (estado_lugar sr3 [] k3 p (con_estado READY b) H3); [|set_solver|done]. by rewrite P3, lookup_insert_eq.
Qed.

(** *** Process 0 prints the two bytes of its segment *)

(** Until the process has its segment, and asks for [tipo]. *)
Definition eventos_consola (tipo : string) : list evento :=
  [EvLlegan 10 (enviar_handshake_cpu 1); EvConexion 10;
   EvLlegan 11 (enviar_handshake_io (con_nul (txt tipo))); EvConexion 11;
   EvLlegan 4 (enviar_ok CREAR_PROCESO); EvProcesoInicial (txt "A"); EvLargoPlazo; EvCortoPlazo;
   devuelve 0 "MEM_ALLOC" ["0"; "2"]%string; EvLlegan 4 (enviar_respuesta_segmento 0 5 2); EvCpu 0;
   devuelve 0 tipo ["0"; "2"]%string].
Definition kernel_imprime : kernel := despues_de (eventos_consola "STDOUT").
Definition cpu_imprime : t_cpu := CpuS 10 1 false (Some 0) true 0.
Definition io_imprime : t_interfaz_io := Interfaz 11 (txt "STDOUT") IO_TYPE_STDOUT [] 0 true None.

Lemma imprime_inv : inv [] kernel_imprime /\ contador_ok kernel_imprime.
Proof.
  split.
  - apply (alcanzable_inv ordenar ordenar_perm config_cmn 4). apply despues_alcanzable. vm_compute. by eexists.
  - vm_compute. reflexivity.
Qed.

Lemma consola_acoplados k b :
  k_pcbs k = {[0 := b]} -> segmentos_info b = [(0, 2)] -> fuera_k b = false -> k_memory_socket k = 4 -> (q_socket <$> k_cpus k) = [10] ->
  mutex_lista_tomado k = false -> contador_pids k = 1 -> k_entrada 4 k = [] -> acoplados 3 64 2 k (mem_de 0) (almacen_de 0).
Proof.
  intros Ep Es Ef Em Ec Et En Ee. split; rewrite ?Em; try done.
  - exists ram_ejemplo, swap_vacio. apply mem_de_rep. unfold es_int. lia.
  - rewrite Ep. change (a_procesos (almacen_de 0)) with ({[0 := AProc false [(0, [x06; x07])]]} : gmap Z aproc).
    apply map_Forall2_insert_2; [|apply map_Forall2_empty]. by split.
  - unfold ajena. rewrite Ec. by repeat constructor.
  - lia.
  - by exists [].
Qed.

Lemma imprime_acoplados : acoplados 3 64 2 kernel_imprime (mem_de 0) (almacen_de 0).
Proof.
  destruct (k_pcbs kernel_imprime !! 0) as [b|] eqn:Hb; vm_compute in Hb; [injection Hb as Hb|discriminate].
  apply (consola_acoplados kernel_imprime b); subst b; vm_compute; reflexivity.
Qed.

Lemma imprime_devuelve :
  devuelve_cpu 0 (CpuThread 10 1) cpu_imprime 0 MOTIVO_SYSCALL (Some txt_stdout) [con_nul (txt "0"); con_nul (txt "2")] [] kernel_imprime.
Proof.
  split; [vm_compute; reflexivity|vm_compute; reflexivity| |vm_compute; congruence|vm_compute; reflexivity|reflexivity|done].
  split; [unfold es_int; lia|]. split; [split; [|vm_compute; congruence]|split; [done|split; [|vm_compute; congruence]]].
  - apply Forall_cons. split; [|apply Forall_cons; split; [|apply Forall_nil; exact I]]; (split; [|vm_compute; congruence]).
    + exists (txt "0"). split; [reflexivity|]. apply (bool_decide_unpack _). by vm_compute.
    + exists (txt "2"). split; [reflexivity|]. apply (bool_decide_unpack _). by vm_compute.
  - exists (txt "STDOUT"). split; [reflexivity|]. apply (bool_decide_unpack _). by vm_compute.
Qed.

Lemma imprime_suelto : suelto 0 kernel_imprime.
Proof. unfold suelto. assert (E : lista_mutexes kernel_imprime = []) by (vm_compute; reflexivity). rewrite E. constructor. Qed.

Lemma imprime_io :
  indice_de (fun io => activa io && bool_decide (io_tipo io = IO_TYPE_STDOUT)) (tabla_ios kernel_imprime) = Some 0%nat /\
  tabla_ios kernel_imprime !! 0%nat = Some io_imprime /\ k_entrada 11 kernel_imprime = [].
Proof. vm_compute. done. Qed.

Lemma stdout_de_punta_a_punta_witness :
  exists b k1 m1 k2 k3 d' k4, k_pcbs kernel_imprime !! 0 = Some b /\
    conjunto 3 64 (scheduler_cpu_receptor_thread 0) kernel_imprime (mem_de 0) tt k1 m1 /\
    io_worker_despachar 0 k1 = Sigue tt k2 /\ servir 11 (Dispositivo [] []) k2 = Some (k3, d') /\
    registro d' = [] ++ [Mostro 0 (cstr [x06; x07])] /\
    io_worker_respuesta 0 k3 = Sigue tt k4 /\ k_pcbs k4 = <[0 := con_estado READY (en_block b)]> (k_pcbs kernel_imprime) /\
    0 ∈ en_ready k4 /\ acoplados 3 64 2 k4 m1 (almacen_de 0).
Proof.
  destruct imprime_inv as [Hi Hc]. destruct imprime_io as (I1 & I2 & I3).
  apply (stdout_de_punta_a_punta 3 64 2 kernel_imprime (mem_de 0) (almacen_de 0) 0 (CpuThread 10 1) cpu_imprime 0
    (con_nul (txt "0")) (con_nul (txt "2")) [] [] 0 io_imprime (Dispositivo [] []) [x06; x07]);
    [lia|lia|exact Hi|exact Hc|exact imprime_acoplados|exact imprime_devuelve|exact imprime_suelto|vm_compute; split; congruence|
     vm_compute; congruence|vm_compute; reflexivity|exact I1|exact I2|reflexivity|reflexivity|cbn; lia|vm_compute; congruence|cbn; lia|exact I3|reflexivity].
Defined.

(** *** Process 0 reads two bytes into its segment *)

Definition kernel_lee : kernel := despues_de (eventos_consola "STDIN" ++ [EvCpu 0]).

Lemma lee_inv : inv [] kernel_lee.
Proof.
  apply (alcanzable_inv ordenar ordenar_perm config_cmn 4). apply despues_alcanzable. vm_compute. by eexists.
Qed.

Lemma lee_acoplados : acoplados 3 64 2 kernel_lee (mem_de 0) (almacen_de 0).
Proof.
  destruct (k_pcbs kernel_lee !! 0) as [b|] eqn:Hb; vm_compute in Hb; [injection Hb as Hb|discriminate].
  apply (consola_acoplados kernel_lee b); subst b; vm_compute; reflexivity.
Qed.

Lemma lee_pide : pide_stdin 0 11 0 2 0 (Dispositivo (tipeado [txt "ab"]) []) [txt "ab"] kernel_lee.
Proof.
  split.
  - exists (Interfaz 11 (txt "STDIN") IO_TYPE_STDIN [ReqStdin 0 2 0] 1 true None), 0%nat, []. split; [vm_compute; reflexivity|]. done.
  - split; [lia|]. split; vm_compute; [congruence|reflexivity].
  - unfold es_int. lia.
  - lia.
  - exact linea_ab.
  - done.
Qed.

Lemma stdin_hasta_la_memoria_witness :
  exists b k1 k2 d' k3 m' a', io_worker_despachar 0 kernel_lee = Sigue tt k1 /\
    servir 11 (Dispositivo (tipeado [txt "ab"]) []) k1 = Some (k2, d') /\ teclado d' = [] /\
    conjunto 3 64 (io_worker_respuesta 0) k2 (mem_de 0) tt k3 m' /\ acoplados 3 64 2 k3 m' a' /\
    a_procesos a' !! 0 = Some (AProc false [(0, leido 2 [txt "ab"])]) /\
    k_pcbs k3 = <[0 := con_estado READY b]> (k_pcbs kernel_lee) /\ 0 ∈ en_ready k3.
Proof.
  destruct (k_pcbs kernel_lee !! 0) as [b|] eqn:Hb; [|vm_compute in Hb; discriminate].
  assert (Hest : estado b = BLOCK) by (vm_compute in Hb; by injection Hb as <-).
  assert (Hsu : suelto 0 kernel_lee).
  { unfold suelto. assert (E : lista_mutexes kernel_lee = []) by (vm_compute; reflexivity). rewrite E. constructor. }
  destruct (stdin_hasta_la_memoria 3 64 2 0 11 0 2 0 (Dispositivo (tipeado [txt "ab"]) []) [txt "ab"] b kernel_lee (mem_de 0) (almacen_de 0)
    ltac:(lia) ltac:(lia) lee_inv lee_acoplados lee_pide Hb Hest Hsu ltac:(lia)) as (k1 & k2 & d' & k3 & m' & a' & E1 & E2 & Et & C & Hac & Hres).
  assert (Et' : teclado d' = []) by (rewrite Et; reflexivity).
  destruct Hres as [(Hw & P & Q)|(Hw & _)]; vm_compute in Hw; [injection Hw as <-|discriminate Hw].
  exists b, k1, k2, d', k3, m', (Almacen (con_proceso 0 (AProc false [(0, txt "ab")]) (almacen_de 0)) 5 5).
  split; [exact E1|]. split; [exact E2|]. split; [exact Et'|]. split; [exact C|]. split; [exact Hac|].
  split; [vm_compute; reflexivity|]. split; [exact P|exact Q].
Defined.
